(* ===== verification/_CoqProject ===== *)
-Q . S2P
Prelude.v
Monad.v
Word.v
Layout.v
Mem.v
CString.v
StrLib.v
Printfmt.v
PageAlloc.v
PageTable.v
PageInv.v
EntryPgdir.v
PageOps.v
PageDirs.v
Seg.v
KState.v
MpConfig.v
Lapic.v
Spinlock.v
Console.v
ConsoleSpec.v
Env.v
Boot.v
MemInit.v
MemCheck.v
EnvMem.v
KInv.v
EnvSpec.v
Sched.v
Init.v
SchedSpec.v
UserMem.v
Syscall.v
Trap.v
UserStore.v
TrapSpec.v
SysSpec.v
SysThm.v
UserLib.v
UserSpec.v
ForkSpec.v
IcodeSpec.v
UserEntry.v
UserStack.v
ForkDemo.v
DupPage.v
ForkLoop.v
ForkThm.v
ForkRun.v
KernelSafe.v
CowFault.v
ForkStack.v
KernelThm.v
Startup.v
Smp.v
IpcPerm.v
Kdebug.v
Monitor.v
MonitorSpec.v
