(* ===== verification/Prelude.v ===== *)
(** * A verification library for the JOS teaching kernel (lab 4)

    The program is a small i386 kernel (kern/), its boot loader (boot/), the
    library its user environments are linked with (lib/) and the headers they
    share (inc/).  It manages physical pages and two-level page tables, runs user
    environments round robin under one big lock, and gives them system calls for
    memory, environments and messages; copy-on-write fork is in the user library.

    ** Conventions

    Integers are [Z], with the wrap-around of their C type written out (Word); C
    arrays are functions of their index, memory is a function from addresses to
    bytes (Mem).  A pointer into an array of structures is its index, [NULL] is
    [None]; other pointers are addresses.  A function of the kernel is a
    computation of the state monad of Monad: it returns, or stops for a reason
    ([_panic], undefined behaviour, [iret] to an environment, the halt loop, the
    monitor, a lock that is never released).  What the C code gets from elsewhere
    -- devices, the linker, the CPU's registers on entry, other environments
    between two traps -- is a section variable or a class; what is needed of it is
    a named hypothesis or the class's laws.

    ** Parts, files and theorems

    - Word, Layout, Mem: inc/types.h, inc/mmu.h, inc/memlayout.h, inc/error.h; the
      arithmetic of flags, page numbers and little-endian words.
    - CString, StrLib: lib/string.c.  Printfmt: lib/printfmt.c, kern/printf.c,
      lib/printf.c; [vsnprintf] stays in its buffer, the two [vcprintf] print what
      [vprintfmt] sends to its callback, and [strtol] reads back what [%d] printed.
    - PageAlloc, PageTable: kern/pmap.c.  PageInv states the invariant [kinv]: the
      reference count of a page is the number of directories, directory entries
      and table entries that point to it, the free list is the set of pages with
      count 0, and page-table pages are private.  PageOps and PageDirs prove what
      each operation does to mappings, counts and the free list, and that it keeps
      [kinv].  MemInit has [mem_init] and the self tests, MemCheck the theorem on
      [check_page_alloc].
    - EntryPgdir: kern/entrypgdir.c; Boot: boot/main.c; MpConfig: kern/mpconfig.c;
      Lapic: kern/lapic.c.  The static page table entry by entry; the loader puts
      the segments of the image where their headers say; the configuration tables
      give the number of CPUs; the local APIC is programmed for the vectors that
      the kernel has gates for.
    - Seg: descriptors, the GDT and IDT, kern/trapentry.S, [trap_init] of
      kern/trap.c.  KState: the state the kernel's components share ([kst]: the
      memory manager's state, [envs], the free list, the CPUs, the lock, and a log of
      output), after inc/env.h, kern/cpu.h, inc/trap.h.
    - Spinlock: kern/spinlock.c by single memory accesses of any number of CPUs;
      mutual exclusion, and refinement of the atomic [lock_kernel]/[unlock_kernel]
      that the other files use.
    - Env, EnvMem, KInv, EnvSpec: kern/env.c.  KInv states [kernel_inv]: free and
      live environments partition [envs], live ones own distinct directories that
      satisfy [kinv].  Sched, SchedSpec: kern/sched.c and [env_destroy]; UserMem: the
      checks on user pointers.
    - Syscall, SysSpec, SysThm, IpcPerm: kern/syscall.c, every handler on every
      branch, and what user code can exploit.  [sys_cputs] reads its string as
      lib/printfmt.c does, byte by byte through the page tables and one byte ahead.
      Trap, UserStore, TrapSpec: kern/trap.c.
    - KernelSafe, KernelThm: the composition, for any number of CPUs.  KernelSafe is
      what one CPU does in the kernel while the others keep their environments
      ([peers]); from a state between two traps every fair trap leads to such a state
      again, without panic, undefined behaviour or deadlock.  KernelThm is the
      machine: all interleavings of user stores, traps and timer interrupts on its
      CPUs ([mreach]) keep its invariant ([running]).  Smp: without fairness two CPUs
      can run one environment, or one loses its address space.
    - UserLib, UserSpec, ForkSpec, ForkDemo: lib/fork.c, lib/pgfault.c, lib/ipc.c and
      the rest of the user library, run on the kernel model: a system call is [trap]
      with the frame that [int] builds.  ForkDemo has [sees], what an environment
      reads at an address, [pgfault]'s theorem, and a small machine for witnesses.
      UserEntry, CowFault: lib/pfentry.S, and a copy-on-write fault from the faulting
      store through the kernel, the upcall and [pgfault] back to the same instruction.
    - UserStack, DupPage, ForkLoop, ForkThm, ForkRun, ForkStack: [fork] on its own
      stack.  [fork] marks the page it runs on copy-on-write, and the next call's
      push faults.  UserStack is the interface: the class [StackPush] states what a
      push does before and after that moment.  DupPage to ForkRun prove one page, the
      loop and the whole of [fork] against it; ForkStack executes the pushes, with
      the faults through CowFault's path, discharges the class and states the theorem.
    - IcodeSpec: [load_icode] and [env_create] of kern/env.c; the segments of an ELF
      image are in the memory of the new environment ([loading] is the invariant of
      an address space while it is filled).  Init, Startup: kern/init.c.  [boot_aps]
      with the CPUs it wakes: [woken] decodes what was written to the local APIC; if
      it starts a CPU at the copied kern/mpentry.S, that one does [mp_main] up to the
      lock, on the same state, between two polls of [cpu_status].  [i386_init] from the lock on
      ends in the first program, in a state of KernelThm's machine.
    - Console, ConsoleSpec: kern/console.c, kern/picirq.c, kern/kclock.c behind an
      abstract machine with ports and video memory.  Kdebug: kern/kdebug.c.  Monitor,
      MonitorSpec: kern/monitor.c, lib/readline.c.

    ** Bounds and fuel

    Loops that C bounds by an array size run over [zrange] or a [nat] of that size.
    Loops without such a bound take fuel and stop as undefined, or answer [None],
    when it runs out; theorems give the fuel that is enough (the length of a string
    plus one, of the free list, of the input) or, as for [stab_binsearch] (two
    iterations per index), prove that the fuel built in never runs out.

    ** What the theorems on the whole kernel leave out

    A trap is one step of the machine: the code outside the big lock touches only
    the CPU's own state, and that the lock makes the others wait is the subject of
    Spinlock. Traps are fair ([fair_call], [no_ghosts]): a system call that would
    hit one of the code's own holes -- the wrap of [user_mem_check], the unchecked
    [pte] and [perm] of [sys_ipc_try_send], the 16-bit reference count, a string for
    [sys_cputs] that runs up to a byte which cannot be read, setting the status of,
    destroying twice or waking an environment that runs on another CPU -- is
    excluded; all but the last have their own theorem. Address translation for
    stores by the kernel and by user code ([vtrans]) reads PTEs but neither the TLB
    nor the U and W bits of the directory entry; user code is restricted to
    user-writable pages by [may_write].
    [i386_init] is composed of all its parts, but the theorem on it starts at the
    kernel lock: that [mem_init], with its self tests, ends in a state like
    [before_start] is not proved.
    What the calls in [fork] and [duppage] push on the user stack is memory, the
    faults it takes included; which words they are is a parameter, and the other
    local variables of the user library are values of the model.  The round-robin
    theorem is for environments that yield or are preempted: an exit makes the
    search start again at [envs[0]] (SchedSpec).

    ** Not modelled

    boot/boot.S, kern/entry.S, kern/mpentry.S (mode switches, no state of their own
    beyond the tables modelled in Seg and EntryPgdir; of mpentry.S the model has
    where it is copied to and started, and the stack and CPU it hands to [mp_main]); lib/panic.c, lib/readline.c's
    use in user programs, lib/entry.S (start-up code); the test programs in user/;
    the accessors of inc/x86.h beyond the instructions that the modelled code uses,
    which appear as events or state changes where they are used. *)
From stdpp Require Export base tactics decidable option list functions numbers strings sets.
From Stdlib Require Export ZArith Lia.
From Stdlib Require Import FunctionalExtensionality.

#[export] Set Default Goal Selector "!".
Open Scope Z_scope.
(** [lia] decides division and modulus by constants. *)
Ltac Zify.zify_post_hook ::= Z.to_euclidean_division_equations.

(** ** Arrays

    A C array is a total function from its index to its element type; an
    assignment is stdpp's [<[i:=v]> f]. *)

Create Rewrite HintDb arr.

Section arrays.
Context {A : Type}.
Implicit Types f : Z → A.

Lemma upd_same f i v : <[i:=v]> f i = v.
Proof. apply fn_lookup_insert. Qed.

Lemma upd_other f i j v : i ≠ j → <[i:=v]> f j = f j.
Proof. apply fn_lookup_insert_ne. Qed.

Lemma upd_case f i j v : <[i:=v]> f j = if decide (i = j) then v else f j.
Proof. reflexivity. Qed.

Lemma upd_id f i : <[i:=f i]> f = f.
Proof.
  apply functional_extensionality; intros j. rewrite upd_case.
  case_decide; by subst.
Qed.

Lemma upd_upd f i v w : <[i:=w]> (<[i:=v]> f) = <[i:=w]> f.
Proof.
  apply functional_extensionality; intros j. rewrite !upd_case. by case_decide.
Qed.

Lemma upd_comm f i j v w :
  i ≠ j → <[i:=v]> (<[j:=w]> f) = <[j:=w]> (<[i:=v]> f).
Proof.
  intros Hij. apply functional_extensionality; intros k. rewrite !upd_case.
  repeat case_decide; congruence.
Qed.
End arrays.

#[export] Hint Rewrite @upd_same @upd_id @upd_upd : arr.
#[export] Hint Rewrite @upd_other using (lia || congruence) : arr.

(** Case analysis on every array read in the goal. *)
Ltac arr_cases :=
  repeat (rewrite upd_case; case_decide); simplify_eq.

(** ** Lists of consecutive integers and counting *)

(** The integers [a, a+1, .., a+n-1]. *)
Definition zrange (a n : Z) : list Z := seqZ a n.

Lemma elem_of_zrange a n x : x ∈ zrange a n ↔ a ≤ x < a + n.
Proof. unfold zrange. rewrite elem_of_seqZ. lia. Qed.

Lemma lookup_zrange a n (i : nat) : Z.of_nat i < n → zrange a n !! i = Some (a + Z.of_nat i).
Proof. intros. unfold zrange. by rewrite lookup_seqZ_lt by lia. Qed.

Lemma zrange_length a n : length (zrange a n) = Z.to_nat n.
Proof. unfold zrange. apply length_seqZ. Qed.

Lemma NoDup_zrange a n : NoDup (zrange a n).
Proof. apply NoDup_seqZ. Qed.

Lemma zrange_snoc a n : 0 ≤ n → zrange a (n + 1) = zrange a n ++ [a + n].
Proof. intros. unfold zrange. rewrite seqZ_app by lia. f_equal. Qed.

Lemma zrange_nil a n : n ≤ 0 → zrange a n = [].
Proof. intros. unfold zrange. by rewrite seqZ_nil by lia. Qed.

Lemma zrange_cons a n : 0 < n → zrange a n = a :: zrange (a + 1) (n - 1).
Proof. intros. unfold zrange. rewrite seqZ_cons by lia. f_equal; f_equal; lia. Qed.

(** Searching an interval of integers finds its first element that passes. *)
Lemma find_zrange {A} (f : Z → A) (P : A → bool) n : ∀ a,
  match List.find P (f <$> zrange a (Z.of_nat n)) with
  | Some b => ∃ i, a ≤ i < a + Z.of_nat n ∧ b = f i ∧ P b = true ∧
                ∀ j, a ≤ j < i → P (f j) = false
  | None => ∀ i, a ≤ i < a + Z.of_nat n → P (f i) = false
  end.
Proof.
  induction n as [|n IH]; intros a.
  - rewrite zrange_nil by lia. simpl. lia.
  - rewrite zrange_cons by lia. simpl. destruct (P (f a)) eqn:E.
    + exists a. repeat split; [lia..|done|lia].
    + replace (Z.of_nat (S n) - 1) with (Z.of_nat n) by lia.
      specialize (IH (a + 1)). destruct (List.find _ _) as [b|].
      * destruct IH as (i & Hi & -> & HP & Hj). exists i. repeat split; [lia..|done|].
        intros j Hr. destruct (decide (j = a)) as [->|]; [done|]. apply Hj. lia.
      * intros i Hi. destruct (decide (i = a)) as [->|]; [done|]. apply IH. lia.
Qed.

(** Occurrences of [x] in [l]. *)
Fixpoint countZ (x : Z) (l : list Z) : Z :=
  match l with
  | [] => 0
  | y :: l => (if decide (x = y) then 1 else 0) + countZ x l
  end.

Lemma countZ_nonneg x l : 0 ≤ countZ x l.
Proof. induction l; simpl; [lia|]. case_decide; lia. Qed.

Lemma countZ_app x l k : countZ x (l ++ k) = countZ x l + countZ x k.
Proof. induction l; simpl; [lia|]. rewrite IHl. case_decide; lia. Qed.

Lemma countZ_zero x l : countZ x l = 0 ↔ x ∉ l.
Proof.
  induction l as [|y l IH]; simpl.
  - split; [intros _; apply not_elem_of_nil|lia].
  - pose proof (countZ_nonneg x l). rewrite not_elem_of_cons, <- IH.
    case_decide; split; intros; subst; intuition lia.
Qed.

Lemma countZ_elem x l : x ∈ l → 1 ≤ countZ x l.
Proof.
  intros Hx. pose proof (countZ_nonneg x l).
  destruct (decide (countZ x l = 0)) as [H0|]; [|lia].
  apply countZ_zero in H0. done.
Qed.

Lemma countZ_NoDup x l : NoDup l → x ∈ l → countZ x l = 1.
Proof.
  induction 1 as [|y l Hy Hnd IH]; simpl; intros Hx.
  - by apply not_elem_of_nil in Hx.
  - apply elem_of_cons in Hx as [->|Hx].
    + rewrite decide_True by done. apply countZ_zero in Hy. lia.
    + rewrite decide_False by (intros ->; done). rewrite IH by done. lia.
Qed.

Lemma countZ_perm x l k : l ≡ₚ k → countZ x l = countZ x k.
Proof. induction 1; simpl; lia. Qed.

(** [omap] over a list whose function changes at a single element. *)
Section omap_change.
Context (f g : Z → option Z).

Lemma omap_ext_elem (l : list Z) : (∀ b, b ∈ l → f b = g b) → omap f l = omap g l.
Proof.
  induction l as [|b l IH]; intros Hfg; [done|]. csimpl.
  rewrite (Hfg b) by left. rewrite IH; [done|]. intros c Hc. apply Hfg. by right.
Qed.

Lemma omap_none (l : list Z) : (∀ b, b ∈ l → f b = None) → omap f l = [].
Proof.
  induction l as [|b l IH]; intros Hf; [done|]. csimpl.
  rewrite (Hf b) by left. apply IH. intros c Hc. apply Hf. by right.
Qed.

Lemma omap_split (l1 l2 : list Z) a :
  omap f (l1 ++ a :: l2) ≡ₚ option_list (f a) ++ omap f (l1 ++ l2).
Proof.
  rewrite !omap_app. csimpl. destruct (f a); simpl; [|done].
  by rewrite Permutation_middle.
Qed.
End omap_change.

Lemma omap_change (f g : Z → option Z) (a : Z) (l : list Z) :
  NoDup l → a ∈ l → (∀ b, b ∈ l → b ≠ a → g b = f b) →
  ∃ R, omap f l ≡ₚ option_list (f a) ++ R ∧ omap g l ≡ₚ option_list (g a) ++ R.
Proof.
  intros Hnd (l1 & l2 & ->)%list_elem_of_split Hfg. exists (omap f (l1 ++ l2)).
  split; [apply omap_split|]. rewrite omap_split.
  rewrite (omap_ext_elem g f (l1 ++ l2)); [done|].
  apply NoDup_app in Hnd as (_ & Hd & Hnd). apply NoDup_cons in Hnd as [Ha _].
  intros b Hb. apply Hfg; [set_solver|]. intros ->. set_solver.
Qed.

(** ** Linked lists

    Following [next] from [h] visits exactly the elements of [l]. *)
Fixpoint linked (next : Z → option Z) (h : option Z) (l : list Z) : Prop :=
  match l with
  | [] => h = None
  | p :: l => h = Some p ∧ linked next (next p) l
  end.

Lemma linked_ext next next' h l :
  (∀ p, p ∈ l → next' p = next p) → linked next h l → linked next' h l.
Proof.
  revert h. induction l as [|q l IH]; intros h Hn; simpl; [done|].
  intros [-> Hc]. split; [done|]. rewrite Hn by left. apply IH; [|done].
  intros p Hp. apply Hn. by right.
Qed.

Lemma linked_inj next h l k : linked next h l → linked next h k → l = k.
Proof.
  revert h k. induction l as [|p l IH]; intros h [|q k]; simpl; try done.
  - by intros -> [? _].
  - by intros [-> _] ?.
  - intros [-> Hl] [[= ->] Hk]. f_equal. by eapply IH.
Qed.

(** Consecutive elements linked in order. *)
Lemma linked_range (next : Z → option Z) hi a (n : nat) :
  (∀ i, a ≤ i < hi → next i = if decide (i + 1 < hi) then Some (i + 1) else None) →
  a + Z.of_nat n = hi →
  linked next (if decide (a < hi) then Some a else None) (zrange a (Z.of_nat n)).
Proof.
  revert a. induction n as [|n IH]; intros a Hx Hn.
  - rewrite decide_False by lia. unfold zrange. by rewrite seqZ_nil by lia.
  - rewrite decide_True, zrange_cons by lia. simpl. split; [done|].
    rewrite Hx by lia. replace (Z.of_nat (S n) - 1) with (Z.of_nat n) by lia.
    apply IH; [|lia]. intros i Hi. apply Hx. lia.
Qed.

(** ** Tactics shared by the development *)

(** Split a conjunction in the goal completely. *)
Ltac splits := repeat match goal with |- _ ∧ _ => split end.

(** Destruct the scrutinee of the first [match] of a hypothesis. *)
Ltac case_match_in H :=
  match type of H with
  | context [match ?x with _ => _ end] => destruct x eqn:?
  end.

(** A decidable fact about concrete data, by evaluation. *)
Ltac list_dec := apply (bool_decide_unpack _); vm_compute; exact I.

(** Turn boolean integer comparisons into propositions and call [lia]. *)
Ltac zbool :=
  repeat match goal with
  | H : (_ =? _) = true |- _ => apply Z.eqb_eq in H
  | H : (_ =? _) = false |- _ => apply Z.eqb_neq in H
  | H : (_ <? _) = true |- _ => apply Z.ltb_lt in H
  | H : (_ <? _) = false |- _ => apply Z.ltb_ge in H
  | H : (_ <=? _) = true |- _ => apply Z.leb_le in H
  | H : (_ <=? _) = false |- _ => apply Z.leb_gt in H
  | H : negb _ = true |- _ => apply negb_true_iff in H
  | H : negb _ = false |- _ => apply negb_false_iff in H
  | H : _ && _ = true |- _ => apply andb_true_iff in H; destruct H
  | H : _ || _ = false |- _ => apply orb_false_iff in H; destruct H
  | |- (_ =? _) = true => apply Z.eqb_eq
  | |- (_ =? _) = false => apply Z.eqb_neq
  | |- (_ <? _) = true => apply Z.ltb_lt
  | |- (_ <? _) = false => apply Z.ltb_ge
  | |- (_ <=? _) = true => apply Z.leb_le
  | |- (_ <=? _) = false => apply Z.leb_gt
  end.
Ltac zlia := zbool; lia.
