(* ===== verification/Monad.v ===== *)
(** * Kernel computations: a state monad whose computations may not return

    A C function of the kernel is a computation [M S A]: it transforms a state
    [S] and either returns a value or stops for one of the reasons of [stop].
    The kernel's [noreturn] functions ([_panic], [env_run], [sched_halt]) and
    its undefined behaviours are the [Stop] results; the state of the moment
    is kept, because another CPU or the next trap continues from it. *)
From S2P Require Import Prelude.

Inductive stop :=
| SPanic (why : string)   (** [_panic]: prints and enters the monitor for ever *)
| SUndef (why : string)   (** C undefined behaviour: NULL dereference, uninitialised read *)
| SUser (e : Z)           (** [env_pop_tf]: [iret] into environment [e] *)
| SHalt                   (** the [hlt] loop at the end of [sched_halt] *)
| SSpin                   (** spinning on a lock another CPU holds *)
| SMonitor.               (** [while (1) monitor(NULL)] *)

Inductive result (A : Type) :=
| Ret (a : A)
| Stop (x : stop).
Arguments Ret {A} a.
Arguments Stop {A} x.

Definition M (S A : Type) : Type := S → result A * S.

#[export] Instance M_ret {S} : MRet (M S) := λ A a s, (Ret a, s).
#[export] Instance M_bind {S} : MBind (M S) := λ A B f m s,
  match m s with
  | (Ret a, s') => f a s'
  | (Stop x, s') => (Stop x, s')
  end.

Section ops.
Context {S : Type}.

Definition gets {A} (f : S → A) : M S A := λ s, (Ret (f s), s).
Definition modify (f : S → S) : M S () := λ s, (Ret tt, f s).
Definition stopM {A} (x : stop) : M S A := λ s, (Stop x, s).
Definition panic {A} (why : string) : M S A := stopM (SPanic why).
Definition undef {A} (why : string) : M S A := stopM (SUndef why).
(** [assert(b)] of inc/assert.h. *)
Definition assertM (b : bool) (why : string) : M S () :=
  if b then mret tt else panic why.

(** A loop that ends from inside: at most [2 ^ n] iterations of [body], which
    goes on with [inl] and leaves with [inr]. *)
Fixpoint loop {A B} (n : nat) (body : A → M S (A + B)) (a : A) : M S (A + B) :=
  match n with
  | O => body a
  | Datatypes.S n =>
      r ← loop n body a;
      match r with inl a => loop n body a | inr b => mret (inr b) end
  end.

(** [for] loop over a precomputed list of index values. *)
Fixpoint forM {A} (l : list A) (body : A → M S ()) : M S () :=
  match l with
  | [] => mret tt
  | a :: l => body a ;; forM l body
  end.
End ops.

(** ** Equations of the monad *)
Create Rewrite HintDb mon.

Section laws.
Context {S : Type}.

Lemma run_ret {A} (a : A) (s : S) : (mret a : M S A) s = (Ret a, s).
Proof. reflexivity. Qed.
Lemma run_bind {A B} (m : M S A) (f : A → M S B) s :
  (m ≫= f) s = match m s with
               | (Ret a, s') => f a s'
               | (Stop x, s') => (Stop x, s')
               end.
Proof. reflexivity. Qed.
Lemma run_gets {A} (f : S → A) s : gets f s = (Ret (f s), s).
Proof. reflexivity. Qed.
Lemma run_modify (f : S → S) s : modify f s = (Ret tt, f s).
Proof. reflexivity. Qed.
Lemma run_stop {A} x (s : S) : @stopM S A x s = (Stop x, s).
Proof. reflexivity. Qed.
Lemma run_panic {A} w (s : S) : @panic S A w s = (Stop (SPanic w), s).
Proof. reflexivity. Qed.
Lemma run_undef {A} w (s : S) : @undef S A w s = (Stop (SUndef w), s).
Proof. reflexivity. Qed.
Lemma run_assert b w (s : S) :
  assertM b w s = if b then (Ret tt, s) else (Stop (SPanic w), s).
Proof. by destruct b. Qed.
Lemma run_if {A} (b : bool) (m n : M S A) s :
  (if b then m else n) s = if b then m s else n s.
Proof. by destruct b. Qed.

Lemma bind_ret_val {A B} (m : M S A) (f : A → M S B) s a s' :
  m s = (Ret a, s') → (m ≫= f) s = f a s'.
Proof. intros E. by rewrite run_bind, E. Qed.
Lemma bind_stop_val {A B} (m : M S A) (f : A → M S B) s x s' :
  m s = (Stop x, s') → (m ≫= f) s = (Stop x, s').
Proof. intros E. by rewrite run_bind, E. Qed.
Lemma bind_assoc {A B C} (m : M S A) (f : A → M S B) (g : B → M S C) s :
  ((m ≫= f) ≫= g) s = (m ≫= (λ a, f a ≫= g)) s.
Proof. rewrite !run_bind. by destruct (m s) as [[a|x] s']. Qed.
End laws.

#[export] Hint Rewrite @run_ret @run_bind @run_gets @run_modify @run_stop
  @run_panic @run_undef @run_assert : mon.

(** Push the state through the computation of the goal. *)
Ltac mrun := repeat (progress (autorewrite with mon; cbn [fst snd negb])).
Ltac mrun_in H := repeat (progress (autorewrite with mon in H; cbn [fst snd negb] in H)).

(** ** Triples

    [triple P m Q E]: from a state in [P], [m] either returns a value and a
    state in [Q], or stops with a reason and a state in [E]. *)
Section triples.
Context {S : Type}.

Definition post {A} (r : result A * S) (Q : A → S → Prop) (E : stop → S → Prop) : Prop :=
  match r with
  | (Ret a, s) => Q a s
  | (Stop x, s) => E x s
  end.

Definition triple {A} (P : S → Prop) (m : M S A)
  (Q : A → S → Prop) (E : stop → S → Prop) : Prop :=
  ∀ s, P s → post (m s) Q E.

Lemma post_bind {A B} (m : M S A) (f : A → M S B) s R Q E :
  post (m s) R E → (∀ a s', R a s' → post (f a s') Q E) → post ((m ≫= f) s) Q E.
Proof. rewrite run_bind. destruct (m s) as [[a|x] s']; simpl; eauto. Qed.

Lemma post_mono {A} (r : result A * S) Q Q' (E E' : stop → S → Prop) :
  post r Q E → (∀ a s, Q a s → Q' a s) → (∀ x s, E x s → E' x s) → post r Q' E'.
Proof. destruct r as [[a|x] s]; simpl; eauto. Qed.

Lemma triple_bind {A B} P (m : M S A) (f : A → M S B) R Q E :
  triple P m R E → (∀ a, triple (R a) (f a) Q E) → triple P (m ≫= f) Q E.
Proof. intros Hm Hf s Hs. eapply post_bind; [by apply Hm|]. intros a. apply Hf. Qed.

Lemma triple_forM {A} (I : S → Prop) (l : list A) body E :
  (∀ a, a ∈ l → triple I (body a) (λ _, I) E) → triple I (forM l body) (λ _, I) E.
Proof.
  induction l as [|a l IH]; intros Hb; simpl; [by intros s Hs|].
  eapply triple_bind; [apply Hb; left|]. intros u. apply IH. intros b Hb'.
  apply Hb. by right.
Qed.

(** A loop with an invariant [I m] that says that at most [m] more iterations
    begin; [I] counts down with each of them. *)
Lemma loop_post {A B} (I : Z → A → S → Prop) (Q : B → S → Prop) E n (body : A → M S (A + B)) m a s :
  (∀ m a s, I m a s → 0 ≤ m) →
  (∀ m a s, I m a s → post (body a s) (λ r s', match r with inl a' => I (m - 1) a' s' | inr b => Q b s' end) E) →
  I m a s →
  post (loop n body a s) (λ r s', match r with inl a' => I (m - 2 ^ Z.of_nat n) a' s' | inr b => Q b s' end) E.
Proof.
  intros H0 Hb. revert m a s. induction n as [|n IH]; intros m a s HI; [exact (Hb m a s HI)|].
  cbn [loop]. eapply post_bind; [exact (IH m a s HI)|]. intros [a'|b] s' H'; [|exact H'].
  eapply post_mono; [exact (IH _ a' s' H')| |done]. intros [a2|b] s2 H2; [|exact H2].
  replace (m - 2 ^ Z.of_nat (Datatypes.S n)) with (m - 2 ^ Z.of_nat n - 2 ^ Z.of_nat n); [exact H2|].
  rewrite Nat2Z.inj_succ, Z.pow_succ_r by lia. lia.
Qed.

Lemma loop_ends {A B} (I : Z → A → S → Prop) (Q : B → S → Prop) E n (body : A → M S (A + B)) m a s :
  (∀ m a s, I m a s → 0 ≤ m) →
  (∀ m a s, I m a s → post (body a s) (λ r s', match r with inl a' => I (m - 1) a' s' | inr b => Q b s' end) E) →
  I m a s → m < 2 ^ Z.of_nat n →
  post (loop n body a s) (λ r s', ∃ b, r = inr b ∧ Q b s') E.
Proof.
  intros H0 Hb HI Hm. eapply post_mono; [exact (loop_post I Q E n body m a s H0 Hb HI)| |done].
  intros [a'|b] s' H'; [apply H0 in H'; lia|by exists b].
Qed.
End triples.

(** ** Counting loops *)

Lemma forM_app {S A} (l k : list A) (body : A → M S ()) s :
  forM (l ++ k) body s = (forM l body ;; forM k body) s.
Proof.
  revert s. induction l as [|a l IH]; intros s; simpl; [done|].
  rewrite !run_bind. destruct (body a s) as [[[]|x] s']; [|done].
  rewrite IH. done.
Qed.

Lemma forM_fmap {S A B} (f : A → B) (l : list A) (body : B → M S ()) s :
  forM (f <$> l) body s = forM l (λ a, body (f a)) s.
Proof.
  revert s. induction l as [|a l IH]; intros s; [done|]. cbn [fmap list_fmap forM]. rewrite !run_bind.
  by destruct (body (f a) s) as [[[]|x] s'].
Qed.

(** A loop whose body always returns, with an invariant indexed by the number
    of iterations done. *)
Lemma forM_zrange_from {S} (I : Z → S → Prop) (body : Z → M S ()) a n s :
  0 ≤ n → I a s →
  (∀ i s, a ≤ i < a + n → I i s → ∃ s', body i s = (Ret tt, s') ∧ I (i + 1) s') →
  ∃ s', forM (zrange a n) body s = (Ret tt, s') ∧ I (a + n) s'.
Proof.
  intros Hn H0 Hb. revert n Hn Hb. apply (natlike_ind (λ n, _ → _)).
  - intros _. exists s. by rewrite Z.add_0_r.
  - intros n Hn IH Hb. destruct IH as (s1 & E & H1); [intros; apply Hb; [lia|done]|].
    destruct (Hb (a + n) s1) as (s2 & E2 & H2); [lia|done|].
    exists s2. rewrite <- Z.add_1_r, zrange_snoc, forM_app, Z.add_assoc by lia.
    rewrite run_bind, E. simpl. rewrite run_bind, E2. done.
Qed.

Lemma forM_zrange {S} (I : Z → S → Prop) (body : Z → M S ()) n s :
  0 ≤ n → I 0 s →
  (∀ i s, 0 ≤ i < n → I i s → ∃ s', body i s = (Ret tt, s') ∧ I (i + 1) s') →
  ∃ s', forM (zrange 0 n) body s = (Ret tt, s') ∧ I n s'.
Proof. intros Hn H0 Hb. by apply (forM_zrange_from I body 0 n s). Qed.

(** Loops are reasoned about with [forM_zrange], never by unfolding. *)
#[global] Opaque zrange.
