(* ===== verification/Word.v ===== *)
(** * Machine integers and the flag operations of C

    The C types of inc/types.h at their width, with wrap-around written out,
    and the facts on masks, shifts and disjoint [lor] the page-table code needs. *)
From S2P Require Import Prelude.

(** [uint8_t], [uint16_t], [uint32_t], [int32_t], [uint64_t] conversions. *)
Definition u8 (x : Z) : Z := x mod 256.
Definition u16 (x : Z) : Z := x mod 65536.
Definition u32 (x : Z) : Z := x mod 4294967296.
Definition u64 (x : Z) : Z := x mod 18446744073709551616.
Definition s32 (x : Z) : Z :=
  let y := u32 x in if y <? 2147483648 then y else y - 4294967296.
Definition s64 (x : Z) : Z :=
  let y := u64 x in if y <? 9223372036854775808 then y else y - 18446744073709551616.
Definition s8 (x : Z) : Z := let y := u8 x in if y <? 128 then y else y - 256.

(** The C truth value of [e & m]. *)
Definition flag (e m : Z) : bool := negb (Z.land e m =? 0).

Lemma u8_range x : 0 ≤ u8 x < 256.
Proof. unfold u8. lia. Qed.
Lemma u16_range x : 0 ≤ u16 x < 65536.
Proof. unfold u16. lia. Qed.
Lemma u32_range x : 0 ≤ u32 x < 4294967296.
Proof. unfold u32. lia. Qed.
Lemma u8_small x : 0 ≤ x < 256 → u8 x = x.
Proof. unfold u8. lia. Qed.
Lemma u16_small x : 0 ≤ x < 65536 → u16 x = x.
Proof. unfold u16. lia. Qed.
Lemma u32_small x : 0 ≤ x < 4294967296 → u32 x = x.
Proof. unfold u32. lia. Qed.
Lemma u32_u32 x : u32 (u32 x) = u32 x.
Proof. unfold u32. lia. Qed.
Lemma u8_u8 x : u8 (u8 x) = u8 x.
Proof. unfold u8. lia. Qed.
Lemma s32_range x : -2147483648 ≤ s32 x < 2147483648.
Proof. unfold s32, u32. destruct (Z.ltb_spec (x mod 4294967296) 2147483648); lia. Qed.
Lemma s32_small x : -2147483648 ≤ x < 2147483648 → s32 x = x.
Proof. unfold s32, u32. destruct (Z.ltb_spec (x mod 4294967296) 2147483648); lia. Qed.
Lemma u32_s32 x : u32 (s32 x) = u32 x.
Proof. unfold s32, u32. destruct (Z.ltb_spec (x mod 4294967296) 2147483648); lia. Qed.

Lemma s32_cong x y : u32 x = u32 y → s32 x = s32 y.
Proof. unfold s32. by intros ->. Qed.
Lemma s32_s32_add x k : s32 (s32 x + k) = s32 (x + k).
Proof.
  apply s32_cong. pose proof (u32_s32 x) as E. revert E. unfold u32.
  generalize (s32 x). intros y E. rewrite (Zplus_mod y), E, <- Zplus_mod. done.
Qed.

Create Rewrite HintDb word.
#[export] Hint Rewrite u32_u32 u8_u8 u32_s32 : word.
#[export] Hint Rewrite u8_small u16_small u32_small s32_small using lia : word.

(** ** Masks *)

Lemma land_ones_mod a n : 0 ≤ n → Z.land a (Z.ones n) = a mod 2 ^ n.
Proof. apply Z.land_ones. Qed.

(** [x & (2^n - 1)] for the literal masks of the code. *)
Lemma land_1 a : Z.land a 1 = a mod 2.
Proof. apply (Z.land_ones a 1). lia. Qed.
Lemma land_3 a : Z.land a 3 = a mod 4.
Proof. apply (Z.land_ones a 2). lia. Qed.
Lemma land_3FF a : Z.land a 1023 = a mod 1024.
Proof. apply (Z.land_ones a 10). lia. Qed.
Lemma land_FFF a : Z.land a 4095 = a mod 4096.
Proof. apply (Z.land_ones a 12). lia. Qed.
Lemma land_FF a : Z.land a 255 = a mod 256.
Proof. apply (Z.land_ones a 8). lia. Qed.
Lemma land_FFFF a : Z.land a 65535 = a mod 65536.
Proof. apply (Z.land_ones a 16). lia. Qed.

Lemma land_small_bound a b n : 0 ≤ n → 0 ≤ a < 2 ^ n → 0 ≤ b → 0 ≤ Z.land a b < 2 ^ n.
Proof.
  intros Hn Ha Hb. split; [apply Z.land_nonneg; lia|].
  rewrite <- (Z.mod_small a (2 ^ n)) by lia. rewrite <- Z.land_ones by lia.
  rewrite (Z.land_comm a), <- Z.land_assoc, (Z.land_comm (Z.ones n)), Z.land_ones by lia.
  apply Z.mod_pos_bound. lia.
Qed.

Lemma lor_bound a b n : 0 ≤ n → 0 ≤ a < 2 ^ n → 0 ≤ b < 2 ^ n → 0 ≤ Z.lor a b < 2 ^ n.
Proof.
  intros Hn Ha Hb. split; [apply Z.lor_nonneg; lia|].
  assert (Z.lor a b = (Z.lor a b) mod 2 ^ n) as ->; [|apply Z.mod_pos_bound; lia].
  rewrite <- Z.land_ones by lia. rewrite Z.land_lor_distr_l, !Z.land_ones by lia.
  rewrite !Z.mod_small by lia. done.
Qed.

Lemma testbit_high a n k : 0 ≤ n → 0 ≤ a < 2 ^ n → n ≤ k → Z.testbit a k = false.
Proof.
  intros Hn Ha Hk. rewrite <- (Z.mod_small a (2 ^ n)) by lia.
  apply Z.mod_pow2_bits_high. lia.
Qed.

(** [a << n | b] with [b < 2^n] is an addition. *)
Lemma lor_shifted_add a b n : 0 ≤ n → 0 ≤ b < 2 ^ n → Z.lor (a * 2 ^ n) b = a * 2 ^ n + b.
Proof.
  intros Hn Hb. rewrite <- Z.shiftl_mul_pow2 by lia.
  rewrite <- Z.add_lor_land.
  assert (Z.land (Z.shiftl a n) b = 0) as ->; [|lia].
  apply Z.bits_inj'. intros k Hk. rewrite Z.land_spec, Z.bits_0.
  destruct (Z.lt_ge_cases k n).
  - rewrite Z.shiftl_spec_low by lia. done.
  - rewrite (testbit_high b n k) by lia. apply andb_false_r.
Qed.

Lemma lor_page_add p b : 0 ≤ b < 4096 → Z.lor (p * 4096) b = p * 4096 + b.
Proof. apply (lor_shifted_add p b 12). lia. Qed.

(** Clearing the low 12 bits of a 32-bit word. *)
Lemma land_page_mask a : 0 ≤ a < 4294967296 → Z.land a 4294963200 = a / 4096 * 4096.
Proof.
  intros Ha. apply Z.bits_inj'. intros k Hk.
  change 4294963200 with (Z.shiftl (Z.ones 20) 12).
  change 4096 with (2 ^ 12). rewrite <- Z.shiftl_mul_pow2, <- Z.shiftr_div_pow2 by lia.
  rewrite Z.land_spec. destruct (Z.lt_ge_cases k 12).
  - rewrite !Z.shiftl_spec_low by lia. by rewrite andb_false_r.
  - rewrite !Z.shiftl_spec, Z.shiftr_spec by lia. replace (k - 12 + 12) with k by lia.
    destruct (Z.lt_ge_cases (k - 12) 20).
    + rewrite Z.ones_spec_low by lia. by rewrite andb_true_r.
    + rewrite Z.ones_spec_high by lia. rewrite andb_false_r. symmetry.
      apply (testbit_high a 32); lia.
Qed.

Lemma flag_1 a : flag a 1 = true ↔ a mod 2 = 1.
Proof. unfold flag. rewrite land_1. destruct (Z.eqb_spec (a mod 2) 0); simpl; split; intros; try done; lia. Qed.

(** A flag test only reads the low 12 bits when the mask is below 4096. *)
Lemma land_low12 a m : 0 ≤ m < 4096 → Z.land a m = Z.land (a mod 4096) m.
Proof.
  intros Hm. rewrite <- (Z.mod_small m 4096) at 1 by lia.
  rewrite <- !land_FFF, (Z.land_comm m), !Z.land_assoc. done.
Qed.
Lemma flag_page p b m : 0 ≤ b < 4096 → 0 ≤ m < 4096 → flag (p * 4096 + b) m = flag b m.
Proof.
  intros Hb Hm. unfold flag. rewrite (land_low12 _ m Hm).
  replace ((p * 4096 + b) mod 4096) with b by lia. done.
Qed.

Lemma flag_lor a b m : flag (Z.lor a b) m = flag a m || flag b m.
Proof.
  unfold flag. rewrite Z.land_lor_distr_l. rewrite <- negb_andb. f_equal.
  destruct (Z.eqb_spec (Z.lor (Z.land a m) (Z.land b m)) 0) as [H|H].
  - apply Z.lor_eq_0_iff in H as [-> ->]. done.
  - destruct (Z.eqb_spec (Z.land a m) 0) as [Ea|]; [|done].
    destruct (Z.eqb_spec (Z.land b m) 0) as [Eb|]; [|done].
    by rewrite Ea, Eb in H.
Qed.
