(* ===== verification/Layout.v ===== *)
(** * Address-space layout and the header macros

    The constants and address macros of inc/mmu.h, inc/memlayout.h,
    inc/types.h, inc/error.h and inc/env.h, at their 32-bit width. *)
From S2P Require Import Prelude Word.

(** ** Paging constants (inc/mmu.h) *)
Definition NPDENTRIES := 1024.
Definition NPTENTRIES := 1024.
Definition PGSIZE := 4096.
Definition PGSHIFT := 12.
Definition PTSIZE := PGSIZE * NPTENTRIES.
Definition PTXSHIFT := 12.
Definition PDXSHIFT := 22.

Definition PTE_P := 0x001.
Definition PTE_W := 0x002.
Definition PTE_U := 0x004.
Definition PTE_PWT := 0x008.
Definition PTE_PCD := 0x010.
Definition PTE_A := 0x020.
Definition PTE_D := 0x040.
Definition PTE_PS := 0x080.
Definition PTE_G := 0x100.
Definition PTE_AVAIL := 0xE00.
Definition PTE_SYSCALL := Z.lor (Z.lor (Z.lor PTE_AVAIL PTE_P) PTE_W) PTE_U.
(** user-level flag bits (lib/fork.c, inc/lib.h) *)
Definition PTE_COW := 0x800.
Definition PTE_SHARE := 0x400.

(** ** Address macros (inc/mmu.h); [la] is cast to [uintptr_t] *)
Definition PGNUM (la : Z) : Z := Z.shiftr (u32 la) PTXSHIFT.
Definition PDX (la : Z) : Z := Z.land (Z.shiftr (u32 la) PDXSHIFT) 0x3FF.
Definition PTX (la : Z) : Z := Z.land (Z.shiftr (u32 la) PTXSHIFT) 0x3FF.
Definition PGOFF (la : Z) : Z := Z.land (u32 la) 0xFFF.
Definition PGADDR (d t o : Z) : Z :=
  u32 (Z.lor (Z.lor (Z.shiftl d PDXSHIFT) (Z.shiftl t PTXSHIFT)) o).
(** [(physaddr_t) (pte) & ~0xFFF] *)
Definition PTE_ADDR (pte : Z) : Z := Z.land (u32 pte) 0xFFFFF000.

(** ** Rounding (inc/types.h) *)
Definition ROUNDDOWN (a n : Z) : Z := u32 a - u32 a mod n.
Definition ROUNDUP (a n : Z) : Z := ROUNDDOWN (u32 a + u32 n - 1) (u32 n).

(** ** Memory map (inc/memlayout.h) *)
Definition KERNBASE := 0xF0000000.
Definition IOPHYSMEM := 0x0A0000.
Definition EXTPHYSMEM := 0x100000.
Definition KSTACKTOP := KERNBASE.
Definition KSTKSIZE := 8 * PGSIZE.
Definition KSTKGAP := 8 * PGSIZE.
Definition MMIOLIM := KSTACKTOP - PTSIZE.
Definition MMIOBASE := MMIOLIM - PTSIZE.
Definition ULIM := MMIOBASE.
Definition UVPT := ULIM - PTSIZE.
Definition UPAGES := UVPT - PTSIZE.
Definition UENVS := UPAGES - PTSIZE.
Definition UTOP := UENVS.
Definition UXSTACKTOP := UTOP.
Definition USTACKTOP := UTOP - 2 * PGSIZE.
Definition UTEXT := 2 * PTSIZE.
Definition UTEMP := PTSIZE.
Definition PFTEMP := UTEMP + PTSIZE - PGSIZE.
Definition USTABDATA := PTSIZE / 2.
Definition MPENTRY_PADDR := 0x7000.

Definition GD_KT := 0x08.
Definition GD_KD := 0x10.
Definition GD_UT := 0x18.
Definition GD_UD := 0x20.
Definition GD_TSS0 := 0x28.

(** ** Error codes (inc/error.h) *)
Definition E_UNSPECIFIED := 1.
Definition E_BAD_ENV := 2.
Definition E_INVAL := 3.
Definition E_NO_MEM := 4.
Definition E_NO_FREE_ENV := 5.
Definition E_FAULT := 6.
Definition E_IPC_NOT_RECV := 7.
Definition E_EOF := 8.
Definition MAXERROR := 9.

(** ** Environments and CPUs (inc/env.h, kern/cpu.h, kern/env.c) *)
Definition LOG2NENV := 10.
Definition NENV := 1024.
Definition ENVX (envid : Z) : Z := Z.land envid (NENV - 1).
Definition ENVGENSHIFT := 12.
Definition NCPU := 8.

Definition ENV_FREE := 0.
Definition ENV_DYING := 1.
Definition ENV_RUNNABLE := 2.
Definition ENV_RUNNING := 3.
Definition ENV_NOT_RUNNABLE := 4.

(** ** Arithmetic reading of the macros *)

Lemma PGNUM_div la : PGNUM la = u32 la / 4096.
Proof. unfold PGNUM, PTXSHIFT. by rewrite Z.shiftr_div_pow2. Qed.
Lemma PDX_div la : PDX la = u32 la / 4194304.
Proof.
  unfold PDX, PDXSHIFT. change 0x3FF with 1023.
  rewrite land_3FF, Z.shiftr_div_pow2 by lia. change (2 ^ 22) with 4194304.
  pose proof (u32_range la). lia.
Qed.
Lemma PTX_div la : PTX la = u32 la / 4096 mod 1024.
Proof.
  unfold PTX, PTXSHIFT. change 0x3FF with 1023. by rewrite land_3FF, Z.shiftr_div_pow2.
Qed.
Lemma PGOFF_mod la : PGOFF la = u32 la mod 4096.
Proof. apply land_FFF. Qed.
Lemma PTE_ADDR_div pte : PTE_ADDR pte = u32 pte / 4096 * 4096.
Proof. apply land_page_mask, u32_range. Qed.
Lemma ROUNDDOWN_page a : ROUNDDOWN a PGSIZE = u32 a / 4096 * 4096.
Proof. unfold ROUNDDOWN, PGSIZE. lia. Qed.
Lemma ENVX_mod e : ENVX e = e mod 1024.
Proof. apply land_3FF. Qed.

Lemma PDX_range la : 0 ≤ PDX la < 1024.
Proof. rewrite PDX_div. pose proof (u32_range la). lia. Qed.
Lemma PTX_range la : 0 ≤ PTX la < 1024.
Proof. rewrite PTX_div. lia. Qed.
Lemma ENVX_range e : 0 ≤ ENVX e < NENV.
Proof. rewrite ENVX_mod. unfold NENV. lia. Qed.

Lemma PGADDR_add d t o :
  0 ≤ d < 1024 → 0 ≤ t < 1024 → 0 ≤ o < 4096 →
  PGADDR d t o = d * 4194304 + t * 4096 + o.
Proof.
  intros. unfold PGADDR, PDXSHIFT, PTXSHIFT. rewrite !Z.shiftl_mul_pow2 by lia.
  rewrite (lor_shifted_add d (t * 2 ^ 12) 22) by lia.
  replace (d * 2 ^ 22 + t * 2 ^ 12) with ((d * 1024 + t) * 2 ^ 12) by lia.
  rewrite lor_shifted_add by lia. rewrite u32_small; lia.
Qed.

Lemma PTE_ADDR_page p b : 0 ≤ p < 1048576 → 0 ≤ b < 4096 → PTE_ADDR (p * 4096 + b) = p * 4096.
Proof. intros. rewrite PTE_ADDR_div, u32_small; lia. Qed.

(** The three fields of a linear address determine it, and [PGADDR] puts
    them back together. *)
Theorem PGADDR_PDX_PTX_PGOFF la : PGADDR (PDX la) (PTX la) (PGOFF la) = u32 la.
Proof.
  rewrite PGADDR_add.
  - rewrite PDX_div, PTX_div, PGOFF_mod. lia.
  - apply PDX_range.
  - apply PTX_range.
  - rewrite PGOFF_mod. lia.
Qed.
