(* ===== verification/Mem.v ===== *)
(** * Byte-addressed memory

    Physical memory is a total map from addresses to bytes; a byte is read
    through the [uint8_t] cast, so every map is a memory.  32-bit accesses are
    little-endian and may be unaligned.  The string instructions used by the
    inline assembly of lib/string.c are given with their architectural effect. *)
From S2P Require Import Prelude Word.
From Stdlib Require Import FunctionalExtensionality.

Abbreviation mem := (Z → Z) (only parsing).

Definition load8 (m : mem) (a : Z) : Z := u8 (m a).
Definition store8 (m : mem) (a v : Z) : mem := <[a := u8 v]> m.

Definition load16 (m : mem) (a : Z) : Z := load8 m a + 256 * load8 m (a + 1).

Definition load32 (m : mem) (a : Z) : Z :=
  load8 m a + 256 * load8 m (a + 1) + 65536 * load8 m (a + 2) +
  16777216 * load8 m (a + 3).
Definition store32 (m : mem) (a v : Z) : mem :=
  store8 (store8 (store8 (store8 m a v) (a + 1) (v / 256)) (a + 2) (v / 65536))
    (a + 3) (v / 16777216).

(** [n] bytes from [a] set to [c]. *)
Definition fill (m : mem) (a n c : Z) : mem :=
  λ x, if (a <=? x) && (x <? a + n) then u8 c else m x.

(** [rep stosb] / [rep stosl] with the direction flag clear: [ecx] times,
    store [al] / [eax] at [edi] and advance. *)
Definition rep_stosb (m : mem) (edi eax ecx : Z) : mem :=
  λ x, if (edi <=? x) && (x <? edi + ecx) then u8 eax else m x.
Definition rep_stosl (m : mem) (edi eax ecx : Z) : mem :=
  λ x, if (edi <=? x) && (x <? edi + 4 * ecx)
       then u8 (eax / 256 ^ ((x - edi) mod 4)) else m x.

(** [rep movsb] / [rep movsl]: [ecx] times, copy one byte / double word from
    [esi] to [edi] and move both by [1] / [4] bytes, upwards when the
    direction flag [df] is clear and downwards when it is set. *)
Fixpoint rep_movsb (ecx : nat) (df : bool) (m : mem) (edi esi : Z) : mem :=
  match ecx with
  | O => m
  | S ecx =>
      let d := if df then -1 else 1 in
      rep_movsb ecx df (store8 m edi (load8 m esi)) (edi + d) (esi + d)
  end.
Fixpoint rep_movsl (ecx : nat) (df : bool) (m : mem) (edi esi : Z) : mem :=
  match ecx with
  | O => m
  | S ecx =>
      let d := if df then -4 else 4 in
      rep_movsl ecx df (store32 m edi (load32 m esi)) (edi + d) (esi + d)
  end.

(** ** Laws *)

Lemma load8_range m a : 0 ≤ load8 m a < 256.
Proof. apply u8_range. Qed.
Lemma load32_range m a : 0 ≤ load32 m a < 4294967296.
Proof.
  unfold load32. pose proof (load8_range m a). pose proof (load8_range m (a + 1)).
  pose proof (load8_range m (a + 2)). pose proof (load8_range m (a + 3)). lia.
Qed.
Lemma u32_load32 m a : u32 (load32 m a) = load32 m a.
Proof. apply u32_small, load32_range. Qed.

Lemma load8_store8 m a v b : load8 (store8 m a v) b = if decide (a = b) then u8 v else load8 m b.
Proof. unfold load8, store8. rewrite upd_case. case_decide; [apply u8_u8|done]. Qed.

Lemma load8_store32 m a v b :
  load8 (store32 m a v) b =
  if decide (a ≤ b < a + 4) then u8 (v / 256 ^ (b - a)) else load8 m b.
Proof.
  unfold store32. rewrite !load8_store8.
  repeat case_decide; subst; try lia; f_equal;
    match goal with |- context [256 ^ ?e] => ring_simplify e end;
    rewrite ?Z.div_1_r; reflexivity.
Qed.

Lemma load32_bytes_eq m m' a b :
  (∀ k, 0 ≤ k < 4 → load8 m (a + k) = load8 m' (b + k)) → load32 m a = load32 m' b.
Proof.
  intros Hk. unfold load32. rewrite <- (Z.add_0_r a) at 1. rewrite <- (Z.add_0_r b) at 1.
  rewrite !Hk by lia. done.
Qed.

Lemma load32_store32_same m a v : load32 (store32 m a v) a = u32 v.
Proof.
  unfold load32. rewrite !load8_store32.
  rewrite !decide_True by lia.
  replace (a - a) with 0 by lia. replace (a + 1 - a) with 1 by lia.
  replace (a + 2 - a) with 2 by lia. replace (a + 3 - a) with 3 by lia.
  change (256 ^ 0) with 1. change (256 ^ 1) with 256.
  change (256 ^ 2) with 65536. change (256 ^ 3) with 16777216.
  unfold u8, u32. lia.
Qed.

Lemma load32_store32_other m a v b :
  a + 4 ≤ b ∨ b + 4 ≤ a → load32 (store32 m a v) b = load32 m b.
Proof.
  intros Hab. apply load32_bytes_eq. intros k Hk. rewrite load8_store32.
  rewrite decide_False by lia. done.
Qed.

Lemma store32_store32 m a v w : store32 (store32 m a v) a w = store32 m a w.
Proof.
  apply functional_extensionality. intros b. unfold store32, store8.
  rewrite !upd_case. by repeat case_decide.
Qed.

Lemma load8_fill m a n c x :
  load8 (fill m a n c) x = if decide (a ≤ x < a + n) then u8 c else load8 m x.
Proof.
  unfold load8, fill. destruct (Z.leb_spec a x), (Z.ltb_spec x (a + n)); simpl;
    case_decide; rewrite ?u8_u8; try lia; done.
Qed.

Lemma load32_fill_other m a n c b :
  a + n ≤ b ∨ b + 4 ≤ a → load32 (fill m a n c) b = load32 m b.
Proof.
  intros Hab. apply load32_bytes_eq. intros k Hk. rewrite load8_fill.
  rewrite decide_False by lia. done.
Qed.

Lemma load32_fill_zero m a n b : a ≤ b → b + 4 ≤ a + n → load32 (fill m a n 0) b = 0.
Proof.
  intros Ha Hb. unfold load32. rewrite !load8_fill. by rewrite !decide_True by lia.
Qed.

#[export] Hint Rewrite u32_load32 load32_store32_same : word.
#[export] Hint Rewrite load32_store32_other load32_fill_other using lia : word.

(** Two memories with the same bytes. *)
Definition mem_eq (m m' : mem) : Prop := ∀ a, load8 m a = load8 m' a.

#[export] Instance mem_eq_equivalence : Equivalence mem_eq.
Proof.
  split.
  - by intros m a.
  - intros m m' H a. by rewrite H.
  - intros m1 m2 m3 H1 H2 a. by rewrite H1, H2.
Qed.

#[export] Instance load8_proper : Proper (mem_eq ==> eq ==> eq) load8.
Proof. intros m m' Hm a ? <-. apply Hm. Qed.
#[export] Instance load32_proper : Proper (mem_eq ==> eq ==> eq) load32.
Proof. intros m m' Hm a ? <-. unfold load32. by rewrite !Hm. Qed.
#[export] Instance store8_proper : Proper (mem_eq ==> eq ==> eq ==> mem_eq) store8.
Proof. intros m m' Hm a ? <- v ? <- b. rewrite !load8_store8. by rewrite Hm. Qed.
#[export] Instance store32_proper : Proper (mem_eq ==> eq ==> eq ==> mem_eq) store32.
Proof. intros m m' Hm a ? <- v ? <- b. rewrite !load8_store32. by rewrite Hm. Qed.
#[export] Instance fill_proper : Proper (mem_eq ==> eq ==> eq ==> eq ==> mem_eq) fill.
Proof. intros m m' Hm a ? <- n ? <- c ? <- b. rewrite !load8_fill. by rewrite Hm. Qed.

(** ** Consecutive words *)
Fixpoint store_words (m : mem) (a : Z) (ws : list Z) : mem :=
  match ws with
  | [] => m
  | w :: ws => store_words (store32 m a w) (a + 4) ws
  end.

Lemma load8_store_words m a ws b :
  ¬ (a ≤ b < a + 4 * Z.of_nat (length ws)) → load8 (store_words m a ws) b = load8 m b.
Proof.
  revert m a. induction ws as [|w ws IH]; intros m a Hb; [done|].
  simpl store_words. cbn [length] in Hb. rewrite IH by lia. rewrite load8_store32.
  by rewrite decide_False by lia.
Qed.

Lemma load32_store_words m a ws (i : nat) :
  (i < length ws)%nat → load32 (store_words m a ws) (a + 4 * Z.of_nat i) = u32 (nth i ws 0).
Proof.
  revert m a i. induction ws as [|w ws IH]; intros m a i Hi; [simpl in Hi; lia|].
  simpl store_words. cbn [length] in Hi. destruct i as [|i].
  - rewrite Z.add_0_r. cbn [nth]. rewrite <- (load32_store32_same m a w).
    apply load32_bytes_eq. intros k Hk. apply load8_store_words. lia.
  - cbn [nth]. replace (a + 4 * Z.of_nat (S i)) with (a + 4 + 4 * Z.of_nat i) by lia.
    apply IH. lia.
Qed.
