(* ===== verification/CString.v ===== *)
(** * lib/string.c: block operations and C strings

    [memset] and [memmove] are the inline-assembly versions ([#if ASM]) over
    the string instructions of Mem; pointers are 32-bit addresses. *)
From S2P Require Import Prelude Word Mem.
From Stdlib Require Import FunctionalExtensionality.

(** ** memset, memmove, memcpy *)

Definition memset (m : mem) (v c n : Z) : mem :=
  if n =? 0 then m
  else if (Z.rem (s32 v) 4 =? 0) && (n mod 4 =? 0) then
    let c := Z.land c 0xFF in
    let c := Z.lor (Z.lor (Z.lor (Z.shiftl c 24) (Z.shiftl c 16)) (Z.shiftl c 8)) c in
    rep_stosl m v c (n / 4)
  else rep_stosb m v c n.

Definition memmove (m : mem) (dst src n : Z) : mem :=
  let s := src in
  let d := dst in
  if (s <? d) && (d <? u32 (s + n)) then
    let s := s + n in
    let d := d + n in
    if (Z.rem (s32 s) 4 =? 0) && (Z.rem (s32 d) 4 =? 0) && (n mod 4 =? 0)
    then rep_movsl (Z.to_nat (n / 4)) true m (d - 4) (s - 4)
    else rep_movsb (Z.to_nat n) true m (d - 1) (s - 1)
  else
    if (Z.rem (s32 s) 4 =? 0) && (Z.rem (s32 d) 4 =? 0) && (n mod 4 =? 0)
    then rep_movsl (Z.to_nat (n / 4)) false m d s
    else rep_movsb (Z.to_nat n) false m d s.

Definition memcpy (m : mem) (dst src n : Z) : mem := memmove m dst src n.

(** The replicated word [c * 0x01010101]. *)
Lemma replicate_byte c : 0 ≤ c < 256 →
  Z.lor (Z.lor (Z.lor (Z.shiftl c 24) (Z.shiftl c 16)) (Z.shiftl c 8)) c =
  c * 16777216 + c * 65536 + c * 256 + c.
Proof.
  intros Hc. rewrite !Z.shiftl_mul_pow2 by lia.
  rewrite (lor_shifted_add c (c * 2 ^ 16) 24) by lia.
  replace (c * 2 ^ 24 + c * 2 ^ 16) with ((c * 256 + c) * 2 ^ 16) by lia.
  rewrite (lor_shifted_add _ (c * 2 ^ 8) 16) by lia.
  replace ((c * 256 + c) * 2 ^ 16 + c * 2 ^ 8) with ((c * 65536 + c * 256 + c) * 2 ^ 8) by lia.
  rewrite (lor_shifted_add _ c 8) by lia. lia.
Qed.

Lemma replicate_byte_nth c k : 0 ≤ c < 256 → 0 ≤ k < 4 →
  u8 ((c * 16777216 + c * 65536 + c * 256 + c) / 256 ^ k) = c.
Proof.
  intros Hc Hk. assert (k = 0 ∨ k = 1 ∨ k = 2 ∨ k = 3) as [-> | [-> | [-> | ->]]] by lia.
  - change (256 ^ 0) with 1. unfold u8. lia.
  - change (256 ^ 1) with 256. unfold u8. lia.
  - change (256 ^ 2) with 65536. unfold u8. lia.
  - change (256 ^ 3) with 16777216. unfold u8. lia.
Qed.

(** [memset] writes the byte [c] to exactly the [n] bytes at [v], on the
    double-word path (aligned pointer and length) as on the byte path. *)
Theorem memset_fill m v c n : 0 ≤ n → memset m v c n = fill m v n c.
Proof.
  intros Hn. apply functional_extensionality; intros x. unfold memset, fill.
  destruct (Z.eqb_spec n 0) as [->|Hn0].
  { destruct (Z.leb_spec v x), (Z.ltb_spec x (v + 0)); simpl; lia || done. }
  destruct (Z.rem (s32 v) 4 =? 0); simpl; [|done].
  destruct (Z.eqb_spec (n mod 4) 0); [|done].
  unfold rep_stosl. change 0xFF with 255. rewrite land_FF.
  replace (v + 4 * (n / 4)) with (v + n) by lia.
  destruct (Z.leb_spec v x), (Z.ltb_spec x (v + n)); simpl; try done.
  rewrite replicate_byte by lia. rewrite replicate_byte_nth; unfold u8; lia.
Qed.

Lemma memset_fill_witness :
  0 ≤ 8 ∧ memset (λ _, 7) 0x1000 0x141 8 = fill (λ _, 7) 0x1000 8 0x141.
Proof. split; [lia|]. apply (memset_fill (λ _, 7) 0x1000 0x141 8). lia. Defined.

(** The copy that [memmove] should perform, read byte by byte. *)
Definition copy_spec (m m' : mem) (dst src n : Z) : Prop :=
  ∀ x, load8 m' x = if decide (dst ≤ x < dst + n) then load8 m (x - dst + src) else load8 m x.

Lemma rep_movsb_up k m d s : d ≤ s ∨ s + Z.of_nat k ≤ d →
  copy_spec m (rep_movsb k false m d s) d s (Z.of_nat k).
Proof.
  revert m d s. induction k as [|k IH]; intros m d s Hds x; cbn [rep_movsb].
  { rewrite decide_False by lia. done. }
  rewrite (IH _ (d + 1) (s + 1)) by lia. rewrite !load8_store8.
  repeat case_decide; try lia; try (f_equal; lia).
  subst. unfold load8. rewrite u8_u8. do 2 f_equal. lia.
Qed.

Lemma rep_movsb_down k m d s : s ≤ d →
  copy_spec m (rep_movsb k true m (d + Z.of_nat k - 1) (s + Z.of_nat k - 1)) d s (Z.of_nat k).
Proof.
  revert m. induction k as [|k IH]; intros m Hds x; cbn [rep_movsb].
  { rewrite decide_False by lia. done. }
  replace (d + Z.of_nat (S k) - 1 + -1) with (d + Z.of_nat k - 1) by lia.
  replace (s + Z.of_nat (S k) - 1 + -1) with (s + Z.of_nat k - 1) by lia.
  rewrite IH by done. rewrite !load8_store8.
  repeat case_decide; try lia; try (f_equal; lia).
  unfold load8. rewrite u8_u8. do 2 f_equal. lia.
Qed.

Lemma load8_copy_word m d s x :
  load8 (store32 m d (load32 m s)) x =
  if decide (d ≤ x < d + 4) then load8 m (x - d + s) else load8 m x.
Proof.
  rewrite load8_store32. case_decide as Hx; [|done].
  pose proof (load8_range m s). pose proof (load8_range m (s + 1)).
  pose proof (load8_range m (s + 2)). pose proof (load8_range m (s + 3)).
  unfold load32, u8.
  assert (x = d ∨ x = d + 1 ∨ x = d + 2 ∨ x = d + 3) as [-> | [-> | [-> | ->]]] by lia.
  - replace (d - d) with 0 by lia. change (256 ^ 0) with 1. rewrite Z.add_0_l. lia.
  - replace (d + 1 - d) with 1 by lia. change (256 ^ 1) with 256. rewrite (Z.add_comm 1). lia.
  - replace (d + 2 - d) with 2 by lia. change (256 ^ 2) with 65536. rewrite (Z.add_comm 2). lia.
  - replace (d + 3 - d) with 3 by lia. change (256 ^ 3) with 16777216. rewrite (Z.add_comm 3). lia.
Qed.

Lemma rep_movsl_up k m d s : d ≤ s ∨ s + 4 * Z.of_nat k ≤ d →
  copy_spec m (rep_movsl k false m d s) d s (4 * Z.of_nat k).
Proof.
  revert m d s. induction k as [|k IH]; intros m d s Hds x; cbn [rep_movsl].
  { rewrite decide_False by lia. done. }
  rewrite (IH _ (d + 4) (s + 4)) by lia. rewrite !load8_copy_word.
  repeat case_decide; try lia; f_equal; lia.
Qed.

Lemma rep_movsl_down k m d s : s ≤ d →
  copy_spec m (rep_movsl k true m (d + 4 * Z.of_nat k - 4) (s + 4 * Z.of_nat k - 4))
    d s (4 * Z.of_nat k).
Proof.
  revert m. induction k as [|k IH]; intros m Hds x; cbn [rep_movsl].
  { rewrite decide_False by lia. done. }
  replace (d + 4 * Z.of_nat (S k) - 4 + -4) with (d + 4 * Z.of_nat k - 4) by lia.
  replace (s + 4 * Z.of_nat (S k) - 4 + -4) with (s + 4 * Z.of_nat k - 4) by lia.
  rewrite IH by done. rewrite !load8_copy_word.
  repeat case_decide; try lia; f_equal; lia.
Qed.

(** [memmove] copies the [n] source bytes as they were before the call,
    whatever the overlap of the two blocks, and changes nothing else. *)
Theorem memmove_copies m dst src n :
  0 ≤ n → 0 ≤ src → src + n < 4294967296 → copy_spec m (memmove m dst src n) dst src n.
Proof.
  intros Hn Hs Hsn. unfold memmove. rewrite u32_small by lia.
  destruct ((Z.rem (s32 (src + n)) 4 =? 0) && (Z.rem (s32 (dst + n)) 4 =? 0)
            && (n mod 4 =? 0)) eqn:Hb;
  destruct ((Z.rem (s32 src) 4 =? 0) && (Z.rem (s32 dst) 4 =? 0) && (n mod 4 =? 0)) eqn:Hf;
  destruct (Z.ltb_spec src dst), (Z.ltb_spec dst (src + n)); simpl; rewrite ?Hb, ?Hf;
  repeat match goal with
  | H : _ && (n mod 4 =? 0) = true |- _ =>
      apply andb_true_iff in H as [_ H]; apply Z.eqb_eq in H
  | H : _ && _ = false |- _ => clear H
  end;
  first
    [ remember (Z.to_nat (n / 4)) as k eqn:Hk;
      assert (n = 4 * Z.of_nat k) by lia; clear Hk; subst n;
      first [apply rep_movsl_down | apply rep_movsl_up]; lia
    | remember (Z.to_nat n) as k eqn:Hk;
      assert (n = Z.of_nat k) by lia; clear Hk; subst n;
      first [apply rep_movsb_down | apply rep_movsb_up]; lia ].
Qed.

Lemma memmove_copies_witness :
  0 ≤ 5 ∧ 0 ≤ 100 ∧ 100 + 5 < 4294967296 ∧
  copy_spec (λ a, a) (memmove (λ a, a) 102 100 5) 102 100 5.
Proof. splits; try lia. apply (memmove_copies (λ a, a) 102 100 5); lia. Defined.
