(* ===== verification/StrLib.v ===== *)
(** * lib/string.c: the C string routines

    Characters are signed on the i386, and converted to [unsigned char] where
    the code does; pointers are addresses of [mem].  A loop that runs to the
    terminating NUL takes fuel and answers [None] when that runs out; a loop
    that counts down from a length is structural. *)
From S2P Require Import Prelude Word Mem CString.
From Stdlib Require Import FunctionalExtensionality Ascii.

(** A character constant, and [*s] as the [char] it is. *)
Definition chr (c : ascii) : Z := Z.of_N (N_of_ascii c).
Definition char_at (m : mem) (s : Z) : Z := s8 (load8 m s).

Fixpoint strlen_loop (fuel : nat) (m : mem) (s n : Z) : option Z :=
  match fuel with
  | O => None
  | S fuel => if char_at m s =? 0 then Some n else strlen_loop fuel m (s + 1) (s32 (n + 1))
  end.
Definition strlen (fuel : nat) (m : mem) (s : Z) : option Z := strlen_loop fuel m s 0.

Fixpoint strnlen_loop (fuel : nat) (m : mem) (s size n : Z) : option Z :=
  match fuel with
  | O => None
  | S fuel =>
      if (0 <? size) && negb (char_at m s =? 0) then strnlen_loop fuel m (s + 1) (size - 1) (s32 (n + 1))
      else Some n
  end.
Definition strnlen (fuel : nat) (m : mem) (s size : Z) : option Z := strnlen_loop fuel m s size 0.

Fixpoint strcpy (fuel : nat) (m : mem) (dst src : Z) : option mem :=
  match fuel with
  | O => None
  | S fuel =>
      let c := load8 m src in
      let m := store8 m dst c in
      if c =? 0 then Some m else strcpy fuel m (dst + 1) (src + 1)
  end.

Definition strcat (fuel : nat) (m : mem) (dst src : Z) : option mem :=
  len ← strlen fuel m dst; strcpy fuel m (dst + len) src.

Fixpoint strncpy_loop (size : nat) (m : mem) (dst src : Z) : mem :=
  match size with
  | O => m
  | S size =>
      let m := store8 m dst (load8 m src) in
      strncpy_loop size m (dst + 1) (if char_at m src =? 0 then src else src + 1)
  end.
Definition strncpy (m : mem) (dst src size : Z) : mem := strncpy_loop (Z.to_nat size) m dst src.

(** [while (--size > 0 && *src != '\0') *dst++ = *src++] with [n] = [size - 1]
    iterations left. *)
Fixpoint strlcpy_loop (n : nat) (m : mem) (dst src : Z) : mem * Z :=
  match n with
  | O => (m, dst)
  | S n =>
      if char_at m src =? 0 then (m, dst)
      else strlcpy_loop n (store8 m dst (load8 m src)) (dst + 1) (src + 1)
  end.
Definition strlcpy (m : mem) (dst src size : Z) : mem * Z :=
  if 0 <? size then
    let '(m, d) := strlcpy_loop (Z.to_nat (size - 1)) m dst src in
    (store8 m d 0, d - dst)
  else (m, 0).

Fixpoint strcmp (fuel : nat) (m : mem) (p q : Z) : option Z :=
  match fuel with
  | O => None
  | S fuel =>
      if negb (char_at m p =? 0) && (char_at m p =? char_at m q) then strcmp fuel m (p + 1) (q + 1)
      else Some (s32 (load8 m p - load8 m q))
  end.

Fixpoint strncmp (n : nat) (m : mem) (p q : Z) : Z :=
  match n with
  | O => 0
  | S n =>
      if negb (char_at m p =? 0) && (char_at m p =? char_at m q) then strncmp n m (p + 1) (q + 1)
      else s32 (load8 m p - load8 m q)
  end.

(** The inner [option] is the null pointer. *)
Fixpoint strchr (fuel : nat) (m : mem) (s c : Z) : option (option Z) :=
  match fuel with
  | O => None
  | S fuel =>
      if char_at m s =? 0 then Some None
      else if char_at m s =? s8 c then Some (Some s) else strchr fuel m (s + 1) c
  end.

Fixpoint strfind (fuel : nat) (m : mem) (s c : Z) : option Z :=
  match fuel with
  | O => None
  | S fuel =>
      if char_at m s =? 0 then Some s
      else if char_at m s =? s8 c then Some s else strfind fuel m (s + 1) c
  end.

Fixpoint memcmp (n : nat) (m : mem) (s1 s2 : Z) : Z :=
  match n with
  | O => 0
  | S n => if load8 m s1 =? load8 m s2 then memcmp n m (s1 + 1) (s2 + 1)
           else s32 (load8 m s1 - load8 m s2)
  end.

Fixpoint memfind_loop (n : nat) (m : mem) (s c : Z) : Z :=
  match n with
  | O => s
  | S n => if load8 m s =? u8 c then s else memfind_loop n m (s + 1) c
  end.
Definition memfind (m : mem) (s c n : Z) : Z :=
  let ends := u32 (s + n) in memfind_loop (Z.to_nat (ends - s)) m s c.

(** ** strtol *)

Fixpoint skip_blanks (fuel : nat) (m : mem) (s : Z) : option Z :=
  match fuel with
  | O => None
  | S fuel => if (char_at m s =? chr " ") || (char_at m s =? 9) then skip_blanks fuel m (s + 1) else Some s
  end.

Definition digit_of (c : Z) : option Z :=
  if (chr "0" <=? c) && (c <=? chr "9") then Some (c - chr "0")
  else if (chr "a" <=? c) && (c <=? chr "z") then Some (c - chr "a" + 10)
  else if (chr "A" <=? c) && (c <=? chr "Z") then Some (c - chr "A" + 10)
  else None.

Fixpoint strtol_digits (fuel : nat) (m : mem) (s base val : Z) : option (Z * Z) :=
  match fuel with
  | O => None
  | S fuel =>
      match digit_of (char_at m s) with
      | None => Some (s, val)
      | Some dig =>
          if base <=? dig then Some (s, val)
          else strtol_digits fuel m (s + 1) base (s32 (val * base + dig))
      end
  end.

(** The value and the final [*endptr]. *)
Definition strtol (fuel : nat) (m : mem) (s base : Z) : option (Z * Z) :=
  s ← skip_blanks fuel m s;
  let '(s, neg) :=
    if char_at m s =? chr "+" then (s + 1, false)
    else if char_at m s =? chr "-" then (s + 1, true) else (s, false) in
  let '(s, base) :=
    if ((base =? 0) || (base =? 16)) && ((char_at m s =? chr "0") && (char_at m (s + 1) =? chr "x"))
    then (s + 2, 16)
    else if (base =? 0) && (char_at m s =? chr "0") then (s + 1, 8)
    else if base =? 0 then (s, 10) else (s, base) in
  '(s, val) ← strtol_digits fuel m s base 0;
  Some (if neg : bool then s32 (- val) else val, s).

(** ** C strings *)

(** [l] are the bytes of the string at [a], before its NUL. *)
Fixpoint cstr (m : mem) (a : Z) (l : list Z) : Prop :=
  match l with
  | [] => load8 m a = 0
  | c :: l => load8 m a = c ∧ c ≠ 0 ∧ cstr m (a + 1) l
  end.

Lemma char_at_0 m a : (char_at m a =? 0) = (load8 m a =? 0).
Proof.
  unfold char_at, s8. cbv zeta. pose proof (load8_range m a). rewrite u8_small by done.
  destruct (Z.ltb_spec (load8 m a) 128), (Z.eqb_spec (load8 m a) 0);
    first [reflexivity | apply Z.eqb_eq; lia | apply Z.eqb_neq; lia].
Qed.

Lemma char_at_eq m p q : (char_at m p =? char_at m q) = (load8 m p =? load8 m q).
Proof.
  unfold char_at, s8. cbv zeta. pose proof (load8_range m p). pose proof (load8_range m q). rewrite !u8_small by done.
  destruct (Z.ltb_spec (load8 m p) 128), (Z.ltb_spec (load8 m q) 128), (Z.eqb_spec (load8 m p) (load8 m q));
    first [reflexivity | apply Z.eqb_eq; lia | apply Z.eqb_neq; lia].
Qed.

Lemma cstr_ext m m' a l :
  (∀ x, a ≤ x ≤ a + Z.of_nat (length l) → load8 m' x = load8 m x) → cstr m a l → cstr m' a l.
Proof.
  revert a. induction l as [|c l IH]; intros a H; cbn [cstr length] in *.
  - intros <-. apply H. lia.
  - intros (<- & Hc & Hl). rewrite H by lia. split; [done|split; [done|]]. apply IH; [|done]. intros x Hx. apply H. lia.
Qed.

(** Character [i] of a C string, its NUL included. *)
Definition nth_char (l : list Z) (i : nat) : Z := default 0 (l !! i).

Lemma cstr_nth m a l i : cstr m a l → (i <= length l)%nat → load8 m (a + Z.of_nat i) = nth_char l i.
Proof.
  revert a i. induction l as [|c l IH]; intros a [|i] H Hi; cbn [cstr length] in *; try lia.
  - by rewrite Z.add_0_r, H.
  - destruct H as (<- & _). by rewrite Z.add_0_r.
  - replace (a + Z.of_nat (S i)) with (a + 1 + Z.of_nat i) by lia. apply IH; [tauto|lia].
Qed.

Lemma nth_char_pos l i : nth_char l i ≠ 0 → (i < length l)%nat.
Proof.
  intros Hn. unfold nth_char in Hn. destruct (l !! i) eqn:E; [|done]. by apply lookup_lt_Some in E.
Qed.

Lemma cstr_inj m a l k : cstr m a l → cstr m a k → l = k.
Proof.
  revert a k. induction l as [|c l IH]; intros a [|d k]; simpl; [done|naive_solver..|].
  intros (<- & _ & Hl) (<- & _ & Hk). f_equal. by apply (IH (a + 1)).
Qed.

Lemma strlen_loop_run m l : ∀ fuel a n,
  cstr m a l → (length l < fuel)%nat → 0 ≤ n → n + Z.of_nat (length l) < 2147483648 →
  strlen_loop fuel m a n = Some (n + Z.of_nat (length l)).
Proof.
  induction l as [|c l IH]; intros [|fuel] a n Hs Hf Hn Hb; cbn [cstr length] in *; try lia;
    cbn [strlen_loop]; rewrite char_at_0.
  - rewrite Hs, Z.eqb_refl. f_equal. lia.
  - destruct Hs as (<- & Hc & Hs). apply Z.eqb_neq in Hc as ->. rewrite s32_small by lia.
    rewrite IH by (done || lia). f_equal. lia.
Qed.

Lemma strnlen_loop_run m l : ∀ fuel a size n,
  cstr m a l → (length l < fuel)%nat → 0 ≤ size → 0 ≤ n → n + Z.of_nat (length l) < 2147483648 →
  strnlen_loop fuel m a size n = Some (n + Z.min (Z.of_nat (length l)) size).
Proof.
  induction l as [|c l IH]; intros [|fuel] a size n Hs Hf Hz Hn Hb; cbn [cstr length] in *; try lia;
    cbn [strnlen_loop]; rewrite char_at_0.
  - rewrite Hs, Z.eqb_refl, andb_false_r. f_equal. lia.
  - destruct Hs as (<- & Hc & Hs). rewrite (proj2 (Z.eqb_neq _ _) Hc). cbn [negb].
    destruct (Z.ltb_spec 0 size); cbn [andb]; [|f_equal; lia].
    rewrite s32_small, IH by (done || lia). f_equal. lia.
Qed.

(** Bytes in memory. *)
Fixpoint bytes_at (m : mem) (a : Z) (l : list Z) : Prop :=
  match l with
  | [] => True
  | c :: l => load8 m a = c ∧ bytes_at m (a + 1) l
  end.

Lemma bytes_at_ext m m' a l :
  (∀ x, a ≤ x < a + Z.of_nat (length l) → load8 m' x = load8 m x) → bytes_at m a l → bytes_at m' a l.
Proof.
  revert a. induction l as [|c l IH]; intros a H; cbn [bytes_at length] in *; [done|].
  intros [<- Hl]. rewrite H by lia. split; [done|]. apply IH; [|done]. intros x Hx. apply H. lia.
Qed.

Lemma cstr_bytes m a l :
  cstr m a l ↔ bytes_at m a l ∧ Forall (λ c, c ≠ 0) l ∧ load8 m (a + Z.of_nat (length l)) = 0.
Proof.
  revert a. induction l as [|c l IH]; intros a; cbn [cstr bytes_at length].
  - rewrite Z.add_0_r. split; [intros H; split_and!; done || constructor|tauto].
  - rewrite IH, Forall_cons. replace (a + 1 + Z.of_nat (length l)) with (a + Z.of_nat (S (length l))) by lia. tauto.
Qed.

Definition clear_of (a n b k : Z) : Prop := a + n ≤ b ∨ b + k ≤ a.

Lemma strlcpy_loop_run l : ∀ n m dst src,
  cstr m src l → clear_of dst (Z.of_nat n) src (Z.of_nat (length l) + 1) →
  let k := (length l `min` n)%nat in
  ∃ m', strlcpy_loop n m dst src = (m', dst + Z.of_nat k) ∧ bytes_at m' dst (take k l) ∧
        (∀ x, ¬ (dst ≤ x < dst + Z.of_nat k) → load8 m' x = load8 m x).
Proof.
  unfold clear_of. induction l as [|c l IH]; intros [|n] m dst src Hs Hd; cbn [cstr length Nat.min take bytes_at strlcpy_loop] in *;
    try (exists m; rewrite Z.add_0_r; done).
  - rewrite char_at_0, Hs, Z.eqb_refl. exists m. by rewrite Z.add_0_r.
  - destruct Hs as (<- & Hc & Hs). rewrite char_at_0. apply Z.eqb_neq in Hc as ->.
    pose proof (load8_range m src).
    set (m1 := store8 m dst (load8 m src)).
    assert (∀ x, load8 m1 x = if decide (dst = x) then load8 m src else load8 m x) as H1.
    { intros x. unfold m1. rewrite load8_store8. by rewrite u8_small by done. }
    destruct (IH n m1 (dst + 1) (src + 1)) as (m' & E & Hb & Hx).
    + revert Hs. apply cstr_ext. intros x Hx. rewrite H1, decide_False by lia. done.
    + lia.
    + exists m'. split; [rewrite E; f_equal; lia|]. split; [split; [|done]|].
      * rewrite Hx, H1, decide_True by lia. done.
      * intros x Hn. rewrite Hx, H1, decide_False by lia. done.
Qed.

(** [strlcpy] into a buffer of [size] bytes that does not overlap the
    source copies the first [size - 1] characters of the string at most, always
    terminates the copy, returns its length, and writes no byte outside the
    copy and its NUL: never past the buffer. *)
Theorem strlcpy_correct m dst src size l :
  cstr m src l → 0 < size → clear_of dst size src (Z.of_nat (length l) + 1) →
  let k := (length l `min` Z.to_nat (size - 1))%nat in
  ∃ m', strlcpy m dst src size = (m', Z.of_nat k) ∧ cstr m' dst (take k l) ∧ Z.of_nat k < size ∧
        (∀ x, ¬ (dst ≤ x < dst + Z.of_nat k + 1) → load8 m' x = load8 m x).
Proof.
  intros Hs Hz Hd k. unfold strlcpy. apply Z.ltb_lt in Hz as Hz'. rewrite Hz'.
  destruct (strlcpy_loop_run l (Z.to_nat (size - 1)) m dst src Hs) as (m' & E & Hb & Hx).
  { unfold clear_of in *. lia. }
  fold k in E, Hb, Hx. assert (length (take k l) = k) as Hk by (rewrite length_take; lia).
  exists (store8 m' (dst + Z.of_nat k) 0). split_and!; [by rewrite E; f_equal; lia| |lia|].
  - apply cstr_bytes. rewrite Hk. split_and!.
    + revert Hb. apply bytes_at_ext. intros x Hx'. rewrite load8_store8, decide_False by lia. done.
    + apply Forall_take. by apply cstr_bytes in Hs as (_ & ? & _).
    + by rewrite load8_store8, decide_True by lia.
  - intros x Hn. rewrite load8_store8, decide_False by lia. apply Hx. lia.
Qed.

Definition demo_str : mem := <[100 := 74]> (<[101 := 79]> (<[102 := 83]> (λ _, 0))).

Lemma strlcpy_correct_witness :
  (cstr demo_str 100 [74; 79; 83] ∧ 0 < 3 ∧ clear_of 200 3 100 4) ∧
  ∃ m', strlcpy demo_str 200 100 3 = (m', 2) ∧ cstr m' 200 [74; 79] ∧ 2 < 3 ∧
        (∀ x, ¬ (200 ≤ x < 200 + 2 + 1) → load8 m' x = load8 demo_str x).
Proof.
  assert (cstr demo_str 100 [74; 79; 83] ∧ 0 < 3 ∧ clear_of 200 3 100 4) as H.
  { split; [by vm_compute; repeat split|]. unfold clear_of. lia. }
  refine (conj H _). destruct H as (H1 & H2 & H3). apply (strlcpy_correct demo_str 200 100 3 [74; 79; 83] H1 H2 H3).
Defined.

(** The order that [strcmp] decides: that of the first pair of different
    bytes, a proper prefix being smaller. *)
Fixpoint lex_diff (l k : list Z) : Z :=
  match l, k with
  | [], [] => 0
  | [], d :: _ => - d
  | c :: _, [] => c
  | c :: l, d :: k => if c =? d then lex_diff l k else c - d
  end.

Lemma lex_diff_0 l : ∀ k, Forall (λ c, c ≠ 0) l → Forall (λ c, c ≠ 0) k → lex_diff l k = 0 ↔ l = k.
Proof.
  induction l as [|c l IH]; intros [|d k] Hl Hk; cbn [lex_diff]; [done|..].
  - apply Forall_cons in Hk as [Hd _]. split; [lia|done].
  - apply Forall_cons in Hl as [Hc _]. split; [lia|done].
  - apply Forall_cons in Hl as [_ Hl], Hk as [_ Hk]. destruct (Z.eqb_spec c d) as [->|Hcd].
    + rewrite IH by done. split; [by intros ->|congruence].
    + split; [lia|congruence].
Qed.

(** on two C strings [strcmp] returns the difference of the first two
    bytes (as [unsigned char]) where they differ, a proper prefix comparing
    smaller, and [strncmp] the same on the first [n] characters; so [strcmp]
    answers 0 exactly on equal strings. *)
Theorem strcmp_correct m p q l k fuel n :
  cstr m p l → cstr m q k → (length l < fuel)%nat →
  strcmp fuel m p q = Some (lex_diff l k) ∧
  strncmp n m p q = lex_diff (take n l) (take n k) ∧
  (strcmp fuel m p q = Some 0 ↔ l = k).
Proof.
  intros Hl Hk Hf.
  assert (∀ a b, s32 (load8 m a - load8 m b) = load8 m a - load8 m b) as Hs.
  { intros a b. pose proof (load8_range m a). pose proof (load8_range m b). rewrite s32_small; lia. }
  assert (strcmp fuel m p q = Some (lex_diff l k)) as E.
  { revert p q k fuel Hl Hk Hf. induction l as [|c l IH]; intros p q k [|fuel] Hl Hk Hf; cbn [length] in Hf; try lia;
      cbn [cstr strcmp] in *; rewrite char_at_0, char_at_eq, Hs.
    - rewrite Hl. simpl. f_equal. destruct k as [|d k]; cbn [cstr] in Hk; [|destruct Hk as [Hk _]]; rewrite Hk; simpl; lia.
    - destruct Hl as (<- & Hc & Hl). rewrite (proj2 (Z.eqb_neq _ _) Hc). cbn [negb andb lex_diff].
      destruct k as [|d k]; cbn [cstr] in Hk.
      + rewrite Hk, (proj2 (Z.eqb_neq _ _) Hc). f_equal. lia.
      + destruct Hk as (<- & _ & Hk). destruct (load8 m p =? load8 m q); [|done]. apply IH; done || lia. }
  split; [exact E|]. split.
  - clear E fuel Hf. revert p q k n Hl Hk. induction l as [|c l IH]; intros p q k [|n] Hl Hk; try done;
      cbn [cstr strncmp take] in *; rewrite char_at_0, char_at_eq, Hs.
    + rewrite Hl. simpl. destruct k as [|d k]; cbn [cstr] in Hk; [|destruct Hk as [Hk _]]; rewrite Hk; simpl; lia.
    + destruct Hl as (<- & Hc & Hl). rewrite (proj2 (Z.eqb_neq _ _) Hc). cbn [negb andb].
      destruct k as [|d k]; cbn [cstr] in Hk; cbn [take lex_diff].
      * rewrite Hk, (proj2 (Z.eqb_neq _ _) Hc). lia.
      * destruct Hk as (<- & _ & Hk). destruct (load8 m p =? load8 m q); [|done]. by apply IH.
  - rewrite E. rewrite <- lex_diff_0.
    + split; [by intros [=]|by intros ->].
    + by apply cstr_bytes in Hl as (_ & ? & _).
    + by apply cstr_bytes in Hk as (_ & ? & _).
Qed.

Lemma strcmp_correct_witness :
  (cstr demo_str 100 [74; 79; 83] ∧ cstr demo_str 101 [79; 83] ∧ (3 < 4)%nat) ∧
  strcmp 4 demo_str 100 101 = Some (-5) ∧ strncmp 1 demo_str 100 101 = -5 ∧
  (strcmp 4 demo_str 100 101 = Some 0 ↔ [74; 79; 83] = [79; 83]).
Proof.
  assert (cstr demo_str 100 [74; 79; 83]) as H1 by (by vm_compute; repeat split).
  assert (cstr demo_str 101 [79; 83]) as H2 by (by vm_compute; repeat split).
  refine (conj (conj H1 (conj H2 _)) _); [lia|].
  apply (strcmp_correct demo_str 100 101 _ _ 4 1 H1 H2). simpl. lia.
Defined.
