(* ===== verification/Printfmt.v ===== *)
(** * lib/printfmt.c, kern/printf.c and lib/printf.c: formatted output

    [vprintfmt] is generic in its [putch] callback, as in C: the callback is a
    function on the caller's state [P], and the bytes of the format and of the
    string arguments are read from that state, because [vsnprintf]'s callback
    writes to the same memory.  The variable arguments are the words [va 0],
    [va 1], ...; a literal in the code is a memory of its own ([lit_mem]).  The
    loop takes fuel and answers [None] when that runs out. *)
From S2P Require Import Prelude Word Layout Mem CString StrLib.
From Stdlib Require Import Ascii.

Definition lit_mem (s : string) : mem :=
  λ a, match String.get (Z.to_nat a) s with Some c => chr c | None => 0 end.

(** The strings of [error_string]; there is none for 0. *)
Definition error_string (err : Z) : option string :=
  if err =? E_UNSPECIFIED then Some "unspecified error"%string
  else if err =? E_BAD_ENV then Some "bad environment"%string
  else if err =? E_INVAL then Some "invalid parameter"%string
  else if err =? E_NO_MEM then Some "out of memory"%string
  else if err =? E_NO_FREE_ENV then Some "out of environments"%string
  else if err =? E_FAULT then Some "segmentation fault"%string
  else if err =? E_IPC_NOT_RECV then Some "env is not recving"%string
  else if err =? E_EOF then Some "unexpected end of file"%string
  else None.

Definition digits := lit_mem "0123456789abcdef".

(** [va_arg]: the value and the position of the next argument. *)
Definition getuint (va : Z → Z) (k lflag : Z) : Z * Z :=
  if 2 <=? lflag then (u32 (va k) + 4294967296 * u32 (va (k + 1)), k + 2)
  else if negb (lflag =? 0) then (u32 (va k), k + 1)
  else (u32 (va k), k + 1).
Definition getint (va : Z → Z) (k lflag : Z) : Z * Z :=
  if 2 <=? lflag then (s64 (u32 (va k) + 4294967296 * u32 (va (k + 1))), k + 2)
  else if negb (lflag =? 0) then (s32 (va k), k + 1)
  else (s32 (va k), k + 1).

Section printfmt.
Context {P : Type} (putch : Z → P → P).

Fixpoint repch (n : nat) (c : Z) (p : P) : P :=
  match n with O => p | S n => repch n c (putch c p) end.

(** [while (--width > 0) putch(padc, putdat)] runs [width - 1] times. *)
Fixpoint printnum (fuel : nat) (num base width padc : Z) (p : P) : P :=
  let p :=
    if base <=? num then
      match fuel with
      | O => p
      | S fuel => printnum fuel (num / base) base (s32 (width - 1)) padc p
      end
    else repch (Z.to_nat (s32 (width - 1))) padc p in
  putch (load8 digits (num mod base)) p.

(** A [num] below 2^64 has at most 22 digits in base 8. *)
Definition number (num base width padc : Z) (p : P) : P := printnum 22 num base width padc p.

(** [for (; (ch = *p++) != '\0' && (precision < 0 || --precision >= 0); width--)] *)
Fixpoint print_str (fuel : nat) (src : P → mem) (altflag : bool) (s precision width : Z) (p : P)
  : option (Z * P) :=
  match fuel with
  | O => None
  | S fuel =>
      let ch := char_at (src p) s in
      let precision' := if precision <? 0 then precision else s32 (precision - 1) in
      if negb (ch =? 0) && ((precision <? 0) || (0 <=? precision')) then
        let c := if altflag && ((ch <? chr " ") || (chr "~" <? ch)) then chr "?" else ch in
        print_str fuel src altflag (s + 1) precision' (s32 (width - 1)) (putch c p)
      else Some (width, p)
  end.

Definition print_string (fuel : nat) (src : P → mem) (altflag : bool) (s precision width padc : Z) (p : P)
  : option P :=
  '(width, p) ← (if (0 <? width) && negb (padc =? chr "-") then
      len ← strnlen fuel (src p) s (u32 precision);
      let width := s32 (width - len) in
      Some (Z.min width 0, repch (Z.to_nat width) padc p)
    else Some (width, p));
  '(width, p) ← print_str fuel src altflag s precision width p;
  Some (repch (Z.to_nat width) (chr " ") p).

(** The flags of an escape, and where the scanner is: in literal text, after
    a ['%'] and its flags, or in the digits of a width. *)
Record flags := mkFlags { padc : Z; width : Z; precision : Z; lflag : Z; altflag : bool }.
Inductive mode := Text | Escape (f : flags) | Digits (f : flags).

Definition flags0 : flags := mkFlags (chr " ") (-1) (-1) 0 false.
Definition process_precision (f : flags) : flags :=
  if width f <? 0 then mkFlags (padc f) (precision f) (-1) (lflag f) (altflag f) else f.
Definition is_digit (c : Z) : bool := (chr "0" <=? c) && (c <=? chr "9").

(** [for (fmt--; fmt[-1] != '%'; fmt--)] *)
Fixpoint back_to_percent (fuel : nat) (m : mem) (fmt : Z) : option Z :=
  match fuel with
  | O => None
  | S fuel => if char_at m (fmt - 1) =? chr "%" then Some fmt else back_to_percent fuel m (fmt - 1)
  end.

(** ['d'] and ['o']: a sign, then the magnitude. *)
Definition signed_number (num base width padc : Z) (p : P) : P :=
  if s64 num <? 0 then number (u64 (- s64 num)) base width padc (putch (chr "-") p)
  else number (u64 num) base width padc p.

Fixpoint vprintfmt (fuel : nat) (src : P → mem) (fmt : Z) (va : Z → Z) (k : Z) (md : mode) (p : P)
  : option P :=
  match fuel with
  | O => None
  | S fuel' =>
      let ch := load8 (src p) fmt in
      let text k p := vprintfmt fuel' src (fmt + 1) va k Text p in
      match md with
      | Text =>
          if ch =? chr "%" then vprintfmt fuel' src (fmt + 1) va k (Escape flags0) p
          else if ch =? 0 then Some p
          else text k (putch ch p)
      | Digits f =>
          if is_digit (s8 ch) then
            let f := mkFlags (padc f) (width f) (s32 (precision f * 10 + s8 ch - chr "0")) (lflag f) (altflag f) in
            vprintfmt fuel' src (fmt + 1) va k (Digits f) p
          else vprintfmt fuel' src fmt va k (Escape (process_precision f)) p
      | Escape f =>
          let again f k := vprintfmt fuel' src (fmt + 1) va k (Escape f) p in
          if ch =? chr "-" then again (mkFlags (chr "-") (width f) (precision f) (lflag f) (altflag f)) k
          else if ch =? chr "0" then again (mkFlags (chr "0") (width f) (precision f) (lflag f) (altflag f)) k
          else if is_digit ch then
            vprintfmt fuel' src (fmt + 1) va k
              (Digits (mkFlags (padc f) (width f) (ch - chr "0") (lflag f) (altflag f))) p
          else if ch =? chr "*" then
            again (process_precision (mkFlags (padc f) (width f) (s32 (va k)) (lflag f) (altflag f))) (k + 1)
          else if ch =? chr "." then
            again (if width f <? 0 then mkFlags (padc f) 0 (precision f) (lflag f) (altflag f) else f) k
          else if ch =? chr "#" then again (mkFlags (padc f) (width f) (precision f) (lflag f) true) k
          else if ch =? chr "l" then again (mkFlags (padc f) (width f) (precision f) (lflag f + 1) (altflag f)) k
          else if ch =? chr "c" then text (k + 1) (putch (s32 (va k)) p)
          else if ch =? chr "e" then
            let err := s32 (va k) in
            let err := if err <? 0 then s32 (- err) else err in
            match (if MAXERROR <=? err then None else error_string err) with
            | None => p ← vprintfmt fuel' (λ _, lit_mem "error %d") 0 (λ _, err) 0 Text p; text (k + 1) p
            | Some s => p ← print_string fuel' (λ _, lit_mem s) false 0 (-1) (-1) (chr " ") p; text (k + 1) p
            end
          else if ch =? chr "s" then
            let s := u32 (va k) in
            p ← (if s =? 0
                 then print_string fuel' (λ _, lit_mem "(null)") (altflag f) 0 (precision f) (width f) (padc f) p
                 else print_string fuel' src (altflag f) s (precision f) (width f) (padc f) p);
            text (k + 1) p
          else if ch =? chr "d" then
            let '(num, k) := getint va k (lflag f) in text k (signed_number num 10 (width f) (padc f) p)
          else if ch =? chr "u" then
            let '(num, k) := getuint va k (lflag f) in text k (number num 10 (width f) (padc f) p)
          else if ch =? chr "o" then
            let '(num, k) := getint va k (lflag f) in text k (signed_number num 8 (width f) (padc f) p)
          else if ch =? chr "p" then
            text (k + 1) (number (u32 (va k)) 16 (width f) (padc f) (putch (chr "x") (putch (chr "0") p)))
          else if ch =? chr "x" then
            let '(num, k) := getuint va k (lflag f) in text k (number num 16 (width f) (padc f) p)
          else if ch =? chr "%" then text k (putch ch p)
          else
            let p := putch (chr "%") p in
            fmt ← back_to_percent fuel' (src p) fmt;
            vprintfmt fuel' src fmt va k Text p
      end
  end.

Definition printfmt (fuel : nat) (src : P → mem) (fmt : Z) (va : Z → Z) (p : P) : option P :=
  vprintfmt fuel src fmt va 0 Text p.
End printfmt.

(** ** vsnprintf *)

Record sprintbuf := mkSprintbuf { sb_mem : mem; sb_buf : Z; sb_ebuf : Z; sb_cnt : Z }.

Definition sprintputch (ch : Z) (b : sprintbuf) : sprintbuf :=
  let cnt := s32 (sb_cnt b + 1) in
  if sb_buf b <? sb_ebuf b
  then mkSprintbuf (store8 (sb_mem b) (sb_buf b) ch) (sb_buf b + 1) (sb_ebuf b) cnt
  else mkSprintbuf (sb_mem b) (sb_buf b) (sb_ebuf b) cnt.

Definition vsnprintf (fuel : nat) (m : mem) (buf n fmt : Z) (va : Z → Z) : option (Z * mem) :=
  let b := mkSprintbuf m buf (buf + n - 1) 0 in
  if (buf =? 0) || (n <? 1) then Some (- E_INVAL, m)
  else
    b ← vprintfmt sprintputch fuel sb_mem fmt va 0 Text b;
    Some (sb_cnt b, store8 (sb_mem b) (sb_buf b) 0).

(** ** The kernel's cprintf: [putch] counts in the pointer, not in [*cnt] *)

Record kout := mkKout { k_chars : list Z; k_cnt : Z }.
Definition kputch (ch : Z) (o : kout) : kout := mkKout (k_chars o ++ [ch]) (k_cnt o).
Definition vcprintf (fuel : nat) (m : mem) (fmt : Z) (va : Z → Z) : option (Z * list Z) :=
  o ← vprintfmt kputch fuel (λ _, m) fmt va 0 Text (mkKout [] 0);
  Some (k_cnt o, k_chars o).

(** ** The user library's cprintf: 255 bytes per [sys_cputs] *)

Record printbuf := mkPrintbuf { pb_buf : list Z; pb_cnt : Z; pb_sys : list (list Z) }.
Definition uputch (ch : Z) (b : printbuf) : printbuf :=
  let buf := pb_buf b ++ [u8 ch] in
  if Z.of_nat (length buf) =? 256 - 1
  then mkPrintbuf [] (s32 (pb_cnt b + 1)) (pb_sys b ++ [buf])
  else mkPrintbuf buf (s32 (pb_cnt b + 1)) (pb_sys b).
Definition user_vcprintf (fuel : nat) (m : mem) (fmt : Z) (va : Z → Z) : option (Z * list (list Z)) :=
  b ← vprintfmt uputch fuel (λ _, m) fmt va 0 Text (mkPrintbuf [] 0 []);
  Some (pb_cnt b, pb_sys b ++ [pb_buf b]).

Example printf_d :
  vcprintf 40 (lit_mem "a=%05d, %x%% %5e|%5s %5qz") 0
    (λ k, if k =? 0 then -42 else if k =? 1 then 0xbeef else if k =? 2 then -4 else 0) =
  Some (0, (λ c, chr c) <$> String.list_ascii_of_string "a=-00042, beef% out of memory|(null) %5qz").
Proof. vm_compute. reflexivity. Qed.

(** ** Formatting depends on the state only through [putch] and the memory

    Two runs of the formatter whose callbacks preserve a relation, and that
    read the same memory in related states, stay in the relation. *)
Section simulation.
Context {P Q : Type} (putch : Z → P → P) (putch' : Z → Q → Q).
Context (R : P → Q → Prop).
Hypothesis putch_sim : ∀ c p q, R p q → R (putch c p) (putch' c q).

Lemma repch_sim n c p q : R p q → R (repch putch n c p) (repch putch' n c q).
Proof. revert p q. induction n as [|n IH]; simpl; auto. Qed.

Lemma printnum_sim fuel num base width padc p q :
  R p q → R (printnum putch fuel num base width padc p) (printnum putch' fuel num base width padc q).
Proof.
  revert num width p q. induction fuel as [|fuel IH]; intros num width p q H; cbn [printnum];
    apply putch_sim; case_match; auto using repch_sim.
Qed.

Definition rel2 (x : option (Z * P)) (y : option (Z * Q)) : Prop :=
  match x, y with
  | Some (n, p), Some (n', q) => n = n' ∧ R p q
  | None, None => True
  | _, _ => False
  end.

Lemma print_str_sim s1 s2 fuel alt : (∀ p q, R p q → s1 p = s2 q) → ∀ s precision width p q, R p q →
  rel2 (print_str putch fuel s1 alt s precision width p) (print_str putch' fuel s2 alt s precision width q).
Proof.
  intros Hsrc. induction fuel as [|fuel IH]; intros s precision width p q H; cbn [print_str]; [done|].
  rewrite (Hsrc _ _ H). case_match; [|done]. apply IH. auto.
Qed.

Lemma print_string_sim s1 s2 fuel alt s precision width padc p q :
  (∀ p q, R p q → s1 p = s2 q) → R p q →
  option_Forall2 R (print_string putch fuel s1 alt s precision width padc p)
    (print_string putch' fuel s2 alt s precision width padc q).
Proof.
  intros Hsrc H. unfold print_string. rewrite (Hsrc _ _ H).
  assert (∀ w p q, R p q →
    option_Forall2 R ('(w, p) ← print_str putch fuel s1 alt s precision w p; Some (repch putch (Z.to_nat w) (chr " ") p))
      ('(w, q) ← print_str putch' fuel s2 alt s precision w q; Some (repch putch' (Z.to_nat w) (chr " ") q))) as Hend.
  { intros w p' q' H'. pose proof (print_str_sim s1 s2 fuel alt Hsrc s precision w p' q' H') as Hs. unfold rel2 in Hs.
    repeat case_match; try done; simpl; [|constructor]. destruct Hs as [-> Hs]. constructor. by apply repch_sim. }
  case_match; [|by apply Hend].
  destruct (strnlen fuel (s2 q) s (u32 precision)) as [n|]; simpl; [|constructor]. by apply Hend, repch_sim.
Qed.

Lemma bind_sim (x : option P) (y : option Q) (f : P → option P) (g : Q → option Q) :
  option_Forall2 R x y → (∀ p q, R p q → option_Forall2 R (f p) (g q)) →
  option_Forall2 R (x ≫= f) (y ≫= g).
Proof. intros [p q Hpq|] H; simpl; [by apply H|constructor]. Qed.

Lemma vprintfmt_sim fuel : ∀ s1 s2 fmt va k md p q, (∀ p q, R p q → s1 p = s2 q) → R p q →
  option_Forall2 R (vprintfmt putch fuel s1 fmt va k md p) (vprintfmt putch' fuel s2 fmt va k md q).
Proof.
  induction fuel as [|fuel IH]; intros s1 s2 fmt va k md p q Hs H; cbn [vprintfmt]; [constructor|].
  rewrite (Hs _ _ H). unfold signed_number, number.
  repeat case_match;
    first [ apply IH; auto using printnum_sim
          | constructor; done
          | apply bind_sim; [|intros p' q' H'; apply IH; auto];
            first [apply print_string_sim; auto; fail | apply IH; auto; fail]
          | idtac ].
  rewrite (Hs _ _ (putch_sim _ _ _ H)). destruct (back_to_percent _ _ _); simpl; [|constructor]. apply IH; auto.
Qed.
End simulation.

(** One run: what [putch] preserves, the formatter preserves. *)
Lemma vprintfmt_inv {P} (putch : Z → P → P) (I : P → Prop) fuel src fmt va k md p p' :
  (∀ c p, I p → I (putch c p)) → I p → vprintfmt putch fuel src fmt va k md p = Some p' → I p'.
Proof.
  intros HI Hp E. pose proof (vprintfmt_sim putch putch (λ p q, p = q ∧ I p)
    ltac:(intros c ? ? [<- ?]; auto) fuel src src fmt va k md p p ltac:(intros ? ? [<- _]; done) ltac:(done)) as H.
  rewrite E in H. inversion H as [x y Hxy|]; subst. by destruct Hxy.
Qed.

(** The user library's [cprintf] prints what the kernel's does on the same
    memory and arguments: the 255-byte chunks it passes to [sys_cputs], put
    together, are the low bytes of the characters the kernel's [putch] gets, in
    order; every chunk but the last fills the buffer and none overflows its 256
    bytes; the result is the number of characters. *)
Theorem user_vcprintf_refines fuel m fmt va :
  match user_vcprintf fuel m fmt va, vcprintf fuel m fmt va with
  | Some (cnt, calls), Some (_, chars) =>
      concat calls = (u8 <$> chars) ∧ cnt = s32 (Z.of_nat (length chars)) ∧
      ∃ full last, calls = full ++ [last] ∧ Forall (λ c, length c = 255%nat) full ∧ (length last < 255)%nat
  | None, None => True
  | _, _ => False
  end.
Proof.
  set (R := λ (b : printbuf) (o : kout), concat (pb_sys b) ++ pb_buf b = (u8 <$> k_chars o) ∧
    pb_cnt b = s32 (Z.of_nat (length (k_chars o))) ∧ Forall (λ c, length c = 255%nat) (pb_sys b) ∧
    (length (pb_buf b) < 255)%nat).
  assert (∀ c b o, R b o → R (uputch c b) (kputch c o)) as HR.
  { intros c b o (Hc & Hn & Hf & Hl). unfold R, uputch, kputch.
    assert (s32 (pb_cnt b + 1) = s32 (Z.of_nat (length (k_chars o ++ [c])))) as Hcnt.
    { rewrite Hn, length_app, s32_s32_add. simpl length. f_equal. lia. }
    rewrite length_app. simpl length. destruct (Z.eqb_spec (Z.of_nat (length (pb_buf b) + 1)) (256 - 1)); cbn [pb_sys pb_buf pb_cnt k_chars].
    - rewrite concat_app, fmap_app, <- Hc. simpl. rewrite !app_nil_r, app_assoc. split_and!; [done|done| |lia].
      apply Forall_app. split; [done|]. constructor; [|constructor]. rewrite length_app. simpl. lia.
    - rewrite fmap_app, <- Hc, app_assoc. split_and!; [done|exact Hcnt|done|]. rewrite length_app. simpl. lia. }
  pose proof (vprintfmt_sim uputch kputch R HR fuel (λ _, m) (λ _, m) fmt va 0 Text (mkPrintbuf [] 0 []) (mkKout [] 0)
    ltac:(done) ltac:(unfold R; simpl; split_and!; [done..|constructor|lia])) as H.
  unfold user_vcprintf, vcprintf. destruct H as [b o (Hc & Hn & Hf & Hl)|]; simpl; [|done].
  rewrite concat_app. simpl. rewrite app_nil_r. split_and!; [done|done|]. by exists (pb_sys b), (pb_buf b).
Qed.

(** ** Termination

    On a terminated format whose arguments are addresses of terminated
    strings, enough fuel gives a result.  The proof runs two formatters in
    lockstep on states in which these strings read the same, so that it also
    compares runs on different memories. *)
Section termination.
Context {P Q : Type} (putch : Z → P → P) (putch' : Z → Q → Q) (R : P → Q → Prop).
Hypothesis putch_sim : ∀ c p q, R p q → R (putch c p) (putch' c q).

(** The string [l] at [a], in both states. *)
Definition both (s1 : P → mem) (s2 : Q → mem) (a : Z) (l : list Z) : Prop :=
  ∀ p q, R p q → cstr (s1 p) a l ∧ cstr (s2 q) a l.

Definition done2 (x : option P) (y : option Q) : Prop := ∃ p q, x = Some p ∧ y = Some q ∧ R p q.

Lemma done2_bind (x : option P) (y : option Q) (f : P → option P) (g : Q → option Q) :
  done2 x y → (∀ p q, R p q → done2 (f p) (g q)) → done2 (x ≫= f) (y ≫= g).
Proof. intros (p & q & -> & -> & H) Hf. simpl. auto. Qed.

Lemma both_const a l m : cstr m a l → both (λ _, m) (λ _, m) a l.
Proof. by intros H p q _. Qed.

Lemma both_head s1 s2 a c l p q : both s1 s2 a (c :: l) → R p q →
  load8 (s1 p) a = c ∧ load8 (s2 q) a = c ∧ c ≠ 0 ∧ both s1 s2 (a + 1) l.
Proof.
  intros H HR. destruct (H p q HR) as [(-> & Hc & _) (-> & _ & _)]. split_and!; try done.
  intros p' q' H'. by destruct (H p' q' H') as [(_ & _ & ?) (_ & _ & ?)].
Qed.

Lemma strnlen_total m m' l : ∀ fuel a size n, cstr m a l → cstr m' a l → (length l < fuel)%nat →
  ∃ r, strnlen_loop fuel m a size n = Some r ∧ strnlen_loop fuel m' a size n = Some r.
Proof.
  induction l as [|c l IH]; intros [|fuel] a size n H H' Hf; cbn [cstr length] in *; try lia; cbn [strnlen_loop];
    rewrite !char_at_0.
  - rewrite H, H', Z.eqb_refl, andb_false_r. by exists n.
  - destruct H as (-> & Hc & H), H' as (-> & _ & H'). case_match; [|by exists n]. apply IH; done || lia.
Qed.

Lemma print_str_total s1 s2 alt l : ∀ fuel s precision width p q,
  both s1 s2 s l → (length l < fuel)%nat → R p q →
  ∃ w p' q', print_str putch fuel s1 alt s precision width p = Some (w, p') ∧
             print_str putch' fuel s2 alt s precision width q = Some (w, q') ∧ R p' q'.
Proof.
  induction l as [|c l IH]; intros [|fuel] s precision width p q Hb Hf HR; cbn [length] in Hf; try lia;
    cbn [print_str]; unfold char_at.
  - destruct (Hb p q HR) as [-> ->]. simpl. by exists width, p, q.
  - destruct (both_head _ _ _ _ _ _ _ Hb HR) as (-> & -> & _ & Hb').
    case_match; [|by exists width, p, q]. apply IH; [done|lia|]. by apply putch_sim.
Qed.

Lemma print_string_total s1 s2 alt l fuel s precision width padc p q :
  both s1 s2 s l → (length l < fuel)%nat → R p q →
  done2 (print_string putch fuel s1 alt s precision width padc p)
    (print_string putch' fuel s2 alt s precision width padc q).
Proof.
  intros Hb Hf HR. unfold print_string.
  assert (∀ w p q, R p q → done2
      ('(w, p) ← print_str putch fuel s1 alt s precision w p; Some (repch putch (Z.to_nat w) (chr " ") p))
      ('(w, q) ← print_str putch' fuel s2 alt s precision w q; Some (repch putch' (Z.to_nat w) (chr " ") q))) as Hend.
  { intros w p1 q1 H1. destruct (print_str_total s1 s2 alt l fuel s precision w p1 q1 Hb Hf H1) as (w' & p2 & q2 & -> & -> & H2).
    simpl. eexists _, _. split; [done|split; [done|]]. by apply repch_sim. }
  case_match; [|by apply Hend]. destruct (Hb p q HR) as [H1 H2].
  destruct (strnlen_total (s1 p) (s2 q) l fuel s (u32 precision) 0 H1 H2 Hf) as (n & E1 & E2).
  unfold strnlen. rewrite E1, E2. simpl. by apply Hend, repch_sim.
Qed.

Lemma back_to_percent_total m m' a l k : cstr m a l → cstr m' a l → nth_char l k = chr "%" →
  ∀ fuel i, (k < i)%nat → (i <= length l)%nat → (i - k <= fuel)%nat →
  ∃ j, (k < j <= i)%nat ∧ back_to_percent fuel m (a + Z.of_nat i) = Some (a + Z.of_nat j) ∧
       back_to_percent fuel m' (a + Z.of_nat i) = Some (a + Z.of_nat j).
Proof.
  intros H H' Hk fuel. induction fuel as [|fuel IH]; intros i Hi Hl Hf; [lia|]. cbn [back_to_percent]. unfold char_at.
  replace (a + Z.of_nat i - 1) with (a + Z.of_nat (i - 1)) by lia.
  rewrite (cstr_nth m a l), (cstr_nth m' a l) by (done || lia).
  destruct (Nat.eq_dec (i - 1) k) as [->|].
  - rewrite Hk. exists i. split_and!; done || lia.
  - case_match; [exists i; split_and!; done || lia|].
    destruct (IH (i - 1)%nat) as (j & Hj & E); [lia..|]. exists j. split; [lia|exact E].
Qed.

Lemma error_d_run {S} (pc : Z → S → S) fuel err s :
  vprintfmt pc (10 + fuel) (λ _, lit_mem "error %d") 0 (λ _, err) 0 Text s =
  Some (signed_number pc (s32 err) 10 (-1) (chr " ") (fold_left (λ s c, pc (chr c) s) (String.list_ascii_of_string "error ") s)).
Proof. reflexivity. Qed.

Lemma puts_sim l p q : R p q →
  R (fold_left (λ s c, putch (chr c) s) l p) (fold_left (λ s c, putch' (chr c) s) l q).
Proof. revert p q. induction l as [|c l IH]; simpl; auto. Qed.

Lemma error_string_total err s : error_string err = Some s →
  ∃ l, (length l <= 30)%nat ∧ cstr (lit_mem s) 0 l.
Proof.
  unfold error_string. intros E.
  repeat (destruct (_ =? _);
    [injection E as <-;
     match goal with |- context [lit_mem ?s] => exists (chr <$> String.list_ascii_of_string s) end;
     split; [by vm_compute; lia|vm_compute; repeat split; done]|]).
  done.
Qed.

(** The fuel that is left for the rest of the format [L], at character [i] of
    it: in text, or in an escape that started at [e]. *)
Definition cost (L B : nat) (e i : nat) (md : mode) : nat :=
  match md with
  | Text => (L - i) * (2 * L + 4)
  | Escape _ => (L - e) * (2 * L + 4) + 2 * (L - i) + 1
  | Digits _ => (L - e) * (2 * L + 4) + 2 * (L - i) + 2
  end + B + 40.

Lemma cost_back L B e i f fuel :
  (cost L B (S e) i (Escape f) < S fuel)%nat → (i <= L)%nat → (i - e <= fuel)%nat.
Proof.
  unfold cost. intros Hf Hi. pose proof (Nat.mul_le_mono_l 1 (2 * L + 4) (L - S e)). lia.
Qed.

Lemma cost_retry L B e i j f fuel :
  (cost L B (S e) i (Escape f) < S fuel)%nat → (e < j)%nat → (cost L B (S e) j Text < fuel)%nat.
Proof.
  unfold cost. intros Hf Hj. pose proof (Nat.mul_le_mono_r (L - j) (L - S e) (2 * L + 4)). lia.
Qed.

Lemma vprintfmt_total s1 s2 a L va B :
  both s1 s2 a L → (∀ k, u32 (va k) ≠ 0 → ∃ l, both s1 s2 (u32 (va k)) l ∧ (length l <= B)%nat) →
  ∀ fuel k e i md p q, R p q → (i <= length L)%nat →
  (md = Text ∨ (e < i)%nat ∧ nth_char L e = chr "%") →
  (cost (length L) B (S e) i md < fuel)%nat →
  done2 (vprintfmt putch fuel s1 (a + Z.of_nat i) va k md p) (vprintfmt putch' fuel s2 (a + Z.of_nat i) va k md q).
Proof.
  intros HL Hva fuel. induction fuel as [|fuel IH]; intros k e i md p q HR Hi Hmd Hf; [lia|]. cbn [vprintfmt].
  destruct (HL p q HR) as [H1 H2]. rewrite (cstr_nth _ a L i H1), (cstr_nth _ a L i H2) by done.
  replace (a + Z.of_nat i + 1) with (a + Z.of_nat (S i)) by lia.
  assert (nth_char L i ≠ 0 → (i < length L)%nat) as Hlt by apply nth_char_pos.
  (* text continues after the current character *)
  assert (nth_char L i ≠ 0 → ∀ k p q, R p q →
    done2 (vprintfmt putch fuel s1 (a + Z.of_nat (S i)) va k Text p) (vprintfmt putch' fuel s2 (a + Z.of_nat (S i)) va k Text q)) as Htext.
  { intros Hn k' p' q' H'. specialize (Hlt Hn). apply (IH k' e); [done|lia|by left|]. unfold cost in *.
    destruct Hmd as [->|[He _]]; [nia|]. destruct md; nia. }
  assert (nth_char L i ≠ 0 → md ≠ Text → ∀ k md', md' ≠ Text →
    done2 (vprintfmt putch fuel s1 (a + Z.of_nat (S i)) va k md' p) (vprintfmt putch' fuel s2 (a + Z.of_nat (S i)) va k md' q)) as Hagain.
  { intros Hn Hmt k' md' Hmd'. specialize (Hlt Hn). destruct Hmd as [->|[He He']]; [done|].
    apply (IH k' e); [done|lia|right; split; [lia|done]|]. unfold cost in *. destruct md, md'; try done; lia. }
  destruct md as [|f|f].
  - destruct (Z.eqb_spec (nth_char L i) (chr "%")) as [E|E].
    + assert (nth_char L i ≠ 0) as Hn by (by rewrite E). specialize (Hlt Hn).
      apply (IH k i); [done|lia|right; split; [lia|done]|]. unfold cost in *.
      replace (length L - i)%nat with (S (length L - S i)) in Hf by lia. lia.
    + destruct (Z.eqb_spec (nth_char L i) 0); [by eexists _, _|]. apply Htext; auto.
  - unfold signed_number, number.
    assert (∀ c, (nth_char L i =? chr c) = true → chr c ≠ 0 → nth_char L i ≠ 0) as Hc.
    { intros c E%Z.eqb_eq ?. by rewrite E. }
    assert (is_digit (nth_char L i) = true → nth_char L i ≠ 0) as Hd by (unfold is_digit; change (chr "0") with 48; lia).
    assert (B + 35 < fuel)%nat as HB by (unfold cost in Hf; lia).
    repeat match goal with
    | |- done2 (if ?b then _ else _) _ =>
        destruct b eqn:?; [first [apply Hagain; solve [eauto | done]
          | repeat case_match; (apply Htext; [solve [eauto | eapply Hc; done]|
              solve [repeat first [exact HR | apply (printnum_sim putch putch' R putch_sim) | apply putch_sim]]])
          | idtac]|]
    end.
    + assert (nth_char L i ≠ 0) as Hn by (eapply Hc; done). cbv zeta.
      set (err := if s32 (va k) <? 0 then _ else _). case_match eqn:E.
      * destruct (MAXERROR <=? err); [done|]. destruct (error_string_total _ _ E) as (l & Hl & Hs).
        apply done2_bind; [|auto]. apply (print_string_total _ _ _ l); [by apply both_const|lia|done].
      * apply done2_bind; [|auto]. replace fuel with (10 + (fuel - 10))%nat by lia.
        rewrite !error_d_run. eexists _, _. split; [reflexivity|split; [reflexivity|]]. unfold signed_number, number.
        destruct (s64 _ <? 0); (apply (printnum_sim putch putch' R putch_sim)); [apply putch_sim|]; by apply puts_sim.
    + assert (nth_char L i ≠ 0) as Hn by (eapply Hc; done). apply done2_bind; [|auto].
      destruct (Z.eqb_spec (u32 (va k)) 0) as [|Hnz].
      * apply (print_string_total _ _ _ (chr <$> String.list_ascii_of_string "(null)"));
          [apply both_const; by vm_compute; repeat split|simpl; lia|done].
      * destruct (Hva k Hnz) as (l & Hl & Hle). apply (print_string_total _ _ _ l); [done|lia|done].
    + destruct Hmd as [|[He He']]; [done|].
      destruct (HL _ _ (putch_sim (chr "%") _ _ HR)) as [H1' H2'].
      destruct (back_to_percent_total _ _ a L e H1' H2' He' fuel i) as (j & Hj & E1 & E2); [lia|lia| |].
      { exact (cost_back _ _ _ _ _ _ Hf Hi). }
      cbv zeta. rewrite E1, E2. simpl. apply (IH k e); [by apply putch_sim|clear -Hj Hi; lia|by left|].
      apply (cost_retry _ _ e i j f); [exact Hf|lia].
  - destruct Hmd as [|[He He']]; [done|]. destruct (is_digit (s8 (nth_char L i))) eqn:Hd.
    + apply Hagain; [|done..]. intros E. by rewrite E in Hd.
    + apply (IH k e); [done|lia|by right|]. unfold cost in *. lia.
Qed.
End termination.

(** ** vsnprintf *)

Definition snprintf_sim (m : mem) (buf n : Z) (b : sprintbuf) (o : kout) : Prop :=
  let k := Z.min (Z.of_nat (length (k_chars o))) (n - 1) in
  sb_ebuf b = buf + n - 1 ∧ sb_buf b = buf + k ∧ sb_cnt b = s32 (Z.of_nat (length (k_chars o))) ∧
  k_cnt o = 0 ∧ bytes_at (sb_mem b) buf (u8 <$> take (Z.to_nat (n - 1)) (k_chars o)) ∧
  (∀ x, ¬ (buf ≤ x < buf + k) → load8 (sb_mem b) x = load8 m x).

Lemma bytes_at_app m a l k : bytes_at m a (l ++ k) ↔ bytes_at m a l ∧ bytes_at m (a + Z.of_nat (length l)) k.
Proof.
  revert a. induction l as [|c l IH]; intros a; cbn [bytes_at app length].
  - rewrite Z.add_0_r. tauto.
  - rewrite IH. replace (a + 1 + Z.of_nat (length l)) with (a + Z.of_nat (S (length l))) by lia. tauto.
Qed.

Lemma sprintputch_sim m buf n : 1 ≤ n → ∀ c b o, snprintf_sim m buf n b o → snprintf_sim m buf n (sprintputch c b) (kputch c o).
Proof.
  intros Hn c b o (He & Hb & Hc & Hk & Hm & Hx). unfold snprintf_sim, sprintputch, kputch.
  cbn [k_chars k_cnt]. rewrite He, Hb, Hc, s32_s32_add, length_app. cbn [length].
  set (L := length (k_chars o)) in *.
  assert (s32 (Z.of_nat L + 1) = s32 (Z.of_nat (L + 1))) as -> by (f_equal; lia).
  destruct (Z.ltb_spec (buf + Z.min (Z.of_nat L) (n - 1)) (buf + n - 1)) as [Hlt|Hge]; cbn [sb_ebuf sb_buf sb_cnt sb_mem].
  - split_and!; [done|lia|done|done|..].
    + rewrite take_ge by (rewrite length_app; simpl; unfold L in *; lia). rewrite take_ge in Hm by (unfold L in *; lia).
      rewrite fmap_app. apply bytes_at_app. split.
      * revert Hm. apply bytes_at_ext. intros x Hx'. rewrite length_fmap in Hx'. fold L in Hx'.
        rewrite load8_store8, decide_False by lia. done.
      * split; [|done]. rewrite length_fmap. fold L. rewrite load8_store8, decide_True by lia. done.
    + intros x Hnx. rewrite load8_store8, decide_False by lia. apply Hx. lia.
  - split_and!; [done|lia|done|done|..].
    + rewrite take_app_le by (unfold L in *; lia). done.
    + intros x Hnx. apply Hx. lia.
Qed.

(** C27: on a terminated format that, like the strings the arguments point to,
    lies outside the buffer, [vsnprintf] returns (with fuel quadratic in the
    format's length) and is the truncation of what [cprintf] would print: the
    first [n - 1] characters, NUL-terminated within the [n] bytes of the
    buffer, the full length as result, and no byte written outside. *)
Theorem vsnprintf_correct fuel m buf n fmt va L B :
  0 < buf → 1 ≤ n → cstr m fmt L → clear_of buf n fmt (Z.of_nat (length L) + 1) →
  (∀ k, u32 (va k) ≠ 0 →
    ∃ l, cstr m (u32 (va k)) l ∧ (length l <= B)%nat ∧ clear_of buf n (u32 (va k)) (Z.of_nat (length l) + 1)) →
  (length L * (2 * length L + 4) + B + 40 < fuel)%nat →
  ∃ out m',
    vcprintf fuel m fmt va = Some (0, out) ∧
    vsnprintf fuel m buf n fmt va = Some (s32 (Z.of_nat (length out)), m') ∧
    let k := Z.min (Z.of_nat (length out)) (n - 1) in
    bytes_at m' buf (u8 <$> take (Z.to_nat (n - 1)) out) ∧ load8 m' (buf + k) = 0 ∧
    (∀ x, ¬ (buf ≤ x ≤ buf + k) → load8 m' x = load8 m x).
Proof.
  intros Hbuf Hn HL Hcl Hva Hf. set (R := snprintf_sim m buf n).
  assert (∀ a l, cstr m a l → clear_of buf n a (Z.of_nat (length l) + 1) → both R sb_mem (λ _, m) a l) as Hboth.
  { intros a l Hs Hd b o (_ & _ & _ & _ & _ & Hx). split; [|exact Hs]. revert Hs. apply cstr_ext.
    unfold clear_of in Hd. intros x Hx'. apply Hx. lia. }
  destruct (vprintfmt_total sprintputch kputch R (sprintputch_sim m buf n Hn) sb_mem (λ _, m) fmt L va B
      (Hboth _ _ HL Hcl)) with (fuel := fuel) (k := 0) (e := 0%nat) (i := 0%nat) (md := Text)
      (p := mkSprintbuf m buf (buf + n - 1) 0) (q := mkKout [] 0)
    as (b & o & E1 & E2 & He & Hb & Hc & Hk & Hm & Hx).
  - intros k Hk. destruct (Hva k Hk) as (l & Hs & Hl & Hd). exists l. auto.
  - unfold R, snprintf_sim. simpl. rewrite take_nil. split_and!; done || lia.
  - lia.
  - by left.
  - unfold cost. rewrite Nat.sub_0_r. exact Hf.
  - rewrite Z.add_0_r in E1, E2. exists (k_chars o), (store8 (sb_mem b) (sb_buf b) 0).
    unfold vcprintf, vsnprintf. rewrite (proj2 (Z.eqb_neq buf 0)), (proj2 (Z.ltb_ge n 1)) by lia. cbn [orb].
    rewrite E1, E2. simpl. rewrite Hb, Hc, Hk. split_and!; [done|done|..].
    + revert Hm. apply bytes_at_ext. intros x Hx'. rewrite length_fmap, length_take in Hx'.
      rewrite load8_store8, decide_False by lia. done.
    + by rewrite load8_store8, decide_True by lia.
    + intros x Hnx. rewrite load8_store8, decide_False by lia. apply Hx. lia.
Qed.

(** "%d" at 16; the argument is a number. *)
Definition demo_fmt : mem := <[16 := 37]> (<[17 := 100]> (λ _, 0)).

Lemma vsnprintf_correct_witness :
  (0 < 200 ∧ 1 ≤ 3 ∧ cstr demo_fmt 16 [37; 100] ∧ clear_of 200 3 16 3 ∧
   (∀ k : Z, u32 1234 ≠ 0 → ∃ l, cstr demo_fmt (u32 1234) l ∧ (length l <= 0)%nat ∧
      clear_of 200 3 (u32 1234) (Z.of_nat (length l) + 1)) ∧ (2 * (2 * 2 + 4) + 0 + 40 < 60)%nat) ∧
  ∃ out m', vcprintf 60 demo_fmt 16 (λ _, 1234) = Some (0, out) ∧
    vsnprintf 60 demo_fmt 200 3 16 (λ _, 1234) = Some (s32 (Z.of_nat (length out)), m') ∧
    let k := Z.min (Z.of_nat (length out)) (3 - 1) in
    bytes_at m' 200 (u8 <$> take (Z.to_nat (3 - 1)) out) ∧ load8 m' (200 + k) = 0 ∧
    (∀ x, ¬ (200 ≤ x ≤ 200 + k) → load8 m' x = load8 demo_fmt x).
Proof.
  assert (0 < 200 ∧ 1 ≤ 3 ∧ cstr demo_fmt 16 [37; 100] ∧ clear_of 200 3 16 3 ∧
   (∀ k : Z, u32 1234 ≠ 0 → ∃ l, cstr demo_fmt (u32 1234) l ∧ (length l <= 0)%nat ∧
      clear_of 200 3 (u32 1234) (Z.of_nat (length l) + 1)) ∧ (2 * (2 * 2 + 4) + 0 + 40 < 60)%nat) as H.
  { split_and!; [lia|lia|vm_compute; repeat split; done|right; lia| |lia].
    intros _ _. exists []. split_and!; [reflexivity|simpl; lia|]. left. vm_compute. done. }
  refine (conj H _). destruct H as (H1 & H2 & H3 & H4 & H5 & H6).
  apply (vsnprintf_correct 60 demo_fmt 200 3 16 (λ _, 1234) [37; 100] 0 H1 H2 H3 H4 H5 H6).
Defined.

(** ** Numerals *)

Definition puts {P} (putch : Z → P → P) (l : list Z) (p : P) : P := fold_left (λ p c, putch c p) l p.

Lemma puts_app {P} (putch : Z → P → P) l k p : puts putch (l ++ k) p = puts putch k (puts putch l p).
Proof. apply fold_left_app. Qed.

Fixpoint numeral (fuel : nat) (base num : Z) : list Z :=
  (if base <=? num then match fuel with O => [] | S fuel => numeral fuel base (num / base) end else []) ++ [num mod base].
Definition value (base : Z) (ds : list Z) : Z := fold_left (λ v d, v * base + d) ds 0.

Lemma repch_puts {P} (putch : Z → P → P) n c p : repch putch n c p = puts putch (repeat c n) p.
Proof. revert p. induction n as [|n IH]; simpl; auto. Qed.

Lemma value_snoc base ds d : value base (ds ++ [d]) = value base ds * base + d.
Proof. unfold value. by rewrite fold_left_app. Qed.

Lemma numeral_spec fuel base : 2 ≤ base → ∀ num, 0 ≤ num < base ^ Z.of_nat (S fuel) →
  value base (numeral fuel base num) = num ∧ Forall (λ d, 0 ≤ d < base) (numeral fuel base num) ∧
  (length (numeral fuel base num) <= S fuel)%nat ∧
  (hd 0 (numeral fuel base num) = 0 → num = 0).
Proof.
  intros Hb. induction fuel as [|fuel IH]; intros num Hn; cbn [numeral]; destruct (Z.leb_spec base num) as [Hle|Hlt].
  - change (Z.of_nat 1) with 1 in Hn. lia.
  - rewrite Z.mod_small by lia. simpl. split_and!; [unfold value; simpl; lia|repeat constructor; lia|lia|done].
  - rewrite Nat2Z.inj_succ, Z.pow_succ_r in Hn by lia.
    assert (0 ≤ num / base < base ^ Z.of_nat (S fuel)) as Hq.
    { split; [apply Z.div_pos; lia|]. apply Z.div_lt_upper_bound; lia. }
    destruct (IH _ Hq) as (Hv & Hd & Hl & H0). split_and!.
    + rewrite value_snoc, Hv. pose proof (Z.div_mod num base). lia.
    + apply Forall_app. split; [done|]. constructor; [apply Z.mod_pos_bound; lia|constructor].
    + rewrite length_app. simpl. lia.
    + destruct (numeral fuel base (num / base)) as [|d ds] eqn:E.
      * destruct fuel; simpl in E; destruct (base <=? num / base); try done; by apply app_nil in E as [_ ?].
      * simpl. intros ->. specialize (H0 eq_refl). pose proof (Z.div_str_pos num base). lia.
  - rewrite Z.mod_small by lia. simpl. split_and!; [unfold value; simpl; lia|repeat constructor; lia|lia|done].
Qed.

Lemma printnum_run {P} (putch : Z → P → P) fuel base padc : 2 ≤ base → ∀ num width p,
  0 ≤ num < base ^ Z.of_nat (S fuel) → -2147483648 + Z.of_nat fuel < width < 2147483648 →
  let ds := numeral fuel base num in
  printnum putch fuel num base width padc p =
  puts putch (repeat padc (Z.to_nat (width - Z.of_nat (length ds))) ++ (load8 digits <$> ds)) p.
Proof.
  intros Hb. induction fuel as [|fuel IH]; intros num width p Hn Hw; cbn [printnum numeral]; cbv zeta;
    destruct (Z.leb_spec base num) as [Hle|Hlt].
  - change (Z.of_nat 1) with 1 in Hn. lia.
  - rewrite repch_puts, s32_small by lia. simpl. by rewrite puts_app.
  - rewrite Nat2Z.inj_succ, Z.pow_succ_r in Hn by lia.
    assert (0 ≤ num / base < base ^ Z.of_nat (S fuel)) as Hq.
    { split; [apply Z.div_pos; lia|]. apply Z.div_lt_upper_bound; lia. }
    rewrite s32_small, IH by (assumption || lia).
    rewrite length_app, fmap_app, app_assoc, (puts_app _ (_ ++ _)). simpl.
    do 3 f_equal. f_equal. lia.
  - rewrite repch_puts, s32_small by lia. simpl. by rewrite puts_app.
Qed.

(** [printnum] prints the numeral of [num]: digits of the base, most
    significant first and without leading zero, whose value is [num],
    right-justified to [width] with [padc]. *)
Theorem printnum_correct {P} (putch : Z → P → P) num base width padc p :
  8 ≤ base ≤ 16 → 0 ≤ num < 18446744073709551616 → -1 ≤ width < 2147483648 →
  ∃ ds, number putch num base width padc p =
      puts putch (repeat padc (Z.to_nat (width - Z.of_nat (length ds))) ++ (load8 digits <$> ds)) p ∧
    value base ds = num ∧ Forall (λ d, 0 ≤ d < base) ds ∧ ds ≠ [] ∧ (hd 0 ds = 0 → num = 0).
Proof.
  intros Hb Hn Hw. exists (numeral 22 base num).
  assert (0 ≤ num < base ^ Z.of_nat 23) as Hlt.
  { split; [lia|]. apply Z.lt_le_trans with (8 ^ Z.of_nat 23); [lia|apply Z.pow_le_mono_l; lia]. }
  destruct (numeral_spec 22 base) with (num := num) as (Hv & Hd & _ & H0); [lia|done|].
  split_and!; try done.
  - unfold number. by apply printnum_run; lia.
  - cbn [numeral]. intros [_ ?]%app_nil. done.
Qed.

Lemma printnum_correct_witness :
  (8 ≤ 16 ≤ 16 ∧ 0 ≤ 48879 < 18446744073709551616 ∧ -1 ≤ 6 < 2147483648) ∧
  ∃ ds, number kputch 48879 16 6 48 (mkKout [] 0) =
      puts kputch (repeat 48 (Z.to_nat (6 - Z.of_nat (length ds))) ++ (load8 digits <$> ds)) (mkKout [] 0) ∧
    value 16 ds = 48879 ∧ Forall (λ d, 0 ≤ d < 16) ds ∧ ds ≠ [] ∧ (hd 0 ds = 0 → 48879 = 0).
Proof.
  split; [lia|]. apply (printnum_correct kputch 48879 16 6 48 (mkKout [] 0)); lia.
Defined.

(** ** Printing a number and reading it back *)

Lemma kputch_puts l o : puts kputch l o = mkKout (k_chars o ++ l) (k_cnt o).
Proof.
  revert o. induction l as [|c l IH]; intros o; simpl; [rewrite app_nil_r; by destruct o|].
  rewrite IH. simpl. by rewrite <- app_assoc.
Qed.

Lemma digit_char d : 0 ≤ d < 10 → load8 digits d = 48 + d.
Proof.
  intros H. assert (d = 0 ∨ d = 1 ∨ d = 2 ∨ d = 3 ∨ d = 4 ∨ d = 5 ∨ d = 6 ∨ d = 7 ∨ d = 8 ∨ d = 9) as Hd by lia.
  repeat destruct Hd as [->|Hd]; try reflexivity. by subst.
Qed.

Lemma s32_mul_add v base d : s32 (s32 v * base + d) = s32 (v * base + d).
Proof.
  apply s32_cong. pose proof (u32_s32 v) as E. revert E. unfold u32. generalize (s32 v). intros w E.
  rewrite Zplus_mod, Zmult_mod, E, <- Zmult_mod, <- Zplus_mod. done.
Qed.

Lemma strtol_digits_run m base : base ≤ 10 → ∀ ds a v fuel, Forall (λ d, 0 ≤ d < base) ds →
  cstr m a ((λ d, 48 + d) <$> ds) → (length ds < fuel)%nat →
  strtol_digits fuel m a base (s32 v) = Some (a + Z.of_nat (length ds), s32 (fold_left (λ v d, v * base + d) ds v)).
Proof.
  intros Hb. induction ds as [|d ds IH]; intros a v [|fuel] Hd Hs Hf; cbn [length] in Hf; try lia;
    cbn [strtol_digits fmap list_fmap cstr] in *; unfold char_at.
  - rewrite Hs. simpl. by rewrite Z.add_0_r.
  - apply Forall_cons in Hd as [Hd Hds]. destruct Hs as (-> & _ & Hs).
    assert (digit_of (s8 (48 + d)) = Some d) as ->.
    { unfold s8. rewrite u8_small by lia. cbv zeta. rewrite (proj2 (Z.ltb_lt _ _)) by lia. unfold digit_of.
      change (chr "0") with 48. change (chr "9") with 57.
      rewrite (proj2 (Z.leb_le 48 _)), (proj2 (Z.leb_le _ 57)) by lia. simpl. f_equal. lia. }
    rewrite (proj2 (Z.leb_gt _ _)), s32_mul_add, IH by (done || lia). simpl. f_equal. f_equal. lia.
Qed.

Section steps.
Context {P : Type} (putch : Z → P → P) (src : P → mem) (va : Z → Z).

Lemma text_percent fuel fmt k p : load8 (src p) fmt = 37 →
  vprintfmt putch (S fuel) src fmt va k Text p = vprintfmt putch fuel src (fmt + 1) va k (Escape flags0) p.
Proof. intros E. cbn [vprintfmt]. rewrite E. reflexivity. Qed.

Lemma text_nul fuel fmt k p : load8 (src p) fmt = 0 → vprintfmt putch (S fuel) src fmt va k Text p = Some p.
Proof. intros E. cbn [vprintfmt]. rewrite E. reflexivity. Qed.

Lemma escape_d fuel fmt k f p : load8 (src p) fmt = 100 → lflag f = 0 →
  vprintfmt putch (S fuel) src fmt va k (Escape f) p =
  vprintfmt putch fuel src (fmt + 1) va (k + 1) Text (signed_number putch (s32 (va k)) 10 (width f) (padc f) p).
Proof. intros E El. cbn [vprintfmt]. rewrite E. unfold getint. rewrite El. reflexivity. Qed.
End steps.

Lemma percent_d_run {P} (putch : Z → P → P) fuel m a va p : cstr m a [37; 100] →
  vprintfmt putch (3 + fuel) (λ _, m) a va 0 Text p = Some (signed_number putch (s32 (va 0)) 10 (-1) (chr " ") p).
Proof.
  intros (H0 & _ & H1 & _ & H2). change (3 + fuel)%nat with (S (S (S fuel))).
  rewrite text_percent, escape_d, text_nul by done. reflexivity.
Qed.

(** The characters of ["%d"]. *)
Definition decimal (x : Z) : list Z :=
  (if x <? 0 then [chr "-"] else []) ++ ((λ d, 48 + d) <$> numeral 22 10 (Z.abs x)).

Lemma decimal_run x o : -2147483648 ≤ x < 2147483648 →
  signed_number kputch x 10 (-1) (chr " ") o = mkKout (k_chars o ++ decimal x) (k_cnt o).
Proof.
  intros Hx. unfold signed_number, number, decimal.
  assert (s64 x = x) as -> by (unfold s64, u64; cbv zeta; destruct (Z.ltb_spec (x mod 18446744073709551616) 9223372036854775808); lia).
  assert (∀ n : Z, 0 ≤ n ≤ 2147483648 → ∀ o,
    printnum kputch 22 n 10 (-1) (chr " ") o = mkKout (k_chars o ++ ((λ d, 48 + d) <$> numeral 22 10 n)) (k_cnt o)) as Hp.
  { intros n Hn o'. rewrite printnum_run by lia.
    destruct (numeral_spec 22 10) with (num := n) as (_ & Hd & _); [lia|lia|].
    rewrite Z2Nat.nonpos by lia. simpl repeat. rewrite app_nil_l, kputch_puts. f_equal. f_equal.
    apply list_fmap_ext. intros i d Hi. apply digit_char.
    apply (proj1 (Forall_lookup _ _) Hd i d Hi). }
  destruct (Z.ltb_spec x 0).
  - rewrite Hp by (unfold u64; lia). unfold kputch. cbn [k_chars k_cnt]. rewrite <- app_assoc.
    replace (u64 (- x)) with (Z.abs x) by (unfold u64; lia). done.
  - rewrite Hp by (unfold u64; lia). replace (u64 x) with (Z.abs x) by (unfold u64; lia). done.
Qed.

(** The blanks, the sign and the base are not part of a decimal numeral. *)
Lemma strtol_signed m a x ds fuel : -2147483648 ≤ x < 2147483648 →
  value 10 ds = Z.abs x → Forall (λ d, 0 ≤ d < 10) ds → ds ≠ [] →
  let out := (if x <? 0 then [45] else []) ++ ((λ d, 48 + d) <$> ds) in
  cstr m a out → (length out < fuel)%nat → strtol fuel m a 10 = Some (x, a + Z.of_nat (length out)).
Proof.
  intros Hx Hv Hd Hne out Hs Hf. unfold out in *. clear out.
  destruct ds as [|d0 l0]; [done|]. apply Forall_cons in Hd as Hd0. destruct Hd0 as [Hd0 _].
  rewrite length_app, length_fmap in *. set (ds := d0 :: l0) in *.
  assert (∀ s f, cstr m s ((λ d, 48 + d) <$> ds) → (length ds < f)%nat →
    strtol_digits f m s 10 0 = Some (s + Z.of_nat (length ds), s32 (Z.abs x))) as Hdig.
  { intros s f Hs' Hf'. rewrite <- Hv. apply (strtol_digits_run m 10 ltac:(lia) ds s 0 f Hd Hs' Hf'). }
  assert (∀ s, cstr m s ((λ d, 48 + d) <$> ds) → char_at m s = 48 + d0) as Hfirst.
  { intros s [E _]. unfold char_at, s8. rewrite E, u8_small by lia.
    cbv zeta. by rewrite (proj2 (Z.ltb_lt _ _)) by lia. }
  destruct fuel as [|fuel]; [lia|]. unfold strtol. cbn [skip_blanks].
  change (chr "+") with 43. change (chr "-") with 45. change (chr " ") with 32.
  destruct (Z.ltb_spec x 0) as [Hneg|Hpos]; cbn [app length] in *.
  - destruct Hs as (E0 & _ & Hs).
    assert (char_at m a = 45) as Ec by (unfold char_at; by rewrite E0).
    rewrite Ec. cbn -[strtol_digits char_at]. rewrite Ec. cbn -[strtol_digits char_at].
    rewrite Hdig by (done || lia). simpl. f_equal. f_equal; [|lia].
    replace (s32 (- s32 (Z.abs x))) with (s32 (s32 (Z.abs x) * -1 + 0)) by (f_equal; lia).
    rewrite s32_mul_add. rewrite s32_small; lia.
  - rewrite (Hfirst a Hs), !(proj2 (Z.eqb_neq (48 + d0) _)) by lia. cbn -[strtol_digits char_at Z.add].
    rewrite (Hfirst a Hs), !(proj2 (Z.eqb_neq (48 + d0) _)) by lia. cbn -[strtol_digits char_at].
    rewrite Hdig by (done || lia). simpl. rewrite s32_small by lia. do 2 f_equal; lia.
Qed.

(** C34: ["%d"] prints the decimal numeral of its [int] argument, and reading
    that text back with [strtol] in base 10 gives the same [int], [INT_MIN]
    included, with [*endptr] at the end of the text. *)
Theorem printf_strtol_roundtrip m fmt va m' a fuel fuel' :
  cstr m fmt [37; 100] →
  let x := s32 (va 0) in
  cstr m' a (decimal x) → (length (decimal x) < fuel')%nat →
  vcprintf (3 + fuel) m fmt va = Some (0, decimal x) ∧
  strtol fuel' m' a 10 = Some (x, a + Z.of_nat (length (decimal x))).
Proof.
  intros Hf x Hs Hl. split.
  - unfold vcprintf. rewrite (percent_d_run _ _ _ _ _ _ Hf). simpl. by rewrite decimal_run by apply s32_range.
  - destruct (numeral_spec 22 10) with (num := Z.abs x) as (Hv & Hd & _ & _); [lia|pose proof (s32_range (va 0)); lia|].
    apply (strtol_signed m' a x (numeral 22 10 (Z.abs x))); [apply s32_range|exact Hv|exact Hd| |exact Hs|exact Hl].
    cbn [numeral]. intros [_ E]%app_nil. discriminate E.
Qed.

Definition demo_74 : mem := <[300 := 45]> (<[301 := 55]> (<[302 := 52]> (λ _, 0))).

Lemma printf_strtol_roundtrip_witness :
  (cstr demo_fmt 16 [37; 100] ∧ cstr demo_74 300 (decimal (s32 (-74))) ∧ (length (decimal (s32 (-74))) < 9)%nat) ∧
  vcprintf (3 + 0) demo_fmt 16 (λ _, -74) = Some (0, decimal (s32 (-74))) ∧
  strtol 9 demo_74 300 10 = Some (s32 (-74), 300 + Z.of_nat (length (decimal (s32 (-74))))).
Proof.
  assert (cstr demo_fmt 16 [37; 100] ∧ cstr demo_74 300 (decimal (s32 (-74))) ∧ (length (decimal (s32 (-74))) < 9)%nat) as H.
  { split_and!; vm_compute; try lia; repeat split; done. }
  refine (conj H _). destruct H as (H1 & H2 & H3).
  apply (printf_strtol_roundtrip demo_fmt 16 (λ _, -74) demo_74 300 0 9 H1 H2 H3).
Defined.
