(* ===== verification/PageAlloc.v ===== *)
(** * kern/pmap.c, first half: physical pages

    The state of the memory manager, the boot-time allocator, the page array
    and its free list.  A [struct PageInfo *] is the index of its element in
    [pages]; [NULL] is [None].  The kernel maps physical memory at [KERNBASE],
    so a kernel pointer [kva] addresses physical byte [kva - KERNBASE]. *)
From S2P Require Import Prelude Monad Word Layout Mem CString.

(** [struct PageInfo] of inc/memlayout.h; [pp_ref] is a [uint16_t]. *)
Record PageInfo := mkPageInfo { pp_link : option Z; pp_ref : Z }.

(** Effects on the processor's address translation and mode, in program order. *)
Inductive mmev :=
| Invlpg (va : Z)    (** [invlpg(va)] *)
| Lcr3 (pa : Z)      (** [lcr3(pa)] *)
| Lcr0 (v : Z).      (** [lcr0(v)] *)

(** The global and static variables of kern/pmap.c, and physical memory. *)
Record mm := mkMM {
  npages : Z;
  npages_basemem : Z;
  phys : mem;
  pages : Z → PageInfo;
  page_free_list : option Z;
  kern_pgdir : Z;
  nextfree : Z;              (** static of [boot_alloc]; 0 before the first call *)
  mmio_base : Z;             (** static [base] of [mmio_map_region] *)
  user_mem_check_addr : Z;
  mm_trace : list mmev;      (** most recent effect first *)
}.

Definition set_npages n nb s := mkMM n nb (phys s) (pages s) (page_free_list s)
  (kern_pgdir s) (nextfree s) (mmio_base s) (user_mem_check_addr s) (mm_trace s).
Definition set_phys m s := mkMM (npages s) (npages_basemem s) m (pages s)
  (page_free_list s) (kern_pgdir s) (nextfree s) (mmio_base s)
  (user_mem_check_addr s) (mm_trace s).
Definition set_pages g s := mkMM (npages s) (npages_basemem s) (phys s) g
  (page_free_list s) (kern_pgdir s) (nextfree s) (mmio_base s)
  (user_mem_check_addr s) (mm_trace s).
Definition set_free_list l s := mkMM (npages s) (npages_basemem s) (phys s) (pages s)
  l (kern_pgdir s) (nextfree s) (mmio_base s) (user_mem_check_addr s) (mm_trace s).
Definition set_kern_pgdir p s := mkMM (npages s) (npages_basemem s) (phys s) (pages s)
  (page_free_list s) p (nextfree s) (mmio_base s) (user_mem_check_addr s) (mm_trace s).
Definition set_nextfree a s := mkMM (npages s) (npages_basemem s) (phys s) (pages s)
  (page_free_list s) (kern_pgdir s) a (mmio_base s) (user_mem_check_addr s) (mm_trace s).
Definition set_mmio_base a s := mkMM (npages s) (npages_basemem s) (phys s) (pages s)
  (page_free_list s) (kern_pgdir s) (nextfree s) a (user_mem_check_addr s) (mm_trace s).
Definition set_check_addr a s := mkMM (npages s) (npages_basemem s) (phys s) (pages s)
  (page_free_list s) (kern_pgdir s) (nextfree s) (mmio_base s) a (mm_trace s).
Definition emit_mm e s := mkMM (npages s) (npages_basemem s) (phys s) (pages s)
  (page_free_list s) (kern_pgdir s) (nextfree s) (mmio_base s)
  (user_mem_check_addr s) (e :: mm_trace s).

Abbreviation MM := (M mm).

(** [pp->pp_ref = r] and [pp->pp_link = l] *)
Definition set_ref (p r : Z) (s : mm) : mm :=
  set_pages (<[p := mkPageInfo (pp_link (pages s p)) (u16 r)]> (pages s)) s.
Definition set_link (p : Z) (l : option Z) (s : mm) : mm :=
  set_pages (<[p := mkPageInfo l (pp_ref (pages s p))]> (pages s)) s.

(** ** Address conversions (kern/pmap.h) *)

Definition PADDR (kva : Z) : MM Z :=
  if kva <? KERNBASE then panic "PADDR called with invalid kva"
  else mret (u32 (kva - KERNBASE)).

Definition KADDR (pa : Z) : MM Z :=
  n ← gets npages;
  if n <=? PGNUM pa then panic "KADDR called with invalid pa"
  else mret (u32 (pa + KERNBASE)).

Definition page2pa (pp : Z) : Z := u32 (Z.shiftl pp PGSHIFT).

Definition pa2page (pa : Z) : MM Z :=
  n ← gets npages;
  if n <=? PGNUM pa then panic "pa2page called with invalid pa"
  else mret (PGNUM pa).

Definition page2kva (pp : Z) : MM Z := KADDR (page2pa pp).

(** Loads and stores through kernel pointers. *)
Definition kload32 (kva : Z) : MM Z := gets (λ s, load32 (phys s) (kva - KERNBASE)).
Definition kstore32 (kva v : Z) : MM () :=
  modify (λ s, set_phys (store32 (phys s) (kva - KERNBASE) v) s).
Definition kmemset (kva c n : Z) : MM () :=
  modify (λ s, set_phys (memset (phys s) (kva - KERNBASE) c n) s).
Definition kmemmove (dst src n : Z) : MM () :=
  modify (λ s, set_phys (memmove (phys s) (dst - KERNBASE) (src - KERNBASE) n) s).

(** ** Detecting memory *)

Definition NVRAM_BASELO := 14 + 7.
Definition NVRAM_EXTLO := 14 + 9.
Definition NVRAM_EXT16LO := 14 + 38.

Section boot.
(** [mc146818_read]: the byte the clock chip returns for a register. *)
Context (mc146818_read : Z → Z).
(** The linker's [end] symbol: first address after the kernel image. *)
Context (kend : Z).

Definition nvram_read (r : Z) : Z :=
  Z.lor (mc146818_read r) (Z.shiftl (mc146818_read (r + 1)) 8).

Definition i386_detect_memory : MM () :=
  let basemem := nvram_read NVRAM_BASELO in
  let extmem := nvram_read NVRAM_EXTLO in
  let ext16mem := nvram_read NVRAM_EXT16LO * 64 in
  let totalmem :=
    if negb (ext16mem =? 0) then 16 * 1024 + ext16mem
    else if negb (extmem =? 0) then 1 * 1024 + extmem
    else basemem in
  modify (set_npages (totalmem / (PGSIZE / 1024)) (basemem / (PGSIZE / 1024))).

(** ** The boot-time allocator *)
Definition boot_alloc (n : Z) : MM Z :=
  nf ← gets nextfree;
  (if nf =? 0 then modify (set_nextfree (ROUNDUP kend PGSIZE)) else mret tt) ;;
  result ← gets nextfree;
  modify (set_nextfree (ROUNDUP (u32 (result + n)) PGSIZE)) ;;
  nf ← gets nextfree;
  np ← gets npages;
  (if u32 (np * PGSIZE) <? u32 (nf - KERNBASE) then panic "out of memory!!"
   else mret tt) ;;
  mret result.

(** ** The page array *)
Definition page_init_step (io_hole_start_page kernel_end_page i : Z) : MM () :=
  let in_use := modify (λ s, set_link i None (set_ref i 1 s)) in
  if i =? 0 then in_use
  else if (io_hole_start_page <=? i) && (i <? kernel_end_page) then in_use
  else if i =? MPENTRY_PADDR / PGSIZE then in_use
  else
    modify (λ s, set_link i (page_free_list s) (set_ref i 0 s)) ;;
    modify (set_free_list (Some i)).

Definition page_init : MM () :=
  let io_hole_start_page := IOPHYSMEM / PGSIZE in
  nf ← boot_alloc 0;
  pa ← PADDR nf;
  let kernel_end_page := pa / PGSIZE in
  n ← gets npages;
  forM (zrange 0 n) (page_init_step io_hole_start_page kernel_end_page).
End boot.

(** ** Allocating and freeing pages *)

Definition ALLOC_ZERO := 1.

Definition page_alloc (alloc_flags : Z) : MM (option Z) :=
  fl ← gets page_free_list;
  match fl with
  | None => mret None
  | Some res =>
      modify (λ s, set_free_list (pp_link (pages s res)) s) ;;
      modify (set_link res None) ;;
      (if flag alloc_flags ALLOC_ZERO
       then kva ← page2kva res; kmemset kva 0 PGSIZE
       else mret tt) ;;
      mret (Some res)
  end.

Definition page_free (pp : Z) : MM () :=
  pi ← gets (λ s, pages s pp);
  assertM (pp_ref pi =? 0) "pp->pp_ref==0" ;;
  assertM (bool_decide (pp_link pi = None)) "pp->pp_link==NULL" ;;
  modify (λ s, set_link pp (page_free_list s) s) ;;
  modify (set_free_list (Some pp)).

(** [if (--pp->pp_ref == 0) page_free(pp)] *)
Definition page_decref (pp : Z) : MM () :=
  modify (λ s, set_ref pp (pp_ref (pages s pp) - 1) s) ;;
  r ← gets (λ s, pp_ref (pages s pp));
  if r =? 0 then page_free pp else mret tt.

(** ** The allocator's invariant

    [chain g h l]: following [pp_link] from [h] visits exactly [l]. *)
Definition chain (g : Z → PageInfo) : option Z → list Z → Prop := linked (λ p, pp_link (g p)).

Lemma chain_cons g p l : chain g (pp_link (g p)) l → chain g (Some p) (p :: l).
Proof. done. Qed.

Record alloc_inv (s : mm) (l : list Z) : Prop := {
  ai_npages : 0 < npages s ≤ 65536;
  ai_chain : chain (pages s) (page_free_list s) l;
  ai_nodup : NoDup l;
  ai_free : ∀ p, p ∈ l → 0 ≤ p < npages s ∧ pp_ref (pages s p) = 0;
  ai_used : ∀ p, 0 ≤ p < npages s → p ∉ l → pp_link (pages s p) = None;
}.

Lemma chain_upd g h l p x : p ∉ l → chain g h l → chain (<[p:=x]> g) h l.
Proof.
  intros Hp. apply linked_ext. intros q Hq. by rewrite upd_other by (intros ->; done).
Qed.

(** ** Address conversions in range *)

Lemma page2pa_mul p : 0 ≤ p < 1048576 → page2pa p = p * 4096.
Proof.
  intros Hp. unfold page2pa, PGSHIFT. rewrite Z.shiftl_mul_pow2 by lia.
  rewrite u32_small; lia.
Qed.

Lemma PGNUM_page p b : 0 ≤ p < 1048576 → 0 ≤ b < 4096 → PGNUM (p * 4096 + b) = p.
Proof. intros. rewrite PGNUM_div, u32_small; lia. Qed.

Lemma PGNUM_page0 p : 0 ≤ p < 1048576 → PGNUM (p * 4096) = p.
Proof. intros. rewrite <- (Z.add_0_r (p * 4096)). apply PGNUM_page; lia. Qed.

Lemma KADDR_ok pa s : 0 ≤ pa → pa / 4096 < npages s → npages s ≤ 65536 →
  KADDR pa s = (Ret (pa + KERNBASE), s).
Proof.
  intros H0 Hpa Hn. unfold KADDR. mrun.
  rewrite PGNUM_div, u32_small by lia.
  destruct (Z.leb_spec (npages s) (pa / 4096)); [lia|].
  unfold KERNBASE. rewrite u32_small by lia. done.
Qed.

Lemma page2kva_ok p s : 0 ≤ p < npages s → npages s ≤ 65536 →
  page2kva p s = (Ret (p * 4096 + KERNBASE), s).
Proof. intros. unfold page2kva. rewrite page2pa_mul by lia. apply KADDR_ok; lia. Qed.

Lemma pa2page_ok p b s : 0 ≤ p < npages s → npages s ≤ 65536 → 0 ≤ b < 4096 →
  pa2page (p * 4096 + b) s = (Ret p, s).
Proof.
  intros. unfold pa2page. mrun. rewrite PGNUM_page by lia.
  destruct (Z.leb_spec (npages s) p); [lia|done].
Qed.

(** ** Branches of the allocator *)

Definition zero_page (m : mem) (p : Z) : mem := fill m (p * 4096) 4096 0.

(** The state after taking [p] off the free list. *)
Definition alloc_state (zero : bool) (p : Z) (s : mm) : mm :=
  let s1 := set_link p None (set_free_list (pp_link (pages s p)) s) in
  if zero then set_phys (zero_page (phys s) p) s1 else s1.

Lemma page_alloc_nil flags s :
  alloc_inv s [] → page_alloc flags s = (Ret None, s).
Proof. intros H. pose proof (ai_chain _ _ H) as E. unfold page_alloc. mrun. simpl in E. by rewrite E. Qed.

Lemma page_alloc_run flags s p l :
  alloc_inv s (p :: l) →
  page_alloc flags s = (Ret (Some p), alloc_state (flag flags ALLOC_ZERO) p s).
Proof.
  intros H. unfold page_alloc. mrun. destruct (ai_chain _ _ H) as [-> Hc].
  assert (0 ≤ p < npages s) by (apply (ai_free _ _ H); left).
  pose proof (ai_npages _ _ H).
  mrun. destruct (flag flags ALLOC_ZERO); mrun; [|done].
  rewrite page2kva_ok by (simpl; lia). mrun.
  unfold kmemset, alloc_state, zero_page. mrun.
  rewrite memset_fill by (unfold PGSIZE; lia).
  replace (p * 4096 + KERNBASE - KERNBASE) with (p * 4096) by lia. done.
Qed.

Lemma alloc_state_inv zero s p l :
  alloc_inv s (p :: l) → alloc_inv (alloc_state zero p s) l.
Proof.
  intros H. pose proof (ai_nodup _ _ H) as Hnd. inversion_clear Hnd as [|? ? Hp Hnd'].
  assert (alloc_inv (alloc_state false p s) l) as H'; [|by destruct zero; destruct H'].
  split; simpl.
  - apply (ai_npages _ _ H).
  - apply chain_upd; [done|]. apply (ai_chain _ _ H).
  - done.
  - intros q Hq. rewrite upd_other by (intros ->; done). apply (ai_free _ _ H). by right.
  - intros q Hq Hql. rewrite upd_case. case_decide; [done|].
    apply (ai_used _ _ H); [done|]. rewrite not_elem_of_cons. done.
Qed.

Lemma page_free_run s p :
  pp_ref (pages s p) = 0 → pp_link (pages s p) = None →
  page_free p s = (Ret tt, set_free_list (Some p) (set_link p (page_free_list s) s)).
Proof. intros Hr Hl. unfold page_free. mrun. rewrite Hr, Hl. mrun. done. Qed.

Lemma page_free_inv s p l :
  alloc_inv s l → 0 ≤ p < npages s → p ∉ l → pp_ref (pages s p) = 0 →
  alloc_inv (set_free_list (Some p) (set_link p (page_free_list s) s)) (p :: l).
Proof.
  intros H Hp Hpl Hr. split; simpl.
  - apply (ai_npages _ _ H).
  - apply chain_cons. rewrite upd_same. apply chain_upd; [done|]. apply (ai_chain _ _ H).
  - constructor; [done|apply (ai_nodup _ _ H)].
  - intros q [->|Hq]%elem_of_cons; [by rewrite upd_same|].
    rewrite upd_other by (intros ->; done). by apply (ai_free _ _ H).
  - intros q Hq Hql. rewrite not_elem_of_cons in Hql. rewrite upd_other by (intros ->; tauto).
    apply (ai_used _ _ H); tauto.
Qed.

(** ** Theorems of the allocator *)

(** [page_alloc] on every branch.  An empty free list gives [NULL] and no
    change; otherwise the first page is unlinked and returned with reference
    count 0, the allocator's invariant holds of the rest of the list, no other
    [PageInfo] changes, and the page is zeroed exactly when [ALLOC_ZERO] is set. *)
Theorem page_alloc_correct flags s l :
  alloc_inv s l →
  match l with
  | [] => page_alloc flags s = (Ret None, s)
  | p :: l' => ∃ s',
      page_alloc flags s = (Ret (Some p), s') ∧ alloc_inv s' l' ∧ (p ∉ l') ∧
      0 ≤ p < npages s' ∧ pages s' p = mkPageInfo None 0 ∧
      (∀ q, q ≠ p → pages s' q = pages s q) ∧
      (∀ a, load8 (phys s') a =
            if flag flags ALLOC_ZERO &&
               bool_decide (p * PGSIZE ≤ a < p * PGSIZE + PGSIZE)
            then 0 else load8 (phys s) a)
  end.
Proof.
  intros H. destruct l as [|p l]; [by apply page_alloc_nil|].
  exists (alloc_state (flag flags ALLOC_ZERO) p s).
  assert (0 ≤ p < npages s ∧ pp_ref (pages s p) = 0) as [Hp Hr]
    by (apply (ai_free _ _ H); left).
  pose proof (NoDup_cons_1_1 _ _ (ai_nodup _ _ H)).
  splits; try done.
  - by apply page_alloc_run with l.
  - by apply alloc_state_inv.
  - lia.
  - unfold alloc_state. case_match; simpl; lia.
  - unfold alloc_state. case_match; simpl; by rewrite upd_same, Hr.
  - intros q Hq. unfold alloc_state. case_match; simpl; by rewrite upd_other by done.
  - intros a. unfold alloc_state, zero_page, PGSIZE. case_match; simpl; [|done].
    rewrite load8_fill. case_decide; case_bool_decide; try done; lia.
Qed.

(** The allocator's state used by the witnesses: 16 pages, 3 and 5 free. *)
Definition demo_mm : mm :=
  mkMM 16 16 (λ a, a)
    (λ p, if p =? 3 then mkPageInfo (Some 5) 0 else mkPageInfo None (if p =? 5 then 0 else 1))
    (Some 3) (KERNBASE + 0x1000) (KERNBASE + 0x4000) MMIOBASE 0 [].

Lemma demo_mm_inv : alloc_inv demo_mm [3; 5].
Proof.
  split; simpl.
  - lia.
  - done.
  - repeat constructor; set_solver.
  - intros p Hp. assert (p = 3 ∨ p = 5) as [-> | ->] by set_solver; simpl; lia.
  - intros p _ Hp. destruct (Z.eqb_spec p 3); [|done]. set_solver.
Qed.

Lemma page_alloc_correct_witness :
  alloc_inv demo_mm [3; 5] ∧
  ∃ s', page_alloc 1 demo_mm = (Ret (Some 3), s') ∧ alloc_inv s' [5] ∧ (3 ∉ [5]) ∧
    0 ≤ 3 < npages s' ∧ pages s' 3 = mkPageInfo None 0 ∧
    (∀ q, q ≠ 3 → pages s' q = pages demo_mm q) ∧
    (∀ a, load8 (phys s') a =
          if flag 1 ALLOC_ZERO && bool_decide (3 * PGSIZE ≤ a < 3 * PGSIZE + PGSIZE)
          then 0 else load8 (phys demo_mm) a).
Proof. split; [apply demo_mm_inv|]. apply (page_alloc_correct 1 demo_mm [3; 5] demo_mm_inv). Defined.

(** Freeing a page and allocating again gives the same page back and the
    very state before the free. *)
Theorem page_free_alloc_roundtrip s l p :
  alloc_inv s l → 0 ≤ p < npages s → p ∉ l → pp_ref (pages s p) = 0 →
  ∃ s', page_free p s = (Ret tt, s') ∧ alloc_inv s' (p :: l) ∧
        page_alloc 0 s' = (Ret (Some p), s).
Proof.
  intros H Hp Hpl Hr. pose proof (ai_used _ _ H p Hp Hpl) as Hl.
  eexists. splits; [by apply page_free_run| |].
  - by apply page_free_inv.
  - rewrite (page_alloc_run _ _ p l) by (by apply page_free_inv).
    unfold alloc_state. change (flag 0 ALLOC_ZERO) with false. simpl.
    unfold set_link, set_free_list, set_pages. simpl. rewrite !upd_same, upd_upd. simpl.
    replace (mkPageInfo None (pp_ref (pages s p))) with (pages s p).
    { rewrite upd_id. by destruct s. }
    rewrite <- Hl. by destruct (pages s p).
Qed.

Lemma page_free_alloc_roundtrip_witness :
  let s := alloc_state false 3 demo_mm in
  (alloc_inv s [5] ∧ 0 ≤ 3 < npages s ∧ (3 ∉ [5]) ∧ pp_ref (pages s 3) = 0) ∧
  ∃ s', page_free 3 s = (Ret tt, s') ∧ alloc_inv s' [3; 5] ∧ page_alloc 0 s' = (Ret (Some 3), s).
Proof.
  intros s. assert (alloc_inv s [5]) as H by apply (alloc_state_inv false _ 3 [5] demo_mm_inv).
  assert (3 ∉ [5]) as H3 by set_solver.
  split; [by splits|]. apply (page_free_alloc_roundtrip s [5] 3 H); done.
Defined.

(** The two assertions of [page_free]: a page that is still referenced or
    still linked makes the kernel panic before anything changes. *)
Theorem page_free_checks s p :
  pp_ref (pages s p) ≠ 0 ∨ pp_link (pages s p) ≠ None →
  ∃ why, page_free p s = (Stop (SPanic why), s).
Proof.
  intros H. unfold page_free. mrun. destruct (Z.eqb_spec (pp_ref (pages s p)) 0) as [Hr|Hr]; mrun.
  - case_bool_decide; mrun; [tauto|eauto].
  - eauto.
Qed.

Lemma page_free_checks_witness :
  (pp_ref (pages demo_mm 4) ≠ 0 ∨ pp_link (pages demo_mm 4) ≠ None) ∧
  ∃ why, page_free 4 demo_mm = (Stop (SPanic why), demo_mm).
Proof.
  assert (pp_ref (pages demo_mm 4) ≠ 0) as H by (simpl; lia).
  split; [by left|]. apply (page_free_checks demo_mm 4). by left.
Defined.

(** The state of [page_decref p]: the count goes down modulo 2^16. *)
Definition decref_state (p : Z) (s : mm) : mm :=
  let s1 := set_ref p (pp_ref (pages s p) - 1) s in
  if u16 (pp_ref (pages s p) - 1) =? 0
  then set_free_list (Some p) (set_link p (page_free_list s) s1) else s1.

Lemma page_decref_run s p :
  pp_link (pages s p) = None → page_decref p s = (Ret tt, decref_state p s).
Proof.
  intros Hl. unfold page_decref, decref_state. mrun. simpl. rewrite upd_same. simpl.
  destruct (Z.eqb_spec (u16 (pp_ref (pages s p) - 1)) 0) as [E|]; [|done].
  rewrite page_free_run; [done| |]; simpl; by rewrite upd_same.
Qed.

(** ** page_init *)

(** The pages [page_init] puts on the free list. *)
Definition init_free (io_hole_start_page kernel_end_page i : Z) : bool :=
  negb (i =? 0) && negb ((io_hole_start_page <=? i) && (i <? kernel_end_page)) &&
  negb (i =? MPENTRY_PADDR / PGSIZE).

(** Everything but the page array and the free list. *)
Definition same_rest (s s' : mm) : Prop :=
  npages s' = npages s ∧ npages_basemem s' = npages_basemem s ∧ phys s' = phys s ∧
  kern_pgdir s' = kern_pgdir s ∧ nextfree s' = nextfree s ∧ mmio_base s' = mmio_base s ∧
  user_mem_check_addr s' = user_mem_check_addr s ∧ mm_trace s' = mm_trace s.

(** After the pages below [k]: free ones chained in reverse order. *)
Definition init_upto (io kend k : Z) (s : mm) : Prop :=
  chain (pages s) (page_free_list s) (reverse (List.filter (init_free io kend) (zrange 0 k))) ∧
  ∀ i, 0 ≤ i < k →
    pp_ref (pages s i) = (if init_free io kend i then 0 else 1) ∧
    (init_free io kend i = false → pp_link (pages s i) = None).

Lemma init_filter_elem io kend k p :
  p ∈ reverse (List.filter (init_free io kend) (zrange 0 k)) ↔
  0 ≤ p < k ∧ init_free io kend p = true.
Proof.
  rewrite elem_of_reverse, list_elem_of_In, filter_In, <- list_elem_of_In, elem_of_zrange.
  intuition lia.
Qed.

Lemma init_filter_nodup io kend k :
  NoDup (reverse (List.filter (init_free io kend) (zrange 0 k))).
Proof.
  rewrite reverse_Permutation. apply NoDup_ListNoDup, List.NoDup_filter, NoDup_ListNoDup.
  apply NoDup_zrange.
Qed.

Lemma page_init_step_spec io kend k s :
  0 ≤ k → init_upto io kend k s →
  ∃ s', page_init_step io kend k s = (Ret tt, s') ∧
        init_upto io kend (k + 1) s' ∧ same_rest s s'.
Proof.
  intros Hk [Hc Hi]. unfold page_init_step.
  assert (∀ x, chain (<[k:=x]> (pages s)) (page_free_list s)
            (reverse (List.filter (init_free io kend) (zrange 0 k)))) as Hc'.
  { intros x. apply chain_upd; [rewrite init_filter_elem; lia|done]. }
  unfold init_upto. rewrite zrange_snoc, List.filter_app, reverse_app by lia.
  cbn [List.filter]. rewrite Z.add_0_l.
  destruct (init_free io kend k) eqn:Hf; cbn match.
  - unfold init_free in Hf. apply andb_true_iff in Hf as [[H1 H2]%andb_true_iff H3].
    rewrite negb_true_iff in H1, H2, H3. rewrite H1, H2, H3. mrun. eexists. splits; [done|..]; try done.
    + rewrite reverse_singleton. apply chain_cons. simpl. rewrite !upd_same, upd_upd. apply Hc'.
    + simpl. intros i Hik. rewrite !upd_same, upd_upd, upd_case. case_decide; subst; simpl.
      * unfold init_free. rewrite H1, H2, H3. simpl. split; done.
      * apply Hi. lia.
  - exists (set_link k None (set_ref k 1 s)). splits; try done.
    + unfold init_free in Hf. rewrite !andb_false_iff, !negb_false_iff in Hf.
      destruct (k =? 0); [done|]. destruct ((io <=? k) && (k <? kend)); [done|].
      destruct (k =? MPENTRY_PADDR / PGSIZE); [done|]. by intuition.
    + simpl. rewrite !upd_same, upd_upd. apply Hc'.
    + simpl. intros i Hik. rewrite !upd_same, upd_upd, upd_case. case_decide; subst; simpl.
      * rewrite Hf. done.
      * apply Hi. lia.
Qed.

Lemma page_init_loop io kend s n : 0 ≤ n → page_free_list s = None →
  ∃ s', forM (zrange 0 n) (page_init_step io kend) s = (Ret tt, s') ∧
        init_upto io kend n s' ∧ same_rest s s'.
Proof.
  intros Hn Hl.
  apply (forM_zrange (λ i s', init_upto io kend i s' ∧ same_rest s s')); [done|..].
  - split; [|done]. split; [done|]. intros i; lia.
  - intros i s1 Hi [H1 Hs]. destruct (page_init_step_spec io kend i s1) as (s2 & E & H2 & Hs2); [lia|done|].
    exists s2. splits; try done. unfold same_rest in *. intuition congruence.
Qed.

(** [page_init] leaves on the free list, in descending order, exactly the
    pages other than page 0, the pages from the I/O hole to the end of the boot
    allocations, and the application-processor entry page; those have reference
    count 1, and the allocator's invariant holds. *)
Theorem page_init_correct kend s :
  page_free_list s = None → 0 < npages s ≤ 65536 →
  nextfree s mod PGSIZE = 0 → KERNBASE ≤ nextfree s ≤ KERNBASE + npages s * PGSIZE →
  nextfree s < 4294967296 →
  let ke := (nextfree s - KERNBASE) / PGSIZE in
  ∃ s', page_init kend s = (Ret tt, s') ∧
    alloc_inv s' (reverse (List.filter (init_free 160 ke) (zrange 0 (npages s)))) ∧
    (∀ i, 0 ≤ i < npages s → pp_ref (pages s' i) = if init_free 160 ke i then 0 else 1) ∧
    same_rest s s'.
Proof.
  intros Hl Hn Hal Hnf Hlt ke. unfold PGSIZE, KERNBASE in *.
  assert (boot_alloc kend 0 s = (Ret (nextfree s), s)) as Eb.
  { unfold boot_alloc. mrun. destruct (Z.eqb_spec (nextfree s) 0); [lia|]. mrun. simpl.
    assert (ROUNDUP (u32 (nextfree s + 0)) PGSIZE = nextfree s) as ->.
    { unfold ROUNDUP, ROUNDDOWN, PGSIZE, u32. lia. }
    unfold PGSIZE, KERNBASE. rewrite (u32_small (nextfree s - 0xF0000000)) by lia.
    rewrite (u32_small (npages s * 4096)) by lia.
    destruct (Z.ltb_spec (npages s * 4096) (nextfree s - 0xF0000000)); [lia|]. mrun.
    by destruct s. }
  unfold page_init. rewrite run_bind, Eb. unfold PADDR. unfold KERNBASE, IOPHYSMEM, PGSIZE.
  destruct (Z.ltb_spec (nextfree s) 0xF0000000); [lia|]. mrun.
  rewrite u32_small by lia. change (0x0A0000 / 4096) with 160.
  destruct (page_init_loop 160 ke s (npages s) ltac:(lia) Hl) as (s' & E & [Hc Hi] & Hs).
  exists s'. splits; try done; [|by intros i Hr; apply Hi].
  pose proof (proj1 Hs) as Hnp. split; rewrite ?Hnp; try done.
  - apply init_filter_nodup.
  - intros p [Hp Hf]%init_filter_elem. split; [done|]. by rewrite (proj1 (Hi p Hp)), Hf.
  - intros p Hp Hf. apply (proj2 (Hi p Hp)). apply not_true_iff_false. intros Ht.
    apply Hf. by apply init_filter_elem.
Qed.

(** A machine with 1.2MB: 300 pages, the kernel and boot data up to page 290. *)
Definition boot_mm : mm :=
  mkMM 300 160 (λ a, a) (λ _, mkPageInfo None 0) None 0 (KERNBASE + 290 * 4096) MMIOBASE 0 [].

Lemma page_init_correct_witness :
  (page_free_list boot_mm = None ∧ nextfree boot_mm mod PGSIZE = 0) ∧
  ∃ s', page_init 0 boot_mm = (Ret tt, s') ∧
    alloc_inv s' (reverse (List.filter (init_free 160 290) (zrange 0 300))) ∧
    (∀ i, 0 ≤ i < 300 → pp_ref (pages s' i) = if init_free 160 290 i then 0 else 1) ∧
    same_rest boot_mm s'.
Proof.
  split; [done|].
  apply (page_init_correct 0 boot_mm); unfold KERNBASE, PGSIZE; simpl; lia || done.
Defined.
