(* ===== verification/PageTable.v ===== *)
(** * kern/pmap.c, second half: two-level page tables

    Page directories and page tables live in physical memory ([phys]); a
    [pde_t *] or [pte_t *] is the kernel virtual address of an entry, and [NULL]
    is [None].  [cur] is [curenv->env_pgdir], or [None] when [curenv] is [NULL]:
    page-table code reads nothing else of the running environment. *)
From S2P Require Import Prelude Monad Word Layout Mem CString PageAlloc.

Section page_table.
Context (cur : option Z).

Definition pgdir_walk (pgdir va : Z) (create : bool) : MM (option Z) :=
  let dic_move := PDX va in
  let dic_entry_ptr := pgdir + 4 * dic_move in
  pde ← kload32 dic_entry_ptr;
  present ←
    (if negb (flag pde PTE_P) then
       if create then
         new_page ← page_alloc 1;
         match new_page with
         | None => mret false
         | Some np =>
             modify (λ s, set_ref np (pp_ref (pages s np) + 1) s) ;;
             kstore32 dic_entry_ptr (Z.lor (Z.lor (Z.lor (page2pa np) PTE_P) PTE_W) PTE_U) ;;
             mret true
         end
       else mret false
     else mret true);
  if (present : bool) then
    let page_move := PTX va in
    pde ← kload32 dic_entry_ptr;
    page_base ← KADDR (PTE_ADDR pde);
    mret (Some (page_base + 4 * page_move))
  else mret None.

(** The loop of [boot_map_region]; [i < size] holds for [i = 0, PGSIZE, ..]
    exactly [size / PGSIZE] times, rounded up. *)
Fixpoint boot_map_loop (n : nat) (pgdir va pa perm : Z) : MM () :=
  match n with
  | O => mret tt
  | S n =>
      entry ← pgdir_walk pgdir va true;
      match entry with
      | None => undef "boot_map_region: NULL entry"
      | Some e =>
          kstore32 e (Z.lor (Z.lor pa (u32 perm)) PTE_P) ;;
          boot_map_loop n pgdir (u32 (va + PGSIZE)) (u32 (pa + PGSIZE)) perm
      end
  end.

Definition boot_map_region (pgdir va size pa perm : Z) : MM () :=
  boot_map_loop (Z.to_nat ((size + PGSIZE - 1) / PGSIZE)) pgdir va pa perm.

Definition tlb_invalidate (pgdir va : Z) : MM () :=
  match cur with
  | None => modify (emit_mm (Invlpg va))
  | Some d => if d =? pgdir then modify (emit_mm (Invlpg va)) else mret tt
  end.

(** The page and, for [pte_store], the address of its entry; [None] leaves
    [*pte_store] unwritten. *)
Definition page_lookup (pgdir va : Z) : MM (option (Z * Z)) :=
  entry ← pgdir_walk pgdir va false;
  match entry with
  | None => mret None
  | Some e =>
      pte ← kload32 e;
      if negb (flag pte PTE_P) then mret None
      else res ← pa2page (PTE_ADDR pte); mret (Some (res, e))
  end.

Definition page_remove (pgdir va : Z) : MM () :=
  r ← page_lookup pgdir va;
  match r with
  | None => mret tt
  | Some (page, pte) =>
      page_decref page ;;
      tlb_invalidate pgdir va ;;
      kstore32 pte 0
  end.

Definition page_insert (pgdir pp va perm : Z) : MM Z :=
  entry ← pgdir_walk pgdir va true;
  match entry with
  | None => mret (- E_NO_MEM)
  | Some e =>
      modify (λ s, set_ref pp (pp_ref (pages s pp) + 1) s) ;;
      pte ← kload32 e;
      (if flag pte PTE_P
       then tlb_invalidate pgdir va ;; page_remove pgdir va
       else mret tt) ;;
      kstore32 e (Z.lor (Z.lor (page2pa pp) (u32 perm)) PTE_P) ;;
      mret 0
  end.

Definition mmio_map_region (pa size : Z) : MM Z :=
  let size := ROUNDUP (u32 (pa + size)) PGSIZE in
  let pa := ROUNDDOWN pa PGSIZE in
  let size := u32 (size - pa) in
  base ← gets mmio_base;
  kpd ← gets kern_pgdir;
  (if MMIOLIM <=? u32 (base + size) then panic "not enough memory" else mret tt) ;;
  boot_map_region kpd base size pa (Z.lor (Z.lor PTE_PCD PTE_PWT) PTE_W) ;;
  modify (set_mmio_base (u32 (base + size))) ;;
  base ← gets mmio_base;
  mret (u32 (base - size)).

(** [~0] as a [physaddr_t] when the page is not mapped. *)
Definition check_va2pa (pgdir va : Z) : MM Z :=
  let pgdir := pgdir + 4 * PDX va in
  pde ← kload32 pgdir;
  if negb (flag pde PTE_P) then mret 0xFFFFFFFF
  else
    p ← KADDR (PTE_ADDR pde);
    pte ← kload32 (p + 4 * PTX va);
    if negb (flag pte PTE_P) then mret 0xFFFFFFFF
    else mret (PTE_ADDR pte).
End page_table.

(** ** The abstract address space

    Pages are named by their page number.  [d] is the page of a directory,
    [kva d] the kernel pointer to it. *)
Definition kva (p : Z) : Z := p * 4096 + KERNBASE.

(** Physical address of entry [i] of the table or directory in page [p];
    the entries of a directory below [UTOP], and those of a page table. *)
Definition slot (p i : Z) : Z := p * 4096 + 4 * i.
Definition UPDX := 955.
Definition pde_slots (d : Z) : list Z := slot d <$> zrange 0 UPDX.
Definition pt_slots (t : Z) : list Z := slot t <$> zrange 0 1024.

(** The page a present entry points to. *)
Definition tgt (m : mem) (a : Z) : option Z :=
  let e := load32 m a in if flag e PTE_P then Some (e / 4096) else None.

(** The present PTE of [va] in directory [d], if any: the hardware's walk. *)
Definition lookup_pte (m : mem) (d va : Z) : option Z :=
  t ← tgt m (slot d (PDX va));
  let e := load32 m (slot t (PTX va)) in
  if flag e PTE_P then Some e else None.

(** Page tables hanging off the user part of the directories, and the pages
    mapped by them, with multiplicity. *)
Definition tables (m : mem) (dirs : list Z) : list Z := omap (tgt m) (dirs ≫= pde_slots).
Definition leaves (m : mem) (dirs : list Z) : list Z :=
  omap (tgt m) (tables m dirs ≫= pt_slots).
Definition refs (m : mem) (dirs : list Z) : list Z :=
  dirs ++ tables m dirs ++ leaves m dirs.
