(* ===== verification/PageInv.v ===== *)
(** * Reference counts and page-table structure

    The invariant that relates [pp_ref], the free list and the page tables:
    the reference count of a page is the number of directories, directory
    entries and page-table entries that point to it, and page-table pages are
    private to one directory entry and never mapped for the user.  The page
    operations of kern/pmap.c preserve it. *)
From S2P Require Import Prelude Monad Word Layout Mem CString PageAlloc PageTable.

(** ** Slots *)

Lemma slot_disj p i q j :
  0 ≤ i < 1024 → 0 ≤ j < 1024 → p ≠ q ∨ i ≠ j →
  slot p i + 4 ≤ slot q j ∨ slot q j + 4 ≤ slot p i.
Proof. unfold slot. lia. Qed.

Lemma slot_inj p i q j :
  0 ≤ i < 1024 → 0 ≤ j < 1024 → slot p i = slot q j → p = q ∧ i = j.
Proof. unfold slot. lia. Qed.

Lemma load32_store_slot m p i v q j : 0 ≤ i < 1024 → 0 ≤ j < 1024 →
  load32 (store32 m (slot p i) v) (slot q j) =
  if decide (p = q ∧ i = j) then u32 v else load32 m (slot q j).
Proof.
  intros Hi Hj. case_decide as H.
  - destruct H as [-> ->]. apply load32_store32_same.
  - apply load32_store32_other. apply slot_disj; [done..|]. lia.
Qed.

Lemma load32_zero_slot m p q j : 0 ≤ j < 1024 →
  load32 (zero_page m p) (slot q j) = if decide (p = q) then 0 else load32 m (slot q j).
Proof.
  intros Hj. unfold zero_page, slot. case_decide as H; subst.
  - apply load32_fill_zero; lia.
  - apply load32_fill_other. lia.
Qed.

Lemma elem_of_pde_slots d a : a ∈ pde_slots d ↔ ∃ i, 0 ≤ i < UPDX ∧ a = slot d i.
Proof.
  unfold pde_slots. rewrite list_elem_of_fmap. setoid_rewrite elem_of_zrange.
  split; intros (i & ? & ?); exists i; (split; [|done]); lia.
Qed.

Lemma elem_of_pt_slots t a : a ∈ pt_slots t ↔ ∃ j, 0 ≤ j < 1024 ∧ a = slot t j.
Proof.
  unfold pt_slots. rewrite list_elem_of_fmap. setoid_rewrite elem_of_zrange.
  split; intros (i & ? & ?); exists i; (split; [|done]); lia.
Qed.

Lemma NoDup_slots (f : Z → list Z) (n : Z) ps :
  0 ≤ n ≤ 1024 → (∀ p, f p = slot p <$> zrange 0 n) → NoDup ps → NoDup (ps ≫= f).
Proof.
  intros Hn Hf Hps.
  assert (∀ p a, a ∈ f p → ∃ i, 0 ≤ i < n ∧ a = slot p i) as Hel.
  { intros p a. rewrite Hf, list_elem_of_fmap. intros (i & -> & Hi%elem_of_zrange).
    exists i. split; [lia|done]. }
  apply NoDup_bind; [| |done].
  - intros p q a _ _ (i & Hi & ->)%Hel (j & Hj & E)%Hel.
    apply slot_inj in E as [-> _]; lia || done.
  - intros p _. rewrite Hf. apply NoDup_fmap_2_strong; [|apply NoDup_zrange].
    intros i j Hi%elem_of_zrange Hj%elem_of_zrange E. apply slot_inj in E as [_ ->]; lia || done.
Qed.

Lemma NoDup_pde_slots ds : NoDup ds → NoDup (ds ≫= pde_slots).
Proof. apply (NoDup_slots pde_slots UPDX); [unfold UPDX; lia|done]. Qed.
Lemma NoDup_pt_slots ts : NoDup ts → NoDup (ts ≫= pt_slots).
Proof. apply (NoDup_slots pt_slots 1024); [lia|done]. Qed.

Lemma tgt_store m p i v q j : 0 ≤ i < 1024 → 0 ≤ j < 1024 →
  tgt (store32 m (slot p i) v) (slot q j) =
  if decide (p = q ∧ i = j)
  then (if flag (u32 v) PTE_P then Some (u32 v / 4096) else None)
  else tgt m (slot q j).
Proof.
  intros Hi Hj. unfold tgt. rewrite load32_store_slot by done. by case_decide.
Qed.

Lemma tgt_zero m p q j : 0 ≤ j < 1024 →
  tgt (zero_page m p) (slot q j) = if decide (p = q) then None else tgt m (slot q j).
Proof. intros Hj. unfold tgt. rewrite load32_zero_slot by done. by case_decide. Qed.

(** ** How stores change the structure *)

Section structure.
Context (dirs : list Z).

Lemma elem_of_tables m t :
  t ∈ tables m dirs ↔ ∃ d i, d ∈ dirs ∧ 0 ≤ i < UPDX ∧ tgt m (slot d i) = Some t.
Proof.
  unfold tables. rewrite list_elem_of_omap. setoid_rewrite list_elem_of_bind.
  setoid_rewrite elem_of_pde_slots. naive_solver.
Qed.

Lemma elem_of_leaves m p :
  p ∈ leaves m dirs ↔
  ∃ t j, t ∈ tables m dirs ∧ 0 ≤ j < 1024 ∧ tgt m (slot t j) = Some p.
Proof.
  unfold leaves. rewrite list_elem_of_omap. setoid_rewrite list_elem_of_bind.
  setoid_rewrite elem_of_pt_slots. naive_solver.
Qed.

(** Memories that agree on every directory and table entry. *)
Lemma tables_ext m m' :
  (∀ d i, d ∈ dirs → 0 ≤ i < UPDX → tgt m' (slot d i) = tgt m (slot d i)) →
  tables m' dirs = tables m dirs.
Proof.
  intros H. unfold tables. apply omap_ext_elem. intros a.
  rewrite list_elem_of_bind. setoid_rewrite elem_of_pde_slots. naive_solver.
Qed.

Lemma slots_ext m m' (ts : list Z) :
  (∀ t j, t ∈ ts → 0 ≤ j < 1024 → tgt m' (slot t j) = tgt m (slot t j)) →
  omap (tgt m') (ts ≫= pt_slots) = omap (tgt m) (ts ≫= pt_slots).
Proof.
  intros H. apply omap_ext_elem. intros a.
  rewrite list_elem_of_bind. setoid_rewrite elem_of_pt_slots. naive_solver.
Qed.

(** Writing one page-table entry. *)
Lemma store_leaf m t j v :
  NoDup (dirs ++ tables m dirs) → t ∈ tables m dirs → 0 ≤ j < 1024 →
  let m' := store32 m (slot t j) v in
  tables m' dirs = tables m dirs ∧
  ∃ R, leaves m dirs ≡ₚ option_list (tgt m (slot t j)) ++ R ∧
       leaves m' dirs ≡ₚ option_list (tgt m' (slot t j)) ++ R.
Proof.
  intros Hnd Ht Hj m'. apply NoDup_app in Hnd as (_ & Hdisj & HndT).
  assert (tables m' dirs = tables m dirs) as HT.
  { apply tables_ext. intros d i Hd Hi. unfold m', UPDX in *. rewrite tgt_store by lia.
    rewrite decide_False; [done|]. intros [-> _]. by eapply Hdisj. }
  split; [done|]. unfold leaves. rewrite HT.
  apply omap_change.
  - by apply NoDup_pt_slots.
  - apply list_elem_of_bind. exists t. rewrite elem_of_pt_slots. eauto.
  - intros b. rewrite list_elem_of_bind. setoid_rewrite elem_of_pt_slots.
    intros (t' & (j' & Hj' & ->) & Ht') Hne. unfold m'. rewrite tgt_store by done.
    rewrite decide_False; [done|]. intros [-> ->]. done.
Qed.

(** Hanging a fresh zeroed table [q] off a directory entry. *)
Lemma store_pde m d i q f :
  NoDup (dirs ++ tables m dirs) → d ∈ dirs → 0 ≤ i < UPDX → tgt m (slot d i) = None →
  (q ∉ dirs ++ tables m dirs) → 0 ≤ q < 1048576 → 0 ≤ f < 4096 → flag f PTE_P = true →
  let m' := store32 (zero_page m q) (slot d i) (q * 4096 + f) in
  tables m' dirs ≡ₚ q :: tables m dirs ∧ leaves m' dirs ≡ₚ leaves m dirs.
Proof.
  intros Hnd Hd Hi Hn Hq Hq20 Hf Hfp m'. apply not_elem_of_app in Hq as [HqD HqT].
  apply NoDup_app in Hnd as (HndD & Hdisj & HndT). unfold UPDX in *.
  assert (∀ d' i', d' ∈ dirs → 0 ≤ i' < 1024 → ¬ (d = d' ∧ i = i') →
            tgt m' (slot d' i') = tgt m (slot d' i')) as Hpde.
  { intros d' i' Hd' Hi' Hne. unfold m'. rewrite tgt_store, decide_False by (done || lia).
    rewrite tgt_zero by lia. rewrite decide_False; [done|]. by intros ->. }
  assert (tgt m' (slot d i) = Some q) as Hnew.
  { unfold m'. rewrite tgt_store, decide_True by (done || lia). rewrite u32_small by lia.
    unfold PTE_P in *. rewrite flag_page, Hfp by lia. f_equal. lia. }
  assert (tables m' dirs ≡ₚ q :: tables m dirs) as HT.
  { destruct (omap_change (tgt m) (tgt m') (slot d i) (dirs ≫= pde_slots)) as (R & H1 & H2).
    - by apply NoDup_pde_slots.
    - apply list_elem_of_bind. exists d. rewrite elem_of_pde_slots. unfold UPDX. eauto.
    - intros b. rewrite list_elem_of_bind. setoid_rewrite elem_of_pde_slots. unfold UPDX.
      intros (d' & (i' & Hi' & ->) & Hd') Hne. apply Hpde; [done|lia|].
      intros [-> ->]. done.
    - unfold tables. rewrite H2, H1, Hnew, Hn. done. }
  split; [done|]. unfold leaves.
  transitivity (omap (tgt m') ((q :: tables m dirs) ≫= pt_slots)).
  { apply omap_Permutation, bind_Permutation, HT. }
  rewrite bind_cons, omap_app.
  rewrite (omap_none (tgt m') (pt_slots q)).
  - simpl. rewrite (slots_ext m m'); [done|]. intros t j Ht Hj. unfold m'.
    rewrite tgt_store by lia. rewrite decide_False by (intros [-> _]; by eapply Hdisj).
    rewrite tgt_zero by lia. rewrite decide_False; [done|]. by intros ->.
  - intros b (j & Hj & ->)%elem_of_pt_slots. unfold m'.
    rewrite tgt_store by lia. rewrite decide_False by (by intros [-> _]).
    rewrite tgt_zero by lia. by rewrite decide_True.
Qed.
End structure.

(** ** The invariant

    [base p] counts the references to [p] the kernel itself holds (boot
    structures, and a page being inserted); [dirs] are the pages of the live
    environments' directories, and [l] the free list. *)
Record kinv (base : Z → Z) (dirs : list Z) (s : mm) (l : list Z) : Prop := {
  ki_alloc : alloc_inv s l;
  ki_nodup : NoDup (dirs ++ tables (phys s) dirs);
  ki_range : ∀ p, p ∈ refs (phys s) dirs → 0 ≤ p < npages s;
  ki_priv : ∀ p, p ∈ leaves (phys s) dirs → p ∉ dirs ++ tables (phys s) dirs;
  ki_base : ∀ p, 0 ≤ base p;
  ki_own : ∀ p, p ∈ dirs ++ tables (phys s) dirs → base p = 0;
  ki_ref : ∀ p, 0 ≤ p < npages s →
    pp_ref (pages s p) = base p + countZ p (refs (phys s) dirs);
  ki_bound : ∀ p, 0 ≤ p < npages s → pp_ref (pages s p) < 65536;
}.

#[export] Instance kinv_proper : Proper (pointwise_relation Z eq ==> eq ==> eq ==> eq ==> iff) kinv.
Proof.
  assert (∀ b b' dirs s l, pointwise_relation Z eq b b' → kinv b dirs s l → kinv b' dirs s l) as H.
  { intros b b' dirs s l E []. split; try done; intros p; rewrite <- (E p); auto. }
  intros b b' E ? dirs -> ? s -> ? l ->. split; apply H; [done|]. by symmetry.
Qed.

Section kinv.
Context (base : Z → Z) (dirs : list Z).
Implicit Types (s : mm) (l : list Z).

Lemma ki_npages s l : kinv base dirs s l → 0 < npages s ≤ 65536.
Proof. intros H. apply (ai_npages _ _ (ki_alloc _ _ _ _ H)). Qed.

Lemma ki_ref_nonneg s l p : kinv base dirs s l → 0 ≤ p < npages s → 0 ≤ pp_ref (pages s p) < 65536.
Proof.
  intros H Hp. rewrite (ki_ref _ _ _ _ H) by done.
  pose proof (ki_bound _ _ _ _ H p Hp). rewrite (ki_ref _ _ _ _ H) in * by done.
  pose proof (ki_base _ _ _ _ H p). pose proof (countZ_nonneg p (refs (phys s) dirs)). lia.
Qed.

(** A free page is referenced by nothing. *)
Lemma ki_free s l p : kinv base dirs s l → p ∈ l → base p = 0 ∧ (p ∉ refs (phys s) dirs).
Proof.
  intros H Hp. destruct (ai_free _ _ (ki_alloc _ _ _ _ H) p Hp) as [Hr H0].
  rewrite (ki_ref _ _ _ _ H) in H0 by done. pose proof (ki_base _ _ _ _ H p).
  pose proof (countZ_nonneg p (refs (phys s) dirs)). split; [lia|]. apply countZ_zero. lia.
Qed.

Lemma ki_table s l t : kinv base dirs s l → t ∈ tables (phys s) dirs → 0 ≤ t < npages s.
Proof. intros H Ht. apply (ki_range _ _ _ _ H). unfold refs. rewrite !elem_of_app. auto. Qed.
Lemma ki_dir s l d : kinv base dirs s l → d ∈ dirs → 0 ≤ d < npages s.
Proof. intros H Ht. apply (ki_range _ _ _ _ H). unfold refs. rewrite !elem_of_app. auto. Qed.
Lemma ki_leaf s l p : kinv base dirs s l → p ∈ leaves (phys s) dirs → 0 ≤ p < npages s.
Proof. intros H Ht. apply (ki_range _ _ _ _ H). unfold refs. rewrite !elem_of_app. auto. Qed.
End kinv.

(** *** The steps of the page operations preserve the invariant *)

Lemma alloc_inv_ref s l p r : p ∉ l → alloc_inv s l → alloc_inv (set_ref p r s) l.
Proof.
  intros Hp []. split; simpl; try done.
  - by apply chain_upd.
  - intros q Hq. rewrite upd_other by (intros ->; done). auto.
  - intros q Hq Hql. rewrite upd_case. case_decide; subst; simpl; auto.
Qed.

Lemma alloc_inv_phys s l m : alloc_inv s l → alloc_inv (set_phys m s) l.
Proof. by intros []. Qed.

Lemma pp_ref_set_link p x s q : pp_ref (pages (set_link p x s) q) = pp_ref (pages s q).
Proof. simpl. rewrite upd_case. by case_decide; subst. Qed.

(** Putting an unreferenced page on the free list. *)
Lemma kinv_free base dirs s l p :
  kinv base dirs s l → 0 ≤ p < npages s → p ∉ l → pp_ref (pages s p) = 0 →
  kinv base dirs (set_free_list (Some p) (set_link p (page_free_list s) s)) (p :: l).
Proof.
  intros [] Hp Hpl Hr. split; try done.
  - by apply page_free_inv.
  - intros q Hq. change (pp_ref (pages (set_link p (page_free_list s) s) q) =
      base q + countZ q (refs (phys s) dirs)).
    rewrite pp_ref_set_link. auto.
  - intros q Hq. change (pp_ref (pages (set_link p (page_free_list s) s) q) < 65536).
    rewrite pp_ref_set_link. auto.
Qed.

Section steps.
Context (base : Z → Z) (dirs : list Z) (s : mm) (l : list Z).
Context (H : kinv base dirs s l).

(** The kernel takes [n] more references to [p]. *)
Lemma kinv_take p n :
  0 ≤ p < npages s → p ∉ l → p ∉ dirs ++ tables (phys s) dirs →
  0 ≤ n → pp_ref (pages s p) + n ≤ 65535 →
  kinv (λ q, base q + if decide (q = p) then n else 0) dirs
    (set_ref p (pp_ref (pages s p) + n) s) l.
Proof.
  intros Hp Hl Hd Hn Hr. destruct (ki_ref_nonneg _ _ _ _ _ H Hp). destruct H. split; simpl; try done.
  - by apply alloc_inv_ref.
  - intros q. specialize (ki_base0 q). case_decide; lia.
  - intros q Hq. rewrite ki_own0 by done. rewrite decide_False; [done|]. by intros ->.
  - intros q Hq. rewrite upd_case. specialize (ki_ref0 q Hq).
    case_decide as E; case_decide; subst; simpl; try done; rewrite ?u16_small; lia.
  - intros q Hq. rewrite upd_case. case_decide; subst; simpl; [|auto]. rewrite u16_small; lia.
Qed.

Lemma kinv_incr p :
  0 ≤ p < npages s → p ∉ l → p ∉ dirs ++ tables (phys s) dirs → pp_ref (pages s p) < 65535 →
  kinv (λ q, base q + if decide (q = p) then 1 else 0) dirs
    (set_ref p (pp_ref (pages s p) + 1) s) l.
Proof. intros. apply kinv_take; [done..|lia|lia]. Qed.

(** [page_decref] gives up a reference the kernel holds. *)
Lemma kinv_decref p :
  0 ≤ p < npages s → 1 ≤ base p →
  pp_link (pages s p) = None ∧
  kinv (λ q, base q - if decide (q = p) then 1 else 0) dirs (decref_state p s)
    (if decide (pp_ref (pages s p) = 1) then p :: l else l).
Proof.
  intros Hp Hb. pose proof (ki_ref_nonneg _ _ _ _ _ H Hp) as Hr.
  assert (p ∉ l) as Hpl.
  { intros Hl. destruct (ki_free _ _ _ _ _ H Hl). lia. }
  assert (p ∉ dirs ++ tables (phys s) dirs) as Hpd.
  { intros Hd%(ki_own _ _ _ _ H). lia. }
  pose proof (countZ_nonneg p (refs (phys s) dirs)) as Hc.
  pose proof (ki_ref _ _ _ _ H p Hp) as Href.
  assert (pp_link (pages s p) = None) as Hlk.
  { by apply (ai_used _ _ (ki_alloc _ _ _ _ H)). }
  set (r := pp_ref (pages s p) - 1). set (s1 := set_ref p r s).
  assert (alloc_inv s1 l) as Ha1 by (apply alloc_inv_ref; [done|apply H]).
  split; [done|]. unfold decref_state. fold r s1. rewrite u16_small by lia.
  assert (kinv (λ q, base q - if decide (q = p) then 1 else 0) dirs s1 l) as H1.
  { destruct H. split; simpl; try done.
    - intros q. specialize (ki_base0 q). case_decide; subst; lia.
    - intros q Hq. rewrite ki_own0 by done. rewrite decide_False; [done|]. by intros ->.
    - intros q Hq. rewrite upd_case. specialize (ki_ref0 q Hq).
      repeat case_decide; subst; simpl; try done; rewrite ?u16_small; lia.
    - intros q Hq. rewrite upd_case. case_decide; subst; simpl; [|auto]. rewrite u16_small; lia. }
  destruct (Z.eqb_spec r 0) as [E|E].
  + rewrite decide_True by lia. apply (kinv_free _ dirs s1 l p H1 Hp Hpl).
    simpl. rewrite upd_same. simpl. rewrite u16_small; lia.
  + by rewrite decide_False by lia.
Qed.

(** Overwriting a page-table entry: its old target becomes a reference the
    kernel holds, and its new target uses one up. *)
Lemma kinv_store_leaf t j v :
  t ∈ tables (phys s) dirs → 0 ≤ j < 1024 →
  let m' := store32 (phys s) (slot t j) v in
  (∀ q, tgt m' (slot t j) = Some q → 1 ≤ base q ∧ 0 ≤ q < npages s) →
  kinv (λ q, base q + countZ q (option_list (tgt (phys s) (slot t j)))
             - countZ q (option_list (tgt m' (slot t j)))) dirs (set_phys m' s) l.
Proof.
  intros Ht Hj m' Hq.
  destruct (store_leaf dirs (phys s) t j v (ki_nodup _ _ _ _ H) Ht Hj) as (HT & R & HR & HR').
  fold m' in HT, HR'.
  assert (∀ q, q ∈ option_list (tgt (phys s) (slot t j)) → q ∈ leaves (phys s) dirs) as Hold.
  { intros q Hin. rewrite HR. by apply elem_of_app; left. }
  assert (∀ q, tgt m' (slot t j) = Some q → q ∉ dirs ++ tables (phys s) dirs) as Hnew.
  { intros q [Hb _]%Hq Hd%(ki_own _ _ _ _ H). lia. }
  assert (∀ q, q ∈ leaves m' dirs → q ∈ leaves (phys s) dirs ∨ tgt m' (slot t j) = Some q) as Hin.
  { intros q. rewrite HR', HR, !elem_of_app. destruct (tgt m' (slot t j)) as [x|]; simpl.
    - rewrite list_elem_of_singleton. intros [->|?]; auto.
    - rewrite elem_of_nil. intros [[]|?]; auto. }
  pose proof (ki_priv _ _ _ _ H) as Hpriv. pose proof (ki_range _ _ _ _ H) as Hrange.
  unfold refs in Hrange. setoid_rewrite elem_of_app in Hrange. setoid_rewrite elem_of_app in Hrange.
  split; simpl; rewrite ?HT; try (by destruct H).
  - by destruct H as [[]].
  - intros q. unfold refs. rewrite HT, !elem_of_app. intros [?|[?|[?| ?%Hq]%Hin]]; auto. lia.
  - intros q [?|?]%Hin; auto.
  - intros q. pose proof (ki_base _ _ _ _ H q).
    pose proof (countZ_nonneg q (option_list (tgt (phys s) (slot t j)))).
    destruct (tgt m' (slot t j)) as [x|]; simpl; [|lia].
    destruct (Hq x eq_refl). case_decide; subst; lia.
  - intros q Hd. rewrite (ki_own _ _ _ _ H) by done.
    rewrite (proj2 (countZ_zero _ _)) by (intros ?%Hold%Hpriv; done).
    rewrite (proj2 (countZ_zero _ _)); [done|].
    destruct (tgt m' (slot t j)) as [x|]; simpl; [|apply not_elem_of_nil].
    rewrite list_elem_of_singleton. intros ->. by eapply Hnew.
  - intros q Hr. rewrite (ki_ref _ _ _ _ H) by done. unfold refs.
    rewrite HT, !countZ_app. rewrite (countZ_perm _ _ _ HR), (countZ_perm _ _ _ HR'), !countZ_app. lia.
Qed.
End steps.
