(* ===== verification/EntryPgdir.v ===== *)
(** * kern/entrypgdir.c: the page directory of kern/entry.S

    The kernel starts on two static tables: [entry_pgtable], whose 1024 entries
    are written out in the source and here, and [entry_pgdir], which maps it at 0
    and at KERNBASE.  Proved: translation through the tables, as the hardware does
    it with CR0.WP set, is exactly what the C code needs, so that no literal of
    the table is wrong. *)
From S2P Require Import Prelude Word Layout Mem PageAlloc PageTable PageInv.

(** The entries [v | PTE_P | PTE_W]. *)
Definition present_writable (l : list Z) : list Z := (λ v, Z.lor (Z.lor v PTE_P) PTE_W) <$> l.

(** ** The table, 128 entries at a time *)

Definition entry_pgtable_0 : list Z := present_writable [
  0x000000; 0x001000; 0x002000; 0x003000; 0x004000; 0x005000; 0x006000; 0x007000;
  0x008000; 0x009000; 0x00a000; 0x00b000; 0x00c000; 0x00d000; 0x00e000; 0x00f000;
  0x010000; 0x011000; 0x012000; 0x013000; 0x014000; 0x015000; 0x016000; 0x017000;
  0x018000; 0x019000; 0x01a000; 0x01b000; 0x01c000; 0x01d000; 0x01e000; 0x01f000;
  0x020000; 0x021000; 0x022000; 0x023000; 0x024000; 0x025000; 0x026000; 0x027000;
  0x028000; 0x029000; 0x02a000; 0x02b000; 0x02c000; 0x02d000; 0x02e000; 0x02f000;
  0x030000; 0x031000; 0x032000; 0x033000; 0x034000; 0x035000; 0x036000; 0x037000;
  0x038000; 0x039000; 0x03a000; 0x03b000; 0x03c000; 0x03d000; 0x03e000; 0x03f000;
  0x040000; 0x041000; 0x042000; 0x043000; 0x044000; 0x045000; 0x046000; 0x047000;
  0x048000; 0x049000; 0x04a000; 0x04b000; 0x04c000; 0x04d000; 0x04e000; 0x04f000;
  0x050000; 0x051000; 0x052000; 0x053000; 0x054000; 0x055000; 0x056000; 0x057000;
  0x058000; 0x059000; 0x05a000; 0x05b000; 0x05c000; 0x05d000; 0x05e000; 0x05f000;
  0x060000; 0x061000; 0x062000; 0x063000; 0x064000; 0x065000; 0x066000; 0x067000;
  0x068000; 0x069000; 0x06a000; 0x06b000; 0x06c000; 0x06d000; 0x06e000; 0x06f000;
  0x070000; 0x071000; 0x072000; 0x073000; 0x074000; 0x075000; 0x076000; 0x077000;
  0x078000; 0x079000; 0x07a000; 0x07b000; 0x07c000; 0x07d000; 0x07e000; 0x07f000].

Definition entry_pgtable_1 : list Z := present_writable [
  0x080000; 0x081000; 0x082000; 0x083000; 0x084000; 0x085000; 0x086000; 0x087000;
  0x088000; 0x089000; 0x08a000; 0x08b000; 0x08c000; 0x08d000; 0x08e000; 0x08f000;
  0x090000; 0x091000; 0x092000; 0x093000; 0x094000; 0x095000; 0x096000; 0x097000;
  0x098000; 0x099000; 0x09a000; 0x09b000; 0x09c000; 0x09d000; 0x09e000; 0x09f000;
  0x0a0000; 0x0a1000; 0x0a2000; 0x0a3000; 0x0a4000; 0x0a5000; 0x0a6000; 0x0a7000;
  0x0a8000; 0x0a9000; 0x0aa000; 0x0ab000; 0x0ac000; 0x0ad000; 0x0ae000; 0x0af000;
  0x0b0000; 0x0b1000; 0x0b2000; 0x0b3000; 0x0b4000; 0x0b5000; 0x0b6000; 0x0b7000;
  0x0b8000; 0x0b9000; 0x0ba000; 0x0bb000; 0x0bc000; 0x0bd000; 0x0be000; 0x0bf000;
  0x0c0000; 0x0c1000; 0x0c2000; 0x0c3000; 0x0c4000; 0x0c5000; 0x0c6000; 0x0c7000;
  0x0c8000; 0x0c9000; 0x0ca000; 0x0cb000; 0x0cc000; 0x0cd000; 0x0ce000; 0x0cf000;
  0x0d0000; 0x0d1000; 0x0d2000; 0x0d3000; 0x0d4000; 0x0d5000; 0x0d6000; 0x0d7000;
  0x0d8000; 0x0d9000; 0x0da000; 0x0db000; 0x0dc000; 0x0dd000; 0x0de000; 0x0df000;
  0x0e0000; 0x0e1000; 0x0e2000; 0x0e3000; 0x0e4000; 0x0e5000; 0x0e6000; 0x0e7000;
  0x0e8000; 0x0e9000; 0x0ea000; 0x0eb000; 0x0ec000; 0x0ed000; 0x0ee000; 0x0ef000;
  0x0f0000; 0x0f1000; 0x0f2000; 0x0f3000; 0x0f4000; 0x0f5000; 0x0f6000; 0x0f7000;
  0x0f8000; 0x0f9000; 0x0fa000; 0x0fb000; 0x0fc000; 0x0fd000; 0x0fe000; 0x0ff000].

Definition entry_pgtable_2 : list Z := present_writable [
  0x100000; 0x101000; 0x102000; 0x103000; 0x104000; 0x105000; 0x106000; 0x107000;
  0x108000; 0x109000; 0x10a000; 0x10b000; 0x10c000; 0x10d000; 0x10e000; 0x10f000;
  0x110000; 0x111000; 0x112000; 0x113000; 0x114000; 0x115000; 0x116000; 0x117000;
  0x118000; 0x119000; 0x11a000; 0x11b000; 0x11c000; 0x11d000; 0x11e000; 0x11f000;
  0x120000; 0x121000; 0x122000; 0x123000; 0x124000; 0x125000; 0x126000; 0x127000;
  0x128000; 0x129000; 0x12a000; 0x12b000; 0x12c000; 0x12d000; 0x12e000; 0x12f000;
  0x130000; 0x131000; 0x132000; 0x133000; 0x134000; 0x135000; 0x136000; 0x137000;
  0x138000; 0x139000; 0x13a000; 0x13b000; 0x13c000; 0x13d000; 0x13e000; 0x13f000;
  0x140000; 0x141000; 0x142000; 0x143000; 0x144000; 0x145000; 0x146000; 0x147000;
  0x148000; 0x149000; 0x14a000; 0x14b000; 0x14c000; 0x14d000; 0x14e000; 0x14f000;
  0x150000; 0x151000; 0x152000; 0x153000; 0x154000; 0x155000; 0x156000; 0x157000;
  0x158000; 0x159000; 0x15a000; 0x15b000; 0x15c000; 0x15d000; 0x15e000; 0x15f000;
  0x160000; 0x161000; 0x162000; 0x163000; 0x164000; 0x165000; 0x166000; 0x167000;
  0x168000; 0x169000; 0x16a000; 0x16b000; 0x16c000; 0x16d000; 0x16e000; 0x16f000;
  0x170000; 0x171000; 0x172000; 0x173000; 0x174000; 0x175000; 0x176000; 0x177000;
  0x178000; 0x179000; 0x17a000; 0x17b000; 0x17c000; 0x17d000; 0x17e000; 0x17f000].

Definition entry_pgtable_3 : list Z := present_writable [
  0x180000; 0x181000; 0x182000; 0x183000; 0x184000; 0x185000; 0x186000; 0x187000;
  0x188000; 0x189000; 0x18a000; 0x18b000; 0x18c000; 0x18d000; 0x18e000; 0x18f000;
  0x190000; 0x191000; 0x192000; 0x193000; 0x194000; 0x195000; 0x196000; 0x197000;
  0x198000; 0x199000; 0x19a000; 0x19b000; 0x19c000; 0x19d000; 0x19e000; 0x19f000;
  0x1a0000; 0x1a1000; 0x1a2000; 0x1a3000; 0x1a4000; 0x1a5000; 0x1a6000; 0x1a7000;
  0x1a8000; 0x1a9000; 0x1aa000; 0x1ab000; 0x1ac000; 0x1ad000; 0x1ae000; 0x1af000;
  0x1b0000; 0x1b1000; 0x1b2000; 0x1b3000; 0x1b4000; 0x1b5000; 0x1b6000; 0x1b7000;
  0x1b8000; 0x1b9000; 0x1ba000; 0x1bb000; 0x1bc000; 0x1bd000; 0x1be000; 0x1bf000;
  0x1c0000; 0x1c1000; 0x1c2000; 0x1c3000; 0x1c4000; 0x1c5000; 0x1c6000; 0x1c7000;
  0x1c8000; 0x1c9000; 0x1ca000; 0x1cb000; 0x1cc000; 0x1cd000; 0x1ce000; 0x1cf000;
  0x1d0000; 0x1d1000; 0x1d2000; 0x1d3000; 0x1d4000; 0x1d5000; 0x1d6000; 0x1d7000;
  0x1d8000; 0x1d9000; 0x1da000; 0x1db000; 0x1dc000; 0x1dd000; 0x1de000; 0x1df000;
  0x1e0000; 0x1e1000; 0x1e2000; 0x1e3000; 0x1e4000; 0x1e5000; 0x1e6000; 0x1e7000;
  0x1e8000; 0x1e9000; 0x1ea000; 0x1eb000; 0x1ec000; 0x1ed000; 0x1ee000; 0x1ef000;
  0x1f0000; 0x1f1000; 0x1f2000; 0x1f3000; 0x1f4000; 0x1f5000; 0x1f6000; 0x1f7000;
  0x1f8000; 0x1f9000; 0x1fa000; 0x1fb000; 0x1fc000; 0x1fd000; 0x1fe000; 0x1ff000].

Definition entry_pgtable_4 : list Z := present_writable [
  0x200000; 0x201000; 0x202000; 0x203000; 0x204000; 0x205000; 0x206000; 0x207000;
  0x208000; 0x209000; 0x20a000; 0x20b000; 0x20c000; 0x20d000; 0x20e000; 0x20f000;
  0x210000; 0x211000; 0x212000; 0x213000; 0x214000; 0x215000; 0x216000; 0x217000;
  0x218000; 0x219000; 0x21a000; 0x21b000; 0x21c000; 0x21d000; 0x21e000; 0x21f000;
  0x220000; 0x221000; 0x222000; 0x223000; 0x224000; 0x225000; 0x226000; 0x227000;
  0x228000; 0x229000; 0x22a000; 0x22b000; 0x22c000; 0x22d000; 0x22e000; 0x22f000;
  0x230000; 0x231000; 0x232000; 0x233000; 0x234000; 0x235000; 0x236000; 0x237000;
  0x238000; 0x239000; 0x23a000; 0x23b000; 0x23c000; 0x23d000; 0x23e000; 0x23f000;
  0x240000; 0x241000; 0x242000; 0x243000; 0x244000; 0x245000; 0x246000; 0x247000;
  0x248000; 0x249000; 0x24a000; 0x24b000; 0x24c000; 0x24d000; 0x24e000; 0x24f000;
  0x250000; 0x251000; 0x252000; 0x253000; 0x254000; 0x255000; 0x256000; 0x257000;
  0x258000; 0x259000; 0x25a000; 0x25b000; 0x25c000; 0x25d000; 0x25e000; 0x25f000;
  0x260000; 0x261000; 0x262000; 0x263000; 0x264000; 0x265000; 0x266000; 0x267000;
  0x268000; 0x269000; 0x26a000; 0x26b000; 0x26c000; 0x26d000; 0x26e000; 0x26f000;
  0x270000; 0x271000; 0x272000; 0x273000; 0x274000; 0x275000; 0x276000; 0x277000;
  0x278000; 0x279000; 0x27a000; 0x27b000; 0x27c000; 0x27d000; 0x27e000; 0x27f000].

Definition entry_pgtable_5 : list Z := present_writable [
  0x280000; 0x281000; 0x282000; 0x283000; 0x284000; 0x285000; 0x286000; 0x287000;
  0x288000; 0x289000; 0x28a000; 0x28b000; 0x28c000; 0x28d000; 0x28e000; 0x28f000;
  0x290000; 0x291000; 0x292000; 0x293000; 0x294000; 0x295000; 0x296000; 0x297000;
  0x298000; 0x299000; 0x29a000; 0x29b000; 0x29c000; 0x29d000; 0x29e000; 0x29f000;
  0x2a0000; 0x2a1000; 0x2a2000; 0x2a3000; 0x2a4000; 0x2a5000; 0x2a6000; 0x2a7000;
  0x2a8000; 0x2a9000; 0x2aa000; 0x2ab000; 0x2ac000; 0x2ad000; 0x2ae000; 0x2af000;
  0x2b0000; 0x2b1000; 0x2b2000; 0x2b3000; 0x2b4000; 0x2b5000; 0x2b6000; 0x2b7000;
  0x2b8000; 0x2b9000; 0x2ba000; 0x2bb000; 0x2bc000; 0x2bd000; 0x2be000; 0x2bf000;
  0x2c0000; 0x2c1000; 0x2c2000; 0x2c3000; 0x2c4000; 0x2c5000; 0x2c6000; 0x2c7000;
  0x2c8000; 0x2c9000; 0x2ca000; 0x2cb000; 0x2cc000; 0x2cd000; 0x2ce000; 0x2cf000;
  0x2d0000; 0x2d1000; 0x2d2000; 0x2d3000; 0x2d4000; 0x2d5000; 0x2d6000; 0x2d7000;
  0x2d8000; 0x2d9000; 0x2da000; 0x2db000; 0x2dc000; 0x2dd000; 0x2de000; 0x2df000;
  0x2e0000; 0x2e1000; 0x2e2000; 0x2e3000; 0x2e4000; 0x2e5000; 0x2e6000; 0x2e7000;
  0x2e8000; 0x2e9000; 0x2ea000; 0x2eb000; 0x2ec000; 0x2ed000; 0x2ee000; 0x2ef000;
  0x2f0000; 0x2f1000; 0x2f2000; 0x2f3000; 0x2f4000; 0x2f5000; 0x2f6000; 0x2f7000;
  0x2f8000; 0x2f9000; 0x2fa000; 0x2fb000; 0x2fc000; 0x2fd000; 0x2fe000; 0x2ff000].

Definition entry_pgtable_6 : list Z := present_writable [
  0x300000; 0x301000; 0x302000; 0x303000; 0x304000; 0x305000; 0x306000; 0x307000;
  0x308000; 0x309000; 0x30a000; 0x30b000; 0x30c000; 0x30d000; 0x30e000; 0x30f000;
  0x310000; 0x311000; 0x312000; 0x313000; 0x314000; 0x315000; 0x316000; 0x317000;
  0x318000; 0x319000; 0x31a000; 0x31b000; 0x31c000; 0x31d000; 0x31e000; 0x31f000;
  0x320000; 0x321000; 0x322000; 0x323000; 0x324000; 0x325000; 0x326000; 0x327000;
  0x328000; 0x329000; 0x32a000; 0x32b000; 0x32c000; 0x32d000; 0x32e000; 0x32f000;
  0x330000; 0x331000; 0x332000; 0x333000; 0x334000; 0x335000; 0x336000; 0x337000;
  0x338000; 0x339000; 0x33a000; 0x33b000; 0x33c000; 0x33d000; 0x33e000; 0x33f000;
  0x340000; 0x341000; 0x342000; 0x343000; 0x344000; 0x345000; 0x346000; 0x347000;
  0x348000; 0x349000; 0x34a000; 0x34b000; 0x34c000; 0x34d000; 0x34e000; 0x34f000;
  0x350000; 0x351000; 0x352000; 0x353000; 0x354000; 0x355000; 0x356000; 0x357000;
  0x358000; 0x359000; 0x35a000; 0x35b000; 0x35c000; 0x35d000; 0x35e000; 0x35f000;
  0x360000; 0x361000; 0x362000; 0x363000; 0x364000; 0x365000; 0x366000; 0x367000;
  0x368000; 0x369000; 0x36a000; 0x36b000; 0x36c000; 0x36d000; 0x36e000; 0x36f000;
  0x370000; 0x371000; 0x372000; 0x373000; 0x374000; 0x375000; 0x376000; 0x377000;
  0x378000; 0x379000; 0x37a000; 0x37b000; 0x37c000; 0x37d000; 0x37e000; 0x37f000].

Definition entry_pgtable_7 : list Z := present_writable [
  0x380000; 0x381000; 0x382000; 0x383000; 0x384000; 0x385000; 0x386000; 0x387000;
  0x388000; 0x389000; 0x38a000; 0x38b000; 0x38c000; 0x38d000; 0x38e000; 0x38f000;
  0x390000; 0x391000; 0x392000; 0x393000; 0x394000; 0x395000; 0x396000; 0x397000;
  0x398000; 0x399000; 0x39a000; 0x39b000; 0x39c000; 0x39d000; 0x39e000; 0x39f000;
  0x3a0000; 0x3a1000; 0x3a2000; 0x3a3000; 0x3a4000; 0x3a5000; 0x3a6000; 0x3a7000;
  0x3a8000; 0x3a9000; 0x3aa000; 0x3ab000; 0x3ac000; 0x3ad000; 0x3ae000; 0x3af000;
  0x3b0000; 0x3b1000; 0x3b2000; 0x3b3000; 0x3b4000; 0x3b5000; 0x3b6000; 0x3b7000;
  0x3b8000; 0x3b9000; 0x3ba000; 0x3bb000; 0x3bc000; 0x3bd000; 0x3be000; 0x3bf000;
  0x3c0000; 0x3c1000; 0x3c2000; 0x3c3000; 0x3c4000; 0x3c5000; 0x3c6000; 0x3c7000;
  0x3c8000; 0x3c9000; 0x3ca000; 0x3cb000; 0x3cc000; 0x3cd000; 0x3ce000; 0x3cf000;
  0x3d0000; 0x3d1000; 0x3d2000; 0x3d3000; 0x3d4000; 0x3d5000; 0x3d6000; 0x3d7000;
  0x3d8000; 0x3d9000; 0x3da000; 0x3db000; 0x3dc000; 0x3dd000; 0x3de000; 0x3df000;
  0x3e0000; 0x3e1000; 0x3e2000; 0x3e3000; 0x3e4000; 0x3e5000; 0x3e6000; 0x3e7000;
  0x3e8000; 0x3e9000; 0x3ea000; 0x3eb000; 0x3ec000; 0x3ed000; 0x3ee000; 0x3ef000;
  0x3f0000; 0x3f1000; 0x3f2000; 0x3f3000; 0x3f4000; 0x3f5000; 0x3f6000; 0x3f7000;
  0x3f8000; 0x3f9000; 0x3fa000; 0x3fb000; 0x3fc000; 0x3fd000; 0x3fe000; 0x3ff000].

Definition entry_pgtable : list Z :=
  entry_pgtable_0 ++ entry_pgtable_1 ++ entry_pgtable_2 ++ entry_pgtable_3 ++
  entry_pgtable_4 ++ entry_pgtable_5 ++ entry_pgtable_6 ++ entry_pgtable_7.

(** [pgtable] is the address of [entry_pgtable]. *)
Definition entry_pgdir (pgtable : Z) (i : Z) : Z :=
  if i =? 0 then u32 (pgtable - KERNBASE) + PTE_P
  else if i =? Z.shiftr KERNBASE PDXSHIFT then u32 (pgtable - KERNBASE) + PTE_P + PTE_W
  else 0.

(** ** Translation *)

(** The kernel's image is in memory: the two arrays at the physical addresses
    of [pgdir] and [pgtable]. *)
Record entry_loaded (m : mem) (pgdir pgtable : Z) : Prop := {
  el_dir : ∃ d, pgdir = kva d ∧ 0 ≤ d < 1024;
  el_table : ∃ t, pgtable = kva t ∧ 0 ≤ t < 1024;
  el_pdes : ∀ i, 0 ≤ i < 1024 → load32 m (pgdir - KERNBASE + 4 * i) = entry_pgdir pgtable i;
  el_ptes : ∀ i : nat, (i < 1024)%nat → load32 m (pgtable - KERNBASE + 4 * Z.of_nat i) = nth i entry_pgtable 0;
}.

(** The physical address of a kernel access to [va] with CR3 = [cr3] and CR0.WP set:
    both entries must be present and, for a write, writable. *)
Definition translate (m : mem) (cr3 va : Z) (write : bool) : option Z :=
  let pde := load32 m (slot (cr3 / 4096) (PDX va)) in
  if negb (flag pde PTE_P) || write && negb (flag pde PTE_W) then None
  else
    let pte := load32 m (slot (pde / 4096) (PTX va)) in
    if negb (flag pte PTE_P) || write && negb (flag pte PTE_W) then None
    else Some (PTE_ADDR pte + PGOFF va).

(** The literals, checked one by one. *)
Lemma entry_pgtable_literals : entry_pgtable = (λ i, i * 4096 + 3) <$> zrange 0 1024.
Proof. vm_compute. reflexivity. Qed.

Lemma entry_pgtable_nth i : (i < 1024)%nat → nth i entry_pgtable 0 = Z.of_nat i * 4096 + 3.
Proof.
  intros Hi. rewrite entry_pgtable_literals.
  apply nth_lookup_Some. rewrite list_lookup_fmap. rewrite lookup_zrange by lia. reflexivity.
Qed.

Section entry.
Context (m : mem) (pgdir pgtable : Z) (L : entry_loaded m pgdir pgtable).

Lemma entry_pde va : ∃ t, pgtable = kva t ∧ 0 ≤ t < 1024 ∧
  load32 m (slot ((pgdir - KERNBASE) / 4096) (PDX va)) =
    if PDX va =? 0 then t * 4096 + 1 else if PDX va =? 960 then t * 4096 + 3 else 0.
Proof using L.
  destruct L as [(d & -> & Hd) (t & -> & Ht) Hdir _]. exists t. split; [done|]. split; [exact Ht|].
  specialize (Hdir (PDX va) (PDX_range va)). replace ((kva d - KERNBASE) / 4096) with d by (unfold kva; lia).
  replace (kva d - KERNBASE + 4 * PDX va) with (slot d (PDX va)) in Hdir by (unfold slot, kva; lia).
  rewrite Hdir. unfold entry_pgdir. change (Z.shiftr KERNBASE PDXSHIFT) with 960.
  replace (u32 (kva t - KERNBASE)) with (t * 4096) by (unfold kva; rewrite u32_small; lia).
  unfold PTE_P, PTE_W. destruct (PDX va =? 0); [done|]. destruct (PDX va =? 960); lia.
Qed.

Lemma entry_pte t i : pgtable = kva t → 0 ≤ i < 1024 → load32 m (slot t i) = i * 4096 + 3.
Proof using L.
  intros Et Hi. destruct L as [_ _ _ Ht]. specialize (Ht (Z.to_nat i) ltac:(lia)).
  rewrite entry_pgtable_nth, Z2Nat.id in Ht by lia. rewrite <- Ht. f_equal. rewrite Et. unfold slot, kva. lia.
Qed.

Lemma entry_translate_run va write : 0 ≤ va < 4294967296 →
  translate m (pgdir - KERNBASE) va write =
    if va <? PTSIZE then if write then None else Some va
    else if (KERNBASE <=? va) && (va <? KERNBASE + PTSIZE) then Some (va - KERNBASE) else None.
Proof using L.
  intros Hva. destruct (entry_pde va) as (t & Et & Ht & Hpde). unfold translate. rewrite Hpde.
  assert (PDX va = va / 4194304) as Ed by (rewrite PDX_div, u32_small; lia).
  pose proof (entry_pte t (PTX va) Et (PTX_range va)) as Hpte.
  assert (PTX va = va / 4096 mod 1024) as Ex by (rewrite PTX_div, u32_small; lia).
  assert (∀ f, 0 ≤ f < 4096 → (t * 4096 + f) / 4096 = t) as Hdiv by (intros; lia).
  change KERNBASE with 0xF0000000. change PTSIZE with 0x400000. rewrite Ed.
  destruct (Z.eqb_spec (va / 4194304) 0) as [H0|H0].
  { rewrite !flag_page by (vm_compute; split; (discriminate || done)). change (flag 1 PTE_P) with true. change (flag 1 PTE_W) with false.
    destruct (Z.ltb_spec va 0x400000); [|lia]. destruct write; [reflexivity|]. cbn [negb orb andb].
    rewrite Hdiv, Hpte, flag_page by (vm_compute; split; (discriminate || done)). change (flag 3 PTE_P) with true. cbn [negb orb andb].
    rewrite PTE_ADDR_page, PGOFF_mod, u32_small, Ex by lia. f_equal. lia. }
  destruct (Z.ltb_spec va 0x400000); [lia|].
  destruct (Z.eqb_spec (va / 4194304) 960) as [H1|H1].
  { rewrite !flag_page by (vm_compute; split; (discriminate || done)). change (flag 3 PTE_P) with true. change (flag 3 PTE_W) with true.
    rewrite andb_false_r. cbn [negb orb].
    rewrite Hdiv, Hpte, !flag_page by (vm_compute; split; (discriminate || done)). change (flag 3 PTE_P) with true. change (flag 3 PTE_W) with true.
    rewrite andb_false_r. cbn [negb orb].
    destruct (Z.leb_spec 0xF0000000 va); [|lia]. destruct (Z.ltb_spec va (0xF0000000 + 0x400000)); [|lia]. cbn [andb].
    rewrite PTE_ADDR_page, PGOFF_mod, u32_small, Ex by lia. f_equal. lia. }
  change (flag 0 PTE_P) with false. cbn [negb orb].
  destruct (Z.leb_spec 0xF0000000 va); [|done]. destruct (Z.ltb_spec va (0xF0000000 + 0x400000)); [lia|done].
Qed.
End entry.

(** C25: with the kernel's image loaded and CR3 at [entry_pgdir], the hardware
    translates exactly two ranges of 4MB: addresses from KERNBASE to the same
    offset in physical memory, for reading and writing, and addresses from 0 to
    themselves, for reading only, which is what entry.S runs on until its jump;
    every other access faults.  Each of the 1024 literals of [entry_pgtable] is
    right. *)
Theorem entry_pgdir_translates m pgdir pgtable va write :
  entry_loaded m pgdir pgtable → 0 ≤ va < 4294967296 →
  translate m (pgdir - KERNBASE) va write =
    if va <? PTSIZE then if write then None else Some va
    else if (KERNBASE <=? va) && (va <? KERNBASE + PTSIZE) then Some (va - KERNBASE) else None.
Proof. intros L. exact (entry_translate_run m pgdir pgtable L va write). Qed.

(** The directory in page 2 and the table in page 3. *)
Definition demo_entry : mem := λ a,
  if decide (2 * 4096 ≤ a < 3 * 4096)
  then u8 (entry_pgdir (kva 3) ((a - 2 * 4096) / 4) / 256 ^ (a mod 4))
  else u8 (((a - 3 * 4096) / 4 * 4096 + 3) / 256 ^ (a mod 4)).

Lemma load32_of_words (m : mem) (a w : Z) : 0 ≤ w < 4294967296 → (∀ j, 0 ≤ j < 4 → m (a + j) = u8 (w / 256 ^ j)) →
  load32 m a = w.
Proof.
  intros Hw H. rewrite <- (u32_small w Hw), <- (load32_store32_same (λ _, 0) a w).
  apply load32_bytes_eq. intros j Hj. rewrite load8_store32, decide_True by lia.
  unfold load8. rewrite H by lia. rewrite u8_u8. do 2 f_equal. f_equal. lia.
Qed.

Lemma demo_entry_loaded : entry_loaded demo_entry (kva 2) (kva 3).
Proof.
  split; [exists 2; split; [done|lia]|exists 3; split; [done|lia]| |].
  - intros i Hi. apply load32_of_words.
    + unfold entry_pgdir, kva. change (Z.shiftr KERNBASE PDXSHIFT) with 960. unfold PTE_P, PTE_W, KERNBASE.
      pose proof (u32_range (3 * 4096 + 0xF0000000 - 0xF0000000)). destruct (i =? 0), (i =? 960); vm_compute; split; (discriminate || done).
    + intros j Hj. unfold demo_entry, kva. replace (2 * 4096 + KERNBASE - KERNBASE + 4 * i + j) with (2 * 4096 + 4 * i + j) by lia.
      rewrite decide_True by lia. replace ((2 * 4096 + 4 * i + j - 2 * 4096) / 4) with i by lia. do 2 f_equal. f_equal. lia.
  - intros i Hi. rewrite entry_pgtable_nth by exact Hi. apply load32_of_words; [lia|].
    intros j Hj. unfold demo_entry, kva. replace (3 * 4096 + KERNBASE - KERNBASE + 4 * Z.of_nat i + j) with (3 * 4096 + 4 * Z.of_nat i + j) by lia.
    rewrite decide_False by lia. replace ((3 * 4096 + 4 * Z.of_nat i + j - 3 * 4096) / 4) with (Z.of_nat i) by lia. do 2 f_equal. f_equal. lia.
Qed.

Lemma entry_pgdir_translates_witness : translate demo_entry (kva 2 - KERNBASE) 0xF0100004 true = Some 0x100004.
Proof.
  etransitivity; [apply (entry_pgdir_translates demo_entry (kva 2) (kva 3) 0xF0100004 true demo_entry_loaded)|]; [lia|reflexivity].
Defined.
