(* ===== verification/PageOps.v ===== *)
(** * What the page-table operations of kern/pmap.c do

    Under the invariant [kinv] of PageInv, every operation on the directory of
    a live environment, at an address below [UTOP], returns; its effect on the
    mappings, on the reference counts and on the free list is stated here. *)
From S2P Require Import Prelude Monad Word Layout Mem CString PageAlloc PageTable PageInv.

#[global] Arguments kload32 : simpl never.
#[global] Arguments kstore32 : simpl never.
#[global] Arguments KADDR : simpl never.

(** ** Entries *)

Lemma kva_slot p i : kva p + 4 * i - KERNBASE = slot p i.
Proof. unfold kva, slot. lia. Qed.

Lemma kload_slot p i s : kload32 (kva p + 4 * i) s = (Ret (load32 (phys s) (slot p i)), s).
Proof. unfold kload32. rewrite run_gets, kva_slot. done. Qed.

Lemma kstore_slot p i v s :
  kstore32 (kva p + 4 * i) v s = (Ret tt, set_phys (store32 (phys s) (slot p i) v) s).
Proof. unfold kstore32. rewrite run_modify, kva_slot. done. Qed.

Lemma tgt_Some m a t :
  tgt m a = Some t ↔ flag (load32 m a) PTE_P = true ∧ t = load32 m a / 4096.
Proof. unfold tgt. destruct (flag (load32 m a) PTE_P); intuition congruence. Qed.
Lemma tgt_None m a : tgt m a = None ↔ flag (load32 m a) PTE_P = false.
Proof. unfold tgt. destruct (flag (load32 m a) PTE_P); intuition congruence. Qed.

Lemma tgt_addr m a t : tgt m a = Some t → PTE_ADDR (load32 m a) = t * 4096.
Proof. intros [_ ->]%tgt_Some. by rewrite PTE_ADDR_div, u32_load32. Qed.

Lemma KADDR_page t s : 0 ≤ t < npages s → npages s ≤ 65536 →
  KADDR (t * 4096) s = (Ret (kva t), s).
Proof. intros. apply KADDR_ok; lia. Qed.

(** The table entry that maps [va] exists in table [t]. *)
Definition walks (m : mem) (d va t : Z) : Prop := tgt m (slot d (PDX va)) = Some t.

Lemma lookup_walks m d va t : walks m d va t →
  lookup_pte m d va =
    let e := load32 m (slot t (PTX va)) in if flag e PTE_P then Some e else None.
Proof. unfold walks, lookup_pte. intros ->. done. Qed.

Lemma lookup_nowalk m d va : tgt m (slot d (PDX va)) = None → lookup_pte m d va = None.
Proof. unfold lookup_pte. by intros ->. Qed.

Lemma walks_table m dirs d va t :
  d ∈ dirs → PDX va < UPDX → walks m d va t → t ∈ tables m dirs.
Proof.
  intros Hd Hva Hw. apply elem_of_tables. pose proof (PDX_range va).
  exists d, (PDX va). splits; done || lia.
Qed.

Lemma lookup_leaf m dirs d va pte :
  d ∈ dirs → PDX va < UPDX → lookup_pte m d va = Some pte → pte / 4096 ∈ leaves m dirs.
Proof.
  intros Hd Hva Hl. destruct (tgt m (slot d (PDX va))) as [t|] eqn:Et.
  - rewrite (lookup_walks _ _ _ _ Et) in Hl. apply elem_of_leaves.
    exists t, (PTX va). split; [by eapply walks_table|]. split; [apply PTX_range|].
    apply tgt_Some. cbv zeta in Hl. case_match; naive_solver.
  - by rewrite lookup_nowalk in Hl.
Qed.

(** Two directory entries never share a table. *)
Lemma omap_inj (f : Z → option Z) l a b x :
  NoDup (omap f l) → a ∈ l → b ∈ l → f a = Some x → f b = Some x → a = b.
Proof.
  intros Hnd Ha Hb Hfa Hfb. destruct (decide (a = b)) as [|Hne]; [done|].
  apply list_elem_of_split in Ha as (l1 & l2 & ->).
  rewrite omap_split, Hfa in Hnd. simpl in Hnd. apply NoDup_cons in Hnd as [Hx _].
  destruct Hx. apply list_elem_of_omap. exists b. split; [|done]. set_solver.
Qed.

Lemma walks_inj m dirs d va d' va' t :
  NoDup (dirs ++ tables m dirs) → d ∈ dirs → d' ∈ dirs → PDX va < UPDX → PDX va' < UPDX →
  walks m d va t → walks m d' va' t → d = d' ∧ PDX va = PDX va'.
Proof.
  intros Hnd Hd Hd' Hva Hva' Hw Hw'. apply NoDup_app in Hnd as (_ & _ & Hnd).
  pose proof (PDX_range va). pose proof (PDX_range va').
  apply slot_inj; [lia..|]. unfold tables in Hnd.
  
  assert (∀ e i, e ∈ dirs → 0 ≤ i < UPDX → slot e i ∈ dirs ≫= pde_slots) as Hin.
  { intros e i He Hi. apply list_elem_of_bind. exists e. rewrite elem_of_pde_slots. eauto. }
  apply (omap_inj (tgt m) (dirs ≫= pde_slots) _ _ t Hnd); try done; apply Hin; done || lia.
Qed.

(** ** Effect of the two kinds of store on the mappings *)

Section mappings.
Context (dirs : list Z) (m : mem) (Hnd : NoDup (dirs ++ tables m dirs)).

(** Same page and entry of the same directory. *)
Definition same_slot (d va d' va' : Z) : Prop :=
  d = d' ∧ PDX va = PDX va' ∧ PTX va = PTX va'.
#[export] Instance same_slot_dec d va d' va' : Decision (same_slot d va d' va').
Proof. unfold same_slot. apply _. Defined.

Lemma store_leaf_walks d va v d' va' t :
  t ∈ tables m dirs → d ∈ dirs → d' ∈ dirs → PDX va' < UPDX →
  tgt (store32 m (slot t (PTX va)) v) (slot d' (PDX va')) = tgt m (slot d' (PDX va')).
Proof.
  intros Ht Hd Hd' Hva'. pose proof (PTX_range va). pose proof (PDX_range va').
  rewrite tgt_store by lia. rewrite decide_False; [done|]. intros [-> _].
  apply NoDup_app in Hnd as (_ & Hdis & _). by eapply Hdis.
Qed.

Lemma lookup_store_leaf d va t v d' va' :
  d ∈ dirs → PDX va < UPDX → walks m d va t → d' ∈ dirs → PDX va' < UPDX →
  lookup_pte (store32 m (slot t (PTX va)) v) d' va' =
  if decide (same_slot d va d' va')
  then (if flag (u32 v) PTE_P then Some (u32 v) else None)
  else lookup_pte m d' va'.
Proof.
  intros Hd Hva Hw Hd' Hva'. pose proof (walks_table _ _ _ _ _ Hd Hva Hw) as Ht.
  pose proof (PTX_range va). pose proof (PTX_range va').
  pose proof (store_leaf_walks d va v d' va' t Ht Hd Hd' Hva') as Et.
  destruct (tgt m (slot d' (PDX va'))) as [t'|] eqn:Ew.
  - rewrite (lookup_walks _ _ _ _ Et), (lookup_walks _ _ _ _ Ew), load32_store_slot by lia.
    cbv zeta. unfold same_slot. repeat case_decide; try done.
    + destruct (walks_inj m dirs d va d' va' t) as [? ?]; naive_solver.
    + assert (t = t'); [|naive_solver]. unfold walks in Hw. destruct H2 as (-> & E & _).
      rewrite E in Hw. congruence.
  - rewrite (lookup_nowalk _ _ _ Et), (lookup_nowalk _ _ _ Ew).
    rewrite decide_False; [done|]. intros (-> & E & _). unfold walks in Hw.
    rewrite E in Hw. congruence.
Qed.

Lemma lookup_store_pde d va q f d' va' :
  d ∈ dirs → PDX va < UPDX → tgt m (slot d (PDX va)) = None →
  q ∉ dirs ++ tables m dirs → 0 ≤ q < 1048576 → 0 ≤ f < 4096 → flag f PTE_P = true →
  d' ∈ dirs → PDX va' < UPDX →
  lookup_pte (store32 (zero_page m q) (slot d (PDX va)) (q * 4096 + f)) d' va' = lookup_pte m d' va'.
Proof.
  intros Hd Hva Hn Hq Hq20 Hf Hfp Hd' Hva'. apply not_elem_of_app in Hq as [HqD HqT].
  pose proof (PDX_range va). pose proof (PDX_range va'). pose proof (PTX_range va').
  apply NoDup_app in Hnd as (_ & Hdis & _). unfold lookup_pte.
  rewrite tgt_store, tgt_zero by lia.
  destruct (decide (d = d' ∧ PDX va = PDX va')) as [[<- <-]|Hne].
  - rewrite Hn, u32_small by lia. unfold PTE_P in *. rewrite flag_page, Hfp by lia.
    replace ((q * 4096 + f) / 4096) with q by lia.
    simpl.
    rewrite load32_store_slot, load32_zero_slot by lia.
    rewrite decide_False by (by intros [-> _]). by rewrite decide_True.
  - rewrite decide_False by (by intros ->).
    destruct (tgt m (slot d' (PDX va'))) as [t|] eqn:Et; [|done]. simpl.
    assert (t ∈ tables m dirs) as Ht by (by eapply walks_table).
    rewrite load32_store_slot, load32_zero_slot by lia.
    rewrite decide_False by (intros [-> _]; exact (Hdis _ Hd Ht)).
    rewrite decide_False by (by intros ->). done.
Qed.
End mappings.

(** A store into another directory than [d'] and outside its tables. *)
Lemma lookup_store_other m d i v d' va :
  d ≠ d' → 0 ≤ i < 1024 → ¬ walks m d' va d →
  lookup_pte (store32 m (slot d i) v) d' va = lookup_pte m d' va.
Proof.
  intros Hne Hi Hw. pose proof (PDX_range va). pose proof (PTX_range va). unfold lookup_pte.
  rewrite tgt_store, decide_False by (lia || by intros [-> _]).
  destruct (tgt m (slot d' (PDX va))) as [t|] eqn:Et; [|done]. simpl.
  rewrite load32_store_slot, decide_False; [done| |lia..]. intros [-> _]. done.
Qed.

(** ** pgdir_walk *)

(** The variables that page-table operations leave alone. *)
Definition same_globals (s s' : mm) : Prop :=
  npages s' = npages s ∧ npages_basemem s' = npages_basemem s ∧
  kern_pgdir s' = kern_pgdir s ∧ nextfree s' = nextfree s ∧ mmio_base s' = mmio_base s ∧
  user_mem_check_addr s' = user_mem_check_addr s.

#[export] Instance same_globals_preorder : PreOrder same_globals.
Proof. split; unfold same_globals; [done|]. intros ???; intuition congruence. Qed.

(** From [s] with free list [l] to [s1] with [l1]: at most page-table pages
    were added; no mapping, no data page, no kernel entry of a directory and no
    page outside the free list changed. *)
Record grow (dirs : list Z) (s : mm) (l : list Z) (s1 : mm) (l1 : list Z) : Prop := {
  gr_free : ∀ p, p ∈ l1 → p ∈ l;
  gr_pages : ∀ p, p ∉ l → pages s1 p = pages s p;
  gr_tables : ∀ p, p ∈ tables (phys s1) dirs → p ∈ tables (phys s) dirs ∨ p ∈ l;
  gr_lookup : ∀ d va, d ∈ dirs → PDX va < UPDX →
    lookup_pte (phys s1) d va = lookup_pte (phys s) d va;
  gr_data : ∀ a, a / 4096 ∉ l → a / 4096 ∉ dirs ++ tables (phys s) dirs →
    load8 (phys s1) a = load8 (phys s) a;
  gr_kern : ∀ d i, d ∈ dirs → UPDX ≤ i < 1024 →
    load32 (phys s1) (slot d i) = load32 (phys s) (slot d i);
  gr_globals : same_globals s s1;
  gr_trace : mm_trace s1 = mm_trace s;
}.

Lemma grow_refl dirs s l : grow dirs s l s l.
Proof. split; try done. auto. Qed.

Lemma PDE_bits q : 0 ≤ q < 1048576 →
  Z.lor (Z.lor (Z.lor (page2pa q) PTE_P) PTE_W) PTE_U = q * 4096 + 7.
Proof.
  intros Hq. rewrite page2pa_mul by done. rewrite <- !Z.lor_assoc.
  change (Z.lor PTE_P (Z.lor PTE_W PTE_U)) with 7. apply lor_page_add. lia.
Qed.

Lemma store32_elsewhere m a v b : ¬ (a ≤ b < a + 4) → load8 (store32 m a v) b = load8 m b.
Proof. intros. rewrite load8_store32. by rewrite decide_False. Qed.

Lemma store_slot_data m p i v a : 0 ≤ i < 1024 → a / 4096 ≠ p →
  load8 (store32 m (slot p i) v) a = load8 m a.
Proof. intros Hi Ha. apply store32_elsewhere. unfold slot. lia. Qed.

Lemma zero_page_data m q a : a / 4096 ≠ q → load8 (zero_page m q) a = load8 m a.
Proof. intros Ha. unfold zero_page. rewrite load8_fill. rewrite decide_False; [done|]. lia. Qed.

Section walk.
Context (base : Z → Z) (dirs : list Z) (s : mm) (l : list Z).
Context (H : kinv base dirs s l).


(** The state after hanging the new table [q] off entry [i] of [d]. *)
Definition walk_state (d i q : Z) : mm :=
  let s1 := alloc_state true q s in
  let s2 := set_ref q (pp_ref (pages s1 q) + 1) s1 in
  set_phys (store32 (phys s2) (slot d i) (q * 4096 + 7)) s2.

Lemma walk_present d va c t : d ∈ dirs → PDX va < UPDX → walks (phys s) d va t →
  pgdir_walk (kva d) va c s = (Ret (Some (kva t + 4 * PTX va)), s).
Proof.
  intros Hd Hva Hw.
  pose proof (ki_table _ _ _ _ _ H (walks_table _ _ _ _ _ Hd Hva Hw)) as Ht.
  unfold pgdir_walk. rewrite run_bind, kload_slot. simpl.
  pose proof (tgt_addr _ _ _ Hw) as Ha. apply tgt_Some in Hw as [-> _]. mrun.
  rewrite kload_slot. mrun. rewrite Ha, KADDR_page; [mrun; done|done|].
  apply (ki_npages _ _ _ _ H).
Qed.

Lemma walk_absent d va : tgt (phys s) (slot d (PDX va)) = None →
  pgdir_walk (kva d) va false s = (Ret None, s).
Proof.
  intros Hn%tgt_None. unfold pgdir_walk. rewrite run_bind, kload_slot. simpl.
  rewrite Hn. mrun. done.
Qed.

Lemma walk_nomem d va : l = [] → tgt (phys s) (slot d (PDX va)) = None →
  pgdir_walk (kva d) va true s = (Ret None, s).
Proof.
  intros -> Hn%tgt_None. unfold pgdir_walk. rewrite run_bind, kload_slot. simpl.
  rewrite Hn. mrun. rewrite page_alloc_nil by apply (ki_alloc _ _ _ _ H). mrun. done.
Qed.

Lemma walk_create d va q l' : l = q :: l' → tgt (phys s) (slot d (PDX va)) = None →
  pgdir_walk (kva d) va true s =
    (Ret (Some (kva q + 4 * PTX va)), walk_state d (PDX va) q).
Proof.
  intros -> Hn%tgt_None. pose proof (ki_npages _ _ _ _ H) as Hnp.
  destruct (ai_free _ _ (ki_alloc _ _ _ _ H) q) as [Hq _]; [left|].
  unfold pgdir_walk. rewrite run_bind, kload_slot. simpl. rewrite Hn. mrun.
  rewrite (page_alloc_run _ _ q l') by apply (ki_alloc _ _ _ _ H). mrun.
  change (flag 1 ALLOC_ZERO) with true. rewrite PDE_bits by lia.
  rewrite kstore_slot. mrun. rewrite kload_slot. mrun. cbn [phys set_phys].
  rewrite load32_store32_same, u32_small by lia.
  rewrite PTE_ADDR_page by lia. rewrite KADDR_page by (simpl; lia). mrun. done.
Qed.

Lemma kinv_walk_state d va q l' :
  l = q :: l' → d ∈ dirs → PDX va < UPDX → tgt (phys s) (slot d (PDX va)) = None →
  kinv base dirs (walk_state d (PDX va) q) l' ∧
  tables (phys (walk_state d (PDX va) q)) dirs ≡ₚ q :: tables (phys s) dirs.
Proof.
  intros -> Hd Hva Hn. pose proof (ki_npages _ _ _ _ H) as Hnp. pose proof (PDX_range va).
  destruct (ai_free _ _ (ki_alloc _ _ _ _ H) q) as [Hq Hr]; [left|].
  destruct (ki_free _ _ _ _ q H) as [Hbq Hqr]; [left|].
  unfold refs in Hqr. rewrite !not_elem_of_app in Hqr. destruct Hqr as (HqD & HqT & HqL).
  assert (q ∉ dirs ++ tables (phys s) dirs) as HqDT by (rewrite not_elem_of_app; done).
  pose proof (NoDup_cons_1_1 _ _ (ai_nodup _ _ (ki_alloc _ _ _ _ H))) as Hql'.
  destruct (store_pde dirs (phys s) d (PDX va) q 7) as [HT HL]; try done; try lia;
    [apply H|].
  set (m' := store32 _ _ _) in *. change (phys (walk_state d (PDX va) q)) with m'.
  split; [|done].
  assert (refs m' dirs ≡ₚ q :: refs (phys s) dirs) as HR.
  { unfold refs. rewrite HT, HL. simpl. by rewrite <- Permutation_middle. }
  split.
  - unfold walk_state. apply alloc_inv_phys, alloc_inv_ref; [done|].
    by apply alloc_state_inv, H.
  - change (phys _) with m'. rewrite HT, <- Permutation_middle.
    constructor; [done|]. apply H.
  - change (phys _) with m'. intros p. rewrite HR, elem_of_cons. intros [->|Hp]; [done|].
    by apply (ki_range _ _ _ _ H).
  - change (phys _) with m'. intros p. rewrite HL, HT, not_elem_of_app, not_elem_of_cons.
    intros Hp. pose proof (ki_priv _ _ _ _ H p Hp) as [? ?]%not_elem_of_app.
    splits; try done. by intros ->.
  - apply H.
  - change (phys _) with m'. intros p. rewrite HT, elem_of_app, elem_of_cons.
    intros [?|[->|?]]; [apply (ki_own _ _ _ _ H)|done|apply (ki_own _ _ _ _ H)];
      apply elem_of_app; auto.
  - change (phys _) with m'. intros p Hp. rewrite (countZ_perm _ _ _ HR). cbn [countZ].
    pose proof (ki_ref _ _ _ _ H p Hp) as Hpr. simpl. rewrite !upd_same.
    rewrite upd_case. case_decide as E; case_decide as E'; subst; try done; simpl.
    + rewrite Hr. rewrite u16_small by lia. lia.
    + rewrite upd_other by done. done.
  - intros p Hp. simpl. rewrite !upd_same, upd_case. case_decide; simpl.
    + apply u16_range.
    + rewrite upd_other by done. by apply (ki_bound _ _ _ _ H).
Qed.

Lemma walk_state_grow d va q l' :
  l = q :: l' → d ∈ dirs → PDX va < UPDX → tgt (phys s) (slot d (PDX va)) = None →
  grow dirs s l (walk_state d (PDX va) q) l'.
Proof.
  intros E Hd Hva Hn. pose proof (kinv_walk_state d va q l' E Hd Hva Hn) as [_ HT].
  pose proof (ki_npages _ _ _ _ H) as Hnp. pose proof (PDX_range va). subst l.
  destruct (ai_free _ _ (ki_alloc _ _ _ _ H) q) as [Hq Hr]; [left|].
  destruct (ki_free _ _ _ _ q H) as [_ Hqr]; [left|].
  unfold refs in Hqr. rewrite !not_elem_of_app in Hqr. destruct Hqr as (HqD & HqT & HqL).
  assert (q ∉ dirs ++ tables (phys s) dirs) as HqDT by (rewrite not_elem_of_app; done).
  split; try done.
  - intros p. rewrite elem_of_cons. auto.
  - intros p [? _]%not_elem_of_cons. simpl. by rewrite !upd_other by done.
  - intros p. rewrite HT, !elem_of_cons. intros [->|]; auto.
  - intros d' va' Hd' Hva'. apply (lookup_store_pde dirs); try done; [apply H|lia..].
  - intros a [Ha _]%not_elem_of_cons [HaD _]%not_elem_of_app. simpl.
    rewrite store_slot_data by (lia || congruence).
    by rewrite zero_page_data.
  - intros d' i Hd' Hi. unfold UPDX in *. simpl. rewrite load32_store_slot, load32_zero_slot by lia.
    rewrite decide_False by lia. rewrite decide_False; [done|]. by intros ->.
Qed.

(** The table pages that mapping [va] takes. *)
Definition needs (m : mem) (d va : Z) : Z :=
  match tgt m (slot d (PDX va)) with Some _ => 0 | None => 1 end.

(** What a walk with [create] costs. *)
Record walk_cost (d va : Z) (s1 : mm) (l1 : list Z) : Prop := {
  wc_keep : ∀ d' i t, d' ∈ dirs → 0 ≤ i < UPDX →
    tgt (phys s) (slot d' i) = Some t → tgt (phys s1) (slot d' i) = Some t;
  wc_len : Z.of_nat (length l) ≤ Z.of_nat (length l1) + needs (phys s) d va;
  wc_refs : ∀ q, pp_ref (pages s1 q) ≤ Z.max 1 (pp_ref (pages s q));
}.

Lemma walk_state_cost d va q l' :
  l = q :: l' → d ∈ dirs → PDX va < UPDX → tgt (phys s) (slot d (PDX va)) = None →
  walk_cost d va (walk_state d (PDX va) q) l'.
Proof.
  intros E Hd Hva Hn. pose proof (PDX_range va).
  destruct (ai_free _ _ (ki_alloc _ _ _ _ H) q) as [Hq Hr]; [rewrite E; left|].
  destruct (ki_free _ _ _ _ q H) as [_ Hqr]; [rewrite E; left|].
  unfold refs in Hqr. rewrite !not_elem_of_app in Hqr. destruct Hqr as (HqD & HqT & HqL).
  split.
  - intros d' i t Hd' Hi Ht. unfold UPDX in Hi. simpl. rewrite tgt_store by lia.
    rewrite decide_False by (intros [<- <-]; congruence).
    rewrite tgt_zero by lia. rewrite decide_False; [exact Ht|]. by intros ->.
  - unfold needs. rewrite Hn, E. cbn [length]. lia.
  - intros p. simpl. rewrite !upd_case. repeat case_decide; subst; simpl; try lia.
    rewrite ?upd_same. simpl. rewrite Hr. rewrite u16_small by lia. lia.
Qed.

(** [pgdir_walk] with [create]: out of memory, or a table for [va]. *)
Lemma walk_true d va : d ∈ dirs → PDX va < UPDX →
  (l = [] ∧ tgt (phys s) (slot d (PDX va)) = None ∧
   pgdir_walk (kva d) va true s = (Ret None, s)) ∨
  ∃ t s1 l1, pgdir_walk (kva d) va true s = (Ret (Some (kva t + 4 * PTX va)), s1) ∧
    kinv base dirs s1 l1 ∧ walks (phys s1) d va t ∧ grow dirs s l s1 l1 ∧ walk_cost d va s1 l1.
Proof.
  intros Hd Hva. pose proof (PDX_range va).
  destruct (tgt (phys s) (slot d (PDX va))) as [t|] eqn:Et.
  - right. exists t, s, l. splits; try done; [by apply walk_present|apply grow_refl|].
    split; [done|unfold needs; rewrite Et; lia|intros; lia].
  - assert (l = [] ∨ ∃ q l', l = q :: l') as [E|(q & l' & E)] by (clear; destruct l; eauto).
    + left. splits; try done. by apply walk_nomem.
    + right. exists q, (walk_state d (PDX va) q), l'. splits.
      * by apply walk_create with l'.
      * by eapply kinv_walk_state.
      * unfold walks. simpl. rewrite tgt_store, decide_True by (done || lia).
        destruct (ai_free _ _ (ki_alloc _ _ _ _ H) q) as [Hq _]; [rewrite E; left|].
        pose proof (ki_npages _ _ _ _ H). rewrite u32_small by lia.
        rewrite flag_page by (unfold PTE_P; lia). change (flag 7 PTE_P) with true. cbn. f_equal. lia.
      * by apply walk_state_grow.
      * by apply walk_state_cost.
Qed.
End walk.

(** ** page_lookup *)

Section lookup.
Context (base : Z → Z) (dirs : list Z) (s : mm) (l : list Z).
Context (H : kinv base dirs s l).

Lemma lookup_pte_flag m d va pte : lookup_pte m d va = Some pte →
  flag pte PTE_P = true ∧ 0 ≤ pte < 4294967296 ∧
  ∃ t, walks m d va t ∧ pte = load32 m (slot t (PTX va)).
Proof.
  intros Hl. unfold lookup_pte in Hl.
  destruct (tgt m (slot d (PDX va))) as [t|] eqn:Et; [|done]. simpl in Hl.
  destruct (flag (load32 m (slot t (PTX va))) PTE_P) eqn:Ef; [|done].
  injection Hl as <-. splits; try done; [apply load32_range..|]. eauto.
Qed.

Lemma page_lookup_None d va : d ∈ dirs → PDX va < UPDX →
  lookup_pte (phys s) d va = None → page_lookup (kva d) va s = (Ret None, s).
Proof.
  intros Hd Hva Hl. unfold page_lookup.
  destruct (tgt (phys s) (slot d (PDX va))) as [t|] eqn:Et.
  - rewrite run_bind, (walk_present base dirs s l H d va false t) by done.
    rewrite run_bind, kload_slot. rewrite (lookup_walks _ _ _ _ Et) in Hl. cbv zeta in Hl.
    case_match; [done|]. mrun. done.
  - by rewrite run_bind, walk_absent.
Qed.

Lemma page_lookup_Some d va pte : d ∈ dirs → PDX va < UPDX →
  lookup_pte (phys s) d va = Some pte →
  ∃ t, walks (phys s) d va t ∧ pte = load32 (phys s) (slot t (PTX va)) ∧
    0 ≤ pte / 4096 < npages s ∧
    page_lookup (kva d) va s = (Ret (Some (pte / 4096, kva t + 4 * PTX va)), s).
Proof.
  intros Hd Hva Hl. pose proof (lookup_leaf _ dirs _ _ _ Hd Hva Hl) as Hp.
  destruct (lookup_pte_flag _ _ _ _ Hl) as (Hf & Hr & t & Hw & ->).
  exists t. pose proof (ki_leaf _ _ _ _ _ H Hp). splits; try done; try lia.
  unfold page_lookup. rewrite run_bind, (walk_present base dirs s l H d va false t) by done.
  rewrite run_bind, kload_slot, Hf. mrun. rewrite PTE_ADDR_div, u32_load32.
  rewrite <- (Z.add_0_r (_ * 4096)).
  rewrite pa2page_ok by (pose proof (ki_npages _ _ _ _ H); lia). done.
Qed.
End lookup.

(** ** page_remove *)

(** The TLB effects of [tlb_invalidate pgdir va]. *)
Definition tlb_events (cur : option Z) (pgdir va : Z) : list mmev :=
  match cur with
  | None => [Invlpg va]
  | Some d => if d =? pgdir then [Invlpg va] else []
  end.
Definition emit_all (es : list mmev) (s : mm) : mm := foldr emit_mm s es.

Lemma tlb_invalidate_run cur pgdir va s :
  tlb_invalidate cur pgdir va s = (Ret tt, emit_all (tlb_events cur pgdir va) s).
Proof. unfold tlb_invalidate, tlb_events. destruct cur as [d|]; [destruct (d =? pgdir)|]; done. Qed.

Lemma emit_all_fields es s :
  phys (emit_all es s) = phys s ∧ pages (emit_all es s) = pages s ∧
  page_free_list (emit_all es s) = page_free_list s ∧ same_globals s (emit_all es s) ∧
  mm_trace (emit_all es s) = es ++ mm_trace s.
Proof. induction es as [|e es IH]; simpl; [done|]. unfold same_globals in *. simpl. intuition congruence. Qed.

(** [kinv] only reads the page array, the free list, [npages] and memory. *)
Lemma kinv_ext base dirs s s' l :
  npages s' = npages s → pages s' = pages s → page_free_list s' = page_free_list s →
  phys s' = phys s → kinv base dirs s l → kinv base dirs s' l.
Proof.
  intros E1 E2 E3 E4 []. split; rewrite ?E1, ?E2, ?E3, ?E4; try done.
  destruct ki_alloc. split; rewrite ?E1, ?E2, ?E3; done.
Qed.

Lemma kinv_emit base dirs s l es : kinv base dirs s l → kinv base dirs (emit_all es s) l.
Proof. destruct (emit_all_fields es s) as (? & ? & ? & ? & ?). apply kinv_ext; try done. apply H2. Qed.

Lemma decref_fields p s :
  phys (decref_state p s) = phys s ∧ same_globals s (decref_state p s) ∧
  mm_trace (decref_state p s) = mm_trace s ∧
  (∀ q, q ≠ p → pages (decref_state p s) q = pages s q).
Proof.
  unfold decref_state. destruct (_ =? 0); simpl; splits; try done;
    intros q Hq; by rewrite !upd_other by done.
Qed.

(** The state [page_remove] leaves when [va] was mapped to [p]. *)
Definition remove_state (cur : option Z) (d va t p : Z) (s : mm) : mm :=
  set_phys (store32 (phys s) (slot t (PTX va)) 0)
    (emit_all (tlb_events cur (kva d) va) (decref_state p s)).

Section remove.
Context (cur : option Z) (base : Z → Z) (dirs : list Z) (s : mm) (l : list Z).
Context (H : kinv base dirs s l).

Lemma page_remove_None d va : d ∈ dirs → PDX va < UPDX →
  lookup_pte (phys s) d va = None → page_remove cur (kva d) va s = (Ret tt, s).
Proof.
  intros Hd Hva Hl. unfold page_remove.
  by rewrite run_bind, (page_lookup_None base dirs s l H).
Qed.

Lemma kinv_remove d va t pte :
  d ∈ dirs → PDX va < UPDX → walks (phys s) d va t → pte = load32 (phys s) (slot t (PTX va)) →
  flag pte PTE_P = true →
  let p := pte / 4096 in
  pp_link (pages s p) = None ∧
  kinv base dirs (remove_state cur d va t p s)
    (if decide (pp_ref (pages s p) = 1) then p :: l else l).
Proof.
  intros Hd Hva Hw Hpte Hf p. pose proof (PTX_range va).
  pose proof (walks_table _ _ _ _ _ Hd Hva Hw) as Ht.
  assert (tgt (phys s) (slot t (PTX va)) = Some p) as Etgt.
  { apply tgt_Some. by rewrite <- Hpte. }
  assert (p ∈ leaves (phys s) dirs) as Hp by (apply elem_of_leaves; eauto).
  pose proof (ki_leaf _ _ _ _ _ H Hp) as Hpr.
  set (m' := store32 (phys s) (slot t (PTX va)) 0).
  assert (tgt m' (slot t (PTX va)) = None) as En.
  { unfold m'. by rewrite tgt_store, decide_True by done. }
  pose proof (kinv_store_leaf base dirs s l H t (PTX va) 0 Ht ltac:(done)) as H1.
  cbv zeta in H1. fold m' in H1. rewrite Etgt, En in H1. simpl in H1.
  specialize (H1 ltac:(done)).
  destruct (kinv_decref _ _ _ _ H1 p) as [Hlk H2]; [done| |].
  { rewrite decide_True by done. pose proof (ki_base _ _ _ _ H p). lia. }
  split; [done|].
  assert (kinv base dirs (decref_state p (set_phys m' s))
            (if decide (pp_ref (pages s p) = 1) then p :: l else l)) as H3.
  { eapply kinv_proper; [..|exact H2]; try done. intros q. simpl. case_decide; lia. }
  destruct (emit_all_fields (tlb_events cur (kva d) va) (decref_state p s)) as (_ & Ep & Ef & [En' _] & _).
  eapply kinv_ext; [..|exact H3]; unfold remove_state; simpl.
  - rewrite En'. unfold decref_state. simpl. by destruct (_ =? 0).
  - rewrite Ep. unfold decref_state. simpl. by destruct (_ =? 0).
  - rewrite Ef. unfold decref_state. simpl. by destruct (_ =? 0).
  - unfold decref_state. simpl. by destruct (_ =? 0).
Qed.

Lemma page_remove_Some d va pte : d ∈ dirs → PDX va < UPDX →
  lookup_pte (phys s) d va = Some pte →
  ∃ t, walks (phys s) d va t ∧ pte = load32 (phys s) (slot t (PTX va)) ∧
    let p := pte / 4096 in let s' := remove_state cur d va t p s in
    page_remove cur (kva d) va s = (Ret tt, s') ∧
    kinv base dirs s' (if decide (pp_ref (pages s p) = 1) then p :: l else l).
Proof.
  intros Hd Hva Hl.
  destruct (page_lookup_Some base dirs s l H d va pte) as (t & Hw & Hpte & Hp & E); [done..|].
  destruct (lookup_pte_flag _ _ _ _ Hl) as (Hf & _).
  destruct (kinv_remove d va t pte) as [Hlk Hk]; [done..|].
  exists t. splits; try done. cbv zeta. split; [|done].
  unfold page_remove. rewrite run_bind, E. cbn match. cbn beta.
  rewrite run_bind, page_decref_run by done. cbn match. cbn beta.
  rewrite run_bind, tlb_invalidate_run. rewrite kstore_slot. unfold remove_state.
  destruct (emit_all_fields (tlb_events cur (kva d) va) (decref_state (pte / 4096) s)) as (-> & _).
  destruct (decref_fields (pte / 4096) s) as (-> & _). done.
Qed.
End remove.

(** A mapped page is counted. *)
Lemma mapped_ref base dirs s l d va pte :
  kinv base dirs s l → d ∈ dirs → PDX va < UPDX → lookup_pte (phys s) d va = Some pte →
  1 ≤ pp_ref (pages s (pte / 4096)) < 65536.
Proof.
  intros H Hd Hva Hl. pose proof (lookup_leaf _ dirs d va pte Hd Hva Hl) as Hin.
  pose proof (ki_leaf _ _ _ _ _ H Hin) as Hp. split; [|by apply (ki_bound _ _ _ _ H)].
  rewrite (ki_ref _ _ _ _ H) by done. pose proof (ki_base _ _ _ _ H (pte / 4096)).
  assert (pte / 4096 ∈ refs (phys s) dirs) as Hr by (unfold refs; rewrite !elem_of_app; auto).
  pose proof (countZ_elem _ _ Hr). lia.
Qed.

(** The reference counts after a removal. *)
Lemma remove_state_ref cur d va t p s q :
  1 ≤ pp_ref (pages s p) < 65536 →
  pp_ref (pages (remove_state cur d va t p s) q) = pp_ref (pages s q) - if decide (q = p) then 1 else 0.
Proof.
  intros Hp. unfold remove_state. cbn [pages set_phys].
  destruct (emit_all_fields (tlb_events cur (kva d) va) (decref_state p s)) as (_ & -> & _).
  case_decide as E; [subst q|].
  - unfold decref_state. destruct (_ =? 0); rewrite ?pp_ref_set_link; simpl; rewrite ?upd_same; simpl;
      rewrite ?upd_same; simpl; rewrite u16_small; lia.
  - destruct (decref_fields p s) as (_ & _ & _ & Hoth). rewrite Hoth by exact E. lia.
Qed.

(** ** page_insert *)

Lemma PTE_bits pp perm : 0 ≤ pp < 65536 → 0 ≤ perm < 4096 →
  let e := Z.lor (Z.lor (page2pa pp) (u32 perm)) PTE_P in
  e = pp * 4096 + Z.lor perm PTE_P ∧ 0 ≤ Z.lor perm PTE_P < 4096 ∧
  flag e PTE_P = true ∧ u32 e = e ∧ e / 4096 = pp.
Proof.
  intros Hp Hperm e. assert (0 ≤ Z.lor perm PTE_P < 4096) as Hb.
  { apply (lor_bound _ _ 12); unfold PTE_P; lia. }
  assert (e = pp * 4096 + Z.lor perm PTE_P) as He.
  { unfold e. rewrite page2pa_mul, u32_small, <- Z.lor_assoc by lia. by apply lor_page_add. }
  splits; try done; try lia.
  - rewrite He. unfold PTE_P in *. rewrite flag_page by lia. rewrite flag_lor.
    change (flag 1 1) with true. apply orb_true_r.
  - rewrite He. apply u32_small. lia.
Qed.

(** What a page-table operation on [va] of [d] may change. *)
Record pt_frame (dirs : list Z) (l : list Z) (d va : Z) (s s' : mm) : Prop := {
  pf_lookup : ∀ d' va', d' ∈ dirs → PDX va' < UPDX → ¬ same_slot d va d' va' →
    lookup_pte (phys s') d' va' = lookup_pte (phys s) d' va';
  pf_data : ∀ a, a / 4096 ∉ l → a / 4096 ∉ dirs ++ tables (phys s) dirs →
    load8 (phys s') a = load8 (phys s) a;
  pf_kern : ∀ d' i, d' ∈ dirs → UPDX ≤ i < 1024 →
    load32 (phys s') (slot d' i) = load32 (phys s) (slot d' i);
  pf_globals : same_globals s s';
}.

Lemma pt_frame_grow dirs l d va s s1 l1 s' :
  grow dirs s l s1 l1 → pt_frame dirs l1 d va s1 s' → pt_frame dirs l d va s s'.
Proof.
  intros [] []. split.
  - intros d' va' ???. rewrite pf_lookup0 by done. auto.
  - intros a Hl Hd. rewrite pf_data0; [auto|auto|].
    rewrite not_elem_of_app in *. split; [tauto|]. intros [?|?]%gr_tables0; tauto.
  - intros d' i ??. rewrite pf_kern0 by done. auto.
  - by transitivity s1.
Qed.

(** Overwriting the entry of [va] in its table [t]. *)
Lemma pt_frame_store dirs l d va t v s s' :
  NoDup (dirs ++ tables (phys s) dirs) → d ∈ dirs → PDX va < UPDX → walks (phys s) d va t →
  same_globals s s' → phys s' = store32 (phys s) (slot t (PTX va)) v →
  pt_frame dirs l d va s s'.
Proof.
  intros Hnd Hd Hva Hw Hg E. pose proof (PTX_range va).
  pose proof (walks_table _ _ _ _ _ Hd Hva Hw) as Ht. split; rewrite ?E; try done.
  - intros d' va' Hd' Hva' Hne. rewrite (lookup_store_leaf dirs _ Hnd d) by done. by rewrite decide_False.
  - intros a _ [_ Ha]%not_elem_of_app. apply store_slot_data; [done|].
    intros E'. by rewrite E' in Ha.
  - intros d' i Hd' Hi. unfold UPDX in *. rewrite load32_store_slot by lia.
    rewrite decide_False; [done|]. intros [-> _].
    apply NoDup_app in Hnd as (_ & Hdis & _). by eapply Hdis.
Qed.

Section insert.
Context (cur : option Z) (base : Z → Z) (dirs : list Z).

(** What follows the walk in [page_insert]. *)
Definition insert_tail (pgdir pp va perm e : Z) : MM Z :=
  modify (λ s, set_ref pp (pp_ref (pages s pp) + 1) s) ;;
  pte ← kload32 e;
  (if flag pte PTE_P
   then tlb_invalidate cur pgdir va ;; page_remove cur pgdir va
   else mret tt) ;;
  kstore32 e (Z.lor (Z.lor (page2pa pp) (u32 perm)) PTE_P) ;;
  mret 0.

(** Invalidations of an insertion over a present mapping. *)
Definition insert_events (d va : Z) (old : option Z) : list mmev :=
  match old with
  | Some _ => tlb_events cur (kva d) va ++ tlb_events cur (kva d) va
  | None => []
  end.

(** What an insertion of [pp] costs: at most the table page, and a reference to
    [pp] unless [va] mapped it already. *)
Record pt_cost (l : list Z) (d va pp : Z) (s : mm) (l' : list Z) (s' : mm) : Prop := {
  pc_keep : ∀ d' i t, d' ∈ dirs → 0 ≤ i < UPDX →
    tgt (phys s) (slot d' i) = Some t → tgt (phys s') (slot d' i) = Some t;
  pc_len : Z.of_nat (length l) ≤ Z.of_nat (length l') + needs (phys s) d va;
  pc_refs : ∀ q, pp_ref (pages s' q) ≤ Z.max 1 (pp_ref (pages s q) +
    if decide (q = pp ∧ option_map (λ e, e / 4096) (lookup_pte (phys s) d va) ≠ Some pp) then 1 else 0);
}.

(** Writing the new entry once the old one is gone. *)
Lemma insert_store s l d va t pp perm :
  let b := λ q, base q + if decide (q = pp) then 1 else 0 in
  kinv b dirs s l → d ∈ dirs → PDX va < UPDX → walks (phys s) d va t →
  0 ≤ pp < npages s → 0 ≤ perm < 4096 → (∀ q, 0 ≤ base q) →
  tgt (phys s) (slot t (PTX va)) = None →
  let e := Z.lor (Z.lor (page2pa pp) (u32 perm)) PTE_P in
  kinv base dirs (set_phys (store32 (phys s) (slot t (PTX va)) e) s) l.
Proof.
  intros b H Hd Hva Hw Hp Hperm Hb Hn e. pose proof (PTX_range va).
  pose proof (ki_npages _ _ _ _ H).
  destruct (PTE_bits pp perm) as (He & ? & Hf & Hu & Hdiv); [lia..|]. fold e in He, Hf, Hu, Hdiv.
  pose proof (walks_table _ _ _ _ _ Hd Hva Hw) as Ht.
  assert (tgt (store32 (phys s) (slot t (PTX va)) e) (slot t (PTX va)) = Some pp) as En.
  { rewrite tgt_store, decide_True, Hu, Hf, Hdiv by done. done. }
  pose proof (kinv_store_leaf b dirs s l H t (PTX va) e Ht ltac:(done)) as K1.
  cbv zeta in K1. rewrite Hn, En in K1. simpl in K1.
  eapply kinv_proper; [..|apply K1]; try done.
  - intros q. unfold b. case_decide; lia.
  - intros q [= <-]. unfold b. specialize (Hb pp). rewrite decide_True by done. lia.
Qed.

(** Overwriting an entry of the table [t]. *)
Lemma pt_cost_store l d va pp t v s l' s' :
  NoDup (dirs ++ tables (phys s) dirs) → d ∈ dirs → PDX va < UPDX → walks (phys s) d va t →
  phys s' = store32 (phys s) (slot t (PTX va)) v → Z.of_nat (length l) ≤ Z.of_nat (length l') →
  (∀ q, pp_ref (pages s' q) ≤ pp_ref (pages s q) +
     if decide (q = pp ∧ option_map (λ e, e / 4096) (lookup_pte (phys s) d va) ≠ Some pp) then 1 else 0) →
  pt_cost l d va pp s l' s'.
Proof using.
  clear base cur. intros Hnd Hd Hva Hw E Hl Hr. pose proof (PTX_range va).
  pose proof (walks_table _ _ _ _ _ Hd Hva Hw) as Ht. split.
  - intros d' i x Hd' Hi Hx. unfold UPDX in Hi. rewrite E, tgt_store by lia.
    rewrite decide_False; [exact Hx|]. intros [-> _].
    apply NoDup_app in Hnd as (_ & Hdis & _). by eapply Hdis.
  - unfold needs. unfold walks in Hw. rewrite Hw. lia.
  - intros q. specialize (Hr q). lia.
Qed.

Lemma pt_cost_walk l d va pp s s1 l1 l' s' :
  walk_cost dirs s l d va s1 l1 → lookup_pte (phys s1) d va = lookup_pte (phys s) d va →
  needs (phys s1) d va = 0 → pages s1 pp = pages s pp → pt_cost l1 d va pp s1 l' s' → pt_cost l d va pp s l' s'.
Proof using.
  clear base cur. intros [] El En Ep []. split.
  - eauto.
  - lia.
  - intros q. specialize (wc_refs0 q). specialize (pc_refs0 q). rewrite El in pc_refs0.
    revert pc_refs0. case_decide as E; [destruct E as [-> _]; rewrite Ep|]; lia.
Qed.

Lemma insert_tail_run s l d va t pp perm :
  kinv base dirs s l → d ∈ dirs → PDX va < UPDX → walks (phys s) d va t →
  0 ≤ pp < npages s → pp ∉ l → pp ∉ dirs ++ tables (phys s) dirs →
  pp_ref (pages s pp) < 65535 → 0 ≤ perm < 4096 →
  let old := lookup_pte (phys s) d va in
  ∃ s' l', insert_tail (kva d) pp va perm (kva t + 4 * PTX va) s = (Ret 0, s') ∧
    kinv base dirs s' l' ∧
    lookup_pte (phys s') d va = Some (pp * 4096 + Z.lor perm PTE_P) ∧
    pt_frame dirs l d va s s' ∧
    mm_trace s' = insert_events d va old ++ mm_trace s ∧
    (∀ q, q ∈ l' → q ∈ l ∨ (q ≠ pp ∧ pp_ref (pages s q) = 1 ∧ ∃ pte, old = Some pte ∧ pte / 4096 = q)) ∧
    pt_cost l d va pp s l' s'.
Proof.
  intros H Hd Hva Hw Hp Hl Hdt Hr Hperm old. pose proof (PTX_range va).
  pose proof (ki_npages _ _ _ _ H).
  destruct (PTE_bits pp perm) as (He & ? & Hf & Hu & Hdiv); [lia..|].
  set (e := Z.lor (Z.lor (page2pa pp) (u32 perm)) PTE_P) in *.
  set (s1 := set_ref pp (pp_ref (pages s pp) + 1) s).
  pose proof (kinv_incr _ _ _ _ H pp Hp Hl Hdt Hr) as K1. fold s1 in K1.
  assert (old = let e := load32 (phys s) (slot t (PTX va)) in
                if flag e PTE_P then Some e else None) as Eold by by apply lookup_walks.
  cbv zeta in Eold. pose proof (ki_nodup _ _ _ _ H) as Hnd.
  assert (∀ m', m' = store32 (phys s) (slot t (PTX va)) e →
            lookup_pte m' d va = Some (pp * 4096 + Z.lor perm PTE_P)) as Hlook.
  { intros m' ->. rewrite (lookup_store_leaf dirs _ Hnd d) by done.
    rewrite decide_True by (by splits). by rewrite Hu, Hf, He. }
  unfold insert_tail. rewrite run_bind, run_modify. fold s1.
  rewrite run_bind, kload_slot. change (phys s1) with (phys s).
  destruct (flag (load32 (phys s) (slot t (PTX va))) PTE_P) eqn:Efl.
  - set (pte := load32 (phys s) (slot t (PTX va))) in *. set (q := pte / 4096).
    set (s2 := emit_all (tlb_events cur (kva d) va) s1).
    destruct (emit_all_fields (tlb_events cur (kva d) va) s1) as (Ep2 & Eg2 & _ & G2 & Et2).
    fold s2 in Ep2, Eg2, G2, Et2. change (phys s1) with (phys s) in Ep2.
    pose proof (kinv_emit _ _ _ _ (tlb_events cur (kva d) va) K1) as K2. fold s2 in K2.
    assert (lookup_pte (phys s2) d va = Some pte) as Hl2 by (rewrite Ep2; exact Eold).
    destruct (page_remove_Some cur _ dirs s2 l K2 d va pte) as (t' & Hw' & _ & Erun & K3); [done..|].
    assert (t' = t) as -> by (unfold walks in *; rewrite Ep2 in Hw'; congruence).
    cbv zeta in Erun, K3. fold q in Erun, K3. set (s3 := remove_state cur d va t q s2) in *.
    assert (phys s3 = store32 (phys s) (slot t (PTX va)) 0) as Ep3.
    { unfold s3, remove_state. simpl. by rewrite Ep2. }
    assert (same_globals s s3) as G3.
    { transitivity s2; [apply G2|]. unfold s3, remove_state. unfold same_globals. simpl.
      destruct (emit_all_fields (tlb_events cur (kva d) va) (decref_state q s2)) as (_ & _ & _ & (-> & -> & -> & -> & -> & ->) & _).
      apply (decref_fields q s2). }
    assert (mm_trace s3 = insert_events d va old ++ mm_trace s) as Et3.
    { rewrite Eold. unfold s3, remove_state. simpl.
      destruct (emit_all_fields (tlb_events cur (kva d) va) (decref_state q s2)) as (_ & _ & _ & _ & ->).
      destruct (decref_fields q s2) as (_ & _ & -> & _). by rewrite Et2, <- app_assoc. }
    eexists (set_phys (store32 (phys s3) (slot t (PTX va)) e) s3), _.
    rewrite run_bind, run_bind, tlb_invalidate_run. fold s2. rewrite Erun.
    splits.
    + mrun. rewrite kstore_slot. mrun. done.
    + apply (insert_store s3 _ d va t pp perm K3); try done.
      * unfold walks. rewrite Ep3. rewrite (store_leaf_walks dirs _ Hnd d); try done.
        exact (walks_table _ _ _ _ _ Hd Hva Hw).
      * by destruct G3 as [-> _].
      * apply H.
      * rewrite Ep3, tgt_store by done. by rewrite decide_True.
    + cbn [phys set_phys]. rewrite Ep3, store32_store32. by apply Hlook.
    + apply (pt_frame_store _ _ _ _ t e); try done. cbn [phys set_phys]. by rewrite Ep3, store32_store32.
    + done.
    + intros q' Hq'. rewrite Eg2 in Hq'. destruct (decide (q' ∈ l)) as [|Hql]; [by left|right].
      destruct (decide (pp_ref (pages s1 q) = 1)) as [Hq1|]; [|done].
      apply elem_of_cons in Hq' as [->|]; [|done].
      assert (q ≠ pp) as Hqp.
      { intros E. revert Hq1. rewrite E. unfold s1. simpl. rewrite upd_same. simpl.
        pose proof (ki_ref_nonneg _ _ _ _ _ H Hp). rewrite u16_small by lia.
        assert (pp ∈ leaves (phys s) dirs) as Hin.
        { rewrite <- E. exact (lookup_leaf _ _ d va pte Hd Hva Eold). }
        rewrite (ki_ref _ _ _ _ H) by done. unfold refs. rewrite !countZ_app.
        pose proof (countZ_elem _ _ Hin). pose proof (countZ_nonneg pp dirs).
        pose proof (countZ_nonneg pp (tables (phys s) dirs)). pose proof (ki_base _ _ _ _ H pp). lia. }
      splits; [done| |].
      * revert Hq1. unfold s1. simpl. by rewrite upd_other by done.
      * by exists pte.
    + apply (pt_cost_store _ _ _ _ t e); try done.
      * cbn [phys set_phys]. by rewrite Ep3, store32_store32.
      * case_decide; cbn [length]; lia.
      * intros q'. change (pages (set_phys _ s3)) with (pages s3). fold old. rewrite Eold. cbn [option_map]. fold q.
        assert (1 ≤ pp_ref (pages s2 q) < 65536) as Hq.
        { rewrite Eg2. apply (mapped_ref _ _ _ _ _ _ _ K1 Hd Hva Eold). }
        unfold s3. rewrite (remove_state_ref _ _ _ _ _ _ _ Hq), Eg2. unfold s1. simpl.
        pose proof (ki_ref_nonneg _ _ _ _ _ H Hp).
        destruct (decide (q' = pp)) as [->|Hne]; [rewrite upd_same|rewrite upd_other by congruence];
          cbn [pp_ref]; rewrite ?u16_small by lia; repeat case_decide; try lia; exfalso; naive_solver.
  - exists (set_phys (store32 (phys s) (slot t (PTX va)) e) s1), l.
    splits; try done.
    + mrun. rewrite kstore_slot. mrun. done.
    + apply (insert_store s1 l d va t pp perm); try done; [apply H|]. by apply tgt_None.
    + by apply Hlook.
    + by eapply pt_frame_store.
    + by rewrite Eold.
    + auto.
    + apply (pt_cost_store _ _ _ _ t e); try done. intros q'. fold old. rewrite Eold. cbn [option_map].
      pose proof (ki_ref_nonneg _ _ _ _ _ H Hp).
      simpl. destruct (decide (q' = pp)) as [->|Hne]; [rewrite upd_same|rewrite upd_other by congruence];
        cbn [pp_ref]; rewrite ?u16_small by lia; case_decide as Hc; try lia; exfalso; apply Hc; by split.
Qed.
End insert.

(** The whole of [page_insert]. *)
Lemma page_insert_run cur base dirs s l d va pp perm :
  kinv base dirs s l → d ∈ dirs → PDX va < UPDX →
  0 ≤ pp < npages s → pp ∉ l → pp ∉ dirs ++ tables (phys s) dirs →
  pp_ref (pages s pp) < 65535 → 0 ≤ perm < 4096 →
  let old := lookup_pte (phys s) d va in
  (l = [] ∧ old = None ∧ page_insert cur (kva d) pp va perm s = (Ret (- E_NO_MEM), s)) ∨
  ∃ s' l', page_insert cur (kva d) pp va perm s = (Ret 0, s') ∧
    kinv base dirs s' l' ∧
    lookup_pte (phys s') d va = Some (pp * 4096 + Z.lor perm PTE_P) ∧
    pt_frame dirs l d va s s' ∧
    mm_trace s' = insert_events cur d va old ++ mm_trace s ∧
    (∀ q, q ∈ l' → q ∈ l ∨
       (q ≠ pp ∧ pp_ref (pages s q) = 1 ∧ ∃ pte, old = Some pte ∧ pte / 4096 = q)) ∧
    pt_cost dirs l d va pp s l' s'.
Proof.
  intros H Hd Hva Hp Hl Hdt Hr Hperm old.
  assert (page_insert cur (kva d) pp va perm s =
          (entry ← pgdir_walk (kva d) va true;
           match entry with
           | None => mret (- E_NO_MEM)
           | Some e => insert_tail cur (kva d) pp va perm e
           end) s) as -> by done.
  destruct (walk_true base dirs s l H d va Hd Hva)
    as [(-> & Hn & E)|(t & s1 & l1 & E & H1 & Hw & G & W)]; rewrite run_bind, E.
  - left. splits; try done. by apply lookup_nowalk.
  - right. pose proof (gr_pages _ _ _ _ _ G pp Hl) as Epp.
    destruct (insert_tail_run cur base dirs s1 l1 d va t pp perm)
      as (s' & l' & E' & H' & Hlook & F & Htr & Hfree & C); try done.
    + by rewrite (proj1 (gr_globals _ _ _ _ _ G)).
    + by intros ?%(gr_free _ _ _ _ _ G).
    + rewrite not_elem_of_app in *. split; [tauto|].
      intros [?|?]%(gr_tables _ _ _ _ _ G); tauto.
    + by rewrite Epp.
    + rewrite (gr_lookup _ _ _ _ _ G) in Htr, Hfree by done. rewrite (gr_trace _ _ _ _ _ G) in Htr.
      exists s', l'. splits; try done.
      * by eapply pt_frame_grow.
      * intros q [Hq|(? & Hq1 & Hq2)]%Hfree; [left; by apply (gr_free _ _ _ _ _ G)|].
        destruct (decide (q ∈ l)) as [|Hql]; [by left|right].
        rewrite (gr_pages _ _ _ _ _ G) in Hq1 by done. done.
      * apply (pt_cost_walk dirs _ _ _ _ _ s1 l1); [exact W|by apply (gr_lookup _ _ _ _ _ G)| |exact Epp|exact C].
        unfold needs. unfold walks in Hw. by rewrite Hw.
Qed.

Lemma page_remove_run cur base dirs s l d va :
  kinv base dirs s l → d ∈ dirs → PDX va < UPDX →
  match lookup_pte (phys s) d va with
  | None => page_remove cur (kva d) va s = (Ret tt, s)
  | Some pte =>
      let p := pte / 4096 in
      ∃ s', page_remove cur (kva d) va s = (Ret tt, s') ∧
        kinv base dirs s' (if decide (pp_ref (pages s p) = 1) then p :: l else l) ∧
        lookup_pte (phys s') d va = None ∧ pt_frame dirs l d va s s' ∧
        pp_ref (pages s' p) = pp_ref (pages s p) - 1 ∧
        (∀ q, q ≠ p → pages s' q = pages s q) ∧
        mm_trace s' = tlb_events cur (kva d) va ++ mm_trace s
  end.
Proof.
  intros H Hd Hva. destruct (lookup_pte (phys s) d va) as [pte|] eqn:El.
  - destruct (page_remove_Some cur base dirs s l H d va pte) as (t & Hw & Hpte & E & Hk); [done..|].
    pose proof (PTX_range va). set (p := pte / 4096) in *. cbv zeta in *.
    set (s' := remove_state cur d va t p s) in *. exists s'.
    destruct (emit_all_fields (tlb_events cur (kva d) va) (decref_state p s))
      as (_ & Epg & _ & G & Etr).
    destruct (decref_fields p s) as (_ & G2 & Etr2 & Hoth).
    assert (0 ≤ p < npages s) as Hp.
    { apply (ki_leaf _ _ _ _ _ H). by apply (lookup_leaf _ dirs d va pte). }
    splits; try done.
    + unfold s', remove_state. cbn [phys set_phys].
      rewrite (lookup_store_leaf dirs _ (ki_nodup _ _ _ _ H) d) by done.
      by rewrite decide_True by (by splits).
    + apply (pt_frame_store _ _ _ _ t 0); try done; [apply H|].
      transitivity (decref_state p s); [exact G2|exact G].
    + change (pages s') with (pages (emit_all (tlb_events cur (kva d) va) (decref_state p s))).
      rewrite Epg. pose proof (ki_ref_nonneg _ _ _ _ _ H Hp).
      assert (1 ≤ pp_ref (pages s p)).
      { rewrite (ki_ref _ _ _ _ H) by done. pose proof (ki_base _ _ _ _ H p).
        assert (p ∈ refs (phys s) dirs) as Hin.
        { unfold refs. rewrite !elem_of_app. do 2 right. by apply (lookup_leaf _ dirs d va pte). }
        pose proof (countZ_elem _ _ Hin). lia. }
      unfold decref_state. destruct (_ =? 0);
        rewrite ?pp_ref_set_link; simpl; rewrite ?upd_same; simpl;
        rewrite ?upd_same; simpl; rewrite u16_small; lia.
    + intros q Hq. change (pages s') with (pages (emit_all (tlb_events cur (kva d) va) (decref_state p s))).
      rewrite Epg. by apply Hoth.
    + change (mm_trace s') with (mm_trace (emit_all (tlb_events cur (kva d) va) (decref_state p s))).
      by rewrite Etr, Etr2.
  - by apply (page_remove_None cur base dirs s l H).
Qed.

(** ** The contract of the page-table operations *)

(** C7: [page_insert] at a user address of a live directory either runs out of
    memory for a page table, returns [-E_NO_MEM] and changes nothing, or
    returns 0: afterwards [va] maps [pp] with [perm|PTE_P], every other mapping
    of every live directory and the contents of every page that was neither
    free nor a page table are as before, the TLB was invalidated if a page was
    mapped there, a page becomes free only if it was the last reference to the
    page formerly mapped, and the reference-count invariant holds.  In
    particular re-inserting a page at its own address does not free it. *)
Theorem page_insert_correct cur base dirs s l d va pp perm :
  kinv base dirs s l → d ∈ dirs → PDX va < UPDX →
  0 ≤ pp < npages s → pp ∉ l → pp ∉ dirs ++ tables (phys s) dirs →
  pp_ref (pages s pp) < 65535 → 0 ≤ perm < 4096 →
  let old := lookup_pte (phys s) d va in
  (l = [] ∧ old = None ∧ page_insert cur (kva d) pp va perm s = (Ret (- E_NO_MEM), s)) ∨
  ∃ s' l', page_insert cur (kva d) pp va perm s = (Ret 0, s') ∧
    kinv base dirs s' l' ∧ (pp ∉ l') ∧
    lookup_pte (phys s') d va = Some (pp * 4096 + Z.lor perm PTE_P) ∧
    pt_frame dirs l d va s s' ∧
    mm_trace s' = insert_events cur d va old ++ mm_trace s ∧
    (∀ q, q ∈ l' → q ∈ l ∨ (pp_ref (pages s q) = 1 ∧ ∃ pte, old = Some pte ∧ pte / 4096 = q)).
Proof.
  intros H Hd Hva Hp Hl Hdt Hr Hperm old.
  destruct (page_insert_run cur base dirs s l d va pp perm)
    as [?|(s' & l' & E & H' & Hlook & F & Htr & Hfree & _)]; try done; [by left|right].
  exists s', l'. splits; try done.
  - intros Hin%Hfree. naive_solver.
  - intros q Hq%Hfree. naive_solver.
Qed.

(** C14: [page_remove] does nothing where nothing is mapped; otherwise the
    mapping of [va] is gone, the TLB invalidated, every other mapping and all
    data is as before, the page's count is one less, and the page is freed
    exactly when this was its last reference. *)
Theorem page_remove_correct cur base dirs s l d va :
  kinv base dirs s l → d ∈ dirs → PDX va < UPDX →
  match lookup_pte (phys s) d va with
  | None => page_remove cur (kva d) va s = (Ret tt, s)
  | Some pte =>
      let p := pte / 4096 in
      ∃ s', page_remove cur (kva d) va s = (Ret tt, s') ∧
        kinv base dirs s' (if decide (pp_ref (pages s p) = 1) then p :: l else l) ∧
        lookup_pte (phys s') d va = None ∧ pt_frame dirs l d va s s' ∧
        pp_ref (pages s' p) = pp_ref (pages s p) - 1 ∧
        (∀ q, q ≠ p → pages s' q = pages s q) ∧
        mm_trace s' = tlb_events cur (kva d) va ++ mm_trace s
  end.
Proof. apply page_remove_run. Qed.

(** [page_lookup] agrees with the hardware's walk: it gives the page of
    the present PTE of [va] and that entry's address, [NULL] when there is no
    present PTE, and changes nothing either way. *)
Theorem page_lookup_correct base dirs s l d va :
  kinv base dirs s l → d ∈ dirs → PDX va < UPDX →
  match lookup_pte (phys s) d va with
  | None => page_lookup (kva d) va s = (Ret None, s)
  | Some pte =>
      ∃ e, page_lookup (kva d) va s = (Ret (Some (pte / 4096, e)), s) ∧
           0 ≤ pte / 4096 < npages s ∧ kload32 e s = (Ret pte, s)
  end.
Proof.
  intros H Hd Hva. destruct (lookup_pte (phys s) d va) as [pte|] eqn:El.
  - destruct (page_lookup_Some base dirs s l H d va pte) as (t & _ & Hpte & Hp & E); [done..|].
    exists (kva t + 4 * PTX va). splits; try done; try lia. by rewrite kload_slot, Hpte.
  - by apply (page_lookup_None base dirs s l H).
Qed.

(** [pgdir_walk] with [create] gives the address of the entry of [va] in
    a page table of the directory (its own, created and zeroed if it was
    missing), leaving every mapping and all data as before and the invariant
    intact, or [NULL] with no change when a table is missing and memory is
    exhausted. *)
Theorem pgdir_walk_correct base dirs s l d va :
  kinv base dirs s l → d ∈ dirs → PDX va < UPDX →
  (l = [] ∧ lookup_pte (phys s) d va = None ∧
   pgdir_walk (kva d) va true s = (Ret None, s)) ∨
  ∃ t s1 l1, pgdir_walk (kva d) va true s = (Ret (Some (kva t + 4 * PTX va)), s1) ∧
    kinv base dirs s1 l1 ∧ t ∈ tables (phys s1) dirs ∧
    lookup_pte (phys s) d va = (let e := load32 (phys s1) (slot t (PTX va)) in
                                if flag e PTE_P then Some e else None) ∧
    grow dirs s l s1 l1.
Proof.
  intros H Hd Hva.
  destruct (walk_true base dirs s l H d va Hd Hva) as [(-> & Hn & E)|(t & s1 & l1 & E & H1 & Hw & G & _)].
  - left. splits; try done. by apply lookup_nowalk.
  - right. exists t, s1, l1. splits; try done; [by eapply walks_table|].
    by rewrite <- (lookup_walks _ _ _ _ Hw), (gr_lookup _ _ _ _ _ G).
Qed.

(** *** A concrete address space

    Sixteen pages: page 2 is an empty directory, 3, 5 and 6 are free, and the
    kernel holds one reference to each of the others. *)
Definition demo_pt : mm :=
  mkMM 16 16 (λ _, 0)
    (λ p, if p =? 3 then mkPageInfo (Some 5) 0 else
          if p =? 5 then mkPageInfo (Some 6) 0 else
          if p =? 6 then mkPageInfo None 0 else mkPageInfo None 1)
    (Some 3) (kva 1) (KERNBASE + 0x4000) MMIOBASE 0 [].
Definition demo_base (p : Z) : Z := if bool_decide (p ∈ [2; 3; 5; 6]) then 0 else 1.

Lemma tables_zero dirs : tables (λ _, 0) dirs = [].
Proof. by apply omap_none. Qed.

Lemma leaves_zero dirs : leaves (λ _, 0) dirs = [].
Proof. unfold leaves. by rewrite tables_zero. Qed.

Lemma demo_pt_inv : kinv demo_base [2] demo_pt [3; 5; 6].
Proof.
  assert (refs (phys demo_pt) [2] = [2]) as Hr.
  { unfold refs, leaves. change (phys demo_pt) with (λ _ : Z, 0). by rewrite tables_zero. }
  split; rewrite ?Hr; try change (phys demo_pt) with (λ _ : Z, 0); rewrite ?tables_zero, ?leaves_zero; clear Hr;
    unfold demo_base; cbn -[decide countZ].
  - split; cbn -[decide].
    + lia.
    + done.
    + list_dec.
    + intros p. rewrite !elem_of_cons, elem_of_nil. intros [->|[->|[->|[]]]]; simpl; lia.
    + intros p _. rewrite !not_elem_of_cons. intros (?%Z.eqb_neq & ?%Z.eqb_neq & ?%Z.eqb_neq & _).
      by rewrite H, H0, H1.
  - list_dec.
  - intros p ->%list_elem_of_singleton. lia.
  - by intros p ?%elem_of_nil.
  - intros p. by case_bool_decide.
  - intros p ->%list_elem_of_singleton. done.
  - intros p _. destruct (Z.eqb_spec p 3) as [->|]; [done|]. destruct (Z.eqb_spec p 5) as [->|]; [done|].
    destruct (Z.eqb_spec p 6) as [->|]; [done|]. destruct (decide (p = 2)) as [->|]; [done|].
    rewrite bool_decide_false by (rewrite !elem_of_cons, elem_of_nil; tauto).
    simpl. by rewrite decide_False.
  - intros p _. repeat case_match; simpl; lia.
Qed.

Lemma page_insert_correct_witness :
  let s := demo_pt in
  kinv demo_base [2] s [3; 5; 6] ∧
  (([3; 5; 6] = [] ∧ lookup_pte (phys s) 2 0x800000 = None ∧
    page_insert None (kva 2) 4 0x800000 7 s = (Ret (- E_NO_MEM), s)) ∨
   ∃ s' l', page_insert None (kva 2) 4 0x800000 7 s = (Ret 0, s') ∧
    kinv demo_base [2] s' l' ∧ (4 ∉ l') ∧
    lookup_pte (phys s') 2 0x800000 = Some (4 * 4096 + Z.lor 7 PTE_P) ∧
    pt_frame [2] [3; 5; 6] 2 0x800000 s s' ∧
    mm_trace s' = insert_events None 2 0x800000 (lookup_pte (phys s) 2 0x800000) ++ mm_trace s ∧
    (∀ q, q ∈ l' → q ∈ [3; 5; 6] ∨
       (pp_ref (pages s q) = 1 ∧ ∃ pte, lookup_pte (phys s) 2 0x800000 = Some pte ∧ pte / 4096 = q))).
Proof.
  intros s. split; [exact demo_pt_inv|].
  apply (page_insert_correct None demo_base [2] s [3; 5; 6] 2 0x800000 4 7 demo_pt_inv).
  - by apply list_elem_of_singleton.
  - reflexivity.
  - simpl; lia.
  - set_solver.
  - change (phys s) with (λ _ : Z, 0). rewrite tables_zero. set_solver.
  - simpl; lia.
  - lia.
Defined.

(** The demo space with page 4 mapped at [va], and nothing else. *)
Lemma demo_mapped_at va : PDX va < UPDX →
  ∃ s l, kinv demo_base [2] s l ∧ same_globals demo_pt s ∧
  lookup_pte (phys s) 2 va = Some (4 * 4096 + 7) ∧ (∀ p, pp_ref (pages s p) < 65535) ∧
  (∀ va', PDX va' < UPDX → ¬ same_slot 2 va 2 va' → lookup_pte (phys s) 2 va' = None).
Proof.
  intros Hva.
  assert (4 ∉ [2] ++ tables (phys demo_pt) [2]) as H4.
  { change (phys demo_pt) with (λ _ : Z, 0). rewrite tables_zero. set_solver. }
  destruct (page_insert_run None demo_base [2] demo_pt [3; 5; 6] 2 va 4 7 demo_pt_inv
    (proj2 (list_elem_of_singleton 2 2) eq_refl) Hva ltac:(simpl; lia) ltac:(set_solver)
    H4 ltac:(simpl; lia) ltac:(lia)) as [(E & _)|(s' & l' & E & H & Hl & F & _)]; [discriminate E|].
  exists s', l'. splits; [exact H|apply F|exact Hl| |].
  2: { intros va' Hva' Hne. rewrite (pf_lookup _ _ _ _ _ _ F); [|left|exact Hva'|exact Hne].
       apply lookup_nowalk. reflexivity. }
  unfold page_insert in E. rewrite run_bind, (walk_create demo_base [2] demo_pt [3; 5; 6] demo_pt_inv 2 _ 3 [5; 6]) in E;
    [| |reflexivity].
  2: reflexivity.
  rewrite run_bind, run_modify, run_bind, kload_slot in E.
  set (s1 := set_ref 4 _ _) in E.
  assert (load32 (phys s1) (slot 3 (PTX va)) = 0) as E0.
  { change (phys s1) with (store32 (zero_page (λ _, 0) 3) (slot 2 (PDX va)) (3 * 4096 + 7)).
    pose proof (PDX_range va). pose proof (PTX_range va).
    rewrite load32_store_slot, load32_zero_slot by lia. rewrite decide_False by lia. by rewrite decide_True. }
  rewrite E0 in E. change (flag 0 PTE_P) with false in E. mrun_in E. rewrite kstore_slot in E. mrun_in E.
  injection E as <-. intros p.
  change (pp_ref (pages s1 p) < 65535). unfold s1. simpl. rewrite !upd_case.
  repeat case_decide; simpl; try (vm_compute; reflexivity); repeat case_match; simpl; lia.
Qed.

(** The demo space with page 4 mapped at 8MB. *)
Lemma demo_mapped : ∃ s l, kinv demo_base [2] s l ∧ same_globals demo_pt s ∧
  lookup_pte (phys s) 2 0x800000 = Some (4 * 4096 + 7) ∧ (∀ p, pp_ref (pages s p) < 65535) ∧
  lookup_pte (phys s) 2 0x801000 = None.
Proof.
  destruct (demo_mapped_at 0x800000 eq_refl) as (s & l & H & G & Hl & Hr & Hn).
  exists s, l. splits; try assumption. apply Hn; [reflexivity|].
  unfold same_slot. intros (_ & _ & E'). discriminate E'.
Qed.

Lemma page_remove_correct_witness :
  ∃ s l s' l', kinv demo_base [2] s l ∧ lookup_pte (phys s) 2 0x800000 = Some (4 * 4096 + 7) ∧
    page_remove None (kva 2) 0x800000 s = (Ret tt, s') ∧ kinv demo_base [2] s' l' ∧
    lookup_pte (phys s') 2 0x800000 = None.
Proof.
  destruct demo_mapped as (s & l & H & _ & Hl & _ & _).
  pose proof (page_remove_correct None demo_base [2] s l 2 0x800000 H
    (proj2 (list_elem_of_singleton 2 2) eq_refl) eq_refl) as HR.
  rewrite Hl in HR. destruct HR as (s' & E & H' & Hn & _).
  exists s, l, s'. eexists. splits; done.
Defined.

Lemma page_lookup_correct_witness :
  ∃ s l e, kinv demo_base [2] s l ∧ lookup_pte (phys s) 2 0x800000 = Some (4 * 4096 + 7) ∧
    page_lookup (kva 2) 0x800000 s = (Ret (Some (4, e)), s).
Proof.
  destruct demo_mapped as (s & l & H & _ & Hl & _ & _).
  pose proof (page_lookup_correct demo_base [2] s l 2 0x800000 H
    (proj2 (list_elem_of_singleton 2 2) eq_refl) eq_refl) as HR.
  rewrite Hl in HR. destruct HR as (e & E & _). exists s, l, e. splits; done.
Defined.

Lemma pgdir_walk_correct_witness :
  kinv demo_base [2] demo_pt [3; 5; 6] ∧
  ∃ t s1 l1, pgdir_walk (kva 2) 0x800000 true demo_pt = (Ret (Some (kva t + 4 * 0)), s1) ∧
    kinv demo_base [2] s1 l1 ∧ t ∈ tables (phys s1) [2].
Proof.
  split; [exact demo_pt_inv|].
  destruct (pgdir_walk_correct demo_base [2] demo_pt [3; 5; 6] 2 0x800000 demo_pt_inv
    (proj2 (list_elem_of_singleton 2 2) eq_refl) eq_refl) as [(? & _)|(t & s1 & l1 & E & H & Ht & _)].
  - done.
  - exists t, s1, l1. splits; done.
Defined.

(** C37: the reference count is a [uint16_t]: mapping a page that is already
    mapped 65535 times makes its count 0 while it is mapped. *)
Theorem page_insert_ref_overflow cur base dirs s l d va pp perm t :
  kinv base dirs s l → d ∈ dirs → PDX va < UPDX → walks (phys s) d va t →
  lookup_pte (phys s) d va = None →
  0 ≤ pp < npages s → pp_ref (pages s pp) = 65535 → 0 ≤ perm < 4096 →
  ∃ s', page_insert cur (kva d) pp va perm s = (Ret 0, s') ∧
    lookup_pte (phys s') d va = Some (pp * 4096 + Z.lor perm PTE_P) ∧
    pp_ref (pages s' pp) = 0.
Proof.
  intros H Hd Hva Hw Hn Hp Hr Hperm. pose proof (ki_npages _ _ _ _ H).
  destruct (PTE_bits pp perm) as (He & _ & Hf & Hu & _); [lia..|].
  set (e := Z.lor (Z.lor (page2pa pp) (u32 perm)) PTE_P) in *.
  pose proof Hn as Hn'. rewrite (lookup_walks _ _ _ _ Hw) in Hn'. cbv zeta in Hn'.
  exists (set_phys (store32 (phys s) (slot t (PTX va)) e) (set_ref pp 65536 s)). splits.
  - unfold page_insert. rewrite run_bind, (walk_present base dirs s l H d va true t) by done.
    rewrite run_bind, run_modify, run_bind, kload_slot. change (phys (set_ref _ _ s)) with (phys s).
    destruct (flag (load32 (phys s) (slot t (PTX va))) PTE_P); [done|]. mrun.
    rewrite kstore_slot, Hr. mrun. done.
  - cbn [phys set_phys]. rewrite (lookup_store_leaf dirs _ (ki_nodup _ _ _ _ H) d) by done.
    rewrite decide_True by (by splits). by rewrite Hu, Hf, He.
  - simpl. by rewrite upd_same.
Qed.

(** Page 4, mapped at 8MB, has 65535 references in all; it is mapped once more. *)
Lemma page_insert_ref_overflow_witness : ∃ base s l s',
  kinv base [2] s l ∧ pp_ref (pages s 4) = 65535 ∧
  page_insert None (kva 2) 4 0x801000 7 s = (Ret 0, s') ∧ pp_ref (pages s' 4) = 0.
Proof.
  destruct demo_mapped as (s & l & H & G & Hl & Hr & Hn).
  assert (∃ t, walks (phys s) 2 0x800000 t) as [t Ht].
  { unfold lookup_pte in Hl. unfold walks. destruct (tgt _ _) as [t|]; [by exists t|discriminate Hl]. }
  assert (4 ∈ leaves (phys s) [2]) as Hlf by (apply (lookup_leaf _ [2] 2 0x800000 _ ltac:(left) eq_refl Hl)).
  assert (4 ∉ l) as H4.
  { intros Hin. destruct (ki_free _ _ _ _ _ H Hin) as [_ Hf]. apply Hf. unfold refs. rewrite !elem_of_app. auto. }
  pose proof (ki_leaf _ _ _ _ _ H Hlf) as Hp. specialize (Hr 4).
  pose proof (kinv_take _ _ _ _ H 4 (65535 - pp_ref (pages s 4)) Hp H4 (ki_priv _ _ _ _ H 4 Hlf) ltac:(lia) ltac:(lia)) as H'.
  assert (pp_ref (pages (set_ref 4 (pp_ref (pages s 4) + (65535 - pp_ref (pages s 4))) s) 4) = 65535) as Er.
  { unfold set_ref. cbn [pages set_pages]. rewrite upd_same. cbn [pp_ref]. rewrite u16_small; lia. }
  destruct (page_insert_ref_overflow None _ [2] _ l 2 0x801000 4 7 t H' ltac:(left) eq_refl Ht Hn Hp Er ltac:(lia))
    as (s' & E & _ & E0).
  exact (ex_intro _ _ (ex_intro _ _ (ex_intro _ _ (ex_intro _ _ (conj H' (conj Er (conj E E0))))))).
Defined.
