(* ===== verification/PageDirs.v ===== *)
(** * Creating and destroying address spaces

    How the invariant of PageInv follows a directory through its life: memory
    outside the tables does not matter to it, a fresh page becomes an empty
    directory, an emptied table is unhooked, an emptied directory is dropped. *)
From S2P Require Import Prelude Monad Word Layout Mem CString PageAlloc PageTable PageInv PageOps.

#[export] Instance tables_perm m : Proper (Permutation ==> Permutation) (tables m).
Proof. intros dirs dirs' E. apply omap_Permutation, bind_Permutation, E. Qed.
#[export] Instance leaves_perm m : Proper (Permutation ==> Permutation) (leaves m).
Proof. intros dirs dirs' E. apply omap_Permutation, bind_Permutation, tables_perm, E. Qed.
#[export] Instance refs_perm m : Proper (Permutation ==> Permutation) (refs m).
Proof. intros dirs dirs' E. unfold refs. by rewrite E. Qed.

Lemma kinv_perm base dirs dirs' s l : dirs ≡ₚ dirs' → kinv base dirs s l → kinv base dirs' s l.
Proof.
  intros E []. split; try done; try (intros p; rewrite <- E; auto).
  - by rewrite <- E.
  - intros p Hp. by rewrite <- (countZ_perm _ _ _ (refs_perm _ _ _ E)), ki_ref.
Qed.

(** Memory that no directory or table occupies. *)
Lemma load32_same_page m m' p i :
  0 ≤ i < 1024 → (∀ a, a / 4096 = p → load8 m' a = load8 m a) →
  load32 m' (slot p i) = load32 m (slot p i).
Proof.
  intros Hi Hm. apply load32_bytes_eq. intros k Hk. apply Hm. unfold slot. lia.
Qed.

Lemma kinv_mem base dirs s l m' :
  (∀ a, a / 4096 ∈ dirs ++ tables (phys s) dirs → load8 m' a = load8 (phys s) a) →
  kinv base dirs s l →
  kinv base dirs (set_phys m' s) l ∧ tables m' dirs = tables (phys s) dirs ∧
  (∀ d va, d ∈ dirs → PDX va < UPDX → lookup_pte m' d va = lookup_pte (phys s) d va).
Proof.
  intros Hm H.
  assert (∀ p i, p ∈ dirs ++ tables (phys s) dirs → 0 ≤ i < 1024 →
            load32 m' (slot p i) = load32 (phys s) (slot p i)) as Hl.
  { intros p i Hp Hi. apply load32_same_page; [done|]. intros a <-. by apply Hm. }
  assert (∀ p i, p ∈ dirs ++ tables (phys s) dirs → 0 ≤ i < 1024 →
            tgt m' (slot p i) = tgt (phys s) (slot p i)) as Ht.
  { intros p i Hp Hi. unfold tgt. by rewrite Hl. }
  assert (tables m' dirs = tables (phys s) dirs) as ET.
  { apply tables_ext. intros d i Hd Hi. unfold UPDX in *. apply Ht; [set_solver|lia]. }
  assert (leaves m' dirs = leaves (phys s) dirs) as EL.
  { unfold leaves. rewrite ET. apply slots_ext. intros t j Htt Hj. apply Ht; [|done].
    apply elem_of_app. by right. }
  splits; [|done|].
  - assert (refs m' dirs = refs (phys s) dirs) as ER by (unfold refs; by rewrite ET, EL).
    destruct H. split; simpl; rewrite ?ET, ?EL, ?ER; done || by apply alloc_inv_phys.
  - intros d va Hd Hva. unfold lookup_pte. pose proof (PDX_range va).
    rewrite Ht by (done || (apply elem_of_app; by left)).
    destruct (tgt (phys s) (slot d (PDX va))) as [t|] eqn:E; [|done]. simpl.
    rewrite Hl; [done| |apply PTX_range]. apply elem_of_app. right. by eapply walks_table.
Qed.

(** ** A new directory *)

Definition empty_dir (m : mem) (d : Z) : Prop := ∀ i, 0 ≤ i < UPDX → tgt m (slot d i) = None.

Lemma tables_cons_empty m d dirs : empty_dir m d → tables m (d :: dirs) = tables m dirs.
Proof.
  intros He. unfold tables. rewrite bind_cons, omap_app.
  rewrite (omap_none (tgt m) (pde_slots d)); [done|].
  intros b (i & Hi & ->)%elem_of_pde_slots. by apply He.
Qed.

Lemma leaves_cons_empty m d dirs : empty_dir m d → leaves m (d :: dirs) = leaves m dirs.
Proof. intros He. unfold leaves. by rewrite tables_cons_empty. Qed.

Lemma refs_cons_empty m d dirs : empty_dir m d → refs m (d :: dirs) = d :: refs m dirs.
Proof. intros He. unfold refs. by rewrite tables_cons_empty, leaves_cons_empty. Qed.

Definition bump (base : Z → Z) (p : Z) : Z → Z := λ q, base q + if decide (q = p) then 1 else 0.

Lemma kinv_add_dir base dirs s l d :
  kinv (bump base d) dirs s l → base d = 0 → 0 ≤ d < npages s → pp_ref (pages s d) = 1 →
  (∀ q, 0 ≤ base q) → empty_dir (phys s) d → kinv base (d :: dirs) s l.
Proof.
  intros H Hb Hd Hr Hbase He.
  assert (d ∉ refs (phys s) dirs) as Hnr.
  { apply countZ_zero. pose proof (ki_ref _ _ _ _ H d Hd). unfold bump in *.
    rewrite decide_True in * by done. lia. }
  unfold refs in Hnr. rewrite !not_elem_of_app in Hnr. destruct Hnr as (HnD & HnT & HnL).
  destruct H. split; rewrite ?tables_cons_empty, ?leaves_cons_empty, ?refs_cons_empty by done; try done.
  - simpl. constructor; [|done]. rewrite not_elem_of_app. done.
  - intros p [->|Hp]%elem_of_cons; auto.
  - intros p Hp. pose proof (ki_priv _ Hp) as Hp'. simpl. rewrite not_elem_of_cons.
    split; [|done]. by intros ->.
  - simpl. intros p [->|Hp]%elem_of_cons; [done|]. specialize (ki_own _ Hp). unfold bump in ki_own.
    rewrite decide_False in ki_own; [lia|]. intros ->. apply elem_of_app in Hp as [?|?]; done.
  - intros p Hp. rewrite ki_ref by done. unfold bump. simpl. lia.
Qed.

Lemma kinv_drop_dir base dirs s l d :
  kinv base (d :: dirs) s l → empty_dir (phys s) d → kinv (bump base d) dirs s l.
Proof.
  intros H He.
  destruct H. rewrite ?tables_cons_empty, ?leaves_cons_empty, ?refs_cons_empty in * by done.
  simpl in ki_nodup. apply NoDup_cons in ki_nodup as [Hd Hnd].
  split; try done.
  - intros p Hp. apply ki_range. by right.
  - intros p Hp Hin. apply (ki_priv p Hp). by right.
  - intros p. specialize (ki_base p). unfold bump. case_decide; lia.
  - intros p Hp. unfold bump. rewrite decide_False by (by intros ->). rewrite ki_own; [done|].
    simpl. by right.
  - intros p Hp. rewrite ki_ref by done. unfold bump. simpl. lia.
Qed.

(** ** Unhooking a table *)

Lemma elem_of_pde_dirs dirs d i : d ∈ dirs → 0 ≤ i < UPDX → slot d i ∈ dirs ≫= pde_slots.
Proof. intros Hd Hi. apply list_elem_of_bind. exists d. rewrite elem_of_pde_slots. eauto. Qed.

Section clear.
Context (dirs : list Z) (m : mem) (d i t : Z).
Context (Hnd : NoDup (dirs ++ tables m dirs)) (Hd : d ∈ dirs) (Hi : 0 ≤ i < UPDX).
Context (Ht : tgt m (slot d i) = Some t) (Hempty : ∀ j, 0 ≤ j < 1024 → tgt m (slot t j) = None).

Definition clear_pde : mem := store32 m (slot d i) 0.

Lemma clear_pde_tables : tables m dirs ≡ₚ t :: tables clear_pde dirs.
Proof using Hnd Hd Hi Ht.
  apply NoDup_app in Hnd as (HndD & _ & _).
  destruct (omap_change (tgt m) (tgt clear_pde) (slot d i) (dirs ≫= pde_slots)) as (R & H1 & H2).
  - by apply NoDup_pde_slots.
  - by apply elem_of_pde_dirs.
  - intros b. rewrite list_elem_of_bind. setoid_rewrite elem_of_pde_slots.
    intros (d' & (i' & Hi' & ->) & Hd') Hne. unfold clear_pde, UPDX in *. rewrite tgt_store by lia.
    rewrite decide_False; [done|]. intros [-> ->]. done.
  - assert (tgt clear_pde (slot d i) = None) as Hn.
    { unfold clear_pde, UPDX in *. rewrite tgt_store by lia. by rewrite decide_True. }
    unfold tables. by rewrite H2, H1, Ht, Hn.
Qed.

Lemma clear_pde_leaves : leaves m dirs ≡ₚ leaves clear_pde dirs.
Proof using Hnd Hd Hi Ht Hempty.
  pose proof clear_pde_tables as HT. unfold leaves.
  transitivity (omap (tgt m) ((t :: tables clear_pde dirs) ≫= pt_slots)).
  { apply omap_Permutation, bind_Permutation, HT. }
  rewrite bind_cons, omap_app, (omap_none (tgt m) (pt_slots t)).
  - simpl. rewrite (slots_ext m clear_pde (tables clear_pde dirs)); [done|].
    intros t' j Ht' Hj. unfold clear_pde, UPDX in *. rewrite tgt_store by lia.
    rewrite decide_False; [done|]. intros [-> _]. rewrite HT in Hnd.
    apply NoDup_app in Hnd as (_ & Hdis & _). apply (Hdis _ Hd). by right.
  - intros b (j & Hj & ->)%elem_of_pt_slots. auto.
Qed.

Lemma kinv_clear_pde base s l :
  kinv base dirs s l → phys s = m → kinv (bump base t) dirs (set_phys clear_pde s) l.
Proof using Hnd Hd Hi Ht Hempty.
  intros H E. pose proof clear_pde_tables as HT. pose proof clear_pde_leaves as HL.
  pose proof Hnd as Hnd'. rewrite HT, <- Permutation_middle in Hnd'.
  apply NoDup_cons in Hnd' as [Htn Hnd'].
  assert (refs m dirs ≡ₚ t :: refs clear_pde dirs) as HR.
  { unfold refs. rewrite HT, HL. simpl. by rewrite <- Permutation_middle. }
  destruct H. rewrite E in *. split; simpl; try done.
  - by apply alloc_inv_phys.
  - intros p Hp. apply ki_range. rewrite HR. by right.
  - intros p. rewrite <- HL. intros Hp Hin. apply (ki_priv p Hp). rewrite HT.
    rewrite !elem_of_app in *. rewrite elem_of_cons. tauto.
  - intros p. specialize (ki_base p). unfold bump. case_decide; lia.
  - intros p Hp. unfold bump. rewrite decide_False by (by intros ->). rewrite ki_own; [done|].
    rewrite HT, !elem_of_app, elem_of_cons in *. tauto.
  - intros p Hp. rewrite ki_ref by done. rewrite (countZ_perm _ _ _ HR). unfold bump. simpl. lia.
Qed.
End clear.

(** ** Taking a page off the free list *)

Lemma alloc_state_pages z p s : pages (alloc_state z p s) = <[p := mkPageInfo None (pp_ref (pages s p))]> (pages s).
Proof. by destruct z. Qed.

Lemma alloc_state_globals z p s :
  same_globals s (alloc_state z p s) ∧ mm_trace (alloc_state z p s) = mm_trace s.
Proof. by destruct z. Qed.

Lemma alloc_state_data z p s a : a / 4096 ≠ p → load8 (phys (alloc_state z p s)) a = load8 (phys s) a.
Proof. intros Ha. destruct z; [|done]. simpl. by apply zero_page_data. Qed.

Lemma not_in_refs m dirs p : p ∉ refs m dirs → p ∉ dirs ++ tables m dirs.
Proof. unfold refs. rewrite !not_elem_of_app. intros (? & ? & _). done. Qed.

Lemma kinv_alloc z base dirs s p l :
  kinv base dirs s (p :: l) →
  kinv base dirs (alloc_state z p s) l ∧ (p ∉ l) ∧ 0 ≤ p < npages s ∧
  pp_ref (pages (alloc_state z p s) p) = 0 ∧ base p = 0 ∧ (p ∉ refs (phys s) dirs) ∧
  tables (phys (alloc_state z p s)) dirs = tables (phys s) dirs ∧
  (∀ d va, d ∈ dirs → PDX va < UPDX →
     lookup_pte (phys (alloc_state z p s)) d va = lookup_pte (phys s) d va).
Proof.
  intros H. destruct (ki_free _ _ _ _ p H) as [Hb Hr]; [left|].
  destruct (ai_free _ _ (ki_alloc _ _ _ _ H) p) as [Hp H0]; [left|].
  pose proof (NoDup_cons_1_1 _ _ (ai_nodup _ _ (ki_alloc _ _ _ _ H))) as Hl.
  assert (kinv base dirs (alloc_state false p s) l) as H1.
  { pose proof (alloc_state_inv false _ _ _ (ki_alloc _ _ _ _ H)) as Ha.
    destruct H. split; try done; rewrite alloc_state_pages; intros q Hq; rewrite upd_case;
      case_decide; subst; simpl; auto. }
  assert (pp_ref (pages (alloc_state z p s) p) = 0) as Hpp.
  { rewrite alloc_state_pages, upd_same. done. }
  assert (kinv base dirs (alloc_state z p s) l ∧
    tables (phys (alloc_state z p s)) dirs = tables (phys s) dirs ∧
    (∀ d va, d ∈ dirs → PDX va < UPDX →
     lookup_pte (phys (alloc_state z p s)) d va = lookup_pte (phys s) d va)) as (? & ? & ?).
  { destruct z; [|done]. apply (kinv_mem base dirs (alloc_state false p s) l (zero_page (phys s) p)); [|done].
    intros a Ha. simpl. apply zero_page_data. intros E. rewrite E in Ha.
    by apply (not_in_refs _ _ _ Hr). }
  splits; done || lia.
Qed.

(** The pages of [demo_pt] with no environment: the kernel owns page 2 as well. *)
Definition demo_base2 (p : Z) : Z := if bool_decide (p ∈ [3; 5; 6]) then 0 else 1.

Lemma demo_pt_boot : kinv demo_base2 [] demo_pt [3; 5; 6].
Proof.
  pose proof (kinv_drop_dir _ _ _ _ _ demo_pt_inv ltac:(by intros i Hi)) as H.
  eapply kinv_proper; [..|exact H]; try reflexivity. intros p. unfold bump, demo_base, demo_base2.
  repeat case_bool_decide; case_decide; subst; try lia;
    rewrite ?elem_of_cons, ?elem_of_nil in *; naive_solver.
Qed.
