(* ===== verification/Seg.v ===== *)
(** * Segments, gates and task state

    Parts 2 and 3 of inc/mmu.h, the [gdt] of kern/env.c, and [trap_init] and
    [trap_init_percpu] of kern/trap.c, which fill the descriptor tables.  A
    handler of kern/trapentry.S is a constructor of [handler] with the trap
    number it pushes and whether it pushes an error code of its own. *)
From S2P Require Import Prelude Monad Word Layout.

(** ** inc/mmu.h: segment descriptors *)

Record Segdesc := mkSegdesc {
  sd_lim_15_0 : Z; sd_base_15_0 : Z; sd_base_23_16 : Z; sd_type : Z;
  sd_s : Z; sd_dpl : Z; sd_p : Z; sd_lim_19_16 : Z; sd_avl : Z; sd_rsv1 : Z;
  sd_db : Z; sd_g : Z; sd_base_31_24 : Z;
}.

Definition SEG_NULL : Segdesc := mkSegdesc 0 0 0 0 0 0 0 0 0 0 0 0 0.
Definition SEG_FAULT : Segdesc := mkSegdesc 0 0 0 0 1 0 1 0 0 0 1 0 0.
(** Each initialiser is cut to the width of its bit field. *)
Definition SEG (type base lim dpl : Z) : Segdesc :=
  mkSegdesc (Z.land (Z.shiftr lim 12) 0xffff) (Z.land base 0xffff)
    (Z.land (Z.shiftr base 16) 0xff) (type mod 16) 1 (dpl mod 4) 1
    (Z.shiftr (u32 lim) 28 mod 16) 0 0 1 1 (Z.shiftr (u32 base) 24 mod 256).
Definition SEG16 (type base lim dpl : Z) : Segdesc :=
  mkSegdesc (Z.land lim 0xffff) (Z.land base 0xffff)
    (Z.land (Z.shiftr base 16) 0xff) (type mod 16) 1 (dpl mod 4) 1
    (Z.shiftr (u32 lim) 16 mod 16) 0 0 1 0 (Z.shiftr (u32 base) 24 mod 256).

Definition STA_X := 0x8.
Definition STA_W := 0x2.
Definition STA_R := 0x2.
Definition STS_T32A := 0x9.
Definition STS_CG32 := 0xC.
Definition STS_IG32 := 0xE.
Definition STS_TG32 := 0xF.

(** What the processor makes of a descriptor. *)
Definition seg_base (d : Segdesc) : Z :=
  sd_base_15_0 d + 65536 * sd_base_23_16 d + 16777216 * sd_base_31_24 d.
Definition seg_limit (d : Segdesc) : Z :=
  let raw := sd_lim_15_0 d + 65536 * sd_lim_19_16 d in
  if sd_g d =? 1 then raw * 4096 + 4095 else raw.

(** ** inc/mmu.h: gates and the task state *)

Record Gatedesc := mkGatedesc {
  gd_off_15_0 : Z; gd_sel : Z; gd_args : Z; gd_rsv1 : Z; gd_type : Z;
  gd_s : Z; gd_dpl : Z; gd_p : Z; gd_off_31_16 : Z;
}.
Definition gate0 : Gatedesc := mkGatedesc 0 0 0 0 0 0 0 0 0.

Definition SETGATE (istrap : bool) (sel off dpl : Z) : Gatedesc :=
  mkGatedesc (Z.land (u32 off) 0xffff) (u16 sel) 0 0 (if istrap then STS_TG32 else STS_IG32)
    0 (dpl mod 4) 1 (Z.shiftr (u32 off) 16).
Definition SETCALLGATE (sel off dpl : Z) : Gatedesc :=
  mkGatedesc (Z.land (u32 off) 0xffff) (u16 sel) 0 0 STS_CG32
    0 (dpl mod 4) 1 (Z.shiftr (u32 off) 16).

Definition gate_offset (g : Gatedesc) : Z := gd_off_15_0 g + 65536 * gd_off_31_16 g.

(** The padding halves of the 16-bit fields are not modelled. *)
Record Taskstate := mkTs {
  ts_link : Z; ts_esp0 : Z; ts_ss0 : Z; ts_esp1 : Z; ts_ss1 : Z; ts_esp2 : Z; ts_ss2 : Z;
  ts_cr3 : Z; ts_eip : Z; ts_eflags : Z;
  ts_eax : Z; ts_ecx : Z; ts_edx : Z; ts_ebx : Z; ts_esp : Z; ts_ebp : Z; ts_esi : Z; ts_edi : Z;
  ts_es : Z; ts_cs : Z; ts_ss : Z; ts_ds : Z; ts_fs : Z; ts_gs : Z; ts_ldt : Z;
  ts_t : Z; ts_iomb : Z;
}.
Definition ts0 : Taskstate := mkTs 0 0 0 0 0 0 0 0 0 0 0 0 0 0 0 0 0 0 0 0 0 0 0 0 0 0 0.
(** 26 words: the last one holds [ts_t] and [ts_iomb]. *)
Definition sizeof_Taskstate := 104.

(** ** inc/trap.h: vectors *)
Definition T_DIVIDE := 0.
Definition T_DEBUG := 1.
Definition T_NMI := 2.
Definition T_BRKPT := 3.
Definition T_OFLOW := 4.
Definition T_BOUND := 5.
Definition T_ILLOP := 6.
Definition T_DEVICE := 7.
Definition T_DBLFLT := 8.
Definition T_TSS := 10.
Definition T_SEGNP := 11.
Definition T_STACK := 12.
Definition T_GPFLT := 13.
Definition T_PGFLT := 14.
Definition T_FPERR := 16.
Definition T_ALIGN := 17.
Definition T_MCHK := 18.
Definition T_SIMDERR := 19.
Definition T_SYSCALL := 48.
Definition IRQ_OFFSET := 32.
Definition IRQ_TIMER := 0.
Definition IRQ_KBD := 1.
Definition IRQ_SERIAL := 4.
Definition IRQ_SPURIOUS := 7.
Definition IRQ_IDE := 14.
Definition IRQ_ERROR := 19.

(** ** kern/trapentry.S *)
Inductive handler :=
| divide_entry | debug_entry | nmi_entry | brkpt_entry | oflow_entry | bound_entry
| illop_entry | device_entry | dblflt_entry | tss_entry | segnp_entry | stack_entry
| gpflt_entry | pgflt_entry | fperr_entry | align_entry | mchk_entry | simderr_entry
| syscall_entry | irq_error_handler | irq_ide_handler | irq_kbd_handler
| irq_serial_handler | irq_spurious_handler | irq_timer_handler.
#[export] Instance handler_eq_dec : EqDecision handler.
Proof. solve_decision. Defined.

(** [TRAPHANDLER(name, num)] and [TRAPHANDLER_NOEC(name, num)]: the number
    pushed, and whether the handler itself pushes a 0 for the error code. *)
Definition trapentry (h : handler) : Z * bool :=
  match h with
  | divide_entry => (T_DIVIDE, true) | debug_entry => (T_DEBUG, true)
  | nmi_entry => (T_NMI, true) | brkpt_entry => (T_BRKPT, true)
  | oflow_entry => (T_OFLOW, true) | bound_entry => (T_BOUND, true)
  | illop_entry => (T_ILLOP, true) | device_entry => (T_DEVICE, true)
  | dblflt_entry => (T_DBLFLT, false) | tss_entry => (T_TSS, false)
  | segnp_entry => (T_SEGNP, false) | stack_entry => (T_STACK, false)
  | gpflt_entry => (T_GPFLT, false) | pgflt_entry => (T_PGFLT, false)
  | fperr_entry => (T_FPERR, true) | align_entry => (T_ALIGN, false)
  | mchk_entry => (T_MCHK, true) | simderr_entry => (T_SIMDERR, true)
  | syscall_entry => (T_SYSCALL, true)
  | irq_error_handler => (IRQ_OFFSET + IRQ_ERROR, true)
  | irq_ide_handler => (IRQ_OFFSET + IRQ_IDE, true)
  | irq_kbd_handler => (IRQ_OFFSET + IRQ_KBD, true)
  | irq_serial_handler => (IRQ_OFFSET + IRQ_SERIAL, true)
  | irq_spurious_handler => (IRQ_OFFSET + IRQ_SPURIOUS, true)
  | irq_timer_handler => (IRQ_OFFSET + IRQ_TIMER, true)
  end.

(** The exceptions for which the processor pushes an error code. *)
Definition cpu_pushes_error (v : Z) : bool :=
  bool_decide (v ∈ [8; 10; 11; 12; 13; 14; 17]).

(** ** The tables *)

(** [gdt], [idt], the task state of each CPU, and the registers that
    [ltr] and [lidt] load. *)
Record descs := mkDescs {
  d_gdt : Z → Segdesc;
  d_idt : Z → Gatedesc;
  d_ts : Z → Taskstate;
  d_tr : Z → Z;
  d_idtr : Z → bool;
}.
Definition set_gdt g d := mkDescs g (d_idt d) (d_ts d) (d_tr d) (d_idtr d).
Definition set_idt i d := mkDescs (d_gdt d) i (d_ts d) (d_tr d) (d_idtr d).
Definition set_ts t d := mkDescs (d_gdt d) (d_idt d) t (d_tr d) (d_idtr d).
Definition set_tr t d := mkDescs (d_gdt d) (d_idt d) (d_ts d) t (d_idtr d).
Definition set_idtr b d := mkDescs (d_gdt d) (d_idt d) (d_ts d) (d_tr d) b.

(** The initialiser of [gdt] in kern/env.c: [NCPU + 5] entries, those not
    named are zero. *)
Definition gdt : Z → Segdesc := λ i,
  if i =? 0 then SEG_NULL
  else if i =? Z.shiftr GD_KT 3 then SEG (Z.lor STA_X STA_R) 0x0 0xffffffff 0
  else if i =? Z.shiftr GD_KD 3 then SEG STA_W 0x0 0xffffffff 0
  else if i =? Z.shiftr GD_UT 3 then SEG (Z.lor STA_X STA_R) 0x0 0xffffffff 3
  else if i =? Z.shiftr GD_UD 3 then SEG STA_W 0x0 0xffffffff 3
  else SEG_NULL.

Section init.
Context (cpunum : Z).
(** Link addresses: of each entry point and of each CPU's [cpu_ts]. *)
Context (addr : handler → Z) (ts_addr : Z → Z).

Definition with_stack (esp0 ss0 iomb : Z) (t : Taskstate) : Taskstate :=
  mkTs (ts_link t) esp0 ss0 (ts_esp1 t) (ts_ss1 t) (ts_esp2 t) (ts_ss2 t) (ts_cr3 t) (ts_eip t)
    (ts_eflags t) (ts_eax t) (ts_ecx t) (ts_edx t) (ts_ebx t) (ts_esp t) (ts_ebp t) (ts_esi t)
    (ts_edi t) (ts_es t) (ts_cs t) (ts_ss t) (ts_ds t) (ts_fs t) (ts_gs t) (ts_ldt t) (ts_t t) iomb.

Definition clear_s (d : Segdesc) : Segdesc :=
  mkSegdesc (sd_lim_15_0 d) (sd_base_15_0 d) (sd_base_23_16 d) (sd_type d) 0 (sd_dpl d) (sd_p d)
    (sd_lim_19_16 d) (sd_avl d) (sd_rsv1 d) (sd_db d) (sd_g d) (sd_base_31_24 d).

Definition trap_init_percpu : M descs () :=
  let slot := Z.shiftr GD_TSS0 3 + cpunum in
  modify (λ d, set_ts (<[cpunum := with_stack (u32 (KSTACKTOP - cpunum * (KSTKSIZE + KSTKGAP)))
                                     GD_KD sizeof_Taskstate (d_ts d cpunum)]> (d_ts d)) d) ;;
  modify (λ d, set_gdt (<[slot := SEG16 STS_T32A (ts_addr cpunum) (sizeof_Taskstate - 1) 0]> (d_gdt d)) d) ;;
  modify (λ d, set_gdt (<[slot := clear_s (d_gdt d slot)]> (d_gdt d)) d) ;;
  modify (λ d, set_tr (<[cpunum := u16 (GD_TSS0 + Z.shiftl cpunum 3)]> (d_tr d)) d) ;;
  modify (λ d, set_idtr (<[cpunum := true]> (d_idtr d)) d).

(** [SETGATE(idt[v], 0, GD_KT, h, dpl)] *)
Definition gate (vhd : Z * handler * Z) : M descs () :=
  let '(v, h, dpl) := vhd in
  modify (λ d, set_idt (<[v := SETGATE false GD_KT (addr h) dpl]> (d_idt d)) d).

Definition trap_gates : list (Z * handler * Z) :=
  [(T_DIVIDE, divide_entry, 0); (T_DEBUG, debug_entry, 0); (T_NMI, nmi_entry, 0);
   (T_BRKPT, brkpt_entry, 3); (T_OFLOW, oflow_entry, 0); (T_BOUND, bound_entry, 0);
   (T_ILLOP, illop_entry, 0); (T_DEVICE, device_entry, 0); (T_DBLFLT, dblflt_entry, 0);
   (T_TSS, tss_entry, 0); (T_SEGNP, segnp_entry, 0); (T_STACK, stack_entry, 0);
   (T_GPFLT, gpflt_entry, 0); (T_PGFLT, pgflt_entry, 0); (T_FPERR, fperr_entry, 0);
   (T_ALIGN, align_entry, 0); (T_MCHK, mchk_entry, 0); (T_SIMDERR, simderr_entry, 0);
   (T_SYSCALL, syscall_entry, 3);
   (IRQ_OFFSET + IRQ_ERROR, irq_error_handler, 3); (IRQ_OFFSET + IRQ_IDE, irq_ide_handler, 3);
   (IRQ_OFFSET + IRQ_KBD, irq_kbd_handler, 3); (IRQ_OFFSET + IRQ_SERIAL, irq_serial_handler, 3);
   (IRQ_OFFSET + IRQ_SPURIOUS, irq_spurious_handler, 3); (IRQ_OFFSET + IRQ_TIMER, irq_timer_handler, 3)].

Definition trap_init : M descs () :=
  forM trap_gates gate ;;
  trap_init_percpu.
End init.

(** ** Descriptors hold what they were built from *)

Lemma seg_base_fields base : 0 ≤ base < 4294967296 →
  Z.land base 65535 + 65536 * Z.land (Z.shiftr base 16) 255 +
  16777216 * (Z.shiftr (u32 base) 24 mod 256) = base.
Proof.
  intros H. rewrite land_FFFF, land_FF, u32_small, !Z.shiftr_div_pow2 by lia.
  change (2 ^ 16) with 65536. change (2 ^ 24) with 16777216. lia.
Qed.

Lemma gate_offset_SETGATE istrap sel off dpl :
  gate_offset (SETGATE istrap sel off dpl) = u32 off.
Proof.
  unfold gate_offset, SETGATE. simpl. rewrite land_FFFF, Z.shiftr_div_pow2 by lia.
  change (2 ^ 16) with 65536. lia.
Qed.

(** A descriptor built by [SEG] or [SEG16] describes the segment it was
    built for: its base is [base]; its limit is [lim], with [SEG] extended to
    the end of its 4 KB granule; and the kernel and user segments of [gdt] are
    flat, covering all 4 GB from 0, and differ in their privilege level only. *)
Theorem SEG_describes type base lim dpl :
  0 ≤ base < 4294967296 → 0 ≤ lim < 4294967296 →
  seg_base (SEG type base lim dpl) = base ∧ seg_base (SEG16 type base lim dpl) = base ∧
  seg_limit (SEG type base lim dpl) = lim / 4096 * 4096 + 4095 ∧
  (lim < 1048576 → seg_limit (SEG16 type base lim dpl) = lim) ∧
  (∀ sel, sel ∈ [GD_KT; GD_KD; GD_UT; GD_UD] →
     let d := gdt (Z.shiftr sel 3) in
     seg_base d = 0 ∧ seg_limit d = 0xffffffff ∧ sd_p d = 1 ∧
     sd_dpl d = if bool_decide (sel ∈ [GD_UT; GD_UD]) then 3 else 0).
Proof.
  intros Hb Hl. unfold seg_base, seg_limit, SEG, SEG16. simpl.
  rewrite seg_base_fields, !land_FFFF, !(u32_small lim), !Z.shiftr_div_pow2 by lia.
  change (2 ^ 12) with 4096. change (2 ^ 28) with 268435456. change (2 ^ 16) with 65536.
  split; [reflexivity|]. split; [reflexivity|]. split; [lia|]. split; [lia|]. intros sel H.
  repeat (apply elem_of_cons in H as [->|H]; [by vm_compute|]).
  by apply elem_of_nil in H.
Qed.

Lemma SEG_describes_witness :
  seg_base (SEG16 STS_T32A 0xf0123456 103 0) = 0xf0123456 ∧
  seg_limit (SEG16 STS_T32A 0xf0123456 103 0) = 103.
Proof.
  destruct (SEG_describes STS_T32A 0xf0123456 103 0) as (_ & E & _ & El & _); [lia..|].
  split; [exact E|apply El; lia].
Defined.

(** ** The tables after initialisation *)

Section spec.
Context (addr : handler → Z) (ts_addr : Z → Z).

Definition vector (x : Z * handler * Z) : Z := fst (fst x).
Definition gate_of (x : Z * handler * Z) : Gatedesc := SETGATE false GD_KT (addr (snd (fst x))) (snd x).

(** A run of [SETGATE]s for distinct vectors. *)
Lemma gates_run l d : NoDup (vector <$> l) →
  ∃ d', forM l (gate addr) d = (Ret tt, d') ∧
    (∀ x, x ∈ l → d_idt d' (vector x) = gate_of x) ∧
    (∀ v, v ∉ vector <$> l → d_idt d' v = d_idt d v) ∧
    d_gdt d' = d_gdt d ∧ d_ts d' = d_ts d ∧ d_tr d' = d_tr d.
Proof.
  revert d. induction l as [|x l IH]; intros d Hn.
  - exists d. repeat split. intros x Hx. by apply elem_of_nil in Hx.
  - rewrite fmap_cons in Hn. apply NoDup_cons in Hn as [Hx Hn]. destruct x as [[v h] dpl]. cbn [forM]. rewrite run_bind.
    unfold gate at 1. rewrite run_modify.
    destruct (IH (set_idt (<[v := SETGATE false GD_KT (addr h) dpl]> (d_idt d)) d) Hn) as (d' & E & Hin & Hout & Hg & Ht & Hr). exists d'.
    refine (conj E (conj _ (conj _ (conj Hg (conj Ht Hr))))).
    + intros y [->|Hy]%elem_of_cons; [|by apply Hin].
      rewrite Hout by exact Hx. simpl. apply upd_same.
    + intros w Hw. rewrite fmap_cons, not_elem_of_cons in Hw. destruct Hw as [Hne Hw].
      rewrite Hout by exact Hw. simpl. by apply upd_other.
Qed.

Lemma trap_gates_nodup : NoDup (vector <$> trap_gates).
Proof. apply (bool_decide_unpack _). vm_compute. exact I. Qed.

(** Each handler pushes its vector's number, and an error code exactly where
    the processor does not. *)
Definition entry_matches (x : Z * handler * Z) : bool :=
  let '(n, noec) := trapentry (snd (fst x)) in
  (n =? vector x) && Bool.eqb noec (negb (cpu_pushes_error (vector x))).
Lemma trap_gates_match x : x ∈ trap_gates → entry_matches x = true.
Proof.
  intros H. assert (forallb entry_matches trap_gates = true) as HF by reflexivity.
  rewrite forallb_forall in HF. apply HF. by apply list_elem_of_In.
Qed.

Lemma gate_dpl x : x ∈ trap_gates → snd x mod 4 = snd x.
Proof.
  intros H. assert (forallb (λ x, snd x mod 4 =? snd x) trap_gates = true) as HF by reflexivity.
  rewrite forallb_forall in HF. apply Z.eqb_eq. apply (HF x). by apply list_elem_of_In.
Qed.

Lemma user_vectors :
  vector <$> filter (λ x : Z * handler * Z, snd x = 3) trap_gates = [3; 48; 51; 46; 33; 36; 39; 32].
Proof. reflexivity. Qed.

Lemma trap_init_percpu_run c d :
  trap_init_percpu c ts_addr d = (Ret tt,
    mkDescs
      (<[5 + c := clear_s (SEG16 STS_T32A (ts_addr c) 103 0)]> (d_gdt d))
      (d_idt d)
      (<[c := with_stack (u32 (KSTACKTOP - c * (KSTKSIZE + KSTKGAP))) GD_KD 104 (d_ts d c)]> (d_ts d))
      (<[c := u16 (GD_TSS0 + Z.shiftl c 3)]> (d_tr d)) (<[c := true]> (d_idtr d))).
Proof.
  unfold trap_init_percpu. mrun. unfold set_ts, set_gdt, set_tr, set_idtr. simpl.
  change (Z.shiftr GD_TSS0 3) with 5. by rewrite upd_same, upd_upd.
Qed.
End spec.

(** C30: [trap_init] installs for every vector it names an interrupt gate (so
    that interrupts are off in [trap]) into the kernel's code segment at the
    entry point that pushes exactly that vector's number, and that pushes a 0
    for the error code exactly when the processor pushes none; the vectors a
    user program may raise with [int] are the breakpoint, the system call and
    the six external interrupts, and no others. *)
Theorem trap_init_correct cpunum addr ts_addr d :
  (∀ v, d_idt d v = gate0) →
  ∃ d', trap_init cpunum addr ts_addr d = (Ret tt, d') ∧
    (∀ v h dpl, (v, h, dpl) ∈ trap_gates →
       let g := d_idt d' v in
       gate_offset g = u32 (addr h) ∧ gd_sel g = GD_KT ∧ gd_type g = STS_IG32 ∧ gd_p g = 1 ∧
       gd_dpl g = dpl ∧ trapentry h = (v, negb (cpu_pushes_error v))) ∧
    (∀ v, gd_p (d_idt d' v) = 1 ∧ gd_dpl (d_idt d' v) = 3 ↔ v ∈ [3; 48; 51; 46; 33; 36; 39; 32]).
Proof.
  intros H0. destruct (gates_run addr trap_gates d trap_gates_nodup)
    as (d1 & E & Hin & Hout & _).
  eexists. unfold trap_init. rewrite run_bind, E, trap_init_percpu_run.
  split; [reflexivity|]. cbn [d_idt]. split.
  - intros v h dpl H. pose proof (Hin _ H) as Eg. change (vector (v, h, dpl)) with v in Eg.
    rewrite Eg. unfold gate_of. cbn [fst snd]. rewrite gate_offset_SETGATE.
    repeat (split; [reflexivity|]). split; [exact (gate_dpl _ H)|].
    pose proof (trap_gates_match _ H) as Hm. unfold entry_matches in Hm. simpl in Hm.
    destruct (trapentry h) as [n b]. unfold vector in Hm. simpl in Hm.
    apply andb_true_iff in Hm as [->%Z.eqb_eq ->%Bool.eqb_prop]. reflexivity.
  - intros v. rewrite <- user_vectors, list_elem_of_fmap. setoid_rewrite list_elem_of_filter. split.
    + intros [Hp Hd]. destruct (decide (v ∈ vector <$> trap_gates)) as [Hv|Hv].
      * apply list_elem_of_fmap in Hv as (x & -> & Hx). exists x. rewrite (Hin x Hx) in Hd.
        repeat split; [|done]. rewrite <- (gate_dpl x Hx). exact Hd.
      * rewrite Hout, H0 in Hp by done. discriminate Hp.
    + intros (x & -> & Hd & Hx). rewrite (Hin x Hx). simpl. by rewrite Hd.
Qed.

Lemma trap_init_correct_witness :
  ∃ d', trap_init 0 (λ _, 0xf0104000) (λ _, 0) (mkDescs gdt (λ _, gate0) (λ _, ts0) (λ _, 0) (λ _, false))
          = (Ret tt, d') ∧ gd_dpl (d_idt d' T_SYSCALL) = 3 ∧ gate_offset (d_idt d' T_PGFLT) = 0xf0104000.
Proof.
  destruct (trap_init_correct 0 (λ _, 0xf0104000) (λ _, 0)
    (mkDescs gdt (λ _, gate0) (λ _, ts0) (λ _, 0) (λ _, false))) as (d' & E & Hg & _); [done|].
  exists d'. refine (conj E (conj _ _)).
  - apply (Hg T_SYSCALL syscall_entry 3). apply (bool_decide_unpack _). vm_compute. exact I.
  - apply (Hg T_PGFLT pgflt_entry 0). apply (bool_decide_unpack _). vm_compute. exact I.
Defined.

(** The kernel stack that the processor switches to on CPU [c]. *)
Definition stack_top (d : descs) (c : Z) : Z := ts_esp0 (d_ts d c).

(** When two CPUs have run [trap_init_percpu], in either order, each has
    its own TSS descriptor in the [gdt] (a system descriptor of the CPU's
    [cpu_ts], 104 bytes long) and its task register selects it; each enters
    the kernel on the stack that [mem_init_mp] maps for it; and the stacks of
    the two CPUs do not meet: there are at least [KSTKGAP] bytes between them. *)
Theorem trap_init_percpu_distinct c1 c2 ts_addr d :
  0 ≤ c1 < NCPU → 0 ≤ c2 < NCPU → c1 ≠ c2 → (∀ c, 0 ≤ ts_addr c < 4294967296) →
  ∃ d', (trap_init_percpu c1 ts_addr ;; trap_init_percpu c2 ts_addr) d = (Ret tt, d') ∧
    (∀ c, c = c1 ∨ c = c2 →
       let slot := d_tr d' c / 8 in
       d_tr d' c = slot * 8 ∧ 5 ≤ slot < NCPU + 5 ∧
       seg_base (d_gdt d' slot) = ts_addr c ∧ seg_limit (d_gdt d' slot) = sizeof_Taskstate - 1 ∧
       sd_s (d_gdt d' slot) = 0 ∧ sd_type (d_gdt d' slot) = STS_T32A ∧ d_idtr d' c = true ∧
       ts_ss0 (d_ts d' c) = GD_KD ∧ ts_iomb (d_ts d' c) = sizeof_Taskstate ∧
       stack_top d' c = KSTACKTOP - c * (KSTKSIZE + KSTKGAP) ∧
       MMIOLIM ≤ stack_top d' c - KSTKSIZE - KSTKGAP ∧ stack_top d' c ≤ KSTACKTOP) ∧
    d_tr d' c1 / 8 ≠ d_tr d' c2 / 8 ∧
    (stack_top d' c1 + KSTKGAP ≤ stack_top d' c2 - KSTKSIZE ∨
     stack_top d' c2 + KSTKGAP ≤ stack_top d' c1 - KSTKSIZE).
Proof.
  intros H1 H2 Hne Hts. unfold NCPU in *.
  eexists. rewrite run_bind, !trap_init_percpu_run. split; [reflexivity|].
  assert (∀ c, 0 ≤ c < 8 → u16 (GD_TSS0 + Z.shiftl c 3) = (5 + c) * 8) as Etr.
  { intros c Hc. rewrite Z.shiftl_mul_pow2 by lia. change (2 ^ 3) with 8. unfold GD_TSS0.
    rewrite u16_small; lia. }
  assert (∀ c, 0 ≤ c < 8 → u32 (KSTACKTOP - c * (KSTKSIZE + KSTKGAP)) = 0xF0000000 - c * 65536) as Est.
  { intros c Hc. change (KSTKSIZE + KSTKGAP) with 65536. change KSTACKTOP with 0xF0000000.
    rewrite u32_small; lia. }
  set (d' := mkDescs _ _ _ _ _).
  assert (∀ c, c = c1 ∨ c = c2 → 0 ≤ c < 8 ∧ d_tr d' c = (5 + c) * 8 ∧ stack_top d' c = 0xF0000000 - c * 65536 ∧
    d_gdt d' (5 + c) = clear_s (SEG16 STS_T32A (ts_addr c) 103 0) ∧ d_idtr d' c = true ∧
    ts_ss0 (d_ts d' c) = GD_KD ∧ ts_iomb (d_ts d' c) = 104) as Hc.
  { unfold d', stack_top. simpl. intros c [->| ->]; rewrite !upd_case;
      repeat (case_decide; try lia); simpl; rewrite Etr, Est by lia; repeat split; lia. }
  split; [|split].
  - intros c Hcc. destruct (Hc c Hcc) as (Hr & -> & -> & Eg & Ei & Es & Eo).
    replace ((5 + c) * 8 / 8) with (5 + c) by lia. rewrite Eg, Ei, Es, Eo.
    change KSTKSIZE with 32768. change KSTKGAP with 32768. change KSTACKTOP with 0xF0000000.
    change MMIOLIM with 0xEFC00000.
    repeat split; try lia. exact (seg_base_fields _ (Hts c)).
  - destruct (Hc c1 (or_introl eq_refl)) as (_ & -> & _). destruct (Hc c2 (or_intror eq_refl)) as (_ & -> & _). lia.
  - destruct (Hc c1 (or_introl eq_refl)) as (_ & _ & -> & _). destruct (Hc c2 (or_intror eq_refl)) as (_ & _ & -> & _).
    change KSTKSIZE with 32768. change KSTKGAP with 32768. lia.
Qed.

Lemma trap_init_percpu_distinct_witness :
  ∃ d', (trap_init_percpu 1 (λ c, 0xf0200000 + 128 * u16 c) ;;
         trap_init_percpu 0 (λ c, 0xf0200000 + 128 * u16 c))
      (mkDescs gdt (λ _, gate0) (λ _, ts0) (λ _, 0) (λ _, false)) = (Ret tt, d') ∧
    d_tr d' 1 / 8 ≠ d_tr d' 0 / 8.
Proof.
  destruct (trap_init_percpu_distinct 1 0 (λ c, 0xf0200000 + 128 * u16 c)
    (mkDescs gdt (λ _, gate0) (λ _, ts0) (λ _, 0) (λ _, false))) as (d' & E & _ & H & _).
  - unfold NCPU. lia.
  - unfold NCPU. lia.
  - lia.
  - intros c. pose proof (u16_range c). lia.
  - exact (ex_intro _ d' (conj E H)).
Defined.
