(* ===== verification/KState.v ===== *)
(** * The kernel's state

    The data of inc/trap.h, inc/env.h, kern/cpu.h and kern/spinlock.h, the
    kernel state made of them and of the memory manager's, and the access
    primitives of the kernel's computations.  A [struct Env *] is the index of
    its element in [envs]; [NULL] is [None]. *)
From S2P Require Import Prelude Monad Word Layout Mem PageAlloc PageTable.

(** ** inc/trap.h *)

Record PushRegs := mkRegs {
  reg_edi : Z; reg_esi : Z; reg_ebp : Z; reg_oesp : Z;
  reg_ebx : Z; reg_edx : Z; reg_ecx : Z; reg_eax : Z;
}.

(** The padding fields are not modelled. *)
Record Trapframe := mkTf {
  tf_regs : PushRegs;
  tf_es : Z; tf_ds : Z;
  tf_trapno : Z;
  tf_err : Z; tf_eip : Z; tf_cs : Z; tf_eflags : Z;
  tf_esp : Z; tf_ss : Z;
}.

Definition regs0 : PushRegs := mkRegs 0 0 0 0 0 0 0 0.
(** [memset(&tf, 0, sizeof tf)] *)
Definition tf0 : Trapframe := mkTf regs0 0 0 0 0 0 0 0 0 0.

Definition set_eax (v : Z) (r : PushRegs) : PushRegs :=
  mkRegs (reg_edi r) (reg_esi r) (reg_ebp r) (reg_oesp r) (reg_ebx r) (reg_edx r) (reg_ecx r) (u32 v).
Definition tf_set_eax (v : Z) (t : Trapframe) : Trapframe :=
  mkTf (set_eax v (tf_regs t)) (tf_es t) (tf_ds t) (tf_trapno t) (tf_err t) (tf_eip t)
    (tf_cs t) (tf_eflags t) (tf_esp t) (tf_ss t).
Definition tf_set_eip (v : Z) (t : Trapframe) : Trapframe :=
  mkTf (tf_regs t) (tf_es t) (tf_ds t) (tf_trapno t) (tf_err t) v (tf_cs t) (tf_eflags t)
    (tf_esp t) (tf_ss t).
Definition tf_set_esp (v : Z) (t : Trapframe) : Trapframe :=
  mkTf (tf_regs t) (tf_es t) (tf_ds t) (tf_trapno t) (tf_err t) (tf_eip t) (tf_cs t)
    (tf_eflags t) v (tf_ss t).

(** ** inc/env.h *)

Record Env := mkEnv {
  env_tf : Trapframe;
  env_link : option Z;
  env_id : Z;                 (** [envid_t], signed *)
  env_parent_id : Z;
  env_type : Z;
  env_status : Z;
  env_runs : Z;
  env_cpunum : Z;
  env_pgdir : Z;              (** kernel address of the page directory; 0 is [NULL] *)
  env_pgfault_upcall : Z;
  env_ipc_recving : bool;
  env_ipc_dstva : Z;
  env_ipc_value : Z;
  env_ipc_from : Z;
  env_ipc_perm : Z;
}.

Definition ENV_TYPE_USER := 0.

Section setters.
Context (e : Env).
Definition with_tf (t : Trapframe) : Env :=
  mkEnv t (env_link e) (env_id e) (env_parent_id e) (env_type e) (env_status e) (env_runs e)
    (env_cpunum e) (env_pgdir e) (env_pgfault_upcall e) (env_ipc_recving e) (env_ipc_dstva e)
    (env_ipc_value e) (env_ipc_from e) (env_ipc_perm e).
Definition with_link (l : option Z) : Env :=
  mkEnv (env_tf e) l (env_id e) (env_parent_id e) (env_type e) (env_status e) (env_runs e)
    (env_cpunum e) (env_pgdir e) (env_pgfault_upcall e) (env_ipc_recving e) (env_ipc_dstva e)
    (env_ipc_value e) (env_ipc_from e) (env_ipc_perm e).
Definition with_ids (id parent type : Z) : Env :=
  mkEnv (env_tf e) (env_link e) id parent type (env_status e) (env_runs e)
    (env_cpunum e) (env_pgdir e) (env_pgfault_upcall e) (env_ipc_recving e) (env_ipc_dstva e)
    (env_ipc_value e) (env_ipc_from e) (env_ipc_perm e).
Definition with_status (st : Z) : Env :=
  mkEnv (env_tf e) (env_link e) (env_id e) (env_parent_id e) (env_type e) st (env_runs e)
    (env_cpunum e) (env_pgdir e) (env_pgfault_upcall e) (env_ipc_recving e) (env_ipc_dstva e)
    (env_ipc_value e) (env_ipc_from e) (env_ipc_perm e).
Definition with_runs (r : Z) : Env :=
  mkEnv (env_tf e) (env_link e) (env_id e) (env_parent_id e) (env_type e) (env_status e) r
    (env_cpunum e) (env_pgdir e) (env_pgfault_upcall e) (env_ipc_recving e) (env_ipc_dstva e)
    (env_ipc_value e) (env_ipc_from e) (env_ipc_perm e).
Definition with_cpunum (c : Z) : Env :=
  mkEnv (env_tf e) (env_link e) (env_id e) (env_parent_id e) (env_type e) (env_status e)
    (env_runs e) c (env_pgdir e) (env_pgfault_upcall e) (env_ipc_recving e) (env_ipc_dstva e)
    (env_ipc_value e) (env_ipc_from e) (env_ipc_perm e).
Definition with_pgdir (p : Z) : Env :=
  mkEnv (env_tf e) (env_link e) (env_id e) (env_parent_id e) (env_type e) (env_status e)
    (env_runs e) (env_cpunum e) p (env_pgfault_upcall e) (env_ipc_recving e) (env_ipc_dstva e)
    (env_ipc_value e) (env_ipc_from e) (env_ipc_perm e).
Definition with_upcall (f : Z) : Env :=
  mkEnv (env_tf e) (env_link e) (env_id e) (env_parent_id e) (env_type e) (env_status e)
    (env_runs e) (env_cpunum e) (env_pgdir e) f (env_ipc_recving e) (env_ipc_dstva e)
    (env_ipc_value e) (env_ipc_from e) (env_ipc_perm e).
Definition with_ipc (recving : bool) (dstva value from perm : Z) : Env :=
  mkEnv (env_tf e) (env_link e) (env_id e) (env_parent_id e) (env_type e) (env_status e)
    (env_runs e) (env_cpunum e) (env_pgdir e) (env_pgfault_upcall e) recving dstva value from perm.
End setters.

(** ** kern/cpu.h and kern/spinlock.h *)

Definition CPU_UNUSED := 0.
Definition CPU_STARTED := 1.
Definition CPU_HALTED := 2.

(** [cpu_cr3] is the register, not a field of the C structure. *)
Record CpuInfo := mkCpu {
  cpu_status : Z;
  cpu_env : option Z;
  cpu_cr3 : Z;
}.

(** [pcs] is debugging output only and is not modelled; [lk_cpu] is the CPU
    that [lk->cpu] points to. *)
Record spinlock := mkLock { locked : bool; lk_cpu : option Z }.

(** Instructions that load segment and descriptor-table registers. *)
Inductive seginsn :=
| Lgdt                          (** [lgdt(&gdt_pd)] *)
| MovGs (sel : Z) | MovFs (sel : Z) | MovEs (sel : Z) | MovDs (sel : Z) | MovSs (sel : Z)
| LjmpCs (sel : Z)
| Lldt (sel : Z).

(** Console output ([cprintf] with its format, its integer and its string
    arguments), interrupt controller commands and segment loads. *)
Inductive kev :=
| Cprintf (fmt : string) (args : list Z)
| CprintfS (fmt : string) (args : list Z) (strs : list string)
| LapicEoi
| Segment (i : seginsn).

Record kst := mkK {
  k_mm : mm;
  envs : Z → Env;
  env_free_list : option Z;
  cpus : Z → CpuInfo;
  kernel_lock : spinlock;
  k_log : list kev;            (** most recent first *)
}.

Definition set_mm m k := mkK m (envs k) (env_free_list k) (cpus k) (kernel_lock k) (k_log k).
Definition set_envs g k := mkK (k_mm k) g (env_free_list k) (cpus k) (kernel_lock k) (k_log k).
Definition set_env_free l k := mkK (k_mm k) (envs k) l (cpus k) (kernel_lock k) (k_log k).
Definition set_cpus c k := mkK (k_mm k) (envs k) (env_free_list k) c (kernel_lock k) (k_log k).
Definition set_lock l k := mkK (k_mm k) (envs k) (env_free_list k) (cpus k) l (k_log k).
Definition log_ev v k :=
  mkK (k_mm k) (envs k) (env_free_list k) (cpus k) (kernel_lock k) (v :: k_log k).

Abbreviation K := (M kst).

(** [envs[e] = f(envs[e])] *)
Definition upd_env (e : Z) (f : Env → Env) (k : kst) : kst :=
  set_envs (<[e := f (envs k e)]> (envs k)) k.

(** A computation of the memory manager inside the kernel. *)
Definition liftM {A} (m : MM A) : K A := λ k,
  let '(r, s) := m (k_mm k) in (r, set_mm s k).

Definition cprintf (fmt : string) (args : list Z) : K () := modify (log_ev (Cprintf fmt args)).
Definition cprintfS (fmt : string) (args : list Z) (strs : list string) : K () :=
  modify (log_ev (CprintfS fmt args strs)).
Definition get_env (e : Z) : K Env := gets (λ k, envs k e).

Section cpu.
(** [cpunum()]: the local APIC identifier of the CPU that executes. *)
Context (cpunum : Z).

Definition curenv : K (option Z) := gets (λ k, cpu_env (cpus k cpunum)).
Definition set_curenv (e : option Z) : K () :=
  modify (λ k, let c := cpus k cpunum in
               set_cpus (<[cpunum := mkCpu (cpu_status c) e (cpu_cr3 c)]> (cpus k)) k).
(** [curenv->...]: [curenv] must not be [NULL]. *)
Definition curenv' : K Z :=
  c ← curenv; match c with Some e => mret e | None => undef "NULL curenv" end.

(** [xchg(&thiscpu->cpu_status, st)] *)
Definition xchg_cpu_status (st : Z) : K Z :=
  old ← gets (λ k, cpu_status (cpus k cpunum));
  modify (λ k, let c := cpus k cpunum in
               set_cpus (<[cpunum := mkCpu st (cpu_env c) (cpu_cr3 c)]> (cpus k)) k) ;;
  mret old.

(** The directory of [curenv], as page-table code sees it. *)
Definition cur_pgdir (k : kst) : option Z :=
  option_map (λ e, env_pgdir (envs k e)) (cpu_env (cpus k cpunum)).
Definition liftP {A} (m : option Z → MM A) : K A :=
  cur ← gets cur_pgdir; liftM (m cur).

Definition lcr3 (pa : Z) : K () :=
  liftM (modify (emit_mm (Lcr3 pa))) ;;
  modify (λ k, let c := cpus k cpunum in
               set_cpus (<[cpunum := mkCpu (cpu_status c) (cpu_env c) pa]> (cpus k)) k).

(** [spin_lock] and [spin_unlock] of the big kernel lock as atomic steps;
    kern/spinlock.c is modelled instruction by instruction in Spinlock. *)
Definition lock_kernel : K () :=
  lk ← gets kernel_lock;
  if locked lk then
    if bool_decide (lk_cpu lk = Some cpunum) then panic "CPU cannot acquire: already holding"
    else stopM SSpin
  else modify (set_lock (mkLock true (Some cpunum))).
Definition unlock_kernel : K () :=
  lk ← gets kernel_lock;
  if locked lk && bool_decide (lk_cpu lk = Some cpunum)
  then modify (set_lock (mkLock false None))
  else panic "spin_unlock".
End cpu.
