(* ===== verification/MpConfig.v ===== *)
(** * kern/mpconfig.c: finding the CPUs

    The BIOS leaves a floating pointer and a configuration table in memory (Intel
    MultiProcessor Specification); [mp_init] finds them, checks signatures and
    checksums, and counts the processors into [cpus].  Pointers are physical
    addresses; [KADDR] is the check that the page exists.  A processor entry
    beyond [NCPU] that is the boot processor makes [bootcpu] point past the
    array. *)
From S2P Require Import Prelude Monad Word Layout Mem PageAlloc KState.

(** ** Layout of the tables *)

(** [struct mp] *)
Definition sizeof_mp := 16.
Definition mp_physaddr (m : mem) (mp : Z) : Z := load32 m (mp + 4).
Definition mp_type (m : mem) (mp : Z) : Z := load8 m (mp + 11).
Definition mp_imcrp (m : mem) (mp : Z) : Z := load8 m (mp + 12).

(** [struct mpconf] *)
Definition mpconf_length (m : mem) (conf : Z) : Z := load16 m (conf + 4).
Definition mpconf_version (m : mem) (conf : Z) : Z := load8 m (conf + 6).
Definition mpconf_entry (m : mem) (conf : Z) : Z := load16 m (conf + 34).
Definition mpconf_lapicaddr (m : mem) (conf : Z) : Z := load32 m (conf + 36).
Definition mpconf_xlength (m : mem) (conf : Z) : Z := load16 m (conf + 40).
Definition mpconf_xchecksum (m : mem) (conf : Z) : Z := load8 m (conf + 42).
Definition mpconf_entries (conf : Z) : Z := conf + 44.

(** [struct mpproc] *)
Definition sizeof_mpproc := 20.
Definition mpproc_apicid (m : mem) (p : Z) : Z := load8 m (p + 1).
Definition mpproc_flags (m : mem) (p : Z) : Z := load8 m (p + 3).

Definition MPPROC_BOOT := 0x02.
Definition MPPROC := 0x00.
Definition MPBUS := 0x01.
Definition MPIOAPIC := 0x02.
Definition MPIOINTR := 0x03.
Definition MPLINTR := 0x04.

(** ** State *)

(** The globals, and what is sent to the console and to the ports. *)
Inductive mpev := MpPrint (fmt : string) (args : list Z) | MpImcr.

Record mpst := mkMp {
  ismp : Z;
  ncpu : Z;
  bootcpu : Z;               (** index in [cpus] *)
  lapicaddr : Z;
  cpu_ids : Z → Z;           (** [cpus[i].cpu_id], [cpus[i].cpu_status] *)
  cpu_stat : Z → Z;
  mp_out : list mpev;        (** most recent first *)
}.

Definition set_ismp v s := mkMp v (ncpu s) (bootcpu s) (lapicaddr s) (cpu_ids s) (cpu_stat s) (mp_out s).
Definition set_ncpu v s := mkMp (ismp s) v (bootcpu s) (lapicaddr s) (cpu_ids s) (cpu_stat s) (mp_out s).
Definition set_bootcpu v s := mkMp (ismp s) (ncpu s) v (lapicaddr s) (cpu_ids s) (cpu_stat s) (mp_out s).
Definition set_lapicaddr v s := mkMp (ismp s) (ncpu s) (bootcpu s) v (cpu_ids s) (cpu_stat s) (mp_out s).
Definition set_cpu_ids v s := mkMp (ismp s) (ncpu s) (bootcpu s) (lapicaddr s) v (cpu_stat s) (mp_out s).
Definition set_cpu_stat v s := mkMp (ismp s) (ncpu s) (bootcpu s) (lapicaddr s) (cpu_ids s) v (mp_out s).
Definition mp_emit v s := mkMp (ismp s) (ncpu s) (bootcpu s) (lapicaddr s) (cpu_ids s) (cpu_stat s) (v :: mp_out s).

Abbreviation MP A := (M mpst A) (only parsing).

Section mp.
(** Physical memory, and the number of its pages. *)
Context (m : mem) (npages : Z).

Definition mp_print (fmt : string) (args : list Z) : MP () := modify (mp_emit (MpPrint fmt args)).

(** [KADDR]: the argument, if its page exists. *)
Definition mp_kaddr (pa : Z) : MP Z :=
  if npages <=? PGNUM pa then panic "KADDR called with invalid pa" else mret pa.

(** ** Searching *)

(** [sum(addr, len)]; the [int] cannot overflow for a 16-bit length. *)
Fixpoint sum_bytes (addr : Z) (len : nat) : Z :=
  match len with O => 0 | S len => load8 m addr + sum_bytes (addr + 1) len end.
Definition sum (addr len : Z) : Z := u8 (sum_bytes addr (Z.to_nat len)).

(** [memcmp(p, lit, 4) == 0] *)
Fixpoint bytes_are (p : Z) (lit : list Z) : bool :=
  match lit with [] => true | c :: lit => (load8 m p =? c) && bytes_are (p + 1) lit end.

Definition is_mp (mp : Z) : bool := bytes_are mp [95; 77; 80; 95] && (sum mp sizeof_mp =? 0).

(** [for (; mp < end; mp++)] *)
Fixpoint mpsearch_loop (n : nat) (mp : Z) : option Z :=
  match n with
  | O => None
  | S n => if is_mp mp then Some mp else mpsearch_loop n (mp + sizeof_mp)
  end.

Definition mpsearch1 (a len : Z) : MP (option Z) :=
  mp ← mp_kaddr a;
  end_ ← mp_kaddr (u32 (a + len));
  mret (mpsearch_loop (Z.to_nat ((end_ - mp + sizeof_mp - 1) / sizeof_mp)) mp).

Definition mpsearch : MP (option Z) :=
  bda ← mp_kaddr (Z.shiftl 0x40 4);
  let p := load16 m (bda + 0x0E) in
  if negb (p =? 0) then
    mp ← mpsearch1 (Z.shiftl p 4) 1024;
    match mp with Some mp => mret (Some mp) | None => mpsearch1 0xF0000 0x10000 end
  else
    let p := load16 m (bda + 0x13) * 1024 in
    mp ← mpsearch1 (u32 (p - 1024)) 1024;
    match mp with Some mp => mret (Some mp) | None => mpsearch1 0xF0000 0x10000 end.

(** The pointer and the table, if both are good. *)
Definition mpconfig : MP (option (Z * Z)) :=
  mp ← mpsearch;
  match mp with
  | None => mret None
  | Some mp =>
      if (mp_physaddr m mp =? 0) || negb (mp_type m mp =? 0) then
        mp_print "SMP: Default configurations not implemented\n" [] ;; mret None
      else
        conf ← mp_kaddr (mp_physaddr m mp);
        if negb (bytes_are conf [80; 67; 77; 80]) then
          mp_print "SMP: Incorrect MP configuration table signature\n" [] ;; mret None
        else if negb (sum conf (mpconf_length m conf) =? 0) then
          mp_print "SMP: Bad MP configuration checksum\n" [] ;; mret None
        else if negb (mpconf_version m conf =? 1) && negb (mpconf_version m conf =? 4) then
          mp_print "SMP: Unsupported MP version %d\n" [mpconf_version m conf] ;; mret None
        else if negb (Z.land (sum (conf + mpconf_length m conf) (mpconf_xlength m conf) + mpconf_xchecksum m conf) 0xff =? 0) then
          mp_print "SMP: Bad MP configuration extended checksum\n" [] ;; mret None
        else mret (Some (mp, conf))
  end.

(** ** mp_init *)

(** The [for] loop, for [n] entries from [p]. *)
Fixpoint mp_entries (n : nat) (p : Z) : MP () :=
  match n with
  | O => mret tt
  | S n =>
      let type := load8 m p in
      if type =? MPPROC then
        (if flag (mpproc_flags m p) MPPROC_BOOT then modify (λ s, set_bootcpu (ncpu s) s) else mret tt) ;;
        k ← gets ncpu;
        (if k <? NCPU then
           modify (λ s, set_cpu_ids (<[k := u8 k]> (cpu_ids s)) s) ;;
           modify (λ s, set_ncpu (ncpu s + 1) s)
         else mp_print "SMP: too many CPUs, CPU %d disabled\n" [mpproc_apicid m p]) ;;
        mp_entries n (p + sizeof_mpproc)
      else if (type =? MPBUS) || (type =? MPIOAPIC) || (type =? MPIOINTR) || (type =? MPLINTR) then
        mp_entries n (p + 8)
      else
        mp_print "mpinit: unknown config type %x\n" [type] ;;
        modify (set_ismp 0)
  end.

(** [bootcpu->cpu_status = CPU_STARTED] *)
Definition start_bootcpu : MP () :=
  b ← gets bootcpu;
  if b <? NCPU then modify (λ s, set_cpu_stat (<[b := CPU_STARTED]> (cpu_stat s)) s)
  else undef "bootcpu: past the end of cpus".

Definition mp_init : MP () :=
  modify (set_bootcpu 0) ;;
  c ← mpconfig;
  match c with
  | None => mret tt
  | Some (mp, conf) =>
      modify (set_ismp 1) ;;
      modify (set_lapicaddr (mpconf_lapicaddr m conf)) ;;
      mp_entries (Z.to_nat (mpconf_entry m conf)) (mpconf_entries conf) ;;
      start_bootcpu ;;
      s ← gets id;
      if ismp s =? 0 then
        modify (set_ncpu 1) ;;
        modify (set_lapicaddr 0) ;;
        mp_print "SMP: configuration not found, SMP disabled\n" []
      else
        mp_print "SMP: CPU %d found %d CPU(s)\n" [cpu_ids s (bootcpu s); ncpu s] ;;
        if negb (mp_imcrp m mp =? 0) then
          mp_print "SMP: Setting IMCR to switch from PIC mode to symmetric I/O mode\n" [] ;;
          modify (mp_emit MpImcr)
        else mret tt
  end.
End mp.

(** ** The tables as data *)

Inductive mpentry := EProc (apicid flags : Z) | EOther (type : Z).

(** [es] is laid out at [p]. *)
Fixpoint table_at (m : mem) (p : Z) (es : list mpentry) : Prop :=
  match es with
  | [] => True
  | EProc a f :: es => load8 m p = MPPROC ∧ mpproc_apicid m p = a ∧ mpproc_flags m p = f ∧ table_at m (p + sizeof_mpproc) es
  | EOther t :: es => load8 m p = t ∧ MPBUS ≤ t ≤ MPLINTR ∧ table_at m (p + 8) es
  end.

(** The flags of the processors. *)
Definition procs (es : list mpentry) : list Z :=
  omap (λ en, match en with EProc _ f => Some f | EOther _ => None end) es.

(** The index that the last boot processor gets, when [k] have been seen. *)
Fixpoint boot_of (k b : Z) (ps : list Z) : Z :=
  match ps with
  | [] => b
  | f :: ps => boot_of (k + 1) (if flag f MPPROC_BOOT then Z.min k NCPU else b) ps
  end.

(** [mp] is the first floating pointer in the [n] places of 16 bytes from [a]. *)
Definition first_mp (m : mem) (a : Z) (n : nat) (mp : Z) : Prop :=
  ∃ i : nat, (i < n)%nat ∧ mp = a + 16 * Z.of_nat i ∧ is_mp m mp = true ∧
    ∀ j : nat, (j < i)%nat → is_mp m (a + 16 * Z.of_nat j) = false.
Definition no_mp (m : mem) (a : Z) (n : nat) : Prop :=
  ∀ j : nat, (j < n)%nat → is_mp m (a + 16 * Z.of_nat j) = false.

(** Where the BIOS data area says to look first: the extended BIOS data area, or the
    last KB of base memory if there is none. *)
Definition low_area (m : mem) : Z :=
  if load16 m 0x40E =? 0 then load16 m 0x413 * 1024 - 1024 else load16 m 0x40E * 16.

(** A floating pointer in one of the places [mpsearch] looks at (the KB named by the
    BIOS data area, and if there is none in it the 64 KB of BIOS ROM from 0xF0000), and a
    configuration table with the right signature, checksums and version. *)
Record bios_tables (m : mem) (npages mp conf : Z) : Prop := {
  bt_pages : 257 ≤ npages;
  bt_base : load16 m 0x40E ≠ 0 ∨ 1 ≤ load16 m 0x413 ≤ 1024;
  bt_mp : first_mp m (low_area m) 64 mp ∨ (no_mp m (low_area m) 64 ∧ first_mp m 0xF0000 4096 mp);
  bt_conf : mp_physaddr m mp = conf ∧ conf ≠ 0 ∧ mp_type m mp = 0 ∧ PGNUM conf < npages;
  bt_sig : bytes_are m conf [80; 67; 77; 80] = true;
  bt_sum : sum m conf (mpconf_length m conf) = 0;
  bt_version : mpconf_version m conf = 1 ∨ mpconf_version m conf = 4;
  bt_xsum : Z.land (sum m (conf + mpconf_length m conf) (mpconf_xlength m conf) + mpconf_xchecksum m conf) 0xff = 0;
}.

Section init.
Context (m : mem) (npages : Z).

Lemma mpsearch_loop_first n a (i : nat) : (i < n)%nat → is_mp m (a + 16 * Z.of_nat i) = true →
  (∀ j : nat, (j < i)%nat → is_mp m (a + 16 * Z.of_nat j) = false) → mpsearch_loop m n a = Some (a + 16 * Z.of_nat i).
Proof.
  revert a i. induction n as [|n IH]; intros a i Hi Ht Hf; [lia|]. cbn [mpsearch_loop]. destruct i as [|i].
  - rewrite Z.add_0_r in *. by rewrite Ht.
  - pose proof (Hf 0%nat ltac:(lia)) as H0. rewrite Z.add_0_r in H0. rewrite H0. unfold sizeof_mp.
    rewrite (IH (a + 16) i); [f_equal; lia|lia| |].
    + rewrite <- Ht. f_equal. lia.
    + intros j Hj. rewrite <- (Hf (S j) ltac:(lia)). f_equal. lia.
Qed.

Lemma mpsearch_loop_none n a : no_mp m a n → mpsearch_loop m n a = None.
Proof.
  revert a. induction n as [|n IH]; intros a Hn; [done|]. cbn [mpsearch_loop].
  pose proof (Hn 0%nat ltac:(lia)) as H0. rewrite Z.add_0_r in H0. rewrite H0. apply IH.
  intros j Hj. rewrite <- (Hn (S j) ltac:(lia)). f_equal. unfold sizeof_mp. lia.
Qed.

Lemma kaddr_low a s : 257 ≤ npages → 0 ≤ a < 257 * 4096 → mp_kaddr npages a s = (Ret a, s).
Proof. intros Hn Ha. unfold mp_kaddr. rewrite PGNUM_div, u32_small by lia. destruct (Z.leb_spec npages (a / 4096)); [lia|done]. Qed.

Lemma mpsearch1_run n a s : 257 ≤ npages → 0 ≤ a → a + 16 * Z.of_nat n < 257 * 4096 →
  mpsearch1 m npages a (16 * Z.of_nat n) s = (Ret (mpsearch_loop m n a), s).
Proof.
  intros Hn Ha Hend. unfold mpsearch1. rewrite run_bind, kaddr_low by lia. cbv beta iota. rewrite u32_small by lia.
  rewrite run_bind, kaddr_low by lia. cbv beta iota. rewrite run_ret.
  replace (Z.to_nat ((a + 16 * Z.of_nat n - a + sizeof_mp - 1) / sizeof_mp)) with n; [done|]. unfold sizeof_mp. lia.
Qed.

Lemma load16_range a : 0 ≤ load16 m a < 65536.
Proof. unfold load16. pose proof (load8_range m a). pose proof (load8_range m (a + 1)). lia. Qed.

Lemma mpsearch_run mp s : 257 ≤ npages → (load16 m 0x40E ≠ 0 ∨ 1 ≤ load16 m 0x413 ≤ 1024) →
  first_mp m (low_area m) 64 mp ∨ (no_mp m (low_area m) 64 ∧ first_mp m 0xF0000 4096 mp) →
  mpsearch m npages s = (Ret (Some mp), s).
Proof.
  intros Hn Hb Hmp. pose proof (load16_range 0x40E) as Hr. pose proof (load16_range 0x413) as Hr2.
  assert (0 ≤ low_area m ∧ low_area m + 1024 < 257 * 4096) as Hlow.
  { unfold low_area. destruct (Z.eqb_spec (load16 m 0x40E) 0); lia. }
  assert (mpsearch m npages s = (mp ← mpsearch1 m npages (low_area m) 1024;
    match mp with Some mp => mret (Some mp) | None => mpsearch1 m npages 0xF0000 0x10000 end) s) as ->.
  { unfold mpsearch. change (Z.shiftl 64 4) with 0x400. rewrite run_bind, kaddr_low by lia. cbv beta iota.
    change (0x400 + 0x0E) with 0x40E. change (0x400 + 0x13) with 0x413. unfold low_area.
    destruct (Z.eqb_spec (load16 m 0x40E) 0) as [E0|_]; cbn [negb].
    - cbv zeta. rewrite u32_small by lia. reflexivity.
    - by rewrite Z.shiftl_mul_pow2 by lia. }
  rewrite run_bind. change 1024 with (16 * Z.of_nat 64) at 1. rewrite mpsearch1_run by lia.
  destruct Hmp as [(i & Hi & -> & Ht & Hf)|[Hno (i & Hi & -> & Ht & Hf)]].
  - by rewrite (mpsearch_loop_first 64 _ i Hi Ht Hf).
  - rewrite (mpsearch_loop_none 64 _ Hno). change 0x10000 with (16 * Z.of_nat 4096). rewrite mpsearch1_run by lia.
    by rewrite (mpsearch_loop_first 4096 _ i Hi Ht Hf).
Qed.

Lemma mpconfig_run mp conf s : bios_tables m npages mp conf → mpconfig m npages s = (Ret (Some (mp, conf)), s).
Proof.
  intros [Hn Hb Hmp (Ec & Hc0 & Hty & Hcp) Hsig Hsum Hver Hx]. pose proof (mpsearch_run mp s Hn Hb Hmp) as Es.
  unfold mpconfig. rewrite run_bind, Es. cbv beta iota. rewrite Ec, Hty, (proj2 (Z.eqb_neq _ _) Hc0). cbn [orb negb Z.eqb].
  rewrite run_bind. unfold mp_kaddr. destruct (Z.leb_spec npages (PGNUM conf)); [lia|]. rewrite run_ret, Hsig, Hsum, Hx.
  cbn [negb Z.eqb]. by destruct Hver as [-> | ->].
Qed.

(** What the entries add to a state in which [k] processors have been seen. *)
Record counted (k : Z) (ps : list Z) (s s' : mpst) : Prop := {
  ct_ncpu : ncpu s' = Z.min (k + Z.of_nat (length ps)) NCPU;
  ct_boot : bootcpu s' = boot_of k (bootcpu s) ps;
  ct_ids : ∀ i, 0 ≤ i < ncpu s' → cpu_ids s' i = i;
  ct_rest : ismp s' = ismp s ∧ lapicaddr s' = lapicaddr s ∧ cpu_stat s' = cpu_stat s;
}.

Lemma mp_entries_run es p k s : 0 ≤ k → ncpu s = Z.min k NCPU → (∀ i, 0 ≤ i < ncpu s → cpu_ids s i = i) →
  table_at m p es → ∃ s', mp_entries m (length es) p s = (Ret tt, s') ∧ counted k (procs es) s s'.
Proof.
  revert p k s. induction es as [|[a f|t] es IH]; intros p k s Hk Hn Hid Ht.
  - exists s. split; [done|]. split; [cbn [procs length omap list_omap]; rewrite Hn; f_equal; simpl; lia|done|exact Hid|done].
  - destruct Ht as (E0 & Ea & Ef & Ht). cbn [mp_entries length]. rewrite E0, Ef. change (MPPROC =? MPPROC) with true. cbv iota zeta.
    set (s1 := if flag f MPPROC_BOOT then set_bootcpu (ncpu s) s else s).
    set (s2 := if k <? NCPU then set_ncpu (ncpu s1 + 1) (set_cpu_ids (<[k := u8 k]> (cpu_ids s1)) s1)
               else mp_emit (MpPrint "SMP: too many CPUs, CPU %d disabled\n" [a]) s1).
    assert (ncpu s1 = Z.min k NCPU ∧ cpu_ids s1 = cpu_ids s) as [Hn1 Hi1] by (unfold s1; by destruct (flag f MPPROC_BOOT)).
    change NCPU with 8 in *.
    destruct (IH (p + sizeof_mpproc) (k + 1) s2) as (s' & E & [C1 C2 C3 C4]); [lia| | |exact Ht|].
    + unfold s2. destruct (Z.ltb_spec k 8); simpl; lia.
    + intros i. unfold s2. destruct (Z.ltb_spec k 8); simpl; intros Hi.
      * rewrite upd_case, Hi1. case_decide as Hd; [subst; unfold u8; lia|]. apply Hid. lia.
      * rewrite Hi1. apply Hid. lia.
    + exists s'. split.
      { rewrite run_bind. replace ((if flag f MPPROC_BOOT then modify (λ s, set_bootcpu (ncpu s) s) else mret tt) s) with (Ret tt : result (), s1)
          by (unfold s1; by destruct (flag f MPPROC_BOOT)).
        cbv beta iota. rewrite run_bind, run_gets, Hn1, run_bind. replace (Z.min k 8 <? 8) with (k <? 8) by (destruct (Z.ltb_spec k 8), (Z.ltb_spec (Z.min k 8) 8); lia || done).
        unfold s2 in E. destruct (Z.ltb_spec k 8) as [Hlt|].
        - rewrite run_bind, run_modify, run_modify. replace (Z.min k 8) with k by lia. exact E.
        - unfold mp_print. rewrite run_modify, Ea. exact E. }
      change (procs (EProc a f :: es)) with (f :: procs es). split.
      * rewrite C1. cbn [length]. f_equal. lia.
      * rewrite C2. cbn [boot_of]. f_equal. unfold s2, s1. destruct (k <? 8), (flag f MPPROC_BOOT); simpl; try done; lia.
      * exact C3.
      * destruct C4 as (-> & -> & ->). unfold s2, s1. by destruct (k <? 8), (flag f MPPROC_BOOT).
  - destruct Ht as (E0 & Hr & Ht). cbn [mp_entries length]. rewrite E0.
    destruct (IH (p + 8) k s Hk Hn Hid Ht) as (s' & E & C). exists s'. split; [|exact C].
    unfold MPPROC, MPBUS, MPIOAPIC, MPIOINTR, MPLINTR in *. rewrite <- E.
    assert (t = 1 ∨ t = 2 ∨ t = 3 ∨ t = 4) as [->|[->|[->| ->]]] by lia; reflexivity.
Qed.

End init.

Lemma boot_of_range ps k b : 0 ≤ k → 0 ≤ b → (b < Z.min k NCPU ∨ k = 0 ∧ b = 0) →
  let b' := boot_of k b ps in 0 ≤ b' ≤ NCPU ∧ (ps ≠ [] ∨ 0 < k → b' < NCPU → b' < Z.min (k + Z.of_nat (length ps)) NCPU).
Proof.
  unfold NCPU. revert k b. induction ps as [|f ps IH]; intros k b Hk Hb0 Hb; cbn [boot_of length].
  - split; [lia|]. intros [Hx|Hx]; [done|lia].
  - assert (∀ b, 0 ≤ b ≤ 8 → (b = 8 ∨ b < Z.min (k + 1) 8) →
      let b' := boot_of (k + 1) b ps in 0 ≤ b' ≤ 8 ∧ (b' < 8 → b' < Z.min (k + 1 + Z.of_nat (length ps)) 8)) as Hgen.
    { clear IH Hb Hb0 b. assert (0 ≤ k + 1) as Hk1 by lia. revert Hk1. generalize (k + 1). clear Hk k.
      induction ps as [|g ps IH]; intros k Hk b Hb Hc; cbn [boot_of length]; [lia|].
      destruct (IH (k + 1) ltac:(lia) (if flag g MPPROC_BOOT then Z.min k 8 else b)) as [H1 H2].
      - destruct (flag g MPPROC_BOOT); lia.
      - destruct (flag g MPPROC_BOOT); lia.
      - change NCPU with 8. split; [exact H1|]. intros Hlt. specialize (H2 Hlt). lia. }
    destruct (Hgen (if flag f MPPROC_BOOT then Z.min k 8 else b)) as [H1 H2].
    + destruct (flag f MPPROC_BOOT); lia.
    + destruct (flag f MPPROC_BOOT); lia.
    + change NCPU with 8. split; [exact H1|]. intros _ Hlt. specialize (H2 Hlt). lia.
Qed.


(** C26: [mp_init] with good BIOS tables ([bios_tables]): it finds the floating
    pointer, be it in the extended BIOS data area, in the last KB of base memory or in
    the BIOS ROM from 0xF0000 (the comment in mpconfig.c says from 0xE0000), accepts
    the table, and reads all entries, whatever their order.  [ncpu] is the
    number of processors, at most [NCPU]; [cpus[i].cpu_id] is [i]; the local APIC's
    address is that of the table; [bootcpu] is the last processor marked as boot
    processor, which is started.  When that one comes after [NCPU] others,
    [bootcpu] points past the end of [cpus], and the store to its status is
    undefined. *)
Theorem mp_init_correct m npages mp conf es s :
  bios_tables m npages mp conf → table_at m (mpconf_entries conf) es → mpconf_entry m conf = Z.of_nat (length es) →
  ncpu s = 0 →
  let n := Z.of_nat (length (procs es)) in
  let b := boot_of 0 0 (procs es) in
  ∃ s', (if b <? NCPU then
           mp_init m npages s = (Ret tt, s') ∧ ismp s' = 1 ∧ ncpu s' = Z.min n NCPU ∧ bootcpu s' = b ∧
           (0 < n → b < ncpu s') ∧ lapicaddr s' = mpconf_lapicaddr m conf ∧
           (∀ i, 0 ≤ i < ncpu s' → cpu_ids s' i = i) ∧ cpu_stat s' = <[b := CPU_STARTED]> (cpu_stat s)
         else
           mp_init m npages s = (Stop (SUndef "bootcpu: past the end of cpus"), s') ∧ NCPU < n).
Proof.
  intros Hb Ht He Hn n b. unfold mp_init. rewrite run_bind, run_modify.
  rewrite run_bind, (mpconfig_run m npages mp conf _ Hb). cbv beta iota. rewrite run_bind, run_modify, run_bind, run_modify.
  rewrite He, Nat2Z.id, run_bind.
  match goal with |- context [mp_entries _ _ _ ?k] => set (s0 := k) end.
  destruct (mp_entries_run m es (mpconf_entries conf) 0 s0) as (s1 & -> & [C1 C2 C3 (C4 & C5 & C6)]);
    [lia|exact Hn|cbn; rewrite Hn; lia|exact Ht|].
  cbv beta iota. change (bootcpu s0) with 0 in C2. fold b in C2. rewrite Z.add_0_l in C1. fold n in C1.
  destruct (boot_of_range (procs es) 0 0 ltac:(lia) ltac:(lia) ltac:(by right)) as [Hr Hlt]. fold b in Hr, Hlt.
  rewrite run_bind. unfold start_bootcpu. rewrite run_bind, run_gets, C2.
  destruct (Z.ltb_spec b NCPU) as [Hb8|Hb8].
  - rewrite run_modify, run_bind, run_gets. unfold id. cbn [ismp set_cpu_stat]. rewrite C4. change (ismp s0 =? 0) with false. cbv iota.
    rewrite run_bind. unfold mp_print at 1. rewrite run_modify.
    assert (0 < n → b < ncpu s1) as Hbn.
    { intros H0. rewrite C1. apply Hlt; [|exact Hb8]. left. intros E. unfold n in H0. rewrite E in H0. simpl in H0. lia. }
    destruct (negb (mp_imcrp m mp =? 0)); eexists; (split; [reflexivity|]); cbn -[Z.min];
      (split; [exact C4|split; [exact C1|split; [exact C2|split; [exact Hbn|split; [exact C5|split; [exact C3|by rewrite C6]]]]]]).
  - eexists. split; [reflexivity|]. clear C2.
    assert (∀ ps k b0, 0 ≤ k → b0 < NCPU → NCPU ≤ boot_of k b0 ps → NCPU < k + Z.of_nat (length ps)) as Hlate.
    { unfold NCPU. clear. intros ps. induction ps as [|f ps IH]; intros k b0 Hk H0 H1; cbn [boot_of length] in *; [lia|].
      change NCPU with 8 in *. destruct (flag f MPPROC_BOOT); [|specialize (IH (k + 1) b0 ltac:(lia) H0 H1); lia].
      destruct (Z.ltb_spec k 8) as [Hk8|Hk8]; [|lia].
      specialize (IH (k + 1) (Z.min k 8) ltac:(lia) ltac:(lia) H1). lia. }
    exact (Hlate (procs es) 0 0 ltac:(lia) ltac:(unfold NCPU; lia) Hb8).
Qed.

(** A BIOS with two processors and a bus between them in the table: the extended
    BIOS data area at 0x9FC00, the table at 0xF1000. *)
Definition demo_mp : list Z := [95; 77; 80; 95; 0; 16; 15; 0; 1; 4; 129; 0; 0; 0; 0; 0].
Definition demo_conf : list Z :=
  [80; 67; 77; 80; 92; 0; 4; 34; 0; 0; 0; 0; 0; 0; 0; 0; 0; 0; 0; 0; 0; 0; 0; 0; 0; 0; 0; 0; 0; 0; 0; 0; 0; 0; 3; 0; 0; 0; 224; 254; 0; 0; 0; 0;
   0; 0; 20; 3; 0; 0; 0; 0; 0; 0; 0; 0; 0; 0; 0; 0; 0; 0; 0; 0; 1; 2; 73; 83; 65; 32; 32; 32; 0; 1; 20; 1; 0; 0; 0; 0; 0; 0; 0; 0; 0; 0; 0; 0; 0; 0; 0; 0].
Definition demo_bios : mem := λ a,
  if a =? 0x40E then 0xC0 else if a =? 0x40F then 0x9F
  else if (0x9FC00 <=? a) && (a <? 0x9FC10) then nth (Z.to_nat (a - 0x9FC00)) demo_mp 0
  else if (0xF1000 <=? a) && (a <? 0xF1000 + 92) then nth (Z.to_nat (a - 0xF1000)) demo_conf 0
  else 0.
Definition demo_mpst : mpst := mkMp 0 0 0 0 (λ _, 0) (λ _, 0) [].

(** The same table on a machine without that area: 640 KB of base memory with no
    pointer in the last one, and the pointer second in the ROM. *)
Definition rom_bios : mem := λ a,
  if a =? 0x413 then 0x80 else if a =? 0x414 then 2
  else if (0xF0010 <=? a) && (a <? 0xF0020) then nth (Z.to_nat (a - 0xF0010)) demo_mp 0
  else if (0xF1000 <=? a) && (a <? 0xF1000 + 92) then nth (Z.to_nat (a - 0xF1000)) demo_conf 0
  else 0.

Lemma rom_bios_low : no_mp rom_bios (low_area rom_bios) 64.
Proof.
  intros j Hj. apply not_true_iff_false. intros E. apply andb_true_iff in E as [E _].
  apply andb_true_iff in E as [E _]. apply Z.eqb_eq in E. revert E.
  change (low_area rom_bios) with 0x9FC00. unfold rom_bios, load8.
  set (a := 0x9FC00 + 16 * Z.of_nat j). assert (0x9FC00 <= a < 0xA0000) as Ha by lia. clearbody a.
  destruct (Z.eqb_spec a 0x413); [lia|]. destruct (Z.eqb_spec a 0x414); [lia|].
  destruct (Z.leb_spec 0xF0010 a); [lia|]. destruct (Z.leb_spec 0xF1000 a); [lia|]. discriminate.
Qed.

Lemma mp_init_correct_witness :
  (∃ s', mp_init demo_bios 1024 demo_mpst = (Ret tt, s') ∧ ncpu s' = 2 ∧ bootcpu s' = 0 ∧ lapicaddr s' = 0xFEE00000) ∧
  (∃ s', mp_init rom_bios 1024 demo_mpst = (Ret tt, s') ∧ ncpu s' = 2 ∧ lapicaddr s' = 0xFEE00000).
Proof.
  split.
  - destruct (mp_init_correct demo_bios 1024 0x9FC00 0xF1000 [EProc 0 3; EOther MPBUS; EProc 1 1] demo_mpst)
      as (s' & E & _ & H2 & H3 & _ & H4 & _); [split| | |reflexivity|exists s'; exact (conj E (conj H2 (conj H3 H4)))].
    + lia.
    + left. by vm_compute.
    + left. exists 0%nat. split; [lia|]. split; [by vm_compute|]. split; [by vm_compute|lia].
    + by vm_compute.
    + by vm_compute.
    + by vm_compute.
    + right. by vm_compute.
    + by vm_compute.
    + cbn [table_at]. repeat split; by vm_compute.
    + by vm_compute.
  - destruct (mp_init_correct rom_bios 1024 0xF0010 0xF1000 [EProc 0 3; EOther MPBUS; EProc 1 1] demo_mpst)
      as (s' & E & _ & H2 & _ & _ & H4 & _); [split| | |reflexivity|exists s'; exact (conj E (conj H2 H4))].
    + lia.
    + right. by vm_compute.
    + right. split; [exact rom_bios_low|]. exists 1%nat. split; [lia|]. split; [by vm_compute|]. split; [by vm_compute|].
      intros j Hj. assert (j = 0%nat) as -> by lia. by vm_compute.
    + by vm_compute.
    + by vm_compute.
    + by vm_compute.
    + right. by vm_compute.
    + by vm_compute.
    + cbn [table_at]. repeat split; by vm_compute.
    + by vm_compute.
Defined.
