(* ===== verification/Lapic.v ===== *)
(** * kern/lapic.c: the local interrupt controller

    The registers of the APIC are a device: a write is recorded in [l_trace] and
    passed to it, what a read gives is its choice.  Proved: the vectors that
    [lapic_init] programs are vectors that [trap_init] has gates for, and
    [lapic_startap] sends the processor to the address it is given. *)
From S2P Require Import Prelude Monad Word Layout Mem PageAlloc PageTable Seg KState.

Class Apic (D : Type) := {
  apic_read : Z → D → Z * D;
  apic_write : Z → Z → D → D;
}.

Module LapicReg.
Definition ID := 0x0020 / 4.
Definition VER := 0x0030 / 4.
Definition TPR := 0x0080 / 4.
Definition EOI := 0x00B0 / 4.
Definition SVR := 0x00F0 / 4.
Definition ENABLE := 0x00000100.
Definition ESR := 0x0280 / 4.
Definition ICRLO := 0x0300 / 4.
Definition INIT := 0x00000500.
Definition STARTUP := 0x00000600.
Definition DELIVS := 0x00001000.
Definition ASSERT := 0x00004000.
Definition LEVEL := 0x00008000.
Definition BCAST := 0x00080000.
Definition OTHERS := 0x000C0000.
Definition FIXED := 0x00000000.
Definition ICRHI := 0x0310 / 4.
Definition TIMER := 0x0320 / 4.
Definition X1 := 0x0000000B.
Definition PERIODIC := 0x00020000.
Definition PCINT := 0x0340 / 4.
Definition LINT0 := 0x0350 / 4.
Definition LINT1 := 0x0360 / 4.
Definition ERROR := 0x0370 / 4.
Definition MASKED := 0x00010000.
Definition TICR := 0x0380 / 4.
Definition TDCR := 0x03E0 / 4.
End LapicReg.
Import LapicReg.

Section lapic.
Context {D : Type} `{Apic D}.

Record lst := mkL {
  l_dev : D;
  l_mm : mm;                 (** the memory manager, for [mmio_map_region] *)
  l_addr : Z;                (** [lapicaddr] *)
  l_lapic : Z;               (** [lapic], 0 for [NULL] *)
  l_trace : list (Z * Z);    (** register writes, most recent first *)
  l_ports : list (Z * Z);    (** port writes, most recent first *)
}.

Abbreviation L A := (M lst A) (only parsing).

Definition set_dev d s := mkL d (l_mm s) (l_addr s) (l_lapic s) (l_trace s) (l_ports s).
Definition set_lmm m s := mkL (l_dev s) m (l_addr s) (l_lapic s) (l_trace s) (l_ports s).
Definition set_lapic v s := mkL (l_dev s) (l_mm s) (l_addr s) v (l_trace s) (l_ports s).
Definition wrote i v s := mkL (apic_write i (u32 v) (l_dev s)) (l_mm s) (l_addr s) (l_lapic s) ((i, u32 v) :: l_trace s) (l_ports s).
Definition port_out p v s := mkL (l_dev s) (l_mm s) (l_addr s) (l_lapic s) (l_trace s) ((p, u8 v) :: l_ports s).

(** [lapic[index]] *)
Definition lapicr (index : Z) : L Z := λ s,
  if l_lapic s =? 0 then (Stop (SUndef "lapic: NULL"), s)
  else (Ret (u32 (fst (apic_read index (l_dev s)))), set_dev (snd (apic_read index (l_dev s))) s).

Definition lapicw (index value : Z) : L () :=
  l ← gets l_lapic;
  if l =? 0 then undef "lapic: NULL"
  else modify (wrote index value) ;; lapicr ID ;; mret tt.

Definition liftL {A} (f : MM A) : L A := λ s, let '(r, m) := f (l_mm s) in (r, set_lmm m s).

(** [while (lapic[ICRLO] & DELIVS);] *)
Fixpoint wait_delivs (fuel : nat) : L () :=
  match fuel with
  | O => undef "lapic: out of fuel"
  | S fuel => v ← lapicr ICRLO; if flag v DELIVS then wait_delivs fuel else mret tt
  end.

(** [is_boot]: whether [thiscpu == bootcpu]. *)
Definition lapic_init (fuel : nat) (is_boot : bool) : L () :=
  a ← gets l_addr;
  if a =? 0 then mret tt
  else
    l ← liftL (mmio_map_region a 4096);
    modify (set_lapic l) ;;
    lapicw SVR (Z.lor ENABLE (IRQ_OFFSET + IRQ_SPURIOUS)) ;;
    lapicw TDCR X1 ;;
    lapicw TIMER (Z.lor PERIODIC (IRQ_OFFSET + IRQ_TIMER)) ;;
    lapicw TICR 10000000 ;;
    (if negb is_boot then lapicw LINT0 MASKED else mret tt) ;;
    lapicw LINT1 MASKED ;;
    ver ← lapicr VER;
    (if 4 <=? Z.land (Z.shiftr ver 16) 0xFF then lapicw PCINT MASKED else mret tt) ;;
    lapicw ERROR (IRQ_OFFSET + IRQ_ERROR) ;;
    lapicw ESR 0 ;;
    lapicw ESR 0 ;;
    lapicw EOI 0 ;;
    lapicw ICRHI 0 ;;
    lapicw ICRLO (Z.lor (Z.lor BCAST INIT) LEVEL) ;;
    wait_delivs fuel ;;
    lapicw TPR 0.

Definition cpunum : L Z :=
  l ← gets l_lapic;
  if negb (l =? 0) then v ← lapicr ID; mret (Z.shiftr v 24) else mret 0.

Definition lapic_eoi : L () :=
  l ← gets l_lapic;
  if negb (l =? 0) then lapicw EOI 0 else mret tt.

Definition microdelay (us : Z) : L () := mret tt.

(** A 16-bit store through a kernel pointer. *)
Definition kstore16 (a v : Z) : MM () :=
  modify (λ s, set_phys (store8 (store8 (phys s) (a - KERNBASE) v) (a - KERNBASE + 1) (v / 256)) s).

Definition lapic_startap (apicid addr : Z) : L () :=
  modify (port_out 0x70 0xF) ;;
  modify (port_out 0x71 0x0A) ;;
  wrv ← liftL (KADDR (Z.lor (Z.shiftl 0x40 4) 0x67));
  liftL (kstore16 wrv 0) ;;
  liftL (kstore16 (wrv + 2) (u16 (Z.shiftr addr 4))) ;;
  lapicw ICRHI (Z.shiftl apicid 24) ;;
  lapicw ICRLO (Z.lor (Z.lor INIT LEVEL) ASSERT) ;;
  microdelay 200 ;;
  lapicw ICRLO (Z.lor INIT LEVEL) ;;
  microdelay 100 ;;
  forM (zrange 0 2) (λ _,
    lapicw ICRHI (Z.shiftl apicid 24) ;;
    lapicw ICRLO (Z.lor STARTUP (Z.shiftr addr 12)) ;;
    microdelay 200).

Definition lapic_ipi (fuel : nat) (vector : Z) : L () :=
  lapicw ICRLO (Z.lor (Z.lor OTHERS FIXED) vector) ;;
  wait_delivs fuel.
End lapic.
Arguments lst : clear implicits.

(** The processor that a sequence of register writes wakes, and where it begins.
    INIT makes the processor that ICRHI names wait; a STARTUP for it gives the
    page, and later ones are ignored. *)
Fixpoint woken (hi : Z) (waiting : option Z) (ws : list (Z * Z)) : option (Z * Z) :=
  match ws with
  | [] => None
  | (r, v) :: ws =>
      if r =? ICRHI then woken (Z.shiftr v 24) waiting ws
      else if r =? ICRLO then
        let mode := Z.land v 0x700 in
        if mode =? INIT then woken hi (if flag v ASSERT then Some hi else waiting) ws
        else if (mode =? STARTUP) && bool_decide (waiting = Some hi) then Some (hi, Z.land v 0xFF * 4096)
        else woken hi waiting ws
      else woken hi waiting ws
  end.

(** ** What is written *)

Section spec.
Context {D : Type} `{Apic D}.

(** Register writes [ws], in order, and nothing else but the device's state. *)
Record did (ws : list (Z * Z)) (s s' : lst D) : Prop := {
  di_trace : l_trace s' = rev ws ++ l_trace s;
  di_lapic : l_lapic s' = l_lapic s;
  di_mm : l_mm s' = l_mm s;
  di_ports : l_ports s' = l_ports s;
  di_addr : l_addr s' = l_addr s;
}.

Lemma did_app ws ws' s s1 s2 : did ws s s1 → did ws' s1 s2 → did (ws ++ ws') s s2.
Proof. intros [] []. split; [|congruence..]. rewrite rev_app_distr, <- app_assoc. congruence. Qed.

(** [m] returns, having done [ws], whenever the APIC is mapped. *)
Definition does (m : M (lst D) ()) (ws : list (Z * Z)) : Prop :=
  ∀ s, l_lapic s ≠ 0 → ∃ s', m s = (Ret tt, s') ∧ did ws s s'.

Lemma does_ret : does (mret tt) [].
Proof. intros s _. exists s. by split. Qed.
Lemma does_seq m n ws ws' : does m ws → does n ws' → does (m ;; n) (ws ++ ws').
Proof.
  intros Hm Hn s Hs. destruct (Hm s Hs) as (s1 & E1 & D1).
  destruct (Hn s1) as (s2 & E2 & D2); [by rewrite (di_lapic _ _ _ D1)|].
  exists s2. split; [by rewrite run_bind, E1|exact (did_app _ _ _ _ _ D1 D2)].
Qed.
Lemma does_then i v n ws : does n ws → does (lapicw i v ;; n) ((i, u32 v) :: ws).
Proof.
  intros Hn. apply (does_seq _ n [(i, u32 v)] ws); [|exact Hn]. intros s Hs. eexists. split.
  - unfold lapicw. rewrite run_bind, run_gets, (proj2 (Z.eqb_neq _ _) Hs), run_bind, run_modify, run_bind. unfold lapicr.
    cbn [l_lapic wrote]. rewrite (proj2 (Z.eqb_neq _ _) Hs). reflexivity.
  - by split.
Qed.
Lemma does_last i v : does (lapicw i v) [(i, u32 v)].
Proof.
  intros s Hs. destruct (does_then i v (mret tt) [] does_ret s Hs) as (s' & E & Hd). exists s'. split; [|exact Hd].
  rewrite run_bind in E. destruct (lapicw i v s) as [[[]|x] s1]; [exact E|discriminate E].
Qed.
Lemma does_if (b : bool) m ws n ws' : does m ws → does n ws' →
  does ((if b then m else mret tt) ;; n) ((if b then ws else []) ++ ws').
Proof. intros Hm Hn. apply does_seq; [|exact Hn]. destruct b; [exact Hm|exact does_ret]. Qed.

(** The delivery status clears after fewer than [n] reads. *)
Fixpoint idle_within (n : nat) (d : D) : Prop :=
  match n with
  | O => False
  | S n => flag (u32 (fst (apic_read ICRLO d))) DELIVS = false ∨ idle_within n (snd (apic_read ICRLO d))
  end.

Lemma does_wait fuel : (∀ d, idle_within fuel d) → does (wait_delivs fuel) [].
Proof.
  intros Hi s Hs. specialize (Hi (l_dev s)). revert s Hs Hi. induction fuel as [|n IH]; intros s Hs Hi; [done|].
  cbn [wait_delivs idle_within] in *. rewrite run_bind. unfold lapicr. rewrite (proj2 (Z.eqb_neq _ _) Hs).
  destruct (flag (u32 (fst (apic_read ICRLO (l_dev s)))) DELIVS).
  - destruct Hi as [|Hi]; [done|]. destruct (IH (set_dev (snd (apic_read ICRLO (l_dev s))) s) Hs Hi) as (s' & E & []).
    exists s'. split; [exact E|]. by split.
  - eexists. split; [reflexivity|]. by split.
Qed.

(** The writes of [lapic_init]; [pc]: whether there is a performance counter. *)
Definition init_writes (is_boot pc : bool) : list (Z * Z) :=
  [(SVR, Z.lor ENABLE (IRQ_OFFSET + IRQ_SPURIOUS)); (TDCR, X1); (TIMER, Z.lor PERIODIC (IRQ_OFFSET + IRQ_TIMER));
   (TICR, 10000000)] ++ (if is_boot then [] else [(LINT0, MASKED)]) ++ [(LINT1, MASKED)] ++
  (if pc then [(PCINT, MASKED)] else []) ++
  [(ERROR, IRQ_OFFSET + IRQ_ERROR); (ESR, 0); (ESR, 0); (EOI, 0); (ICRHI, 0); (ICRLO, Z.lor (Z.lor BCAST INIT) LEVEL); (TPR, 0)].

(** The registers that hold an interrupt vector. *)
Definition vector_regs : list Z := [SVR; TIMER; PCINT; LINT0; LINT1; ERROR].

Lemma init_vectors is_boot pc i v : (i, v) ∈ init_writes is_boot pc → i ∈ vector_regs →
  flag v MASKED = true ∨ ∃ h dpl, (v mod 256, h, dpl) ∈ trap_gates.
Proof.
  intros Hin Hi.
  assert (Forall (λ p : Z * Z, p.1 ∈ vector_regs → flag p.2 MASKED = true ∨
    (∃ h dpl, (p.2 mod 256, h, dpl) ∈ trap_gates)) (init_writes is_boot pc)) as HF.
  { assert (∀ n x h dpl, trap_gates !! n = Some (x, h, dpl) → ∃ h dpl, (x, h, dpl) ∈ trap_gates) as G.
    { intros n x h dpl E. exists h, dpl. exact (list_elem_of_lookup_2 _ _ _ E). }
    unfold init_writes. rewrite !Forall_app, !Forall_cons, !Forall_nil.
    assert (∀ x P, bool_decide (x ∈ vector_regs) = false → x ∈ vector_regs → P) as No
      by (intros x P E Hx; by rewrite (bool_decide_true _ Hx) in E).
    split_and!; try done; try (apply No; vm_compute; reflexivity).
    - intros _. right. by apply (G 23%nat _ irq_spurious_handler 3).
    - intros _. right. by apply (G 24%nat _ irq_timer_handler 3).
    - destruct is_boot; repeat constructor.
    - intros _. by left.
    - destruct pc; repeat constructor.
    - intros _. right. by apply (G 19%nat _ irq_error_handler 3). }
  rewrite Forall_forall in HF. exact (HF (i, v) Hin Hi).
Qed.
End spec.

(** [lapic_init] maps the registers and writes exactly [init_writes]. *)
Lemma lapic_init_run {D : Type} `{Apic D} fuel is_boot (s : lst D) l mm' :
  (∀ d, idle_within fuel d) → l_addr s ≠ 0 → mmio_map_region (l_addr s) 4096 (l_mm s) = (Ret l, mm') → l ≠ 0 →
  ∃ s' pc, lapic_init fuel is_boot s = (Ret tt, s') ∧ l_lapic s' = l ∧ l_mm s' = mm' ∧
    l_addr s' = l_addr s ∧
    l_trace s' = rev (init_writes is_boot pc) ++ l_trace s ∧
    ∀ i v, (i, v) ∈ init_writes is_boot pc → i ∈ vector_regs →
      flag v MASKED = true ∨ ∃ h dpl, (v mod 256, h, dpl) ∈ trap_gates.
Proof.
  intros Hidle Ha Hmap Hl. set (s1 := set_lapic l (set_lmm mm' s)).
  set (tail := λ pc : bool, (if pc then lapicw PCINT MASKED else mret tt) ;;
    lapicw ERROR (IRQ_OFFSET + IRQ_ERROR) ;; lapicw ESR 0 ;; lapicw ESR 0 ;; lapicw EOI 0 ;; lapicw ICRHI 0 ;;
    lapicw ICRLO (Z.lor (Z.lor BCAST INIT) LEVEL) ;; wait_delivs fuel ;; lapicw TPR 0 : M (lst D) ()).
  assert (does (lapicw SVR (Z.lor ENABLE (IRQ_OFFSET + IRQ_SPURIOUS)) ;; lapicw TDCR X1 ;;
    lapicw TIMER (Z.lor PERIODIC (IRQ_OFFSET + IRQ_TIMER)) ;; lapicw TICR 10000000 ;;
    (if negb is_boot then lapicw LINT0 MASKED else mret tt) ;; lapicw LINT1 MASKED)
    ([(SVR, Z.lor ENABLE (IRQ_OFFSET + IRQ_SPURIOUS)); (TDCR, X1); (TIMER, Z.lor PERIODIC (IRQ_OFFSET + IRQ_TIMER));
      (TICR, 10000000)] ++ (if is_boot then [] else [(LINT0, MASKED)]) ++ [(LINT1, MASKED)])) as Hhead.
  { do 4 apply does_then. replace (if is_boot then [] else [(LINT0, MASKED)]) with (if negb is_boot then [(LINT0, MASKED)] else []) by by destruct is_boot.
    apply does_if; apply does_last. }
  assert (∀ pc, does (tail pc) ((if pc then [(PCINT, MASKED)] else []) ++
    [(ERROR, IRQ_OFFSET + IRQ_ERROR); (ESR, 0); (ESR, 0); (EOI, 0); (ICRHI, 0); (ICRLO, Z.lor (Z.lor BCAST INIT) LEVEL)] ++ [] ++ [(TPR, 0)])) as Htail.
  { intros pc. apply does_if; [apply does_last|]. do 6 apply does_then. apply does_seq; [by apply does_wait|apply does_last]. }
  destruct (Hhead s1 Hl) as (s2 & E2 & D2).
  assert (l_lapic s2 ≠ 0) as Hl2 by (rewrite (di_lapic _ _ _ D2); exact Hl).
  set (pc := 4 <=? Z.land (Z.shiftr (u32 (fst (apic_read VER (l_dev s2)))) 16) 0xFF).
  destruct (Htail pc (set_dev (snd (apic_read VER (l_dev s2))) s2) Hl2) as (s3 & E3 & D3).
  exists s3, pc. split.
  { unfold lapic_init. rewrite run_bind, run_gets, (proj2 (Z.eqb_neq _ _) Ha), run_bind. unfold liftL. rewrite Hmap.
    cbv beta iota. rewrite run_bind, run_modify. fold s1.
    repeat (rewrite run_bind in E2 |- *; match goal with
      | E : match ?c with _ => _ end = _ |- match ?c with _ => _ end = _ => destruct c as [[[]|]]; [|discriminate E] end).
    rewrite run_bind, E2. cbv beta iota. rewrite run_bind. unfold lapicr at 1. rewrite (proj2 (Z.eqb_neq _ _) Hl2). cbv beta iota.
    fold pc. exact E3. }
  destruct D2 as [T2 L2 M2 _ A2], D3 as [T3 L3 M3 _ A3]. cbn [set_dev l_trace l_lapic l_mm l_addr] in *.
  split; [rewrite L3, L2; reflexivity|]. split; [rewrite M3, M2; reflexivity|]. split; [rewrite A3, A2; reflexivity|]. split.
  - rewrite T3, T2, app_assoc, <- rev_app_distr. f_equal. f_equal. unfold init_writes. by destruct is_boot, pc.
  - exact (init_vectors is_boot pc).
Qed.

(** [lapic_init] on a machine with an APIC whose inter-processor interrupts are
    delivered in bounded time: it maps the registers and writes exactly
    [init_writes] (LINT0 masked on all but the boot processor, so that only that one
    gets the 8259A's interrupts); every vector that it leaves unmasked is one for
    which [trap_init] installs a gate. *)
Theorem lapic_init_correct {D : Type} `{Apic D} fuel is_boot (s : lst D) l mm' :
  (∀ d, idle_within fuel d) → l_addr s ≠ 0 → mmio_map_region (l_addr s) 4096 (l_mm s) = (Ret l, mm') → l ≠ 0 →
  ∃ s' pc, lapic_init fuel is_boot s = (Ret tt, s') ∧ l_lapic s' = l ∧ l_mm s' = mm' ∧
    l_trace s' = rev (init_writes is_boot pc) ++ l_trace s ∧
    ∀ i v, (i, v) ∈ init_writes is_boot pc → i ∈ vector_regs →
      flag v MASKED = true ∨ ∃ h dpl, (v mod 256, h, dpl) ∈ trap_gates.
Proof.
  intros Hi Ha Hm Hl. destruct (lapic_init_run fuel is_boot s l mm' Hi Ha Hm Hl) as (s' & pc & E & El & Em & _ & Et & Hv).
  exists s', pc. exact (conj E (conj El (conj Em (conj Et Hv)))).
Qed.

(** [lapic_startap] for a page-aligned address below 1MB, which is where
    boot_aps puts the entry code: the warm reset vector names the address, the
    processor [apicid] gets INIT and twice STARTUP, and the page in the STARTUP
    command is that of the address; nothing else is written. *)
Theorem lapic_startap_correct {D : Type} `{Apic D} apicid addr (s : lst D) :
  l_lapic s ≠ 0 → 0 < npages (l_mm s) → 0 ≤ addr < 0x100000 → addr mod 4096 = 0 →
  let to := (ICRHI, u32 (Z.shiftl apicid 24)) in
  let go := (ICRLO, Z.lor STARTUP (addr / 4096)) in
  ∃ s', lapic_startap apicid addr s = (Ret tt, s') ∧
    l_trace s' = rev [to; (ICRLO, Z.lor (Z.lor INIT LEVEL) ASSERT); (ICRLO, Z.lor INIT LEVEL); to; go; to; go] ++ l_trace s ∧
    Z.land (Z.lor STARTUP (addr / 4096)) 0xFF * 4096 = addr ∧
    load16 (phys (l_mm s')) 0x469 * 16 + load16 (phys (l_mm s')) 0x467 = addr ∧
    (∀ a, ¬ (0x467 ≤ a < 0x46B) → load8 (phys (l_mm s')) a = load8 (phys (l_mm s)) a) ∧
    l_ports s' = [(0x71, 0x0A); (0x70, 0xF)] ++ l_ports s ∧
    l_mm s' = set_phys (phys (l_mm s')) (l_mm s) ∧ l_lapic s' = l_lapic s ∧ l_addr s' = l_addr s.
Proof.
  intros Hl Hn Ha Hal to go. unfold lapic_startap. rewrite run_bind, run_modify, run_bind, run_modify, run_bind.
  unfold liftL at 1. unfold KADDR. change (Z.lor (Z.shiftl 0x40 4) 0x67) with 0x467. cbn [l_mm port_out].
  rewrite run_bind, run_gets. change (PGNUM 0x467) with 0. destruct (Z.leb_spec (npages (l_mm s)) 0); [lia|]. rewrite run_ret.
  change (u32 (0x467 + KERNBASE)) with 0xF0000467. cbv beta iota.
  rewrite run_bind. unfold liftL at 1, kstore16 at 1. rewrite run_modify. cbv beta iota.
  rewrite run_bind. unfold liftL at 1, kstore16 at 1. rewrite run_modify. cbv beta iota.
  rewrite (Z.shiftr_div_pow2 addr 4) by lia. change (2 ^ 4) with 16. set (w := u16 (addr / 16)).
  assert (w = addr / 16) as Ew by (unfold w, u16; lia).
  match goal with |- context [(_ ;; _) ?k] => set (s1 := k) end.
  set (rest := lapicw ICRHI (Z.shiftl apicid 24) ;; _ : M (lst D) ()).
  assert (does rest [to; (ICRLO, Z.lor (Z.lor INIT LEVEL) ASSERT); (ICRLO, Z.lor INIT LEVEL); to; go; to; go]) as Hd.
  { assert (u32 (Z.lor STARTUP (Z.shiftr addr 12)) = Z.lor STARTUP (addr / 4096)) as Eg.
    { rewrite Z.shiftr_div_pow2 by lia. change (2 ^ 12) with 4096. apply u32_small.
      assert (∃ p, addr / 4096 = p ∧ 0 ≤ p < 256) as (p & -> & Hp) by (exists (addr / 4096); lia).
      replace (Z.lor STARTUP p) with (6 * 2 ^ 8 + p) by (symmetry; change STARTUP with (Z.shiftl 6 8); rewrite Z.shiftl_mul_pow2 by lia; apply lor_shifted_add; lia).
      lia. }
    unfold to, go. rewrite <- Eg. unfold rest, microdelay. change (zrange 0 2) with [0; 1]. cbn [forM].
    apply does_then, does_then. apply (does_seq _ _ [] _ does_ret), does_then, (does_seq _ _ [] _ does_ret).
    apply (does_seq _ _ [(ICRHI, u32 (Z.shiftl apicid 24)); (ICRLO, u32 (Z.lor STARTUP (Z.shiftr addr 12)))]).
    - apply does_then, does_then, does_ret.
    - apply (does_seq _ _ [(ICRHI, u32 (Z.shiftl apicid 24)); (ICRLO, u32 (Z.lor STARTUP (Z.shiftr addr 12)))] []); [|exact does_ret].
      apply does_then, does_then, does_ret. }
  destruct (Hd s1 Hl) as (s' & E & [T1 T2 T3 T4 T5]). exists s'. split; [exact E|]. split; [exact T1|].
  assert (∃ p, addr = p * 4096 ∧ 0 ≤ p < 256) as (p & Ep & Hp) by (exists (addr / 4096); lia).
  replace (addr / 4096) with p by lia.
  assert (Z.land (Z.lor STARTUP p) 0xFF = p) as El.
  { change 0xFF with (Z.ones 8). rewrite Z.land_ones by lia.
    replace (Z.lor STARTUP p) with (6 * 2 ^ 8 + p) by (symmetry; change STARTUP with (Z.shiftl 6 8); rewrite Z.shiftl_mul_pow2 by lia; apply lor_shifted_add; lia).
    lia. }
  split; [rewrite El; lia|]. rewrite T3, T4.
  change (phys (l_mm s1)) with (store8 (store8 (store8 (store8 (phys (l_mm s)) 0x467 0) 0x468 (0 / 256)) 0x469 w) 0x46A (w / 256)).
  split; [|split; [|split; [reflexivity|split; [reflexivity|split; [exact T2|exact T5]]]]].
  - unfold load16. change (0x469 + 1) with 0x46A. change (0x467 + 1) with 0x468. rewrite !load8_store8.
    repeat (first [rewrite decide_True by done|rewrite decide_False by done]). rewrite Ew. unfold u8. lia.
  - intros a Hna. rewrite !load8_store8, !decide_False by lia. reflexivity.
Qed.

(** These writes wake the processor [apicid], at the address. *)
Lemma startap_woken apicid addr : 0 ≤ apicid < 256 → 0 ≤ addr < 0x100000 → addr mod 4096 = 0 →
  let to := (ICRHI, u32 (Z.shiftl apicid 24)) in
  let go := (ICRLO, Z.lor STARTUP (addr / 4096)) in
  woken 0 None [to; (ICRLO, Z.lor (Z.lor INIT LEVEL) ASSERT); (ICRLO, Z.lor INIT LEVEL); to; go; to; go] = Some (apicid, addr).
Proof.
  intros Hi Ha Hal to go.
  assert (Z.shiftr (u32 (Z.shiftl apicid 24)) 24 = apicid) as E.
  { rewrite Z.shiftl_mul_pow2 by lia. rewrite u32_small by lia. rewrite Z.shiftr_div_pow2 by lia. apply Z.div_mul. lia. }
  assert (∃ p, addr = p * 4096 ∧ 0 ≤ p < 256) as (p & -> & Hp) by (exists (addr / 4096); lia).
  assert (Z.lor STARTUP (p * 4096 / 4096) = STARTUP + p) as Eg.
  { rewrite Z.div_mul by lia. replace (STARTUP + p) with (6 * 2 ^ 8 + p) by (change STARTUP with (6 * 2 ^ 8); lia).
    change STARTUP with (Z.shiftl 6 8). rewrite Z.shiftl_mul_pow2 by lia. apply lor_shifted_add; lia. }
  assert (Z.land (STARTUP + p) 0x700 = STARTUP ∧ Z.land (STARTUP + p) 0xFF = p) as [E1 E2].
  { rewrite <- Eg, Z.div_mul, !Z.land_lor_distr_l by lia.
    replace (Z.land p 0xFF) with p by (change 0xFF with (Z.ones 8); rewrite Z.land_ones by lia; lia).
    replace (Z.land p 0x700) with 0; [by split|]. change 0x700 with (Z.shiftl 7 8). symmetry.
    apply Z.bits_inj'. intros k Hk. rewrite Z.bits_0, Z.land_spec, Z.shiftl_spec by lia.
    destruct (Z.lt_ge_cases k 8); [by rewrite (Z.testbit_neg_r _ (k - 8)), andb_false_r by lia|].
    by rewrite (testbit_high p 8) by lia. }
  unfold to, go. rewrite Eg. cbn [woken]. rewrite !Z.eqb_refl, E.
  change (ICRLO =? ICRHI) with false. cbv iota.
  change (Z.land (Z.lor (Z.lor INIT LEVEL) ASSERT) 0x700 =? INIT) with true. change (Z.land (Z.lor INIT LEVEL) 0x700 =? INIT) with true.
  change (flag (Z.lor (Z.lor INIT LEVEL) ASSERT) ASSERT) with true. change (flag (Z.lor INIT LEVEL) ASSERT) with false. cbv iota.
  rewrite E1, E2. change (STARTUP =? INIT) with false. cbv iota. rewrite Z.eqb_refl, bool_decide_true by reflexivity. reflexivity.
Qed.

(** A device that answers 0, on a machine with a free page for a page table. *)
#[export] Instance unit_apic : Apic () := { apic_read _ _ := (0, tt); apic_write _ _ _ := tt }.
Definition apic_mm : mm :=
  mkMM 16 16 (λ _, 0) (λ _, mkPageInfo None 0) (Some 5) (kva 1) 0 MMIOBASE 0 [].
Definition apic_st : lst () := mkL tt apic_mm 0xFEE00000 0 [] [].

Lemma lapic_init_correct_witness : ∃ s' pc, lapic_init 1 true apic_st = (Ret tt, s') ∧ l_lapic s' = MMIOBASE ∧
  l_trace s' = rev (init_writes true pc).
Proof.
  assert ((mmio_map_region (l_addr apic_st) 4096 (l_mm apic_st)).1 = Ret MMIOBASE) as Em by by vm_compute.
  destruct (lapic_init_correct 1 true apic_st MMIOBASE (mmio_map_region (l_addr apic_st) 4096 (l_mm apic_st)).2)
    as (s' & pc & E & El & _ & Et & _).
  - intros d. by left.
  - discriminate.
  - rewrite <- Em. apply surjective_pairing.
  - discriminate.
  - exists s', pc. split; [exact E|]. split; [exact El|]. rewrite Et. apply app_nil_r.
Defined.

Lemma lapic_startap_correct_witness : ∃ s', lapic_startap 1 0x7000 (set_lapic MMIOBASE apic_st) = (Ret tt, s') ∧
  load16 (phys (l_mm s')) 0x469 * 16 + load16 (phys (l_mm s')) 0x467 = 0x7000.
Proof.
  destruct (lapic_startap_correct 1 0x7000 (set_lapic MMIOBASE apic_st)) as (s' & E & _ & _ & Em & _);
    [discriminate|reflexivity|lia|reflexivity|].
  exists s'. exact (conj E Em).
Defined.
