(* ===== verification/Spinlock.v ===== *)
(** * kern/spinlock.c: the spin lock, instruction by instruction

    KState takes [lock_kernel] and [unlock_kernel] as atomic.  Here the lock
    is a memory word and its debugging fields, several CPUs execute
    [spin_lock] and [spin_unlock] one memory access at a time, in any
    interleaving, and the atomic operations are what they implement. *)
From S2P Require Import Prelude Monad Word Layout Mem PageAlloc KState.

(** ** The data *)

(** [struct spinlock]; [lk_owner] is the CPU that [lk->cpu] points to. *)
Record slock := mkSlock { sl_locked : Z; sl_cpu : option Z; sl_pcs : list Z }.

(** [get_caller_pcs]: follows the saved frame pointers in [mem32]. *)
Fixpoint caller_pcs (mem32 : Z → Z) (n : nat) (ebp : Z) : list Z :=
  match n with
  | O => []
  | S n' =>
      if (ebp =? 0) || (ebp <? ULIM) then repeat 0 n
      else mem32 (ebp + 4) :: caller_pcs mem32 n' (mem32 ebp)
  end.
Definition get_caller_pcs (mem32 : Z → Z) (ebp : Z) : list Z := caller_pcs mem32 10 ebp.

Definition spin_initlock (lk : slock) : slock := mkSlock 0 None (sl_pcs lk).

(** Where a CPU is; [Idle] is outside the lock's functions and not holding
    the lock, [Critical] outside them and holding it.  [holding] reads
    [locked] and then [cpu]: the two [Test] points of its callers. *)
Inductive pc :=
| Idle
| LockTest1 | LockTest2     (** [holding(lk)] in [spin_lock] *)
| LockXchg                  (** [while (xchg(&lk->locked, 1) != 0)] *)
| LockCpu                   (** [lk->cpu = thiscpu] *)
| LockPcs                   (** [get_caller_pcs(lk->pcs)] *)
| Critical
| UnlockTest1 | UnlockTest2 (** [holding(lk)] in [spin_unlock] *)
| UnlockPcs                 (** [lk->pcs[0] = 0] *)
| UnlockCpu                 (** [lk->cpu = 0] *)
| UnlockXchg                (** [xchg(&lk->locked, 0)] *)
| Panic.
#[export] Instance pc_eq_dec : EqDecision pc.
Proof. solve_decision. Defined.

Record sys := mkSys { s_lock : slock; s_pc : Z → pc }.

(** ** One access by CPU [c]

    The lock after the access and where [c] goes; [None] when the next move is
    not the lock's (outside its functions, or after a panic). *)
Section access.
Context (mem32 : Z → Z) (ebp : Z).

Definition access (c : Z) (lk : slock) (p : pc) : option (slock * pc) :=
  match p with
  | LockTest1 => Some (lk, if sl_locked lk =? 0 then LockXchg else LockTest2)
  | LockTest2 => Some (lk, if bool_decide (sl_cpu lk = Some c) then Panic else LockXchg)
  | LockXchg =>
      Some (mkSlock 1 (sl_cpu lk) (sl_pcs lk), if sl_locked lk =? 0 then LockCpu else LockXchg)
  | LockCpu => Some (mkSlock (sl_locked lk) (Some c) (sl_pcs lk), LockPcs)
  | LockPcs => Some (mkSlock (sl_locked lk) (sl_cpu lk) (get_caller_pcs mem32 ebp), Critical)
  | UnlockTest1 => Some (lk, if sl_locked lk =? 0 then Panic else UnlockTest2)
  | UnlockTest2 => Some (lk, if bool_decide (sl_cpu lk = Some c) then UnlockPcs else Panic)
  | UnlockPcs => Some (mkSlock (sl_locked lk) (sl_cpu lk) (0 :: tail (sl_pcs lk)), UnlockCpu)
  | UnlockCpu => Some (mkSlock (sl_locked lk) None (sl_pcs lk), UnlockXchg)
  | UnlockXchg => Some (mkSlock 0 (sl_cpu lk) (sl_pcs lk), Idle)
  | Idle | Critical | Panic => None
  end.
End access.

(** A step of the system: some CPU makes an access, or calls a function of the
    lock.  [strict]: CPUs take the lock only when they do not hold it and
    release it only when they do. *)
Inductive step (strict : bool) (c : Z) : sys → sys → Prop :=
| step_access mem32 ebp lk g lk' p' :
    access mem32 ebp c lk (g c) = Some (lk', p') →
    step strict c (mkSys lk g) (mkSys lk' (<[c := p']> g))
| step_lock lk g :
    g c = Idle ∨ (g c = Critical ∧ strict = false) →
    step strict c (mkSys lk g) (mkSys lk (<[c := LockTest1]> g))
| step_unlock lk g :
    g c = Critical ∨ (g c = Idle ∧ strict = false) →
    step strict c (mkSys lk g) (mkSys lk (<[c := UnlockTest1]> g)).

(** From the initialised lock with every CPU outside it. *)
Inductive reachable (strict : bool) : sys → Prop :=
| reach_init lk : reachable strict (mkSys (spin_initlock lk) (λ _, Idle))
| reach_step s s' c : reachable strict s → step strict c s s' → reachable strict s'.

(** ** Ownership *)

(** Where a CPU may be that does not own the lock; that owns it and is
    recorded in it; that owns it and is not recorded yet, or no more.  Only
    misuse brings an owner into [spin_lock] or another CPU into [spin_unlock]. *)
Definition misused (p : pc) : bool :=
  bool_decide (p ∈ [LockTest1; LockTest2; UnlockTest1; UnlockTest2; Panic]).
Definition outside (strict : bool) (p : pc) : bool :=
  bool_decide (p ∈ [Idle; LockTest1; LockTest2; LockXchg]) || (negb strict && misused p).
Definition inside (strict : bool) (p : pc) : bool :=
  bool_decide (p ∈ [LockPcs; Critical; UnlockTest1; UnlockTest2; UnlockPcs; UnlockCpu]) ||
  (negb strict && misused p).
Definition edge (p : pc) : bool := bool_decide (p ∈ [LockCpu; UnlockXchg]).

Definition owned_by (strict : bool) (o : option Z) (s : sys) : Prop :=
  match o with
  | None => sl_locked (s_lock s) = 0 ∧ sl_cpu (s_lock s) = None ∧ (∀ c, outside strict (s_pc s c) = true)
  | Some w =>
      sl_locked (s_lock s) = 1 ∧
      ((edge (s_pc s w) = true ∧ sl_cpu (s_lock s) = None) ∨
       (inside strict (s_pc s w) = true ∧ sl_cpu (s_lock s) = Some w)) ∧
      (∀ c, c ≠ w → outside strict (s_pc s c) = true)
  end.

(** How a step changes the owner. *)
Inductive own_step (c : Z) (p : pc) : option Z → option Z → Prop :=
| own_same o : own_step c p o o
| own_acquire : p = LockXchg → own_step c p None (Some c)
| own_release : p = UnlockXchg → own_step c p (Some c) None.

Lemma access_owned strict o mem32 ebp c lk g lk' p' :
  owned_by strict o (mkSys lk g) → access mem32 ebp c lk (g c) = Some (lk', p') →
  ∃ o', owned_by strict o' (mkSys lk' (<[c := p']> g)) ∧ own_step c (g c) o o'.
Proof.
  intros Ho Ha. destruct o as [w|]; simpl in Ho.
  - destruct Ho as (Hl & Hw & Hout). destruct (decide (c = w)) as [->|Hne].
    + assert (∀ p, ∀ x, x ≠ w → outside strict ((<[w := p]> g) x) = true) as Hot
        by (intros p x Hx; rewrite upd_other by done; auto).
      destruct strict, (g w) eqn:Ep; cbn [access] in Ha; try discriminate Ha;
        destruct Hw as [[Hb Hc]|[Hb Hc]]; try discriminate Hb;
        rewrite ?Hl, ?Hc in Ha; rewrite ?bool_decide_true in Ha by reflexivity;
        injection Ha as <- <-;
        first [ exists (Some w); split; [|constructor]; cbn [owned_by s_lock s_pc sl_locked sl_cpu];
                  rewrite ?upd_same; (split; [done|split; [|apply Hot]]);
                  first [left; split; [reflexivity|done] | right; split; [reflexivity|done]]
              | exists None; split; [|by constructor]; cbn [owned_by s_lock s_pc sl_locked sl_cpu];
                  split; [done|split; [done|]]; intros x; rewrite upd_case; case_decide; subst; auto ].
    + assert (outside strict (g c) = true) as Hoc by auto.
      exists (Some w). split; [|constructor].
      assert (lk' = lk ∨ lk' = mkSlock 1 (sl_cpu lk) (sl_pcs lk)) as Hlk.
      { destruct strict, (g c) eqn:Ep; try discriminate Hoc; cbn [access] in Ha; try discriminate Ha;
          injection Ha as <- <-; auto. }
      assert (outside strict p' = true) as Hop.
      { destruct strict, (g c) eqn:Ep; try discriminate Hoc; cbn [access] in Ha; try discriminate Ha;
          injection Ha as <- <-; rewrite ?Hl; try reflexivity.
        all: case_bool_decide as Hd; [|reflexivity];
          destruct Hw as [[_ Hn]|[_ Hn]]; rewrite Hn in Hd; [discriminate Hd|congruence]. }
      cbn [owned_by s_lock s_pc]. rewrite upd_other by done.
      split; [destruct Hlk as [->| ->]; done|]. split.
      * destruct Hlk as [->| ->]; exact Hw.
      * intros x Hx. rewrite upd_case. case_decide; subst; auto.
  - destruct Ho as (Hl & Hc & Hout). pose proof (Hout c) as Hoc.
    destruct strict, (g c) eqn:Ep; try discriminate Hoc; cbn [access] in Ha; try discriminate Ha;
      rewrite ?Hl, ?Hc in Ha; rewrite ?bool_decide_false in Ha by discriminate;
      injection Ha as <- <-;
      first [ exists None; split; [|constructor]; cbn [owned_by s_lock s_pc sl_locked sl_cpu];
                split; [done|split; [done|]]; intros x; rewrite upd_case; case_decide; subst; auto
            | exists (Some c); split; [|by constructor]; cbn [owned_by s_lock s_pc sl_locked sl_cpu];
                rewrite upd_same; split; [done|split; [left; split; [reflexivity|done]|]];
                intros x Hx; rewrite upd_other by done; auto ].
Qed.

(** Calling either function moves a CPU within its side. *)
Lemma call_owned strict o c lk g p :
  owned_by strict o (mkSys lk g) →
  (p = LockTest1 ∧ (g c = Idle ∨ (g c = Critical ∧ strict = false))) ∨
  (p = UnlockTest1 ∧ (g c = Critical ∨ (g c = Idle ∧ strict = false))) →
  owned_by strict o (mkSys lk (<[c := p]> g)).
Proof.
  intros Ho Hcall. destruct o as [w|]; simpl in *.
  - destruct Ho as (Hl & Hw & Hout). split; [exact Hl|]. split.
    + rewrite upd_case. case_decide; subst; [|exact Hw]. right.
      destruct Hcall as [[-> [Hg|[Hg Hs]]]|[-> [Hg|[Hg Hs]]]]; rewrite Hg in Hw;
        destruct strict; try discriminate Hs; destruct Hw as [[Hb _]|[Hb Hc]]; try discriminate Hb; (split; [reflexivity|exact Hc]).
    + intros x Hx. rewrite upd_case. case_decide; subst; [|auto]. specialize (Hout x Hx).
      destruct Hcall as [[-> [Hg|[Hg Hs]]]|[-> [Hg|[Hg Hs]]]]; rewrite Hg in Hout;
        destruct strict; try discriminate Hs; try discriminate Hout; reflexivity.
  - destruct Ho as (Hl & Hc & Hout). split; [exact Hl|]. split; [exact Hc|].
    intros x. rewrite upd_case. case_decide; subst; [|auto]. specialize (Hout x).
    destruct Hcall as [[-> [Hg|[Hg Hs]]]|[-> [Hg|[Hg Hs]]]]; rewrite Hg in Hout;
      destruct strict; try discriminate Hs; try discriminate Hout; reflexivity.
Qed.

Lemma step_owned strict o c s s' :
  owned_by strict o s → step strict c s s' → ∃ o', owned_by strict o' s' ∧ own_step c (s_pc s c) o o'.
Proof.
  intros Ho Hs. destruct Hs as [mem32 ebp lk g lk' p' Ha|lk g Hg|lk g Hg].
  - by eapply access_owned.
  - exists o. split; [|constructor]. apply call_owned; [exact Ho|by left].
  - exists o. split; [|constructor]. apply call_owned; [exact Ho|by right].
Qed.

Lemma reachable_owned strict s : reachable strict s → ∃ o, owned_by strict o s.
Proof.
  induction 1 as [lk|s s' c _ [o Ho] Hs].
  - exists None. repeat split.
  - destruct (step_owned strict o c s s' Ho Hs) as (o' & H & _). by exists o'.
Qed.

Lemma owned_critical strict o s c : owned_by strict o s → s_pc s c = Critical → o = Some c.
Proof.
  intros Ho Hc. destruct o as [w|].
  - destruct Ho as (_ & _ & Hout). destruct (decide (c = w)) as [->|Hne]; [done|].
    specialize (Hout c Hne). rewrite Hc in Hout. destruct strict; discriminate Hout.
  - destruct Ho as (_ & _ & Hout). specialize (Hout c). rewrite Hc in Hout. destruct strict; discriminate Hout.
Qed.

Lemma owned_unique strict o o' s : owned_by strict o s → owned_by strict o' s → o = o'.
Proof.
  intros H H'. destruct o as [w|], o' as [w'|]; simpl in *; try done.
  - f_equal. destruct H as (_ & Hw & Hout), H' as (_ & Hw' & Hout').
    destruct (decide (w = w')) as [|Hne]; [done|]. specialize (Hout w' (not_eq_sym Hne)).
    destruct Hw as [[Hb Hc]|[_ Hc]], Hw' as [[Hb' Hc']|[_ Hc']]; try congruence.
    specialize (Hout' w Hne). unfold outside, edge, misused in *.
    destruct strict, (s_pc s w); discriminate.
  - destruct H as [H _], H' as [H' _]. congruence.
  - destruct H as [H _], H' as [H' _]. congruence.
Qed.

(** The lock of KState that the memory word stands for. *)
Definition abs_lock (o : option Z) : spinlock :=
  match o with Some c => mkLock true (Some c) | None => mkLock false None end.

(** [n] accesses of CPU [c] with no other CPU in between. *)
Fixpoint run_alone (mem32 : Z → Z) (ebp c : Z) (n : nat) (s : sys) : option sys :=
  match n with
  | O => Some s
  | S n =>
      '(lk, p) ← access mem32 ebp c (s_lock s) (s_pc s c);
      run_alone mem32 ebp c n (mkSys lk (<[c := p]> (s_pc s)))
  end.

(** ** Theorems *)

(** C9: mutual exclusion: in every interleaving of the accesses of any number
    of CPUs, even if some of them take the lock twice or release a lock they
    do not hold, at most one CPU is between its [spin_lock] and its
    [spin_unlock], and the lock names it. *)
Theorem spin_lock_mutual_exclusion strict s c c' :
  reachable strict s → s_pc s c = Critical →
  sl_locked (s_lock s) = 1 ∧ sl_cpu (s_lock s) = Some c ∧ (s_pc s c' = Critical → c' = c).
Proof.
  intros Hr Hc. destruct (reachable_owned strict s Hr) as [o Ho].
  pose proof (owned_critical strict o s c Ho Hc) as ->. destruct Ho as (Hl & Hw & Hout).
  split; [exact Hl|]. split.
  - destruct Hw as [[Hb _]|[_ H]]; [|exact H]. rewrite Hc in Hb. discriminate Hb.
  - intros Hc'. destruct (decide (c' = c)) as [|Hne]; [done|]. specialize (Hout c' Hne).
    rewrite Hc' in Hout. destruct strict; discriminate Hout.
Qed.

(** CPUs that take the lock only when they do not hold it and release it
    only when they do never panic in it, in any interleaving. *)
Theorem spin_lock_no_panic s c : reachable true s → s_pc s c ≠ Panic.
Proof.
  intros Hr Hp. destruct (reachable_owned true s Hr) as [[w|] Ho]; simpl in Ho.
  - destruct Ho as (_ & Hw & Hout). destruct (decide (c = w)) as [->|Hne].
    + rewrite Hp in Hw. destruct Hw as [[Hb _]|[Hb _]]; discriminate Hb.
    + specialize (Hout c Hne). rewrite Hp in Hout. discriminate Hout.
  - destruct Ho as (_ & _ & Hout). specialize (Hout c). rewrite Hp in Hout. discriminate Hout.
Qed.

(** C17: the instruction sequences implement the atomic [lock_kernel] and
    [unlock_kernel] that the rest of the kernel is verified with: in every
    reachable state the lock has at most one owner, which stands for a state
    of the atomic lock; a step either leaves that state alone, or is the
    [xchg] of [spin_lock] that finds the lock free and does what
    [lock_kernel] does, or the [xchg] of [spin_unlock] and does what
    [unlock_kernel] does; where a CPU spins, [lock_kernel] spins; and where a
    CPU panics, the atomic operation panics. *)
Theorem spin_lock_refines strict s c s' o :
  reachable strict s → owned_by strict o s → step strict c s s' →
  ∃ o', owned_by strict o' s' ∧
    (o' = o ∨
     (s_pc s c = LockXchg ∧ s_pc s' c = LockCpu ∧
        ∀ k, kernel_lock k = abs_lock o → lock_kernel c k = (Ret tt, set_lock (abs_lock o') k)) ∨
     (s_pc s c = UnlockXchg ∧ s_pc s' c = Idle ∧
        ∀ k, kernel_lock k = abs_lock o → unlock_kernel c k = (Ret tt, set_lock (abs_lock o') k))) ∧
    (s_pc s c = LockXchg → s_pc s' c = LockXchg →
       ∀ k, kernel_lock k = abs_lock o → lock_kernel c k = (Stop SSpin, k)) ∧
    (s_pc s c = LockTest2 → s_pc s' c = Panic →
       ∀ k, kernel_lock k = abs_lock o → ∃ w, lock_kernel c k = (Stop (SPanic w), k)) ∧
    (s_pc s c = UnlockTest1 ∨ s_pc s c = UnlockTest2 → s_pc s' c = Panic →
       ∀ k, kernel_lock k = abs_lock o → ∃ w, unlock_kernel c k = (Stop (SPanic w), k)).
Proof.
  intros _ Ho Hs. destruct (step_owned strict o c s s' Ho Hs) as (o' & Ho' & Hos).
  exists o'. split; [exact Ho'|]. split.
  { destruct Hos as [o|E|E]; [by left|right; left|right; right]; (split; [exact E|]).
    - split.
      + destruct Hs as [mem32 ebp lk g lk' p' Ha|lk g [Hg|[Hg _]]|lk g [Hg|[Hg _]]]; simpl in *; try congruence.
        rewrite E in Ha. cbn [access] in Ha. injection Ha as <- <-. rewrite upd_same.
        destruct Ho as (Hl & _). simpl in Hl. by rewrite Hl.
      + intros k Hk. unfold lock_kernel. rewrite run_bind, run_gets, Hk. reflexivity.
    - split.
      + destruct Hs as [mem32 ebp lk g lk' p' Ha|lk g [Hg|[Hg _]]|lk g [Hg|[Hg _]]]; simpl in *; try congruence.
        rewrite E in Ha. cbn [access] in Ha. injection Ha as <- <-. by rewrite upd_same.
      + intros k Hk. unfold unlock_kernel. rewrite run_bind, run_gets, Hk. cbn [abs_lock locked lk_cpu andb].
        by rewrite bool_decide_true. }
  destruct Hs as [mem32 ebp lk g lk' p' Ha|lk g Hg|lk g Hg]; simpl in *; rewrite upd_same.
  2, 3: split; [discriminate|]; split; discriminate.
  split; [|split].
  - intros E ->. rewrite E in Ha. cbn [access] in Ha. injection Ha as Hlk Hp.
    intros k Hk. unfold lock_kernel. rewrite run_bind, run_gets, Hk. destruct o as [w|].
    + cbn [abs_lock locked lk_cpu]. rewrite bool_decide_false; [reflexivity|]. intros [= ->].
      destruct Ho as (_ & Hw & _). simpl in Hw. rewrite E in Hw.
      destruct strict, Hw as [[Hb _]|[Hb _]]; discriminate Hb.
    + destruct Ho as (Hl & _). simpl in Hl. rewrite Hl in Hp. discriminate Hp.
  - intros E ->. rewrite E in Ha. cbn [access] in Ha. injection Ha as Hlk Hp.
    case_bool_decide as Hc; [|discriminate Hp]. destruct o as [w|]; simpl in Ho.
    + destruct Ho as (_ & [[_ Hn]|[_ Hn]] & _); rewrite Hn in Hc; [discriminate Hc|]. injection Hc as ->.
      intros k Hk. eexists. unfold lock_kernel. rewrite run_bind, run_gets, Hk. cbn [abs_lock locked lk_cpu].
      rewrite bool_decide_true by reflexivity. reflexivity.
    + destruct Ho as (_ & Hn & _). congruence.
  - intros E ->. intros k Hk.
    assert (o ≠ Some c) as Hne.
    { intros ->. destruct Ho as (Hl & Hw & _). simpl in Hl, Hw. destruct E as [E|E]; rewrite E in Ha, Hw; cbn [access] in Ha.
      - rewrite Hl in Ha. discriminate Ha.
      - destruct Hw as [[Hb _]|[_ Hn]]; [discriminate Hb|]. rewrite Hn, bool_decide_true in Ha by done. discriminate Ha. }
    eexists. unfold unlock_kernel. rewrite run_bind, run_gets, Hk. destruct o as [w|]; cbn [abs_lock locked lk_cpu andb].
    + rewrite bool_decide_false by congruence. reflexivity.
    + reflexivity.
Qed.

(** No deadlock: a CPU that calls [spin_lock] while the lock is free, and
    one that calls [spin_unlock] while it holds it, is through in four and
    five accesses of its own, and the lock is then its own, or free. *)
Theorem spin_lock_progress strict mem32 ebp c s :
  (owned_by strict None s → s_pc s c = LockTest1 →
     ∃ s', run_alone mem32 ebp c 4 s = Some s' ∧ s_pc s' c = Critical ∧ owned_by strict (Some c) s') ∧
  (owned_by strict (Some c) s → s_pc s c = UnlockTest1 →
     ∃ s', run_alone mem32 ebp c 5 s = Some s' ∧ s_pc s' c = Idle ∧ owned_by strict None s').
Proof.
  destruct s as [[lkd cpu pcs] g]. simpl. split.
  - intros (-> & -> & Hout) E. rewrite E. simpl. rewrite !upd_same. simpl. rewrite !upd_same. simpl.
    rewrite !upd_same. simpl.
    eexists. split; [reflexivity|]. simpl. rewrite !upd_same. split; [reflexivity|].
    split; [reflexivity|]. split; [right; split; reflexivity|].
    intros x Hx. rewrite !upd_other by done. apply Hout.
  - intros (-> & Hw & Hout) E. rewrite E in Hw. destruct Hw as [[Hb _]|[_ ->]]; [discriminate Hb|].
    rewrite E. simpl. rewrite !upd_same. simpl. rewrite bool_decide_true by reflexivity.
    rewrite !upd_same. simpl. rewrite !upd_same. simpl. rewrite !upd_same. simpl.
    eexists. split; [reflexivity|]. simpl. rewrite !upd_same. split; [reflexivity|].
    split; [reflexivity|]. split; [reflexivity|].
    intros x. rewrite !upd_case. case_decide; [reflexivity|]. by apply Hout.
Qed.

(** ** Witnesses: CPU 0 takes the lock *)

Lemma run_alone_reachable strict mem32 ebp c n s s' :
  reachable strict s → run_alone mem32 ebp c n s = Some s' → reachable strict s'.
Proof.
  revert s. induction n as [|n IH]; intros s Hr E; [by injection E as <-|].
  simpl in E. destruct (access mem32 ebp c (s_lock s) (s_pc s c)) as [[lk p]|] eqn:Ea; [|discriminate E].
  simpl in E. eapply IH; [|exact E]. destruct s as [lk0 g].
  eapply reach_step; [exact Hr|]. by eapply step_access.
Qed.

Definition lock0 : slock := mkSlock 0 None (repeat 0 10).
Definition demo_calls : sys := mkSys (spin_initlock lock0) (<[0 := LockTest1]> (λ _, Idle)).
Lemma demo_calls_reachable : reachable true demo_calls.
Proof. eapply (reach_step _ _ _ 0); [apply reach_init|]. apply step_lock. by left. Qed.
Lemma demo_calls_free : owned_by true None demo_calls.
Proof.
  split; [reflexivity|]. split; [reflexivity|]. intros c. cbn [demo_calls s_pc].
  rewrite upd_case. by case_decide.
Qed.

Lemma spin_lock_progress_witness :
  ∃ s', run_alone (λ _, 0) 0 0 4 demo_calls = Some s' ∧ s_pc s' 0 = Critical.
Proof.
  destruct (spin_lock_progress true (λ _, 0) 0 0 demo_calls) as [H _].
  destruct (H demo_calls_free eq_refl) as (s' & E & Hc & _). exact (ex_intro _ s' (conj E Hc)).
Defined.

Definition demo_holds : sys :=
  mkSys (mkSlock 1 (Some 0) (repeat 0 10))
    (<[0 := Critical]> (<[0 := LockPcs]> (<[0 := LockCpu]> (<[0 := LockXchg]>
      (<[0 := LockTest1]> (λ _, Idle)))))).
Lemma demo_holds_reachable : reachable true demo_holds.
Proof. by apply (run_alone_reachable true (λ _, 0) 0 0 4 demo_calls demo_holds demo_calls_reachable). Qed.

Lemma spin_lock_mutual_exclusion_witness :
  s_pc demo_holds 1 = Idle ∧ sl_cpu (s_lock demo_holds) = Some 0.
Proof.
  split; [reflexivity|].
  exact (proj1 (proj2 (spin_lock_mutual_exclusion true demo_holds 0 1 demo_holds_reachable eq_refl))).
Defined.

Lemma spin_lock_no_panic_witness : s_pc demo_holds 0 ≠ Panic.
Proof. exact (spin_lock_no_panic demo_holds 0 demo_holds_reachable). Defined.

(** The first access of CPU 0: the lock stays free. *)
Lemma spin_lock_refines_witness :
  ∃ o', owned_by true o' (mkSys (spin_initlock lock0) (<[0 := LockXchg]> (s_pc demo_calls))).
Proof.
  destruct (spin_lock_refines true demo_calls 0
    (mkSys (spin_initlock lock0) (<[0 := LockXchg]> (s_pc demo_calls))) None
    demo_calls_reachable demo_calls_free) as (o' & H & _).
  - apply (step_access true 0 (λ _, 0) 0). reflexivity.
  - exact (ex_intro _ o' H).
Defined.
