(* ===== verification/Console.v ===== *)
(** * kern/console.c, kern/picirq.c, kern/kclock.c: console devices

    The serial port, the parallel port, the CGA screen and the keyboard behind
    their I/O ports, the interrupt controllers' mask, and the input buffer that
    [cons_getc] reads.  The devices are an instance of [Machine]; what the
    screen's theorem needs of them is in [VideoRam]. *)
From S2P Require Import Prelude Monad Word Layout Mem CString StrLib Printfmt Seg.
From Stdlib Require Import Ascii.

(** The machine behind the ports and the video memory: a port read may change
    the device; [vread]/[vwrite] access the 16-bit cell at an address. *)
Class Machine (W : Type) := {
  dev_in : Z → W → Z * W;
  dev_out : Z → Z → W → W;
  vread : Z → W → Z;
  vwrite : Z → Z → W → W;
}.

(** Video memory is memory in the window at [base], and no port changes it. *)
Class VideoRam (W : Type) `{Machine W} (base : Z) : Prop := {
  vread_vwrite : ∀ a b v w, base ≤ a < base + 4096 → vread b (vwrite a v w) = if decide (a = b) then u16 v else vread b w;
  vread_in : ∀ a p w, vread a (snd (dev_in p w)) = vread a w;
  vread_out : ∀ a p v w, vread a (dev_out p v w) = vread a w;
}.

Definition COM1 := 0x3F8.
Definition COM_RX := 0.
Definition COM_TX := 0.
Definition COM_DLL := 0.
Definition COM_DLM := 1.
Definition COM_IER := 1.
Definition COM_IER_RDI := 0x01.
Definition COM_IIR := 2.
Definition COM_FCR := 2.
Definition COM_LCR := 3.
Definition COM_LCR_DLAB := 0x80.
Definition COM_LCR_WLEN8 := 0x03.
Definition COM_MCR := 4.
Definition COM_LSR := 5.
Definition COM_LSR_DATA := 0x01.
Definition COM_LSR_TXRDY := 0x20.

Definition MONO_BASE := 0x3B4.
Definition MONO_BUF := 0xB0000.
Definition CGA_BASE := 0x3D4.
Definition CGA_BUF := 0xB8000.
Definition CRT_ROWS := 25.
Definition CRT_COLS := 80.
Definition CRT_SIZE := CRT_ROWS * CRT_COLS.

Definition KEY_HOME := 0xE0.
Definition KEY_END := 0xE1.
Definition KEY_UP := 0xE2.
Definition KEY_DN := 0xE3.
Definition KEY_LF := 0xE4.
Definition KEY_RT := 0xE5.
Definition KEY_PGUP := 0xE6.
Definition KEY_PGDN := 0xE7.
Definition KEY_INS := 0xE8.
Definition KEY_DEL := 0xE9.
Definition KBSTATP := 0x64.
Definition KBS_DIB := 0x01.
Definition KBS_TERR := 0x20.
Definition KBDATAP := 0x60.

Definition NO := 0.
Definition SHIFT := Z.shiftl 1 0.
Definition CTL := Z.shiftl 1 1.
Definition ALT := Z.shiftl 1 2.
Definition CAPSLOCK := Z.shiftl 1 3.
Definition NUMLOCK := Z.shiftl 1 4.
Definition SCROLLLOCK := Z.shiftl 1 5.
Definition E0ESC := Z.shiftl 1 6.

Definition CONSBUFSIZE := 512.

Definition IO_PIC1 := 0x20.
Definition IO_PIC2 := 0xA0.
Definition IRQ_SLAVE := 2.
Definition IO_RTC := 0x070.

(** ** Keyboard tables *)

(** An array initialiser: the listed entries, 0 elsewhere. *)
Fixpoint table (l : list (Z * Z)) : Z → Z :=
  match l with
  | [] => λ _, 0
  | (i, v) :: l => <[i := v]> (table l)
  end.
(** Consecutive entries from 0. *)
Definition row (l : list Z) : list (Z * Z) := zip (zrange 0 (Z.of_nat (length l))) l.

Definition shiftcode : Z → Z :=
  table [(0x1D, CTL); (0x2A, SHIFT); (0x36, SHIFT); (0x38, ALT); (0x9D, CTL); (0xB8, ALT)].
Definition togglecode : Z → Z :=
  table [(0x3A, CAPSLOCK); (0x45, NUMLOCK); (0x46, SCROLLLOCK)].

Definition keypad : list (Z * Z) :=
  [(0xC7, KEY_HOME); (0x9C, 10); (0xB5, chr "/"); (0xC8, KEY_UP); (0xC9, KEY_PGUP); (0xCB, KEY_LF);
   (0xCD, KEY_RT); (0xCF, KEY_END); (0xD0, KEY_DN); (0xD1, KEY_PGDN); (0xD2, KEY_INS); (0xD3, KEY_DEL)].

(** The characters of a string literal. *)
Definition chars (s : string) : list Z := chr <$> String.list_ascii_of_string s.

Definition normalmap : Z → Z := table (row (
  [NO; 0x1B] ++ chars "1234567890-=" ++ [8; 9] ++ chars "qwertyuiop[]" ++ [10; NO] ++ chars "asdfghjkl;'`" ++
  [NO] ++ chars "\zxcvbnm,./" ++ [NO; chr "*"; NO; chr " "] ++ repeat NO 13 ++ chars "789-456+1230.") ++ keypad).

Definition shiftmap : Z → Z := table (row (
  [NO; 0x1B] ++ chars "!@#$%^&*()_+" ++ [8; 9] ++ chars "QWERTYUIOP{}" ++ [10; NO] ++ chars "ASDFGHJKL:" ++
  [34; chr "~"; NO] ++ chars "|ZXCVBNM<>?" ++ [NO; chr "*"; NO; chr " "] ++ repeat NO 13 ++ chars "789-456+1230.") ++ keypad).

(** [#define C(x) (x - '@')] *)
Definition C (x : Z) : Z := u8 (x - chr "@").

Definition ctlmap : Z → Z := table (row (
  repeat NO 16 ++ (C <$> chars "QWERTYUIOP") ++ [NO; NO; 13; NO] ++ (C <$> chars "ASDFGHJKL") ++
  repeat NO 4 ++ (C <$> chars "\ZXCVBNM") ++ [NO; NO; C (chr "/"); NO; NO]) ++
  [(0x97, KEY_HOME); (0xB5, C (chr "/")); (0xC8, KEY_UP); (0xC9, KEY_PGUP); (0xCB, KEY_LF);
   (0xCD, KEY_RT); (0xCF, KEY_END); (0xD0, KEY_DN); (0xD1, KEY_PGDN); (0xD2, KEY_INS); (0xD3, KEY_DEL)]).

Definition charcode (i : Z) : Z → Z :=
  if i =? 0 then normalmap else if i =? 1 then shiftmap else ctlmap.

Example keymap_check :
  normalmap 0x1E = chr "a" ∧ normalmap 0x2B = chr "\" ∧ normalmap 0x53 = chr "." ∧ normalmap 0x39 = chr " " ∧
  shiftmap 0x28 = 34 ∧ shiftmap 0x35 = chr "?" ∧ shiftmap 0x47 = chr "7" ∧ ctlmap 0x2E = 3 ∧ ctlmap 0x1C = 13 ∧
  ctlmap 0x35 = C (chr "/") ∧ ctlmap 0x2B = 28 ∧ normalmap 0xD3 = KEY_DEL.
Proof. vm_compute. repeat split. Qed.

(** ** State *)

Section console.
Context {W : Type} `{Machine W}.

Record cstate := mkC {
  c_dev : W;                       (** the devices and the video memory *)
  c_buf : Z → Z;                   (** [cons.buf] *)
  c_rpos : Z; c_wpos : Z;
  c_shift : Z;                     (** [kbd_proc_data]'s [shift] *)
  c_serial : bool;                 (** [serial_exists] *)
  addr_6845 : Z;
  crt_buf : Z;                     (** as a physical address *)
  crt_pos : Z;
  irq_mask_8259A : Z;
  didinit : bool;
}.

Abbreviation CM := (M cstate) (only parsing).

Definition set_dev w (s : cstate) := mkC w (c_buf s) (c_rpos s) (c_wpos s) (c_shift s) (c_serial s)
  (addr_6845 s) (crt_buf s) (crt_pos s) (irq_mask_8259A s) (didinit s).
Definition set_ring b r w (s : cstate) := mkC (c_dev s) b r w (c_shift s) (c_serial s)
  (addr_6845 s) (crt_buf s) (crt_pos s) (irq_mask_8259A s) (didinit s).
Definition set_shift x (s : cstate) := mkC (c_dev s) (c_buf s) (c_rpos s) (c_wpos s) x (c_serial s)
  (addr_6845 s) (crt_buf s) (crt_pos s) (irq_mask_8259A s) (didinit s).
Definition set_serial x (s : cstate) := mkC (c_dev s) (c_buf s) (c_rpos s) (c_wpos s) (c_shift s) x
  (addr_6845 s) (crt_buf s) (crt_pos s) (irq_mask_8259A s) (didinit s).
Definition set_crt a b p (s : cstate) := mkC (c_dev s) (c_buf s) (c_rpos s) (c_wpos s) (c_shift s) (c_serial s)
  a b p (irq_mask_8259A s) (didinit s).
Definition set_pos p (s : cstate) := set_crt (addr_6845 s) (crt_buf s) p s.
Definition set_irq m d (s : cstate) := mkC (c_dev s) (c_buf s) (c_rpos s) (c_wpos s) (c_shift s) (c_serial s)
  (addr_6845 s) (crt_buf s) (crt_pos s) m d.

Definition inb (port : Z) : CM Z := λ s,
  let '(v, w) := dev_in port (c_dev s) in (Ret (u8 v), set_dev w s).
Definition outb (port v : Z) : CM () := modify (λ s, set_dev (dev_out port (u8 v) (c_dev s)) s).
Definition vget (a : Z) : CM Z := gets (λ s, u16 (vread a (c_dev s))).
Definition vput (a v : Z) : CM () := modify (λ s, set_dev (vwrite a (u16 v) (c_dev s)) s).

Definition delay : CM () := _ ← inb 0x84; _ ← inb 0x84; _ ← inb 0x84; _ ← inb 0x84; mret tt.

(** [for (i = 0; !(inb(port) & bit) && i < n; i++) delay();] *)
Fixpoint wait_for (n : nat) (port bit : Z) : CM () :=
  st ← inb port;
  if flag st bit then mret tt
  else match n with
       | O => mret tt
       | S n => delay ;; wait_for n port bit
       end.

(** *** Serial and parallel port *)

Definition serial_proc_data : CM Z :=
  st ← inb (COM1 + COM_LSR);
  if negb (flag st COM_LSR_DATA) then mret (-1) else inb (COM1 + COM_RX).

Definition serial_putc (c : Z) : CM () :=
  wait_for (Z.to_nat 12800) (COM1 + COM_LSR) COM_LSR_TXRDY ;;
  outb (COM1 + COM_TX) c.

Definition serial_init : CM () :=
  outb (COM1 + COM_FCR) 0 ;;
  outb (COM1 + COM_LCR) COM_LCR_DLAB ;;
  outb (COM1 + COM_DLL) (115200 / 9600) ;;
  outb (COM1 + COM_DLM) 0 ;;
  outb (COM1 + COM_LCR) (Z.land COM_LCR_WLEN8 (Z.lnot COM_LCR_DLAB)) ;;
  outb (COM1 + COM_MCR) 0 ;;
  outb (COM1 + COM_IER) COM_IER_RDI ;;
  st ← inb (COM1 + COM_LSR);
  modify (set_serial (negb (st =? 0xFF))) ;;
  _ ← inb (COM1 + COM_IIR);
  _ ← inb (COM1 + COM_RX);
  mret tt.

Definition lpt_putc (c : Z) : CM () :=
  wait_for (Z.to_nat 12800) (0x378 + 1) 0x80 ;;
  outb (0x378 + 0) c ;;
  outb (0x378 + 2) (Z.lor (Z.lor 0x08 0x04) 0x01) ;;
  outb (0x378 + 2) 0x08.

(** *** The screen *)

Definition cga_init : CM () :=
  let cp := CGA_BUF in
  was ← vget cp;
  vput cp 0xA55A ;;
  x ← vget cp;
  '(cp, addr) ← (if negb (x =? 0xA55A) then mret (MONO_BUF, MONO_BASE)
                 else vput cp was ;; mret (cp, CGA_BASE));
  modify (λ s, set_crt addr (crt_buf s) (crt_pos s) s) ;;
  outb addr 14 ;;
  hi ← inb (addr + 1);
  outb addr 15 ;;
  lo ← inb (addr + 1);
  modify (set_crt addr cp (u16 (Z.lor (Z.shiftl hi 8) lo))).

Definition cell (i : Z) : CM Z := b ← gets crt_buf; vget (b + 2 * i).
Definition set_cell (i v : Z) : CM () := b ← gets crt_buf; vput (b + 2 * i) v.

(** [memmove] of whole cells towards lower addresses. *)
Definition scroll : CM () :=
  forM (zrange 0 (CRT_SIZE - CRT_COLS)) (λ i, x ← cell (i + CRT_COLS); set_cell i x) ;;
  forM (zrange (CRT_SIZE - CRT_COLS) CRT_COLS) (λ i, set_cell i (Z.lor 0x0700 (chr " "))) ;;
  modify (λ s, set_pos (u16 (crt_pos s - CRT_COLS)) s).

(** The [switch] of [cga_putc], with the tab's five calls to [cons_putc] as an
    argument. *)
Definition cga_switch (tab : CM ()) (c : Z) : CM () :=
  let ch := Z.land c 0xff in
  if ch =? 8 then
    p ← gets crt_pos;
    if 0 <? p then
      modify (set_pos (u16 (p - 1))) ;;
      p ← gets crt_pos;
      set_cell p (Z.lor (Z.land c (Z.lnot 0xff)) (chr " "))
    else mret tt
  else if (ch =? 10) || (ch =? 13) then
    (if ch =? 10 then modify (λ s, set_pos (u16 (crt_pos s + CRT_COLS)) s) else mret tt) ;;
    modify (λ s, set_pos (u16 (crt_pos s - crt_pos s mod CRT_COLS)) s)
  else if ch =? 9 then tab
  else
    p ← gets crt_pos;
    modify (set_pos (u16 (p + 1))) ;;
    set_cell p c.

(** "move that little blinky thing" *)
Definition cga_cursor : CM () :=
  a ← gets addr_6845;
  outb a 14 ;;
  p ← gets crt_pos;
  outb (a + 1) (Z.shiftr p 8) ;;
  outb a 15 ;;
  outb (a + 1) p.

(** Black on white if no attribute is given. *)
Definition with_attr (c : Z) : Z := if Z.land c (Z.lnot 0xFF) =? 0 then Z.lor c 0x0700 else c.

Definition cga_putc_with (tab : CM ()) (c : Z) : CM () :=
  cga_switch tab (with_attr c) ;;
  p ← gets crt_pos;
  (if CRT_SIZE <=? p then scroll else mret tt) ;;
  cga_cursor.

(** A space is not a tab: the recursion of [cga_putc] through [cons_putc] is
    one level deep. *)
Definition space : CM () :=
  serial_putc (chr " ") ;; lpt_putc (chr " ") ;; cga_putc_with (mret tt) (chr " ").
Definition cga_putc (c : Z) : CM () := cga_putc_with (space ;; space ;; space ;; space ;; space) c.
Definition cons_putc (c : Z) : CM () := serial_putc c ;; lpt_putc c ;; cga_putc c.
Definition cputchar (c : Z) : CM () := cons_putc c.

(** A newline. *)
Definition nl : string := String "010" EmptyString.

(** [cprintf] of kern/printf.c on this console. *)
Definition cprintf (fmt : string) (args : list Z) : CM () := λ s,
  match vprintfmt (λ c s, snd (cputchar c s)) 1000 (λ _, lit_mem fmt) 0 (λ i, nth (Z.to_nat i) args 0) 0 Text s with
  | Some s => (Ret tt, s)
  | None => (Stop (SUndef "cprintf"), s)
  end.

(** *** Interrupt controllers and clock chip *)

Definition irq_setmask_8259A (mask : Z) : CM () :=
  modify (λ s, set_irq (u16 mask) (didinit s) s) ;;
  d ← gets didinit;
  if negb d then mret tt
  else
    outb (IO_PIC1 + 1) mask ;;
    outb (IO_PIC2 + 1) (Z.shiftr mask 8) ;;
    cprintf "enabled interrupts:" [] ;;
    forM (zrange 0 16) (λ i, if flag (Z.lnot mask) (Z.shiftl 1 i) then cprintf " %d" [i] else mret tt) ;;
    cprintf nl [].

Definition pic_init : CM () :=
  modify (λ s, set_irq (irq_mask_8259A s) true s) ;;
  outb (IO_PIC1 + 1) 0xFF ;;
  outb (IO_PIC2 + 1) 0xFF ;;
  outb IO_PIC1 0x11 ;;
  outb (IO_PIC1 + 1) IRQ_OFFSET ;;
  outb (IO_PIC1 + 1) (Z.shiftl 1 IRQ_SLAVE) ;;
  outb (IO_PIC1 + 1) 0x3 ;;
  outb IO_PIC2 0x11 ;;
  outb (IO_PIC2 + 1) (IRQ_OFFSET + 8) ;;
  outb (IO_PIC2 + 1) IRQ_SLAVE ;;
  outb (IO_PIC2 + 1) 0x01 ;;
  outb IO_PIC1 0x68 ;;
  outb IO_PIC1 0x0a ;;
  outb IO_PIC2 0x68 ;;
  outb IO_PIC2 0x0a ;;
  m ← gets irq_mask_8259A;
  if negb (m =? 0xFFFF) then irq_setmask_8259A m else mret tt.

Definition mc146818_read (reg : Z) : CM Z := outb IO_RTC reg ;; inb (IO_RTC + 1).
Definition mc146818_write (reg datum : Z) : CM () := outb IO_RTC reg ;; outb (IO_RTC + 1) datum.

(** *** The keyboard *)

Definition in_range (lo hi : ascii) (c : Z) : bool := (chr lo <=? c) && (c <=? chr hi).

Definition kbd_char (shift data : Z) : Z :=
  let c := charcode (Z.land shift (Z.lor CTL SHIFT)) data in
  if flag shift CAPSLOCK then
    if in_range "a" "z" c then c + (chr "A" - chr "a")
    else if in_range "A" "Z" c then c + (chr "a" - chr "A") else c
  else c.

Definition kbd_proc_data : CM Z :=
  stat ← inb KBSTATP;
  if Z.land stat KBS_DIB =? 0 then mret (-1)
  else if flag stat KBS_TERR then mret (-1)
  else
    data ← inb KBDATAP;
    shift ← gets c_shift;
    if data =? 0xE0 then modify (set_shift (Z.lor shift E0ESC)) ;; mret 0
    else if flag data 0x80 then
      let data := if flag shift E0ESC then data else Z.land data 0x7F in
      modify (set_shift (Z.land shift (u32 (Z.lnot (Z.lor (shiftcode data) E0ESC))))) ;; mret 0
    else
      let '(data, shift) :=
        if flag shift E0ESC then (Z.lor data 0x80, Z.land shift (u32 (Z.lnot E0ESC))) else (data, shift) in
      let shift := Z.lxor (Z.lor shift (shiftcode data)) (togglecode data) in
      modify (set_shift shift) ;;
      let c := kbd_char shift data in
      (if (Z.land (Z.lnot shift) (Z.lor CTL ALT) =? 0) && (c =? KEY_DEL) then
         cprintf ("Rebooting!" +:+ nl) [] ;; outb 0x92 0x3
       else mret tt) ;;
      mret c.

(** *** The input buffer *)

(** The device may always have more: fuel. *)
Fixpoint cons_intr (fuel : nat) (proc : CM Z) : CM () :=
  match fuel with
  | O => undef "cons_intr: out of fuel"
  | S fuel =>
      c ← proc;
      if c =? -1 then mret tt
      else if c =? 0 then cons_intr fuel proc
      else
        modify (λ s, set_ring (<[c_wpos s := u8 c]> (c_buf s)) (c_rpos s) (u32 (c_wpos s + 1)) s) ;;
        modify (λ s, if c_wpos s =? CONSBUFSIZE then set_ring (c_buf s) (c_rpos s) 0 s else s) ;;
        cons_intr fuel proc
  end.

Definition serial_intr (fuel : nat) : CM () :=
  e ← gets c_serial; if (e : bool) then cons_intr fuel serial_proc_data else mret tt.
Definition kbd_intr (fuel : nat) : CM () := cons_intr fuel kbd_proc_data.

Definition cons_getc (fuel : nat) : CM Z :=
  serial_intr fuel ;;
  kbd_intr fuel ;;
  s ← gets id;
  if negb (c_rpos s =? c_wpos s) then
    let c := c_buf s (c_rpos s) in
    modify (λ s, set_ring (c_buf s) (u32 (c_rpos s + 1)) (c_wpos s) s) ;;
    modify (λ s, if c_rpos s =? CONSBUFSIZE then set_ring (c_buf s) 0 (c_wpos s) s else s) ;;
    mret c
  else mret 0.

(** Waits until there is a character. *)
Fixpoint getchar (fuel : nat) : CM Z :=
  match fuel with
  | O => undef "getchar: out of fuel"
  | S fuel' => c ← cons_getc fuel; if c =? 0 then getchar fuel' else mret c
  end.

Definition kbd_init (fuel : nat) : CM () :=
  kbd_intr fuel ;;
  m ← gets irq_mask_8259A;
  irq_setmask_8259A (u16 (Z.land m (Z.lnot (Z.shiftl 1 IRQ_KBD)))).

Definition cons_init (fuel : nat) : CM () :=
  cga_init ;;
  kbd_init fuel ;;
  serial_init ;;
  e ← gets c_serial;
  if (e : bool) then mret tt else cprintf ("Serial port does not exist!" +:+ nl) [].

Definition iscons (fdnum : Z) : Z := 1.
End console.
