(* ===== verification/ConsoleSpec.v ===== *)
(** * The console's contracts

    The input buffer is a queue of 511 characters that a character too many
    empties, whatever the devices deliver; the screen driver keeps its cursor
    and its writes inside the screen. *)
From S2P Require Import Prelude Monad Word Layout Mem CString StrLib Printfmt Seg Console.
From Stdlib Require Import FunctionalExtensionality Ascii.

Section spec.
Context {W : Type} `{Machine W}.
Implicit Types s : cstate (W := W).
Abbreviation CM := (M (cstate (W := W))) (only parsing).

(** ** Device code leaves the input buffer alone *)

Definition ring_free {A} (m : CM A) : Prop :=
  ∀ s b r w, m (set_ring b r w s) = (fst (m s), set_ring b r w (snd (m s))).

Lemma rf_ret {A} (a : A) : ring_free (mret a).
Proof. done. Qed.
Lemma rf_bind {A B} (m : CM A) (f : A → CM B) : ring_free m → (∀ a, ring_free (f a)) → ring_free (m ≫= f).
Proof.
  intros Hm Hf s b r w. rewrite !run_bind, Hm. destruct (m s) as [[a|x] s']; cbn [fst snd]; [|done]. apply Hf.
Qed.
Lemma rf_inb port : ring_free (inb port).
Proof. intros s b r w. unfold inb. cbn [c_dev set_ring]. by destruct (dev_in port (c_dev s)). Qed.
Lemma rf_outb port v : ring_free (outb port v).
Proof. done. Qed.
Lemma rf_vget a : ring_free (vget a).
Proof. done. Qed.
Lemma rf_vput a v : ring_free (vput a v).
Proof. done. Qed.
Lemma rf_if {A} (c : bool) (m n : CM A) : ring_free m → ring_free n → ring_free (if c then m else n).
Proof. by destruct c. Qed.
Lemma rf_gets {A} (f : cstate → A) : (∀ s b r w, f (set_ring b r w s) = f s) → ring_free (gets f).
Proof. intros Hf s b r w. unfold gets. by rewrite Hf. Qed.
Lemma rf_modify (f : cstate → cstate) :
  (∀ s b r w, f (set_ring b r w s) = set_ring b r w (f s)) → ring_free (modify f).
Proof. intros Hf s b r w. unfold modify. by rewrite Hf. Qed.
Lemma rf_forM {A} (l : list A) (f : A → CM ()) : (∀ a, ring_free (f a)) → ring_free (forM l f).
Proof. intros Hf. induction l as [|a l IH]; simpl; [apply rf_ret|]. by apply rf_bind. Qed.
End spec.

Create HintDb rf discriminated.
#[export] Hint Resolve rf_ret rf_inb rf_outb rf_vget rf_vput : rf.

(** Through the structure of a computation. *)
Ltac rf :=
  repeat match goal with
  | |- ∀ _, _ => intros ?
  | |- ring_free (_ ≫= _) => apply rf_bind
  | |- ring_free (if _ then _ else _) => apply rf_if
  | |- ring_free (forM _ _) => apply rf_forM
  | |- ring_free (gets _) => apply rf_gets; reflexivity
  | |- ring_free (modify _) => apply rf_modify; reflexivity
  | |- ring_free (let '(_, _) := ?x in _) => destruct x
  | |- ring_free _ => solve [auto with rf]
  end.

Section free.
Context {W : Type} `{Machine W}.

Lemma rf_wait_for n port bit : ring_free (wait_for n port bit).
Proof. induction n as [|n IH]; cbn [wait_for]; unfold delay; rf. Qed.
Hint Resolve rf_wait_for : rf.
Lemma rf_serial_putc c : ring_free (serial_putc c).
Proof. unfold serial_putc. rf. Qed.
Lemma rf_lpt_putc c : ring_free (lpt_putc c).
Proof. unfold lpt_putc. rf. Qed.
Lemma rf_scroll : ring_free scroll.
Proof. unfold scroll, cell, set_cell. rf. Qed.
Hint Resolve rf_serial_putc rf_lpt_putc rf_scroll : rf.
Lemma rf_cga_putc_with tab c : ring_free tab → ring_free (cga_putc_with tab c).
Proof. intros Ht. unfold cga_putc_with, cga_switch, cga_cursor, set_cell. rf. Qed.
Lemma rf_cputchar c : ring_free (cputchar c).
Proof.
  unfold cputchar, cons_putc, cga_putc. rf. apply rf_cga_putc_with. unfold space. rf;
    apply rf_cga_putc_with; rf.
Qed.

Lemma rf_cprintf fmt args : ring_free (cprintf fmt args).
Proof.
  intros s b r w. unfold cprintf.
  pose proof (vprintfmt_sim (λ c s, snd (cputchar c s)) (λ c s, snd (cputchar c s))
    (λ s t, t = set_ring b r w s)
    ltac:(intros c p q ->; by rewrite rf_cputchar)
    1000 (λ _, lit_mem fmt) (λ _, lit_mem fmt) 0 (λ i, nth (Z.to_nat i) args 0) 0 Text s (set_ring b r w s)
    ltac:(done) eq_refl) as Hs.
  destruct Hs as [p q ->|]; done.
Qed.
Hint Resolve rf_cprintf : rf.

Lemma rf_serial : ring_free serial_proc_data.
Proof. unfold serial_proc_data. rf. Qed.
Lemma rf_kbd : ring_free kbd_proc_data.
Proof. unfold kbd_proc_data. rf. Qed.
End free.

(** ** The input buffer *)

(** A queue of at most 511 characters; one more empties it. *)
Definition enqueue (q : list Z) (c : Z) : list Z := if decide (length q = 511%nat) then [] else q ++ [c].
(** What [cons_intr] keeps of what a device delivers. *)
Definition keys (cs : list Z) : list Z := u8 <$> List.filter (λ c, negb (c =? 0)) cs.

Section ring.
Context {W : Type} `{Machine W}.
Abbreviation st := (cstate (W := W)) (only parsing).
Abbreviation CM := (M st) (only parsing).
Implicit Types s t : st.

(** The ring holds the queue [q]. *)
Definition ring_rep (q : list Z) (s : st) : Prop :=
  0 ≤ c_rpos s < 512 ∧ (length q < 512)%nat ∧
  c_wpos s = (c_rpos s + Z.of_nat (length q)) mod 512 ∧
  ∀ i : nat, (i < length q)%nat → c_buf s ((c_rpos s + Z.of_nat i) mod 512) = nth i q 0.

(** [proc] delivers [cs], ending in [t], and then has no more data. *)
Inductive drains (proc : CM Z) : st → list Z → st → Prop :=
| drains_nil s t : proc s = (Ret (-1), t) → drains proc s [] t
| drains_cons s c u cs t : proc s = (Ret c, u) → c ≠ -1 → drains proc u cs t → drains proc s (c :: cs) t.

Definition ring_of (s t : st) : st := set_ring (c_buf s) (c_rpos s) (c_wpos s) t.

Definition push (c : Z) (s : st) : st :=
  let s := set_ring (<[c_wpos s := u8 c]> (c_buf s)) (c_rpos s) (u32 (c_wpos s + 1)) s in
  if c_wpos s =? CONSBUFSIZE then set_ring (c_buf s) (c_rpos s) 0 s else s.

Lemma push_rep q c s : ring_rep q s → ring_rep (enqueue q (u8 c)) (push c s).
Proof.
  intros (Hr & Hl & Hw & Hb).
  assert (c_rpos (push c s) = c_rpos s ∧ c_buf (push c s) = <[c_wpos s := u8 c]> (c_buf s) ∧
          c_wpos (push c s) = (c_wpos s + 1) mod 512) as (E1 & E2 & E3).
  { unfold push, CONSBUFSIZE. cbn [c_wpos set_ring]. rewrite u32_small by lia.
    destruct (Z.eqb_spec (c_wpos s + 1) 512); cbn [c_rpos c_buf c_wpos set_ring]; split_and!; try done; lia. }
  unfold ring_rep, enqueue. rewrite E1, E2, E3. case_decide as Hlen.
  - split_and!; [lia|lia|simpl; simpl in *; lia|simpl; simpl in *; lia|]. simpl. lia.
  - split_and!; [lia|lia|rewrite length_app; simpl; lia|rewrite length_app; simpl; lia|].
    intros i Hi. rewrite length_app in Hi. simpl in Hi. rewrite upd_case. case_decide as Hx.
    + assert (i = length q) as -> by lia. by rewrite app_nth2, Nat.sub_diag by lia.
    + destruct (Nat.eq_dec i (length q)) as [->|]; [lia|]. rewrite app_nth1 by lia. apply Hb. lia.
Qed.

Lemma push_ring_of c s t : push c (ring_of s t) = ring_of (push c s) t.
Proof. unfold push, ring_of. cbn [c_wpos set_ring c_buf c_rpos]. by case_match. Qed.

Lemma ring_of_set s t u : ring_of s (ring_of t u) = ring_of s u.
Proof. done. Qed.
Lemma ring_of_self s : ring_of s s = s.
Proof. by destruct s. Qed.

Lemma cons_intr_run proc : ring_free proc → ∀ cs s0 t fuel q s,
  drains proc s0 cs t → s = ring_of s s0 → ring_rep q s → (length cs < fuel)%nat →
  ∃ s', cons_intr fuel proc s = (Ret tt, s') ∧ s' = ring_of s' t ∧ ring_rep (fold_left enqueue (keys cs) q) s'.
Proof.
  intros Hp. induction cs as [|c cs IH]; intros s0 t [|fuel] q s Hd Hs Hq Hf; cbn [length] in Hf; try lia;
    inversion Hd as [? ? E|? ? u ? ? E Hc Hd']; subst; cbn [cons_intr]; rewrite run_bind, Hs; unfold ring_of at 1;
    rewrite Hp, E; cbn [fst snd].
  - exists (ring_of s t). done.
  - fold (ring_of s u). apply Z.eqb_neq in Hc. rewrite Hc. unfold keys. cbn [List.filter].
    destruct (Z.eqb_spec c 0) as [->|Hz]; cbn [negb].
    + apply (IH u t); [done|done| |lia]. rewrite Hs in Hq. exact Hq.
    + rewrite run_bind, run_modify. cbv beta iota. rewrite run_bind, run_modify. cbv beta iota.
      change (if _ =? _ then _ else _) with (push c (ring_of s u)). rewrite push_ring_of. cbn [fmap list_fmap fold_left].
      apply (IH u t); [done|done| |lia]. apply (push_rep q c) in Hq. exact Hq.
Qed.

(** C28: [cons_getc] takes in what the serial port and the keyboard deliver, in
    that order, and returns the oldest character of the buffer, or 0 when it is
    empty: the circular buffer is a queue, of 511 characters, which the 512th
    unread character empties. *)
Theorem cons_getc_correct fuel s s1 s2 cs1 cs2 q :
  ring_rep q s → c_serial s = true →
  drains serial_proc_data s cs1 s1 → drains kbd_proc_data s1 cs2 s2 →
  (length cs1 < fuel)%nat → (length cs2 < fuel)%nat →
  let q' := fold_left enqueue (keys cs1 ++ keys cs2) q in
  ∃ s', cons_getc fuel s = (Ret (hd 0 q'), s') ∧ ring_rep (tl q') s' ∧ s' = ring_of s' s2.
Proof.
  intros Hq Hser H1 H2 Hf1 Hf2 q'. unfold cons_getc, serial_intr, kbd_intr.
  destruct (cons_intr_run serial_proc_data rf_serial cs1 s s1 fuel q s H1 (eq_sym (ring_of_self s)) Hq Hf1) as (t1 & E1 & R1 & Q1).
  destruct (cons_intr_run kbd_proc_data rf_kbd cs2 s1 s2 fuel _ t1 H2 R1 Q1 Hf2) as (t2 & E2 & R2 & Q2).
  rewrite <- fold_left_app in Q2. change (fold_left _ _ _) with q' in Q2.
  rewrite run_bind, run_bind, run_gets. cbv beta iota. rewrite Hser, E1. cbv beta iota.
  rewrite run_bind, E2. cbv beta iota. rewrite run_bind, run_gets. cbv beta iota. unfold id.
  destruct Q2 as (Hr & Hl & Hw & Hb). rewrite Hw. destruct q' as [|c q'].
  - cbn [length]. rewrite (proj2 (Z.eqb_eq _ _)) by lia. exists t2. split_and!; [done| |exact R2].
    exact (conj Hr (conj Hl (conj Hw Hb))).
  - cbn [length] in *. rewrite (proj2 (Z.eqb_neq _ _)) by lia. cbn [negb].
    rewrite run_bind, run_modify. cbv beta iota. rewrite run_bind, run_modify. cbv beta iota. rewrite run_ret.
    cbn [c_rpos set_ring]. rewrite u32_small by lia.
    specialize (Hb 0%nat ltac:(lia)) as Hb0. rewrite Z.add_0_r, Z.mod_small in Hb0 by lia. rewrite Hb0.
    set (r' := (c_rpos t2 + 1) mod 512).
    assert ((if c_rpos t2 + 1 =? CONSBUFSIZE
             then set_ring (c_buf t2) 0 (c_wpos t2) (set_ring (c_buf t2) (c_rpos t2 + 1) (c_wpos t2) t2)
             else set_ring (c_buf t2) (c_rpos t2 + 1) (c_wpos t2) t2) = set_ring (c_buf t2) r' (c_wpos t2) t2) as E.
    { unfold CONSBUFSIZE, r'. destruct (Z.eqb_spec (c_rpos t2 + 1) 512) as [->|]; [done|]. by rewrite Z.mod_small by lia. }
    exists (set_ring (c_buf t2) r' (c_wpos t2) t2). split_and!.
    + cbn [hd]. rewrite <- E. done.
    + cbn [tl]. unfold ring_rep. cbn [c_rpos c_wpos c_buf set_ring]. unfold r'.
      split_and!; [lia|lia|lia|lia|]. intros i Hi. change (nth i q' 0) with (nth (S i) (c :: q') 0). rewrite <- (Hb (S i)) by lia. f_equal. lia.
    + rewrite R2. done.
Qed.
End ring.

(** ** The screen *)

Section screen.
Context {W : Type} `{Machine W} (base : Z) `{!VideoRam W base}.
Abbreviation st := (cstate (W := W)) (only parsing).
Abbreviation CM := (M st) (only parsing).
Implicit Types s t : st.

(** Only the devices and the cursor differ. *)
Definition only_dev (s t : st) : Prop := t = set_dev (c_dev t) (set_pos (crt_pos t) s).
(** A cell of video memory, and of the screen. *)
Definition video (s : st) (a : Z) : Z := u16 (vread a (c_dev s)).
Definition screen (s : st) (i : Z) : Z := video s (base + 2 * i).
(** An address of no screen cell. *)
Definition off_screen (a : Z) : Prop := ∀ i, 0 ≤ i < CRT_SIZE → a ≠ base + 2 * i.

Lemma only_dev_refl s : only_dev s s.
Proof. by destruct s. Qed.
Lemma only_dev_trans s t u : only_dev s t → only_dev t u → only_dev s u.
Proof. unfold only_dev. intros -> ->. done. Qed.
Lemma only_dev_crt s t : only_dev s t → crt_buf t = crt_buf s.
Proof. by intros ->. Qed.

(** Computations that touch neither the cursor nor video memory. *)
Definition quiet {A} (m : CM A) : Prop := ∀ s, ∃ a t,
  m s = (Ret a, t) ∧ only_dev s t ∧ crt_pos t = crt_pos s ∧ ∀ b, video t b = video s b.

Lemma quiet_ret {A} (a : A) : quiet (mret a).
Proof. intros s. exists a, s. split_and!; try done. apply only_dev_refl. Qed.
Lemma quiet_bind {A B} (m : CM A) (f : A → CM B) : quiet m → (∀ a, quiet (f a)) → quiet (m ≫= f).
Proof.
  intros Hm Hf s. destruct (Hm s) as (a & t & E & O & P & V). destruct (Hf a t) as (b & u & E' & O' & P' & V').
  exists b, u. rewrite run_bind, E. split_and!; [exact E'|by eapply only_dev_trans|congruence|]. intros x. by rewrite V', V.
Qed.
Lemma quiet_inb p : quiet (inb p).
Proof.
  intros s. unfold inb. destruct (dev_in p (c_dev s)) as [v w] eqn:E. exists (u8 v), (set_dev w s).
  split_and!; try done. intros b. unfold video. cbn [c_dev set_dev]. pose proof (vread_in b p (c_dev s)) as Hv.
  rewrite E in Hv. cbn [snd] in Hv. by rewrite Hv.
Qed.
Lemma quiet_outb p v : quiet (outb p v).
Proof.
  intros s. exists tt, (set_dev (dev_out p (u8 v) (c_dev s)) s). split_and!; try done.
  intros b. unfold video. cbn [c_dev set_dev]. by rewrite vread_out.
Qed.
Lemma quiet_gets {A} (f : st → A) : quiet (gets f).
Proof. intros s. exists (f s), s. split_and!; try done. apply only_dev_refl. Qed.
Lemma quiet_if {A} (c : bool) (m n : CM A) : quiet m → quiet n → quiet (if c then m else n).
Proof. by destruct c. Qed.

Lemma quiet_delay : quiet delay.
Proof. unfold delay. repeat (apply quiet_bind; [apply quiet_inb|intros _]). apply quiet_ret. Qed.
Lemma quiet_wait n port bit : quiet (wait_for n port bit).
Proof.
  induction n as [|n IH]; cbn [wait_for]; (apply quiet_bind; [apply quiet_inb|intros x; apply quiet_if; [apply quiet_ret|]]).
  - apply quiet_ret.
  - apply quiet_bind; [apply quiet_delay|done].
Qed.
Lemma quiet_serial c : quiet (serial_putc c).
Proof. apply quiet_bind; [apply quiet_wait|intros _; apply quiet_outb]. Qed.
Lemma quiet_lpt c : quiet (lpt_putc c).
Proof. apply quiet_bind; [apply quiet_wait|intros _]. repeat (apply quiet_bind; [apply quiet_outb|intros _]). apply quiet_outb. Qed.

Lemma quiet_cursor : quiet cga_cursor.
Proof.
  apply quiet_bind; [apply quiet_gets|intros a]. apply quiet_bind; [apply quiet_outb|intros _].
  apply quiet_bind; [apply quiet_gets|intros p]. repeat (apply quiet_bind; [apply quiet_outb|intros _]). apply quiet_outb.
Qed.

(** Writing a cell of the screen. *)
Lemma set_cell_run i v s : crt_buf s = base → 0 ≤ i < CRT_SIZE →
  ∃ t, set_cell i v s = (Ret tt, t) ∧ only_dev s t ∧ crt_pos t = crt_pos s ∧
       ∀ b, video t b = if decide (base + 2 * i = b) then u16 v else video s b.
Proof.
  intros Hb Hi. unfold set_cell, vput. rewrite run_bind, run_gets. cbv beta iota. rewrite run_modify, Hb.
  eexists. split_and!; [reflexivity|done|done|]. intros b. unfold video. cbn [c_dev set_dev].
  rewrite vread_vwrite by (unfold CRT_SIZE, CRT_ROWS, CRT_COLS in Hi; lia). case_decide; [|done].
  unfold u16. lia.
Qed.

Lemma scroll_run s : crt_buf s = base → CRT_SIZE ≤ crt_pos s < CRT_SIZE + CRT_COLS →
  ∃ t, scroll s = (Ret tt, t) ∧ only_dev s t ∧ crt_pos t = crt_pos s - CRT_COLS ∧
    (∀ i, 0 ≤ i < CRT_SIZE → screen t i = if i <? CRT_SIZE - CRT_COLS then screen s (i + CRT_COLS) else 0x0720) ∧
    (∀ b, off_screen b → video t b = video s b).
Proof.
  intros Hb Hp. unfold scroll. change CRT_SIZE with 2000 in *. change CRT_COLS with 80 in *.
  destruct (forM_zrange (λ k t, only_dev s t ∧ crt_pos t = crt_pos s ∧
      (∀ i, 0 ≤ i < 2000 → screen t i = if i <? k then screen s (i + 80) else screen s i) ∧
      (∀ b, off_screen b → video t b = video s b))
    (λ i, x ← cell (i + 80); set_cell i x) (2000 - 80) s) as (t & E & O & P & V & F).
  { lia. }
  { split_and!; [apply only_dev_refl|done| |done]. intros i Hi. by rewrite (proj2 (Z.ltb_ge i 0)) by lia. }
  { intros i t Hi (O & P & V & F). unfold cell. rewrite run_bind, run_bind, run_gets. cbv beta iota.
    unfold vget. rewrite run_gets. cbv beta iota. rewrite (only_dev_crt _ _ O), Hb.
    destruct (set_cell_run i (u16 (vread (base + 2 * (i + 80)) (c_dev t))) t) as (u & E' & O' & P' & V');
      [by rewrite (only_dev_crt _ _ O)|unfold CRT_SIZE, CRT_ROWS, CRT_COLS; lia|].
    exists u. split_and!; [exact E'|by eapply only_dev_trans|congruence|..].
    - intros j Hj. unfold screen at 1. rewrite V'. case_decide as Hx.
      + assert (j = i) as -> by lia. rewrite (proj2 (Z.ltb_lt i _)) by lia.
        specialize (V (i + 80) ltac:(lia)). rewrite (proj2 (Z.ltb_ge (i + 80) _)) in V by lia.
        rewrite <- V. unfold screen, video, u16. lia.
      + specialize (V j Hj). fold (screen t j). rewrite V.
        destruct (Z.ltb_spec j i), (Z.ltb_spec j (i + 1)); try done; lia.
    - intros b Hn. rewrite V', decide_False by (intros <-; apply (Hn i); unfold CRT_SIZE, CRT_ROWS, CRT_COLS; lia). by apply F. }
  rewrite run_bind, E. cbv beta iota. rewrite run_bind.
  destruct (forM_zrange_from (λ k t, only_dev s t ∧ crt_pos t = crt_pos s ∧
      (∀ i, 0 ≤ i < 2000 → screen t i = if i <? 1920 then screen s (i + 80) else if i <? k then 0x0720 else screen s i) ∧
      (∀ b, off_screen b → video t b = video s b))
    (λ i, set_cell i (Z.lor 0x0700 (chr " "%char))) (2000 - 80) 80 t) as (u & E' & O' & P' & V' & F').
  { lia. }
  { split_and!; [done|done| |done]. intros i Hi. rewrite V by done. change (2000 - 80) with 1920.
    destruct (Z.ltb_spec i 1920); [done|]. done. }
  { intros i u Hi (O' & P' & V' & F').
    destruct (set_cell_run i (Z.lor 0x0700 (chr " "%char)) u) as (v & E' & O'' & P'' & V'');
      [by rewrite (only_dev_crt _ _ O')|unfold CRT_SIZE, CRT_ROWS, CRT_COLS; lia|].
    exists v. split_and!; [exact E'|by eapply only_dev_trans|congruence|..].
    - intros j Hj. unfold screen at 1. rewrite V''. case_decide as Hx.
      + assert (j = i) as -> by lia. rewrite (proj2 (Z.ltb_ge i _)), (proj2 (Z.ltb_lt i _)) by lia. done.
      + specialize (V' j Hj). fold (screen u j). rewrite V'.
        destruct (Z.ltb_spec j 1920), (Z.ltb_spec j i), (Z.ltb_spec j (i + 1)); first [reflexivity | exfalso; lia].
    - intros b Hn. rewrite V'', decide_False by (intros <-; apply (Hn i); unfold CRT_SIZE, CRT_ROWS, CRT_COLS; lia). by apply F'. }
  rewrite E'. cbv beta iota. rewrite run_modify.
  eexists. split_and!; [reflexivity| |cbn [crt_pos set_pos set_crt]; rewrite P'; unfold u16; lia| |].
  - rewrite O'. done.
  - intros i Hi. change (screen u i = (if i <? 2000 - 80 then screen s (i + 80) else 1824)).
    rewrite V' by done. change (2000 - 80) with 1920. destruct (Z.ltb_spec i 1920); [done|].
    by rewrite (proj2 (Z.ltb_lt i _)) by lia.
  - exact F'.
Qed.

(** What every output function of the screen keeps: the cursor is on the
    screen, and nothing but the screen is written. *)
Definition on_screen (m : CM ()) : Prop := ∀ s, crt_buf s = base → 0 ≤ crt_pos s < CRT_SIZE →
  ∃ t, m s = (Ret tt, t) ∧ only_dev s t ∧ 0 ≤ crt_pos t < CRT_SIZE ∧ (∀ b, off_screen b → video t b = video s b).

Lemma on_screen_bind m n : on_screen m → on_screen n → on_screen (m ;; n).
Proof.
  intros Hm Hn s Hb Hp. destruct (Hm s Hb Hp) as (t & E & O & P & V).
  destruct (Hn t) as (u & E' & O' & P' & V'); [by rewrite (only_dev_crt _ _ O)|done|].
  exists u. rewrite run_bind, E. split_and!; [exact E'|by eapply only_dev_trans|lia..|]. intros b Hb'. by rewrite V', V.
Qed.

Lemma quiet_on_screen (m : CM ()) : quiet m → on_screen m.
Proof.
  intros Hm s Hb Hp. destruct (Hm s) as ([] & t & E & O & P & V). exists t.
  split_and!; [done|done|lia..|]. intros b _. apply V.
Qed.

(** After the [switch] the cursor is at most two rows below the screen. *)
Lemma cga_switch_run tab c s : on_screen tab → crt_buf s = base → 0 ≤ crt_pos s < CRT_SIZE →
  ∃ t, cga_switch tab c s = (Ret tt, t) ∧ only_dev s t ∧ 0 ≤ crt_pos t < CRT_SIZE + CRT_COLS ∧
    (∀ b, off_screen b → video t b = video s b).
Proof.
  intros Ht Hb Hp. change CRT_SIZE with 2000 in *. change CRT_COLS with 80.
  assert (∀ p i v, 0 ≤ p < 2080 → 0 ≤ i < 2000 → ∃ t, set_cell i v (set_pos p s) = (Ret tt, t) ∧
    only_dev s t ∧ 0 ≤ crt_pos t < 2000 + 80 ∧ (∀ b, off_screen b → video t b = video s b)) as Hset.
  { intros p i v Hp' Hi. destruct (set_cell_run i v (set_pos p s)) as (t & E & O & P & V); [done|exact Hi|].
    exists t. split_and!; [done|by rewrite O|rewrite P; simpl; lia..|].
    intros b Hn. rewrite V, decide_False by (intros <-; by apply (Hn i)). done. }
  unfold cga_switch. change CRT_COLS with 80.
  destruct (Z.land c 255 =? 8).
  { rewrite run_bind, run_gets. cbv beta iota. destruct (Z.ltb_spec 0 (crt_pos s)).
    - rewrite run_bind, run_modify. cbv beta iota. rewrite run_bind, run_gets. cbv beta iota.
      cbn [crt_pos set_pos set_crt]. apply Hset; unfold u16; lia.
    - exists s. split_and!; [done|apply only_dev_refl|lia|lia|done]. }
  destruct ((Z.land c 255 =? 10) || (Z.land c 255 =? 13)).
  { destruct (Z.land c 255 =? 10); rewrite run_bind.
    - rewrite run_modify. cbv beta iota. rewrite run_modify. eexists.
      split_and!; [reflexivity|done|cbn [crt_pos set_pos set_crt]; unfold u16; lia..|done].
    - rewrite run_ret. cbv beta iota. rewrite run_modify. eexists.
      split_and!; [reflexivity|done|cbn [crt_pos set_pos set_crt]; unfold u16; lia..|done]. }
  destruct (Z.land c 255 =? 9).
  { destruct (Ht s Hb Hp) as (t & E & O & P & V). change CRT_SIZE with 2000 in P. exists t. split_and!; [done|done|lia..|done]. }
  rewrite run_bind, run_gets. cbv beta iota. rewrite run_bind, run_modify. cbv beta iota.
  apply Hset; unfold u16; lia.
Qed.

Lemma cga_putc_with_on_screen tab c : on_screen tab → on_screen (cga_putc_with tab c).
Proof.
  intros Ht s Hb Hp. unfold cga_putc_with.
  destruct (cga_switch_run tab (with_attr c) s Ht Hb Hp) as (t & E & O & P & V).
  rewrite run_bind, E. cbv beta iota. rewrite run_bind, run_gets. cbv beta iota. rewrite run_bind.
  assert (crt_buf t = base) as Hbt by (by rewrite (only_dev_crt _ _ O)).
  assert (∃ u, (if CRT_SIZE <=? crt_pos t then scroll else mret tt) t = (Ret tt, u) ∧ only_dev t u ∧
    0 ≤ crt_pos u < CRT_SIZE ∧ (∀ b, off_screen b → video u b = video t b)) as (u & E' & O' & P' & V').
  { destruct (Z.leb_spec CRT_SIZE (crt_pos t)).
    - destruct (scroll_run t Hbt) as (u & E' & O' & P' & _ & V'); [lia|]. exists u.
      split_and!; [done|done|change CRT_SIZE with 2000 in *; change CRT_COLS with 80 in *; lia..|done].
    - exists t. split_and!; [done|apply only_dev_refl|lia..|done]. }
  rewrite E'. cbv beta iota. destruct (quiet_cursor u) as ([] & w & E'' & O'' & P'' & V''). exists w.
  split_and!; [done|by eapply only_dev_trans, only_dev_trans|rewrite P''; lia..|].
  intros b Hn. by rewrite V'', V', V.
Qed.

Lemma space_on_screen : on_screen space.
Proof.
  unfold space. apply on_screen_bind; [apply quiet_on_screen, quiet_serial|].
  apply on_screen_bind; [apply quiet_on_screen, quiet_lpt|].
  apply cga_putc_with_on_screen. intros s Hb Hp. exists s. split_and!; [done|apply only_dev_refl|lia..|done].
Qed.

Lemma cga_putc_on_screen c : on_screen (cga_putc c).
Proof. apply cga_putc_with_on_screen. do 4 (apply on_screen_bind; [apply space_on_screen|]). apply space_on_screen. Qed.

Lemma plain_char tab c s : crt_buf s = base → 0 ≤ crt_pos s < CRT_SIZE → Z.land c 0xff ∉ [8; 9; 10; 13] →
  let old i := if i =? crt_pos s then u16 (with_attr c) else screen s i in
  ∃ t, cga_putc_with tab c s = (Ret tt, t) ∧
    if crt_pos s + 1 =? CRT_SIZE
    then crt_pos t = CRT_SIZE - CRT_COLS ∧ ∀ i, 0 ≤ i < CRT_SIZE →
           screen t i = if i <? CRT_SIZE - CRT_COLS then old (i + CRT_COLS) else 0x0720
    else crt_pos t = crt_pos s + 1 ∧ ∀ i, 0 ≤ i < CRT_SIZE → screen t i = old i.
Proof.
  intros Hb Hp Hc old. change CRT_SIZE with 2000 in *. change CRT_COLS with 80.
  assert (Z.land (with_attr c) 255 = Z.land c 255) as Hl.
  { unfold with_attr. destruct (_ =? 0); [|done]. rewrite Z.land_lor_distr_l. change (Z.land 1792 255) with 0. apply Z.lor_0_r. }
  rewrite !not_elem_of_cons in Hc. destruct Hc as (H8 & H9 & H10 & H13 & _).
  destruct (set_cell_run (crt_pos s) (with_attr c) (set_pos (crt_pos s + 1) s)) as (t1 & E1 & O1 & P1 & V1); [done|exact Hp|].
  assert (cga_switch tab (with_attr c) s = (Ret tt, t1)) as Esw.
  { unfold cga_switch. rewrite Hl. rewrite (proj2 (Z.eqb_neq _ 8) H8), (proj2 (Z.eqb_neq _ 9) H9),
      (proj2 (Z.eqb_neq _ 10) H10), (proj2 (Z.eqb_neq _ 13) H13). cbn [orb].
    rewrite run_bind, run_gets. cbv beta iota. rewrite run_bind, run_modify. cbv beta iota.
    unfold u16 at 1. rewrite Z.mod_small by lia. exact E1. }
  assert (∀ i, screen t1 i = old i) as Hold.
  { intros i. unfold old, screen. rewrite V1. destruct (Z.eqb_spec i (crt_pos s)) as [->|].
    - by rewrite decide_True.
    - rewrite decide_False by lia. done. }
  unfold cga_putc_with. rewrite run_bind, Esw. cbv beta iota. rewrite run_bind, run_gets. cbv beta iota.
  rewrite P1. cbn [crt_pos set_pos set_crt]. change CRT_SIZE with 2000. rewrite run_bind.
  destruct (Z.eqb_spec (crt_pos s + 1) 2000) as [E|E].
  - rewrite (proj2 (Z.leb_le _ _)) by lia.
    destruct (scroll_run t1) as (t2 & E2 & O2 & P2 & V2 & _).
    { by rewrite (only_dev_crt _ _ O1). }
    { rewrite P1. cbn [crt_pos set_pos set_crt]. unfold CRT_SIZE, CRT_COLS, CRT_ROWS. lia. }
    rewrite E2. cbv beta iota. destruct (quiet_cursor t2) as ([] & t & E3 & O3 & P3 & V3). exists t.
    split; [exact E3|]. split.
    + rewrite P3, P2, P1. cbn [crt_pos set_pos set_crt]. change CRT_COLS with 80. lia.
    + intros i Hi. unfold screen at 1. rewrite V3. fold (screen t2 i). rewrite V2 by exact Hi.
      change (CRT_SIZE - CRT_COLS) with (2000 - 80). change CRT_COLS with 80. by rewrite Hold.
  - rewrite (proj2 (Z.leb_gt _ _)) by lia. rewrite run_ret. cbv beta iota.
    destruct (quiet_cursor t1) as ([] & t & E3 & O3 & P3 & V3). exists t.
    split; [exact E3|]. split; [by rewrite P3, P1|].
    intros i Hi. unfold screen at 1. rewrite V3. apply Hold.
Qed.

(** C29: whatever [cputchar] is given, and however often the devices are busy,
    it returns with the cursor on the 80 x 25 screen and writes no video memory
    outside it.  A character that is not a control character is stored at the
    cursor, which advances; at the last cell the screen scrolls up by one row,
    the new bottom row blank. *)
Theorem cputchar_screen c s : crt_buf s = base → 0 ≤ crt_pos s < CRT_SIZE →
  ∃ t, cputchar c s = (Ret tt, t) ∧ only_dev s t ∧ 0 ≤ crt_pos t < CRT_SIZE ∧
    (∀ b, off_screen b → video t b = video s b) ∧
    (Z.land c 0xff ∉ [8; 9; 10; 13] →
     let old i := if i =? crt_pos s then u16 (with_attr c) else screen s i in
     if crt_pos s + 1 =? CRT_SIZE
     then crt_pos t = CRT_SIZE - CRT_COLS ∧ ∀ i, 0 ≤ i < CRT_SIZE →
            screen t i = if i <? CRT_SIZE - CRT_COLS then old (i + CRT_COLS) else 0x0720
     else crt_pos t = crt_pos s + 1 ∧ ∀ i, 0 ≤ i < CRT_SIZE → screen t i = old i).
Proof.
  intros Hb Hp. unfold cputchar, cons_putc.
  destruct (quiet_serial c s) as ([] & s1 & E1 & O1 & P1 & V1). rewrite run_bind, E1. cbv beta iota.
  destruct (quiet_lpt c s1) as ([] & s2 & E2 & O2 & P2 & V2). rewrite run_bind, E2. cbv beta iota.
  assert (only_dev s s2) as O by (by eapply only_dev_trans).
  assert (crt_buf s2 = base) as Hb2 by (by rewrite (only_dev_crt _ _ O)).
  assert (∀ b, video s2 b = video s b) as V by (intros b; by rewrite V2, V1).
  destruct (cga_putc_on_screen c s2 Hb2 ltac:(lia)) as (t & E & Ot & Pt & Vt).
  exists t. split_and!; [exact E|by eapply only_dev_trans|lia..|intros b Hn; by rewrite Vt|].
  intros Hc. destruct (plain_char (space ;; space ;; space ;; space ;; space) c s2 Hb2 ltac:(lia) Hc) as (u & Eu & Hu).
  unfold cga_putc in E. rewrite Eu in E. injection E as <-.
  assert (crt_pos s2 = crt_pos s) as Hpos by congruence. rewrite Hpos in Hu.
  assert (∀ i, screen s2 i = screen s i) as Vs by (intros i; apply V).
  destruct (crt_pos s + 1 =? CRT_SIZE); destruct Hu as [Hu1 Hu2]; (split; [exact Hu1|]); intros i Hi;
    rewrite Hu2 by exact Hi; by rewrite Vs.
Qed.
End screen.

(** ** A machine to run it on

    A serial port and a keyboard with scripted input, and video memory. *)
Record script := mkScript { sc_serial : list Z; sc_kbd : list Z; sc_video : Z → Z }.

#[export] Instance script_machine : Machine script := {
  dev_in port w :=
    if port =? COM1 + COM_LSR then (match sc_serial w with [] => 0x20 | _ => 0x21 end, w)
    else if port =? COM1 + COM_RX then (hd 0 (sc_serial w), mkScript (tl (sc_serial w)) (sc_kbd w) (sc_video w))
    else if port =? KBSTATP then (match sc_kbd w with [] => 0 | _ => 1 end, w)
    else if port =? KBDATAP then (hd 0 (sc_kbd w), mkScript (sc_serial w) (tl (sc_kbd w)) (sc_video w))
    else (0xFF, w);
  dev_out port v w := w;
  vread a w := sc_video w a;
  vwrite a v w := mkScript (sc_serial w) (sc_kbd w) (<[a := u16 v]> (sc_video w));
}.

#[export] Instance script_video base : VideoRam script base.
Proof.
  split.
  - intros a b v w _. simpl. apply upd_case.
  - intros a p w. simpl. by repeat case_match.
  - done.
Qed.

(** The letter A waits in the buffer; B at the serial port; the key of the
    letter a has been pressed and released. *)
Definition demo_console : cstate (W := script) :=
  mkC (mkScript [66] [0x1E; 0x9E] (λ _, 0x0720)) (<[511 := 65]> (λ _, 0)) 511 0 0 true CGA_BASE CGA_BUF 1999 0xFFFB true.
Definition after {A} (m : M (cstate (W := script)) A) (s : cstate) : cstate := snd (m s).

Lemma cons_getc_correct_witness :
  let s1 := after serial_proc_data (after serial_proc_data demo_console) in
  let s2 := after kbd_proc_data (after kbd_proc_data (after kbd_proc_data s1)) in
  (ring_rep [65] demo_console ∧ c_serial demo_console = true ∧
   drains serial_proc_data demo_console [66] s1 ∧ drains kbd_proc_data s1 [97; 0] s2 ∧
   (1 < 3)%nat ∧ (2 < 3)%nat) ∧
  ∃ s', cons_getc 3 demo_console = (Ret 65, s') ∧ ring_rep [66; 97] s' ∧ s' = ring_of s' s2.
Proof.
  intros s1 s2.
  assert (ring_rep [65] demo_console) as Hq.
  { split_and!; [vm_compute; done|vm_compute; done|simpl; lia|reflexivity|].
    intros i Hi. simpl in Hi. assert (i = 0%nat) as -> by lia. reflexivity. }
  assert (drains serial_proc_data demo_console [66] s1) as H1.
  { eapply drains_cons; [reflexivity|done|]. apply drains_nil. reflexivity. }
  assert (drains kbd_proc_data s1 [97; 0] s2) as H2.
  { eapply drains_cons; [vm_compute; reflexivity|done|]. eapply drains_cons; [vm_compute; reflexivity|done|].
    apply drains_nil. vm_compute. reflexivity. }
  split; [split_and!; [exact Hq|reflexivity|exact H1|exact H2|lia|lia]|].
  apply (cons_getc_correct 3 demo_console s1 s2 [66] [97; 0] [65] Hq eq_refl H1 H2); simpl; lia.
Defined.

(** The letter Z at the last cell. *)
Lemma cputchar_screen_witness :
  (crt_buf demo_console = CGA_BUF ∧ 0 ≤ crt_pos demo_console < CRT_SIZE ∧ Z.land 90 0xff ∉ [8; 9; 10; 13]) ∧
  ∃ t, cputchar 90 demo_console = (Ret tt, t) ∧ crt_pos t = CRT_SIZE - CRT_COLS ∧ screen CGA_BUF t 1919 = 0x075A ∧
       screen CGA_BUF t 1999 = 0x0720.
Proof.
  assert (Z.land 90 0xff ∉ [8; 9; 10; 13]) as Hc by (rewrite !not_elem_of_cons; vm_compute; split_and!; try done; apply not_elem_of_nil).
  assert (0 ≤ crt_pos demo_console < CRT_SIZE) as Hp by (unfold CRT_SIZE, CRT_ROWS, CRT_COLS; simpl; lia).
  split; [split_and!; [done|lia|unfold CRT_SIZE, CRT_ROWS, CRT_COLS; simpl; lia|done]|].
  destruct (cputchar_screen CGA_BUF 90 demo_console eq_refl Hp) as (t & E & _ & _ & _ & Ht).
  exists t. split; [exact E|]. specialize (Ht Hc). cbn zeta in Ht.
  change (crt_pos demo_console + 1 =? CRT_SIZE) with true in Ht. cbv iota in Ht. destruct Ht as [Hpos Hs].
  split; [exact Hpos|]. split.
  - rewrite (Hs 1919) by (vm_compute; split; congruence). reflexivity.
  - rewrite (Hs 1999) by (vm_compute; split; congruence). reflexivity.
Defined.
