(* ===== verification/Env.v ===== *)
(** * kern/env.c: environments

    [envs] has [NENV] elements; [env_id] and its index [ENVX env_id] name an
    environment.  [env_destroy] is with the scheduler in Sched, because it does
    not return when it destroys the current environment. *)
From S2P Require Import Prelude Monad Word Layout Mem CString PageAlloc PageTable PageInv PageOps KState.

(** ** Virtual memory as the kernel uses it

    The kernel writes to user addresses through the directory in CR3.  An
    access that the page tables do not allow is a page fault in kernel mode,
    on which [page_fault_handler] panics. *)
Definition vtrans (m : mem) (cr3 va : Z) (write : bool) : option Z :=
  if KERNBASE <=? u32 va then Some (u32 va - KERNBASE)
  else
    pte ← lookup_pte m (cr3 / 4096) va;
    if write && negb (flag pte PTE_W) then None
    else Some (PTE_ADDR pte + PGOFF va).

(** The byte the kernel reads at [va], if it can. *)
Definition kread (m : mem) (cr3 va : Z) : option Z := load8 m <$> vtrans m cr3 va false.

Section env.
Context (cpunum : Z).

Definition vload8 (va : Z) : K Z :=
  k ← gets id;
  match vtrans (phys (k_mm k)) (cpu_cr3 (cpus k cpunum)) va false with
  | Some pa => mret (load8 (phys (k_mm k)) pa)
  | None => panic "page_fault in kernal mode"
  end.
Definition vstore8 (va v : Z) : K () :=
  k ← gets id;
  match vtrans (phys (k_mm k)) (cpu_cr3 (cpus k cpunum)) va true with
  | Some pa => liftM (modify (λ s, set_phys (store8 (phys s) pa v) s))
  | None => panic "page_fault in kernal mode"
  end.
(** A 32-bit access, byte by byte: it may cross a page boundary. *)
Definition vload32 (va : Z) : K Z :=
  b0 ← vload8 va; b1 ← vload8 (u32 (va + 1)); b2 ← vload8 (u32 (va + 2));
  b3 ← vload8 (u32 (va + 3));
  mret (b0 + 256 * b1 + 65536 * b2 + 16777216 * b3).
Definition vstore32 (va v : Z) : K () :=
  vstore8 va v ;; vstore8 (u32 (va + 1)) (v / 256) ;;
  vstore8 (u32 (va + 2)) (v / 65536) ;; vstore8 (u32 (va + 3)) (v / 16777216).

(** [memset] and [memmove] on virtual addresses, by what they do on memory
    (CString): all source bytes are read before any is written. *)
Fixpoint vread (n : nat) (va : Z) : K (list Z) :=
  match n with
  | O => mret []
  | S n => b ← vload8 va; bs ← vread n (u32 (va + 1)); mret (b :: bs)
  end.
Fixpoint vwrite (bs : list Z) (va : Z) : K () :=
  match bs with
  | [] => mret tt
  | b :: bs => vstore8 va b ;; vwrite bs (u32 (va + 1))
  end.
Definition vmemset (va c n : Z) : K () := vwrite (repeat (u8 c) (Z.to_nat n)) va.
Definition vmemmove (dst src n : Z) : K () := bs ← vread (Z.to_nat n) src; vwrite bs dst.

(** ** Names *)

(** The result and what [*env_store] is set to. *)
Definition envid2env (envid : Z) (checkperm : bool) : K (Z * option Z) :=
  if envid =? 0 then c ← curenv cpunum; mret (0, c)
  else
    let e := ENVX envid in
    env ← get_env e;
    if (env_status env =? ENV_FREE) || negb (env_id env =? envid)
    then mret (- E_BAD_ENV, None)
    else
      c ← curenv cpunum;
      bad ←
        (if checkperm && negb (bool_decide (c = Some e)) then
           cur ← curenv' cpunum; cenv ← get_env cur;
           mret (negb (env_parent_id env =? env_id cenv))
         else mret false);
      if (bad : bool) then mret (- E_BAD_ENV, None) else mret (0, Some e).

(** ** Creation *)

Definition env_init_step (i : Z) : K () :=
  modify (upd_env i (λ e, with_ids e 0 (env_parent_id e) (env_type e))) ;;
  modify (upd_env i (λ e, with_status e ENV_FREE)) ;;
  modify (λ k, upd_env i (λ e, with_link e (env_free_list k)) k) ;;
  modify (set_env_free (Some i)).

Definition env_init_percpu : K () :=
  forM [Lgdt; MovGs (Z.lor GD_UD 3); MovFs (Z.lor GD_UD 3); MovEs GD_KD; MovDs GD_KD;
        MovSs GD_KD; LjmpCs GD_KT; Lldt 0]
    (λ i, modify (log_ev (Segment i))).

(** The loop runs downwards. *)
Definition env_init : K () :=
  modify (set_env_free None) ;;
  forM (reverse (zrange 0 NENV)) env_init_step ;;
  env_init_percpu.

(** [env_setup_vm] from [p->pp_ref++] on. *)
Definition setup_pgdir (pgdir p : Z) : MM () :=
  modify (λ s, set_ref p (pp_ref (pages s p) + 1) s) ;;
  forM (zrange 0 (PDX UTOP)) (λ i, kstore32 (pgdir + 4 * i) 0) ;;
  forM (zrange (PDX UTOP) (NPDENTRIES - PDX UTOP)) (λ i,
    kpd ← gets kern_pgdir;
    pde ← kload32 (kpd + 4 * i);
    kstore32 (pgdir + 4 * i) pde) ;;
  pa ← PADDR pgdir;
  kstore32 (pgdir + 4 * PDX UVPT) (Z.lor (Z.lor pa PTE_P) PTE_U).

Definition env_setup_vm (e : Z) : K Z :=
  p ← liftM (page_alloc ALLOC_ZERO);
  match p with
  | None => mret (- E_NO_MEM)
  | Some p =>
      pgdir ← liftM (page2kva p);
      modify (upd_env e (λ v, with_pgdir v pgdir)) ;;
      liftM (setup_pgdir pgdir p) ;;
      mret 0
  end.

(** [(e->env_id + (1 << ENVGENSHIFT)) & ~(NENV - 1)] in 32-bit signed
    arithmetic, reset to the first generation when it is not positive. *)
Definition env_generation (id : Z) : Z :=
  let generation := Z.land (s32 (id + Z.shiftl 1 ENVGENSHIFT)) (Z.lnot (NENV - 1)) in
  if generation <=? 0 then Z.shiftl 1 ENVGENSHIFT else generation.

Definition FL_IF := 0x200.

(** The register state of a new environment; [tf_eip] is set by [load_icode]. *)
Definition env_tf_init : Trapframe :=
  mkTf regs0 (Z.lor GD_UD 3) (Z.lor GD_UD 3) 0 0 0 (Z.lor GD_UT 3) (Z.lor 0 FL_IF)
    USTACKTOP (Z.lor GD_UD 3).

Definition env_alloc (parent_id : Z) : K (Z * option Z) :=
  fl ← gets env_free_list;
  match fl with
  | None => mret (- E_NO_FREE_ENV, None)
  | Some e =>
      r ← env_setup_vm e;
      if r <? 0 then mret (r, None)
      else
        modify (upd_env e (λ v,
          with_ids v (Z.lor (env_generation (env_id v)) e) parent_id ENV_TYPE_USER)) ;;
        modify (upd_env e (λ v, with_status v ENV_RUNNABLE)) ;;
        modify (upd_env e (λ v, with_runs v 0)) ;;
        modify (upd_env e (λ v, with_tf v env_tf_init)) ;;
        modify (upd_env e (λ v, with_upcall v 0)) ;;
        modify (upd_env e (λ v, with_ipc v false (env_ipc_dstva v) (env_ipc_value v)
                                  (env_ipc_from v) (env_ipc_perm v))) ;;
        modify (λ k, set_env_free (env_link (envs k e)) k) ;;
        c ← curenv cpunum;
        k ← gets id;
        cprintf "[%08x] new env %08x\n"
          [match c with Some c => env_id (envs k c) | None => 0 end; env_id (envs k e)] ;;
        mret (0, Some e)
  end.

(** ** Loading a program *)

(** The addresses [start, start+PGSIZE, ..] below [end]; the pointers do not
    wrap for the ranges the kernel loads. *)
Definition pages_between (start end_ : Z) : list Z :=
  (λ i, start + i * PGSIZE) <$> zrange 0 ((end_ - start + PGSIZE - 1) / PGSIZE).

Definition region_alloc (e va len : Z) : K () :=
  let start := ROUNDDOWN va PGSIZE in
  let end_ := ROUNDUP (u32 (va + len)) PGSIZE in
  env ← get_env e;
  forM (pages_between start end_) (λ i,
    p ← liftM (page_alloc 0);
    match p with
    | None => panic "allocation failed!"
    | Some p =>
        r ← liftP cpunum (λ cur, page_insert cur (env_pgdir env) p i (Z.lor PTE_W PTE_U));
        if r =? 0 then mret tt else panic "region alloc error!"
    end).

Definition ELF_MAGIC := 0x464C457F.
Definition ELF_PROG_LOAD := 1.
Definition kload16 (kva : Z) : MM Z := gets (λ s, load16 (phys s) (kva - KERNBASE)).

(** One program header, at kernel address [ph]. *)
Definition load_segment (e binary ph : Z) : K () :=
  p_type ← liftM (kload32 ph);
  if p_type =? ELF_PROG_LOAD then
    p_offset ← liftM (kload32 (ph + 4));
    p_va ← liftM (kload32 (ph + 8));
    p_filesz ← liftM (kload32 (ph + 16));
    p_memsz ← liftM (kload32 (ph + 20));
    (if p_memsz <? p_filesz
     then panic "load_icode failed: ph->p_memsz < ph->p_filesz!\n" else mret tt) ;;
    region_alloc e p_va p_memsz ;;
    vmemmove p_va (u32 (binary + p_offset)) p_filesz ;;
    vmemset (u32 (p_va + p_filesz)) 0 (p_memsz - p_filesz)
  else mret tt.

Definition load_icode (e binary : Z) : K () :=
  e_magic ← liftM (kload32 binary);
  (if negb (e_magic =? ELF_MAGIC)
   then panic "load_icode failed: this binary is not elf!\n" else mret tt) ;;
  e_entry ← liftM (kload32 (binary + 24));
  (if e_entry =? 0
   then panic "load_icode failed: this elf can't be excuted.\n" else mret tt) ;;
  modify (upd_env e (λ v, with_tf v (tf_set_eip e_entry (env_tf v)))) ;;
  env ← get_env e;
  pa ← liftM (PADDR (env_pgdir env));
  lcr3 cpunum pa ;;
  e_phoff ← liftM (kload32 (binary + 28));
  e_phnum ← liftM (kload16 (binary + 44));
  forM (zrange 0 e_phnum) (λ i, load_segment e binary (u32 (binary + e_phoff) + 32 * i)) ;;
  region_alloc e (USTACKTOP - PGSIZE) PGSIZE.

Definition env_create (binary type : Z) : K () :=
  r ← env_alloc 0;
  match r with
  | (rc, Some e) =>
      (if negb (rc =? 0) then panic "env_create failed: env_alloc failed!\n" else mret tt) ;;
      load_icode e binary ;;
      modify (upd_env e (λ v, with_ids v (env_id v) (env_parent_id v) type))
  | (_, None) => panic "env_create failed: env_alloc failed!\n"
  end.

(** ** Destruction *)

(** Unmapping one page table and freeing it.  [cur] is [curenv]'s directory,
    which the loops do not change. *)
Definition env_free_pt (cur : option Z) (pgdir pdeno : Z) : MM () :=
  pde ← kload32 (pgdir + 4 * pdeno);
  if negb (flag pde PTE_P) then mret tt
  else
    let pa := PTE_ADDR pde in
    pt ← KADDR pa;
    forM (zrange 0 (PTX (u32 (Z.lnot 0)) + 1)) (λ pteno,
      pte ← kload32 (pt + 4 * pteno);
      if flag pte PTE_P then page_remove cur pgdir (PGADDR pdeno pteno 0) else mret tt) ;;
    kstore32 (pgdir + 4 * pdeno) 0 ;;
    p ← pa2page pa;
    page_decref p.

Definition env_free_pts (cur : option Z) (pgdir : Z) : MM () :=
  forM (zrange 0 (PDX UTOP)) (env_free_pt cur pgdir).

Definition env_free (e : Z) : K () :=
  c ← curenv cpunum;
  (if bool_decide (c = Some e) then
     kpd ← liftM (gets kern_pgdir); pa ← liftM (PADDR kpd); lcr3 cpunum pa
   else mret tt) ;;
  k ← gets id;
  cprintf "[%08x] free env %08x\n"
    [match c with Some c => env_id (envs k c) | None => 0 end; env_id (envs k e)] ;;
  env ← get_env e;
  liftP cpunum (λ cur, env_free_pts cur (env_pgdir env)) ;;
  pa ← liftM (PADDR (env_pgdir env));
  modify (upd_env e (λ v, with_pgdir v 0)) ;;
  p ← liftM (pa2page pa);
  liftM (page_decref p) ;;
  modify (upd_env e (λ v, with_status v ENV_FREE)) ;;
  modify (λ k, upd_env e (λ v, with_link v (env_free_list k)) k) ;;
  modify (set_env_free (Some e)).

(** ** Running *)

(** [iret] loads the registers of the argument, always [curenv->env_tf]. *)
Definition env_pop_tf : K () :=
  c ← curenv' cpunum;
  modify (upd_env c (λ v, with_cpunum v cpunum)) ;;
  stopM (SUser c).

Definition env_run (e : Z) : K () :=
  c ← curenv cpunum;
  (match c with
   | Some c =>
       env ← get_env c;
       if env_status env =? ENV_RUNNING
       then modify (upd_env c (λ v, with_status v ENV_RUNNABLE)) else mret tt
   | None => mret tt
   end) ;;
  set_curenv cpunum (Some e) ;;
  modify (upd_env e (λ v, with_status v ENV_RUNNING)) ;;
  modify (upd_env e (λ v, with_runs v (u32 (env_runs v + 1)))) ;;
  env ← get_env e;
  pa ← liftM (PADDR (env_pgdir env));
  lcr3 cpunum pa ;;
  unlock_kernel cpunum ;;
  env_pop_tf.
End env.
