(* ===== verification/Boot.v ===== *)
(** * boot/main.c: the boot loader

    [bootmain] reads the kernel's ELF image from the disk, sector by sector, into
    the physical addresses its program headers name, and jumps to its entry point.
    The disk controller is an instance of [Disk]: the class has its ports,
    [DiskLaws] what the ATA protocol promises.  Proved: the image ends up in memory
    as its headers say. *)
From S2P Require Import Prelude Monad Word Layout Mem PageAlloc PageTable KState Env.

(** ** The disk *)

Class Disk (D : Type) := {
  disk_in : Z → D → Z * D;        (** [inb] *)
  disk_out : Z → Z → D → D;       (** [outb], [outw] *)
  disk_inl : D → Z * D;           (** one 32-bit read of the data port *)
}.

Definition SECTSIZE := 512.
Definition ELFHDR := 0x10000.

Section boot.
Context {D : Type} `{Disk D}.

(** The disk and memory. *)
Record bst := mkB { b_dev : D; b_mem : mem }.
Abbreviation BM A := (M bst A) (only parsing).

Definition binb (port : Z) : BM Z := λ s,
  (Ret (u8 (fst (disk_in port (b_dev s)))), mkB (snd (disk_in port (b_dev s))) (b_mem s)).
Definition boutb (port v : Z) : BM () := modify (λ s, mkB (disk_out port (u8 v) (b_dev s)) (b_mem s)).
Definition boutw (port v : Z) : BM () := modify (λ s, mkB (disk_out port (u16 v) (b_dev s)) (b_mem s)).

(** [insl]: [cnt] words from the data port to memory at [dst]. *)
Fixpoint binsl (dst : Z) (cnt : nat) : BM () :=
  match cnt with
  | O => mret tt
  | S cnt =>
      modify (λ s, mkB (snd (disk_inl (b_dev s))) (store32 (b_mem s) dst (fst (disk_inl (b_dev s))))) ;;
      binsl (dst + 4) cnt
  end.

Definition bload32 (a : Z) : BM Z := gets (λ s, load32 (b_mem s) a).
Definition bload16 (a : Z) : BM Z := gets (λ s, load16 (b_mem s) a).

(** ** The code *)

(** [patience] bounds the polls of the status port. *)
Fixpoint waitdisk (patience : nat) : BM () :=
  match patience with
  | O => undef "waitdisk: out of fuel"
  | S n => v ← binb 0x1F7; if Z.land v 0xC0 =? 0x40 then mret tt else waitdisk n
  end.

Definition readsect (patience : nat) (dst offset : Z) : BM () :=
  waitdisk patience ;;
  boutb 0x1F2 1 ;;
  boutb 0x1F3 offset ;;
  boutb 0x1F4 (Z.shiftr offset 8) ;;
  boutb 0x1F5 (Z.shiftr offset 16) ;;
  boutb 0x1F6 (Z.lor (Z.shiftr offset 24) 0xE0) ;;
  boutb 0x1F7 0x20 ;;
  waitdisk patience ;;
  binsl dst (Z.to_nat (SECTSIZE / 4)).

(** [while (pa < end_pa)] *)
Fixpoint readseg_loop (fuel patience : nat) (pa end_pa offset : Z) : BM () :=
  match fuel with
  | O => undef "readseg: out of fuel"
  | S fuel =>
      if pa <? end_pa then
        readsect patience pa offset ;;
        readseg_loop fuel patience (u32 (pa + SECTSIZE)) end_pa (u32 (offset + 1))
      else mret tt
  end.

Definition readseg (fuel patience : nat) (pa count offset : Z) : BM () :=
  let end_pa := u32 (pa + count) in
  let pa := Z.land pa (u32 (Z.lnot (SECTSIZE - 1))) in
  let offset := offset / SECTSIZE + 1 in
  readseg_loop fuel patience pa end_pa offset.

(** [for (i = 0; i < ph->p_memsz - ph->p_filesz; i++)]: [i] is an [int] and the
    comparison is unsigned; [i++] past [INT_MAX] is undefined. *)
Fixpoint zero_loop (fuel : nat) (ph i : Z) : BM () :=
  match fuel with
  | O => undef "bootmain: out of fuel"
  | S fuel =>
      p_memsz ← bload32 (ph + 20);
      p_filesz ← bload32 (ph + 16);
      if u32 i <? u32 (p_memsz - p_filesz) then
        p_pa ← bload32 (ph + 12);
        p_filesz ← bload32 (ph + 16);
        modify (λ s, mkB (b_dev s) (store8 (b_mem s) (u32 (p_pa + p_filesz + i)) 0)) ;;
        if i =? 2147483647 then undef "bootmain: i overflows" else zero_loop fuel ph (i + 1)
      else mret tt
  end.

(** One iteration of [for (; ph < eph; ph++)]. *)
Definition boot_segment (fuel patience : nat) (ph : Z) : BM () :=
  p_pa ← bload32 (ph + 12);
  p_memsz ← bload32 (ph + 20);
  p_offset ← bload32 (ph + 4);
  readseg fuel patience p_pa p_memsz p_offset ;;
  zero_loop fuel ph 0.

(** The result is the address that is called; a bad image ends in the loop.  The
    program headers are an array in memory: [ph] does not wrap on the way to
    [eph]. *)
Definition bootmain (fuel patience : nat) : BM Z :=
  readseg fuel patience ELFHDR (SECTSIZE * 8) 0 ;;
  e_magic ← bload32 ELFHDR;
  if negb (e_magic =? ELF_MAGIC) then
    boutw 0x8A00 0x8A00 ;; boutw 0x8A00 0x8E00 ;; stopM SHalt
  else
    e_phoff ← bload32 (ELFHDR + 28);
    let ph := u32 (ELFHDR + e_phoff) in
    e_phnum ← bload16 (ELFHDR + 44);
    forM (zrange 0 e_phnum) (λ i, boot_segment fuel patience (ph + 32 * i)) ;;
    bload32 (ELFHDR + 24).
End boot.
Arguments bst : clear implicits.

(** ** The protocol *)

(** The status port polled until it shows ready. *)
Fixpoint dev_wait {D} `{Disk D} (n : nat) (d : D) : option D :=
  match n with
  | O => None
  | S n =>
      let r := disk_in 0x1F7 d in
      if Z.land (u8 (fst r)) 0xC0 =? 0x40 then Some (snd r) else dev_wait n (snd r)
  end.

(** [n] words read from the data port. *)
Fixpoint dev_words {D} `{Disk D} (n : nat) (d : D) : list Z * D :=
  match n with
  | O => ([], d)
  | S n => let r := disk_inl d in let q := dev_words n (snd r) in (fst r :: fst q, snd q)
  end.

(** The command to read one sector. *)
Definition dev_command {D} `{Disk D} (lba : Z) (d : D) : D :=
  disk_out 0x1F7 0x20 (disk_out 0x1F6 (u8 (Z.lor (Z.shiftr lba 24) 0xE0)) (disk_out 0x1F5 (u8 (Z.shiftr lba 16))
    (disk_out 0x1F4 (u8 (Z.shiftr lba 8)) (disk_out 0x1F3 (u8 lba) (disk_out 0x1F2 1 d))))).

(** What a disk with contents [disk] promises, between commands ([idle]): it gets
    ready, and the words it then gives are those of the sector asked for. *)
Class DiskLaws (D : Type) `{Disk D} (disk : mem) (patience : nat) (idle : D → Prop) : Prop := {
  disk_ready d : idle d → ∃ d', dev_wait patience d = Some d' ∧ idle d';
  disk_read d lba : idle d → 0 ≤ lba < 268435456 →
    ∃ d' d'', dev_wait patience (dev_command lba d) = Some d' ∧
      dev_words 128 d' = ((λ i, load32 disk (512 * lba + 4 * i)) <$> zrange 0 128, d'') ∧ idle d'';
}.

Section reads.
Context {D : Type} `{DiskLaws D disk patience idle}.

Lemma waitdisk_run n (d d' : D) m : dev_wait n d = Some d' → waitdisk n (mkB d m) = (Ret tt, mkB d' m).
Proof.
  revert d. induction n as [|n IH]; intros d E; [discriminate E|]. cbn [waitdisk dev_wait] in *.
  rewrite run_bind. unfold binb. cbn [b_dev b_mem]. destruct (Z.land _ 0xC0 =? 0x40).
  - by injection E as ->.
  - by apply IH.
Qed.

Lemma binsl_run n dst (d : D) m :
  binsl dst n (mkB d m) = (Ret tt, mkB (snd (dev_words n d)) (store_words m dst (fst (dev_words n d)))).
Proof.
  revert dst d m. induction n as [|n IH]; intros dst d m; [done|]. cbn [binsl dev_words].
  rewrite run_bind, run_modify. cbn [b_dev b_mem]. by rewrite IH.
Qed.

(** [m] with [n] bytes of the disk from [from] at [to]. *)
Definition loaded (m : mem) (to from n : Z) : mem := λ a, if decide (to ≤ a < to + n) then disk (from + (a - to)) else m a.

Lemma load8_loaded m to from n a :
  load8 (loaded m to from n) a = if decide (to ≤ a < to + n) then load8 disk (from + (a - to)) else load8 m a.
Proof. unfold load8, loaded. by case_decide. Qed.

Lemma load32_byte m a j : 0 ≤ j < 4 → u8 (load32 m a / 256 ^ j) = load8 m (a + j).
Proof.
  intros Hj. unfold load32, load8.
  assert (j = 0 ∨ j = 1 ∨ j = 2 ∨ j = 3) as [->|[->|[->| ->]]] by lia; rewrite ?Z.add_0_r;
    [change (256 ^ 0) with 1|change (256 ^ 1) with 256|change (256 ^ 2) with 65536|change (256 ^ 3) with 16777216];
    unfold u8; lia.
Qed.

Lemma readsect_run dst lba (d : D) m : idle d → 0 ≤ lba < 268435456 →
  ∃ d' m', readsect patience dst lba (mkB d m) = (Ret tt, mkB d' m') ∧ idle d' ∧ mem_eq m' (loaded m dst (512 * lba) 512).
Proof.
  intros Hi Hl. destruct (disk_ready d Hi) as (d1 & E1 & I1).
  destruct (disk_read d1 lba I1 Hl) as (d2 & d3 & E2 & E3 & I3).
  eexists d3, _. split; [|split; [exact I3|]].
  - unfold readsect. rewrite run_bind, (waitdisk_run _ _ _ _ E1). unfold boutb. repeat (rewrite run_bind, run_modify).
    cbn [b_dev b_mem]. change (u8 1) with 1. change (u8 0x20) with 0x20. fold (dev_command lba d1).
    rewrite run_bind, (waitdisk_run _ _ _ _ E2). change (Z.to_nat (SECTSIZE / 4)) with 128%nat. rewrite binsl_run, E3. reflexivity.
  - intros a. cbn [fst]. rewrite load8_loaded. case_decide as Hd.
    + assert (∃ i j, a = dst + 4 * i + j ∧ 0 ≤ i < 128 ∧ 0 ≤ j < 4) as (i & j & -> & Hir & Hj)
        by (exists ((a - dst) / 4), ((a - dst) mod 4); lia).
      pose proof (load32_store_words m dst ((λ i, load32 disk (512 * lba + 4 * i)) <$> zrange 0 128) (Z.to_nat i)) as Hw.
      rewrite length_fmap, zrange_length, Z2Nat.id in Hw by lia. specialize (Hw ltac:(lia)).
      rewrite (nth_lookup_Some _ _ 0 (load32 disk (512 * lba + 4 * i))) in Hw
        by (rewrite list_lookup_fmap, lookup_zrange by lia; simpl; do 3 f_equal; lia).
      rewrite u32_load32 in Hw. rewrite <- (load32_byte _ (dst + 4 * i) j Hj), Hw, load32_byte by exact Hj. f_equal. lia.
    + rewrite load8_store_words; [done|]. rewrite length_fmap, zrange_length. lia.
Qed.

Lemma readseg_loop_run n fuel pa end_ off (d : D) m :
  idle d → (n < fuel)%nat → 0 ≤ pa → pa mod 512 = 0 → 0 ≤ off → off + Z.of_nat n ≤ 268435456 →
  end_ ≤ pa + 512 * Z.of_nat n → (pa + 512 * Z.of_nat n < end_ + 512 ∨ n = 0%nat) → pa + 512 * Z.of_nat n < 4294967296 →
  ∃ d' m', readseg_loop fuel patience pa end_ off (mkB d m) = (Ret tt, mkB d' m') ∧ idle d' ∧
    mem_eq m' (loaded m pa (512 * off) (512 * Z.of_nat n)).
Proof.
  revert fuel pa off d m. induction n as [|n IH]; intros fuel pa off d m Hi Hf Hp Hal Hoff Hmax He1 He2 Hw;
    (destruct fuel as [|fuel]; [lia|]); cbn [readseg_loop].
  - destruct (Z.ltb_spec pa end_); [lia|]. exists d, m. split; [done|]. split; [exact Hi|]. intros a.
    rewrite load8_loaded, decide_False by lia. done.
  - destruct (Z.ltb_spec pa end_); [|lia].
    destruct (readsect_run pa off d m Hi ltac:(lia)) as (d1 & m1 & E1 & I1 & S1).
    destruct (IH fuel (pa + 512) (off + 1) d1 m1) as (d2 & m2 & E2 & I2 & S2); try lia; try exact I1.
    exists d2, m2. split; [|split; [exact I2|]].
    + rewrite run_bind, E1. unfold SECTSIZE. rewrite !u32_small by lia. exact E2.
    + intros a. rewrite S2, load8_loaded. case_decide.
      * rewrite load8_loaded, decide_True by lia. f_equal. lia.
      * rewrite S1, !load8_loaded. case_decide; case_decide; try lia; done.
Qed.

Lemma land_sector_mask a : 0 ≤ a < 4294967296 → Z.land a (u32 (Z.lnot (SECTSIZE - 1))) = a / 512 * 512.
Proof.
  intros Ha. change (u32 _) with (Z.shiftl (Z.ones 23) 9). apply Z.bits_inj'. intros k Hk.
  rewrite Z.land_spec. change (a / 512 * 512) with (a / 2 ^ 9 * 2 ^ 9).
  rewrite <- Z.shiftr_div_pow2, <- Z.shiftl_mul_pow2 by lia. rewrite !Z.shiftl_spec by lia.
  destruct (Z.lt_ge_cases k 9); [rewrite !(Z.testbit_neg_r _ (k - 9)) by lia; apply andb_false_r|].
  rewrite Z.shiftr_spec by lia. replace (k - 9 + 9) with k by lia. destruct (Z.lt_ge_cases k 32).
  - rewrite Z.ones_spec_low by lia. apply andb_true_r.
  - rewrite (testbit_high a 32) by lia. done.
Qed.

(** The sectors [readseg] reads. *)
Definition sectors (pa count : Z) : Z := (pa + count - pa / 512 * 512 + 511) / 512.

Lemma readseg_run fuel pa count off (d : D) m :
  idle d → 0 ≤ pa → 0 ≤ count → pa + count + 512 < 4294967296 → 0 ≤ off < 4294967296 → sectors pa count < Z.of_nat fuel →
  ∃ d' m', readseg fuel patience pa count off (mkB d m) = (Ret tt, mkB d' m') ∧ idle d' ∧
    mem_eq m' (loaded m (pa / 512 * 512) (512 * (off / 512 + 1)) (512 * sectors pa count)).
Proof.
  intros Hi Hp Hc Hw Ho Hf. unfold readseg. rewrite land_sector_mask by lia. rewrite u32_small by lia. unfold SECTSIZE.
  assert (0 ≤ sectors pa count ∧ pa + count ≤ pa / 512 * 512 + 512 * sectors pa count < pa + count + 512) as [Hs0 Hs]
    by (unfold sectors; lia).
  destruct (readseg_loop_run (Z.to_nat (sectors pa count)) fuel (pa / 512 * 512) (pa + count) (off / 512 + 1) d m)
    as (d1 & m1 & E & I & S); rewrite ?Z2Nat.id in * by lia; try lia; try exact Hi.
  by exists d1, m1.
Qed.

(** ** The image *)

(** Byte [j] of the image is byte [512 + j] of the disk: the boot loader is the
    first sector.  The fields of the ELF header and of program header [i]. *)
Definition img32 (j : Z) : Z := load32 disk (512 + j).
Definition e_entry : Z := img32 24.
Definition e_phoff : Z := img32 28.
Definition e_phnum : Z := load16 disk (512 + 44).
Definition p_offset (i : Z) : Z := img32 (e_phoff + 32 * i + 4).
Definition p_pa (i : Z) : Z := img32 (e_phoff + 32 * i + 12).
Definition p_filesz (i : Z) : Z := img32 (e_phoff + 32 * i + 16).
Definition p_memsz (i : Z) : Z := img32 (e_phoff + 32 * i + 20).

(** The sectors of segment [i] in memory. *)
Definition seg_start (i : Z) : Z := p_pa i / 512 * 512.
Definition seg_end (i : Z) : Z := seg_start i + 512 * sectors (p_pa i) (p_memsz i).

(** The images the boot loader can load: the headers are in the first eight
    sectors; a segment is as far into a sector in the image as in memory, clear of
    the header in memory and below the top of memory, and what there is to zero can
    be counted by an [int]; the sectors a segment is
    read with do not reach into the segments before it. *)
Record bootable : Prop := {
  img_magic : img32 0 = ELF_MAGIC;
  img_headers : e_phoff + 32 * e_phnum ≤ 4096;
  img_offset i : 0 ≤ i < e_phnum → p_offset i mod 512 = p_pa i mod 512;
  img_sizes i : 0 ≤ i < e_phnum → p_filesz i ≤ p_memsz i ∧ p_pa i + p_memsz i + 512 < 4294967296;
  img_bss i : 0 ≤ i < e_phnum → p_memsz i - p_filesz i ≤ 2147483647;
  img_clear i : 0 ≤ i < e_phnum → seg_end i ≤ ELFHDR ∨ ELFHDR + 4096 ≤ seg_start i;
  img_order i j : 0 ≤ i < j → j < e_phnum → p_pa i + p_memsz i ≤ seg_start j ∨ seg_end j ≤ p_pa i;
}.

(** Byte [k] of segment [i]. *)
Definition segment_byte (i k : Z) : Z := if decide (k < p_filesz i) then load8 disk (512 + p_offset i + k) else 0.

(** The header is in memory. *)
Definition header (m : mem) : Prop := ∀ k, 0 ≤ k < 4096 → load8 m (ELFHDR + k) = load8 disk (512 + k).
(** The first [n] segments are. *)
Definition segments (n : Z) (m : mem) : Prop :=
  ∀ i k, 0 ≤ i < n → 0 ≤ k < p_memsz i → load8 m (p_pa i + k) = segment_byte i k.

Lemma header_load32 m k : header m → 0 ≤ k → k + 4 ≤ 4096 → load32 m (ELFHDR + k) = img32 k.
Proof.
  intros Hh H1 H2. apply load32_bytes_eq. intros j Hj. rewrite <- !Z.add_assoc. apply Hh. lia.
Qed.

Lemma e_phoff_range : 0 ≤ e_phoff < 4294967296.
Proof. apply load32_range. Qed.
Lemma e_phnum_range : 0 ≤ e_phnum < 65536.
Proof. unfold e_phnum, load16. pose proof (load8_range disk (512 + 44)). pose proof (load8_range disk (512 + 44 + 1)). lia. Qed.

Lemma seg_bounds i : 0 ≤ seg_start i ≤ p_pa i ∧ p_pa i + p_memsz i ≤ seg_end i.
Proof.
  unfold seg_end, seg_start, sectors. pose proof (load32_range disk (512 + (e_phoff + 32 * i + 12))).
  pose proof (load32_range disk (512 + (e_phoff + 32 * i + 20))). unfold p_pa, p_memsz, img32. lia.
Qed.

Section image.
Context (Hb : bootable).

(** A field of program header [i] in memory. *)
Lemma ph_load32 m i k : header m → 0 ≤ i < e_phnum → 0 ≤ k ≤ 28 →
  load32 m (u32 (ELFHDR + e_phoff) + 32 * i + k) = img32 (e_phoff + 32 * i + k).
Proof.
  intros Hh Hi Hk. pose proof (img_headers Hb) as Hp. pose proof e_phoff_range.
  rewrite u32_small by (unfold ELFHDR; lia). rewrite <- !Z.add_assoc, !Z.add_assoc, <- !Z.add_assoc.
  apply header_load32; [done|lia|lia].
Qed.

(** The bytes past [p_filesz] are zeroed. *)
Lemma zero_loop_run fuel i x (d : D) m : header m → 0 ≤ i < e_phnum → 0 ≤ x → x ≤ p_memsz i - p_filesz i →
  p_memsz i - p_filesz i - x < Z.of_nat fuel →
  ∃ m', zero_loop fuel (u32 (ELFHDR + e_phoff) + 32 * i) x (mkB d m) = (Ret tt, mkB d m') ∧
    ∀ a, load8 m' a = if decide (p_pa i + p_filesz i + x ≤ a < p_pa i + p_memsz i) then 0 else load8 m a.
Proof.
  revert x m. induction fuel as [|fuel IH]; intros x m Hh Hi Hx Hle Hf; [lia|]. cbn [zero_loop].
  destruct (img_sizes Hb i Hi) as [Hs1 Hs2]. pose proof (seg_bounds i) as [Hg1 Hg2].
  pose proof (load32_range disk (512 + (e_phoff + 32 * i + 16))) as Hfr. change (load32 disk _) with (p_filesz i) in Hfr.
  rewrite run_bind. unfold bload32 at 1. rewrite run_gets. cbn [b_mem]. rewrite ph_load32 by (try done; lia).
  rewrite run_bind. unfold bload32 at 1. rewrite run_gets. cbn [b_mem]. rewrite ph_load32 by (try done; lia).
  fold (p_memsz i) (p_filesz i). pose proof (img_bss Hb i Hi) as Hbss.
  rewrite (u32_small (_ - _)), (u32_small x) by lia. destruct (Z.ltb_spec x (p_memsz i - p_filesz i)).
  - rewrite run_bind. unfold bload32 at 1. rewrite run_gets. cbn [b_mem]. rewrite ph_load32 by (try done; lia).
    rewrite run_bind. unfold bload32 at 1. rewrite run_gets. cbn [b_mem]. rewrite ph_load32 by (try done; lia).
    rewrite run_bind, run_modify. cbn [b_dev b_mem]. fold (p_pa i) (p_filesz i). rewrite (u32_small (p_pa i + p_filesz i + x)) by lia.
    destruct (Z.eqb_spec x 2147483647); [lia|].
    destruct (IH (x + 1) (store8 m (p_pa i + p_filesz i + x) 0)) as (m' & E & Hm); try lia.
    + intros k Hk. rewrite load8_store8, decide_False; [by apply Hh|].
      destruct (img_clear Hb i Hi); lia.
    + exists m'. split; [exact E|]. intros a. rewrite Hm, load8_store8. repeat case_decide; try lia; done.
  - exists m. split; [done|]. intros a. by rewrite decide_False by lia.
Qed.

(** One segment: it is loaded, and nothing outside its sectors changes. *)
Lemma boot_segment_run fuel i (d : D) m : idle d → header m → 0 ≤ i < e_phnum → p_memsz i + 10 < Z.of_nat fuel →
  ∃ d' m', boot_segment fuel patience (u32 (ELFHDR + e_phoff) + 32 * i) (mkB d m) = (Ret tt, mkB d' m') ∧ idle d' ∧
    (∀ k, 0 ≤ k < p_memsz i → load8 m' (p_pa i + k) = segment_byte i k) ∧
    (∀ a, ¬ seg_start i ≤ a < seg_end i → load8 m' a = load8 m a).
Proof.
  intros Hi Hh Hr Hf. destruct (img_sizes Hb i Hr) as [Hs1 Hs2]. pose proof (seg_bounds i) as [Hg1 Hg2].
  pose proof (img_offset Hb i Hr) as Ho. pose proof (img_clear Hb i Hr) as Hc.
  pose proof (load32_range disk (512 + (e_phoff + 32 * i + 4))) as Hor. change (load32 disk _) with (p_offset i) in Hor.
  pose proof (load32_range disk (512 + (e_phoff + 32 * i + 16))) as Hfr. change (load32 disk _) with (p_filesz i) in Hfr.
  destruct (readseg_run fuel (p_pa i) (p_memsz i) (p_offset i) d m Hi) as (d1 & m1 & E1 & I1 & S1);
    try (unfold sectors; lia).
  assert (header m1) as Hh1.
  { intros k Hk. rewrite S1, load8_loaded. fold (seg_start i) (seg_end i). rewrite decide_False by lia. by apply Hh. }
  destruct (zero_loop_run fuel i 0 d1 m1 Hh1 Hr) as (m2 & E2 & S2); try lia.
  exists d1, m2. split; [|split; [exact I1|split]].
  - unfold boot_segment, bload32. do 3 (rewrite run_bind, run_gets; cbn [b_mem]; rewrite ph_load32 by (try done; lia)).
    rewrite run_bind. fold (p_pa i) (p_memsz i) (p_offset i). rewrite E1. exact E2.
  - intros k Hk. rewrite S2, S1, load8_loaded. fold (seg_start i). fold (seg_end i). unfold segment_byte.
    repeat case_decide; try lia; try done. f_equal. unfold seg_start in *. lia.
  - intros a Ha. rewrite S2, S1, load8_loaded. fold (seg_start i). fold (seg_end i). by rewrite !decide_False by lia.
Qed.

(** C24: the boot loader loads the kernel.  On a disk that keeps the ATA protocol
    and holds a bootable image, [bootmain] returns - the polling of the status port
    ends - with the image's entry point, every byte of every segment in memory (the
    image's bytes, then zeros up to [p_memsz]), and no memory changed outside the
    header's page and the segments' sectors. *)
Theorem bootmain_loads fuel (d : D) m :
  idle d → 10 < Z.of_nat fuel → (∀ i, 0 ≤ i < e_phnum → p_memsz i + 10 < Z.of_nat fuel) →
  ∃ d' m', bootmain fuel patience (mkB d m) = (Ret e_entry, mkB d' m') ∧ idle d' ∧ segments e_phnum m' ∧
    ∀ a, ¬ ELFHDR ≤ a < ELFHDR + 4096 → (∀ i, 0 ≤ i < e_phnum → ¬ seg_start i ≤ a < seg_end i) → load8 m' a = load8 m a.
Proof.
  intros Hi Hf Hfs. pose proof e_phoff_range. pose proof e_phnum_range. pose proof (img_headers Hb) as Hp.
  destruct (readseg_run fuel ELFHDR (SECTSIZE * 8) 0 d m Hi) as (d1 & m1 & E1 & I1 & S1);
    try (unfold sectors, SECTSIZE, ELFHDR; lia).
  assert (∀ a, load8 m1 a = if decide (ELFHDR ≤ a < ELFHDR + 4096) then load8 disk (512 + (a - ELFHDR)) else load8 m a) as S1'.
  { intros a. by rewrite S1, load8_loaded. }
  assert (header m1) as Hh1 by (intros k Hk; rewrite S1', decide_True by lia; f_equal; lia).
  destruct (forM_zrange (λ n s, idle (b_dev s) ∧ header (b_mem s) ∧ segments n (b_mem s) ∧
      ∀ a, ¬ ELFHDR ≤ a < ELFHDR + 4096 → (∀ i, 0 ≤ i < e_phnum → ¬ seg_start i ≤ a < seg_end i) → load8 (b_mem s) a = load8 m a)
    (λ i, boot_segment fuel patience (u32 (ELFHDR + e_phoff) + 32 * i)) e_phnum (mkB d1 m1))
    as ([d2 m2] & E2 & I2 & Hh2 & S2 & F2); cbn [b_dev b_mem] in *.
  - lia.
  - split; [exact I1|split; [exact Hh1|split]]; [intros i k Hik; lia|]. intros a Ha _. by rewrite S1', decide_False.
  - intros n [d0 m0] Hn (I0 & H0' & S0 & F0). cbn [b_dev b_mem] in *.
    destruct (boot_segment_run fuel n d0 m0 I0 H0' Hn (Hfs n Hn)) as (d3 & m3 & E3 & I3 & S3 & F3).
    exists (mkB d3 m3). cbn [b_dev b_mem]. split; [exact E3|split; [exact I3|split; [|split]]].
    + intros k Hk. rewrite F3; [by apply H0'|]. destruct (img_clear Hb n Hn); lia.
    + intros i k Hik Hk. destruct (decide (i = n)) as [->|Hne]; [by apply S3|].
      rewrite F3; [by apply S0; lia|]. destruct (img_order Hb i n ltac:(lia) ltac:(lia)); lia.
    + intros a Ha Hs. rewrite F3 by (by apply Hs). by apply F0.
  - exists d2, m2. split; [|by split; [exact I2|split]].
    unfold bootmain, bload32, bload16. rewrite run_bind, E1. cbv beta iota. rewrite run_bind, run_gets. cbn [b_mem].
    replace (load32 m1 ELFHDR) with (img32 0) by (symmetry; apply (header_load32 m1 0 Hh1); lia).
    rewrite (img_magic Hb), Z.eqb_refl.
    cbn [negb]. rewrite run_bind, run_gets. cbn [b_mem]. rewrite (header_load32 m1 28 Hh1) by lia. fold e_phoff.
    rewrite run_bind, run_gets. cbn [b_mem].
    replace (load16 m1 (ELFHDR + 44)) with e_phnum
      by (unfold load16; rewrite <- Z.add_assoc, !Hh1 by lia; unfold e_phnum, load16; f_equal; f_equal; f_equal; lia).
    rewrite run_bind, E2. cbv beta iota. rewrite run_gets. cbn [b_mem]. by rewrite (header_load32 m2 24 Hh2) by lia.
Qed.
End image.
End reads.

(** ** An ATA disk *)

(** The command block registers, the words already read, and whether a command has
    just been given. *)
Record ata := mkAta { ata_data : mem; ata_regs : Z → Z; ata_pos : Z; ata_busy : bool }.

(** The 28-bit address the registers hold. *)
Definition ata_lba (d : ata) : Z :=
  ata_regs d 0x1F3 + 256 * ata_regs d 0x1F4 + 65536 * ata_regs d 0x1F5 + 16777216 * (ata_regs d 0x1F6 mod 16).

#[export] Instance ata_disk : Disk ata := {|
  disk_in port d := if port =? 0x1F7
    then (if ata_busy d then 0x80 else 0x40, mkAta (ata_data d) (ata_regs d) (ata_pos d) false) else (0, d);
  disk_out port v d := if port =? 0x1F7
    then mkAta (ata_data d) (ata_regs d) (if v =? 0x20 then 0 else ata_pos d) true
    else mkAta (ata_data d) (<[port := v]> (ata_regs d)) (ata_pos d) (ata_busy d);
  disk_inl d := (load32 (ata_data d) (512 * ata_lba d + 4 * ata_pos d),
                 mkAta (ata_data d) (ata_regs d) (ata_pos d + 1) (ata_busy d));
|}.

Lemma ata_words n (d : ata) :
  dev_words n d = ((λ i, load32 (ata_data d) (512 * ata_lba d + 4 * i)) <$> zrange (ata_pos d) (Z.of_nat n),
                   mkAta (ata_data d) (ata_regs d) (ata_pos d + Z.of_nat n) (ata_busy d)).
Proof.
  revert d. induction n as [|n IH]; intros d; [cbn; by rewrite Z.add_0_r; destruct d|].
  cbn [dev_words disk_inl ata_disk fst snd]. rewrite IH. cbn [fst snd ata_data ata_pos ata_regs ata_busy].
  rewrite Nat2Z.inj_succ, <- Z.add_1_r, (Z.add_comm (Z.of_nat n)), (zrange_cons (ata_pos d)) by lia. cbn [fmap list_fmap].
  rewrite (Z.add_assoc (ata_pos d)). replace (1 + Z.of_nat n - 1) with (Z.of_nat n) by lia. reflexivity.
Qed.

(** The four address bytes [readsect] writes make up the sector's number. *)
Lemma command_lba lba (d : ata) : 0 ≤ lba < 268435456 → ata_lba (dev_command lba d) = lba.
Proof.
  intros Hl. unfold ata_lba, dev_command, disk_out, ata_disk. cbn [Z.eqb Pos.eqb ata_regs].
  rewrite !upd_case. repeat (case_decide; [try done; try lia|try done; try lia]).
  assert (u8 (Z.lor (Z.shiftr lba 24) 0xE0) mod 16 = lba / 16777216) as ->.
  { rewrite (Z.shiftr_div_pow2 lba 24) by lia. change (2 ^ 24) with 16777216.
    assert (0 ≤ lba / 16777216 < 16) as Hx by lia. set (x := lba / 16777216) in *. clearbody x.
    rewrite <- (Z.land_ones _ 4) by lia. unfold u8. rewrite <- (Z.land_ones _ 8) by lia.
    rewrite <- Z.land_assoc. change (Z.land (Z.ones 8) (Z.ones 4)) with (Z.ones 4).
    rewrite Z.land_lor_distr_l. change (Z.land 224 (Z.ones 4)) with 0. rewrite Z.lor_0_r, Z.land_ones by lia. lia. }
  rewrite (Z.shiftr_div_pow2 lba 8), (Z.shiftr_div_pow2 lba 16) by lia. unfold u8. lia.
Qed.

(** The disk keeps the protocol. *)
#[export] Instance ata_laws (disk : mem) : DiskLaws ata disk 2 (λ d, ata_data d = disk).
Proof.
  split.
  - intros d Hd. cbn [dev_wait disk_in ata_disk]. destruct (ata_busy d); cbn; by eexists.
  - intros d lba Hd Hl. eexists (mkAta disk (ata_regs (dev_command lba d)) 0 false), (mkAta disk (ata_regs (dev_command lba d)) 128 false).
    split; [|split; [|reflexivity]].
    + cbn. by rewrite Hd.
    + rewrite ata_words. change (ata_lba _) with (ata_lba (dev_command lba d)). by rewrite command_lba.
Qed.

(** A small image: two segments, one with a tail to zero. *)
Definition img_disk : mem :=
  fold_right (λ w m, store32 m (512 + fst w) (snd w)) (λ _, 0)
    [(0, ELF_MAGIC); (24, 0x10000C); (28, 52); (44, 2);
     (56, 0x1000); (64, 0x100000); (68, 3); (72, 5); (88, 0x1200); (96, 0x101000); (100, 4); (104, 4);
     (0x1000, 0x04030201); (0x1200, 0x08070605)].

Lemma img_bootable : bootable (disk := img_disk).
Proof.
  assert (e_phnum (disk := img_disk) = 2) as En by (vm_compute; reflexivity).
  assert (∀ i, 0 ≤ i < 2 → i = 0 ∨ i = 1) as H2 by lia.
  split; rewrite ?En.
  - vm_compute; reflexivity.
  - vm_compute; congruence.
  - intros i [->| ->]%H2; vm_compute; reflexivity.
  - intros i [->| ->]%H2; vm_compute; split; congruence.
  - intros i [->| ->]%H2; vm_compute; congruence.
  - intros i [->| ->]%H2; right; vm_compute; congruence.
  - intros i j Hi Hj. assert (i = 0 ∧ j = 1) as [-> ->] by lia. left. vm_compute. congruence.
Qed.

Lemma bootmain_loads_witness : ∃ d' m',
  bootmain 100 2 (mkB (mkAta img_disk (λ _, 0) 0 false) (λ _, 7)) = (Ret 0x10000C, mkB d' m') ∧
  load8 m' 0x100000 = 1 ∧ load8 m' 0x100003 = 0 ∧ load8 m' 0x101003 = 8 ∧ load8 m' 0x90000 = 7.
Proof.
  destruct (bootmain_loads (disk := img_disk) (patience := 2) (idle := λ d, ata_data d = img_disk) img_bootable 100
    (mkAta img_disk (λ _, 0) 0 false) (λ _, 7)) as (d' & m' & E & _ & S & F);
    [reflexivity|vm_compute; reflexivity| |].
  - intros i Hi. assert (i = 0 ∨ i = 1) as [->| ->] by (change (e_phnum (disk := img_disk)) with 2 in Hi; lia);
      vm_compute; reflexivity.
  - exists d', m'. split; [exact E|split; [|split; [|split]]].
    + apply (S 0 0); [vm_compute; split; congruence|vm_compute; split; congruence].
    + apply (S 0 3); [vm_compute; split; congruence|vm_compute; split; congruence].
    + apply (S 1 3); [vm_compute; split; congruence|vm_compute; split; congruence].
    + rewrite F; [reflexivity|vm_compute; intros [H1 H2]; congruence|].
      intros i Hi. assert (i = 0 ∨ i = 1) as [->| ->] by (change (e_phnum (disk := img_disk)) with 2 in Hi; lia);
        vm_compute; intros [H1 H2]; congruence.
Defined.
