(* ===== verification/MemInit.v ===== *)
(** * kern/pmap.c: boot-time set-up and self tests

    [mem_init] and [mem_init_mp], and the checking functions they call.  The
    linker's and the loader's values are parameters; no environment runs yet,
    so [curenv] is NULL. *)
From S2P Require Import Prelude Monad Word Layout Mem CString PageAlloc PageTable PageInv PageOps KState Env.

(** [sizeof] of [struct PageInfo] and [struct Env] (inc/memlayout.h, inc/env.h). *)
Definition sizeof_PageInfo := 8.
Definition sizeof_Env := 124.

Definition CR0_PE := 0x00000001.
Definition CR0_MP := 0x00000002.
Definition CR0_EM := 0x00000004.
Definition CR0_TS := 0x00000008.
Definition CR0_NE := 0x00000020.
Definition CR0_WP := 0x00010000.
Definition CR0_AM := 0x00040000.
Definition CR0_PG := 0x80000000.

Section checks.
(** [end]. *)
Context (kend : Z).

(** [for (pp = page_free_list; pp; pp = pp->pp_link)]; the list has at most
    [npages] elements. *)
Fixpoint for_list (fuel : nat) (pp : option Z) (body : Z → MM ()) : MM () :=
  match pp with
  | None => mret tt
  | Some p =>
      match fuel with
      | O => undef "page_free_list is cyclic"
      | S fuel =>
          body p ;;
          l ← gets (λ s, pp_link (pages s p));
          for_list fuel l body
      end
  end.
Definition for_free_list (body : Z → MM ()) : MM () :=
  n ← gets npages; fl ← gets page_free_list;
  for_list (Z.to_nat n) fl body.

(** *** [check_page_free_list] *)

(** The variables that [tp[0]] and [tp[1]] may point to. *)
Inductive cell := Pp1 | Pp2 | LinkOf (p : Z).
Record locals := mkLocals { v_pp1 : option Z; v_pp2 : option Z; tp0 : cell; tp1 : cell }.

Definition store_cell (c : cell) (x : option Z) (v : locals) : MM locals :=
  match c with
  | Pp1 => mret (mkLocals x (v_pp2 v) (tp0 v) (tp1 v))
  | Pp2 => mret (mkLocals (v_pp1 v) x (tp0 v) (tp1 v))
  | LinkOf p => modify (set_link p x) ;; mret v
  end.

Fixpoint split_list (fuel : nat) (pdx_limit : Z) (pp : option Z) (v : locals) : MM locals :=
  match pp with
  | None => mret v
  | Some p =>
      match fuel with
      | O => undef "page_free_list is cyclic"
      | S fuel =>
          let pagetype := pdx_limit <=? PDX (page2pa p) in
          v ← store_cell (if pagetype then tp1 v else tp0 v) (Some p) v;
          let v := if pagetype then mkLocals (v_pp1 v) (v_pp2 v) (tp0 v) (LinkOf p)
                   else mkLocals (v_pp1 v) (v_pp2 v) (LinkOf p) (tp1 v) in
          l ← gets (λ s, pp_link (pages s p));
          split_list fuel pdx_limit l v
      end
  end.

(** Low pages first; [pp1] and [pp2] are written before they are read. *)
Definition low_pages_first (pdx_limit : Z) : MM () :=
  n ← gets npages; fl ← gets page_free_list;
  v ← split_list (Z.to_nat n) pdx_limit fl (mkLocals None None Pp1 Pp2);
  v ← store_cell (tp1 v) None v;
  v ← store_cell (tp0 v) (v_pp2 v) v;
  modify (set_free_list (v_pp1 v)).

(** The assertions on one free page; the numbers of pages below and above
    [EXTPHYSMEM] are counted by the caller. *)
Definition check_free_page (first_free_page p : Z) : MM () :=
  n ← gets npages;
  assertM (0 <=? p) "pp >= pages" ;;
  assertM (p <? n) "pp < pages + npages" ;;
  assertM (negb (page2pa p =? 0)) "page2pa(pp) != 0" ;;
  assertM (negb (page2pa p =? IOPHYSMEM)) "page2pa(pp) != IOPHYSMEM" ;;
  assertM (negb (page2pa p =? EXTPHYSMEM - PGSIZE)) "page2pa(pp) != EXTPHYSMEM - PGSIZE" ;;
  assertM (negb (page2pa p =? EXTPHYSMEM)) "page2pa(pp) != EXTPHYSMEM" ;;
  (if page2pa p <? EXTPHYSMEM then mret tt
   else kva ← page2kva p; assertM (first_free_page <=? kva) "page2kva(pp) >= first_free_page") ;;
  assertM (negb (page2pa p =? MPENTRY_PADDR)) "page2pa(pp) != MPENTRY_PADDR".

Fixpoint check_free_pages (fuel : nat) (first_free_page : Z) (pp : option Z) (nfree_basemem nfree_extmem : Z)
  : MM (Z * Z) :=
  match pp with
  | None => mret (nfree_basemem, nfree_extmem)
  | Some p =>
      match fuel with
      | O => undef "page_free_list is cyclic"
      | S fuel =>
          check_free_page first_free_page p ;;
          let '(nb, ne) := if page2pa p <? EXTPHYSMEM then (nfree_basemem + 1, nfree_extmem)
                           else (nfree_basemem, nfree_extmem + 1) in
          l ← gets (λ s, pp_link (pages s p));
          check_free_pages fuel first_free_page l nb ne
      end
  end.

Definition check_page_free_list (only_low_memory : bool) : MM () :=
  let pdx_limit := if only_low_memory then 1 else NPDENTRIES in
  fl ← gets page_free_list;
  (if bool_decide (fl = None) then panic "'page_free_list' is a null pointer!" else mret tt) ;;
  (if only_low_memory then low_pages_first pdx_limit else mret tt) ;;
  for_free_list (λ p,
    if PDX (page2pa p) <? pdx_limit then kva ← page2kva p; kmemset kva 0x97 128 else mret tt) ;;
  first_free_page ← boot_alloc kend 0;
  n ← gets npages; fl ← gets page_free_list;
  '(nfree_basemem, nfree_extmem) ← check_free_pages (Z.to_nat n) first_free_page fl 0 0;
  assertM (0 <? nfree_basemem) "nfree_basemem > 0" ;;
  assertM (0 <? nfree_extmem) "nfree_extmem > 0".

(** *** [check_page_alloc] *)

(** [assert((pp = page_alloc(flags)))] *)
Definition must_alloc (flags : Z) : MM Z :=
  p ← page_alloc flags;
  match p with Some p => mret p | None => panic "assertion failed: page_alloc" end.
(** [assert(!page_alloc(0))] *)
Definition no_free_memory : MM () :=
  p ← page_alloc 0; assertM (bool_decide (p = None)) "!page_alloc(0)".

Fixpoint count_list (fuel : nat) (pp : option Z) (nfree : Z) (d : Z) : MM Z :=
  match pp with
  | None => mret nfree
  | Some p =>
      match fuel with
      | O => undef "page_free_list is cyclic"
      | S fuel => l ← gets (λ s, pp_link (pages s p)); count_list fuel l (nfree + d) d
      end
  end.
Definition count_free (nfree d : Z) : MM Z :=
  n ← gets npages; fl ← gets page_free_list; count_list (Z.to_nat n) fl nfree d.

Definition three_pages : MM (Z * Z * Z) :=
  pp0 ← must_alloc 0;
  pp1 ← must_alloc 0;
  pp2 ← must_alloc 0;
  assertM (negb (pp1 =? pp0)) "pp1 && pp1 != pp0" ;;
  assertM (negb (pp2 =? pp1) && negb (pp2 =? pp0)) "pp2 && pp2 != pp1 && pp2 != pp0" ;;
  mret (pp0, pp1, pp2).

Definition check_page_alloc : MM () :=
  nfree ← count_free 0 1;
  '(pp0, pp1, pp2) ← three_pages;
  n ← gets npages;
  assertM (page2pa pp0 <? u32 (n * PGSIZE)) "page2pa(pp0) < npages*PGSIZE" ;;
  assertM (page2pa pp1 <? u32 (n * PGSIZE)) "page2pa(pp1) < npages*PGSIZE" ;;
  assertM (page2pa pp2 <? u32 (n * PGSIZE)) "page2pa(pp2) < npages*PGSIZE" ;;
  fl ← gets page_free_list;
  modify (set_free_list None) ;;
  no_free_memory ;;
  page_free pp0 ;; page_free pp1 ;; page_free pp2 ;;
  '(pp0, pp1, pp2) ← three_pages;
  no_free_memory ;;
  kva ← page2kva pp0; kmemset kva 1 PGSIZE ;;
  page_free pp0 ;;
  pp ← must_alloc ALLOC_ZERO;
  assertM (pp0 =? pp) "pp && pp0 == pp" ;;
  c ← page2kva pp;
  forM (zrange 0 PGSIZE) (λ i,
    b ← gets (λ s, load8 (phys s) (c - KERNBASE + i)); assertM (b =? 0) "c[i] == 0") ;;
  modify (set_free_list fl) ;;
  page_free pp0 ;; page_free pp1 ;; page_free pp2 ;;
  nfree ← count_free nfree (-1);
  assertM (nfree =? 0) "nfree == 0".
End checks.

(** *** [check_page] and [check_page_installed_pgdir] *)

Definition expect (m : MM bool) (why : string) : MM () := b ← m; assertM b why.
Definition va2pa_is (va pa : Z) : MM () :=
  expect (kpd ← gets kern_pgdir; r ← check_va2pa kpd va; mret (r =? pa)) "check_va2pa".
Definition insert_is (pp va perm r : Z) : MM () :=
  expect (kpd ← gets kern_pgdir; x ← page_insert None kpd pp va perm; mret (x =? r)) "page_insert".
Definition insert_fails (pp va perm : Z) : MM () :=
  expect (kpd ← gets kern_pgdir; x ← page_insert None kpd pp va perm; mret (x <? 0)) "page_insert < 0".
Definition ref_is (pp r : Z) : MM () := expect (x ← gets (λ s, pp_ref (pages s pp)); mret (x =? r)) "pp_ref".
(** [*pgdir_walk(kern_pgdir, va, 0)] *)
Definition walked (va : Z) : MM Z :=
  kpd ← gets kern_pgdir; e ← pgdir_walk kpd va false;
  match e with Some e => mret e | None => undef "NULL pte" end.
Definition pte_has (va bits : Z) (want : bool) : MM () :=
  expect (e ← walked va; pte ← kload32 e; mret (Bool.eqb (flag pte bits) want)) "*pgdir_walk & perm".
Definition kern_pde (i : Z) : MM Z := kpd ← gets kern_pgdir; kload32 (kpd + 4 * i).
Definition set_kern_pde (i v : Z) : MM () := kpd ← gets kern_pgdir; kstore32 (kpd + 4 * i) v.
Definition alloc_is (pp : Z) : MM () :=
  expect (p ← page_alloc 0; mret (bool_decide (p = Some pp))) "(pp = page_alloc(0)) && pp == pp'".

(** Mapping, remapping and reference counts, with no free memory but what is
    freed explicitly. *)
Definition check_page_maps (pp0 pp1 pp2 : Z) : MM () :=
  expect (kpd ← gets kern_pgdir; r ← page_lookup kpd 0; mret (bool_decide (r = None)))
    "page_lookup(kern_pgdir, 0x0) == NULL" ;;
  insert_fails pp1 0 PTE_W ;;
  page_free pp0 ;;
  insert_is pp1 0 PTE_W 0 ;;
  expect (pde ← kern_pde 0; mret (PTE_ADDR pde =? page2pa pp0)) "PTE_ADDR(kern_pgdir[0])" ;;
  va2pa_is 0 (page2pa pp1) ;;
  ref_is pp1 1 ;; ref_is pp0 1 ;;
  insert_is pp2 PGSIZE PTE_W 0 ;;
  va2pa_is PGSIZE (page2pa pp2) ;; ref_is pp2 1 ;;
  no_free_memory ;;
  insert_is pp2 PGSIZE PTE_W 0 ;;
  va2pa_is PGSIZE (page2pa pp2) ;; ref_is pp2 1 ;;
  no_free_memory ;;
  pde ← kern_pde (PDX PGSIZE);
  ptep ← KADDR (PTE_ADDR pde);
  expect (e ← walked PGSIZE; mret (e =? ptep + 4 * PTX PGSIZE)) "pgdir_walk == ptep+PTX(PGSIZE)" ;;
  insert_is pp2 PGSIZE (Z.lor PTE_W PTE_U) 0 ;;
  va2pa_is PGSIZE (page2pa pp2) ;; ref_is pp2 1 ;;
  pte_has PGSIZE PTE_U true ;;
  expect (pde ← kern_pde 0; mret (flag pde PTE_U)) "kern_pgdir[0] & PTE_U" ;;
  insert_is pp2 PGSIZE PTE_W 0 ;;
  pte_has PGSIZE PTE_W true ;; pte_has PGSIZE PTE_U false ;;
  insert_fails pp0 PTSIZE PTE_W ;;
  insert_is pp1 PGSIZE PTE_W 0 ;;
  pte_has PGSIZE PTE_U false ;;
  va2pa_is 0 (page2pa pp1) ;; va2pa_is PGSIZE (page2pa pp1) ;;
  ref_is pp1 2 ;; ref_is pp2 0 ;;
  alloc_is pp2 ;;
  kpd ← gets kern_pgdir; page_remove None kpd 0 ;;
  va2pa_is 0 0xFFFFFFFF ;; va2pa_is PGSIZE (page2pa pp1) ;;
  ref_is pp1 1 ;; ref_is pp2 0 ;;
  insert_is pp1 PGSIZE 0 0 ;;
  expect (x ← gets (λ s, pages s pp1); mret (negb (pp_ref x =? 0) && bool_decide (pp_link x = None)))
    "pp1->pp_ref; pp1->pp_link == NULL" ;;
  kpd ← gets kern_pgdir; page_remove None kpd PGSIZE ;;
  va2pa_is 0 0xFFFFFFFF ;; va2pa_is PGSIZE 0xFFFFFFFF ;;
  ref_is pp1 0 ;; ref_is pp2 0 ;;
  alloc_is pp1 ;;
  no_free_memory.

(** Page-table pages: taken back by force, cleared when allocated. *)
Definition check_page_tables (pp0 : Z) : MM () :=
  expect (pde ← kern_pde 0; mret (PTE_ADDR pde =? page2pa pp0)) "PTE_ADDR(kern_pgdir[0]) == page2pa(pp0)" ;;
  set_kern_pde 0 0 ;;
  ref_is pp0 1 ;; modify (set_ref pp0 0) ;;
  page_free pp0 ;;
  let va := PGSIZE * NPDENTRIES + PGSIZE in
  kpd ← gets kern_pgdir;
  ptep ← pgdir_walk kpd va true;
  pde ← kern_pde (PDX va);
  ptep1 ← KADDR (PTE_ADDR pde);
  assertM (bool_decide (ptep = Some (ptep1 + 4 * PTX va))) "ptep == ptep1 + PTX(va)" ;;
  set_kern_pde (PDX va) 0 ;; modify (set_ref pp0 0) ;;
  kva ← page2kva pp0; kmemset kva 0xFF PGSIZE ;;
  page_free pp0 ;;
  kpd ← gets kern_pgdir; _ ← pgdir_walk kpd 0 true;
  ptep ← page2kva pp0;
  forM (zrange 0 NPTENTRIES) (λ i,
    pte ← kload32 (ptep + 4 * i); assertM (negb (flag pte PTE_P)) "(ptep[i] & PTE_P) == 0") ;;
  set_kern_pde 0 0 ;; modify (set_ref pp0 0).

(** The MMIO region. *)
Definition check_mmio : MM () :=
  mm1 ← mmio_map_region 0 4097;
  mm2 ← mmio_map_region 0 4096;
  assertM ((MMIOBASE <=? mm1) && (u32 (mm1 + 8192) <? MMIOLIM)) "mm1 >= MMIOBASE && mm1 + 8192 < MMIOLIM" ;;
  assertM ((MMIOBASE <=? mm2) && (u32 (mm2 + 8192) <? MMIOLIM)) "mm2 >= MMIOBASE && mm2 + 8192 < MMIOLIM" ;;
  assertM ((mm1 mod PGSIZE =? 0) && (mm2 mod PGSIZE =? 0)) "page-aligned" ;;
  assertM (u32 (mm1 + 8192) <=? mm2) "mm1 + 8192 <= mm2" ;;
  va2pa_is mm1 0 ;; va2pa_is (mm1 + PGSIZE) PGSIZE ;;
  va2pa_is mm2 0 ;; va2pa_is (mm2 + PGSIZE) 0xFFFFFFFF ;;
  pte_has mm1 (Z.lor (Z.lor PTE_W PTE_PWT) PTE_PCD) true ;; pte_has mm1 PTE_U false ;;
  e ← walked mm1; kstore32 e 0 ;;
  e ← walked (mm1 + PGSIZE); kstore32 e 0 ;;
  e ← walked mm2; kstore32 e 0.

Definition check_page : MM () :=
  '(pp0, pp1, pp2) ← three_pages;
  fl ← gets page_free_list;
  modify (set_free_list None) ;;
  no_free_memory ;;
  check_page_maps pp0 pp1 pp2 ;;
  check_page_tables pp0 ;;
  modify (set_free_list fl) ;;
  page_free pp0 ;; page_free pp1 ;; page_free pp2 ;;
  check_mmio.

(** A 32-bit access through the installed [kern_pgdir]. *)
Definition installed (va : Z) (write : bool) : MM Z :=
  kpd ← gets kern_pgdir; m ← gets phys;
  match vtrans m (kpd - KERNBASE) va write with
  | Some pa => mret pa
  | None => panic "page_fault in kernal mode"
  end.
Definition word_is (va w : Z) : MM () :=
  expect (pa ← installed va false; x ← gets (λ s, load32 (phys s) pa); mret (x =? w)) "*(uint32_t *)PGSIZE".

Definition check_page_installed_pgdir : MM () :=
  pp0 ← must_alloc 0;
  pp1 ← must_alloc 0;
  pp2 ← must_alloc 0;
  page_free pp0 ;;
  kva ← page2kva pp1; kmemset kva 1 PGSIZE ;;
  kva ← page2kva pp2; kmemset kva 2 PGSIZE ;;
  kpd ← gets kern_pgdir; _ ← page_insert None kpd pp1 PGSIZE PTE_W;
  ref_is pp1 1 ;;
  word_is PGSIZE 0x01010101 ;;
  kpd ← gets kern_pgdir; _ ← page_insert None kpd pp2 PGSIZE PTE_W;
  word_is PGSIZE 0x02020202 ;;
  ref_is pp2 1 ;; ref_is pp1 0 ;;
  pa ← installed PGSIZE true;
  modify (λ s, set_phys (store32 (phys s) pa 0x03030303) s) ;;
  expect (kva ← page2kva pp2; x ← kload32 kva; mret (x =? 0x03030303)) "*(uint32_t *)page2kva(pp2)" ;;
  kpd ← gets kern_pgdir; page_remove None kpd PGSIZE ;;
  ref_is pp2 0 ;;
  expect (pde ← kern_pde 0; mret (PTE_ADDR pde =? page2pa pp0)) "PTE_ADDR(kern_pgdir[0]) == page2pa(pp0)" ;;
  set_kern_pde 0 0 ;;
  ref_is pp0 1 ;; modify (set_ref pp0 0) ;;
  page_free pp0.

(** *** [check_kern_pgdir] and [mem_init] *)
Section init.
(** [end], [bootstack], [percpu_kstacks[i]]; the clock chip; CR0. *)
Context (kend bootstack : Z) (percpu_kstacks : Z → Z) (mc146818_read : Z → Z) (rcr0 : Z).

(** [for (i = 0; i < n; i += PGSIZE) assert(check_va2pa(pgdir, va + i) == pa + i)] *)
Definition check_range (n va : Z) (pa : Z → Z) : MM () :=
  forM (zrange 0 ((n + PGSIZE - 1) / PGSIZE)) (λ j, va2pa_is (u32 (va + j * PGSIZE)) (pa (j * PGSIZE))).

Definition check_pde (i : Z) : MM () :=
  pde ← kern_pde i;
  if bool_decide (i ∈ [PDX UVPT; PDX (KSTACKTOP - 1); PDX UPAGES; PDX UENVS; PDX MMIOBASE])
  then assertM (flag pde PTE_P) "pgdir[i] & PTE_P"
  else if PDX KERNBASE <=? i
  then assertM (flag pde PTE_P) "pgdir[i] & PTE_P" ;; assertM (flag pde PTE_W) "pgdir[i] & PTE_W"
  else assertM (pde =? 0) "pgdir[i] == 0".

(** [page2pa(pages)] is the physical address of page 0: [pages] is the
    descriptor of the first page. *)
Definition check_kern_pgdir (envs : Z) : MM () :=
  n ← gets npages;
  check_range (ROUNDUP (u32 (n * sizeof_PageInfo)) PGSIZE) UPAGES (λ i, u32 (page2pa 0 + i)) ;;
  pa ← PADDR envs;
  check_range (ROUNDUP (NENV * sizeof_Env) PGSIZE) UENVS (λ i, u32 (pa + i)) ;;
  check_range (u32 (n * PGSIZE)) KERNBASE (λ i, i) ;;
  forM (zrange 0 NCPU) (λ c,
    let base := KSTACKTOP - (KSTKSIZE + KSTKGAP) * (c + 1) in
    pa ← PADDR (percpu_kstacks c);
    check_range KSTKSIZE (base + KSTKGAP) (λ i, u32 (pa + i)) ;;
    check_range KSTKGAP base (λ _, 0xFFFFFFFF)) ;;
  forM (zrange 0 NPDENTRIES) check_pde.

Definition mem_init_mp : MM () :=
  forM (zrange 0 NCPU) (λ i,
    kpd ← gets kern_pgdir;
    pa ← PADDR (percpu_kstacks i);
    boot_map_region kpd (KSTACKTOP - (KSTKSIZE + KSTKGAP) * i - KSTKSIZE) KSTKSIZE pa PTE_W).

(** CR0 as [mem_init] leaves it. *)
Definition cr0_init (cr0 : Z) : Z :=
  Z.land
    (Z.lor cr0 (Z.lor CR0_PE (Z.lor CR0_PG (Z.lor CR0_AM (Z.lor CR0_WP (Z.lor CR0_NE CR0_MP))))))
    (Z.lnot (Z.lor CR0_TS CR0_EM)).

(** The result is the address of [envs].  The [pages] array is both the
    descriptors and the zeroed bytes they occupy. *)
Definition mem_init : MM Z :=
  i386_detect_memory mc146818_read ;;
  kpd ← boot_alloc kend PGSIZE;
  modify (set_kern_pgdir kpd) ;;
  kmemset kpd 0 PGSIZE ;;
  pa ← PADDR kpd;
  set_kern_pde (PDX UVPT) (Z.lor (Z.lor pa PTE_U) PTE_P) ;;
  n ← gets npages;
  pages_va ← boot_alloc kend (u32 (n * sizeof_PageInfo));
  kmemset pages_va 0 (u32 (n * sizeof_PageInfo)) ;;
  modify (set_pages (λ _, mkPageInfo None 0)) ;;
  envs ← boot_alloc kend (NENV * sizeof_Env);
  kmemset envs 0 (NENV * sizeof_Env) ;;
  page_init kend ;;
  check_page_free_list kend true ;;
  check_page_alloc ;;
  check_page ;;
  boot_map_region kpd UPAGES PTSIZE (page2pa 0) PTE_U ;;
  pa ← PADDR envs;
  boot_map_region kpd UENVS PTSIZE pa PTE_U ;;
  pa ← PADDR bootstack;
  boot_map_region kpd (KSTACKTOP - KSTKSIZE) KSTKSIZE pa PTE_W ;;
  boot_map_region kpd KERNBASE (0xffffffff - KERNBASE) 0 PTE_W ;;
  mem_init_mp ;;
  check_kern_pgdir envs ;;
  pa ← PADDR kpd;
  modify (emit_mm (Lcr3 pa)) ;;
  check_page_free_list kend false ;;
  modify (emit_mm (Lcr0 (cr0_init rcr0))) ;;
  check_page_installed_pgdir ;;
  mret envs.
End init.
