(* ===== verification/MemCheck.v ===== *)
(** * The allocator's self test

    [check_page_alloc] of kern/pmap.c succeeds on every allocator state with
    three free pages and puts the free list back as it was; [check_free_page]
    and the loops over the free list. *)
From S2P Require Import Prelude Monad Word Layout Mem CString PageAlloc PageTable PageInv PageOps KState Env MemInit.

Section steal.
(** The pages that move between the list and the caller, and the one of them
    whose contents may change. *)
Context (T : list Z) (d : Z).

(** The free list [l] and the pages [own] taken from it; everything else is
    as in [s0], except where the list's own tail was set aside. *)
Record stolen (s0 s : mm) (l own : list Z) : Prop := {
  st_npages : npages s = npages s0 ∧ 0 < npages s ≤ 65536;
  st_chain : chain (pages s) (page_free_list s) l;
  st_nodup : NoDup (l ++ own);
  st_free : ∀ p, p ∈ l ++ own → 0 ≤ p < npages s ∧ pp_ref (pages s p) = 0;
  st_own : ∀ p, p ∈ own → p ∈ T ∧ pp_link (pages s p) = None;
  st_rest : ∀ q, q ∉ T → pages s q = pages s0 q;
  st_data : ∀ a, a / 4096 ≠ d → load8 (phys s) a = load8 (phys s0) a;
  st_glob : kern_pgdir s = kern_pgdir s0 ∧ nextfree s = nextfree s0 ∧ mmio_base s = mmio_base s0 ∧
            npages_basemem s = npages_basemem s0 ∧ user_mem_check_addr s = user_mem_check_addr s0 ∧
            mm_trace s = mm_trace s0;
}.

Lemma stolen_init s l : alloc_inv s l → stolen s s l [].
Proof.
  intros H. split; rewrite ?app_nil_r; try done.
  - split; [done|apply (ai_npages _ _ H)].
  - apply (ai_chain _ _ H).
  - apply (ai_nodup _ _ H).
  - apply (ai_free _ _ H).
  - intros p Hp. by apply not_elem_of_nil in Hp.
Qed.

Lemma stolen_alloc s0 s flags p l own :
  p ∈ T → (flag flags ALLOC_ZERO = true → p = d) → stolen s0 s (p :: l) own →
  page_alloc flags s = (Ret (Some p), alloc_state (flag flags ALLOC_ZERO) p s) ∧
  stolen s0 (alloc_state (flag flags ALLOC_ZERO) p s) l (p :: own).
Proof.
  intros HT Hd H. destruct (st_chain _ _ _ _ H) as [Hh Hc]. pose proof (st_npages _ _ _ _ H) as [Hn Hn'].
  destruct (st_free _ _ _ _ H p ltac:(left)) as [Hp Hr].
  assert (NoDup (p :: (l ++ own))) as Hnd by exact (st_nodup _ _ _ _ H).
  apply NoDup_cons in Hnd as [Hpl Hnd]. split.
  - unfold page_alloc. mrun. rewrite Hh. mrun. destruct (flag flags ALLOC_ZERO); mrun; [|reflexivity].
    rewrite page2kva_ok by (simpl; lia). mrun. unfold kmemset, alloc_state, zero_page. mrun.
    rewrite memset_fill by (unfold PGSIZE; lia).
    replace (p * 4096 + KERNBASE - KERNBASE) with (p * 4096) by lia. reflexivity.
  - assert (∀ q, q ∈ l ++ p :: own ↔ q ∈ p :: l ++ own) as Hin.
    { intros q. by rewrite Permutation_middle. }
    set (s1 := alloc_state _ p s).
    assert (pages s1 = <[p := mkPageInfo None (pp_ref (pages s p))]> (pages s)) as Epg
      by (unfold s1, alloc_state; by destruct (flag _ _)).
    assert (page_free_list s1 = pp_link (pages s p)) as Efl by (unfold s1, alloc_state; by destruct (flag _ _)).
    assert (npages s1 = npages s) as Enp by (unfold s1, alloc_state; by destruct (flag _ _)).
    split; rewrite ?Epg, ?Efl, ?Enp.
    + exact (conj Hn Hn').
    + apply chain_upd; [|exact Hc]. intros Hx. apply Hpl, elem_of_app. by left.
    + rewrite Permutation_app_comm. simpl. constructor; rewrite ?elem_of_app in *; [tauto|].
      by rewrite Permutation_app_comm.
    + intros q Hq%Hin. destruct (st_free _ _ _ _ H q Hq) as [Hq1 Hq2].
      split; [exact Hq1|]. rewrite upd_case. by case_decide; subst.
    + intros q Hq. rewrite upd_case. apply elem_of_cons in Hq as [->|Hq];
        [by rewrite decide_True|]. destruct (st_own _ _ _ _ H q Hq). split; [done|]. by case_decide.
    + intros q Hq. rewrite upd_other by (intros ->; done). by apply (st_rest _ _ _ _ H).
    + intros a Ha. rewrite <- (st_data _ _ _ _ H a Ha).
      unfold s1, alloc_state. destruct (flag flags ALLOC_ZERO); [|reflexivity].
      cbn [phys set_phys]. unfold zero_page. rewrite (Hd eq_refl), load8_fill, decide_False; [done|]. lia.
    + unfold s1, alloc_state. destruct (flag _ _); exact (st_glob _ _ _ _ H).
Qed.

Lemma stolen_free s0 s p l own own' :
  stolen s0 s l own → own ≡ₚ p :: own' →
  page_free p s = (Ret tt, set_free_list (Some p) (set_link p (page_free_list s) s)) ∧
  stolen s0 (set_free_list (Some p) (set_link p (page_free_list s) s)) (p :: l) own'.
Proof.
  intros H Ho. pose proof (st_npages _ _ _ _ H) as Hn.
  assert (p ∈ own) as Hp by (rewrite Ho; left).
  destruct (st_free _ _ _ _ H p) as [Hr H0]; [apply elem_of_app; by right|].
  pose proof (st_nodup _ _ _ _ H) as Hnd. rewrite Ho in Hnd.
  assert (p ∉ l ++ own') as Hpl.
  { rewrite <- Permutation_middle in Hnd. by apply NoDup_cons in Hnd as [? _]. }
  assert (∀ q, q ∈ (p :: l) ++ own' ↔ q ∈ l ++ own) as Hin.
  { intros q. rewrite Ho. simpl. by rewrite Permutation_middle. }
  split; [apply page_free_run; [exact H0|by apply (st_own _ _ _ _ H)]|].
  destruct (st_own _ _ _ _ H p Hp) as [HT _].
  split; cbn [npages pages page_free_list set_free_list set_link set_pages phys].
  - exact Hn.
  - apply chain_cons. rewrite upd_same. cbn [pp_link]. apply chain_upd; [|apply (st_chain _ _ _ _ H)].
    intros Hx. apply Hpl, elem_of_app. by left.
  - simpl. by rewrite Permutation_middle.
  - intros q Hq%Hin. destruct (st_free _ _ _ _ H q Hq) as [H1 H2]. split; [exact H1|].
    rewrite upd_case. by case_decide; subst.
  - intros q Hq. rewrite upd_other by (intros ->; apply Hpl, elem_of_app; by right).
    apply (st_own _ _ _ _ H). rewrite Ho. by right.
  - intros q Hq. rewrite upd_other by (intros ->; done). by apply (st_rest _ _ _ _ H).
  - apply (st_data _ _ _ _ H).
  - exact (st_glob _ _ _ _ H).
Qed.

(** Setting the list aside, and putting it back. *)
Lemma stolen_hide s0 s l own : stolen s0 s l own → stolen s0 (set_free_list None s) [] own.
Proof.
  intros []. split; simpl; try assumption; [done|..].
  - by apply NoDup_app in st_nodup0 as (_ & _ & ?).
  - intros p Hp. apply st_free0, elem_of_app. by right.
Qed.

Lemma stolen_show s0 s h l own :
  stolen s0 s [] own → chain (pages s0) h l → NoDup (l ++ own) → (∀ p, p ∈ l → p ∉ T) →
  (∀ p, p ∈ l → 0 ≤ p < npages s0 ∧ pp_ref (pages s0 p) = 0) →
  stolen s0 (set_free_list h s) l own.
Proof.
  intros [] Hc Hnd HT Hf. split; simpl; try assumption.
  - revert Hc. apply linked_ext. intros p Hp. by rewrite st_rest0 by auto.
  - intros p [Hp|Hp]%elem_of_app; [|by apply st_free0].
    rewrite st_rest0 by auto. destruct st_npages0 as [-> _]. auto.
Qed.
End steal.

(** ** Counting *)

Lemma nodup_range_length (l : list Z) n : 0 ≤ n → NoDup l → (∀ p, p ∈ l → 0 ≤ p < n) → (length l ≤ Z.to_nat n)%nat.
Proof.
  intros Hn Hd Hr. rewrite <- (zrange_length 0 n). apply submseteq_length, NoDup_submseteq; [done|].
  intros p Hp. apply elem_of_zrange. specialize (Hr p Hp). lia.
Qed.

Lemma count_list_run s d l : ∀ fuel h n,
  chain (pages s) h l → (length l ≤ fuel)%nat →
  count_list fuel h n d s = (Ret (n + d * Z.of_nat (length l)), s).
Proof.
  induction l as [|p l IH]; intros fuel h n Hc Hf.
  - unfold chain in Hc. simpl in Hc. subst h. destruct fuel; simpl; rewrite Z.mul_0_r, Z.add_0_r; reflexivity.
  - destruct Hc as [-> Hc]. destruct fuel as [|fuel]; [simpl in Hf; lia|]. cbn [count_list]. mrun.
    rewrite IH by (done || (simpl in Hf; lia)). do 2 f_equal. cbn [length]. lia.
Qed.

Lemma count_free_run s l n d :
  alloc_inv s l → count_free n d s = (Ret (n + d * Z.of_nat (length l)), s).
Proof.
  intros H. pose proof (ai_npages _ _ H). unfold count_free. mrun. apply count_list_run; [apply (ai_chain _ _ H)|].
  apply nodup_range_length; [lia|apply (ai_nodup _ _ H)|]. intros p Hp. by apply (ai_free _ _ H).
Qed.

Lemma linked_same (f g : Z → option Z) l : ∀ h k,
  linked f h l → linked g k l → h = k ∧ ∀ p, p ∈ l → f p = g p.
Proof.
  induction l as [|p l IH]; intros h k Hf Hg.
  - simpl in *. subst. split; [done|]. intros p Hp. by apply not_elem_of_nil in Hp.
  - destruct Hf as [-> Hf], Hg as [-> Hg]. destruct (IH _ _ Hf Hg) as [E IH']. split; [done|].
    intros q [->|Hq]%elem_of_cons; auto.
Qed.

(** ** The test *)

Lemma no_free_memory_run s0 s T d own : stolen T d s0 s [] own → no_free_memory s = (Ret tt, s).
Proof.
  intros H. pose proof (st_chain _ _ _ _ _ _ H) as Hc. simpl in Hc. unfold no_free_memory, page_alloc. mrun.
  rewrite Hc. reflexivity.
Qed.

Lemma three_pages_run T d s0 s a b c r :
  stolen T d s0 s (a :: b :: c :: r) [] → a ∈ T → b ∈ T → c ∈ T →
  ∃ s', three_pages s = (Ret (a, b, c), s') ∧ stolen T d s0 s' r [c; b; a] ∧ phys s' = phys s.
Proof.
  intros H Ha Hb Hc. pose proof (st_nodup _ _ _ _ _ _ H) as Hnd. rewrite app_nil_r in Hnd.
  assert (a ≠ b ∧ a ≠ c ∧ b ≠ c) as (Hab & Hac & Hbc).
  { rewrite !NoDup_cons, !not_elem_of_cons in Hnd. tauto. }
  destruct (stolen_alloc _ _ _ _ 0 _ _ _ Ha ltac:(discriminate) H) as [E1 H1].
  destruct (stolen_alloc _ _ _ _ 0 _ _ _ Hb ltac:(discriminate) H1) as [E2 H2].
  destruct (stolen_alloc _ _ _ _ 0 _ _ _ Hc ltac:(discriminate) H2) as [E3 H3].
  eexists. split; [|split; [exact H3|reflexivity]].
  unfold three_pages, must_alloc. rewrite !run_bind, E1. cbv beta iota. rewrite run_ret. cbv beta iota.
  rewrite !run_bind, E2. cbv beta iota. rewrite run_ret. cbv beta iota.
  rewrite !run_bind, E3. cbv beta iota. rewrite run_ret. cbv beta iota.
  rewrite !run_bind, !run_assert.
  rewrite (proj2 (Z.eqb_neq b a)), (proj2 (Z.eqb_neq c b)), (proj2 (Z.eqb_neq c a)) by lia. reflexivity.
Qed.

Lemma three_frees T d s0 s l own x y z (k : MM ()) :
  stolen T d s0 s l own → own ≡ₚ [x; y; z] →
  ∃ s', (page_free x ;; page_free y ;; page_free z ;; k) s = k s' ∧
        stolen T d s0 s' (z :: y :: x :: l) [] ∧ phys s' = phys s.
Proof.
  intros H Ho.
  destruct (stolen_free _ _ _ _ _ _ _ _ H Ho) as [E1 H1].
  destruct (stolen_free _ _ _ _ _ _ _ _ H1 (Permutation_refl _)) as [E2 H2].
  destruct (stolen_free _ _ _ _ _ _ _ _ H2 (Permutation_refl _)) as [E3 H3].
  eexists. split; [|split; [exact H3|reflexivity]].
  rewrite run_bind, E1. cbv beta iota. rewrite run_bind, E2. cbv beta iota. rewrite run_bind, E3. reflexivity.
Qed.

(** The middle of the test: fill the page, free it, get it back cleared. *)
Definition clear_test (pp0 : Z) (k : MM ()) : MM () :=
  kva ← page2kva pp0; kmemset kva 1 PGSIZE ;;
  page_free pp0 ;;
  pp ← must_alloc ALLOC_ZERO;
  assertM (pp0 =? pp) "pp && pp0 == pp" ;;
  c ← page2kva pp;
  forM (zrange 0 PGSIZE) (λ i,
    b ← gets (λ s, load8 (phys s) (c - KERNBASE + i)); assertM (b =? 0) "c[i] == 0") ;;
  k.

Lemma clear_test_run T c s0 s l own own' (k : MM ()) :
  stolen T c s0 s l own → own ≡ₚ c :: own' →
  ∃ s', clear_test c k s = k s' ∧ stolen T c s0 s' l (c :: own') ∧
        (∀ a, load8 (phys s') a = if decide (a / 4096 = c) then 0 else load8 (phys s) a).
Proof.
  intros H Ho. pose proof (st_npages _ _ _ _ _ _ H) as [Hn Hn'].
  assert (c ∈ own) as Hc by (rewrite Ho; left).
  destruct (st_free _ _ _ _ _ _ H c) as [Hr _]; [apply elem_of_app; by right|].
  destruct (st_own _ _ _ _ _ _ H c Hc) as [HT _].
  set (s1 := set_phys (fill (phys s) (c * 4096) 4096 1) s).
  assert (stolen T c s0 s1 l own) as H1.
  { destruct H. split; try assumption. intros a Ha. rewrite <- (st_data0 a Ha). unfold s1. cbn [phys set_phys].
    rewrite load8_fill, decide_False; [reflexivity|]. lia. }
  destruct (stolen_free _ _ _ _ _ _ _ _ H1 Ho) as [E2 H2].
  destruct (stolen_alloc _ _ _ _ ALLOC_ZERO _ _ _ HT ltac:(done) H2) as [E3 H3].
  set (s2 := set_free_list _ _) in *. set (s3 := alloc_state _ _ _) in *.
  assert (∀ a, load8 (phys s3) a = if decide (a / 4096 = c) then 0 else load8 (phys s) a) as Hd.
  { intros a. unfold s3, alloc_state. change (flag ALLOC_ZERO ALLOC_ZERO) with true. cbv iota.
    cbn [phys set_phys]. unfold zero_page. rewrite load8_fill. unfold s2, s1. cbn [phys set_phys set_free_list set_link set_pages].
    rewrite load8_fill. repeat case_decide; (reflexivity || lia). }
  exists s3. split; [|split; [exact H3|exact Hd]].
  unfold clear_test. rewrite run_bind, page2kva_ok by lia. cbv beta iota.
  unfold kmemset at 1. rewrite run_bind, run_modify. cbv beta iota.
  rewrite memset_fill by (unfold PGSIZE; lia).
  replace (c * 4096 + KERNBASE - KERNBASE) with (c * 4096) by lia. change (set_phys _ s) with s1.
  rewrite run_bind, E2. cbv beta iota. unfold must_alloc. rewrite !run_bind, E3. cbv beta iota. rewrite run_ret.
  cbv beta iota. rewrite Z.eqb_refl. rewrite run_bind, run_assert. cbv beta iota.
  assert (0 ≤ c < npages s3 ∧ npages s3 ≤ 65536) as [Hr3 Hn3].
  { split; [|apply (st_npages _ _ _ _ _ _ H3)]. apply (st_free _ _ _ _ _ _ H3), elem_of_app. right. left. }
  rewrite run_bind, page2kva_ok by assumption.
  cbv beta iota. rewrite run_bind.
  destruct (forM_zrange (λ _ s, s = s3) (λ i,
    b ← gets (λ s, load8 (phys s) (c * 4096 + KERNBASE - KERNBASE + i)); assertM (b =? 0) "c[i] == 0") PGSIZE s3)
    as (s4 & E4 & ->); [done|done| |rewrite E4; reflexivity].
  intros i ? Hi ->. exists s3. split; [|done]. rewrite run_bind, run_gets. cbv beta iota.
  rewrite Hd, decide_True by (unfold PGSIZE in Hi; lia). reflexivity.
Qed.

(** Everything given back: the list and every [struct PageInfo] as before. *)
Lemma stolen_done T d s0 s l : alloc_inv s0 l → (∀ p, p ∈ T → p ∈ l) → stolen T d s0 s l [] →
  alloc_inv s l ∧ page_free_list s = page_free_list s0 ∧ (∀ q, pages s q = pages s0 q).
Proof.
  intros HA HTl H. pose proof (st_npages _ _ _ _ _ _ H) as [En Hn].
  assert (∀ p, p ∈ l → 0 ≤ p < npages s ∧ pp_ref (pages s p) = 0) as Hf.
  { intros p Hp. apply (st_free _ _ _ _ _ _ H). by rewrite app_nil_r. }
  destruct (linked_same _ _ _ _ _ (st_chain _ _ _ _ _ _ H) (ai_chain _ _ HA)) as [Eh El].
  assert (∀ q, pages s q = pages s0 q) as Epg.
  { intros q. destruct (decide (q ∈ l)) as [Hq|Hq].
    - specialize (El q Hq). pose proof (proj2 (Hf q Hq)). pose proof (proj2 (ai_free _ _ HA q Hq)).
      destruct (pages s q), (pages s0 q). simpl in *. by subst.
    - apply (st_rest _ _ _ _ _ _ H). auto. }
  split; [|exact (conj Eh Epg)]. split.
  - exact Hn.
  - apply (st_chain _ _ _ _ _ _ H).
  - apply (ai_nodup _ _ HA).
  - exact Hf.
  - intros p Hp Hl. rewrite Epg. apply (ai_used _ _ HA); [by rewrite <- En|done].
Qed.

(** Three free pages of sixteen. *)
Definition demo_mm3 : mm :=
  set_pages (λ p, if p =? 3 then mkPageInfo (Some 5) 0 else if p =? 5 then mkPageInfo (Some 4) 0
                  else mkPageInfo None (if p =? 4 then 0 else 1)) demo_mm.

Lemma demo_mm3_inv : alloc_inv demo_mm3 [3; 5; 4].
Proof.
  split; simpl.
  - lia.
  - done.
  - repeat constructor; set_solver.
  - intros p Hp. assert (p = 3 ∨ p = 5 ∨ p = 4) as [-> | [-> | ->]] by set_solver; simpl; lia.
  - intros p _ Hp. destruct (Z.eqb_spec p 3); [set_solver|]. destruct (Z.eqb_spec p 5); [set_solver|done].
Qed.

(** [check_page_alloc] passes on every allocator state with at least
    three free pages, and gives back what it took: the free list has the same
    pages in the same order, every [struct PageInfo] is as before, and the only
    memory it changed is the third free page, which it leaves cleared. *)
Theorem check_page_alloc_correct s a b c r :
  alloc_inv s (a :: b :: c :: r) →
  ∃ s', check_page_alloc s = (Ret tt, s') ∧ alloc_inv s' (a :: b :: c :: r) ∧
    page_free_list s' = page_free_list s ∧ (∀ q, pages s' q = pages s q) ∧
    (∀ x, load8 (phys s') x = if decide (x / 4096 = c) then 0 else load8 (phys s) x).
Proof.
  intros HA. set (T := [c; b; a]). pose proof (ai_npages _ _ HA) as Hn.
  pose proof (ai_nodup _ _ HA) as Hnd. pose proof (ai_free _ _ HA) as Hfree. pose proof (ai_chain _ _ HA) as Hch.
  assert (stolen T c s s (a :: b :: c :: r) []) as H0 by (apply stolen_init; exact HA).
  assert (a ∈ T ∧ b ∈ T ∧ c ∈ T) as (HaT & HbT & HcT) by (unfold T; repeat split; set_solver).
  destruct (three_pages_run _ _ _ _ _ _ _ _ H0 HaT HbT HcT) as (s1 & E1 & H1 & P1).
  pose proof (st_npages _ _ _ _ _ _ H1) as [En1 Hn1].
  assert (∀ p, p ∈ r → p ∉ T) as HrT.
  { intros p Hp. unfold T. apply NoDup_cons in Hnd as [Ha Hnd]. apply NoDup_cons in Hnd as [Hb Hnd].
    apply NoDup_cons in Hnd as [Hc _]. rewrite !not_elem_of_cons in *.
    repeat split; try (intros ->; tauto). apply not_elem_of_nil. }
  assert (page_free_list s1 = pp_link (pages s c) ∧ chain (pages s) (pp_link (pages s c)) r) as [Hfl Hcr].
  { destruct Hch as [_ [_ [_ Hr]]]. split; [|exact Hr].
    apply (linked_same (λ p, pp_link (pages s1 p)) (λ p, pp_link (pages s1 p)) r); [apply (st_chain _ _ _ _ _ _ H1)|].
    revert Hr. apply linked_ext.
    intros p Hp. by rewrite (st_rest _ _ _ _ _ _ H1) by auto. }
  pose proof (stolen_hide _ _ _ _ _ _ H1) as H2. set (s2 := set_free_list None s1) in *.
  pose proof (no_free_memory_run _ _ _ _ _ H2) as E2.
  unfold check_page_alloc. rewrite run_bind, (count_free_run _ _ _ _ HA). cbv beta iota.
  rewrite run_bind, E1. cbv beta iota. rewrite run_bind, run_gets. cbv beta iota.
  assert (∀ p, p ∈ T → (page2pa p <? u32 (npages s1 * PGSIZE)) = true) as Hlt.
  { intros p Hp. destruct (st_free _ _ _ _ _ _ H1 p) as [Hp' _]; [apply elem_of_app; right; exact Hp|].
    rewrite page2pa_mul, u32_small by (unfold PGSIZE; lia). apply Z.ltb_lt. unfold PGSIZE. lia. }
  do 3 (rewrite run_bind, run_assert, Hlt by assumption; cbv beta iota).
  rewrite run_bind, run_gets. cbv beta iota. rewrite run_bind, run_modify. cbv beta iota.
  change (set_free_list None s1) with s2. rewrite run_bind, E2. cbv beta iota.
  destruct (three_frees _ _ _ _ _ _ a b c ('(pp0, pp1, pp2) ← three_pages;
    no_free_memory ;; clear_test pp0 (modify (set_free_list (page_free_list s1)) ;;
      page_free pp0 ;; page_free pp1 ;; page_free pp2 ;;
      nfree ← count_free (0 + 1 * Z.of_nat (length (a :: b :: c :: r))) (-1); assertM (nfree =? 0) "nfree == 0"))
    H2 (Permutation_rev [c; b; a])) as (s3 & E3 & H3 & P3).
  destruct (three_pages_run _ _ _ _ _ _ _ _ H3 HcT HbT HaT) as (s4 & E4 & H4 & P4).
  pose proof (no_free_memory_run _ _ _ _ _ H4) as E5.
  destruct (clear_test_run _ _ _ _ _ _ [b; a] (modify (set_free_list (page_free_list s1)) ;;
      page_free c ;; page_free b ;; page_free a ;;
      nfree ← count_free (0 + 1 * Z.of_nat (length (a :: b :: c :: r))) (-1); assertM (nfree =? 0) "nfree == 0")
    H4 (Permutation_rev [a; b; c])) as (s6 & E6 & H6 & D6).
  assert (stolen T c s (set_free_list (page_free_list s1) s6) r [c; b; a]) as H7.
  { apply stolen_show; [exact H6|rewrite Hfl; exact Hcr| |exact HrT|].
    - exact (st_nodup _ _ _ _ _ _ H1).
    - intros p Hp. apply Hfree. by do 3 right. }
  destruct (three_frees _ _ _ _ _ _ c b a (nfree ← count_free (0 + 1 * Z.of_nat (length (a :: b :: c :: r))) (-1);
    assertM (nfree =? 0) "nfree == 0") H7 (Permutation_refl _)) as (s8 & E8 & H8 & P8).
  assert (∀ p, p ∈ T → p ∈ a :: b :: c :: r) as HTl.
  { intros p Hp. unfold T in Hp. rewrite !elem_of_cons in *. rewrite elem_of_nil in Hp. tauto. }
  destruct (stolen_done _ _ _ _ _ HA HTl H8) as (A8 & F8 & G8).
  exists s8. refine (conj (eq_trans E3 _) (conj A8 (conj F8 (conj G8 _)))).
  - rewrite run_bind, E4. cbv beta iota. rewrite run_bind, E5. cbv beta iota. rewrite E6.
    rewrite run_bind, run_modify. cbv beta iota. rewrite E8.
    rewrite run_bind, (count_free_run _ _ _ _ A8). cbv beta iota.
    rewrite run_assert, (proj2 (Z.eqb_eq _ _)) by lia. reflexivity.
  - intros x. rewrite P8. cbn [phys set_free_list]. rewrite D6, P4, P3. unfold s2. cbn [phys set_free_list].
    by rewrite P1.
Qed.

Lemma check_page_alloc_correct_witness :
  alloc_inv demo_mm3 [3; 5; 4] ∧
  ∃ s', check_page_alloc demo_mm3 = (Ret tt, s') ∧ alloc_inv s' [3; 5; 4] ∧
    page_free_list s' = page_free_list demo_mm3 ∧ (∀ q, pages s' q = pages demo_mm3 q) ∧
    (∀ x, load8 (phys s') x = if decide (x / 4096 = 4) then 0 else load8 (phys demo_mm3) x).
Proof.
  refine (conj demo_mm3_inv _). apply (check_page_alloc_correct demo_mm3 3 5 4 [] demo_mm3_inv).
Defined.
