(* ===== verification/EnvMem.v ===== *)
(** * The memory of an environment

    What [env_free] and [env_setup_vm] of kern/env.c do to the page tables and
    the page allocator. *)
From S2P Require Import Prelude Monad Word Layout Mem CString PageAlloc PageTable PageInv PageOps PageDirs KState Env.

(** A page without a reference that is not on the free list either. *)
Definition lost (s : mm) (l : list Z) (p : Z) : Prop := pp_ref (pages s p) = 0 ∧ p ∉ l.

Lemma lost_ext s s' l p : pages s' = pages s → lost s' l p → lost s l p.
Proof. unfold lost. by intros ->. Qed.

(** A page whose last reference is dropped is freed. *)
Lemma decref_lost s l p q : 1 ≤ pp_ref (pages s p) < 65536 →
  lost (decref_state p s) (if decide (pp_ref (pages s p) = 1) then p :: l else l) q → lost s l q.
Proof.
  intros Hp [H0 Hn]. destruct (decide (q = p)) as [->|Hq].
  - pose proof (remove_state_ref None 0 0 0 p s p Hp) as E. rewrite decide_True in E by done.
    change (pages (remove_state None 0 0 0 p s)) with (pages (emit_all (tlb_events None (kva 0) 0) (decref_state p s))) in E.
    destruct (emit_all_fields (tlb_events None (kva 0) 0) (decref_state p s)) as (_ & Eq & _). rewrite Eq, H0 in E.
    rewrite decide_True in Hn by lia. destruct Hn. left.
  - destruct (decref_fields p s) as (_ & _ & _ & Ho). rewrite (Ho q Hq) in H0. split; [exact H0|].
    intros Hl. apply Hn. case_decide; [by right|exact Hl].
Qed.

(** Progress of taking the directory [d] apart: other directories keep their
    mappings, data pages their contents, and pages only become free. *)
Record free_frame (dirs : list Z) (d : Z) (s : mm) (l : list Z) (s' : mm) (l' : list Z) : Prop := {
  ff_lookup : ∀ d' va, d' ∈ dirs → d' ≠ d → PDX va < UPDX →
    lookup_pte (phys s') d' va = lookup_pte (phys s) d' va;
  ff_tables : ∀ p, p ∈ tables (phys s') dirs → p ∈ tables (phys s) dirs;
  ff_data : ∀ a, a / 4096 ∉ dirs ++ tables (phys s) dirs → load8 (phys s') a = load8 (phys s) a;
  ff_kern : ∀ d' i, d' ∈ dirs → UPDX ≤ i < 1024 →
    load32 (phys s') (slot d' i) = load32 (phys s) (slot d' i);
  ff_free : ∀ p, p ∈ l → p ∈ l';
  ff_lost : ∀ p, lost s' l' p → lost s l p;
  ff_globals : same_globals s s';
}.

Lemma free_frame_refl dirs d s l : free_frame dirs d s l s l.
Proof. by split. Qed.

Lemma free_frame_trans dirs d s1 l1 s2 l2 s3 l3 :
  free_frame dirs d s1 l1 s2 l2 → free_frame dirs d s2 l2 s3 l3 → free_frame dirs d s1 l1 s3 l3.
Proof.
  intros [] []. split.
  - intros d' va ???. rewrite ff_lookup1 by done. auto.
  - auto.
  - intros a Ha. rewrite ff_data1; [auto|]. rewrite not_elem_of_app in *. split; [tauto|].
    intros ?%ff_tables0. tauto.
  - intros d' i ??. rewrite ff_kern1 by done. auto.
  - auto.
  - auto.
  - by transitivity s2.
Qed.

Lemma PDX_PGADDR d t : 0 ≤ d < 1024 → 0 ≤ t < 1024 → PDX (PGADDR d t 0) = d ∧ PTX (PGADDR d t 0) = t.
Proof. intros. rewrite PGADDR_add, PDX_div, PTX_div, u32_small by lia. lia. Qed.

Section free.
Context (cur : option Z) (base : Z → Z) (dirs : list Z) (d : Z) (Hd : d ∈ dirs).

(** One iteration of the inner loop. *)
Definition free_entry (pdeno t j : Z) : MM () :=
  pte ← kload32 (kva t + 4 * j);
  if flag pte PTE_P then page_remove cur (kva d) (PGADDR pdeno j 0) else mret tt.

Lemma free_entry_spec s l pdeno t j :
  kinv base dirs s l → 0 ≤ pdeno < UPDX → tgt (phys s) (slot d pdeno) = Some t → 0 ≤ j < 1024 →
  ∃ s' l', free_entry pdeno t j s = (Ret tt, s') ∧ kinv base dirs s' l' ∧
    free_frame dirs d s l s' l' ∧ tables (phys s') dirs = tables (phys s) dirs ∧
    (∀ i, 0 ≤ i < UPDX → tgt (phys s') (slot d i) = tgt (phys s) (slot d i)) ∧
    tgt (phys s') (slot t j) = None ∧
    (∀ i, 0 ≤ i < 1024 → i ≠ j → tgt (phys s') (slot t i) = tgt (phys s) (slot t i)).
Proof using Hd.
  intros H Hp Ht Hj. unfold free_entry. rewrite run_bind, kload_slot.
  unfold UPDX in Hp. destruct (PDX_PGADDR pdeno j) as [Epd Ept]; [lia..|].
  destruct (flag (load32 (phys s) (slot t j)) PTE_P) eqn:Ef.
  - set (va := PGADDR pdeno j 0) in *. set (pte := load32 (phys s) (slot t j)) in *.
    assert (PDX va < UPDX) as Hva by (unfold UPDX; lia).
    assert (walks (phys s) d va t) as Hw by (unfold walks; by rewrite Epd).
    assert (lookup_pte (phys s) d va = Some pte) as Hl.
    { rewrite (lookup_walks _ _ _ _ Hw), Ept. cbv zeta. fold pte. by rewrite Ef. }
    destruct (page_remove_Some cur base dirs s l H d va pte) as (t' & Hw' & _ & E & Hk); [done..|].
    assert (t' = t) as -> by (unfold walks in *; congruence).
    cbv zeta in E, Hk. set (s' := remove_state _ _ _ _ _ _) in *. eexists s', _.
    pose proof (walks_table _ _ _ _ _ Hd Hva Hw) as Htt.
    assert (phys s' = store32 (phys s) (slot t j) 0) as Es'.
    { unfold s', remove_state. by rewrite Ept. }
    destruct (store_leaf dirs (phys s) t j 0 (ki_nodup _ _ _ _ H) Htt Hj) as (HT & _).
    assert (d ∉ tables (phys s) dirs) as Hdt.
    { pose proof (ki_nodup _ _ _ _ H) as Hnd. apply NoDup_app in Hnd as (_ & Hdis & _). auto. }
    assert (pt_frame dirs l d va s s') as F.
    { apply (pt_frame_store _ _ _ _ t 0); try done; [apply H|].
      transitivity (decref_state (pte / 4096) s); [apply decref_fields|].
      apply (emit_all_fields (tlb_events cur (kva d) va)). }
    splits; [exact E|exact Hk| |by rewrite Es'| | |].
    + split.
      * intros d' va' ???. apply (pf_lookup _ _ _ _ _ _ F); try done. intros [-> _]. done.
      * by rewrite Es', HT.
      * intros a Ha. rewrite Es'. apply store_slot_data; [done|]. intros E'. rewrite E' in Ha.
        apply Ha, elem_of_app. by right.
      * apply F.
      * intros p Hin. case_decide; [by right|done].
      * intros p Hp'. apply (decref_lost s l (pte / 4096)); [exact (mapped_ref _ _ _ _ _ _ _ H Hd Hva Hl)|].
        revert Hp'. apply lost_ext.
        exact (proj1 (proj2 (emit_all_fields (tlb_events cur (kva d) va) (decref_state (pte / 4096) s)))).
      * apply F.
    + intros i Hi. unfold UPDX in *. rewrite Es', tgt_store by lia.
      rewrite decide_False; [done|]. by intros [-> _].
    + rewrite Es', tgt_store by done. by rewrite decide_True.
    + intros i Hi Hne. rewrite Es', tgt_store by done. rewrite decide_False; [done|]. by intros [_ ->].
  - exists s, l. splits; try done. by apply tgt_None.
Qed.

(** The inner loop empties the table. *)
Lemma free_entries_spec s l pdeno t :
  kinv base dirs s l → 0 ≤ pdeno < UPDX → tgt (phys s) (slot d pdeno) = Some t →
  ∃ s', forM (zrange 0 1024) (free_entry pdeno t) s = (Ret tt, s') ∧ ∃ l',
    kinv base dirs s' l' ∧ free_frame dirs d s l s' l' ∧
    (∀ i, 0 ≤ i < UPDX → tgt (phys s') (slot d i) = tgt (phys s) (slot d i)) ∧
    (∀ j, 0 ≤ j < 1024 → tgt (phys s') (slot t j) = None).
Proof using Hd.
  intros H Hp Ht.
  apply (forM_zrange (λ n s', ∃ l', kinv base dirs s' l' ∧ free_frame dirs d s l s' l' ∧
    (∀ i, 0 ≤ i < UPDX → tgt (phys s') (slot d i) = tgt (phys s) (slot d i)) ∧
    (∀ j, 0 ≤ j < n → tgt (phys s') (slot t j) = None))); [lia|..].
  - exists l. splits; try done; lia.
  - intros j s1 Hj (l1 & H1 & F1 & Hd1 & Ht1).
    destruct (free_entry_spec s1 l1 pdeno t j) as (s2 & l2 & E & H2 & F2 & _ & Hd2 & Hj2 & Ho2);
      [done|done|by rewrite Hd1|done|].
    exists s2. split; [done|]. exists l2. splits; [done|by eapply free_frame_trans| |].
    + intros i Hi. by rewrite Hd2, Hd1.
    + intros i Hi. destruct (decide (i = j)) as [->|]; [done|].
      rewrite Ho2 by (done || lia). apply Ht1. lia.
Qed.

(** One iteration of the outer loop: afterwards the entry is absent. *)
Lemma env_free_pt_spec s l pdeno :
  kinv base dirs s l → 0 ≤ pdeno < UPDX →
  ∃ s' l', env_free_pt cur (kva d) pdeno s = (Ret tt, s') ∧
    kinv base dirs s' l' ∧ free_frame dirs d s l s' l' ∧
    tgt (phys s') (slot d pdeno) = None ∧
    (∀ i, 0 ≤ i < UPDX → i ≠ pdeno → tgt (phys s') (slot d i) = tgt (phys s) (slot d i)).
Proof using Hd.
  intros H Hp. unfold env_free_pt. rewrite run_bind, kload_slot.
  destruct (tgt (phys s) (slot d pdeno)) as [t|] eqn:Et.
  - pose proof (tgt_addr _ _ _ Et) as Ea. pose proof Et as [Ef _]%tgt_Some. rewrite Ef. cbn [negb].
    pose proof (ki_npages _ _ _ _ H).
    assert (t ∈ tables (phys s) dirs) as Htt by (apply elem_of_tables; eauto).
    pose proof (ki_table _ _ _ _ _ H Htt) as Htr.
    rewrite Ea. cbv zeta. rewrite run_bind, KADDR_page by lia.
    destruct (free_entries_spec s l pdeno t H Hp Et) as (s1 & E1 & l1 & H1 & F1 & Hd1 & Ht1).
    change (PTX (u32 (Z.lnot 0)) + 1) with 1024. unfold free_entry in E1. rewrite run_bind, E1.
    rewrite run_bind, kstore_slot. cbn beta match.
    pose proof (kinv_clear_pde dirs (phys s1) d pdeno t (ki_nodup _ _ _ _ H1) Hd Hp) as H2.
    specialize (H2 ltac:(by rewrite Hd1) Ht1 base s1 l1 H1 eq_refl).
    set (s2 := set_phys (clear_pde (phys s1) d pdeno) s1) in *.
    change (set_phys (store32 (phys s1) (slot d pdeno) 0) s1) with s2.
    assert (npages s2 = npages s) as En by apply (ff_globals _ _ _ _ _ _ F1).
    rewrite run_bind. replace (t * 4096) with (t * 4096 + 0) by lia.
    rewrite pa2page_ok by lia. cbn beta match.
    destruct (kinv_decref _ _ _ _ H2 t) as [Hlk H3]; [lia| |].
    { unfold bump. rewrite decide_True by done. pose proof (ki_base _ _ _ _ H1 t). lia. }
    rewrite page_decref_run by done. destruct (decref_fields t s2) as (Ep & Eg & _ & _).
    unfold UPDX in *. assert (∀ i, 0 ≤ i < 1024 → tgt (phys (decref_state t s2)) (slot d i) =
              if decide (pdeno = i) then None else tgt (phys s1) (slot d i)) as Htg.
    { intros i Hi. rewrite Ep. unfold s2, clear_pde. cbn [phys set_phys]. rewrite tgt_store by lia.
      destruct (decide (pdeno = i)); [rewrite decide_True by done; done|].
      rewrite decide_False; [done|]. by intros [_ ?]. }
    eexists _, _. splits; [done| | | |].
    + eapply kinv_proper; [..|exact H3]; try done. intros q. unfold bump. case_decide; lia.
    + eapply free_frame_trans; [exact F1|]. 
      assert (tables (phys s1) dirs ≡ₚ t :: tables (phys s2) dirs) as HT.
      { apply (clear_pde_tables dirs (phys s1) d pdeno t); [apply H1|done|unfold UPDX; lia|].
        rewrite Hd1; [done|unfold UPDX; lia]. }
      split.
      * intros d' va Hd' Hne Hva. rewrite Ep. unfold s2, clear_pde. cbn [phys set_phys].
        apply lookup_store_other; [done|lia|]. intros Ht'.
        pose proof (ki_nodup _ _ _ _ H1) as Hnd. apply NoDup_app in Hnd as (_ & Hdis & _).
        apply (Hdis _ Hd). by apply (walks_table _ _ d' va).
      * intros p. rewrite Ep, HT, elem_of_cons. auto.
      * intros a [Ha _]%not_elem_of_app. rewrite Ep. unfold s2, clear_pde. cbn [phys set_phys].
        apply store_slot_data; [lia|]. intros E'. by rewrite E' in Ha.
      * intros d' i Hd' Hi. rewrite Ep. unfold s2, clear_pde. cbn [phys set_phys].
        rewrite load32_store_slot by (unfold UPDX in *; lia).
        rewrite decide_False; [done|]. unfold UPDX in *. lia.
      * intros p Hin. case_decide; [by right|done].
      * intros p Hp'. apply (lost_ext s1 s2); [done|]. apply (decref_lost s2 l1 t); [|exact Hp'].
        change (pages s2) with (pages s1). split; [|exact (ki_bound _ _ _ _ H1 t ltac:(rewrite (proj1 (ff_globals _ _ _ _ _ _ F1)); lia))].
        assert (t ∈ (dirs ++ tables (phys s1) dirs)) as Hin by (apply elem_of_app; right; rewrite HT; left).
        rewrite (ki_ref _ _ _ _ H1) by (rewrite (proj1 (ff_globals _ _ _ _ _ _ F1)); lia).
        rewrite (ki_own _ _ _ _ H1 t Hin).
        assert (t ∈ refs (phys s1) dirs) as Hr by (unfold refs; rewrite app_assoc; apply elem_of_app; by left).
        pose proof (countZ_elem _ _ Hr). lia.
      * exact Eg.
    + rewrite Htg by lia. by rewrite decide_True.
    + intros i Hi Hne. rewrite Htg by lia. rewrite decide_False by done. apply Hd1. unfold UPDX. lia.
  - exists s, l. rewrite (proj1 (tgt_None _ _) Et). by splits.
Qed.

(** The outer loop: the whole user part of the directory is gone. *)
Lemma env_free_pts_spec s l :
  kinv base dirs s l →
  ∃ s', env_free_pts cur (kva d) s = (Ret tt, s') ∧ ∃ l',
    kinv base dirs s' l' ∧ free_frame dirs d s l s' l' ∧ empty_dir (phys s') d.
Proof using Hd.
  intros H. unfold env_free_pts. change (PDX UTOP) with UPDX.
  destruct (forM_zrange (λ n s', ∃ l', kinv base dirs s' l' ∧ free_frame dirs d s l s' l' ∧
    (∀ i, 0 ≤ i < n → tgt (phys s') (slot d i) = None)) (env_free_pt cur (kva d)) UPDX s)
    as (s' & E & l' & H' & F & He); [unfold UPDX; lia|exists l; splits; try done; lia| |eauto 10].
  intros i s1 Hi (l1 & H1 & F1 & He1).
  destruct (env_free_pt_spec s1 l1 i H1 Hi) as (s2 & l2 & E2 & H2 & F2 & Hi2 & Ho2).
  exists s2. split; [done|]. exists l2. splits; [done|by eapply free_frame_trans|].
  intros j Hj. destruct (decide (j = i)) as [->|]; [done|]. rewrite Ho2 by (done || lia).
  apply He1. lia.
Qed.
End free.

(** Freeing the directory itself, after its tables. *)
Definition free_pgdir (pgdir : Z) : MM () :=
  pa ← PADDR pgdir; p ← pa2page pa; page_decref p.

Lemma PADDR_kva d s : 0 ≤ d < 65536 → PADDR (kva d) s = (Ret (d * 4096), s).
Proof.
  intros Hd. unfold PADDR, kva, KERNBASE. destruct (Z.ltb_spec (d * 4096 + 0xF0000000) 0xF0000000); [lia|].
  mrun. by rewrite u32_small by lia; replace (d * 4096 + 0xF0000000 - 0xF0000000) with (d * 4096) by lia.
Qed.

Lemma kinv_free_dir base dirs d s l :
  kinv base (d :: dirs) s l → empty_dir (phys s) d →
  pp_link (pages s d) = None ∧ ∃ l', kinv base dirs (decref_state d s) l' ∧
    (∀ p, p ∈ l → p ∈ l') ∧ d ∈ l' ∧ (∀ p, lost (decref_state d s) l' p → lost s l p).
Proof.
  intros H He. pose proof (kinv_drop_dir _ _ _ _ _ H He) as H1.
  assert (0 ≤ d < npages s) as Hd by (apply (ki_dir _ _ _ _ _ H); left).
  destruct (kinv_decref _ _ _ _ H1 d Hd) as [Hlk H2].
  { unfold bump. rewrite decide_True by done. pose proof (ki_base _ _ _ _ H d). lia. }
  split; [done|]. eexists. split.
  - eapply kinv_proper; [..|exact H2]; try done. intros q. unfold bump. case_decide; lia.
  - assert (pp_ref (pages s d) = 1) as Hr.
    { assert (d ∈ (d :: dirs) ++ tables (phys s) (d :: dirs)) as Hin by left.
      rewrite (ki_ref _ _ _ _ H d Hd), (ki_own _ _ _ _ H d Hin). unfold refs. rewrite app_assoc, countZ_app.
      rewrite (countZ_NoDup d) by (exact Hin || exact (ki_nodup _ _ _ _ H)).
      rewrite (proj2 (countZ_zero d (leaves _ _))); [done|]. intros Hl. exact (ki_priv _ _ _ _ H d Hl Hin). }
    split_and!.
    + intros p Hp. rewrite decide_True by exact Hr. by right.
    + rewrite decide_True by exact Hr. left.
    + intros p. apply decref_lost. lia.
Qed.

(** ** env_setup_vm *)

(** A loop of stores to consecutive entries of page [p]. *)
Lemma fill_slots (v : Z → mm → Z) (body : Z → MM ()) p a n s :
  0 ≤ a → 0 ≤ n → a + n ≤ 1024 →
  (∀ i s', a ≤ i < a + n → (∀ b, b / 4096 ≠ p → load8 (phys s') b = load8 (phys s) b) →
     npages s' = npages s → kern_pgdir s' = kern_pgdir s →
     body i s' = (Ret tt, set_phys (store32 (phys s') (slot p i) (v i s)) s')) →
  ∃ m, forM (zrange a n) body s = (Ret tt, set_phys m s) ∧
    (∀ i, 0 ≤ i < 1024 → load32 m (slot p i) =
       if decide (a ≤ i < a + n) then u32 (v i s) else load32 (phys s) (slot p i)) ∧
    (∀ b, b / 4096 ≠ p → load8 m b = load8 (phys s) b).
Proof.
  intros Ha Hn Han Hb. revert n Hn Han Hb. apply (natlike_ind (λ n, _ → _ → _)).
  - intros _ _. exists (phys s). splits; [by destruct s| |done].
    intros i Hi. rewrite decide_False by lia. done.
  - intros n Hn IH Han Hb. destruct IH as (m & E & Hm & Ho); [lia|intros; apply Hb; done || lia|].
    exists (store32 m (slot p (a + n)) (v (a + n) s)).
    rewrite <- Z.add_1_r, zrange_snoc, forM_app by lia. rewrite run_bind, E. cbn [forM].
    rewrite run_bind, Hb by (done || lia). splits; [done|..].
    + intros i Hi. rewrite load32_store_slot, Hm by lia.
      destruct (decide (a + n = i)) as [<-|Hne].
      * rewrite decide_True by done. by rewrite decide_True by lia.
      * rewrite decide_False by lia. by repeat case_decide; try done; lia.
    + intros b Hbp. rewrite store_slot_data by lia || done. auto.
Qed.

(** The entries of the directory [env_setup_vm] builds in page [p]. *)
Definition setup_pde (m : mem) (kp p i : Z) : Z :=
  if decide (i < UPDX) then 0
  else if decide (i = PDX UVPT) then p * 4096 + Z.lor PTE_P PTE_U
  else load32 m (slot kp i).

Lemma setup_pgdir_run s p kp :
  0 ≤ p < 65536 → kern_pgdir s = kva kp → kp ≠ p →
  ∃ m, setup_pgdir (kva p) p s = (Ret tt, set_phys m (set_ref p (pp_ref (pages s p) + 1) s)) ∧
    (∀ i, 0 ≤ i < 1024 → load32 m (slot p i) = setup_pde (phys s) kp p i) ∧
    (∀ a, a / 4096 ≠ p → load8 m a = load8 (phys s) a).
Proof.
  intros Hp Hk Hne. unfold setup_pgdir. rewrite run_bind, run_modify.
  set (s1 := set_ref p (pp_ref (pages s p) + 1) s).
  change (PDX UTOP) with UPDX. change (NPDENTRIES - UPDX) with 69.
  destruct (fill_slots (λ _ _, 0) (λ i, kstore32 (kva p + 4 * i) 0) p 0 UPDX s1)
    as (m1 & E1 & H1 & O1); [unfold UPDX; lia..| |].
  { intros. by rewrite kstore_slot. }
  rewrite run_bind, E1. set (s2 := set_phys m1 s1).
  destruct (fill_slots (λ i s, load32 (phys s) (slot kp i)) (λ i, kpd ← gets kern_pgdir;
    pde ← kload32 (kpd + 4 * i); kstore32 (kva p + 4 * i) pde) p UPDX 69 s2)
    as (m2 & E2 & H2 & O2); [unfold UPDX; lia..| |].
  { intros i s' Hi Ho _ Hkp. rewrite run_bind, run_gets, Hkp. change (kern_pgdir s2) with (kern_pgdir s).
    rewrite Hk, run_bind, kload_slot, kstore_slot. unfold UPDX in *.
    rewrite (load32_same_page (phys s2) (phys s') kp i); [done|lia|].
    intros a Ha. apply Ho. congruence. }
  rewrite run_bind, E2. rewrite run_bind, PADDR_kva by done.
  rewrite kstore_slot. clear E1 E2. eexists. splits; [reflexivity|..].
  - intros i Hi. cbn [phys set_phys]. change (PDX UVPT) with 957.
    rewrite load32_store_slot, H2 by lia. unfold setup_pde, UPDX in *. change (PDX UVPT) with 957.
    change (phys s2) with m1. rewrite H1 by lia.
    rewrite <- Z.lor_assoc. change (Z.lor PTE_P PTE_U) with 5. rewrite lor_page_add by lia.
    destruct (decide (957 = i)) as [<-|Hi'].
    { rewrite decide_True by lia. rewrite u32_small by lia. by rewrite decide_False by lia. }
    rewrite decide_False by naive_solver.
    destruct (decide (i < 955)).
    { rewrite decide_False by lia. by rewrite decide_True by lia. }
    rewrite decide_True by lia. rewrite decide_False by done. rewrite u32_load32.
    apply load32_same_page; [done|]. intros a Ha. rewrite O1 by congruence. done.
  - intros a Ha. cbn [phys set_phys]. rewrite store_slot_data by (done || (change (PDX UVPT) with 957; lia)).
    rewrite O2 by done. change (phys s2) with m1. by rewrite O1.
Qed.
