(* ===== verification/KInv.v ===== *)
(** * The kernel invariant

    The environments partition into free ones, linked by [env_link], and live
    ones, each with its own page directory; the page tables and reference
    counts of all live environments satisfy [kinv].  [kp] is the page of
    [kern_pgdir]. *)
From S2P Require Import Prelude Monad Word Layout Mem CString PageAlloc PageTable PageInv PageOps PageDirs KState Env EnvMem.

(** The page of an environment's directory. *)
Definition dirof (k : kst) (e : Z) : Z := (env_pgdir (envs k e) - KERNBASE) / 4096.

Record kernel_inv (base : Z → Z) (kp : Z) (live fe l : list Z) (k : kst) : Prop := {
  ke_link : linked (λ e, env_link (envs k e)) (env_free_list k) fe;
  ke_part : fe ++ live ≡ₚ zrange 0 NENV;
  ke_free : ∀ e, e ∈ fe → env_status (envs k e) = ENV_FREE;
  ke_status : ∀ e, e ∈ live → ENV_DYING ≤ env_status (envs k e) ≤ ENV_NOT_RUNNABLE;
  ke_id : ∀ e, e ∈ live → 0 < env_id (envs k e) < 2147483648 ∧ ENVX (env_id (envs k e)) = e;
  ke_pgdir : ∀ e, e ∈ live → env_pgdir (envs k e) = kva (dirof k e);
  ke_mm : kinv base (dirof k <$> live) (k_mm k) l;
  ke_kern : kern_pgdir (k_mm k) = kva kp ∧ 0 ≤ kp < npages (k_mm k) ∧ 1 ≤ base kp;
}.

Lemma dirof_kva k e d : env_pgdir (envs k e) = kva d → dirof k e = d.
Proof. unfold dirof, kva. intros ->. lia. Qed.

Section facts.
Context (base : Z → Z) (kp : Z) (live fe l : list Z) (k : kst).
Context (H : kernel_inv base kp live fe l k).

Lemma ke_nodup : NoDup (fe ++ live).
Proof using H. rewrite (ke_part _ _ _ _ _ _ H). apply NoDup_zrange. Qed.
Lemma ke_disj e : e ∈ live → e ∉ fe.
Proof using H.
  intros Hl Hf. pose proof ke_nodup as Hn. apply NoDup_app in Hn as (_ & Hd & _). by eapply Hd.
Qed.
Lemma ke_range e : e ∈ fe ++ live ↔ 0 ≤ e < NENV.
Proof using H. rewrite (ke_part _ _ _ _ _ _ H), elem_of_zrange. lia. Qed.
Lemma ke_live_range e : e ∈ live → 0 ≤ e < NENV.
Proof using H. intros He. apply ke_range, elem_of_app. by right. Qed.
(** Liveness is what [env_status] says. *)
Lemma ke_live_iff e : 0 ≤ e < NENV → (e ∈ live ↔ env_status (envs k e) ≠ ENV_FREE).
Proof using H.
  intros He. split.
  - intros Hl. pose proof (ke_status _ _ _ _ _ _ H e Hl). unfold ENV_DYING, ENV_FREE in *. lia.
  - intros Hs. apply ke_range, elem_of_app in He as [Hf|]; [|done].
    by rewrite (ke_free _ _ _ _ _ _ H) in Hs.
Qed.
Lemma ke_dir e : e ∈ live → dirof k e ∈ dirof k <$> live.
Proof. intros He. apply list_elem_of_fmap. eauto. Qed.
(** Distinct live environments have distinct directories. *)
Lemma ke_dir_inj e e' : e ∈ live → e' ∈ live → dirof k e = dirof k e' → e = e'.
Proof using H.
  intros He He' E. pose proof (ki_nodup _ _ _ _ (ke_mm _ _ _ _ _ _ H)) as Hnd.
  apply NoDup_app in Hnd as (Hnd & _ & _).
  destruct (list_elem_of_lookup_1 _ _ He) as [i Hi]. destruct (list_elem_of_lookup_1 _ _ He') as [j Hj].
  assert (i = j) as ->.
  { apply (NoDup_lookup _ i j (dirof k e) Hnd); rewrite list_lookup_fmap; [by rewrite Hi|by rewrite Hj, E]. }
  rewrite Hi in Hj. by injection Hj.
Qed.
End facts.

(** ** How steps preserve it *)

Lemma ke_set_mm base kp live fe l l' k s :
  kernel_inv base kp live fe l k → same_globals (k_mm k) s → kinv base (dirof k <$> live) s l' →
  kernel_inv base kp live fe l' (set_mm s k).
Proof.
  intros [] (En & _ & Ek & _) Hs. split; try done. simpl. by rewrite Ek, En.
Qed.

(** An update of a live environment that keeps its name and directory. *)
Lemma ke_upd_env base kp live fe l k e f :
  kernel_inv base kp live fe l k → e ∈ live →
  ENV_DYING ≤ env_status (f (envs k e)) ≤ ENV_NOT_RUNNABLE →
  env_id (f (envs k e)) = env_id (envs k e) →
  env_pgdir (f (envs k e)) = env_pgdir (envs k e) →
  kernel_inv base kp live fe l (upd_env e f k).
Proof.
  intros H He Hst Hid Hpd. pose proof (ke_disj _ _ _ _ _ _ H e He) as Hfe.
  assert (∀ e', dirof (upd_env e f k) e' = dirof k e') as Hdir.
  { intros e'. unfold dirof. simpl. rewrite upd_case. case_decide; subst; by rewrite ?Hpd. }
  assert (dirof (upd_env e f k) <$> live = dirof k <$> live) as Ed
    by (apply list_fmap_ext; intros; apply Hdir).
  destruct H. split; rewrite ?Ed; try done.
  - simpl. eapply linked_ext; [|done]. intros p Hp. simpl. by rewrite upd_other by (by intros ->).
  - intros e' He'. simpl. rewrite upd_other by (by intros ->). auto.
  - intros e' He'. simpl. rewrite upd_case. case_decide; subst; auto.
  - intros e' He'. simpl. rewrite upd_case. case_decide; subst; rewrite ?Hid; auto.
  - intros e' He'. rewrite Hdir. simpl. rewrite upd_case. case_decide; subst; rewrite ?Hpd; auto.
Qed.

Lemma ke_log base kp live fe l k v :
  kernel_inv base kp live fe l k → kernel_inv base kp live fe l (log_ev v k).
Proof. by intros []. Qed.

Lemma ke_set_lock base kp live fe l k lk :
  kernel_inv base kp live fe l k → kernel_inv base kp live fe l (set_lock lk k).
Proof. by intros []. Qed.

Lemma ke_set_cpus base kp live fe l k c :
  kernel_inv base kp live fe l k → kernel_inv base kp live fe l (set_cpus c k).
Proof. by intros []. Qed.

Lemma ke_check_addr base kp live fe l k a :
  kernel_inv base kp live fe l k →
  kernel_inv base kp live fe l (set_mm (set_check_addr a (k_mm k)) k).
Proof.
  intros []. split; try assumption.
  match goal with H : kinv _ _ _ _ |- _ => destruct H end. split; try assumption.
  match goal with H : alloc_inv _ _ |- _ => destruct H end. split; assumption.
Qed.

Lemma ke_perm base kp live live' fe l k :
  live ≡ₚ live' → kernel_inv base kp live fe l k → kernel_inv base kp live' fe l k.
Proof.
  intros E []. split; try done; try (intros e; rewrite <- E; auto).
  - by rewrite <- E.
  - eapply kinv_perm; [|done]. by rewrite E.
Qed.

(** Every CPU's [curenv] is a live environment. *)
Definition cpus_ok (live : list Z) (k : kst) : Prop :=
  ∀ c e, cpu_env (cpus k c) = Some e → e ∈ live.

Create HintDb kinv.
#[export] Hint Resolve ke_log ke_set_lock ke_set_cpus : kinv.

(** ** Running lifted computations *)

Lemma liftM_run {A} (m : MM A) k r s : m (k_mm k) = (r, s) → liftM m k = (r, set_mm s k).
Proof. intros E. unfold liftM. by rewrite E. Qed.

Lemma liftP_run {A} cpunum (m : option Z → MM A) k r s :
  m (cur_pgdir cpunum k) (k_mm k) = (r, s) → liftP cpunum m k = (r, set_mm s k).
Proof. intros E. unfold liftP. rewrite run_bind, run_gets. by apply liftM_run. Qed.

Lemma liftM_gets {A} (f : mm → A) k : liftM (gets f) k = (Ret (f (k_mm k)), k).
Proof. by destruct k. Qed.

Lemma set_mm_id k : set_mm (k_mm k) k = k.
Proof. by destruct k. Qed.
