(* ===== verification/EnvSpec.v ===== *)
(** * Contracts of kern/env.c

    Naming, creating and destroying environments, under the kernel invariant. *)
From S2P Require Import Prelude Monad Word Layout Mem CString PageAlloc PageTable PageInv PageOps PageDirs KState Env EnvMem KInv.

(** ** env_alloc *)

Lemma land_lnot_NENV x : Z.land x (Z.lnot (NENV - 1)) = x / 1024 * 1024.
Proof.
  change (NENV - 1) with (Z.ones 10). rewrite <- Z.ldiff_land, Z.ldiff_ones_r by lia.
  by rewrite Z.shiftl_mul_pow2, Z.shiftr_div_pow2 by lia.
Qed.

Lemma env_generation_spec id :
  let g := env_generation id in 0 < g < 2147483648 ∧ g mod 1024 = 0.
Proof.
  unfold env_generation. rewrite land_lnot_NENV. pose proof (s32_range (id + Z.shiftl 1 ENVGENSHIFT)).
  change (Z.shiftl 1 ENVGENSHIFT) with 4096 in *.
  destruct (Z.leb_spec (s32 (id + 4096) / 1024 * 1024) 0); lia.
Qed.

(** The identifier given to a new environment in slot [e]. *)
Definition new_id (old e : Z) : Z := Z.lor (env_generation old) e.

Lemma new_id_spec old e : 0 ≤ e < NENV →
  0 < new_id old e < 2147483648 ∧ ENVX (new_id old e) = e ∧
  (0 ≤ old < 2147483648 → ENVX old = e → new_id old e ≠ old).
Proof.
  intros He. unfold new_id, NENV in *. destruct (env_generation_spec old) as [Hg Hm].
  assert (env_generation old = env_generation old / 1024 * 2 ^ 10) as E by lia.
  rewrite E, lor_shifted_add, ENVX_mod by lia. splits; try lia.
  intros Ho Hx. rewrite <- E. revert Hg Hm E. unfold env_generation. rewrite land_lnot_NENV.
  change (Z.shiftl 1 ENVGENSHIFT) with 4096 in *. unfold s32, u32. rewrite ENVX_mod in Hx.
  repeat case_match; zbool; lia.
Qed.

Section alloc.
Context (cpunum : Z) (base : Z → Z) (kp : Z).

Lemma env_setup_vm_nomem e live fe k :
  kernel_inv base kp live fe [] k → env_setup_vm e k = (Ret (- E_NO_MEM), k).
Proof.
  intros H. unfold env_setup_vm. rewrite run_bind, (liftM_run _ _ (Ret None) (k_mm k)).
  - by rewrite set_mm_id.
  - apply page_alloc_nil, (ki_alloc _ _ _ _ (ke_mm _ _ _ _ _ _ H)).
Qed.

Lemma env_setup_vm_run e live fe l p k :
  kernel_inv base kp live fe (p :: l) k →
  ∃ s', env_setup_vm e k = (Ret 0, set_mm s' (upd_env e (λ v, with_pgdir v (kva p)) k)) ∧
    kinv base (p :: (dirof k <$> live)) s' l ∧ same_globals (k_mm k) s' ∧
    mm_trace s' = mm_trace (k_mm k) ∧
    (∀ i, 0 ≤ i < 1024 → load32 (phys s') (slot p i) = setup_pde (phys (k_mm k)) kp p i) ∧
    (∀ d va, d ∈ dirof k <$> live → PDX va < UPDX →
       lookup_pte (phys s') d va = lookup_pte (phys (k_mm k)) d va) ∧
    (∀ a, a / 4096 ≠ p → load8 (phys s') a = load8 (phys (k_mm k)) a) ∧
    (∀ q, pp_ref (pages s' q) ≤ Z.max 1 (pp_ref (pages (k_mm k) q))).
Proof.
  intros H. pose proof (ke_mm _ _ _ _ _ _ H) as Hm. pose proof (ki_npages _ _ _ _ Hm).
  set (s := k_mm k) in *. set (dirs := dirof k <$> live) in *.
  destruct (kinv_alloc true base dirs s p l Hm) as (H1 & Hpl & Hp & Hr0 & Hb & Hnr & HT & Hlook).
  destruct (ke_kern _ _ _ _ _ _ H) as (Hkp & Hkpr & Hkb). fold s in Hkp, Hkpr.
  assert (kp ≠ p) as Hne by (intros ->; lia).
  set (s1 := alloc_state true p s) in *.
  assert (page_alloc ALLOC_ZERO s = (Ret (Some p), s1)) as Ea
    by exact (page_alloc_run ALLOC_ZERO s p l (ki_alloc _ _ _ _ Hm)).
  destruct (setup_pgdir_run s1 p kp) as (m & Es & Hslots & Hdata); [lia|done|done|].
  set (s2 := set_ref p (pp_ref (pages s1 p) + 1) s1) in *.
  assert (p ∉ dirs ++ tables (phys s) dirs) as Hpd by (by apply not_in_refs).
  assert (kinv (bump base p) dirs s2 l) as H2.
  { refine (kinv_incr base dirs s1 l H1 p Hp Hpl _ _); [by rewrite HT|]. rewrite Hr0. lia. }
  assert (kinv (bump base p) dirs (set_phys m s2) l ∧ tables m dirs = tables (phys s2) dirs ∧
    (∀ d va, d ∈ dirs → PDX va < UPDX → lookup_pte m d va = lookup_pte (phys s2) d va))
    as (H3 & HT3 & Hl3).
  { apply kinv_mem; [|done]. intros a Ha. apply Hdata. intros E. rewrite E in Ha.
    apply Hpd. change (phys s2) with (phys s1) in Ha. by rewrite HT in Ha. }
  assert (∀ i, 0 ≤ i < 1024 → load32 m (slot p i) = setup_pde (phys s) kp p i) as Hent.
  { intros i Hi. rewrite Hslots by done. unfold setup_pde. case_decide; [done|]. case_decide; [done|].
    apply load32_same_page; [done|]. intros a Ha'. apply alloc_state_data. congruence. }
  assert (∀ a, a / 4096 ≠ p → load8 m a = load8 (phys s) a) as Hd.
  { intros a Ha. rewrite Hdata by done. by apply alloc_state_data. }
  exists (set_phys m s2). splits; [| |repeat split|reflexivity|exact Hent| |exact Hd|].
  - unfold env_setup_vm. rewrite run_bind, (liftM_run _ _ (Ret (Some p)) s1) by exact Ea.
    rewrite run_bind, (liftM_run _ _ (Ret (kva p)) s1) by (apply page2kva_ok; simpl; lia).
    rewrite run_bind, run_modify. rewrite run_bind, (liftM_run _ _ (Ret tt) (set_phys m s2)) by exact Es.
    reflexivity.
  - apply kinv_add_dir; [exact H3|exact Hb|exact Hp| |apply Hm|].
    + change (pages (set_phys m s2)) with
        (<[p := mkPageInfo (pp_link (pages s1 p)) (u16 (pp_ref (pages s1 p) + 1))]> (pages s1)).
      rewrite upd_same. cbn [pp_ref]. by rewrite Hr0.
    + intros i Hi. unfold tgt, UPDX in *. cbn [phys set_phys]. rewrite Hent by lia.
      unfold setup_pde, UPDX. by rewrite decide_True by lia.
  - intros d va Hdd Hva. cbn [phys set_phys]. rewrite Hl3 by assumption. by apply Hlook.
  - intros q. change (pages (set_phys m s2)) with
        (<[p := mkPageInfo (pp_link (pages s1 p)) (u16 (pp_ref (pages s1 p) + 1))]> (pages s1)).
    rewrite upd_case. case_decide as Eq.
    + cbn [pp_ref]. rewrite Hr0. change (u16 (0 + 1)) with 1. lia.
    + unfold s1. rewrite alloc_state_pages, upd_other by exact Eq. fold s. lia.
Qed.

(** The environment [env_alloc] creates in slot [e] from the free [v]. *)
Definition fresh_env (v : Env) (e p parent : Z) : Env :=
  mkEnv env_tf_init (env_link v) (new_id (env_id v) e) parent ENV_TYPE_USER ENV_RUNNABLE 0
    (env_cpunum v) (kva p) 0 false (env_ipc_dstva v) (env_ipc_value v) (env_ipc_from v)
    (env_ipc_perm v).

Lemma env_alloc_run parent live e fe p l k :
  kernel_inv base kp live (e :: fe) (p :: l) k →
  ∃ k', env_alloc cpunum parent k = (Ret (0, Some e), k') ∧
    kernel_inv base kp (e :: live) fe l k' ∧
    envs k' = <[e := fresh_env (envs k e) e p parent]> (envs k) ∧
    cpus k' = cpus k ∧ kernel_lock k' = kernel_lock k ∧ same_globals (k_mm k) (k_mm k') ∧
    (∀ i, 0 ≤ i < 1024 →
       load32 (phys (k_mm k')) (slot p i) = setup_pde (phys (k_mm k)) kp p i) ∧
    (∀ d va, d ∈ dirof k <$> live → PDX va < UPDX →
       lookup_pte (phys (k_mm k')) d va = lookup_pte (phys (k_mm k)) d va) ∧
    (∀ a, a / 4096 ≠ p → load8 (phys (k_mm k')) a = load8 (phys (k_mm k)) a) ∧
    (∀ q, pp_ref (pages (k_mm k') q) ≤ Z.max 1 (pp_ref (pages (k_mm k) q))).
Proof.
  intros H. destruct (env_setup_vm_run e live (e :: fe) l p k H)
    as (s' & E & Hk & Hg & Htr & Hent & Hlook & Hdata & Href).
  pose proof (ke_link _ _ _ _ _ _ H) as [Hfl Hlk].
  assert (0 ≤ e < NENV) as He by (apply (ke_range _ _ _ _ _ _ H); left).
  assert (e ∉ live) as Hel.
  { intros Hin. apply (ke_disj _ _ _ _ _ _ H e Hin). left. }
  assert (e ∉ fe) as Hef.
  { pose proof (ke_nodup _ _ _ _ _ _ H) as Hn. simpl in Hn. apply NoDup_cons in Hn as [Hn _].
    rewrite elem_of_app in Hn. tauto. }
  eexists. unfold env_alloc. rewrite run_bind, run_gets, Hfl, run_bind, E.
  change (0 <? 0) with false. cbn match. splits; [by mrun|..]; try done; cbn [k_mm envs cpus kernel_lock].
  2: { simpl. rewrite !upd_same, !upd_upd. done. }
  set (k' := log_ev _ _).
  assert (envs k' = <[e := fresh_env (envs k e) e p parent]> (envs k)) as Ee.
  { simpl. rewrite !upd_same, !upd_upd. done. }
  assert (∀ x, x ≠ e → dirof k' x = dirof k x) as Hdir.
  { intros x Hx. unfold dirof. by rewrite Ee, upd_other by done. }
  assert (dirof k' e = p) as Hdp by (apply dirof_kva; by rewrite Ee, upd_same).
  assert (dirof k' <$> e :: live = p :: (dirof k <$> live)) as Ed.
  { csimpl. rewrite Hdp. f_equal. apply list_fmap_ext. intros i x Hx. apply Hdir.
    intros ->. apply Hel. by apply list_elem_of_lookup_2 in Hx. }
  destruct (new_id_spec (env_id (envs k e)) e He) as (Hid & Hx & _).
  destruct H. split; rewrite ?Ed, ?Ee.
  - assert (env_free_list k' = env_link (envs k e)) as -> by (simpl; by rewrite !upd_same).
    eapply linked_ext; [|exact Hlk]. intros x Hx'. simpl. by rewrite upd_other by (by intros ->).
  - rewrite <- ke_part. simpl. by rewrite Permutation_middle.
  - intros x Hx'. rewrite upd_other by (by intros ->). apply ke_free. by right.
  - intros x [->|Hx']%elem_of_cons; [by rewrite upd_same|]. rewrite upd_other by (by intros ->). auto.
  - intros x [->|Hx']%elem_of_cons; [by rewrite upd_same|]. rewrite upd_other by (by intros ->). auto.
  - intros x [->|Hx']%elem_of_cons; [by rewrite upd_same, Hdp|].
    rewrite upd_other by (by intros ->). rewrite Hdir by (by intros ->). auto.
  - exact Hk.
  - destruct Hg as (En & _ & Ekp & _). simpl. by rewrite Ekp, En.
Qed.
End alloc.

(** ** env_free *)

(** The state after [lcr3 pa]. *)
Definition lcr3_state (cpunum pa : Z) (k : kst) : kst :=
  let k := set_mm (emit_mm (Lcr3 pa) (k_mm k)) k in
  set_cpus (<[cpunum := mkCpu (cpu_status (cpus k cpunum)) (cpu_env (cpus k cpunum)) pa]> (cpus k)) k.

Lemma lcr3_run cpunum pa k : lcr3 cpunum pa k = (Ret tt, lcr3_state cpunum pa k).
Proof. reflexivity. Qed.

Lemma lcr3_inv cpunum pa base kp live fe l k :
  kernel_inv base kp live fe l k → kernel_inv base kp live fe l (lcr3_state cpunum pa k).
Proof.
  intros H. unfold lcr3_state. apply ke_set_cpus. eapply ke_set_mm; [done|by repeat split|].
  apply (kinv_emit _ _ _ _ [Lcr3 pa]), H.
Qed.

Lemma lcr3_cpu_env cpunum pa k c :
  cpu_env (cpus (lcr3_state cpunum pa k) c) = cpu_env (cpus k c) ∧
  cpu_status (cpus (lcr3_state cpunum pa k) c) = cpu_status (cpus k c).
Proof. unfold lcr3_state. simpl. rewrite upd_case. case_decide; by subst. Qed.

Section free.
Context (cpunum : Z) (base : Z → Z) (kp : Z).

(** Other environments' view of a destruction. *)
Record env_freed (live : list Z) (e : Z) (l : list Z) (k k' : kst) (l' : list Z) : Prop := {
  ef_envs : ∀ e', e' ≠ e → envs k' e' = envs k e';
  ef_self : envs k' e = with_link (with_status (with_pgdir (envs k e) 0) ENV_FREE) (env_free_list k);
  ef_lookup : ∀ e' va, e' ∈ live → PDX va < UPDX →
    lookup_pte (phys (k_mm k')) (dirof k e') va = lookup_pte (phys (k_mm k)) (dirof k e') va;
  ef_data : ∀ a, a / 4096 ∉ (dirof k <$> e :: live) ++ tables (phys (k_mm k)) (dirof k <$> e :: live) →
    load8 (phys (k_mm k')) a = load8 (phys (k_mm k)) a;
  ef_free : ∀ p, p ∈ l → p ∈ l';
  ef_cpu : ∀ c, cpu_env (cpus k' c) = cpu_env (cpus k c) ∧
                cpu_status (cpus k' c) = cpu_status (cpus k c);
  ef_lock : kernel_lock k' = kernel_lock k;
  ef_globals : same_globals (k_mm k) (k_mm k');
  ef_other : ∀ c, cpu_env (cpus k c) ≠ Some e → cpus k' c = cpus k c;
  ef_dir : dirof k e ∈ l';
  ef_lost : ∀ p, lost (k_mm k') l' p → lost (k_mm k) l p;
}.

(** From the loops on. *)
Definition env_free_tail (e : Z) : K () :=
  env ← get_env e;
  liftP cpunum (λ cur, env_free_pts cur (env_pgdir env)) ;;
  pa ← liftM (PADDR (env_pgdir env));
  modify (upd_env e (λ v, with_pgdir v 0)) ;;
  p ← liftM (pa2page pa);
  liftM (page_decref p) ;;
  modify (upd_env e (λ v, with_status v ENV_FREE)) ;;
  modify (λ k, upd_env e (λ v, with_link v (env_free_list k)) k) ;;
  modify (set_env_free (Some e)).

Lemma env_free_tail_run e live fe l k :
  kernel_inv base kp (e :: live) fe l k →
  ∃ k' l', env_free_tail e k = (Ret tt, k') ∧ kernel_inv base kp live (e :: fe) l' k' ∧
    env_freed live e l k k' l' ∧ cpus k' = cpus k ∧ env_free_list k' = Some e.
Proof.
  intros H. pose proof (ke_mm _ _ _ _ _ _ H) as Hm. pose proof (ki_npages _ _ _ _ Hm) as Hnp.
  csimpl in Hm. set (d := dirof k e) in *. set (dirs := dirof k <$> live) in *.
  assert (env_pgdir (envs k e) = kva d) as Epd by (apply (ke_pgdir _ _ _ _ _ _ H); left).
  assert (0 ≤ d < npages (k_mm k)) as Hd by (apply (ki_dir _ _ _ _ _ Hm); left).
  assert (e ∉ live) as Hel.
  { pose proof (ke_nodup _ _ _ _ _ _ H) as Hn. apply NoDup_app in Hn as (_ & _ & Hn).
    by apply NoDup_cons in Hn as [? _]. }
  assert (d ∉ dirs) as Hdd.
  { pose proof (ki_nodup _ _ _ _ Hm) as Hn. apply NoDup_app in Hn as (Hn & _).
    by apply NoDup_cons in Hn as [? _]. }
  destruct (env_free_pts_spec (cur_pgdir cpunum k) base (d :: dirs) d ltac:(left) (k_mm k) l Hm)
    as (s1 & E1 & l1 & H1 & F1 & He1).
  destruct (kinv_free_dir base dirs d s1 l1 H1 He1) as (Hlk & l2 & H2 & Hl2 & Hd2 & Hlo2).
  destruct (decref_fields d s1) as (Ep2 & Eg2 & _).
  pose proof (ff_globals _ _ _ _ _ _ F1) as Eg1.
  assert (npages s1 = npages (k_mm k)) as En by apply Eg1.
  set (s2 := decref_state d s1) in *.
  set (k1 := set_mm s2 (upd_env e (λ v, with_pgdir v 0) k)).
  set (k2 := upd_env e (λ v, with_link v (env_free_list k)) (upd_env e (λ v, with_status v ENV_FREE) k1)).
  set (k3 := set_env_free (Some e) k2).
  assert (envs k3 = <[e := with_link (with_status (with_pgdir (envs k e) 0) ENV_FREE)
            (env_free_list k)]> (envs k)) as Ee.
  { unfold k3, k2, k1. simpl. by rewrite !upd_same, !upd_upd. }
  assert (∀ x, x ∈ live → dirof k3 x = dirof k x) as Hdir.
  { intros x Hx. unfold dirof. by rewrite Ee, upd_other by (by intros ->). }
  exists k3, l2. splits; try reflexivity.
  - unfold env_free_tail. rewrite run_bind. unfold get_env. rewrite run_gets, Epd.
    rewrite run_bind, (liftP_run _ _ _ (Ret tt) s1) by exact E1.
    rewrite run_bind, (liftM_run _ _ (Ret (d * 4096)) s1) by (apply PADDR_kva; lia).
    rewrite run_bind, run_modify, run_bind, (liftM_run _ _ (Ret d) s1).
    2: { simpl. rewrite <- (Z.add_0_r (d * 4096)). apply pa2page_ok; lia. }
    rewrite run_bind, (liftM_run _ _ (Ret tt) s2) by (by apply page_decref_run). mrun. reflexivity.
  - assert (dirof k3 <$> live = dirs) as Ed.
    { apply list_fmap_ext. intros i x Hx. apply Hdir. by apply list_elem_of_lookup_2 in Hx. }
    pose proof (ke_disj _ _ _ _ _ _ H e ltac:(left)) as Hef.
    destruct H. split; rewrite ?Ed.
    + split; [reflexivity|]. rewrite Ee, upd_same. cbn [env_link with_link].
      eapply linked_ext; [|exact ke_link]. intros x Hx. simpl. by rewrite upd_other by (by intros ->).
    + rewrite <- ke_part. simpl. by rewrite Permutation_middle.
    + rewrite Ee. intros x [->|Hx]%elem_of_cons; [by rewrite upd_same|].
      rewrite upd_other by (by intros ->). auto.
    + rewrite Ee. intros x Hx. rewrite upd_other by (by intros ->). apply ke_status. by right.
    + rewrite Ee. intros x Hx. rewrite upd_other by (by intros ->). apply ke_id. by right.
    + intros x Hx. rewrite Hdir by done. rewrite Ee, upd_other by (by intros ->). apply ke_pgdir. by right.
    + exact H2.
    + assert (same_globals (k_mm k) s2) as (En' & _ & Ek' & _) by (by transitivity s1).
      change (k_mm k3) with s2. by rewrite En', Ek'.
  - split.
    + intros x Hx. by rewrite Ee, upd_other by done.
    + by rewrite Ee, upd_same.
    + intros x va Hx Hva. change (phys (k_mm k3)) with (phys s2). rewrite Ep2.
      apply (ff_lookup _ _ _ _ _ _ F1); [right; by apply ke_dir| |exact Hva].
      intros E. apply Hdd. rewrite <- E. by apply ke_dir.
    + intros a Ha. change (phys (k_mm k3)) with (phys s2). rewrite Ep2.
      apply (ff_data _ _ _ _ _ _ F1), Ha.
    + intros p Hp. by apply Hl2, (ff_free _ _ _ _ _ _ F1).
    + split; reflexivity.
    + reflexivity.
    + transitivity s1; [exact Eg1|exact Eg2].
    + reflexivity.
    + exact Hd2.
    + intros p Hp. apply (ff_lost _ _ _ _ _ _ F1), Hlo2, Hp.
Qed.
End free.

Section theorems.
Context (cpunum : Z) (base : Z → Z) (kp : Z).

Lemma env_free_run e live fe l k :
  kernel_inv base kp (e :: live) fe l k →
  ∃ k' l', env_free cpunum e k = (Ret tt, k') ∧ kernel_inv base kp live (e :: fe) l' k' ∧
    env_freed live e l k k' l' ∧ env_free_list k' = Some e ∧
    (cpu_env (cpus k cpunum) ≠ Some e → cpus k' = cpus k).
Proof.
  intros H. destruct (ke_kern _ _ _ _ _ _ H) as (Hkp & Hkpr & _).
  pose proof (ki_npages _ _ _ _ (ke_mm _ _ _ _ _ _ H)) as Hnp.
  set (k0 := if bool_decide (cpu_env (cpus k cpunum) = Some e)
             then lcr3_state cpunum (kp * 4096) k else k).
  assert (kernel_inv base kp (e :: live) fe l k0) as H0
    by (unfold k0; case_bool_decide; [by apply lcr3_inv|done]).
  assert (envs k0 = envs k ∧ env_free_list k0 = env_free_list k ∧ kernel_lock k0 = kernel_lock k ∧
          phys (k_mm k0) = phys (k_mm k) ∧ pages (k_mm k0) = pages (k_mm k) ∧ same_globals (k_mm k) (k_mm k0) ∧
          (∀ c, cpu_env (cpus k0 c) = cpu_env (cpus k c) ∧
                cpu_status (cpus k0 c) = cpu_status (cpus k c)) ∧
          (∀ c, cpu_env (cpus k c) ≠ Some e → cpus k0 c = cpus k c) ∧
          (cpu_env (cpus k cpunum) ≠ Some e → cpus k0 = cpus k)) as (Ee & Efl & El & Ep & Epg & Eg & Ec & Eo & Eall).
  { unfold k0. case_bool_decide as Hcur; [|by splits].
    splits; try reflexivity; [by repeat split|apply lcr3_cpu_env| |by intros Hn; destruct (Hn Hcur)].
    intros c Hc. unfold lcr3_state. simpl. rewrite upd_other; [done|by intros <-]. }
  assert (∃ v, env_free cpunum e k = env_free_tail cpunum e (log_ev v k0)) as [v Er].
  { eexists. unfold env_free. rewrite run_bind. unfold curenv. rewrite run_gets.
    rewrite run_bind, run_if.
    assert ((if bool_decide (cpu_env (cpus k cpunum) = Some e)
      then (kpd ← liftM (gets kern_pgdir); pa ← liftM (PADDR kpd); lcr3 cpunum pa) k
      else (mret tt : K ()) k) = (Ret tt, k0)) as E.
    { unfold k0. case_bool_decide; [|done].
      rewrite run_bind, liftM_gets, Hkp.
      rewrite run_bind, (liftM_run _ _ (Ret (kp * 4096)) (k_mm k)) by (apply PADDR_kva; lia).
      rewrite set_mm_id. by rewrite lcr3_run. }
    rewrite E. rewrite run_bind, run_gets. reflexivity. }
  destruct (env_free_tail_run cpunum base kp e live fe l (log_ev v k0))
    as (k' & l' & E & H' & F & Ecpu & Efree); [by apply ke_log|].
  exists k', l'. rewrite Er. splits; try done; [|intros Hc; transitivity (cpus k0); [exact Ecpu|exact (Eall Hc)]].
  destruct F as [f1 f2 f3 f4 f5 f6 f7 f8 f9 f10 f11].
  change (envs (log_ev v k0)) with (envs k0) in *. change (k_mm (log_ev v k0)) with (k_mm k0) in *.
  change (env_free_list (log_ev v k0)) with (env_free_list k0) in *.
  change (cpus (log_ev v k0)) with (cpus k0) in *.
  assert (∀ x, dirof (log_ev v k0) x = dirof k x) as Ed by (intros x; unfold dirof; simpl; by rewrite Ee).
  rewrite Ee, Efl in f2. rewrite Ee in f1. rewrite Ep in f4, f3.
  split; [exact f1|exact f2| | |exact f5| | | | |by rewrite <- Ed|intros p Hp; exact (lost_ext _ _ _ _ Epg (f11 p Hp))].
  - intros x va Hx Hva. rewrite <- !Ed. by apply f3.
  - intros a Ha. apply f4. by rewrite (list_fmap_ext (dirof (log_ev v k0)) (dirof k)) by (intros; apply Ed).
  - intros c. destruct (f6 c) as [-> ->]. apply Ec.
  - rewrite f7. exact El.
  - transitivity (k_mm k0); [exact Eg|exact f8].
  - intros c Hc. rewrite f9; rewrite Eo by exact Hc; [done|exact Hc].
Qed.
End theorems.

Section naming.
Context (cpunum : Z).

(** An environment that [envid] may name for the caller [c]. *)
Definition may_name (k : kst) (c envid : Z) (checkperm : bool) : Prop :=
  let e := ENVX envid in
  env_status (envs k e) ≠ ENV_FREE ∧ env_id (envs k e) = envid ∧
  (checkperm = true → e = c ∨ env_parent_id (envs k e) = env_id (envs k c)).
#[export] Instance may_name_dec k c envid cp : Decision (may_name k c envid cp).
Proof. unfold may_name. apply _. Defined.

Lemma envid2env_run k c envid cp : cpu_env (cpus k cpunum) = Some c →
  envid2env cpunum envid cp k =
    (Ret (if decide (envid = 0) then (0, Some c)
          else if decide (may_name k c envid cp) then (0, Some (ENVX envid))
          else (- E_BAD_ENV, None)), k).
Proof.
  intros Hc. unfold envid2env. destruct (Z.eqb_spec envid 0) as [->|Hne].
  { rewrite decide_True by done. mrun. unfold curenv. mrun. by rewrite Hc. }
  rewrite decide_False by done. unfold get_env, curenv', curenv. mrun. rewrite ?Hc.
  unfold may_name.
  destruct (Z.eqb_spec (env_status (envs k (ENVX envid))) ENV_FREE) as [Es|Es]; cbn [orb].
  { rewrite decide_False by tauto. done. }
  destruct (Z.eqb_spec (env_id (envs k (ENVX envid))) envid) as [Ei|Ei]; cbn [negb].
  2: { rewrite decide_False by tauto. done. }
  mrun. rewrite ?Hc. destruct cp; cbn [andb negb].
  - case_bool_decide as Hb; cbn [negb].
    + rewrite decide_True; [done|]. splits; try done. intros _. left. congruence.
    + mrun. rewrite Hc. mrun. destruct (Z.eqb_spec (env_parent_id (envs k (ENVX envid))) (env_id (envs k c))).
      * rewrite decide_True by tauto. done.
      * rewrite decide_False; [done|]. intros (_ & _ & Hp). destruct (Hp eq_refl); [congruence|done].
  - rewrite decide_True by (splits; done). done.
Qed.
End naming.

(** ** env_init *)

Section init.
Lemma env_init_step_run i k :
  env_init_step i k = (Ret tt, set_env_free (Some i)
    (upd_env i (λ v, with_link (with_status (with_ids v 0 (env_parent_id v) (env_type v)) ENV_FREE)
                       (env_free_list k)) k)).
Proof.
  unfold env_init_step. mrun. unfold set_env_free, upd_env, set_envs. simpl.
  by rewrite !upd_same, !upd_upd.
Qed.

(** What [env_init] has done from slot [n] on. *)
Definition inited (n : Z) (k0 k : kst) : Prop :=
  linked (λ e, env_link (envs k e)) (env_free_list k) (zrange n (NENV - n)) ∧
  (∀ e, n ≤ e < NENV → env_status (envs k e) = ENV_FREE ∧ env_id (envs k e) = 0) ∧
  k_mm k = k_mm k0 ∧ cpus k = cpus k0 ∧ kernel_lock k = kernel_lock k0.

Lemma env_init_loop n k0 k : 0 ≤ n ≤ NENV → inited n k0 k →
  ∃ k', forM (reverse (zrange 0 n)) env_init_step k = (Ret tt, k') ∧ inited 0 k0 k'.
Proof.
  intros [Hn Hn2]. revert n Hn k Hn2. apply (natlike_ind (λ n, ∀ k, _ → _ → _)).
  - intros k _ H. by exists k.
  - intros n Hn IH k Hn2 (Hl & Hf & Hm & Hc & Hk). unfold NENV in *.
    rewrite <- Z.add_1_r, zrange_snoc, reverse_app, Z.add_0_l by lia.
    rewrite reverse_singleton. cbn [app forM]. rewrite run_bind, env_init_step_run.
    apply IH; [lia|]. unfold inited, NENV. rewrite zrange_cons by lia. splits; try done.
    + split; [done|]. simpl. rewrite upd_same. simpl.
      replace (1024 - n - 1) with (1024 - Z.succ n) by lia.
      eapply linked_ext; [|exact Hl]. intros p Hp%elem_of_zrange. simpl. rewrite upd_other; [done|lia].
    + intros e He. simpl. rewrite upd_case. case_decide; [done|]. apply Hf. lia.
Qed.

Lemma env_init_run k : ∃ k', env_init k = (Ret tt, k') ∧ inited 0 k k'.
Proof.
  unfold env_init. rewrite run_bind, run_modify, run_bind.
  destruct (env_init_loop NENV k (set_env_free None k)) as (k' & -> & H).
  - unfold NENV. lia.
  - unfold inited. replace (NENV - NENV) with 0 by lia. splits; try done. unfold NENV. intros e. lia.
  - eexists. split; [reflexivity|]. exact H.
Qed.
End init.

(** [env_init] establishes the kernel invariant with no live environment
    and the free list in the order of the array, so that the first
    [env_alloc] returns [envs[0]]. *)
Theorem env_init_correct base kp l k :
  kinv base [] (k_mm k) l → kern_pgdir (k_mm k) = kva kp → 0 ≤ kp < npages (k_mm k) → 1 ≤ base kp →
  ∃ k', env_init k = (Ret tt, k') ∧ kernel_inv base kp [] (zrange 0 NENV) l k' ∧
    env_free_list k' = Some 0 ∧ (∀ e, 0 ≤ e < NENV → env_id (envs k' e) = 0) ∧
    k_mm k' = k_mm k ∧ cpus k' = cpus k.
Proof.
  intros H Hkp Hr Hb. destruct (env_init_run k) as (k' & E & Hl & Hf & Hm & Hc & Hlk).
  rewrite Z.sub_0_r in Hl. exists k'. splits; try assumption.
  - split.
    + exact Hl.
    + by rewrite app_nil_r.
    + intros e He%elem_of_zrange. apply Hf. lia.
    + intros e []%elem_of_nil.
    + intros e []%elem_of_nil.
    + intros e []%elem_of_nil.
    + by rewrite Hm.
    + rewrite Hm. exact (conj Hkp (conj Hr Hb)).
  - rewrite zrange_cons in Hl by (unfold NENV; lia). by destruct Hl.
  - intros e He. by apply Hf.
Qed.

(** [envid2env] for a current environment [c]: 0 names the caller; any
    other identifier succeeds exactly when its slot is in use, the identifier
    is the slot's current one (not a stale one) and, when permission is
    checked, the environment is the caller or an immediate child of it; a
    success gives a live environment; nothing changes. *)
Theorem envid2env_correct cpunum base kp live fe l k c envid cp :
  kernel_inv base kp live fe l k → cpu_env (cpus k cpunum) = Some c → c ∈ live →
  (envid2env cpunum envid cp k =
      (Ret (if decide (envid = 0) then (0, Some c)
            else if decide (may_name k c envid cp) then (0, Some (ENVX envid))
            else (- E_BAD_ENV, None)), k)) ∧
  (∀ e k', envid2env cpunum envid cp k = (Ret (0, Some e), k') → e ∈ live).
Proof.
  intros H Hc Hl. rewrite (envid2env_run cpunum k c envid cp Hc). split; [done|].
  intros e k'. case_decide; [by intros [= <- <-]|]. case_decide as Hm; [|by intros [= ?]].
  intros [= <- <-]. destruct Hm as (Hs & _). apply (ke_live_iff _ _ _ _ _ _ H); [apply ENVX_range|done].
Qed.

Lemma env_alloc_noenv cpunum parent k :
  env_free_list k = None → env_alloc cpunum parent k = (Ret (- E_NO_FREE_ENV, None), k).
Proof. intros E. unfold env_alloc. by rewrite run_bind, run_gets, E. Qed.

Lemma env_alloc_nomem cpunum base kp parent live fe k : fe ≠ [] →
  kernel_inv base kp live fe [] k → env_alloc cpunum parent k = (Ret (- E_NO_MEM, None), k).
Proof.
  intros Hfe H. destruct fe as [|e fe]; [done|]. unfold env_alloc. rewrite run_bind, run_gets.
  pose proof (ke_link _ _ _ _ _ _ H) as [-> _].
  by rewrite run_bind, (env_setup_vm_nomem base kp e live (e :: fe)).
Qed.

(** C16: [env_alloc] on every branch.  No free slot gives [-E_NO_FREE_ENV] and no
    free page [-E_NO_MEM], without any change.  Otherwise the first free slot
    becomes a runnable environment with a fresh positive identifier that names
    the slot and differs from the slot's previous one, user-mode registers
    with interrupts enabled, no page-fault upcall and no pending receive, and a
    directory that maps nothing below [UTOP], itself read-only at [UVPT], and
    what the kernel's directory maps elsewhere; other environments' mappings
    are as before and the kernel invariant holds. *)
Theorem env_alloc_correct cpunum base kp parent live fe l k :
  kernel_inv base kp live fe l k →
  match fe, l with
  | [], _ => env_alloc cpunum parent k = (Ret (- E_NO_FREE_ENV, None), k)
  | _ :: _, [] => env_alloc cpunum parent k = (Ret (- E_NO_MEM, None), k)
  | e :: fe, p :: l =>
      ∃ k', env_alloc cpunum parent k = (Ret (0, Some e), k') ∧
        kernel_inv base kp (e :: live) fe l k' ∧
        envs k' = <[e := fresh_env (envs k e) e p parent]> (envs k) ∧
        (0 < env_id (envs k' e) ∧ ENVX (env_id (envs k' e)) = e ∧
         (0 ≤ env_id (envs k e) < 2147483648 → ENVX (env_id (envs k e)) = e →
          env_id (envs k' e) ≠ env_id (envs k e))) ∧
        (∀ i, 0 ≤ i < 1024 → load32 (phys (k_mm k')) (slot p i) = setup_pde (phys (k_mm k)) kp p i) ∧
        (∀ d va, d ∈ dirof k <$> live → PDX va < UPDX →
           lookup_pte (phys (k_mm k')) d va = lookup_pte (phys (k_mm k)) d va)
  end.
Proof.
  intros H. destruct fe as [|e fe]; [|destruct l as [|p l]].
  - apply env_alloc_noenv, (ke_link _ _ _ _ _ _ H).
  - by apply (env_alloc_nomem cpunum base kp parent live (e :: fe)).
  - destruct (env_alloc_run cpunum base kp parent live e fe p l k H)
      as (k' & E & H' & Ee & _ & _ & _ & Hs & Hl & _).
    assert (0 ≤ e < NENV) as He by (apply (ke_range _ _ _ _ _ _ H); left).
    destruct (new_id_spec (env_id (envs k e)) e He) as (? & ? & ?).
    exists k'. splits; try assumption; rewrite Ee, upd_same; simpl; [lia|assumption..].
Qed.

(** C6: [env_free] gives back everything: the environment's slot is free and
    first on the free list, its directory is on the list of free pages, and so is
    every page that has lost its last reference; no page leaves that list.  The
    reference counts are exactly those of the remaining environments, whose
    mappings, and the contents of the pages they map, are untouched. *)
Theorem env_free_correct cpunum base kp e live fe l k :
  kernel_inv base kp (e :: live) fe l k →
  ∃ k' l', env_free cpunum e k = (Ret tt, k') ∧ kernel_inv base kp live (e :: fe) l' k' ∧
    env_status (envs k' e) = ENV_FREE ∧ env_free_list k' = Some e ∧
    (∀ e', e' ≠ e → envs k' e' = envs k e') ∧
    (∀ e' va, e' ∈ live → PDX va < UPDX →
       lookup_pte (phys (k_mm k')) (dirof k e') va = lookup_pte (phys (k_mm k)) (dirof k e') va) ∧
    (∀ e' va pte a, e' ∈ live → PDX va < UPDX →
       lookup_pte (phys (k_mm k)) (dirof k e') va = Some pte → a / 4096 = pte / 4096 →
       load8 (phys (k_mm k')) a = load8 (phys (k_mm k)) a) ∧
    dirof k e ∈ l' ∧ (∀ p, p ∈ l → p ∈ l') ∧
    (∀ p, pp_ref (pages (k_mm k') p) = 0 → p ∈ l' ∨ (pp_ref (pages (k_mm k) p) = 0 ∧ p ∉ l)) ∧
    (∀ p, 0 ≤ p < npages (k_mm k') →
       pp_ref (pages (k_mm k') p) = base p + countZ p (refs (phys (k_mm k')) (dirof k' <$> live))).
Proof.
  intros H. destruct (env_free_run cpunum base kp e live fe l k H) as (k' & l' & E & H' & F & Hf & _).
  exists k', l'. destruct F as [f1 f2 f3 f4 f5 f6 f7 f8 f9 f10 f11].
  splits; try assumption; [by rewrite f2| | |apply (ki_ref _ _ _ _ (ke_mm _ _ _ _ _ _ H'))].
  - intros e' va pte a He Hva Hl Ha. apply f4. rewrite Ha. pose proof (ke_mm _ _ _ _ _ _ H) as Hm. intros Hin.
    apply (ki_priv _ _ _ _ Hm (pte / 4096)); [|exact Hin].
    apply (lookup_leaf _ _ (dirof k e') va); [apply ke_dir; by right|exact Hva|exact Hl].
  - intros p Hp. destruct (decide (p ∈ l')) as [|Hn]; [by left|right]. exact (f11 p (conj Hp Hn)).
Qed.

(** ** A concrete kernel state

    The memory of [demo_pt]; environment 0 runs on CPU 0 with directory page 2
    and the big lock held; the other slots are free, in order. *)
Definition demo_tf : Trapframe := tf_set_eip 0x800020 env_tf_init.
Definition demo_env (i : Z) : Env :=
  if i =? 0 then
    mkEnv demo_tf None 4096 0 ENV_TYPE_USER ENV_RUNNING 1 0 (kva 2) 0 false 0 0 0 0
  else mkEnv tf0 (if decide (i + 1 < 1024) then Some (i + 1) else None)
         0 0 ENV_TYPE_USER ENV_FREE 0 0 0 0 false 0 0 0 0.
Definition demo_k : kst :=
  mkK demo_pt demo_env (Some 1)
    (λ c, if c =? 0 then mkCpu CPU_STARTED (Some 0) (2 * 4096) else mkCpu CPU_UNUSED None 0)
    (mkLock true (Some 0)) [].

Lemma demo_k_inv : kernel_inv demo_base 1 [0] (zrange 1 1023) [3; 5; 6] demo_k.
Proof.
  assert (∀ i, 1 ≤ i → demo_env i = mkEnv tf0 (if decide (i + 1 < 1024) then Some (i + 1) else None)
         0 0 ENV_TYPE_USER ENV_FREE 0 0 0 0 false 0 0 0 0) as Hf.
  { intros i Hi. unfold demo_env. destruct (Z.eqb_spec i 0); [lia|done]. }
  split.
  - apply (linked_range _ 1024 1 1023); [|done]. intros i Hi. cbn [demo_k envs]. by rewrite Hf by lia.
  - unfold NENV. rewrite (zrange_cons 0 1024) by lia. by rewrite Permutation_app_comm.
  - intros e He%elem_of_zrange. cbn [demo_k envs]. by rewrite Hf by lia.
  - intros e ->%list_elem_of_singleton. cbn. unfold ENV_DYING, ENV_RUNNING, ENV_NOT_RUNNABLE. lia.
  - intros e ->%list_elem_of_singleton. cbn. split; [lia|done].
  - intros e ->%list_elem_of_singleton. done.
  - exact demo_pt_inv.
  - split; [done|]. split; [cbn; lia|]. by vm_compute.
Qed.

Lemma demo_cpus : cpus_ok [0] demo_k.
Proof. intros c e. simpl. case_match; [intros [= <-]; left|done]. Qed.

Lemma env_init_correct_witness :
  ∃ k', env_init demo_k = (Ret tt, k') ∧ env_free_list k' = Some 0.
Proof.
  assert (kinv demo_base2 [] (k_mm demo_k) [3; 5; 6]) as H by exact demo_pt_boot.
  destruct (env_init_correct demo_base2 1 [3; 5; 6] demo_k H eq_refl) as (k' & E & _ & Hf & _).
  - cbn. lia.
  - by vm_compute.
  - exact (ex_intro _ k' (conj E Hf)).
Defined.

Lemma envid2env_correct_witness :
  kernel_inv demo_base 1 [0] (zrange 1 1023) [3; 5; 6] demo_k ∧
  envid2env 0 4096 true demo_k = (Ret (0, Some 0), demo_k) ∧
  envid2env 0 4097 true demo_k = (Ret (- E_BAD_ENV, None), demo_k).
Proof.
  split; [exact demo_k_inv|].
  destruct (envid2env_correct 0 demo_base 1 [0] (zrange 1 1023) [3; 5; 6] demo_k 0 4096 true demo_k_inv
    eq_refl ltac:(left)) as [-> _].
  destruct (envid2env_correct 0 demo_base 1 [0] (zrange 1 1023) [3; 5; 6] demo_k 0 4097 true demo_k_inv
    eq_refl ltac:(left)) as [-> _]. split; reflexivity.
Defined.

Lemma env_alloc_correct_witness :
  ∃ k', env_alloc 0 4096 demo_k = (Ret (0, Some 1), k') ∧ env_id (envs k' 1) = 4097.
Proof.
  pose proof (env_alloc_correct 0 demo_base 1 4096 [0] (zrange 1 1023) [3; 5; 6] demo_k demo_k_inv) as H.
  rewrite zrange_cons in H by lia. destruct H as (k' & E & _ & Ee & _).
  exists k'. split; [exact E|]. rewrite Ee, upd_same. reflexivity.
Defined.

Lemma env_free_correct_witness :
  ∃ k' l', env_free 0 0 demo_k = (Ret tt, k') ∧
    kernel_inv demo_base 1 [] (0 :: zrange 1 1023) l' k' ∧ env_status (envs k' 0) = ENV_FREE.
Proof.
  destruct (env_free_correct 0 demo_base 1 0 [] (zrange 1 1023) [3; 5; 6] demo_k demo_k_inv)
    as (k' & l' & E & H & Hs & _). exact (ex_intro _ k' (ex_intro _ l' (conj E (conj H Hs)))).
Defined.
