(* ===== verification/Sched.v ===== *)
(** * kern/sched.c, and the operations that may end in the scheduler

    [sched_yield], [sched_halt], [env_destroy] of kern/env.c and the user
    memory checks of kern/pmap.c, which destroy an environment that fails
    them. *)
From S2P Require Import Prelude Monad Word Layout Mem CString PageAlloc PageTable PageInv PageOps KState Env.

Section sched.
Context (cpunum : Z).

(** The status values that keep the system alive. *)
Definition alive (st : Z) : bool :=
  (st =? ENV_RUNNABLE) || (st =? ENV_RUNNING) || (st =? ENV_DYING).

Definition sched_halt : K () :=
  g ← gets envs;
  if forallb (λ i, negb (alive (env_status (g i)))) (zrange 0 NENV) then
    cprintf "No runnable environments in the system!\n" [] ;;
    stopM SMonitor
  else
    set_curenv cpunum None ;;
    kpd ← liftM (gets kern_pgdir);
    pa ← liftM (PADDR kpd);
    lcr3 cpunum pa ;;
    _ ← xchg_cpu_status cpunum CPU_HALTED;
    unlock_kernel cpunum ;;
    stopM SHalt.

(** The search loop from iteration [i]; [n] iterations are left. *)
Fixpoint sched_loop (n : nat) (begin i : Z) : K () :=
  match n with
  | O => mret tt
  | S n =>
      let index := (begin + i) mod NENV in
      env ← get_env index;
      if env_status env =? ENV_RUNNABLE then env_run cpunum index
      else sched_loop n begin (i + 1)
  end.

Definition sched_yield : K () :=
  c ← curenv cpunum;
  begin ← (match c with
           | Some c => env ← get_env c; mret (ENVX (env_id env) + 1)
           | None => mret 0
           end);
  sched_loop (Z.to_nat NENV) begin 0 ;;
  (match c with
   | Some c =>
       env ← get_env c;
       if env_status env =? ENV_RUNNING then env_run cpunum c else mret tt
   | None => mret tt
   end) ;;
  sched_halt.

Definition env_destroy (e : Z) : K () :=
  env ← get_env e;
  c ← curenv cpunum;
  if (env_status env =? ENV_RUNNING) && negb (bool_decide (c = Some e))
  then modify (upd_env e (λ v, with_status v ENV_DYING))
  else
    env_free cpunum e ;;
    c ← curenv cpunum;
    if bool_decide (c = Some e) then set_curenv cpunum None ;; sched_yield else mret tt.

(** ** Checking user memory (kern/pmap.c) *)

Fixpoint user_mem_check_loop (env : Env) (va perm : Z) (starts : list Z) : K Z :=
  match starts with
  | [] => mret 0
  | start :: starts =>
      cur ← liftM (pgdir_walk (env_pgdir env) start false);
      bad ← (match cur with
             | None => mret true
             | Some cur =>
                 if ULIM <=? start then mret true
                 else pte ← liftM (kload32 cur);
                      mret (negb (Z.land pte (u32 perm) =? u32 perm))
             end);
      if (bad : bool) then
        (let a := if start =? ROUNDDOWN va PGSIZE then va else start in
         liftM (modify (set_check_addr a)) ;;
         cprintf "[%08x] user_mem_check assertion failure for va %08x\n" [env_id env; a] ;;
         mret (- E_FAULT))
      else user_mem_check_loop env va perm starts
  end.

Definition user_mem_check (e va len perm : Z) : K Z :=
  let start := ROUNDDOWN va PGSIZE in
  let end_ := ROUNDUP (u32 (va + len)) PGSIZE in
  env ← get_env e;
  user_mem_check_loop env va perm (pages_between start end_).

Definition user_mem_assert (e va len perm : Z) : K () :=
  r ← user_mem_check e va len (Z.lor perm PTE_U);
  if r <? 0 then
    env ← get_env e;
    a ← liftM (gets user_mem_check_addr);
    cprintf "[%08x] user_mem_check assertion failure for va %08x\n" [env_id env; a] ;;
    env_destroy e
  else mret tt.
End sched.
