(* ===== verification/Init.v ===== *)
(** * kern/init.c: starting the other CPUs

    [boot_aps] puts the entry code into low memory, and wakes each CPU and waits
    until it has set itself up ([mp_main] up to the kernel lock); [mp_main] then
    takes the lock and schedules.  The computations of Lapic, Seg and KState work on
    parts of one state here.  Proved: after [boot_aps] the CPUs are up in the
    kernel's address space, with their segments loaded, and the kernel invariant is
    kept. *)
From S2P Require Import Prelude Monad Word Layout Mem CString PageAlloc PageTable PageInv PageOps PageDirs Seg KState Lapic Env EnvMem KInv EnvSpec Sched.

Section init.
Context {D : Type} `{Apic D}.

(** The kernel's state, the APIC as in Lapic, the descriptor tables,
    [mpentry_kstack], and the stack each CPU has loaded from it. *)
Record sys := mkSys {
  y_k : kst;
  y_dev : D; y_lapicaddr : Z; y_lapic : Z; y_trace : list (Z * Z); y_ports : list (Z * Z);
  y_descs : descs;
  y_kstack : Z;
  y_esp : Z → Z;
}.
Definition set_k k s := mkSys k (y_dev s) (y_lapicaddr s) (y_lapic s) (y_trace s) (y_ports s) (y_descs s) (y_kstack s) (y_esp s).
Definition set_descs d s := mkSys (y_k s) (y_dev s) (y_lapicaddr s) (y_lapic s) (y_trace s) (y_ports s) d (y_kstack s) (y_esp s).
Definition set_kstack v s := mkSys (y_k s) (y_dev s) (y_lapicaddr s) (y_lapic s) (y_trace s) (y_ports s) (y_descs s) v (y_esp s).
Definition set_esp v s := mkSys (y_k s) (y_dev s) (y_lapicaddr s) (y_lapic s) (y_trace s) (y_ports s) (y_descs s) (y_kstack s) v.

(** What Lapic sees of it. *)
Definition get_l (s : sys) : lst D := mkL (y_dev s) (k_mm (y_k s)) (y_lapicaddr s) (y_lapic s) (y_trace s) (y_ports s).
Definition put_l (l : lst D) (s : sys) : sys :=
  mkSys (set_mm (l_mm l) (y_k s)) (l_dev l) (l_addr l) (l_lapic l) (l_trace l) (l_ports l) (y_descs s) (y_kstack s) (y_esp s).

Abbreviation Y A := (M sys A) (only parsing).
Definition onK {A} (m : K A) : Y A := λ s, let '(r, k) := m (y_k s) in (r, set_k k s).
Definition onL {A} (m : M (lst D) A) : Y A := λ s, let '(r, l) := m (get_l s) in (r, put_l l s).
Definition onD {A} (m : M descs A) : Y A := λ s, let '(r, d) := m (y_descs s) in (r, set_descs d s).

(** [fuel] for [lapic_init], the index of [bootcpu], the address of each [cpu_ts];
    [ncpu] and [cpu_id] as [mp_init] leaves them; the addresses of the entry code
    and of the stacks. *)
Context (fuel : nat) (bootcpu : Z) (ts_addr : Z → Z).
Context (ncpu : Z) (cpu_id : Z → Z) (mpentry_start mpentry_end percpu_kstacks : Z).
(** The APIC identifiers of the processors the machine has. *)
Context (present : Z → bool).

(** [mp_main] on CPU [c], up to the lock. *)
Definition mp_setup (c : Z) : Y () :=
  kpd ← onK (liftM (gets kern_pgdir));
  pa ← onK (liftM (PADDR kpd));
  onK (lcr3 c pa) ;;
  onK (cprintf "SMP: CPU %d starting\n" [c]) ;;
  onL (lapic_init fuel (c =? bootcpu)) ;;
  onK env_init_percpu ;;
  onD (trap_init_percpu c ts_addr) ;;
  onK (xchg_cpu_status c CPU_STARTED) ;;
  mret tt.

Definition mp_main (c : Z) : Y () :=
  mp_setup c ;;
  onK (lock_kernel c) ;;
  onK (sched_yield c).

(** The processor with APIC identifier [a], which its [cpunum()] is, begins at
    physical address [pc].  The code [boot_aps] copied takes it to [mp_main], on the
    stack that [mpentry_kstack] names; its instructions (kern/mpentry.S: protected
    mode, paging) are not modelled. *)
Definition ap_begin (c a pc : Z) : Y () :=
  if negb (present a) then mret tt
  else if (a =? c) || negb (pc =? MPENTRY_PADDR) then undef "processor started elsewhere"
  else modify (λ s, set_esp (<[a := y_kstack s]> (y_esp s)) s) ;; mp_setup a.

(** One iteration of the loop in [boot_aps].  Which processor begins, and where,
    is up to the commands [lapic_startap] gave; while it sets itself up, this CPU
    only reads [cpu_status]. *)
Definition start_ap (c code i : Z) : Y () :=
  if i =? c then mret tt
  else
    modify (set_kstack (percpu_kstacks + i * KSTKSIZE + KSTKSIZE)) ;;
    pa ← onK (liftM (PADDR code));
    before ← gets y_trace;
    onL (lapic_startap (cpu_id i) pa) ;;
    after ← gets y_trace;
    (match woken 0 None (rev (take (length after - length before) after)) with
     | Some (a, pc) => ap_begin c a pc
     | None => mret tt
     end) ;;
    st ← onK (gets (λ k, cpu_status (cpus k i)));
    if st =? CPU_STARTED then mret tt else stopM SSpin.

Definition boot_aps (c : Z) : Y () :=
  code ← onK (liftM (KADDR MPENTRY_PADDR));
  onK (liftM (modify (λ s, set_phys (memmove (phys s) (code - KERNBASE) (mpentry_start - KERNBASE)
                                             (mpentry_end - mpentry_start)) s))) ;;
  forM (zrange 0 ncpu) (start_ap c code).
End init.
Arguments sys : clear implicits.

(** ** Mapping device registers *)

(** The page table at [MMIOBASE] exists, is the kernel's own, and has [n] free
    pages from [mmio_base] on; pages 0 and 7, with the BIOS data and the entry code,
    are not page tables. *)
Record mmio_room (base : Z → Z) (kp t n : Z) (s : mm) : Prop := {
  mr_kern : kern_pgdir s = kva kp ∧ 0 ≤ kp < npages s;
  mr_table : tgt (phys s) (slot kp (PDX MMIOBASE)) = Some t;
  mr_own : 0 ≤ t < npages s ∧ t ≠ kp ∧ t ≠ 7 ∧ 1 ≤ base t ∧ 1 ≤ base 0 ∧ 1 ≤ base 7 ∧ 7 < npages s ∧ kp ≠ 0 ∧ kp ≠ 7 ∧ t ≠ 0;
  mr_base : MMIOBASE ≤ mmio_base s ∧ mmio_base s mod 4096 = 0 ∧ mmio_base s + 4096 * n < MMIOLIM;
}.

Section mmio.
Context (base : Z → Z) (dirs l : list Z) (kp t : Z).

(** Memory outside the user's page tables may change. *)
Lemma kinv_outside s m' : kinv base dirs s l → (∀ a, base (a / 4096) = 0 → load8 m' a = load8 (phys s) a) →
  kinv base dirs (set_phys m' s) l.
Proof. intros H Hm. apply kinv_mem; [|exact H]. intros a Ha. apply Hm. exact (ki_own _ _ _ _ H _ Ha). Qed.

Lemma mmio_map_one s n pa : kinv base dirs s l → mmio_room base kp t n s → 1 ≤ n →
  0 ≤ pa → pa mod 4096 = 0 → pa + 4096 < 4294967296 →
  ∃ s', mmio_map_region pa 4096 s = (Ret (mmio_base s), s') ∧ kinv base dirs s' l ∧ mmio_room base kp t (n - 1) s' ∧
    npages s' = npages s ∧ (∀ a, a / 4096 ≠ t → load8 (phys s') a = load8 (phys s) a).
Proof.
  intros H [[Hk Hkp] Ht (Ht0 & Htk & Ht7 & Hbt & Hb0 & Hb7 & Hn7 & Hk0 & Hk7 & Htz) (Hm0 & Hma & Hml)] Hn Hp0 Hpa Hp1.
  pose proof (ki_npages _ _ _ _ H) as Hnp. change MMIOBASE with 0xEF800000 in *. change MMIOLIM with 0xEFC00000 in *.
  set (b := mmio_base s) in *.
  assert (PDX b = PDX 0xEF800000) as Epdx by (rewrite !PDX_div, !u32_small by lia; lia).
  set (v := Z.lor (Z.lor pa (u32 (Z.lor (Z.lor PTE_PCD PTE_PWT) PTE_W))) PTE_P).
  set (s1 := set_phys (store32 (phys s) (slot t (PTX b)) v) s).
  assert (pgdir_walk (kva kp) b true s = (Ret (Some (kva t + 4 * PTX b)), s)) as Ew.
  { unfold pgdir_walk. rewrite run_bind, kload_slot, Epdx. cbv beta iota. pose proof (tgt_addr _ _ _ Ht) as Ha.
    apply tgt_Some in Ht as [Hf _]. rewrite Hf. cbn [negb]. rewrite run_bind, run_ret. cbv beta iota.
    rewrite run_bind, kload_slot. cbv beta iota. rewrite Ha, run_bind, KADDR_page by lia. reflexivity. }
  assert (mmio_map_region pa 4096 s = (Ret b, set_mmio_base (b + 4096) s1)) as E.
  { unfold mmio_map_region. rewrite ROUNDDOWN_page.
    assert (u32 (ROUNDUP (u32 (pa + 4096)) PGSIZE - u32 pa / 4096 * 4096) = 4096) as ->.
    { unfold ROUNDUP, ROUNDDOWN, PGSIZE, u32. lia. }
    rewrite run_bind, run_gets, run_bind, run_gets, Hk. fold b. change MMIOLIM with 0xEFC00000.
    rewrite (u32_small (b + 4096)) by lia. destruct (Z.leb_spec 0xEFC00000 (b + 4096)); [lia|].
    rewrite run_bind, run_ret, run_bind. unfold boot_map_region, PGSIZE. change (Z.to_nat ((4096 + 4096 - 1) / 4096)) with 1%nat.
    cbn [boot_map_loop]. rewrite run_bind, Ew. cbv beta iota. rewrite run_bind, kstore_slot. cbv beta iota. rewrite run_ret.
    rewrite run_bind, run_modify, run_bind, run_gets, run_ret. cbn [mmio_base set_mmio_base]. rewrite (u32_small (b + 4096 - 4096)) by lia.
    f_equal; [f_equal; lia|]. unfold s1, v. rewrite (u32_small pa) by lia. replace (pa / 4096 * 4096) with pa by lia. reflexivity. }
  exists (set_mmio_base (b + 4096) s1). split; [exact E|].
  assert (∀ a, a / 4096 ≠ t → load8 (phys s1) a = load8 (phys s) a) as Hm.
  { intros a Ha. cbn [phys set_phys s1]. unfold s1. cbn [phys set_phys]. rewrite load8_store32, decide_False; [done|].
    pose proof (PTX_range b). unfold slot. lia. }
  split; [|split; [|split; [reflexivity|exact Hm]]].
  - apply (kinv_ext base dirs s1); [done..|]. apply kinv_outside; [exact H|]. intros a Ha. apply Hm. intros E'. rewrite E' in Ha. lia.
  - split; [by split| | |].
    + cbn [phys set_mmio_base]. rewrite <- Ht. unfold tgt. unfold s1. cbn [phys set_phys].
      rewrite load32_store32_other; [done|]. pose proof (PTX_range b). unfold slot. pose proof (PDX_range MMIOBASE). lia.
    + done.
    + cbn [mmio_base set_mmio_base]. change MMIOBASE with 0xEF800000. change MMIOLIM with 0xEFC00000. lia.
Qed.
End mmio.

(** ** One CPU sets itself up *)

Section setup.
Context {D : Type} `{Apic D} (fuel : nat) (Hidle : ∀ d, idle_within fuel d).
Context (bootcpu : Z) (ts_addr : Z → Z).
Context (base : Z → Z) (kp t la : Z) (live fe l : list Z).
Context (Hla : 0 < la ∧ la mod 4096 = 0 ∧ la + 4096 < 4294967296).

Lemma onK_run {A} (m : K A) (s : sys D) r k : m (y_k s) = (r, k) → onK m s = (r, set_k k s).
Proof. intros E. unfold onK. by rewrite E. Qed.
Lemma onL_run {A} (m : M (lst D) A) (s : sys D) r x : m (get_l s) = (r, x) → onL m s = (r, put_l x s).
Proof. intros E. unfold onL. by rewrite E. Qed.
Lemma onD_run {A} (m : M descs A) (s : sys D) r x : m (y_descs s) = (r, x) → onD m s = (r, set_descs x s).
Proof. intros E. unfold onD. by rewrite E. Qed.

Lemma set_k_id (s : sys D) : set_k (y_k s) s = s.
Proof. by destruct s. Qed.

(** The kernel while the CPUs are started; [n] more can be. *)
Record booting (n : Z) (s : sys D) : Prop := {
  bo_inv : kernel_inv base kp live fe l (y_k s);
  bo_room : mmio_room base kp t n (k_mm (y_k s));
  bo_lapic : y_lapic s ≠ 0;
  bo_addr : y_lapicaddr s = la;
}.

(** What the set-up of CPU [i] does. *)
Record set_up (i : Z) (s s' : sys D) : Prop := {
  su_cpus : cpus (y_k s') = <[i := mkCpu CPU_STARTED (cpu_env (cpus (y_k s) i)) (kp * 4096)]> (cpus (y_k s));
  su_envs : envs (y_k s') = envs (y_k s);
  su_lock : kernel_lock (y_k s') = kernel_lock (y_k s);
  su_descs : trap_init_percpu i ts_addr (y_descs s) = (Ret tt, y_descs s');
  su_esp : y_esp s' = y_esp s;
  su_segs : k_log (y_k s') = rev (Segment <$> [Lgdt; MovGs (Z.lor GD_UD 3); MovFs (Z.lor GD_UD 3); MovEs GD_KD; MovDs GD_KD;
    MovSs GD_KD; LjmpCs GD_KT; Lldt 0]) ++ Cprintf "SMP: CPU %d starting\n" [i] :: k_log (y_k s);
  su_phys a : a / 4096 ≠ t → load8 (phys (k_mm (y_k s'))) a = load8 (phys (k_mm (y_k s))) a;
  su_npages : npages (k_mm (y_k s')) = npages (k_mm (y_k s));
}.

Lemma mp_setup_run i n s : booting n s → 1 ≤ n →
  ∃ s', mp_setup fuel bootcpu ts_addr i s = (Ret tt, s') ∧ booting (n - 1) s' ∧ set_up i s s'.
Proof.
  intros [Hi Hr Hl Ha] Hn. pose proof (ke_mm _ _ _ _ _ _ Hi) as Hm. pose proof (ki_npages _ _ _ _ Hm) as Hnp.
  destruct (mr_kern _ _ _ _ _ Hr) as [Hk Hkp].
  set (k1 := log_ev (Cprintf "SMP: CPU %d starting\n" [i]) (lcr3_state i (kp * 4096) (y_k s))).
  assert (kernel_inv base kp live fe l k1) as H1 by by apply ke_log, lcr3_inv.
  assert (mmio_room base kp t n (k_mm k1)) as Hr1.
  { destruct Hr. by split. }
  destruct (mmio_map_one base (dirof k1 <$> live) l kp t (k_mm k1) n la (ke_mm _ _ _ _ _ _ H1) Hr1 Hn) as (mm2 & Em & Hm2 & Hr2 & En2 & Hp2); [lia..|].
  set (b := mmio_base (k_mm k1)) in *.
  assert (b ≠ 0) as Hb by (destruct (mr_base _ _ _ _ _ Hr1) as (Hb & _); change MMIOBASE with 0xEF800000 in Hb; unfold b; lia).
  destruct (lapic_init_run fuel (i =? bootcpu) (get_l (set_k k1 s)) b mm2 Hidle) as (x & pc & E3 & El3 & Em3 & Ea3 & _);
    [change (y_lapicaddr s ≠ 0); lia|change (l_addr (get_l (set_k k1 s))) with (y_lapicaddr s); rewrite Ha; exact Em|exact Hb|].
  set (s3 := put_l x (set_k k1 s)).
  set (segs := [Lgdt; MovGs (Z.lor GD_UD 3); MovFs (Z.lor GD_UD 3); MovEs GD_KD; MovDs GD_KD; MovSs GD_KD; LjmpCs GD_KT; Lldt 0]).
  set (k4 := fold_left (λ k v, log_ev (Segment v) k) segs (y_k s3)).
  assert (env_init_percpu (y_k s3) = (Ret tt, k4)) as E4 by reflexivity.
  destruct (trap_init_percpu i ts_addr (y_descs s)) as [r d5] eqn:E5.
  assert (r = Ret tt) as -> by (rewrite trap_init_percpu_run in E5; by injection E5).
  set (k6 := set_cpus (<[i := mkCpu CPU_STARTED (cpu_env (cpus k4 i)) (cpu_cr3 (cpus k4 i))]> (cpus k4)) k4).
  exists (set_k k6 (set_descs d5 (set_k k4 s3))). split; [|split].
  - unfold mp_setup. rewrite run_bind, (onK_run _ s (Ret (kva kp)) (y_k s)) by (rewrite liftM_gets, Hk; reflexivity). cbv beta iota.
    rewrite run_bind, (onK_run _ _ (Ret (kp * 4096)) (y_k s))
      by (rewrite (liftM_run _ _ (Ret (kp * 4096)) (k_mm (y_k s))) by (apply PADDR_kva; lia); by rewrite set_mm_id). cbv beta iota.
    rewrite run_bind, (onK_run _ _ (Ret tt) (lcr3_state i (kp * 4096) (y_k s))) by apply lcr3_run. cbv beta iota.
    rewrite run_bind, (onK_run _ _ (Ret tt) k1) by reflexivity. cbv beta iota.
    change (set_k k1 (set_k (lcr3_state i (kp * 4096) (y_k s)) (set_k (y_k s) (set_k (y_k s) s)))) with (set_k k1 s).
    rewrite run_bind, (onL_run _ _ _ _ E3). cbv beta iota. fold s3.
    rewrite run_bind, (onK_run _ _ _ _ E4). cbv beta iota.
    rewrite run_bind, (onD_run _ (set_k k4 s3) (Ret tt) d5) by exact E5. cbv beta iota.
    rewrite run_bind, (onK_run _ _ (Ret (cpu_status (cpus k4 i))) k6) by reflexivity. reflexivity.
  - assert (k_mm (y_k s3) = mm2) as Emm by exact Em3.
    split; [|change (mmio_room base kp t (n - 1) (k_mm (y_k s3))); by rewrite Emm|change (l_lapic x ≠ 0); by rewrite El3|].
    + apply ke_set_cpus. unfold k4. cbn [fold_left segs]. do 8 apply ke_log.
      change (y_k s3) with (set_mm (l_mm x) k1). rewrite Em3.
      destruct (mr_kern _ _ _ _ _ Hr2) as [Hk2 _]. destruct H1 as [h1 h2 h3 h4 h5 h6 h7 (h8 & h9 & h10)].
      split; try assumption. split; [exact Hk2|]. split; [change (0 ≤ kp < npages mm2); by rewrite En2|exact h10].
    + change (l_addr x = la). by rewrite Ea3.
  - split.
    + cbn [y_k set_k cpus set_cpus k6]. unfold k6, k4. cbn. unfold lcr3_state. cbn. by rewrite upd_same, upd_upd.
    + reflexivity.
    + reflexivity.
    + exact E5.
    + reflexivity.
    + reflexivity.
    + intros a Hne. change (load8 (phys (k_mm (y_k s3))) a = load8 (phys (k_mm (y_k s))) a).
      change (k_mm (y_k s3)) with (l_mm x). rewrite Em3. exact (Hp2 a Hne).
    + change (npages (k_mm (y_k s3)) = npages (k_mm (y_k s))). change (k_mm (y_k s3)) with (l_mm x). rewrite Em3. exact En2.
Qed.

Lemma booting_mono n n' s : n' ≤ n → booting n s → booting n' s.
Proof.
  intros Hn [h1 [r1 r2 r3 (r4 & r5 & r6)] h3 h4]. split; try assumption. split; try assumption. split; [exact r4|split; [exact r5|lia]].
Qed.

(** Memory that is neither page tables nor the kernel's directory may change. *)
Lemma booting_phys n s m' : booting n s →
  (∀ a, base (a / 4096) = 0 ∨ a / 4096 = kp → load8 m' a = load8 (phys (k_mm (y_k s))) a) →
  booting n (set_k (set_mm (set_phys m' (k_mm (y_k s))) (y_k s)) s).
Proof.
  intros [h1 [r1 r2 r3 r4] h3 h4] Hm. split; [| |exact h3|exact h4].
  - apply (ke_set_mm _ _ _ _ l); [exact h1|by repeat split|]. apply kinv_outside; [apply h1|]. intros a Ha. apply Hm. by left.
  - split; [exact r1| |exact r3|exact r4]. rewrite <- r2. unfold tgt. cbn [y_k set_k k_mm set_mm phys set_phys].
    rewrite (load32_bytes_eq m' (phys (k_mm (y_k s))) (slot kp (PDX MMIOBASE)) (slot kp (PDX MMIOBASE))); [done|].
    intros j Hj. apply Hm. right. pose proof (PDX_range MMIOBASE). unfold slot. lia.
Qed.

Context (ncpu : Z) (cpu_id : Z → Z) (mpentry_start mpentry_end percpu_kstacks : Z) (present : Z → bool).
Abbreviation start_ap := (start_ap fuel bootcpu ts_addr cpu_id percpu_kstacks present).

(** [mp_init] numbers the CPUs as their APICs do. *)
Definition numbered (i : Z) : Prop := cpu_id i = i ∧ 0 ≤ i < 256 ∧ present i = true.

Lemma new_writes (ws tr : list (Z * Z)) : rev (take (length (rev ws ++ tr) - length tr) (rev ws ++ tr)) = ws.
Proof. rewrite length_app, Nat.add_sub, take_app_length. apply rev_involutive. Qed.

(** What one iteration of the loop does. *)
Lemma start_ap_run c i n s : booting n s → 1 ≤ n → i ≠ c → numbered i →
  ∃ s1 s', start_ap c (kva 7) i s = (Ret tt, s') ∧ booting (n - 1) s' ∧ set_up i s1 s' ∧
    y_esp s1 = <[i := percpu_kstacks + i * KSTKSIZE + KSTKSIZE]> (y_esp s) ∧
    cpus (y_k s1) = cpus (y_k s) ∧ envs (y_k s1) = envs (y_k s) ∧ kernel_lock (y_k s1) = kernel_lock (y_k s) ∧
    y_descs s1 = y_descs s ∧
    ∀ a, a / 4096 ≠ 0 → load8 (phys (k_mm (y_k s1))) a = load8 (phys (k_mm (y_k s))) a.
Proof.
  intros Hb Hn Hne (Hid & Hir & Hpr). set (s0 := set_kstack (percpu_kstacks + i * KSTKSIZE + KSTKSIZE) s).
  assert (booting n s0) as Hb0 by by destruct Hb.
  destruct (mr_own _ _ _ _ _ (bo_room _ _ Hb0)) as (_ & _ & _ & _ & Hz & _ & Hn7 & Hk0 & _ & _).
  destruct (lapic_startap_correct (cpu_id i) 0x7000 (get_l s0)) as (x & E & Et & _ & _ & Hx & _ & Em & El & Ea);
    [exact (bo_lapic _ _ Hb0)|change (0 < npages (k_mm (y_k s0))); lia|lia|reflexivity|].
  set (s1' := put_l x s0). set (s1 := set_esp (<[i := y_kstack s1']> (y_esp s1')) s1').
  assert (∀ a, a / 4096 ≠ 0 → load8 (phys (l_mm x)) a = load8 (phys (k_mm (y_k s))) a) as Hph.
  { intros a Hna. apply Hx. lia. }
  assert (booting n s1) as Hb1.
  { destruct (booting_phys n s0 (phys (l_mm x)) Hb0) as [h1 h2 h3 h4].
    - intros a [Ha|Ha]; apply Hph; [intros E0; rewrite E0 in Ha; lia|lia].
    - change (k_mm (y_k s0)) with (l_mm (get_l s0)) in h1, h2. rewrite <- Em in h1, h2.
      split; [exact h1|exact h2|change (l_lapic x ≠ 0); rewrite El; exact h3|change (l_addr x = la); rewrite Ea; exact h4]. }
  destruct (mp_setup_run i n s1 Hb1 Hn) as (s' & E' & Hb' & Su). exists s1, s'.
  split; [|split; [exact Hb'|split; [exact Su|split; [reflexivity|split; [reflexivity|split; [reflexivity|split; [reflexivity|split; [reflexivity|]]]]]]]].
  - unfold Init.start_ap. rewrite (proj2 (Z.eqb_neq i c) Hne), run_bind, run_modify. fold s0.
    rewrite run_bind, (onK_run _ s0 (Ret 0x7000) (y_k s0))
      by (rewrite (liftM_run _ _ (Ret (7 * 4096)) (k_mm (y_k s0))) by (apply PADDR_kva; lia); by rewrite set_mm_id). cbv beta iota.
    change (set_k (y_k s0) s0) with s0. rewrite run_bind, run_gets. rewrite run_bind, (onL_run _ _ _ _ E). cbv beta iota. fold s1'.
    rewrite run_bind, run_gets. change (y_trace s1') with (l_trace x). rewrite Et. change (l_trace (get_l s0)) with (y_trace s0).
    rewrite new_writes, Hid. change (Z.lor LapicReg.STARTUP (0x7000 / 4096)) with (Z.lor LapicReg.STARTUP (0x7000 / 4096)).
    rewrite (startap_woken i 0x7000 Hir) by (lia || reflexivity). cbv beta iota.
    unfold ap_begin at 1. rewrite Hpr, (proj2 (Z.eqb_neq i c) Hne). change (negb (0x7000 =? MPENTRY_PADDR)) with false. cbn [negb orb].
    rewrite run_bind, run_bind, run_modify. fold s1. rewrite E'. cbv beta iota. rewrite run_bind, (onK_run _ s' (Ret CPU_STARTED) (y_k s')).
    + by rewrite set_k_id.
    + rewrite run_gets, (su_cpus _ _ _ Su), upd_same. reflexivity.
  - intros a Hna. exact (Hph a Hna).
Qed.

(** After [m] iterations. *)
Record started (c m : Z) (s s' : sys D) : Prop := {
  st_boot : booting (ncpu - m) s';
  st_cpus i : cpus (y_k s') i = if decide (0 ≤ i < m ∧ i ≠ c) then mkCpu CPU_STARTED (cpu_env (cpus (y_k s) i)) (kp * 4096)
                                else cpus (y_k s) i;
  st_envs : envs (y_k s') = envs (y_k s);
  st_lock : kernel_lock (y_k s') = kernel_lock (y_k s);
  st_esp i : 0 ≤ i < m → i ≠ c → y_esp s' i = percpu_kstacks + i * KSTKSIZE + KSTKSIZE;
  st_tr i : 0 ≤ i < m → i ≠ c → d_tr (y_descs s') i = u16 (GD_TSS0 + Z.shiftl i 3) ∧ d_idtr (y_descs s') i = true;
  st_phys a : a / 4096 ≠ 0 → a / 4096 ≠ t → load8 (phys (k_mm (y_k s'))) a = load8 (phys (k_mm (y_k s))) a;
}.

Lemma start_ap_step c m s0 s : 0 ≤ m < ncpu → (m ≠ c → numbered m) → started c m s0 s →
  ∃ s', start_ap c (kva 7) m s = (Ret tt, s') ∧ started c (m + 1) s0 s'.
Proof.
  intros Hm Hnum [h1 h2 h3 h4 h7 h5 h6]. destruct (decide (m = c)) as [->|Hne].
  - exists s. split; [unfold Init.start_ap; by rewrite Z.eqb_refl|]. split; try assumption.
    + by apply (booting_mono (ncpu - c)); [lia|].
    + intros i. rewrite h2. case_decide; case_decide; done || lia.
    + intros i Hi Hic. apply h7; [lia|exact Hic].
    + intros i Hi Hic. apply h5; [lia|exact Hic].
  - destruct (start_ap_run c m (ncpu - m) s h1 ltac:(lia) Hne (Hnum Hne)) as (s1 & s' & E & Hb & Su & E0 & E1 & E2 & E3 & E4 & E5).
    destruct Su as [u1 u2 u3 u4 u8 u5 u6 u7]. rewrite trap_init_percpu_run in u4. injection u4 as Ed.
    exists s'. split; [exact E|]. split.
    + replace (ncpu - (m + 1)) with (ncpu - m - 1) by lia. exact Hb.
    + intros i. rewrite u1, E1, upd_case. destruct (decide (m = i)) as [<-|Hi].
      * rewrite decide_True by lia. rewrite h2, decide_False by lia. done.
      * rewrite h2. case_decide; case_decide; done || lia.
    + by rewrite u2, E2.
    + by rewrite u3, E3.
    + intros i Hi Hic. rewrite u8, E0, upd_case. case_decide; [by subst|]. apply h7; [lia|exact Hic].
    + intros i Hi Hic. rewrite <- Ed, E4. cbn [d_tr d_idtr]. rewrite !upd_case. case_decide; [by subst|]. apply h5; [lia|exact Hic].
    + intros a Ha0 Ha1. rewrite u6, E5, h6 by assumption. done.
Qed.

Lemma boot_aps_run c s : booting ncpu s → 0 ≤ ncpu → KERNBASE ≤ mpentry_start → mpentry_end < 4294967296 →
  0 ≤ mpentry_end - mpentry_start ≤ 4096 → (∀ i, 0 ≤ i < ncpu → i ≠ c → numbered i) →
  ∃ s', boot_aps fuel bootcpu ts_addr ncpu cpu_id mpentry_start mpentry_end percpu_kstacks present c s = (Ret tt, s') ∧
    booting 0 s' ∧ envs (y_k s') = envs (y_k s) ∧ kernel_lock (y_k s') = kernel_lock (y_k s) ∧
    (∀ i, 0 ≤ i < ncpu → i ≠ c →
       cpus (y_k s') i = mkCpu CPU_STARTED (cpu_env (cpus (y_k s) i)) (kp * 4096) ∧
       y_esp s' i = percpu_kstacks + i * KSTKSIZE + KSTKSIZE ∧
       d_tr (y_descs s') i = u16 (GD_TSS0 + Z.shiftl i 3) ∧ d_idtr (y_descs s') i = true) ∧
    (∀ i, ¬ (0 ≤ i < ncpu ∧ i ≠ c) → cpus (y_k s') i = cpus (y_k s) i) ∧
    (∀ j, 0 ≤ j < mpentry_end - mpentry_start →
       load8 (phys (k_mm (y_k s'))) (MPENTRY_PADDR + j) = load8 (phys (k_mm (y_k s))) (mpentry_start - KERNBASE + j)) ∧
    (∀ a, a / 4096 ∉ [0; 7; t] → load8 (phys (k_mm (y_k s'))) a = load8 (phys (k_mm (y_k s))) a).
Proof.
  intros Hb Hn Hs He Hlen Hnum. change KERNBASE with 0xF0000000 in Hs.
  destruct (mr_own _ _ _ _ _ (bo_room _ _ Hb)) as (_ & _ & Ht7 & _ & _ & Hb7 & Hn7 & _ & Hk7 & _).
  pose proof (ki_npages _ _ _ _ (ke_mm _ _ _ _ _ _ (bo_inv _ _ Hb))) as Hnp.
  set (m' := memmove (phys (k_mm (y_k s))) 0x7000 (mpentry_start - KERNBASE) (mpentry_end - mpentry_start)).
  assert (∀ a, load8 m' a = if decide (0x7000 ≤ a < 0x7000 + (mpentry_end - mpentry_start))
    then load8 (phys (k_mm (y_k s))) (a - 0x7000 + (mpentry_start - KERNBASE)) else load8 (phys (k_mm (y_k s))) a) as Hmv.
  { apply memmove_copies; change KERNBASE with 0xF0000000; lia. }
  set (s1 := set_k (set_mm (set_phys m' (k_mm (y_k s))) (y_k s)) s).
  assert (booting ncpu s1) as Hb1.
  { apply booting_phys; [exact Hb|]. intros a Ha. rewrite Hmv, decide_False; [done|]. intros Hr.
    assert (a / 4096 = 7) as E7 by lia. rewrite E7 in Ha. lia. }
  destruct (forM_zrange (λ m x, started c m s1 x) (start_ap c (kva 7)) ncpu s1 Hn) as (s' & E & [h1 h2 h3 h4 h7 h5 h6]).
  - split; try done; [by replace (ncpu - 0) with ncpu by lia| |lia|lia]. intros i. by rewrite decide_False by lia.
  - intros i x Hi Hx. exact (start_ap_step c i s1 x Hi (Hnum i Hi) Hx).
  - exists s'. split; [|split; [|split; [exact h3|split; [exact h4|split; [|split; [|split]]]]]].
    + unfold boot_aps. rewrite run_bind, (onK_run _ s (Ret (kva 7)) (y_k s))
        by (rewrite (liftM_run _ _ (Ret (kva 7)) (k_mm (y_k s))) by (apply (KADDR_page 7); lia); by rewrite set_mm_id).
      cbv beta iota. rewrite set_k_id, run_bind, (onK_run _ s (Ret tt) (set_mm (set_phys m' (k_mm (y_k s))) (y_k s))) by reflexivity.
      cbv beta iota. exact E.
    + by replace 0 with (ncpu - ncpu) by lia.
    + intros i Hi Hic. rewrite h2, decide_True by done. split; [reflexivity|]. exact (conj (h7 i Hi Hic) (h5 i Hi Hic)).
    + intros i Hi. by rewrite h2, decide_False by done.
    + intros j Hj. change MPENTRY_PADDR with 0x7000. rewrite h6 by lia. change (phys (k_mm (y_k s1))) with m'.
      rewrite Hmv, decide_True by lia. f_equal. lia.
    + intros a Ha. rewrite !not_elem_of_cons in Ha. destruct Ha as (Ha0 & Ha7 & Hat & _). rewrite h6 by assumption.
      change (phys (k_mm (y_k s1))) with m'. rewrite Hmv, decide_False by lia. done.
Qed.
End setup.
