(* ===== verification/SchedSpec.v ===== *)
(** * Contracts of the scheduler

    [env_run], [sched_yield], [sched_halt] and [env_destroy]: which environment
    runs next, that none is starved, and that the kernel invariant survives. *)
From S2P Require Import Prelude Monad Word Layout Mem CString PageAlloc PageTable PageInv PageOps PageDirs KState Env EnvMem KInv EnvSpec Sched.

Definition lock_held (cpunum : Z) (k : kst) : Prop := kernel_lock k = mkLock true (Some cpunum).

(** The status of [x] after [env_run e] on a CPU whose current environment was [c]. *)
Definition run_status (k : kst) (c : option Z) (e x : Z) : Z :=
  if decide (x = e) then ENV_RUNNING
  else if decide (c = Some x ∧ env_status (envs k x) = ENV_RUNNING) then ENV_RUNNABLE
  else env_status (envs k x).

Section run.
Context (cpunum : Z) (base : Z → Z) (kp : Z).

(** What [env_run e] leaves behind. *)
Record ran (live : list Z) (e : Z) (k k' : kst) : Prop := {
  rn_cur : cpu_env (cpus k' cpunum) = Some e;
  rn_cpu : ∀ c, c ≠ cpunum → cpus k' c = cpus k c;
  rn_cr3 : cpu_cr3 (cpus k' cpunum) = dirof k e * 4096;
  rn_lock : kernel_lock k' = mkLock false None;
  rn_status : ∀ x, env_status (envs k' x) = run_status k (cpu_env (cpus k cpunum)) e x;
  rn_id : ∀ x, env_id (envs k' x) = env_id (envs k x) ∧ env_pgdir (envs k' x) = env_pgdir (envs k x) ∧
               env_tf (envs k' x) = env_tf (envs k x);
  rn_phys : phys (k_mm k') = phys (k_mm k);
  rn_ok : cpus_ok live k → cpus_ok live k';
  rn_env : ∀ x, ∃ st r c, envs k' x = with_cpunum (with_runs (with_status (envs k x) st) r) c;
  rn_pages : pages (k_mm k') = pages (k_mm k) ∧ npages (k_mm k') = npages (k_mm k);
  rn_globals : same_globals (k_mm k) (k_mm k');
  rn_started : cpu_status (cpus k' cpunum) = cpu_status (cpus k cpunum);
}.

Lemma env_run_run live fe l e k :
  kernel_inv base kp live fe l k → e ∈ live → lock_held cpunum k →
  (∀ c, cpu_env (cpus k cpunum) = Some c → c ∈ live) →
  ∃ k', env_run cpunum e k = (Stop (SUser e), k') ∧ kernel_inv base kp live fe l k' ∧ ran live e k k'.
Proof.
  intros H He Hlk Hok. pose proof (ki_npages _ _ _ _ (ke_mm _ _ _ _ _ _ H)) as Hnp.
  set (c := cpu_env (cpus k cpunum)).
  set (k0 := match c with
             | Some c => if env_status (envs k c) =? ENV_RUNNING
                         then upd_env c (λ v, with_status v ENV_RUNNABLE) k else k
             | None => k end).
  assert (kernel_inv base kp live fe l k0) as H0.
  { unfold k0. destruct c as [c'|] eqn:Ec; [|exact H].
    destruct (env_status (envs k c') =? ENV_RUNNING); [|exact H].
    apply ke_upd_env; [exact H|by apply Hok|simpl; unfold ENV_DYING, ENV_RUNNABLE, ENV_NOT_RUNNABLE; lia|done|done]. }
  assert (∀ x, envs k0 x = with_status (envs k x)
            (if decide (c = Some x ∧ env_status (envs k x) = ENV_RUNNING) then ENV_RUNNABLE
             else env_status (envs k x))) as Est.
  { intros x. unfold k0. destruct c as [c'|].
    - destruct (Z.eqb_spec (env_status (envs k c')) ENV_RUNNING) as [Er|Er].
      + simpl. rewrite upd_case. case_decide as Hx; subst.
        * by rewrite decide_True.
        * rewrite decide_False by (intros [[= ?] _]; congruence). by destruct (envs k x).
      + rewrite decide_False by (intros [[= ->] ?]; congruence). by destruct (envs k x).
    - rewrite decide_False by (intros [? _]; done). by destruct (envs k x). }
  assert (cpus k0 = cpus k ∧ kernel_lock k0 = kernel_lock k ∧ k_mm k0 = k_mm k) as (Ecp & Elk & Emm).
  { unfold k0. destruct c; [case_match|]; done. }
  set (k1 := set_cpus (<[cpunum := mkCpu (cpu_status (cpus k0 cpunum)) (Some e)
               (cpu_cr3 (cpus k0 cpunum))]> (cpus k0)) k0).
  set (k2 := upd_env e (λ v, with_runs v (u32 (env_runs v + 1)))
               (upd_env e (λ v, with_status v ENV_RUNNING) k1)).
  assert (kernel_inv base kp live fe l k2) as H2.
  { unfold k2. apply ke_upd_env; [|exact He|simpl; rewrite upd_same; simpl; unfold ENV_DYING, ENV_RUNNING, ENV_NOT_RUNNABLE; lia|done|done].
    apply ke_upd_env; [|exact He|simpl; unfold ENV_DYING, ENV_RUNNING, ENV_NOT_RUNNABLE; lia|done|done].
    by apply ke_set_cpus. }
  assert (dirof k2 e = dirof k e) as Ed.
  { unfold dirof, k2. simpl. rewrite !upd_same. simpl. by rewrite Est. }
  pose proof (ke_pgdir _ _ _ _ _ _ H2 e He) as Epd. rewrite Ed in Epd.
  assert (0 ≤ dirof k e < npages (k_mm k)) as Hd.
  { apply (ki_dir _ _ _ _ _ (ke_mm _ _ _ _ _ _ H)). by apply ke_dir. }
  set (k3 := lcr3_state cpunum (dirof k e * 4096) k2).
  set (k4 := upd_env e (λ v, with_cpunum v cpunum) (set_lock (mkLock false None) k3)).
  exists k4. splits.
  - unfold env_run. rewrite run_bind. unfold curenv. rewrite run_gets. fold c.
    rewrite run_bind.
    assert ((match c with
      | Some c => env ← get_env c; if env_status env =? ENV_RUNNING
          then modify (upd_env c (λ v, with_status v ENV_RUNNABLE)) else mret tt
      | None => mret tt end : K ()) k = (Ret tt, k0)) as E0.
    { unfold k0. destruct c; [|done]. rewrite run_bind. unfold get_env. rewrite run_gets.
      by case_match. }
    rewrite E0. unfold set_curenv. rewrite run_bind, run_modify. cbv zeta. fold k1.
    rewrite run_bind, run_modify, run_bind, run_modify. fold k2.
    rewrite run_bind. unfold get_env. rewrite run_gets, Epd.
    rewrite run_bind, (liftM_run _ _ (Ret (dirof k e * 4096)) (k_mm k2)) by (apply PADDR_kva; lia).
    rewrite set_mm_id, run_bind, lcr3_run. fold k3.
    rewrite run_bind. unfold unlock_kernel. rewrite run_bind, run_gets.
    assert (kernel_lock k3 = mkLock true (Some cpunum)) as ->.
    { change (kernel_lock k3) with (kernel_lock k0). rewrite Elk. exact Hlk. }
    cbn [locked lk_cpu andb]. rewrite bool_decide_true by done. rewrite run_modify.
    unfold env_pop_tf, curenv'. rewrite run_bind, run_bind. unfold curenv. rewrite run_gets.
    assert (cpu_env (cpus (set_lock (mkLock false None) k3) cpunum) = Some e) as ->.
    { simpl. rewrite !upd_same. done. }
    rewrite run_ret. rewrite run_bind, run_modify, run_stop. reflexivity.
  - assert (kernel_inv base kp live fe l k3) as H3 by by apply lcr3_inv.
    unfold k4. apply ke_upd_env; [by apply ke_set_lock|exact He| |done|done].
    apply (ke_status _ _ _ _ _ _ H3 e He).
  - assert (∀ x, env_status (envs k4 x) = run_status k c e x) as Hst.
    { intros x. unfold k4, k3, k2, k1, run_status. simpl. rewrite !upd_case.
      repeat case_decide; subst; simpl; rewrite ?Est; simpl; try done;
        rewrite ?decide_True, ?decide_False by done; naive_solver. }
    split.
    + simpl. by rewrite !upd_same.
    + intros c' Hc'. simpl. rewrite !upd_other by done. by rewrite Ecp.
    + simpl. by rewrite !upd_same.
    + reflexivity.
    + exact Hst.
    + intros x. unfold k4, k3, k2, k1. simpl. rewrite !upd_case.
      repeat case_decide; subst; simpl; by rewrite Est.
    + simpl. by rewrite Emm.
    + intros Hall c' x. simpl. rewrite !upd_case. repeat case_decide; subst; simpl; [by intros [= <-]|..]; try done.
      rewrite Ecp. apply Hall.
    + intros x. unfold k4, k3, k2, k1. simpl.
      destruct (decide (e = x)) as [<-|Hx]; [rewrite !upd_same|rewrite !upd_other by exact Hx]; rewrite Est.
      * eexists _, _, _. reflexivity.
      * eexists _, (env_runs (envs k x)), (env_cpunum (envs k x)). reflexivity.
    + simpl. by rewrite Emm.
    + unfold same_globals. simpl. by rewrite Emm.
    + simpl. rewrite !upd_same. by rewrite Ecp.
Qed.
End run.

(** ** The round-robin choice *)

Definition runnable (k : kst) (e : Z) : bool := env_status (envs k e) =? ENV_RUNNABLE.

(** The first runnable slot from [begin] on, in circular order. *)
Definition sched_pick (k : kst) (begin : Z) : option Z :=
  List.find (runnable k) ((λ i, (begin + i) mod NENV) <$> zrange 0 NENV).

(** How far round the array [e] is from [begin]. *)
Definition cdist (begin e : Z) : Z := (e - begin) mod NENV.

(** Where the search of [sched_yield] starts. *)
Definition sched_begin (k : kst) (c : option Z) : Z :=
  match c with Some c => ENVX (env_id (envs k c)) + 1 | None => 0 end.

Lemma sched_pick_spec k begin :
  match sched_pick k begin with
  | Some x => 0 ≤ x < NENV ∧ runnable k x = true ∧
      ∀ y, 0 ≤ y < NENV → runnable k y = true → cdist begin x ≤ cdist begin y
  | None => ∀ y, 0 ≤ y < NENV → runnable k y = false
  end.
Proof.
  unfold sched_pick. pose proof (find_zrange (λ i, (begin + i) mod NENV) (runnable k) (Z.to_nat NENV) 0) as H.
  rewrite Z2Nat.id in H by (unfold NENV; lia). unfold NENV, cdist in *.
  destruct (List.find _ _) as [x|].
  - destruct H as (i & Hi & -> & Hr & Hj). splits; [lia..|done|].
    intros y Hy Hry. destruct (Z.le_gt_cases ((((begin + i) mod 1024) - begin) mod 1024)
      ((y - begin) mod 1024)) as [|Hgt]; [done|]. exfalso.
    specialize (Hj ((y - begin) mod 1024)).
    replace ((begin + (y - begin) mod 1024) mod 1024) with y in Hj by lia.
    rewrite Hry in Hj. discriminate Hj. lia.
  - intros y Hy. specialize (H ((y - begin) mod 1024)).
    replace ((begin + (y - begin) mod 1024) mod 1024) with y in H by lia. apply H. lia.
Qed.

Section yield.
Context (cpunum : Z) (base : Z → Z) (kp : Z).

Lemma sched_loop_run (n : nat) begin i k :
  sched_loop cpunum n begin i k =
    match List.find (runnable k) ((λ i, (begin + i) mod NENV) <$> zrange i (Z.of_nat n)) with
    | Some e => env_run cpunum e k
    | None => (Ret tt, k)
    end.
Proof.
  revert i. induction n as [|n IH]; intros i.
  - by rewrite zrange_nil by lia.
  - rewrite zrange_cons by lia. replace (Z.of_nat (S n) - 1) with (Z.of_nat n) by lia.
    cbn [sched_loop fmap list_fmap List.find]. rewrite run_bind. unfold get_env. rewrite run_gets.
    unfold runnable at 1. case_match; [done|]. apply IH.
Qed.

(** Every environment is idle or blocked: [sched_halt] enters the monitor. *)
Definition all_dead (k : kst) : bool :=
  forallb (λ i, negb (alive (env_status (envs k i)))) (zrange 0 NENV).

(** The state in which the CPU waits for an interrupt. *)
Definition halt_state (k : kst) : kst :=
  let k := set_cpus (<[cpunum := mkCpu (cpu_status (cpus k cpunum)) None (cpu_cr3 (cpus k cpunum))]>
                       (cpus k)) k in
  let k := lcr3_state cpunum (kp * 4096) k in
  set_lock (mkLock false None)
    (set_cpus (<[cpunum := mkCpu CPU_HALTED None (kp * 4096)]> (cpus k)) k).

Lemma sched_halt_run live fe l k :
  kernel_inv base kp live fe l k → lock_held cpunum k →
  if all_dead k
  then ∃ v, sched_halt cpunum k = (Stop SMonitor, log_ev v k)
  else sched_halt cpunum k = (Stop SHalt, halt_state k).
Proof.
  intros H Hlk. destruct (ke_kern _ _ _ _ _ _ H) as (Hkp & Hkpr & _).
  pose proof (ki_npages _ _ _ _ (ke_mm _ _ _ _ _ _ H)) as Hnp.
  unfold sched_halt. rewrite run_bind, run_gets. fold (all_dead k). destruct (all_dead k).
  - eexists. reflexivity.
  - unfold set_curenv. rewrite run_bind, run_modify. cbv zeta.
    set (k1 := set_cpus _ k). rewrite run_bind, liftM_gets.
    change (kern_pgdir (k_mm k1)) with (kern_pgdir (k_mm k)). rewrite Hkp.
    rewrite run_bind, (liftM_run _ _ (Ret (kp * 4096)) (k_mm k)) by (apply PADDR_kva; lia).
    rewrite run_bind, lcr3_run. unfold xchg_cpu_status, unlock_kernel. mrun.
    match goal with |- context [kernel_lock ?kk] =>
      assert (kernel_lock kk = mkLock true (Some cpunum)) as -> by exact Hlk end.
    cbn [locked lk_cpu andb]. rewrite bool_decide_true by done. mrun.
    unfold halt_state. f_equal. unfold set_lock, set_cpus, lcr3_state. simpl. rewrite !upd_same, !upd_upd.
    done.
Qed.

Lemma halt_state_inv live fe l k :
  kernel_inv base kp live fe l k → kernel_inv base kp live fe l (halt_state k).
Proof. intros H. unfold halt_state. auto using lcr3_inv with kinv. Qed.

Lemma halt_state_cpus live k : cpus_ok live k → cpus_ok live (halt_state k).
Proof.
  intros Hok c e. unfold halt_state. simpl. rewrite !upd_case. repeat case_decide; try done. apply Hok.
Qed.

(** The current environment, when it may simply continue. *)
Definition still_running (k : kst) (c : option Z) : option Z :=
  match c with
  | Some e => if env_status (envs k e) =? ENV_RUNNING then Some e else None
  | None => None
  end.

(** What [sched_yield] does, by case. *)
Definition yield_outcome (live : list Z) (k : kst) (x : stop) (k' : kst) : Prop :=
  let c := cpu_env (cpus k cpunum) in
  match sched_pick k (sched_begin k c) with
  | Some e => x = SUser e ∧ ran cpunum live e k k'
  | None =>
      match still_running k c with
      | Some e => x = SUser e ∧ ran cpunum live e k k'
      | None => if all_dead k then x = SMonitor ∧ ∃ v, k' = log_ev v k else x = SHalt ∧ k' = halt_state k
      end
  end.

Lemma runnable_live live fe l k e :
  kernel_inv base kp live fe l k → 0 ≤ e < NENV → runnable k e = true → e ∈ live.
Proof.
  intros H He Hr. apply (ke_live_iff _ _ _ _ _ _ H e He). unfold runnable in Hr. zbool.
  rewrite Hr. done.
Qed.

Lemma sched_yield_run live fe l k :
  kernel_inv base kp live fe l k → cpus_ok live k → lock_held cpunum k →
  ∃ x k', sched_yield cpunum k = (Stop x, k') ∧ kernel_inv base kp live fe l k' ∧
    cpus_ok live k' ∧ yield_outcome live k x k'.
Proof.
  intros H Hok Hlk. unfold yield_outcome. cbv zeta. set (c := cpu_env (cpus k cpunum)).
  set (b := sched_begin k c).
  assert (sched_yield cpunum k =
    (sched_loop cpunum (Z.to_nat NENV) b 0 ;;
     (match c with
      | Some c => env ← get_env c;
                  if env_status env =? ENV_RUNNING then env_run cpunum c else mret tt
      | None => mret tt end) ;; sched_halt cpunum) k) as ->.
  { unfold sched_yield. rewrite run_bind. unfold curenv. rewrite run_gets. fold c.
    rewrite run_bind. unfold b, sched_begin. by destruct c. }
  rewrite run_bind, sched_loop_run. fold (sched_pick k b).
  change (Z.of_nat (Z.to_nat NENV)) with NENV. fold (sched_pick k b).
  pose proof (sched_pick_spec k b) as Hpick. destruct (sched_pick k b) as [e|].
  - destruct Hpick as (He & Hr & _). pose proof (runnable_live _ _ _ _ _ H He Hr) as Hel.
    destruct (env_run_run cpunum base kp live fe l e k H Hel Hlk (Hok cpunum)) as (k' & -> & H' & R).
    exists (SUser e), k'. splits; try assumption; [reflexivity|by apply (rn_ok _ _ _ _ _ R)|reflexivity].
  - rewrite run_bind. unfold still_running. destruct c as [e|] eqn:Ec.
    + rewrite run_bind. unfold get_env. rewrite run_gets.
      destruct (env_status (envs k e) =? ENV_RUNNING).
      * destruct (env_run_run cpunum base kp live fe l e k H (Hok _ _ Ec) Hlk (Hok cpunum)) as (k' & -> & H' & R).
        exists (SUser e), k'. splits; try assumption; [reflexivity|by apply (rn_ok _ _ _ _ _ R)|reflexivity].
      * rewrite run_ret. pose proof (sched_halt_run live fe l k H Hlk) as Hh. destruct (all_dead k).
        -- destruct Hh as [v ->]. eexists _, _. splits; [reflexivity|by apply ke_log|exact Hok|done|by eexists].
        -- rewrite Hh. eexists _, _. splits; [reflexivity|by apply halt_state_inv|by apply halt_state_cpus|done..].
    + rewrite run_ret. pose proof (sched_halt_run live fe l k H Hlk) as Hh. destruct (all_dead k).
      -- destruct Hh as [v ->]. eexists _, _. splits; [reflexivity|by apply ke_log|exact Hok|done|by eexists].
      -- rewrite Hh. eexists _, _. splits; [reflexivity|by apply halt_state_inv|by apply halt_state_cpus|done..].
Qed.
End yield.

(** ** Theorems *)

(** C15: [sched_yield] never returns; under the kernel invariant with the big
    lock held it runs the first RUNNABLE environment in circular order after
    the current one (never one that is running elsewhere, dying or blocked);
    failing that it continues the current environment if that is still
    RUNNING; failing that it halts the CPU with the lock released, or enters
    the monitor when no environment can ever run again.  The kernel invariant
    holds in the state it leaves. *)
Theorem sched_yield_correct cpunum base kp live fe l k :
  kernel_inv base kp live fe l k → cpus_ok live k → lock_held cpunum k →
  ∃ x k', sched_yield cpunum k = (Stop x, k') ∧ kernel_inv base kp live fe l k' ∧ cpus_ok live k' ∧
    yield_outcome cpunum kp live k x k' ∧
    (∀ e, sched_pick k (sched_begin k (cpu_env (cpus k cpunum))) = Some e →
       0 ≤ e < NENV ∧ runnable k e = true ∧
       ∀ y, 0 ≤ y < NENV → runnable k y = true →
         cdist (sched_begin k (cpu_env (cpus k cpunum))) e ≤
         cdist (sched_begin k (cpu_env (cpus k cpunum))) y) ∧
    (sched_pick k (sched_begin k (cpu_env (cpus k cpunum))) = None →
       ∀ y, 0 ≤ y < NENV → runnable k y = false).
Proof.
  intros H Hok Hlk. destruct (sched_yield_run cpunum base kp live fe l k H Hok Hlk) as (x & k' & ? & ? & ? & ?).
  exists x, k'. pose proof (sched_pick_spec k (sched_begin k (cpu_env (cpus k cpunum)))) as Hp.
  splits; try assumption.
  - intros e E. by rewrite E in Hp.
  - intros E. by rewrite E in Hp.
Qed.

(** After an exit [curenv] is NULL and the search starts at [envs[0]], whichever
    environment this CPU ran last: if the first slot is always runnable and its
    environment (or each new one in that slot) exits, no other one gets this CPU. *)
Theorem sched_yield_after_exit cpunum base kp live fe l k :
  kernel_inv base kp live fe l k → cpus_ok live k → lock_held cpunum k →
  cpu_env (cpus k cpunum) = None → runnable k 0 = true →
  ∃ k', sched_yield cpunum k = (Stop (SUser 0), k') ∧ ran cpunum live 0 k k'.
Proof.
  intros H Hok Hlk Hc Hr. destruct (sched_yield_run cpunum base kp live fe l k H Hok Hlk) as (x & k' & E & _ & _ & Hout).
  unfold yield_outcome in Hout. cbv zeta in Hout. rewrite Hc in Hout. cbn [sched_begin] in Hout.
  pose proof (sched_pick_spec k 0) as Hp. destruct (sched_pick k 0) as [y|].
  - destruct Hp as (Hy & _ & Hmin). specialize (Hmin 0 ltac:(unfold NENV; lia) Hr).
    assert (y = 0) as -> by (unfold cdist, NENV in *; lia). destruct Hout as [-> R]. by exists k'.
  - rewrite Hp in Hr by (unfold NENV; lia). done.
Qed.

(** Yields of one CPU while [e] stays runnable: [passed_over e c n] when,
    starting with current environment [c], the CPU has yielded [n] times, each
    time running some environment other than [e].  Between two yields the rest
    of the system does anything that keeps the kernel invariant and keeps [e]
    runnable, but the environment picked does not exit: it is still the current one
    at this CPU's next yield ([sched_yield_after_exit] is the other case). *)
Inductive passed_over (cpunum : Z) (base : Z → Z) (kp e : Z) : option Z → nat → Prop :=
| passed_start c : passed_over cpunum base kp e c 0
| passed_yield c n x k k' live fe l :
    kernel_inv base kp live fe l k → cpus_ok live k → lock_held cpunum k →
    cpu_env (cpus k cpunum) = c → runnable k e = true →
    sched_yield cpunum k = (Stop (SUser x), k') → x ≠ e →
    passed_over cpunum base kp e (Some x) n →
    passed_over cpunum base kp e c (S n).

(** C11: round robin does not starve an environment while the others only yield or
    are preempted: if it stays runnable, and each environment that the CPU picks is
    still its current one when it yields next ([passed_over]; no exit in between, as
    an exit makes the search start again at [envs[0]]), then the CPU runs it before
    it has yielded [NENV] times; more precisely the number of times it is passed over
    is at most its circular distance from the environment after the current one. *)
Theorem sched_yield_fair cpunum base kp e c n :
  0 ≤ e < NENV → passed_over cpunum base kp e c n →
  Z.of_nat n ≤ cdist (match c with Some c => c + 1 | None => 0 end) e < NENV.
Proof.
  intros He Hp. induction Hp as [c|c n x k k' live fe l H Hok Hlk Hc Hr Hy Hne Hp IH].
  - unfold cdist, NENV in *. lia.
  - assert (sched_begin k c = match c with Some c => c + 1 | None => 0 end) as Eb.
    { unfold sched_begin. destruct c as [c|]; [|done].
      by destruct (ke_id _ _ _ _ _ _ H c (Hok _ _ Hc)) as [_ ->]. }
    destruct (sched_yield_run cpunum base kp live fe l k H Hok Hlk) as (x' & k1 & E & _ & _ & Ho).
    rewrite Hy in E. injection E as <- <-. unfold yield_outcome in Ho. rewrite Hc, Eb in Ho.
    pose proof (sched_pick_spec k (match c with Some c => c + 1 | None => 0 end)) as Hs.
    destruct (sched_pick k _) as [y|].
    + destruct Ho as [[= <-] _]. destruct Hs as (Hx & _ & Hmin). specialize (Hmin e He Hr).
      revert Hmin IH. generalize (match c with Some c => c + 1 | None => 0 end) as b.
      clear - Hx Hne He. unfold cdist, NENV in *. lia.
    + specialize (Hs e He). congruence.
Qed.

(** Environment 0 runs; slots 1 and 2 hold fresh RUNNABLE environments. *)
Lemma demo_sched : ∃ k l,
  kernel_inv demo_base 1 [2; 1; 0] (zrange 3 1021) l k ∧ cpus_ok [2; 1; 0] k ∧ lock_held 0 k ∧
  cpu_env (cpus k 0) = Some 0 ∧
  (∀ e, env_status (envs k e) = if decide (e = 1 ∨ e = 2) then ENV_RUNNABLE else
                                if decide (e = 0) then ENV_RUNNING else ENV_FREE) ∧
  (∀ e, e ∈ [2; 1; 0] → ENVX (env_id (envs k e)) = e).
Proof.
  pose proof demo_k_inv as H0. rewrite (zrange_cons 1 1023), (zrange_cons (1 + 1) (1023 - 1)) in H0 by lia.
  destruct (env_alloc_run 0 demo_base 1 4096 [0] 1 _ 3 [5; 6] demo_k H0)
    as (k1 & _ & H1 & E1 & C1 & L1 & _).
  destruct (env_alloc_run 0 demo_base 1 4096 [1; 0] 2 _ 5 [6] k1 H1)
    as (k2 & _ & H2 & E2 & C2 & L2 & _).
  assert (∀ e, env_status (envs k2 e) = if decide (e = 1 ∨ e = 2) then ENV_RUNNABLE else
                                if decide (e = 0) then ENV_RUNNING else ENV_FREE) as Hst.
  { intros e. rewrite E2, E1, !upd_case. repeat case_decide; subst; simpl; try lia; try reflexivity.
    - unfold demo_env. destruct (Z.eqb_spec e 0); [lia|reflexivity]. }
  exists k2, [6]. splits; try assumption.
  - intros c e. rewrite C2, C1. cbn [demo_k cpus]. case_match; [intros [= <-]; do 2 right; left|done].
  - unfold lock_held. by rewrite L2, L1.
  - by rewrite C2, C1.
  - intros e He. exact (proj2 (ke_id _ _ _ _ _ _ H2 e He)).
Qed.

Lemma demo_pick (k : kst) (b : Z) :
  (∀ e, env_status (envs k e) = if decide (e = 1 ∨ e = 2) then ENV_RUNNABLE else
                                if decide (e = 0) then ENV_RUNNING else ENV_FREE) →
  b = 1 → sched_pick k b = Some 1.
Proof.
  intros Hst ->. unfold sched_pick. rewrite (zrange_cons 0 NENV) by (unfold NENV; lia).
  cbn [fmap list_fmap List.find]. change ((1 + 0) mod NENV) with 1. unfold runnable. by rewrite Hst.
Qed.

Lemma sched_yield_correct_witness : ∃ k l k',
  kernel_inv demo_base 1 [2; 1; 0] (zrange 3 1021) l k ∧
  sched_yield 0 k = (Stop (SUser 1), k') ∧ cpu_env (cpus k' 0) = Some 1.
Proof.
  destruct demo_sched as (k & l & H & Hok & Hlk & Hc & Hst & Hid).
  destruct (sched_yield_correct 0 demo_base 1 _ _ l k H Hok Hlk) as (x & k' & E & _ & _ & Ho & _).
  unfold yield_outcome in Ho. rewrite Hc in Ho. rewrite (demo_pick k _ Hst) in Ho.
  - destruct Ho as [-> R]. exists k, l, k'.
    refine (conj H (conj E _)). exact (rn_cur _ _ _ _ _ R).
  - unfold sched_begin. rewrite Hid; [reflexivity|]. do 2 right. left.
Defined.

(** Environment 2 is passed over once, for environment 1. *)
Lemma demo_passed : passed_over 0 demo_base 1 2 (Some 0) 1.
Proof.
  destruct demo_sched as (k & l & H & Hok & Hlk & Hc & Hst & Hid).
  destruct (sched_yield_run 0 demo_base 1 _ _ l k H Hok Hlk) as (x & k' & E & _ & _ & Ho).
  unfold yield_outcome in Ho. rewrite Hc in Ho. rewrite (demo_pick k _ Hst) in Ho.
  - destruct Ho as [-> _].
    refine (passed_yield 0 demo_base 1 2 (Some 0) 0 1 k k' _ _ l H Hok Hlk Hc _ E _ (passed_start _ _ _ _ _)).
    + unfold runnable. by rewrite Hst.
    + lia.
  - unfold sched_begin. rewrite Hid; [reflexivity|]. do 2 right. left.
Qed.

Lemma sched_yield_fair_witness :
  passed_over 0 demo_base 1 2 (Some 0) 1 ∧ 1 ≤ cdist 1 2 < NENV.
Proof.
  split; [exact demo_passed|].
  exact (sched_yield_fair 0 demo_base 1 2 (Some 0) 1 ltac:(unfold NENV; lia) demo_passed).
Defined.
