(* ===== verification/UserMem.v ===== *)
(** * Checking user memory

    Contracts of [user_mem_check] of kern/pmap.c: exact below [UTOP], and what
    the 32-bit addition [va+len] lets through. *)
From S2P Require Import Prelude Monad Word Layout Mem CString PageAlloc PageTable PageInv PageOps PageDirs KState Env EnvMem KInv EnvSpec Sched SchedSpec.

(** The entry of [a] exists and has all the bits of [perm]. *)
Definition entry_ok (m : mem) (d perm a : Z) : bool :=
  match tgt m (slot d (PDX a)) with
  | Some t => Z.land (load32 m (slot t (PTX a))) perm =? perm
  | None => false
  end.

(** With [PTE_P] among the bits, a mapping the user may use. *)
Lemma entry_ok_lookup m d perm a : flag perm PTE_P = true →
  entry_ok m d perm a = true ↔ ∃ pte, lookup_pte m d a = Some pte ∧ Z.land pte perm = perm.
Proof.
  intros Hp. unfold entry_ok, lookup_pte. destruct (tgt m (slot d (PDX a))) as [t|]; cbn.
  - rewrite Z.eqb_eq. split.
    + intros E. exists (load32 m (slot t (PTX a))). split; [|done].
      assert (flag (load32 m (slot t (PTX a))) PTE_P = true) as ->; [|done].
      unfold flag in *. rewrite negb_true_iff in *. apply Z.eqb_neq in Hp. apply Z.eqb_neq.
      intros E0. apply Hp. rewrite <- E, <- Z.land_assoc, (Z.land_comm perm), Z.land_assoc, E0. apply Z.land_0_l.
    + intros (pte & E & Hl). case_match; [|done]. by injection E as <-.
  - split; [done|]. by intros (? & ? & _).
Qed.

(** The first page of the range that fails, and the address reported for it. *)
Definition first_bad (m : mem) (d va perm : Z) (starts : list Z) : option Z :=
  match List.find (λ a, negb (entry_ok m d perm a)) starts with
  | Some a => Some (if a =? ROUNDDOWN va PGSIZE then va else a)
  | None => None
  end.

Section check.
Context (cpunum : Z) (base : Z → Z) (kp : Z) (live fe l : list Z) (k : kst).
Context (H : kernel_inv base kp live fe l k).

Lemma walk_page e a : e ∈ live → PDX a < UPDX → 0 ≤ a < ULIM →
  ∃ cur, liftM (pgdir_walk (env_pgdir (envs k e)) a false) k = (Ret cur, k) ∧
    match cur with
    | None => tgt (phys (k_mm k)) (slot (dirof k e) (PDX a)) = None
    | Some p => ∃ t, tgt (phys (k_mm k)) (slot (dirof k e) (PDX a)) = Some t ∧ p = kva t + 4 * PTX a
    end.
Proof using H.
  intros He Hp Ha. rewrite (ke_pgdir _ _ _ _ _ _ H e He).
  pose proof (ke_mm _ _ _ _ _ _ H) as Hm. pose proof (ke_dir live k e He) as Hd.
  destruct (tgt (phys (k_mm k)) (slot (dirof k e) (PDX a))) as [t|] eqn:Et.
  - exists (Some (kva t + 4 * PTX a)). split; [|eauto].
    rewrite (liftM_run _ _ (Ret (Some (kva t + 4 * PTX a))) (k_mm k)).
    + by rewrite set_mm_id.
    + exact (walk_present base _ _ l Hm (dirof k e) a false t Hd Hp Et).
  - exists None. split; [|done]. rewrite (liftM_run _ _ (Ret None) (k_mm k)).
    + by rewrite set_mm_id.
    + exact (walk_absent _ (dirof k e) a Et).
Qed.

Lemma user_mem_check_loop_run e va perm starts :
  e ∈ live → 0 ≤ perm < 4294967296 → (∀ a, a ∈ starts → 0 ≤ a < UTOP) →
  match first_bad (phys (k_mm k)) (dirof k e) va perm starts with
  | None => user_mem_check_loop (envs k e) va perm starts k = (Ret 0, k)
  | Some a => ∃ v, user_mem_check_loop (envs k e) va perm starts k =
                (Ret (- E_FAULT), log_ev v (set_mm (set_check_addr a (k_mm k)) k))
  end.
Proof using H.
  intros He Hperm. unfold first_bad. induction starts as [|a starts IH]; intros Hr; [done|].
  cbn [List.find user_mem_check_loop]. rewrite run_bind.
  assert (0 ≤ a < 0xEEC00000) as Ha by (apply Hr; left).
  destruct (walk_page e a He) as (cur & -> & Hc); [unfold UPDX; rewrite PDX_div, u32_small; lia|change ULIM with 0xEF800000; lia|].
  rewrite run_bind. unfold entry_ok at 1. rewrite (u32_small perm) by lia.
  assert (() → ∃ v, (let x := if a =? ROUNDDOWN va PGSIZE then va else a in
      liftM (modify (set_check_addr x)) ;;
      cprintf "[%08x] user_mem_check assertion failure for va %08x\n" [env_id (envs k e); x] ;;
      mret (- E_FAULT) : K Z) k =
      (Ret (- E_FAULT), log_ev v (set_mm (set_check_addr (if a =? ROUNDDOWN va PGSIZE then va else a) (k_mm k)) k)))
    as Hbad.
  { intros _. cbn zeta. rewrite run_bind, (liftM_run _ k (Ret tt) (set_check_addr (if a =? ROUNDDOWN va PGSIZE then va else a) (k_mm k)) eq_refl).
    eexists. rewrite run_bind. reflexivity. }
  destruct cur as [p|].
  - destruct Hc as (t & Et & ->). rewrite Et. change ULIM with 0xEF800000.
    destruct (Z.leb_spec 0xEF800000 a); [lia|].
    rewrite run_bind, (liftM_run _ _ (Ret (load32 (phys (k_mm k)) (slot t (PTX a)))) (k_mm k)) by apply kload_slot.
    rewrite set_mm_id, run_ret.
    destruct (Z.land (load32 (phys (k_mm k)) (slot t (PTX a))) perm =? perm); cbn [negb].
    + apply IH. intros b Hb. apply Hr. by right.
    + apply (Hbad tt).
  - rewrite Hc, run_ret. cbn [negb]. apply (Hbad tt).
Qed.
End check.

Lemma pages_between_range start end_ a :
  start mod 4096 = 0 → end_ mod 4096 = 0 → a ∈ pages_between start end_ ↔
  (start ≤ a < end_ ∧ a mod 4096 = 0).
Proof.
  intros Hs He. unfold pages_between, PGSIZE. rewrite list_elem_of_fmap. setoid_rewrite elem_of_zrange. split.
  - intros (i & -> & Hi). lia.
  - intros [Ha Hm]. exists ((a - start) / 4096). lia.
Qed.

(** The pages that a range ending below [UTOP] touches. *)
Lemma check_starts va len : 0 ≤ va → 0 ≤ len → va + len ≤ UTOP →
  ∀ a, a ∈ pages_between (ROUNDDOWN va PGSIZE) (ROUNDUP (u32 (va + len)) PGSIZE) ↔
       va - va mod 4096 ≤ a < va + len ∧ a mod 4096 = 0.
Proof.
  intros Hva Hlen Hend a. change UTOP with 0xEEC00000 in Hend. rewrite pages_between_range.
  - unfold ROUNDUP, ROUNDDOWN, PGSIZE, u32. lia.
  - unfold ROUNDDOWN, PGSIZE, u32. lia.
  - unfold ROUNDUP, ROUNDDOWN, PGSIZE, u32. lia.
Qed.

(** A present entry with the bits passes, for every address of its page. *)
Lemma lookup_entry_ok m d va pte perm a :
  lookup_pte m d va = Some pte → Z.land pte perm = perm → u32 a / 4096 = u32 va / 4096 →
  entry_ok m d perm a = true.
Proof.
  intros Hl Hp E. unfold entry_ok, lookup_pte in *. rewrite PDX_div, PTX_div, E.
  rewrite PDX_div, PTX_div in Hl.
  replace (u32 a / 4194304) with (u32 va / 4194304) by (clear - E; lia).
  destruct (tgt _ _) as [t|]; [|done]. simpl in Hl. case_match; [|done]. injection Hl as ->.
  by apply Z.eqb_eq.
Qed.

(** A range within one mapped page. *)
Lemma user_mem_check_page base kp live fe l k e va len perm pte :
  kernel_inv base kp live fe l k → e ∈ live → 0 ≤ va → 0 ≤ len →
  va mod 4096 + len ≤ 4096 → va + len ≤ UTOP → 0 ≤ perm < 4294967296 →
  lookup_pte (phys (k_mm k)) (dirof k e) va = Some pte → Z.land pte perm = perm →
  user_mem_check e va len perm k = (Ret 0, k).
Proof.
  intros H He Hva Hlen Hpg Hend Hperm Hl Hp. unfold user_mem_check, get_env. rewrite run_bind, run_gets.
  pose proof (check_starts va len Hva Hlen Hend) as Hst. change UTOP with 0xEEC00000 in Hend.
  set (starts := pages_between _ _) in *.
  pose proof (user_mem_check_loop_run base kp live fe l k H e va perm starts He Hperm) as HR.
  assert (first_bad (phys (k_mm k)) (dirof k e) va perm starts = None) as Hn.
  { unfold first_bad. destruct (List.find _ starts) as [a|] eqn:Ef; [|reflexivity].
    apply find_some in Ef as [Hin Hb]. apply list_elem_of_In, Hst in Hin as [Hr Hm].
    rewrite (lookup_entry_ok _ _ va pte) in Hb; [discriminate Hb|exact Hl|exact Hp|].
    rewrite !u32_small by lia. lia. }
  rewrite Hn in HR. apply HR. intros a [Hr Hm]%Hst. change UTOP with 0xEEC00000. lia.
Qed.

(** C10: for a range that ends below [UTOP], [user_mem_check] returns 0 exactly
    when the page-table entry of every page that the range touches exists and
    has all the bits of [perm]; otherwise it returns [-E_FAULT] and
    [user_mem_check_addr] is the first erroneous address: [va] itself if its
    own page fails, else the start of the first failing page.  Nothing else
    changes. *)
Theorem user_mem_check_correct base kp live fe l k e va len perm :
  kernel_inv base kp live fe l k → e ∈ live → 0 ≤ va → 0 ≤ len → va + len ≤ UTOP →
  0 ≤ perm < 4294967296 →
  let m := phys (k_mm k) in
  let starts := pages_between (ROUNDDOWN va PGSIZE) (ROUNDUP (u32 (va + len)) PGSIZE) in
  (∀ a, a ∈ starts ↔ va - va mod 4096 ≤ a < va + len ∧ a mod 4096 = 0) ∧
  match first_bad m (dirof k e) va perm starts with
  | None => user_mem_check e va len perm k = (Ret 0, k) ∧
            (∀ a, a ∈ starts → entry_ok m (dirof k e) perm a = true)
  | Some b =>
      (∃ v, user_mem_check e va len perm k =
              (Ret (- E_FAULT), log_ev v (set_mm (set_check_addr b (k_mm k)) k))) ∧
      va ≤ b < va + Z.max len 1 ∧ entry_ok m (dirof k e) perm (b - b mod 4096) = false ∧
      (∀ a, va ≤ a < b - b mod 4096 → entry_ok m (dirof k e) perm (a - a mod 4096) = true)
  end.
Proof.
  intros H He Hva Hlen Hend Hperm m starts.
  pose proof (check_starts va len Hva Hlen Hend) as Hst. fold starts in Hst. change UTOP with 0xEEC00000 in Hend.
  assert (ROUNDDOWN va PGSIZE = va - va mod 4096) as Erd by (unfold ROUNDDOWN, PGSIZE, u32; lia).
  split; [exact Hst|].
  pose proof (user_mem_check_loop_run base kp live fe l k H e va perm starts He Hperm) as HR.
  assert (∀ a, a ∈ starts → 0 ≤ a < UTOP) as Hr.
  { intros a Ha%Hst. change UTOP with 0xEEC00000. lia. }
  specialize (HR Hr). fold m in HR. fold starts in HR.
  unfold user_mem_check, get_env. rewrite run_bind, run_gets. fold starts.
  set (n := (ROUNDUP (u32 (va + len)) PGSIZE - ROUNDDOWN va PGSIZE + PGSIZE - 1) / PGSIZE).
  assert (starts = (λ i, ROUNDDOWN va PGSIZE + i * PGSIZE) <$> zrange 0 (Z.of_nat (Z.to_nat n))) as En.
  { unfold starts, pages_between. fold n. destruct (Z.le_gt_cases 0 n).
    - by rewrite Z2Nat.id.
    - rewrite !zrange_nil by lia. reflexivity. }
  pose proof (find_zrange (λ i, ROUNDDOWN va PGSIZE + i * PGSIZE)
    (λ a, negb (entry_ok m (dirof k e) perm a)) (Z.to_nat n) 0) as HF.
  rewrite <- En in HF. unfold first_bad in *.
  assert (∀ a, a ∈ starts → ∃ i, 0 ≤ i < Z.of_nat (Z.to_nat n) ∧ a = ROUNDDOWN va PGSIZE + i * PGSIZE) as Hix.
  { intros a Ha. rewrite En, list_elem_of_fmap in Ha. destruct Ha as (i & -> & Hi%elem_of_zrange).
    exists i. split; [lia|reflexivity]. }
  destruct (List.find _ _) as [a|].
  - destruct HF as (i & Hi & Ea & Hbad & Hbelow).
    assert (a ∈ starts) as Ha%Hst.
    { rewrite En, list_elem_of_fmap. exists i. split; [exact Ea|]. apply elem_of_zrange. lia. }
    set (b := if a =? ROUNDDOWN va PGSIZE then va else a) in *.
    assert (b - b mod 4096 = a ∧ va ≤ b < va + Z.max len 1) as [Eb Hb].
    { unfold b. destruct (Z.eqb_spec a (ROUNDDOWN va PGSIZE)) as [E|E]; rewrite Erd in E; lia. }
    rewrite Eb. repeat split; [exact HR|lia|lia|by rewrite <- negb_true_iff|].
    intros a' Ha'. rewrite <- negb_false_iff.
    replace (a' - a' mod 4096) with (ROUNDDOWN va PGSIZE + ((a' - a' mod 4096 - ROUNDDOWN va PGSIZE) / 4096) * PGSIZE)
      by (rewrite Erd; unfold PGSIZE; lia).
    apply Hbelow. rewrite Erd in *. unfold PGSIZE in Ea. clear - Ea Ha' Hva Hi. lia.
  - split; [exact HR|]. intros a (i & Hi & ->)%Hix. rewrite <- negb_false_iff. apply HF. lia.
Qed.

(** C36: the end of the range is computed modulo 2^32 and a range whose end wraps
    to or below the page of [va] has no page to test: [user_mem_check] accepts it,
    whatever is mapped there and whatever [perm] asks for. *)
Theorem user_mem_check_wraps e va len perm k :
  ROUNDUP (u32 (va + len)) PGSIZE ≤ ROUNDDOWN va PGSIZE →
  user_mem_check e va len perm k = (Ret 0, k).
Proof.
  intros H. unfold user_mem_check, get_env. rewrite run_bind, run_gets.
  unfold pages_between. rewrite zrange_nil by (unfold PGSIZE in *; lia). reflexivity.
Qed.

(** Environment 0 of [demo_k] has nothing mapped at 0x800010: the address of the
    range itself is reported. *)
Lemma user_mem_check_correct_witness :
  kernel_inv demo_base 1 [0] (zrange 1 1023) [3; 5; 6] demo_k ∧
  ∃ v, user_mem_check 0 0x800010 8192 5 demo_k =
    (Ret (- E_FAULT), log_ev v (set_mm (set_check_addr 0x800010 (k_mm demo_k)) demo_k)).
Proof.
  split; [exact demo_k_inv|].
  pose proof (user_mem_check_correct demo_base 1 [0] (zrange 1 1023) [3; 5; 6] demo_k 0 0x800010 8192 5
    demo_k_inv ltac:(left) ltac:(lia) ltac:(lia) ltac:(vm_compute; discriminate) ltac:(lia)) as HR.
  cbn zeta in HR. destruct HR as [_ HR].
  assert (first_bad (phys (k_mm demo_k)) (dirof demo_k 0) 0x800010 5
    (pages_between (ROUNDDOWN 0x800010 PGSIZE) (ROUNDUP (u32 (0x800010 + 8192)) PGSIZE)) = Some 0x800010)
    as E by (vm_compute; reflexivity).
  rewrite E in HR. exact (proj1 HR).
Defined.

(** A range of 256 MB from the kernel's base address on: its end wraps to 0. *)
Lemma user_mem_check_wraps_witness :
  user_mem_check 0 KERNBASE 0x10000000 7 demo_k = (Ret 0, demo_k).
Proof. apply user_mem_check_wraps. vm_compute. discriminate. Defined.
