(* ===== verification/Syscall.v ===== *)
(** * kern/syscall.c: the system calls

    Arguments are the 32-bit words of the registers; [envid_t] and [int]
    arguments are read as signed, addresses and [unsigned] as they are.  A
    handler returns the value of [eax], or stops where the C code does not
    return. *)
From S2P Require Import Prelude Monad Word Layout Mem CString PageAlloc PageTable PageInv PageOps KState Env Sched.

Definition SYS_cputs := 0.
Definition SYS_cgetc := 1.
Definition SYS_getenvid := 2.
Definition SYS_env_destroy := 3.
Definition SYS_page_alloc := 4.
Definition SYS_page_map := 5.
Definition SYS_page_unmap := 6.
Definition SYS_exofork := 7.
Definition SYS_env_set_status := 8.
Definition SYS_env_set_pgfault_upcall := 9.
Definition SYS_yield := 10.
Definition SYS_ipc_try_send := 11.
Definition SYS_ipc_recv := 12.
Definition NSYSCALLS := 13.

(** The condition on [perm] of the page system calls. *)
Definition bad_perm (perm : Z) : bool :=
  (Z.land perm PTE_U =? 0) || (Z.land perm PTE_P =? 0) ||
  negb (Z.land perm (Z.lnot PTE_SYSCALL) =? 0).
(** [(physaddr_t)va >= UTOP || PGOFF(va)] *)
Definition bad_va (va : Z) : bool := (UTOP <=? va) || negb (PGOFF va =? 0).

Section syscall.
Context (cpunum : Z).
(** [cons_getc] of kern/console.c (modelled in Console). *)
Context (cons_getc : K Z).

(** The loop of the conversion "%.*s" (lib/printfmt.c): one byte is read, at
    [p], before the precision is looked at. *)
Definition put_string_step (st : Z * Z) : K (Z * Z + ()) :=
  let '(p, precision) := st in
  ch ← vload8 cpunum p;
  let p := u32 (p + 1) in
  if ch =? 0 then mret (inr tt)
  else if precision <? 0 then cprintf "%c" [ch] ;; mret (inl (p, precision))
  else
    let precision := precision - 1 in
    if 0 <=? precision then cprintf "%c" [ch] ;; mret (inl (p, precision)) else mret (inr tt).

(** [2 ^ 32] iterations would read every address there is. *)
Definition put_string (p precision : Z) : K () :=
  if p =? 0 then
    cprintf "(null)" [precision]
  else
    r ← loop 32 put_string_step (p, precision);
    match r with inr tt => mret tt | inl _ => undef "string without an end" end.

(** [cprintf("%.*s", len, s)]: the [int] that "%.*s" takes is [len] read as
    signed. *)
Definition sys_cputs (s len : Z) : K () :=
  c ← curenv' cpunum;
  user_mem_assert cpunum c s len 0 ;;
  put_string s (s32 len).

Definition sys_cgetc : K Z := cons_getc.

Definition sys_getenvid : K Z :=
  c ← curenv' cpunum; env ← get_env c; mret (env_id env).

Definition sys_env_destroy (envid : Z) : K Z :=
  '(r, e) ← envid2env cpunum envid true;
  if r <? 0 then mret r
  else
    match e with
    | None => undef "NULL env"
    | Some e =>
        c ← curenv' cpunum;
        cenv ← get_env c; env ← get_env e;
        (if e =? c then cprintf "[%08x] exiting gracefully\n" [env_id cenv]
         else cprintf "[%08x] destroying %08x\n" [env_id cenv; env_id env]) ;;
        env_destroy cpunum e ;;
        mret 0
    end.

Definition sys_yield : K () := sched_yield cpunum.

Definition sys_exofork : K Z :=
  c ← curenv' cpunum;
  cenv ← get_env c;
  '(iret, e) ← env_alloc cpunum (env_id cenv);
  if iret <? 0 then mret iret
  else
    match e with
    | None => undef "NULL env"
    | Some e =>
        modify (upd_env e (λ v, with_status v ENV_NOT_RUNNABLE)) ;;
        cenv ← get_env c;
        modify (upd_env e (λ v, with_tf v (env_tf cenv))) ;;
        modify (upd_env e (λ v, with_tf v (tf_set_eax 0 (env_tf v)))) ;;
        env ← get_env e;
        mret (env_id env)
    end.

(** Handlers that look up an environment with permission first. *)
Definition with_env (envid : Z) (f : Z → K Z) : K Z :=
  '(r, e) ← envid2env cpunum envid true;
  if r <? 0 then mret (- E_BAD_ENV)
  else match e with Some e => f e | None => undef "NULL env" end.

Definition sys_env_set_status (envid status : Z) : K Z :=
  if negb (status =? ENV_RUNNABLE) && negb (status =? ENV_NOT_RUNNABLE)
  then mret (- E_INVAL)
  else with_env envid (λ e, modify (upd_env e (λ v, with_status v status)) ;; mret 0).

Definition sys_env_set_pgfault_upcall (envid func : Z) : K Z :=
  with_env envid (λ e, modify (upd_env e (λ v, with_upcall v func)) ;; mret 0).

Definition sys_page_alloc (envid va perm : Z) : K Z :=
  with_env envid (λ e,
    if bad_va va then mret (- E_INVAL)
    else if bad_perm perm then mret (- E_INVAL)
    else
      pi ← liftM (page_alloc ALLOC_ZERO);
      match pi with
      | None => mret (- E_INVAL)
      | Some pi =>
          env ← get_env e;
          r ← liftP cpunum (λ cur, page_insert cur (env_pgdir env) pi va perm);
          if r <? 0 then liftM (page_free pi) ;; mret (- E_NO_MEM) else mret 0
      end).

Definition sys_page_map (srcenvid srcva dstenvid dstva perm : Z) : K Z :=
  with_env srcenvid (λ src_env, with_env dstenvid (λ dst_env,
    if bad_va srcva || bad_va dstva then mret (- E_INVAL)
    else if bad_perm perm then mret (- E_INVAL)
    else
      senv ← get_env src_env;
      pp ← liftM (page_lookup (env_pgdir senv) srcva);
      match pp with
      | None => mret (- E_INVAL)
      | Some (pp, pte) =>
          e ← liftM (kload32 pte);
          if (Z.land e PTE_W =? 0) && negb (Z.land perm PTE_W =? 0) then mret (- E_INVAL)
          else
            denv ← get_env dst_env;
            r ← liftP cpunum (λ cur, page_insert cur (env_pgdir denv) pp dstva perm);
            if r <? 0 then mret (- E_INVAL) else mret 0
      end)).

Definition sys_page_unmap (envid va : Z) : K Z :=
  with_env envid (λ e,
    if bad_va va then mret (- E_INVAL)
    else
      env ← get_env e;
      liftP cpunum (λ cur, page_remove cur (env_pgdir env) va) ;;
      mret 0).

(** Transfer of the page at [srcva]; [Some r] makes the system call return
    [r].  [pte] is not initialised when [page_lookup] finds no page, and
    [*pte] is read before the [NULL] check. *)
Definition ipc_send_page (e srcva perm : Z) : K (option Z) :=
  c ← curenv' cpunum;
  cenv ← get_env c;
  pg ← liftM (page_lookup (env_pgdir cenv) srcva);
  if negb (srcva =? ROUNDDOWN srcva PGSIZE) then mret (Some (- E_INVAL))
  else
    match pg with
    | None => undef "sys_ipc_try_send: *pte with pte uninitialised"
    | Some (pg, pte) =>
        w ← liftM (kload32 pte);
        if negb (Z.land (Z.land w perm) PTE_SYSCALL =? Z.land perm PTE_SYSCALL)
        then mret (Some (- E_INVAL))
        else if negb (Z.land perm PTE_W =? 0) && (Z.land w PTE_W =? 0)
        then mret (Some (- E_INVAL))
        else
          env ← get_env e;
          if env_ipc_dstva env <? UTOP then
            r ← liftP cpunum (λ cur,
                  page_insert cur (env_pgdir env) pg (env_ipc_dstva env) perm);
            if r <? 0 then mret (Some (- E_NO_MEM))
            else
              modify (upd_env e (λ v, with_ipc v (env_ipc_recving v) (env_ipc_dstva v)
                                        (env_ipc_value v) (env_ipc_from v) (s32 perm))) ;;
              mret None
          else mret None
    end.

Definition sys_ipc_try_send (envid value srcva perm : Z) : K Z :=
  '(r, e) ← envid2env cpunum envid false;
  if r <? 0 then mret (- E_BAD_ENV)
  else
    match e with
    | None => undef "NULL env"
    | Some e =>
        env ← get_env e;
        if negb (env_ipc_recving env) then mret (- E_IPC_NOT_RECV)
        else
          ret ← (if srcva <? UTOP then ipc_send_page e srcva perm else mret None);
          match ret with
          | Some r => mret r
          | None =>
              c ← curenv' cpunum;
              cenv ← get_env c;
              modify (upd_env e (λ v, with_ipc v false (env_ipc_dstva v) value (env_id cenv)
                                        (env_ipc_perm v))) ;;
              modify (upd_env e (λ v, with_status v ENV_RUNNABLE)) ;;
              modify (upd_env e (λ v, with_tf v (tf_set_eax 0 (env_tf v)))) ;;
              mret 0
          end
    end.

Definition sys_ipc_recv (dstva : Z) : K Z :=
  if (dstva <? UTOP) && negb (PGOFF dstva =? 0) then mret (- E_INVAL)
  else
    c ← curenv' cpunum;
    modify (upd_env c (λ v, with_ipc v true dstva 0 0 0)) ;;
    modify (upd_env c (λ v, with_status v ENV_NOT_RUNNABLE)) ;;
    sched_yield cpunum ;;
    mret 0.

Definition syscall (syscallno a1 a2 a3 a4 a5 : Z) : K Z :=
  if syscallno =? SYS_cputs then sys_cputs a1 a2 ;; mret 0
  else if syscallno =? SYS_cgetc then sys_cgetc
  else if syscallno =? SYS_getenvid then sys_getenvid
  else if syscallno =? SYS_env_destroy then sys_env_destroy (s32 a1)
  else if syscallno =? SYS_yield then sys_yield ;; undef "ret uninitialised"
  else if syscallno =? SYS_exofork then sys_exofork
  else if syscallno =? SYS_env_set_status then sys_env_set_status (s32 a1) (s32 a2)
  else if syscallno =? SYS_page_alloc then sys_page_alloc (s32 a1) a2 (s32 a3)
  else if syscallno =? SYS_page_map
    then sys_page_map (s32 a1) a2 (s32 a3) a4 (s32 a5)
  else if syscallno =? SYS_page_unmap then sys_page_unmap (s32 a1) a2
  else if syscallno =? SYS_env_set_pgfault_upcall
    then sys_env_set_pgfault_upcall (s32 a1) a2
  else if syscallno =? SYS_ipc_try_send then sys_ipc_try_send (s32 a1) a2 a3 a4
  else if syscallno =? SYS_ipc_recv then sys_ipc_recv a1
  else mret (- E_INVAL).
End syscall.
