(* ===== verification/Trap.v ===== *)
(** * kern/trap.c: traps

    Names of traps, printing of trap frames, the page-fault handler, the
    dispatcher and [trap] itself, which every trap and interrupt enters. *)
From S2P Require Import Prelude Monad Word Layout Mem CString PageAlloc PageTable PageInv PageOps Seg KState Env Sched Syscall.

Definition excnames : list string :=
  ["Divide error"; "Debug"; "Non-Maskable Interrupt"; "Breakpoint"; "Overflow";
   "BOUND Range Exceeded"; "Invalid Opcode"; "Device Not Available"; "Double Fault";
   "Coprocessor Segment Overrun"; "Invalid TSS"; "Segment Not Present"; "Stack Fault";
   "General Protection"; "Page Fault"; "(unknown trap)"; "x87 FPU Floating-Point Error";
   "Alignment Check"; "Machine-Check"; "SIMD Floating-Point Exception"].

(** The first comparison is unsigned: [ARRAY_SIZE] is a [size_t]. *)
Definition trapname (trapno : Z) : string :=
  if u32 trapno <? 20 then nth (Z.to_nat (u32 trapno)) excnames EmptyString
  else if trapno =? T_SYSCALL then "System call"
  else if (IRQ_OFFSET <=? trapno) && (trapno <? IRQ_OFFSET + 16) then "Hardware Interrupt"
  else "(unknown trap)".

(** A [struct Trapframe *]: the frame that [_alltraps] pushed on the kernel
    stack, or the saved frame of an environment. *)
Inductive tfptr :=
| TfStack (tf : Trapframe)
| TfEnv (e : Z).

Definition load_tf (p : tfptr) : K Trapframe :=
  match p with
  | TfStack tf => mret tf
  | TfEnv e => env ← get_env e; mret (env_tf env)
  end.

Definition print_regs (regs : PushRegs) : K () :=
  cprintf "  edi  0x%08x\n" [reg_edi regs] ;;
  cprintf "  esi  0x%08x\n" [reg_esi regs] ;;
  cprintf "  ebp  0x%08x\n" [reg_ebp regs] ;;
  cprintf "  oesp 0x%08x\n" [reg_oesp regs] ;;
  cprintf "  ebx  0x%08x\n" [reg_ebx regs] ;;
  cprintf "  edx  0x%08x\n" [reg_edx regs] ;;
  cprintf "  ecx  0x%08x\n" [reg_ecx regs] ;;
  cprintf "  eax  0x%08x\n" [reg_eax regs].

Section trap.
Context (cpunum : Z).
(** [cons_getc] of kern/console.c. *)
Context (cons_getc : K Z).
(** What the CPU's registers hold on entry: CR2 and EFLAGS; and whether
    [panicstr] is set. *)
Context (rcr2 eflags : Z) (panicstr : bool).

(** [is_last]: whether [tf == last_tf].  The address that [%p] prints is not
    modelled. *)
Definition print_trapframe (tf : Trapframe) (is_last : bool) : K () :=
  cprintf "TRAP frame at %p from CPU %d\n" [cpunum] ;;
  print_regs (tf_regs tf) ;;
  cprintf "  es   0x----%04x\n" [tf_es tf] ;;
  cprintf "  ds   0x----%04x\n" [tf_ds tf] ;;
  cprintfS "  trap 0x%08x %s\n" [tf_trapno tf] [trapname (s32 (tf_trapno tf))] ;;
  (if is_last && (tf_trapno tf =? T_PGFLT) then cprintf "  cr2  0x%08x\n" [rcr2] else mret tt) ;;
  cprintf "  err  0x%08x" [tf_err tf] ;;
  (if tf_trapno tf =? T_PGFLT then
     cprintfS " [%s, %s, %s]\n" []
       [if flag (tf_err tf) 4 then "user" else "kernel";
        if flag (tf_err tf) 2 then "write" else "read";
        if flag (tf_err tf) 1 then "protection" else "not-present"]
   else cprintf "\n" []) ;;
  cprintf "  eip  0x%08x\n" [tf_eip tf] ;;
  cprintf "  cs   0x----%04x\n" [tf_cs tf] ;;
  cprintf "  flag 0x%08x\n" [tf_eflags tf] ;;
  (if negb (Z.land (tf_cs tf) 3 =? 0) then
     cprintf "  esp  0x%08x\n" [tf_esp tf] ;;
     cprintf "  ss   0x----%04x\n" [tf_ss tf]
   else mret tt).

(** [monitor] of kern/monitor.c: it prints and then reads commands for ever,
    since no command returns a negative value (Monitor). *)
Definition monitor (tf : option (Trapframe * bool)) : K () :=
  cprintf "Welcome to the JOS kernel monitor!\n" [] ;;
  cprintf "Type 'help' for a list of commands.\n" [] ;;
  (match tf with Some (tf, is_last) => print_trapframe tf is_last | None => mret tt end) ;;
  stopM SMonitor.

Definition sizeof_UTrapframe := 52.

(** The words of the [struct UTrapframe] that the handler fills in. *)
Definition utrapframe (fault_va : Z) (tf : Trapframe) : list Z :=
  let r := tf_regs tf in
  [fault_va; tf_err tf; reg_edi r; reg_esi r; reg_ebp r; reg_oesp r; reg_ebx r; reg_edx r;
   reg_ecx r; reg_eax r; tf_eip tf; tf_eflags tf; tf_esp tf].

(** 32-bit stores to consecutive addresses. *)
Fixpoint vstore_words (ws : list Z) (va : Z) : K () :=
  match ws with
  | [] => mret tt
  | w :: ws => vstore32 cpunum va w ;; vstore_words ws (u32 (va + 4))
  end.

Definition page_fault_handler (p : tfptr) : K () :=
  let fault_va := rcr2 in
  cprintf "Page fault at address: 0x%08x\n" [fault_va] ;;
  tf ← load_tf p;
  if Z.land (tf_cs tf) 3 =? 0 then panic "page_fault in kernal mode"
  else
    e ← curenv' cpunum;
    env ← get_env e;
    (if negb (env_pgfault_upcall env =? 0) then
       let stacktop :=
         if (UXSTACKTOP - PGSIZE <? tf_esp tf) && (tf_esp tf <? UXSTACKTOP)
         then tf_esp tf else UXSTACKTOP in
       let size := sizeof_UTrapframe + 4 in
       user_mem_assert cpunum e (u32 (stacktop - size)) size (Z.lor PTE_U PTE_W) ;;
       let utf := u32 (stacktop - size) in
       tf ← load_tf p;
       vstore_words (utrapframe fault_va tf) utf ;;
       e ← curenv' cpunum;
       modify (upd_env e (λ v, with_tf v (tf_set_eip (env_pgfault_upcall v) (env_tf v)))) ;;
       modify (upd_env e (λ v, with_tf v (tf_set_esp utf (env_tf v)))) ;;
       env_run cpunum e
     else mret tt) ;;
    e ← curenv' cpunum;
    env ← get_env e;
    tf ← load_tf p;
    cprintf "[%08x] user fault va %08x ip %08x\n" [env_id env; fault_va; tf_eip tf] ;;
    print_trapframe tf true ;;
    env_destroy cpunum e.

(** [trap] has just set [last_tf = tf] for the frame dispatched. *)
Definition trap_dispatch (p : tfptr) : K () :=
  tf ← load_tf p;
  if tf_trapno tf =? T_PGFLT then page_fault_handler p
  else if tf_trapno tf =? T_BRKPT then monitor (Some (tf, true))
  else if tf_trapno tf =? T_SYSCALL then
    let r := tf_regs tf in
    ret_code ← syscall cpunum cons_getc (reg_eax r) (reg_edx r) (reg_ecx r) (reg_ebx r)
                 (reg_edi r) (reg_esi r);
    (match p with
     | TfEnv e => modify (upd_env e (λ v, with_tf v (tf_set_eax ret_code (env_tf v))))
     | TfStack _ => mret tt      (* the frame on the stack is not used again *)
     end)
  else if tf_trapno tf =? IRQ_OFFSET + IRQ_TIMER then
    cprintf "Timer interrupt on irq 0\n" [] ;;
    modify (log_ev LapicEoi) ;;
    sched_yield cpunum
  else
    print_trapframe tf true ;;
    if tf_cs tf =? GD_KT then panic "unhandled trap in kernel"
    else e ← curenv' cpunum; env_destroy cpunum e.

(** The part of [trap] for a trap from user mode: the frame to dispatch. *)
Definition trap_enter (tf : Trapframe) : K tfptr :=
  c ← curenv cpunum;
  match c with
  | None => panic "assertion failed: curenv"
  | Some e =>
      lock_kernel cpunum ;;
      env ← get_env e;
      (if env_status env =? ENV_DYING then
         env_free cpunum e ;;
         set_curenv cpunum None ;;
         sched_yield cpunum
       else mret tt) ;;
      e ← curenv' cpunum;
      modify (upd_env e (λ v, with_tf v tf)) ;;
      mret (TfEnv e)
  end.

(** The end of [trap]: back to the current environment if it may run on. *)
Definition trap_exit : K () :=
  c ← curenv cpunum;
  match c with
  | Some e =>
      env ← get_env e;
      if env_status env =? ENV_RUNNING then env_run cpunum e else sched_yield cpunum
  | None => sched_yield cpunum
  end.

Definition trap (tf : Trapframe) : K () :=
  if panicstr then stopM SHalt
  else
    old ← xchg_cpu_status cpunum CPU_STARTED;
    (if old =? CPU_HALTED then lock_kernel cpunum else mret tt) ;;
    assertM (negb (flag eflags FL_IF)) "assertion failed: !(read_eflags() & FL_IF)" ;;
    p ← (if Z.land (tf_cs tf) 3 =? 3 then trap_enter tf else mret (TfStack tf));
    trap_dispatch p ;;
    trap_exit.
End trap.
