(* ===== verification/UserStore.v ===== *)
(** * Stores to user memory

    What [vstore8], [vstore32] and [vstore_words] do on a page that the current
    address space maps writable: the bytes change at the physical address and
    nowhere else, and no page table changes. *)
From S2P Require Import Prelude Monad Word Layout Mem CString PageAlloc PageTable PageInv PageOps PageDirs KState Env EnvMem KInv Sched UserMem Trap.

(** [k] with physical memory [m]. *)
Definition with_phys (m : mem) (k : kst) : kst := set_mm (set_phys m (k_mm k)) k.

(** The page of [va] is mapped writable, to page [p], in directory [d]. *)
Definition writable (m : mem) (d va p : Z) : Prop :=
  ∃ pte, lookup_pte m d va = Some pte ∧ flag pte PTE_W = true ∧ pte / 4096 = p.

Lemma lookup_pte_page m d va va' :
  u32 va / 4096 = u32 va' / 4096 → lookup_pte m d va = lookup_pte m d va'.
Proof.
  intros E. unfold lookup_pte. rewrite !PDX_div, !PTX_div, E.
  by replace (u32 va / 4194304) with (u32 va' / 4194304) by (clear - E; lia).
Qed.

(** Addresses in the same slot are in the same page. *)
Lemma same_slot_page d d' v v' :
  0 ≤ v < 4294967296 → 0 ≤ v' < 4294967296 → same_slot d v d' v' → d = d' ∧ v / 4096 = v' / 4096.
Proof. intros Hv Hv' (E & H1 & H2). split; [exact E|]. rewrite !PDX_div, !PTX_div, !u32_small in * by lia. lia. Qed.

Lemma UTOP_range v : 0 ≤ v < UTOP → 0 ≤ v < 4294967296.
Proof. change UTOP with 0xEEC00000. lia. Qed.

Lemma vtrans_writable m cr3 d va p :
  cr3 = d * 4096 → 0 ≤ va < KERNBASE → writable m d va p →
  vtrans m cr3 va true = Some (p * 4096 + va mod 4096).
Proof.
  intros -> Hva (pte & Hl & Hw & <-). unfold vtrans. change KERNBASE with 0xF0000000 in *.
  rewrite u32_small by lia. destruct (Z.leb_spec 0xF0000000 va); [lia|].
  replace (d * 4096 / 4096) with d by lia. rewrite Hl. simpl. rewrite Hw. simpl.
  rewrite PTE_ADDR_div, PGOFF_mod. f_equal.
  assert (0 ≤ pte < 4294967296) as Hp.
  { unfold lookup_pte in Hl. destruct (tgt _ _); [|done]. simpl in Hl. case_match; [|done].
    injection Hl as <-. apply load32_range. }
  rewrite !u32_small by lia. lia.
Qed.

Lemma PDX_user va : 0 ≤ va < UTOP → PDX va < UPDX.
Proof. change UTOP with 0xEEC00000. intros. unfold UPDX. rewrite PDX_div, u32_small; lia. Qed.

Section store.
Context (cpunum : Z) (base : Z → Z) (kp : Z) (live fe l : list Z) (e p : Z).
Context (He : e ∈ live).

(** The current address space is [e]'s and maps the page of [va] to [p]. *)
Record user_page (k : kst) (va : Z) : Prop := {
  up_inv : kernel_inv base kp live fe l k;
  up_cr3 : cpu_cr3 (cpus k cpunum) = dirof k e * 4096;
  up_map : writable (phys (k_mm k)) (dirof k e) va p;
}.

Lemma user_page_private k va : user_page k va → PDX va < UPDX →
  p ∉ (dirof k <$> live) ++ tables (phys (k_mm k)) (dirof k <$> live).
Proof using He.
  intros [H _ (pte & Hl & _ & <-)] Hva. pose proof (ke_mm _ _ _ _ _ _ H) as Hm.
  apply (ki_priv _ _ _ _ Hm). by apply (lookup_leaf _ _ (dirof k e) va); [apply ke_dir| |].
Qed.

(** Any change of memory confined to the page keeps everything else. *)
Lemma user_page_with_phys k va m' : user_page k va → PDX va < UPDX →
  (∀ a, a / 4096 ≠ p → load8 m' a = load8 (phys (k_mm k)) a) →
  user_page (with_phys m' k) va ∧
  (∀ e' va', e' ∈ live → PDX va' < UPDX →
     lookup_pte m' (dirof k e') va' = lookup_pte (phys (k_mm k)) (dirof k e') va').
Proof using He.
  intros Hu Hva Hm'. pose proof (user_page_private k va Hu Hva) as Hp. destruct Hu as [H Hc Hmap].
  pose proof (ke_mm _ _ _ _ _ _ H) as Hm.
  destruct (kinv_mem base (dirof k <$> live) (k_mm k) l m') as (Hk & _ & Hl).
  - intros a Ha. apply Hm'. intros <-. exact (Hp Ha).
  - exact Hm.
  - split.
    + split; [|exact Hc|].
      * apply (ke_set_mm _ _ _ _ l); [exact H|repeat split|exact Hk].
      * destruct Hmap as (pte & El & Hw). exists pte. split; [|exact Hw].
        cbn [with_phys set_mm k_mm phys set_phys]. rewrite <- El. apply Hl; [by apply ke_dir|exact Hva].
    + intros e' va' He' Hva'. apply Hl; [by apply ke_dir|exact Hva'].
Qed.

Lemma vstore8_run k va v :
  user_page k va → 0 ≤ va < UTOP →
  vstore8 cpunum va v k =
    (Ret tt, with_phys (store8 (phys (k_mm k)) (p * 4096 + va mod 4096) v) k).
Proof.
  intros [H Hc Hm] Hva. unfold vstore8. rewrite run_bind, run_gets.
  change UTOP with 0xEEC00000 in Hva.
  rewrite (vtrans_writable _ _ _ _ _ Hc) by (exact Hm || (change KERNBASE with 0xF0000000; lia)).
  reflexivity.
Qed.

(** Within the page, stores are stores to physical memory. *)
Lemma user_page_move k va va' : user_page k va →
  0 ≤ va → 0 ≤ va' < 4294967296 → va / 4096 = va' / 4096 → user_page k va'.
Proof.
  intros [H Hc (pte & Hl & Hw)] H0 H1 E. split; [exact H|exact Hc|]. exists pte. split; [|exact Hw].
  rewrite <- Hl. symmetry. apply lookup_pte_page. rewrite !u32_small by lia. done.
Qed.

Lemma vstore8_step k va v :
  user_page k va → 0 ≤ va < UTOP →
  vstore8 cpunum va v k =
    (Ret tt, with_phys (store8 (phys (k_mm k)) (p * 4096 + va mod 4096) v) k) ∧
  user_page (with_phys (store8 (phys (k_mm k)) (p * 4096 + va mod 4096) v) k) va.
Proof using He.
  intros Hu Hva. split; [by apply vstore8_run|]. apply user_page_with_phys; [exact Hu|by apply PDX_user|].
  intros a Ha. rewrite load8_store8. rewrite decide_False; [done|]. intros <-. lia.
Qed.

Lemma vstore32_run k va v :
  user_page k va → 0 ≤ va → va mod 4096 + 4 ≤ 4096 → va < UTOP →
  vstore32 cpunum va v k =
    (Ret tt, with_phys (store32 (phys (k_mm k)) (p * 4096 + va mod 4096) v) k) ∧
  user_page (with_phys (store32 (phys (k_mm k)) (p * 4096 + va mod 4096) v) k) va.
Proof using He.
  intros Hu H0 Hoff Hva. change UTOP with 0xEEC00000 in Hva.
  assert (∀ k i b, user_page k va → 0 ≤ i < 4 →
    vstore8 cpunum (va + i) b k =
      (Ret tt, with_phys (store8 (phys (k_mm k)) (p * 4096 + va mod 4096 + i) b) k) ∧
    user_page (with_phys (store8 (phys (k_mm k)) (p * 4096 + va mod 4096 + i) b) k) va) as Hs.
  { intros k' i b Hk Hi.
    destruct (vstore8_step k' (va + i) b) as [E Hk'].
    - apply (user_page_move k' va); [exact Hk|lia..].
    - change UTOP with 0xEEC00000. lia.
    - replace (p * 4096 + (va + i) mod 4096) with (p * 4096 + va mod 4096 + i) in E, Hk' by lia.
      split; [exact E|]. apply (user_page_move _ (va + i)); [exact Hk'|lia..]. }
  unfold vstore32, store32. rewrite run_bind.
  destruct (Hs k 0 v Hu ltac:(lia)) as [E1 U1]. do 2 rewrite Z.add_0_r in E1. rewrite Z.add_0_r in U1. rewrite E1. cbv beta iota. rewrite run_bind, (u32_small (va + 1)) by lia.
  destruct (Hs _ 1 (v / 256) U1 ltac:(lia)) as [E2 U2]. rewrite E2. cbv beta iota. rewrite run_bind, (u32_small (va + 2)) by lia.
  destruct (Hs _ 2 (v / 65536) U2 ltac:(lia)) as [E3 U3]. rewrite E3. cbv beta iota. rewrite (u32_small (va + 3)) by lia.
  destruct (Hs _ 3 (v / 16777216) U3 ltac:(lia)) as [E4 U4]. rewrite E4.
  exact (conj eq_refl U4).
Qed.

Lemma vstore_words_run ws k va :
  user_page k va → 0 ≤ va → va mod 4096 + 4 * Z.of_nat (length ws) ≤ 4096 → va < UTOP →
  let m' := store_words (phys (k_mm k)) (p * 4096 + va mod 4096) ws in
  vstore_words cpunum ws va k = (Ret tt, with_phys m' k) ∧ user_page (with_phys m' k) va.
Proof using He.
  revert k va. induction ws as [|w ws IH]; intros k va Hu H0 Hlen Hva m'.
  - split; [|by destruct k, k_mm]. subst m'. simpl. by destruct k, k_mm.
  - cbn [length] in Hlen. change UTOP with 0xEEC00000 in Hva.
    destruct (vstore32_run k va w Hu) as [E U]; [lia|lia|exact Hva|].
    cbn [vstore_words]. rewrite run_bind, E. destruct ws as [|w' ws].
    + split; [reflexivity|exact U].
    + cbn [length] in Hlen.
      destruct (IH _ (u32 (va + 4)) (user_page_move _ va (u32 (va + 4)) U ltac:(lia)
        (u32_range _) ltac:(rewrite u32_small; lia))) as [E' U'].
      * apply u32_range.
      * cbn [length]. rewrite u32_small; lia.
      * change UTOP with 0xEEC00000. rewrite u32_small; lia.
      * rewrite u32_small in E', U' by lia.
        replace (p * 4096 + (va + 4) mod 4096) with (p * 4096 + va mod 4096 + 4) in E', U' by lia.
        split; [rewrite u32_small by lia; exact E'|].
        apply (user_page_move _ (va + 4)); [exact U'|lia..].
Qed.
End store.
