(* ===== verification/TrapSpec.v ===== *)
(** * Contracts of the trap path

    What [trap] does with a trap from user mode: reflected to the page-fault
    upcall of the environment, answered with a result in [eax], followed by a
    reschedule, or by the end of the environment; and the contract of
    [env_destroy], by which the last happens. *)
From S2P Require Import Prelude Monad Word Layout Mem CString PageAlloc PageTable PageInv PageOps PageDirs Seg KState Env EnvMem KInv EnvSpec Sched SchedSpec UserMem Syscall Trap UserStore.

(** No CPU but this one runs [e]. *)
Definition runs_only_here (cpunum e : Z) (k : kst) : Prop :=
  ∀ c, c ≠ cpunum → cpu_env (cpus k c) ≠ Some e.

Section destroy.
Context (cpunum : Z) (base : Z → Z) (kp : Z).

(** An environment that is not current, nor running elsewhere, is freed. *)
Lemma env_destroy_other_run e live fe l k :
  kernel_inv base kp (e :: live) fe l k → cpu_env (cpus k cpunum) ≠ Some e →
  env_status (envs k e) ≠ ENV_RUNNING →
  ∃ k' l', env_destroy cpunum e k = (Ret tt, k') ∧ kernel_inv base kp live (e :: fe) l' k' ∧
    env_freed live e l k k' l' ∧ cpus k' = cpus k.
Proof.
  intros H Hc Hs. destruct (env_free_run cpunum base kp e live fe l k H) as (k' & l' & E & H' & F & _ & Ecp).
  exists k', l'. refine (conj _ (conj H' (conj F (Ecp Hc)))).
  unfold env_destroy, get_env, curenv. rewrite run_bind, run_gets, run_bind, run_gets.
  destruct (Z.eqb_spec (env_status (envs k e)) ENV_RUNNING); [done|]. cbn [andb].
  rewrite run_bind, E. cbv beta iota. rewrite run_bind, run_gets.
  rewrite (proj1 (ef_cpu _ _ _ _ _ _ F cpunum)). rewrite bool_decide_false by exact Hc. reflexivity.
Qed.

(** What a CPU whose current environment [e] has been freed does: it runs another
    live environment, or waits for an interrupt in the kernel's address space with
    the lock free, or enters the monitor, which it does when no environment will
    ever run again. *)
Definition gone (live fe : list Z) (e : Z) (x : stop) (k' : kst) : Prop :=
  (∃ l', kernel_inv base kp live (e :: fe) l' k') ∧ cpus_ok live k' ∧
  match x with
  | SUser y => y ≠ e ∧ y ∈ live ∧ env_status (envs k' y) = ENV_RUNNING ∧ kernel_lock k' = mkLock false None ∧
      cpu_env (cpus k' cpunum) = Some y ∧ cpu_cr3 (cpus k' cpunum) = dirof k' y * 4096
  | SHalt => all_dead k' = false ∧ kernel_lock k' = mkLock false None ∧
      cpus k' cpunum = mkCpu CPU_HALTED None (kp * 4096)
  | SMonitor => all_dead k' = true ∧ cpu_env (cpus k' cpunum) = None
  | _ => False
  end.

(** The current environment is freed and the CPU schedules. *)
Lemma reap_run {A} e live fe l k (rest : K A) :
  kernel_inv base kp (e :: live) fe l k → cpus_ok (e :: live) k → lock_held cpunum k →
  runs_only_here cpunum e k →
  ∃ x k', (env_free cpunum e ;; set_curenv cpunum None ;; sched_yield cpunum ;; rest) k = (Stop x, k') ∧
    gone live fe e x k'.
Proof.
  intros H Hok Hlk Ho.
  destruct (env_free_run cpunum base kp e live fe l k H) as (k1 & l' & E & H1 & F & _).
  set (k2 := set_cpus (<[cpunum := mkCpu (cpu_status (cpus k1 cpunum)) None (cpu_cr3 (cpus k1 cpunum))]>
                        (cpus k1)) k1).
  assert (kernel_inv base kp live (e :: fe) l' k2) as H2 by by apply ke_set_cpus.
  assert (cpus_ok live k2) as Hok2.
  { intros c x. unfold k2. cbn [cpus set_cpus]. rewrite upd_case. case_decide as Hd; [done|].
    rewrite (proj1 (ef_cpu _ _ _ _ _ _ F c)). intros Hx. pose proof (Hok c x Hx) as Hin.
    apply elem_of_cons in Hin as [->|Hin]; [|exact Hin]. destruct (Ho c (not_eq_sym Hd) Hx). }
  assert (lock_held cpunum k2) as Hlk2.
  { unfold lock_held. change (kernel_lock k2) with (kernel_lock k1). by rewrite (ef_lock _ _ _ _ _ _ F). }
  destruct (sched_yield_run cpunum base kp live (e :: fe) l' k2 H2 Hok2 Hlk2)
    as (x & k' & Ey & H' & Hok' & Hout).
  exists x, k'. split.
  - rewrite run_bind, E. cbv beta iota. unfold set_curenv. rewrite run_bind, run_modify.
    rewrite run_bind. fold k2. by rewrite Ey.
  - refine (conj (ex_intro _ l' H') (conj Hok' _)).
    unfold yield_outcome in Hout. cbv zeta in Hout.
    assert (cpu_env (cpus k2 cpunum) = None) as Hc2 by (unfold k2; simpl; by rewrite upd_same).
    rewrite Hc2 in Hout. cbn [still_running] in Hout.
    pose proof (sched_pick_spec k2 (sched_begin k2 None)) as Hp.
    destruct (sched_pick k2 (sched_begin k2 None)) as [y|].
    + destruct Hout as [-> R]. destruct Hp as (Hy & Hr & _).
      pose proof (runnable_live base kp live _ _ _ _ H2 Hy Hr) as Hyl.
      split_and!; [|exact Hyl| |exact (rn_lock _ _ _ _ _ R)|exact (rn_cur _ _ _ _ _ R)|].
      * intros ->. pose proof (ke_disj _ _ _ _ _ _ H1 e Hyl) as Hd. apply Hd. left.
      * rewrite (rn_status _ _ _ _ _ R). unfold run_status. by rewrite decide_True.
      * rewrite (rn_cr3 _ _ _ _ _ R). unfold dirof. by rewrite (proj1 (proj2 (rn_id _ _ _ _ _ R y))).
    + destruct (all_dead k2) eqn:Ead.
      * destruct Hout as [-> [v ->]]. split; [exact Ead|exact Hc2].
      * destruct Hout as [-> ->]. split; [exact Ead|]. split; [reflexivity|].
        unfold halt_state. simpl. by rewrite upd_same.
Qed.

Lemma env_destroy_self_run e live fe l k :
  kernel_inv base kp (e :: live) fe l k → cpus_ok (e :: live) k → lock_held cpunum k →
  cpu_env (cpus k cpunum) = Some e → runs_only_here cpunum e k →
  ∃ x k', env_destroy cpunum e k = (Stop x, k') ∧ gone live fe e x k'.
Proof.
  intros H Hok Hlk Hc Ho.
  destruct (reap_run e live fe l k (mret tt : K ()) H Hok Hlk Ho) as (x & k' & E & Hg).
  exists x, k'. refine (conj _ Hg).
  unfold env_destroy, get_env, curenv. rewrite run_bind, run_gets, run_bind, run_gets, Hc.
  rewrite bool_decide_true by reflexivity. rewrite andb_false_r.
  destruct (env_free_run cpunum base kp e live fe l k H) as (k1 & l' & E1 & _ & F & _).
  rewrite run_bind, E1 in E |- *. cbv beta iota in E |- *.
  rewrite run_bind, run_gets, (proj1 (ef_cpu _ _ _ _ _ _ F cpunum)), Hc.
  rewrite bool_decide_true by reflexivity. rewrite run_bind in E |- *.
  destruct (set_curenv cpunum None k1) as [[[]|y] k2]; [|exact E].
  rewrite run_bind in E. by destruct (sched_yield cpunum k2) as [[[]|y] k3].
Qed.
End destroy.

(** C21: [env_destroy] of a live environment, under the kernel invariant: one
    that runs on another CPU becomes a zombie and keeps its memory; any other
    is freed with all it holds ([env_freed], kernel invariant with its slot
    free), and if it was the current one the CPU goes on to something else
    ([gone]): another environment, an interrupt, or the monitor if none can run;
    never back to it, and never to a kernel panic. *)
Theorem env_destroy_correct cpunum base kp e live fe l k :
  kernel_inv base kp (e :: live) fe l k → cpus_ok (e :: live) k → lock_held cpunum k →
  let c := cpu_env (cpus k cpunum) in
  (c ≠ Some e → env_status (envs k e) = ENV_RUNNING →
     env_destroy cpunum e k = (Ret tt, upd_env e (λ v, with_status v ENV_DYING) k) ∧
     kernel_inv base kp (e :: live) fe l (upd_env e (λ v, with_status v ENV_DYING) k)) ∧
  (c ≠ Some e → env_status (envs k e) ≠ ENV_RUNNING →
     ∃ k' l', env_destroy cpunum e k = (Ret tt, k') ∧ kernel_inv base kp live (e :: fe) l' k' ∧
       env_freed live e l k k' l' ∧ cpus k' = cpus k) ∧
  (c = Some e → runs_only_here cpunum e k →
     ∃ x k', env_destroy cpunum e k = (Stop x, k') ∧ gone cpunum base kp live fe e x k').
Proof.
  intros H Hok Hlk c. split; [intros Hc Hs; split|split].
  - unfold env_destroy, get_env, curenv. rewrite run_bind, run_gets, run_bind, run_gets.
    rewrite Hs. change (ENV_RUNNING =? ENV_RUNNING) with true.
    rewrite bool_decide_false by exact Hc. reflexivity.
  - apply ke_upd_env; [exact H|left| |reflexivity|reflexivity].
    unfold with_status, ENV_DYING, ENV_NOT_RUNNABLE. simpl. lia.
  - intros Hc Hs. exact (env_destroy_other_run cpunum base kp e live fe l k H Hc Hs).
  - intros Hc Ho. exact (env_destroy_self_run cpunum base kp e live fe l k H Hok Hlk Hc Ho).
Qed.

Lemma demo_alone : runs_only_here 0 0 demo_k.
Proof. intros c Hc. cbn [demo_k cpus]. destruct (Z.eqb_spec c 0); [lia|]. discriminate. Qed.

Lemma env_destroy_correct_witness :
  ∃ x k', env_destroy 0 0 demo_k = (Stop x, k') ∧ gone 0 demo_base 1 [] (zrange 1 1023) 0 x k'.
Proof.
  destruct (env_destroy_correct 0 demo_base 1 0 [] (zrange 1 1023) [3; 5; 6] demo_k demo_k_inv demo_cpus
    eq_refl) as (_ & _ & H).
  apply (H eq_refl demo_alone).
Defined.

(** ** Output *)

(** [k] after some output. *)
Definition logged (evs : list kev) (k : kst) : kst := fold_right log_ev k evs.
(** Computations that only print. *)
Definition prints (m : K ()) : Prop := ∀ k, ∃ evs, m k = (Ret tt, logged evs k).

Lemma prints_ret : prints (mret tt).
Proof. intros k. by exists []. Qed.
Lemma prints_cprintf f a : prints (cprintf f a).
Proof. intros k. by exists [Cprintf f a]. Qed.
Lemma prints_cprintfS f a ss : prints (cprintfS f a ss).
Proof. intros k. by exists [CprintfS f a ss]. Qed.
Lemma prints_seq (m n : K ()) : prints m → prints n → prints (m ;; n).
Proof.
  intros Hm Hn k. destruct (Hm k) as [e1 E1]. destruct (Hn (logged e1 k)) as [e2 E2].
  exists (e2 ++ e1). rewrite run_bind, E1, E2. unfold logged. by rewrite fold_right_app.
Qed.
Lemma prints_if (b : bool) (m n : K ()) : prints m → prints n → prints (if b then m else n).
Proof. by destruct b. Qed.

Create HintDb prints.
#[export] Hint Resolve prints_ret prints_cprintf prints_cprintfS prints_seq prints_if : prints.

Lemma prints_trapframe cpunum rcr2 tf b : prints (print_trapframe cpunum rcr2 tf b).
Proof. unfold print_trapframe, print_regs. repeat (apply prints_seq || apply prints_if); auto with prints. Qed.
#[export] Hint Resolve prints_trapframe : prints.

Lemma logged_facts evs k :
  k_mm (logged evs k) = k_mm k ∧ envs (logged evs k) = envs k ∧ cpus (logged evs k) = cpus k ∧
  kernel_lock (logged evs k) = kernel_lock k.
Proof. induction evs as [|v evs IH]; [done|exact IH]. Qed.
Lemma logged_inv base kp live fe l evs k :
  kernel_inv base kp live fe l k → kernel_inv base kp live fe l (logged evs k).
Proof. intros H. induction evs as [|v evs IH]; [exact H|]. by apply ke_log. Qed.

(** ** Entering and leaving *)

Section trap.
Context (cpunum : Z) (cons_getc : K Z) (rcr2 eflags : Z).
Context (base : Z → Z) (kp : Z).

(** A trap of the running environment [e]: the CPU is not halted, nobody
    holds the big lock and interrupts are off. *)
Record user_trap (e : Z) (tf : Trapframe) (k : kst) : Prop := {
  ut_cur : cpu_env (cpus k cpunum) = Some e;
  ut_started : cpu_status (cpus k cpunum) ≠ CPU_HALTED;
  ut_lock : locked (kernel_lock k) = false;
  ut_if : flag eflags FL_IF = false;
  ut_user : Z.land (tf_cs tf) 3 = 3;
}.

(** The state with which [trap_dispatch] starts. *)
Definition entered (e : Z) (tf : Trapframe) (k : kst) : kst :=
  upd_env e (λ v, with_tf v tf)
    (set_lock (mkLock true (Some cpunum))
      (set_cpus (<[cpunum := mkCpu CPU_STARTED (Some e) (cpu_cr3 (cpus k cpunum))]> (cpus k)) k)).

(** The lock is taken and, unless the environment is a zombie, its frame saved. *)
Lemma trap_enter_run e tf k :
  user_trap e tf k →
  trap cpunum cons_getc rcr2 eflags false tf k =
    if env_status (envs k e) =? ENV_DYING
    then (env_free cpunum e ;; set_curenv cpunum None ;; sched_yield cpunum ;;
          e ← curenv' cpunum;
          modify (upd_env e (λ v, with_tf v tf)) ;;
          trap_dispatch cpunum cons_getc rcr2 (TfEnv e) ;; trap_exit cpunum)
           (set_lock (mkLock true (Some cpunum))
             (set_cpus (<[cpunum := mkCpu CPU_STARTED (Some e) (cpu_cr3 (cpus k cpunum))]> (cpus k)) k))
    else (trap_dispatch cpunum cons_getc rcr2 (TfEnv e) ;; trap_exit cpunum) (entered e tf k).
Proof.
  intros [Hc Hs Hl Hi Hu]. unfold trap, xchg_cpu_status. cbv beta iota. rewrite run_bind, run_bind, run_gets.
  rewrite run_bind, run_modify, run_ret.
  destruct (Z.eqb_spec (cpu_status (cpus k cpunum)) CPU_HALTED); [done|]. rewrite run_bind, run_ret.
  rewrite run_bind, run_assert, Hi. cbv beta iota delta [negb]. rewrite Hu.
  change (3 =? 3) with true. cbv beta iota. rewrite Hc.
  rewrite run_bind. unfold trap_enter, curenv. rewrite run_bind, run_gets.
  cbn [cpus set_cpus]. rewrite upd_same. cbn [cpu_env]. rewrite run_bind.
  unfold lock_kernel. rewrite run_bind, run_gets. cbn [kernel_lock set_cpus]. rewrite Hl, run_modify.
  rewrite run_bind. unfold get_env. rewrite run_gets. cbn [envs set_lock set_cpus].
  destruct (env_status (envs k e) =? ENV_DYING).
  - rewrite !run_bind. destruct (env_free _ _ _) as [[[]|x] k1]; [|reflexivity].
    rewrite !run_bind. destruct (set_curenv _ _ _) as [[[]|x] k2]; [|reflexivity].
    rewrite !run_bind. destruct (sched_yield _ _) as [[[]|x] k3]; [|reflexivity].
    rewrite !run_bind. destruct (curenv' _ _) as [[e'|x] k4]; reflexivity.
  - unfold curenv', curenv. mrun. cbn [cpus set_cpus set_lock]. rewrite upd_same. cbn [cpu_env].
    rewrite run_ret. mrun. reflexivity.
Qed.

Lemma load_env e k : load_tf (TfEnv e) k = (Ret (env_tf (envs k e)), k).
Proof. reflexivity. Qed.
Lemma entered_tf e tf k : env_tf (envs (entered e tf k) e) = tf.
Proof. unfold entered. cbn [envs upd_env set_envs]. by rewrite upd_same. Qed.
Lemma entered_cur e tf k : cpu_env (cpus (entered e tf k) cpunum) = Some e.
Proof. unfold entered. simpl. by rewrite upd_same. Qed.

Lemma entered_inv live fe l e tf k :
  kernel_inv base kp live fe l k → e ∈ live → kernel_inv base kp live fe l (entered e tf k).
Proof.
  intros H He. unfold entered. apply ke_upd_env; [|exact He| |reflexivity|reflexivity].
  - by apply ke_set_lock, ke_set_cpus.
  - exact (ke_status _ _ _ _ _ _ H e He).
Qed.

Lemma entered_cpus live e tf k :
  cpus_ok live k → cpu_env (cpus k cpunum) = Some e → cpus_ok live (entered e tf k).
Proof.
  intros Hok Hc c x. unfold entered. simpl. rewrite upd_case. case_decide; subst; simpl; [|apply Hok].
  intros [= <-]. by apply (Hok c).
Qed.

(** Going back to the environment that trapped. *)
Lemma trap_exit_run live fe l e k :
  kernel_inv base kp live fe l k → e ∈ live → lock_held cpunum k →
  cpu_env (cpus k cpunum) = Some e → env_status (envs k e) = ENV_RUNNING →
  ∃ k', trap_exit cpunum k = (Stop (SUser e), k') ∧ kernel_inv base kp live fe l k' ∧
    ran cpunum live e k k'.
Proof.
  intros H He Hlk Hc Hs. destruct (env_run_run cpunum base kp live fe l e k H He Hlk ltac:(by rewrite Hc; intros ? [= <-]))
    as (k' & E & H' & R). exists k'. refine (conj _ (conj H' R)).
  unfold trap_exit, curenv. rewrite run_bind, run_gets, Hc, run_bind. unfold get_env.
  rewrite run_gets, Hs. exact E.
Qed.
End trap.

(** A system call that returns: the state in which the caller continues. *)
Lemma trap_syscall_run cpunum cons_getc rcr2 eflags base kp live fe l' e tf k k1 r :
  user_trap cpunum eflags e tf k →
  env_status (envs k e) ≠ ENV_DYING → tf_trapno tf = T_SYSCALL →
  let g := tf_regs tf in
  syscall cpunum cons_getc (reg_eax g) (reg_edx g) (reg_ecx g) (reg_ebx g) (reg_edi g) (reg_esi g)
    (entered cpunum e tf k) = (Ret r, k1) →
  kernel_inv base kp live fe l' k1 → e ∈ live → lock_held cpunum k1 →
  cpu_env (cpus k1 cpunum) = Some e → env_status (envs k1 e) = ENV_RUNNING →
  ∃ k', trap cpunum cons_getc rcr2 eflags false tf k = (Stop (SUser e), k') ∧
    kernel_inv base kp live fe l' k' ∧
    ran cpunum live e (upd_env e (λ v, with_tf v (tf_set_eax r (env_tf v))) k1) k'.
Proof.
  intros Hut Hnd Ht g Esys H1 He Hlk Hc Hs.
  set (k2 := upd_env e (λ v, with_tf v (tf_set_eax r (env_tf v))) k1).
  assert (kernel_inv base kp live fe l' k2) as H2.
  { apply ke_upd_env; [exact H1|exact He| |reflexivity|reflexivity]. exact (ke_status _ _ _ _ _ _ H1 e He). }
  destruct (trap_exit_run cpunum base kp live fe l' e k2 H2 He Hlk Hc) as (k' & E & H' & R).
  { unfold k2. simpl. rewrite upd_same. exact Hs. }
  exists k'. refine (conj _ (conj H' R)).
  rewrite (trap_enter_run _ _ _ _ _ _ _ Hut). destruct (Z.eqb_spec (env_status (envs k e)) ENV_DYING); [done|].
  unfold trap_dispatch. rewrite run_bind, run_bind, load_env. cbv beta iota. rewrite entered_tf, Ht.
  change (T_SYSCALL =? T_PGFLT) with false. change (T_SYSCALL =? T_BRKPT) with false.
  change (T_SYSCALL =? T_SYSCALL) with true. cbv beta iota zeta. rewrite run_bind.
  fold g. rewrite Esys. cbv beta iota. rewrite run_modify. exact E.
Qed.

(** ** Theorems *)

(** C8: a system call whose handler returns [r] and leaves the caller running:
    the caller resumes with [r] in [eax], and every other register as the
    handler left it in [env_tf] (for most calls, as at the trap); the big lock
    is released, the caller's address space installed.  The handler is one that
    leaves the same environments live and free as before. *)
Theorem trap_syscall_returns cpunum cons_getc rcr2 eflags base kp live fe l l' e tf k k1 r :
  kernel_inv base kp live fe l k → user_trap cpunum eflags e tf k →
  env_status (envs k e) ≠ ENV_DYING → tf_trapno tf = T_SYSCALL →
  let g := tf_regs tf in
  syscall cpunum cons_getc (reg_eax g) (reg_edx g) (reg_ecx g) (reg_ebx g) (reg_edi g) (reg_esi g)
    (entered cpunum e tf k) = (Ret r, k1) →
  kernel_inv base kp live fe l' k1 → e ∈ live → lock_held cpunum k1 →
  cpu_env (cpus k1 cpunum) = Some e → env_status (envs k1 e) = ENV_RUNNING →
  ∃ k', trap cpunum cons_getc rcr2 eflags false tf k = (Stop (SUser e), k') ∧
    kernel_inv base kp live fe l' k' ∧
    env_tf (envs k' e) = tf_set_eax r (env_tf (envs k1 e)) ∧
    reg_eax (tf_regs (env_tf (envs k' e))) = u32 r ∧
    kernel_lock k' = mkLock false None ∧ cpu_cr3 (cpus k' cpunum) = dirof k1 e * 4096 ∧
    phys (k_mm k') = phys (k_mm k1).
Proof.
  intros H Hut Hnd Ht g Esys H1 He Hlk Hc Hs.
  destruct (trap_syscall_run cpunum cons_getc rcr2 eflags base kp live fe l' e tf k k1 r Hut Hnd Ht Esys H1 He Hlk Hc Hs)
    as (k' & E & H' & R).
  assert (env_tf (envs k' e) = tf_set_eax r (env_tf (envs k1 e))) as Etf.
  { rewrite (proj2 (proj2 (rn_id _ _ _ _ _ R e))). simpl. by rewrite upd_same. }
  exists k'. refine (conj E (conj H' (conj Etf (conj _ (conj _ (conj _ _)))))).
  - rewrite Etf. reflexivity.
  - exact (rn_lock _ _ _ _ _ R).
  - rewrite (rn_cr3 _ _ _ _ _ R). unfold dirof. simpl. by rewrite upd_same.
  - exact (rn_phys _ _ _ _ _ R).
Qed.

(** The exception frame: at the top of the exception stack, or below the
    trap-time stack pointer, less a word, when the trap came from there. *)
Definition frame_at (tf : Trapframe) : Z :=
  (if (UXSTACKTOP - PGSIZE <? tf_esp tf) && (tf_esp tf <? UXSTACKTOP) then tf_esp tf else UXSTACKTOP) - 56.

Lemma flag_of_land pte perm b : Z.land pte perm = perm → Z.land perm b = b → b ≠ 0 → flag pte b = true.
Proof.
  intros H Hb Hn. unfold flag. apply negb_true_iff, Z.eqb_neq. intros E. apply Hn.
  rewrite <- Hb, <- H, <- Z.land_assoc, (Z.land_comm perm), Z.land_assoc, E. apply Z.land_0_l.
Qed.

(** The handler, once the frame's page is known to be the user's. *)
Lemma page_fault_upcall_ran cpunum rcr2 base kp live fe l e tf k1 pte utf upcall :
  kernel_inv base kp live fe l k1 → cpus_ok live k1 → lock_held cpunum k1 → e ∈ live →
  cpu_env (cpus k1 cpunum) = Some e → cpu_cr3 (cpus k1 cpunum) = dirof k1 e * 4096 →
  env_tf (envs k1 e) = tf → env_pgfault_upcall (envs k1 e) = upcall → upcall ≠ 0 →
  Z.land (tf_cs tf) 3 = 3 → utf = frame_at tf → UXSTACKTOP - PGSIZE ≤ utf ≤ UXSTACKTOP - 56 →
  lookup_pte (phys (k_mm k1)) (dirof k1 e) utf = Some pte →
  Z.land pte (Z.lor PTE_U PTE_W) = Z.lor PTE_U PTE_W →
  let m' := store_words (phys (k_mm k1)) (pte / 4096 * 4096 + utf mod 4096) (utrapframe rcr2 tf) in
  ∃ k', page_fault_handler cpunum rcr2 (TfEnv e) k1 = (Stop (SUser e), k') ∧
    kernel_inv base kp live fe l k' ∧ phys (k_mm k') = m' ∧ (∀ x, dirof k' x = dirof k1 x) ∧
    env_tf (envs k' e) = tf_set_esp utf (tf_set_eip upcall tf) ∧
    (∀ e' va, e' ∈ live → PDX va < UPDX →
       lookup_pte m' (dirof k1 e') va = lookup_pte (phys (k_mm k1)) (dirof k1 e') va) ∧
    ∃ k4, ran cpunum live e k4 k' ∧ cpus k4 = cpus k1 ∧ k_mm k4 = set_phys m' (k_mm k1) ∧
      ∀ x, envs k4 x = if decide (e = x) then with_tf (envs k1 x) (tf_set_esp utf (tf_set_eip upcall tf)) else envs k1 x.
Proof.
  intros H Hok Hlk He Hc Hcr3 Htf Hup Hup0 Hcs Hutf Hrng Hl Hp m'.
  change UXSTACKTOP with 0xEEC00000 in Hrng. change PGSIZE with 4096 in Hrng.
  set (k2 := log_ev (Cprintf "Page fault at address: 0x%08x\n" [rcr2]) k1).
  assert (kernel_inv base kp live fe l k2) as H2 by by apply ke_log.
  assert (user_page cpunum base kp live fe l e (pte / 4096) k2 utf) as U.
  { split; [exact H2|exact Hcr3|]. exists pte. refine (conj Hl (conj _ eq_refl)).
    apply (flag_of_land _ _ _ Hp); [reflexivity|discriminate]. }
  destruct (vstore_words_run cpunum base kp live fe l e (pte / 4096) He (utrapframe rcr2 tf) k2 utf U)
    as [Est U']; [lia|cbn [utrapframe length]; lia|change UTOP with 0xEEC00000; lia|].
  destruct (user_page_with_phys cpunum base kp live fe l e (pte / 4096) He k2 utf m' U) as [_ Hlook].
  { apply PDX_user. change UTOP with 0xEEC00000. lia. }
  { intros a Ha. unfold m'. apply load8_store_words. cbn [utrapframe length]. intros Hr. lia. }
  change (phys (k_mm k2)) with (phys (k_mm k1)) in Est, U', Hlook. fold m' in Est, U'.
  set (k3 := with_phys m' k2) in *.
  set (k4 := upd_env e (λ v, with_tf v (tf_set_esp utf (env_tf v)))
              (upd_env e (λ v, with_tf v (tf_set_eip (env_pgfault_upcall v) (env_tf v))) k3)).
  assert (kernel_inv base kp live fe l k4) as H4.
  { pose proof (up_inv _ _ _ _ _ _ _ _ _ _ U') as H3. pose proof (ke_status _ _ _ _ _ _ H e He).
    apply ke_upd_env; [apply ke_upd_env; [exact H3|exact He|..]|exact He|..]; try reflexivity.
    - assumption.
    - simpl. rewrite upd_same. assumption. }
  assert (env_tf (envs k4 e) = tf_set_esp utf (tf_set_eip upcall tf)) as E4.
  { unfold k4. cbn [envs upd_env set_envs]. rewrite !upd_same. cbn [env_tf with_tf env_pgfault_upcall].
    change (envs k3 e) with (envs k1 e). by rewrite Htf, Hup. }
  assert (∀ x, env_pgdir (envs k4 x) = env_pgdir (envs k1 x)) as Epd.
  { intros x. unfold k4. simpl. rewrite !upd_case. by repeat case_decide; subst; simpl. }
  destruct (env_run_run cpunum base kp live fe l e k4 H4 He Hlk (Hok cpunum)) as (k' & Er & H' & R).
  exists k'. refine (conj _ (conj H' (conj _ (conj _ (conj _ (conj Hlook _)))))).
  - unfold page_fault_handler. cbv zeta. rewrite run_bind. unfold cprintf at 1. rewrite run_modify. fold k2.
    rewrite run_bind, load_env. change (env_tf (envs k2 e)) with (env_tf (envs k1 e)). rewrite Htf, Hcs.
    change (3 =? 0) with false. cbv beta iota. rewrite run_bind. unfold curenv', curenv.
    rewrite run_bind, run_gets. change (cpus k2) with (cpus k1). rewrite Hc, run_ret.
    rewrite run_bind. unfold get_env. rewrite run_gets. change (envs k2 e) with (envs k1 e).
    rewrite Hup. destruct (Z.eqb_spec upcall 0) as [|_]; [done|]. cbn [negb].
    rewrite run_bind, run_bind.
    change (sizeof_UTrapframe + 4) with 56. fold (frame_at tf). rewrite <- Hutf. rewrite (u32_small utf) by lia.
    unfold user_mem_assert.
    rewrite run_bind, (user_mem_check_page base kp live fe l k2 e utf 56 _ pte H2 He);
      [|lia|lia|lia|change UTOP with 0xEEC00000; lia|vm_compute; done|exact Hl|exact Hp].
    cbv beta iota. change (0 <? 0) with false. cbv beta iota. rewrite run_ret. cbv beta iota.
    rewrite run_bind, load_env. change (env_tf (envs k2 e)) with (env_tf (envs k1 e)). rewrite Htf.
    rewrite run_bind, Est. cbv beta iota. fold k3.
    rewrite run_bind, run_bind, run_gets. change (cpus k3) with (cpus k1). rewrite Hc, run_ret.
    rewrite run_bind, run_modify, run_bind, run_modify. fold k4. rewrite Er. reflexivity.
  - rewrite (rn_phys _ _ _ _ _ R). reflexivity.
  - intros x. unfold dirof. by rewrite (proj1 (proj2 (rn_id _ _ _ _ _ R x))), Epd.
  - rewrite (proj2 (proj2 (rn_id _ _ _ _ _ R e))). exact E4.
  - exists k4. refine (conj R (conj eq_refl (conj eq_refl _))). intros x.
    unfold k4. cbn [envs upd_env set_envs]. rewrite !upd_case. case_decide as Hx; [|done]. subst x.
    rewrite !decide_True by done. cbn [env_tf with_tf env_pgfault_upcall].
    change (envs k3 e) with (envs k1 e). by rewrite Htf, Hup.
Qed.

(** A page fault of the running environment that has an upcall and whose
    exception stack page is mapped user-writable with room for the frame: the
    environment resumes in its upcall with the stack pointer at a new
    [UTrapframe] holding the fault address, the error code, all registers and
    the trap-time [eip], [eflags] and [esp]; its other registers are those of
    the trap; no byte of memory outside the frame, no mapping and no
    reference count changes. *)
Theorem trap_page_fault_upcall cpunum cons_getc rcr2 eflags base kp live fe l e tf k pte :
  kernel_inv base kp live fe l k → cpus_ok live k → user_trap cpunum eflags e tf k →
  env_status (envs k e) ≠ ENV_DYING → tf_trapno tf = T_PGFLT →
  cpu_cr3 (cpus k cpunum) = dirof k e * 4096 →
  env_pgfault_upcall (envs k e) ≠ 0 → 0 ≤ tf_esp tf < 4294967296 →
  let utf := frame_at tf in
  UXSTACKTOP - PGSIZE ≤ utf →
  lookup_pte (phys (k_mm k)) (dirof k e) utf = Some pte → Z.land pte (Z.lor PTE_U PTE_W) = Z.lor PTE_U PTE_W →
  let pa := pte / 4096 * 4096 + utf mod 4096 in
  ∃ k', trap cpunum cons_getc rcr2 eflags false tf k = (Stop (SUser e), k') ∧
    kernel_inv base kp live fe l k' ∧
    env_tf (envs k' e) = tf_set_esp utf (tf_set_eip (env_pgfault_upcall (envs k e)) tf) ∧
    (∀ i, (i < 13)%nat → load32 (phys (k_mm k')) (pa + 4 * Z.of_nat i) = u32 (nth i (utrapframe rcr2 tf) 0)) ∧
    (∀ a, ¬ (pa ≤ a < pa + 52) → load8 (phys (k_mm k')) a = load8 (phys (k_mm k)) a) ∧
    (∀ e' va, e' ∈ live → PDX va < UPDX →
       lookup_pte (phys (k_mm k')) (dirof k' e') va = lookup_pte (phys (k_mm k)) (dirof k e') va).
Proof.
  intros H Hok Hut Hnd Ht Hcr3 Hup Hesp utf Hutf Hl Hp pa.
  assert (e ∈ live) as He by exact (Hok _ _ (ut_cur _ _ _ _ _ Hut)).
  assert (utf ≤ UXSTACKTOP - 56) as Hle.
  { unfold utf, frame_at. destruct (Z.ltb_spec (UXSTACKTOP - PGSIZE) (tf_esp tf)),
      (Z.ltb_spec (tf_esp tf) UXSTACKTOP); cbn [andb]; lia. }
  set (k1 := entered cpunum e tf k).
  assert (∀ x, dirof k1 x = dirof k x) as Hd.
  { intros x. unfold dirof, k1, entered. simpl. rewrite upd_case. by case_decide; subst. }
  destruct (page_fault_upcall_ran cpunum rcr2 base kp live fe l e tf k1 pte utf (env_pgfault_upcall (envs k e)))
    as (k' & E & H' & Eph & Edir & Etf & Hlook & _).
  - by apply entered_inv.
  - apply entered_cpus; [exact Hok|exact (ut_cur _ _ _ _ _ Hut)].
  - reflexivity.
  - exact He.
  - apply entered_cur.
  - rewrite Hd, <- Hcr3. unfold k1, entered. simpl. by rewrite upd_same.
  - apply entered_tf.
  - unfold k1, entered. simpl. by rewrite upd_same.
  - exact Hup.
  - exact (ut_user _ _ _ _ _ Hut).
  - reflexivity.
  - lia.
  - rewrite Hd. exact Hl.
  - exact Hp.
  - exists k'. fold pa in Eph. change (phys (k_mm k1)) with (phys (k_mm k)) in Eph, Hlook. fold pa in Hlook.
    refine (conj _ (conj H' (conj Etf (conj _ (conj _ _))))).
    + rewrite (trap_enter_run _ _ _ _ _ _ _ Hut).
      destruct (Z.eqb_spec (env_status (envs k e)) ENV_DYING); [done|]. fold k1.
      unfold trap_dispatch. rewrite run_bind, run_bind, load_env. cbv beta iota.
      unfold k1 at 1. rewrite entered_tf, Ht. change (T_PGFLT =? T_PGFLT) with true. cbv beta iota.
      by rewrite E.
    + intros i Hi. rewrite Eph. by apply load32_store_words.
    + intros a Ha. rewrite Eph. by apply load8_store_words.
    + intros e' va He' Hva. rewrite Edir, Hd, Eph. specialize (Hlook e' va He' Hva). rewrite Hd in Hlook. exact Hlook.
Qed.

(** ** Traps that end the environment, or only its turn *)

(** The page-fault handler cannot build a frame: there is no upcall, or some
    page under the frame is not the user's to write. *)
Definition unusable_frame (e : Z) (tf : Trapframe) (k : kst) : Prop :=
  let utf := frame_at tf in
  env_pgfault_upcall (envs k e) = 0 ∨
  first_bad (phys (k_mm k)) (dirof k e) utf (Z.lor PTE_U PTE_W)
    (pages_between (ROUNDDOWN utf PGSIZE) (ROUNDUP (u32 (utf + 56)) PGSIZE)) ≠ None.

(** A vector that [trap_dispatch] has no case for. *)
Definition unexpected (n : Z) : Prop :=
  n ≠ T_PGFLT ∧ n ≠ T_BRKPT ∧ n ≠ T_SYSCALL ∧ n ≠ IRQ_OFFSET + IRQ_TIMER.

Section ends.
Context (cpunum : Z) (rcr2 : Z) (base : Z → Z) (kp : Z) (live fe l : list Z) (e : Z).

(** The current environment [e] holds the CPU and the lock. *)
Record in_kernel (k : kst) : Prop := {
  ik_inv : kernel_inv base kp (e :: live) fe l k;
  ik_ok : cpus_ok (e :: live) k;
  ik_lock : lock_held cpunum k;
  ik_cur : cpu_env (cpus k cpunum) = Some e;
  ik_alone : runs_only_here cpunum e k;
}.

Lemma in_kernel_logged evs k : in_kernel k → in_kernel (logged evs k).
Proof.
  intros [H Hok Hlk Hc Ho]. destruct (logged_facts evs k) as (_ & _ & Ec & El). split.
  - by apply logged_inv.
  - unfold cpus_ok. by rewrite Ec.
  - unfold lock_held. by rewrite El.
  - by rewrite Ec.
  - unfold runs_only_here. by rewrite Ec.
Qed.

Lemma print_then_destroy (m : K ()) k : in_kernel k → prints m →
  ∃ x k', (m ;; env_destroy cpunum e) k = (Stop x, k') ∧ gone cpunum base kp live fe e x k'.
Proof.
  intros Hk Hm. destruct (Hm k) as [evs E]. destruct (in_kernel_logged evs k Hk) as [H Hok Hlk Hc Ho].
  destruct (env_destroy_self_run cpunum base kp e live fe l _ H Hok Hlk Hc Ho) as (x & k' & Ed & Hg).
  exists x, k'. split; [|exact Hg]. by rewrite run_bind, E.
Qed.

Lemma page_fault_gone k tf : in_kernel k → env_tf (envs k e) = tf → Z.land (tf_cs tf) 3 = 3 →
  0 ≤ tf_esp tf < 4294967296 → unusable_frame e tf k →
  ∃ x k', page_fault_handler cpunum rcr2 (TfEnv e) k = (Stop x, k') ∧ gone cpunum base kp live fe e x k'.
Proof.
  intros Hk Htf Hcs Hesp Hun.
  set (k2 := log_ev (Cprintf "Page fault at address: 0x%08x\n" [rcr2]) k).
  assert (in_kernel k2) as Hk2 by exact (in_kernel_logged [_] k Hk).
  unfold page_fault_handler. cbv zeta. rewrite run_bind. unfold cprintf at 1. rewrite run_modify. fold k2.
  rewrite run_bind, load_env. change (env_tf (envs k2 e)) with (env_tf (envs k e)). rewrite Htf, Hcs.
  change (3 =? 0) with false. cbv beta iota. rewrite run_bind. unfold curenv', curenv.
  rewrite run_bind, run_gets, (ik_cur _ Hk2), run_ret.
  rewrite run_bind. unfold get_env at 1. rewrite run_gets.
  change (env_pgfault_upcall (envs k2 e)) with (env_pgfault_upcall (envs k e)).
  rewrite run_bind. unfold unusable_frame in Hun. cbv zeta in Hun.
  destruct (Z.eqb_spec (env_pgfault_upcall (envs k e)) 0) as [Eu|Eu]; cbn [negb].
  - rewrite run_ret, run_bind, run_bind, run_gets, (ik_cur _ Hk2), run_ret.
    rewrite run_bind. unfold get_env. rewrite run_gets, run_bind, load_env.
    change (env_tf (envs k2 e)) with (env_tf (envs k e)). rewrite Htf.
    destruct (print_then_destroy
      (cprintf "[%08x] user fault va %08x ip %08x\n" [env_id (envs k2 e); rcr2; tf_eip tf] ;;
       print_trapframe cpunum rcr2 tf true) k2 Hk2) as (x & k' & E & Hg); [auto with prints|].
    exists x, k'. split; [|exact Hg]. rewrite bind_assoc in E. exact E.
  - destruct Hun as [?|Hfb]; [done|].
    change (sizeof_UTrapframe + 4) with 56. fold (frame_at tf).
    assert (0 ≤ frame_at tf ∧ frame_at tf + 56 ≤ UTOP) as Hfr.
    { unfold frame_at. change UXSTACKTOP with 0xEEC00000. change UTOP with 0xEEC00000.
      change PGSIZE with 4096. destruct (Z.ltb_spec (0xEEC00000 - 4096) (tf_esp tf)),
        (Z.ltb_spec (tf_esp tf) 0xEEC00000); cbn [andb]; lia. }
    rewrite (u32_small (frame_at tf)) by (change UTOP with 0xEEC00000 in Hfr; lia).
    unfold user_mem_assert. rewrite run_bind, run_bind.
    unfold user_mem_check, get_env. rewrite run_bind, run_gets.
    pose proof (user_mem_check_loop_run base kp (e :: live) fe l k2 (ik_inv _ Hk2) e (frame_at tf)
      (Z.lor (Z.lor PTE_U PTE_W) PTE_U)
      (pages_between (ROUNDDOWN (frame_at tf) PGSIZE) (ROUNDUP (u32 (frame_at tf + 56)) PGSIZE))
      ltac:(left) ltac:(vm_compute; done)) as HR.
    change (Z.lor (Z.lor PTE_U PTE_W) PTE_U) with (Z.lor PTE_U PTE_W) in *.
    change (dirof k2 e) with (dirof k e) in HR. change (phys (k_mm k2)) with (phys (k_mm k)) in HR.
    destruct (first_bad _ _ _ _ _) as [b|]; [|done].
    destruct HR as [v ->].
    { intros a Ha%check_starts; change UTOP with 0xEEC00000 in *; lia. }
    cbv beta iota. change (- E_FAULT <? 0) with true. cbv beta iota. rewrite run_bind, run_gets.
    rewrite run_bind, liftM_gets.
    set (k3 := log_ev v (set_mm (set_check_addr b (k_mm k2)) k2)).
    assert (in_kernel k3) as Hk3.
    { destruct Hk2 as [H Hok Hlk Hc Ho]. split; [|exact Hok|exact Hlk|exact Hc|exact Ho].
      by apply ke_log, ke_check_addr. }
    destruct (print_then_destroy
      (cprintf "[%08x] user_mem_check assertion failure for va %08x\n" [env_id (envs k3 e); b])
      k3 Hk3 ltac:(auto with prints)) as (x & k' & E & Hg).
    exists x, k'. split; [|exact Hg]. change (envs k2) with (envs k3).
    change (user_mem_check_addr (k_mm k3)) with b. by rewrite E.
Qed.
End ends.

(** C22: a trap that ends the environment it interrupts, where no other CPU has it
    current ([runs_only_here]): the environment is a zombie ([ENV_DYING], killed from
    another CPU), or faulted with no upcall or no room for the exception frame, or
    raised a vector that the dispatcher does not know.  Its memory is freed and its
    slot is free ([gone]); the CPU then runs another live environment, in that one's
    address space; or waits for an interrupt; or, exactly when no environment is left
    that could ever run, enters the monitor.  It does not spin or panic. *)
Theorem trap_ends_environment cpunum cons_getc rcr2 eflags base kp live fe l e tf k :
  kernel_inv base kp (e :: live) fe l k → cpus_ok (e :: live) k → user_trap cpunum eflags e tf k →
  runs_only_here cpunum e k → 0 ≤ tf_esp tf < 4294967296 →
  env_status (envs k e) = ENV_DYING ∨
  (tf_trapno tf = T_PGFLT ∧ unusable_frame e tf k) ∨ unexpected (tf_trapno tf) →
  ∃ x k', trap cpunum cons_getc rcr2 eflags false tf k = (Stop x, k') ∧
    gone cpunum base kp live fe e x k'.
Proof.
  intros H Hok Hut Ho Hesp Hcase. rewrite (trap_enter_run _ _ _ _ _ _ _ Hut).
  pose proof (ut_cur _ _ _ _ _ Hut) as Hc.
  set (k0 := set_lock (mkLock true (Some cpunum))
    (set_cpus (<[cpunum := mkCpu CPU_STARTED (Some e) (cpu_cr3 (cpus k cpunum))]> (cpus k)) k)).
  assert (runs_only_here cpunum e (entered cpunum e tf k)) as Ho1.
  { intros c Hne. unfold entered. simpl. rewrite upd_other by done. by apply Ho. }
  destruct (Z.eqb_spec (env_status (envs k e)) ENV_DYING) as [Ed|Ed].
  - apply (reap_run cpunum base kp e live fe l k0).
    + by apply ke_set_lock, ke_set_cpus.
    + exact (entered_cpus cpunum (e :: live) e tf k Hok Hc).
    + reflexivity.
    + exact Ho1.
  - destruct Hcase as [?|Hcase]; [done|].
    set (k1 := entered cpunum e tf k).
    assert (in_kernel cpunum base kp live fe l e k1) as Hk1.
    { split; [apply entered_inv; [exact H|left]|by apply entered_cpus|reflexivity|apply entered_cur|exact Ho1]. }
    assert (env_tf (envs k1 e) = tf) as Etf by apply entered_tf.
    unfold trap_dispatch. rewrite run_bind, run_bind, load_env. cbv beta iota. rewrite Etf.
    destruct Hcase as [[Ht Hun]|(H1 & H2 & H3 & H4)].
    + rewrite Ht. change (T_PGFLT =? T_PGFLT) with true. cbv beta iota.
      destruct (page_fault_gone cpunum rcr2 base kp live fe l e k1 tf Hk1 Etf (ut_user _ _ _ _ _ Hut) Hesp)
        as (x & k' & E & Hg).
      * unfold unusable_frame, k1, entered in *. simpl. rewrite upd_same. simpl. unfold dirof in *.
        simpl. rewrite upd_same. exact Hun.
      * exists x, k'. by rewrite E.
    + destruct (Z.eqb_spec (tf_trapno tf) T_PGFLT); [done|].
      destruct (Z.eqb_spec (tf_trapno tf) T_BRKPT); [done|].
      destruct (Z.eqb_spec (tf_trapno tf) T_SYSCALL); [done|].
      destruct (Z.eqb_spec (tf_trapno tf) (IRQ_OFFSET + IRQ_TIMER)); [done|].
      rewrite run_bind. destruct (prints_trapframe cpunum rcr2 tf true k1) as [evs ->]. cbv beta iota.
      destruct (Z.eqb_spec (tf_cs tf) GD_KT) as [Eg|_].
      { pose proof (ut_user _ _ _ _ _ Hut) as Hu. rewrite Eg in Hu. discriminate Hu. }
      destruct (in_kernel_logged _ _ _ _ _ _ _ evs k1 Hk1) as [H' Hok' Hlk' Hc' Ho'].
      rewrite run_bind. unfold curenv', curenv. rewrite run_bind, run_gets, Hc', run_ret.
      destruct (env_destroy_self_run cpunum base kp e live fe l _ H' Hok' Hlk' Hc' Ho') as (x & k' & E & Hg).
      exists x, k'. by rewrite E.
Qed.

(** A timer interrupt in user mode. *)
Lemma trap_timer_run cpunum cons_getc rcr2 eflags base kp live fe l e tf k :
  kernel_inv base kp live fe l k → cpus_ok live k → user_trap cpunum eflags e tf k →
  env_status (envs k e) = ENV_RUNNING → tf_trapno tf = IRQ_OFFSET + IRQ_TIMER →
  ∃ x k' k2, trap cpunum cons_getc rcr2 eflags false tf k = (Stop x, k') ∧
    k_log k2 = LapicEoi :: Cprintf "Timer interrupt on irq 0\n" [] :: k_log k ∧
    env_tf (envs k2 e) = tf ∧ (∀ y, runnable k2 y = runnable k y) ∧ (∀ d, d ≠ cpunum → cpus k2 d = cpus k d) ∧
    kernel_inv base kp live fe l k' ∧ cpus_ok live k' ∧ yield_outcome cpunum kp live k2 x k' ∧
    (x = SUser e ↔ ∀ y, 0 ≤ y < NENV → runnable k y = false).
Proof.
  intros H Hok Hut Hs Ht. pose proof (ut_cur _ _ _ _ _ Hut) as Hc.
  pose proof (Hok _ _ Hc) as He.
  set (k1 := entered cpunum e tf k).
  set (k2 := log_ev LapicEoi (log_ev (Cprintf "Timer interrupt on irq 0\n" []) k1)).
  assert (kernel_inv base kp live fe l k2) as H2 by by apply ke_log, ke_log, entered_inv.
  assert (cpus_ok live k2) as Hok2 by exact (entered_cpus cpunum live e tf k Hok Hc).
  assert (cpu_env (cpus k2 cpunum) = Some e) as Hc2 by exact (entered_cur cpunum e tf k).
  assert (∀ y, runnable k2 y = runnable k y) as Hrun.
  { intros y. unfold runnable, k2, k1, entered. simpl. rewrite upd_case. by case_decide; subst. }
  destruct (sched_yield_run cpunum base kp live fe l k2 H2 Hok2 eq_refl) as (x & k' & E & H' & Hok' & Hout).
  exists x, k', k2. refine (conj _ (conj eq_refl (conj (entered_tf _ _ _ _) (conj Hrun (conj _ (conj H' (conj Hok' (conj Hout _)))))))).
  - rewrite (trap_enter_run _ _ _ _ _ _ _ Hut), Hs. change (ENV_RUNNING =? ENV_DYING) with false.
    cbv beta iota. fold k1. assert (env_tf (envs k1 e) = tf) as Etf by apply entered_tf.
    unfold trap_dispatch. rewrite run_bind, run_bind, load_env. cbv beta iota. rewrite Etf, Ht.
    change (IRQ_OFFSET + IRQ_TIMER =? T_PGFLT) with false. change (IRQ_OFFSET + IRQ_TIMER =? T_BRKPT) with false.
    change (IRQ_OFFSET + IRQ_TIMER =? T_SYSCALL) with false.
    change (IRQ_OFFSET + IRQ_TIMER =? IRQ_OFFSET + IRQ_TIMER) with true. cbv beta iota.
    rewrite run_bind. unfold cprintf. rewrite run_modify, run_bind, run_modify. fold k2. by rewrite E.
  - intros d Hd. unfold k2, k1, entered. cbn. by rewrite upd_other by (exact (not_eq_sym Hd)).
  - unfold yield_outcome in Hout. cbv zeta in Hout. rewrite Hc2 in Hout.
    pose proof (sched_pick_spec k2 (sched_begin k2 (Some e))) as Hp.
    destruct (sched_pick k2 (sched_begin k2 (Some e))) as [y|].
    + destruct Hout as [-> _]. destruct Hp as (Hy & Hr & _). rewrite Hrun in Hr. split.
      * intros [= ->]. unfold runnable in Hr. rewrite Hs in Hr. discriminate Hr.
      * intros Hn. rewrite (Hn y Hy) in Hr. discriminate Hr.
    + cbn [still_running] in Hout.
      assert (env_status (envs k2 e) = ENV_RUNNING) as Es.
      { unfold k2, k1, entered. simpl. by rewrite upd_same. }
      rewrite Es in Hout. change (ENV_RUNNING =? ENV_RUNNING) with true in Hout. destruct Hout as [-> _].
      split; [|done]. intros _ y Hy. rewrite <- Hrun. by apply Hp.
Qed.

(** C23: the timer interrupt of a running environment: the interrupt is
    acknowledged, the environment's frame is saved, and the CPU reschedules
    round robin ([yield_outcome]), so that the environment loses its turn if
    and only if another one is runnable. *)
Theorem trap_timer_yields cpunum cons_getc rcr2 eflags base kp live fe l e tf k :
  kernel_inv base kp live fe l k → cpus_ok live k → user_trap cpunum eflags e tf k →
  env_status (envs k e) = ENV_RUNNING → tf_trapno tf = IRQ_OFFSET + IRQ_TIMER →
  ∃ x k' k2, trap cpunum cons_getc rcr2 eflags false tf k = (Stop x, k') ∧
    k_log k2 = LapicEoi :: Cprintf "Timer interrupt on irq 0\n" [] :: k_log k ∧
    env_tf (envs k2 e) = tf ∧ (∀ y, runnable k2 y = runnable k y) ∧ (∀ d, d ≠ cpunum → cpus k2 d = cpus k d) ∧
    kernel_inv base kp live fe l k' ∧ cpus_ok live k' ∧ yield_outcome cpunum kp live k2 x k' ∧
    (x = SUser e ↔ ∀ y, 0 ≤ y < NENV → runnable k y = false).
Proof. exact (trap_timer_run cpunum cons_getc rcr2 eflags base kp live fe l e tf k). Qed.

(** ** Witnesses: environment 0 of [demo_k] traps *)
Definition demo_user : kst := set_lock (mkLock false None) demo_k.
Definition demo_frame (n : Z) : Trapframe :=
  mkTf regs0 (Z.lor GD_UD 3) (Z.lor GD_UD 3) n 4 0x800020 (Z.lor GD_UT 3) FL_IF 0xEEBFDFF0 (Z.lor GD_UD 3).

Lemma demo_user_trap n : user_trap 0 0 0 (demo_frame n) demo_user.
Proof. split; [reflexivity|discriminate|reflexivity..]. Qed.
Lemma demo_user_inv : kernel_inv demo_base 1 [0] (zrange 1 1023) [3; 5; 6] demo_user.
Proof. apply ke_set_lock. exact demo_k_inv. Qed.

Lemma trap_timer_yields_witness : ∃ x k',
  kernel_inv demo_base 1 [0] (zrange 1 1023) [3; 5; 6] demo_user ∧
  trap 0 (mret 0) 0 0 false (demo_frame 32) demo_user = (Stop x, k').
Proof.
  destruct (trap_timer_yields 0 (mret 0) 0 0 demo_base 1 [0] (zrange 1 1023) [3; 5; 6] 0 (demo_frame 32)
    demo_user demo_user_inv demo_cpus (demo_user_trap 32) eq_refl eq_refl) as (x & k' & k2 & E & _).
  exact (ex_intro _ x (ex_intro _ k' (conj demo_user_inv E))).
Defined.

(** A page fault at 0 of an environment without upcall. *)
Lemma trap_ends_environment_witness : ∃ x k',
  trap 0 (mret 0) 0 0 false (demo_frame 14) demo_user = (Stop x, k') ∧
  gone 0 demo_base 1 [] (zrange 1 1023) 0 x k'.
Proof.
  apply (trap_ends_environment 0 (mret 0) 0 0 demo_base 1 [] (zrange 1 1023) [3; 5; 6] 0 (demo_frame 14)
    demo_user demo_user_inv demo_cpus (demo_user_trap 14) demo_alone).
  - vm_compute. split; [discriminate|reflexivity].
  - right. left. split; [reflexivity|]. left. reflexivity.
Defined.

Lemma trap_syscall_returns_witness : ∃ k',
  trap 0 (mret 0) 0 0 false (tf_set_eax SYS_getenvid (demo_frame 48)) demo_user = (Stop (SUser 0), k') ∧
  reg_eax (tf_regs (env_tf (envs k' 0))) = 4096.
Proof.
  destruct (trap_syscall_returns 0 (mret 0) 0 0 demo_base 1 [0] (zrange 1 1023) [3; 5; 6] [3; 5; 6] 0
    (tf_set_eax SYS_getenvid (demo_frame 48)) demo_user
    (entered 0 0 (tf_set_eax SYS_getenvid (demo_frame 48)) demo_user) 4096
    demo_user_inv) as (k' & E & _ & _ & Er & _).
  - split; [reflexivity|discriminate|reflexivity..].
  - discriminate.
  - reflexivity.
  - reflexivity.
  - apply entered_inv; [exact demo_user_inv|left].
  - left.
  - reflexivity.
  - reflexivity.
  - reflexivity.
  - exact (ex_intro _ k' (conj E Er)).
Defined.

(** Environment 0 with its exception stack in page 4 and an upcall. *)
Lemma demo_upcall : ∃ k l, kernel_inv demo_base 1 [0] (zrange 1 1023) l k ∧ cpus_ok [0] k ∧
  user_trap 0 0 0 (demo_frame 14) k ∧ env_status (envs k 0) ≠ ENV_DYING ∧
  cpu_cr3 (cpus k 0) = dirof k 0 * 4096 ∧ env_pgfault_upcall (envs k 0) = 0x800100 ∧
  lookup_pte (phys (k_mm k)) (dirof k 0) (UXSTACKTOP - 56) = Some (4 * 4096 + 7).
Proof.
  destruct (demo_mapped_at (UXSTACKTOP - 56) eq_refl) as (s & l & H & G & Hl & _).
  exists (set_mm s (upd_env 0 (λ v, with_upcall v 0x800100) demo_user)), l.
  refine (conj _ (conj demo_cpus (conj _ (conj _ (conj eq_refl (conj eq_refl Hl)))))).
  - eapply ke_set_mm; [|exact G|exact H].
    apply ke_upd_env; [exact demo_user_inv|left|cbn; unfold ENV_DYING, ENV_RUNNING, ENV_NOT_RUNNABLE; lia|reflexivity|reflexivity].
  - split; [reflexivity|discriminate|reflexivity..].
  - discriminate.
Qed.

(** It faults at 0x1234. *)
Lemma trap_page_fault_upcall_witness : ∃ k k',
  trap 0 (mret 0) 0x1234 0 false (demo_frame 14) k = (Stop (SUser 0), k') ∧
  tf_eip (env_tf (envs k' 0)) = 0x800100 ∧ tf_esp (env_tf (envs k' 0)) = UXSTACKTOP - 56 ∧
  load32 (phys (k_mm k')) (4 * 4096 + 4040) = 0x1234.
Proof.
  destruct demo_upcall as (k & l & H & Hok & Hut & Hs & Hcr3 & Hup & Hl). exists k.
  destruct (trap_page_fault_upcall 0 (mret 0) 0x1234 0 demo_base 1 [0] (zrange 1 1023) l 0 (demo_frame 14) k
    (4 * 4096 + 7) H Hok Hut Hs eq_refl Hcr3 ltac:(rewrite Hup; discriminate)
    ltac:(vm_compute; split; [discriminate|reflexivity]) ltac:(vm_compute; discriminate) Hl eq_refl)
    as (k' & E & _ & Etf & Em & _).
  exists k'. rewrite Etf. refine (conj E (conj Hup (conj eq_refl _))).
  exact (Em 0%nat ltac:(lia)).
Defined.
