(* ===== verification/SysSpec.v ===== *)
(** * Contracts of the system calls

    Each handler, called by the current environment [c] under the kernel
    invariant: its result on every branch, its effect, and the invariant. *)
From S2P Require Import Prelude Monad Word Layout Mem CString PageAlloc PageTable PageInv PageOps PageDirs KState Env EnvMem KInv EnvSpec Sched SchedSpec Syscall.

(** ** Arguments *)

Lemma bad_va_false va : 0 ≤ va < 4294967296 → bad_va va = false → PDX va < UPDX ∧ va mod 4096 = 0 ∧ va < UTOP.
Proof.
  intros Hva Hb. unfold bad_va in Hb. zbool. rewrite PGOFF_mod, u32_small in * by lia.
  unfold UPDX. rewrite PDX_div, u32_small by lia.
  change UTOP with 0xEEC00000 in *. lia.
Qed.

Lemma land_ldiff_0 a b : Z.land a (Z.lnot b) = 0 → Z.land a b = a.
Proof.
  rewrite <- Z.ldiff_land. intros H. apply Z.bits_inj'. intros n Hn.
  assert (Z.testbit (Z.ldiff a b) n = false) as Ht by (rewrite H; apply Z.bits_0).
  rewrite Z.ldiff_spec in Ht. rewrite Z.land_spec.
  destruct (Z.testbit a n), (Z.testbit b n); done.
Qed.

(** An accepted [perm] is twelve bits wide and contains [PTE_P] and [PTE_U]. *)
Lemma bad_perm_false perm : bad_perm perm = false →
  0 ≤ perm < 4096 ∧ Z.lor perm PTE_P = perm ∧ flag perm PTE_U = true ∧ Z.land perm PTE_SYSCALL = perm.
Proof.
  unfold bad_perm, flag. change (Z.lnot PTE_SYSCALL) with (Z.lnot 0xE07). change PTE_SYSCALL with 0xE07.
  intros Hb. apply orb_false_iff in Hb as [[Hu Hp]%orb_false_iff Hs].
  rewrite negb_false_iff in Hs. apply Z.eqb_eq in Hs. apply land_ldiff_0 in Hs.
  assert (0 ≤ perm < 4096) as Hr.
  { rewrite <- Hs, Z.land_comm. destruct (Z.le_gt_cases 0 perm) as [Hpos|Hneg].
    - apply (land_small_bound _ _ 12); lia.
    - split; [apply Z.land_nonneg; lia|].
      assert (Z.land 0xE07 perm = Z.land (Z.land 0xE07 perm) (Z.ones 12)) as ->.
      { by rewrite <- Z.land_assoc, (Z.land_comm perm), Z.land_assoc. }
      rewrite Z.land_ones by lia. apply Z.mod_pos_bound. lia. }
  splits; try lia; try done.
  - apply Z.eqb_neq in Hp. change PTE_P with 1 in *. rewrite land_1 in Hp.
    assert (perm = (perm / 2) * 2 ^ 1 + 1) as E by lia.
    rewrite E, <- (lor_shifted_add (perm / 2) 1 1) by lia.
    rewrite <- Z.lor_assoc. done.
Qed.

Section sys.
Context (cpunum : Z) (base : Z → Z) (kp : Z) (live fe l : list Z) (k : kst) (c : Z).
Context (H : kernel_inv base kp live fe l k) (Hc : cpu_env (cpus k cpunum) = Some c) (Hcl : c ∈ live).

(** The environment a handler works on. *)
Definition target (envid : Z) : option Z :=
  if decide (envid = 0) then Some c
  else if decide (may_name k c envid true) then Some (ENVX envid) else None.

Lemma with_env_run envid f :
  with_env cpunum envid f k =
    match target envid with Some e => f e k | None => (Ret (- E_BAD_ENV), k) end.
Proof using Hc.
  unfold with_env. rewrite run_bind, (envid2env_run cpunum k c envid true Hc). unfold target.
  case_decide; [done|]. by case_decide.
Qed.

Lemma target_live envid e : target envid = Some e → e ∈ live.
Proof using H Hcl.
  unfold target. case_decide; [by intros [= <-]|]. case_decide as Hm; [|done].
  intros [= <-]. destruct Hm as (Hs & _). apply (ke_live_iff _ _ _ _ _ _ H); [apply ENVX_range|done].
Qed.

Lemma live_pgdir e : e ∈ live →
  env_pgdir (envs k e) = kva (dirof k e) ∧ dirof k e ∈ dirof k <$> live.
Proof using H. intros He. split; [by apply (ke_pgdir _ _ _ _ _ _ H)|by apply ke_dir]. Qed.

(** Mapping [pp] into a live environment, with the kernel invariant. *)
Lemma sys_insert e pp va perm k1 l1 :
  kernel_inv base kp live fe l1 k1 → (∀ x, envs k1 x = envs k x) →
  e ∈ live → PDX va < UPDX → 0 ≤ pp < npages (k_mm k1) → pp ∉ l1 →
  pp ∉ (dirof k <$> live) ++ tables (phys (k_mm k1)) (dirof k <$> live) →
  pp_ref (pages (k_mm k1) pp) < 65535 → 0 ≤ perm < 4096 →
  let d := dirof k e in
  let m := phys (k_mm k1) in
  (l1 = [] ∧ lookup_pte m d va = None ∧
   liftP cpunum (λ cur, page_insert cur (env_pgdir (envs k e)) pp va perm) k1 = (Ret (- E_NO_MEM), k1)) ∨
  ∃ s' l', liftP cpunum (λ cur, page_insert cur (env_pgdir (envs k e)) pp va perm) k1 = (Ret 0, set_mm s' k1) ∧
    kernel_inv base kp live fe l' (set_mm s' k1) ∧
    lookup_pte (phys s') d va = Some (pp * 4096 + Z.lor perm PTE_P) ∧
    pt_frame (dirof k <$> live) l1 d va (k_mm k1) s' ∧
    pt_cost (dirof k <$> live) l1 d va pp (k_mm k1) l' s'.
Proof using H.
  intros H1 Henv He Hva Hp Hl Hd Hr Hperm d m.
  destruct (live_pgdir e He) as [Epd Hdd]. fold d in Epd, Hdd. rewrite Epd.
  assert (dirof k1 <$> live = dirof k <$> live) as Ed.
  { apply list_fmap_ext. intros ? x _. unfold dirof. by rewrite Henv. }
  pose proof (ke_mm _ _ _ _ _ _ H1) as Hm. rewrite Ed in Hm.
  destruct (page_insert_run (cur_pgdir cpunum k1) base (dirof k <$> live) (k_mm k1) l1 d va pp perm
              Hm Hdd Hva Hp Hl Hd Hr Hperm)
    as [(El & Hn & E)|(s' & l' & E & H' & Hlook & F & _ & _ & C)].
  - left. split; [done|]. split; [exact Hn|].
    rewrite (liftP_run _ _ _ (Ret (- E_NO_MEM)) (k_mm k1)) by exact E. by rewrite set_mm_id.
  - right. exists s', l'. splits; [by apply liftP_run| |exact Hlook|exact F|exact C].
    eapply ke_set_mm; [exact H1|apply F|by rewrite Ed].
Qed.

End sys.

(** ** sys_page_alloc *)

Section pages.
Context (cpunum : Z) (base : Z → Z) (kp : Z) (live fe : list Z).

(** The address [va] of [e] maps [new] now; nothing else of the kernel's state
    changed but memory-manager bookkeeping. *)
Record remapped (l : list Z) (e va : Z) (new : option Z) (k : kst) (l' : list Z) (k' : kst) : Prop := {
  rm_inv : kernel_inv base kp live fe l' k';
  rm_rest : k' = set_mm (k_mm k') k;
  rm_new : lookup_pte (phys (k_mm k')) (dirof k e) va = new;
  rm_frame : pt_frame (dirof k <$> live) l (dirof k e) va (k_mm k) (k_mm k');
}.

Lemma rm_envs l e va new k l' k' : remapped l e va new k l' k' → envs k' = envs k.
Proof. intros [_ -> _ _]. reflexivity. Qed.

(** The first free page is taken, cleared or not, then the tables change. *)
Lemma pt_frame_alloc z dirs d va s p l0 s' :
  kinv base dirs s (p :: l0) → pt_frame dirs l0 d va (alloc_state z p s) s' →
  pt_frame dirs (p :: l0) d va s s'.
Proof.
  intros Hm [Fl Fd Fk Fg].
  destruct (kinv_alloc z base dirs s p l0 Hm) as (_ & _ & _ & _ & _ & Hnr & HT & Hlook).
  pose proof (not_in_refs _ _ _ Hnr) as Hpd. split.
  - intros d' va' Hd' Hva' Hne. rewrite Fl by assumption. by apply Hlook.
  - intros a Ha Hd. apply not_elem_of_cons in Ha as [Hap Hal].
    rewrite Fd by (rewrite ?HT; assumption). by apply alloc_state_data.
  - intros d' i Hd' Hi. rewrite Fk by assumption. unfold UPDX in Hi.
    apply load32_bytes_eq. intros j Hj. apply alloc_state_data. unfold slot.
    intros E. apply Hpd, elem_of_app. left. replace p with d' by (clear - E Hi Hj; lia). exact Hd'.
  - destruct (alloc_state_globals z p s) as [G _]. by transitivity (alloc_state z p s).
Qed.

Lemma pt_cost_alloc dirs d va s p l0 l' s' :
  kinv base dirs s (p :: l0) → d ∈ dirs → PDX va < UPDX →
  pt_cost dirs l0 d va p (alloc_state true p s) l' s' → pt_cost dirs l0 d va p s l' s'.
Proof.
  intros Hm Hd Hva [Ck Cl Cr].
  destruct (kinv_alloc true base dirs s p l0 Hm) as (_ & _ & _ & _ & _ & Hnr & _ & Hlook).
  pose proof (not_in_refs _ _ _ Hnr) as Hpd.
  assert (∀ d' i, d' ∈ dirs → 0 ≤ i < UPDX →
    tgt (phys (alloc_state true p s)) (slot d' i) = tgt (phys s) (slot d' i)) as Et.
  { intros d' i Hd' Hi. unfold UPDX in Hi. simpl. rewrite tgt_zero by lia.
    rewrite decide_False; [done|]. intros ->. apply Hpd, elem_of_app. by left. }
  split.
  - intros d' i t Hd' Hi Ht. apply Ck; [exact Hd'|exact Hi|]. by rewrite Et.
  - unfold needs in *. rewrite Et in Cl; [exact Cl|exact Hd|]. pose proof (PDX_range va). lia.
  - intros q. specialize (Cr q). rewrite Hlook in Cr by assumption.
    rewrite alloc_state_pages, upd_case in Cr. revert Cr. case_decide; subst; exact id.
Qed.

Lemma sys_page_alloc_run l k c envid va perm :
  kernel_inv base kp live fe l k → cpu_env (cpus k cpunum) = Some c → c ∈ live →
  0 ≤ va < 4294967296 →
  match target k c envid with
  | None => sys_page_alloc cpunum envid va perm k = (Ret (- E_BAD_ENV), k)
  | Some e =>
      let d := dirof k e in
      if bad_va va || bad_perm perm then sys_page_alloc cpunum envid va perm k = (Ret (- E_INVAL), k)
      else
        match l with
        | [] => sys_page_alloc cpunum envid va perm k = (Ret (- E_INVAL), k)
        | p :: l0 =>
            (l0 = [] ∧ lookup_pte (phys (k_mm k)) d va = None ∧
             ∃ k', sys_page_alloc cpunum envid va perm k = (Ret (- E_NO_MEM), k') ∧
               kernel_inv base kp live fe [p] k' ∧ k' = set_mm (k_mm k') k ∧
               (∀ d' va', d' ∈ dirof k <$> live → PDX va' < UPDX →
                  lookup_pte (phys (k_mm k')) d' va' = lookup_pte (phys (k_mm k)) d' va')) ∨
            ∃ k' l', sys_page_alloc cpunum envid va perm k = (Ret 0, k') ∧
              remapped l e va (Some (p * 4096 + perm)) k l' k' ∧
              (∀ a, a / 4096 = p → load8 (phys (k_mm k')) a = 0) ∧
              pt_cost (dirof k <$> live) l0 d va p (k_mm k) l' (k_mm k')
        end
  end.
Proof.
  intros H Hc Hcl Hva. pose proof (with_env_run cpunum k c Hc envid) as Hw.
  pose proof (target_live _ _ _ _ _ _ c H Hcl envid) as Htl.
  unfold sys_page_alloc. rewrite Hw. destruct (target k c envid) as [e|]; [|reflexivity].
  specialize (Htl e eq_refl). cbv zeta.
  destruct (bad_va va) eqn:Ebv; [reflexivity|]. destruct (bad_perm perm) eqn:Ebp; [reflexivity|].
  destruct (bad_va_false va Hva Ebv) as (Hpdx & Hal & Hlt).
  destruct (bad_perm_false perm Ebp) as (Hperm & Hlor & _). cbn [orb].
  pose proof (ke_mm _ _ _ _ _ _ H) as Hm.
  destruct l as [|p l0].
  - rewrite run_bind, (liftM_run _ _ (Ret None) (k_mm k)); [by rewrite set_mm_id|].
    apply page_alloc_nil, (ki_alloc _ _ _ _ Hm).
  - destruct (kinv_alloc true base _ (k_mm k) p l0 Hm) as (Hm1 & Hpl & Hp & Hr0 & _ & Hnr & HT & Hlook).
    pose proof (page_alloc_run ALLOC_ZERO (k_mm k) p l0 (ki_alloc _ _ _ _ Hm)) as Ea.
    change (flag ALLOC_ZERO ALLOC_ZERO) with true in Ea.
    pose proof (alloc_state_globals true p (k_mm k)) as [Eg _].
    assert (∀ a, a / 4096 = p → load8 (phys (alloc_state true p (k_mm k))) a = 0) as Hz.
    { intros a Ha. simpl. unfold zero_page. rewrite load8_fill. by rewrite decide_True by lia. }
    set (s1 := alloc_state true p (k_mm k)) in *.
    assert (kernel_inv base kp live fe l0 (set_mm s1 k)) as H1 by (by eapply ke_set_mm).
    rewrite run_bind, (liftM_run _ _ (Ret (Some p)) s1) by exact Ea.
    rewrite run_bind. unfold get_env. rewrite run_gets. change (envs (set_mm s1 k)) with (envs k).
    assert (p ∉ (dirof k <$> live) ++ tables (phys s1) (dirof k <$> live)) as Hpd.
    { rewrite HT. by apply not_in_refs. }
    destruct (sys_insert cpunum base kp live fe (p :: l0) k H e p va perm (set_mm s1 k) l0 H1 (λ _, eq_refl) Htl Hpdx) 
      as [(El & Hn & E)|(s' & l' & E & H' & Hl' & F & C)].
    + destruct Eg as [En _]. change (k_mm (set_mm s1 k)) with s1. lia.
    + exact Hpl.
    + exact Hpd.
    + change (k_mm (set_mm s1 k)) with s1. lia.
    + exact Hperm.
    + left. split; [exact El|]. split.
      { rewrite <- Hn. symmetry. apply Hlook; [|exact Hpdx]. by apply ke_dir. }
      rewrite run_bind, E. change (- E_NO_MEM <? 0) with true. cbn match.
      pose proof (ai_used _ _ (ki_alloc _ _ _ _ Hm1) p) as Hlk.
      assert (pp_link (pages s1 p) = None) as Hlk' by (apply Hlk; [destruct Eg as [En _]; lia|exact Hpl]).
      eexists. splits.
      * rewrite run_bind, (liftM_run _ _ (Ret tt) _) by (by apply page_free_run). reflexivity.
      * eapply ke_set_mm; [exact H1|by repeat split|].
        rewrite El in *. apply (kinv_free base _ s1 [] p); [exact Hm1|destruct Eg as [En _]; lia|exact Hpl|exact Hr0].
      * reflexivity.
      * exact Hlook.
    + right. eexists _, l'. splits.
      * rewrite run_bind, E. reflexivity.
      * split; [exact H'|reflexivity| |exact (pt_frame_alloc _ _ _ _ _ _ _ _ Hm F)].
        rewrite Hlor in Hl'. exact Hl'.
      * intros a Ha. change (k_mm (set_mm s' (set_mm s1 k))) with s'.
        rewrite (pf_data _ _ _ _ _ _ F); rewrite ?Ha; [by apply Hz|exact Hpl|exact Hpd].
      * apply (pt_cost_alloc _ _ _ _ _ _ _ _ Hm); [by apply ke_dir|exact Hpdx|exact C].
Qed.

Lemma page_lookup_lift e va k l r :
  kernel_inv base kp live fe l k → e ∈ live → PDX va < UPDX →
  page_lookup (kva (dirof k e)) va (k_mm k) = (r, k_mm k) →
  liftM (page_lookup (env_pgdir (envs k e)) va) k = (r, k).
Proof.
  intros H He Hva E. rewrite (ke_pgdir _ _ _ _ _ _ H e He).
  rewrite (liftM_run _ _ r (k_mm k)) by exact E. by rewrite set_mm_id.
Qed.

(** A mapped page is in use, and not part of the page tables. *)
Lemma mapped_page l k e va pte :
  kernel_inv base kp live fe l k → e ∈ live → PDX va < UPDX →
  lookup_pte (phys (k_mm k)) (dirof k e) va = Some pte →
  0 ≤ pte / 4096 < npages (k_mm k) ∧ (pte / 4096 ∉ l) ∧
  (pte / 4096 ∉ (dirof k <$> live) ++ tables (phys (k_mm k)) (dirof k <$> live)).
Proof.
  intros H He Hva Hl. pose proof (ke_mm _ _ _ _ _ _ H) as Hm.
  pose proof (lookup_leaf _ (dirof k <$> live) _ _ _ (ke_dir _ _ _ He) Hva Hl) as Hp.
  splits; try (apply (ki_leaf _ _ _ _ _ Hm Hp)).
  - intros Hin. destruct (ki_free _ _ _ _ _ Hm Hin) as [_ Hn]. apply Hn.
    unfold refs. rewrite !elem_of_app. auto.
  - by apply (ki_priv _ _ _ _ Hm).
Qed.

(** ** sys_page_map *)

(** The insertion that ends [sys_page_map]. *)
Lemma insert_case l k ed pp dstva perm :
  kernel_inv base kp live fe l k → ed ∈ live → PDX dstva < UPDX →
  0 ≤ pp < npages (k_mm k) → pp ∉ l →
  pp ∉ (dirof k <$> live) ++ tables (phys (k_mm k)) (dirof k <$> live) →
  pp_ref (pages (k_mm k) pp) < 65535 → 0 ≤ perm < 4096 → Z.lor perm PTE_P = perm →
  let R := (denv ← get_env ed;
            r ← liftP cpunum (λ cur, page_insert cur (env_pgdir denv) pp dstva perm);
            if r <? 0 then mret (- E_INVAL) else mret 0) k in
  (l = [] ∧ lookup_pte (phys (k_mm k)) (dirof k ed) dstva = None ∧ R = (Ret (- E_INVAL), k)) ∨
  ∃ k' l', R = (Ret 0, k') ∧ remapped l ed dstva (Some (pp * 4096 + perm)) k l' k' ∧
    pt_cost (dirof k <$> live) l (dirof k ed) dstva pp (k_mm k) l' (k_mm k').
Proof.
  intros H Hed Hdp Hp Hl Hd Hr Hperm Hlor R. unfold R. rewrite run_bind. unfold get_env. rewrite run_gets.
  destruct (sys_insert cpunum base kp live fe l k H ed pp dstva perm k l H (λ _, eq_refl) Hed Hdp Hp Hl Hd Hr Hperm)
    as [(El & Hn & E)|(s' & l' & E & H' & Hl' & F & C)]; rewrite run_bind, E.
  - left. splits; [exact El|exact Hn|reflexivity].
  - right. exists (set_mm s' k), l'. splits; [reflexivity| |exact C].
    split; [exact H'|reflexivity| |exact F]. rewrite Hlor in Hl'. exact Hl'.
Qed.

Lemma sys_page_map_run l k c srcenvid srcva dstenvid dstva perm :
  kernel_inv base kp live fe l k → cpu_env (cpus k cpunum) = Some c → c ∈ live →
  0 ≤ srcva < 4294967296 → 0 ≤ dstva < 4294967296 →
  (∀ p, 0 ≤ p < npages (k_mm k) → pp_ref (pages (k_mm k) p) < 65535) →
  let R := sys_page_map cpunum srcenvid srcva dstenvid dstva perm k in
  match target k c srcenvid, target k c dstenvid with
  | None, _ | Some _, None => R = (Ret (- E_BAD_ENV), k)
  | Some es, Some ed =>
      if bad_va srcva || bad_va dstva || bad_perm perm then R = (Ret (- E_INVAL), k)
      else
        match lookup_pte (phys (k_mm k)) (dirof k es) srcva with
        | None => R = (Ret (- E_INVAL), k)
        | Some pte =>
            if negb (flag pte PTE_W) && flag perm PTE_W then R = (Ret (- E_INVAL), k)
            else
              (l = [] ∧ lookup_pte (phys (k_mm k)) (dirof k ed) dstva = None ∧
               R = (Ret (- E_INVAL), k)) ∨
              ∃ k' l', R = (Ret 0, k') ∧
                remapped l ed dstva (Some (pte / 4096 * 4096 + perm)) k l' k' ∧
                pt_cost (dirof k <$> live) l (dirof k ed) dstva (pte / 4096) (k_mm k) l' (k_mm k')
        end
  end.
Proof.
  intros H Hc Hcl Hsva Hdva Href R.
  pose proof (target_live _ _ _ _ _ _ c H Hcl srcenvid) as Hts.
  pose proof (target_live _ _ _ _ _ _ c H Hcl dstenvid) as Htd.
  unfold R, sys_page_map. rewrite (with_env_run cpunum k c Hc). clear R.
  destruct (target k c srcenvid) as [es|]; [|reflexivity]. specialize (Hts es eq_refl).
  rewrite (with_env_run cpunum k c Hc).
  destruct (target k c dstenvid) as [ed|]; [|reflexivity]. specialize (Htd ed eq_refl).
  destruct (bad_va srcva) eqn:Es; [reflexivity|]. destruct (bad_va dstva) eqn:Ed; [reflexivity|].
  destruct (bad_perm perm) eqn:Ep; [reflexivity|]. cbn [orb].
  destruct (bad_va_false srcva Hsva Es) as (Hsp & _). destruct (bad_va_false dstva Hdva Ed) as (Hdp & _).
  destruct (bad_perm_false perm Ep) as (Hperm & Hlor & _).
  rewrite run_bind. unfold get_env. rewrite run_gets. rewrite run_bind.
  pose proof (ke_mm _ _ _ _ _ _ H) as Hm. pose proof (ke_dir live k es Hts) as Hds.
  destruct (lookup_pte (phys (k_mm k)) (dirof k es) srcva) as [pte|] eqn:El.
  - destruct (mapped_page l k es srcva pte H Hts Hsp El) as (Hpr & Hpl & Hpd).
    destruct (page_lookup_Some base _ _ l Hm (dirof k es) srcva pte Hds Hsp El) as (t & Hw & Hpte & _ & E).
    rewrite (page_lookup_lift es srcva k l _ H Hts Hsp E). cbv beta match.
    rewrite run_bind, (liftM_run _ _ (Ret pte) (k_mm k)) by (by rewrite kload_slot, Hpte).
    rewrite set_mm_id. unfold flag. rewrite !negb_involutive.
    destruct (Z.land pte PTE_W =? 0) eqn:Ew; cbn [andb negb].
    + destruct (Z.land perm PTE_W =? 0) eqn:Ew'; cbn [negb]; [|reflexivity].
      apply insert_case; auto.
    + apply insert_case; auto.
  - rewrite (page_lookup_lift es srcva k l (Ret None) H Hts Hsp); [reflexivity|].
    by apply (page_lookup_None base _ _ l Hm).
Qed.

(** ** sys_page_unmap *)

Lemma sys_page_unmap_run l k c envid va :
  kernel_inv base kp live fe l k → cpu_env (cpus k cpunum) = Some c → c ∈ live →
  0 ≤ va < 4294967296 →
  let R := sys_page_unmap cpunum envid va k in
  match target k c envid with
  | None => R = (Ret (- E_BAD_ENV), k)
  | Some e =>
      if bad_va va then R = (Ret (- E_INVAL), k)
      else
        ∃ k' l', R = (Ret 0, k') ∧ remapped l e va None k l' k' ∧
          (∀ p, p ∈ l' ↔ p ∈ l ∨ ∃ pte, lookup_pte (phys (k_mm k)) (dirof k e) va = Some pte ∧
               p = pte / 4096 ∧ pp_ref (pages (k_mm k) p) = 1) ∧
          (length l ≤ length l')%nat ∧ ∀ p, pp_ref (pages (k_mm k') p) ≤ pp_ref (pages (k_mm k) p)
  end.
Proof.
  intros H Hc Hcl Hva R. unfold R, sys_page_unmap. rewrite (with_env_run cpunum k c Hc). clear R.
  pose proof (target_live _ _ _ _ _ _ c H Hcl envid) as Ht.
  destruct (target k c envid) as [e|]; [|reflexivity]. specialize (Ht e eq_refl).
  destruct (bad_va va) eqn:Eb; [reflexivity|]. destruct (bad_va_false va Hva Eb) as (Hp & _).
  rewrite run_bind. unfold get_env. rewrite run_gets, (ke_pgdir _ _ _ _ _ _ H e Ht), run_bind.
  pose proof (ke_mm _ _ _ _ _ _ H) as Hm. pose proof (ke_dir live k e Ht) as Hd.
  pose proof (page_remove_run (cur_pgdir cpunum k) base _ (k_mm k) l (dirof k e) va Hm Hd Hp) as HR.
  destruct (lookup_pte (phys (k_mm k)) (dirof k e) va) as [pte|] eqn:El.
  - cbv zeta in HR. destruct HR as (s' & E & Hm' & Hn & F & Hr & Hoth & _).
    rewrite (liftP_run _ _ _ (Ret tt) s') by exact E. eexists (set_mm s' k), _.
    splits; [reflexivity| | | |].
    + split; [|reflexivity|exact Hn|exact F]. eapply ke_set_mm; [exact H|apply F|exact Hm'].
    + intros p. case_decide as Hr1.
      * rewrite elem_of_cons. split; [intros [->|?]; eauto|].
        intros [?|(pte' & [= <-] & -> & _)]; auto.
      * split; [auto|]. intros [?|(pte' & [= <-] & -> & ?)]; [done|done].
    + case_decide; cbn [length]; lia.
    + intros p. cbn [k_mm set_mm]. destruct (decide (p = pte / 4096)) as [->|Hp']; [lia|by rewrite Hoth].
  - rewrite (liftP_run _ _ _ (Ret tt) (k_mm k)) by exact HR. exists (set_mm (k_mm k) k), l.
    rewrite set_mm_id. splits; [reflexivity| | |done|done].
    { split; [exact H|by rewrite set_mm_id|exact El|by split]. }
    intros p. split; [auto|]. intros [?|(pte' & ? & _)]; done.
Qed.

(** ** sys_exofork *)

(** What the caller's side of [sys_exofork] looks like: directory page [p],
    empty but for the kernel's part, for the child [e]. *)
Record exoforked (p : Z) (k k' : kst) : Prop := {
  ex_cpus : cpus k' = cpus k;
  ex_lock : kernel_lock k' = kernel_lock k;
  ex_globals : same_globals (k_mm k) (k_mm k');
  ex_slots : ∀ i, 0 ≤ i < 1024 → load32 (phys (k_mm k')) (slot p i) = setup_pde (phys (k_mm k)) kp p i;
  ex_lookup : ∀ d va, d ∈ dirof k <$> live → PDX va < UPDX →
    lookup_pte (phys (k_mm k')) d va = lookup_pte (phys (k_mm k)) d va;
  ex_data : ∀ a, a / 4096 ≠ p → load8 (phys (k_mm k')) a = load8 (phys (k_mm k)) a;
  ex_refs : ∀ q, pp_ref (pages (k_mm k') q) ≤ Z.max 1 (pp_ref (pages (k_mm k) q));
}.

Lemma sys_exofork_run l k c :
  kernel_inv base kp live fe l k → cpu_env (cpus k cpunum) = Some c → c ∈ live →
  let R := sys_exofork cpunum k in
  match fe, l with
  | [], _ => R = (Ret (- E_NO_FREE_ENV), k)
  | _ :: _, [] => R = (Ret (- E_NO_MEM), k)
  | e :: fe', p :: l' =>
      ∃ k', R = (Ret (env_id (envs k' e)), k') ∧ kernel_inv base kp (e :: live) fe' l' k' ∧
        envs k' = <[e := with_tf (with_status (fresh_env (envs k e) e p (env_id (envs k c)))
                                              ENV_NOT_RUNNABLE)
                                 (tf_set_eax 0 (env_tf (envs k c)))]> (envs k) ∧
        exoforked p k k'
  end.
Proof.
  intros H Hc Hcl R. unfold R, sys_exofork. clear R.
  rewrite run_bind. unfold curenv'. rewrite run_bind. unfold curenv. rewrite run_gets, Hc, run_ret.
  rewrite run_bind. unfold get_env. rewrite run_gets, run_bind.
  destruct fe as [|e fe']; [|destruct l as [|p l']].
  - rewrite env_alloc_noenv by (by destruct H). reflexivity.
  - rewrite (env_alloc_nomem cpunum base kp _ live (e :: fe')) by done. reflexivity.
  - destruct (env_alloc_run cpunum base kp (env_id (envs k c)) live e fe' p l' k H)
      as (k1 & E & H1 & Ee & Ecp & Elk & G & Hs & Hlk & Hd & Hr). rewrite E.
    assert (e ≠ c) as Hec.
    { intros ->. apply (ke_disj _ _ _ _ _ _ H c Hcl). left. }
    change (0 <? 0) with false. cbn match. eexists. splits.
    + mrun. reflexivity.
    + apply ke_upd_env; [|left| |reflexivity|reflexivity].
      * apply ke_upd_env; [|left| |reflexivity|reflexivity].
        -- apply ke_upd_env; [exact H1|left| |reflexivity|reflexivity].
           cbn. unfold ENV_DYING, ENV_NOT_RUNNABLE. lia.
        -- cbn. rewrite upd_same. cbn. unfold ENV_DYING, ENV_NOT_RUNNABLE. lia.
      * cbn. rewrite !upd_same. cbn. unfold ENV_DYING, ENV_NOT_RUNNABLE. lia.
    + cbn [envs upd_env set_envs]. rewrite !upd_same, !upd_upd, Ee, upd_upd, !upd_same.
      rewrite !(upd_other _ e c) by done. reflexivity.
    + split; [exact Ecp|exact Elk|exact G|exact Hs|exact Hlk|exact Hd|exact Hr].
Qed.

Lemma exoforked_empty p k k' va : exoforked p k k' → PDX va < UPDX → lookup_pte (phys (k_mm k')) p va = None.
Proof using. clear base.
  intros X Hva. apply lookup_nowalk. unfold tgt. pose proof (PDX_range va).
  rewrite (ex_slots _ _ _ X) by lia. unfold setup_pde. by rewrite decide_True by done.
Qed.

(** ** sys_ipc_try_send *)

(** The receiver a sender may name. *)
Definition ipc_target (k : kst) (c envid : Z) : option Z :=
  if decide (envid = 0) then Some c
  else if decide (may_name k c envid false) then Some (ENVX envid) else None.

Lemma ipc_target_live l k c envid e :
  kernel_inv base kp live fe l k → c ∈ live → ipc_target k c envid = Some e → e ∈ live.
Proof.
  intros H Hcl. unfold ipc_target. case_decide; [by intros [= <-]|]. case_decide as Hm; [|done].
  intros [= <-]. destruct Hm as (Hs & _). apply (ke_live_iff _ _ _ _ _ _ H); [apply ENVX_range|done].
Qed.

(** What a successful send does to the receiver. *)
Definition delivered (v : Env) (value from perm : Z) : Env :=
  with_tf (with_status (with_ipc v false (env_ipc_dstva v) value from perm) ENV_RUNNABLE)
          (tf_set_eax 0 (env_tf v)).

(** The end of a successful send. *)
Definition ipc_finish (e value : Z) : K Z :=
  c ← curenv' cpunum;
  cenv ← get_env c;
  modify (upd_env e (λ v, with_ipc v false (env_ipc_dstva v) value (env_id cenv) (env_ipc_perm v))) ;;
  modify (upd_env e (λ v, with_status v ENV_RUNNABLE)) ;;
  modify (upd_env e (λ v, with_tf v (tf_set_eax 0 (env_tf v)))) ;;
  mret 0.

Lemma ipc_finish_run l k c e value :
  kernel_inv base kp live fe l k → cpu_env (cpus k cpunum) = Some c → e ∈ live →
  ∃ k', ipc_finish e value k = (Ret 0, k') ∧ kernel_inv base kp live fe l k' ∧
    envs k' = <[e := delivered (envs k e) value (env_id (envs k c)) (env_ipc_perm (envs k e))]> (envs k) ∧
    k_mm k' = k_mm k ∧ cpus k' = cpus k ∧ kernel_lock k' = kernel_lock k.
Proof.
  intros H Hc He. unfold ipc_finish. unfold curenv', curenv, get_env. mrun. rewrite Hc. mrun.
  eexists. splits; [reflexivity| | |reflexivity..].
  - apply ke_upd_env; [|exact He| |reflexivity|reflexivity].
    + apply ke_upd_env; [|exact He| |reflexivity|reflexivity].
      * apply ke_upd_env; [exact H|exact He| |reflexivity|reflexivity].
        cbn. apply (ke_status _ _ _ _ _ _ H e He).
      * cbn. unfold ENV_DYING, ENV_RUNNABLE, ENV_NOT_RUNNABLE. lia.
    + cbn. rewrite !upd_same. cbn. unfold ENV_DYING, ENV_RUNNABLE, ENV_NOT_RUNNABLE. lia.
  - cbn [envs upd_env set_envs]. by rewrite !upd_same, !upd_upd.
Qed.

Lemma ipc_refused l k c envid value srcva perm :
  kernel_inv base kp live fe l k → cpu_env (cpus k cpunum) = Some c →
  match ipc_target k c envid with
  | None => sys_ipc_try_send cpunum envid value srcva perm k = (Ret (- E_BAD_ENV), k)
  | Some e =>
      env_ipc_recving (envs k e) = false →
      sys_ipc_try_send cpunum envid value srcva perm k = (Ret (- E_IPC_NOT_RECV), k)
  end.
Proof.
  intros H Hc. unfold sys_ipc_try_send. rewrite run_bind, (envid2env_run cpunum k c envid false Hc).
  unfold ipc_target. case_decide; [|case_decide; [|reflexivity]]; cbn match;
    change (0 <? 0) with false; cbn match; intros Hr; rewrite run_bind; unfold get_env;
    rewrite run_gets, Hr; reflexivity.
Qed.

Lemma ipc_send_run k c envid value srcva perm e :
  cpu_env (cpus k cpunum) = Some c → ipc_target k c envid = Some e →
  env_ipc_recving (envs k e) = true →
  sys_ipc_try_send cpunum envid value srcva perm k =
    (ret ← (if srcva <? UTOP then ipc_send_page cpunum e srcva perm else mret None);
     match ret with Some r => mret r | None => ipc_finish e value end) k.
Proof.
  intros Hc Ht Hr. unfold sys_ipc_try_send. rewrite run_bind, (envid2env_run cpunum k c envid false Hc).
  unfold ipc_target in Ht. case_decide; [|case_decide; [|done]]; injection Ht as <-; cbn match;
    change (0 <? 0) with false; cbn match; rewrite run_bind; unfold get_env at 1;
    rewrite run_gets, Hr; reflexivity.
Qed.

Lemma ipc_send_page_run l k c e srcva perm pte :
  kernel_inv base kp live fe l k → cpu_env (cpus k cpunum) = Some c → c ∈ live → e ∈ live →
  0 ≤ srcva < UTOP → srcva mod 4096 = 0 → 0 ≤ env_ipc_dstva (envs k e) →
  lookup_pte (phys (k_mm k)) (dirof k c) srcva = Some pte →
  (∀ p, 0 ≤ p < npages (k_mm k) → pp_ref (pages (k_mm k) p) < 65535) → 0 ≤ perm < 4096 →
  let R := ipc_send_page cpunum e srcva perm k in
  let dstva := env_ipc_dstva (envs k e) in
  if negb (Z.land (Z.land pte perm) PTE_SYSCALL =? Z.land perm PTE_SYSCALL)
     || (flag perm PTE_W && negb (flag pte PTE_W))
  then R = (Ret (Some (- E_INVAL)), k)
  else if dstva <? UTOP then
    (l = [] ∧ R = (Ret (Some (- E_NO_MEM)), k)) ∨
    ∃ s' l', let k' := upd_env e (λ v, with_ipc v (env_ipc_recving v) (env_ipc_dstva v)
                (env_ipc_value v) (env_ipc_from v) perm) (set_mm s' k) in
      R = (Ret None, k') ∧ kernel_inv base kp live fe l' k' ∧
      lookup_pte (phys s') (dirof k e) dstva = Some (pte / 4096 * 4096 + Z.lor perm PTE_P) ∧
      pt_frame (dirof k <$> live) l (dirof k e) dstva (k_mm k) s'
  else R = (Ret None, k).
Proof.
  intros H Hc Hcl Hel Hsva Hal Hdst Hl Href Hperm R dstva. unfold R, ipc_send_page. clear R.
  change UTOP with 0xEEC00000 in *.
  assert (PDX srcva < UPDX) as Hsp by (unfold UPDX; rewrite PDX_div, u32_small; lia).
  assert (srcva = ROUNDDOWN srcva PGSIZE) as Hrd by (rewrite ROUNDDOWN_page, u32_small; lia).
  rewrite run_bind. unfold curenv'. rewrite run_bind. unfold curenv. rewrite run_gets, Hc, run_ret.
  rewrite run_bind. unfold get_env. rewrite run_gets, run_bind.
  pose proof (ke_mm _ _ _ _ _ _ H) as Hm. pose proof (ke_dir live k c Hcl) as Hdc.
  destruct (mapped_page l k c srcva pte H Hcl Hsp Hl) as (Hpr & Hpl & Hpd).
  destruct (page_lookup_Some base _ _ l Hm (dirof k c) srcva pte Hdc Hsp Hl) as (t & Hw & Hpte & _ & E).
  rewrite (page_lookup_lift c srcva k l _ H Hcl Hsp E).
  rewrite <- Hrd, Z.eqb_refl. cbn [negb].
  rewrite run_bind, (liftM_run _ _ (Ret pte) (k_mm k)) by (by rewrite kload_slot, Hpte).
  rewrite set_mm_id. unfold flag. rewrite !negb_involutive.
  destruct (negb (Z.land (Z.land pte perm) PTE_SYSCALL =? Z.land perm PTE_SYSCALL)); [reflexivity|].
  cbn [orb]. destruct (negb (Z.land perm PTE_W =? 0) && (Z.land pte PTE_W =? 0)); [reflexivity|].
  rewrite run_bind, run_gets. fold dstva.
  destruct (dstva <? 0xEEC00000) eqn:Ed; [|reflexivity]. zbool.
  assert (PDX dstva < UPDX) as Hdp by (unfold UPDX; rewrite PDX_div, u32_small; lia).
  destruct (sys_insert cpunum base kp live fe l k H e (pte / 4096) dstva perm k l H (λ _, eq_refl) Hel Hdp Hpr Hpl Hpd
              (Href _ Hpr) Hperm) as [(El & _ & E')|(s' & l' & E' & H' & Hl' & F & _)]; rewrite run_bind, E'.
  - left. split; [exact El|reflexivity].
  - right. exists s', l'. cbv zeta. splits; [|  |exact Hl'|exact F].
    + change (0 <? 0) with false. cbn match. rewrite run_bind, run_modify, run_ret.
      rewrite s32_small by lia. reflexivity.
    + apply ke_upd_env; [exact H'|exact Hel|apply (ke_status _ _ _ _ _ _ H e Hel)|reflexivity|reflexivity].
Qed.
End pages.
