(* ===== verification/SysThm.v ===== *)
(** * Theorems on the system calls

    What user programs may rely on, and what they can exploit. *)
From S2P Require Import Prelude Monad Word Layout Mem CString PageAlloc PageTable PageInv PageOps PageDirs KState Env EnvMem KInv EnvSpec Sched SchedSpec Syscall SysSpec.

(** [sys_page_alloc] on every branch: [-E_BAD_ENV] when the caller may not
    name the environment; [-E_INVAL] for an address that is not page-aligned
    below [UTOP], for permissions outside [PTE_SYSCALL] or without [PTE_U] and
    [PTE_P], and when no page is free; [-E_NO_MEM] when the last page is needed
    for a page table, in which case that page is given back; otherwise 0, and
    the address maps a zeroed page that was free with exactly the permissions
    asked for, every other mapping of every environment is unchanged and the
    kernel invariant holds. *)
Theorem sys_page_alloc_correct cpunum base kp live fe l k c envid va perm :
  kernel_inv base kp live fe l k → cpu_env (cpus k cpunum) = Some c → c ∈ live →
  0 ≤ va < 4294967296 →
  match target k c envid with
  | None => sys_page_alloc cpunum envid va perm k = (Ret (- E_BAD_ENV), k)
  | Some e =>
      let d := dirof k e in
      if bad_va va || bad_perm perm then sys_page_alloc cpunum envid va perm k = (Ret (- E_INVAL), k)
      else
        match l with
        | [] => sys_page_alloc cpunum envid va perm k = (Ret (- E_INVAL), k)
        | p :: l0 =>
            (l0 = [] ∧ ∃ k', sys_page_alloc cpunum envid va perm k = (Ret (- E_NO_MEM), k') ∧
               kernel_inv base kp live fe [p] k' ∧ (∀ x, envs k' x = envs k x) ∧
               (∀ d' va', d' ∈ dirof k <$> live → PDX va' < UPDX →
                  lookup_pte (phys (k_mm k')) d' va' = lookup_pte (phys (k_mm k)) d' va')) ∨
            ∃ k' l', sys_page_alloc cpunum envid va perm k = (Ret 0, k') ∧
              kernel_inv base kp live fe l' k' ∧ (∀ x, envs k' x = envs k x) ∧
              lookup_pte (phys (k_mm k')) d va = Some (p * 4096 + perm) ∧
              (∀ a, a / 4096 = p → load8 (phys (k_mm k')) a = 0) ∧
              (∀ d' va', d' ∈ dirof k <$> live → PDX va' < UPDX → ¬ same_slot d va d' va' →
                 lookup_pte (phys (k_mm k')) d' va' = lookup_pte (phys (k_mm k)) d' va')
        end
  end.
Proof.
  intros H Hc Hcl Hva. pose proof (sys_page_alloc_run cpunum base kp live fe l k c envid va perm H Hc Hcl Hva) as HR.
  destruct (target k c envid) as [e|]; [|exact HR]. cbv zeta in HR |- *.
  destruct (bad_va va || bad_perm perm); [exact HR|]. destruct l as [|p l0]; [exact HR|].
  destruct HR as [(El & _ & k' & E & H' & Er & HR)|(k' & l' & E & [H' Er Hn F] & Hz & _)]; [left|right].
  - split; [exact El|]. exists k'. splits; [exact E|exact H'|by rewrite Er|exact HR].
  - exists k', l'. splits; [exact E|exact H'|by rewrite Er|exact Hn|exact Hz|exact (pf_lookup _ _ _ _ _ _ F)].
Qed.

Lemma sys_page_alloc_correct_witness :
  kernel_inv demo_base 1 [0] (zrange 1 1023) [3; 5; 6] demo_k ∧
  ∃ k', sys_page_alloc 0 0 0x800000 7 demo_k = (Ret 0, k') ∧
    lookup_pte (phys (k_mm k')) 2 0x800000 = Some (3 * 4096 + 7).
Proof.
  split; [exact demo_k_inv|].
  destruct (sys_page_alloc_correct 0 demo_base 1 [0] (zrange 1 1023) [3; 5; 6] demo_k 0 0 0x800000 7
    demo_k_inv eq_refl ltac:(left) ltac:(lia)) as [(E & _)|(k' & l' & E & _ & _ & Hl & _)].
  - discriminate E.
  - exact (ex_intro _ k' (conj E Hl)).
Defined.

(** When the system is out of pages, [sys_page_alloc] returns [-E_INVAL]
    where its specification says [-E_NO_MEM]. *)
Theorem sys_page_alloc_oom cpunum base kp live fe k c envid va perm e :
  kernel_inv base kp live fe [] k → cpu_env (cpus k cpunum) = Some c → c ∈ live →
  0 ≤ va < 4294967296 → target k c envid = Some e → bad_va va = false → bad_perm perm = false →
  sys_page_alloc cpunum envid va perm k = (Ret (- E_INVAL), k).
Proof.
  intros H Hc Hcl Hva Ht Hbv Hbp.
  pose proof (sys_page_alloc_run cpunum base kp live fe [] k c envid va perm H Hc Hcl Hva) as HR.
  rewrite Ht, Hbv, Hbp in HR. exact HR.
Qed.

(** C18: [sys_page_map] on every branch: both environments must be nameable,
    both addresses page-aligned below [UTOP], the permissions acceptable, the
    source address mapped, and write permission asked for only if the source
    mapping has it; then the destination address maps the very page of the
    source with exactly the permissions asked for and no other mapping
    changes.  So no mapping is ever made writable from a read-only one.  (Out
    of memory gives [-E_INVAL], not the documented [-E_NO_MEM].) *)
Theorem sys_page_map_correct cpunum base kp live fe l k c srcenvid srcva dstenvid dstva perm :
  kernel_inv base kp live fe l k → cpu_env (cpus k cpunum) = Some c → c ∈ live →
  0 ≤ srcva < 4294967296 → 0 ≤ dstva < 4294967296 →
  (∀ p, 0 ≤ p < npages (k_mm k) → pp_ref (pages (k_mm k) p) < 65535) →
  let R := sys_page_map cpunum srcenvid srcva dstenvid dstva perm k in
  match target k c srcenvid, target k c dstenvid with
  | None, _ | Some _, None => R = (Ret (- E_BAD_ENV), k)
  | Some es, Some ed =>
      if bad_va srcva || bad_va dstva || bad_perm perm then R = (Ret (- E_INVAL), k)
      else
        match lookup_pte (phys (k_mm k)) (dirof k es) srcva with
        | None => R = (Ret (- E_INVAL), k)
        | Some pte =>
            if negb (flag pte PTE_W) && flag perm PTE_W then R = (Ret (- E_INVAL), k)
            else
              (l = [] ∧ lookup_pte (phys (k_mm k)) (dirof k ed) dstva = None ∧
               R = (Ret (- E_INVAL), k)) ∨
              ∃ k' l', R = (Ret 0, k') ∧ kernel_inv base kp live fe l' k' ∧
                (∀ x, envs k' x = envs k x) ∧
                lookup_pte (phys (k_mm k')) (dirof k ed) dstva = Some (pte / 4096 * 4096 + perm) ∧
                pt_frame (dirof k <$> live) l (dirof k ed) dstva (k_mm k) (k_mm k')
        end
  end.
Proof.
  intros H Hc Hcl Hs Hd Href R.
  pose proof (sys_page_map_run cpunum base kp live fe l k c srcenvid srcva dstenvid dstva perm H Hc Hcl Hs Hd Href) as HR.
  cbv zeta in HR. fold R in HR. destruct (target k c srcenvid) as [es|]; [|exact HR].
  destruct (target k c dstenvid) as [ed|]; [|exact HR].
  destruct (bad_va srcva || bad_va dstva || bad_perm perm); [exact HR|].
  destruct (lookup_pte (phys (k_mm k)) (dirof k es) srcva) as [pte|]; [|exact HR].
  destruct (negb (flag pte PTE_W) && flag perm PTE_W); [exact HR|].
  destruct HR as [HR|(k' & l' & E & [H' Er Hn F] & _)]; [by left|right].
  exists k', l'. splits; [exact E|exact H'|by rewrite Er|exact Hn|exact F].
Qed.

(** The demo kernel with a page at 8MB in environment 0. *)
Lemma demo_k_refs p : 0 ≤ p < npages (k_mm demo_k) → pp_ref (pages (k_mm demo_k) p) < 65535.
Proof. intros _. cbn. repeat case_match; cbn; lia. Qed.

Lemma sys_page_map_correct_witness :
  sys_page_map 0 0 0x800000 0 0x900000 5 demo_k = (Ret (- E_INVAL), demo_k).
Proof.
  pose proof (sys_page_map_correct 0 demo_base 1 [0] (zrange 1 1023) [3; 5; 6] demo_k 0 0 0x800000 0 0x900000 5
    demo_k_inv eq_refl ltac:(left) ltac:(lia) ltac:(lia) demo_k_refs) as HR. exact HR.
Defined.

(** [sys_page_unmap] on every branch: afterwards nothing is mapped at the
    address, all else is unchanged, and the page formerly mapped is free
    exactly when this was its last reference. *)
Theorem sys_page_unmap_correct cpunum base kp live fe l k c envid va :
  kernel_inv base kp live fe l k → cpu_env (cpus k cpunum) = Some c → c ∈ live →
  0 ≤ va < 4294967296 →
  let R := sys_page_unmap cpunum envid va k in
  match target k c envid with
  | None => R = (Ret (- E_BAD_ENV), k)
  | Some e =>
      if bad_va va then R = (Ret (- E_INVAL), k)
      else
        ∃ k' l', R = (Ret 0, k') ∧ kernel_inv base kp live fe l' k' ∧
          (∀ x, envs k' x = envs k x) ∧
          lookup_pte (phys (k_mm k')) (dirof k e) va = None ∧
          pt_frame (dirof k <$> live) l (dirof k e) va (k_mm k) (k_mm k') ∧
          (∀ p, p ∈ l' ↔ p ∈ l ∨ ∃ pte, lookup_pte (phys (k_mm k)) (dirof k e) va = Some pte ∧
               p = pte / 4096 ∧ pp_ref (pages (k_mm k) p) = 1)
  end.
Proof.
  intros H Hc Hcl Hva R.
  pose proof (sys_page_unmap_run cpunum base kp live fe l k c envid va H Hc Hcl Hva) as HR.
  cbv zeta in HR. fold R in HR. destruct (target k c envid) as [e|]; [|exact HR].
  destruct (bad_va va); [exact HR|]. destruct HR as (k' & l' & E & [H' Er Hn F] & Hfree & _).
  exists k', l'. splits; [exact E|exact H'|by rewrite Er|exact Hn|exact F|exact Hfree].
Qed.

Lemma sys_page_unmap_correct_witness :
  ∃ k' l', sys_page_unmap 0 0 0x800000 demo_k = (Ret 0, k') ∧
    kernel_inv demo_base 1 [0] (zrange 1 1023) l' k'.
Proof.
  destruct (sys_page_unmap_correct 0 demo_base 1 [0] (zrange 1 1023) [3; 5; 6] demo_k 0 0 0x800000
    demo_k_inv eq_refl ltac:(left) ltac:(lia)) as (k' & l' & E & H & _).
  exact (ex_intro _ k' (ex_intro _ l' (conj E H))).
Defined.

(** C20: [sys_exofork] returns the identifier of a new, not runnable child of
    the caller, which has the caller's registers except that it sees 0
    returned, and an empty user address space; without a free slot or page it
    returns the error and changes nothing. *)
Theorem sys_exofork_correct cpunum base kp live fe l k c :
  kernel_inv base kp live fe l k → cpu_env (cpus k cpunum) = Some c → c ∈ live →
  let R := sys_exofork cpunum k in
  match fe, l with
  | [], _ => R = (Ret (- E_NO_FREE_ENV), k)
  | _ :: _, [] => R = (Ret (- E_NO_MEM), k)
  | e :: fe', p :: l' =>
      ∃ k', R = (Ret (env_id (envs k' e)), k') ∧ kernel_inv base kp (e :: live) fe' l' k' ∧
        envs k' = <[e := with_tf (with_status (fresh_env (envs k e) e p (env_id (envs k c)))
                                              ENV_NOT_RUNNABLE)
                                 (tf_set_eax 0 (env_tf (envs k c)))]> (envs k) ∧
        (∀ va, PDX va < UPDX → lookup_pte (phys (k_mm k')) p va = None)
  end.
Proof.
  intros H Hc Hcl R. pose proof (sys_exofork_run cpunum base kp live fe l k c H Hc Hcl) as HR.
  cbv zeta in HR. fold R in HR. destruct fe as [|e fe']; [exact HR|]. destruct l as [|p l']; [exact HR|].
  destruct HR as (k' & E & H' & Ee & X). exists k'. splits; [exact E|exact H'|exact Ee|].
  intros va Hva. exact (exoforked_empty kp live p k k' va X Hva).
Qed.

Lemma sys_exofork_correct_witness :
  ∃ k', sys_exofork 0 demo_k = (Ret (env_id (envs k' 1)), k') ∧
    env_status (envs k' 1) = ENV_NOT_RUNNABLE ∧ env_parent_id (envs k' 1) = 4096.
Proof.
  pose proof (sys_exofork_correct 0 demo_base 1 [0] (zrange 1 1023) [3; 5; 6] demo_k 0
    demo_k_inv eq_refl ltac:(left)) as HR.
  cbv zeta in HR. rewrite zrange_cons in HR by lia. destruct HR as (k' & E & _ & Ee & _).
  exists k'. rewrite Ee, upd_same. split; [|split; reflexivity]. rewrite E, Ee, upd_same. reflexivity.
Defined.

(** ** IPC *)

(** A send to an environment that does not exist or is not receiving is
    refused without any change; a send without a page ([srcva] at or above
    [UTOP]) to a receiving environment returns 0, and the receiver is runnable,
    no longer receiving, sees 0 returned from [sys_ipc_recv], and has the value
    and the sender's identifier. *)
Theorem sys_ipc_try_send_value cpunum base kp live fe l k c envid value srcva perm :
  kernel_inv base kp live fe l k → cpu_env (cpus k cpunum) = Some c → c ∈ live → UTOP ≤ srcva →
  match ipc_target k c envid with
  | None => sys_ipc_try_send cpunum envid value srcva perm k = (Ret (- E_BAD_ENV), k)
  | Some e =>
      if env_ipc_recving (envs k e) then
        ∃ k', sys_ipc_try_send cpunum envid value srcva perm k = (Ret 0, k') ∧
          kernel_inv base kp live fe l k' ∧ k_mm k' = k_mm k ∧
          envs k' = <[e := delivered (envs k e) value (env_id (envs k c)) (env_ipc_perm (envs k e))]> (envs k)
      else sys_ipc_try_send cpunum envid value srcva perm k = (Ret (- E_IPC_NOT_RECV), k)
  end.
Proof.
  intros H Hc Hcl Hva. pose proof (ipc_refused cpunum base kp live fe l k c envid value srcva perm H Hc) as Hr.
  pose proof (λ e, ipc_target_live base kp live fe l k c envid e H Hcl) as Htl.
  destruct (ipc_target k c envid) as [e|] eqn:Et; [|exact Hr].
  destruct (env_ipc_recving (envs k e)) eqn:Er; [|by apply Hr].
  rewrite (ipc_send_run cpunum k c envid value srcva perm e Hc Et Er).
  destruct (Z.ltb_spec srcva UTOP); [lia|]. rewrite run_bind, run_ret.
  destruct (ipc_finish_run cpunum base kp live fe l k c e value H Hc (Htl e eq_refl)) as (k' & E & H' & Ee & Em & _).
  exists k'. rewrite E. exact (conj eq_refl (conj H' (conj Em Ee))).
Qed.

(** The demo kernel with environment 0 waiting to receive. *)
Definition demo_recv : kst := upd_env 0 (λ v, with_ipc v true 0x800000 0 0 0) demo_k.
Lemma demo_recv_inv : kernel_inv demo_base 1 [0] (zrange 1 1023) [3; 5; 6] demo_recv.
Proof.
  apply ke_upd_env; [exact demo_k_inv|left|cbn; unfold ENV_DYING, ENV_RUNNING, ENV_NOT_RUNNABLE; lia|reflexivity|reflexivity].
Qed.

Lemma sys_ipc_try_send_value_witness :
  kernel_inv demo_base 1 [0] (zrange 1 1023) [3; 5; 6] demo_recv ∧
  ∃ k', sys_ipc_try_send 0 4096 77 UTOP 0 demo_recv = (Ret 0, k') ∧ env_ipc_value (envs k' 0) = 77.
Proof.
  split; [exact demo_recv_inv|].
  destruct (sys_ipc_try_send_value 0 demo_base 1 [0] (zrange 1 1023) [3; 5; 6] demo_recv 0 4096 77 UTOP 0
    demo_recv_inv eq_refl ltac:(left) ltac:(reflexivity || (vm_compute; discriminate))) as (k' & E & _ & _ & Ee).
  exists k'. split; [exact E|]. rewrite Ee, upd_same. reflexivity.
Defined.

(** A machine with no free page. *)
Definition full_k : kst :=
  set_mm (mkMM 16 16 (λ _, 0) (λ _, mkPageInfo None 1) None (kva 1) (KERNBASE + 0x4000) MMIOBASE 0 []) demo_k.
Definition full_base (p : Z) : Z := if decide (p = 2) then 0 else 1.

Lemma full_k_inv : kernel_inv full_base 1 [0] (zrange 1 1023) [] full_k.
Proof.
  assert (kinv full_base [2] (k_mm full_k) []) as Hm.
  { split; change (phys (k_mm full_k)) with (λ _ : Z, 0); unfold refs; rewrite ?leaves_zero, ?tables_zero; cbn -[decide countZ].
    - split; cbn; [lia|done|constructor|by intros p ?%elem_of_nil|done].
    - list_dec.
    - intros p ->%list_elem_of_singleton. lia.
    - by intros p ?%elem_of_nil.
    - intros p. unfold full_base. case_decide; lia.
    - intros p ->%list_elem_of_singleton. done.
    - intros p _. unfold full_base. simpl. case_decide; lia.
    - intros p _. lia. }
  pose proof demo_k_inv as H. destruct H. split; assumption.
Qed.

Lemma sys_page_alloc_oom_witness :
  sys_page_alloc 0 0 0x800000 7 full_k = (Ret (- E_INVAL), full_k).
Proof.
  apply (sys_page_alloc_oom 0 full_base 1 [0] (zrange 1 1023) full_k 0 0 0x800000 7 0 full_k_inv);
    [reflexivity|left|lia|reflexivity|reflexivity|reflexivity].
Defined.

(** C12: sending a page.  The sender has a page at [srcva], the permissions
    asked for are among those of the sender's mapping, and the receiver accepts
    a page: either a page table is missing and memory is exhausted, with
    [-E_NO_MEM] and no change, or the send returns 0 and the receiver maps the
    sender's page with these permissions (plus [PTE_P]), and is runnable with
    the value, the sender's identifier and the permissions delivered; all other
    mappings are as before and the kernel invariant holds.  This includes permissions
    without [PTE_U] or [PTE_P], 0 for one: the code compares [perm] with the sender's
    entry only, whereas the comment above sys_ipc_try_send promises [-E_INVAL] for
    permissions that sys_page_alloc would refuse. *)
Theorem sys_ipc_try_send_page cpunum base kp live fe l k c envid value srcva perm e pte :
  kernel_inv base kp live fe l k → cpu_env (cpus k cpunum) = Some c → c ∈ live →
  ipc_target k c envid = Some e → env_ipc_recving (envs k e) = true →
  0 ≤ srcva < UTOP → srcva mod 4096 = 0 → 0 ≤ env_ipc_dstva (envs k e) < UTOP →
  lookup_pte (phys (k_mm k)) (dirof k c) srcva = Some pte →
  Z.land (Z.land pte perm) PTE_SYSCALL = Z.land perm PTE_SYSCALL →
  (∀ p, 0 ≤ p < npages (k_mm k) → pp_ref (pages (k_mm k) p) < 65535) → 0 ≤ perm < 4096 →
  let dstva := env_ipc_dstva (envs k e) in
  let R := sys_ipc_try_send cpunum envid value srcva perm k in
  (l = [] ∧ R = (Ret (- E_NO_MEM), k)) ∨
  ∃ k' l', R = (Ret 0, k') ∧ kernel_inv base kp live fe l' k' ∧
    lookup_pte (phys (k_mm k')) (dirof k e) dstva = Some (pte / 4096 * 4096 + Z.lor perm PTE_P) ∧
    pt_frame (dirof k <$> live) l (dirof k e) dstva (k_mm k) (k_mm k') ∧
    envs k' = <[e := delivered (envs k e) value (env_id (envs k c)) perm]> (envs k).
Proof.
  intros H Hc Hcl Ht Hr Hs Hal Hd Hl Hsub Href Hperm dstva R.
  pose proof (ipc_target_live base kp live fe l k c envid e H Hcl Ht) as Hel.
  pose proof (ipc_send_page_run cpunum base kp live fe l k c e srcva perm pte H Hc Hcl Hel Hs Hal
                (proj1 Hd) Hl Href Hperm) as Hp. cbv zeta in Hp.
  assert (flag perm PTE_W && negb (flag pte PTE_W) = false) as Hw.
  { destruct (flag perm PTE_W) eqn:Ew; [|done]. cbn [andb]. apply negb_false_iff.
    unfold flag in *. rewrite negb_true_iff in *. apply Z.eqb_neq in Ew. apply Z.eqb_neq.
    intros E0. apply Ew.
    assert (Z.land perm PTE_W = Z.land (Z.land (Z.land perm PTE_SYSCALL) PTE_W) PTE_W) as ->.
    { rewrite <- !Z.land_assoc. f_equal. }
    rewrite <- Hsub. rewrite (Z.land_comm pte perm).
    rewrite <- !Z.land_assoc. change (Z.land PTE_SYSCALL (Z.land PTE_W PTE_W)) with PTE_W.
    rewrite E0. apply Z.land_0_r. }
  rewrite Hsub, Z.eqb_refl, Hw in Hp. cbn [negb orb] in Hp.
  destruct (Z.ltb_spec (env_ipc_dstva (envs k e)) UTOP); [|lia].
  unfold R. rewrite (ipc_send_run cpunum k c envid value srcva perm e Hc Ht Hr).
  destruct (Z.ltb_spec srcva UTOP); [|lia].
  destruct Hp as [(El & E)|(s' & l' & E & H' & Hl' & F)]; rewrite run_bind, E.
  - left. split; [exact El|reflexivity].
  - right. set (k1 := upd_env e _ (set_mm s' k)) in *.
    destruct (ipc_finish_run cpunum base kp live fe l' k1 c e value H' Hc Hel) as (k' & E' & H2 & Ee & Em & _).
    exists k', l'. rewrite E'. rewrite Em, Ee. splits; [reflexivity|exact H2|exact Hl'|exact F|].
    unfold k1. cbn [envs upd_env set_envs set_mm]. rewrite upd_upd, upd_same.
    f_equal. rewrite upd_case. by case_decide; subst.
Qed.

(** The demo kernel with page 4 mapped at 8MB, environment 0 receiving at 12MB. *)
Lemma demo_send : ∃ k l, kernel_inv demo_base 1 [0] (zrange 1 1023) l k ∧
  cpu_env (cpus k 0) = Some 0 ∧ envs k = <[0 := with_ipc (demo_env 0) true 0xC00000 0 0 0]> demo_env ∧
  dirof k 0 = 2 ∧ lookup_pte (phys (k_mm k)) 2 0x800000 = Some (4 * 4096 + 7) ∧
  (∀ p, pp_ref (pages (k_mm k) p) < 65535).
Proof.
  destruct demo_mapped as (s & l & H & G & Hl & Hr & _).
  exists (set_mm s (upd_env 0 (λ v, with_ipc v true 0xC00000 0 0 0) demo_k)), l.
  splits; [|reflexivity|reflexivity|reflexivity|exact Hl|exact Hr].
  eapply ke_set_mm; [|exact G|exact H].
  apply ke_upd_env; [exact demo_k_inv|left|cbn; unfold ENV_DYING, ENV_RUNNING, ENV_NOT_RUNNABLE; lia|reflexivity|reflexivity].
Qed.

Lemma sys_ipc_try_send_page_witness :
  ∃ k l, kernel_inv demo_base 1 [0] (zrange 1 1023) l k ∧
    ((l = [] ∧ sys_ipc_try_send 0 4096 77 0x800000 5 k = (Ret (- E_NO_MEM), k)) ∨
     ∃ k', sys_ipc_try_send 0 4096 77 0x800000 5 k = (Ret 0, k') ∧
       lookup_pte (phys (k_mm k')) 2 0xC00000 = Some (4 * 4096 + 5)).
Proof.
  destruct demo_send as (k & l & H & Hc & Ee & Ed & Hl & Hr). exists k, l. split; [exact H|].
  assert (envs k 0 = with_ipc (demo_env 0) true 0xC00000 0 0 0) as E0 by (rewrite Ee; apply upd_same).
  assert (ipc_target k 0 4096 = Some 0) as Ht.
  { unfold ipc_target. rewrite decide_False by done. rewrite decide_True; [reflexivity|].
    unfold may_name. change (ENVX 4096) with 0. rewrite E0. splits; done. }
  destruct (sys_ipc_try_send_page 0 demo_base 1 [0] (zrange 1 1023) l k 0 4096 77 0x800000 5 0 (4 * 4096 + 7)
    H Hc ltac:(left) Ht ltac:(by rewrite E0) ltac:(change UTOP with 0xEEC00000; lia) eq_refl
    ltac:(rewrite E0; change UTOP with 0xEEC00000; cbn; lia) ltac:(by rewrite Ed) eq_refl (λ p _, Hr p) ltac:(lia))
    as [HL|(k' & l' & E & _ & Hl' & _)].
  - by left.
  - right. exists k'. split; [exact E|]. rewrite Ed, E0 in Hl'. exact Hl'.
Defined.

(** C38: a sender can put the kernel into undefined behaviour: with [srcva]
    below [UTOP], page-aligned and not mapped, [page_lookup] leaves [pte]
    uninitialised and [sys_ipc_try_send] dereferences it before it tests that
    no page was found. *)
Theorem sys_ipc_try_send_uninit cpunum base kp live fe l k c envid value srcva perm e :
  kernel_inv base kp live fe l k → cpu_env (cpus k cpunum) = Some c → c ∈ live →
  ipc_target k c envid = Some e → env_ipc_recving (envs k e) = true →
  0 ≤ srcva < UTOP → srcva mod 4096 = 0 →
  lookup_pte (phys (k_mm k)) (dirof k c) srcva = None →
  ∃ why, sys_ipc_try_send cpunum envid value srcva perm k = (Stop (SUndef why), k).
Proof.
  intros H Hc Hcl Ht Hr Hs Hal Hl. eexists.
  rewrite (ipc_send_run cpunum k c envid value srcva perm e Hc Ht Hr).
  destruct (Z.ltb_spec srcva UTOP); [|lia]. change UTOP with 0xEEC00000 in *.
  assert (PDX srcva < UPDX) as Hsp by (unfold UPDX; rewrite PDX_div, u32_small; lia).
  assert (srcva = ROUNDDOWN srcva PGSIZE) as Hrd by (rewrite ROUNDDOWN_page, u32_small; lia).
  unfold ipc_send_page. rewrite run_bind, run_bind. unfold curenv'. rewrite run_bind. unfold curenv.
  rewrite run_gets, Hc, run_ret. rewrite run_bind. unfold get_env. rewrite run_gets, run_bind.
  pose proof (ke_mm _ _ _ _ _ _ H) as Hm. pose proof (ke_dir live k c Hcl) as Hdc.
  rewrite (page_lookup_lift base kp live fe c srcva k l (Ret None) H Hcl Hsp).
  - rewrite <- Hrd, Z.eqb_refl. reflexivity.
  - by apply (page_lookup_None base _ _ l Hm).
Qed.

Lemma sys_ipc_try_send_uninit_witness :
  ∃ why, sys_ipc_try_send 0 4096 77 0x800000 5 demo_recv = (Stop (SUndef why), demo_recv).
Proof.
  apply (sys_ipc_try_send_uninit 0 demo_base 1 [0] (zrange 1 1023) [3; 5; 6] demo_recv 0 4096 77 0x800000 5 0 demo_recv_inv);
    [reflexivity|left|reflexivity|reflexivity| |reflexivity|reflexivity].
  change UTOP with 0xEEC00000. lia.
Defined.
