(* ===== verification/UserLib.v ===== *)
(** * lib/: the library user environments are linked with

    System call stubs (lib/syscall.c, inc/lib.h), the page-fault handler
    set-up (lib/pgfault.c), copy-on-write fork (lib/fork.c), messages
    (lib/ipc.c), start and exit (lib/libmain.c, lib/exit.c) and the console
    (lib/console.c).  User code is a computation on the kernel's state: it
    reads and writes memory through the page tables of its environment, and
    enters the kernel by [trap] with the frame that [int $48] builds.  Local
    variables are values of the model, not memory; globals are at the addresses
    the linker gives them.  What the calls in [fork] and [duppage] push on the
    stack is memory all the same, because these functions make the page of the
    stack copy-on-write: [push] stores it, and may fault (ForkStack). *)
From S2P Require Import Prelude Monad Word Layout Mem CString PageAlloc PageTable PageInv Seg KState Env Sched Syscall Trap MemInit.

(** inc/mmu.h: page fault caused by a write. *)
Definition FEC_WR := 2.

(** lib/entry.S *)
Definition uvpt := UVPT.
Definition uvpd := UVPT + Z.shiftr UVPT 12 * 4.

Section user.
(** The environment, and the CPU that runs it. *)
Context (cpunum e : Z).
(** [cons_getc] of kern/console.c, and the CPU's registers on entry. *)
Context (cons_getc : K Z) (rcr2 eflags : Z).
(** The registers the stubs do not set, as [int] pushes them. *)
Context (uregs : Trapframe).
(** What the rest of the system does, from a state in which the CPU left this
    environment, until it is back; [None] if that never happens. *)
Context (others : stop → kst → option kst).
(** Addresses of [thisenv], [_pgfault_handler], of the functions
    [_pgfault_upcall] and [pgfault], and of the stack slot of [cputchar]. *)
Context (a_thisenv a_pgfault_handler a_pgfault_upcall a_pgfault a_ch : Z).

(** ** Entering the kernel *)

(** The result of a trap, seen from the environment. *)
Definition back (r : result () * kst) : result () * kst :=
  match r with
  | (Stop (SUser e'), k) =>
      if e' =? e then (Ret tt, k)
      else match others (SUser e') k with Some k' => (Ret tt, k') | None => (Stop (SUser e'), k) end
  | (Stop SHalt, k) =>
      match others SHalt k with Some k' => (Ret tt, k') | None => (Stop SHalt, k) end
  | r => r
  end.

Definition syscall_frame (num a1 a2 a3 a4 a5 : Z) : Trapframe :=
  let r := tf_regs uregs in
  mkTf (mkRegs a4 a5 (reg_ebp r) (reg_oesp r) a3 a1 a2 num) (tf_es uregs) (tf_ds uregs) T_SYSCALL
    (tf_err uregs) (tf_eip uregs) (tf_cs uregs) (tf_eflags uregs) (tf_esp uregs) (tf_ss uregs).

(** [int $T_SYSCALL]; the value of [eax] afterwards. *)
Definition int_syscall (num a1 a2 a3 a4 a5 : Z) : K Z :=
  (λ k, back (trap cpunum cons_getc rcr2 eflags false (syscall_frame num a1 a2 a3 a4 a5) k)) ;;
  env ← get_env e;
  mret (s32 (reg_eax (tf_regs (env_tf env)))).

(** [_panic] of lib/panic.c: prints, then [int3] for ever. *)
Definition upanic {A} (why : string) : K A := panic why.

(** [syscall] of lib/syscall.c *)
Definition usyscall (num : Z) (check : bool) (a1 a2 a3 a4 a5 : Z) : K Z :=
  ret ← int_syscall num a1 a2 a3 a4 a5;
  if check && (0 <? ret) then upanic "syscall %d returned %d (> 0)" else mret ret.

Definition usys_cputs (s len : Z) : K () := usyscall SYS_cputs false s len 0 0 0 ;; mret tt.
Definition usys_cgetc : K Z := usyscall SYS_cgetc false 0 0 0 0 0.
Definition usys_env_destroy (envid : Z) : K Z := usyscall SYS_env_destroy true (u32 envid) 0 0 0 0.
Definition usys_getenvid : K Z := usyscall SYS_getenvid false 0 0 0 0 0.
Definition usys_yield : K () := usyscall SYS_yield false 0 0 0 0 0 ;; mret tt.
Definition usys_page_alloc (envid va perm : Z) : K Z :=
  usyscall SYS_page_alloc true (u32 envid) va (u32 perm) 0 0.
Definition usys_page_map (srcenv srcva dstenv dstva perm : Z) : K Z :=
  usyscall SYS_page_map true (u32 srcenv) srcva (u32 dstenv) dstva (u32 perm).
Definition usys_page_unmap (envid va : Z) : K Z :=
  usyscall SYS_page_unmap true (u32 envid) va 0 0 0.
Definition usys_env_set_status (envid status : Z) : K Z :=
  usyscall SYS_env_set_status true (u32 envid) (u32 status) 0 0 0.
Definition usys_env_set_pgfault_upcall (envid upcall : Z) : K Z :=
  usyscall SYS_env_set_pgfault_upcall true (u32 envid) upcall 0 0 0.
Definition usys_ipc_try_send (envid value srcva perm : Z) : K Z :=
  usyscall SYS_ipc_try_send false (u32 envid) value srcva (u32 perm) 0.
Definition usys_ipc_recv (dstva : Z) : K Z := usyscall SYS_ipc_recv true dstva 0 0 0 0.

(** [sys_exofork] of inc/lib.h: only [eax] is set; [edx], [ecx], [ebx], [edi]
    and [esi] hold what they held. *)
Definition usys_exofork : K Z :=
  let r := tf_regs uregs in
  int_syscall SYS_exofork (reg_edx r) (reg_ecx r) (reg_ebx r) (reg_edi r) (reg_esi r).

(** ** lib/pgfault.c *)

Definition set_pgfault_handler (handler : Z) : K () :=
  h ← vload32 cpunum a_pgfault_handler;
  (if h =? 0 then
     r ← usys_page_alloc 0 (UXSTACKTOP - PGSIZE) (Z.lor (Z.lor PTE_U PTE_W) PTE_P);
     (if r <? 0 then upanic "set_pgfault_handler failed." else mret tt) ;;
     usys_env_set_pgfault_upcall 0 a_pgfault_upcall ;;
     mret tt
   else mret tt) ;;
  vstore32 cpunum a_pgfault_handler handler.

(** ** lib/fork.c *)

(** [uvpt[n]] and [uvpd[n]]: the page tables read through their own mapping. *)
Definition uvpt_at (n : Z) : K Z := vload32 cpunum (u32 (uvpt + 4 * n)).
Definition uvpd_at (n : Z) : K Z := vload32 cpunum (u32 (uvpd + 4 * n)).

(** [utf] is the address of the exception frame. *)
Definition pgfault (utf : Z) : K () :=
  addr ← vload32 cpunum utf;
  err ← vload32 cpunum (u32 (utf + 4));
  (if negb (flag err FEC_WR) then upanic "trapno is not FEC_WR" else mret tt) ;;
  pte ← uvpt_at (PGNUM addr);
  (if negb (flag pte PTE_COW) then upanic "fault addr is not COW" else mret tt) ;;
  let addr := ROUNDDOWN addr PGSIZE in
  r ← usys_page_map 0 addr 0 PFTEMP (Z.lor PTE_U PTE_P);
  (if r <? 0 then upanic "sys_page_map: %e" else mret tt) ;;
  r ← usys_page_alloc 0 addr (Z.lor (Z.lor PTE_W PTE_U) PTE_P);
  (if r <? 0 then upanic "sys_page_alloc: %e" else mret tt) ;;
  vmemmove cpunum addr PFTEMP PGSIZE ;;
  r ← usys_page_unmap 0 PFTEMP;
  if r <? 0 then upanic "sys_page_unmap: %e" else mret tt.

(** What a call stores on the stack: the arguments, the return address and the
    registers the callee saves, for a call made by [fork] ([push 0]) or by a
    function that [fork] called ([push 1]). *)
Context (push : nat → K ()).
Definition call {A} (depth : nat) (m : K A) : K A := push depth ;; m.

Definition duppage (envid pn : Z) : K Z :=
  let addr := u32 (pn * PGSIZE) in
  pte ← uvpt_at pn;
  if flag pte PTE_SHARE then
    call 1 (usys_page_map 0 addr envid addr PTE_SYSCALL) ;; mret 0
  else
    pte ← uvpt_at pn;
    cow ← (if flag pte PTE_W then mret true else pte ← uvpt_at pn; mret (flag pte PTE_COW));
    if (cow : bool) then
      r ← call 1 (usys_page_map 0 addr envid addr (Z.lor (Z.lor PTE_COW PTE_U) PTE_P));
      (if r <? 0 then upanic "sys_page_map: %e" else mret tt) ;;
      r ← call 1 (usys_page_map 0 addr 0 addr (Z.lor (Z.lor PTE_COW PTE_U) PTE_P));
      (if r <? 0 then upanic "sys_page_map: %e" else mret tt) ;;
      mret 0
    else
      call 1 (usys_page_map 0 addr envid addr (Z.lor PTE_U PTE_P)) ;; mret 0.

(** One iteration of the loop of [fork], for page number [pn]. *)
Definition fork_page (envid pn : Z) : K () :=
  let addr := pn * PGSIZE in
  pde ← uvpd_at (PDX addr);
  if flag pde PTE_P then
    pte ← uvpt_at (PGNUM addr);
    if flag pte PTE_P then
      pte ← uvpt_at (PGNUM addr);
      if flag pte PTE_U then call 0 (duppage envid (PGNUM addr)) ;; mret tt else mret tt
    else mret tt
  else mret tt.

(** [&envs[ENVX(id)]] *)
Definition env_addr (id : Z) : Z := UENVS + sizeof_Env * ENVX id.

(** [sys_exofork] is inlined: it pushes nothing. *)
Definition fork : K Z :=
  call 0 (set_pgfault_handler a_pgfault) ;;
  envid ← usys_exofork;
  (if envid <? 0 then upanic "sys_exofork Failed, envid: %e" else mret tt) ;;
  if envid =? 0 then
    id ← call 0 usys_getenvid;
    vstore32 cpunum a_thisenv (env_addr id) ;;
    mret 0
  else
    forM (zrange 0 (USTACKTOP / PGSIZE)) (fork_page envid) ;;
    r ← call 0 (usys_page_alloc envid (UXSTACKTOP - PGSIZE) (Z.lor (Z.lor PTE_P PTE_W) PTE_U));
    (if r <? 0 then upanic "sys_page_alloc: %e" else mret tt) ;;
    r ← call 0 (usys_env_set_pgfault_upcall envid a_pgfault_upcall);
    (if r <? 0 then upanic "sys_env_set_pgfault_upcall: %e" else mret tt) ;;
    r ← call 0 (usys_env_set_status envid ENV_RUNNABLE);
    (if r <? 0 then upanic "sys_env_set_status: %e" else mret tt) ;;
    mret envid.

Definition sfork : K Z := upanic "sfork not implemented".

(** ** lib/ipc.c *)

(** [thisenv->f]: [envs] is the kernel's array, mapped at [UENVS]. *)
Definition thisenv_env : K Env :=
  p ← vload32 cpunum a_thisenv; get_env ((p - UENVS) / sizeof_Env).

(** [if (p) *p = v] *)
Definition store_opt (p v : Z) : K () := if p =? 0 then mret tt else vstore32 cpunum p v.

Definition ipc_recv (from_env_store pg perm_store : Z) : K Z :=
  let pg := if pg =? 0 then u32 (-1) else pg in
  r ← usys_ipc_recv pg;
  if r <? 0 then
    store_opt from_env_store 0 ;; store_opt perm_store 0 ;; mret r
  else
    (if from_env_store =? 0 then mret tt
     else t ← thisenv_env; vstore32 cpunum from_env_store (u32 (env_ipc_from t))) ;;
    (if perm_store =? 0 then mret tt
     else t ← thisenv_env; vstore32 cpunum perm_store (u32 (env_ipc_perm t))) ;;
    t ← thisenv_env; mret (s32 (env_ipc_value t)).

(** The [while (1)] of [ipc_send]: at most [fuel] attempts. *)
Fixpoint ipc_send_loop (fuel : nat) (to_env val pg perm : Z) : K () :=
  match fuel with
  | O => undef "ipc_send: out of fuel"
  | S fuel =>
      r ← usys_ipc_try_send to_env val pg perm;
      if r =? 0 then mret tt
      else if r =? - E_IPC_NOT_RECV then usys_yield ;; ipc_send_loop fuel to_env val pg perm
      else upanic "ipc_send() fault:%e"
  end.

Definition ipc_send (fuel : nat) (to_env val pg perm : Z) : K () :=
  ipc_send_loop fuel to_env val (if pg =? 0 then u32 (-1) else pg) perm.

Fixpoint ipc_find_loop (n : nat) (i type : Z) : K Z :=
  match n with
  | O => mret 0
  | S n =>
      v ← get_env i;
      if env_type v =? type then mret (env_id v) else ipc_find_loop n (i + 1) type
  end.
Definition ipc_find_env (type : Z) : K Z := ipc_find_loop (Z.to_nat NENV) 0 type.

(** ** lib/exit.c, lib/libmain.c *)

Definition exit : K () := usys_env_destroy 0 ;; mret tt.

(** [umain] is the program; [binaryname] is used by [_panic] only. *)
Definition libmain (umain : K ()) : K () :=
  id ← usys_getenvid;
  vstore32 cpunum a_thisenv (env_addr id) ;;
  umain ;;
  exit.

(** ** lib/console.c *)

Definition ucputchar (ch : Z) : K () := vstore8 cpunum a_ch (u8 ch) ;; usys_cputs a_ch 1.

Fixpoint ugetchar (fuel : nat) : K Z :=
  match fuel with
  | O => undef "getchar: out of fuel"
  | S fuel =>
      r ← usys_cgetc;
      if r =? 0 then usys_yield ;; ugetchar fuel else mret r
  end.
End user.
