(* ===== verification/UserSpec.v ===== *)
(** * User code at work

    What user code may rely on between system calls ([user_runs]), its loads
    and stores, the page tables seen at [UVPT], and the general contract of a
    system call as the caller sees it. *)
From S2P Require Import Prelude Monad Word Layout Mem CString PageAlloc PageTable PageInv PageOps PageDirs Seg KState Env EnvMem KInv EnvSpec Sched SchedSpec UserMem Syscall Trap UserStore TrapSpec SysSpec MemInit UserLib.

(** ** Bytes of memory *)

Fixpoint load_bytes (m : mem) (a : Z) (n : nat) : list Z :=
  match n with O => [] | S n => load8 m a :: load_bytes m (a + 1) n end.
Fixpoint store_bytes (m : mem) (a : Z) (bs : list Z) : mem :=
  match bs with [] => m | b :: bs => store_bytes (store8 m a b) (a + 1) bs end.

Lemma load_bytes_length m a n : length (load_bytes m a n) = n.
Proof. revert a. induction n as [|n IH]; intros a; [done|]. cbn [load_bytes length]. by rewrite IH. Qed.

Lemma store_bytes_other m a bs b :
  ¬ (a ≤ b < a + Z.of_nat (length bs)) → load8 (store_bytes m a bs) b = load8 m b.
Proof.
  revert m a. induction bs as [|v bs IH]; intros m a Hb; [done|]. cbn [store_bytes length] in *.
  rewrite IH by lia. rewrite load8_store8. by rewrite decide_False by lia.
Qed.

Lemma store_load_bytes m0 a0 m a n i :
  0 ≤ i < Z.of_nat n → load8 (store_bytes m a (load_bytes m0 a0 n)) (a + i) = load8 m0 (a0 + i).
Proof.
  revert m a a0 i. induction n as [|n IH]; intros m a a0 i Hi; [lia|]. cbn [store_bytes load_bytes].
  destruct (decide (i = 0)) as [->|Hi0].
  - rewrite store_bytes_other by lia. rewrite load8_store8, Z.add_0_r, decide_True by done.
    rewrite Z.add_0_r. apply u8_u8.
  - replace (a + i) with (a + 1 + (i - 1)) by lia. rewrite IH by lia. f_equal. lia.
Qed.

(** ** Loads *)

Section loads.
Context (cpunum : Z).

Lemma vload8_run k va pa :
  vtrans (phys (k_mm k)) (cpu_cr3 (cpus k cpunum)) va false = Some pa →
  vload8 cpunum va k = (Ret (load8 (phys (k_mm k)) pa), k).
Proof. intros E. unfold vload8. rewrite run_bind, run_gets. unfold id. by rewrite E. Qed.

(** An access that does not leave the page. *)
Lemma vload32_run k va pa :
  0 ≤ va → va + 3 < 4294967296 →
  (∀ j, 0 ≤ j < 4 → vtrans (phys (k_mm k)) (cpu_cr3 (cpus k cpunum)) (va + j) false = Some (pa + j)) →
  vload32 cpunum va k = (Ret (load32 (phys (k_mm k)) pa), k).
Proof.
  intros H0 H1 Ht. unfold vload32.
  pose proof (Ht 0 ltac:(lia)) as E0. do 2 rewrite Z.add_0_r in E0.
  rewrite run_bind, (vload8_run k va pa E0). cbv beta iota.
  rewrite run_bind, u32_small by lia. rewrite (vload8_run k _ _ (Ht 1 ltac:(lia))). cbv beta iota.
  rewrite run_bind, u32_small by lia. rewrite (vload8_run k _ _ (Ht 2 ltac:(lia))). cbv beta iota.
  rewrite run_bind, u32_small by lia. rewrite (vload8_run k _ _ (Ht 3 ltac:(lia))). reflexivity.
Qed.

Lemma vtrans_read m d va pte :
  0 ≤ va < KERNBASE → lookup_pte m d va = Some pte →
  vtrans m (d * 4096) va false = Some (pte / 4096 * 4096 + va mod 4096).
Proof.
  intros Hva Hl. change KERNBASE with 0xF0000000 in *. unfold vtrans. change KERNBASE with 0xF0000000.
  rewrite u32_small by lia. destruct (Z.leb_spec 0xF0000000 va); [lia|].
  replace (d * 4096 / 4096) with d by lia. rewrite Hl. cbn [andb]. simpl.
  destruct (lookup_pte_flag _ _ _ _ Hl) as (_ & Hr & _).
  by rewrite PTE_ADDR_div, PGOFF_mod, !u32_small by lia.
Qed.

(** Consecutive bytes of one page. *)
Lemma vread_run k d q n va pte :
  cpu_cr3 (cpus k cpunum) = d * 4096 → lookup_pte (phys (k_mm k)) d va = Some pte → pte / 4096 = q →
  0 ≤ va → va mod 4096 + Z.of_nat n ≤ 4096 → va + Z.of_nat n ≤ KERNBASE →
  vread cpunum n va k = (Ret (load_bytes (phys (k_mm k)) (q * 4096 + va mod 4096) n), k).
Proof.
  intros Hc Hl Hq H0 Hoff Hk. change KERNBASE with 0xF0000000 in Hk.
  revert va Hl H0 Hoff Hk. induction n as [|n IH]; intros va Hl H0 Hoff Hk; [reflexivity|].
  cbn [vread load_bytes]. rewrite run_bind.
  pose proof (vtrans_read (phys (k_mm k)) d va pte ltac:(change KERNBASE with 0xF0000000; lia) Hl) as Ht.
  rewrite Hq, <- Hc in Ht. rewrite (vload8_run _ _ _ Ht). cbv beta iota. rewrite run_bind.
  destruct n as [|n]; [reflexivity|]. rewrite u32_small by lia.
  rewrite IH; [|rewrite <- Hl; apply lookup_pte_page; rewrite !u32_small; lia|lia..].
  cbv beta iota. rewrite run_ret. do 4 f_equal. lia.
Qed.
End loads.

(** ** Stores of bytes *)

Lemma vwrite_run cpunum base kp live fe l e p (He : e ∈ live) bs k va :
  user_page cpunum base kp live fe l e p k va → 0 ≤ va →
  va mod 4096 + Z.of_nat (length bs) ≤ 4096 → va < UTOP →
  let m' := store_bytes (phys (k_mm k)) (p * 4096 + va mod 4096) bs in
  vwrite cpunum bs va k = (Ret tt, with_phys m' k) ∧
  user_page cpunum base kp live fe l e p (with_phys m' k) va.
Proof.
  revert k va. induction bs as [|b bs IH]; intros k va Hu H0 Hlen Hva m'.
  - split; [|by destruct k, k_mm]. subst m'. simpl. by destruct k, k_mm.
  - cbn [length] in Hlen.
    destruct (vstore8_step cpunum base kp live fe l e p He k va b Hu ltac:(lia)) as [E U].
    cbn [vwrite]. rewrite run_bind, E. cbv beta iota. change UTOP with 0xEEC00000 in Hva.
    destruct bs as [|b' bs]; [split; [reflexivity|exact U]|]. cbn [length] in Hlen.
    destruct (IH _ (u32 (va + 1)) (user_page_move _ _ _ _ _ _ _ _ _ va (u32 (va + 1)) U ltac:(lia)
      (u32_range _) ltac:(rewrite u32_small; lia))) as [E' U'].
    + apply u32_range.
    + cbn [length]. rewrite u32_small; lia.
    + change UTOP with 0xEEC00000. rewrite u32_small; lia.
    + rewrite u32_small in E', U' by lia.
      replace (p * 4096 + (va + 1) mod 4096) with (p * 4096 + va mod 4096 + 1) in E', U' by lia.
      split; [rewrite u32_small by lia; exact E'|].
      apply (user_page_move _ _ _ _ _ _ _ _ _ (va + 1)); [exact U'|lia..].
Qed.

(** ** Between system calls *)

(** What a system call does not change in an environment unless it says so:
    everything but the saved registers, [env_runs] and [env_cpunum]. *)
Record env_kept (v v' : Env) : Prop := {
  kp_id : env_id v' = env_id v;
  kp_parent : env_parent_id v' = env_parent_id v;
  kp_type : env_type v' = env_type v;
  kp_status : env_status v' = env_status v;
  kp_pgdir : env_pgdir v' = env_pgdir v;
  kp_upcall : env_pgfault_upcall v' = env_pgfault_upcall v;
  kp_ipc : env_ipc_recving v' = env_ipc_recving v ∧ env_ipc_dstva v' = env_ipc_dstva v ∧
    env_ipc_value v' = env_ipc_value v ∧ env_ipc_from v' = env_ipc_from v ∧
    env_ipc_perm v' = env_ipc_perm v;
}.

#[export] Instance env_kept_preorder : PreOrder env_kept.
Proof.
  split; [by intros v; repeat split|].
  intros v1 v2 v3 [] [].
  split; try congruence. destruct kp_ipc0 as (? & ? & ? & ? & ?), kp_ipc1 as (? & ? & ? & ? & ?).
  splits; congruence.
Qed.

Section runs.
Context (cpunum e : Z) (cons_getc : K Z) (rcr2 eflags : Z) (uregs : Trapframe).
Context (others : stop → kst → option kst).
Context (base : Z → Z) (kp : Z).
(** The kernel runs with interrupts off; the frame is one of user mode. *)
Context (Hif : flag eflags FL_IF = false) (Hcs : Z.land (tf_cs uregs) 3 = 3).

(** [e] executes user code on this CPU. *)
Record user_runs (live fe l : list Z) (k : kst) : Prop := {
  us_inv : kernel_inv base kp live fe l k;
  us_ok : cpus_ok live k;
  us_cur : cpu_env (cpus k cpunum) = Some e;
  us_started : cpu_status (cpus k cpunum) ≠ CPU_HALTED;
  us_lock : locked (kernel_lock k) = false;
  us_status : env_status (envs k e) = ENV_RUNNING;
  us_cr3 : cpu_cr3 (cpus k cpunum) = dirof k e * 4096;
  us_self : tgt (phys (k_mm k)) (slot (dirof k e) (PDX UVPT)) = Some (dirof k e);
}.

Lemma us_live live fe l k : user_runs live fe l k → e ∈ live.
Proof. intros []. by apply (us_ok0 cpunum). Qed.

Notation int_syscall := (int_syscall cpunum e cons_getc rcr2 eflags uregs others).
Notation frame := (syscall_frame uregs).

Lemma us_trap live fe l k num a1 a2 a3 a4 a5 :
  user_runs live fe l k → user_trap cpunum eflags e (frame num a1 a2 a3 a4 a5) k.
Proof using Hif Hcs. intros []. by split. Qed.

(** The state in which the kernel handles the call. *)
Definition calling (num a1 a2 a3 a4 a5 : Z) (k : kst) : kst :=
  entered cpunum e (frame num a1 a2 a3 a4 a5) k.

Lemma calling_mm num a1 a2 a3 a4 a5 k : k_mm (calling num a1 a2 a3 a4 a5 k) = k_mm k.
Proof. reflexivity. Qed.
Lemma calling_env num a1 a2 a3 a4 a5 k x :
  env_kept (envs k x) (envs (calling num a1 a2 a3 a4 a5 k) x) ∧
  (x ≠ e → envs (calling num a1 a2 a3 a4 a5 k) x = envs k x).
Proof.
  unfold calling, entered. cbn [envs upd_env set_envs set_lock set_cpus].
  destruct (decide (e = x)) as [->|Hne].
  - rewrite upd_same. split; [by repeat split|done].
  - rewrite upd_other by exact Hne. done.
Qed.
Lemma calling_dirof num a1 a2 a3 a4 a5 k x : dirof (calling num a1 a2 a3 a4 a5 k) x = dirof k x.
Proof. unfold dirof. by rewrite (kp_pgdir _ _ (proj1 (calling_env num a1 a2 a3 a4 a5 k x))). Qed.
Lemma calling_inv num a1 a2 a3 a4 a5 live fe l k :
  user_runs live fe l k → kernel_inv base kp live fe l (calling num a1 a2 a3 a4 a5 k).
Proof. intros Hu. apply entered_inv; [apply Hu|by eapply us_live]. Qed.
Lemma calling_cur num a1 a2 a3 a4 a5 k : cpu_env (cpus (calling num a1 a2 a3 a4 a5 k) cpunum) = Some e.
Proof. apply entered_cur. Qed.

(** From the kernel's answer to the caller's. *)
Lemma int_run num a1 a2 a3 a4 a5 live fe l k live' fe' l' k1 r :
  user_runs live fe l k →
  syscall cpunum cons_getc num a1 a2 a3 a4 a5 (calling num a1 a2 a3 a4 a5 k) = (Ret r, k1) →
  kernel_inv base kp live' fe' l' k1 → (∀ x, x ∈ live → x ∈ live') →
  cpus k1 = cpus (calling num a1 a2 a3 a4 a5 k) →
  kernel_lock k1 = kernel_lock (calling num a1 a2 a3 a4 a5 k) →
  env_status (envs k1 e) = ENV_RUNNING →
  tgt (phys (k_mm k1)) (slot (dirof k1 e) (PDX UVPT)) = Some (dirof k1 e) →
  ∃ k', int_syscall num a1 a2 a3 a4 a5 k = (Ret (s32 r), k') ∧ user_runs live' fe' l' k' ∧
    phys (k_mm k') = phys (k_mm k1) ∧ pages (k_mm k') = pages (k_mm k1) ∧
    same_globals (k_mm k1) (k_mm k') ∧
    (∀ x, env_kept (envs k1 x) (envs k' x)) ∧ (∀ x, x ≠ e → env_tf (envs k' x) = env_tf (envs k1 x)).
Proof using Hif Hcs.
  intros Hu Esys H1 Hl Ecp Elk Hs Hself. pose proof (us_live _ _ _ _ Hu) as He.
  assert (cpus_ok live' k1) as Hok1.
  { intros c x. rewrite Ecp. intros Hx. apply Hl.
    exact (entered_cpus cpunum live e _ k (us_ok _ _ _ _ Hu) (us_cur _ _ _ _ Hu) c x Hx). }
  assert (cpu_env (cpus k1 cpunum) = Some e) as Hc1 by (rewrite Ecp; apply calling_cur).
  destruct (trap_syscall_run cpunum cons_getc rcr2 eflags base kp live' fe' l' e (frame num a1 a2 a3 a4 a5) k k1 r)
    as (k' & E & H' & R).
  - by eapply us_trap.
  - rewrite (us_status _ _ _ _ Hu). discriminate.
  - reflexivity.
  - exact Esys.
  - exact H1.
  - by apply Hl.
  - unfold lock_held. rewrite Elk. reflexivity.
  - exact Hc1.
  - exact Hs.
  - set (k2 := upd_env e (λ v, with_tf v (tf_set_eax r (env_tf v))) k1) in *.
    assert (cpu_env (cpus k2 cpunum) = Some e) as Hc2 by exact Hc1.
    assert (∀ x, env_kept (envs k1 x) (envs k2 x)) as K12.
    { intros x. unfold k2. cbn [envs upd_env set_envs]. rewrite upd_case. case_decide; subst; by repeat split. }
    assert (∀ x, env_kept (envs k2 x) (envs k' x)) as K23.
    { intros x. pose proof (rn_status _ _ _ _ _ R x) as Est. rewrite Hc2 in Est.
      destruct (rn_env _ _ _ _ _ R x) as (st & n & c & Ee).
      assert (env_status (envs k' x) = env_status (envs k2 x)) as Es.
      { rewrite Est. unfold run_status. case_decide as Hx; [subst x|].
        - unfold k2. cbn [envs upd_env set_envs]. rewrite upd_same. symmetry. exact Hs.
        - rewrite decide_False; [done|]. intros [[= ->] _]. done. }
      split; try exact Es; rewrite Ee; repeat split. }
    assert (∀ x, dirof k' x = dirof k1 x) as Ed.
    { intros x. unfold dirof. by rewrite (kp_pgdir _ _ (K23 x)), (kp_pgdir _ _ (K12 x)). }
    pose proof (rn_pages _ _ _ _ _ R) as [Epg _]. pose proof (rn_globals _ _ _ _ _ R) as Enp. pose proof (rn_phys _ _ _ _ _ R) as Eph.
    exists k'. split.
    { unfold int_syscall. rewrite run_bind, E. cbn [back]. rewrite Z.eqb_refl. cbv beta iota.
      rewrite run_bind. unfold get_env. rewrite run_gets. rewrite run_ret. do 2 f_equal.
      rewrite (proj2 (proj2 (rn_id _ _ _ _ _ R e))). unfold k2. cbn [envs upd_env set_envs]. rewrite upd_same.
      apply s32_cong. apply u32_u32. }
    split; [split|].
    + exact H'.
    + by apply (rn_ok _ _ _ _ _ R).
    + exact (rn_cur _ _ _ _ _ R).
    + rewrite (rn_started _ _ _ _ _ R). change (cpus k2) with (cpus k1). rewrite Ecp.
      unfold calling, entered. simpl. rewrite upd_same. discriminate.
    + by rewrite (rn_lock _ _ _ _ _ R).
    + rewrite (kp_status _ _ (K23 e)), (kp_status _ _ (K12 e)). exact Hs.
    + rewrite (rn_cr3 _ _ _ _ _ R), Ed. unfold dirof. by rewrite (kp_pgdir _ _ (K12 e)).
    + rewrite Eph, Ed. exact Hself.
    + splits; [exact Eph|exact Epg|exact Enp| |].
      * intros x. transitivity (envs k2 x); [apply K12|apply K23].
      * intros x Hx. rewrite (proj2 (proj2 (rn_id _ _ _ _ _ R x))). unfold k2.
        cbn [envs upd_env set_envs]. by rewrite upd_other by congruence.
Qed.
(** ** The page system calls *)

(** A call that changed no memory. *)
Record idle_call (live fe l : list Z) (k k' : kst) : Prop := {
  ic_runs : user_runs live fe l k';
  ic_phys : phys (k_mm k') = phys (k_mm k);
  ic_pages : pages (k_mm k') = pages (k_mm k);
  ic_globals : same_globals (k_mm k) (k_mm k');
  ic_envs : ∀ x, env_kept (envs k x) (envs k' x);
  ic_tf : ∀ x, x ≠ e → env_tf (envs k' x) = env_tf (envs k x);
}.

(** A call after which [va] of environment [x] maps [new]. *)
Record page_call (live fe l l' : list Z) (x va : Z) (new : option Z) (k k' : kst) : Prop := {
  pg_runs : user_runs live fe l' k';
  pg_new : lookup_pte (phys (k_mm k')) (dirof k x) va = new;
  pg_frame : pt_frame (dirof k <$> live) l (dirof k x) va (k_mm k) (k_mm k');
  pg_envs : ∀ y, env_kept (envs k y) (envs k' y);
  pg_tf : ∀ y, y ≠ e → env_tf (envs k' y) = env_tf (envs k y);
}.

Lemma kept_dirof k k' x : env_kept (envs k x) (envs k' x) → dirof k' x = dirof k x.
Proof. intros K. unfold dirof. by rewrite (kp_pgdir _ _ K). Qed.
Lemma kept_dirs k k' (live : list Z) : (∀ x, env_kept (envs k x) (envs k' x)) → dirof k' <$> live = dirof k <$> live.
Proof. intros K. apply list_fmap_ext. intros ? x _. by apply kept_dirof. Qed.
Lemma target_ext k k' envid :
  (∀ x, env_id (envs k' x) = env_id (envs k x) ∧ env_status (envs k' x) = env_status (envs k x) ∧
        env_parent_id (envs k' x) = env_parent_id (envs k x)) → target k' e envid = target k e envid.
Proof.
  intros K. unfold target. case_decide; [done|].
  assert (may_name k' e envid true ↔ may_name k e envid true) as Em.
  { unfold may_name. destruct (K (ENVX envid)) as (-> & -> & ->). by rewrite (proj1 (K e)). }
  case_decide; case_decide; naive_solver.
Qed.
Lemma kept_target k k' envid :
  (∀ x, env_kept (envs k x) (envs k' x)) → target k' e envid = target k e envid.
Proof. intros K. apply target_ext. intros x. by destruct (K x). Qed.

Lemma int_idle num a1 a2 a3 a4 a5 live fe l k r :
  user_runs live fe l k →
  syscall cpunum cons_getc num a1 a2 a3 a4 a5 (calling num a1 a2 a3 a4 a5 k) =
    (Ret r, calling num a1 a2 a3 a4 a5 k) →
  ∃ k', int_syscall num a1 a2 a3 a4 a5 k = (Ret (s32 r), k') ∧ idle_call live fe l k k'.
Proof using Hif Hcs.
  intros Hu Es. destruct (int_run num a1 a2 a3 a4 a5 live fe l k live fe l _ r Hu Es)
    as (k' & E & Hu' & Eph & Epg & G & K & T); try done.
  - by apply calling_inv.
  - rewrite (kp_status _ _ (proj1 (calling_env _ _ _ _ _ _ k e))). by apply (us_status _ _ _ _ Hu).
  - rewrite calling_dirof. exact (us_self _ _ _ _ Hu).
  - exists k'. split; [exact E|]. split; try done.
    + intros x. etransitivity; [apply calling_env|apply K].
    + intros x Hx. rewrite T by exact Hx. f_equal. by apply calling_env.
Qed.

Lemma self_map_kept live l d va s s' d' :
  pt_frame live l d va s s' → d' ∈ live →
  tgt (phys s) (slot d' (PDX UVPT)) = Some d' → tgt (phys s') (slot d' (PDX UVPT)) = Some d'.
Proof.
  intros F Hd. unfold tgt. rewrite (pf_kern _ _ _ _ _ _ F d' (PDX UVPT) Hd); [done|].
  change (PDX UVPT) with 957. unfold UPDX. lia.
Qed.

Lemma pt_frame_ext dirs l d va s s' s'' :
  pt_frame dirs l d va s s' → phys s'' = phys s' → same_globals s' s'' → pt_frame dirs l d va s s''.
Proof. intros [] E G. split; rewrite ?E; try done. by transitivity s'. Qed.

Lemma int_page num a1 a2 a3 a4 a5 live fe l k l' k1 x va new :
  user_runs live fe l k →
  syscall cpunum cons_getc num a1 a2 a3 a4 a5 (calling num a1 a2 a3 a4 a5 k) = (Ret 0, k1) →
  remapped base kp live fe l x va new (calling num a1 a2 a3 a4 a5 k) l' k1 →
  ∃ k', int_syscall num a1 a2 a3 a4 a5 k = (Ret 0, k') ∧ page_call live fe l l' x va new k k' ∧
    phys (k_mm k') = phys (k_mm k1) ∧ pages (k_mm k') = pages (k_mm k1).
Proof using Hif Hcs.
  intros Hu Es [H1 Er Hn F]. set (kc := calling num a1 a2 a3 a4 a5 k) in *.
  assert (∀ y, dirof k1 y = dirof k y) as Ed1.
  { intros y. rewrite Er. exact (calling_dirof num a1 a2 a3 a4 a5 k y). }
  pose proof (us_live _ _ _ _ Hu) as He.
  assert (dirof kc <$> live = dirof k <$> live) as EdL.
  { apply list_fmap_ext. intros ? y _. apply calling_dirof. }
  rewrite EdL in F. assert (dirof kc x = dirof k x) as Edx by apply calling_dirof.
  rewrite Edx in Hn, F.
  destruct (int_run num a1 a2 a3 a4 a5 live fe l k live fe l' k1 0 Hu Es H1)
    as (k' & E & Hu' & Eph & Epg & G & K & T); [done|by rewrite Er|by rewrite Er| | |].
  - rewrite Er. change (env_status (envs kc e) = ENV_RUNNING).
    etransitivity; [exact (kp_status _ _ (proj1 (calling_env num a1 a2 a3 a4 a5 k e)))|].
    by apply (us_status _ _ _ _ Hu).
  - rewrite Ed1. apply (self_map_kept _ _ _ _ _ _ _ F); [by apply ke_dir|]. exact (us_self _ _ _ _ Hu).
  - exists k'. split; [exact E|]. split; [|done].
    assert (∀ y, envs k1 y = envs kc y) as Ee by (intros y; by rewrite Er).
    split.
    + exact Hu'.
    + by rewrite Eph.
    + exact (pt_frame_ext _ _ _ _ _ _ _ F Eph G).
    + intros y. etransitivity; [apply (calling_env num a1 a2 a3 a4 a5 k)|]. fold kc. rewrite <- Ee. apply K.
    + intros y Hy. rewrite T by exact Hy. rewrite Ee. f_equal. by apply calling_env.
Qed.

(** A call that only updates an environment. *)
Record update_call (live fe l : list Z) (x : Z) (f : Env → Env) (v : Env) (k k' : kst) : Prop := {
  uc_runs : user_runs live fe l k';
  uc_phys : phys (k_mm k') = phys (k_mm k);
  uc_pages : pages (k_mm k') = pages (k_mm k);
  uc_globals : same_globals (k_mm k) (k_mm k');
  uc_new : env_kept (f v) (envs k' x) ∧ (x ≠ e → env_tf (envs k' x) = env_tf (f v));
  uc_envs : ∀ y, y ≠ x → env_kept (envs k y) (envs k' y);
  uc_tf : ∀ y, y ≠ e → y ≠ x → env_tf (envs k' y) = env_tf (envs k y);
}.

Lemma int_update num a1 a2 a3 a4 a5 live fe l k x f :
  let v := envs (calling num a1 a2 a3 a4 a5 k) x in
  user_runs live fe l k → x ∈ live →
  syscall cpunum cons_getc num a1 a2 a3 a4 a5 (calling num a1 a2 a3 a4 a5 k) =
    (Ret 0, upd_env x f (calling num a1 a2 a3 a4 a5 k)) →
  env_id (f v) = env_id v → env_pgdir (f v) = env_pgdir v →
  ENV_DYING ≤ env_status (f v) ≤ ENV_NOT_RUNNABLE → (x = e → env_status (f v) = ENV_RUNNING) →
  ∃ k', int_syscall num a1 a2 a3 a4 a5 k = (Ret 0, k') ∧ update_call live fe l x f v k k'.
Proof using Hif Hcs.
  intros v Hu Hx Es Hid Hpd Hst Hse. set (kc := calling num a1 a2 a3 a4 a5 k) in *.
  set (k1 := upd_env x f kc) in *.
  assert (∀ y, envs k1 y = if decide (x = y) then f v else envs kc y) as Ee.
  { intros y. unfold k1. cbn [envs upd_env set_envs]. rewrite upd_case. by case_decide; subst. }
  assert (∀ y, dirof k1 y = dirof k y) as Ed.
  { intros y. transitivity (dirof kc y); [|apply calling_dirof]. unfold dirof. rewrite Ee. case_decide; [|done].
    subst y. by rewrite Hpd. }
  assert (kernel_inv base kp live fe l k1) as H1.
  { apply ke_upd_env; [by apply calling_inv|exact Hx|exact Hst|exact Hid|exact Hpd]. }
  destruct (int_run num a1 a2 a3 a4 a5 live fe l k live fe l k1 0 Hu Es H1)
    as (k' & E & Hu' & Eph & Epg & G & K & T); [done|done|done| | |].
  - rewrite Ee. case_decide as Hc; [by apply Hse|].
    etransitivity; [exact (kp_status _ _ (proj1 (calling_env num a1 a2 a3 a4 a5 k e)))|].
    by apply (us_status _ _ _ _ Hu).
  - rewrite Ed. exact (us_self _ _ _ _ Hu).
  - exists k'. split; [exact E|]. split; [exact Hu'|exact Eph|exact Epg|exact G| | |].
    + pose proof (K x) as Kx. rewrite Ee, decide_True in Kx by done. split; [exact Kx|].
      intros Hxe. rewrite (T x Hxe), Ee. by rewrite decide_True.
    + intros y Hy. etransitivity; [apply (calling_env num a1 a2 a3 a4 a5 k)|]. fold kc.
      pose proof (K y) as Ky. rewrite Ee, decide_False in Ky by congruence. exact Ky.
    + intros y Hy Hyx. rewrite (T y Hy), Ee, decide_False by congruence.
      f_equal. by apply calling_env.
Qed.

Lemma usyscall_ok num check a1 a2 a3 a4 a5 k r k' :
  int_syscall num a1 a2 a3 a4 a5 k = (Ret r, k') → r ≤ 0 →
  usyscall cpunum e cons_getc rcr2 eflags uregs others num check a1 a2 a3 a4 a5 k = (Ret r, k').
Proof using.
  clear base. intros E Hr. unfold usyscall. rewrite run_bind, E. cbv beta iota.
  destruct (Z.ltb_spec 0 r); [lia|]. rewrite andb_false_r. reflexivity.
Qed.
End runs.
