(* ===== verification/ForkSpec.v ===== *)
(** * Copy-on-write

    The page system calls as lib/fork.c uses them, the page tables read through
    the self mapping, and what [pgfault] does to a copy-on-write page. *)
From S2P Require Import Prelude Monad Word Layout Mem CString PageAlloc PageTable PageInv PageOps PageDirs Seg KState Env EnvMem KInv EnvSpec Sched SchedSpec UserMem Syscall Trap UserStore TrapSpec SysSpec MemInit UserLib UserSpec.

Lemma s32_u32 x : s32 (u32 x) = s32 x.
Proof. apply s32_cong, u32_u32. Qed.

Section fork.
Context (cpunum e : Z) (cons_getc : K Z) (rcr2 eflags : Z) (uregs : Trapframe).
Context (others : stop → kst → option kst).
Context (base : Z → Z) (kp : Z).
Context (Hif : flag eflags FL_IF = false) (Hcs : Z.land (tf_cs uregs) 3 = 3).
Notation user_runs := (user_runs cpunum e base kp).
Notation page_call := (page_call cpunum e base kp).
Notation idle_call := (idle_call cpunum e base kp).
Notation map_call := (usys_page_map cpunum e cons_getc rcr2 eflags uregs others).
Notation alloc_call := (usys_page_alloc cpunum e cons_getc rcr2 eflags uregs others).
Notation unmap_call := (usys_page_unmap cpunum e cons_getc rcr2 eflags uregs others).

(** ** The calls *)

Definition id_range (envid : Z) : Prop := 0 ≤ envid < 2147483648.

(** No page is mapped so often that its count could overflow. *)
Definition refs_small (k : kst) : Prop :=
  ∀ p, 0 ≤ p < npages (k_mm k) → pp_ref (pages (k_mm k) p) < 65535.

Lemma usys_page_map_run live fe l k srcenv es srcva dstenv ed dstva perm pte :
  user_runs live fe l k → target k e srcenv = Some es → target k e dstenv = Some ed →
  id_range srcenv → id_range dstenv → 0 ≤ srcva < 4294967296 → 0 ≤ dstva < 4294967296 →
  bad_va srcva = false → bad_va dstva = false → bad_perm perm = false → refs_small k →
  lookup_pte (phys (k_mm k)) (dirof k es) srcva = Some pte →
  let R := map_call srcenv srcva dstenv dstva perm k in
  if negb (flag pte PTE_W) && flag perm PTE_W
  then ∃ k', R = (Ret (- E_INVAL), k') ∧ idle_call live fe l k k'
  else
    (l = [] ∧ lookup_pte (phys (k_mm k)) (dirof k ed) dstva = None ∧
     ∃ k', R = (Ret (- E_INVAL), k') ∧ idle_call live fe l k k') ∨
    ∃ k' l', R = (Ret 0, k') ∧
      page_call live fe l l' ed dstva (Some (pte / 4096 * 4096 + perm)) k k' ∧
      pt_cost (dirof k <$> live) l (dirof k ed) dstva (pte / 4096) (k_mm k) l' (k_mm k').
Proof using Hif Hcs.
  intros Hu Hs Hd Hsr Hdr Hsva Hdva Hbs Hbd Hbp Href Hl R.
  pose proof (bad_perm_false perm Hbp) as (Hperm & _).
  set (kc := calling cpunum e uregs SYS_page_map (u32 srcenv) srcva (u32 dstenv) dstva (u32 perm) k).
  assert (∀ x, env_kept (envs k x) (envs kc x)) as Kc by (intros x; apply calling_env).
  assert (∀ x, dirof kc x = dirof k x) as Edc by (intros x; by apply kept_dirof).
  pose proof (sys_page_map_run cpunum base kp live fe l kc e srcenv srcva dstenv dstva perm
    (calling_inv cpunum e uregs base kp _ _ _ _ _ _ live fe l k Hu) (calling_cur _ _ _ _ _ _ _ _ _ _)
    (us_live _ _ _ _ _ _ _ _ Hu) Hsva Hdva Href) as HR.
  cbv zeta in HR. rewrite !(kept_target _ _ _ _ Kc), Hs, Hd, Hbs, Hbd, Hbp in HR. cbn [orb] in HR.
  change (k_mm kc) with (k_mm k) in HR. rewrite !Edc, Hl in HR.
  assert (syscall cpunum cons_getc SYS_page_map (u32 srcenv) srcva (u32 dstenv) dstva (u32 perm) kc =
          sys_page_map cpunum srcenv srcva dstenv dstva perm kc) as Esys.
  { change (sys_page_map cpunum (s32 (u32 srcenv)) srcva (s32 (u32 dstenv)) dstva (s32 (u32 perm)) kc =
            sys_page_map cpunum srcenv srcva dstenv dstva perm kc).
    unfold id_range in *. rewrite !s32_u32, !s32_small by lia. reflexivity. }
  assert (∀ k0, sys_page_map cpunum srcenv srcva dstenv dstva perm kc = (Ret (- E_INVAL), kc) → k0 = k →
    ∃ k', R = (Ret (- E_INVAL), k') ∧ idle_call live fe l k0 k') as Hinval.
  { intros k0 E ->. rewrite <- Esys in E.
    destruct (int_idle cpunum e cons_getc rcr2 eflags uregs others base kp Hif Hcs _ _ _ _ _ _ live fe l k _ Hu E)
      as (k' & E' & I). exists k'. split; [|exact I].
    unfold R, usys_page_map. rewrite (usyscall_ok cpunum e cons_getc rcr2 eflags uregs others _ true _ _ _ _ _ k _ k' E'); [reflexivity|].
    vm_compute. discriminate. }
  destruct (negb (flag pte PTE_W) && flag perm PTE_W); [by apply Hinval|].
  destruct HR as [(El & Hn & E)|(k1 & l' & E & Hr & C)].
  - left. splits; [exact El|exact Hn|by apply Hinval].
  - right. rewrite <- Esys in E.
    destruct (int_page cpunum e cons_getc rcr2 eflags uregs others base kp Hif Hcs _ _ _ _ _ _ live fe l k l' k1 ed dstva
      _ Hu E Hr) as (k' & E' & Hp & Eph & Epg).
    exists k', l'. splits; [|exact Hp|].
    { unfold R, usys_page_map. by rewrite (usyscall_ok cpunum e cons_getc rcr2 eflags uregs others _ true _ _ _ _ _ k _ k' E'). }
    replace (dirof kc <$> live) with (dirof k <$> live) in C by (symmetry; by apply kept_dirs).
    destruct C as [C1 C2 C3]. split; rewrite ?Eph, ?Epg; [exact C1|exact C2|exact C3].
Qed.

(** With a free page, and another one if a table may be needed. *)
Lemma usys_page_alloc_run live fe p l0 k envid x va perm :
  user_runs live fe (p :: l0) k → target k e envid = Some x → id_range envid →
  0 ≤ va < 4294967296 → bad_va va = false → bad_perm perm = false →
  l0 ≠ [] ∨ lookup_pte (phys (k_mm k)) (dirof k x) va ≠ None →
  ∃ k' l', alloc_call envid va perm k = (Ret 0, k') ∧
    page_call live fe (p :: l0) l' x va (Some (p * 4096 + perm)) k k' ∧
    (∀ a, a / 4096 = p → load8 (phys (k_mm k')) a = 0) ∧
    pt_cost (dirof k <$> live) l0 (dirof k x) va p (k_mm k) l' (k_mm k').
Proof using Hif Hcs.
  intros Hu Ht Hr Hva Hbv Hbp Hroom.
  pose proof (bad_perm_false perm Hbp) as (Hperm & _).
  set (kc := calling cpunum e uregs SYS_page_alloc (u32 envid) va (u32 perm) 0 0 k).
  assert (∀ x, env_kept (envs k x) (envs kc x)) as Kc by (intros y; apply calling_env).
  assert (∀ x, dirof kc x = dirof k x) as Edc by (intros y; by apply kept_dirof).
  pose proof (sys_page_alloc_run cpunum base kp live fe (p :: l0) kc e envid va perm
    (calling_inv cpunum e uregs base kp _ _ _ _ _ _ live fe _ k Hu) (calling_cur _ _ _ _ _ _ _ _ _ _)
    (us_live _ _ _ _ _ _ _ _ Hu) Hva) as HR.
  cbv zeta in HR. rewrite (kept_target _ _ _ _ Kc), Ht, Hbv, Hbp in HR. cbn [orb] in HR.
  change (k_mm kc) with (k_mm k) in HR. rewrite !Edc in HR.
  destruct HR as [(-> & Hn & _)|(k1 & l' & E & Hrm & Hz & C)]; [exfalso; destruct Hroom; congruence|].
  assert (syscall cpunum cons_getc SYS_page_alloc (u32 envid) va (u32 perm) 0 0 kc = (Ret 0, k1)) as Esys.
  { rewrite <- E. change (sys_page_alloc cpunum (s32 (u32 envid)) va (s32 (u32 perm)) kc =
            sys_page_alloc cpunum envid va perm kc).
    unfold id_range in *. rewrite !s32_u32, !s32_small by lia. reflexivity. }
  destruct (int_page cpunum e cons_getc rcr2 eflags uregs others base kp Hif Hcs _ _ _ _ _ _ live fe _ k l' k1 x va
    _ Hu Esys Hrm) as (k' & E' & Hp & Eph & Epg).
  exists k', l'. splits; [|exact Hp|by rewrite Eph|].
  - unfold usys_page_alloc. by rewrite (usyscall_ok cpunum e cons_getc rcr2 eflags uregs others _ true _ _ _ _ _ k _ k' E').
  - replace (dirof kc <$> live) with (dirof k <$> live) in C by (symmetry; by apply kept_dirs).
    destruct C as [C1 C2 C3]. split; rewrite ?Eph, ?Epg; [exact C1|exact C2|exact C3].
Qed.

Lemma usys_page_unmap_run live fe l k envid x va :
  user_runs live fe l k → target k e envid = Some x → id_range envid →
  0 ≤ va < 4294967296 → bad_va va = false →
  ∃ k' l', unmap_call envid va k = (Ret 0, k') ∧ page_call live fe l l' x va None k k' ∧
    (length l ≤ length l')%nat ∧ ∀ p, pp_ref (pages (k_mm k') p) ≤ pp_ref (pages (k_mm k) p).
Proof using Hif Hcs.
  intros Hu Ht Hr Hva Hbv.
  set (kc := calling cpunum e uregs SYS_page_unmap (u32 envid) va 0 0 0 k).
  assert (∀ x, env_kept (envs k x) (envs kc x)) as Kc by (intros y; apply calling_env).
  pose proof (sys_page_unmap_run cpunum base kp live fe l kc e envid va
    (calling_inv cpunum e uregs base kp _ _ _ _ _ _ live fe _ k Hu) (calling_cur _ _ _ _ _ _ _ _ _ _)
    (us_live _ _ _ _ _ _ _ _ Hu) Hva) as HR.
  cbv zeta in HR. rewrite (kept_target _ _ _ _ Kc), Ht, Hbv in HR.
  destruct HR as (k1 & l' & E & Hrm & _ & Hlen & Href).
  assert (syscall cpunum cons_getc SYS_page_unmap (u32 envid) va 0 0 0 kc = (Ret 0, k1)) as Esys.
  { rewrite <- E. change (sys_page_unmap cpunum (s32 (u32 envid)) va kc = sys_page_unmap cpunum envid va kc).
    unfold id_range in *. rewrite !s32_u32, !s32_small by lia. reflexivity. }
  destruct (int_page cpunum e cons_getc rcr2 eflags uregs others base kp Hif Hcs _ _ _ _ _ _ live fe _ k l' k1 x va
    _ Hu Esys Hrm) as (k' & E' & Hp & _ & Epg).
  exists k', l'. splits; [|exact Hp|exact Hlen|by rewrite Epg].
  unfold usys_page_unmap. by rewrite (usyscall_ok cpunum e cons_getc rcr2 eflags uregs others _ true _ _ _ _ _ k _ k' E').
Qed.

(** ** The page tables at UVPT *)

Lemma uvpd_run live fe l k i :
  user_runs live fe l k → 0 ≤ i < 1024 →
  uvpd_at cpunum i k = (Ret (load32 (phys (k_mm k)) (slot (dirof k e) i)), k).
Proof.
  intros Hu Hi. unfold uvpd_at. change uvpd with 0xEF7BD000. rewrite u32_small by lia.
  apply vload32_run; [lia..|]. intros j Hj. rewrite (us_cr3 _ _ _ _ _ _ _ _ Hu).
  pose proof (us_self _ _ _ _ _ _ _ _ Hu) as Hself. change (PDX UVPT) with 957 in Hself.
  set (d := dirof k e) in *. set (m := phys (k_mm k)) in *.
  assert (load32 m (slot d 957) / 4096 = d ∧ flag (load32 m (slot d 957)) PTE_P = true) as [Hd Hf].
  { apply tgt_Some in Hself. destruct Hself. split; [by symmetry|done]. }
  rewrite (vtrans_read m d _ (load32 m (slot d 957))).
  - rewrite Hd. f_equal. unfold slot. lia.
  - change KERNBASE with 0xF0000000. lia.
  - unfold lookup_pte.
    replace (PDX (0xEF7BD000 + 4 * i + j)) with 957 by (rewrite PDX_div, u32_small by lia; lia).
    replace (PTX (0xEF7BD000 + 4 * i + j)) with 957 by (rewrite PTX_div, u32_small by lia; lia).
    rewrite Hself. simpl. by rewrite Hf.
Qed.

Lemma uvpt_run live fe l k va t :
  user_runs live fe l k → 0 ≤ va < UTOP → walks (phys (k_mm k)) (dirof k e) va t →
  uvpt_at cpunum (va / 4096) k = (Ret (load32 (phys (k_mm k)) (slot t (PTX va))), k).
Proof.
  intros Hu Hva Hw. unfold uvpt_at. change uvpt with 0xEF400000. change UTOP with 0xEEC00000 in Hva.
  rewrite u32_small by lia.
  apply vload32_run; [lia..|]. intros j Hj. rewrite (us_cr3 _ _ _ _ _ _ _ _ Hu).
  pose proof (us_self _ _ _ _ _ _ _ _ Hu) as Hself. change (PDX UVPT) with 957 in Hself.
  set (d := dirof k e) in *. set (m := phys (k_mm k)) in *.
  assert (load32 m (slot d (PDX va)) / 4096 = t ∧ flag (load32 m (slot d (PDX va))) PTE_P = true) as [Ht Hf].
  { apply tgt_Some in Hw. destruct Hw. split; [by symmetry|done]. }
  rewrite (vtrans_read m d _ (load32 m (slot d (PDX va)))).
  - rewrite Ht. f_equal. unfold slot. rewrite PTX_div, u32_small by lia. lia.
  - change KERNBASE with 0xF0000000. lia.
  - unfold lookup_pte.
    replace (PDX (0xEF400000 + 4 * (va / 4096) + j)) with 957 by (rewrite PDX_div, u32_small by lia; lia).
    replace (PTX (0xEF400000 + 4 * (va / 4096) + j)) with (PDX va)
      by (rewrite PTX_div, PDX_div, !u32_small by lia; lia).
    rewrite Hself. simpl. by rewrite Hf.
Qed.

Lemma uvpt_mapped live fe l k va pte :
  user_runs live fe l k → 0 ≤ va < UTOP → lookup_pte (phys (k_mm k)) (dirof k e) va = Some pte →
  uvpt_at cpunum (va / 4096) k = (Ret pte, k).
Proof.
  intros Hu Hva Hl. destruct (lookup_pte_flag _ _ _ _ Hl) as (_ & _ & t & Hw & ->).
  by apply (uvpt_run live fe l).
Qed.

(** ** What a page call keeps *)

Lemma page_call_dirof live fe l l' x va new k k' y :
  page_call live fe l l' x va new k k' → dirof k' y = dirof k y.
Proof. intros P. apply kept_dirof. apply (pg_envs _ _ _ _ _ _ _ _ _ _ _ _ _ P). Qed.

Lemma page_call_lookup live fe l l' x va new k k' y v :
  page_call live fe l l' x va new k k' → y ∈ live → PDX v < UPDX →
  ¬ same_slot (dirof k x) va (dirof k y) v →
  lookup_pte (phys (k_mm k')) (dirof k y) v = lookup_pte (phys (k_mm k)) (dirof k y) v.
Proof.
  intros P Hy Hv Hn. apply (pf_lookup _ _ _ _ _ _ (pg_frame _ _ _ _ _ _ _ _ _ _ _ _ _ P)); [|exact Hv|exact Hn].
  by apply ke_dir.
Qed.

(** Mapped pages keep their contents. *)
Lemma page_call_data live fe l l' x va new k k' y v pte a :
  user_runs live fe l k → page_call live fe l l' x va new k k' → y ∈ live → PDX v < UPDX →
  lookup_pte (phys (k_mm k)) (dirof k y) v = Some pte → a / 4096 = pte / 4096 →
  load8 (phys (k_mm k')) a = load8 (phys (k_mm k)) a.
Proof.
  intros Hu P Hy Hv Hl Ha.
  destruct (mapped_page base kp live fe l k y v pte (us_inv _ _ _ _ _ _ _ _ Hu) Hy Hv Hl) as (_ & Hpl & Hpd).
  apply (pf_data _ _ _ _ _ _ (pg_frame _ _ _ _ _ _ _ _ _ _ _ _ _ P)); by rewrite Ha.
Qed.

(** Stores to a page of the environment. *)
Lemma user_runs_with_phys live fe l k p va m' :
  user_runs live fe l k → user_page cpunum base kp live fe l e p k va → PDX va < UPDX →
  (∀ a, a / 4096 ≠ p → load8 m' a = load8 (phys (k_mm k)) a) →
  user_runs live fe l (with_phys m' k) ∧
  (∀ y v, y ∈ live → PDX v < UPDX →
     lookup_pte m' (dirof k y) v = lookup_pte (phys (k_mm k)) (dirof k y) v).
Proof.
  intros Hu Hp Hva Hm. pose proof (us_live _ _ _ _ _ _ _ _ Hu) as He.
  pose proof (user_page_private cpunum base kp live fe l e p He k va Hp Hva) as Hpd.
  destruct (user_page_with_phys cpunum base kp live fe l e p He k va m' Hp Hva Hm) as [[Hi _ _] Hl].
  split; [|exact Hl]. destruct Hu. split; try assumption.
  unfold tgt. change (phys (k_mm (with_phys m' k))) with m'. change (dirof (with_phys m' k) e) with (dirof k e).
  rewrite (load32_same_page (phys (k_mm k)) m'); [exact us_self|change (PDX UVPT) with 957; lia|].
  intros a Ha. apply Hm. rewrite Ha. intros <-. apply Hpd, elem_of_app. left. by apply ke_dir.
Qed.

(** ** pgfault *)

Notation pgfault := (pgfault cpunum e cons_getc rcr2 eflags uregs others).

Lemma target_self k : target k e 0 = Some e.
Proof. reflexivity. Qed.

(** Copying the page at [PFTEMP] to the writable page at [addr]. *)
Lemma copy_run live fe l k addr p q :
  user_runs live fe l k → 0 ≤ addr < UTOP → addr mod 4096 = 0 →
  lookup_pte (phys (k_mm k)) (dirof k e) addr = Some (p * 4096 + 7) →
  (∃ f, lookup_pte (phys (k_mm k)) (dirof k e) PFTEMP = Some (q * 4096 + f) ∧ 0 ≤ f < 4096) →
  ∃ m', vmemmove cpunum addr PFTEMP PGSIZE k = (Ret tt, with_phys m' k) ∧
    user_runs live fe l (with_phys m' k) ∧
    (∀ i, 0 ≤ i < 4096 → load8 m' (p * 4096 + i) = load8 (phys (k_mm k)) (q * 4096 + i)) ∧
    (∀ a, a / 4096 ≠ p → load8 m' a = load8 (phys (k_mm k)) a) ∧
    (∀ y v, y ∈ live → PDX v < UPDX →
       lookup_pte m' (dirof k y) v = lookup_pte (phys (k_mm k)) (dirof k y) v).
Proof.
  intros Hu Ha Hal Hp (f & Hq & Hf). pose proof (us_live _ _ _ _ _ _ _ _ Hu) as He.
  set (bs := load_bytes (phys (k_mm k)) (q * 4096) 4096).
  assert (user_page cpunum base kp live fe l e p k addr) as Hup.
  { split; [apply Hu|apply Hu|]. exists (p * 4096 + 7). splits; [exact Hp| |lia].
    rewrite flag_page by (unfold PTE_W; lia). reflexivity. }
  assert (length bs = 4096%nat) as Hlen by apply load_bytes_length.
  pose proof (vread_run cpunum k (dirof k e) q 4096 PFTEMP _ (us_cr3 _ _ _ _ _ _ _ _ Hu) Hq ltac:(lia)) as Er.
  specialize (Er ltac:(vm_compute; discriminate) ltac:(vm_compute; discriminate) ltac:(vm_compute; discriminate)).
  change (PFTEMP mod 4096) with 0 in Er. rewrite Z.add_0_r in Er. fold bs in Er.
  destruct (vwrite_run cpunum base kp live fe l e p He bs k addr Hup) as [Ew _];
    [lia|rewrite Hlen; lia|lia|].
  rewrite Hal, Z.add_0_r in Ew. set (m' := store_bytes (phys (k_mm k)) (p * 4096) bs) in *.
  assert (∀ a, a / 4096 ≠ p → load8 m' a = load8 (phys (k_mm k)) a) as Hoth.
  { intros a Hap. apply store_bytes_other. rewrite Hlen. lia. }
  destruct (user_runs_with_phys live fe l k p addr m' Hu Hup (PDX_user addr Ha) Hoth) as [Hu' Hl].
  exists m'. splits; [|exact Hu'| |exact Hoth|exact Hl].
  - unfold vmemmove. change (Z.to_nat PGSIZE) with 4096%nat. rewrite run_bind, Er. cbv beta iota. exact Ew.
  - intros i Hi. apply store_load_bytes. exact Hi.
Qed.

(** [va] of [e], which was mapped by [pte], is now its own writable copy [p];
    only the temporary mapping is gone. *)
Record private_copy (live : list Z) (va pte p : Z) (k k' : kst) : Prop := {
  pv_map : lookup_pte (phys (k_mm k')) (dirof k e) va = Some (p * 4096 + 7);
  pv_copy : ∀ i, 0 ≤ i < 4096 →
    load8 (phys (k_mm k')) (p * 4096 + i) = load8 (phys (k_mm k)) (pte / 4096 * 4096 + i);
  pv_only : ∀ y v pte', y ∈ live → PDX v < UPDX →
    lookup_pte (phys (k_mm k')) (dirof k y) v = Some pte' → pte' / 4096 = p →
    same_slot (dirof k e) va (dirof k y) v;
  pv_temp : lookup_pte (phys (k_mm k')) (dirof k e) PFTEMP = None;
  pv_others : ∀ y v, y ∈ live → PDX v < UPDX →
    ¬ same_slot (dirof k e) va (dirof k y) v → ¬ same_slot (dirof k e) PFTEMP (dirof k y) v →
    lookup_pte (phys (k_mm k')) (dirof k y) v = lookup_pte (phys (k_mm k)) (dirof k y) v;
  pv_data : ∀ y v pte' i, y ∈ live → PDX v < UPDX →
    lookup_pte (phys (k_mm k)) (dirof k y) v = Some pte' →
    ¬ same_slot (dirof k e) PFTEMP (dirof k y) v → 0 ≤ i < 4096 →
    load8 (phys (k_mm k')) (pte' / 4096 * 4096 + i) = load8 (phys (k_mm k)) (pte' / 4096 * 4096 + i);
  pv_envs : ∀ y, env_kept (envs k y) (envs k' y);
  pv_fresh : pte / 4096 ≠ p;
  pv_refs : ∀ q, pp_ref (pages (k_mm k') q) ≤ Z.max 2 (pp_ref (pages (k_mm k) q) + 1);
  pv_globals : same_globals (k_mm k) (k_mm k');
  pv_tf : ∀ y, y ≠ e → env_tf (envs k' y) = env_tf (envs k y);
}.

(** Where something is mapped, there is a page table. *)
Lemma mapped_needs m d va pte : lookup_pte m d va = Some pte → needs m d va = 0.
Proof.
  intros Hl. destruct (lookup_pte_flag _ _ _ _ Hl) as (_ & _ & t & Hw & _). unfold needs, walks in *. by rewrite Hw.
Qed.

(** The four steps, for a page-aligned address. *)
Lemma pgfault_steps live fe l k addr pte :
  user_runs live fe l k → 0 ≤ addr < UTOP → addr mod 4096 = 0 → addr ≠ PFTEMP →
  lookup_pte (phys (k_mm k)) (dirof k e) addr = Some pte → refs_small k → (2 ≤ length l)%nat →
  ∃ k1 l1 k2 l2 m k4 l4 p,
    map_call 0 addr 0 PFTEMP 5 k = (Ret 0, k1) ∧
    page_call live fe l l1 e PFTEMP (Some (pte / 4096 * 4096 + 5)) k k1 ∧
    alloc_call 0 addr 7 k1 = (Ret 0, k2) ∧
    page_call live fe l1 l2 e addr (Some (p * 4096 + 7)) k1 k2 ∧ p ∈ l1 ∧
    vmemmove cpunum addr PFTEMP PGSIZE k2 = (Ret tt, with_phys m k2) ∧
    user_runs live fe l2 (with_phys m k2) ∧
    (∀ i, 0 ≤ i < 4096 → load8 m (p * 4096 + i) = load8 (phys (k_mm k2)) (pte / 4096 * 4096 + i)) ∧
    (∀ a, a / 4096 ≠ p → load8 m a = load8 (phys (k_mm k2)) a) ∧
    (∀ y v, y ∈ live → PDX v < UPDX →
       lookup_pte m (dirof k2 y) v = lookup_pte (phys (k_mm k2)) (dirof k2 y) v) ∧
    unmap_call 0 PFTEMP (with_phys m k2) = (Ret 0, k4) ∧
    page_call live fe l2 l4 e PFTEMP None (with_phys m k2) k4 ∧
    (∀ q, pp_ref (pages (k_mm k1) q) ≤ Z.max 1 (pp_ref (pages (k_mm k) q) + if decide (q = pte / 4096) then 1 else 0)) ∧
    (∀ q, pp_ref (pages (k_mm k2) q) ≤ Z.max 1 (pp_ref (pages (k_mm k1) q) + if decide (q = p) then 1 else 0)) ∧
    (∀ q, pp_ref (pages (k_mm k4) q) ≤ pp_ref (pages (k_mm k2) q)) ∧ (length l ≤ length l4 + 2)%nat.
Proof using Hif Hcs.
  intros Hu Ha Hal Hne Hl Href Hlen. pose proof (us_live _ _ _ _ _ _ _ _ Hu) as He.
  assert (id_range 0) as H0 by (unfold id_range; lia).
  change UTOP with 0xEEC00000 in Ha. change PFTEMP with 0x7FF000 in *.
  assert (bad_va addr = false) as Hb.
  { unfold bad_va. change UTOP with 0xEEC00000. destruct (Z.leb_spec 0xEEC00000 addr); [lia|].
    rewrite PGOFF_mod, u32_small by lia. by rewrite Hal. }
  assert (PDX addr < UPDX) as Hpa by (apply PDX_user; change UTOP with 0xEEC00000; lia).
  assert (¬ same_slot (dirof k e) 0x7FF000 (dirof k e) addr) as Hns.
  { intros (_ & H1 & H2). rewrite !PDX_div, !PTX_div, !u32_small in * by lia. lia. }
  pose proof (usys_page_map_run live fe l k 0 e addr 0 e 0x7FF000 5 pte Hu (target_self k) (target_self k)
    H0 H0 ltac:(lia) ltac:(lia) Hb eq_refl eq_refl Href Hl) as Hmap. cbv zeta in Hmap.
  change (flag 5 PTE_W) with false in Hmap. rewrite andb_false_r in Hmap.
  destruct Hmap as [(El & _)|(k1 & l1 & E1 & P1 & C1)]; [rewrite El in Hlen; simpl in Hlen; lia|].
  pose proof (pg_runs _ _ _ _ _ _ _ _ _ _ _ _ _ P1) as Hu1.
  pose proof (page_call_dirof _ _ _ _ _ _ _ _ _ e P1) as Ed1.
  pose proof (page_call_lookup _ _ _ _ _ _ _ _ _ e addr P1 He Hpa Hns) as Hl1. rewrite Hl in Hl1.
  pose proof (pg_new _ _ _ _ _ _ _ _ _ _ _ _ _ P1) as Ht1. rewrite <- Ed1 in Hl1, Ht1.
  destruct l1 as [|p l0].
  { pose proof (pc_len _ _ _ _ _ _ _ _ C1) as Hc. unfold needs in Hc. cbn [length] in Hc.
    case_match; lia. }
  destruct (usys_page_alloc_run live fe p l0 k1 0 e addr 7 Hu1 (target_self k1) H0 ltac:(lia) Hb eq_refl)
    as (k2 & l2 & E2 & P2 & _ & C2); [right; rewrite Hl1; discriminate|].
  pose proof (pg_runs _ _ _ _ _ _ _ _ _ _ _ _ _ P2) as Hu2.
  pose proof (page_call_dirof _ _ _ _ _ _ _ _ _ e P2) as Ed2.
  pose proof (pg_new _ _ _ _ _ _ _ _ _ _ _ _ _ P2) as Hn2.
  assert (lookup_pte (phys (k_mm k2)) (dirof k1 e) 0x7FF000 = Some (pte / 4096 * 4096 + 5)) as Ht2.
  { rewrite <- Ht1. apply (page_call_lookup _ _ _ _ _ _ _ _ _ e _ P2 He); [vm_compute; reflexivity|].
    intros (_ & H1 & H2). rewrite !PDX_div, !PTX_div, !u32_small in * by lia. lia. }
  rewrite <- Ed2 in Hn2, Ht2.
  destruct (copy_run live fe l2 k2 addr p (pte / 4096) Hu2) as (m & E3 & Hu3 & Hcopy & Hoth & Hlm).
  { change UTOP with 0xEEC00000. lia. }
  { exact Hal. }
  { exact Hn2. }
  { exists 5. split; [exact Ht2|lia]. }
  destruct (usys_page_unmap_run live fe l2 (with_phys m k2) 0 e 0x7FF000 Hu3 (target_self _) H0 ltac:(lia) eq_refl)
    as (k4 & l4 & E4 & P4 & Hl4 & R4).
  exists k1, (p :: l0), k2, l2, m, k4, l4, p.
  refine (conj E1 (conj P1 (conj E2 (conj P2 (conj _ (conj E3 (conj Hu3 (conj Hcopy (conj Hoth (conj Hlm (conj E4 (conj P4 _)))))))))))).
  - left.
  - refine (conj _ (conj _ (conj R4 _))).
    + intros q. pose proof (pc_refs _ _ _ _ _ _ _ _ C1 q) as H. revert H. clear. repeat case_decide; lia.
    + intros q. pose proof (pc_refs _ _ _ _ _ _ _ _ C2 q) as H. revert H. clear. repeat case_decide; lia.
    + pose proof (pc_len _ _ _ _ _ _ _ _ C1) as L1. pose proof (pc_len _ _ _ _ _ _ _ _ C2) as L2.
      rewrite (mapped_needs _ _ _ _ Hl1) in L2. unfold needs in L1. cbn [length] in L1. revert L1 L2 Hl4. clear.
      case_match; lia.
Qed.

(** The result of the four steps. *)
Section steps.
Context (live fe l l1 l2 l4 : list Z) (addr pte p : Z) (k k1 k2 k4 : kst) (m : mem).
Context (Hu : user_runs live fe l k) (Ha : 0 ≤ addr < UTOP) (Hal : addr mod 4096 = 0) (Hne : addr ≠ PFTEMP).
Context (Hl : lookup_pte (phys (k_mm k)) (dirof k e) addr = Some pte).
Context (P1 : page_call live fe l l1 e PFTEMP (Some (pte / 4096 * 4096 + 5)) k k1).
Context (P2 : page_call live fe l1 l2 e addr (Some (p * 4096 + 7)) k1 k2) (Hp : p ∈ l1).
Context (Hu3 : user_runs live fe l2 (with_phys m k2)).
Context (Hcopy : ∀ i, 0 ≤ i < 4096 →
  load8 m (p * 4096 + i) = load8 (phys (k_mm k2)) (pte / 4096 * 4096 + i)).
Context (Hoth : ∀ a, a / 4096 ≠ p → load8 m a = load8 (phys (k_mm k2)) a).
Context (Hlm : ∀ y v, y ∈ live → PDX v < UPDX →
  lookup_pte m (dirof k2 y) v = lookup_pte (phys (k_mm k2)) (dirof k2 y) v).
Context (P4 : page_call live fe l2 l4 e PFTEMP None (with_phys m k2) k4).
Context (R1 : ∀ q, pp_ref (pages (k_mm k1) q) ≤ Z.max 1 (pp_ref (pages (k_mm k) q) + if decide (q = pte / 4096) then 1 else 0)).
Context (R2 : ∀ q, pp_ref (pages (k_mm k2) q) ≤ Z.max 1 (pp_ref (pages (k_mm k1) q) + if decide (q = p) then 1 else 0)).
Context (R4 : ∀ q, pp_ref (pages (k_mm k4) q) ≤ pp_ref (pages (k_mm k2) q)).
Notation t := 0x7FF000.
Notation at_addr y v := (same_slot (dirof k e) addr (dirof k y) v).
Notation at_temp y v := (same_slot (dirof k e) t (dirof k y) v).

Local Lemma st_live : e ∈ live.
Proof using Hu. exact (us_live _ _ _ _ _ _ _ _ Hu). Qed.
Local Lemma st_pdx : PDX addr < UPDX.
Proof using Ha. by apply PDX_user. Qed.
Local Lemma st_dir1 y : dirof k1 y = dirof k y.
Proof using P1. exact (page_call_dirof _ _ _ _ _ _ _ _ _ y P1). Qed.
Local Lemma st_dir2 y : dirof k2 y = dirof k y.
Proof using P1 P2. rewrite <- st_dir1. exact (page_call_dirof _ _ _ _ _ _ _ _ _ y P2). Qed.
Local Lemma st_distinct : ¬ at_addr e t.
Proof using Ha Hal Hne.
  change UTOP with 0xEEC00000 in Ha. change PFTEMP with t in Hne.
  intros (_ & H1 & H2). clear -Ha Hal Hne H1 H2.
  rewrite !PDX_div, !PTX_div, !u32_small in * by lia. lia.
Qed.

(** Mappings, step by step. *)
Local Lemma st_lookup1 y v : y ∈ live → PDX v < UPDX → ¬ at_temp y v →
  lookup_pte (phys (k_mm k1)) (dirof k y) v = lookup_pte (phys (k_mm k)) (dirof k y) v.
Proof using P1. intros Hy Hv Hn. by apply (page_call_lookup _ _ _ _ _ _ _ _ _ y v P1 Hy Hv). Qed.
Local Lemma st_lookup2 y v : y ∈ live → PDX v < UPDX → ¬ at_addr y v →
  lookup_pte (phys (k_mm k2)) (dirof k y) v = lookup_pte (phys (k_mm k1)) (dirof k y) v.
Proof using P1 P2.
  intros Hy Hv Hn. rewrite <- !(st_dir1 y).
  apply (page_call_lookup _ _ _ _ _ _ _ _ _ y v P2 Hy Hv). by rewrite !st_dir1.
Qed.
Local Lemma st_lookup3 y v : y ∈ live → PDX v < UPDX →
  lookup_pte m (dirof k y) v = lookup_pte (phys (k_mm k2)) (dirof k y) v.
Proof using P1 P2 Hlm. intros Hy Hv. rewrite <- !(st_dir2 y). by apply Hlm. Qed.
Local Lemma st_lookup4 y v : y ∈ live → PDX v < UPDX → ¬ at_temp y v →
  lookup_pte (phys (k_mm k4)) (dirof k y) v = lookup_pte (phys (k_mm k2)) (dirof k y) v.
Proof using P1 P2 P4 Hlm.
  intros Hy Hv Hn. rewrite <- st_lookup3 by assumption. rewrite <- !(st_dir2 y).
  apply (page_call_lookup _ _ _ _ _ _ _ _ _ y v P4 Hy Hv).
  change (dirof (with_phys m k2)) with (dirof k2). by rewrite !st_dir2.
Qed.
Local Lemma st_temp1 : lookup_pte (phys (k_mm k1)) (dirof k e) t = Some (pte / 4096 * 4096 + 5).
Proof using P1. exact (pg_new _ _ _ _ _ _ _ _ _ _ _ _ _ P1). Qed.
Local Lemma st_new2 : lookup_pte (phys (k_mm k2)) (dirof k e) addr = Some (p * 4096 + 7).
Proof using P1 P2. rewrite <- st_dir1. exact (pg_new _ _ _ _ _ _ _ _ _ _ _ _ _ P2). Qed.
Local Lemma st_temp4 : lookup_pte (phys (k_mm k4)) (dirof k e) t = None.
Proof using P1 P2 P4. rewrite <- st_dir2. exact (pg_new _ _ _ _ _ _ _ _ _ _ _ _ _ P4). Qed.

(** What [k1] maps is not the new page. *)
Local Lemma st_fresh y v pte' : y ∈ live → PDX v < UPDX →
  lookup_pte (phys (k_mm k1)) (dirof k y) v = Some pte' → pte' / 4096 ≠ p.
Proof using P1 Hp.
  intros Hy Hv Hlk E. rewrite <- (st_dir1 y) in Hlk.
  destruct (mapped_page base kp live fe l1 k1 y v pte'
    (us_inv _ _ _ _ _ _ _ _ (pg_runs _ _ _ _ _ _ _ _ _ _ _ _ _ P1)) Hy Hv Hlk) as (_ & Hpl & _).
  apply Hpl. by rewrite E.
Qed.

(** Contents, step by step, of a page that each state maps somewhere. *)
Local Lemma st_data1 y v pte' a : y ∈ live → PDX v < UPDX → a / 4096 = pte' / 4096 →
  lookup_pte (phys (k_mm k)) (dirof k y) v = Some pte' →
  load8 (phys (k_mm k1)) a = load8 (phys (k_mm k)) a.
Proof using Hu P1. intros Hy Hv E Hlk. exact (page_call_data _ _ _ _ _ _ _ _ _ y v pte' a Hu P1 Hy Hv Hlk E). Qed.
Local Lemma st_data2 y v pte' a : y ∈ live → PDX v < UPDX → a / 4096 = pte' / 4096 →
  lookup_pte (phys (k_mm k1)) (dirof k y) v = Some pte' →
  load8 (phys (k_mm k2)) a = load8 (phys (k_mm k1)) a.
Proof using P1 P2.
  intros Hy Hv E Hlk. rewrite <- (st_dir1 y) in Hlk.
  exact (page_call_data _ _ _ _ _ _ _ _ _ y v pte' a (pg_runs _ _ _ _ _ _ _ _ _ _ _ _ _ P1) P2 Hy Hv Hlk E).
Qed.
Local Lemma st_data4 y v pte' a : y ∈ live → PDX v < UPDX → a / 4096 = pte' / 4096 →
  lookup_pte (phys (k_mm k2)) (dirof k y) v = Some pte' →
  load8 (phys (k_mm k4)) a = load8 m a.
Proof using P1 P2 P4 Hu3 Hlm.
  intros Hy Hv E Hlk. rewrite <- st_lookup3, <- (st_dir2 y) in Hlk by assumption.
  exact (page_call_data _ _ _ _ _ _ _ _ _ y v pte' a Hu3 P4 Hy Hv Hlk E).
Qed.

(** A page mapped before is still mapped when its contents are copied. *)
Local Lemma st_mapped2 y v pte' : y ∈ live → PDX v < UPDX → ¬ at_temp y v →
  lookup_pte (phys (k_mm k)) (dirof k y) v = Some pte' →
  ∃ y2 v2 pte2, y2 ∈ live ∧ PDX v2 < UPDX ∧ pte2 / 4096 = pte' / 4096 ∧
    lookup_pte (phys (k_mm k2)) (dirof k y2) v2 = Some pte2.
Proof using P1 P2 Ha Hal Hne Hl Hu.
  intros Hy Hv Hn Hlk. destruct (decide (at_addr y v)) as [(Ed & H1 & H2)|Hn'].
  - exists e, t, (pte / 4096 * 4096 + 5).
    splits; [exact st_live|vm_compute; reflexivity| |rewrite st_lookup2; [exact st_temp1|exact st_live|vm_compute; reflexivity|exact st_distinct]].
    unfold lookup_pte in Hl, Hlk. rewrite Ed, H1, H2 in Hl. rewrite Hl in Hlk. injection Hlk as <-. clear. lia.
  - exists y, v, pte'. splits; [exact Hy|exact Hv|reflexivity|].
    rewrite st_lookup2, st_lookup1 by assumption. exact Hlk.
Qed.

Local Lemma st_copy i : 0 ≤ i < 4096 →
  load8 (phys (k_mm k4)) (p * 4096 + i) = load8 (phys (k_mm k)) (pte / 4096 * 4096 + i).
Proof using P1 P2 P4 Hu Hu3 Hlm Hcopy Ha Hal Hne Hl.
  intros Hi. pose proof st_live as He. pose proof st_pdx as Hpa.
  rewrite (st_data4 e addr (p * 4096 + 7) _ He Hpa) by (exact st_new2 || (clear -Hi; lia)).
  rewrite Hcopy by exact Hi.
  rewrite (st_data2 e t (pte / 4096 * 4096 + 5) _ He) by (exact st_temp1 || (vm_compute; reflexivity) || (clear -Hi; lia)).
  apply (st_data1 e addr pte _ He Hpa); [clear -Hi; lia|exact Hl].
Qed.

Local Lemma st_private : private_copy live addr pte p k k4.
Proof using P1 P2 P4 Hp Hu Hu3 Hlm Hcopy Hoth Ha Hal Hne Hl R1 R2 R4.
  pose proof st_live as He. pose proof st_pdx as Hpa.
  assert (pte / 4096 ≠ p) as Hfresh.
  { apply (st_fresh e addr pte He Hpa). rewrite st_lookup1; [exact Hl|exact He|exact Hpa|].
    intros (? & ? & ?). apply st_distinct. by split_and!. }
  split.
  - rewrite (st_lookup4 e addr He Hpa); [exact st_new2|]. intros (? & ? & ?). apply st_distinct. by split_and!.
  - exact st_copy.
  - intros y v pte' Hy Hv Hlk Ep. destruct (decide (at_addr y v)) as [|Hn]; [assumption|exfalso].
    destruct (decide (at_temp y v)) as [(Ed & H1 & H2)|Hn'].
    + pose proof st_temp4 as Lt. unfold lookup_pte in Lt, Hlk. rewrite <- Ed, <- H1, <- H2, Lt in Hlk. discriminate Hlk.
    + rewrite st_lookup4, st_lookup2 in Hlk by assumption. exact (st_fresh y v pte' Hy Hv Hlk Ep).
  - exact st_temp4.
  - intros y v Hy Hv Hn Hn'. rewrite st_lookup4, st_lookup2, st_lookup1 by assumption. reflexivity.
  - intros y v pte' i Hy Hv Hlk Hn' Hi. set (a := pte' / 4096 * 4096 + i).
    assert (a / 4096 = pte' / 4096) as Ea by (clear -Hi; unfold a; lia).
    destruct (st_mapped2 y v pte' Hy Hv Hn' Hlk) as (y2 & v2 & pte2 & Hy2 & Hv2 & E2 & Hlk2).
    rewrite (st_data4 y2 v2 pte2 a Hy2 Hv2 ltac:(by rewrite E2) Hlk2).
    assert (lookup_pte (phys (k_mm k1)) (dirof k y) v = Some pte') as Hlk1 by (rewrite st_lookup1; assumption).
    rewrite Hoth by (rewrite Ea; exact (st_fresh y v pte' Hy Hv Hlk1)).
    rewrite (st_data2 y v pte' a Hy Hv Ea Hlk1). exact (st_data1 y v pte' a Hy Hv Ea Hlk).
  - intros y. etransitivity; [exact (pg_envs _ _ _ _ _ _ _ _ _ _ _ _ _ P1 y)|].
    etransitivity; [exact (pg_envs _ _ _ _ _ _ _ _ _ _ _ _ _ P2 y)|].
    exact (pg_envs _ _ _ _ _ _ _ _ _ _ _ _ _ P4 y).
  - exact Hfresh.
  - intros q. specialize (R1 q). specialize (R2 q). specialize (R4 q). revert R1 R2 R4 Hfresh. clear.
    repeat case_decide; subst; lia.
  - etransitivity; [exact (pf_globals _ _ _ _ _ _ (pg_frame _ _ _ _ _ _ _ _ _ _ _ _ _ P1))|].
    etransitivity; [exact (pf_globals _ _ _ _ _ _ (pg_frame _ _ _ _ _ _ _ _ _ _ _ _ _ P2))|].
    exact (pf_globals _ _ _ _ _ _ (pg_frame _ _ _ _ _ _ _ _ _ _ _ _ _ P4)).
  - intros y Hy. rewrite (pg_tf _ _ _ _ _ _ _ _ _ _ _ _ _ P4 y Hy).
    transitivity (env_tf (envs k1 y)); [exact (pg_tf _ _ _ _ _ _ _ _ _ _ _ _ _ P2 y Hy)|].
    exact (pg_tf _ _ _ _ _ _ _ _ _ _ _ _ _ P1 y Hy).
Qed.
End steps.

Lemma pgfault_run live fe l k utf va err pte :
  user_runs live fe l k → vload32 cpunum utf k = (Ret va, k) →
  vload32 cpunum (u32 (utf + 4)) k = (Ret err, k) → flag err FEC_WR = true →
  0 ≤ va < UTOP → va / 4096 ≠ PFTEMP / 4096 →
  lookup_pte (phys (k_mm k)) (dirof k e) va = Some pte → flag pte PTE_COW = true →
  refs_small k → (2 ≤ length l)%nat →
  ∃ p k' l', pgfault utf k = (Ret tt, k') ∧ user_runs live fe l' k' ∧
    private_copy live (ROUNDDOWN va PGSIZE) pte p k k' ∧ (length l ≤ length l' + 2)%nat.
Proof using Hif Hcs.
  intros Hu Eva Eerr Hw Hva Hne Hl Hcow Href Hlen.
  change UTOP with 0xEEC00000 in Hva. change (PFTEMP / 4096) with 0x7FF in Hne.
  assert (ROUNDDOWN va PGSIZE = va / 4096 * 4096) as Er by (rewrite ROUNDDOWN_page, u32_small by lia; done).
  set (addr := ROUNDDOWN va PGSIZE) in *.
  assert (0 ≤ addr < UTOP) as Ha by (change UTOP with 0xEEC00000; lia).
  assert (addr mod 4096 = 0) as Hal by lia.
  assert (addr ≠ PFTEMP) as Hnt by (change PFTEMP with 0x7FF000; lia).
  assert (lookup_pte (phys (k_mm k)) (dirof k e) addr = Some pte) as Hla.
  { rewrite <- Hl. apply lookup_pte_page. rewrite !u32_small by lia. lia. }
  destruct (pgfault_steps live fe l k addr pte Hu Ha Hal Hnt Hla Href Hlen)
    as (k1 & l1 & k2 & l2 & m & k4 & l4 & p & E1 & P1 & E2 & P2 & Hp & E3 & Hu3 & Hcopy & Hoth & Hlm & E4 & P4 & R1 & R2 & R4 & Hl4).
  exists p, k4, l4. refine (conj _ (conj (pg_runs _ _ _ _ _ _ _ _ _ _ _ _ _ P4)
    (conj (st_private live fe l l1 l2 l4 addr pte p k k1 k2 k4 m Hu Ha Hal Hnt Hla P1 P2 Hp Hu3 Hcopy Hoth Hlm P4 R1 R2 R4) Hl4))).
  unfold UserLib.pgfault. rewrite run_bind, Eva. cbv beta iota. rewrite run_bind, Eerr. cbv beta iota.
  rewrite Hw. cbv beta iota delta [negb]. rewrite run_bind, run_ret, run_bind.
  rewrite PGNUM_div, u32_small by lia. rewrite (uvpt_mapped live fe l k va pte Hu Hva Hl). cbv beta iota.
  rewrite Hcow. cbv beta iota. rewrite run_bind, run_ret, run_bind. fold addr.
  change (Z.lor PTE_U PTE_P) with 5. rewrite E1. cbv beta iota. change (0 <? 0) with false. cbv beta iota.
  rewrite run_bind, run_ret, run_bind. change (Z.lor (Z.lor PTE_W PTE_U) PTE_P) with 7. rewrite E2. cbv beta iota.
  change (0 <? 0) with false. cbv beta iota. rewrite run_bind, run_ret, run_bind, E3. cbv beta iota.
  rewrite run_bind, E4. reflexivity.
Qed.
End fork.
