(* ===== verification/IcodeSpec.v ===== *)
(** * Loading a program: [region_alloc], [load_icode] and [env_create]

    [user_byte] is what a program reads.  [loading] is the invariant of the
    new address space while it is filled; then [env_create] as a whole. *)
From S2P Require Import Prelude Monad Word Layout Mem CString PageAlloc PageTable PageInv PageOps PageDirs KState Env EnvMem KInv EnvSpec Sched SchedSpec UserMem Syscall Trap UserStore TrapSpec SysSpec UserLib UserSpec.

(** The byte at [va] of the address space with directory [d]. *)
Definition user_byte (m : mem) (d va : Z) : option Z :=
  option_map (λ pte, load8 m (pte / 4096 * 4096 + va mod 4096)) (lookup_pte m d va).

Lemma lookup_frame_same (m : mem) d va va' : 0 ≤ va < UTOP → 0 ≤ va' < UTOP → va / 4096 = va' / 4096 →
  lookup_pte m d va = lookup_pte m d va'.
Proof. change UTOP with 0xEEC00000. intros. apply lookup_pte_page. rewrite !u32_small by lia. done. Qed.

(** [c] with the bytes [bs] from [va] on. *)
Fixpoint put (va : Z) (bs : list Z) (c : Z → option Z) : Z → option Z :=
  match bs with [] => c | b :: bs => put (va + 1) bs (<[va := Some (u8 b)]> c) end.

Lemma put_out bs va c a : ¬ (va ≤ a < va + Z.of_nat (length bs)) → put va bs c a = c a.
Proof.
  revert va c. induction bs as [|b bs IH]; intros va c Ha; [done|]. cbn [put length] in *.
  rewrite IH, upd_other by lia. done.
Qed.
Lemma put_in bs va c j b : 0 ≤ j → bs !! Z.to_nat j = Some b → put va bs c (va + j) = Some (u8 b).
Proof.
  revert va c j. induction bs as [|b0 bs IH]; intros va c j Hj Hb; [done|]. cbn [put].
  destruct (decide (j = 0)) as [->|Hne].
  - injection Hb as ->. by rewrite put_out, Z.add_0_r, upd_same by lia.
  - replace (Z.to_nat j) with (S (Z.to_nat (j - 1))) in Hb by lia.
    replace (va + j) with (va + 1 + (j - 1)) by lia. apply IH; [lia|exact Hb].
Qed.

Lemma load_bytes_lookup m a n j : 0 ≤ j < Z.of_nat n → load_bytes m a n !! Z.to_nat j = Some (load8 m (a + j)).
Proof.
  revert a j. induction n as [|n IH]; intros a j Hj; [lia|]. cbn [load_bytes].
  destruct (decide (j = 0)) as [->|Hne]; [by rewrite Z.add_0_r|].
  replace (Z.to_nat j) with (S (Z.to_nat (j - 1))) by lia. cbn [lookup list_lookup].
  rewrite IH by lia. do 2 f_equal. lia.
Qed.

(** Reading the kernel's own memory. *)
Lemma vread_kernel cpunum n va k : KERNBASE ≤ va → va + Z.of_nat n < 4294967296 →
  vread cpunum n va k = (Ret (load_bytes (phys (k_mm k)) (va - KERNBASE) n), k).
Proof.
  change KERNBASE with 0xF0000000. revert va. induction n as [|n IH]; intros va Hk Hn; [reflexivity|].
  cbn [vread load_bytes]. rewrite run_bind, (vload8_run cpunum k va (va - 0xF0000000)).
  - cbv beta iota. rewrite run_bind, u32_small, IH by lia. cbv beta iota. rewrite run_ret. do 4 f_equal. lia.
  - unfold vtrans. change KERNBASE with 0xF0000000. rewrite u32_small by lia. by destruct (Z.leb_spec 0xF0000000 va); [|lia].
Qed.

Lemma flag_rwp p : flag (p * 4096 + Z.lor (Z.lor PTE_W PTE_U) PTE_P) PTE_W = true.
Proof.
  change (Z.lor (Z.lor PTE_W PTE_U) PTE_P) with 7. apply (flag_of_land _ 7); [|reflexivity|discriminate].
  change 7 with (Z.ones 3) at 2. rewrite Z.land_ones by lia. change (2 ^ 3) with 8. change (Z.ones 3) with 7. lia.
Qed.

(** ** Images *)

(** The program header at kernel address [ph]. *)
Record phdr := mkPh { ph_type : Z; ph_offset : Z; ph_va : Z; ph_filesz : Z; ph_memsz : Z }.
Definition phdr_at (m : mem) (ph : Z) : phdr :=
  let a := ph - KERNBASE in
  mkPh (load32 m a) (load32 m (a + 4)) (load32 m (a + 8)) (load32 m (a + 16)) (load32 m (a + 20)).

(** The number of pages it fills, and which. *)
Definition seg_pages (h : phdr) : Z :=
  if ph_type h =? ELF_PROG_LOAD then (ph_va h + ph_memsz h + 4095) / 4096 - ph_va h / 4096 else 0.
Definition in_seg (h : phdr) (q : Z) : Prop := ph_va h / 4096 ≤ q < ph_va h / 4096 + seg_pages h.

(** Byte [t] of a segment of the image at [binary]. *)
Definition seg_byte (m : mem) (binary : Z) (h : phdr) (t : Z) : Z :=
  if t <? ph_filesz h then load8 m (binary + ph_offset h - KERNBASE + t) else 0.

Lemma phdr_at_range m ph : let h := phdr_at m ph in
  0 ≤ ph_type h ∧ 0 ≤ ph_offset h ∧ 0 ≤ ph_va h ∧ 0 ≤ ph_filesz h ∧ 0 ≤ ph_memsz h.
Proof. cbn. repeat split; apply load32_range. Qed.

Definition e_phnum (m : mem) (binary : Z) : Z := load16 m (binary + 44 - KERNBASE).
Definition phdr_addr (m : mem) (binary i : Z) : Z := u32 (binary + load32 m (binary + 28 - KERNBASE)) + 32 * i.
Definition phdr_of (m : mem) (binary i : Z) : phdr := phdr_at m (phdr_addr m binary i).

(** The pages of the segments from [i] on. *)
Definition pages_from (m : mem) (binary i : Z) : Z :=
  foldr (λ j acc, seg_pages (phdr_of m binary j) + acc) 0 (zrange i (e_phnum m binary - i)).

Lemma seg_pages_nonneg m ph : 0 ≤ seg_pages (phdr_at m ph).
Proof. destruct (phdr_at_range m ph) as (_ & _ & Hv & _ & Hm). unfold seg_pages. case_match; lia. Qed.

Lemma pages_from_step m binary i : i < e_phnum m binary →
  pages_from m binary i = seg_pages (phdr_of m binary i) + pages_from m binary (i + 1).
Proof.
  intros Hi. unfold pages_from. rewrite zrange_cons by lia. cbn [foldr]. do 3 f_equal. lia.
Qed.

Lemma pages_from_nonneg m binary i : 0 ≤ pages_from m binary i.
Proof.
  unfold pages_from. induction (zrange i _) as [|j l IH]; cbn [foldr]; [lia|]. pose proof (seg_pages_nonneg m (phdr_addr m binary j)).
  unfold phdr_of in *. lia.
Qed.

Section load.
Context (cpunum : Z) (base : Z → Z) (kp : Z) (live fe : list Z) (e : Z) (k0 : kst) (m0 : mem).
Context (He : e ∈ live) (Hcr3 : cpu_cr3 (cpus k0 cpunum) = dirof k0 e * 4096).
Abbreviation d := (dirof k0 e).
Abbreviation dirs := (dirof k0 <$> live).

(** [k0] but for memory, where pages [P] are mapped in [e], with bytes [c]; no page is
    shared, other address spaces and the kernel's pages are as in [m0]; [n] pages are
    free. *)
Record loading (P : Z → Prop) (c : Z → option Z) (n : Z) (l : list Z) (k : kst) : Prop := {
  ld_inv : kernel_inv base kp live fe l k;
  ld_rest : k = set_mm (k_mm k) k0;
  ld_free : n ≤ Z.of_nat (length l);
  ld_map va : 0 ≤ va < UTOP →
    match lookup_pte (phys (k_mm k)) d va with
    | Some pte => P (va / 4096) ∧ base (pte / 4096) = 0 ∧ pte = pte / 4096 * 4096 + Z.lor (Z.lor PTE_W PTE_U) PTE_P
    | None => ¬ P (va / 4096)
    end;
  ld_own d' va va' pte pte' : d' ∈ dirs → 0 ≤ va < UTOP → 0 ≤ va' < UTOP →
    lookup_pte (phys (k_mm k)) d va = Some pte → lookup_pte (phys (k_mm k)) d' va' = Some pte' →
    pte / 4096 = pte' / 4096 → d' = d ∧ va' / 4096 = va / 4096;
  ld_bytes va b : 0 ≤ va < UTOP → c va = Some b → user_byte (phys (k_mm k)) d va = Some b;
  ld_kept a : base (a / 4096) ≠ 0 → load8 (phys (k_mm k)) a = load8 m0 a;
  ld_others d' va : d' ∈ dirs → d' ≠ d → 0 ≤ va < UTOP →
    lookup_pte (phys (k_mm k)) d' va = lookup_pte m0 d' va ∧
    user_byte (phys (k_mm k)) d' va = user_byte m0 d' va;
}.

Lemma loading_iff P P' c n n' l k : (∀ q, P q ↔ P' q) → n' ≤ n → loading P c n l k → loading P' c n' l k.
Proof.
  intros HP Hn []. split; try assumption; [lia|]. intros va Hva. specialize (ld_map0 va Hva).
  destruct (lookup_pte _ d va); rewrite <- HP; assumption.
Qed.

Lemma ld_envs P c n l k : loading P c n l k → envs k = envs k0 ∧ cpus k = cpus k0 ∧ kernel_lock k = kernel_lock k0.
Proof. intros H. rewrite (ld_rest _ _ _ _ _ H). done. Qed.

Lemma ld_dirof P c n l k x : loading P c n l k → dirof k x = dirof k0 x.
Proof. intros H. unfold dirof. by rewrite (proj1 (ld_envs _ _ _ _ _ H)). Qed.
Lemma ld_mm P c n l k : loading P c n l k → kinv base dirs (k_mm k) l.
Proof.
  intros H. pose proof (ke_mm _ _ _ _ _ _ (ld_inv _ _ _ _ _ H)) as Hm. unfold dirof in *.
  by rewrite (proj1 (ld_envs _ _ _ _ _ H)) in Hm.
Qed.

(** ** [region_alloc] *)

(** A page some directory maps keeps its bytes. *)
Lemma frame_leaf s l d0 va0 s' d' va pte j : kinv base dirs s l → pt_frame dirs l d0 va0 s s' → d' ∈ dirs → 0 ≤ va < UTOP →
  lookup_pte (phys s) d' va = Some pte → 0 ≤ j < 4096 →
  load8 (phys s') (pte / 4096 * 4096 + j) = load8 (phys s) (pte / 4096 * 4096 + j).
Proof.
  intros Hm F Hd Hva Hl Hj. pose proof (lookup_leaf _ _ _ _ _ Hd (PDX_user va Hva) Hl) as Hle.
  apply (pf_data _ _ _ _ _ _ F); replace ((pte / 4096 * 4096 + j) / 4096) with (pte / 4096) by lia.
  - intros Hin. apply (proj2 (ki_free _ _ _ _ _ Hm Hin)). unfold refs. rewrite !elem_of_app. auto.
  - exact (ki_priv _ _ _ _ Hm _ Hle).
Qed.

Lemma frame_kept s l d0 va0 s' a : kinv base dirs s l → pt_frame dirs l d0 va0 s s' → base (a / 4096) ≠ 0 →
  load8 (phys s') a = load8 (phys s) a.
Proof.
  intros Hm F Hb. apply (pf_data _ _ _ _ _ _ F).
  - intros Hin. exact (Hb (proj1 (ki_free _ _ _ _ _ Hm Hin))).
  - intros Hin. exact (Hb (ki_own _ _ _ _ Hm _ Hin)).
Qed.

(** One more page, of unknown bytes. *)
Definition region_page (i : Z) : K () :=
  p ← liftM (page_alloc 0);
  match p with
  | None => panic "allocation failed!"
  | Some p =>
      r ← liftP cpunum (λ cur, page_insert cur (env_pgdir (envs k0 e)) p i (Z.lor PTE_W PTE_U));
      if r =? 0 then mret tt else panic "region alloc error!"
  end.

Lemma region_page_run P c n l k q : loading P c n l k → 2 ≤ n → ¬ P q → 0 ≤ q → q * 4096 < UTOP →
  ∃ l' k', region_page (q * 4096) k = (Ret tt, k') ∧ loading (λ x, x = q ∨ P x) c (n - 2) l' k'.
Proof using He.
  intros L Hn Hq Hq0 Hqu. pose proof (ld_inv _ _ _ _ _ L) as H. pose proof (ld_mm _ _ _ _ _ L) as Hm.
  pose proof (ld_free _ _ _ _ _ L) as Hlen. destruct (ld_envs _ _ _ _ _ L) as (Eenv & _).
  assert (dirof k <$> live = dirs) as Ed by (apply list_fmap_ext; intros ? x _; apply (ld_dirof _ _ _ _ _ x L)).
  assert (d ∈ dirs) as Hd by (apply list_elem_of_fmap; by exists e).
  assert (0 ≤ q * 4096 < UTOP) as Hqr by lia.
  destruct l as [|p l0]; [cbn [length] in Hlen; lia|].
  destruct (kinv_alloc false base _ (k_mm k) p l0 Hm) as (Hm1 & Hpl & Hp & Hr0 & Hbp & Hnr & HT & Hlook).
  pose proof (alloc_state_globals false p (k_mm k)) as [Eg _]. pose proof (proj1 Eg) as En.
  unfold region_page. rewrite run_bind, (liftM_run _ _ (Ret (Some p)) (alloc_state false p (k_mm k)))
    by exact (page_alloc_run 0 (k_mm k) p l0 (ki_alloc _ _ _ _ Hm)). cbv beta iota.
  set (s1 := alloc_state false p (k_mm k)) in *.
  assert (kernel_inv base kp live fe l0 (set_mm s1 k)) as H1 by (eapply ke_set_mm; [exact H|exact Eg|by rewrite Ed]).
  rewrite run_bind, <- Eenv.
  destruct (sys_insert cpunum base kp live fe (p :: l0) k H e p (q * 4096) (Z.lor PTE_W PTE_U) (set_mm s1 k) l0 H1 (λ _, eq_refl) He)
    as [(El & _)|(s' & l' & E & H' & Hl' & F & C)].
  - exact (PDX_user _ Hqr).
  - change (k_mm (set_mm s1 k)) with s1. lia.
  - exact Hpl.
  - change (k_mm (set_mm s1 k)) with s1. rewrite Ed, HT. by apply not_in_refs.
  - change (k_mm (set_mm s1 k)) with s1. lia.
  - by vm_compute.
  - subst l0. cbn [length] in Hlen. lia.
  - rewrite E. exists l', (set_mm s' (set_mm s1 k)). split; [reflexivity|].
    rewrite (ld_dirof _ _ _ _ _ e L), Ed in *. change (k_mm (set_mm s1 k)) with s1 in *.
    pose proof (pt_frame_alloc base false _ _ _ _ _ _ _ Hm F) as Fr.
    assert (∀ d' va, d' ∈ dirs → 0 ≤ va < UTOP → ¬ (d' = d ∧ va / 4096 = q) →
      lookup_pte (phys s') d' va = lookup_pte (phys (k_mm k)) d' va) as Hsame.
    { intros d' va Hd' Hva Hne. apply (pf_lookup _ _ _ _ _ _ Fr); [exact Hd'|exact (PDX_user va Hva)|].
      intros Hs. apply Hne. pose proof (proj1 Hs) as <-. split; [reflexivity|]. 
      apply same_slot_page in Hs as [_ Eq]; [lia|by apply UTOP_range..]. }
    assert (∀ va, 0 ≤ va < UTOP → va / 4096 = q → lookup_pte (phys s') d va = Some (p * 4096 + 7)) as Hnew.
    { intros va Hva Eq. rewrite (lookup_frame_same _ d va (q * 4096)) by lia. exact Hl'. }
    assert (∀ d' va pte, d' ∈ dirs → 0 ≤ va < UTOP → lookup_pte (phys (k_mm k)) d' va = Some pte → pte / 4096 ≠ p) as Hfresh.
    { intros d' va pte Hd' Hva Hl Ep. apply Hnr. unfold refs. rewrite !elem_of_app, <- Ep.
      right; right. exact (lookup_leaf _ _ _ _ _ Hd' (PDX_user va Hva) Hl). }
    assert (∀ va, 0 ≤ va < UTOP → va / 4096 = q → lookup_pte (phys (k_mm k)) d va = None) as Hnone.
    { intros va Hva Eq. pose proof (ld_map _ _ _ _ _ L va Hva) as Hv. destruct (lookup_pte _ d va); [|done].
      destruct Hv as [Hv _]. rewrite Eq in Hv. done. }
    assert (∀ d' va, d' ∈ dirs → 0 ≤ va < UTOP → ¬ (d' = d ∧ va / 4096 = q) →
      user_byte (phys s') d' va = user_byte (phys (k_mm k)) d' va) as Hbyte.
    { intros d' va Hd' Hva Hne. unfold user_byte. rewrite Hsame by assumption.
      destruct (lookup_pte (phys (k_mm k)) d' va) as [pte|] eqn:El; [|done]. cbn [option_map].
      by rewrite (frame_leaf _ _ _ _ _ _ _ _ _ Hm Fr Hd' Hva El) by lia. }
    split.
    + exact H'.
    + rewrite (ld_rest _ _ _ _ _ L). reflexivity.
    + pose proof (pc_len _ _ _ _ _ _ _ _ C) as Hc. unfold needs in Hc. cbn [length] in Hlen. case_match; lia.
    + intros va Hva. change (k_mm (set_mm s' (set_mm s1 k))) with s'. destruct (decide (va / 4096 = q)) as [Eq|Hne].
      * rewrite (Hnew va Hva Eq). replace ((p * 4096 + 7) / 4096) with p by lia. by split; [left|].
      * rewrite Hsame by (assumption || (intros [_ ?]; done)).
        pose proof (ld_map _ _ _ _ _ L va Hva) as Hv. destruct (lookup_pte _ d va); [|tauto].
        destruct Hv as (Hv & Hb & Hv2). split; [by right|by split].
    + intros d' va va' pte pte' Hd' Hva Hva' Hl Hl2 Ep. change (k_mm (set_mm s' (set_mm s1 k))) with s' in *.
      destruct (decide (va / 4096 = q)) as [Eq|Hne]; destruct (decide (d' = d ∧ va' / 4096 = q)) as [[-> Eq']|Hne'].
      * split; [done|lia].
      * rewrite (Hnew va Hva Eq) in Hl. injection Hl as <-. rewrite Hsame in Hl2 by assumption.
        destruct (Hfresh d' va' pte' Hd' Hva' Hl2). lia.
      * rewrite (Hnew va' Hva' Eq') in Hl2. injection Hl2 as <-. rewrite Hsame in Hl by (assumption || (intros [_ ?]; done)).
        destruct (Hfresh d va pte Hd Hva Hl). lia.
      * rewrite Hsame in Hl by (assumption || (intros [_ ?]; done)). rewrite Hsame in Hl2 by assumption.
        exact (ld_own _ _ _ _ _ L d' va va' pte pte' Hd' Hva Hva' Hl Hl2 Ep).
    + intros va b Hva Hc. change (k_mm (set_mm s' (set_mm s1 k))) with s'. pose proof (ld_bytes _ _ _ _ _ L va b Hva Hc) as Hb.
      rewrite Hbyte; [exact Hb|exact Hd|exact Hva|]. intros [_ Eq]. unfold user_byte in Hb. by rewrite Hnone in Hb.
    + intros a Ha. change (k_mm (set_mm s' (set_mm s1 k))) with s'.
      rewrite (frame_kept _ _ _ _ _ a Hm Fr Ha). exact (ld_kept _ _ _ _ _ L a Ha).
    + intros d' va Hd' Hne Hva. change (k_mm (set_mm s' (set_mm s1 k))) with s'.
      destruct (ld_others _ _ _ _ _ L d' va Hd' Hne Hva) as [E1 E2].
      rewrite Hsame, Hbyte by (assumption || (intros [? _]; done)). done.
Qed.

Lemma region_alloc_run P c n l k va len : loading P c n l k → 0 ≤ va → 0 ≤ len → va + len + 4095 < UTOP →
  let q := va / 4096 in
  let m := (va + len + 4095) / 4096 - q in
  2 * m ≤ n → (∀ x, q ≤ x < q + m → ¬ P x) →
  ∃ l' k', region_alloc cpunum e va len k = (Ret tt, k') ∧ loading (λ x, q ≤ x < q + m ∨ P x) c (n - 2 * m) l' k'.
Proof using He.
  intros L Hva Hlen Hu q m Hn Hfree. change UTOP with 0xEEC00000 in Hu.
  assert (ROUNDDOWN va PGSIZE = q * 4096) as Es by (rewrite ROUNDDOWN_page, u32_small by lia; reflexivity).
  assert (ROUNDUP (u32 (va + len)) PGSIZE = (q + m) * 4096) as Ee.
  { unfold ROUNDUP, ROUNDDOWN, PGSIZE, u32. lia. }
  assert (region_alloc cpunum e va len k = forM (pages_between (q * 4096) ((q + m) * 4096)) region_page k) as ->.
  { unfold region_alloc. rewrite Es, Ee. rewrite run_bind. unfold get_env. rewrite run_gets.
    rewrite (proj1 (ld_envs _ _ _ _ _ L)). reflexivity. }
  unfold pages_between, PGSIZE. rewrite forM_fmap.
  replace (((q + m) * 4096 - q * 4096 + 4096 - 1) / 4096) with m by lia.
  destruct (forM_zrange (λ i k, ∃ l, loading (λ x, q ≤ x < q + i ∨ P x) c (n - 2 * i) l k) (λ i, region_page (q * 4096 + i * 4096)) m k)
    as (k' & E & l' & L').
  - lia.
  - exists l. apply (loading_iff P _ _ n); [|lia|exact L]. intros x. split; [by right|]. intros [?|?]; [lia|done].
  - intros i s Hi (l1 & L1). replace (q * 4096 + i * 4096) with ((q + i) * 4096) by lia.
    destruct (region_page_run _ _ _ _ _ (q + i) L1) as (l2 & k2 & E2 & L2); [lia| |lia|change UTOP with 0xEEC00000; lia|].
    + intros [?|Hx]; [lia|]. exact (Hfree (q + i) ltac:(lia) Hx).
    + exists k2. split; [exact E2|]. exists l2. refine (loading_iff _ _ _ _ _ _ _ _ _ L2); [|lia].
      intros x. cbv beta. split.
      * intros [->|[?|?]]; [left; lia|left; lia|by right].
      * intros [?|?]; [|by right; right]. destruct (decide (x = q + i)); [by left|right; left; lia].
  - by exists l', k'.
Qed.

(** ** Stores *)

Lemma loading_byte P c n l k va v : loading P c n l k → 0 ≤ va < UTOP → P (va / 4096) →
  ∃ k', vstore8 cpunum va v k = (Ret tt, k') ∧ loading P (<[va := Some (u8 v)]> c) n l k'.
Proof using He Hcr3.
  intros L Hva HP. pose proof (ld_inv _ _ _ _ _ L) as H. destruct (ld_envs _ _ _ _ _ L) as (_ & Ecpu & _).
  assert (d ∈ dirs) as Hd by (apply list_elem_of_fmap; by exists e).
  pose proof (ld_map _ _ _ _ _ L va Hva) as Hm. destruct (lookup_pte (phys (k_mm k)) d va) as [pte|] eqn:El; [|done].
  destruct Hm as (_ & Hb & Ep). set (p := pte / 4096) in *.
  assert (user_page cpunum base kp live fe l e p k va) as Hu.
  { split; [exact H|by rewrite Ecpu, (ld_dirof _ _ _ _ _ e L)|]. exists pte. rewrite (ld_dirof _ _ _ _ _ e L).
    split; [exact El|]. split; [rewrite Ep; apply flag_rwp|reflexivity]. }
  set (m' := store8 (phys (k_mm k)) (p * 4096 + va mod 4096) v).
  assert (∀ a, load8 m' a = if decide (p * 4096 + va mod 4096 = a) then u8 v else load8 (phys (k_mm k)) a) as Hst by (intros; apply load8_store8).
  destruct (user_page_with_phys cpunum base kp live fe l e p He k va m' Hu (PDX_user va Hva)) as [Hu' Hlk].
  { intros a Ha. rewrite Hst. rewrite decide_False; [done|]. intros <-. lia. }
  assert (∀ d' va', d' ∈ dirs → 0 ≤ va' < UTOP → lookup_pte m' d' va' = lookup_pte (phys (k_mm k)) d' va') as Hsame.
  { intros d' va' (x & -> & Hx)%list_elem_of_fmap Hva'. specialize (Hlk x va' Hx (PDX_user va' Hva')).
    by rewrite (ld_dirof _ _ _ _ _ x L) in Hlk. }
  assert (∀ d' va', d' ∈ dirs → 0 ≤ va' < UTOP → ¬ (d' = d ∧ va' = va) →
    user_byte m' d' va' = user_byte (phys (k_mm k)) d' va') as Hbyte.
  { intros d' va' Hd' Hva' Hne. unfold user_byte. rewrite Hsame by assumption.
    destruct (lookup_pte (phys (k_mm k)) d' va') as [pte'|] eqn:El'; [|done]. cbn [option_map]. rewrite Hst.
    rewrite decide_False; [done|]. intros Ea. apply Hne.
    destruct (ld_own _ _ _ _ _ L d' va va' pte pte' Hd' Hva Hva' El El') as [-> Eq]; [unfold p in *; lia|].
    split; [reflexivity|]. unfold p in *. lia. }
  exists (with_phys m' k). split; [exact (vstore8_run cpunum base kp live fe l e p k va v Hu Hva)|]. split.
  - apply Hu'.
  - rewrite (ld_rest _ _ _ _ _ L). reflexivity.
  - apply (ld_free _ _ _ _ _ L).
  - intros va' Hva'. cbn [with_phys set_mm k_mm phys set_phys]. rewrite Hsame by assumption. exact (ld_map _ _ _ _ _ L va' Hva').
  - intros d' va1 va2 pte1 pte2 Hd' H1 H2. cbn [with_phys set_mm k_mm phys set_phys]. rewrite !Hsame by assumption.
    exact (ld_own _ _ _ _ _ L d' va1 va2 pte1 pte2 Hd' H1 H2).
  - intros va' b Hva' Hc. cbn [with_phys set_mm k_mm phys set_phys]. rewrite upd_case in Hc. case_decide as Hv.
    + subst va'. injection Hc as <-. unfold user_byte. rewrite Hsame, El by assumption. cbn [option_map].
      fold p. by rewrite Hst, decide_True.
    + rewrite Hbyte; [exact (ld_bytes _ _ _ _ _ L va' b Hva' Hc)|exact Hd|exact Hva'|]. intros [_ ->]. done.
  - intros a Ha. cbn [with_phys set_mm k_mm phys set_phys]. rewrite Hst, decide_False; [exact (ld_kept _ _ _ _ _ L a Ha)|].
    intros <-. apply Ha. by replace ((p * 4096 + va mod 4096) / 4096) with p by lia.
  - intros d' va' Hd' Hne Hva'. cbn [with_phys set_mm k_mm phys set_phys]. rewrite Hsame, Hbyte by (assumption || (intros [? _]; done)).
    exact (ld_others _ _ _ _ _ L d' va' Hd' Hne Hva').
Qed.

Lemma loading_write P bs c n l k va : loading P c n l k → 0 ≤ va → va + Z.of_nat (length bs) < UTOP →
  (∀ a, va ≤ a < va + Z.of_nat (length bs) → P (a / 4096)) →
  ∃ k', vwrite cpunum bs va k = (Ret tt, k') ∧ loading P (put va bs c) n l k'.
Proof using He Hcr3.
  change UTOP with 0xEEC00000. revert c k va. induction bs as [|b bs IH]; intros c k va L H0 Hu HP.
  - by exists k.
  - cbn [length] in *. destruct (loading_byte _ _ _ _ _ va b L) as (k1 & E1 & L1); [change UTOP with 0xEEC00000; lia|apply HP; lia|].
    cbn [vwrite put]. rewrite run_bind, E1. cbv beta iota. rewrite u32_small by lia.
    apply IH; [exact L1|lia|lia|]. intros a Ha. apply HP. lia.
Qed.

(** ** Segments *)

Abbreviation kernel_byte a := (base ((a - KERNBASE) / 4096) ≠ 0).

Record seg_ok (binary : Z) (h : phdr) : Prop := {
  so_size : ph_filesz h ≤ ph_memsz h;
  so_user : ph_va h + ph_memsz h ≤ USTACKTOP - PGSIZE;
  so_image : binary + ph_offset h + ph_filesz h < 4294967296;
  so_own a : binary + ph_offset h ≤ a < binary + ph_offset h + ph_filesz h → kernel_byte a;
}.

Lemma loading_load32 P c n l k a : loading P c n l k → (∀ j, 0 ≤ j < 4 → kernel_byte (a + j)) →
  liftM (kload32 a) k = (Ret (load32 m0 (a - KERNBASE)), k).
Proof.
  intros L Ha. unfold kload32. rewrite liftM_gets. do 2 f_equal. apply load32_bytes_eq. intros j Hj.
  replace (a - KERNBASE + j) with (a + j - KERNBASE) by lia. exact (ld_kept _ _ _ _ _ L _ (Ha j Hj)).
Qed.

Lemma repeat_lookup (v : Z) n i : (i < n)%nat → repeat v n !! i = Some v.
Proof. revert i. induction n as [|n IH]; intros [|i] Hi; [lia..|done|]. apply IH. lia. Qed.

Lemma load_segment_run P c n l k binary ph : let h := phdr_at m0 ph in
  loading P c n l k → KERNBASE ≤ binary → (∀ a, ph ≤ a < ph + 32 → kernel_byte a) →
  (ph_type h = ELF_PROG_LOAD → seg_ok binary h) → 2 * seg_pages h ≤ n → (∀ q, in_seg h q → ¬ P q) →
  ∃ l' k' c', load_segment cpunum e binary ph k = (Ret tt, k') ∧
    loading (λ q, in_seg h q ∨ P q) c' (n - 2 * seg_pages h) l' k' ∧
    (ph_type h = ELF_PROG_LOAD → ∀ t, 0 ≤ t < ph_memsz h → c' (ph_va h + t) = Some (seg_byte m0 binary h t)) ∧
    (∀ a, ¬ in_seg h (a / 4096) → c' a = c a).
Proof using He Hcr3.
  intros h L Hbin Hph Hok Hn Hfree. destruct (phdr_at_range m0 ph) as (_ & Ho & Hv & Hf & Hms).
  fold h in Ho, Hv, Hf, Hms. change KERNBASE with 0xF0000000 in Hbin.
  assert (∀ o, 0 ≤ o ≤ 20 → liftM (kload32 (ph + o)) k = (Ret (load32 m0 (ph - KERNBASE + o)), k)) as Hld.
  { intros o Hr. rewrite (loading_load32 _ _ _ _ _ _ L) by (intros j Hj; apply Hph; lia).
    by replace (ph + o - KERNBASE) with (ph - KERNBASE + o) by lia. }
  unfold load_segment. rewrite run_bind, (loading_load32 _ _ _ _ _ _ L) by (intros j Hj; apply Hph; lia). cbv beta iota.
  change (load32 m0 (ph - KERNBASE)) with (ph_type h). unfold seg_pages, in_seg in *.
  unfold seg_pages in *. destruct (Z.eqb_spec (ph_type h) ELF_PROG_LOAD) as [Et|Et].
  2: { exists l, k, c. split; [reflexivity|]. split; [|split; [intros ?; done|done]].
       refine (loading_iff _ _ _ _ _ _ _ _ _ L); [|lia]. intros q. split; [by right|]. intros [?|?]; [lia|done]. }
  destruct (Hok Et) as [h1 h2 h3 h4]. change (USTACKTOP - PGSIZE) with 0xEEBFD000 in h2.
  set (q0 := ph_va h / 4096) in *. set (m := (ph_va h + ph_memsz h + 4095) / 4096 - q0) in *.
  rewrite run_bind, (Hld 4) by lia. cbv beta iota. rewrite run_bind, (Hld 8) by lia. cbv beta iota.
  rewrite run_bind, (Hld 16) by lia. cbv beta iota. rewrite run_bind, (Hld 20) by lia. cbv beta iota.
  change (load32 m0 (ph - KERNBASE + 4)) with (ph_offset h). change (load32 m0 (ph - KERNBASE + 8)) with (ph_va h).
  change (load32 m0 (ph - KERNBASE + 16)) with (ph_filesz h). change (load32 m0 (ph - KERNBASE + 20)) with (ph_memsz h).
  rewrite (proj2 (Z.ltb_ge (ph_memsz h) (ph_filesz h)) h1), run_bind, run_ret, run_bind.
  destruct (region_alloc_run P c n l k (ph_va h) (ph_memsz h) L Hv Hms) as (l1 & k1 & -> & L1);
    [change UTOP with 0xEEC00000; lia|exact Hn|exact Hfree|]. cbv beta iota. fold q0 m in L1.
  unfold vmemmove. rewrite run_bind, run_bind, u32_small by lia. rewrite vread_kernel by (change KERNBASE with 0xF0000000; lia). cbv beta iota.
  set (bs := load_bytes (phys (k_mm k1)) (binary + ph_offset h - KERNBASE) (Z.to_nat (ph_filesz h))).
  assert (Z.of_nat (length bs) = ph_filesz h) as Hbs by (unfold bs; rewrite load_bytes_length; lia).
  destruct (loading_write _ bs _ _ _ _ (ph_va h) L1 Hv) as (k2 & -> & L2);
    [change UTOP with 0xEEC00000; lia|intros a Ha; left; lia|]. cbv beta iota.
  unfold vmemset. rewrite u32_small by lia. set (zs := repeat (u8 0) (Z.to_nat (ph_memsz h - ph_filesz h))).
  assert (Z.of_nat (length zs) = ph_memsz h - ph_filesz h) as Hzs by (unfold zs; rewrite repeat_length; lia).
  destruct (loading_write _ zs _ _ _ _ (ph_va h + ph_filesz h) L2) as (k3 & -> & L3);
    [lia|change UTOP with 0xEEC00000; lia|intros a Ha; left; lia|].
  eexists l1, k3, _. split; [reflexivity|]. split; [exact L3|]. split.
  - intros _ t Ht. unfold seg_byte. destruct (Z.ltb_spec t (ph_filesz h)) as [Hlt|Hge].
    + rewrite put_out by lia. rewrite (put_in _ _ _ _ (load8 (phys (k_mm k1)) (binary + ph_offset h - KERNBASE + t)));
        [|lia|unfold bs; apply load_bytes_lookup; lia]. f_equal. rewrite u8_small by apply load8_range.
      replace (binary + ph_offset h - KERNBASE + t) with (binary + ph_offset h + t - KERNBASE) by lia.
      apply (ld_kept _ _ _ _ _ L1). apply h4. lia.
    + replace (ph_va h + t) with (ph_va h + ph_filesz h + (t - ph_filesz h)) by lia.
      rewrite (put_in _ _ _ _ 0); [reflexivity|lia|]. unfold zs. apply repeat_lookup. lia.
  - intros a Ha. rewrite !put_out; [done|..]; intros Hr; apply Ha; lia.
Qed.

(** ** The image *)

(** An image that [load_icode] accepts, in the kernel's own pages: no two segments
    touch one page, as the comment in the source assumes, nor the stack's page. *)
Record good_image (m : mem) (binary : Z) : Prop := {
  gi_kernel : KERNBASE ≤ binary;
  gi_header a : binary ≤ a < binary + 52 → kernel_byte a;
  gi_magic : load32 m (binary - KERNBASE) = ELF_MAGIC;
  gi_entry : load32 m (binary + 24 - KERNBASE) ≠ 0;
  gi_phdrs a : phdr_addr m binary 0 ≤ a < phdr_addr m binary (e_phnum m binary) → kernel_byte a;
  gi_segs i : 0 ≤ i < e_phnum m binary → ph_type (phdr_of m binary i) = ELF_PROG_LOAD → seg_ok binary (phdr_of m binary i);
  gi_apart i j q : 0 ≤ i < e_phnum m binary → 0 ≤ j < e_phnum m binary →
    in_seg (phdr_of m binary i) q → in_seg (phdr_of m binary j) q → i = j;
}.

(** The bytes of the segments before [n]. *)
Definition segs_in (m : mem) (binary n : Z) (c : Z → option Z) : Prop := ∀ i t, 0 ≤ i < n →
  ph_type (phdr_of m binary i) = ELF_PROG_LOAD → 0 ≤ t < ph_memsz (phdr_of m binary i) →
  c (ph_va (phdr_of m binary i) + t) = Some (seg_byte m binary (phdr_of m binary i) t).

Lemma load_segments_run binary r l k : 0 ≤ r → let m := m0 in
  loading (λ _, False) (λ _, None) (2 * (pages_from m binary 0 + 1) + r) l k → good_image m binary →
  ∃ l' k' c', forM (zrange 0 (e_phnum m binary)) (λ i, load_segment cpunum e binary (phdr_addr m binary i)) k = (Ret tt, k') ∧
    loading (λ q, ∃ i, 0 ≤ i < e_phnum m binary ∧ in_seg (phdr_of m binary i) q) c' (2 + r) l' k' ∧
    segs_in m binary (e_phnum m binary) c'.
Proof using He Hcr3.
  intros Hr0 m L [g1 g2 g3 g4 g5 g6 g7]. set (n := e_phnum m binary) in *.
  assert (0 ≤ n) as Hn by (unfold n, e_phnum, load16; pose proof (load8_range m (binary + 44 - KERNBASE));
    pose proof (load8_range m (binary + 44 - KERNBASE + 1)); lia).
  destruct (forM_zrange (λ i k, ∃ l c, loading (λ q, ∃ j, 0 ≤ j < i ∧ in_seg (phdr_of m binary j) q) c (2 * (pages_from m binary i + 1) + r) l k ∧
      segs_in m binary i c) (λ i, load_segment cpunum e binary (phdr_addr m binary i)) n k Hn)
    as (k' & E & l' & c' & L' & Hc').
  - exists l, (λ _, None). split; [|intros i t Hi; lia]. refine (loading_iff _ _ _ _ _ _ _ _ (Z.le_refl _) L).
    intros q. split; [done|]. intros (j & Hj & _). lia.
  - clear L k. intros i k Hi (l1 & c1 & L1 & Hc1). rewrite (pages_from_step m binary i) in L1 by (fold n; lia).
    pose proof (pages_from_nonneg m binary (i + 1)) as Hp.
    destruct (load_segment_run _ _ _ _ _ binary (phdr_addr m binary i) L1 g1) as (l2 & k2 & c2 & E2 & L2 & Hc2 & Hk2).
    + intros a Ha. apply g5. unfold phdr_addr in *. lia.
    + exact (g6 i Hi).
    + fold m. change (phdr_at m (phdr_addr m binary i)) with (phdr_of m binary i). lia.
    + intros q Hq (j & Hj & Hq'). pose proof (g7 i j q Hi ltac:(lia) Hq Hq'). lia.
    + exists k2. split; [exact E2|]. exists l2, c2. fold m in L2, Hc2, Hk2.
      change (phdr_at m (phdr_addr m binary i)) with (phdr_of m binary i) in *. split.
      * refine (loading_iff _ _ _ _ _ _ _ _ _ L2); [|lia]. intros q. split.
        -- intros [Hq|(j & Hj & Hq)]; [exists i|exists j]; (split; [lia|exact Hq]).
        -- intros (j & Hj & Hq). destruct (decide (j = i)) as [->|]; [by left|]. right. exists j. split; [lia|exact Hq].
      * intros j t Hj Ht Hr. destruct (decide (j = i)) as [->|Hne]; [exact (Hc2 Ht t Hr)|].
        rewrite Hk2; [exact (Hc1 j t ltac:(lia) Ht Hr)|]. intros Hq. apply Hne. apply (g7 j i ((ph_va (phdr_of m binary j) + t) / 4096) ltac:(lia) Hi); [|exact Hq].
        destruct (phdr_at_range m (phdr_addr m binary j)) as (_ & _ & Hv & _ & _).
        change (phdr_at m (phdr_addr m binary j)) with (phdr_of m binary j) in Hv.
        unfold in_seg, seg_pages. rewrite Ht, Z.eqb_refl. lia.
  - exists l', k', c'. split; [exact E|]. split; [|exact Hc']. refine (loading_iff _ _ _ _ _ _ _ (λ _, iff_refl _) _ L').
    pose proof (pages_from_nonneg m binary n). lia.
Qed.

(** The last page of the user stack. *)
Definition stack_page : Z := USTACKTOP / 4096 - 1.

Lemma load_stack_run P c r l k : 0 ≤ r → loading P c (2 + r) l k → ¬ P stack_page →
  ∃ l' k', region_alloc cpunum e (USTACKTOP - PGSIZE) PGSIZE k = (Ret tt, k') ∧ loading (λ q, q = stack_page ∨ P q) c r l' k'.
Proof using He.
  change (USTACKTOP - PGSIZE) with 0xEEBFD000. change PGSIZE with 4096. change stack_page with 0xEEBFD. intros Hr L HP.
  destruct (region_alloc_run P c (2 + r) l k 0xEEBFD000 4096 L) as (l' & k' & E & L'); try done.
  { change ((0xEEBFD000 + 4096 + 4095) / 4096 - 0xEEBFD000 / 4096) with 1. lia. }
  { intros x Hx. change (0xEEBFD000 / 4096) with 0xEEBFD in Hx.
    change ((0xEEBFD000 + 4096 + 4095) / 4096) with 0xEEBFE in Hx. by replace x with 0xEEBFD by lia. }
  exists l', k'. split; [exact E|]. refine (loading_iff _ _ _ _ _ _ _ _ _ L');
    [|change ((0xEEBFD000 + 4096 + 4095) / 4096 - 0xEEBFD000 / 4096) with 1; lia]. intros q.
  change (0xEEBFD000 / 4096) with 0xEEBFD. change ((0xEEBFD000 + 4096 + 4095) / 4096) with 0xEEBFE.
  split; (intros [?|?]; [left; lia|by right]).
Qed.
End load.

(** ** [env_create] *)

Section create.
Context (cpunum : Z) (base : Z → Z) (kp : Z) (live : list Z) (e : Z) (fe : list Z) (p : Z) (l : list Z) (k : kst).
Context (H : kernel_inv base kp live (e :: fe) (p :: l) k).
Let m := phys (k_mm k).

Lemma kernel_load32 m' a : (∀ b, base (b / 4096) ≠ 0 → load8 m' b = load8 m b) →
  (∀ j, 0 ≤ j < 4 → base ((a + j - KERNBASE) / 4096) ≠ 0) → load32 m' (a - KERNBASE) = load32 m (a - KERNBASE).
Proof using.
  intros Hm Ha. apply load32_bytes_eq. intros j Hj. apply Hm. replace (a - KERNBASE + j) with (a + j - KERNBASE) by lia. by apply Ha.
Qed.

(** The environment [load_icode] starts with. *)
Definition icode_env (entry : Z) : Env :=
  with_tf (fresh_env (envs k e) e p 0) (tf_set_eip entry env_tf_init).

Lemma icode_start entry : ∃ k1,
  env_alloc cpunum 0 k = (Ret (0, Some e), k1) ∧ envs k1 e = fresh_env (envs k e) e p 0 ∧
  (∀ b, base (b / 4096) ≠ 0 → load8 (phys (k_mm k1)) b = load8 m b) ∧ npages (k_mm k1) = npages (k_mm k) ∧
  let k0 := lcr3_state cpunum (p * 4096) (upd_env e (λ v, with_tf v (tf_set_eip entry (env_tf v))) k1) in
  loading base kp (e :: live) fe e k0 m (λ _, False) (λ _, None) (Z.of_nat (length l)) l k0 ∧
  envs k0 = <[e := icode_env entry]> (envs k) ∧ kernel_lock k0 = kernel_lock k ∧
  cpus k0 = <[cpunum := mkCpu (cpu_status (cpus k cpunum)) (cpu_env (cpus k cpunum)) (p * 4096)]> (cpus k) ∧
  dirof k0 e = p ∧ ∀ x, x ∈ live → dirof k0 x = dirof k x.
Proof using H.
  destruct (env_alloc_run cpunum base kp 0 live e fe p l k H) as (k1 & E & H1 & Ee & Ec & Elk & Eg & Hent & Hlook & Hdata & _).
  pose proof (ke_mm _ _ _ _ _ _ H) as Hm. destruct (ki_free _ _ _ _ p Hm) as [Hbp Hnr]; [left|].
  assert (e ∉ live) as Hel by (intros Hin; apply (ke_disj _ _ _ _ _ _ H e Hin); left).
  assert (∀ b, base (b / 4096) ≠ 0 → load8 (phys (k_mm k1)) b = load8 m b) as Hkept by (intros b Hb; apply Hdata; intros Eb; by rewrite Eb in Hb).
  exists k1. split; [exact E|]. split; [by rewrite Ee, upd_same|]. split; [exact Hkept|]. split; [exact (proj1 Eg)|].
  set (k2 := upd_env e _ k1). intros k0.
  assert (envs k0 = <[e := icode_env entry]> (envs k)) as Ek0.
  { cbn [envs lcr3_state set_cpus set_mm k0 k2 upd_env set_envs]. unfold k0, lcr3_state, k2, upd_env. cbn. by rewrite Ee, upd_same, upd_upd. }
  assert (dirof k0 e = p) as Ede by (apply dirof_kva; by rewrite Ek0, upd_same).
  assert (∀ x, x ∈ live → dirof k0 x = dirof k x) as Edx.
  { intros x Hx. unfold dirof. rewrite Ek0, upd_other; [done|]. by intros ->. }
  assert (∀ d', d' ∈ dirof k0 <$> e :: live → d' ≠ p → d' ∈ dirof k <$> live) as Hdirs.
  { intros d' (x & -> & Hx)%list_elem_of_fmap Hne. apply elem_of_cons in Hx as [->|Hx]; [by rewrite Ede in Hne|].
    rewrite Edx by exact Hx. apply list_elem_of_fmap. by exists x. }
  assert (∀ va, 0 ≤ va < UTOP → lookup_pte (phys (k_mm k1)) p va = None) as Hnone.
  { intros va Hva. pose proof (PDX_range va). apply lookup_nowalk, tgt_None. rewrite Hent by lia. unfold setup_pde.
    by rewrite decide_True by exact (PDX_user va Hva). }
  split; [|split; [exact Ek0|split; [exact Elk|split; [|by split]]]].
  2: { unfold k0, lcr3_state. cbn. by rewrite Ec. }
  split.
  - apply lcr3_inv. unfold k2. apply ke_upd_env; [exact H1|left| |reflexivity|reflexivity].
    cbn. rewrite Ee, upd_same. cbn. unfold ENV_DYING, ENV_RUNNABLE, ENV_NOT_RUNNABLE. lia.
  - by destruct k0.
  - lia.
  - intros va Hva. rewrite Ede. change (phys (k_mm k0)) with (phys (k_mm k1)). rewrite Hnone by exact Hva. intros [].
  - intros d' va va' pte pte' _ Hva _ Hl. rewrite Ede in Hl. change (phys (k_mm k0)) with (phys (k_mm k1)) in Hl. by rewrite Hnone in Hl.
  - done.
  - exact Hkept.
  - intros d' va Hd' Hne Hva. rewrite Ede in Hne. pose proof (Hdirs d' Hd' Hne) as Hin.
    change (phys (k_mm k0)) with (phys (k_mm k1)). pose proof (Hlook d' va Hin (PDX_user va Hva)) as El. split; [exact El|].
    unfold user_byte. rewrite El. unfold m. destruct (lookup_pte (phys (k_mm k)) d' va) as [pte|] eqn:Ep; [|done].
    cbn [option_map]. rewrite Hdata; [done|]. intros Epp. apply Hnr. unfold refs. rewrite !elem_of_app. right; right.
    replace p with (pte / 4096) by lia. exact (lookup_leaf _ _ _ _ _ Hin (PDX_user va Hva) Ep).
Qed.

Lemma env_create_run binary type :
  good_image base m binary → 2 * (pages_from m binary 0 + 1) ≤ Z.of_nat (length l) →
  let is_stack_or_segment q := q = stack_page ∨ ∃ i, 0 ≤ i < e_phnum m binary ∧ in_seg (phdr_of m binary i) q in
  ∃ k' l', env_create cpunum binary type k = (Ret tt, k') ∧ kernel_inv base kp (e :: live) fe l' k' ∧
    (let v := icode_env (load32 m (binary + 24 - KERNBASE)) in
     envs k' = <[e := with_ids v (env_id v) (env_parent_id v) type]> (envs k)) ∧
    cpus k' = <[cpunum := mkCpu (cpu_status (cpus k cpunum)) (cpu_env (cpus k cpunum)) (p * 4096)]> (cpus k) ∧
    kernel_lock k' = kernel_lock k ∧
    (∀ i t, 0 ≤ i < e_phnum m binary → let h := phdr_of m binary i in
       ph_type h = ELF_PROG_LOAD → 0 ≤ t < ph_memsz h →
       user_byte (phys (k_mm k')) p (ph_va h + t) = Some (seg_byte m binary h t)) ∧
    (∀ va, 0 ≤ va < UTOP →
       match lookup_pte (phys (k_mm k')) p va with
       | Some pte => is_stack_or_segment (va / 4096) ∧ pte = pte / 4096 * 4096 + Z.lor (Z.lor PTE_W PTE_U) PTE_P
       | None => ¬ is_stack_or_segment (va / 4096)
       end) ∧
    (∀ d va, d ∈ dirof k <$> live → 0 ≤ va < UTOP → user_byte (phys (k_mm k')) d va = user_byte m d va) ∧
    (∀ a, base (a / 4096) ≠ 0 → load8 (phys (k_mm k')) a = load8 m a) ∧
    Z.of_nat (length l) - 2 * (pages_from m binary 0 + 1) ≤ Z.of_nat (length l').
Proof using H.
  intros G Hroom Q. pose proof (ke_mm _ _ _ _ _ _ H) as Hm. pose proof (ki_npages _ _ _ _ Hm) as Hnp.
  destruct (ki_free _ _ _ _ p Hm) as [Hbp Hnr]; [left|]. destruct (ai_free _ _ (ki_alloc _ _ _ _ Hm) p) as [Hp _]; [left|].
  set (entry := load32 m (binary + 24 - KERNBASE)).
  destruct (icode_start entry) as (k1 & Ea & Ee1 & Hk1 & En1 & L0 & Ek0 & Elk0 & Ec0 & Ede & Edx).
  set (k0 := lcr3_state cpunum (p * 4096) _) in *. pose proof G as [g1 g2 g3 g4 g5 g6 g7].
  assert (cpu_cr3 (cpus k0 cpunum) = dirof k0 e * 4096) as Hcr3 by (by rewrite Ec0, upd_same, Ede).
  assert (e ∈ e :: live) as He by left.
  destruct (load_segments_run cpunum base kp (e :: live) fe e k0 m He Hcr3 binary (Z.of_nat (length l) - 2 * (pages_from m binary 0 + 1)) l k0) as (l2 & k2 & c2 & E2 & L2 & Hc2);
    [exact (proj2 (Z.le_0_sub _ _) Hroom)|refine (loading_iff _ _ _ _ _ _ _ _ _ _ _ _ _ _ _ _ L0); [done|fold m; lia]|by split|].
  destruct (load_stack_run cpunum base kp (e :: live) fe e k0 m He _ _ _ _ _ (proj2 (Z.le_0_sub _ _) Hroom) L2) as (l3 & k3 & E3 & L3).
  { intros (i & Hi & Hq). unfold in_seg, seg_pages in Hq. change stack_page with 0xEEBFD in Hq.
    destruct (Z.eqb_spec (ph_type (phdr_of m binary i)) ELF_PROG_LOAD) as [Et|]; [|lia].
    pose proof (so_user _ _ _ (g6 i Hi Et)) as Hu. change (USTACKTOP - PGSIZE) with 0xEEBFD000 in Hu. lia. }
  destruct (ld_envs _ _ _ _ _ _ _ _ _ _ _ _ L3) as (Ee3 & Ec3 & Elk3).
  exists (upd_env e (λ v, with_ids v (env_id v) (env_parent_id v) type) k3), l3. split; [|split].
  - unfold env_create. rewrite run_bind, Ea. cbv beta iota. change (negb (0 =? 0)) with false. cbv iota.
    rewrite run_bind, run_ret, run_bind. unfold load_icode.
    rewrite run_bind. unfold kload32 at 1. rewrite liftM_gets. cbv beta iota.
    assert (∀ o, 0 ≤ o ≤ 48 → load32 (phys (k_mm k1)) (binary + o - KERNBASE) = load32 m (binary + o - KERNBASE)) as Hh.
    { intros o Ho. apply kernel_load32; [exact Hk1|]. intros j Hj. apply g2. lia. }
    pose proof (Hh 0 ltac:(lia)) as Hh0. rewrite Z.add_0_r, g3 in Hh0. rewrite Hh0, Z.eqb_refl. cbn [negb].
    rewrite run_bind, run_ret, run_bind. unfold kload32 at 1. rewrite liftM_gets. cbv beta iota.
    rewrite Hh by lia. fold entry. rewrite (proj2 (Z.eqb_neq entry 0) g4), run_bind, run_ret, run_bind, run_modify.
    set (k1' := upd_env e _ k1). rewrite run_bind. unfold get_env. rewrite run_gets, run_bind.
    assert (env_pgdir (envs k1' e) = kva p) as -> by (unfold k1', upd_env; cbn; by rewrite upd_same, Ee1).
    rewrite (liftM_run _ _ (Ret (p * 4096)) (k_mm k1')) by (apply PADDR_kva; lia). rewrite set_mm_id. cbv beta iota.
    rewrite run_bind, lcr3_run. cbv beta iota. change (lcr3_state cpunum (p * 4096) k1') with k0.
    rewrite run_bind, (loading_load32 _ _ _ _ _ _ _ _ _ _ _ _ _ L0) by (intros j Hj; apply g2; lia). cbv beta iota.
    assert (liftM (kload16 (binary + 44)) k0 = (Ret (e_phnum m binary), k0)) as En.
    { unfold kload16. rewrite liftM_gets. do 2 f_equal. unfold e_phnum, load16. f_equal; [|f_equal]; apply Hk1.
      - replace (binary + 44 - KERNBASE) with (binary + 44 - KERNBASE) by lia. apply g2. lia.
      - replace (binary + 44 - KERNBASE + 1) with (binary + 45 - KERNBASE) by lia. apply g2. lia. }
    rewrite run_bind, En. cbv beta iota. rewrite run_bind. unfold phdr_addr in E2. rewrite E2. cbv beta iota.
    rewrite E3, run_modify. reflexivity.
  - apply ke_upd_env; [exact (ld_inv _ _ _ _ _ _ _ _ _ _ _ _ L3)|left| |reflexivity|reflexivity].
    cbn. rewrite Ee3, Ek0, upd_same. cbn. unfold ENV_DYING, ENV_RUNNABLE, ENV_NOT_RUNNABLE. lia.
  - split; [|split; [|split; [|split; [|split; [|split; [|split]]]]]].
    + cbn [envs upd_env set_envs]. by rewrite Ee3, Ek0, upd_same, upd_upd.
    + change (cpus (upd_env e _ k3)) with (cpus k3). by rewrite Ec3, Ec0.
    + change (kernel_lock (upd_env e _ k3)) with (kernel_lock k3). by rewrite Elk3, Elk0.
    + intros i t Hi h Ht Hr. change (k_mm (upd_env e _ k3)) with (k_mm k3).
      pose proof (ld_bytes _ _ _ _ _ _ _ _ _ _ _ _ L3 (ph_va h + t) (seg_byte m binary h t)) as Hb. rewrite Ede in Hb.
      apply Hb; [|exact (Hc2 i t Hi Ht Hr)]. destruct (phdr_at_range m (phdr_addr m binary i)) as (_ & _ & Hv & _ & _).
      change (phdr_at m (phdr_addr m binary i)) with h in Hv.
      pose proof (so_user _ _ _ (g6 i Hi Ht)) as Hu. fold h in Hu. change (USTACKTOP - PGSIZE) with 0xEEBFD000 in Hu.
      change UTOP with 0xEEC00000. lia.
    + intros va Hva. change (k_mm (upd_env e _ k3)) with (k_mm k3).
      pose proof (ld_map _ _ _ _ _ _ _ _ _ _ _ _ L3 va Hva) as Hv. rewrite Ede in Hv.
      destruct (lookup_pte (phys (k_mm k3)) p va) as [pte|]; [|exact Hv]. destruct Hv as (Hv & _ & Hv'). by split.
    + intros d va (x & -> & Hx)%list_elem_of_fmap Hva. change (k_mm (upd_env e _ k3)) with (k_mm k3).
      rewrite <- (Edx x Hx). apply (ld_others _ _ _ _ _ _ _ _ _ _ _ _ L3); [|rewrite Ede, Edx by exact Hx|exact Hva].
      * apply list_elem_of_fmap. exists x. split; [reflexivity|by right].
      * intros Ex. apply (not_in_refs _ _ _ Hnr), elem_of_app. left. rewrite <- Ex. apply list_elem_of_fmap. by exists x.
    + exact (ld_kept _ _ _ _ _ _ _ _ _ _ _ _ L3).
    + exact (ld_free _ _ _ _ _ _ _ _ _ _ _ _ L3).
Qed.

(** C19: [env_create] makes a runnable environment of an ELF image: its registers are
    those of a new program at the image's entry point; every loadable segment is
    in its memory, the bytes of the file first and then zeros; it has its stack's
    last page and no other page than these, all writable; other address spaces
    keep their bytes, and the kernel invariant holds. *)
Theorem env_create_correct binary type :
  good_image base m binary → 2 * (pages_from m binary 0 + 1) ≤ Z.of_nat (length l) →
  let is_stack_or_segment q := q = stack_page ∨ ∃ i, 0 ≤ i < e_phnum m binary ∧ in_seg (phdr_of m binary i) q in
  ∃ k' l', env_create cpunum binary type k = (Ret tt, k') ∧ kernel_inv base kp (e :: live) fe l' k' ∧
    (let v := icode_env (load32 m (binary + 24 - KERNBASE)) in
     envs k' = <[e := with_ids v (env_id v) (env_parent_id v) type]> (envs k)) ∧
    cpus k' = <[cpunum := mkCpu (cpu_status (cpus k cpunum)) (cpu_env (cpus k cpunum)) (p * 4096)]> (cpus k) ∧
    kernel_lock k' = kernel_lock k ∧
    (∀ i t, 0 ≤ i < e_phnum m binary → let h := phdr_of m binary i in
       ph_type h = ELF_PROG_LOAD → 0 ≤ t < ph_memsz h →
       user_byte (phys (k_mm k')) p (ph_va h + t) = Some (seg_byte m binary h t)) ∧
    (∀ va, 0 ≤ va < UTOP →
       match lookup_pte (phys (k_mm k')) p va with
       | Some pte => is_stack_or_segment (va / 4096) ∧ pte = pte / 4096 * 4096 + Z.lor (Z.lor PTE_W PTE_U) PTE_P
       | None => ¬ is_stack_or_segment (va / 4096)
       end) ∧
    (∀ d va, d ∈ dirof k <$> live → 0 ≤ va < UTOP → user_byte (phys (k_mm k')) d va = user_byte m d va).
Proof using H.
  intros G Hroom. destruct (env_create_run binary type G Hroom) as (k' & l' & h1 & h2 & h3 & h4 & h5 & h6 & h7 & h8 & _).
  by exists k', l'.
Qed.
End create.

(** ** A concrete kernel

    32 pages, of which the last 16 are free; the kernel's directory is page 1 and
    has a table for device registers in page 4; page 8 holds an ELF image with one
    segment of four bytes at 0x800020 and four zeros after them.  No environment
    exists and CPU 0 is alone. *)
Definition boot_mem : mem :=
  foldr (λ '(a, v) m, store32 m a v) (λ _, 0)
    [(slot 1 (PDX MMIOBASE), 4 * 4096 + 7); (0x8000, ELF_MAGIC); (0x8000 + 24, 0x800020); (0x8000 + 28, 52); (0x8000 + 44, 1);
     (0x8034, ELF_PROG_LOAD); (0x8034 + 4, 0x100); (0x8034 + 8, 0x800020); (0x8034 + 16, 4); (0x8034 + 20, 8); (0x8100, 0x04030201)].
Definition boot_base (p : Z) : Z := if (16 <=? p) && (p <? 32) then 0 else 1.
Definition boot_mm : mm :=
  mkMM 32 32 boot_mem (λ p, mkPageInfo (if (16 <=? p) && (p <? 31) then Some (p + 1) else None) (boot_base p))
    (Some 16) (kva 1) (KERNBASE + 0x4000) MMIOBASE 0 [].
Definition boot_k : kst :=
  mkK boot_mm (λ i, mkEnv tf0 (if decide (i + 1 < 1024) then Some (i + 1) else None) 0 0 ENV_TYPE_USER ENV_FREE 0 0 0 0 false 0 0 0 0)
    (Some 0) (λ c, if c =? 0 then mkCpu CPU_STARTED None 4096 else mkCpu CPU_UNUSED None 0) (mkLock false None) [].

Lemma boot_k_inv : kernel_inv boot_base 1 [] (zrange 0 1024) (zrange 16 16) boot_k.
Proof.
  assert (∀ p, p ∈ zrange 16 16 → boot_base p = 0) as Hz.
  { intros p Hp%elem_of_zrange. unfold boot_base. destruct (Z.leb_spec 16 p), (Z.ltb_spec p 32); lia || done. }
  split.
  - apply (linked_range _ 1024 0 1024); [|done]. done.
  - unfold NENV. by rewrite app_nil_r.
  - done.
  - by intros e ?%elem_of_nil.
  - by intros e ?%elem_of_nil.
  - by intros e ?%elem_of_nil.
  - split; cbn -[zrange boot_base boot_mem].
    + split; cbn -[zrange boot_base boot_mem].
      * lia.
      * apply (linked_range _ 32 16 16); [|done]. intros p Hp. cbn. case_decide; destruct (Z.leb_spec 16 p), (Z.ltb_spec p 31); lia || done.
      * apply NoDup_zrange.
      * intros p Hp. split; [apply elem_of_zrange in Hp; lia|by apply Hz].
      * intros p Hp Hn. rewrite elem_of_zrange in Hn. destruct (Z.leb_spec 16 p), (Z.ltb_spec p 31); lia || done.
    + constructor.
    + by intros p ?%elem_of_nil.
    + by intros p ?%elem_of_nil.
    + intros p. unfold boot_base. by case_match.
    + by intros p ?%elem_of_nil.
    + intros p _. cbn. lia.
    + intros p _. unfold boot_base. case_match; lia.
  - cbn. lia.
Qed.

Definition boot_image : Z := KERNBASE + 0x8000.

Lemma boot_good_image base : base 8 ≠ 0 → good_image base boot_mem boot_image.
Proof.
  intros H8.
  assert (e_phnum boot_mem boot_image = 1) as En by by vm_compute.
  assert (phdr_addr boot_mem boot_image 0 = KERNBASE + 0x8034) as Ea by by vm_compute.
  assert (phdr_of boot_mem boot_image 0 = mkPh 1 0x100 0x800020 4 8) as Eh by by vm_compute.
  assert (∀ a, KERNBASE + 0x8000 ≤ a < KERNBASE + 0x9000 → base ((a - KERNBASE) / 4096) ≠ 0) as Hb.
  { intros a Ha. by replace ((a - KERNBASE) / 4096) with 8 by lia. }
  split.
  - by vm_compute.
  - intros a Ha. apply Hb. unfold boot_image in Ha. lia.
  - by vm_compute.
  - by vm_compute.
  - rewrite En. intros a Ha. apply Hb. unfold phdr_addr in *. lia.
  - rewrite En. intros i Hi _. replace i with 0 by lia. rewrite Eh. unfold boot_image. split; cbn -[KERNBASE].
    + lia.
    + by vm_compute.
    + by vm_compute.
    + intros a Ha. apply Hb. lia.
  - rewrite En. intros i j q Hi Hj _ _. lia.
Qed.

Lemma env_create_correct_witness : ∃ k' l',
  env_create 0 boot_image ENV_TYPE_USER boot_k = (Ret tt, k') ∧ kernel_inv boot_base 1 [0] (zrange 1 1023) l' k' ∧
  tf_eip (env_tf (envs k' 0)) = 0x800020 ∧
  user_byte (phys (k_mm k')) 16 0x800021 = Some 2 ∧ user_byte (phys (k_mm k')) 16 0x800025 = Some 0.
Proof.
  pose proof (env_create_correct 0 boot_base 1 [] 0 (zrange (0 + 1) (1024 - 1)) 16 (zrange (16 + 1) (16 - 1)) boot_k) as T.
  rewrite <- !(zrange_cons 0 1024), <- !(zrange_cons 16 16) in T by lia.
  destruct (T boot_k_inv boot_image ENV_TYPE_USER (boot_good_image boot_base (Z.neq_succ_diag_l 0)) ltac:(by vm_compute)) as (k' & l' & E & H & Ee & _ & _ & Hb & _).
  exists k', l'. split; [exact E|]. split; [exact H|]. split; [by rewrite Ee, upd_same|].
  pose (m := phys (k_mm boot_k)). set (h := mkPh 1 0x100 0x800020 4 8).
  assert (phdr_of m boot_image 0 = h) as Eh by (vm_compute; reflexivity).
  assert (e_phnum m boot_image = 1) as En by (vm_compute; reflexivity).
  assert (seg_byte m boot_image h 1 = 2) as E1 by (vm_compute; reflexivity).
  assert (seg_byte m boot_image h 5 = 0) as E5 by (vm_compute; reflexivity).
  assert (0 ≤ 0 < e_phnum m boot_image) as H0 by (rewrite En; lia). clear T E H Ee.
  pose proof (Hb 0 1 H0) as H1. pose proof (Hb 0 5 H0) as H5. cbv zeta in H1, H5. fold m in H1, H5.
  rewrite Eh, E1 in H1. rewrite Eh, E5 in H5. split; [exact (H1 eq_refl ltac:(cbn; lia))|exact (H5 eq_refl ltac:(cbn; lia))].
Defined.
