(* ===== verification/UserEntry.v ===== *)
(** * lib/pfentry.S: the page-fault entry point of user environments

    The kernel resumes a faulting environment at [_pgfault_upcall] with the
    stack pointer at a [struct UTrapframe] (Trap).  The instructions are
    modelled one by one over the environment's memory; the C handler that they
    call through [_pgfault_handler] is an argument.  Proved here: how the code
    goes back to the trapped computation. *)
From S2P Require Import Prelude Monad Word Layout Mem CString PageAlloc PageTable PageInv PageOps PageDirs Seg KState Env EnvMem KInv EnvSpec Sched SchedSpec UserMem Syscall Trap UserStore TrapSpec SysSpec MemInit UserLib UserSpec ForkSpec.

(** The registers of user code. *)
Record ustate := mkU { u_regs : PushRegs; u_eip : Z; u_eflags : Z; u_esp : Z }.

(** The flags that [popfl] sets in user mode: CF, PF, AF, ZF, SF, TF, DF, OF, NT,
    AC, ID.  The others, [FL_IF] and the I/O privilege level among them, stay. *)
Definition UFLAGS := 0x244DD5.
Definition popf (old v : Z) : Z := Z.lor (Z.land v UFLAGS) (Z.land old (Z.lnot UFLAGS)).

Section upcall.
Context (cpunum : Z).

(** [pushl v] and [popl]: the new stack pointer is returned. *)
Definition pushl (esp v : Z) : K Z :=
  let esp := u32 (esp - 4) in vstore32 cpunum esp v ;; mret esp.
Definition popl (esp : Z) : K (Z * Z) :=
  v ← vload32 cpunum esp; mret (v, u32 (esp + 4)).

(** [popal] skips the saved [esp]; the register field that stands for it is read
    all the same. *)
Definition popal (esp : Z) : K (PushRegs * Z) :=
  '(edi, esp) ← popl esp; '(esi, esp) ← popl esp; '(ebp, esp) ← popl esp; '(oesp, esp) ← popl esp;
  '(ebx, esp) ← popl esp; '(edx, esp) ← popl esp; '(ecx, esp) ← popl esp; '(eax, esp) ← popl esp;
  mret (mkRegs edi esi ebp oesp ebx edx ecx eax, esp).

(** From [addl $8, %esp] to [ret]: back to the trap-time state, [esp] at the
    frame; [eflags] are the flags of the moment. *)
Definition upcall_return (eflags esp : Z) : K ustate :=
  let esp := u32 (esp + 8) in
  eax ← vload32 cpunum (u32 (esp + 32));
  edx ← vload32 cpunum (u32 (esp + 40));
  let edx := u32 (edx - 4) in
  vstore32 cpunum edx eax ;;
  vstore32 cpunum (u32 (esp + 40)) edx ;;
  '(regs, esp) ← popal esp;
  let esp := u32 (esp + 4) in
  '(f, esp) ← popl esp;
  '(esp, _) ← popl esp;
  '(eip, esp) ← popl esp;
  mret (mkU regs eip (popf eflags f) esp).

(** The address of [_pgfault_handler], of the instruction after [call *%eax],
    and the C functions: [call h arg] runs the one at address [h]. *)
Context (a_pgfault_handler a_ret : Z) (call : Z → Z → K ()).

Definition _pgfault_upcall (eflags esp : Z) : K ustate :=
  esp ← pushl esp esp;
  eax ← vload32 cpunum a_pgfault_handler;
  esp ← pushl esp a_ret;
  arg ← vload32 cpunum (u32 (esp + 4));
  call eax arg ;;
  '(ret, esp) ← popl esp;
  if negb (ret =? a_ret) then undef "return to elsewhere"
  else
    let esp := u32 (esp + 4) in
    upcall_return eflags esp.
End upcall.

Lemma popf_same old v : Z.land v (Z.lnot UFLAGS) = Z.land old (Z.lnot UFLAGS) → popf old v = v.
Proof.
  intros E. unfold popf. rewrite <- E, <- Z.land_lor_distr_r, Z.lor_lnot_diag. apply Z.land_m1_r.
Qed.

(** ** Words of user memory *)

Section words.
Context (cpunum e : Z) (base : Z → Z) (kp : Z) (live fe l : list Z).
Notation user_runs := (user_runs cpunum e base kp live fe l).

Lemma uload32_run k va pte :
  user_runs k → lookup_pte (phys (k_mm k)) (dirof k e) va = Some pte → 0 ≤ va < UTOP → va mod 4096 + 4 ≤ 4096 →
  vload32 cpunum va k = (Ret (load32 (phys (k_mm k)) (pte / 4096 * 4096 + va mod 4096)), k).
Proof.
  intros Hu Hl Hva Hoff. change UTOP with 0xEEC00000 in Hva. apply vload32_run; [lia..|]. intros j Hj.
  rewrite (us_cr3 _ _ _ _ _ _ _ _ Hu).
  rewrite (vtrans_read _ _ _ pte); [f_equal; lia|change KERNBASE with 0xF0000000; lia|].
  rewrite <- Hl. apply lookup_pte_page. rewrite !u32_small; lia.
Qed.

Lemma ustore32_run k va pte v :
  user_runs k → lookup_pte (phys (k_mm k)) (dirof k e) va = Some pte → flag pte PTE_W = true →
  0 ≤ va < UTOP → va mod 4096 + 4 ≤ 4096 →
  let m' := store32 (phys (k_mm k)) (pte / 4096 * 4096 + va mod 4096) v in
  vstore32 cpunum va v k = (Ret tt, with_phys m' k) ∧ user_runs (with_phys m' k) ∧
  (∀ y u, y ∈ live → PDX u < UPDX → lookup_pte m' (dirof k y) u = lookup_pte (phys (k_mm k)) (dirof k y) u).
Proof.
  intros Hu Hl Hw Hva Hoff m'. pose proof (us_live _ _ _ _ _ _ _ _ Hu) as He.
  assert (user_page cpunum base kp live fe l e (pte / 4096) k va) as Hp.
  { split; [apply Hu|apply Hu|]. exists pte. by split_and!. }
  destruct (vstore32_run cpunum base kp live fe l e (pte / 4096) He k va v Hp) as [E _]; [lia..|].
  destruct (user_runs_with_phys cpunum e (λ _ _, None) base kp live fe l k (pte / 4096) va m' Hu Hp (PDX_user va Hva)) as [Hu' HL].
  { intros a Ha. unfold m'. rewrite load8_store32, decide_False by lia. done. }
  exact (conj E (conj Hu' HL)).
Qed.

(** [esp] points into one page. *)
Lemma upopl_run k esp pte :
  user_runs k → lookup_pte (phys (k_mm k)) (dirof k e) esp = Some pte → 0 ≤ esp < UTOP → esp mod 4096 + 4 ≤ 4096 →
  popl cpunum esp k = (Ret (load32 (phys (k_mm k)) (pte / 4096 * 4096 + esp mod 4096), esp + 4), k).
Proof.
  intros Hu Hl Hva Hoff. unfold popl. rewrite run_bind, (uload32_run k esp pte Hu Hl Hva Hoff). cbv beta iota.
  rewrite run_ret. change UTOP with 0xEEC00000 in Hva. by rewrite u32_small by lia.
Qed.

(** ** A frame on the stack *)

(** The words [ws] are at [va], in one page with entry [pte]. *)
Record on_stack (k : kst) (va pte : Z) (ws : list Z) : Prop := {
  os_map : lookup_pte (phys (k_mm k)) (dirof k e) va = Some pte;
  os_range : 0 ≤ va ∧ va mod 4096 + 4 * Z.of_nat (length ws) ≤ 4096 ∧ va + 4 * Z.of_nat (length ws) ≤ UTOP;
  os_words : ∀ i w, ws !! i = Some w → load32 (phys (k_mm k)) (pte / 4096 * 4096 + va mod 4096 + 4 * Z.of_nat i) = w;
}.

Lemma on_stack_at k va pte ws i : on_stack k va pte ws → (i < length ws)%nat →
  lookup_pte (phys (k_mm k)) (dirof k e) (va + 4 * Z.of_nat i) = Some pte ∧
  0 ≤ va + 4 * Z.of_nat i < UTOP ∧ (va + 4 * Z.of_nat i) mod 4096 = va mod 4096 + 4 * Z.of_nat i ∧
  va mod 4096 + 4 * Z.of_nat i + 4 ≤ 4096.
Proof.
  intros [Hl (H0 & H1 & H2) _] Hi. change UTOP with 0xEEC00000 in *.
  split_and!; [|lia..]. rewrite <- Hl. apply lookup_pte_page. rewrite !u32_small; lia.
Qed.

Lemma on_stack_load k va pte ws i w : user_runs k → on_stack k va pte ws → ws !! i = Some w →
  vload32 cpunum (va + 4 * Z.of_nat i) k = (Ret w, k).
Proof.
  intros Hu Hs Hi. destruct (on_stack_at k va pte ws i Hs (lookup_lt_Some _ _ _ Hi)) as (Hl & Hr & Em & Ho).
  rewrite (uload32_run k _ pte Hu Hl Hr) by lia. rewrite Em, Z.add_assoc. by rewrite (os_words _ _ _ _ Hs i w Hi).
Qed.

Lemma on_stack_pop k va pte ws i w : user_runs k → on_stack k va pte ws → ws !! i = Some w →
  popl cpunum (va + 4 * Z.of_nat i) k = (Ret (w, va + 4 * Z.of_nat (S i)), k).
Proof.
  intros Hu Hs Hi. destruct (on_stack_at k va pte ws i Hs (lookup_lt_Some _ _ _ Hi)) as (Hl & Hr & Em & Ho).
  rewrite (upopl_run k _ pte Hu Hl Hr) by lia. rewrite Em, Z.add_assoc, (os_words _ _ _ _ Hs i w Hi). do 2 f_equal. f_equal. lia.
Qed.

(** A word at the end, or outside, may change. *)
Lemma on_stack_kept k k' va pte ws n :
  on_stack k va pte ws → (n ≤ length ws)%nat →
  lookup_pte (phys (k_mm k')) (dirof k' e) va = Some pte →
  (∀ a, pte / 4096 * 4096 + va mod 4096 ≤ a < pte / 4096 * 4096 + va mod 4096 + 4 * Z.of_nat n →
     load8 (phys (k_mm k')) a = load8 (phys (k_mm k)) a) →
  on_stack k' va pte (take n ws).
Proof using.
  clear base. intros [Hl (H0 & H1 & H2) Hw] Hn Hl' Hm. split; [exact Hl'| |].
  - rewrite length_take. lia.
  - intros i w Hi. apply lookup_take_Some in Hi as [Hi Hin]. rewrite <- (Hw i w Hi).
    apply load32_bytes_eq. intros j Hj. apply Hm. lia.
Qed.

(** ** Back to the trapped computation *)

(** What the return sequence needs: the frame at [utf], and the word below the
    trap-time stack pointer, writable and not part of the frame. *)
Record can_return (k : kst) (utf pte fault_va : Z) (tf : Trapframe) (pte2 : Z) : Prop := {
  cr_frame : on_stack k utf pte (utrapframe fault_va tf);
  cr_write : flag pte PTE_W = true;
  cr_map : lookup_pte (phys (k_mm k)) (dirof k e) (tf_esp tf - 4) = Some pte2;
  cr_write2 : flag pte2 PTE_W = true;
  cr_range : 4 ≤ tf_esp tf ≤ UTOP ∧ (tf_esp tf - 4) mod 4096 + 4 ≤ 4096;
  cr_eip : 0 ≤ tf_eip tf < 4294967296;
  cr_apart : let pa := pte / 4096 * 4096 + utf mod 4096 in
    let qa := pte2 / 4096 * 4096 + (tf_esp tf - 4) mod 4096 in qa + 4 ≤ pa ∨ pa + 52 ≤ qa;
}.

Lemma upcall_return_run k utf pte fault_va tf pte2 eflags :
  user_runs k → can_return k utf pte fault_va tf pte2 →
  let pa := pte / 4096 * 4096 + utf mod 4096 in
  let qa := pte2 / 4096 * 4096 + (tf_esp tf - 4) mod 4096 in
  ∃ m', upcall_return cpunum eflags utf k =
      (Ret (mkU (tf_regs tf) (tf_eip tf) (popf eflags (tf_eflags tf)) (tf_esp tf)), with_phys m' k) ∧
    user_runs (with_phys m' k) ∧
    (∀ y u, y ∈ live → PDX u < UPDX → lookup_pte m' (dirof k y) u = lookup_pte (phys (k_mm k)) (dirof k y) u) ∧
    (∀ a, ¬ (qa ≤ a < qa + 4) → ¬ (pa + 48 ≤ a < pa + 52) → load8 m' a = load8 (phys (k_mm k)) a).
Proof.
  intros Hu [Hs Hw Hl2 Hw2 [Hr Ho] Heip Hap] pa qa. pose proof (us_live _ _ _ _ _ _ _ _ Hu) as He.
  pose proof Hs as [Hl (H0 & H1 & H2) _]. cbn [utrapframe length] in H1, H2.
  change (Z.of_nat 13) with 13 in H1, H2.
  change UTOP with 0xEEC00000 in Hr, H2. cbv zeta in Hap. fold pa qa in Hap.
  set (s := tf_esp tf - 4) in *.
  destruct (ustore32_run k s pte2 (tf_eip tf) Hu Hl2 Hw2) as (E1 & U1 & L1);
    [change UTOP with 0xEEC00000; lia|exact Ho|]. fold qa in E1, U1, L1.
  set (m1 := store32 (phys (k_mm k)) qa (tf_eip tf)) in *. set (k1 := with_phys m1 k) in *.
  assert (PDX utf < UPDX) as Hpu by (apply PDX_user; change UTOP with 0xEEC00000; lia).
  assert (PDX s < UPDX) as Hps by (apply PDX_user; change UTOP with 0xEEC00000; lia).
  assert (on_stack k1 utf pte (utrapframe fault_va tf)) as S1.
  { apply (on_stack_kept k k1 utf pte _ 13 Hs); [cbn; lia|rewrite <- Hl; exact (L1 e utf He Hpu)|].
    intros a Ha. change (phys (k_mm k1)) with m1. unfold m1. rewrite load8_store32, decide_False; [done|]. fold pa in Ha. lia. }
  destruct (on_stack_at k1 utf pte _ 12 S1 ltac:(cbn; lia)) as (Hl48 & Hr48 & Em48 & _).
  change (4 * Z.of_nat 12) with 48 in *.
  destruct (ustore32_run k1 (utf + 48) pte s U1 Hl48 Hw Hr48 ltac:(lia)) as (E2 & U2 & L2).
  rewrite Em48 in E2, U2, L2. rewrite Z.add_assoc in E2, U2, L2. fold pa in E2, U2, L2.
  change (phys (k_mm k1)) with m1 in *. set (m2 := store32 m1 (pa + 48) s) in *.
  change (with_phys m2 k1) with (with_phys m2 k) in *. set (k2 := with_phys m2 k) in *.
  change (dirof k1) with (dirof k) in *.
  assert (on_stack k2 utf pte (take 12 (utrapframe fault_va tf))) as S2.
  { apply (on_stack_kept k1 k2 utf pte _ 12 S1); [cbn; lia|exact (eq_trans (L2 e utf He Hpu) (eq_trans (L1 e utf He Hpu) Hl))|].
    intros a Ha. change (phys (k_mm k2)) with m2. unfold m2. rewrite load8_store32, decide_False; [done|]. fold pa in Ha. lia. }
  assert (popl cpunum (utf + 48) k2 = (Ret (s, utf + 52), k2)) as P48.
  { rewrite (upopl_run k2 (utf + 48) pte U2); [|exact (eq_trans (L2 e _ He (PDX_user _ Hr48)) Hl48)|exact Hr48|lia].
    rewrite Em48, Z.add_assoc. fold pa. change (phys (k_mm k2)) with m2. unfold m2. rewrite load32_store32_same.
    rewrite u32_small by lia. do 3 f_equal. lia. }
  assert (popl cpunum s k2 = (Ret (tf_eip tf, tf_esp tf), k2)) as Pret.
  { rewrite (upopl_run k2 s pte2 U2); [|exact (eq_trans (L2 e _ He Hps) (eq_trans (L1 e _ He Hps) Hl2))|change UTOP with 0xEEC00000; lia|exact Ho].
    fold qa. change (phys (k_mm k2)) with m2. unfold m2. rewrite load32_store32_other by lia. unfold m1.
    rewrite load32_store32_same, u32_small by exact Heip. do 3 f_equal. lia. }
  exists m2. refine (conj _ (conj U2 (conj _ _))).
  - pose proof (λ i w, on_stack_load k utf pte _ i w Hu Hs) as LD.
    pose proof (λ i w, on_stack_pop k2 utf pte _ i w U2 S2) as PP.
    unfold upcall_return. rewrite (u32_small (utf + 8)) by lia.
    replace (utf + 8 + 32) with (utf + 40) by lia. replace (utf + 8 + 40) with (utf + 48) by lia.
    rewrite !u32_small by lia.
    pose proof (LD 10%nat _ eq_refl) as L10. pose proof (LD 12%nat _ eq_refl) as L12.
    change (4 * Z.of_nat 10) with 40 in L10. change (4 * Z.of_nat 12) with 48 in L12.
    rewrite run_bind, L10. cbv beta iota. rewrite run_bind, L12. cbv beta iota. rewrite (u32_small (tf_esp tf - 4)) by lia. fold s.
    rewrite run_bind, E1. cbv beta iota. rewrite run_bind, E2. cbv beta iota. rewrite run_bind. unfold popal.
    replace (utf + 8) with (utf + 4 * Z.of_nat 2) by lia.
    rewrite run_bind, (PP 2%nat _ eq_refl). cbv beta iota. rewrite run_bind, (PP 3%nat _ eq_refl). cbv beta iota.
    rewrite run_bind, (PP 4%nat _ eq_refl). cbv beta iota. rewrite run_bind, (PP 5%nat _ eq_refl). cbv beta iota.
    rewrite run_bind, (PP 6%nat _ eq_refl). cbv beta iota. rewrite run_bind, (PP 7%nat _ eq_refl). cbv beta iota.
    rewrite run_bind, (PP 8%nat _ eq_refl). cbv beta iota. rewrite run_bind, (PP 9%nat _ eq_refl). cbv beta iota.
    rewrite run_ret. cbv beta iota. change (4 * Z.of_nat 10) with 40. rewrite (u32_small (utf + 40 + 4)) by lia.
    replace (utf + 40 + 4) with (utf + 4 * Z.of_nat 11) by lia. rewrite run_bind, (PP 11%nat _ eq_refl). cbv beta iota.
    change (4 * Z.of_nat 12) with 48. rewrite run_bind, P48. cbv beta iota. rewrite run_bind, Pret. cbv beta iota.
    rewrite run_ret. by destruct (tf_regs tf).
  - intros y u Hy Hpd. exact (eq_trans (L2 y u Hy Hpd) (L1 y u Hy Hpd)).
  - intros a Ha Hb. unfold m2, m1. rewrite !load8_store32, !decide_False by lia. done.
Qed.
End words.
