(* ===== verification/UserStack.v ===== *)
(** * The stack of a process that forks

    [fork] of lib/fork.c marks every writable page copy-on-write, the page of its
    own stack among them, while it runs on that page.  This file states what the
    rest of its verification relies on ([StackPush]): as long as the page is
    writable a call only changes bytes of it below the stack pointer of [fork];
    once it is copy-on-write the first store faults, and the page-fault entry
    point gives the process a private copy of the page.  ForkStack proves these
    laws of the stores as the machine executes them. *)
From S2P Require Import Prelude Monad Word Layout Mem CString PageAlloc PageTable PageInv PageOps PageDirs Seg KState Env EnvMem KInv EnvSpec Sched SchedSpec UserMem Syscall Trap UserStore TrapSpec SysSpec MemInit UserLib UserSpec ForkSpec.

(** inc/memlayout.h: the one page of the normal user stack. *)
Definition USTACKPAGE := USTACKTOP - PGSIZE.

Section stack.
Context (cpunum e : Z) (base : Z → Z) (kp : Z).
Context (a_pgfault_handler a_pgfault_upcall a_pgfault : Z).
(** The stack pointer of [fork]: what is below it, calls may overwrite. *)
Context (top : Z).
Notation user_runs := (user_runs cpunum e base kp).

(** The bytes below [top] of the page [s] that holds the stack. *)
Definition below (s a : Z) : Prop := s * 4096 ≤ a < s * 4096 + (top - USTACKPAGE).

(** Nothing but bytes below [top] has changed. *)
Record pushed (s : Z) (k k' : kst) : Prop := {
  ps_with : k' = with_phys (phys (k_mm k')) k;
  ps_mem : ∀ a, ¬ below s a → load8 (phys (k_mm k')) a = load8 (phys (k_mm k)) a;
}.

(** The environment can take a page fault: the entry point and the handler are
    registered, the page [u] of its exception stack is mapped, and it is not
    the page of the handler variable. *)
Record fault_ready (u : Z) (k : kst) : Prop := {
  fr_upcall : env_pgfault_upcall (envs k e) = a_pgfault_upcall;
  fr_stack : ∃ pte, lookup_pte (phys (k_mm k)) (dirof k e) (UXSTACKTOP - PGSIZE) = Some pte ∧
    Z.land pte (Z.lor PTE_U PTE_W) = Z.lor PTE_U PTE_W ∧ pte / 4096 = u;
  fr_handler : ∃ pte, lookup_pte (phys (k_mm k)) (dirof k e) a_pgfault_handler = Some pte ∧ pte / 4096 ≠ u ∧
    load32 (phys (k_mm k)) (pte / 4096 * 4096 + a_pgfault_handler mod 4096) = a_pgfault;
  fr_temp : lookup_pte (phys (k_mm k)) (dirof k e) PFTEMP = None;
}.

(** The stack, which [pte] mapped copy-on-write, is now on the private page
    [p]: a copy down to [top].  Only the exception stack has changed besides. *)
Record unshared (live fe l l' : list Z) (pte u p : Z) (k k' : kst) : Prop := {
  un_runs : user_runs live fe l' k';
  un_map : lookup_pte (phys (k_mm k')) (dirof k e) USTACKPAGE = Some (p * 4096 + 7);
  un_only : ∀ y v pte', y ∈ live → 0 ≤ v < UTOP →
    lookup_pte (phys (k_mm k')) (dirof k y) v = Some pte' → pte' / 4096 = p → y = e ∧ v / 4096 = USTACKPAGE / 4096;
  un_copy : ∀ i, top - USTACKPAGE ≤ i < 4096 →
    load8 (phys (k_mm k')) (p * 4096 + i) = load8 (phys (k_mm k)) (pte / 4096 * 4096 + i);
  un_others : ∀ y v, y ∈ live → 0 ≤ v < UTOP → ¬ (y = e ∧ v / 4096 = USTACKPAGE / 4096) →
    lookup_pte (phys (k_mm k')) (dirof k y) v = lookup_pte (phys (k_mm k)) (dirof k y) v;
  un_data : ∀ y v pte' a, y ∈ live → 0 ≤ v < UTOP →
    lookup_pte (phys (k_mm k)) (dirof k y) v = Some pte' → a / 4096 = pte' / 4096 → a / 4096 ≠ u →
    load8 (phys (k_mm k')) a = load8 (phys (k_mm k)) a;
  un_fresh : ∀ y v pte', y ∈ live → 0 ≤ v < UTOP →
    lookup_pte (phys (k_mm k)) (dirof k y) v = Some pte' → pte' / 4096 ≠ p;
  un_refs : ∀ q, pp_ref (pages (k_mm k') q) ≤ Z.max 2 (pp_ref (pages (k_mm k) q) + 1);
  un_len : (length l ≤ length l' + 2)%nat;
  un_globals : same_globals (k_mm k) (k_mm k');
  un_envs : ∀ y, env_kept (envs k y) (envs k' y);
  un_tf : ∀ y, y ≠ e → env_tf (envs k' y) = env_tf (envs k y);
}.

(** What [fork] relies on when it calls a function. *)
Class StackPush (push : nat → K ()) : Prop := {
  push_plain : ∀ depth live fe l k pte, user_runs live fe l k →
    lookup_pte (phys (k_mm k)) (dirof k e) USTACKPAGE = Some pte → flag pte PTE_W = true →
    ∃ k', push depth k = (Ret tt, k') ∧ pushed (pte / 4096) k k';
  push_fault : ∀ depth live fe l k pte u, user_runs live fe l k →
    lookup_pte (phys (k_mm k)) (dirof k e) USTACKPAGE = Some pte → flag pte PTE_W = false → flag pte PTE_COW = true →
    pte / 4096 ≠ u → fault_ready u k → refs_small k → (2 ≤ length l)%nat →
    ∃ p l' k', push depth k = (Ret tt, k') ∧ unshared live fe l l' pte u p k k';
}.

(** ** What a push to a writable stack leaves alone *)

Context (Htop : USTACKPAGE < top ≤ USTACKTOP).

Lemma below_page s a : below s a → a / 4096 = s.
Proof using Htop.
  unfold below, USTACKPAGE in *. change PGSIZE with 4096 in *. intros Ha. clear -Ha Htop.
  change USTACKTOP with 0xEEBFE000 in *. lia.
Qed.

Section pushed.
Context (live fe l : list Z) (s : Z) (k k' : kst).
Context (Hu : user_runs live fe l k) (Hs : writable (phys (k_mm k)) (dirof k e) USTACKPAGE s) (P : pushed s k k').

Local Lemma ps_page : user_page cpunum base kp live fe l e s k USTACKPAGE.
Proof using Hu Hs. split; [apply Hu|apply Hu|exact Hs]. Qed.
Local Lemma ps_pdx : PDX USTACKPAGE < UPDX.
Proof. by vm_compute. Qed.
Local Lemma ps_other a : a / 4096 ≠ s → load8 (phys (k_mm k')) a = load8 (phys (k_mm k)) a.
Proof using Htop P. intros Ha. apply (ps_mem _ _ _ P). intros Hb. exact (Ha (below_page s a Hb)). Qed.

Lemma pushed_runs : user_runs live fe l k'.
Proof using Htop Hu Hs P.
  rewrite (ps_with _ _ _ P).
  exact (proj1 (user_runs_with_phys cpunum e (λ _ _, None) base kp live fe l k s _ _ Hu ps_page ps_pdx ps_other)).
Qed.

Lemma pushed_lookup y v : y ∈ live → PDX v < UPDX →
  lookup_pte (phys (k_mm k')) (dirof k y) v = lookup_pte (phys (k_mm k)) (dirof k y) v.
Proof using Htop Hu Hs P.
  intros Hy Hv.
  exact (proj2 (user_runs_with_phys cpunum e (λ _ _, None) base kp live fe l k s _ _ Hu ps_page ps_pdx ps_other) y v Hy Hv).
Qed.

Lemma pushed_tables y i : y ∈ live → 0 ≤ i < 1024 →
  tgt (phys (k_mm k')) (slot (dirof k y) i) = tgt (phys (k_mm k)) (slot (dirof k y) i).
Proof using Htop Hu Hs P.
  intros Hy Hi. unfold tgt.
  rewrite (load32_same_page (phys (k_mm k)) (phys (k_mm k'))); [done|exact Hi|].
  intros a Ha. apply ps_other. rewrite Ha. intros Hd.
  apply (user_page_private cpunum base kp live fe l e s (us_live _ _ _ _ _ _ _ _ Hu) k USTACKPAGE ps_page ps_pdx).
  apply elem_of_app. left. rewrite <- Hd. by apply ke_dir.
Qed.

Lemma pushed_state : pages (k_mm k') = pages (k_mm k) ∧ same_globals (k_mm k) (k_mm k') ∧ envs k' = envs k ∧
  npages (k_mm k') = npages (k_mm k) ∧ ∀ y, dirof k' y = dirof k y.
Proof using P. rewrite (ps_with _ _ _ P). by repeat split. Qed.

Lemma pushed_writable : writable (phys (k_mm k')) (dirof k' e) USTACKPAGE s.
Proof using Htop Hu Hs P.
  destruct Hs as (pte & Hl & Hw). exists pte. split; [|exact Hw].
  rewrite (proj2 (proj2 (proj2 (proj2 pushed_state)))), <- Hl.
  apply pushed_lookup; [exact (us_live _ _ _ _ _ _ _ _ Hu)|exact ps_pdx].
Qed.
End pushed.
End stack.

Arguments push_plain {cpunum e base kp a_pgfault_handler a_pgfault_upcall a_pgfault top push _} depth.
Arguments push_fault {cpunum e base kp a_pgfault_handler a_pgfault_upcall a_pgfault top push _} depth.
