(* ===== verification/ForkDemo.v ===== *)
(** * What an environment sees, and a machine that copies on write

    What an environment sees of its memory ([sees]); [pgfault] gives a private
    copy; and a machine with 2048 pages in which environment 0 can take a
    copy-on-write fault, and fork. *)
From S2P Require Import Prelude Monad Word Layout Mem CString PageAlloc PageTable PageInv PageOps PageDirs Seg KState Env EnvMem KInv EnvSpec Sched SchedSpec UserMem Syscall Trap UserStore TrapSpec SysSpec MemInit UserLib UserSpec ForkSpec.

(** The byte that the environment with directory page [d] reads at [v]. *)
Definition sees (m : mem) (d v : Z) : option Z :=
  pte ← lookup_pte m d v; Some (load8 m (pte / 4096 * 4096 + v mod 4096)).

Lemma sees_mapped m d v pte : lookup_pte m d v = Some pte →
  sees m d v = Some (load8 m (pte / 4096 * 4096 + v mod 4096)).
Proof. intros E. unfold sees. by rewrite E. Qed.

(** Entries that name the same page show the same bytes. *)
Lemma sees_page m d v pte q : lookup_pte m d v = Some pte → pte / 4096 = q →
  sees m d v = Some (load8 m (q * 4096 + v mod 4096)).
Proof. intros E <-. by apply sees_mapped. Qed.

Section cow.
Context (cpunum e : Z) (cons_getc : K Z) (rcr2 eflags : Z) (uregs : Trapframe).
Context (others : stop → kst → option kst).
Context (base : Z → Z) (kp : Z).
Notation user_runs := (user_runs cpunum e base kp).
Notation pgfault := (pgfault cpunum e cons_getc rcr2 eflags uregs others).

(** Everybody, the faulting environment included, sees what it saw. *)
Lemma private_copy_sees live va pte p k k' y v :
  private_copy e live (ROUNDDOWN va PGSIZE) pte p k k' → e ∈ live → 0 ≤ va < UTOP → y ∈ live → 0 ≤ v < UTOP →
  lookup_pte (phys (k_mm k)) (dirof k e) va = Some pte →
  ¬ same_slot (dirof k e) PFTEMP (dirof k y) v →
  sees (phys (k_mm k')) (dirof k y) v = sees (phys (k_mm k)) (dirof k y) v.
Proof.
  intros P He Hva Hy Hv Hl Ht. change UTOP with 0xEEC00000 in Hva.
  assert (ROUNDDOWN va PGSIZE = va / 4096 * 4096) as Er by (rewrite ROUNDDOWN_page, u32_small by lia; done).
  assert (0 ≤ ROUNDDOWN va PGSIZE < UTOP) as Hr by (change UTOP with 0xEEC00000; lia).
  destruct (decide (same_slot (dirof k e) (ROUNDDOWN va PGSIZE) (dirof k y) v)) as [S|S].
  - apply same_slot_page in S as [Ed Ep]; [|exact (UTOP_range _ Hr)|exact (UTOP_range _ Hv)].
    rewrite Er in Ep. pose proof Hv as Hv'. change UTOP with 0xEEC00000 in Hv'.
    assert (u32 va / 4096 = u32 v / 4096) as Eu by (rewrite !u32_small by lia; lia).
    rewrite <- Ed. rewrite (lookup_pte_page _ _ _ _ Eu) in Hl. rewrite (sees_mapped _ _ _ _ Hl).
    pose proof (pv_map _ _ _ _ _ _ _ P) as Hm.
    rewrite (lookup_pte_page _ _ _ v) in Hm by (rewrite !u32_small by lia; lia).
    rewrite (sees_page _ _ _ _ p Hm) by lia. f_equal. apply (pv_copy _ _ _ _ _ _ _ P). lia.
  - unfold sees. rewrite (pv_others _ _ _ _ _ _ _ P y v Hy (PDX_user v Hv) S Ht).
    destruct (lookup_pte (phys (k_mm k)) (dirof k y) v) as [pte'|] eqn:E'; [|done]. simpl. f_equal.
    apply (pv_data _ _ _ _ _ _ _ P y v pte' _ Hy (PDX_user v Hv) E' Ht). lia.
Qed.

(** A store to a private page is seen at its address only. *)
Lemma private_store live fe l k va p b :
  user_runs live fe l k → 0 ≤ va < UTOP →
  lookup_pte (phys (k_mm k)) (dirof k e) va = Some (p * 4096 + 7) →
  (∀ y v pte, y ∈ live → 0 ≤ v < UTOP → lookup_pte (phys (k_mm k)) (dirof k y) v = Some pte → pte / 4096 = p →
    y = e ∧ v / 4096 = va / 4096) →
  ∃ k', vstore8 cpunum va b k = (Ret tt, k') ∧ sees (phys (k_mm k')) (dirof k e) va = Some (u8 b) ∧
    ∀ y v, y ∈ live → 0 ≤ v < UTOP → ¬ (y = e ∧ v = va) →
      sees (phys (k_mm k')) (dirof k y) v = sees (phys (k_mm k)) (dirof k y) v.
Proof.
  intros Hu Hva Hl Honly. pose proof (us_live _ _ _ _ _ _ _ _ Hu) as He.
  assert (user_page cpunum base kp live fe l e p k va) as Hp.
  { split; [exact (us_inv _ _ _ _ _ _ _ _ Hu)|exact (us_cr3 _ _ _ _ _ _ _ _ Hu)|].
    exists (p * 4096 + 7). split; [exact Hl|]. split; [|lia]. rewrite flag_page by (vm_compute; split; [discriminate|done]).
    reflexivity. }
  eexists. split; [exact (vstore8_run cpunum base kp live fe l e p k va b Hp Hva)|].
  destruct (user_page_with_phys cpunum base kp live fe l e p He k va
    (store8 (phys (k_mm k)) (p * 4096 + va mod 4096) b) Hp (PDX_user va Hva)) as [_ HL].
  { intros a Ha. rewrite load8_store8, decide_False; [done|]. intros <-. lia. }
  cbn [with_phys set_mm k_mm phys set_phys]. split.
  - rewrite <- (HL e va He (PDX_user va Hva)) in Hl. rewrite (sees_page _ _ _ _ p Hl) by lia.
    by rewrite load8_store8, decide_True.
  - intros y v Hy Hv Hne. unfold sees. rewrite (HL y v Hy (PDX_user v Hv)).
    destruct (lookup_pte (phys (k_mm k)) (dirof k y) v) as [pte|] eqn:E; [|done]. simpl. f_equal.
    rewrite load8_store8, decide_False; [done|]. intros Ea.
    destruct (Honly y v pte Hy Hv E ltac:(lia)) as [-> Ev]. apply Hne. split; [done|lia].
Qed.

Context (Hif : flag eflags FL_IF = false) (Hcs : Z.land (tf_cs uregs) 3 = 3).

(** [pgfault] of lib/fork.c, called with a frame [utf] that reports a write
    to a copy-on-write page, when two pages are free: it returns, the faulting
    page is then mapped writable to a page that nothing else maps and that has
    the same contents, every environment sees what it saw (the scratch page
    [PFTEMP] of the caller apart, which ends unmapped), and the store that
    faulted succeeds and is seen by nobody else. *)
Theorem pgfault_correct live fe l k utf va err pte b :
  user_runs live fe l k → vload32 cpunum utf k = (Ret va, k) →
  vload32 cpunum (u32 (utf + 4)) k = (Ret err, k) → flag err FEC_WR = true →
  0 ≤ va < UTOP → va / 4096 ≠ PFTEMP / 4096 →
  lookup_pte (phys (k_mm k)) (dirof k e) va = Some pte → flag pte PTE_COW = true →
  refs_small k → (2 ≤ length l)%nat →
  ∃ p k' l', pgfault utf k = (Ret tt, k') ∧ user_runs live fe l' k' ∧
    private_copy e live (ROUNDDOWN va PGSIZE) pte p k k' ∧
    (∀ y v, y ∈ live → 0 ≤ v < UTOP → ¬ same_slot (dirof k e) PFTEMP (dirof k y) v →
      sees (phys (k_mm k')) (dirof k' y) v = sees (phys (k_mm k)) (dirof k y) v) ∧
    ∃ k2, vstore8 cpunum va b k' = (Ret tt, k2) ∧
      sees (phys (k_mm k2)) (dirof k' e) va = Some (u8 b) ∧
      ∀ y v, y ∈ live → 0 ≤ v < UTOP → ¬ (y = e ∧ v = va) →
        sees (phys (k_mm k2)) (dirof k' y) v = sees (phys (k_mm k')) (dirof k' y) v.
Proof using Hif Hcs.
  intros Hu Eva Eerr Hw Hva Hne Hl Hcow Href Hlen. pose proof (us_live _ _ _ _ _ _ _ _ Hu) as He.
  destruct (pgfault_run cpunum e cons_getc rcr2 eflags uregs others base kp Hif Hcs live fe l k utf va err pte
    Hu Eva Eerr Hw Hva Hne Hl Hcow Href Hlen) as (p & k' & l' & E & Hu' & P & _).
  assert (∀ y, dirof k' y = dirof k y) as Ed by (intros y; apply kept_dirof, (pv_envs _ _ _ _ _ _ _ P)).
  exists p, k', l'. refine (conj E (conj Hu' (conj P (conj _ _)))).
  - intros y v Hy Hv Ht. rewrite Ed. exact (private_copy_sees _ _ _ _ _ _ _ _ P He Hva Hy Hv Hl Ht).
  - change UTOP with 0xEEC00000 in Hva.
    assert (ROUNDDOWN va PGSIZE = va / 4096 * 4096) as Er by (rewrite ROUNDDOWN_page, u32_small by lia; done).
    apply (private_store live fe l' k' va p b Hu' Hva).
    + rewrite Ed. rewrite <- (pv_map _ _ _ _ _ _ _ P), Er. apply lookup_pte_page. rewrite !u32_small by lia. lia.
    + intros y v pte' Hy Hv El Ep. rewrite Ed in El.
      assert (0 ≤ ROUNDDOWN va PGSIZE < 4294967296) as Hr by (rewrite Er; lia).
      destruct (same_slot_page _ _ _ _ Hr (UTOP_range _ Hv)
        (pv_only _ _ _ _ _ _ _ P y v pte' Hy (PDX_user v Hv) El Ep)) as [Edd Ev].
      split; [|rewrite Er in Ev; lia]. symmetry. rewrite <- !Ed in Edd.
      exact (ke_dir_inj _ _ _ _ _ _ (us_inv _ _ _ _ _ _ _ _ Hu') _ _ He Hy Edd).
Qed.
End cow.

(** ** A machine that forks

    2048 pages.  Environment 0 of directory page 2 has a copy-on-write page (5)
    at 8MB, its globals (page 6, with the word [_pgfault_handler]) above it, its
    stack (page 8) and its exception stack (page 7), on which lies a frame for a
    write at 8MB+0x123; pages 3 and 4 are its page tables.  The pages from 9 on
    are free. *)
Definition fork_mem : mem :=
  let m := store32 (λ _, 0) (slot 2 2) (3 * 4096 + 7) in
  let m := store32 m (slot 2 954) (4 * 4096 + 7) in
  let m := store32 m (slot 2 957) (2 * 4096 + 5) in
  let m := store32 m (slot 3 0) (5 * 4096 + 0x805) in
  let m := store32 m (slot 3 1) (6 * 4096 + 7) in
  let m := store32 m (slot 4 1023) (7 * 4096 + 7) in
  let m := store32 m (slot 4 1021) (8 * 4096 + 7) in
  let m := store32 m (7 * 4096) 0x800123 in
  store32 m (7 * 4096 + 4) 7.
Definition fork_pages (p : Z) : PageInfo :=
  if decide (p < 9) then mkPageInfo None 1
  else mkPageInfo (if decide (p + 1 < 2048) then Some (p + 1) else None) 0.
Definition fork_mm : mm := mkMM 2048 9 fork_mem fork_pages (Some 9) (kva 1) (KERNBASE + 0x4000) MMIOBASE 0 [].
Definition fork_base (p : Z) : Z := if decide (0 ≤ p < 2) then 1 else 0.
Definition fork_k : kst := set_mm fork_mm demo_user.

Lemma fork_refs : refs fork_mem [2] = [2; 3; 4; 5; 6; 8; 7].
Proof. by vm_compute. Qed.
Lemma fork_tables : tables fork_mem [2] = [3; 4].
Proof. by vm_compute. Qed.
Lemma fork_leaves : leaves fork_mem [2] = [5; 6; 8; 7].
Proof. by vm_compute. Qed.

Lemma fork_mm_inv : kinv fork_base [2] fork_mm (zrange 9 2039).
Proof.
  split; cbn [phys fork_mm pages npages]; rewrite ?fork_refs, ?fork_leaves, ?fork_tables.
  - split; cbn [pages npages page_free_list fork_mm].
    + lia.
    + apply (linked_range _ 2048 9 2039); [|done]. intros i Hi. unfold fork_pages. by rewrite (decide_False (P := i < 9)) by lia.
    + apply NoDup_zrange.
    + intros p Hp%elem_of_zrange. split; [lia|]. unfold fork_pages. by rewrite decide_False by lia.
    + intros p Hp Hn. unfold fork_pages. rewrite decide_True; [done|].
      destruct (decide (p < 9)); [done|]. destruct Hn. apply elem_of_zrange. lia.
  - list_dec.
  - intros p. rewrite !elem_of_cons, elem_of_nil. lia.
  - intros p. rewrite !elem_of_cons, elem_of_nil. intros [->|[->|[->|[->|[]]]]]; list_dec.
  - intros p. unfold fork_base. case_decide; lia.
  - intros p. simpl. rewrite !elem_of_cons, elem_of_nil. intros [->|[->|[->|[]]]]; done.
  - intros p Hp. unfold fork_pages, fork_base.
    destruct (decide (p < 9)) as [H8|H8].
    + assert (p = 0 ∨ p = 1 ∨ p = 2 ∨ p = 3 ∨ p = 4 ∨ p = 5 ∨ p = 6 ∨ p = 7 ∨ p = 8) as Hc by lia.
      by destruct Hc as [->|[->|[->|[->|[->|[->|[->|[->| ->]]]]]]]].
    + rewrite (decide_False (P := 0 ≤ p < 2)) by lia. rewrite (proj2 (countZ_zero _ _)); [done|].
      rewrite !elem_of_cons, elem_of_nil. lia.
  - intros p Hp. unfold fork_pages. case_decide; simpl; lia.
Qed.

Lemma fork_k_inv : kernel_inv fork_base 1 [0] (zrange 1 1023) (zrange 9 2039) fork_k.
Proof.
  destruct demo_user_inv as [h1 h2 h3 h4 h5 h6 _ _]. split; try assumption; [exact fork_mm_inv|].
  split; [done|]. split; [cbn; lia|]. by vm_compute.
Qed.

Lemma fork_runs : user_runs 0 0 fork_base 1 [0] (zrange 1 1023) (zrange 9 2039) fork_k.
Proof.
  split; [exact fork_k_inv|exact demo_cpus|reflexivity|discriminate|reflexivity..|]. by vm_compute.
Qed.

Lemma fork_refs_low x : pp_ref (pages (k_mm fork_k) x) < 32766.
Proof. cbn. unfold fork_pages. case_decide; simpl; lia. Qed.

Lemma fork_utf : vload32 0 0xEEBFF000 fork_k = (Ret 0x800123, fork_k) ∧ vload32 0 (u32 (0xEEBFF000 + 4)) fork_k = (Ret 7, fork_k).
Proof.
  assert (∀ va w, (∀ j, 0 ≤ j < 4 → vtrans (phys (k_mm fork_k)) (cpu_cr3 (cpus fork_k 0)) (va + j) false = Some (7 * 4096 + w + j)) →
    0 ≤ va → va + 3 < 4294967296 → vload32 0 va fork_k = (Ret (load32 (phys (k_mm fork_k)) (7 * 4096 + w)), fork_k)) as H.
  { intros va w Ht H0 H1. apply vload32_run; [exact H0|exact H1|exact Ht]. }
  split; [apply (H 0xEEBFF000 0)|apply (H 0xEEBFF004 4)]; try lia; intros j Hj;
    assert (j = 0 ∨ j = 1 ∨ j = 2 ∨ j = 3) as [->|[->|[->| ->]]] by lia; by vm_compute.
Qed.

Notation fork_frame := (demo_frame 48).

Lemma pgfault_correct_witness : ∃ p k',
  pgfault 0 0 (mret 0) 0 0 fork_frame (λ _ _, None) 0xEEBFF000 fork_k = (Ret tt, k') ∧
  lookup_pte (phys (k_mm k')) 2 0x800000 = Some (p * 4096 + 7).
Proof.
  destruct (pgfault_correct 0 0 (mret 0) 0 0 fork_frame (λ _ _, None) fork_base 1 eq_refl eq_refl
    [0] (zrange 1 1023) (zrange 9 2039) fork_k 0xEEBFF000 0x800123 7 (5 * 4096 + 0x805) 0
    fork_runs (proj1 fork_utf) (proj2 fork_utf)) as (p & k' & l' & E & _ & P & _).
  - reflexivity.
  - by vm_compute.
  - discriminate.
  - by vm_compute.
  - reflexivity.
  - intros x _. pose proof (fork_refs_low x). lia.
  - vm_compute. lia.
  - exists p, k'. exact (conj E (pv_map _ _ _ _ _ _ _ P)).
Defined.
