(* ===== verification/DupPage.v ===== *)
(** * duppage

    How [duppage] of lib/fork.c shares one page of the parent with the child,
    and the loop of [fork] that does so for the whole address space. *)
From S2P Require Import Prelude Monad Word Layout Mem CString PageAlloc PageTable PageInv PageOps PageDirs Seg KState Env EnvMem KInv EnvSpec Sched SchedSpec UserMem Syscall Trap UserStore TrapSpec SysSpec MemInit UserLib UserSpec ForkSpec UserStack.

(** ** What becomes of a page-table entry *)

(** A page is copied lazily if it is writable, or already copy-on-write. *)
Definition cow (pte : Z) : bool := flag pte PTE_W || flag pte PTE_COW.

(** The parent's entry after [fork]. *)
Definition parent_pte (pte : Z) : Z :=
  if flag pte PTE_U && negb (flag pte PTE_SHARE) && cow pte
  then pte / 4096 * 4096 + Z.lor (Z.lor PTE_COW PTE_U) PTE_P else pte.

(** The child's entry: a shared page keeps all its permissions, provided it is
    writable; a page the kernel keeps from the user is not given. *)
Definition child_pte (pte : Z) : option Z :=
  if negb (flag pte PTE_U) then None
  else if flag pte PTE_SHARE then
    if flag pte PTE_W then Some (pte / 4096 * 4096 + PTE_SYSCALL) else None
  else if cow pte then Some (pte / 4096 * 4096 + Z.lor (Z.lor PTE_COW PTE_U) PTE_P)
  else Some (pte / 4096 * 4096 + Z.lor PTE_U PTE_P).

Section dup.
Context (cpunum e : Z) (cons_getc : K Z) (rcr2 eflags : Z) (uregs : Trapframe).
Context (others : stop → kst → option kst).
Context (base : Z → Z) (kp : Z).
Context (Hif : flag eflags FL_IF = false) (Hcs : Z.land (tf_cs uregs) 3 = 3).
Notation user_runs := (user_runs cpunum e base kp).
Notation page_call := (page_call cpunum e base kp).
Notation idle_call := (idle_call cpunum e base kp).
Notation map_call := (usys_page_map cpunum e cons_getc rcr2 eflags uregs others).
Context (a_pgfault_handler a_pgfault_upcall a_pgfault top : Z) (Htop : USTACKPAGE < top ≤ USTACKTOP).
Context (push : nat → K ()) (SP : StackPush cpunum e base kp a_pgfault_handler a_pgfault_upcall a_pgfault top push).
Notation duppage := (duppage cpunum e cons_getc rcr2 eflags uregs others push).
Notation below := (below top).
Notation pushed := (pushed top).
Context (live fe : list Z) (c envid : Z) (Hce : c ≠ e) (Hcl : c ∈ live) (Hid : id_range envid).

(** The page of the parent's stack. *)
Context (s : Z).

(** ** One page *)

Record duplicated (va pte : Z) (l l' : list Z) (k k' : kst) : Prop := {
  du_runs : user_runs live fe l' k';
  du_parent : lookup_pte (phys (k_mm k')) (dirof k e) va = Some (parent_pte pte);
  du_child : lookup_pte (phys (k_mm k')) (dirof k c) va = child_pte pte;
  du_others : ∀ y v, y ∈ live → PDX v < UPDX →
    ¬ same_slot (dirof k e) va (dirof k y) v → ¬ same_slot (dirof k c) va (dirof k y) v →
    lookup_pte (phys (k_mm k')) (dirof k y) v = lookup_pte (phys (k_mm k)) (dirof k y) v;
  du_data : ∀ y v pte' a, y ∈ live → PDX v < UPDX →
    lookup_pte (phys (k_mm k)) (dirof k y) v = Some pte' → a / 4096 = pte' / 4096 → ¬ below s a →
    load8 (phys (k_mm k')) a = load8 (phys (k_mm k)) a;
  du_keep : ∀ j t, 0 ≤ j < UPDX → tgt (phys (k_mm k)) (slot (dirof k c) j) = Some t →
    tgt (phys (k_mm k')) (slot (dirof k c) j) = Some t;
  du_len : (length l ≤ length l')%nat ∨
    (Z.of_nat (length l) ≤ Z.of_nat (length l') + needs (phys (k_mm k)) (dirof k c) va ∧
     ∃ t, tgt (phys (k_mm k')) (slot (dirof k c) (PDX va)) = Some t);
  du_refs : ∀ q, pp_ref (pages (k_mm k') q) ≤
    Z.max 1 (pp_ref (pages (k_mm k) q) + if decide (q = pte / 4096) then 1 else 0);
  du_globals : same_globals (k_mm k) (k_mm k');
  du_envs : ∀ y, env_kept (envs k y) (envs k' y);
  du_tf : ∀ y, y ≠ e → env_tf (envs k' y) = env_tf (envs k y);
}.

(** Mapping the parent's page into the child. *)
Record child_mapped (va pte perm : Z) (l l' : list Z) (k k' : kst) : Prop := {
  cm_call : page_call live fe l l' c va (Some (pte / 4096 * 4096 + perm)) k k';
  cm_cost : pt_cost (dirof k <$> live) l (dirof k c) va (pte / 4096) (k_mm k) l' (k_mm k');
}.

Section page.
Context (va pte : Z) (l : list Z) (k : kst).
Context (Hu : user_runs live fe l k) (Ht : target k e envid = Some c).
Context (Hva : 0 ≤ va < UTOP) (Hal : va mod 4096 = 0) (Hroom : l ≠ []).
Context (Href : ∀ p, 0 ≤ p < npages (k_mm k) → pp_ref (pages (k_mm k) p) < 65534).
Context (Hl : lookup_pte (phys (k_mm k)) (dirof k e) va = Some pte).
Context (Hn : lookup_pte (phys (k_mm k)) (dirof k c) va = None).
Context (Hs : writable (phys (k_mm k)) (dirof k e) USTACKPAGE s).

Local Lemma dup_va : bad_va va = false.
Proof using Hva Hal.
  clear -Hva Hal. unfold bad_va. change UTOP with 0xEEC00000 in *. destruct (Z.leb_spec 0xEEC00000 va); [lia|].
  rewrite PGOFF_mod, u32_small by lia. by rewrite Hal.
Qed.
Local Lemma dup_pdx : PDX va < UPDX.
Proof using Hva. by apply PDX_user. Qed.
Local Lemma dup_range : 0 ≤ va < 4294967296.
Proof using Hva. clear -Hva. change UTOP with 0xEEC00000 in Hva. lia. Qed.
Local Lemma dup_live : e ∈ live.
Proof using Hu. exact (us_live _ _ _ _ _ _ _ _ Hu). Qed.
Local Lemma dup_refs_small : refs_small k.
Proof using Href. intros p Hp. specialize (Href p Hp). clear -Href. lia. Qed.

Lemma map_child perm :
  bad_perm perm = false → negb (flag pte PTE_W) && flag perm PTE_W = false →
  ∃ k' l', map_call 0 va envid va perm k = (Ret 0, k') ∧ child_mapped va pte perm l l' k k'.
Proof using Hif Hcs Hid Hu Ht Hva Hal Hroom Href Hl.
  intros Hb Hw.
  pose proof (usys_page_map_run cpunum e cons_getc rcr2 eflags uregs others base kp Hif Hcs live fe l k 0 e va
    envid c va perm pte Hu (target_self e k) Ht ltac:(unfold id_range; lia) Hid dup_range dup_range
    dup_va dup_va Hb dup_refs_small Hl) as HR.
  cbv zeta in HR. rewrite Hw in HR. destruct HR as [(El & _)|(k' & l' & E & P & C)]; [by destruct Hroom|].
  exists k', l'. split; [exact E|by split].
Qed.

Lemma child_not_parent : dirof k c ≠ dirof k e.
Proof using Hu Hce Hcl.
  intros E. apply Hce. by apply (ke_dir_inj _ _ _ _ _ _ (us_inv _ _ _ _ _ _ _ _ Hu) c e Hcl dup_live).
Qed.

Lemma dup_slots : ¬ same_slot (dirof k c) va (dirof k e) va.
Proof using Hu Hce Hcl. intros [E _]. by apply child_not_parent. Qed.

(** The cases in which only the child's table changes. *)
Lemma duplicated_child perm l' k' :
  child_mapped va pte perm l l' k k' → parent_pte pte = pte →
  child_pte pte = Some (pte / 4096 * 4096 + perm) → duplicated va pte l l' k k'.
Proof using Hu Hce Hcl Hva Hl Hn.
  intros [P C] Ep Ec. pose proof dup_live as He. pose proof dup_pdx as Hp. split.
  - exact (pg_runs _ _ _ _ _ _ _ _ _ _ _ _ _ P).
  - rewrite (page_call_lookup _ _ _ _ _ _ _ _ _ _ _ _ _ e va P He Hp dup_slots), Ep. exact Hl.
  - rewrite Ec. exact (pg_new _ _ _ _ _ _ _ _ _ _ _ _ _ P).
  - intros y v Hy Hv _ Hc. exact (page_call_lookup _ _ _ _ _ _ _ _ _ _ _ _ _ y v P Hy Hv Hc).
  - intros y v pte' a Hy Hv Hlk Ea _. exact (page_call_data _ _ _ _ _ _ _ _ _ _ _ _ _ y v pte' a Hu P Hy Hv Hlk Ea).
  - intros j t Hj. apply (pc_keep _ _ _ _ _ _ _ _ C); [by apply ke_dir|exact Hj].
  - right. split; [exact (pc_len _ _ _ _ _ _ _ _ C)|].
    destruct (lookup_pte_flag _ _ _ _ (pg_new _ _ _ _ _ _ _ _ _ _ _ _ _ P)) as (_ & _ & t & Hw & _).
    by exists t.
  - intros q. pose proof (pc_refs _ _ _ _ _ _ _ _ C q) as Hr. revert Hr. clear.
    repeat case_decide; try lia.
  - exact (pf_globals _ _ _ _ _ _ (pg_frame _ _ _ _ _ _ _ _ _ _ _ _ _ P)).
  - exact (pg_envs _ _ _ _ _ _ _ _ _ _ _ _ _ P).
  - exact (pg_tf _ _ _ _ _ _ _ _ _ _ _ _ _ P).
Qed.

(** Nothing changes. *)
Lemma duplicated_idle k' : idle_call live fe l k k' → parent_pte pte = pte → child_pte pte = None →
  duplicated va pte l l k k'.
Proof using Hl Hn.
  intros [Hr Eph Epg G K T] Ep Ec. split; rewrite ?Eph, ?Epg; try done.
  - by rewrite Ep, Hl.
  - by rewrite Ec, Hn.
  - by left.
  - intros q. clear. case_decide; lia.
Qed.

(** A push after the child's entry is made: the stack is still writable. *)
Lemma child_mapped_stack perm l1 k1 : child_mapped va pte perm l l1 k k1 →
  writable (phys (k_mm k1)) (dirof k1 e) USTACKPAGE s.
Proof using Hu Hce Hcl Hva Hs.
  intros [P _]. destruct Hs as (pte0 & Hl0 & Hw). exists pte0. split; [|exact Hw].
  rewrite (page_call_dirof _ _ _ _ _ _ _ _ _ _ _ _ _ e P), <- Hl0.
  apply (page_call_lookup _ _ _ _ _ _ _ _ _ _ _ _ _ e USTACKPAGE P dup_live); [by vm_compute|].
  intros [E _]. by apply child_not_parent.
Qed.

(** Both tables get the copy-on-write entry: the child's, and after a push the
    parent's. *)
Lemma duplicated_cow l1 k1 k2 l' k' :
  let perm := Z.lor (Z.lor PTE_COW PTE_U) PTE_P in
  child_mapped va pte perm l l1 k k1 → pushed s k1 k2 →
  page_call live fe l1 l' e va (Some (pte / 4096 * 4096 + perm)) k2 k' →
  pt_cost (dirof k2 <$> live) l1 (dirof k2 e) va (pte / 4096) (k_mm k2) l' (k_mm k') →
  parent_pte pte = pte / 4096 * 4096 + perm → child_pte pte = Some (pte / 4096 * 4096 + perm) →
  duplicated va pte l l' k k'.
Proof using Hu Hce Hcl Hva Hl Hn Hs Htop.
  intros perm M1 Q P2 C2 Ep Ec. pose proof (child_mapped_stack perm l1 k1 M1) as Hs1. destruct M1 as [P1 C1].
  pose proof dup_live as He. pose proof dup_pdx as Hp.
  pose proof (pg_runs _ _ _ _ _ _ _ _ _ _ _ _ _ P1) as Hu1.
  pose proof (pushed_runs _ _ _ _ _ Htop _ _ _ _ _ _ Hu1 Hs1 Q) as Hu2.
  destruct (pushed_state _ _ _ _ Q) as (Epg & G2 & Een & _ & D21).
  assert (∀ y, dirof k1 y = dirof k y) as D1 by (intros y; exact (page_call_dirof _ _ _ _ _ _ _ _ _ _ _ _ _ y P1)).
  assert (∀ y, dirof k2 y = dirof k y) as D2 by (intros y; by rewrite D21, D1).
  assert (∀ y v, y ∈ live → PDX v < UPDX → ¬ same_slot (dirof k c) va (dirof k y) v →
    lookup_pte (phys (k_mm k2)) (dirof k y) v = lookup_pte (phys (k_mm k)) (dirof k y) v) as L1.
  { intros y v Hy Hv Hc. rewrite <- (D1 y), (pushed_lookup _ _ _ _ _ Htop _ _ _ _ _ _ Hu1 Hs1 Q y v Hy Hv), (D1 y).
    exact (page_call_lookup _ _ _ _ _ _ _ _ _ _ _ _ _ y v P1 Hy Hv Hc). }
  assert (∀ y v, y ∈ live → PDX v < UPDX → ¬ same_slot (dirof k e) va (dirof k y) v →
    lookup_pte (phys (k_mm k')) (dirof k y) v = lookup_pte (phys (k_mm k2)) (dirof k y) v) as L2.
  { intros y v Hy Hv Hne. rewrite <- !(D2 y).
    apply (page_call_lookup _ _ _ _ _ _ _ _ _ _ _ _ _ y v P2 Hy Hv). by rewrite !D2. }
  assert (lookup_pte (phys (k_mm k')) (dirof k c) va = Some (pte / 4096 * 4096 + perm)) as Lc.
  { rewrite (L2 c va Hcl Hp); [|intros [E _]; by apply child_not_parent].
    rewrite <- (D1 c), (pushed_lookup _ _ _ _ _ Htop _ _ _ _ _ _ Hu1 Hs1 Q c va Hcl Hp), (D1 c).
    exact (pg_new _ _ _ _ _ _ _ _ _ _ _ _ _ P1). }
  pose proof (L1 e va He Hp dup_slots) as Le. rewrite Hl, <- (D2 e) in Le.
  split.
  - exact (pg_runs _ _ _ _ _ _ _ _ _ _ _ _ _ P2).
  - rewrite Ep, <- D2. exact (pg_new _ _ _ _ _ _ _ _ _ _ _ _ _ P2).
  - by rewrite Ec.
  - intros y v Hy Hv Hne Hc. rewrite (L2 y v Hy Hv Hne). exact (L1 y v Hy Hv Hc).
  - intros y v pte' a Hy Hv Hlk Ea Hb.
    transitivity (load8 (phys (k_mm k2)) a); [|transitivity (load8 (phys (k_mm k1)) a); [exact (ps_mem _ _ _ _ Q a Hb)|]].
    + destruct (decide (same_slot (dirof k c) va (dirof k y) v)) as [(Ed & Hd1 & Hd2)|Hc].
      * exfalso. unfold lookup_pte in Hn, Hlk. rewrite <- Ed, <- Hd1, <- Hd2, Hn in Hlk. discriminate Hlk.
      * apply (page_call_data _ _ _ _ _ _ _ _ _ _ _ _ _ y v pte' a Hu2 P2 Hy Hv); [|exact Ea].
        rewrite D2, (L1 y v Hy Hv Hc). exact Hlk.
    + exact (page_call_data _ _ _ _ _ _ _ _ _ _ _ _ _ y v pte' a Hu P1 Hy Hv Hlk Ea).
  - intros j t Hj Hjt. apply (pc_keep _ _ _ _ _ _ _ _ C2); [rewrite <- (D2 c); by apply ke_dir|exact Hj|].
    rewrite <- (D1 c), (pushed_tables _ _ _ _ _ Htop _ _ _ _ _ _ Hu1 Hs1 Q c j Hcl), (D1 c) by (revert Hj; clear; unfold UPDX; lia).
    apply (pc_keep _ _ _ _ _ _ _ _ C1); [by apply ke_dir|exact Hj|exact Hjt].
  - right. split.
    + pose proof (pc_len _ _ _ _ _ _ _ _ C1) as H1. pose proof (pc_len _ _ _ _ _ _ _ _ C2) as H2.
      rewrite (mapped_needs _ _ _ _ Le) in H2. clear -H1 H2. lia.
    + destruct (lookup_pte_flag _ _ _ _ Lc) as (_ & _ & t & Hw & _). by exists t.
  - intros q. pose proof (pc_refs _ _ _ _ _ _ _ _ C1 q) as H1. pose proof (pc_refs _ _ _ _ _ _ _ _ C2 q) as H2.
    rewrite Le, Epg in H2. cbn [option_map] in H2. rewrite decide_False in H2 by (intros [_ E]; by apply E).
    revert H1 H2. clear. repeat case_decide; try lia.
  - transitivity (k_mm k1); [exact (pf_globals _ _ _ _ _ _ (pg_frame _ _ _ _ _ _ _ _ _ _ _ _ _ P1))|].
    transitivity (k_mm k2); [exact G2|].
    exact (pf_globals _ _ _ _ _ _ (pg_frame _ _ _ _ _ _ _ _ _ _ _ _ _ P2)).
  - intros y. etransitivity; [exact (pg_envs _ _ _ _ _ _ _ _ _ _ _ _ _ P1 y)|]. rewrite <- Een.
    exact (pg_envs _ _ _ _ _ _ _ _ _ _ _ _ _ P2 y).
  - intros y Hy. rewrite (pg_tf _ _ _ _ _ _ _ _ _ _ _ _ _ P2 y Hy), Een. exact (pg_tf _ _ _ _ _ _ _ _ _ _ _ _ _ P1 y Hy).
Qed.

(** Marking the parent's own entry, once the child has its own. *)
Lemma mark_parent l1 k1 k2 :
  let perm := Z.lor (Z.lor PTE_COW PTE_U) PTE_P in
  child_mapped va pte perm l l1 k k1 → pushed s k1 k2 →
  ∃ k' l', map_call 0 va 0 va perm k2 = (Ret 0, k') ∧
    page_call live fe l1 l' e va (Some (pte / 4096 * 4096 + perm)) k2 k' ∧
    pt_cost (dirof k2 <$> live) l1 (dirof k2 e) va (pte / 4096) (k_mm k2) l' (k_mm k').
Proof using Hif Hcs Hu Hce Hcl Hva Hal Href Hl Hs Htop.
  intros perm M Q. pose proof (child_mapped_stack perm l1 k1 M) as Hs1. destruct M as [P C].
  pose proof dup_live as He. pose proof dup_pdx as Hp.
  pose proof (pg_runs _ _ _ _ _ _ _ _ _ _ _ _ _ P) as Hu1.
  pose proof (pushed_runs _ _ _ _ _ Htop _ _ _ _ _ _ Hu1 Hs1 Q) as Hu2.
  destruct (pushed_state _ _ _ _ Q) as (Epg & _ & _ & Enp & D21).
  pose proof (page_call_lookup _ _ _ _ _ _ _ _ _ _ _ _ _ e va P He Hp dup_slots) as L1.
  rewrite Hl, <- (page_call_dirof _ _ _ _ _ _ _ _ _ _ _ _ _ e P),
    <- (pushed_lookup _ _ _ _ _ Htop _ _ _ _ _ _ Hu1 Hs1 Q e va He Hp), <- (D21 e) in L1.
  assert (refs_small k2) as Hr2.
  { intros q Hr. rewrite Enp, (proj1 (pf_globals _ _ _ _ _ _ (pg_frame _ _ _ _ _ _ _ _ _ _ _ _ _ P))) in Hr.
    rewrite Epg. pose proof (pc_refs _ _ _ _ _ _ _ _ C q) as Hq. specialize (Href q Hr).
    revert Hq Href. clear. case_decide; lia. }
  pose proof (usys_page_map_run cpunum e cons_getc rcr2 eflags uregs others base kp Hif Hcs live fe l1 k2 0 e va
    0 e va perm pte Hu2 (target_self e k2) (target_self e k2) ltac:(unfold id_range; lia) ltac:(unfold id_range; lia)
    dup_range dup_range dup_va dup_va eq_refl Hr2 L1) as HR.
  cbv zeta in HR. change (flag perm PTE_W) with false in HR. rewrite andb_false_r in HR.
  destruct HR as [(_ & E & _)|(k' & l' & E & P' & C')]; [rewrite L1 in E; discriminate E|].
  exists k', l'. exact (conj E (conj P' C')).
Qed.

(** A page shared read-only is not given to the child. *)
Lemma map_child_refused : flag pte PTE_W = false →
  ∃ k', map_call 0 va envid va PTE_SYSCALL k = (Ret (- E_INVAL), k') ∧ idle_call live fe l k k'.
Proof using Hif Hcs Hid Hu Ht Hva Hal Href Hl.
  intros Hw.
  pose proof (usys_page_map_run cpunum e cons_getc rcr2 eflags uregs others base kp Hif Hcs live fe l k 0 e va
    envid c va PTE_SYSCALL pte Hu (target_self e k) Ht ltac:(unfold id_range; lia) Hid dup_range dup_range
    dup_va dup_va eq_refl dup_refs_small Hl) as HR.
  cbv zeta in HR. rewrite Hw in HR. exact HR.
Qed.


(** The page is there to be shared: the parent maps it, the child does not. *)
Record shareable : Prop := {
  sh_runs : user_runs live fe l k;
  sh_target : target k e envid = Some c;
  sh_refs : ∀ p, 0 ≤ p < npages (k_mm k) → pp_ref (pages (k_mm k) p) < 65534;
  sh_parent : lookup_pte (phys (k_mm k)) (dirof k e) va = Some pte;
  sh_child : lookup_pte (phys (k_mm k)) (dirof k c) va = None;
  sh_stack : writable (phys (k_mm k)) (dirof k e) USTACKPAGE s;
}.

(** Sharing after a push is sharing. *)
Lemma duplicated_pushed l' k1 k' : pushed s k k1 → duplicated va pte l l' k1 k' → duplicated va pte l l' k k'.
Proof using Hu Hcl Hva Hs Htop.
  intros Q [r p ch o d ke le re g en tf]. destruct (pushed_state _ _ _ _ Q) as (Epg & G & Een & _ & D).
  pose proof (pushed_lookup _ _ _ _ _ Htop _ _ _ _ _ _ Hu Hs Q) as L. split; try assumption.
  - by rewrite <- D.
  - by rewrite <- D.
  - intros y v Hy Hv. rewrite <- !D. intros H1 H2. rewrite (o y v Hy Hv H1 H2). rewrite !D. by apply L.
  - intros y v pte' a Hy Hv Hlk Ea Hb. rewrite <- (ps_mem _ _ _ _ Q a Hb).
    apply (d y v pte' a Hy Hv); [|exact Ea|exact Hb]. rewrite D, (L y v Hy Hv). exact Hlk.
  - intros j t Hj Hjt. rewrite <- D. apply ke; [exact Hj|]. rewrite D.
    rewrite (pushed_tables _ _ _ _ _ Htop _ _ _ _ _ _ Hu Hs Q c j Hcl); [exact Hjt|]. revert Hj. clear. unfold UPDX. lia.
  - rewrite D in le. destruct le as [le|[le ht]]; [by left|right]. split; [|exact ht].
    unfold needs in *. rewrite (pushed_tables _ _ _ _ _ Htop _ _ _ _ _ _ Hu Hs Q c _ Hcl) in le; [exact le|]. apply PDX_range.
  - intros q. rewrite <- Epg. apply re.
  - etransitivity; [exact G|exact g].
  - intros y. rewrite <- Een. apply en.
  - intros y Hy. rewrite <- Een. by apply tf.
Qed.
End page.

Lemma shareable_pushed va pte l k k' : 0 ≤ va < UTOP → shareable va pte l k → pushed s k k' → shareable va pte l k'.
Proof using Hcl Htop.
  intros Hva [Hu Ht Hr Hp Hc Hs] Q. destruct (pushed_state _ _ _ _ Q) as (Epg & _ & Een & Enp & D).
  pose proof (pushed_lookup _ _ _ _ _ Htop _ _ _ _ _ _ Hu Hs Q) as L. pose proof (us_live _ _ _ _ _ _ _ _ Hu) as He.
  split.
  - exact (pushed_runs _ _ _ _ _ Htop _ _ _ _ _ _ Hu Hs Q).
  - rewrite <- Ht. apply target_ext. intros x. by rewrite Een.
  - intros p. rewrite Enp, Epg. apply Hr.
  - rewrite D, (L e va He (PDX_user va Hva)). exact Hp.
  - rewrite D, (L c va Hcl (PDX_user va Hva)). exact Hc.
  - exact (pushed_writable _ _ _ _ _ Htop _ _ _ _ _ _ Hu Hs Q).
Qed.

(** A call while the stack is writable. *)
Lemma call_run {A} depth (m : K A) live' l k :
  user_runs live' fe l k → writable (phys (k_mm k)) (dirof k e) USTACKPAGE s →
  ∃ k0, pushed s k k0 ∧ call push depth m k = m k0.
Proof using SP.
  intros Hu (pte0 & Hl & Hw & Ep). destruct (push_plain depth live' fe l k pte0 Hu Hl Hw) as (k0 & E & Q).
  rewrite Ep in Q. exists k0. split; [exact Q|]. unfold call. by rewrite run_bind, E.
Qed.

Lemma shareable_call {A} depth (m : K A) va pte l k : 0 ≤ va < UTOP → shareable va pte l k →
  ∃ k0, pushed s k k0 ∧ call push depth m k = m k0 ∧ shareable va pte l k0.
Proof using Hcl Htop SP.
  intros Hva P. destruct (call_run depth m live l k (sh_runs _ _ _ _ P) (sh_stack _ _ _ _ P)) as (k0 & Q & E).
  exists k0. split_and!; [exact Q|exact E|by apply (shareable_pushed va pte l k k0)].
Qed.

(** The call that gives the child its entry. *)
Lemma child_call va pte perm l k : 0 ≤ va < UTOP → va mod 4096 = 0 → l ≠ [] → shareable va pte l k →
  bad_perm perm = false → negb (flag pte PTE_W) && flag perm PTE_W = false →
  ∃ k0 k' l', pushed s k k0 ∧ shareable va pte l k0 ∧
    call push 1 (map_call 0 va envid va perm) k = (Ret 0, k') ∧ child_mapped va pte perm l l' k0 k'.
Proof using Hif Hcs Hid Hcl Htop SP.
  intros Hva Hal Hroom P Hb Hw.
  destruct (shareable_call 1 (map_call 0 va envid va perm) va pte l k Hva P) as (k0 & Q & E & [Hu Ht Hr Hp Hc Hs]).
  destruct (map_child va pte l k0 Hu Ht Hva Hal Hroom Hr Hp perm Hb Hw) as (k' & l' & E' & M).
  exists k0, k', l'. split_and!; [exact Q|by split|by rewrite E|exact M].
Qed.

(** The two calls for a page that is copied lazily. *)
Lemma cow_calls va pte l k : 0 ≤ va < UTOP → va mod 4096 = 0 → l ≠ [] → shareable va pte l k →
  let perm := Z.lor (Z.lor PTE_COW PTE_U) PTE_P in
  parent_pte pte = pte / 4096 * 4096 + perm → child_pte pte = Some (pte / 4096 * 4096 + perm) →
  ∃ k1 k' l', call push 1 (map_call 0 va envid va perm) k = (Ret 0, k1) ∧
    call push 1 (map_call 0 va 0 va perm) k1 = (Ret 0, k') ∧ duplicated va pte l l' k k'.
Proof using Hif Hcs Hid Hce Hcl Htop SP.
  intros Hva Hal Hroom P perm Ep Ec.
  destruct (child_call va pte perm l k Hva Hal Hroom P eq_refl ltac:(by rewrite andb_false_r))
    as (k0 & k1 & l1 & Q & [Hu Ht Hr Hp Hc Hs] & E & M).
  pose proof (child_mapped_stack va pte l k0 Hu Hva Hs perm l1 k1 M) as Hs1.
  destruct (call_run 1 (map_call 0 va 0 va perm) live l1 k1 (pg_runs _ _ _ _ _ _ _ _ _ _ _ _ _ (cm_call _ _ _ _ _ _ _ M)) Hs1)
    as (k2 & Q2 & E2).
  destruct (mark_parent va pte l k0 Hu Hva Hal Hr Hp Hs l1 k1 k2 M Q2) as (k' & l' & E3 & P3 & C3).
  exists k1, k', l'. split_and!; [exact E|by rewrite E2|].
  apply (duplicated_pushed va pte l k (sh_runs _ _ _ _ P) Hva (sh_stack _ _ _ _ P) l' k0 k' Q).
  exact (duplicated_cow va pte l k0 Hu Hva Hp Hc Hs l1 k1 k2 l' k' M Q2 P3 C3 Ep Ec).
Qed.

Lemma duppage_run va pte l k : 0 ≤ va < UTOP → va mod 4096 = 0 → l ≠ [] → shareable va pte l k →
  flag pte PTE_U = true →
  ∃ k' l', duppage envid (va / 4096) k = (Ret 0, k') ∧ duplicated va pte l l' k k'.
Proof using Hif Hcs Hid Hce Hcl Htop SP.
  intros Hva Hal Hroom P HU. pose proof P as [Hu Ht Hr Hl Hn Hs].
  assert (u32 (va / 4096 * PGSIZE) = va) as Ea.
  { clear -Hva Hal. change UTOP with 0xEEC00000 in Hva. change PGSIZE with 4096. rewrite u32_small; lia. }
  pose proof (uvpt_mapped cpunum e others base kp live fe l k va pte Hu Hva Hl) as Euv.
  pose proof (duplicated_pushed va pte l k Hu Hva Hs) as Hdp.
  unfold UserLib.duppage. rewrite Ea, run_bind, Euv. cbv beta iota.
  destruct (flag pte PTE_SHARE) eqn:ES.
  - assert (parent_pte pte = pte) as Ep by (unfold parent_pte; by rewrite ES, andb_false_r).
    destruct (flag pte PTE_W) eqn:EW.
    + destruct (child_call va pte PTE_SYSCALL l k Hva Hal Hroom P eq_refl ltac:(by rewrite EW))
        as (k0 & k' & l' & Q & [Hu0 _ _ Hl0 Hn0 _] & E & M).
      exists k', l'. split; [by rewrite run_bind, E|]. apply (Hdp l' k0 k' Q).
      apply (duplicated_child va pte l k0 Hu0 Hva Hl0 Hn0 PTE_SYSCALL); [exact M|exact Ep|].
      unfold child_pte. by rewrite HU, ES, EW.
    + destruct (shareable_call 1 (map_call 0 va envid va PTE_SYSCALL) va pte l k Hva P) as (k0 & Q & E0 & [Hu0 Ht0 Hr0 Hl0 Hn0 _]).
      destruct (map_child_refused va pte l k0 Hu0 Ht0 Hva Hal Hr0 Hl0 EW) as (k' & E & I).
      exists k', l. split; [by rewrite run_bind, E0, E|]. apply (Hdp l k0 k' Q).
      apply (duplicated_idle va pte l k0 Hl0 Hn0); [exact I|exact Ep|]. unfold child_pte. by rewrite HU, ES, EW.
  - rewrite run_bind, Euv. cbv beta iota. rewrite run_bind.
    assert ((if flag pte PTE_W then mret true else pte ← uvpt_at cpunum (va / 4096); mret (flag pte PTE_COW)) k =
            (Ret (cow pte), k)) as ->.
    { unfold cow. destruct (flag pte PTE_W); [reflexivity|]. by rewrite run_bind, Euv. }
    cbv beta iota. destruct (cow pte) eqn:EC.
    + destruct (cow_calls va pte l k Hva Hal Hroom P) as (k1 & k' & l' & E1 & E2 & D).
      * unfold parent_pte. by rewrite HU, ES, EC.
      * unfold child_pte. by rewrite HU, ES, EC.
      * exists k', l'. split; [|exact D]. rewrite run_bind, E1. cbv beta iota. change (0 <? 0) with false. cbv beta iota.
        rewrite run_bind, run_ret, run_bind, E2. reflexivity.
    + destruct (child_call va pte (Z.lor PTE_U PTE_P) l k Hva Hal Hroom P eq_refl ltac:(by rewrite andb_false_r))
        as (k0 & k' & l' & Q & [Hu0 _ _ Hl0 Hn0 _] & E & M).
      exists k', l'. split; [by rewrite run_bind, E|]. apply (Hdp l' k0 k' Q).
      apply (duplicated_child va pte l k0 Hu0 Hva Hl0 Hn0 (Z.lor PTE_U PTE_P)); [exact M| |].
      * unfold parent_pte. by rewrite EC, andb_false_r.
      * unfold child_pte. by rewrite HU, ES, EC.
Qed.
End dup.
