(* ===== verification/ForkLoop.v ===== *)
(** * The loop of fork

    [fork_page] for every page below the stack top: the parent's address space
    shared copy-on-write with a child whose own is empty, with the free pages
    and reference counts that takes. *)
From S2P Require Import Prelude Monad Word Layout Mem CString PageAlloc PageTable PageInv PageOps PageDirs Seg KState Env EnvMem KInv EnvSpec Sched SchedSpec UserMem Syscall Trap UserStore TrapSpec SysSpec MemInit UserLib UserSpec ForkSpec UserStack DupPage.

Lemma parent_pte_page pte : parent_pte pte / 4096 = pte / 4096.
Proof.
  unfold parent_pte. case_match; [|done]. change (Z.lor (Z.lor PTE_COW PTE_U) PTE_P) with 0x805. lia.
Qed.

Lemma child_pte_page pte pte' : child_pte pte = Some pte' → pte' / 4096 = pte / 4096.
Proof.
  assert (∀ a f, 0 ≤ f < 4096 → (a * 4096 + f) / 4096 = a) as Hf by (intros; lia).
  unfold child_pte. intros H. repeat case_match; try discriminate H; injection H as <-; apply Hf; vm_compute; split; (discriminate || reflexivity).
Qed.

(** How many elements a function is defined on. *)
Definition hits {A} (f : Z → option A) (n : Z) : Z := Z.of_nat (length (omap f (zrange 0 n))).

Lemma hits_step {A} (f : Z → option A) n : 0 ≤ n →
  hits f (n + 1) = hits f n + match f n with Some _ => 1 | None => 0 end.
Proof.
  intros Hn. unfold hits. rewrite zrange_snoc, omap_app, length_app by exact Hn. simpl.
  rewrite Z.add_0_l. destruct (f n); simpl; lia.
Qed.
Lemma hits_mono {A} (f : Z → option A) n m : 0 ≤ n ≤ m → hits f n ≤ hits f m.
Proof.
  intros Hn. replace m with (n + (m - n)) by lia. assert (0 ≤ m - n) as Hm by lia. revert Hm.
  generalize (m - n) as p. apply (natlike_ind (λ p, _)).
  - rewrite Z.add_0_r. lia.
  - intros p Hp IH. rewrite <- Z.add_1_r, Z.add_assoc, hits_step by lia. case_match; lia.
Qed.

Section loop.
Context (cpunum e : Z) (cons_getc : K Z) (rcr2 eflags : Z) (uregs : Trapframe).
Context (others : stop → kst → option kst).
Context (base : Z → Z) (kp : Z).
Context (Hif : flag eflags FL_IF = false) (Hcs : Z.land (tf_cs uregs) 3 = 3).
Notation user_runs := (user_runs cpunum e base kp).
Context (a_pgfault_handler a_pgfault_upcall a_pgfault top : Z) (Htop : USTACKPAGE < top ≤ USTACKTOP).
Context (push : nat → K ()) (SP : StackPush cpunum e base kp a_pgfault_handler a_pgfault_upcall a_pgfault top push).
Notation fork_page := (fork_page cpunum e cons_getc rcr2 eflags uregs others push).
Notation below := (below top).
Notation pushed := (pushed top).
Context (live fe : list Z) (c envid : Z) (Hce : c ≠ e) (Hcl : c ∈ live) (Hid : id_range envid).

(** The state in which the loop starts. *)
Context (k0 : kst) (l0 : list Z) (Hu0 : user_runs live fe l0 k0).
Notation old v := (lookup_pte (phys (k_mm k0)) (dirof k0 e) v).
Context (Ht0 : target k0 e envid = Some c).
Context (Hempty : ∀ v, 0 ≤ v < UTOP → lookup_pte (phys (k_mm k0)) (dirof k0 c) v = None).
(** The parent's stack is on the writable page [s]. *)
Context (s : Z) (Hs0 : writable (phys (k_mm k0)) (dirof k0 e) USTACKPAGE s).

(** The parent's page tables, and how often it maps page [q] below page number [n]. *)
Definition ptable (j : Z) : option Z := tgt (phys (k_mm k0)) (slot (dirof k0 e) j).
Definition mapped_to (q n : Z) : Z := hits (λ pn, pte ← old (pn * 4096); if decide (pte / 4096 = q) then Some () else None) n.

(** ** Free pages *)

Definition room (N i len : Z) (m : mem) : Prop :=
  ∃ b, N ≤ len + hits ptable (i / 1024) + Z.b2z b ∧
    (b = true → i mod 1024 ≠ 0 ∧ is_Some (ptable (i / 1024)) ∧
       is_Some (tgt m (slot (dirof k0 c) (i / 1024)))).

Lemma room_next N i len m b : 0 ≤ i →
  N ≤ len + hits ptable (i / 1024) + Z.b2z b →
  (b = true → is_Some (ptable (i / 1024)) ∧ is_Some (tgt m (slot (dirof k0 c) (i / 1024)))) →
  room N (i + 1) len m.
Proof.
  intros Hi HN Hb. destruct (decide ((i + 1) mod 1024 = 0)) as [Hm|Hm].
  - exists false. split; [|done].
    replace ((i + 1) / 1024) with (i / 1024 + 1) by lia.
    rewrite hits_step by lia. destruct b; [|case_match; simpl in *; lia].
    destruct (Hb eq_refl) as [[t ->] _]. simpl in *. lia.
  - exists b. replace ((i + 1) / 1024) with (i / 1024) by lia. split; [exact HN|].
    intros E. split; [exact Hm|exact (Hb E)].
Qed.

Lemma room_skip N i len m : 0 ≤ i → room N i len m → room N (i + 1) len m.
Proof. intros Hi (b & HN & Hb). apply (room_next _ _ _ _ b); [exact Hi|exact HN|]. intros E. by destruct (Hb E). Qed.

Lemma room_dup N i len len' m m' : 0 ≤ i → room N i len m → is_Some (ptable (i / 1024)) →
  (is_Some (tgt m (slot (dirof k0 c) (i / 1024))) → is_Some (tgt m' (slot (dirof k0 c) (i / 1024)))) →
  len ≤ len' ∨
    (len ≤ len' + match tgt m (slot (dirof k0 c) (i / 1024)) with Some _ => 0 | None => 1 end ∧
     is_Some (tgt m' (slot (dirof k0 c) (i / 1024)))) →
  room N (i + 1) len' m'.
Proof.
  intros Hi (b & HN & Hb) Hp Hk Hlen. destruct Hlen as [Hlen|[Hlen Hs]].
  - apply (room_next _ _ _ _ b); [exact Hi|lia|]. intros E. destruct (Hb E) as (_ & ? & ?). auto.
  - apply (room_next _ _ _ _ true); [exact Hi| |done]. destruct b; simpl in *.
    + destruct (Hb eq_refl) as (_ & _ & [t Et]). rewrite Et in Hlen. lia.
    + case_match; lia.
Qed.

(** While some table of the parent is still to come, a page is free. *)
Lemma room_free N i len m : 0 ≤ i → i / 1024 < UPDX → room N i len m → is_Some (ptable (i / 1024)) →
  N - hits ptable UPDX ≤ len.
Proof.
  intros Hi Hj (b & HN & _) [t Et].
  pose proof (hits_mono ptable (i / 1024 + 1) UPDX ltac:(lia)) as Hm. rewrite hits_step, Et in Hm by lia.
  destruct b; simpl in HN; lia.
Qed.
(** ** The invariant *)

Record forked (N i : Z) (l : list Z) (k : kst) : Prop := {
  fk_runs : user_runs live fe l k;
  fk_parent : ∀ v, 0 ≤ v < UTOP →
    lookup_pte (phys (k_mm k)) (dirof k0 e) v = if v / 4096 <? i then option_map parent_pte (old v) else old v;
  fk_child : ∀ v, 0 ≤ v < UTOP →
    lookup_pte (phys (k_mm k)) (dirof k0 c) v = if v / 4096 <? i then old v ≫= child_pte else None;
  fk_others : ∀ y v, y ∈ live → y ≠ e → y ≠ c → 0 ≤ v < UTOP →
    lookup_pte (phys (k_mm k)) (dirof k0 y) v = lookup_pte (phys (k_mm k0)) (dirof k0 y) v;
  fk_data : ∀ y v pte a, y ∈ live → 0 ≤ v < UTOP →
    lookup_pte (phys (k_mm k0)) (dirof k0 y) v = Some pte → a / 4096 = pte / 4096 → ¬ below s a →
    load8 (phys (k_mm k)) a = load8 (phys (k_mm k0)) a;
  fk_room : room N i (Z.of_nat (length l)) (phys (k_mm k));
  fk_refs : ∀ q, pp_ref (pages (k_mm k) q) ≤ Z.max 1 (pp_ref (pages (k_mm k0) q) + mapped_to q i);
  fk_globals : same_globals (k_mm k0) (k_mm k);
  fk_envs : ∀ y, env_kept (envs k0 y) (envs k y);
  fk_tf : ∀ y, y ≠ e → env_tf (envs k y) = env_tf (envs k0 y);
}.

Lemma fk_dirof N i l k y : forked N i l k → dirof k y = dirof k0 y.
Proof. intros F. apply kept_dirof, (fk_envs _ _ _ _ F). Qed.

Lemma mapped_to_step q n : 0 ≤ n →
  mapped_to q (n + 1) = mapped_to q n +
    match old (n * 4096) with Some pte => if decide (pte / 4096 = q) then 1 else 0 | None => 0 end.
Proof.
  intros Hn. unfold mapped_to. rewrite hits_step by exact Hn. f_equal.
  destruct (old (n * 4096)); simpl; [|reflexivity]. by case_decide.
Qed.


(** ** One iteration *)

Lemma old_page v i : 0 ≤ v < UTOP → v / 4096 = i → old v = old (i * 4096).
Proof.
  intros Hv E. apply lookup_pte_page. change UTOP with 0xEEC00000 in Hv. rewrite !u32_small by lia. lia.
Qed.

(** Nothing to do for page [i]. *)
Lemma forked_skip N i l k : 0 ≤ i → forked N i l k →
  (∀ pte, old (i * 4096) = Some pte → flag pte PTE_U = false) → forked N (i + 1) l k.
Proof.
  intros Hi [Hr Hp Hc Ho Hd Hm Hq Hg He Ht] Hno. split; try assumption.
  - intros v Hv. rewrite (Hp v Hv). destruct (Z.ltb_spec (v / 4096) i), (Z.ltb_spec (v / 4096) (i + 1)); try lia; [done| |done].
    rewrite (old_page v i Hv) by lia. destruct (old (i * 4096)) as [pte|] eqn:E; [|done]. simpl.
    unfold parent_pte. by rewrite (Hno pte eq_refl).
  - intros v Hv. rewrite (Hc v Hv). destruct (Z.ltb_spec (v / 4096) i), (Z.ltb_spec (v / 4096) (i + 1)); try lia; [done| |done].
    rewrite (old_page v i Hv) by lia. destruct (old (i * 4096)) as [pte|] eqn:E; [|done]. simpl.
    unfold child_pte. by rewrite (Hno pte eq_refl).
  - by apply room_skip.
  - intros q. specialize (Hq q). rewrite mapped_to_step by exact Hi. case_match; [case_decide|]; lia.
Qed.

(** What the state of the loop says about page [i]. *)
Lemma forked_at N i l k : forked N i l k → 0 ≤ i → i * 4096 < UTOP →
  lookup_pte (phys (k_mm k)) (dirof k e) (i * 4096) = old (i * 4096) ∧
  lookup_pte (phys (k_mm k)) (dirof k c) (i * 4096) = None.
Proof.
  intros F Hi Hv. rewrite !(fk_dirof N i l k _ F).
  rewrite (fk_parent _ _ _ _ F), (fk_child _ _ _ _ F) by lia.
  destruct (Z.ltb_spec (i * 4096 / 4096) i); [lia|done].
Qed.

(** Where the parent maps something, it has a table. *)
Lemma old_ptable i pte : 0 ≤ i → i * 4096 < UTOP → old (i * 4096) = Some pte → is_Some (ptable (i / 1024)).
Proof.
  intros Hi Hv Hl. destruct (lookup_pte_flag _ _ _ _ Hl) as (_ & _ & t & Hw & _). unfold walks in Hw.
  change UTOP with 0xEEC00000 in Hv. rewrite PDX_div, u32_small in Hw by lia.
  replace (i * 4096 / 4194304) with (i / 1024) in Hw by lia. unfold ptable. by rewrite Hw.
Qed.

(** A page mapped when the loop started is mapped, with the same contents. *)
Lemma forked_still N i l k y v pte : forked N i l k → y ∈ live → 0 ≤ v < UTOP →
  lookup_pte (phys (k_mm k0)) (dirof k0 y) v = Some pte →
  ∃ pte', lookup_pte (phys (k_mm k)) (dirof k0 y) v = Some pte' ∧ pte' / 4096 = pte / 4096.
Proof.
  intros F Hy Hv Hl. destruct (decide (y = e)) as [->|Hye].
  - rewrite (fk_parent _ _ _ _ F v Hv), Hl. simpl. case_match.
    + exists (parent_pte pte). split; [done|apply parent_pte_page].
    + by exists pte.
  - destruct (decide (y = c)) as [->|Hyc]; [rewrite (Hempty v Hv) in Hl; discriminate Hl|].
    exists pte. split; [|done]. by rewrite (fk_others _ _ _ _ F y v Hy Hye Hyc Hv).
Qed.

Lemma duplicated_other va pte l l' k k' y v :
  duplicated cpunum e base kp top live fe c s va pte l l' k k' → 0 ≤ va < UTOP → y ∈ live → 0 ≤ v < UTOP →
  (y = e ∨ y = c → v / 4096 ≠ va / 4096) → user_runs live fe l k → e ∈ live →
  lookup_pte (phys (k_mm k')) (dirof k y) v = lookup_pte (phys (k_mm k)) (dirof k y) v.
Proof using Hcl.
  intros D Hva Hy Hv Hne Hu He. pose proof (us_inv _ _ _ _ _ _ _ _ Hu) as Hi.
  apply (du_others _ _ _ _ _ _ _ _ _ _ _ _ _ _ _ D y v Hy); [by apply PDX_user|..].
  - intros [E Ep]%same_slot_page; [|by apply UTOP_range..].
    apply (ke_dir_inj _ _ _ _ _ _ Hi) in E; [|assumption..]. apply Hne; [by left|by symmetry].
  - intros [E Ep]%same_slot_page; [|by apply UTOP_range..].
    apply (ke_dir_inj _ _ _ _ _ _ Hi) in E; [|assumption..]. apply Hne; [by right|by symmetry].
Qed.

Lemma forked_dup N i l l' k k' pte : 0 ≤ i → i * 4096 < UTOP → forked N i l k →
  duplicated cpunum e base kp top live fe c s (i * 4096) pte l l' k k' →
  old (i * 4096) = Some pte → forked N (i + 1) l' k'.
Proof using Hcl Hempty Hu0 others.
  intros Hi Hv F D Hl. pose proof (fk_runs _ _ _ _ F) as Hu. pose proof (us_live _ _ _ _ _ _ _ _ Hu) as He.
  assert (∀ y, dirof k y = dirof k0 y) as Ed by (intros y; exact (fk_dirof N i l k y F)).
  assert (0 ≤ i * 4096 < UTOP) as Hva by (split; [clear -Hi; lia|exact Hv]).
  assert (i * 4096 / 4096 = i) as Ei by (clear; lia).
  assert (∀ y v, y ∈ live → 0 ≤ v < UTOP → (y = e ∨ y = c → v / 4096 ≠ i) →
    lookup_pte (phys (k_mm k')) (dirof k0 y) v = lookup_pte (phys (k_mm k)) (dirof k0 y) v) as Lo.
  { intros y v Hy Hv' Hn. rewrite <- Ed.
    apply (duplicated_other _ _ _ _ _ _ y v D Hva Hy Hv'); [by rewrite Ei|exact Hu|exact He]. }
  assert (∀ d v, 0 ≤ v < UTOP → v / 4096 = i →
    lookup_pte (phys (k_mm k')) d v = lookup_pte (phys (k_mm k')) d (i * 4096)) as Lp.
  { intros d v Hv' E. apply lookup_pte_page. change UTOP with 0xEEC00000 in *. rewrite !u32_small by lia. lia. }
  pose proof (du_parent _ _ _ _ _ _ _ _ _ _ _ _ _ _ _ D) as Dp. rewrite Ed in Dp.
  pose proof (du_child _ _ _ _ _ _ _ _ _ _ _ _ _ _ _ D) as Dc. rewrite Ed in Dc.
  split.
  - exact (du_runs _ _ _ _ _ _ _ _ _ _ _ _ _ _ _ D).
  - intros v Hv'. destruct (decide (v / 4096 = i)) as [E|E].
    + rewrite (Lp _ v Hv' E), Dp, (old_page v i Hv' E), Hl.
      by destruct (Z.ltb_spec (v / 4096) (i + 1)); [|lia].
    + rewrite (Lo e v He Hv' (λ _, E)), (fk_parent _ _ _ _ F v Hv').
      destruct (Z.ltb_spec (v / 4096) i), (Z.ltb_spec (v / 4096) (i + 1)); (reflexivity || (clear -H H0 E; lia)).
  - intros v Hv'. destruct (decide (v / 4096 = i)) as [E|E].
    + rewrite (Lp _ v Hv' E), Dc, (old_page v i Hv' E), Hl.
      by destruct (Z.ltb_spec (v / 4096) (i + 1)); [|lia].
    + rewrite (Lo c v Hcl Hv' (λ _, E)), (fk_child _ _ _ _ F v Hv').
      destruct (Z.ltb_spec (v / 4096) i), (Z.ltb_spec (v / 4096) (i + 1)); (reflexivity || (clear -H H0 E; lia)).
  - intros y v Hy Hye Hyc Hv'. rewrite (Lo y v Hy Hv') by (intros [?|?]; contradiction).
    exact (fk_others _ _ _ _ F y v Hy Hye Hyc Hv').
  - intros y v pte0 a Hy Hv' Hlk Ea Hb.
    destruct (forked_still N i l k y v pte0 F Hy Hv' Hlk) as (pte' & Hlk' & Ep). rewrite <- Ed in Hlk'.
    rewrite (du_data _ _ _ _ _ _ _ _ _ _ _ _ _ _ _ D y v pte' a Hy (PDX_user v Hv') Hlk') by (exact Hb || by rewrite Ep).
    exact (fk_data _ _ _ _ F y v pte0 a Hy Hv' Hlk Ea Hb).
  - assert (PDX (i * 4096) = i / 1024) as Epd.
    { rewrite PDX_div, u32_small by (apply UTOP_range; exact Hva). clear. lia. }
    assert (0 ≤ i / 1024 < UPDX) as Hj by (rewrite <- Epd; split; [apply PDX_range|by apply PDX_user]).
    apply (room_dup N i (Z.of_nat (length l)) _ (phys (k_mm k))); [exact Hi|exact (fk_room _ _ _ _ F)| | |].
    + by apply (old_ptable i pte).
    + intros [t Et]. rewrite <- Ed in Et |- *. exists t. by apply (du_keep _ _ _ _ _ _ _ _ _ _ _ _ _ _ _ D).
    + rewrite <- Ed. destruct (du_len _ _ _ _ _ _ _ _ _ _ _ _ _ _ _ D) as [Hlen|[Hlen [t Et]]]; [left; clear -Hlen; lia|right].
      unfold needs in Hlen. rewrite Epd in Hlen, Et. split; [exact Hlen|by exists t].
  - intros q. pose proof (fk_refs _ _ _ _ F q) as H1. pose proof (du_refs _ _ _ _ _ _ _ _ _ _ _ _ _ _ _ D q) as H2.
    rewrite mapped_to_step, Hl by exact Hi.
    pose proof (mapped_ref _ _ _ _ _ _ _ (ke_mm _ _ _ _ _ _ (us_inv _ _ _ _ _ _ _ _ Hu0)) (ke_dir live k0 e He)
      (PDX_user _ Hva) Hl) as H3. revert H1 H2 H3.
    assert (0 ≤ mapped_to q i) as H4 by apply Nat2Z.is_nonneg. revert H4. clear. intros H4 H1 H2 H3.
    destruct (decide (pte / 4096 = q)) as [<-|Hne].
    + rewrite decide_True in H2 by reflexivity. lia.
    + rewrite decide_False in H2 by congruence. lia.
  - etransitivity; [exact (fk_globals _ _ _ _ F)|exact (du_globals _ _ _ _ _ _ _ _ _ _ _ _ _ _ _ D)].
  - intros y. etransitivity; [exact (fk_envs _ _ _ _ F y)|exact (du_envs _ _ _ _ _ _ _ _ _ _ _ _ _ _ _ D y)].
  - intros y Hy. rewrite (du_tf _ _ _ _ _ _ _ _ _ _ _ _ _ _ _ D y Hy). exact (fk_tf _ _ _ _ F y Hy).
Qed.

(** Until its own turn comes, the stack is writable; a push only changes it. *)
Lemma forked_stack N i l k : i ≤ USTACKPAGE / 4096 → forked N i l k → writable (phys (k_mm k)) (dirof k e) USTACKPAGE s.
Proof using Hs0 others.
  intros Hi F. destruct Hs0 as (pte & Hl & Hw). exists pte. split; [|exact Hw].
  rewrite (fk_dirof N i l k e F), (fk_parent _ _ _ _ F USTACKPAGE) by (vm_compute; split; [discriminate|done]).
  destruct (Z.ltb_spec (USTACKPAGE / 4096) i); [lia|exact Hl].
Qed.

Lemma forked_pushed N i l k k' : 0 ≤ i ≤ USTACKPAGE / 4096 → forked N i l k → pushed s k k' → forked N i l k'.
Proof using Hs0 Hcl Htop others.
  intros Hi F Q. pose proof (forked_stack N i l k (proj2 Hi) F) as Hs. pose proof (λ y, fk_dirof N i l k y F) as D.
  destruct (pushed_state _ _ _ _ Q) as (Epg & G & Een & _ & _). destruct F as [Hr Hp Hc Ho Hd Hm Hq Hg He Ht].
  pose proof (us_live _ _ _ _ _ _ _ _ Hr) as Hel.
  assert (∀ y v, y ∈ live → 0 ≤ v < UTOP →
    lookup_pte (phys (k_mm k')) (dirof k0 y) v = lookup_pte (phys (k_mm k)) (dirof k0 y) v) as L.
  { intros y v Hy Hv. rewrite <- D. exact (pushed_lookup _ _ _ _ _ Htop _ _ _ _ _ _ Hr Hs Q y v Hy (PDX_user v Hv)). }
  split.
  - exact (pushed_runs _ _ _ _ _ Htop _ _ _ _ _ _ Hr Hs Q).
  - intros v Hv. rewrite (L e v Hel Hv). by apply Hp.
  - intros v Hv. rewrite (L c v Hcl Hv). by apply Hc.
  - intros y v Hy Hye Hyc Hv. rewrite (L y v Hy Hv). by apply Ho.
  - intros y v pte a Hy Hv Hl Ea Hb. rewrite (ps_mem _ _ _ _ Q a Hb). by apply (Hd y v pte a).
  - destruct Hm as (b & HN & Hb). exists b. split; [exact HN|]. intros E. destruct (Hb E) as (H1 & H2 & H3).
    split_and!; [exact H1|exact H2|]. rewrite <- D in H3 |- *.
    rewrite (pushed_tables _ _ _ _ _ Htop _ _ _ _ _ _ Hr Hs Q c (i / 1024) Hcl); [exact H3|].
    change (USTACKPAGE / 4096) with 0xEEBFD in Hi. clear -Hi. lia.
  - intros q. rewrite Epg. apply Hq.
  - etransitivity; [exact Hg|exact G].
  - intros y. rewrite Een. apply He.
  - intros y Hy. rewrite Een. by apply Ht.
Qed.

(** The tests of the loop body amount to a look at the page tables. *)
Lemma fork_page_eq l k i : user_runs live fe l k → 0 ≤ i → i * 4096 < UTOP →
  fork_page envid i k =
    match lookup_pte (phys (k_mm k)) (dirof k e) (i * 4096) with
    | Some pte =>
        if flag pte PTE_U
        then (call push 0 (UserLib.duppage cpunum e cons_getc rcr2 eflags uregs others push envid i) ;; mret tt) k
        else (Ret tt, k)
    | None => (Ret tt, k)
    end.
Proof.
  intros Hu Hi Hv. assert (0 ≤ i * 4096 < UTOP) as Hva by (split; [clear -Hi; lia|exact Hv]).
  assert (i * 4096 / 4096 = i) as Ei by (clear; lia).
  assert (PGNUM (i * 4096) = i) as En by (rewrite PGNUM_div, u32_small by (apply UTOP_range; exact Hva); exact Ei).
  unfold UserLib.fork_page. change PGSIZE with 4096.
  rewrite run_bind, (uvpd_run cpunum e others base kp live fe l k (PDX (i * 4096)) Hu (PDX_range _)). cbv beta iota.
  rewrite En. unfold lookup_pte, tgt. destruct (flag (load32 _ (slot (dirof k e) (PDX (i * 4096)))) PTE_P) eqn:Ef; [|reflexivity].
  cbn [mbind option_bind].
  pose proof (uvpt_run cpunum e others base kp live fe l k (i * 4096) _ Hu Hva
    (proj2 (tgt_Some _ _ _) (conj Ef eq_refl))) as Er. rewrite Ei in Er.
  rewrite run_bind, Er. cbv beta iota zeta.
  destruct (flag (load32 _ (slot _ (PTX (i * 4096)))) PTE_P) eqn:Ef2; [|reflexivity].
  rewrite run_bind, Er. cbv beta iota. by destruct (flag _ PTE_U).
Qed.

(** A page is mapped no more often than its reference count says. *)
Definition pte_slot (pn : Z) : option Z :=
  t ← tgt (phys (k_mm k0)) (slot (dirof k0 e) (PDX (pn * 4096))); Some (slot t (PTX (pn * 4096))).

Lemma pte_slot_inj pn pn' a : 0 ≤ pn → 0 ≤ pn' → pn * 4096 < UTOP → pn' * 4096 < UTOP →
  pte_slot pn = Some a → pte_slot pn' = Some a → pn = pn'.
Proof using Hu0 others.
  intros H0 H0' Hv Hv' E E'. pose proof (us_live _ _ _ _ _ _ _ _ Hu0) as He.
  assert (0 ≤ pn * 4096 < UTOP) as Hr by (clear -H0 Hv; lia).
  assert (0 ≤ pn' * 4096 < UTOP) as Hr' by (clear -H0' Hv'; lia). unfold pte_slot in E, E'.
  destruct (tgt _ (slot _ (PDX (pn * 4096)))) as [t|] eqn:Et; [|discriminate E]. injection E as E.
  destruct (tgt _ (slot _ (PDX (pn' * 4096)))) as [t'|] eqn:Et'; [|discriminate E']. injection E' as E'.
  rewrite <- E' in E. apply slot_inj in E as [-> Ex]; [|apply PTX_range..].
  destruct (walks_inj _ (dirof k0 <$> live) (dirof k0 e) (pn * 4096) (dirof k0 e) (pn' * 4096) t'
    (ki_nodup _ _ _ _ (ke_mm _ _ _ _ _ _ (us_inv _ _ _ _ _ _ _ _ Hu0)))) as [_ Ed];
    [by apply ke_dir|by apply ke_dir|by apply PDX_user|by apply PDX_user|exact Et|exact Et'|].
  destruct (same_slot_page 0 0 (pn * 4096) (pn' * 4096)) as [_ Ep]; [by apply UTOP_range..|by split_and!|].
  clear -Ep. lia.
Qed.

Lemma pte_slots_nodup n : 0 ≤ n → n * 4096 ≤ UTOP → NoDup (omap pte_slot (zrange 0 n)).
Proof using Hu0 others.
  intros Hn. pattern n. apply natlike_ind; [intros _; rewrite zrange_nil by lia; constructor| |exact Hn]. clear n Hn.
  intros n Hn IH Hv. rewrite <- Z.add_1_r, zrange_snoc, omap_app by exact Hn. rewrite Z.add_0_l. simpl.
  specialize (IH ltac:(lia)). destruct (pte_slot n) as [a|] eqn:Ea; [|by rewrite app_nil_r].
  apply NoDup_app. split; [exact IH|]. split; [|apply NoDup_singleton].
  intros x (pn & Hpn & Ex)%list_elem_of_omap ->%list_elem_of_singleton. apply elem_of_zrange in Hpn.
  pose proof (pte_slot_inj pn n a ltac:(lia) Hn ltac:(lia) ltac:(lia) Ex Ea). lia.
Qed.

Lemma mapped_to_count q n : 0 ≤ n → mapped_to q n = countZ q (omap (tgt (phys (k_mm k0))) (omap pte_slot (zrange 0 n))).
Proof using others.
  intros Hn. pattern n.
  apply natlike_ind; [by rewrite zrange_nil by lia| |exact Hn]. clear n Hn.
  intros n Hn IH. rewrite <- Z.add_1_r, zrange_snoc, !omap_app, countZ_app, mapped_to_step, IH by exact Hn.
  f_equal. rewrite Z.add_0_l. simpl. unfold pte_slot, lookup_pte.
  destruct (tgt _ (slot _ (PDX (n * 4096)))) as [t|]; simpl; [|reflexivity]. unfold tgt.
  destruct (flag (load32 _ (slot t (PTX (n * 4096)))) PTE_P); simpl; [|reflexivity].
  repeat case_decide; congruence || reflexivity.
Qed.

Lemma mapped_to_refs q n : 0 ≤ n → n * 4096 ≤ UTOP → 0 ≤ q < npages (k_mm k0) →
  mapped_to q n ≤ pp_ref (pages (k_mm k0) q).
Proof using Hu0 others.
  intros Hn Hv Hq. pose proof (ke_mm _ _ _ _ _ _ (us_inv _ _ _ _ _ _ _ _ Hu0)) as Hm.
  pose proof (us_live _ _ _ _ _ _ _ _ Hu0) as He.
  rewrite (ki_ref _ _ _ _ Hm) by exact Hq. pose proof (ki_base _ _ _ _ Hm q) as Hb.
  assert (omap pte_slot (zrange 0 n) ⊆+ tables (phys (k_mm k0)) (dirof k0 <$> live) ≫= pt_slots) as Hsub.
  { apply NoDup_submseteq; [by apply pte_slots_nodup|].
    intros a (pn & Hpn & Ea)%list_elem_of_omap. apply elem_of_zrange in Hpn. unfold pte_slot in Ea.
    destruct (tgt _ (slot _ (PDX (pn * 4096)))) as [t|] eqn:Et; [|discriminate Ea]. injection Ea as <-.
    apply list_elem_of_bind. exists t. split; [|].
    - apply elem_of_pt_slots. exists (PTX (pn * 4096)). split; [apply PTX_range|done].
    - apply (walks_table _ _ (dirof k0 e) (pn * 4096)); [by apply ke_dir| |exact Et].
      apply PDX_user. clear -Hpn Hv. lia. }
  apply submseteq_Permutation in Hsub as [R HR].
  unfold refs, leaves. rewrite !countZ_app.
  rewrite (countZ_perm _ _ _ (omap_Permutation (tgt (phys (k_mm k0))) _ _ HR)), omap_app, countZ_app.
  rewrite mapped_to_count by exact Hn.
  pose proof (countZ_nonneg q (dirof k0 <$> live)).
  pose proof (countZ_nonneg q (tables (phys (k_mm k0)) (dirof k0 <$> live))).
  pose proof (countZ_nonneg q (omap (tgt (phys (k_mm k0))) R)). lia.
Qed.

Context (N : Z) (Hroom : hits ptable UPDX + 1 ≤ N).
Context (Hrefs : ∀ q, 0 ≤ q < npages (k_mm k0) → pp_ref (pages (k_mm k0) q) < 32767).

Lemma fork_page_step i l k : 0 ≤ i < USTACKTOP / PGSIZE → forked N i l k →
  ∃ k' l', fork_page envid i k = (Ret tt, k') ∧ forked N (i + 1) l' k'.
Proof using Hif Hcs Hce Hcl Hid Ht0 Hempty Hu0 Hroom Hrefs Hs0 Htop SP.
  intros Hi F. assert (0 ≤ i ≤ USTACKPAGE / 4096) as Hi'.
  { change (USTACKTOP / PGSIZE) with 0xEEBFE in Hi. change (USTACKPAGE / 4096) with 0xEEBFD. clear -Hi. lia. }
  assert (i * 4096 < UTOP) as Hv.
  { change (USTACKTOP / PGSIZE) with 0xEEBFE in Hi. change UTOP with 0xEEC00000. clear -Hi. lia. }
  destruct (forked_at N i l k F ltac:(clear -Hi; lia) Hv) as [Hlp Hlc].
  pose proof (fk_runs _ _ _ _ F) as Hu. rewrite (fork_page_eq l k i Hu ltac:(clear -Hi; lia) Hv), Hlp.
  destruct (old (i * 4096)) as [pte|] eqn:El.
  2: { exists k, l. split; [reflexivity|]. apply forked_skip; [clear -Hi; lia|exact F|]. intros pte Hp. congruence. }
  destruct (flag pte PTE_U) eqn:EU.
  2: { exists k, l. split; [reflexivity|]. apply forked_skip; [clear -Hi; lia|exact F|]. intros pte' Hp. congruence. }
  assert (0 ≤ i * 4096 < UTOP) as Hva by (split; [clear -Hi; lia|exact Hv]).
  assert (shareable cpunum e base kp live fe c envid s (i * 4096) pte l k) as Sh.
  { split; [exact Hu| | |exact Hlp|exact Hlc|exact (forked_stack N i l k (proj2 Hi') F)].
    - rewrite (kept_target e k0 k envid (fk_envs _ _ _ _ F)). exact Ht0.
    - intros q Hr. rewrite (proj1 (fk_globals _ _ _ _ F)) in Hr.
      pose proof (fk_refs _ _ _ _ F q) as Hq. specialize (Hrefs q Hr).
      pose proof (mapped_to_refs q i ltac:(clear -Hi; lia) ltac:(clear -Hv; lia) Hr) as Hm.
      clear -Hq Hrefs Hm. lia. }
  destruct (shareable_call cpunum e base kp _ _ _ _ Htop push SP live fe c envid Hcl s 0
    (UserLib.duppage cpunum e cons_getc rcr2 eflags uregs others push envid i) (i * 4096) pte l k Hva Sh) as (k1 & Q & Ec & Sh1).
  pose proof (forked_pushed N i l k k1 Hi' F Q) as F1.
  destruct (duppage_run cpunum e cons_getc rcr2 eflags uregs others base kp Hif Hcs _ _ _ top Htop push SP live fe c envid
    Hce Hcl Hid s (i * 4096) pte l k1 Hva ltac:(clear; lia)) as (k' & l' & E & D).
  - intros ->. pose proof (room_free N i 0 _ ltac:(clear -Hi; lia)
      ltac:(change (USTACKTOP / PGSIZE) with 0xEEBFE in Hi; unfold UPDX; clear -Hi; lia) (fk_room _ _ _ _ F)
      (old_ptable i pte ltac:(clear -Hi; lia) Hv El)) as HN. clear -Hroom HN. lia.
  - exact Sh1.
  - exact EU.
  - assert (i * 4096 / 4096 = i) as Ei by (clear; lia). rewrite Ei in E.
    exists k', l'. split; [by rewrite run_bind, Ec, E|].
    exact (forked_dup N i l l' k1 k' pte ltac:(clear -Hi; lia) Hv F1 D El).
Qed.

(** The whole loop. *)
Lemma fork_loop_run : N ≤ Z.of_nat (length l0) →
  ∃ k' l', forM (zrange 0 (USTACKTOP / PGSIZE)) (fork_page envid) k0 = (Ret tt, k') ∧
    forked N (USTACKTOP / PGSIZE) l' k'.
Proof using Hif Hcs Hce Hcl Hid Ht0 Hempty Hu0 Hroom Hrefs Hs0 Htop SP.
  intros HN.
  destruct (forM_zrange (λ i k, ∃ l, forked N i l k) (fork_page envid) (USTACKTOP / PGSIZE) k0)
    as (k' & E & l' & F).
  - vm_compute. discriminate.
  - exists l0. split; try done.
    + intros v Hv. destruct (Z.ltb_spec (v / 4096) 0); [lia|done].
    + intros v Hv. destruct (Z.ltb_spec (v / 4096) 0); [lia|]. by apply Hempty.
    + exists false. split; [|done]. change (0 / 1024) with 0. change (hits ptable 0) with 0. simpl. lia.
    + intros q. change (mapped_to q 0) with 0. lia.
  - intros i k Hi (l & F). destruct (fork_page_step i l k Hi F) as (k' & l' & E & F').
    exists k'. split; [exact E|by exists l'].
  - exists k', l'. split; [exact E|exact F].
Qed.
End loop.
