(* ===== verification/ForkThm.v ===== *)
(** * fork

    The calls before and after the loop of [fork], and the theorems on the user
    library. *)
From S2P Require Import Prelude Monad Word Layout Mem CString PageAlloc PageTable PageInv PageOps PageDirs Seg KState Env EnvMem KInv EnvSpec Sched SchedSpec UserMem Syscall Trap UserStore TrapSpec SysSpec MemInit UserLib UserSpec ForkSpec UserStack DupPage ForkLoop.

Section fork.
Context (cpunum e : Z) (cons_getc : K Z) (rcr2 eflags : Z) (uregs : Trapframe).
Context (others : stop → kst → option kst).
Context (base : Z → Z) (kp : Z).
Context (Hif : flag eflags FL_IF = false) (Hcs : Z.land (tf_cs uregs) 3 = 3).
Notation user_runs := (user_runs cpunum e base kp).
Notation update_call := (update_call cpunum e base kp).
Notation page_call := (page_call cpunum e base kp).
Notation calling := (calling cpunum e uregs).

(** ** The calls on the child *)

Lemma usys_set_upcall_run live fe l k envid x func :
  user_runs live fe l k → target k e envid = Some x → id_range envid →
  ∃ k', usys_env_set_pgfault_upcall cpunum e cons_getc rcr2 eflags uregs others envid func k = (Ret 0, k') ∧
    update_call live fe l x (λ v, with_upcall v func)
      (envs (calling SYS_env_set_pgfault_upcall (u32 envid) func 0 0 0 k) x) k k'.
Proof using Hif Hcs.
  intros Hu Ht Hr. set (kc := calling SYS_env_set_pgfault_upcall (u32 envid) func 0 0 0 k).
  assert (∀ y, env_kept (envs k y) (envs kc y)) as Kc by (intros y; apply calling_env).
  pose proof (us_inv _ _ _ _ _ _ _ _ Hu) as Hi. pose proof (us_live _ _ _ _ _ _ _ _ Hu) as He.
  pose proof (target_live base kp live fe l k e Hi He envid x Ht) as Hx.
  assert (syscall cpunum cons_getc SYS_env_set_pgfault_upcall (u32 envid) func 0 0 0 kc =
          (Ret 0, upd_env x (λ v, with_upcall v func) kc)) as Es.
  { change (sys_env_set_pgfault_upcall cpunum (s32 (u32 envid)) func kc =
            (Ret 0, upd_env x (λ v, with_upcall v func) kc)).
    unfold id_range in Hr. rewrite s32_u32, s32_small by lia. unfold sys_env_set_pgfault_upcall.
    rewrite (with_env_run cpunum kc e (calling_cur _ _ _ _ _ _ _ _ _ _)), (kept_target _ _ _ _ Kc), Ht. reflexivity. }
  destruct (int_update cpunum e cons_getc rcr2 eflags uregs others base kp Hif Hcs _ _ _ _ _ _ live fe l k x _ Hu Hx Es)
    as (k' & E & U); [reflexivity|reflexivity| | |].
  - change (ENV_DYING ≤ env_status (envs kc x) ≤ ENV_NOT_RUNNABLE).
    rewrite (kp_status _ _ (Kc x)). exact (ke_status _ _ _ _ _ _ Hi x Hx).
  - intros ->. change (env_status (envs kc e) = ENV_RUNNING). rewrite (kp_status _ _ (Kc e)).
    exact (us_status _ _ _ _ _ _ _ _ Hu).
  - exists k'. split; [|exact U]. unfold usys_env_set_pgfault_upcall.
    by rewrite (usyscall_ok cpunum e cons_getc rcr2 eflags uregs others _ true _ _ _ _ _ k _ k' E).
Qed.

Lemma usys_set_runnable_run live fe l k envid x :
  user_runs live fe l k → target k e envid = Some x → x ≠ e → id_range envid →
  ∃ k', usys_env_set_status cpunum e cons_getc rcr2 eflags uregs others envid ENV_RUNNABLE k = (Ret 0, k') ∧
    update_call live fe l x (λ v, with_status v ENV_RUNNABLE)
      (envs (calling SYS_env_set_status (u32 envid) (u32 ENV_RUNNABLE) 0 0 0 k) x) k k'.
Proof using Hif Hcs.
  intros Hu Ht Hxe Hr. set (kc := calling SYS_env_set_status (u32 envid) (u32 ENV_RUNNABLE) 0 0 0 k).
  assert (∀ y, env_kept (envs k y) (envs kc y)) as Kc by (intros y; apply calling_env).
  pose proof (us_inv _ _ _ _ _ _ _ _ Hu) as Hi. pose proof (us_live _ _ _ _ _ _ _ _ Hu) as He.
  pose proof (target_live base kp live fe l k e Hi He envid x Ht) as Hx.
  assert (syscall cpunum cons_getc SYS_env_set_status (u32 envid) (u32 ENV_RUNNABLE) 0 0 0 kc =
          (Ret 0, upd_env x (λ v, with_status v ENV_RUNNABLE) kc)) as Es.
  { change (sys_env_set_status cpunum (s32 (u32 envid)) ENV_RUNNABLE kc =
            (Ret 0, upd_env x (λ v, with_status v ENV_RUNNABLE) kc)).
    unfold id_range in Hr. rewrite s32_u32, s32_small by lia. unfold sys_env_set_status.
    change (negb (ENV_RUNNABLE =? ENV_RUNNABLE) && negb (ENV_RUNNABLE =? ENV_NOT_RUNNABLE)) with false. cbv beta iota.
    rewrite (with_env_run cpunum kc e (calling_cur _ _ _ _ _ _ _ _ _ _)), (kept_target _ _ _ _ Kc), Ht. reflexivity. }
  destruct (int_update cpunum e cons_getc rcr2 eflags uregs others base kp Hif Hcs _ _ _ _ _ _ live fe l k x _ Hu Hx Es)
    as (k' & E & U); [reflexivity|reflexivity| |done|].
  - cbn. unfold ENV_DYING, ENV_RUNNABLE, ENV_NOT_RUNNABLE. lia.
  - exists k'. split; [|exact U]. unfold usys_env_set_status.
    by rewrite (usyscall_ok cpunum e cons_getc rcr2 eflags uregs others _ true _ _ _ _ _ k _ k' E).
Qed.

(** ** sys_exofork *)

(** The child [c], with directory page [p], as it leaves [sys_exofork]. *)
Record child_made (live : list Z) (c p : Z) (k k' : kst) : Prop := {
  ch_dir : dirof k' c = p;
  ch_empty : ∀ v, 0 ≤ v < UTOP → lookup_pte (phys (k_mm k')) p v = None;
  ch_self : tgt (phys (k_mm k')) (slot p (PDX UVPT)) = Some p;
  ch_id : 0 < env_id (envs k' c) < 2147483648 ∧ ENVX (env_id (envs k' c)) = c;
  ch_parent : env_parent_id (envs k' c) = env_id (envs k e);
  ch_status : env_status (envs k' c) = ENV_NOT_RUNNABLE;
  ch_lookup : ∀ y v, y ∈ live → 0 ≤ v < UTOP →
    lookup_pte (phys (k_mm k')) (dirof k y) v = lookup_pte (phys (k_mm k)) (dirof k y) v;
  ch_data : ∀ a, a / 4096 ≠ p → load8 (phys (k_mm k')) a = load8 (phys (k_mm k)) a;
  ch_refs : ∀ q, pp_ref (pages (k_mm k') q) ≤ Z.max 1 (pp_ref (pages (k_mm k) q));
  ch_globals : same_globals (k_mm k) (k_mm k');
  ch_envs : ∀ y, y ∈ live → env_kept (envs k y) (envs k' y);
  ch_tf : ∀ y, y ∈ live → y ≠ e → env_tf (envs k' y) = env_tf (envs k y);
  ch_regs : let r := tf_regs uregs in
    env_tf (envs k' c) = tf_set_eax 0 (syscall_frame uregs SYS_exofork (reg_edx r) (reg_ecx r) (reg_ebx r) (reg_edi r) (reg_esi r));
}.

Lemma usys_exofork_run live c fe p l k :
  user_runs live (c :: fe) (p :: l) k →
  ∃ k', usys_exofork cpunum e cons_getc rcr2 eflags uregs others k = (Ret (env_id (envs k' c)), k') ∧
    user_runs (c :: live) fe l k' ∧ child_made live c p k k' ∧ c ∉ live.
Proof using Hif Hcs.
  intros Hu. set (r := tf_regs uregs).
  set (kc := calling SYS_exofork (reg_edx r) (reg_ecx r) (reg_ebx r) (reg_edi r) (reg_esi r) k).
  pose proof (calling_inv cpunum e uregs base kp SYS_exofork (reg_edx r) (reg_ecx r) (reg_ebx r) (reg_edi r) (reg_esi r)
    live (c :: fe) (p :: l) k Hu) as Hc. fold kc in Hc.
  pose proof (us_live _ _ _ _ _ _ _ _ Hu) as He.
  assert (∀ y, env_kept (envs k y) (envs kc y)) as Kc by (intros y; apply calling_env).
  assert (∀ y, dirof kc y = dirof k y) as Edc by (intros y; by apply kept_dirof).
  assert (c ∉ live) as Hcl.
  { intros Hin. apply (ke_disj _ _ _ _ _ _ Hc c Hin). left. }
  assert (c ≠ e) as Hce by (intros ->; by apply Hcl).
  pose proof (sys_exofork_run cpunum base kp live (c :: fe) (p :: l) kc e Hc (calling_cur _ _ _ _ _ _ _ _ _ _) He) as HR.
  cbv zeta in HR. destruct HR as (k1 & E & H1 & Ee & X).
  assert (∀ y, y ≠ c → envs k1 y = envs kc y) as Eo by (intros y Hy; by rewrite Ee, upd_other by congruence).
  assert (∀ y, y ∈ live → dirof k1 y = dirof k y) as Ed1.
  { intros y Hy. rewrite <- Edc. unfold dirof. rewrite Eo; [done|]. intros ->. by apply Hcl. }
  assert (dirof k1 c = p) as Edp by (apply dirof_kva; by rewrite Ee, upd_same).
  pose proof (ke_id _ _ _ _ _ _ H1 c ltac:(left)) as Hid.
  pose proof (ki_free _ _ _ _ p (ke_mm _ _ _ _ _ _ (us_inv _ _ _ _ _ _ _ _ Hu)) ltac:(left)) as [_ Hpr].
  apply not_in_refs in Hpr.
  assert (∀ y, y ∈ live → dirof k y ≠ p) as Hdp.
  { intros y Hy Eq. apply Hpr, elem_of_app. left. rewrite <- Eq. by apply ke_dir. }
  destruct (int_run cpunum e cons_getc rcr2 eflags uregs others base kp Hif Hcs SYS_exofork
    (reg_edx r) (reg_ecx r) (reg_ebx r) (reg_edi r) (reg_esi r) live (c :: fe) (p :: l) k (c :: live) fe l k1 _ Hu E H1)
    as (k' & E' & Hu' & Eph & Epg & G & Kk & T).
  - intros y Hy. by right.
  - exact (ex_cpus _ _ _ _ _ X).
  - exact (ex_lock _ _ _ _ _ X).
  - rewrite Eo by congruence. rewrite (kp_status _ _ (Kc e)). exact (us_status _ _ _ _ _ _ _ _ Hu).
  - rewrite Ed1 by exact He. pose proof (us_self _ _ _ _ _ _ _ _ Hu) as Hs. unfold tgt in *.
    rewrite (load32_same_page (phys (k_mm k)) (phys (k_mm k1))); [exact Hs|change (PDX UVPT) with 957; lia|].
    intros a Ha. rewrite (ex_data _ _ _ _ _ X); [done|]. rewrite Ha. by apply Hdp.
  - exists k'. rewrite s32_small in E' by (clear -Hid; lia). rewrite <- (kp_id _ _ (Kk c)) in E'.
    refine (conj E' (conj Hu' (conj _ Hcl))). split.
    + rewrite <- Edp. by apply kept_dirof.
    + intros v Hv. rewrite Eph. exact (exoforked_empty kp live p kc k1 v X (PDX_user v Hv)).
    + rewrite Eph. unfold tgt. rewrite (ex_slots _ _ _ _ _ X) by (change (PDX UVPT) with 957; lia).
      unfold setup_pde. change (PDX UVPT) with 957. unfold UPDX. rewrite decide_False, decide_True by done || lia.
      rewrite <- (Z.add_0_r (p * 4096)). pose proof (ki_dir _ _ _ _ _ (ke_mm _ _ _ _ _ _ H1) (ke_dir (c :: live) k1 c ltac:(left))) as Hpn.
      rewrite Edp in Hpn. rewrite Z.add_0_r.
      change (Z.lor PTE_P PTE_U) with 5. rewrite flag_page by (unfold PTE_P; lia). change (flag 5 PTE_P) with true.
      cbv iota. f_equal. lia.
    + rewrite (kp_id _ _ (Kk c)). exact Hid.
    + rewrite (kp_parent _ _ (Kk c)), Ee, upd_same. cbn. exact (kp_id _ _ (Kc e)).
    + rewrite (kp_status _ _ (Kk c)), Ee, upd_same. reflexivity.
    + intros y v Hy Hv. rewrite Eph, <- (Edc y).
      apply (ex_lookup _ _ _ _ _ X); [by apply ke_dir|by apply PDX_user].
    + intros a Ha. rewrite Eph. exact (ex_data _ _ _ _ _ X a Ha).
    + intros q. rewrite Epg. exact (ex_refs _ _ _ _ _ X q).
    + etransitivity; [exact (ex_globals _ _ _ _ _ X)|exact G].
    + intros y Hy. assert (y ≠ c) as Hyc by (intros ->; by apply Hcl).
      etransitivity; [exact (Kc y)|]. rewrite <- (Eo y Hyc). apply Kk.
    + intros y Hy Hye. assert (y ≠ c) as Hyc by (intros ->; by apply Hcl).
      rewrite (T y Hye), (Eo y Hyc). f_equal. by apply calling_env.
    + cbv zeta. rewrite (T c Hce), Ee, upd_same. cbn [env_tf with_tf]. f_equal. apply entered_tf.
Qed.

(** ** set_pgfault_handler *)

Context (a_pgfault_handler a_pgfault_upcall a_pgfault : Z).
Notation handler_call := (set_pgfault_handler cpunum e cons_getc rcr2 eflags uregs others a_pgfault_handler a_pgfault_upcall a_pgfault).
Notation UX := (UXSTACKTOP - PGSIZE).

(** The variable [_pgfault_handler] is in a page [q] the program may write. *)
Record handler_var (q : Z) (k : kst) : Prop := {
  hv_range : 0 ≤ a_pgfault_handler < USTACKTOP;
  hv_word : a_pgfault_handler mod 4096 + 4 ≤ 4096;
  hv_map : writable (phys (k_mm k)) (dirof k e) a_pgfault_handler q;
}.
Notation pa q := (q * 4096 + a_pgfault_handler mod 4096).

(** [_pgfault_upcall] and the exception stack are in place after [k1]; at most the
    exception stack is new, on a page that was free. *)
Record registered (live : list Z) (k k1 : kst) : Prop := {
  rg_lookup : ∀ y v, y ∈ live → 0 ≤ v < UTOP → (y = e → v / 4096 ≠ UX / 4096) →
    lookup_pte (phys (k_mm k1)) (dirof k y) v = lookup_pte (phys (k_mm k)) (dirof k y) v;
  rg_data : ∀ y v pte a, y ∈ live → 0 ≤ v < UTOP →
    lookup_pte (phys (k_mm k)) (dirof k y) v = Some pte → a / 4096 = pte / 4096 →
    load8 (phys (k_mm k1)) a = load8 (phys (k_mm k)) a;
  rg_refs : ∀ p, pp_ref (pages (k_mm k1) p) ≤ Z.max 1 (pp_ref (pages (k_mm k) p) + 1);
  rg_globals : same_globals (k_mm k) (k_mm k1);
  rg_dirof : ∀ y, dirof k1 y = dirof k y;
  rg_envs : ∀ y, y ≠ e → env_kept (envs k y) (envs k1 y) ∧ env_tf (envs k1 y) = env_tf (envs k y);
  rg_self : env_id (envs k1 e) = env_id (envs k e);
  rg_upcall : env_pgfault_upcall (envs k1 e) = a_pgfault_upcall;
  rg_stack : ∃ pte, lookup_pte (phys (k_mm k1)) (dirof k e) UX = Some pte ∧
    Z.land pte (Z.lor PTE_U PTE_W) = Z.lor PTE_U PTE_W ∧
    (lookup_pte (phys (k_mm k)) (dirof k e) UX = Some pte ∨
     ∀ y v pte', y ∈ live → 0 ≤ v < UTOP →
       lookup_pte (phys (k_mm k)) (dirof k y) v = Some pte' → pte' / 4096 ≠ pte / 4096);
}.

(** After the call the variable is set as well. *)
Record handler_set (live : list Z) (q : Z) (k k' : kst) : Prop := {
  hs_word : load32 (phys (k_mm k')) (pa q) = u32 a_pgfault;
  hs_rest : ∃ k1, registered live k k1 ∧ k' = with_phys (phys (k_mm k')) k1 ∧
    (∀ y v, y ∈ live → 0 ≤ v < UTOP →
      lookup_pte (phys (k_mm k')) (dirof k y) v = lookup_pte (phys (k_mm k1)) (dirof k y) v) ∧
    ∀ a, ¬ (pa q ≤ a < pa q + 4) → load8 (phys (k_mm k')) a = load8 (phys (k_mm k1)) a;
}.

(** If a handler is registered, so are the entry point and the exception stack. *)
Definition registered_before (q : Z) (k : kst) : Prop :=
  load32 (phys (k_mm k)) (pa q) ≠ 0 →
  env_pgfault_upcall (envs k e) = a_pgfault_upcall ∧
  ∃ pte, lookup_pte (phys (k_mm k)) (dirof k e) UX = Some pte ∧ Z.land pte (Z.lor PTE_U PTE_W) = Z.lor PTE_U PTE_W.

Lemma user_bits p : Z.land (p * 4096 + 7) (Z.lor PTE_U PTE_W) = Z.lor PTE_U PTE_W.
Proof.
  rewrite land_low12 by (vm_compute; split; [discriminate|done]). replace ((p * 4096 + 7) mod 4096) with 7 by lia. done.
Qed.

Lemma hv_utop q k : handler_var q k → 0 ≤ a_pgfault_handler < UTOP.
Proof. intros [Hr _ _]. change USTACKTOP with 0xEEBFE000 in Hr. change UTOP with 0xEEC00000. lia. Qed.

Lemma store_handler live fe l q k : user_runs live fe l k → handler_var q k →
  let m' := store32 (phys (k_mm k)) (pa q) a_pgfault in
  vstore32 cpunum a_pgfault_handler a_pgfault k = (Ret tt, with_phys m' k) ∧
  user_runs live fe l (with_phys m' k) ∧
  (∀ y v, y ∈ live → 0 ≤ v < UTOP → lookup_pte m' (dirof k y) v = lookup_pte (phys (k_mm k)) (dirof k y) v).
Proof.
  intros Hu Hv m'. pose proof (hv_utop q k Hv) as Hr. destruct Hv as [_ Hw Hm].
  pose proof (us_live _ _ _ _ _ _ _ _ Hu) as He.
  assert (user_page cpunum base kp live fe l e q k a_pgfault_handler) as Hp by (split; [apply Hu|apply Hu|exact Hm]).
  destruct (vstore32_run cpunum base kp live fe l e q He k a_pgfault_handler a_pgfault Hp) as [E _];
    [lia|exact Hw|lia|].
  destruct (user_runs_with_phys cpunum e others base kp live fe l k q a_pgfault_handler m' Hu Hp (PDX_user _ Hr)) as [Hu' Hl].
  { intros a Ha. apply store32_elsewhere. clear -Ha Hw. lia. }
  refine (conj E (conj Hu' _)). intros y v Hy Hv. by apply Hl; [|apply PDX_user].
Qed.

Lemma handler_again live fe l q k : user_runs live fe l k → handler_var q k →
  vload32 cpunum a_pgfault_handler k = (Ret (load32 (phys (k_mm k)) (pa q)), k).
Proof.
  intros Hu [Hr Hw (pte & Hl & _ & <-)]. change USTACKTOP with 0xEEBFE000 in Hr.
  apply vload32_run; [lia..|]. intros j Hj. rewrite (us_cr3 _ _ _ _ _ _ _ _ Hu).
  rewrite (vtrans_read (phys (k_mm k)) (dirof k e) (a_pgfault_handler + j) pte).
  - f_equal. lia.
  - change KERNBASE with 0xF0000000. lia.
  - rewrite <- Hl. apply lookup_pte_page. rewrite !u32_small by lia. lia.
Qed.

(** What the two calls of a first registration do. *)
Lemma first_handler live fe p p2 l q k : user_runs live fe (p :: p2 :: l) k → handler_var q k →
  ∃ k1 k2 l',
    usys_page_alloc cpunum e cons_getc rcr2 eflags uregs others 0 UX 7 k = (Ret 0, k1) ∧
    usys_env_set_pgfault_upcall cpunum e cons_getc rcr2 eflags uregs others 0 a_pgfault_upcall k1 = (Ret 0, k2) ∧
    user_runs live fe l' k2 ∧ handler_var q k2 ∧
    Z.of_nat (length l) ≤ Z.of_nat (length l') ∧ registered live k k2.
Proof using Hif Hcs.
  intros Hu Hv. pose proof (us_live _ _ _ _ _ _ _ _ Hu) as He. pose proof (hv_utop q k Hv) as Hr.
  assert (id_range 0) as H0 by (unfold id_range; lia).
  destruct (usys_page_alloc_run cpunum e cons_getc rcr2 eflags uregs others base kp Hif Hcs live fe p (p2 :: l) k 0 e
    UX 7 Hu (target_self e k) H0 ltac:(vm_compute; split; [discriminate|reflexivity]) eq_refl eq_refl ltac:(by left))
    as (k1 & l1 & E1 & P1 & _ & C1).
  pose proof (pg_runs _ _ _ _ _ _ _ _ _ _ _ _ _ P1) as Hu1.
  destruct (usys_set_upcall_run live fe l1 k1 0 e a_pgfault_upcall Hu1 (target_self e k1) H0) as (k2 & E2 & U2).
  assert (∀ y, dirof k1 y = dirof k y) as D1 by (intros y; exact (page_call_dirof _ _ _ _ _ _ _ _ _ _ _ _ _ y P1)).
  pose proof (uc_new _ _ _ _ _ _ _ _ _ _ _ _ U2) as [Ke _].
  assert (∀ y, dirof k2 y = dirof k y) as D2.
  { intros y. rewrite <- D1. destruct (decide (y = e)) as [->|Hy].
    - unfold dirof. rewrite (kp_pgdir _ _ Ke). cbn [env_pgdir with_upcall].
      by rewrite (kp_pgdir _ _ (proj1 (calling_env _ _ _ _ _ _ _ _ _ k1 e))).
    - apply kept_dirof. exact (uc_envs _ _ _ _ _ _ _ _ _ _ _ _ U2 y Hy). }
  assert (∀ y v, y ∈ live → 0 ≤ v < UTOP → (y = e → v / 4096 ≠ UX / 4096) →
    lookup_pte (phys (k_mm k2)) (dirof k y) v = lookup_pte (phys (k_mm k)) (dirof k y) v) as L2.
  { intros y v Hy Hv' Hn. rewrite (uc_phys _ _ _ _ _ _ _ _ _ _ _ _ U2).
    apply (page_call_lookup _ _ _ _ _ _ _ _ _ _ _ _ _ y v P1 Hy (PDX_user v Hv')).
    intros [Ed Ep]%same_slot_page; [|by vm_compute|by apply UTOP_range].
    apply (ke_dir_inj _ _ _ _ _ _ (us_inv _ _ _ _ _ _ _ _ Hu)) in Ed; [|assumption..]. by apply Hn. }
  exists k1, k2, l1. refine (conj E1 (conj E2 (conj (uc_runs _ _ _ _ _ _ _ _ _ _ _ _ U2) (conj _ (conj _ _))))).
  - destruct Hv as [Hv1 Hv2 (pte & Hl & Hw)]. split; [exact Hv1|exact Hv2|]. exists pte. split; [|exact Hw].
    rewrite D2, (L2 e _ He Hr); [exact Hl|]. intros _. change (UX / 4096) with 0xEEBFF.
    change USTACKTOP with 0xEEBFE000 in Hv1. clear -Hv1. lia.
  - pose proof (pc_len _ _ _ _ _ _ _ _ C1) as Hc. unfold needs in Hc. cbn [length] in Hc. case_match; lia.
  - split.
    + exact L2.
    + intros y v pte a Hy Hv' Hl Ea. rewrite (uc_phys _ _ _ _ _ _ _ _ _ _ _ _ U2).
      exact (page_call_data _ _ _ _ _ _ _ _ _ _ _ _ _ y v pte a Hu P1 Hy (PDX_user v Hv') Hl Ea).
    + intros x. rewrite (uc_pages _ _ _ _ _ _ _ _ _ _ _ _ U2). pose proof (pc_refs _ _ _ _ _ _ _ _ C1 x) as Hx.
      revert Hx. clear. case_decide; lia.
    + etransitivity; [exact (pf_globals _ _ _ _ _ _ (pg_frame _ _ _ _ _ _ _ _ _ _ _ _ _ P1))|].
      exact (uc_globals _ _ _ _ _ _ _ _ _ _ _ _ U2).
    + exact D2.
    + intros y Hy. split.
      * etransitivity; [exact (pg_envs _ _ _ _ _ _ _ _ _ _ _ _ _ P1 y)|exact (uc_envs _ _ _ _ _ _ _ _ _ _ _ _ U2 y Hy)].
      * rewrite (uc_tf _ _ _ _ _ _ _ _ _ _ _ _ U2 y Hy Hy). exact (pg_tf _ _ _ _ _ _ _ _ _ _ _ _ _ P1 y Hy).
    + rewrite (kp_id _ _ Ke). cbn [env_id with_upcall].
      rewrite (kp_id _ _ (proj1 (calling_env _ _ _ _ _ _ _ _ _ k1 e))).
      exact (kp_id _ _ (pg_envs _ _ _ _ _ _ _ _ _ _ _ _ _ P1 e)).
    + exact (kp_upcall _ _ Ke).
    + exists (p * 4096 + 7). rewrite (uc_phys _ _ _ _ _ _ _ _ _ _ _ _ U2).
      split; [exact (pg_new _ _ _ _ _ _ _ _ _ _ _ _ _ P1)|]. split; [apply user_bits|]. right.
      intros y v pte' Hy Hv' Hl Ep.
      destruct (mapped_page base kp live fe _ k y v pte' (us_inv _ _ _ _ _ _ _ _ Hu) Hy (PDX_user v Hv') Hl) as (_ & Hnl & _).
      apply Hnl. replace (pte' / 4096) with p by (clear -Ep; lia). left.
Qed.

Lemma registered_refl live q k : registered_before q k → load32 (phys (k_mm k)) (pa q) ≠ 0 → registered live k k.
Proof.
  intros H Hh. destruct (H Hh) as (Eu & pte & Hl & Hp). split; try done.
  - intros x. lia.
  - exists pte. split_and!; [exact Hl|exact Hp|by left].
Qed.

(** The store to the variable. *)
Lemma handler_stored live fe l q k k1 :
  user_runs live fe l k1 → handler_var q k1 → registered live k k1 →
  ∃ k', vstore32 cpunum a_pgfault_handler a_pgfault k1 = (Ret tt, k') ∧ user_runs live fe l k' ∧
    handler_var q k' ∧ handler_set live q k k'.
Proof.
  intros Hu1 Hv1 R. destruct (store_handler live fe l q k1 Hu1 Hv1) as (E & Hu' & Hl'). eexists.
  refine (conj E (conj Hu' (conj _ _))).
  - pose proof (hv_utop q k1 Hv1) as Hr. destruct Hv1 as [Hv1 Hv2 (pte & Hl & Hw)].
    split; [exact Hv1|exact Hv2|]. exists pte. split; [|exact Hw].
    change (lookup_pte (store32 (phys (k_mm k1)) (pa q) a_pgfault) (dirof k1 e) a_pgfault_handler = Some pte).
    rewrite Hl'; [exact Hl|exact (us_live _ _ _ _ _ _ _ _ Hu1)|exact Hr].
  - split; [apply load32_store32_same|]. exists k1. split; [exact R|]. split; [done|]. split.
    + intros y v Hy Hv. rewrite <- (rg_dirof _ _ _ R y). by apply Hl'.
    + intros a Ha. by apply store32_elsewhere.
Qed.

(** What the state after it says of the state before. *)
Section set.
Context (live : list Z) (q : Z) (k k' : kst) (H : handler_set live q k k').

Lemma hs_lookup y v : y ∈ live → 0 ≤ v < UTOP → (y = e → v / 4096 ≠ UX / 4096) →
  lookup_pte (phys (k_mm k')) (dirof k y) v = lookup_pte (phys (k_mm k)) (dirof k y) v.
Proof using H.
  intros Hy Hv Hn. destruct (hs_rest _ _ _ _ H) as (k1 & R & _ & L & _). rewrite (L y v Hy Hv).
  exact (rg_lookup _ _ _ R y v Hy Hv Hn).
Qed.
Lemma hs_data y v pte a : y ∈ live → 0 ≤ v < UTOP →
  lookup_pte (phys (k_mm k)) (dirof k y) v = Some pte → a / 4096 = pte / 4096 → ¬ (pa q ≤ a < pa q + 4) →
  load8 (phys (k_mm k')) a = load8 (phys (k_mm k)) a.
Proof using H.
  intros Hy Hv Hl Ea Ha. destruct (hs_rest _ _ _ _ H) as (k1 & R & _ & _ & M). rewrite (M a Ha).
  exact (rg_data _ _ _ R y v pte a Hy Hv Hl Ea).
Qed.
Lemma hs_state : (∀ p, pp_ref (pages (k_mm k') p) ≤ Z.max 1 (pp_ref (pages (k_mm k) p) + 1)) ∧
  same_globals (k_mm k) (k_mm k') ∧ (∀ y, dirof k' y = dirof k y) ∧
  (∀ y, y ≠ e → env_kept (envs k y) (envs k' y) ∧ env_tf (envs k' y) = env_tf (envs k y)) ∧
  env_id (envs k' e) = env_id (envs k e) ∧ env_pgfault_upcall (envs k' e) = a_pgfault_upcall.
Proof using H.
  destruct (hs_rest _ _ _ _ H) as (k1 & [] & -> & _). by split_and!.
Qed.
Lemma hs_stack : 0 ≤ UX < UTOP → e ∈ live → ∃ pte, lookup_pte (phys (k_mm k')) (dirof k e) UX = Some pte ∧
  Z.land pte (Z.lor PTE_U PTE_W) = Z.lor PTE_U PTE_W ∧
  (lookup_pte (phys (k_mm k)) (dirof k e) UX = Some pte ∨
   ∀ y v pte', y ∈ live → 0 ≤ v < UTOP →
     lookup_pte (phys (k_mm k)) (dirof k y) v = Some pte' → pte' / 4096 ≠ pte / 4096).
Proof using H.
  intros HUX He. destruct (hs_rest _ _ _ _ H) as (k1 & R & _ & L & _).
  destruct (rg_stack _ _ _ R) as (pte & Hl & Hr). exists pte. by rewrite (L e UX He HUX).
Qed.
End set.

Lemma set_pgfault_handler_run live fe l q k :
  user_runs live fe l k → handler_var q k → registered_before q k → (2 ≤ length l)%nat →
  ∃ k' l', handler_call k = (Ret tt, k') ∧ user_runs live fe l' k' ∧ handler_var q k' ∧
    handler_set live q k k' ∧ Z.of_nat (length l) ≤ Z.of_nat (length l') + 2.
Proof using Hif Hcs.
  intros Hu Hv Hrb Hlen. unfold set_pgfault_handler. rewrite run_bind, (handler_again live fe l q k Hu Hv). cbv beta iota.
  destruct (Z.eqb_spec (load32 (phys (k_mm k)) (pa q)) 0) as [Hh|Hh].
  - destruct l as [|p [|p2 l]]; [simpl in Hlen; lia..|].
    destruct (first_handler live fe p p2 l q k Hu Hv) as (k1 & k2 & l' & E1 & E2 & Hu2 & Hv2 & Hl2 & R).
    destruct (handler_stored live fe l' q k k2 Hu2 Hv2 R) as (k' & E & Hu' & Hv' & Hs).
    exists k', l'. refine (conj _ (conj Hu' (conj Hv' (conj Hs _)))); [|cbn [length]; lia].
    change (Z.lor (Z.lor PTE_U PTE_W) PTE_P) with 7. rewrite run_bind, run_bind, E1. cbv beta iota.
    change (0 <? 0) with false. cbv beta iota. rewrite run_bind, run_ret, run_bind, E2. cbv beta iota.
    rewrite run_ret. exact E.
  - destruct (handler_stored live fe l q k k Hu Hv (registered_refl live q k Hrb Hh)) as (k' & E & Hu' & Hv' & Hs).
    exists k', l. refine (conj _ (conj Hu' (conj Hv' (conj Hs _)))); [|lia].
    rewrite run_bind, run_ret. exact E.
Qed.

End fork.
