(* ===== verification/ForkRun.v ===== *)
(** * fork, from its call to its return

    What [fork] expects of the state it is called in, the three calls that make
    the child runnable, and the whole run: the parent's pages shared, the page
    of its stack replaced at the first call after the loop. *)
From S2P Require Import Prelude Monad Word Layout Mem CString PageAlloc PageTable PageInv PageOps PageDirs Seg KState Env EnvMem KInv EnvSpec Sched SchedSpec UserMem Syscall Trap UserStore TrapSpec SysSpec MemInit UserLib UserSpec ForkSpec UserStack DupPage ForkLoop ForkThm.

Section fork.
Context (cpunum e : Z) (cons_getc : K Z) (rcr2 eflags : Z) (uregs : Trapframe).
Context (others : stop → kst → option kst).
Context (base : Z → Z) (kp : Z).
Context (Hif : flag eflags FL_IF = false) (Hcs : Z.land (tf_cs uregs) 3 = 3).
Context (a_pgfault_handler a_pgfault_upcall a_pgfault top : Z) (Htop : USTACKPAGE < top ≤ USTACKTOP).
Context (push : nat → K ()) (SP : StackPush cpunum e base kp a_pgfault_handler a_pgfault_upcall a_pgfault top push).
Notation user_runs := (user_runs cpunum e base kp).
Notation page_call := (page_call cpunum e base kp).
Notation update_call := (update_call cpunum e base kp).
Notation handler_var := (handler_var e a_pgfault_handler).
Notation registered := (registered e a_pgfault_upcall).
Notation registered_before := (registered_before e a_pgfault_handler a_pgfault_upcall).
Notation handler_set := (handler_set e a_pgfault_handler a_pgfault_upcall a_pgfault).
Notation child_made := (child_made e uregs).
Notation fault_ready := (fault_ready e a_pgfault_handler a_pgfault_upcall a_pgfault).
Notation unshared := (unshared cpunum e base kp top).
Notation below := (below top).
Notation pushed := (pushed top).
Notation UX := (UXSTACKTOP - PGSIZE).
Notation pa q := (q * 4096 + a_pgfault_handler mod 4096).
Notation exec f := (f cpunum e cons_getc rcr2 eflags uregs others).
Notation fork_page := (fork_page cpunum e cons_getc rcr2 eflags uregs others push).

(** ** Before *)

(** The state in which [fork] is called: the handler variable on page [q], the
    stack on page [s], both writable, the exception stack, if there is one, on a
    page of its own; the scratch page of the handler is not in use. *)
Record fork_ready (q s : Z) (k : kst) : Prop := {
  fo_handler : handler_var q k;
  fo_registered : registered_before q k;
  fo_stack : ∃ pte, lookup_pte (phys (k_mm k)) (dirof k e) USTACKPAGE = Some pte ∧
    flag pte PTE_W = true ∧ flag pte PTE_U = true ∧ flag pte PTE_SHARE = false ∧ pte / 4096 = s;
  fo_apart : q ≠ s ∧ ∀ ux, lookup_pte (phys (k_mm k)) (dirof k e) UX = Some ux → ux / 4096 ≠ q ∧ ux / 4096 ≠ s;
  fo_temp : lookup_pte (phys (k_mm k)) (dirof k e) PFTEMP = None;
}.

Lemma ready_stack q s k : fork_ready q s k → writable (phys (k_mm k)) (dirof k e) USTACKPAGE s.
Proof. intros [_ _ (pte & Hl & Hw & _ & _ & Es) _ _]. by exists pte. Qed.

Lemma ready_pushed live fe l q s k k' : user_runs live fe l k → fork_ready q s k → pushed s k k' → fork_ready q s k'.
Proof using Htop.
  intros Hu R Q. pose proof (ready_stack q s k R) as Hs. destruct R as [[Hr Hw (hp & Hl & Hf)] Hreg Hst [Hqs Hux] Htemp].
  pose proof (us_live _ _ _ _ _ _ _ _ Hu) as He.
  destruct (pushed_state _ _ _ _ Q) as (_ & _ & Een & _ & D).
  assert (∀ v, 0 ≤ v < UTOP → lookup_pte (phys (k_mm k')) (dirof k' e) v = lookup_pte (phys (k_mm k)) (dirof k e) v) as L.
  { intros v Hv. rewrite D. exact (pushed_lookup _ _ _ _ _ Htop _ _ _ _ _ _ Hu Hs Q e v He (PDX_user v Hv)). }
  assert (load32 (phys (k_mm k')) (pa q) = load32 (phys (k_mm k)) (pa q)) as Eq.
  { apply load32_bytes_eq. intros j Hj. apply (ps_mem _ _ _ _ Q). intros Hb.
    apply (below_page _ Htop) in Hb. clear -Hb Hw Hj Hqs. lia. }
  assert (0 ≤ UX < UTOP) as HUX by (by vm_compute). split.
  - split; [exact Hr|exact Hw|]. exists hp. split; [|exact Hf]. rewrite L; [exact Hl|].
    change USTACKTOP with 0xEEBFE000 in Hr. change UTOP with 0xEEC00000. clear -Hr. lia.
  - intros Hn. rewrite Eq in Hn. destruct (Hreg Hn) as (Eu & ux & Hlx & Hp).
    split; [by rewrite Een|]. exists ux. by rewrite L.
  - destruct Hst as (pte & Hlp & Hf'). exists pte. by rewrite L by (by vm_compute).
  - split; [exact Hqs|]. intros ux Hlx. apply Hux. by rewrite <- L.
  - by rewrite L by (by vm_compute).
Qed.

(** ** The end of fork *)

(** What the calls that make [c] runnable leave alone: everything but the
    exception stack of [c] and the stack below [top], on page [ps]. *)
Record bystander (live : list Z) (c ps : Z) (k k' : kst) : Prop := {
  by_lookup : ∀ y v, y ∈ live → 0 ≤ v < UTOP → (y = c → v / 4096 ≠ UX / 4096) →
    lookup_pte (phys (k_mm k')) (dirof k y) v = lookup_pte (phys (k_mm k)) (dirof k y) v;
  by_data : ∀ y v pte a, y ∈ live → 0 ≤ v < UTOP → (y = c → v / 4096 ≠ UX / 4096) →
    lookup_pte (phys (k_mm k)) (dirof k y) v = Some pte → a / 4096 = pte / 4096 → ¬ below ps a →
    load8 (phys (k_mm k')) a = load8 (phys (k_mm k)) a;
  by_dirof : ∀ y, dirof k' y = dirof k y;
  by_globals : same_globals (k_mm k) (k_mm k');
  by_envs : ∀ y, y ≠ c → env_kept (envs k y) (envs k' y);
  by_tf : ∀ y, y ≠ e → env_tf (envs k' y) = env_tf (envs k y);
  by_id : env_id (envs k' c) = env_id (envs k c) ∧ env_parent_id (envs k' c) = env_parent_id (envs k c);
}.

Lemma bystander_trans live c ps k1 k2 k3 : bystander live c ps k1 k2 → bystander live c ps k2 k3 → bystander live c ps k1 k3.
Proof.
  intros [L1 D1 E1 G1 N1 T1 [I1 J1]] [L2 D2 E2 G2 N2 T2 [I2 J2]]. split.
  - intros y v Hy Hv Hn. rewrite <- (E1 y), (L2 y v Hy Hv Hn), (E1 y). by apply L1.
  - intros y v pte a Hy Hv Hn Hl Ea Hb. rewrite (D2 y v pte a Hy Hv Hn); [|rewrite E1, (L1 y v Hy Hv Hn); exact Hl|exact Ea|exact Hb].
    exact (D1 y v pte a Hy Hv Hn Hl Ea Hb).
  - intros y. by rewrite E2, E1.
  - by transitivity (k_mm k2).
  - intros y Hy. transitivity (envs k2 y); auto.
  - intros y Hy. rewrite (T2 y Hy). auto.
  - split; congruence.
Qed.

Section start.
Context (live fe : list Z) (c envid ps : Z) (Hc : c ∈ live) (Hce : c ≠ e) (Hid : id_range envid).

Lemma bystander_pushed l k k' : user_runs live fe l k → writable (phys (k_mm k)) (dirof k e) USTACKPAGE ps →
  pushed ps k k' → bystander live c ps k k'.
Proof using Htop.
  intros Hu Hs Q. destruct (pushed_state _ _ _ _ Q) as (_ & G & Een & _ & D). split.
  - intros y v Hy Hv _. exact (pushed_lookup _ _ _ _ _ Htop _ _ _ _ _ _ Hu Hs Q y v Hy (PDX_user v Hv)).
  - intros y v pte a _ _ _ _ _ Hb. exact (ps_mem _ _ _ _ Q a Hb).
  - exact D.
  - exact G.
  - intros y _. by rewrite Een.
  - intros y _. by rewrite Een.
  - by rewrite Een.
Qed.

Lemma bystander_alloc l l' new k k' : user_runs live fe l k → page_call live fe l l' c UX new k k' → bystander live c ps k k'.
Proof using Hc.
  intros Hu P. pose proof (us_inv _ _ _ _ _ _ _ _ Hu) as Hi. split.
  - intros y v Hy Hv Hn. apply (page_call_lookup _ _ _ _ _ _ _ _ _ _ _ _ _ y v P Hy (PDX_user v Hv)).
    intros [Ed Ep]%same_slot_page; [|by vm_compute|by apply UTOP_range].
    apply (ke_dir_inj _ _ _ _ _ _ Hi) in Ed; [|assumption..]. by apply Hn.
  - intros y v pte a Hy Hv _ Hl Ea _. exact (page_call_data _ _ _ _ _ _ _ _ _ _ _ _ _ y v pte a Hu P Hy (PDX_user v Hv) Hl Ea).
  - intros y. exact (page_call_dirof _ _ _ _ _ _ _ _ _ _ _ _ _ y P).
  - exact (pf_globals _ _ _ _ _ _ (pg_frame _ _ _ _ _ _ _ _ _ _ _ _ _ P)).
  - intros y _. exact (pg_envs _ _ _ _ _ _ _ _ _ _ _ _ _ P y).
  - exact (pg_tf _ _ _ _ _ _ _ _ _ _ _ _ _ P).
  - destruct (pg_envs _ _ _ _ _ _ _ _ _ _ _ _ _ P c). done.
Qed.

(** A call that updates [c], but not its identifier, parent, directory or registers. *)
Lemma bystander_update l num a1 a2 a3 a4 a5 f k k' :
  update_call live fe l c f (envs (calling cpunum e uregs num a1 a2 a3 a4 a5 k) c) k k' →
  (∀ v, env_id (f v) = env_id v ∧ env_parent_id (f v) = env_parent_id v ∧ env_pgdir (f v) = env_pgdir v ∧
        env_tf (f v) = env_tf v) → bystander live c ps k k'.
Proof using Hce.
  intros U Hf. pose proof (uc_new _ _ _ _ _ _ _ _ _ _ _ _ U) as [[Ka Kb _ _ Kd _ _] T].
  destruct (calling_env cpunum e uregs num a1 a2 a3 a4 a5 k c) as [[Ca Cb _ _ Cd _ _] Ce].
  specialize (Hf (envs (calling cpunum e uregs num a1 a2 a3 a4 a5 k) c)). destruct Hf as (F1 & F2 & F3 & F4).
  pose proof (uc_phys _ _ _ _ _ _ _ _ _ _ _ _ U) as Eph. split.
  - intros y v _ _ _. by rewrite Eph.
  - intros y v pte a _ _ _ _ _ _. by rewrite Eph.
  - intros y. destruct (decide (y = c)) as [->|Hy]; [unfold dirof; by rewrite Kd, F3, Cd|].
    apply kept_dirof. exact (uc_envs _ _ _ _ _ _ _ _ _ _ _ _ U y Hy).
  - exact (uc_globals _ _ _ _ _ _ _ _ _ _ _ _ U).
  - exact (uc_envs _ _ _ _ _ _ _ _ _ _ _ _ U).
  - intros y Hy. destruct (decide (y = c)) as [->|Hyc]; [by rewrite (T Hce), F4, (Ce Hce)|].
    exact (uc_tf _ _ _ _ _ _ _ _ _ _ _ _ U y Hy Hyc).
  - by rewrite Ka, Kb, F1, F2, Ca, Cb.
Qed.

(** The stack stays where it is. *)
Lemma bystander_stack k k' : e ∈ live → bystander live c ps k k' →
  writable (phys (k_mm k)) (dirof k e) USTACKPAGE ps → writable (phys (k_mm k')) (dirof k' e) USTACKPAGE ps.
Proof using Hce.
  intros He B (pte & Hl & Hw). exists pte. split; [|exact Hw]. rewrite (by_dirof _ _ _ _ _ B), <- Hl.
  apply (by_lookup _ _ _ _ _ B); [exact He|by vm_compute|]. intros E. by destruct Hce.
Qed.

(** The child can run. *)
Record started (k k' : kst) : Prop := {
  sd_by : bystander live c ps k k';
  sd_env : env_status (envs k' c) = ENV_RUNNABLE ∧ env_pgfault_upcall (envs k' c) = a_pgfault_upcall;
  sd_stack : ∃ p, lookup_pte (phys (k_mm k')) (dirof k c) UX = Some (p * 4096 + 7) ∧ p ≠ ps ∧
    ∀ a, a / 4096 = p → load8 (phys (k_mm k')) a = 0;
  sd_refs : ∀ q, pp_ref (pages (k_mm k') q) ≤ Z.max 1 (pp_ref (pages (k_mm k) q) + 1);
}.

(** A call that updates the child, with its push. *)
Record child_updated (f : Env → Env) (l : list Z) (k k' : kst) : Prop := {
  cu_runs : user_runs live fe l k';
  cu_by : bystander live c ps k k';
  cu_pages : pages (k_mm k') = pages (k_mm k);
  cu_lookup : ∀ y v, y ∈ live → 0 ≤ v < UTOP →
    lookup_pte (phys (k_mm k')) (dirof k y) v = lookup_pte (phys (k_mm k)) (dirof k y) v;
  cu_mem : ∀ a, ¬ below ps a → load8 (phys (k_mm k')) a = load8 (phys (k_mm k)) a;
  cu_env : ∃ v, env_kept (envs k c) v ∧ env_kept (f v) (envs k' c);
}.

Lemma child_update (m : K Z) f num a1 a2 a3 a4 a5 l k :
  (∀ k0, user_runs live fe l k0 → target k0 e envid = Some c → ∃ k', m k0 = (Ret 0, k') ∧
     update_call live fe l c f (envs (calling cpunum e uregs num a1 a2 a3 a4 a5 k0) c) k0 k') →
  (∀ v, env_id (f v) = env_id v ∧ env_parent_id (f v) = env_parent_id v ∧ env_pgdir (f v) = env_pgdir v ∧
        env_tf (f v) = env_tf v) →
  user_runs live fe l k → writable (phys (k_mm k)) (dirof k e) USTACKPAGE ps → target k e envid = Some c →
  ∃ k', call push 0 m k = (Ret 0, k') ∧ child_updated f l k k'.
Proof using Htop SP Hce.
  intros Hm Hf Hu Hs Ht.
  destruct (call_run cpunum e base kp _ _ _ _ push SP fe ps 0 m live l k Hu Hs) as (k0 & Q & Ec).
  pose proof (pushed_runs _ _ _ _ _ Htop _ _ _ _ _ _ Hu Hs Q) as Hu0.
  destruct (pushed_state _ _ _ _ Q) as (Epg & _ & Een & _ & D).
  destruct (Hm k0 Hu0) as (k' & E & U); [by rewrite (target_ext e k k0) by (intros x; by rewrite Een)|].
  exists k'. split; [by rewrite Ec|]. pose proof (uc_phys _ _ _ _ _ _ _ _ _ _ _ _ U) as Eph. split.
  - exact (uc_runs _ _ _ _ _ _ _ _ _ _ _ _ U).
  - apply (bystander_trans _ _ _ _ k0); [by apply (bystander_pushed l)|]. by apply (bystander_update _ _ _ _ _ _ _ _ _ _ U).
  - by rewrite (uc_pages _ _ _ _ _ _ _ _ _ _ _ _ U).
  - intros y v Hy Hv. rewrite Eph. exact (pushed_lookup _ _ _ _ _ Htop _ _ _ _ _ _ Hu Hs Q y v Hy (PDX_user v Hv)).
  - intros a Ha. rewrite Eph. exact (ps_mem _ _ _ _ Q a Ha).
  - eexists. split; [|exact (proj1 (uc_new _ _ _ _ _ _ _ _ _ _ _ _ U))]. rewrite <- Een. apply calling_env.
Qed.

Lemma start_child p p2 l k :
  user_runs live fe (p :: p2 :: l) k → writable (phys (k_mm k)) (dirof k e) USTACKPAGE ps → target k e envid = Some c →
  ∃ l' k4 k5 k6, exec usys_page_alloc envid UX 7 k = (Ret 0, k4) ∧
    call push 0 (exec usys_env_set_pgfault_upcall envid a_pgfault_upcall) k4 = (Ret 0, k5) ∧
    call push 0 (exec usys_env_set_status envid ENV_RUNNABLE) k5 = (Ret 0, k6) ∧
    user_runs live fe l' k6 ∧ started k k6.
Proof using Hif Hcs Htop SP Hc Hce Hid.
  intros Hu Hs Ht. pose proof (us_live _ _ _ _ _ _ _ _ Hu) as He.
  destruct (usys_page_alloc_run cpunum e cons_getc rcr2 eflags uregs others base kp Hif Hcs live fe p (p2 :: l) k envid c
    UX 7 Hu Ht Hid ltac:(vm_compute; split; [discriminate|reflexivity]) eq_refl eq_refl ltac:(by left))
    as (k4 & l4 & E4 & P4 & Z4 & C4).
  pose proof (pg_runs _ _ _ _ _ _ _ _ _ _ _ _ _ P4) as Hu4. pose proof (bystander_alloc _ _ _ _ _ Hu P4) as B4.
  pose proof (bystander_stack k k4 He B4 Hs) as Hs4.
  assert (target k4 e envid = Some c) as Ht4
    by (rewrite (kept_target e k k4 envid (pg_envs _ _ _ _ _ _ _ _ _ _ _ _ _ P4)); exact Ht).
  destruct (child_update _ _ _ _ _ _ _ _ l4 k4
    (λ k0 H0 H1, usys_set_upcall_run cpunum e cons_getc rcr2 eflags uregs others base kp Hif Hcs live fe l4 k0 envid c
       a_pgfault_upcall H0 H1 Hid) ltac:(by repeat split) Hu4 Hs4 Ht4) as (k5 & E5 & [Hu5 B5 Epg5 L5 M5 (v5 & V5 & W5)]).
  pose proof (bystander_stack k4 k5 He B5 Hs4) as Hs5.
  assert (target k5 e envid = Some c) as Ht5.
  { rewrite (target_ext e k4 k5 envid); [exact Ht4|]. intros y.
    destruct (decide (y = c)) as [->|Hy]; [|by destruct (by_envs _ _ _ _ _ B5 y Hy)].
    destruct W5 as [Ka Kb _ Kc _ _ _]. rewrite Ka, Kb, Kc. cbn [env_id env_status env_parent_id with_upcall]. by destruct V5. }
  destruct (child_update _ _ _ _ _ _ _ _ l4 k5
    (λ k0 H0 H1, usys_set_runnable_run cpunum e cons_getc rcr2 eflags uregs others base kp Hif Hcs live fe l4 k0 envid c
       H0 H1 Hce Hid) ltac:(by repeat split) Hu5 Hs5 Ht5) as (k6 & E6 & [Hu6 B6 Epg6 L6 M6 (v6 & V6 & W6)]).
  exists l4, k4, k5, k6. refine (conj E4 (conj E5 (conj E6 (conj Hu6 _)))).
  assert (p ≠ ps) as Hpp.
  { destruct Hs as (pte & Hl & _ & <-).
    destruct (mapped_page base kp live fe _ k e USTACKPAGE pte (us_inv _ _ _ _ _ _ _ _ Hu) He ltac:(by vm_compute) Hl) as (_ & Hn & _).
    intros ->. apply Hn. left. }
  split.
  - apply (bystander_trans _ _ _ _ k4); [exact B4|]. by apply (bystander_trans _ _ _ _ k5).
  - split; [by rewrite (kp_status _ _ W6)|]. rewrite (kp_upcall _ _ W6). cbn [env_pgfault_upcall with_status].
    rewrite (kp_upcall _ _ V6), (kp_upcall _ _ W5). reflexivity.
  - exists p. assert (0 ≤ UX < UTOP) as HUX by (by vm_compute). split; [|split; [exact Hpp|]].
    + pose proof (L6 c UX Hc HUX) as F6. pose proof (L5 c UX Hc HUX) as F5.
      rewrite (by_dirof _ _ _ _ _ B5) in F6. rewrite (by_dirof _ _ _ _ _ B4) in F5, F6. rewrite F6, F5.
      exact (pg_new _ _ _ _ _ _ _ _ _ _ _ _ _ P4).
    + intros a Ha. assert (¬ below ps a) as Hb by (intros Hb%(below_page _ Htop); congruence).
      rewrite (M6 a Hb), (M5 a Hb). by apply Z4.
  - intros q. rewrite Epg6, Epg5. pose proof (pc_refs _ _ _ _ _ _ _ _ C4 q) as Hq. revert Hq. clear. case_decide; lia.
Qed.
End start.

(** ** Up to the child *)

(** The state [k2] in which the loop starts, seen from the state [k] in which
    [fork] was called: the handler is set, the child [c] exists, and page [u]
    holds the exception stack. *)
Record prepared (live : list Z) (c q s u : Z) (k k2 : kst) : Prop := {
  pr_lookup : ∀ y v, y ∈ live → 0 ≤ v < UTOP → (y = e → v / 4096 ≠ UX / 4096) →
    lookup_pte (phys (k_mm k2)) (dirof k2 y) v = lookup_pte (phys (k_mm k)) (dirof k y) v;
  pr_data : ∀ y v pte a, y ∈ live → 0 ≤ v < UTOP → (y = e → v / 4096 ≠ UX / 4096) →
    lookup_pte (phys (k_mm k)) (dirof k y) v = Some pte → a / 4096 = pte / 4096 →
    ¬ (pa q ≤ a < pa q + 4) → ¬ below s a → load8 (phys (k_mm k2)) a = load8 (phys (k_mm k)) a;
  pr_refs : ∀ p, pp_ref (pages (k_mm k2) p) ≤ Z.max 1 (pp_ref (pages (k_mm k) p) + 1);
  pr_globals : same_globals (k_mm k) (k_mm k2);
  pr_dirof : ∀ y, y ∈ live → dirof k2 y = dirof k y;
  pr_envs : ∀ y, y ∈ live → y ≠ e → env_kept (envs k y) (envs k2 y) ∧ env_tf (envs k2 y) = env_tf (envs k y);
  pr_empty : ∀ v, 0 ≤ v < UTOP → lookup_pte (phys (k_mm k2)) (dirof k2 c) v = None;
  pr_id : 0 < env_id (envs k2 c) < 2147483648 ∧ ENVX (env_id (envs k2 c)) = c;
  pr_parent : env_parent_id (envs k2 c) = env_id (envs k e) ∧ env_id (envs k2 e) = env_id (envs k e);
  pr_status : env_status (envs k2 c) = ENV_NOT_RUNNABLE;
  pr_regs : let r := tf_regs uregs in
    env_tf (envs k2 c) = tf_set_eax 0 (syscall_frame uregs SYS_exofork (reg_edx r) (reg_ecx r) (reg_ebx r) (reg_edi r) (reg_esi r));
  pr_upcall : env_pgfault_upcall (envs k2 e) = a_pgfault_upcall;
  pr_word : load32 (phys (k_mm k2)) (pa q) = u32 a_pgfault;
  pr_stack : ∃ pte, lookup_pte (phys (k_mm k2)) (dirof k2 e) UX = Some pte ∧
    Z.land pte (Z.lor PTE_U PTE_W) = Z.lor PTE_U PTE_W ∧ pte / 4096 = u;
  pr_fresh : ∀ y v pte, y ∈ live → 0 ≤ v < UTOP → lookup_pte (phys (k_mm k)) (dirof k y) v = Some pte →
    (∀ ux, lookup_pte (phys (k_mm k)) (dirof k e) UX = Some ux → pte / 4096 ≠ ux / 4096) → pte / 4096 ≠ u;
}.

Local Lemma UX_user : 0 ≤ UX < UTOP.
Proof. by vm_compute. Qed.

Lemma prepared_chain live fe l l1 c p q s k k0 k1 k2 :
  user_runs live (c :: fe) l k → fork_ready q s k → pushed s k k0 → handler_set live q k0 k1 →
  user_runs live (c :: fe) (p :: l1) k1 → handler_var q k1 → child_made live c p k1 k2 → c ∉ live →
  ∃ u, prepared live c q s u k k2.
Proof using Htop.
  intros Hu R Q H1 Hu1 Hv1 H2 Hcl. pose proof (us_live _ _ _ _ _ _ _ _ Hu) as He.
  pose proof (ready_stack q s k R) as Hs. pose proof (us_inv _ _ _ _ _ _ _ _ Hu1) as Hi1.
  destruct (pushed_state _ _ _ _ Q) as (Epg & G0 & Een & _ & D0).
  destruct (hs_state _ _ _ _ _ _ _ _ H1) as (R1 & G1 & D1 & N1 & I1 & U1).
  assert (∀ y, y ∈ live → dirof k2 y = dirof k1 y) as D2 by (intros y Hy; apply kept_dirof, (ch_envs _ _ _ _ _ _ _ H2 y Hy)).
  assert (∀ y, y ∈ live → dirof k2 y = dirof k y) as D by (intros y Hy; by rewrite (D2 y Hy), D1, D0).
  assert (∀ y v, y ∈ live → 0 ≤ v < UTOP → lookup_pte (phys (k_mm k0)) (dirof k0 y) v = lookup_pte (phys (k_mm k)) (dirof k y) v) as L0.
  { intros y v Hy Hv. rewrite D0. exact (pushed_lookup _ _ _ _ _ Htop _ _ _ _ _ _ Hu Hs Q y v Hy (PDX_user v Hv)). }
  assert (∀ y v, y ∈ live → 0 ≤ v < UTOP → lookup_pte (phys (k_mm k2)) (dirof k2 y) v = lookup_pte (phys (k_mm k1)) (dirof k1 y) v) as L2.
  { intros y v Hy Hv. rewrite (D2 y Hy). exact (ch_lookup _ _ _ _ _ _ _ H2 y v Hy Hv). }
  assert (∀ y v pte a, y ∈ live → 0 ≤ v < UTOP → lookup_pte (phys (k_mm k1)) (dirof k1 y) v = Some pte → a / 4096 = pte / 4096 →
    load8 (phys (k_mm k2)) a = load8 (phys (k_mm k1)) a) as M2.
  { intros y v pte a Hy Hv Hl Ea. apply (ch_data _ _ _ _ _ _ _ H2). rewrite Ea. intros E.
    destruct (mapped_page base kp live (c :: fe) (p :: l1) k1 y v pte Hi1 Hy (PDX_user v Hv) Hl) as (_ & Hn & _).
    apply Hn. rewrite E. left. }
  destruct (hs_stack _ _ _ _ _ _ _ _ H1 UX_user He) as (ux & Hux & Hup & Hfr).
  assert (∀ y v, y ∈ live → 0 ≤ v < UTOP → (y = e → v / 4096 ≠ UX / 4096) →
    lookup_pte (phys (k_mm k1)) (dirof k1 y) v = lookup_pte (phys (k_mm k)) (dirof k y) v) as L1.
  { intros y v Hy Hv Hn. rewrite D1, (hs_lookup _ _ _ _ _ _ _ _ H1 y v Hy Hv Hn). by apply L0. }
  exists (ux / 4096). split.
  - intros y v Hy Hv Hn. rewrite (L2 y v Hy Hv). by apply L1.
  - intros y v pte a Hy Hv Hn Hl Ea Ha Hb. transitivity (load8 (phys (k_mm k1)) a).
    + apply (M2 y v pte a Hy Hv); [by rewrite L1|exact Ea].
    + rewrite <- (ps_mem _ _ _ _ Q a Hb). apply (hs_data _ _ _ _ _ _ _ _ H1 y v pte a Hy Hv); [by rewrite L0|exact Ea|exact Ha].
  - intros x. pose proof (R1 x) as A. pose proof (ch_refs _ _ _ _ _ _ _ H2 x) as B. rewrite Epg in A. clear -A B. lia.
  - etransitivity; [exact G0|]. etransitivity; [exact G1|exact (ch_globals _ _ _ _ _ _ _ H2)].
  - exact D.
  - intros y Hy Hye. destruct (N1 y Hye) as [Ka Kb]. split.
    + rewrite <- Een. etransitivity; [exact Ka|exact (ch_envs _ _ _ _ _ _ _ H2 y Hy)].
    + by rewrite (ch_tf _ _ _ _ _ _ _ H2 y Hy Hye), Kb, Een.
  - intros v Hv. rewrite (ch_dir _ _ _ _ _ _ _ H2). exact (ch_empty _ _ _ _ _ _ _ H2 v Hv).
  - exact (ch_id _ _ _ _ _ _ _ H2).
  - rewrite (ch_parent _ _ _ _ _ _ _ H2), I1, Een. split; [done|].
    by rewrite (kp_id _ _ (ch_envs _ _ _ _ _ _ _ H2 e He)), I1, Een.
  - exact (ch_status _ _ _ _ _ _ _ H2).
  - exact (ch_regs _ _ _ _ _ _ _ H2).
  - by rewrite (kp_upcall _ _ (ch_envs _ _ _ _ _ _ _ H2 e He)).
  - rewrite <- (hs_word _ _ _ _ _ _ _ _ H1). destruct Hv1 as [Hr Hw (pte & Hl & _ & Eq)].
    apply load32_bytes_eq. intros j Hj.
    apply (M2 e a_pgfault_handler pte); [exact He| |exact Hl|rewrite Eq; clear -Hw Hj; lia].
    change USTACKTOP with 0xEEBFE000 in Hr. change UTOP with 0xEEC00000. clear -Hr. lia.
  - exists ux. rewrite (L2 e UX He UX_user), D1. by split_and!.
  - intros y v pte Hy Hv Hl Hn. destruct Hfr as [Ho|Hf].
    + apply Hn. rewrite <- (L0 e UX He UX_user). exact Ho.
    + apply (Hf y v pte Hy Hv). by rewrite L0.
Qed.

Lemma prepare live c fe l q s k :
  user_runs live (c :: fe) l k → fork_ready q s k → (1024 ≤ length l)%nat →
  ∃ k1 k2 l2 u, call push 0 (set_pgfault_handler cpunum e cons_getc rcr2 eflags uregs others a_pgfault_handler a_pgfault_upcall a_pgfault) k
      = (Ret tt, k1) ∧
    exec usys_exofork k1 = (Ret (env_id (envs k2 c)), k2) ∧ user_runs (c :: live) fe l2 k2 ∧ (1021 ≤ length l2)%nat ∧
    c ∉ live ∧ prepared live c q s u k k2.
Proof using Hif Hcs Htop SP.
  intros Hu R Hlen.
  destruct (call_run cpunum e base kp _ _ _ _ push SP (c :: fe) s 0
    (set_pgfault_handler cpunum e cons_getc rcr2 eflags uregs others a_pgfault_handler a_pgfault_upcall a_pgfault)
    live l k Hu (ready_stack q s k R)) as (k0 & Q & Ec).
  pose proof (pushed_runs _ _ _ _ _ Htop _ _ _ _ _ _ Hu (ready_stack q s k R) Q) as Hu0.
  pose proof (ready_pushed live (c :: fe) l q s k k0 Hu R Q) as R0.
  destruct (set_pgfault_handler_run cpunum e cons_getc rcr2 eflags uregs others base kp Hif Hcs a_pgfault_handler a_pgfault_upcall
    a_pgfault live (c :: fe) l q k0 Hu0 (fo_handler _ _ _ R0) (fo_registered _ _ _ R0) ltac:(lia))
    as (k1 & l1 & E1 & Hu1 & Hv1 & H1 & Hl1).
  destruct l1 as [|p l2]; [cbn [length] in Hl1; lia|]. cbn [length] in Hl1.
  destruct (usys_exofork_run cpunum e cons_getc rcr2 eflags uregs others base kp Hif Hcs live c fe p l2 k1 Hu1)
    as (k2 & E2 & Hu2 & H2 & Hcl).
  destruct (prepared_chain live fe l l2 c p q s k k0 k1 k2) as (u & P); try assumption.
  exists k1, k2, l2, u. refine (conj _ (conj E2 (conj Hu2 (conj _ (conj Hcl P))))); [by rewrite Ec|lia].
Qed.

(** ** The loop, and the fault of the next push *)

Section loop.
Context (live fe : list Z) (c q s u : Z) (k k2 : kst) (l2 : list Z).
Context (Hu2 : user_runs (c :: live) fe l2 k2) (R : fork_ready q s k) (P : prepared live c q s u k k2).
Context (Hcl : c ∉ live) (He : e ∈ live).
Notation forked := (forked cpunum e base kp top (c :: live) fe c k2 s).
Notation pages_of_user := (USTACKTOP / PGSIZE).

Local Lemma lp_ce : c ≠ e.
Proof using Hcl He. intros E. apply Hcl. rewrite E. exact He. Qed.
Local Lemma lp_temp : 0 ≤ PFTEMP < UTOP ∧ PFTEMP / 4096 ≠ UX / 4096 ∧ (PFTEMP / 4096 <? pages_of_user) = true.
Proof. by vm_compute. Qed.
Local Lemma lp_stack : 0 ≤ USTACKPAGE < UTOP ∧ USTACKPAGE / 4096 ≠ UX / 4096 ∧ (USTACKPAGE / 4096 <? pages_of_user) = true.
Proof. by vm_compute. Qed.
Local Lemma lp_word : 0 ≤ a_pgfault_handler < UTOP ∧ a_pgfault_handler / 4096 ≠ UX / 4096 ∧
  (a_pgfault_handler / 4096 <? pages_of_user) = true.
Proof using R.
  destruct (fo_handler _ _ _ R) as [Hr _ _]. change USTACKTOP with 0xEEBFE000 in Hr. change UTOP with 0xEEC00000.
  change (UX / 4096) with 0xEEBFF. change pages_of_user with 0xEEBFE. clear -Hr. split_and!; [lia..|]. apply Z.ltb_lt. lia.
Qed.

(** What was mapped when [fork] was called, in the loop's terms. *)
Local Lemma lp_map y v pte : y ∈ live → 0 ≤ v < UTOP → v / 4096 ≠ UX / 4096 →
  lookup_pte (phys (k_mm k)) (dirof k y) v = Some pte → lookup_pte (phys (k_mm k2)) (dirof k2 y) v = Some pte.
Proof using P. intros Hy Hv Hn Hl. by rewrite (pr_lookup _ _ _ _ _ _ _ P y v Hy Hv (λ _, Hn)). Qed.

Lemma loop_stack : writable (phys (k_mm k2)) (dirof k2 e) USTACKPAGE s.
Proof using R P He.
  destruct (ready_stack q s k R) as (pte & Hl & Hw). exists pte. split; [|exact Hw].
  apply lp_map; [exact He|apply lp_stack..|exact Hl].
Qed.

(** The state after the loop lets the handler run. *)
Lemma loop_fault_ready N l3 k3 : 0 ≤ a_pgfault < 4294967296 → forked N pages_of_user l3 k3 → fault_ready u k3.
Proof using R P He Htop.
  intros Hwd F. assert (∀ y, dirof k3 y = dirof k2 y) as D by (intros y; eapply fk_dirof; exact F).
  pose proof (fk_parent _ _ _ _ _ _ _ _ _ _ _ _ _ _ F) as Hp. split.
  - rewrite (kp_upcall _ _ (fk_envs _ _ _ _ _ _ _ _ _ _ _ _ _ _ F e)). exact (pr_upcall _ _ _ _ _ _ _ P).
  - destruct (pr_stack _ _ _ _ _ _ _ P) as (pte & Hl & Hf). exists pte. split; [|exact Hf].
    rewrite D, (Hp UX UX_user). exact Hl.
  - pose proof lp_word as (Hr & Hn & Hb). destruct (fo_handler _ _ _ R) as [_ Hw (pte & Hl & _ & Eq)].
    exists (parent_pte pte). rewrite parent_pte_page, Eq.
    pose proof (lp_map e _ pte He Hr Hn Hl) as Hl2. split_and!.
    + by rewrite D, (Hp _ Hr), Hb, Hl2.
    + rewrite <- Eq. apply (pr_fresh _ _ _ _ _ _ _ P e a_pgfault_handler pte He Hr Hl).
      intros ux Hux. rewrite Eq. intros E. exact (proj1 (proj2 (fo_apart _ _ _ R) ux Hux) (eq_sym E)).
    + transitivity (load32 (phys (k_mm k2)) (pa q)).
      * apply load32_bytes_eq. intros j Hj.
        apply (fk_data _ _ _ _ _ _ _ _ _ _ _ _ _ _ F e a_pgfault_handler pte); [by right|exact Hr|exact Hl2|rewrite Eq; clear -Hw Hj; lia|].
        intros Hb'%(below_page _ Htop). destruct (fo_apart _ _ _ R) as [Hqs _]. clear -Hb' Hqs Hw Hj. lia.
      * rewrite (pr_word _ _ _ _ _ _ _ P). by apply u32_small.
  - destruct lp_temp as (Hr & Hn & Hb).
    rewrite D, (Hp _ Hr), Hb, (pr_lookup _ _ _ _ _ _ _ P e _ He Hr (λ _, Hn)), (fo_temp _ _ _ R). reflexivity.
Qed.

(** The entry of the stack after the loop. *)
Lemma loop_stack_cow N l3 k3 : forked N pages_of_user l3 k3 →
  lookup_pte (phys (k_mm k3)) (dirof k3 e) USTACKPAGE = Some (s * 4096 + Z.lor (Z.lor PTE_COW PTE_U) PTE_P).
Proof using R P He.
  intros F. destruct lp_stack as (Hr & Hn & Hb). destruct (fo_stack _ _ _ R) as (pte & Hl & Hw & HU & Hsh & Es).
  assert (dirof k3 e = dirof k2 e) as -> by (eapply fk_dirof; exact F). rewrite (fk_parent _ _ _ _ _ _ _ _ _ _ _ _ _ _ F _ Hr), Hb.
  rewrite (lp_map e _ pte He Hr Hn Hl). cbn [option_map]. unfold parent_pte, cow. by rewrite HU, Hsh, Hw, Es.
Qed.

Lemma hits_bound {A} (f : Z → option A) n : 0 ≤ n → hits f n ≤ n.
Proof.
  intros Hn. pattern n. apply natlike_ind; [vm_compute; discriminate| |exact Hn].
  intros m Hm IH. rewrite <- Z.add_1_r, hits_step by exact Hm. case_match; lia.
Qed.

(** The loop needs at most 955 pages, and the fault two. *)
Lemma loop_run :
  0 ≤ a_pgfault < 4294967296 → (960 ≤ length l2)%nat → (∀ x, 0 ≤ x < npages (k_mm k) → pp_ref (pages (k_mm k) x) < 32766) →
  ∃ l3 k3 ps l4 k4, forM (zrange 0 pages_of_user) (fork_page (env_id (envs k2 c))) k2 = (Ret tt, k3) ∧
    forked 960 pages_of_user l3 k3 ∧ push 0 k3 = (Ret tt, k4) ∧
    unshared (c :: live) fe l3 l4 (s * 4096 + Z.lor (Z.lor PTE_COW PTE_U) PTE_P) u ps k3 k4 ∧ (2 ≤ length l4)%nat ∧
    (∀ x, 0 ≤ x < npages (k_mm k2) → pp_ref (pages (k_mm k4) x) < 65534) ∧ target k4 e (env_id (envs k2 c)) = Some c.
Proof using Hif Hcs Htop SP Hu2 R P Hcl He.
  intros Hwd Hlen Hrefs. destruct (pr_id _ _ _ _ _ _ _ P) as [Hid Hx]. set (envid := env_id (envs k2 c)) in *.
  assert (target k2 e envid = Some c) as Ht.
  { unfold target. rewrite decide_False by (clear -Hid; lia). rewrite decide_True; [by rewrite Hx|].
    destruct (pr_parent _ _ _ _ _ _ _ P) as [E1 E2].
    unfold may_name. rewrite !Hx, (pr_status _ _ _ _ _ _ _ P). split_and!; [discriminate|done|]. intros _. right. congruence. }
  assert (∀ x, 0 ≤ x < npages (k_mm k2) → pp_ref (pages (k_mm k2) x) < 32767) as Hr2.
  { intros x Hx2. rewrite (proj1 (pr_globals _ _ _ _ _ _ _ P)) in Hx2.
    pose proof (pr_refs _ _ _ _ _ _ _ P x) as A. specialize (Hrefs x Hx2). clear -A Hrefs. lia. }
  pose proof (hits_bound (ptable e k2) UPDX ltac:(unfold UPDX; lia)) as Hb.
  destruct (fork_loop_run cpunum e cons_getc rcr2 eflags uregs others base kp Hif Hcs _ _ _ top Htop push SP (c :: live) fe c envid
    lp_ce ltac:(left) ltac:(unfold id_range; lia) k2 l2 Hu2 Ht (pr_empty _ _ _ _ _ _ _ P) s loop_stack 960
    ltac:(unfold UPDX in *; lia) Hr2 ltac:(lia)) as (k3 & l3 & E3 & F3).
  pose proof (fk_runs _ _ _ _ _ _ _ _ _ _ _ _ _ _ F3) as Hu3.
  destruct (fk_room _ _ _ _ _ _ _ _ _ _ _ _ _ _ F3) as (b & HN & _). change (pages_of_user / 1024) with 954 in HN.
  pose proof (hits_bound (ptable e k2) 954 ltac:(lia)) as Hb'.
  assert (5 ≤ length l3)%nat as Hl3 by (clear -HN Hb'; destruct b; simpl in HN; lia).
  assert (∀ x, 0 ≤ x < npages (k_mm k2) → pp_ref (pages (k_mm k3) x) ≤ 65532) as Hr3.
  { intros x Hx2. pose proof (fk_refs _ _ _ _ _ _ _ _ _ _ _ _ _ _ F3 x) as A. specialize (Hr2 x Hx2).
    pose proof (mapped_to_refs cpunum e others base kp (c :: live) fe k2 l2 Hu2 x pages_of_user
      ltac:(vm_compute; discriminate) ltac:(vm_compute; discriminate) Hx2) as B. clear -A B Hr2. lia. }
  destruct (push_fault 0%nat (c :: live) fe l3 k3 _ u Hu3 (loop_stack_cow 960 l3 k3 F3)) as (ps & l4 & k4 & E4 & U4).
  - rewrite flag_page by (vm_compute; split; [discriminate|done]). reflexivity.
  - rewrite flag_page by (vm_compute; split; [discriminate|done]). reflexivity.
  - change (Z.lor (Z.lor PTE_COW PTE_U) PTE_P) with 0x805. replace ((s * 4096 + 0x805) / 4096) with s by (clear; lia).
    destruct lp_stack as (Hr & _). destruct (ready_stack q s k R) as (pte & Hl & _ & Es). rewrite <- Es.
    apply (pr_fresh _ _ _ _ _ _ _ P e USTACKPAGE pte He Hr Hl). intros ux Hux. rewrite Es. intros E.
    exact (proj2 (proj2 (fo_apart _ _ _ R) ux Hux) (eq_sym E)).
  - exact (loop_fault_ready 960 l3 k3 Hwd F3).
  - intros x Hx3. rewrite (proj1 (fk_globals _ _ _ _ _ _ _ _ _ _ _ _ _ _ F3)) in Hx3. specialize (Hr3 x Hx3). clear -Hr3. lia.
  - clear -Hl3. lia.
  - exists l3, k3, ps, l4, k4. refine (conj E3 (conj F3 (conj E4 (conj U4 (conj _ (conj _ _)))))).
    + pose proof (un_len _ _ _ _ _ _ _ _ _ _ _ _ _ _ U4) as A. clear -A Hl3. lia.
    + intros x Hx2. pose proof (un_refs _ _ _ _ _ _ _ _ _ _ _ _ _ _ U4 x) as A. specialize (Hr3 x Hx2). clear -A Hr3. lia.
    + rewrite (kept_target e k3 k4 envid (un_envs _ _ _ _ _ _ _ _ _ _ _ _ _ _ U4)).
      rewrite (kept_target e k2 k3 envid (fk_envs _ _ _ _ _ _ _ _ _ _ _ _ _ _ F3)). exact Ht.
Qed.
End loop.

(** ** Everything together *)

(** The parent and its runnable child [c] after [fork]. *)
Record fork_done (live : list Z) (c q s : Z) (k k' : kst) : Prop := {
  fd_parent : ∀ v, 0 ≤ v < USTACKPAGE →
    lookup_pte (phys (k_mm k')) (dirof k' e) v = option_map parent_pte (lookup_pte (phys (k_mm k)) (dirof k e) v);
  fd_stack : ∃ p, lookup_pte (phys (k_mm k')) (dirof k' e) USTACKPAGE = Some (p * 4096 + 7) ∧
    (∀ y v pte, y ∈ c :: live → 0 ≤ v < UTOP → lookup_pte (phys (k_mm k')) (dirof k' y) v = Some pte →
       pte / 4096 = p → y = e ∧ v / 4096 = USTACKPAGE / 4096) ∧
    ∀ i, top - USTACKPAGE ≤ i < 4096 → load8 (phys (k_mm k')) (p * 4096 + i) = load8 (phys (k_mm k)) (s * 4096 + i);
  fd_child : ∀ v, 0 ≤ v < USTACKTOP →
    lookup_pte (phys (k_mm k')) (dirof k' c) v = lookup_pte (phys (k_mm k)) (dirof k e) v ≫= child_pte;
  fd_xstack : ∃ p, lookup_pte (phys (k_mm k')) (dirof k' c) UX = Some (p * 4096 + 7) ∧
    ∀ a, a / 4096 = p → load8 (phys (k_mm k')) a = 0;
  fd_others : ∀ y v, y ∈ live → y ≠ e → 0 ≤ v < UTOP →
    lookup_pte (phys (k_mm k')) (dirof k' y) v = lookup_pte (phys (k_mm k)) (dirof k y) v;
  fd_data : ∀ y v pte a, y ∈ live → 0 ≤ v < UTOP →
    lookup_pte (phys (k_mm k)) (dirof k y) v = Some pte → a / 4096 = pte / 4096 →
    ¬ (pa q ≤ a < pa q + 4) → ¬ below s a →
    (∀ ux, lookup_pte (phys (k_mm k)) (dirof k e) UX = Some ux → a / 4096 ≠ ux / 4096) →
    load8 (phys (k_mm k')) a = load8 (phys (k_mm k)) a;
  fd_handler : load32 (phys (k_mm k')) (pa q) = u32 a_pgfault;
  fd_env : env_parent_id (envs k' c) = env_id (envs k e) ∧ env_status (envs k' c) = ENV_RUNNABLE ∧
    env_pgfault_upcall (envs k' c) = a_pgfault_upcall ∧
    let r := tf_regs uregs in
    env_tf (envs k' c) = tf_set_eax 0 (syscall_frame uregs SYS_exofork (reg_edx r) (reg_ecx r) (reg_ebx r) (reg_edi r) (reg_esi r));
  fd_kept : ∀ y, y ∈ live → y ≠ e → env_kept (envs k y) (envs k' y) ∧ env_tf (envs k' y) = env_tf (envs k y);
  fd_dirof : ∀ y, y ∈ live → dirof k' y = dirof k y;
}.

Section chain.
Context (live fe : list Z) (c q s u : Z) (k k2 : kst) (l2 : list Z).
Context (Hu2 : user_runs (c :: live) fe l2 k2) (R : fork_ready q s k) (P : prepared live c q s u k k2).
Context (Hcl : c ∉ live) (He : e ∈ live).
Notation forked := (forked cpunum e base kp top (c :: live) fe c k2 s).
Notation pages_of_user := (USTACKTOP / PGSIZE).
Context (N : Z) (l3 l4 : list Z) (ps : Z) (k3 k4 k6 : kst).
Context (F : forked N pages_of_user l3 k3).
Context (U : unshared (c :: live) fe l3 l4 (s * 4096 + Z.lor (Z.lor PTE_COW PTE_U) PTE_P) u ps k3 k4).
Context (B : started (c :: live) c ps k4 k6).

Local Lemma ch_dir y : dirof k6 y = dirof k2 y ∧ dirof k4 y = dirof k2 y ∧ dirof k3 y = dirof k2 y.
Proof using F U B.
  assert (dirof k3 y = dirof k2 y) as E3 by (eapply fk_dirof; exact F).
  assert (dirof k4 y = dirof k2 y) as E4 by (rewrite <- E3; apply kept_dirof, (un_envs _ _ _ _ _ _ _ _ _ _ _ _ _ _ U)).
  split_and!; [|exact E4|exact E3]. by rewrite (by_dirof _ _ _ _ _ (sd_by _ _ _ _ _ B)).
Qed.

(** Entries after the loop are the final ones, but for two pages. *)
Local Lemma ch_lookup y v : y ∈ c :: live → 0 ≤ v < UTOP → (y = c → v / 4096 ≠ UX / 4096) →
  ¬ (y = e ∧ v / 4096 = USTACKPAGE / 4096) →
  lookup_pte (phys (k_mm k6)) (dirof k6 y) v = lookup_pte (phys (k_mm k3)) (dirof k2 y) v.
Proof using F U B.
  intros Hy Hv Hc Hs. destruct (ch_dir y) as (E6 & E4 & E3). rewrite E6, <- E4.
  rewrite (by_lookup _ _ _ _ _ (sd_by _ _ _ _ _ B) y v Hy Hv Hc), E4, <- E3.
  exact (un_others _ _ _ _ _ _ _ _ _ _ _ _ _ _ U y v Hy Hv Hs).
Qed.

(** The child has the page of the stack too. *)
Local Lemma ch_shared : lookup_pte (phys (k_mm k3)) (dirof k2 c) USTACKPAGE = Some (s * 4096 + Z.lor (Z.lor PTE_COW PTE_U) PTE_P).
Proof using R P He F.
  destruct lp_stack as (Hr & Hn & Hb). destruct (fo_stack _ _ _ R) as (pte & Hl & Hw & HU & Hsh & Es).
  rewrite (fk_child _ _ _ _ _ _ _ _ _ _ _ _ _ _ F _ Hr), Hb.
  assert (lookup_pte (phys (k_mm k2)) (dirof k2 e) USTACKPAGE = Some pte) as -> by (eapply lp_map; eassumption).
  cbn [mbind option_bind]. unfold child_pte, cow. by rewrite HU, Hsh, Hw, Es.
Qed.

(** A page that is mapped after the loop keeps its contents. *)
Local Lemma ch_data y v pte a : y ∈ c :: live → 0 ≤ v < UTOP → (y = c → v / 4096 ≠ UX / 4096) →
  lookup_pte (phys (k_mm k3)) (dirof k2 y) v = Some pte → a / 4096 = pte / 4096 → a / 4096 ≠ u →
  load8 (phys (k_mm k6)) a = load8 (phys (k_mm k3)) a.
Proof using R P He F U B Htop Hcl others.
  intros Hy Hv Hc Hl Ea Hau. destruct (ch_dir y) as (_ & E4 & E3). destruct (ch_dir c) as (_ & E4c & E3c).
  assert (lookup_pte (phys (k_mm k3)) (dirof k3 y) v = Some pte) as Hl3 by (by rewrite E3).
  assert (¬ below ps a) as Hb.
  { intros Hb%(below_page _ Htop). apply (un_fresh _ _ _ _ _ _ _ _ _ _ _ _ _ _ U y v pte Hy Hv Hl3). congruence. }
  rewrite <- (un_data _ _ _ _ _ _ _ _ _ _ _ _ _ _ U y v pte a Hy Hv Hl3 Ea Hau).
  pose proof (un_others _ _ _ _ _ _ _ _ _ _ _ _ _ _ U) as L.
  destruct (decide (y = e ∧ v / 4096 = USTACKPAGE / 4096)) as [[-> Ev]|Hne].
  - destruct lp_stack as (Hr & Hn & _).
    apply (by_data _ _ _ _ _ (sd_by _ _ _ _ _ B) c USTACKPAGE (s * 4096 + Z.lor (Z.lor PTE_COW PTE_U) PTE_P));
      [left|exact Hr|intros _; exact Hn| | |exact Hb].
    + rewrite E4c, <- E3c, L, E3c; [exact ch_shared|left|exact Hr|]. intros [E _]. apply Hcl. by rewrite E.
    + rewrite Ea. f_equal. assert (lookup_pte (phys (k_mm k3)) (dirof k3 e) USTACKPAGE = Some pte) as Hl'.
      { rewrite <- Hl3. apply lookup_pte_page. change USTACKPAGE with 0xEEBFD000 in *. change UTOP with 0xEEC00000 in Hv.
        rewrite !u32_small by lia. lia. }
      assert (Some pte = Some (s * 4096 + Z.lor (Z.lor PTE_COW PTE_U) PTE_P)) as [= ->]; [|reflexivity].
      rewrite <- Hl'. eapply loop_stack_cow; [exact R|exact P|exact He|exact F].
  - apply (by_data _ _ _ _ _ (sd_by _ _ _ _ _ B) y v pte a Hy Hv Hc); [|exact Ea|exact Hb].
    rewrite E4, <- E3, (L y v Hy Hv Hne), E3. exact Hl.
Qed.

(** The same for a page that was mapped when [fork] was called, as far as the loop. *)
Local Lemma ch_before y v pte a : y ∈ live → 0 ≤ v < UTOP → (y = e → v / 4096 ≠ UX / 4096) →
  lookup_pte (phys (k_mm k)) (dirof k y) v = Some pte → a / 4096 = pte / 4096 →
  ¬ (pa q ≤ a < pa q + 4) → ¬ below s a →
  load8 (phys (k_mm k3)) a = load8 (phys (k_mm k)) a ∧
  ∃ pte', lookup_pte (phys (k_mm k3)) (dirof k2 y) v = Some pte' ∧ pte' / 4096 = pte / 4096.
Proof using P F.
  intros Hy Hv Hn Hl Ea Hq Hb.
  assert (lookup_pte (phys (k_mm k2)) (dirof k2 y) v = Some pte) as Hl2 by (by rewrite (pr_lookup _ _ _ _ _ _ _ P y v Hy Hv Hn)).
  split.
  - rewrite (fk_data _ _ _ _ _ _ _ _ _ _ _ _ _ _ F y v pte a ltac:(by right) Hv Hl2 Ea Hb).
    exact (pr_data _ _ _ _ _ _ _ P y v pte a Hy Hv Hn Hl Ea Hq Hb).
  - eapply forked_still; [exact (pr_empty _ _ _ _ _ _ _ P)|exact F|by right|exact Hv|exact Hl2].
Qed.

Local Lemma ch_old y : y ∈ live → y ≠ c.
Proof using Hcl. intros Hy E. apply Hcl. by rewrite <- E. Qed.

Local Lemma ch_whole y v pte a : y ∈ live → 0 ≤ v < UTOP →
  lookup_pte (phys (k_mm k)) (dirof k y) v = Some pte → a / 4096 = pte / 4096 →
  ¬ (pa q ≤ a < pa q + 4) → ¬ below s a →
  (∀ ux, lookup_pte (phys (k_mm k)) (dirof k e) UX = Some ux → a / 4096 ≠ ux / 4096) →
  load8 (phys (k_mm k6)) a = load8 (phys (k_mm k)) a.
Proof using R P He F U B Htop Hcl others.
  intros Hy Hv Hl Ea Hq Hb Hux.
  assert (y = e → v / 4096 ≠ UX / 4096) as Hn.
  { intros -> Ev. apply (Hux pte); [|exact Ea]. rewrite <- Hl. apply lookup_pte_page.
    change UX with 0xEEBFF000 in *. change UTOP with 0xEEC00000 in Hv. rewrite !u32_small by lia. lia. }
  destruct (ch_before y v pte a Hy Hv Hn Hl Ea Hq Hb) as (E3 & pte' & Hl' & Ep). rewrite <- E3.
  apply (ch_data y v pte' a ltac:(by right) Hv); [|exact Hl'|by rewrite Ep|].
  - intros E. by destruct (ch_old y Hy).
  - rewrite Ea. apply (pr_fresh _ _ _ _ _ _ _ P y v pte Hy Hv Hl). intros ux Hx. rewrite <- Ea. by apply Hux.
Qed.

Local Lemma ch_below v : 0 ≤ v < USTACKTOP → 0 ≤ v < UTOP ∧ v / 4096 ≠ UX / 4096 ∧ (v / 4096 <? pages_of_user) = true.
Proof.
  change USTACKTOP with 0xEEBFE000. change UTOP with 0xEEC00000. change (UX / 4096) with 0xEEBFF.
  change (0xEEBFE000 / PGSIZE) with 0xEEBFE. intros Hv. split_and!; [lia..|]. apply Z.ltb_lt. lia.
Qed.

(** The parent's stack. *)
Local Lemma ch_stack : ∃ p, lookup_pte (phys (k_mm k6)) (dirof k6 e) USTACKPAGE = Some (p * 4096 + 7) ∧
  (∀ y v pte, y ∈ c :: live → 0 ≤ v < UTOP → lookup_pte (phys (k_mm k6)) (dirof k6 y) v = Some pte →
     pte / 4096 = p → y = e ∧ v / 4096 = USTACKPAGE / 4096) ∧
  ∀ i, top - USTACKPAGE ≤ i < 4096 → load8 (phys (k_mm k6)) (p * 4096 + i) = load8 (phys (k_mm k)) (s * 4096 + i).
Proof using R P He F U B Htop Hcl others.
  destruct lp_stack as (Hr & Hn & _). pose proof (sd_by _ _ _ _ _ B) as Y.
  assert (e = c → USTACKPAGE / 4096 ≠ UX / 4096) as Hec by (intros _; exact Hn).
  assert (e ∈ c :: live) as He' by by right. destruct (ch_dir e) as (E6 & E4 & E3).
  pose proof (un_map _ _ _ _ _ _ _ _ _ _ _ _ _ _ U) as Hm. rewrite E3, <- E4 in Hm.
  exists ps. rewrite E6, <- E4. split_and!.
  - by rewrite (by_lookup _ _ _ _ _ Y e _ He' Hr Hec).
  - intros y v pte Hy Hv Hl Ep. destruct (ch_dir y) as (D6 & D4 & D3). rewrite D6, <- D4 in Hl.
    destruct (decide (y = c ∧ v / 4096 = UX / 4096)) as [[-> Ev]|Hnc].
    + exfalso. destruct (sd_stack _ _ _ _ _ B) as (p & Hl' & Hp & _). apply Hp. rewrite <- Ep.
      rewrite (lookup_pte_page _ _ v UX), Hl' in Hl; [injection Hl as <-; clear; lia|].
      change UX with 0xEEBFF000 in *. change UTOP with 0xEEC00000 in Hv. rewrite !u32_small by lia. lia.
    + rewrite (by_lookup _ _ _ _ _ Y y v Hy Hv) in Hl by (intros ->; by intros ?; apply Hnc).
      rewrite D4, <- D3 in Hl. exact (un_only _ _ _ _ _ _ _ _ _ _ _ _ _ _ U y v pte Hy Hv Hl Ep).
  - intros i Hi. assert (0 ≤ i < 4096) as Hi' by (clear -Hi Htop; lia).
    rewrite (by_data _ _ _ _ _ Y e USTACKPAGE (ps * 4096 + 7) (ps * 4096 + i) He' Hr Hec Hm);
      [|clear -Hi'; lia|unfold UserStack.below; clear -Hi; lia].
    rewrite (un_copy _ _ _ _ _ _ _ _ _ _ _ _ _ _ U i Hi).
    replace ((s * 4096 + Z.lor (Z.lor PTE_COW PTE_U) PTE_P) / 4096) with s by (change (Z.lor (Z.lor PTE_COW PTE_U) PTE_P) with 0x805; clear; lia).
    destruct (ready_stack q s k R) as (pte & Hl & _ & Ep). destruct (fo_handler _ _ _ R) as [_ Hw _].
    apply (ch_before e USTACKPAGE pte (s * 4096 + i) He Hr (λ _, Hn) Hl); [clear -Ep Hi'; lia| |unfold UserStack.below; clear -Hi; lia].
    destruct (fo_apart _ _ _ R) as [Hqs _]. clear -Hqs Hw Hi'. lia.
Qed.

(** The handler variable. *)
Local Lemma ch_word : load32 (phys (k_mm k6)) (pa q) = u32 a_pgfault.
Proof using R P He F U B Htop Hcl others.
  assert (e ≠ c) as Hec by (by apply ch_old).
  destruct (fo_handler _ _ _ R) as [Hr Hw (pte & Hl & _ & Eq)]. rewrite <- (pr_word _ _ _ _ _ _ _ P).
  destruct (ch_below a_pgfault_handler Hr) as (Hr' & Hn & Hb). destruct (fo_apart _ _ _ R) as [Hqs Hux].
  assert (lookup_pte (phys (k_mm k2)) (dirof k2 e) a_pgfault_handler = Some pte) as Hl2
    by (by rewrite (pr_lookup _ _ _ _ _ _ _ P e _ He Hr' (λ _, Hn))).
  apply load32_bytes_eq. intros j Hj. set (a := pa q + j). assert (a / 4096 = pte / 4096) as Ea by (rewrite Eq; unfold a; clear -Hw Hj; lia).
  assert (¬ below s a) as Hbl by (intros Hbl%(below_page _ Htop); rewrite Ea, Eq in Hbl; by apply Hqs).
  rewrite <- (fk_data _ _ _ _ _ _ _ _ _ _ _ _ _ _ F e _ pte a ltac:(by right) Hr' Hl2 Ea Hbl).
  apply (ch_data e a_pgfault_handler (parent_pte pte)); [by right|exact Hr'|intros E; by destruct Hec| |by rewrite parent_pte_page|].
  - by rewrite (fk_parent _ _ _ _ _ _ _ _ _ _ _ _ _ _ F _ Hr'), Hb, Hl2.
  - rewrite Ea. apply (pr_fresh _ _ _ _ _ _ _ P e a_pgfault_handler pte He Hr' Hl).
    intros ux Hx. rewrite Eq. intros E. exact (proj1 (Hux ux Hx) (eq_sym E)).
Qed.

(** The child's slot of [envs], and the others. *)
Local Lemma ch_env : env_parent_id (envs k6 c) = env_id (envs k e) ∧ env_status (envs k6 c) = ENV_RUNNABLE ∧
  env_pgfault_upcall (envs k6 c) = a_pgfault_upcall ∧
  let r := tf_regs uregs in
  env_tf (envs k6 c) = tf_set_eax 0 (syscall_frame uregs SYS_exofork (reg_edx r) (reg_ecx r) (reg_ebx r) (reg_edi r) (reg_esi r)).
Proof using P F U B Hcl He.
  assert (c ≠ e) as Hce by (intros E; apply Hcl; rewrite E; exact He).
  destruct (sd_env _ _ _ _ _ B) as [E1 E2]. pose proof (sd_by _ _ _ _ _ B) as Y.
  pose proof (un_envs _ _ _ _ _ _ _ _ _ _ _ _ _ _ U c) as K4. pose proof (fk_envs _ _ _ _ _ _ _ _ _ _ _ _ _ _ F c) as K3.
  split_and!; [|exact E1|exact E2|].
  - rewrite (proj2 (by_id _ _ _ _ _ Y)), (kp_parent _ _ K4), (kp_parent _ _ K3). exact (proj1 (pr_parent _ _ _ _ _ _ _ P)).
  - cbv zeta. rewrite (by_tf _ _ _ _ _ Y c Hce), (un_tf _ _ _ _ _ _ _ _ _ _ _ _ _ _ U c Hce),
      (fk_tf _ _ _ _ _ _ _ _ _ _ _ _ _ _ F c Hce). exact (pr_regs _ _ _ _ _ _ _ P).
Qed.

Local Lemma ch_kept y : y ∈ live → y ≠ e → env_kept (envs k y) (envs k6 y) ∧ env_tf (envs k6 y) = env_tf (envs k y).
Proof using P F U B Hcl.
  intros Hy Hye. pose proof (sd_by _ _ _ _ _ B) as Y. destruct (pr_envs _ _ _ _ _ _ _ P y Hy Hye) as [K2 T2]. split.
  - etransitivity; [exact K2|]. etransitivity; [exact (fk_envs _ _ _ _ _ _ _ _ _ _ _ _ _ _ F y)|].
    etransitivity; [exact (un_envs _ _ _ _ _ _ _ _ _ _ _ _ _ _ U y)|exact (by_envs _ _ _ _ _ Y y (ch_old y Hy))].
  - by rewrite (by_tf _ _ _ _ _ Y y Hye), (un_tf _ _ _ _ _ _ _ _ _ _ _ _ _ _ U y Hye),
      (fk_tf _ _ _ _ _ _ _ _ _ _ _ _ _ _ F y Hye).
Qed.

Lemma fork_chain : fork_done live c q s k k6.
Proof using R P He F U B Htop Hcl others.
  destruct (ch_dir e) as (E6e & E4e & E3e). destruct (ch_dir c) as (E6c & E4c & E3c).
  assert (e ≠ c) as Hec by (by apply ch_old). pose proof (sd_by _ _ _ _ _ B) as Y. split.
  - intros v Hv. destruct (ch_below v) as (Hv' & Hn & Hb);
      [change USTACKPAGE with 0xEEBFD000 in Hv; change USTACKTOP with 0xEEBFE000; clear -Hv; lia|].
    rewrite (ch_lookup e v ltac:(by right) Hv' (λ E, False_ind _ (Hec E))).
    + by rewrite (fk_parent _ _ _ _ _ _ _ _ _ _ _ _ _ _ F v Hv'), Hb, (pr_lookup _ _ _ _ _ _ _ P e v He Hv' (λ _, Hn)).
    + intros [_ E]. change USTACKPAGE with 0xEEBFD000 in *. clear -Hv E. lia.
  - exact ch_stack.
  - intros v Hv. destruct (ch_below v Hv) as (Hv' & Hn & Hb).
    rewrite (ch_lookup c v ltac:(left) Hv' (λ _, Hn)) by (intros [E _]; by apply Hec).
    by rewrite (fk_child _ _ _ _ _ _ _ _ _ _ _ _ _ _ F v Hv'), Hb, (pr_lookup _ _ _ _ _ _ _ P e v He Hv' (λ _, Hn)).
  - destruct (sd_stack _ _ _ _ _ B) as (p & Hl & _ & Hz). exists p. rewrite E6c, <- E4c. by split.
  - intros y v Hy Hye Hv. pose proof (ch_old y Hy) as Hyc.
    rewrite (ch_lookup y v ltac:(by right) Hv (λ E, False_ind _ (Hyc E))) by (intros [E _]; by apply Hye).
    rewrite (fk_others _ _ _ _ _ _ _ _ _ _ _ _ _ _ F y v ltac:(by right) Hye Hyc Hv).
    exact (pr_lookup _ _ _ _ _ _ _ P y v Hy Hv (λ E, False_ind _ (Hye E))).
  - exact ch_whole.
  - exact ch_word.
  - exact ch_env.
  - exact ch_kept.
  - intros y Hy. destruct (ch_dir y) as (-> & _). exact (pr_dirof _ _ _ _ _ _ _ P y Hy).
Qed.
End chain.

Context (a_thisenv : Z).
Notation fork := (fork cpunum e cons_getc rcr2 eflags uregs others a_thisenv a_pgfault_handler a_pgfault_upcall a_pgfault push).

Lemma fork_run live c fe l q s k :
  user_runs live (c :: fe) l k → fork_ready q s k → 0 ≤ a_pgfault < 4294967296 → (1024 ≤ length l)%nat →
  (∀ x, 0 ≤ x < npages (k_mm k) → pp_ref (pages (k_mm k) x) < 32766) →
  ∃ k' l', fork k = (Ret (env_id (envs k' c)), k') ∧ user_runs (c :: live) fe l' k' ∧
    0 < env_id (envs k' c) ∧ fork_done live c q s k k' ∧ refs_small k'.
Proof using Hif Hcs Htop SP.
  intros Hu R Hwd Hlen Hrefs. pose proof (us_live _ _ _ _ _ _ _ _ Hu) as He.
  destruct (prepare live c fe l q s k Hu R Hlen) as (k1 & k2 & l2 & u & E1 & E2 & Hu2 & Hl2 & Hcl & P).
  destruct (loop_run live fe c q s u k k2 l2 Hu2 R P Hcl He Hwd ltac:(lia) Hrefs)
    as (l3 & k3 & ps & l4 & k4 & E3 & F & E4 & U & Hl4 & Hr4 & Ht4).
  pose proof (un_runs _ _ _ _ _ _ _ _ _ _ _ _ _ _ U) as Hu4. destruct (pr_id _ _ _ _ _ _ _ P) as [Hid _].
  assert (c ≠ e) as Hce by (intros E; apply Hcl; rewrite E; exact He).
  destruct l4 as [|p4 [|p5 l4]]; [cbn [length] in Hl4; lia..|].
  destruct (start_child (c :: live) fe c (env_id (envs k2 c)) ps ltac:(left) Hce ltac:(unfold id_range; lia) p4 p5 l4 k4 Hu4)
    as (l5 & k5 & k5' & k6 & E5 & E6 & E7 & Hu6 & B).
  { exists (ps * 4096 + 7). split_and!; [|rewrite flag_page by (vm_compute; split; [discriminate|done]); reflexivity|lia].
    rewrite <- (un_map _ _ _ _ _ _ _ _ _ _ _ _ _ _ U). f_equal. apply kept_dirof, (un_envs _ _ _ _ _ _ _ _ _ _ _ _ _ _ U). }
  { exact Ht4. }
  assert (env_id (envs k6 c) = env_id (envs k2 c)) as Eid.
  { rewrite (proj1 (by_id _ _ _ _ _ (sd_by _ _ _ _ _ B))), (kp_id _ _ (un_envs _ _ _ _ _ _ _ _ _ _ _ _ _ _ U c)).
    exact (kp_id _ _ (fk_envs _ _ _ _ _ _ _ _ _ _ _ _ _ _ F c)). }
  exists k6, l5. rewrite Eid. refine (conj _ (conj Hu6 (conj (proj1 Hid) (conj _ _)))).
  - unfold UserLib.fork. rewrite run_bind, E1. cbv beta iota. rewrite run_bind, E2. cbv beta iota.
    destruct (Z.ltb_spec (env_id (envs k2 c)) 0); [lia|]. rewrite run_bind, run_ret.
    destruct (Z.eqb_spec (env_id (envs k2 c)) 0); [lia|].
    rewrite run_bind, E3. cbv beta iota. rewrite run_bind. unfold call at 1. rewrite run_bind, E4. cbv beta iota.
    change (Z.lor (Z.lor PTE_P PTE_W) PTE_U) with 7. rewrite E5. cbv beta iota. change (0 <? 0) with false. cbv iota.
    rewrite run_bind, run_ret, run_bind, E6. cbv beta iota. change (0 <? 0) with false. cbv iota.
    rewrite run_bind, run_ret, run_bind, E7. cbv beta iota. change (0 <? 0) with false. cbv iota. reflexivity.
  - exact (fork_chain live fe c q s u k k2 R P Hcl He 960 l3 _ ps k3 k4 k6 F U B).
  - intros x Hx. rewrite (proj1 (by_globals _ _ _ _ _ (sd_by _ _ _ _ _ B))),
      (proj1 (un_globals _ _ _ _ _ _ _ _ _ _ _ _ _ _ U)), (proj1 (fk_globals _ _ _ _ _ _ _ _ _ _ _ _ _ _ F)) in Hx.
    specialize (Hr4 x Hx). pose proof (sd_refs _ _ _ _ _ B x) as A. clear -A Hr4. lia.
Qed.
End fork.
