(* ===== verification/KernelSafe.v ===== *)
(** * The kernel as a whole

    What one CPU does in the kernel while the big lock keeps the others out of it:
    they run environments of their own, or are halted.  Whatever user code puts in
    the registers when it traps, the kernel comes back: it resumes an environment,
    halts or enters the monitor, the kernel invariant holds, and the environments
    of the other CPUs are still there, in the same address spaces. *)
From S2P Require Import Prelude Monad Word Layout Mem CString PageAlloc PageTable PageInv PageOps PageDirs Seg KState Env EnvMem KInv EnvSpec Sched SchedSpec UserMem Syscall Trap UserStore TrapSpec SysSpec.

(** ** Types of the environments *)

(** A value of [uint32_t]. *)
Definition word (x : Z) : Prop := 0 ≤ x < 4294967296.

Record regs_typed (r : PushRegs) : Prop := {
  rt_edi : word (reg_edi r); rt_esi : word (reg_esi r); rt_ebp : word (reg_ebp r); rt_oesp : word (reg_oesp r);
  rt_ebx : word (reg_ebx r); rt_edx : word (reg_edx r); rt_ecx : word (reg_ecx r); rt_eax : word (reg_eax r);
}.
(** The segment selectors are [uint16_t]. *)
Definition half (x : Z) : Prop := 0 ≤ x < 65536.
Record tf_typed (tf : Trapframe) : Prop := {
  tt_regs : regs_typed (tf_regs tf);
  tt_es : half (tf_es tf); tt_ds : half (tf_ds tf); tt_trapno : word (tf_trapno tf); tt_err : word (tf_err tf);
  tt_eip : word (tf_eip tf); tt_cs : half (tf_cs tf); tt_eflags : word (tf_eflags tf);
  tt_esp : word (tf_esp tf); tt_ss : half (tf_ss tf);
}.
Record env_typed (v : Env) : Prop := {
  et_tf : tf_typed (env_tf v);
  et_upcall : word (env_pgfault_upcall v);
  et_dstva : word (env_ipc_dstva v);
  et_value : word (env_ipc_value v);
  et_from : 0 ≤ env_ipc_from v < 2147483648;
  et_perm : - 2147483648 ≤ env_ipc_perm v < 2147483648;
}.

Lemma word_u32 x : word (u32 x).
Proof. exact (u32_range x). Qed.

Lemma tf_set_eax_typed r tf : tf_typed tf → tf_typed (tf_set_eax r tf).
Proof. intros [[] ]. split; try assumption. split; try assumption. exact (word_u32 r). Qed.
Lemma tf_set_eip_typed a tf : word a → tf_typed tf → tf_typed (tf_set_eip a tf).
Proof. intros Ha []. by split. Qed.
Lemma tf_set_esp_typed a tf : word a → tf_typed tf → tf_typed (tf_set_esp a tf).
Proof. intros Ha []. by split. Qed.
Lemma tf_init_typed : tf_typed env_tf_init.
Proof. split; [split|..]; by vm_compute. Qed.

(** What does not touch the typed fields. *)
Lemma env_typed_ext v v' : env_typed v → env_tf v' = env_tf v → env_pgfault_upcall v' = env_pgfault_upcall v →
  env_ipc_dstva v' = env_ipc_dstva v → env_ipc_value v' = env_ipc_value v → env_ipc_from v' = env_ipc_from v →
  env_ipc_perm v' = env_ipc_perm v → env_typed v'.
Proof. intros [] E1 E2 E3 E4 E5 E6. split; congruence. Qed.
Lemma with_status_typed v st : env_typed v → env_typed (with_status v st).
Proof. intros H. by apply (env_typed_ext v). Qed.
Lemma with_tf_typed v tf : env_typed v → tf_typed tf → env_typed (with_tf v tf).
Proof. intros [] Ht. by split. Qed.
Lemma with_upcall_typed v f : env_typed v → word f → env_typed (with_upcall v f).
Proof. intros [] Ht. by split. Qed.
Lemma with_ipc_typed v b d val from perm : env_typed v → word d → word val → 0 ≤ from < 2147483648 →
  - 2147483648 ≤ perm < 2147483648 → env_typed (with_ipc v b d val from perm).
Proof. intros [] Hd Hv Hf Hp. by split. Qed.
Lemma fresh_env_typed v e p parent : env_typed v → env_typed (fresh_env v e p parent).
Proof. intros []. split; try assumption; [exact tf_init_typed|]. by vm_compute. Qed.

Create HintDb typed.
#[export] Hint Resolve word_u32 tf_set_eax_typed tf_set_eip_typed tf_set_esp_typed tf_init_typed
  with_status_typed with_tf_typed with_upcall_typed fresh_env_typed et_tf et_upcall et_dstva et_value
  et_from et_perm : typed.

Section kernel.
Context (cpunum : Z) (base : Z → Z) (kp : Z) (others : Z → CpuInfo).

(** ** Between two steps *)

(** [x] runs on another CPU, whose state is in [others]. *)
Definition elsewhere (x : Z) : Prop := ∃ c, c ≠ cpunum ∧ cpu_env (others c) = Some x.

(** The other CPUs are as they were; their environments are running, or are to be
    freed at their next trap, in the address space the CPU has loaded; and this CPU
    has none of them. *)
Record peers (k : kst) : Prop := {
  pe_same c : c ≠ cpunum → cpus k c = others c;
  pe_runs x : elsewhere x → env_status (envs k x) = ENV_RUNNING ∨ env_status (envs k x) = ENV_DYING;
  pe_cr3 c x : c ≠ cpunum → cpu_env (others c) = Some x → cpu_cr3 (others c) = dirof k x * 4096;
  pe_apart x : elsewhere x → cpu_env (cpus k cpunum) ≠ Some x;
}.

Record good (live fe l : list Z) (k : kst) : Prop := {
  gd_inv : kernel_inv base kp live fe l k;
  gd_ok : cpus_ok live k;
  gd_peers : peers k;
  gd_typed : ∀ x, env_typed (envs k x);
}.

(** In the kernel, with the big lock and current environment [c]. *)
Record inside (c : option Z) (k : kst) : Prop := {
  in_good : ∃ live fe l, good live fe l k;
  in_lock : lock_held cpunum k;
  in_cur : cpu_env (cpus k cpunum) = c;
  in_started : cpu_status (cpus k cpunum) = CPU_STARTED;
}.

(** What the kernel leaves when it stops: an environment resumed in its address
    space, the CPU halted, or the monitor; never a panic, undefined behaviour,
    or a lock for which it would wait for ever. *)
Definition settled (x : stop) (k : kst) : Prop :=
  match x with
  | SUser y => (∃ live fe l, good live fe l k) ∧ kernel_lock k = mkLock false None ∧
      cpu_env (cpus k cpunum) = Some y ∧ cpu_status (cpus k cpunum) = CPU_STARTED ∧
      env_status (envs k y) = ENV_RUNNING ∧ cpu_cr3 (cpus k cpunum) = dirof k y * 4096
  | SHalt => (∃ live fe l, good live fe l k) ∧ kernel_lock k = mkLock false None ∧
      cpu_env (cpus k cpunum) = None ∧ cpu_status (cpus k cpunum) = CPU_HALTED
  | SMonitor => True
  | _ => False
  end.

(** A handler that keeps the current environment, or gives the CPU away. *)
Definition safe {A} (c : option Z) (r : result A * kst) : Prop := post r (λ _ k, inside c k) settled.

Lemma inside_live e k live fe l : inside (Some e) k → good live fe l k → e ∈ live.
Proof. intros Hi Hg. exact (gd_ok _ _ _ _ Hg cpunum e (in_cur _ _ Hi)). Qed.

(** [x] is as fit to run on another CPU in [k'] as in [k]. *)
Definition keeps (k k' : kst) (x : Z) : Prop :=
  (env_status (envs k' x) = env_status (envs k x) ∨ env_status (envs k' x) = ENV_RUNNING ∨ env_status (envs k' x) = ENV_DYING) ∧
  env_pgdir (envs k' x) = env_pgdir (envs k x).

Lemma peers_keep k k' : peers k → (∀ c, c ≠ cpunum → cpus k' c = cpus k c) →
  (∀ x, elsewhere x → keeps k k' x) → (∀ x, elsewhere x → cpu_env (cpus k' cpunum) ≠ Some x) → peers k'.
Proof.
  intros [P1 P2 P3 P4] Hc Hk Ha. split.
  - intros c Hne. rewrite Hc by exact Hne. exact (P1 c Hne).
  - intros x Hx. destruct (Hk x Hx) as [[->|Hr] _]; [exact (P2 x Hx)|exact Hr].
  - intros c x Hne Hx. rewrite (P3 c x Hne Hx). unfold dirof. by rewrite (proj2 (Hk x (ex_intro _ c (conj Hne Hx)))).
  - exact Ha.
Qed.

Lemma keeps_refl k k' x : envs k' x = envs k x → keeps k k' x.
Proof. intros E. split; [left|]; by rewrite E. Qed.

Lemma peers_ext k k' : peers k → cpus k' = cpus k → envs k' = envs k → peers k'.
Proof.
  intros P Ec Ee. apply (peers_keep k); [exact P|by rewrite Ec| |].
  - intros x _. apply keeps_refl. by rewrite Ee.
  - intros x Hx. rewrite Ec. exact (pe_apart _ P x Hx).
Qed.

(** ** Steps that stay inside *)

Lemma inside_log c evs k : inside c k → inside c (logged evs k).
Proof.
  intros [(live & fe & l & [Hi Hok Ha Ht]) Hl Hc Hs]. destruct (logged_facts evs k) as (_ & Ee & Ec & El).
  split; rewrite ?Ec; try assumption; [|unfold lock_held; by rewrite El].
  exists live, fe, l. split; [by apply logged_inv|..].
  - unfold cpus_ok. by rewrite Ec.
  - exact (peers_ext _ _ Ha Ec Ee).
  - intros x. rewrite Ee. apply Ht.
Qed.

Lemma inside_env c k x f :
  inside c k → (∃ live fe l, good live fe l k ∧ x ∈ live) →
  (ENV_DYING ≤ env_status (envs k x) ≤ ENV_NOT_RUNNABLE → ENV_DYING ≤ env_status (f (envs k x)) ≤ ENV_NOT_RUNNABLE) →
  (elsewhere x → keeps k (upd_env x f k) x) →
  env_id (f (envs k x)) = env_id (envs k x) → env_pgdir (f (envs k x)) = env_pgdir (envs k x) →
  env_typed (f (envs k x)) → inside c (upd_env x f k).
Proof.
  intros [_ Hl Hc Hs] (live & fe & l & [Hi Hok Ha Ht] & Hx) Hst Hkp Hid Hpd Hty.
  split; try assumption. exists live, fe, l. split; try assumption.
  - apply ke_upd_env; try assumption. apply Hst. exact (ke_status _ _ _ _ _ _ Hi x Hx).
  - apply (peers_keep k); [exact Ha|done| |exact (pe_apart _ Ha)]. intros y Hy. destruct (decide (x = y)) as [<-|Hne]; [by apply Hkp|].
    apply keeps_refl. simpl. by rewrite upd_other.
  - intros y. simpl. rewrite upd_case. by case_decide; subst.
Qed.

(** An update that leaves the status alone. *)
Lemma keeps_upd k x f : env_status (f (envs k x)) = env_status (envs k x) → env_pgdir (f (envs k x)) = env_pgdir (envs k x) →
  keeps k (upd_env x f k) x.
Proof. intros E1 E2. unfold keeps. simpl. rewrite upd_same. split; [by left|exact E2]. Qed.
Hint Resolve keeps_upd : core.

(** The memory manager's state changed. *)
Lemma inside_mm c k live fe l' s :
  inside c k → cpus_ok live k → kernel_inv base kp live fe l' (set_mm s k) → inside c (set_mm s k).
Proof.
  intros [(live0 & fe0 & l0 & [Hi _ Ha Ht]) Hl Hc Hs] Hok Hi'. split; try assumption.
  exists live, fe, l'. split; try done. by apply (peers_ext k).
Qed.

(** ** Scheduling *)

Lemma ran_settled live fe l y k k' :
  peers k → ¬ elsewhere y → (∀ x, env_typed (envs k x)) → cpu_status (cpus k cpunum) = CPU_STARTED →
  kernel_inv base kp live fe l k' → cpus_ok live k' → ran cpunum live y k k' → settled (SUser y) k'.
Proof.
  intros Ha Hy Ht Hs H' Hok' [r1 r2 r3 r4 r5 r6 r7 r8 r9 r10 r11 r12]. cbn [settled].
  refine (conj _ (conj r4 (conj r1 (conj _ (conj _ _))))).
  - exists live, fe, l. split; [exact H'|exact Hok'| |].
    + apply (peers_keep k); [exact Ha|exact r2| |].
      * intros x Hx. split; [|apply r6]. rewrite r5. unfold run_status. destruct (decide (x = y)) as [->|_]; [done|].
        rewrite decide_False; [by left|]. intros [Hc _]. exact (pe_apart _ Ha x Hx Hc).
      * intros x Hx. rewrite r1. intros [= ->]. done.
    + intros x. destruct (r9 x) as (st & r & c & E). apply (env_typed_ext (envs k x)); [apply Ht|rewrite E; reflexivity..].
  - by rewrite r12.
  - rewrite r5. unfold run_status. by rewrite decide_True.
  - rewrite r3. unfold dirof. by rewrite (proj1 (proj2 (r6 y))).
Qed.

Lemma yield_settled c k : inside c k →
  ∃ x k', sched_yield cpunum k = (Stop x, k') ∧ settled x k'.
Proof.
  intros [(live & fe & l & [Hi Hok Ha Ht]) Hl Hc Hs].
  destruct (sched_yield_run cpunum base kp live fe l k Hi Hok Hl) as (x & k' & E & H' & Hok' & Hout).
  exists x, k'. split; [exact E|]. unfold yield_outcome in Hout. cbv zeta in Hout. rewrite Hc in Hout.
  pose proof (sched_pick_spec k (sched_begin k c)) as Hpick.
  destruct (sched_pick k (sched_begin k c)) as [y|]; [|destruct (still_running k c) as [y|] eqn:Er].
  - destruct Hout as [-> R]. refine (ran_settled live fe l y k k' Ha _ Ht Hs H' Hok' R).
    intros Hy. destruct Hpick as (_ & Hr & _). unfold runnable in Hr. apply Z.eqb_eq in Hr.
    destruct (pe_runs _ Ha y Hy) as [E1|E1]; rewrite Hr in E1; discriminate E1.
  - destruct Hout as [-> R]. refine (ran_settled live fe l y k k' Ha _ Ht Hs H' Hok' R).
    intros Hy. apply (pe_apart _ Ha y Hy). rewrite Hc. destruct c as [z|]; [|discriminate Er].
    cbn [still_running] in Er. destruct (_ =? _); [by injection Er as ->|discriminate Er].
  - destruct (all_dead k); [by rewrite (proj1 Hout)|]. destruct Hout as [-> ->]. cbn [settled].
    assert (∀ d, d ≠ cpunum → cpus (halt_state cpunum kp k) d = cpus k d) as Hd.
    { intros d Hd. unfold halt_state. simpl. by rewrite !upd_other by exact (not_eq_sym Hd). }
    refine (conj _ (conj eq_refl _)); [|unfold halt_state; simpl; by rewrite !upd_same].
    exists live, fe, l. split; [exact H'|exact Hok'| |exact Ht].
    apply (peers_keep k); [exact Ha|exact Hd|by intros x _; apply keeps_refl|].
    intros x _. unfold halt_state. simpl. by rewrite !upd_same.
Qed.

Lemma yield_safe {A} c k (rest : K A) : inside c k → post ((sched_yield cpunum ;; rest) k) (λ _ _, False) settled.
Proof. intros Hi. destruct (yield_settled c k Hi) as (x & k' & E & Hs). by rewrite run_bind, E. Qed.

(** Back to user mode. *)
Lemma exit_settled c k : inside c k → ∃ x k', trap_exit cpunum k = (Stop x, k') ∧ settled x k'.
Proof.
  intros Hi. pose proof (in_cur _ _ Hi) as Hc. unfold trap_exit, curenv. rewrite run_bind, run_gets, Hc.
  destruct c as [e|]; [|exact (yield_settled None k Hi)].
  rewrite run_bind. unfold get_env. rewrite run_gets.
  destruct (env_status (envs k e) =? ENV_RUNNING); [|exact (yield_settled (Some e) k Hi)].
  destruct Hi as [(live & fe & l & [H Hok Ha Ht]) Hl _ Hs].
  destruct (env_run_run cpunum base kp live fe l e k H (Hok _ _ Hc) Hl (Hok cpunum)) as (k' & E & H' & R).
  exists (SUser e), k'. split; [exact E|].
  refine (ran_settled live fe l e k k' Ha _ Ht Hs H' (rn_ok _ _ _ _ _ R Hok) R).
  intros He. exact (pe_apart _ Ha e He Hc).
Qed.

(** ** Destroying environments *)

Lemma free_good live fe l x k : good live fe l k → x ∈ live →
  ∃ k' live' fe' l', env_free cpunum x k = (Ret tt, k') ∧ kernel_inv base kp live' fe' l' k' ∧
    (∀ y, y ∈ live → y ≠ x → y ∈ live') ∧ (∀ y, env_typed (envs k' y)) ∧
    (∀ c, cpu_env (cpus k' c) = cpu_env (cpus k c) ∧ cpu_status (cpus k' c) = cpu_status (cpus k c)) ∧
    kernel_lock k' = kernel_lock k ∧ (¬ elsewhere x → peers k').
Proof.
  intros [H Hok Ha Ht] Hx. apply elem_of_Permutation in Hx as [live' Ep].
  apply (ke_perm _ _ _ _ _ _ _ Ep) in H.
  destruct (env_free_run cpunum base kp x live' fe l k H) as (k' & l' & E & H' & F & _).
  exists k', live', (x :: fe), l'.
  refine (conj E (conj H' (conj _ (conj _ (conj (ef_cpu _ _ _ _ _ _ F) (conj (ef_lock _ _ _ _ _ _ F) _)))))).
  - intros y Hy Hne. rewrite Ep in Hy. apply elem_of_cons in Hy as [?|?]; [done|assumption].
  - intros y. destruct (decide (y = x)) as [->|Hne].
    + rewrite (ef_self _ _ _ _ _ _ F). apply (env_typed_ext (envs k x)); [apply Ht|reflexivity..].
    + rewrite (ef_envs _ _ _ _ _ _ F y Hne). apply Ht.
  - intros Hnx. apply (peers_keep k); [exact Ha| | |].
    + intros c Hc. apply (ef_other _ _ _ _ _ _ F). rewrite (pe_same _ Ha c Hc). intros Hcx. apply Hnx. by exists c.
    + intros y Hy. apply keeps_refl, (ef_envs _ _ _ _ _ _ F). by intros ->.
    + intros y Hy. rewrite (proj1 (ef_cpu _ _ _ _ _ _ F cpunum)). exact (pe_apart _ Ha y Hy).
Qed.

(** The current environment does not come back from its own destruction. *)
Lemma destroy_current e k : inside (Some e) k →
  ∃ y k', env_destroy cpunum e k = (Stop y, k') ∧ settled y k'.
Proof.
  intros Hin. pose proof (in_good _ _ Hin) as (live & fe & l & Hg). pose proof (in_cur _ _ Hin) as Hc.
  destruct (free_good live fe l e k Hg (inside_live e k live fe l Hin Hg))
    as (k1 & live' & fe' & l' & E & H1 & Hsub & Ht1 & Hcp & Elk & Hpe).
  assert (¬ elsewhere e) as Hne by (intros He; exact (pe_apart _ (gd_peers _ _ _ _ Hg) e He Hc)).
  specialize (Hpe Hne).
  unfold env_destroy, get_env, curenv. rewrite run_bind, run_gets, run_bind, run_gets, Hc.
  rewrite bool_decide_true by done. rewrite andb_false_r, run_bind, E. cbv beta iota.
  rewrite run_bind, run_gets, (proj1 (Hcp cpunum)), Hc. rewrite bool_decide_true by done.
  unfold set_curenv. rewrite run_bind, run_modify. cbv zeta. set (k2 := set_cpus _ k1).
  apply (yield_settled None). split.
  - exists live', fe', l'. split; [by apply ke_set_cpus| | |exact Ht1].
    + intros c y. unfold k2. cbn [cpus set_cpus]. rewrite upd_case. case_decide as Hd; [done|].
      rewrite (proj1 (Hcp c)). intros Hy. apply Hsub; [exact (gd_ok _ _ _ _ Hg c y Hy)|].
      intros ->. apply Hne. exists c. split; [exact (not_eq_sym Hd)|].
      by rewrite <- (pe_same _ (gd_peers _ _ _ _ Hg) c (not_eq_sym Hd)).
    + apply (peers_keep k1); [exact Hpe| |by intros x _; apply keeps_refl|].
      * intros c Hc'. unfold k2. cbn [cpus set_cpus]. by rewrite upd_other by (exact (not_eq_sym Hc')).
      * intros x _. unfold k2. cbn [cpus set_cpus]. by rewrite upd_same.
  - unfold lock_held, k2. cbn [kernel_lock set_cpus]. rewrite Elk. exact (in_lock _ _ Hin).
  - unfold k2. cbn [cpus set_cpus]. by rewrite upd_same.
  - unfold k2. cbn [cpus set_cpus]. rewrite upd_same. cbn [cpu_status]. rewrite (proj2 (Hcp cpunum)).
    exact (in_started _ _ Hin).
Qed.

Lemma destroy_safe e x k : inside (Some e) k → (∃ live fe l, good live fe l k ∧ x ∈ live) →
  (env_status (envs k x) = ENV_DYING → ¬ elsewhere x) → safe (Some e) (env_destroy cpunum x k).
Proof.
  intros Hin (live & fe & l & Hg & Hx) Hdy. pose proof (in_cur _ _ Hin) as Hc.
  destruct (decide (x = e)) as [->|Hne].
  { destruct (destroy_current e k Hin) as (y & k' & E & Hs). by rewrite E. }
  unfold env_destroy, get_env, curenv. rewrite run_bind, run_gets, run_bind, run_gets, Hc.
  rewrite bool_decide_false by congruence. cbn [negb]. rewrite andb_true_r.
  destruct (Z.eqb_spec (env_status (envs k x)) ENV_RUNNING) as [_|Hnr].
  - rewrite run_modify. cbn [safe post]. apply inside_env; [exact Hin|eauto 10| | |reflexivity|reflexivity|].
    + intros _. cbn. unfold ENV_DYING, ENV_NOT_RUNNABLE. lia.
    + intros _. unfold keeps. simpl. rewrite upd_same. split; [by right; right|reflexivity].
    + apply with_status_typed, Hg.
  - assert (¬ elsewhere x) as Hnx.
    { intros He. destruct (pe_runs _ (gd_peers _ _ _ _ Hg) x He) as [?|Hd]; [done|exact (Hdy Hd He)]. }
    destruct (free_good live fe l x k Hg Hx) as (k1 & live' & fe' & l' & E & H1 & Hsub & Ht1 & Hcp & Elk & Hpe).
    rewrite run_bind, E. cbv beta iota. rewrite run_bind, run_gets, (proj1 (Hcp cpunum)), Hc.
    rewrite bool_decide_false by congruence. cbn [safe post].
    split; [|unfold lock_held; rewrite Elk; exact (in_lock _ _ Hin)|by rewrite (proj1 (Hcp cpunum))
      |rewrite (proj2 (Hcp cpunum)); exact (in_started _ _ Hin)].
    exists live', fe', l'. split; [exact H1| | |exact Ht1].
    + intros c y. rewrite (proj1 (Hcp c)). intros Hy. apply Hsub; [exact (gd_ok _ _ _ _ Hg c y Hy)|]. intros ->.
      destruct (decide (c = cpunum)) as [->|Hc']; [rewrite Hc in Hy; by injection Hy as ->|].
      apply Hnx. exists c. split; [exact Hc'|]. by rewrite <- (pe_same _ (gd_peers _ _ _ _ Hg) c Hc').
    + exact (Hpe Hnx).
Qed.

(** Output, then the end of the current environment. *)
Lemma print_destroy e (m : K ()) k : inside (Some e) k → prints m →
  ∃ y k', (m ;; env_destroy cpunum e) k = (Stop y, k') ∧ settled y k'.
Proof.
  intros Hi Hm. destruct (Hm k) as [evs E]. rewrite run_bind, E. cbv beta iota.
  apply destroy_current. by apply inside_log.
Qed.

(** ** System calls *)

Section syscalls.
Context (e : Z) (k : kst) (Hin : inside (Some e) k).
Context (live fe l : list Z) (Hg : good live fe l k).

Local Lemma sc_cur : cpu_env (cpus k cpunum) = Some e.
Proof using Hin. exact (in_cur _ _ Hin). Qed.
Local Lemma sc_live : e ∈ live.
Proof using Hin Hg. exact (inside_live e k live fe l Hin Hg). Qed.
Local Lemma sc_target envid x : target k e envid = Some x → x ∈ live.
Proof using Hin Hg. exact (target_live base kp live fe l k e (gd_inv _ _ _ _ Hg) sc_live envid x). Qed.

Local Lemma sc_env x f : x ∈ live →
  (ENV_DYING ≤ env_status (envs k x) ≤ ENV_NOT_RUNNABLE → ENV_DYING ≤ env_status (f (envs k x)) ≤ ENV_NOT_RUNNABLE) →
  (elsewhere x → keeps k (upd_env x f k) x) →
  env_id (f (envs k x)) = env_id (envs k x) → env_pgdir (f (envs k x)) = env_pgdir (envs k x) →
  env_typed (f (envs k x)) → inside (Some e) (upd_env x f k).
Proof using Hin Hg. intros Hx. apply inside_env; [exact Hin|]. by exists live, fe, l. Qed.

Local Lemma sc_mm k' : kernel_inv base kp live fe l k' ∨ (∃ l', kernel_inv base kp live fe l' k') →
  k' = set_mm (k_mm k') k → inside (Some e) k'.
Proof using Hin Hg.
  intros [H|[l' H]] E; rewrite E in H |- *; exact (inside_mm _ _ live fe _ _ Hin (gd_ok _ _ _ _ Hg) H).
Qed.

Lemma sys_env_set_status_safe envid st : (∀ x, target k e envid = Some x → ¬ elsewhere x) → safe (Some e) (sys_env_set_status cpunum envid st k).
Proof using Hin Hg.
  intros Hne. unfold sys_env_set_status.
  destruct (negb (st =? ENV_RUNNABLE) && negb (st =? ENV_NOT_RUNNABLE)) eqn:Es; [exact Hin|].
  rewrite (with_env_run cpunum k e sc_cur). destruct (target k e envid) as [x|] eqn:Et; [|exact Hin].
  rewrite run_bind, run_modify, run_ret. cbn [safe post].
  apply sc_env; [exact (sc_target _ _ Et)| |by intros Hx; destruct (Hne x eq_refl Hx)|reflexivity|reflexivity|apply with_status_typed, Hg].
  intros _. cbn. apply andb_false_iff in Es. rewrite !negb_false_iff in Es. unfold ENV_DYING, ENV_RUNNABLE, ENV_NOT_RUNNABLE in *.
  zbool. lia.
Qed.

Lemma sys_env_set_pgfault_upcall_safe envid f : word f → safe (Some e) (sys_env_set_pgfault_upcall cpunum envid f k).
Proof using Hin Hg.
  intros Hf. unfold sys_env_set_pgfault_upcall.
  rewrite (with_env_run cpunum k e sc_cur). destruct (target k e envid) as [x|] eqn:Et; [|exact Hin].
  rewrite run_bind, run_modify, run_ret. cbn [safe post].
  apply sc_env; [exact (sc_target _ _ Et)|exact id|auto|reflexivity|reflexivity|].
  apply with_upcall_typed; [apply Hg|exact Hf].
Qed.

Lemma sys_page_alloc_safe envid va perm : word va → safe (Some e) (sys_page_alloc cpunum envid va perm k).
Proof using Hin Hg.
  intros Hva.
  pose proof (sys_page_alloc_run cpunum base kp live fe l k e envid va perm (gd_inv _ _ _ _ Hg) sc_cur sc_live Hva) as HR.
  destruct (target k e envid) as [x|]; [|rewrite HR; exact Hin]. cbv zeta in HR.
  destruct (bad_va va || bad_perm perm); [rewrite HR; exact Hin|].
  pose proof sc_mm as Hmm. destruct l as [|p l0]; [rewrite HR; exact Hin|].
  destruct HR as [(_ & _ & k' & E & H' & Er & _)|(k' & l' & E & [H' Er _ _] & _)]; rewrite E; cbn [safe post];
    apply Hmm; eauto.
Qed.

Lemma sys_page_unmap_safe envid va : word va → safe (Some e) (sys_page_unmap cpunum envid va k).
Proof using Hin Hg.
  intros Hva.
  pose proof (sys_page_unmap_run cpunum base kp live fe l k e envid va (gd_inv _ _ _ _ Hg) sc_cur sc_live Hva) as HR.
  cbv zeta in HR. destruct (target k e envid) as [x|]; [|rewrite HR; exact Hin].
  destruct (bad_va va); [rewrite HR; exact Hin|].
  destruct HR as (k' & l' & E & [H' Er _ _] & _). rewrite E. cbn [safe post]. apply sc_mm; eauto.
Qed.

Lemma sys_page_map_safe srcenv srcva dstenv dstva perm : word srcva → word dstva →
  (∀ p, 0 ≤ p < npages (k_mm k) → pp_ref (pages (k_mm k) p) < 65535) →
  safe (Some e) (sys_page_map cpunum srcenv srcva dstenv dstva perm k).
Proof using Hin Hg.
  intros Hs Hd Hr.
  pose proof (sys_page_map_run cpunum base kp live fe l k e srcenv srcva dstenv dstva perm
    (gd_inv _ _ _ _ Hg) sc_cur sc_live Hs Hd Hr) as HR. cbv zeta in HR.
  destruct (target k e srcenv) as [es|]; [|rewrite HR; exact Hin].
  destruct (target k e dstenv) as [ed|]; [|rewrite HR; exact Hin].
  destruct (bad_va srcva || bad_va dstva || bad_perm perm); [rewrite HR; exact Hin|].
  destruct (lookup_pte _ _ srcva) as [pte|]; [|rewrite HR; exact Hin].
  destruct (negb (flag pte PTE_W) && flag perm PTE_W); [rewrite HR; exact Hin|].
  destruct HR as [(_ & _ & E)|(k' & l' & E & [H' Er _ _] & _)]; rewrite E; cbn [safe post]; [exact Hin|].
  apply sc_mm; eauto.
Qed.

Lemma sys_exofork_safe : safe (Some e) (sys_exofork cpunum k).
Proof using Hin Hg.
  pose proof (sys_exofork_run cpunum base kp live fe l k e (gd_inv _ _ _ _ Hg) sc_cur sc_live) as HR. cbv zeta in HR.
  destruct fe as [|c fe']; [rewrite HR; exact Hin|]. destruct l as [|p l']; [rewrite HR; exact Hin|].
  destruct HR as (k' & E & H' & Ee & X). rewrite E. cbn [safe post].
  destruct X as [Ec El _ _ _ _ _].
  destruct Hin as [_ Hl Hc Hs]. destruct Hg as [Hi Hok Ha Ht].
  split; rewrite ?Ec; try assumption; [|unfold lock_held; by rewrite El].
  exists (c :: live), fe', l'. split; [exact H'|..].
  - intros d y. rewrite Ec. intros Hy. right. exact (Hok d y Hy).
  - apply (peers_keep k); [exact Ha|by rewrite Ec| |by rewrite Ec; exact (pe_apart _ Ha)].
    intros x Hx. apply keeps_refl. rewrite Ee, upd_other; [done|]. intros ->. destruct Hx as (d & Hd & Hx).
    rewrite <- (pe_same _ Ha d Hd) in Hx. apply (ke_disj _ _ _ _ _ _ Hi x (Hok d x Hx)). left.
  - intros x. rewrite Ee, upd_case. case_decide; [|apply Ht].
    apply with_tf_typed; [apply with_status_typed, fresh_env_typed, Ht|]. apply tf_set_eax_typed, et_tf, Ht.
Qed.

Lemma sys_env_destroy_safe envid :
  (∀ x, target k e envid = Some x → env_status (envs k x) = ENV_DYING → ¬ elsewhere x) → safe (Some e) (sys_env_destroy cpunum envid k).
Proof using Hin Hg.
  intros Hdy. unfold sys_env_destroy. rewrite run_bind, (envid2env_run cpunum k e envid true sc_cur).
  pose proof (sc_target envid) as Htl. unfold target in Htl, Hdy.
  assert (∀ x, x ∈ live → (env_status (envs k x) = ENV_DYING → ¬ elsewhere x) → safe (Some e) ((c ← curenv' cpunum; cenv ← get_env c; env ← get_env x;
    (if x =? c then cprintf "[%08x] exiting gracefully\n" [env_id cenv]
     else cprintf "[%08x] destroying %08x\n" [env_id cenv; env_id env]) ;;
    env_destroy cpunum x ;; mret 0) k)) as Hx.
  { intros x Hx Hxd. unfold curenv', curenv, get_env. rewrite run_bind, run_bind, run_gets, sc_cur, run_ret.
    rewrite run_bind, run_gets, run_bind, run_gets, run_bind.
    assert (prints (if x =? e then cprintf "[%08x] exiting gracefully\n" [env_id (envs k e)]
     else cprintf "[%08x] destroying %08x\n" [env_id (envs k e); env_id (envs k x)])) as Hp by auto with prints.
    destruct (Hp k) as [evs ->]. pose proof (inside_log _ evs _ Hin) as Hi'.
    eapply post_bind; [|intros a k' Hk'; exact Hk']. destruct (logged_facts evs k) as (_ & Ee & Ec & _).
    apply destroy_safe; [exact Hi'| |by rewrite Ee].
    exists live, fe, l. split; [|exact Hx]. destruct Hg as [h1 h2 h3 h4].
    split; [by apply logged_inv|unfold cpus_ok; by rewrite Ec|exact (peers_ext _ _ h3 Ec Ee)|intros y; rewrite Ee; apply h4]. }
  case_decide; [|case_decide]; cbv beta iota; [| |exact Hin]; change (0 <? 0) with false; cbv iota.
  - apply Hx; [apply Htl|apply Hdy]; reflexivity.
  - apply Hx; [apply Htl|apply Hdy]; reflexivity.
Qed.

Lemma sys_ipc_recv_safe dstva : word dstva → safe (Some e) (sys_ipc_recv cpunum dstva k).
Proof using Hin Hg.
  intros Hd. unfold sys_ipc_recv. destruct ((dstva <? UTOP) && negb (PGOFF dstva =? 0)); [exact Hin|].
  unfold curenv', curenv. rewrite run_bind, run_bind, run_gets, sc_cur, run_ret, run_bind, run_modify, run_bind, run_modify.
  eapply post_mono; [apply (yield_safe (Some e))|done|done].
  set (k1 := upd_env e (λ v, with_ipc v true dstva 0 0 0) k).
  assert (inside (Some e) k1) as H1.
  { apply sc_env; [exact sc_live|exact id|auto|reflexivity|reflexivity|].
    apply with_ipc_typed; [apply Hg|exact Hd|by vm_compute|lia|lia]. }
  apply inside_env; [exact H1| |intros _| |reflexivity|reflexivity|].
  - pose proof (in_good _ _ H1) as (live1 & fe1 & l1 & Hg1). exists live1, fe1, l1. split; [exact Hg1|].
    exact (inside_live _ _ _ _ _ H1 Hg1).
  - cbn. unfold ENV_DYING, ENV_NOT_RUNNABLE. lia.
  - intros He. pose proof (in_good _ _ H1) as (live1 & fe1 & l1 & Hg1).
    destruct (pe_apart _ (gd_peers _ _ _ _ Hg1) e He (in_cur _ _ H1)).
  - apply with_status_typed. pose proof (in_good _ _ H1) as (live1 & fe1 & l1 & Hg1). apply Hg1.
Qed.

(** The receiver's side of a send. *)
Lemma ipc_finish_safe x value k1 : inside (Some e) k1 → (∃ live fe l, good live fe l k1 ∧ x ∈ live) → word value → ¬ elsewhere x →
  safe (Some e) (ipc_finish cpunum x value k1).
Proof.
  intros Hi (live1 & fe1 & l1 & Hg1 & Hx) Hv Hne. pose proof (inside_live e k1 _ _ _ Hi Hg1) as He1.
  destruct (ipc_finish_run cpunum base kp live1 fe1 l1 k1 e x value (gd_inv _ _ _ _ Hg1) (in_cur _ _ Hi) Hx)
    as (k' & E & H' & Ee & _ & Ec & El).
  rewrite E. cbn [safe post]. destruct Hi as [_ Hl Hc Hs]. destruct Hg1 as [Hi1 Hok Ha Ht].
  split; rewrite ?Ec; try assumption; [|unfold lock_held; by rewrite El].
  exists live1, fe1, l1. split; [exact H'|unfold cpus_ok; by rewrite Ec| |].
  { apply (peers_keep k1); [exact Ha|by rewrite Ec| |by rewrite Ec; exact (pe_apart _ Ha)].
    intros y Hy. apply keeps_refl. rewrite Ee, upd_other; [done|by intros ->]. }
  intros y. rewrite Ee, upd_case. case_decide; [|apply Ht]. unfold delivered.
  pose proof (ke_id _ _ _ _ _ _ Hi1 e He1) as [Hid _].
  apply with_tf_typed; [|apply tf_set_eax_typed, et_tf, Ht]. apply with_status_typed, with_ipc_typed;
    [apply Ht|apply et_dstva, Ht|exact Hv|lia|apply et_perm, Ht].
Qed.

(** The page that a message carries, when the sender has it. *)
Definition sends_page (srcva perm : Z) : Prop :=
  srcva < UTOP → srcva mod 4096 = 0 →
  is_Some (lookup_pte (phys (k_mm k)) (dirof k e) srcva) ∧ 0 ≤ perm < 4096.

Lemma ipc_send_page_safe x srcva perm : word srcva → sends_page srcva perm → srcva < UTOP → x ∈ live →
  (∀ p, 0 ≤ p < npages (k_mm k) → pp_ref (pages (k_mm k) p) < 65535) →
  post (ipc_send_page cpunum x srcva perm k)
    (λ _ k1, inside (Some e) k1 ∧ ∃ live fe l, good live fe l k1 ∧ x ∈ live) settled.
Proof using Hin Hg.
  intros Hs Hf Hlt Hx Href. pose proof (gd_inv _ _ _ _ Hg) as Hi.
  assert (inside (Some e) k ∧ ∃ live fe l, good live fe l k ∧ x ∈ live) as Hself by (split; [exact Hin|eauto 10]).
  pose proof (PDX_user srcva ltac:(unfold word in Hs; lia)) as Hpx.
  destruct (decide (srcva mod 4096 = 0)) as [Hal|Hal].
  - destruct (Hf Hlt Hal) as ([pte Hl] & Hp).
    pose proof (ipc_send_page_run cpunum base kp live fe l k e x srcva perm pte Hi sc_cur sc_live Hx
      ltac:(unfold word in Hs; lia) Hal (proj1 (et_dstva _ (gd_typed _ _ _ _ Hg x))) Hl Href Hp) as HR.
    cbv zeta in HR.
    destruct (negb _ || _); [rewrite HR; exact Hself|].
    destruct (env_ipc_dstva (envs k x) <? UTOP); [|rewrite HR; exact Hself].
    destruct HR as [[_ HR]|(s' & l' & E & H' & _)]; [rewrite HR; exact Hself|]. rewrite E. cbn [post].
    destruct Hin as [_ Hlk Hc Hst]. destruct Hg as [_ Hok Ha Ht].
    assert (good live fe l' (upd_env x (λ v, with_ipc v (env_ipc_recving v) (env_ipc_dstva v)
                (env_ipc_value v) (env_ipc_from v) perm) (set_mm s' k))) as Hg'.
    { split; [exact H'|exact Hok| |].
      { apply (peers_keep k); [exact Ha|done| |exact (pe_apart _ Ha)]. intros y _. unfold keeps. simpl. rewrite upd_case.
        case_decide; subst; split; auto. }
      intros y. cbn [envs upd_env set_envs set_mm]. rewrite upd_case.
      case_decide; [|apply Ht]. pose proof (Ht x) as []. apply with_ipc_typed; try assumption; [by split|lia]. }
    split; [|by exists live, fe, l']. split; [by exists live, fe, l'|exact Hlk|exact Hc|exact Hst].
  - unfold ipc_send_page, curenv', curenv, get_env. rewrite run_bind, run_bind, run_gets, sc_cur, run_ret.
    rewrite run_bind, run_gets, run_bind.
    assert (∃ r, liftM (page_lookup (env_pgdir (envs k e)) srcva) k = (Ret r, k)) as [r ->].
    { pose proof (ke_mm _ _ _ _ _ _ Hi) as Hm. pose proof (ke_dir live k e sc_live) as Hd.
      destruct (lookup_pte (phys (k_mm k)) (dirof k e) srcva) as [pte|] eqn:El.
      - destruct (page_lookup_Some base _ _ l Hm (dirof k e) srcva pte Hd Hpx El) as (t & _ & _ & _ & E).
        eexists. exact (page_lookup_lift base kp live fe e srcva k l _ Hi sc_live Hpx E).
      - eexists. exact (page_lookup_lift base kp live fe e srcva k l (Ret None) Hi sc_live Hpx
          (page_lookup_None base _ _ l Hm (dirof k e) srcva Hd Hpx El)). }
    cbv beta iota. rewrite ROUNDDOWN_page. unfold word in Hs. rewrite u32_small by lia.
    destruct (Z.eqb_spec srcva (srcva / 4096 * 4096)) as [E|_]; [exfalso; apply Hal; lia|]. exact Hself.
Qed.

Lemma sys_ipc_try_send_safe envid value srcva perm : word srcva → word value → sends_page srcva perm →
  (∀ x, ipc_target k e envid = Some x → env_ipc_recving (envs k x) = true → ¬ elsewhere x) →
  (∀ p, 0 ≤ p < npages (k_mm k) → pp_ref (pages (k_mm k) p) < 65535) →
  safe (Some e) (sys_ipc_try_send cpunum envid value srcva perm k).
Proof using Hin Hg.
  intros Hs Hv Hf Hne Href. pose proof (gd_inv _ _ _ _ Hg) as Hi.
  pose proof (ipc_refused cpunum base kp live fe l k e envid value srcva perm Hi sc_cur) as HR.
  destruct (ipc_target k e envid) as [x|] eqn:Et; [|rewrite HR; exact Hin].
  destruct (env_ipc_recving (envs k x)) eqn:Er; [|rewrite HR by reflexivity; exact Hin].
  rewrite (ipc_send_run cpunum k e envid value srcva perm x sc_cur Et Er).
  pose proof (ipc_target_live base kp live fe l k e envid x Hi sc_live Et) as Hx.
  eapply (post_bind _ _ _ (λ _ k1, inside (Some e) k1 ∧ ∃ live fe l, good live fe l k1 ∧ x ∈ live)).
  - destruct (Z.ltb_spec srcva UTOP) as [Hlt|_].
    + exact (ipc_send_page_safe x srcva perm Hs Hf Hlt Hx Href).
    + cbn [post]. split; [exact Hin|eauto 10].
  - intros [r|] k1 [H1 Hx1]; [exact H1|]. apply ipc_finish_safe; [exact H1|exact Hx1|exact Hv|by apply Hne].
Qed.

(** ** Output of user memory *)

(** The string at [s] ends where the kernel can still read: [n] bytes further,
    by a NUL or because [len] bytes have been printed (the byte after them is read
    all the same). *)
Definition string_ends (s len : Z) : Prop :=
  ∃ n, 0 ≤ n ∧ s + n < 4294967296 ∧
    (∀ a, s ≤ a ≤ s + n → is_Some (kread (phys (k_mm k)) (dirof k e * 4096) a)) ∧
    (n = len ∨ kread (phys (k_mm k)) (dirof k e * 4096) (s + n) = Some 0).

Lemma put_string_run s len : 0 ≤ s → cpu_cr3 (cpus k cpunum) = dirof k e * 4096 → string_ends s len →
  post (put_string cpunum s len k) (λ _ k', ∃ evs, k' = logged evs k) (λ _ _, False).
Proof.
  intros Hs Hc (n & Hn & Hmax & Hr & Hend). unfold put_string. destruct (Z.eqb_spec s 0) as [_|_]; [by exists [Cprintf "(null)" [len]]|].
  set (I m (st : Z * Z) k' := 0 ≤ m ≤ n ∧ st.1 = s + (n - m) ∧ (∃ evs, k' = logged evs k) ∧
    if decide (0 ≤ len) then st.2 = len - (n - m) ∧ 0 ≤ st.2 else st.2 < 0).
  eapply post_bind.
  - apply (loop_ends I (λ _ k', ∃ evs, k' = logged evs k) (λ _ _, False) 32 _ n).
    + intros m st k' H. apply H.
    + intros m [p prec] k' (Hm & Ep & (evs & ->) & Hp). cbn [fst snd] in *. subst p. unfold put_string_step, vload8.
      destruct (logged_facts evs k) as (Em & _ & Ec & _).
      rewrite run_bind, run_bind, run_gets. unfold id. rewrite Em, Ec, Hc. destruct (Hr (s + (n - m)) ltac:(lia)) as [b Eb].
      pose proof Eb as Eb'. unfold kread in Eb. destruct (vtrans _ _ _ _) as [pa|]; [|discriminate Eb]. injection Eb as Eb.
      rewrite run_ret, Eb. cbv beta iota. destruct (Z.eqb_spec b 0) as [->|Nb]; [by exists evs|].
      assert (0 < m ∨ m = 0 ∧ n = len) as Hm0.
      { destruct (decide (m = 0)) as [->|]; [|lia]. right. split; [done|]. destruct Hend as [|E]; [done|].
        replace (s + (n - 0)) with (s + n) in Eb' by lia. congruence. }
      case_decide.
      * destruct Hp as [-> Hp]. destruct (Z.ltb_spec (len - (n - m)) 0); [lia|].
        destruct (Z.leb_spec 0 (len - (n - m) - 1)); [|by exists evs]. unfold cprintf. rewrite run_bind, run_modify. cbn [post].
        rewrite run_ret. cbn [post]. subst I. cbv beta. cbn [fst snd].
        split_and!; try lia; [rewrite u32_small; lia|]. by exists (Cprintf "%c" [b] :: evs).
      * destruct (Z.ltb_spec prec 0); [|lia]. unfold cprintf. rewrite run_bind, run_modify, run_ret. cbn [post].
        subst I. cbv beta. cbn [fst snd].
        split_and!; try lia; [rewrite u32_small; lia|]. by exists (Cprintf "%c" [b] :: evs).
    + subst I. cbv beta. cbn [fst snd]. split_and!; [lia..| |]; [by exists []|]. case_decide; lia.
    + lia.
  - intros r k' ([] & -> & H). exact H.
Qed.

(** Every user-visible entry of the range is present. *)
Definition no_ghosts (va len : Z) : Prop :=
  ∀ a, va ≤ a < va + len → entry_ok (phys (k_mm k)) (dirof k e) PTE_U a = true →
  is_Some (lookup_pte (phys (k_mm k)) (dirof k e) a).

Definition mapped_range (va len : Z) : Prop :=
  ∀ a, va ≤ a < va + len → is_Some (lookup_pte (phys (k_mm k)) (dirof k e) a).

Lemma entry_ok_page m d perm a b : u32 a / 4096 = u32 b / 4096 → entry_ok m d perm a = entry_ok m d perm b.
Proof.
  intros E. unfold entry_ok. rewrite !PDX_div, !PTX_div, E.
  replace (u32 b / 4194304) with (u32 a / 4194304) by (clear -E; lia). reflexivity.
Qed.

Lemma sys_cputs_safe s len : word s → word len → s + len ≤ UTOP → no_ghosts s len →
  (mapped_range s len → s ≠ 0 → string_ends s (s32 len)) →
  cpu_cr3 (cpus k cpunum) = dirof k e * 4096 → safe (Some e) (sys_cputs cpunum s len k).
Proof using Hin Hg.
  intros Hs Hlen Hend Hgh Hst0 Hcr. unfold word in Hs, Hlen. pose proof (gd_inv _ _ _ _ Hg) as Hi.
  unfold sys_cputs, curenv', curenv. rewrite run_bind, run_bind, run_gets, sc_cur, run_ret, run_bind.
  pose proof (check_starts s len ltac:(lia) ltac:(lia) Hend) as Hst.
  pose proof (user_mem_check_loop_run base kp live fe l k Hi e s (Z.lor 0 PTE_U)
    (pages_between (ROUNDDOWN s PGSIZE) (ROUNDUP (u32 (s + len)) PGSIZE)) sc_live ltac:(by vm_compute)) as HR.
  change UTOP with 0xEEC00000 in *.
  assert (∀ a, a ∈ pages_between (ROUNDDOWN s PGSIZE) (ROUNDUP (u32 (s + len)) PGSIZE) → 0 ≤ a < 0xEEC00000) as Hr.
  { intros a [Ha Hm]%Hst. lia. }
  specialize (HR Hr). unfold user_mem_assert, user_mem_check, get_env. rewrite run_bind, run_bind, run_gets.
  unfold first_bad in HR. destruct (List.find _ _) as [b|] eqn:Ef.
  - destruct HR as [v ->]. cbv beta iota. change (- E_FAULT <? 0) with true. cbv iota. rewrite run_bind, run_gets, run_bind, liftM_gets.
    set (k3 := log_ev v _).
    assert (inside (Some e) k3) as H3.
    { apply (inside_log _ [v]). apply (inside_mm _ _ live fe l); [exact Hin|apply Hg|by apply ke_check_addr]. }
    match goal with |- context [(cprintf ?f ?a ;; env_destroy cpunum e) k3] =>
      destruct (print_destroy e (cprintf f a) k3 H3 ltac:(auto with prints)) as (y & k' & -> & Hy) end.
    exact Hy.
  - rewrite HR. cbv beta iota. change (0 <? 0) with false. cbv iota. rewrite run_ret. cbv beta iota.
    assert (mapped_range s len) as Hmap.
    { intros a Ha. apply Hgh; [lia|].
      rewrite (entry_ok_page _ _ _ a (a - a mod 4096)) by (rewrite !u32_small by lia; lia).
      assert (a - a mod 4096 ∈ pages_between (ROUNDDOWN s PGSIZE) (ROUNDUP (u32 (s + len)) PGSIZE)) as Hin' by (apply Hst; lia).
      apply list_elem_of_In in Hin'. pose proof (find_none _ _ Ef _ Hin') as Hb. by apply negb_false_iff in Hb. }
    destruct (decide (s = 0)) as [->|Hs0]; [exact (inside_log _ [Cprintf "(null)" [s32 len]] _ Hin)|].
    eapply post_mono; [exact (put_string_run s (s32 len) (proj1 Hs) Hcr (Hst0 Hmap Hs0))| |done].
    intros _ k' (evs & ->). exact (inside_log _ evs _ Hin).
Qed.
(** Without that condition the kernel panics: a range that the check accepts, with
    no NUL in it, up to an address that is not mapped.  Any environment can stop
    the machine so. *)
Theorem sys_cputs_reads_past s len : 0 < s → 0 < len < 2147483648 → s + len < UTOP →
  cpu_cr3 (cpus k cpunum) = dirof k e * 4096 →
  (∀ a, s ≤ a < s + len → entry_ok (phys (k_mm k)) (dirof k e) PTE_U a = true ∧
     ∃ b, kread (phys (k_mm k)) (dirof k e * 4096) a = Some b ∧ b ≠ 0) →
  lookup_pte (phys (k_mm k)) (dirof k e) (s + len) = None →
  ∃ evs, sys_cputs cpunum s len k = (Stop (SPanic "page_fault in kernal mode"), logged evs k).
Proof using Hin Hg.
  intros Hs Hlen Hend Hcr Hr Hno. pose proof (gd_inv _ _ _ _ Hg) as Hi.
  unfold sys_cputs, curenv', curenv. rewrite run_bind, run_bind, run_gets, sc_cur, run_ret, run_bind.
  pose proof (check_starts s len ltac:(lia) ltac:(lia) ltac:(lia)) as Hst.
  pose proof (user_mem_check_loop_run base kp live fe l k Hi e s (Z.lor 0 PTE_U)
    (pages_between (ROUNDDOWN s PGSIZE) (ROUNDUP (u32 (s + len)) PGSIZE)) sc_live ltac:(by vm_compute)) as HR.
  change UTOP with 0xEEC00000 in *.
  assert (∀ a, a ∈ pages_between (ROUNDDOWN s PGSIZE) (ROUNDUP (u32 (s + len)) PGSIZE) → 0 ≤ a < 0xEEC00000) as Hra.
  { intros a [Ha Hm]%Hst. lia. }
  specialize (HR Hra). unfold first_bad in HR. destruct (List.find _ _) as [b|] eqn:Ef.
  { apply find_some in Ef as [[Ha Hm]%list_elem_of_In%Hst Hb]. apply negb_true_iff in Hb. change (Z.lor 0 PTE_U) with PTE_U in Hb.
    rewrite (entry_ok_page _ _ _ b (Z.max b s)), (proj1 (Hr (Z.max b s) ltac:(lia))) in Hb by (rewrite !u32_small by lia; lia). discriminate Hb. }
  unfold user_mem_assert, user_mem_check, get_env. rewrite run_bind, run_bind, run_gets, HR. cbv beta iota.
  change (0 <? 0) with false. cbv iota. rewrite run_ret. cbv beta iota. rewrite s32_small by lia.
  unfold put_string. destruct (Z.eqb_spec s 0); [lia|].
  set (I m (st : Z * Z) k' := 0 ≤ m ≤ len ∧ st = (s + (len - m), m) ∧ ∃ evs, k' = logged evs k).
  assert (post (loop 32 (put_string_step cpunum) (s, len) k) (λ r k', ∃ b : (), r = inr b ∧ False)
    (λ x k', x = SPanic "page_fault in kernal mode" ∧ ∃ evs, k' = logged evs k)) as HL.
  { apply (loop_ends I (λ _ _, False) _ 32 _ len).
    - intros m st k2 H. apply H.
    - intros m st k2 (Hm & -> & (evs & ->)). unfold put_string_step, vload8. destruct (logged_facts evs k) as (Em & _ & Ec & _).
      rewrite run_bind, run_bind, run_gets. unfold id. rewrite Em, Ec, Hcr. destruct (decide (m = 0)) as [->|Hm0].
      + replace (s + (len - 0)) with (s + len) by lia. unfold vtrans. change KERNBASE with 0xF0000000. rewrite u32_small by lia.
        destruct (Z.leb_spec 0xF0000000 (s + len)); [lia|]. rewrite Z.div_mul, Hno by lia. cbn [mbind option_bind].
        rewrite run_panic. cbn [post]. split; [done|by exists evs].
      + destruct (Hr (s + (len - m)) ltac:(lia)) as (_ & b & Eb & Nb). unfold kread in Eb.
        destruct (vtrans _ _ _ _) as [pa|]; [|discriminate Eb]. injection Eb as Eb. rewrite run_ret, Eb. cbv beta iota.
        destruct (Z.eqb_spec b 0); [done|]. destruct (Z.ltb_spec m 0); [lia|]. destruct (Z.leb_spec 0 (m - 1)); [|lia].
        unfold cprintf. rewrite run_bind, run_modify, run_ret. cbn [post].
        split; [lia|]. split; [|by exists (Cprintf "%c" [b] :: evs)]. rewrite u32_small by lia. f_equal. lia.
    - split; [lia|]. split; [f_equal; lia|by exists []].
    - lia. }
  rewrite run_bind. destruct (loop 32 (put_string_step cpunum) (s, len) k) as [[r|x] k']; [by destruct HL as (b & _ & [])|].
  destruct HL as [-> (evs & ->)]. by exists evs.
Qed.
End syscalls.

(** ** Any system call *)

(** What the arguments of a system call must respect for the kernel to stay
    safe: the reference counts are not about to overflow, [sys_cputs] names
    memory below [UTOP] without half-made entries, and the byte after it can be
    read as well unless the string ends before ([string_ends]); a page sent is mapped and its
    permissions are permissions; and an environment that runs on another CPU has
    its status set by nobody else, is destroyed at most once, and gets no message
    while it is marked as receiving. *)
Record fair_call (e : Z) (k : kst) (num a1 a2 a3 a4 : Z) : Prop := {
  fc_refs : ∀ p, 0 ≤ p < npages (k_mm k) → pp_ref (pages (k_mm k) p) < 65535;
  fc_cputs : num = SYS_cputs → a1 + a2 ≤ UTOP ∧ no_ghosts e k a1 a2 ∧
    (mapped_range e k a1 a2 → a1 ≠ 0 → string_ends e k a1 (s32 a2));
  fc_send : num = SYS_ipc_try_send → sends_page e k a3 a4 ∧
    ∀ x, ipc_target k e (s32 a1) = Some x → env_ipc_recving (envs k x) = true → ¬ elsewhere x;
  fc_status : num = SYS_env_set_status → ∀ x, target k e (s32 a1) = Some x → ¬ elsewhere x;
  fc_destroy : num = SYS_env_destroy → ∀ x, target k e (s32 a1) = Some x → env_status (envs k x) = ENV_DYING → ¬ elsewhere x;
}.

Context (cons_getc : K Z).
(** [cons_getc] changes nothing but the console's own state. *)
Context (Hgetc : ∀ k, ∃ z evs, cons_getc k = (Ret z, logged evs k)).

Lemma ret_safe {A B} e k (m : K A) (f : A → B) : safe e (m k) → safe e ((a ← m; mret (f a)) k).
Proof. intros H. eapply post_bind; [exact H|]. intros a k' Hk'. exact Hk'. Qed.

Lemma syscall_safe e k num a1 a2 a3 a4 a5 : inside (Some e) k → cpu_cr3 (cpus k cpunum) = dirof k e * 4096 →
  word a1 → word a2 → word a3 → word a4 → word a5 → fair_call e k num a1 a2 a3 a4 →
  safe (Some e) (syscall cpunum cons_getc num a1 a2 a3 a4 a5 k).
Proof using Hgetc.
  intros Hin Hcr H1 H2 H3 H4 H5 [Href Hcp Hsnd Hst Hdy]. pose proof (in_good _ _ Hin) as (live & fe & l & Hg). unfold syscall.
  destruct (Z.eqb_spec num SYS_cputs) as [E|_].
  { destruct (Hcp E) as (He & Hgh & Hend). apply (ret_safe (Some e) k (sys_cputs cpunum a1 a2) (λ _, 0)).
    exact (sys_cputs_safe e k Hin live fe l Hg a1 a2 H1 H2 He Hgh Hend Hcr). }
  destruct (Z.eqb_spec num SYS_cgetc) as [E|_].
  { destruct (Hgetc k) as (z & evs & Ez). unfold sys_cgetc. rewrite Ez. exact (inside_log _ evs _ Hin). }
  destruct (Z.eqb_spec num SYS_getenvid) as [E|_].
  { unfold sys_getenvid, curenv', curenv, get_env. rewrite run_bind, run_bind, run_gets, (in_cur _ _ Hin), run_ret.
    rewrite run_bind, run_gets, run_ret. exact Hin. }
  destruct (Z.eqb_spec num SYS_env_destroy) as [E|_]; [exact (sys_env_destroy_safe e k Hin live fe l Hg (s32 a1) (Hdy E))|].
  destruct (Z.eqb_spec num SYS_yield) as [E|_].
  { unfold sys_yield. eapply post_mono; [exact (yield_safe (Some e) k _ Hin)|done|done]. }
  destruct (Z.eqb_spec num SYS_exofork) as [E|_]; [exact (sys_exofork_safe e k Hin live fe l Hg)|].
  destruct (Z.eqb_spec num SYS_env_set_status) as [E|_];
    [exact (sys_env_set_status_safe e k Hin live fe l Hg (s32 a1) (s32 a2) (Hst E))|].
  destruct (Z.eqb_spec num SYS_page_alloc) as [E|_];
    [exact (sys_page_alloc_safe e k Hin live fe l Hg (s32 a1) a2 (s32 a3) H2)|].
  destruct (Z.eqb_spec num SYS_page_map) as [E|_];
    [exact (sys_page_map_safe e k Hin live fe l Hg (s32 a1) a2 (s32 a3) a4 (s32 a5) H2 H4 Href)|].
  destruct (Z.eqb_spec num SYS_page_unmap) as [E|_];
    [exact (sys_page_unmap_safe e k Hin live fe l Hg (s32 a1) a2 H2)|].
  destruct (Z.eqb_spec num SYS_env_set_pgfault_upcall) as [E|_];
    [exact (sys_env_set_pgfault_upcall_safe e k Hin live fe l Hg (s32 a1) a2 H2)|].
  destruct (Z.eqb_spec num SYS_ipc_try_send) as [E|_];
    [exact (sys_ipc_try_send_safe e k Hin live fe l Hg (s32 a1) a2 a3 a4 H3 H2 (proj1 (Hsnd E)) (proj2 (Hsnd E)) Href)|].
  destruct (Z.eqb_spec num SYS_ipc_recv) as [E|_]; [exact (sys_ipc_recv_safe e k Hin live fe l Hg a1 H1)|].
  exact Hin.
Qed.
End kernel.
