(* ===== verification/CowFault.v ===== *)
(** * A copy-on-write fault from beginning to end

    The kernel reflects the fault to [_pgfault_upcall], which calls [pgfault] of
    lib/fork.c through [_pgfault_handler] and goes back: the computation that
    faulted continues with all its registers, in a private writable copy of the
    page, as if it had always been writable. *)
From S2P Require Import Prelude Monad Word Layout Mem CString PageAlloc PageTable PageInv PageOps PageDirs Seg KState Env EnvMem KInv EnvSpec Sched SchedSpec UserMem Syscall Trap UserStore TrapSpec SysSpec MemInit UserLib UserSpec ForkSpec UserEntry ForkDemo KernelSafe.

Lemma frame_range tf : UXSTACKTOP - PGSIZE ≤ frame_at tf - 8 →
  UXSTACKTOP - 4096 + 8 ≤ frame_at tf ≤ UXSTACKTOP - 56.
Proof.
  unfold frame_at. change UXSTACKTOP with 0xEEC00000. change PGSIZE with 4096. intros H.
  destruct (Z.ltb_spec (0xEEC00000 - 4096) (tf_esp tf)), (Z.ltb_spec (tf_esp tf) 0xEEC00000); cbn [andb] in *; lia.
Qed.

Section fault.
Context (cpunum e : Z) (cons_getc : K Z) (rcr2 eflags : Z) (uregs : Trapframe).
Context (others : stop → kst → option kst).
Context (base : Z → Z) (kp : Z).
Context (Hif : flag eflags FL_IF = false) (Hcs : Z.land (tf_cs uregs) 3 = 3).
Notation user_runs := (user_runs cpunum e base kp).
Notation on_stack := (on_stack e).

(** ** The kernel's part *)

(** A page fault of [e] at [rcr2], with an upcall [up] and a usable frame. *)
Record faults (k : kst) (tf : Trapframe) (up pte : Z) : Prop := {
  fl_typed : tf_typed tf;
  fl_user : Z.land (tf_cs tf) 3 = 3;
  fl_trapno : tf_trapno tf = T_PGFLT;
  fl_cr2 : word rcr2;
  fl_upcall : env_pgfault_upcall (envs k e) = up ∧ up ≠ 0;
  fl_room : UXSTACKTOP - PGSIZE ≤ frame_at tf - 8;
  fl_map : lookup_pte (phys (k_mm k)) (dirof k e) (frame_at tf) = Some pte;
  fl_perm : Z.land pte (Z.lor PTE_U PTE_W) = Z.lor PTE_U PTE_W;
}.

Lemma utrapframe_words tf w : word rcr2 → tf_typed tf → w ∈ utrapframe rcr2 tf → word w.
Proof.
  intros Hr [[] ] Hw. unfold utrapframe in Hw. repeat (apply elem_of_cons in Hw as [->|Hw]; [assumption|]).
  by apply elem_of_nil in Hw.
Qed.

Lemma trap_upcall_runs live fe l k tf up pte :
  user_runs live fe l k → faults k tf up pte →
  let utf := frame_at tf in
  let pa := pte / 4096 * 4096 + utf mod 4096 in
  ∃ k1, trap cpunum cons_getc rcr2 eflags false tf k = (Stop (SUser e), k1) ∧ user_runs live fe l k1 ∧
    env_tf (envs k1 e) = tf_set_esp utf (tf_set_eip up tf) ∧
    on_stack k1 utf pte (utrapframe rcr2 tf) ∧
    (∀ a, ¬ (pa ≤ a < pa + 52) → load8 (phys (k_mm k1)) a = load8 (phys (k_mm k)) a) ∧
    (∀ y v, y ∈ live → PDX v < UPDX →
       lookup_pte (phys (k_mm k1)) (dirof k y) v = lookup_pte (phys (k_mm k)) (dirof k y) v) ∧
    pages (k_mm k1) = pages (k_mm k) ∧ npages (k_mm k1) = npages (k_mm k) ∧
    (∀ y, env_kept (envs k y) (envs k1 y)) ∧ (∀ y, y ≠ e → env_tf (envs k1 y) = env_tf (envs k y)) ∧
    same_globals (k_mm k) (k_mm k1).
Proof using Hif others.
  intros Hu [Hty Hus Htn Hr2 [Hup Hup0] Hroom Hl Hp] utf pa. pose proof (us_live _ _ _ _ _ _ _ _ Hu) as He.
  pose proof (frame_range tf Hroom) as Hfr. fold utf in Hfr. change UXSTACKTOP with 0xEEC00000 in Hfr.
  assert (user_trap cpunum eflags e tf k) as Hut by (destruct Hu; by split).
  set (ke := entered cpunum e tf k).
  assert (∀ x, env_kept (envs k x) (envs ke x)) as K0.
  { intros x. unfold ke, entered. cbn [envs upd_env set_envs set_lock set_cpus]. rewrite upd_case.
    case_decide; subst; by repeat split. }
  assert (∀ x, dirof ke x = dirof k x) as Hd by (intros x; by apply kept_dirof).
  destruct (page_fault_upcall_ran cpunum rcr2 base kp live fe l e tf ke pte utf up)
    as (k1 & E & H1 & Eph & Edir & Etf & Hlook & k4 & R & Ec4 & Em4 & Ee4).
  - apply entered_inv; [apply Hu|exact He].
  - apply entered_cpus; [apply Hu|apply Hu].
  - reflexivity.
  - exact He.
  - apply entered_cur.
  - rewrite Hd, <- (us_cr3 _ _ _ _ _ _ _ _ Hu). unfold ke, entered. simpl. by rewrite upd_same.
  - apply entered_tf.
  - by rewrite (kp_upcall _ _ (K0 e)).
  - exact Hup0.
  - exact Hus.
  - reflexivity.
  - change UXSTACKTOP with 0xEEC00000. change PGSIZE with 4096. lia.
  - rewrite Hd. exact Hl.
  - exact Hp.
  - fold pa in Eph, Hlook. change (phys (k_mm ke)) with (phys (k_mm k)) in Eph, Hlook.
    set (m' := store_words (phys (k_mm k)) pa (utrapframe rcr2 tf)) in *.
    assert (cpu_env (cpus k4 cpunum) = Some e) as Hc4 by (rewrite Ec4; apply entered_cur).
    assert (∀ x, env_kept (envs ke x) (envs k4 x)) as K4.
    { intros x. rewrite Ee4. case_decide; by repeat split. }
    assert (∀ x, env_kept (envs k4 x) (envs k1 x)) as K1.
    { intros x. pose proof (rn_status _ _ _ _ _ R x) as Est. rewrite Hc4 in Est.
      destruct (rn_env _ _ _ _ _ R x) as (st & n & c & Ee).
      assert (env_status (envs k1 x) = env_status (envs k4 x)) as Es.
      { rewrite Est. unfold run_status. case_decide as Hx; [subst x|].
        - rewrite (kp_status _ _ (K4 e)), (kp_status _ _ (K0 e)). symmetry. apply Hu.
        - rewrite decide_False; [done|]. intros [[= ->] _]. done. }
      split; try exact Es; rewrite Ee; repeat split. }
    assert (∀ x, env_kept (envs k x) (envs k1 x)) as K.
    { intros x. etransitivity; [apply K0|]. etransitivity; [apply K4|apply K1]. }
    assert (∀ x, dirof k1 x = dirof k x) as Hd1 by (intros x; by apply kept_dirof).
    exists k1. split_and!.
    + rewrite (trap_enter_run _ _ _ _ _ _ _ Hut), (us_status _ _ _ _ _ _ _ _ Hu).
      change (ENV_RUNNING =? ENV_DYING) with false. cbv iota. fold ke.
      unfold trap_dispatch. rewrite run_bind, run_bind, load_env. cbv beta iota.
      unfold ke at 1. rewrite entered_tf, Htn. change (T_PGFLT =? T_PGFLT) with true. cbv beta iota. by rewrite E.
    + split.
      * exact H1.
      * apply (rn_ok _ _ _ _ _ R). intros c x. rewrite Ec4.
        apply (entered_cpus cpunum live e tf k (us_ok _ _ _ _ _ _ _ _ Hu) (us_cur _ _ _ _ _ _ _ _ Hu)).
      * exact (rn_cur _ _ _ _ _ R).
      * rewrite (rn_started _ _ _ _ _ R), Ec4. unfold ke, entered. simpl. rewrite upd_same. discriminate.
      * by rewrite (rn_lock _ _ _ _ _ R).
      * rewrite (kp_status _ _ (K e)). apply Hu.
      * rewrite (rn_cr3 _ _ _ _ _ R), Hd1. f_equal. transitivity (dirof ke e); [by apply kept_dirof|apply Hd].
      * rewrite Hd1, Eph. pose proof (us_self _ _ _ _ _ _ _ _ Hu) as Hs. unfold tgt in *.
        destruct (mapped_page base kp live fe l k e utf pte (us_inv _ _ _ _ _ _ _ _ Hu) He
          (PDX_user utf ltac:(change UTOP with 0xEEC00000; lia)) Hl) as (_ & _ & Hpd).
        rewrite (load32_same_page (phys (k_mm k)) m'); [exact Hs|change (PDX UVPT) with 957; lia|].
        intros a Ha. apply load8_store_words. cbn [utrapframe length]. intros Hr. apply Hpd.
        apply elem_of_app. left. replace (pte / 4096) with (dirof k e) by (unfold pa in Hr; lia). by apply ke_dir.
    + exact Etf.
    + split.
      * rewrite Hd1, Eph, <- Hd, (Hlook e utf He (PDX_user utf ltac:(change UTOP with 0xEEC00000; lia))), Hd. exact Hl.
      * cbn [utrapframe length]. change UTOP with 0xEEC00000. lia.
      * intros i w Hi. fold pa. rewrite Eph. unfold m'. rewrite load32_store_words by exact (lookup_lt_Some _ _ _ Hi).
        rewrite (nth_lookup_Some _ _ 0 _ Hi). apply u32_small.
        apply (utrapframe_words tf w Hr2 Hty). exact (list_elem_of_lookup_2 _ _ _ Hi).
    + intros a Ha. rewrite Eph. by apply load8_store_words.
    + intros y v Hy Hv. rewrite Eph. specialize (Hlook y v Hy Hv). rewrite Hd in Hlook. exact Hlook.
    + by rewrite (proj1 (rn_pages _ _ _ _ _ R)), Em4.
    + by rewrite (proj2 (rn_pages _ _ _ _ _ R)), Em4.
    + exact K.
    + intros y Hy. rewrite (proj2 (proj2 (rn_id _ _ _ _ _ R y))), Ee4, decide_False by congruence.
      unfold ke, entered. cbn [envs upd_env set_envs set_lock set_cpus]. by rewrite upd_other by congruence.
    + etransitivity; [|exact (rn_globals _ _ _ _ _ R)]. by rewrite Em4.
Qed.

End fault.

(** ** Calling the handler *)

Section calling.
Context (cpunum e : Z) (base : Z → Z) (kp : Z) (a_pgfault_handler a_ret : Z) (call : Z → Z → K ()).
Notation user_runs := (user_runs cpunum e base kp).

(** [_pgfault_handler] holds [h], and is not on the page [q]. *)
Record handler_is (k : kst) (h q : Z) : Prop := {
  hi_range : 0 ≤ a_pgfault_handler < UTOP ∧ a_pgfault_handler mod 4096 + 4 ≤ 4096;
  hi_word : ∃ hpte, lookup_pte (phys (k_mm k)) (dirof k e) a_pgfault_handler = Some hpte ∧ hpte / 4096 ≠ q ∧
    load32 (phys (k_mm k)) (hpte / 4096 * 4096 + a_pgfault_handler mod 4096) = h;
}.

Lemma upcall_call_run live fe l k utf pte h fl :
  user_runs live fe l k → lookup_pte (phys (k_mm k)) (dirof k e) utf = Some pte → flag pte PTE_W = true →
  UXSTACKTOP - 4096 + 8 ≤ utf ≤ UXSTACKTOP - 56 → handler_is k h (pte / 4096) → word a_ret →
  let pa := pte / 4096 * 4096 + utf mod 4096 in
  ∃ m, user_runs live fe l (with_phys m k) ∧
    (∀ y u, y ∈ live → PDX u < UPDX → lookup_pte m (dirof k y) u = lookup_pte (phys (k_mm k)) (dirof k y) u) ∧
    (∀ a, ¬ (pa - 8 ≤ a < pa) → load8 m a = load8 (phys (k_mm k)) a) ∧
    load32 m (pa - 8) = a_ret ∧
    _pgfault_upcall cpunum a_pgfault_handler a_ret call fl utf k =
      (call h utf ;; '(ret, esp) ← popl cpunum (utf - 8);
       if negb (ret =? a_ret) then undef "return to elsewhere" else upcall_return cpunum fl (u32 (esp + 4)))
        (with_phys m k).
Proof.
  intros Hu Hl Hw Hr [[Ha Hao] (hpte & Hhl & Hhq & Hh)] Hret pa. pose proof (us_live _ _ _ _ _ _ _ _ Hu) as He.
  change UXSTACKTOP with 0xEEC00000 in Hr.
  assert (∀ c, 0 ≤ c ≤ 8 → lookup_pte (phys (k_mm k)) (dirof k e) (utf - c) = Some pte) as Hlc.
  { intros c Hc. rewrite <- Hl. apply lookup_pte_page. rewrite !u32_small; lia. }
  assert (∀ c, 0 ≤ c ≤ 8 → 0 ≤ utf - c < UTOP) as Hrc by (intros; change UTOP with 0xEEC00000; lia).
  assert (∀ c, 0 ≤ c ≤ 8 → (utf - c) mod 4096 = utf mod 4096 - c) as Hmc by (intros; lia).
  destruct (ustore32_run cpunum e base kp live fe l k (utf - 4) pte utf Hu (Hlc 4 ltac:(lia)) Hw (Hrc 4 ltac:(lia)) ltac:(lia))
    as (E1 & U1 & L1). rewrite (Hmc 4 ltac:(lia)) in E1, U1, L1.
  replace (pte / 4096 * 4096 + (utf mod 4096 - 4)) with (pa - 4) in E1, U1, L1 by (unfold pa; lia).
  set (m1 := store32 (phys (k_mm k)) (pa - 4) utf) in *. set (k1 := with_phys m1 k) in *.
  assert (vload32 cpunum a_pgfault_handler k1 = (Ret h, k1)) as Eh.
  { rewrite (uload32_run cpunum e base kp live fe l k1 a_pgfault_handler hpte U1);
      [|exact (eq_trans (L1 e _ He (PDX_user _ Ha)) Hhl)|exact Ha|exact Hao].
    rewrite <- Hh. do 2 f_equal. change (phys (k_mm k1)) with m1. apply load32_store32_other. unfold pa. lia. }
  destruct (ustore32_run cpunum e base kp live fe l k1 (utf - 8) pte a_ret U1) as (E2 & U2 & L2);
    [exact (eq_trans (L1 e _ He (PDX_user _ (Hrc 8 ltac:(lia)))) (Hlc 8 ltac:(lia)))|exact Hw|apply Hrc; lia|lia|].
  rewrite (Hmc 8 ltac:(lia)) in E2, U2, L2.
  replace (pte / 4096 * 4096 + (utf mod 4096 - 8)) with (pa - 8) in E2, U2, L2 by (unfold pa; lia).
  change (phys (k_mm k1)) with m1 in *. set (m2 := store32 m1 (pa - 8) a_ret) in *.
  change (with_phys m2 k1) with (with_phys m2 k) in *. change (dirof k1) with (dirof k) in *.
  assert (vload32 cpunum (utf - 4) (with_phys m2 k) = (Ret utf, with_phys m2 k)) as Ea.
  { rewrite (uload32_run cpunum e base kp live fe l (with_phys m2 k) (utf - 4) pte U2);
      [|exact (eq_trans (L2 e _ He (PDX_user _ (Hrc 4 ltac:(lia)))) (eq_trans (L1 e _ He (PDX_user _ (Hrc 4 ltac:(lia)))) (Hlc 4 ltac:(lia))))
       |apply Hrc; lia|lia].
    rewrite (Hmc 4 ltac:(lia)). replace (pte / 4096 * 4096 + (utf mod 4096 - 4)) with (pa - 4) by (unfold pa; lia).
    change (phys (k_mm (with_phys m2 k))) with m2. unfold m2. rewrite load32_store32_other by lia. unfold m1.
    rewrite load32_store32_same, u32_small by lia. reflexivity. }
  exists m2. refine (conj U2 (conj _ (conj _ (conj _ _)))).
  - intros y u Hy Hpd. exact (eq_trans (L2 y u Hy Hpd) (L1 y u Hy Hpd)).
  - intros a Hn. unfold m2, m1. rewrite !load8_store32, !decide_False by lia. reflexivity.
  - unfold m2. rewrite load32_store32_same. exact (u32_small _ Hret).
  - unfold _pgfault_upcall, pushl. cbv zeta. rewrite (u32_small (utf - 4)) by lia. rewrite run_bind, run_bind, E1. cbv beta iota.
    rewrite run_ret. rewrite run_bind, Eh. cbv beta iota. replace (utf - 4 - 4) with (utf - 8) by lia.
    rewrite (u32_small (utf - 8)) by lia. rewrite run_bind, run_bind, E2. cbv beta iota. rewrite run_ret.
    replace (utf - 8 + 4) with (utf - 4) by lia. rewrite (u32_small (utf - 4)) by lia.
    rewrite run_bind, Ea. cbv beta iota. reflexivity.
Qed.

End calling.

(** ** Everything together *)

Section whole.
Context (cpunum e : Z) (cons_getc : K Z) (rcr2 eflags : Z) (uregs : Trapframe).
Context (others : stop → kst → option kst).
Context (base : Z → Z) (kp : Z).
Context (Hif : flag eflags FL_IF = false) (Hcs : Z.land (tf_cs uregs) 3 = 3).
Context (a_pgfault_handler a_ret a_pgfault_upcall a_pgfault : Z).
Notation user_runs := (user_runs cpunum e base kp).
Notation on_stack := (on_stack e).
Notation handler_is := (handler_is e a_pgfault_handler).
Notation faults := (faults e rcr2).

(** The one C function that the entry point calls. *)
Definition c_call (h arg : Z) : K () :=
  if h =? a_pgfault then pgfault cpunum e cons_getc rcr2 eflags uregs others arg else undef "call".

(** The word below the trap-time stack pointer: on the page that faulted, or on
    another writable one, apart from the exception frame. *)
Definition stack_ok (k : kst) (tf : Trapframe) (pte : Z) : Prop :=
  let s := tf_esp tf - 4 in
  let pa := pte / 4096 * 4096 + frame_at tf mod 4096 in
  0 ≤ s ∧ s + 4 ≤ UTOP ∧ s mod 4096 + 4 ≤ 4096 ∧
  (s / 4096 = rcr2 / 4096 ∨
   s / 4096 ≠ PFTEMP / 4096 ∧ ∃ pte2, lookup_pte (phys (k_mm k)) (dirof k e) s = Some pte2 ∧ flag pte2 PTE_W = true ∧
     let qa := pte2 / 4096 * 4096 + s mod 4096 in qa + 4 ≤ pa - 8 ∨ pa + 52 ≤ qa).

(** A write to a copy-on-write page. *)
Record cow_write (k : kst) (tf : Trapframe) (pte ptv : Z) : Prop := {
  cw_err : flag (tf_err tf) FEC_WR = true;
  cw_range : 0 ≤ rcr2 < UTOP ∧ rcr2 / 4096 ≠ PFTEMP / 4096 ∧ rcr2 / 4096 ≠ frame_at tf / 4096;
  cw_map : lookup_pte (phys (k_mm k)) (dirof k e) rcr2 = Some ptv;
  cw_cow : flag ptv PTE_COW = true;
  cw_handler : handler_is k a_pgfault (pte / 4096);
  cw_stack : stack_ok k tf pte;
}.

(** The state [ka] in which [pgfault] starts, [kb] in which it returns. *)
Record cow_steps (live : list Z) (k : kst) (tf : Trapframe) (pte ptv p : Z) (ka kb : kst) (m : mem) : Prop := {
  cs_copy : private_copy e live (ROUNDDOWN rcr2 PGSIZE) ptv p ka kb;
  cs_frame : pte / 4096 ≠ p ∧ frame_at tf mod 4096 + 52 ≤ 4096;
  cs_dir : ∀ y, dirof ka y = dirof k y;
  cs_map1 : ∀ y v, y ∈ live → PDX v < UPDX →
    lookup_pte (phys (k_mm ka)) (dirof k y) v = lookup_pte (phys (k_mm k)) (dirof k y) v;
  cs_mem1 : let pa := pte / 4096 * 4096 + frame_at tf mod 4096 in
    ∀ a, ¬ (pa - 8 ≤ a < pa + 52) → load8 (phys (k_mm ka)) a = load8 (phys (k_mm k)) a;
  cs_map2 : ∀ y v, y ∈ live → PDX v < UPDX →
    lookup_pte m (dirof k y) v = lookup_pte (phys (k_mm kb)) (dirof k y) v;
  cs_mem2 : ∃ pte2, lookup_pte (phys (k_mm kb)) (dirof k e) (tf_esp tf - 4) = Some pte2 ∧
    let pa := pte / 4096 * 4096 + frame_at tf mod 4096 in
    let qa := pte2 / 4096 * 4096 + (tf_esp tf - 4) mod 4096 in
    ∀ a, ¬ (qa ≤ a < qa + 4) → ¬ (pa + 48 ≤ a < pa + 52) → load8 m a = load8 (phys (k_mm kb)) a;
  cs_pages : pages (k_mm ka) = pages (k_mm k);
  cs_globals : same_globals (k_mm k) (k_mm ka);
  cs_envs : ∀ y, env_kept (envs k y) (envs ka y);
  cs_tf : ∀ y, y ≠ e → env_tf (envs ka y) = env_tf (envs k y);
}.

(** A page of [e] that is neither the faulting one nor the scratch page is
    where it was, with what it contained. *)
Lemma pgfault_keeps live k tf pte ptv p ka kb u q :
  cow_write k tf pte ptv → private_copy e live (ROUNDDOWN rcr2 PGSIZE) ptv p ka kb → (∀ y, dirof ka y = dirof k y) →
  e ∈ live → 0 ≤ u < UTOP → u / 4096 ≠ rcr2 / 4096 → u / 4096 ≠ PFTEMP / 4096 →
  lookup_pte (phys (k_mm ka)) (dirof k e) u = Some q →
  lookup_pte (phys (k_mm kb)) (dirof k e) u = Some q ∧ q / 4096 ≠ p ∧
  ∀ i, 0 ≤ i < 4096 → load8 (phys (k_mm kb)) (q / 4096 * 4096 + i) = load8 (phys (k_mm ka)) (q / 4096 * 4096 + i).
Proof.
  intros [_ [Hva [_ _]] _ _ _ _] P Ed He Hu H1 H2 Hl. pose proof Hva as Hva'. change UTOP with 0xEEC00000 in Hva'.
  assert (ROUNDDOWN rcr2 PGSIZE = rcr2 / 4096 * 4096) as Er by (rewrite ROUNDDOWN_page, u32_small by lia; done).
  assert (¬ same_slot (dirof ka e) (ROUNDDOWN rcr2 PGSIZE) (dirof ka e) u) as N1.
  { intros [_ E]%same_slot_page; [|lia|by apply UTOP_range]. rewrite Er in E. lia. }
  assert (¬ same_slot (dirof ka e) PFTEMP (dirof ka e) u) as N2.
  { intros [_ E]%same_slot_page; [|by vm_compute|by apply UTOP_range]. lia. }
  assert (lookup_pte (phys (k_mm kb)) (dirof k e) u = Some q) as Hb.
  { rewrite <- Ed. rewrite (pv_others _ _ _ _ _ _ _ P e u He (PDX_user u Hu) N1 N2), Ed. exact Hl. }
  split; [exact Hb|]. rewrite <- Ed in Hb, Hl. split.
  - intros E. exact (N1 (pv_only _ _ _ _ _ _ _ P e u q He (PDX_user u Hu) Hb E)).
  - intros i Hi. exact (pv_data _ _ _ _ _ _ _ P e u q i He (PDX_user u Hu) Hl N2 Hi).
Qed.

Lemma pgfault_can_return live fe l l' k tf up pte ptv p ka kb :
  user_runs live fe l ka → user_runs live fe l' kb → faults k tf up pte → cow_write k tf pte ptv →
  private_copy e live (ROUNDDOWN rcr2 PGSIZE) ptv p ka kb → (∀ y, dirof ka y = dirof k y) →
  (∀ y v, y ∈ live → PDX v < UPDX →
    lookup_pte (phys (k_mm ka)) (dirof k y) v = lookup_pte (phys (k_mm k)) (dirof k y) v) →
  on_stack ka (frame_at tf) pte (utrapframe rcr2 tf) →
  let pa := pte / 4096 * 4096 + frame_at tf mod 4096 in
  (∃ pte2, can_return e kb (frame_at tf) pte rcr2 tf pte2) ∧ pte / 4096 ≠ p ∧
  lookup_pte (phys (k_mm kb)) (dirof k e) (frame_at tf - 8) = Some pte ∧
  load32 (phys (k_mm kb)) (pa - 8) = load32 (phys (k_mm ka)) (pa - 8).
Proof.
  intros Hua Hub F C P Ed Hm Hs pa. pose proof (us_live _ _ _ _ _ _ _ _ Hua) as He.
  pose proof (frame_range tf (fl_room _ _ _ _ _ _ F)) as Hfr. set (utf := frame_at tf) in *.
  change UXSTACKTOP with 0xEEC00000 in Hfr. pose proof C as [_ [Hva [Hvt Hvf]] Hmv _ _ (Hs0 & Hs4 & Hso & Hsc)].
  fold utf in Hvf, Hsc. change UTOP with 0xEEC00000 in Hva, Hs4. change (PFTEMP / 4096) with 0x7FF in *.
  set (s := tf_esp tf - 4) in *.
  assert (∀ y, dirof kb y = dirof k y) as Edb.
  { intros y. rewrite <- Ed. apply kept_dirof. exact (pv_envs _ _ _ _ _ _ _ P y). }
  pose proof Hs as [Hl (H0 & H1 & H2) _]. cbn [utrapframe length] in H1, H2. change (4 * Z.of_nat 13) with 52 in H1, H2.
  change UTOP with 0xEEC00000 in H2.
  assert (∀ c, 0 ≤ c ≤ 8 → lookup_pte (phys (k_mm ka)) (dirof k e) (utf - c) = Some pte) as Hlc.
  { intros c Hc. rewrite <- Hl, Ed. apply lookup_pte_page. rewrite !u32_small; lia. }
  assert (0 ≤ utf - 8 < UTOP) as R8 by (change UTOP with 0xEEC00000; lia).
  assert (0 ≤ utf < UTOP) as R0 by (change UTOP with 0xEEC00000; lia).
  pose proof (Hlc 0 ltac:(lia)) as Hl0. rewrite Z.sub_0_r in Hl0.
  destruct (pgfault_keeps live k tf pte ptv p ka kb utf pte C P Ed He R0) as (B0 & Npp & Dt);
    [lia|change (PFTEMP / 4096) with 0x7FF; lia|exact Hl0|].
  destruct (pgfault_keeps live k tf pte ptv p ka kb (utf - 8) pte C P Ed He R8) as (B8 & _ & _);
    [lia|change (PFTEMP / 4096) with 0x7FF; lia|exact (Hlc 8 ltac:(lia))|].
  assert (flag pte PTE_W = true) as Hw by (apply (flag_of_land _ _ _ (fl_perm _ _ _ _ _ _ F)); [reflexivity|discriminate]).
  refine (conj _ (conj Npp (conj B8 _))).
  2: { apply load32_bytes_eq. intros j Hj. replace (pa - 8 + j) with (pte / 4096 * 4096 + (utf mod 4096 - 8 + j)) by (unfold pa; lia).
       apply Dt. lia. }
  assert (on_stack kb utf pte (utrapframe rcr2 tf)) as Sb.
  { apply (on_stack_kept e ka kb utf pte _ 13 Hs); [cbn; lia|rewrite Edb; exact B0|].
    intros a Ha. replace a with (pte / 4096 * 4096 + (a - pte / 4096 * 4096)) by lia. apply Dt. lia. }
  destruct (decide (s / 4096 = rcr2 / 4096)) as [Ev|Nv].
  - exists (p * 4096 + 7). split.
    + exact Sb.
    + exact Hw.
    + rewrite Edb, <- Ed, <- (pv_map _ _ _ _ _ _ _ P). apply lookup_pte_page.
      rewrite ROUNDDOWN_page, (u32_small rcr2) by lia. fold s. rewrite !u32_small; lia.
    + rewrite flag_page by (vm_compute; split; [discriminate|done]). reflexivity.
    + fold s. change UTOP with 0xEEC00000. split; [lia|exact Hso].
    + exact (tt_eip _ (fl_typed _ _ _ _ _ _ F)).
    + cbv zeta. fold s pa. unfold pa. replace ((p * 4096 + 7) / 4096) with p by lia. lia.
  - destruct Hsc as [|(Nt & pte2 & Hl2 & Hw2 & Hap)]; [done|]. exists pte2.
    destruct (pgfault_keeps live k tf pte ptv p ka kb s pte2 C P Ed He) as (B2 & _ & _);
      [change UTOP with 0xEEC00000; lia|exact Nv|exact Nt
       |rewrite (Hm e s He (PDX_user s ltac:(change UTOP with 0xEEC00000; lia))); exact Hl2|].
    split.
    + exact Sb.
    + exact Hw.
    + rewrite Edb. exact B2.
    + exact Hw2.
    + fold s. change UTOP with 0xEEC00000. split; [lia|exact Hso].
    + exact (tt_eip _ (fl_typed _ _ _ _ _ _ F)).
    + cbv zeta in *. fold s pa. fold pa in Hap. lia.
Qed.

Notation upcall := (_pgfault_upcall cpunum a_pgfault_handler a_ret c_call).

Lemma cow_fault_run live fe l k tf pte ptv fl :
  user_runs live fe l k → faults k tf a_pgfault_upcall pte → cow_write k tf pte ptv → word a_ret →
  refs_small k → (2 ≤ length l)%nat → Z.land (tf_eflags tf) (Z.lnot UFLAGS) = Z.land fl (Z.lnot UFLAGS) →
  ∃ k1 ka kb m p l', trap cpunum cons_getc rcr2 eflags false tf k = (Stop (SUser e), k1) ∧
    env_tf (envs k1 e) = tf_set_esp (frame_at tf) (tf_set_eip a_pgfault_upcall tf) ∧
    upcall fl (frame_at tf) k1 =
      (Ret (mkU (tf_regs tf) (tf_eip tf) (tf_eflags tf) (tf_esp tf)), with_phys m kb) ∧
    user_runs live fe l' (with_phys m kb) ∧ cow_steps live k tf pte ptv p ka kb m ∧ (length l ≤ length l' + 2)%nat.
Proof using Hif Hcs.
  intros Hu F C Hret Href Hlen Hfl. pose proof (us_live _ _ _ _ _ _ _ _ Hu) as He.
  destruct (trap_upcall_runs cpunum e cons_getc rcr2 eflags others base kp Hif live fe l k tf a_pgfault_upcall pte Hu F)
    as (k1 & E1 & U1 & T1 & S1 & M1 & L1 & Epg & Enp & K1 & T2 & G1).
  pose proof (frame_range tf (fl_room _ _ _ _ _ _ F)) as Hfr. set (utf := frame_at tf) in *.
  set (pa := pte / 4096 * 4096 + utf mod 4096) in *.
  assert (∀ y, dirof k1 y = dirof k y) as Ed1 by (intros y; apply kept_dirof, K1).
  assert (flag pte PTE_W = true) as Hw by (apply (flag_of_land _ _ _ (fl_perm _ _ _ _ _ _ F)); [reflexivity|discriminate]).
  pose proof S1 as [Hl1 (H0 & H1 & H2) _]. cbn [utrapframe length] in H1, H2. change (4 * Z.of_nat 13) with 52 in *.
  destruct C as [Cerr [Cva [Cvt Cvf]] Cmap Ccow Chi Cst].
  assert (handler_is k1 a_pgfault (pte / 4096)) as Hi1.
  { destruct Chi as [Hr (hpte & A1 & A2 & A3)]. split; [exact Hr|]. exists hpte.
    rewrite Ed1, (L1 e _ He (PDX_user _ (proj1 Hr))). split; [exact A1|]. split; [exact A2|].
    rewrite <- A3. apply load32_bytes_eq. intros j Hj. apply M1. unfold pa. lia. }
  destruct (upcall_call_run cpunum e base kp a_pgfault_handler a_ret c_call live fe l k1 utf pte a_pgfault fl U1 Hl1 Hw Hfr Hi1 Hret) as (m1 & Ua & La & Ma & Hr8 & Ec).
  fold pa in Ma, Hr8. set (ka := with_phys m1 k1) in *.
  assert (∀ y, dirof ka y = dirof k y) as Eda by (intros y; exact (Ed1 y)).
  assert (∀ y v, y ∈ live → PDX v < UPDX →
    lookup_pte (phys (k_mm ka)) (dirof k y) v = lookup_pte (phys (k_mm k)) (dirof k y) v) as Hmap1.
  { intros y v Hy Hv. rewrite <- (L1 y v Hy Hv), <- Ed1. exact (La y v Hy Hv). }
  change UXSTACKTOP with 0xEEC00000 in Hfr.
  assert (0 ≤ utf < UTOP) as R0 by (change UTOP with 0xEEC00000; lia).
  assert (on_stack ka utf pte (utrapframe rcr2 tf)) as Sa.
  { apply (on_stack_kept e k1 ka utf pte _ 13 S1); [cbn; lia|exact (eq_trans (La e utf He (PDX_user _ R0)) Hl1)|].
    intros a Ha. apply Ma. fold pa in Ha. lia. }
  pose proof (λ i w, on_stack_load cpunum e base kp live fe l ka utf pte _ i w Ua Sa) as LD.
  pose proof (LD 0%nat _ eq_refl) as L0. pose proof (LD 1%nat _ eq_refl) as L4.
  change (4 * Z.of_nat 0) with 0 in L0. rewrite Z.add_0_r in L0.
  replace (utf + 4 * Z.of_nat 1) with (u32 (utf + 4)) in L4 by (rewrite u32_small; lia).
  destruct (pgfault_run cpunum e cons_getc rcr2 eflags uregs others base kp Hif Hcs live fe l ka utf rcr2 (tf_err tf) ptv)
    as (p & kb & l' & Ep & Ub & P & Hl').
  - exact Ua.
  - exact L0.
  - exact L4.
  - exact Cerr.
  - exact Cva.
  - exact Cvt.
  - rewrite Eda, (Hmap1 e rcr2 He (PDX_user _ Cva)). exact Cmap.
  - exact Ccow.
  - intros x. change (k_mm ka) with (set_phys m1 (k_mm k1)). cbn [pages npages set_phys]. rewrite Epg, Enp. apply Href.
  - exact Hlen.
  - destruct (pgfault_can_return live fe l l' k tf a_pgfault_upcall pte ptv p ka kb Ua Ub F
      (Build_cow_write k tf pte ptv Cerr (conj Cva (conj Cvt Cvf)) Cmap Ccow Chi Cst) P Eda Hmap1 Sa) as ((pte2 & CR) & Npp & Hl8 & E8).
    fold utf pa in CR, Hl8, E8.
    assert (∀ y, dirof kb y = dirof k y) as Edb.
    { intros y. rewrite <- Eda. apply kept_dirof. exact (pv_envs _ _ _ _ _ _ _ P y). }
    destruct (upcall_return_run cpunum e base kp live fe l' kb utf pte rcr2 tf pte2 fl Ub CR) as (m & Er & Um & Lm & Mm).
    fold pa in Mm. exists k1, ka, kb, m, p, l'. refine (conj E1 (conj T1 (conj _ (conj Um (conj _ Hl'))))).
    + rewrite Ec. rewrite run_bind. unfold c_call. rewrite Z.eqb_refl, Ep. cbv beta iota.
      rewrite run_bind, (upopl_run cpunum e base kp live fe l' kb (utf - 8) pte Ub); [|by rewrite Edb|change UTOP with 0xEEC00000; lia|lia].
      cbv beta iota. replace (pte / 4096 * 4096 + (utf - 8) mod 4096) with (pa - 8) by (unfold pa; lia).
      rewrite E8. change (phys (k_mm ka)) with m1. rewrite Hr8, Z.eqb_refl. cbv beta iota delta [negb].
      replace (utf - 8 + 4 + 4) with utf by lia. rewrite (u32_small utf) by lia. rewrite Er.
      by rewrite (popf_same fl (tf_eflags tf) Hfl).
    + split; [| | | | | | |exact Epg|exact G1|exact K1|exact T2].
      * exact P.
      * exact (conj Npp H1).
      * exact Eda.
      * exact Hmap1.
      * cbv zeta. fold utf. fold pa. intros a Ha. change (phys (k_mm ka)) with m1. rewrite Ma by lia. apply M1. lia.
      * intros y v Hy Hv. rewrite <- Edb. exact (Lm y v Hy Hv).
      * exists pte2. split; [rewrite <- Edb; exact (cr_map _ _ _ _ _ _ _ CR)|]. fold utf pa. exact Mm.
Qed.

(** The bytes of the word that the return sequence writes below the trap-time
    stack pointer: [a] is where [y] has address [v]. *)
Definition return_word (k : kst) (tf : Trapframe) (y v a : Z) : Prop :=
  let s := tf_esp tf - 4 in
  if decide (s / 4096 = rcr2 / 4096) then y = e ∧ s ≤ v < s + 4
  else ∃ pte2, lookup_pte (phys (k_mm k)) (dirof k e) s = Some pte2 ∧
    pte2 / 4096 * 4096 + s mod 4096 ≤ a < pte2 / 4096 * 4096 + s mod 4096 + 4.

Section after.
Context (live fe l : list Z) (k : kst) (tf : Trapframe) (pte ptv p : Z) (ka kb : kst) (m : mem).
Context (Hu : user_runs live fe l k) (C : cow_write k tf pte ptv) (S : cow_steps live k tf pte ptv p ka kb m).

Local Lemma after_range : 0 ≤ rcr2 < 4294967296 ∧ ROUNDDOWN rcr2 PGSIZE = rcr2 / 4096 * 4096 ∧
  0 ≤ tf_esp tf - 4 < UTOP.
Proof using Hu C S others.
  destruct C as [_ [Hva _] _ _ _ (Hs0 & Hs4 & _)]. change UTOP with 0xEEC00000 in Hva, Hs4 |- *.
  split; [lia|]. split; [rewrite ROUNDDOWN_page, u32_small by lia; done|lia].
Qed.

(** The private page is mapped by [e] at the faulting page only. *)
Lemma after_only y v pte' : y ∈ live → 0 ≤ v < UTOP → lookup_pte m (dirof k y) v = Some pte' → pte' / 4096 = p →
  y = e ∧ v / 4096 = rcr2 / 4096.
Proof using Hu C S others.
  intros Hy Hv Hl Hp. destruct after_range as (Hr & Er & _).
  rewrite (cs_map2 _ _ _ _ _ _ _ _ _ S y v Hy (PDX_user v Hv)), <- (cs_dir _ _ _ _ _ _ _ _ _ S) in Hl.
  pose proof (pv_only _ _ _ _ _ _ _ (cs_copy _ _ _ _ _ _ _ _ _ S) y v pte' Hy (PDX_user v Hv) Hl Hp) as Hss.
  apply same_slot_page in Hss as [Ed Ev]; [|rewrite Er; lia|by apply UTOP_range].
  rewrite !(cs_dir _ _ _ _ _ _ _ _ _ S) in Ed. rewrite Er in Ev. split; [|lia].
  symmetry. exact (ke_dir_inj _ _ _ _ _ _ (us_inv _ _ _ _ _ _ _ _ Hu) _ _ (us_live _ _ _ _ _ _ _ _ Hu) Hy Ed).
Qed.

Lemma after_map : lookup_pte m (dirof k e) rcr2 = Some (p * 4096 + 7).
Proof using Hu C S others.
  destruct after_range as (Hr & Er & _). pose proof (us_live _ _ _ _ _ _ _ _ Hu) as He.
  destruct C as [_ [Hva _] _ _ _ _].
  rewrite (cs_map2 _ _ _ _ _ _ _ _ _ S e rcr2 He (PDX_user _ Hva)), <- (cs_dir _ _ _ _ _ _ _ _ _ S).
  rewrite <- (pv_map _ _ _ _ _ _ _ (cs_copy _ _ _ _ _ _ _ _ _ S)), Er. apply lookup_pte_page. rewrite !u32_small; lia.
Qed.

Lemma after_sees y v pte' : y ∈ live → 0 ≤ v < UTOP →
  lookup_pte (phys (k_mm k)) (dirof k y) v = Some pte' → ¬ same_slot (dirof k e) PFTEMP (dirof k y) v →
  let pa := pte / 4096 * 4096 + frame_at tf mod 4096 in
  let a := pte' / 4096 * 4096 + v mod 4096 in
  ¬ (pa - 8 ≤ a < pa + 52) → ¬ return_word k tf y v a →
  sees m (dirof k y) v = sees (phys (k_mm k)) (dirof k y) v.
Proof using Hu C S others.
  intros Hy Hv Hl Ht pa a Ha Hn. destruct after_range as (Hr & Er & Hs).
  pose proof (us_live _ _ _ _ _ _ _ _ Hu) as He. pose proof C as [_ [Hva [_ Hvf]] Hmv _ _ (_ & _ & Hso & Hsc)].
  pose proof (cs_copy _ _ _ _ _ _ _ _ _ S) as P. pose proof (cs_dir _ _ _ _ _ _ _ _ _ S) as Ed.
  assert (sees (phys (k_mm ka)) (dirof k y) v = sees (phys (k_mm k)) (dirof k y) v) as S1.
  { unfold sees. rewrite (cs_map1 _ _ _ _ _ _ _ _ _ S y v Hy (PDX_user v Hv)), Hl. simpl. f_equal.
    by apply (cs_mem1 _ _ _ _ _ _ _ _ _ S). }
  assert (sees (phys (k_mm kb)) (dirof k y) v = sees (phys (k_mm ka)) (dirof k y) v) as S2.
  { rewrite <- Ed. apply (private_copy_sees e others base live rcr2 ptv p ka kb y v P He Hva Hy Hv).
    - rewrite Ed, (cs_map1 _ _ _ _ _ _ _ _ _ S e rcr2 He (PDX_user _ Hva)). exact Hmv.
    - rewrite !Ed. exact Ht. }
  rewrite <- S1, <- S2. unfold sees. rewrite (cs_map2 _ _ _ _ _ _ _ _ _ S y v Hy (PDX_user v Hv)).
  destruct (lookup_pte (phys (k_mm kb)) (dirof k y) v) as [ptb|] eqn:Eb; [|done]. simpl. f_equal.
  destruct (cs_mem2 _ _ _ _ _ _ _ _ _ S) as (pte2 & Hl2 & M2). cbv zeta in M2. fold pa in M2.
  pose proof (λ y v q Hy Hv H, after_only y v q Hy Hv (eq_trans (cs_map2 _ _ _ _ _ _ _ _ _ S y v Hy (PDX_user v Hv)) H)) as Only.
  destruct (decide (ptb / 4096 = p)) as [Ep|Np].
  - destruct (Only y v ptb Hy Hv Eb Ep) as [-> Ev]. apply M2.
    + intros Hq. destruct (decide (pte2 / 4096 = p)) as [Ep2|Np2]; [|lia].
      destruct (Only e _ pte2 He Hs Hl2 Ep2) as [_ Es]. apply Hn. unfold return_word. cbv zeta.
      rewrite decide_True by exact Es. split; [done|lia].
    + intros Hq. destruct (cs_frame _ _ _ _ _ _ _ _ _ S) as [Np Hro]. apply Np. unfold pa in Hq. lia.
  - assert (¬ same_slot (dirof k e) (ROUNDDOWN rcr2 PGSIZE) (dirof k y) v) as Nva.
    { intros (E1 & E2 & E3). pose proof (pv_map _ _ _ _ _ _ _ P) as Hm. rewrite Ed in Hm.
      unfold lookup_pte in Hm, Eb. rewrite E1, E2, E3, Eb in Hm. injection Hm as ->. apply Np. lia. }
    assert (lookup_pte (phys (k_mm kb)) (dirof k y) v = Some pte') as Eb'.
    { rewrite <- Ed. rewrite (pv_others _ _ _ _ _ _ _ P y v Hy (PDX_user v Hv)) by (rewrite !Ed; assumption).
      rewrite Ed, (cs_map1 _ _ _ _ _ _ _ _ _ S y v Hy (PDX_user v Hv)). exact Hl. }
    rewrite Eb in Eb'. injection Eb' as ->. fold a. apply M2; [|lia]. intros Hq.
    destruct (decide ((tf_esp tf - 4) / 4096 = rcr2 / 4096)) as [Es|Ns].
    + pose proof (pv_map _ _ _ _ _ _ _ P) as Hm. rewrite Ed in Hm.
      rewrite (lookup_pte_page _ _ _ (tf_esp tf - 4)), Hl2 in Hm.
      * injection Hm as ->. unfold a in Hq. lia.
      * rewrite Er. change UTOP with 0xEEC00000 in Hs. rewrite !u32_small; lia.
    + destruct Hsc as [|(Nt & pte3 & Hl3 & _)]; [done|].
      destruct (pgfault_keeps live k tf pte ptv p ka kb (tf_esp tf - 4) pte3 C P Ed He Hs Ns Nt) as (B & _).
      { rewrite (cs_map1 _ _ _ _ _ _ _ _ _ S e _ He (PDX_user _ Hs)). exact Hl3. }
      rewrite Hl2 in B. injection B as ->. apply Hn. unfold return_word. cbv zeta. rewrite decide_False by exact Ns.
      exists pte3. exact (conj Hl3 Hq).
Qed.
End after.

(** C5: copy-on-write is transparent.  User code writes to a copy-on-write page and
    faults ([faults], [cow_write]: the upcall and the handler are installed, there
    is room on the exception stack, and the word below the stack pointer is on the
    faulting page or on another writable one); two pages are free.  The kernel
    enters [_pgfault_upcall] at a frame on the exception stack, and this comes back
    to the instruction that faulted, with every register, the flags and the stack
    pointer as at the fault.  The page is then mapped writable, to a page that
    nobody else maps; every environment sees the memory it saw, the scratch page
    apart, and apart from the exception frame and the word below the stack
    pointer. *)
Theorem cow_fault_transparent live fe l k tf pte ptv fl :
  user_runs live fe l k → faults k tf a_pgfault_upcall pte → cow_write k tf pte ptv → word a_ret →
  refs_small k → (2 ≤ length l)%nat → Z.land (tf_eflags tf) (Z.lnot UFLAGS) = Z.land fl (Z.lnot UFLAGS) →
  ∃ k1 k2 p l', trap cpunum cons_getc rcr2 eflags false tf k = (Stop (SUser e), k1) ∧
    env_tf (envs k1 e) = tf_set_esp (frame_at tf) (tf_set_eip a_pgfault_upcall tf) ∧
    upcall fl (frame_at tf) k1 = (Ret (mkU (tf_regs tf) (tf_eip tf) (tf_eflags tf) (tf_esp tf)), k2) ∧
    user_runs live fe l' k2 ∧
    lookup_pte (phys (k_mm k2)) (dirof k e) rcr2 = Some (p * 4096 + 7) ∧
    (∀ y v pte', y ∈ live → 0 ≤ v < UTOP →
       lookup_pte (phys (k_mm k2)) (dirof k y) v = Some pte' → pte' / 4096 = p → y = e ∧ v / 4096 = rcr2 / 4096) ∧
    ∀ y v pte', y ∈ live → 0 ≤ v < UTOP →
      lookup_pte (phys (k_mm k)) (dirof k y) v = Some pte' → ¬ same_slot (dirof k e) PFTEMP (dirof k y) v →
      let pa := pte / 4096 * 4096 + frame_at tf mod 4096 in
      let a := pte' / 4096 * 4096 + v mod 4096 in
      ¬ (pa - 8 ≤ a < pa + 52) → ¬ return_word k tf y v a →
      sees (phys (k_mm k2)) (dirof k y) v = sees (phys (k_mm k)) (dirof k y) v.
Proof using Hif Hcs.
  intros Hu F C Hret Href Hlen Hfl.
  destruct (cow_fault_run live fe l k tf pte ptv fl Hu F C Hret Href Hlen Hfl)
    as (k1 & ka & kb & m & p & l' & E1 & T1 & E2 & U2 & S & _).
  exists k1, (with_phys m kb), p, l'. refine (conj E1 (conj T1 (conj E2 (conj U2 _)))).
  exact (conj (after_map live fe l k tf pte ptv p ka kb m Hu C S)
    (conj (after_only live fe l k tf pte ptv p ka kb m Hu C S) (after_sees live fe l k tf pte ptv p ka kb m Hu C S))).
Qed.
End whole.

(** ** A fault on the machine of ForkDemo

    The handler is at 0x800300, the entry point at 0x800200, and environment 0
    writes to 0x800123 with its stack pointer in the same page. *)
Definition cow_k : kst :=
  upd_env 0 (λ v, with_upcall v 0x800200) (with_phys (store32 fork_mem (6 * 4096) 0x800300) fork_k).
Definition cow_tf : Trapframe :=
  mkTf (mkRegs 1 2 3 4 5 6 7 8) (Z.lor GD_UD 3) (Z.lor GD_UD 3) T_PGFLT 7 0x800020 (Z.lor GD_UT 3) FL_IF
    0x800400 (Z.lor GD_UD 3).

Lemma cow_runs : user_runs 0 0 fork_base 1 [0] (zrange 1 1023) (zrange 9 2039) cow_k.
Proof.
  destruct (user_runs_with_phys 0 0 (λ _ _, None) fork_base 1 [0] (zrange 1 1023) (zrange 9 2039) fork_k 6 0x801000
    (store32 fork_mem (6 * 4096) 0x800300) fork_runs) as [U _].
  - split; [exact fork_k_inv|reflexivity|]. exists (6 * 4096 + 7). by vm_compute.
  - by vm_compute.
  - intros a Ha. rewrite load8_store32, decide_False by lia. reflexivity.
  - destruct U as [H Hok Hc Hs Hl Hst Hcr Hself]. split; try assumption.
    apply ke_upd_env; [exact H|left|by vm_compute|reflexivity|reflexivity].
Qed.

Lemma cow_faults : faults 0 0x800123 cow_k cow_tf 0x800200 (7 * 4096 + 7).
Proof.
  split; [split; [split|..]; by vm_compute|reflexivity|reflexivity|by vm_compute|by vm_compute|by vm_compute|by vm_compute|reflexivity].
Qed.

Lemma cow_cow : cow_write 0 0x800123 0x801000 0x800300 cow_k cow_tf (7 * 4096 + 7) (5 * 4096 + 0x805).
Proof.
  split; [reflexivity|by vm_compute|by vm_compute|reflexivity| |].
  - split; [by vm_compute|]. exists (6 * 4096 + 7). by vm_compute.
  - split; [by vm_compute|]. split; [by vm_compute|]. split; [by vm_compute|]. left. reflexivity.
Qed.

Lemma cow_fault_transparent_witness : ∃ k1 k2 p,
  trap 0 (mret 0) 0x800123 0 false cow_tf cow_k = (Stop (SUser 0), k1) ∧
  _pgfault_upcall 0 0x801000 0x800280 (c_call 0 0 (mret 0) 0x800123 0 (demo_frame 48) (λ _ _, None) 0x800300)
    FL_IF (UXSTACKTOP - 56) k1 = (Ret (mkU (mkRegs 1 2 3 4 5 6 7 8) 0x800020 FL_IF 0x800400), k2) ∧
  lookup_pte (phys (k_mm k2)) (dirof cow_k 0) 0x800123 = Some (p * 4096 + 7).
Proof.
  destruct (cow_fault_transparent 0 0 (mret 0) 0x800123 0 (demo_frame 48) (λ _ _, None) fork_base 1 eq_refl eq_refl
    0x801000 0x800280 0x800200 0x800300 [0] (zrange 1 1023) (zrange 9 2039) cow_k cow_tf (7 * 4096 + 7) (5 * 4096 + 0x805) FL_IF
    cow_runs cow_faults cow_cow) as (k1 & k2 & p & l' & E1 & _ & E2 & _ & Hm & _).
  - by vm_compute.
  - intros x _. pose proof (fork_refs_low x). change (pp_ref (pages (k_mm cow_k) x)) with (pp_ref (pages (k_mm fork_k) x)). lia.
  - vm_compute. lia.
  - reflexivity.
  - exists k1, k2, p. exact (conj E1 (conj E2 Hm)).
Defined.
