(* ===== verification/ForkStack.v ===== *)
(** * fork on its own stack

    The stores that calls make on the stack of a process, as the machine executes
    them: a store to a page that is not writable is a page fault, which the
    kernel reflects to [_pgfault_upcall]; that runs [pgfault], comes back, and
    the store is executed again.  They obey the laws of UserStack, so that
    [fork] is correct on the stack it makes copy-on-write. *)
From S2P Require Import Prelude Monad Word Layout Mem CString PageAlloc PageTable PageInv PageOps PageDirs Seg KState Env EnvMem KInv EnvSpec Sched SchedSpec UserMem Syscall Trap UserStore TrapSpec SysSpec MemInit UserLib UserSpec ForkSpec UserEntry UserStack ForkDemo DupPage ForkLoop ForkThm ForkRun KernelSafe CowFault.

Section push.
Context (cpunum e : Z) (cons_getc : K Z) (rcr2 eflags : Z) (uregs : Trapframe).
Context (others : stop → kst → option kst).
Context (a_pgfault_handler a_ret a_pgfault_upcall a_pgfault : Z).
(** The stack pointer at a call of each depth, and the words that the call leaves
    below it: arguments, return address, saved registers. *)
Context (sp : nat → Z) (words : nat → kst → list Z).

(** The error code of a user-mode write fault: bit 0 tells whether the page is
    mapped. *)
Definition write_err (k : kst) (va : Z) : Z :=
  match vtrans (phys (k_mm k)) (cpu_cr3 (cpus k cpunum)) va false with Some _ => 7 | None => 6 end.

(** The frame of a fault at [va] of an instruction that pushes a word there. *)
Definition push_frame (k : kst) (va : Z) : Trapframe :=
  mkTf (tf_regs uregs) (tf_es uregs) (tf_ds uregs) T_PGFLT (write_err k va) (tf_eip uregs) (tf_cs uregs)
    (tf_eflags uregs) (u32 (va + 4)) (tf_ss uregs).

(** The fault: into the kernel, and from there to the entry point with the stack
    pointer at the exception frame, which goes back to the instruction. *)
Definition fault_at (va : Z) : K () :=
  frame ← gets (λ k, push_frame k va);
  (λ k, back e others (trap cpunum cons_getc va eflags false frame k)) ;;
  env ← get_env e;
  let tf := env_tf env in
  if negb (tf_eip tf =? a_pgfault_upcall) then undef "not at the entry point"
  else
    u ← _pgfault_upcall cpunum a_pgfault_handler a_ret
          (c_call cpunum e cons_getc va eflags uregs others a_pgfault) (tf_eflags tf) (tf_esp tf);
    if (u_eip u =? tf_eip frame) && (u_esp u =? tf_esp frame) then mret tt else undef "not at the push".

(** [pushl v], with [va] the stack pointer after it. *)
Definition upush (va v : Z) : K () :=
  b ← gets (λ k, vtrans (phys (k_mm k)) (cpu_cr3 (cpus k cpunum)) va true);
  match b with Some _ => mret tt | None => fault_at va end ;;
  vstore32 cpunum va v.

Fixpoint push_words (esp : Z) (ws : list Z) : K () :=
  match ws with
  | [] => mret tt
  | w :: ws => let esp := u32 (esp - 4) in upush esp w ;; push_words esp ws
  end.

Definition push (depth : nat) : K () :=
  ws ← gets (words depth); push_words (sp depth) ws.

(** ** On a writable page *)

Context (base : Z → Z) (kp : Z).
Notation user_runs := (user_runs cpunum e base kp).
(** The words of every call fit between the bottom of the page and [top], and
    there is at least the return address. *)
Context (top : Z) (Htop : USTACKPAGE < top ≤ USTACKTOP).
Notation below := (below top).
Notation pushed := (pushed top).
Context (Hfit : ∀ depth k, words depth k ≠ [] ∧
  USTACKPAGE ≤ sp depth - 4 * Z.of_nat (length (words depth k)) ∧ sp depth ≤ top).

Lemma pushed_refl s k : pushed s k k.
Proof. split; [by destruct k, k_mm|done]. Qed.
Lemma pushed_trans s k1 k2 k3 : pushed s k1 k2 → pushed s k2 k3 → pushed s k1 k3.
Proof.
  intros [E1 M1] [E2 M2]. split.
  - rewrite E2. by rewrite E1 at 1.
  - intros a Ha. by rewrite M2, M1.
Qed.

(** An address in the stack page, below [top]. *)
Lemma stack_va va : USTACKPAGE ≤ va → va + 4 ≤ top →
  0 ≤ va < UTOP ∧ va mod 4096 + 4 ≤ 4096 ∧ va / 4096 = USTACKPAGE / 4096 ∧ va mod 4096 = va - USTACKPAGE ∧
  va mod 4096 + 4 ≤ top - USTACKPAGE ∧ u32 va = va ∧ u32 (va + 4) = va + 4.
Proof using Htop.
  change USTACKPAGE with 0xEEBFD000 in *. change USTACKTOP with 0xEEBFE000 in *. change UTOP with 0xEEC00000.
  change (0xEEBFD000 / 4096) with 0xEEBFD. intros H0 H1. clear -Htop H0 H1. rewrite !u32_small by lia. lia.
Qed.

Lemma stack_lookup m d va : USTACKPAGE ≤ va → va + 4 ≤ top → lookup_pte m d va = lookup_pte m d USTACKPAGE.
Proof using Htop.
  intros H0 H1. apply lookup_pte_page. destruct (stack_va va H0 H1) as (_ & _ & E & _ & _ & -> & _). by rewrite E.
Qed.

Lemma store_pushed live fe l k va v pte :
  user_runs live fe l k → lookup_pte (phys (k_mm k)) (dirof k e) USTACKPAGE = Some pte → flag pte PTE_W = true →
  USTACKPAGE ≤ va → va + 4 ≤ top →
  ∃ k', vstore32 cpunum va v k = (Ret tt, k') ∧ pushed (pte / 4096) k k'.
Proof using Htop.
  intros Hu Hl Hw H0 H1. destruct (stack_va va H0 H1) as (Hva & Hoff & _ & _ & Ht & _).
  destruct (ustore32_run cpunum e base kp live fe l k va pte v Hu) as (E & _); [by rewrite stack_lookup|exact Hw|exact Hva|exact Hoff|].
  eexists. split; [exact E|]. split; [reflexivity|]. intros a Ha. cbn [k_mm with_phys set_mm phys set_phys].
  rewrite load8_store32, decide_False; [done|]. unfold UserStack.below in Ha. clear -Ha Ht H0. lia.
Qed.

Lemma upush_plain live fe l k va v pte :
  user_runs live fe l k → lookup_pte (phys (k_mm k)) (dirof k e) USTACKPAGE = Some pte → flag pte PTE_W = true →
  USTACKPAGE ≤ va → va + 4 ≤ top →
  ∃ k', upush va v k = (Ret tt, k') ∧ pushed (pte / 4096) k k'.
Proof using Htop.
  intros Hu Hl Hw H0 H1. destruct (store_pushed live fe l k va v pte Hu Hl Hw H0 H1) as (k' & E & Q).
  exists k'. split; [|exact Q]. destruct (stack_va va H0 H1) as (Hva & _). unfold upush. rewrite run_bind, run_gets.
  rewrite (vtrans_writable _ _ (dirof k e) va (pte / 4096) (us_cr3 _ _ _ _ _ _ _ _ Hu)).
  - rewrite run_bind, run_ret. exact E.
  - change UTOP with 0xEEC00000 in Hva. change KERNBASE with 0xF0000000. lia.
  - exists pte. by rewrite stack_lookup.
Qed.

Lemma push_words_plain live fe l ws : ∀ esp k pte,
  user_runs live fe l k → lookup_pte (phys (k_mm k)) (dirof k e) USTACKPAGE = Some pte → flag pte PTE_W = true →
  USTACKPAGE ≤ esp - 4 * Z.of_nat (length ws) → esp ≤ top →
  ∃ k', push_words esp ws k = (Ret tt, k') ∧ pushed (pte / 4096) k k'.
Proof using Htop.
  induction ws as [|w ws IH]; intros esp k pte Hu Hl Hw Hlo Hhi.
  - exists k. split; [reflexivity|apply pushed_refl].
  - cbn [length] in Hlo. destruct (stack_va (esp - 4) ltac:(lia) ltac:(lia)) as (_ & _ & _ & _ & _ & Ee & _).
    cbn [push_words]. rewrite Ee.
    destruct (upush_plain live fe l k (esp - 4) w pte Hu Hl Hw ltac:(lia) ltac:(lia)) as (k1 & E1 & Q1).
    assert (writable (phys (k_mm k)) (dirof k e) USTACKPAGE (pte / 4096)) as Hs by (by exists pte).
    destruct (IH (esp - 4) k1 pte) as (k2 & E2 & Q2); try lia.
    + exact (pushed_runs _ _ _ _ _ Htop _ _ _ _ _ _ Hu Hs Q1).
    + rewrite (proj2 (proj2 (proj2 (proj2 (pushed_state _ _ _ _ Q1))))), <- Hl.
      apply (pushed_lookup _ _ _ _ _ Htop _ _ _ _ _ _ Hu Hs Q1); [exact (us_live _ _ _ _ _ _ _ _ Hu)|by vm_compute].
    + exact Hw.
    + exists k2. split; [by rewrite run_bind, E1|exact (pushed_trans _ _ _ _ Q1 Q2)].
Qed.

(** ** On a copy-on-write page *)

Context (Hif : flag eflags FL_IF = false) (Hcs : Z.land (tf_cs uregs) 3 = 3).
Context (Hty : tf_typed uregs) (Hret : word a_ret) (Hup : a_pgfault_upcall ≠ 0).
Context (Hh : 0 ≤ a_pgfault_handler < UTOP ∧ a_pgfault_handler mod 4096 + 4 ≤ 4096).
Notation fault_ready := (fault_ready e a_pgfault_handler a_pgfault_upcall a_pgfault).
Notation cow_write va := (cow_write e va a_pgfault_handler a_pgfault).
Notation cow_steps va := (cow_steps e va).
Notation UX := (UXSTACKTOP - PGSIZE).

Section fault.
Context (live fe l : list Z) (k : kst) (pte u va : Z).
Context (Hu : user_runs live fe l k) (Hl : lookup_pte (phys (k_mm k)) (dirof k e) USTACKPAGE = Some pte).
Context (Hcow : flag pte PTE_COW = true) (Hpu : pte / 4096 ≠ u) (R : fault_ready u k).
Context (Hlo : USTACKPAGE ≤ va) (Hhi : va + 4 ≤ top).
Notation tf := (push_frame k va).

Local Lemma ft_frame : frame_at tf = UXSTACKTOP - 56 ∧ frame_at tf mod 4096 = 4040 ∧ tf_esp tf = va + 4.
Proof using Htop Hlo Hhi.
  destruct (stack_va va Hlo Hhi) as (_ & _ & _ & _ & _ & _ & E). cbn [tf_esp push_frame].
  assert (frame_at tf = UXSTACKTOP - 56) as Ef.
  { unfold frame_at. cbn [tf_esp push_frame]. rewrite E. change USTACKTOP with 0xEEBFE000 in Htop.
    change UXSTACKTOP with 0xEEC00000. change PGSIZE with 4096.
    destruct (Z.ltb_spec (0xEEC00000 - 4096) (va + 4)); [clear -H Hhi Htop; lia|reflexivity]. }
  rewrite Ef. by split_and!.
Qed.

Local Lemma ft_err : write_err k va = 7.
Proof using Htop Hu Hl Hlo Hhi.
  unfold write_err. rewrite (us_cr3 _ _ _ _ _ _ _ _ Hu). destruct (stack_va va Hlo Hhi) as (Hva & _).
  rewrite (vtrans_read _ _ _ pte); [reflexivity| |by rewrite stack_lookup].
  change UTOP with 0xEEC00000 in Hva. change KERNBASE with 0xF0000000. clear -Hva. lia.
Qed.

Local Lemma ft_faults : ∃ ux, ux / 4096 = u ∧ faults e va k tf a_pgfault_upcall ux.
Proof using Htop Hu Hl R Hlo Hhi Hty Hcs Hup.
  destruct ft_frame as (Ef & Em & _). destruct (stack_va va Hlo Hhi) as (Hva & _).
  destruct (fr_stack _ _ _ _ _ _ R) as (ux & Hlx & Hp & Eu). exists ux. split; [exact Eu|]. split.
  - destruct Hty as [h1 h2 h3 _ _ h6 h7 h8 _ h10].
    split; cbn [push_frame tf_regs tf_es tf_ds tf_trapno tf_err tf_eip tf_cs tf_eflags tf_esp tf_ss];
      try assumption; [by vm_compute|rewrite ft_err; by vm_compute|apply u32_range].
  - exact Hcs.
  - reflexivity.
  - change UTOP with 0xEEC00000 in Hva. unfold word. clear -Hva. lia.
  - exact (conj (fr_upcall _ _ _ _ _ _ R) Hup).
  - rewrite Ef. by vm_compute.
  - rewrite Ef, <- Hlx. apply lookup_pte_page. by vm_compute.
  - exact Hp.
Qed.

Local Lemma ft_write ux : ux / 4096 = u → cow_write va k tf ux pte.
Proof using Htop Hu Hl Hcow R Hlo Hhi Hh.
  intros Eu. destruct ft_frame as (Ef & Em & Es). destruct (stack_va va Hlo Hhi) as (Hva & Hoff & Ev & Hm & _).
  destruct (fr_handler _ _ _ _ _ _ R) as (hp & Hlh & Hn & Hw). split.
  - cbn [push_frame tf_err]. by rewrite ft_err.
  - split; [exact Hva|]. rewrite Ev, Ef. split; by vm_compute.
  - by rewrite stack_lookup.
  - exact Hcow.
  - split; [exact Hh|]. exists hp. rewrite Eu. by split_and!.
  - unfold stack_ok. rewrite Es. replace (va + 4 - 4) with va by (clear; lia). cbv zeta.
    split; [exact (proj1 Hva)|]. split; [|split; [exact Hoff|by left]].
    change UTOP with 0xEEC00000. change USTACKTOP with 0xEEBFE000 in Htop. clear -Hhi Htop. lia.
Qed.

(** The fault comes back to the push. *)
Lemma fault_at_run : refs_small k → (2 ≤ length l)%nat →
  ∃ ux ka kb m p l', ux / 4096 = u ∧ fault_at va k = (Ret tt, with_phys m kb) ∧ user_runs live fe l' (with_phys m kb) ∧
    cow_steps va live k tf ux pte p ka kb m ∧ (length l ≤ length l' + 2)%nat.
Proof using Htop Hif Hcs Hty Hret Hup Hh Hu Hl Hcow R Hlo Hhi.
  intros Href Hlen. destruct ft_faults as (ux & Eu & F). pose proof (ft_write ux Eu) as W.
  destruct (cow_fault_run cpunum e cons_getc va eflags uregs others base kp Hif Hcs a_pgfault_handler a_ret a_pgfault_upcall
    a_pgfault live fe l k tf ux pte (tf_eflags uregs) Hu F W Hret Href Hlen eq_refl)
    as (k1 & ka & kb & m & p & l' & E1 & T1 & E2 & U2 & S & Hl').
  exists ux, ka, kb, m, p, l'. refine (conj Eu (conj _ (conj U2 (conj S Hl')))).
  unfold fault_at. rewrite run_bind, run_gets, run_bind, E1. cbn [back]. rewrite Z.eqb_refl. cbv beta iota.
  rewrite run_bind. unfold get_env at 1. rewrite run_gets. rewrite T1. cbn [tf_eip tf_esp tf_eflags tf_set_esp tf_set_eip push_frame].
  rewrite Z.eqb_refl. cbn [negb]. rewrite run_bind, E2. cbn [u_eip u_esp push_frame tf_eip tf_esp]. by rewrite !Z.eqb_refl.
Qed.

(** What the environments see of it, once the words are on the private page. *)
Section after.
Context (ux p : Z) (ka kb : kst) (m : mem) (l' : list Z) (kf : kst).
Context (Eu : ux / 4096 = u) (S : cow_steps va live k tf ux pte p ka kb m).
Context (U2 : user_runs live fe l' (with_phys m kb)) (Q : pushed p (with_phys m kb) kf).
Notation P := (cs_copy _ _ _ _ _ _ _ _ _ _ _ S).

Local Lemma ft_dir y : dirof kb y = dirof k y ∧ dirof ka y = dirof k y.
Proof using S.
  pose proof (cs_dir _ _ _ _ _ _ _ _ _ _ _ S y) as E. split; [|exact E]. rewrite <- E.
  apply kept_dirof, (pv_envs _ _ _ _ _ _ _ P).
Qed.

Local Lemma ft_map : lookup_pte m (dirof k e) USTACKPAGE = Some (p * 4096 + 7).
Proof using Htop Hu Hl Hcow R Hlo Hhi Hh Eu S others.
  rewrite <- (stack_lookup m (dirof k e) va Hlo Hhi).
  exact (after_map cpunum e va others base kp a_pgfault_handler a_pgfault live fe l k tf ux pte p ka kb m Hu (ft_write ux Eu) S).
Qed.

Local Lemma ft_writable : writable (phys (k_mm (with_phys m kb))) (dirof (with_phys m kb) e) USTACKPAGE p.
Proof using Htop Hu Hl Hcow R Hlo Hhi Hh Eu S others.
  exists (p * 4096 + 7). change (dirof (with_phys m kb) e) with (dirof kb e). rewrite (proj1 (ft_dir e)).
  split; [exact ft_map|]. split; [rewrite flag_page by (vm_compute; split; [discriminate|done]); reflexivity|]. clear. lia.
Qed.

Local Lemma ft_lookup y v : y ∈ live → 0 ≤ v < UTOP →
  lookup_pte (phys (k_mm kf)) (dirof k y) v = lookup_pte m (dirof k y) v.
Proof using Htop Hu Hl Hcow R Hlo Hhi Hh Eu S U2 Q others.
  intros Hy Hv. pose proof (pushed_lookup _ _ _ _ _ Htop _ _ _ _ _ _ U2 ft_writable Q y v Hy (PDX_user v Hv)) as E.
  change (dirof (with_phys m kb) y) with (dirof kb y) in E. by rewrite (proj1 (ft_dir y)) in E.
Qed.

(** Entries other than that of the stack. *)
Local Lemma ft_others y v : y ∈ live → 0 ≤ v < UTOP → ¬ (y = e ∧ v / 4096 = USTACKPAGE / 4096) →
  lookup_pte m (dirof k y) v = lookup_pte (phys (k_mm k)) (dirof k y) v.
Proof using Htop Hu Hl R Hlo Hhi S.
  intros Hy Hv Hn. pose proof (us_inv _ _ _ _ _ _ _ _ Hu) as Hi. pose proof (us_live _ _ _ _ _ _ _ _ Hu) as He.
  destruct (stack_va va Hlo Hhi) as (Hva & _ & Ev & _). destruct (ft_dir e) as [_ Dae]. destruct (ft_dir y) as [_ Day].
  rewrite (cs_map2 _ _ _ _ _ _ _ _ _ _ _ S y v Hy (PDX_user v Hv)).
  rewrite <- (cs_map1 _ _ _ _ _ _ _ _ _ _ _ S y v Hy (PDX_user v Hv)).
  destruct (decide (same_slot (dirof k e) PFTEMP (dirof k y) v)) as [(E1 & E2 & E3)|Ht].
  - pose proof (pv_temp _ _ _ _ _ _ _ P) as A. rewrite Dae in A.
    assert (lookup_pte (phys (k_mm ka)) (dirof k e) PFTEMP = None) as B.
    { rewrite (cs_map1 _ _ _ _ _ _ _ _ _ _ _ S e PFTEMP He) by (by vm_compute). exact (fr_temp _ _ _ _ _ _ R). }
    unfold lookup_pte in A, B |- *. by rewrite <- E1, <- E2, <- E3, A, B.
  - rewrite <- Day. apply (pv_others _ _ _ _ _ _ _ P y v Hy (PDX_user v Hv)).
    + rewrite Dae, Day. intros [Ed Ep]%same_slot_page; [| |by apply UTOP_range].
      * apply (ke_dir_inj _ _ _ _ _ _ Hi) in Ed; [|assumption..]. apply Hn. split; [done|].
        rewrite <- Ev, <- Ep. change UTOP with 0xEEC00000 in Hva. rewrite ROUNDDOWN_page, u32_small by (clear -Hva; lia). clear. lia.
      * change UTOP with 0xEEC00000 in Hva. rewrite ROUNDDOWN_page, u32_small by (clear -Hva; lia). clear -Hva. lia.
    + by rewrite Dae, Day.
Qed.

Local Lemma ft_only y v pte' : y ∈ live → 0 ≤ v < UTOP → lookup_pte m (dirof k y) v = Some pte' → pte' / 4096 = p →
  y = e ∧ v / 4096 = USTACKPAGE / 4096.
Proof using Htop Hu Hl Hcow R Hlo Hhi Hh Eu S others.
  intros Hy Hv H Ep. destruct (stack_va va Hlo Hhi) as (_ & _ & <- & _).
  exact (after_only cpunum e va others base kp a_pgfault_handler a_pgfault live fe l k tf ux pte p ka kb m Hu
    (ft_write ux Eu) S y v pte' Hy Hv H Ep).
Qed.

Local Lemma ft_fresh y v pte' : y ∈ live → 0 ≤ v < UTOP → lookup_pte (phys (k_mm k)) (dirof k y) v = Some pte' → pte' / 4096 ≠ p.
Proof using Htop Hu Hl Hcow R Hlo Hhi Hh Eu S others.
  intros Hy Hv H Ep. destruct (decide (y = e ∧ v / 4096 = USTACKPAGE / 4096)) as [[-> Ev]|Hn].
  - apply (pv_fresh _ _ _ _ _ _ _ P). rewrite <- Ep. f_equal.
    rewrite (lookup_pte_page _ _ v USTACKPAGE), Hl in H; [by injection H|].
    change USTACKPAGE with 0xEEBFD000 in *. change UTOP with 0xEEC00000 in Hv. rewrite !u32_small by (clear -Hv; lia). exact Ev.
  - rewrite <- (ft_others y v Hy Hv Hn) in H. exact (Hn (ft_only y v pte' Hy Hv H Ep)).
Qed.

(** A byte that is neither below [top] nor on the exception stack. *)
Local Lemma ft_mem a : ¬ below p a → a / 4096 ≠ u → load8 m a = load8 (phys (k_mm kb)) a.
Proof using Htop Hu Hl Hcow R Hlo Hhi Hh Eu S others.
  intros Hp Hau. destruct ft_frame as (_ & Em & Es). destruct (cs_mem2 _ _ _ _ _ _ _ _ _ _ _ S) as (pte2 & Hl2 & M).
  destruct (stack_va va Hlo Hhi) as (Hva & Hoff & _ & Hm & Ht & _).
  rewrite Es in Hl2, M. replace (va + 4 - 4) with va in Hl2, M by (clear; lia).
  pose proof (us_live _ _ _ _ _ _ _ _ Hu) as He. cbv zeta in M. apply M.
  - rewrite <- (cs_map2 _ _ _ _ _ _ _ _ _ _ _ S e va He (PDX_user va Hva)), (stack_lookup m _ va Hlo Hhi), ft_map in Hl2.
    injection Hl2 as <-. unfold UserStack.below in Hp. clear -Hp Ht. lia.
  - rewrite Em, Eu. clear -Hau. lia.
Qed.

Local Lemma ft_data y v pte' a : y ∈ live → 0 ≤ v < UTOP → lookup_pte (phys (k_mm k)) (dirof k y) v = Some pte' →
  a / 4096 = pte' / 4096 → a / 4096 ≠ u → load8 (phys (k_mm kf)) a = load8 (phys (k_mm k)) a.
Proof using Htop Hu Hl Hcow R Hlo Hhi Hh Eu S Q others.
  intros Hy Hv H Ea Hau. pose proof (us_live _ _ _ _ _ _ _ _ Hu) as He. destruct (ft_dir e) as [_ Dae]. destruct (ft_dir y) as [_ Day].
  assert (¬ below p a) as Hb.
  { intros Hb%(below_page _ Htop). apply (ft_fresh y v pte' Hy Hv H). congruence. }
  transitivity (load8 m a); [exact (ps_mem _ _ _ _ Q a Hb)|]. rewrite (ft_mem a Hb Hau).
  transitivity (load8 (phys (k_mm ka)) a).
  - replace a with (pte' / 4096 * 4096 + a mod 4096) by (clear -Ea; lia).
    apply (pv_data _ _ _ _ _ _ _ P y v pte' (a mod 4096) Hy (PDX_user v Hv)).
    + rewrite Day, (cs_map1 _ _ _ _ _ _ _ _ _ _ _ S y v Hy (PDX_user v Hv)). exact H.
    + rewrite Dae, Day. intros (E1 & E2 & E3). pose proof (fr_temp _ _ _ _ _ _ R) as B.
      unfold lookup_pte in B, H. rewrite <- E1, <- E2, <- E3, B in H. discriminate H.
    + clear. lia.
  - apply (cs_mem1 _ _ _ _ _ _ _ _ _ _ _ S). destruct ft_frame as (_ & Em & _). rewrite Em, Eu. clear -Hau. lia.
Qed.

Local Lemma ft_copy i : top - USTACKPAGE ≤ i < 4096 →
  load8 (phys (k_mm kf)) (p * 4096 + i) = load8 (phys (k_mm k)) (pte / 4096 * 4096 + i).
Proof using Htop Hu Hl Hcow Hpu R Hlo Hhi Hh Eu S Q others.
  intros Hi. assert (0 ≤ i < 4096) as Hi' by (clear -Hi Htop; lia).
  assert (¬ below p (p * 4096 + i)) as Hb by (unfold UserStack.below; clear -Hi; lia).
  destruct (cs_frame _ _ _ _ _ _ _ _ _ _ _ S) as [Hup' _].
  transitivity (load8 m (p * 4096 + i)); [exact (ps_mem _ _ _ _ Q _ Hb)|].
  rewrite (ft_mem _ Hb) by (rewrite <- Eu; clear -Hup' Hi'; lia).
  rewrite (pv_copy _ _ _ _ _ _ _ P i Hi').
  apply (cs_mem1 _ _ _ _ _ _ _ _ _ _ _ S). destruct ft_frame as (_ & Em & _). rewrite Em, Eu. clear -Hpu Hi'. lia.
Qed.

Lemma fault_unshared : (length l ≤ length l' + 2)%nat → unshared cpunum e base kp top live fe l l' pte u p k kf.
Proof using Htop Hu Hl Hcow Hpu R Hlo Hhi Hh Eu S U2 Q others.
  intros Hlen. pose proof (us_live _ _ _ _ _ _ _ _ Hu) as He.
  destruct (pushed_state _ _ _ _ Q) as (Epg & G & Een & _).
  split.
  - exact (pushed_runs _ _ _ _ _ Htop _ _ _ _ _ _ U2 ft_writable Q).
  - rewrite (ft_lookup e _ He) by (by vm_compute). exact ft_map.
  - intros y v pte' Hy Hv H Ep. rewrite (ft_lookup y v Hy Hv) in H. exact (ft_only y v pte' Hy Hv H Ep).
  - exact ft_copy.
  - intros y v Hy Hv Hn. rewrite (ft_lookup y v Hy Hv). exact (ft_others y v Hy Hv Hn).
  - exact ft_data.
  - exact ft_fresh.
  - intros q. rewrite Epg. change (pages (k_mm (with_phys m kb))) with (pages (k_mm kb)).
    rewrite <- (cs_pages _ _ _ _ _ _ _ _ _ _ _ S). exact (pv_refs _ _ _ _ _ _ _ P q).
  - exact Hlen.
  - etransitivity; [exact (cs_globals _ _ _ _ _ _ _ _ _ _ _ S)|]. etransitivity; [exact (pv_globals _ _ _ _ _ _ _ P)|exact G].
  - intros y. rewrite Een. etransitivity; [exact (cs_envs _ _ _ _ _ _ _ _ _ _ _ S y)|exact (pv_envs _ _ _ _ _ _ _ P y)].
  - intros y Hy. rewrite Een, <- (cs_tf _ _ _ _ _ _ _ _ _ _ _ S y Hy). exact (pv_tf _ _ _ _ _ _ _ P y Hy).
Qed.
End after.
End fault.

(** The first word faults; it and the others go to the private page. *)
Lemma push_words_cow live fe l w ws esp k pte u :
  user_runs live fe l k → lookup_pte (phys (k_mm k)) (dirof k e) USTACKPAGE = Some pte →
  flag pte PTE_W = false → flag pte PTE_COW = true → pte / 4096 ≠ u → fault_ready u k → refs_small k → (2 ≤ length l)%nat →
  USTACKPAGE ≤ esp - 4 * Z.of_nat (length (w :: ws)) → esp ≤ top →
  ∃ p l' k', push_words esp (w :: ws) k = (Ret tt, k') ∧ unshared cpunum e base kp top live fe l l' pte u p k k'.
Proof using Htop Hif Hcs Hty Hret Hup Hh.
  intros Hu Hl Hw Hcow Hpu R Href Hlen Hlo Hhi. cbn [length] in Hlo.
  assert (USTACKPAGE ≤ esp - 4 ∧ esp - 4 + 4 ≤ top) as [Hva0 Hva1] by (clear -Hlo Hhi; lia).
  destruct (stack_va (esp - 4) Hva0 Hva1) as (Hva & _ & _ & _ & _ & Ee & _).
  destruct (fault_at_run live fe l k pte u (esp - 4) Hu Hl Hcow R Hva0 Hva1 Href Hlen)
    as (ux & ka & kb & m & p & l' & Eu & E1 & U2 & S & Hl').
  pose proof (ft_map live fe l k pte u (esp - 4) Hu Hl Hcow R Hva0 Hva1 ux p ka kb m Eu S) as Hm.
  pose proof (ft_writable live fe l k pte u (esp - 4) Hu Hl Hcow R Hva0 Hva1 ux p ka kb m Eu S) as Hs.
  assert (dirof (with_phys m kb) e = dirof k e) as D by exact (proj1 (ft_dir live k pte (esp - 4) ux p ka kb m S e)).
  assert (flag (p * 4096 + 7) PTE_W = true) as Hpw
    by (rewrite flag_page by (vm_compute; split; [discriminate|done]); reflexivity).
  assert ((p * 4096 + 7) / 4096 = p) as Ep by (clear; lia).
  destruct (store_pushed live fe l' (with_phys m kb) (esp - 4) w (p * 4096 + 7) U2) as (k1 & E2 & Q1);
    [by rewrite D|exact Hpw|exact Hva0|exact Hva1|]. rewrite Ep in Q1.
  destruct (push_words_plain live fe l' ws (esp - 4) k1 (p * 4096 + 7)) as (k2 & E3 & Q2).
  - exact (pushed_runs _ _ _ _ _ Htop _ _ _ _ _ _ U2 Hs Q1).
  - rewrite (proj2 (proj2 (proj2 (proj2 (pushed_state _ _ _ _ Q1))))).
    rewrite (pushed_lookup _ _ _ _ _ Htop _ _ _ _ _ _ U2 Hs Q1 e) by (exact (us_live _ _ _ _ _ _ _ _ Hu) || by vm_compute).
    by rewrite D.
  - exact Hpw.
  - clear -Hlo. lia.
  - clear -Hhi. lia.
  - rewrite Ep in Q2. exists p, l', k2. split.
    + cbn [push_words]. rewrite Ee. unfold upush. rewrite run_bind, run_bind, run_gets.
      assert (vtrans (phys (k_mm k)) (cpu_cr3 (cpus k cpunum)) (esp - 4) true = None) as ->.
      { rewrite (us_cr3 _ _ _ _ _ _ _ _ Hu). unfold vtrans. rewrite Ee. change UTOP with 0xEEC00000 in Hva.
        change KERNBASE with 0xF0000000. destruct (Z.leb_spec 0xF0000000 (esp - 4)) as [H|_]; [clear -H Hva; lia|].
        replace (dirof k e * 4096 / 4096) with (dirof k e) by (clear; lia).
        rewrite (stack_lookup _ _ _ Hva0 Hva1), Hl. cbn [mbind option_bind]. by rewrite Hw. }
      rewrite run_bind, E1. cbv beta iota. rewrite E2. cbv beta iota. exact E3.
    + exact (fault_unshared live fe l k pte u (esp - 4) Hu Hl Hcow Hpu R Hva0 Hva1 ux p ka kb m l' k2 Eu S U2
        (pushed_trans _ _ _ _ Q1 Q2) Hl').
Qed.

(** The stores obey the laws. *)
#[export] Instance push_stack : StackPush cpunum e base kp a_pgfault_handler a_pgfault_upcall a_pgfault top push.
Proof using Htop Hfit Hif Hcs Hty Hret Hup Hh.
  split.
  - intros depth live fe l k pte Hu Hl Hw. unfold push. rewrite run_bind, run_gets.
    destruct (Hfit depth k) as (_ & Hlo & Hhi). exact (push_words_plain live fe l _ (sp depth) k pte Hu Hl Hw Hlo Hhi).
  - intros depth live fe l k pte u Hu Hl Hw Hcow Hpu R Href Hlen. unfold push. rewrite run_bind, run_gets.
    destruct (Hfit depth k) as (Hne & Hlo & Hhi). destruct (words depth k) as [|w ws]; [done|].
    exact (push_words_cow live fe l w ws (sp depth) k pte u Hu Hl Hw Hcow Hpu R Href Hlen Hlo Hhi).
Qed.
End push.

(** ** The theorem *)

Section fork.
Context (cpunum e : Z) (cons_getc : K Z) (rcr2 eflags : Z) (uregs : Trapframe).
Context (others : stop → kst → option kst).
Context (base : Z → Z) (kp : Z).
Context (a_thisenv a_pgfault_handler a_ret a_pgfault_upcall a_pgfault : Z).
Context (sp : nat → Z) (words : nat → kst → list Z).
Notation user_runs := (user_runs cpunum e base kp).
Notation fork_ready := (fork_ready e a_pgfault_handler a_pgfault_upcall).
Notation fork_done := (fork_done e uregs a_pgfault_handler a_pgfault_upcall a_pgfault (tf_esp uregs)).
Notation fork := (fork cpunum e cons_getc rcr2 eflags uregs others a_thisenv a_pgfault_handler a_pgfault_upcall a_pgfault
  (push cpunum e cons_getc eflags uregs others a_pgfault_handler a_ret a_pgfault_upcall a_pgfault sp words)).
Notation UX := (UXSTACKTOP - PGSIZE).

(** The user program: its registers, the addresses the linker chose, and a stack
    with room for what the calls push below the stack pointer. *)
Record program_ok : Prop := {
  po_typed : tf_typed uregs;
  po_user : Z.land (tf_cs uregs) 3 = 3;
  po_words : word a_ret ∧ word a_pgfault ∧ a_pgfault_upcall ≠ 0;
  po_stack : USTACKPAGE < tf_esp uregs ≤ USTACKTOP;
  po_calls : ∀ depth k, words depth k ≠ [] ∧
    USTACKPAGE ≤ sp depth - 4 * Z.of_nat (length (words depth k)) ∧ sp depth ≤ tf_esp uregs;
}.

(** What parent and child see, from what they map. *)
Lemma fork_sees live c fe l q s k k' :
  user_runs live (c :: fe) l k → fork_ready q s k → USTACKPAGE < tf_esp uregs ≤ USTACKTOP → fork_done live c q s k k' →
  ∀ v pte, 0 ≤ v < USTACKTOP → lookup_pte (phys (k_mm k)) (dirof k e) v = Some pte →
    let a := pte / 4096 * 4096 + v mod 4096 in
    let word := q * 4096 + a_pgfault_handler mod 4096 in
    ¬ (word ≤ a < word + 4) → ¬ below (tf_esp uregs) s a →
    (∀ ux, lookup_pte (phys (k_mm k)) (dirof k e) UX = Some ux → a / 4096 ≠ ux / 4096) →
    sees (phys (k_mm k')) (dirof k' e) v = sees (phys (k_mm k)) (dirof k e) v ∧
    (is_Some (child_pte pte) → sees (phys (k_mm k')) (dirof k' c) v = sees (phys (k_mm k)) (dirof k e) v).
Proof.
  intros Hu R Htop D v pte Hv Hl a word Hq Hb Hux. pose proof (us_live _ _ _ _ _ _ _ _ Hu) as He.
  assert (0 ≤ v < UTOP) as Hvu by (change UTOP with 0xEEC00000; change USTACKTOP with 0xEEBFE000 in Hv; lia).
  pose proof (fd_child _ _ _ _ _ _ _ _ _ _ _ _ D v Hv) as C. rewrite Hl in C. simpl in C.
  assert (load8 (phys (k_mm k')) a = load8 (phys (k_mm k)) a) as Ed.
  { apply (fd_data _ _ _ _ _ _ _ _ _ _ _ _ D e v pte a He Hvu Hl); [unfold a; lia|exact Hq|exact Hb|exact Hux]. }
  rewrite (sees_mapped _ _ _ _ Hl). fold a. split.
  - destruct (decide (v < USTACKPAGE)) as [Hlow|Hhigh].
    + pose proof (fd_parent _ _ _ _ _ _ _ _ _ _ _ _ D v (conj (proj1 Hv) Hlow)) as P. rewrite Hl in P. simpl in P.
      rewrite (sees_page _ _ _ _ _ P (parent_pte_page pte)). fold a. by rewrite Ed.
    + assert (v / 4096 = USTACKPAGE / 4096) as Ev.
      { change USTACKPAGE with 0xEEBFD000 in *. change USTACKTOP with 0xEEBFE000 in Hv. lia. }
      destruct (fd_stack _ _ _ _ _ _ _ _ _ _ _ _ D) as (p & Hm & _ & Hc).
      assert (∀ m d, lookup_pte m d v = lookup_pte m d USTACKPAGE) as Hpg.
      { intros m d. apply lookup_pte_page. change UTOP with 0xEEC00000 in Hvu. change USTACKPAGE with 0xEEBFD000 in *.
        rewrite !u32_small by lia. exact Ev. }
      rewrite <- Hpg in Hm. rewrite (sees_page _ _ _ _ p Hm) by (clear; lia).
      destruct (fo_stack _ _ _ _ _ _ R) as (pte0 & Hl0 & _ & _ & _ & Es). rewrite <- Hpg, Hl in Hl0. injection Hl0 as <-.
      unfold a in Hb |- *. rewrite Es in Hb |- *. f_equal. apply Hc.
      unfold below in Hb. pose proof (Z.mod_pos_bound v 4096 ltac:(lia)). lia.
  - intros [pte' Ec]. rewrite Ec in C. rewrite (sees_page _ _ _ _ _ C (child_pte_page _ _ Ec)). fold a. by rewrite Ed.
Qed.

(** C4: [fork] of lib/fork.c in the parent, on the stack that it makes copy-on-write
    itself.  It is called with 1024 pages and an environment free, its handler
    variable and its stack on writable pages and the scratch page unused
    ([fork_ready]); what its calls push is stored word by word ([push]), and the
    first store after [duppage] of the stack faults and goes through the kernel,
    [_pgfault_upcall] and [pgfault].  It returns the identifier of a new runnable
    child, started with the parent's registers and [eax] = 0.  Every page of the
    parent that was writable or copy-on-write and not shared is copy-on-write in
    both, except that the parent's stack is then a private writable copy; shared
    writable pages stay shared, read-only pages are shared read-only, kernel-only
    pages are not passed on; the child has a fresh exception stack.  No mapped
    byte changes apart from the handler word, the stack below the stack pointer
    and the exception stack; apart from these, parent and child see below the
    stack top what the parent saw. *)
Theorem fork_correct live c fe l q s k :
  flag eflags FL_IF = false → program_ok →
  user_runs live (c :: fe) l k → fork_ready q s k → (1024 ≤ length l)%nat →
  (∀ x, 0 ≤ x < npages (k_mm k) → pp_ref (pages (k_mm k) x) < 32766) →
  ∃ k' l', fork k = (Ret (env_id (envs k' c)), k') ∧ user_runs (c :: live) fe l' k' ∧
    0 < env_id (envs k' c) ∧ fork_done live c q s k k' ∧ refs_small k' ∧
    ∀ v pte, 0 ≤ v < USTACKTOP → lookup_pte (phys (k_mm k)) (dirof k e) v = Some pte →
      let a := pte / 4096 * 4096 + v mod 4096 in
      let word := q * 4096 + a_pgfault_handler mod 4096 in
      ¬ (word ≤ a < word + 4) → ¬ below (tf_esp uregs) s a →
      (∀ ux, lookup_pte (phys (k_mm k)) (dirof k e) UX = Some ux → a / 4096 ≠ ux / 4096) →
      sees (phys (k_mm k')) (dirof k' e) v = sees (phys (k_mm k)) (dirof k e) v ∧
      (is_Some (child_pte pte) →
       sees (phys (k_mm k')) (dirof k' c) v = sees (phys (k_mm k)) (dirof k e) v).
Proof.
  intros Hif [Hty Hcs (Hret & Hpg & Hup) Htop Hfit] Hu R Hlen Hrefs. pose proof (us_live _ _ _ _ _ _ _ _ Hu) as He.
  assert (0 ≤ a_pgfault_handler < UTOP ∧ a_pgfault_handler mod 4096 + 4 ≤ 4096) as Hh.
  { destruct (fo_handler _ _ _ _ _ _ R) as [Hr Hw _]. change USTACKTOP with 0xEEBFE000 in Hr.
    change UTOP with 0xEEC00000. clear -Hr Hw. lia. }
  destruct (fork_run cpunum e cons_getc rcr2 eflags uregs others base kp Hif Hcs a_pgfault_handler a_pgfault_upcall a_pgfault
    (tf_esp uregs) Htop _ (push_stack cpunum e cons_getc eflags uregs others a_pgfault_handler a_ret a_pgfault_upcall a_pgfault
      sp words base kp (tf_esp uregs) Htop Hfit Hif Hcs Hty Hret Hup Hh) a_thisenv live c fe l q s k Hu R Hpg Hlen Hrefs)
    as (k' & l' & E & Hu' & Hid & D & Rs).
  exists k', l'. refine (conj E (conj Hu' (conj Hid (conj D (conj Rs _))))).
  exact (fork_sees live c fe l q s k k' Hu R Htop D).
Qed.
End fork.

(** ** The machine of ForkDemo forks

    Its stack pointer is 0xEEBFDFF0; every call pushes a return address and an
    argument, those of [duppage] 32 bytes further down. *)
Definition fork_sp (depth : nat) : Z := match depth with O => 0xEEBFDFF0 | _ => 0xEEBFDFD0 end.
Definition fork_words (depth : nat) (k : kst) : list Z := [1; 0x800250].

Lemma fork_program_ok : program_ok fork_frame 0x800280 0x800200 0x800300 fork_sp fork_words.
Proof.
  split; [split; [split|..]; by vm_compute|reflexivity|by vm_compute|by vm_compute|].
  intros depth k. split; [done|]. destruct depth; by vm_compute.
Qed.

Lemma fork_k_ready : fork_ready 0 0x801000 0x800200 6 8 fork_k.
Proof.
  split.
  - split; [done|done|]. exists (6 * 4096 + 7). by vm_compute.
  - intros H. exfalso. apply H. by vm_compute.
  - exists (8 * 4096 + 7). by vm_compute.
  - split; [done|]. intros ux H. vm_compute in H. injection H as <-. by vm_compute.
  - by vm_compute.
Qed.

Lemma fork_demo_child : lookup_pte (phys (k_mm fork_k)) (dirof fork_k 0) 0x800000 ≫= child_pte = Some (5 * 4096 + 0x805).
Proof. vm_compute. reflexivity. Qed.

Lemma fork_correct_witness : ∃ k' p,
  fork 0 0 (mret 0) 0 0 fork_frame (λ _ _, None) 0x801004 0x801000 0x800200 0x800300
    (push 0 0 (mret 0) 0 fork_frame (λ _ _, None) 0x801000 0x800280 0x800200 0x800300 fork_sp fork_words) fork_k =
    (Ret (env_id (envs k' 1)), k') ∧
  0 < env_id (envs k' 1) ∧ lookup_pte (phys (k_mm k')) (dirof k' 1) 0x800000 = Some (5 * 4096 + 0x805) ∧
  lookup_pte (phys (k_mm k')) (dirof k' 0) USTACKPAGE = Some (p * 4096 + 7).
Proof.
  destruct (fork_correct 0 0 (mret 0) 0 0 fork_frame (λ _ _, None) fork_base 1
    0x801004 0x801000 0x800280 0x800200 0x800300 fork_sp fork_words
    [0] 1 (zrange 2 1022) (zrange 9 2039) 6 8 fork_k) as (k' & l' & E & _ & Hid & D & _).
  - reflexivity.
  - exact fork_program_ok.
  - exact fork_runs.
  - exact fork_k_ready.
  - vm_compute. lia.
  - intros x _. apply fork_refs_low.
  - destruct (fd_stack _ _ _ _ _ _ _ _ _ _ _ _ D) as (p & Hm & _).
    exists k', p. refine (conj E (conj Hid (conj _ Hm))).
    assert (0 ≤ 0x800000 < USTACKTOP) as Hv by (change USTACKTOP with 0xEEBFE000; lia).
    etransitivity; [exact (fd_child _ _ _ _ _ _ _ _ _ _ _ _ D 0x800000 Hv)|].
    exact fork_demo_child.
Defined.
