(* ===== verification/KernelThm.v ===== *)
(** * No trap breaks the kernel

    Page faults, the dispatcher and [trap] itself on top of the system calls of
    KernelSafe; the transition system of any number of CPUs that run user code,
    trap and are interrupted, and the theorems on all its reachable states.  A trap
    is one step: from the lock to [env_run] or [sched_halt] the CPU is alone in the
    kernel (Spinlock), and before and after it touches only its own state. *)
From stdpp Require Import relations.
From S2P Require Import Prelude Monad Word Layout Mem CString PageAlloc PageTable PageInv PageOps PageDirs Seg KState Env EnvMem KInv EnvSpec Sched SchedSpec UserMem Syscall Trap UserStore TrapSpec SysSpec KernelSafe.

Section kernel.
Context (cpunum : Z) (base : Z → Z) (kp : Z) (others : Z → CpuInfo).
Notation good := (good cpunum base kp others).
Notation inside := (inside cpunum base kp others).
Notation settled := (settled cpunum base kp others).
Notation safe := (safe cpunum base kp others).
Notation fair_call := (fair_call cpunum others).

(** ** Stores to user memory *)

(** Only the contents of user pages changed. *)
Record stored (e : Z) (k k' : kst) : Prop := {
  sd_in : inside (Some e) k';
  sd_phys : ∃ m, k' = with_phys m k;
  sd_cr3 : cpu_cr3 (cpus k' cpunum) = dirof k' e * 4096;
  sd_look : ∀ v, 0 ≤ v < UTOP → lookup_pte (phys (k_mm k')) (dirof k' e) v = lookup_pte (phys (k_mm k)) (dirof k e) v;
}.

Definition may_write (k : kst) (e va : Z) : Prop :=
  ∃ pte, lookup_pte (phys (k_mm k)) (dirof k e) va = Some pte ∧ flag pte PTE_W = true.

Lemma vstore8_safe e k va b : inside (Some e) k → cpu_cr3 (cpus k cpunum) = dirof k e * 4096 → 0 ≤ va < UTOP →
  may_write k e va → ∃ k', vstore8 cpunum va b k = (Ret tt, k') ∧ stored e k k'.
Proof.
  intros Hin Hcr Hva (pte & Hl & Hw). pose proof (in_good _ _ _ _ _ _ Hin) as (live & fe & l & Hg).
  pose proof (inside_live _ _ _ _ e k live fe l Hin Hg) as He.
  assert (user_page cpunum base kp live fe l e (pte / 4096) k va) as Hp.
  { split; [apply Hg|exact Hcr|]. by exists pte. }
  destruct (vstore8_step cpunum base kp live fe l e (pte / 4096) He k va b Hp Hva) as [E Hp'].
  eexists. split; [exact E|]. set (m' := store8 _ _ _) in *.
  destruct (user_page_with_phys cpunum base kp live fe l e (pte / 4096) He k va m' Hp (PDX_user va Hva)) as [_ HL].
  { intros a Ha. unfold m'. rewrite load8_store8, decide_False; [done|]. intros <-. lia. }
  split.
  - exact (inside_mm cpunum base kp others (Some e) k live fe l _ Hin (gd_ok _ _ _ _ _ _ _ _ Hg) (up_inv _ _ _ _ _ _ _ _ _ _ Hp')).
  - by exists m'.
  - exact Hcr.
  - intros v Hv. exact (HL e v He (PDX_user v Hv)).
Qed.

Lemma stored_trans e k1 k2 k3 : stored e k1 k2 → stored e k2 k3 → stored e k1 k3.
Proof.
  intros [_ [m2 E2] _ L2] [H3 [m3 E3] C3 L3]. split; [exact H3| |exact C3|].
  - exists m3. by rewrite E3, E2.
  - intros v Hv. by rewrite L3, L2.
Qed.
Lemma stored_write e k1 k2 va : stored e k1 k2 → 0 ≤ va < UTOP → may_write k1 e va → may_write k2 e va.
Proof. intros S Hva (pte & Hl & Hw). exists pte. by rewrite (sd_look _ _ _ S va Hva). Qed.

Lemma vstore32_safe e k va v : inside (Some e) k → cpu_cr3 (cpus k cpunum) = dirof k e * 4096 →
  0 ≤ va → va + 4 ≤ UTOP → (∀ a, va ≤ a < va + 4 → may_write k e a) →
  ∃ k', vstore32 cpunum va v k = (Ret tt, k') ∧ stored e k k'.
Proof.
  intros Hin Hcr H0 H1 Hm. change UTOP with 0xEEC00000 in H1. unfold vstore32. rewrite !u32_small by lia.
  assert (∀ i, 0 ≤ i < 4 → 0 ≤ va + i < UTOP) as Hr by (intros; change UTOP with 0xEEC00000; lia).
  assert (∀ k1 i b, stored e k k1 → 0 ≤ i < 4 → ∃ k2, vstore8 cpunum (va + i) b k1 = (Ret tt, k2) ∧ stored e k k2) as Hs.
  { intros k1 i b S Hi. destruct (vstore8_safe e k1 (va + i) b (sd_in _ _ _ S) (sd_cr3 _ _ _ S) (Hr i Hi)) as (k2 & E & S2).
    - apply (stored_write e k k1); [exact S|exact (Hr i Hi)|apply Hm; lia].
    - exists k2. split; [exact E|exact (stored_trans _ _ _ _ S S2)]. }
  destruct (vstore8_safe e k va v Hin Hcr ltac:(change UTOP with 0xEEC00000; lia)) as (k1 & E1 & S1); [apply Hm; lia|].
  destruct (Hs k1 1 (v / 256) S1 ltac:(lia)) as (k2 & E2 & S2).
  destruct (Hs k2 2 (v / 65536) S2 ltac:(lia)) as (k3 & E3 & S3).
  destruct (Hs k3 3 (v / 16777216) S3 ltac:(lia)) as (k4 & E4 & S4).
  exists k4. split; [|exact S4]. rewrite run_bind, E1. cbv beta iota. rewrite run_bind, E2. cbv beta iota.
  rewrite run_bind, E3. exact E4.
Qed.

Lemma vstore_words_safe e ws k va : inside (Some e) k → cpu_cr3 (cpus k cpunum) = dirof k e * 4096 →
  0 ≤ va → va + 4 * Z.of_nat (length ws) ≤ UTOP → (∀ a, va ≤ a < va + 4 * Z.of_nat (length ws) → may_write k e a) →
  ∃ k', vstore_words cpunum ws va k = (Ret tt, k') ∧ inside (Some e) k' ∧ (k' = k ∨ stored e k k').
Proof.
  revert k va. induction ws as [|w ws IH]; intros k va Hin Hcr H0 H1 Hm; [by exists k; auto|].
  cbn [vstore_words length] in *.
  destruct (vstore32_safe e k va w Hin Hcr H0) as (k1 & E1 & S1); [lia|intros a Ha; apply Hm; lia|].
  rewrite run_bind, E1. cbv beta iota. change UTOP with 0xEEC00000 in H1.
  destruct ws as [|w' ws]; [exists k1; split; [reflexivity|split; [apply S1|by right]]|].
  rewrite u32_small by (cbn [length] in H1; lia).
  destruct (IH k1 (va + 4) (sd_in _ _ _ S1) (sd_cr3 _ _ _ S1)) as (k2 & E2 & Hin2 & S2).
  - lia.
  - change UTOP with 0xEEC00000. lia.
  - intros a Ha. apply (stored_write e k k1); [exact S1|change UTOP with 0xEEC00000; lia|apply Hm; lia].
  - exists k2. split; [exact E2|]. split; [exact Hin2|]. right. destruct S2 as [->|S2]; [exact S1|exact (stored_trans _ _ _ _ S1 S2)].
Qed.

(** ** Page faults *)

Lemma frame_at_range tf : word (tf_esp tf) → 0 ≤ frame_at tf ∧ frame_at tf + 56 ≤ UTOP.
Proof.
  unfold word, frame_at. change UXSTACKTOP with 0xEEC00000. change UTOP with 0xEEC00000. change PGSIZE with 4096.
  intros H. destruct (Z.ltb_spec (0xEEC00000 - 4096) (tf_esp tf)), (Z.ltb_spec (tf_esp tf) 0xEEC00000); cbn [andb]; lia.
Qed.

Lemma land_sub a b c : Z.land a b = b → Z.land b c = c → Z.land a c = c.
Proof. intros H1 H2. rewrite <- H2, Z.land_assoc, H1. reflexivity. Qed.

(** A range that passes the check for writing, with no half-made entries. *)
Lemma checked_write e k va len : inside (Some e) k → 0 ≤ va → 0 ≤ len → va + len ≤ UTOP → no_ghosts e k va len →
  first_bad (phys (k_mm k)) (dirof k e) va (Z.lor PTE_U PTE_W)
    (pages_between (ROUNDDOWN va PGSIZE) (ROUNDUP (u32 (va + len)) PGSIZE)) = None →
  ∀ a, va ≤ a < va + len → may_write k e a.
Proof.
  intros Hin H0 H1 H2 Hgh Hfb a Ha. pose proof (check_starts va len H0 H1 H2) as Hst.
  change UTOP with 0xEEC00000 in H2. unfold first_bad in Hfb. destruct (List.find _ _) as [b|] eqn:Ef; [done|].
  assert (entry_ok (phys (k_mm k)) (dirof k e) (Z.lor PTE_U PTE_W) a = true) as Hok.
  { rewrite (entry_ok_page _ _ _ a (a - a mod 4096)) by (rewrite !u32_small by lia; lia).
    pose proof (proj2 (Hst (a - a mod 4096)) ltac:(lia)) as Hi. apply list_elem_of_In in Hi.
    pose proof (find_none _ _ Ef _ Hi) as Hb. by apply negb_false_iff in Hb. }
  destruct (Hgh a Ha) as [pte Hl].
  - unfold entry_ok in *. destruct (tgt _ _); [|done]. apply Z.eqb_eq in Hok. apply Z.eqb_eq.
    exact (land_sub _ _ _ Hok eq_refl).
  - exists pte. split; [exact Hl|]. unfold entry_ok in Hok. unfold lookup_pte in Hl.
    destruct (tgt _ _); [|done]. simpl in Hl. destruct (flag _ PTE_P); [|discriminate Hl]. injection Hl as <-.
    apply Z.eqb_eq in Hok. apply (flag_of_land _ _ _ Hok); [reflexivity|discriminate].
Qed.

(** The frame is written and the environment resumes in its upcall. *)
Lemma upcall_settled e k rcr2 utf : inside (Some e) k → cpu_cr3 (cpus k cpunum) = dirof k e * 4096 →
  0 ≤ utf → utf + 52 ≤ UTOP → (∀ a, utf ≤ a < utf + 52 → may_write k e a) →
  ∃ y k', (tf ← load_tf (TfEnv e);
           vstore_words cpunum (utrapframe rcr2 tf) utf ;;
           e ← curenv' cpunum;
           modify (upd_env e (λ v, with_tf v (tf_set_eip (env_pgfault_upcall v) (env_tf v)))) ;;
           modify (upd_env e (λ v, with_tf v (tf_set_esp utf (env_tf v)))) ;;
           env_run cpunum e) k = (Stop y, k') ∧ settled y k'.
Proof.
  intros Hin Hcr H0 H1 Hw. rewrite run_bind, load_env, run_bind.
  destruct (vstore_words_safe e (utrapframe rcr2 (env_tf (envs k e))) k utf Hin Hcr H0) as (k1 & -> & Hin1 & _);
    [cbn [utrapframe length]; lia|cbn [utrapframe length]; intros a Ha; apply Hw; lia|].
  cbv beta iota. unfold curenv', curenv. rewrite run_bind, run_bind, run_gets, (in_cur _ _ _ _ _ _ Hin1), run_ret.
  rewrite run_bind, run_modify, run_bind, run_modify. set (k3 := upd_env e _ (upd_env e _ k1)).
  assert (∀ x f, (∀ v, env_typed v → env_typed (f v)) →
    (∀ v, env_status (f v) = env_status v ∧ env_id (f v) = env_id v ∧ env_pgdir (f v) = env_pgdir v) →
    inside (Some e) x → inside (Some e) (upd_env e f x)) as Hupd.
  { intros x f Hty Hk Hx. destruct (Hk (envs x e)) as (Es & Ei & Ep). pose proof (in_good _ _ _ _ _ _ Hx) as (lv & fe & l & Hg).
    apply inside_env; [exact Hx| |by rewrite Es|intros _; exact (keeps_upd x e f Es Ep)|exact Ei|exact Ep|apply Hty, Hg].
    exists lv, fe, l. split; [exact Hg|exact (inside_live _ _ _ _ e x lv fe l Hx Hg)]. }
  assert (inside (Some e) k3) as Hin3.
  { apply Hupd; [|by intros v|apply Hupd; [|by intros v|exact Hin1]].
    - intros v Hv. apply with_tf_typed; [exact Hv|]. apply tf_set_esp_typed; [|apply et_tf, Hv].
      change UTOP with 0xEEC00000 in H1. unfold word. lia.
    - intros v Hv. apply with_tf_typed; [exact Hv|]. apply tf_set_eip_typed; [apply et_upcall, Hv|apply et_tf, Hv]. }
  pose proof (in_good _ _ _ _ _ _ Hin3) as (lv & fe & l & [Hi Hok Ha Ht]). destruct Hin3 as [_ Hl Hc Hs].
  destruct (env_run_run cpunum base kp lv fe l e k3 Hi (Hok _ _ Hc) Hl (Hok cpunum)) as (k' & E & H' & R). rewrite E.
  exists (SUser e), k'. split; [reflexivity|].
  refine (ran_settled cpunum base kp others lv fe l e k3 k' Ha _ Ht Hs H' (rn_ok _ _ _ _ _ R Hok) R).
  intros He. exact (pe_apart _ _ _ Ha e He Hc).
Qed.

Lemma page_fault_settled e k rcr2 tf : inside (Some e) k → env_tf (envs k e) = tf → Z.land (tf_cs tf) 3 = 3 →
  cpu_cr3 (cpus k cpunum) = dirof k e * 4096 → word (tf_esp tf) → no_ghosts e k (frame_at tf) 56 →
  ∃ y k', page_fault_handler cpunum rcr2 (TfEnv e) k = (Stop y, k') ∧ settled y k'.
Proof.
  intros Hin Htf Hcs Hcr Hesp Hgh. destruct (frame_at_range tf Hesp) as [Hf0 Hf1].
  set (k2 := log_ev (Cprintf "Page fault at address: 0x%08x\n" [rcr2]) k).
  assert (inside (Some e) k2) as Hin2 by exact (inside_log cpunum base kp others (Some e) [_] k Hin).
  pose proof (in_good _ _ _ _ _ _ Hin2) as (live & fe & l & Hg).
  pose proof (inside_live _ _ _ _ e k2 live fe l Hin2 Hg) as He.
  unfold page_fault_handler. cbv zeta. rewrite run_bind. unfold cprintf at 1. rewrite run_modify. fold k2.
  rewrite run_bind, load_env. change (env_tf (envs k2 e)) with (env_tf (envs k e)). rewrite Htf, Hcs.
  change (3 =? 0) with false. cbv beta iota. rewrite run_bind. unfold curenv', curenv.
  rewrite run_bind, run_gets, (in_cur _ _ _ _ _ _ Hin2), run_ret.
  rewrite run_bind. unfold get_env at 1. rewrite run_gets, run_bind.
  destruct (negb (env_pgfault_upcall (envs k2 e) =? 0)).
  - change (sizeof_UTrapframe + 4) with 56. fold (frame_at tf).
    rewrite (u32_small (frame_at tf)) by (change UTOP with 0xEEC00000 in Hf1; lia).
    unfold user_mem_assert. rewrite run_bind, run_bind.
    unfold user_mem_check, get_env. rewrite run_bind, run_gets.
    pose proof (user_mem_check_loop_run base kp live fe l k2 (gd_inv _ _ _ _ _ _ _ _ Hg) e (frame_at tf)
      (Z.lor (Z.lor PTE_U PTE_W) PTE_U)
      (pages_between (ROUNDDOWN (frame_at tf) PGSIZE) (ROUNDUP (u32 (frame_at tf + 56)) PGSIZE))
      He ltac:(by vm_compute)) as HR.
    pose proof (checked_write e k2 (frame_at tf) 56 Hin2 Hf0 ltac:(lia) Hf1 Hgh) as Hwr.
    change (Z.lor (Z.lor PTE_U PTE_W) PTE_U) with (Z.lor PTE_U PTE_W) in *.
    assert (∀ a, a ∈ pages_between (ROUNDDOWN (frame_at tf) PGSIZE) (ROUNDUP (u32 (frame_at tf + 56)) PGSIZE) → 0 ≤ a < UTOP) as Hr.
    { intros a Ha%check_starts; [|lia|lia|exact Hf1]. change UTOP with 0xEEC00000 in *. lia. }
    specialize (HR Hr). destruct (first_bad _ _ _ _ _) as [b|].
    + destruct HR as [v ->]. cbv beta iota. change (- E_FAULT <? 0) with true. cbv beta iota.
      rewrite run_bind, run_gets, run_bind, liftM_gets. set (k3 := log_ev v _).
      assert (inside (Some e) k3) as H3.
      { apply (inside_log cpunum base kp others (Some e) [v]). apply (inside_mm cpunum base kp others _ _ live fe l); [exact Hin2|apply Hg|].
        apply ke_check_addr, Hg. }
      match goal with |- context [(cprintf ?f ?a ;; env_destroy cpunum e) k3] =>
        destruct (print_destroy cpunum base kp others e (cprintf f a) k3 H3 ltac:(auto with prints)) as (y & k' & -> & Hy) end.
      exists y, k'. exact (conj eq_refl Hy).
    + rewrite HR. cbv beta iota. change (0 <? 0) with false. cbv beta iota. rewrite run_ret. cbv beta iota.
      destruct (upcall_settled e k2 rcr2 (frame_at tf) Hin2 Hcr Hf0) as (y & k' & E & Hy);
        [change UTOP with 0xEEC00000 in *; lia|intros a Ha; apply (Hwr eq_refl); lia|].
      exists y, k'. unfold curenv', curenv in E. rewrite E. exact (conj eq_refl Hy).
  - rewrite run_ret, run_bind, run_bind, run_gets, (in_cur _ _ _ _ _ _ Hin2), run_ret.
    rewrite run_bind. unfold get_env. rewrite run_gets, run_bind, load_env.
    change (env_tf (envs k2 e)) with (env_tf (envs k e)). rewrite Htf.
    destruct (print_destroy cpunum base kp others e
      (cprintf "[%08x] user fault va %08x ip %08x\n" [env_id (envs k2 e); rcr2; tf_eip tf] ;;
       print_trapframe cpunum rcr2 tf true) k2 Hin2) as (x & k' & E & Hg'); [auto with prints|].
    exists x, k'. split; [|exact Hg']. rewrite bind_assoc in E. exact E.
Qed.

(** ** Traps *)

Context (cons_getc : K Z) (Hgetc : ∀ k, ∃ z evs, cons_getc k = (Ret z, logged evs k)).
(** Interrupts are off in the kernel. *)
Context (eflags : Z) (Hif : flag eflags FL_IF = false).
Notation trap rcr2 := (trap cpunum cons_getc rcr2 eflags false).

(** A trap of user code, with arguments that are fair if it is a system call. *)
Record user_frame (e : Z) (k : kst) (tf : Trapframe) : Prop := {
  uf_typed : tf_typed tf;
  uf_cs : Z.land (tf_cs tf) 3 = 3;
  uf_fault : tf_trapno tf = T_PGFLT → no_ghosts e k (frame_at tf) 56;
  uf_call : tf_trapno tf = T_SYSCALL →
    let r := tf_regs tf in fair_call e k (reg_eax r) (reg_edx r) (reg_ecx r) (reg_ebx r) (reg_edi r);
}.

(** The timer interrupts the halted CPU, in kernel mode. *)
Record idle_frame (tf : Trapframe) : Prop := {
  if_cs : Z.land (tf_cs tf) 3 = 0;
  if_timer : tf_trapno tf = IRQ_OFFSET + IRQ_TIMER;
}.

Lemma entered_mm e tf k : k_mm (entered cpunum e tf k) = k_mm k ∧ dirof (entered cpunum e tf k) e = dirof k e.
Proof. split; [done|]. unfold dirof, entered. cbn [envs upd_env set_envs set_lock set_cpus]. by rewrite upd_same. Qed.

Lemma no_ghosts_ext e k k' va len : k_mm k' = k_mm k → dirof k' e = dirof k e → no_ghosts e k va len → no_ghosts e k' va len.
Proof. unfold no_ghosts. by intros -> ->. Qed.
Lemma fair_call_ext e k k' num a1 a2 a3 a4 : k_mm k' = k_mm k → dirof k' e = dirof k e →
  (∀ x, env_status (envs k' x) = env_status (envs k x) ∧ env_ipc_recving (envs k' x) = env_ipc_recving (envs k x)) →
  (∀ envid, target k' e envid = target k e envid ∧ ipc_target k' e envid = ipc_target k e envid) →
  fair_call e k num a1 a2 a3 a4 → fair_call e k' num a1 a2 a3 a4.
Proof.
  intros Em Ed Ee Et [h1 h2 h3 h4 h5]. split.
  - by rewrite Em.
  - unfold mapped_range, string_ends. rewrite Em, Ed. intros E. destruct (h2 E) as (? & ? & ?). split; [done|].
    split; [by apply (no_ghosts_ext e k)|done].
  - unfold sends_page. rewrite Em, Ed, (proj2 (Et (s32 a1))). intros E. destruct (h3 E) as [Hs Hr]. split; [exact Hs|].
    intros x Hx. rewrite (proj2 (Ee x)). exact (Hr x Hx).
  - intros E x. rewrite (proj1 (Et _)). exact (h4 E x).
  - intros E x. rewrite (proj1 (Et _)), (proj1 (Ee x)). exact (h5 E x).
Qed.

(** Entering the kernel changes nothing of an environment but its saved frame. *)
Lemma entered_envs e tf k x : let v := envs (entered cpunum e tf k) x in
  env_status v = env_status (envs k x) ∧ env_id v = env_id (envs k x) ∧ env_parent_id v = env_parent_id (envs k x) ∧
  env_ipc_recving v = env_ipc_recving (envs k x) ∧ env_pgdir v = env_pgdir (envs k x).
Proof. unfold entered. cbn [envs upd_env set_envs set_lock set_cpus]. rewrite upd_case. case_decide; by subst. Qed.

Lemma entered_target e tf k envid :
  target (entered cpunum e tf k) e envid = target k e envid ∧ ipc_target (entered cpunum e tf k) e envid = ipc_target k e envid.
Proof.
  assert (∀ cp, may_name (entered cpunum e tf k) e envid cp ↔ may_name k e envid cp) as Hm.
  { intros cp. unfold may_name. cbv zeta. destruct (entered_envs e tf k (ENVX envid)) as (-> & -> & -> & _).
    by destruct (entered_envs e tf k e) as (_ & -> & _). }
  unfold target, ipc_target. split; (case_decide; [done|]); apply decide_ext, Hm.
Qed.

(** The CPU runs user code of [e], which another CPU may have marked dying. *)
Definition ready (e : Z) (k : kst) : Prop :=
  (∃ live fe l, good live fe l k) ∧ kernel_lock k = mkLock false None ∧
  cpu_env (cpus k cpunum) = Some e ∧ cpu_status (cpus k cpunum) = CPU_STARTED ∧
  (env_status (envs k e) = ENV_RUNNING ∨ env_status (envs k e) = ENV_DYING) ∧
  cpu_cr3 (cpus k cpunum) = dirof k e * 4096.

Lemma settled_ready e k : settled (SUser e) k → ready e k.
Proof. intros (Hg & Hl & Hc & Hs & Hst & Hcr). by refine (conj Hg (conj Hl (conj Hc (conj Hs (conj (or_introl Hst) Hcr))))). Qed.

Lemma entered_inside e tf k : ready e k → tf_typed tf → inside (Some e) (entered cpunum e tf k).
Proof.
  intros ((live & fe & l & [H Hok Ha Ht]) & Hl & Hc & Hs & Hst & Hcr) Htf. split.
  - exists live, fe, l. split.
    + apply entered_inv; [exact H|exact (Hok _ _ Hc)].
    + exact (entered_cpus cpunum live e tf k Hok Hc).
    + apply (peers_keep cpunum others k); [exact Ha| | |].
      * intros c Hne. unfold entered. cbn [cpus upd_env set_envs set_lock set_cpus].
        by rewrite upd_other by (exact (not_eq_sym Hne)).
      * intros x _. destruct (entered_envs e tf k x) as (E1 & _ & _ & _ & E2). split; [by left|exact E2].
      * intros x Hx. rewrite entered_cur, <- Hc. exact (pe_apart _ _ _ Ha x Hx).
    + intros x. unfold entered. cbn [envs upd_env set_envs set_lock set_cpus]. rewrite upd_case.
      case_decide; [|apply Ht]. by apply with_tf_typed.
  - reflexivity.
  - apply entered_cur.
  - unfold entered. cbn [cpus upd_env set_envs set_lock set_cpus]. by rewrite upd_same.
Qed.

(** The dispatcher either returns inside the kernel or gives the CPU away. *)
Lemma dispatch_safe e rcr2 tf k : inside (Some e) k → env_tf (envs k e) = tf → user_frame e k tf →
  cpu_cr3 (cpus k cpunum) = dirof k e * 4096 → safe (Some e) (trap_dispatch cpunum cons_getc rcr2 (TfEnv e) k).
Proof using Hgetc.
  intros Hin Htf [Hty Hcs Hpf Hsc] Hcr. unfold trap_dispatch. rewrite run_bind, load_env. cbv beta iota. rewrite Htf.
  destruct (Z.eqb_spec (tf_trapno tf) T_PGFLT) as [E|_].
  { destruct (page_fault_settled e k rcr2 tf Hin Htf Hcs Hcr (tt_esp _ Hty) (Hpf E)) as (y & k' & -> & Hy). exact Hy. }
  destruct (Z.eqb_spec (tf_trapno tf) T_BRKPT) as [E|_].
  { unfold monitor. rewrite run_bind. unfold cprintf at 1. rewrite run_modify, run_bind. unfold cprintf at 1.
    rewrite run_modify, run_bind.
    match goal with |- context [print_trapframe cpunum rcr2 tf true ?kk] =>
      destruct (prints_trapframe cpunum rcr2 tf true kk) as [evs ->] end. exact I. }
  destruct (Z.eqb_spec (tf_trapno tf) T_SYSCALL) as [E|_].
  { cbv zeta. destruct Hty as [[] ]. eapply post_bind.
    - apply (syscall_safe cpunum base kp others cons_getc Hgetc e k); [exact Hin|exact Hcr|assumption..|exact (Hsc E)].
    - intros r k1 Hk1. pose proof (in_good _ _ _ _ _ _ Hk1) as (live & fe & l & Hg). rewrite run_modify. cbn [post].
      apply inside_env; [exact Hk1| |done|by intros _; apply keeps_upd|done|done|].
      + exists live, fe, l. split; [exact Hg|exact (inside_live _ _ _ _ e k1 live fe l Hk1 Hg)].
      + apply with_tf_typed; [apply Hg|]. apply tf_set_eax_typed, et_tf, Hg. }
  destruct (tf_trapno tf =? IRQ_OFFSET + IRQ_TIMER).
  { rewrite run_bind. unfold cprintf. rewrite run_modify, run_bind, run_modify.
    match goal with |- context [sched_yield cpunum ?kk] =>
      destruct (yield_settled cpunum base kp others (Some e) kk (inside_log cpunum base kp others (Some e) [_; _] k Hin)) as (y & k' & -> & Hy) end.
    exact Hy. }
  destruct (Z.eqb_spec (tf_cs tf) GD_KT) as [Eg|_]; [rewrite Eg in Hcs; discriminate Hcs|].
  rewrite run_bind. destruct (prints_trapframe cpunum rcr2 tf true k) as [evs ->]. cbv beta iota.
  pose proof (inside_log cpunum base kp others (Some e) evs k Hin) as Hi.
  unfold curenv', curenv. rewrite run_bind, run_bind, run_gets, (in_cur _ _ _ _ _ _ Hi), run_ret.
  destruct (destroy_current cpunum base kp others e _ Hi) as (y & k' & -> & Hy). exact Hy.
Qed.

(** An environment that was destroyed from another CPU is freed at its next trap. *)
Lemma reap_settled {A} e k (rest : K A) : ready e k →
  ∃ x k', (env_free cpunum e ;; set_curenv cpunum None ;; sched_yield cpunum ;; rest)
    (set_lock (mkLock true (Some cpunum))
      (set_cpus (<[cpunum := mkCpu CPU_STARTED (Some e) (cpu_cr3 (cpus k cpunum))]> (cpus k)) k)) = (Stop x, k') ∧ settled x k'.
Proof.
  intros ((live & fe & l & [H Hok Ha Ht]) & Hl & Hc & Hs & _ & _). set (k0 := set_lock _ _).
  assert (¬ elsewhere cpunum others e) as Hne by (intros He; exact (pe_apart _ _ _ Ha e He Hc)).
  assert (good live fe l k0) as Hg0.
  { split; [by apply ke_set_lock, ke_set_cpus| | |exact Ht].
    - intros c x. unfold k0. cbn [cpus set_lock set_cpus]. rewrite upd_case.
      case_decide; subst; cbn [cpu_env]; [intros [= <-]; exact (Hok _ _ Hc)|apply Hok].
    - apply (peers_keep cpunum others k); [exact Ha| |by intros x _; apply keeps_refl|].
      + intros c Hd. unfold k0. cbn [cpus set_lock set_cpus]. by rewrite upd_other by (exact (not_eq_sym Hd)).
      + intros x Hx. unfold k0. cbn [cpus set_lock set_cpus]. rewrite upd_same. cbn [cpu_env]. rewrite <- Hc.
        exact (pe_apart _ _ _ Ha x Hx). }
  destruct (free_good cpunum base kp others live fe l e k0 Hg0 (Hok _ _ Hc))
    as (k1 & live' & fe' & l' & E & H1 & Hsub & Ht1 & Hcp & Elk & Hpe). specialize (Hpe Hne).
  rewrite run_bind, E. cbv beta iota. unfold set_curenv. rewrite run_bind, run_modify. cbv zeta. set (k2 := set_cpus _ k1).
  destruct (yield_settled cpunum base kp others None k2) as (x & k' & Ey & Hx).
  - split.
    + exists live', fe', l'. split; [by apply ke_set_cpus| | |exact Ht1].
      * intros c y. unfold k2. cbn [cpus set_cpus]. rewrite upd_case. case_decide as Hd; [done|].
        rewrite (proj1 (Hcp c)). intros Hy. apply Hsub; [exact (gd_ok _ _ _ _ _ _ _ _ Hg0 c y Hy)|].
        intros ->. apply Hne. exists c. split; [exact (not_eq_sym Hd)|].
        by rewrite <- (pe_same _ _ _ (gd_peers _ _ _ _ _ _ _ _ Hg0) c (not_eq_sym Hd)).
      * apply (peers_keep cpunum others k1); [exact Hpe| |by intros x _; apply keeps_refl|].
        -- intros c Hd. unfold k2. cbn [cpus set_cpus]. by rewrite upd_other by (exact (not_eq_sym Hd)).
        -- intros x _. unfold k2. cbn [cpus set_cpus]. by rewrite upd_same.
    + unfold lock_held, k2. cbn [kernel_lock set_cpus]. by rewrite Elk.
    + unfold k2. cbn [cpus set_cpus]. by rewrite upd_same.
    + unfold k2. cbn [cpus set_cpus]. rewrite upd_same. cbn [cpu_status]. rewrite (proj2 (Hcp cpunum)).
      unfold k0. cbn [cpus set_lock set_cpus]. by rewrite upd_same.
  - exists x, k'. by rewrite run_bind, Ey.
Qed.

Lemma trap_settled e rcr2 tf k : ready e k → user_frame e k tf →
  ∃ x k', trap rcr2 tf k = (Stop x, k') ∧ settled x k'.
Proof using Hgetc Hif.
  intros Hs Hf. pose proof Hs as ((live & fe & l & Hg) & Hl & Hc & Hst & Hrun & Hcr).
  destruct (entered_mm e tf k) as [Em Ed].
  assert (user_trap cpunum eflags e tf k) as Hut.
  { split; [exact Hc|by rewrite Hst|by rewrite Hl|exact Hif|exact (uf_cs _ _ _ Hf)]. }
  rewrite (trap_enter_run _ _ _ _ _ _ _ Hut). destruct (env_status (envs k e) =? ENV_DYING); [by apply reap_settled|].
  pose proof (entered_inside e tf k Hs (uf_typed _ _ _ Hf)) as Hin.
  assert (user_frame e (entered cpunum e tf k) tf) as Hf'.
  { destruct Hf as [h1 h2 h3 h4]. split; [exact h1|exact h2| |].
    - intros E. exact (no_ghosts_ext e k _ _ _ Em Ed (h3 E)).
    - intros E. refine (fair_call_ext e k _ _ _ _ _ _ Em Ed _ (entered_target e tf k) (h4 E)).
      intros x. by destruct (entered_envs e tf k x) as (-> & _ & _ & -> & _). }
  assert (cpu_cr3 (cpus (entered cpunum e tf k) cpunum) = dirof (entered cpunum e tf k) e * 4096) as Hcr'.
  { rewrite Ed. unfold entered. cbn [cpus upd_env set_envs set_lock set_cpus]. rewrite upd_same. exact Hcr. }
  pose proof (dispatch_safe e rcr2 tf _ Hin (entered_tf cpunum e tf k) Hf' Hcr') as Hd.
  rewrite run_bind. destruct (trap_dispatch cpunum cons_getc rcr2 (TfEnv e) (entered cpunum e tf k)) as [[[]|x] k1].
  - exact (exit_settled cpunum base kp others (Some e) k1 Hd).
  - by exists x, k1.
Qed.

Lemma wake_settled rcr2 tf k : settled SHalt k → idle_frame tf →
  ∃ x k', trap rcr2 tf k = (Stop x, k') ∧ settled x k'.
Proof using Hif.
  intros ((live & fe & l & [H Hok Ha Ht]) & Hl & Hc & Hs) [Hcs Htm].
  unfold Trap.trap, xchg_cpu_status. rewrite run_bind, run_bind, run_gets, run_bind, run_modify, run_ret, Hs.
  change (CPU_HALTED =? CPU_HALTED) with true. cbv iota. rewrite run_bind. unfold lock_kernel.
  rewrite run_bind, run_gets. cbn [kernel_lock set_cpus]. rewrite Hl. cbn [locked]. rewrite run_modify.
  rewrite run_bind, run_assert, Hif. cbv beta iota delta [negb]. rewrite Hcs. change (0 =? 3) with false. cbv iota.
  rewrite run_bind, run_ret, run_bind. unfold trap_dispatch. rewrite run_bind. cbn [load_tf]. rewrite run_ret, Htm.
  change (IRQ_OFFSET + IRQ_TIMER =? T_PGFLT) with false. change (IRQ_OFFSET + IRQ_TIMER =? T_BRKPT) with false.
  change (IRQ_OFFSET + IRQ_TIMER =? T_SYSCALL) with false. rewrite Z.eqb_refl. cbv iota.
  rewrite run_bind. unfold cprintf. rewrite run_modify, run_bind, run_modify.
  match goal with |- context [sched_yield cpunum ?kk] => set (k1 := kk) end.
  destruct (yield_settled cpunum base kp others None k1) as (y & k' & -> & Hy); [|by exists y, k'].
  split; [|reflexivity|unfold k1; cbn; by rewrite upd_same, Hc|unfold k1; cbn; by rewrite upd_same].
  exists live, fe, l. split; [by apply ke_log, ke_log, ke_set_lock, ke_set_cpus| | |exact Ht].
  - intros c y. unfold k1. cbn. rewrite upd_case. case_decide as Hd; [cbn; by rewrite Hc|]. apply Hok.
  - apply (peers_keep cpunum others k); [exact Ha| |by intros x _; apply keeps_refl|].
    + intros c Hne. unfold k1. cbn. by rewrite upd_other by (exact (not_eq_sym Hne)).
    + intros x _. unfold k1. cbn. by rewrite upd_same, Hc.
Qed.

(** A store of user code, through a mapping the user may write. *)
Lemma store_ready e k va b k' : ready e k → 0 ≤ va < UTOP → may_write k e va →
  vstore8 cpunum va b k = (Ret tt, k') → ready e k' ∧ cpus k' = cpus k ∧ envs k' = envs k.
Proof.
  intros ((live & fe & l & [H Hok Ha Ht]) & Hl & Hc & Hs & Hst & Hcr) Hva (pte & Hlk & Hw) E.
  assert (user_page cpunum base kp live fe l e (pte / 4096) k va) as Hp by (split; [exact H|exact Hcr|by exists pte]).
  destruct (vstore8_step cpunum base kp live fe l e (pte / 4096) (Hok _ _ Hc) k va b Hp Hva) as [E' Hp'].
  rewrite E' in E. injection E as <-. split; [|done].
  refine (conj _ (conj Hl (conj Hc (conj Hs (conj Hst Hcr))))). exists live, fe, l.
  split; [exact (up_inv _ _ _ _ _ _ _ _ _ _ Hp')|exact Hok|by apply (peers_ext _ _ k)|exact Ht].
Qed.
End kernel.
(** ** All that can happen *)

Section machine.
Context (base : Z → Z) (kp : Z) (cons_getc : K Z) (eflags : Z).

(** What each CPU does -- [None] for one that has not been started, or waits for
    the lock at the end of [mp_main] -- and the state they share; or one CPU is in the monitor, which keeps the big lock, so
    that the others come no further than to their next trap. *)
Inductive machine := Run (act : Z → option stop) (k : kst) | InMonitor.

Definition continue (act : Z → option stop) (c : Z) (x : stop) (k : kst) : machine :=
  match x with SMonitor => InMonitor | _ => Run (<[c := Some x]> act) k end.

(** User code on some CPU stores to its memory or traps, the timer wakes a halted
    CPU, or one that has been set up enters the scheduler. *)
Inductive mstep : machine → machine → Prop :=
| step_store act c e k va b k' : act c = Some (SUser e) → 0 ≤ va < UTOP → may_write k e va →
    vstore8 c va b k = (Ret tt, k') → mstep (Run act k) (Run act k')
| step_trap act c e k tf rcr2 x k' : act c = Some (SUser e) → user_frame c (cpus k) e k tf →
    trap c cons_getc rcr2 eflags false tf k = (Stop x, k') → mstep (Run act k) (continue act c x k')
| step_wake act c k tf rcr2 x k' : act c = Some SHalt → idle_frame tf →
    trap c cons_getc rcr2 eflags false tf k = (Stop x, k') → mstep (Run act k) (continue act c x k')
| step_start act c k x k' : act c = None → cpu_status (cpus k c) = CPU_STARTED →
    (lock_kernel c ;; sched_yield c) k = (Stop x, k') → mstep (Run act k) (continue act c x k').

Definition mreach : machine → machine → Prop := rtc mstep.

(** What a CPU that does [x] has in its [struct CpuInfo]. *)
Definition cpu_does (x : option stop) (i : CpuInfo) (k : kst) : Prop :=
  match x with
  | Some (SUser y) => cpu_env i = Some y ∧ cpu_status i = CPU_STARTED ∧
      (env_status (envs k y) = ENV_RUNNING ∨ env_status (envs k y) = ENV_DYING) ∧ cpu_cr3 i = dirof k y * 4096
  | Some SHalt => cpu_env i = None ∧ cpu_status i = CPU_HALTED
  | None => cpu_env i = None
  | _ => False
  end.

(** The invariant of the machine. *)
Record running (act : Z → option stop) (k : kst) : Prop := {
  mi_inv : ∃ live fe l, kernel_inv base kp live fe l k ∧ cpus_ok live k;
  mi_typed x : env_typed (envs k x);
  mi_lock : kernel_lock k = mkLock false None;
  mi_cpu c : cpu_does (act c) (cpus k c) k;
  mi_apart c c' x : cpu_env (cpus k c) = Some x → cpu_env (cpus k c') = Some x → c = c';
}.
Definition machine_inv (s : machine) : Prop := match s with Run act k => running act k | InMonitor => True end.

(** A CPU that has an environment runs it. *)
Lemma runs_env act k c x : running act k → cpu_env (cpus k c) = Some x → act c = Some (SUser x) ∧
  (env_status (envs k x) = ENV_RUNNING ∨ env_status (envs k x) = ENV_DYING) ∧ cpu_cr3 (cpus k c) = dirof k x * 4096.
Proof.
  intros R Hx. pose proof (mi_cpu _ _ R c) as Hc. unfold cpu_does in Hc.
  destruct (act c) as [[| |y| | |]|]; try done; rewrite Hx in Hc; [|by destruct Hc|done].
  by destruct Hc as ([= <-] & _ & H1 & H2).
Qed.

Lemma running_good act k c : running act k → ∃ live fe l, good c base kp (cpus k) live fe l k.
Proof.
  intros R. destruct (mi_inv _ _ R) as (live & fe & l & H & Hok). exists live, fe, l.
  split; [exact H|exact Hok| |exact (mi_typed _ _ R)]. split.
  - done.
  - intros x (d & _ & Hx). exact (proj1 (proj2 (runs_env act k d x R Hx))).
  - intros d x _ Hx. exact (proj2 (proj2 (runs_env act k d x R Hx))).
  - intros x (d & Hne & Hx) Hc. exact (Hne (mi_apart _ _ R d c x Hx Hc)).
Qed.

Lemma running_ready act k c e : running act k → act c = Some (SUser e) → ready c base kp (cpus k) e k.
Proof.
  intros R Ha. pose proof (mi_cpu _ _ R c) as Hc. rewrite Ha in Hc. destruct Hc as (H1 & H2 & H3 & H4).
  exact (conj (running_good act k c R) (conj (mi_lock _ _ R) (conj H1 (conj H2 (conj H3 H4))))).
Qed.

Lemma running_halted act k c : running act k → act c = Some SHalt → settled c base kp (cpus k) SHalt k.
Proof.
  intros R Ha. pose proof (mi_cpu _ _ R c) as Hc. rewrite Ha in Hc.
  exact (conj (running_good act k c R) (conj (mi_lock _ _ R) Hc)).
Qed.

(** What CPU [c] leaves is a state of the machine again. *)
Lemma good_running act k c x k' live fe l : running act k → good c base kp (cpus k) live fe l k' →
  kernel_lock k' = mkLock false None → cpu_does x (cpus k' c) k' → running (<[c := x]> act) k'.
Proof.
  intros R [H Hok Hp Ht] Hl Hx. split; [by exists live, fe, l|exact Ht|exact Hl| |].
  - intros d. rewrite upd_case. destruct (decide (c = d)) as [<-|Hne]; [exact Hx|].
    rewrite (pe_same _ _ _ Hp d (not_eq_sym Hne)). pose proof (mi_cpu _ _ R d) as Hd. unfold cpu_does in *.
    destruct (act d) as [[| |y| | |]|]; try exact Hd. destruct Hd as (E1 & E2 & _).
    refine (conj E1 (conj E2 (conj (pe_runs _ _ _ Hp y _) (pe_cr3 _ _ _ Hp d y (not_eq_sym Hne) E1)))).
    exists d. split; [exact (not_eq_sym Hne)|exact E1].
  - assert (∀ d y, d ≠ c → cpu_env (cpus k' d) = Some y → cpu_env (cpus k' c) ≠ Some y) as Hap.
    { intros d y Hd E. rewrite (pe_same _ _ _ Hp d Hd) in E. apply (pe_apart _ _ _ Hp). by exists d. }
    intros d d' y E1 E2. destruct (decide (d = c)) as [->|Hd], (decide (d' = c)) as [->|Hd'].
    + done.
    + destruct (Hap d' y Hd' E2 E1).
    + destruct (Hap d y Hd E1 E2).
    + rewrite (pe_same _ _ _ Hp _ Hd) in E1. rewrite (pe_same _ _ _ Hp _ Hd') in E2. exact (mi_apart _ _ R d d' y E1 E2).
Qed.

Lemma settled_running act k c x k' : running act k → settled c base kp (cpus k) x k' → machine_inv (continue act c x k').
Proof.
  intros R Hs. destruct x; cbn [continue machine_inv]; try done; cbn [settled] in Hs.
  - destruct Hs as ((live & fe & l & Hg) & Hl & H1 & H2 & H3 & H4). apply (good_running act k c _ k' live fe l R Hg Hl).
    by refine (conj H1 (conj H2 (conj (or_introl H3) H4))).
  - destruct Hs as ((live & fe & l & Hg) & Hl & H1 & H2). by apply (good_running act k c _ k' live fe l R Hg Hl).
Qed.

Context (Hgetc : ∀ k, ∃ z evs, cons_getc k = (Ret z, logged evs k)) (Hif : flag eflags FL_IF = false).

Lemma mstep_inv s s' : mstep s s' → machine_inv s → machine_inv s'.
Proof using Hgetc Hif.
  intros [act c e k va b k' Ha Hva Hw E|act c e k tf rcr2 x k' Ha Hf E|act c k tf rcr2 x k' Ha Hf E|act c k x k' Ha Hst E] R;
    cbn [machine_inv] in R.
  - destruct (store_ready c base kp (cpus k) e k va b k' (running_ready act k c e R Ha) Hva Hw E)
      as (((live & fe & l & Hg) & Hl & H1 & H2 & H3 & H4) & _ & _).
    pose proof (good_running act k c (Some (SUser e)) k' live fe l R Hg Hl (conj H1 (conj H2 (conj H3 H4)))) as R'.
    rewrite <- Ha, upd_id in R'. exact R'.
  - destruct (trap_settled c base kp (cpus k) cons_getc Hgetc eflags Hif e rcr2 tf k (running_ready act k c e R Ha) Hf)
      as (x1 & k1 & E1 & H1). rewrite E1 in E. injection E as <- <-. exact (settled_running act k c x1 k1 R H1).
  - destruct (wake_settled c base kp (cpus k) cons_getc eflags Hif rcr2 tf k (running_halted act k c R Ha) Hf)
      as (x1 & k1 & E1 & H1). rewrite E1 in E. injection E as <- <-. exact (settled_running act k c x1 k1 R H1).
  - pose proof (mi_cpu _ _ R c) as Hc. rewrite Ha in Hc.
    rewrite run_bind in E. unfold lock_kernel in E. rewrite run_bind, run_gets, (mi_lock _ _ R) in E. cbn [locked] in E.
    rewrite run_modify in E. set (k0 := set_lock (mkLock true (Some c)) k) in E.
    destruct (running_good act k c R) as (live & fe & l & [H Hok Hp Ht]).
    destruct (yield_settled c base kp (cpus k) None k0) as (x1 & k1 & E1 & H1).
    + split; [|reflexivity|exact Hc|exact Hst]. exists live, fe, l.
      split; [by apply ke_set_lock|exact Hok|by apply (peers_ext c (cpus k) k)|exact Ht].
    + rewrite E1 in E. injection E as <- <-. exact (settled_running act k c x1 k1 R H1).
Qed.

Lemma mreach_inv s s' : mreach s s' → machine_inv s → machine_inv s'.
Proof using Hgetc Hif. intros Hr. induction Hr as [|s1 s2 s3 Hst _ IH]; [exact id|]. intros Hs. exact (IH (mstep_inv _ _ Hst Hs)). Qed.
End machine.

(** ** Theorems *)


(** C2: every reachable state of a machine with any number of CPUs.  After any
    interleaving of stores by user code to its own memory, fair traps, timer
    interrupts and first entries of CPUs into the scheduler, the kernel invariant (reference counts, free lists,
    page tables, partition of the environments) holds and the lock is free; each
    CPU runs a live environment in that one's address space or is halted with none;
    and no two CPUs have the same environment. *)
Theorem kernel_invariant_reachable base kp cons_getc eflags act k act' k' :
  (∀ k, ∃ z evs, cons_getc k = (Ret z, logged evs k)) → flag eflags FL_IF = false →
  running base kp act k → mreach cons_getc eflags (Run act k) (Run act' k') → running base kp act' k'.
Proof.
  intros Hgetc Hif R Hr. exact (mreach_inv base kp cons_getc eflags Hgetc Hif (Run act k) (Run act' k') Hr R).
Qed.


(** ** Witnesses: two CPUs

    CPU 0 runs environment 0, as in [demo_user]; CPU 1 runs environment 1, a child
    of 0 that [sys_exofork] has made. *)

Definition demo_child : Env :=
  with_status (with_tf (with_status (fresh_env (demo_env 1) 1 3 4096) ENV_NOT_RUNNABLE) (tf_set_eax 0 (env_tf (demo_env 0)))) ENV_RUNNING.
Definition demo_acts : Z → option stop := <[0 := Some (SUser 0)]> (<[1 := Some (SUser 1)]> (λ _, None)).

Record two_cpus (k : kst) : Prop := {
  tc_run : running demo_base 1 demo_acts k;
  tc_envs : envs k = <[1 := demo_child]> demo_env;
  tc_refs p : 0 ≤ p < npages (k_mm k) → pp_ref (pages (k_mm k) p) < 65535;
}.

Lemma demo_env_typed x : env_typed (demo_env x).
Proof. unfold demo_env. destruct (x =? 0); split; try (by vm_compute); split; try (by vm_compute); split; by vm_compute. Qed.
Lemma demo_child_typed : env_typed demo_child.
Proof. apply with_status_typed, with_tf_typed; [apply with_status_typed, fresh_env_typed, demo_env_typed|]. apply tf_set_eax_typed, et_tf, demo_env_typed. Qed.

Lemma two_cpus_exist : ∃ k, two_cpus k.
Proof.
  pose proof (sys_exofork_run 0 demo_base 1 [0] (zrange 1 1023) [3; 5; 6] demo_k 0 demo_k_inv eq_refl ltac:(left)) as HR.
  cbv zeta in HR. rewrite zrange_cons in HR by lia. destruct HR as (k1 & _ & H1 & Ee & X).
  set (k2 := upd_env 1 (λ v, with_status v ENV_RUNNING) k1).
  assert (envs k2 = <[1 := demo_child]> demo_env) as Ee2.
  { unfold k2. cbn [envs upd_env set_envs]. by rewrite Ee, upd_same, upd_upd. }
  exists (set_cpus (<[1 := mkCpu CPU_STARTED (Some 1) (3 * 4096)]> (cpus k2)) (set_lock (mkLock false None) k2)).
  assert (kernel_inv demo_base 1 [1; 0] (zrange (1 + 1) (1023 - 1)) [5; 6] k2) as H2.
  { apply ke_upd_env; [exact H1|left| |reflexivity|reflexivity]. cbn. unfold ENV_DYING, ENV_RUNNING, ENV_NOT_RUNNABLE. lia. }
  assert (∀ c, <[1 := mkCpu CPU_STARTED (Some 1) (3 * 4096)]> (cpus k2) c =
    if decide (1 = c) then mkCpu CPU_STARTED (Some 1) (3 * 4096)
    else if decide (c = 0) then mkCpu CPU_STARTED (Some 0) (2 * 4096) else mkCpu CPU_UNUSED None 0) as Ec.
  { intros c. rewrite upd_case. case_decide; [done|]. unfold k2. cbn [cpus upd_env set_envs]. rewrite (ex_cpus _ _ _ _ _ X).
    cbn. destruct (Z.eqb_spec c 0); case_decide; done. }
  split; [split| |].
  - exists [1; 0], (zrange (1 + 1) (1023 - 1)), [5; 6]. split; [by apply ke_set_cpus, ke_set_lock|].
    intros c x. cbn [cpus set_cpus]. rewrite Ec. repeat case_decide; cbn; intros [=]; subst; [left|right; left].
  - intros x. cbn [envs set_cpus set_lock]. rewrite Ee2, upd_case. case_decide; [exact demo_child_typed|apply demo_env_typed].
  - reflexivity.
  - intros c. unfold cpu_does, dirof, demo_acts. cbn [cpus set_cpus envs set_lock]. rewrite Ec, Ee2, !upd_case.
    destruct (decide (0 = c)) as [<-|H0]; [by repeat split; left|]. destruct (decide (1 = c)) as [<-|Hc]; [by repeat split; left|].
    rewrite decide_False by (by intros ->). done.
  - intros c c' x. cbn [cpus set_cpus]. rewrite !Ec. repeat case_decide; cbn; subst; congruence.
  - exact Ee2.
  - intros p Hp. pose proof (ex_refs _ _ _ _ _ X p) as Hr.
    assert (pp_ref (pages (k_mm demo_k) p) ≤ 2) by (cbn; repeat case_match; simpl; lia).
    change (pp_ref (pages (k_mm k1) p) < 65535). lia.
Qed.

Lemma demo_getc : ∀ k, ∃ z evs, (mret 0 : K Z) k = (Ret z, logged evs k).
Proof. intros k. by exists 0, []. Qed.


(** CPU 1 makes a system call. *)
Definition demo_getenvid : Trapframe :=
  mkTf (mkRegs 1 2 3 4 5 6 7 SYS_getenvid) (Z.lor GD_UD 3) (Z.lor GD_UD 3) T_SYSCALL 0 0x800020 (Z.lor GD_UT 3) FL_IF
    0xEEBFDFF0 (Z.lor GD_UD 3).

Lemma demo_reach : ∃ k k', two_cpus k ∧ mreach (mret 0) 0 (Run demo_acts k) (Run demo_acts k').
Proof.
  destruct two_cpus_exist as [k T]. exists k.
  destruct (running_ready _ _ _ k 1 1 (tc_run k T) eq_refl) as ((live & fe & l & [H Hok _ _]) & Hl & Hc & Hs & _ & _).
  pose proof (Hok _ _ Hc) as He. set (tf := demo_getenvid).
  assert (env_status (envs k 1) = ENV_RUNNING) as Hr by by rewrite (tc_envs k T).
  destruct (trap_syscall_run 1 (mret 0) 0 0 demo_base 1 live fe l 1 tf k (entered 1 1 tf k) (env_id (envs (entered 1 1 tf k) 1)))
    as (k' & E & _).
  - split; [exact Hc|by rewrite Hs|by rewrite Hl|done|done].
  - by rewrite Hr.
  - reflexivity.
  - unfold syscall. cbn [Z.eqb Pos.eqb]. unfold sys_getenvid, curenv', curenv, get_env. cbn -[entered].
    rewrite run_bind, run_bind, run_gets, entered_cur, run_ret, run_bind, run_gets. reflexivity.
  - by apply entered_inv.
  - exact He.
  - reflexivity.
  - apply entered_cur.
  - by rewrite (proj1 (entered_envs 1 1 tf k 1)).
  - exists k'. split; [exact T|]. apply rtc_once.
    assert (demo_acts = <[1 := Some (SUser 1)]> demo_acts) as Ea.
    { change (Some (SUser 1)) with (demo_acts 1). by rewrite upd_id. }
    rewrite Ea at 2. apply (step_trap _ _ demo_acts 1 1 k tf 0 (SUser 1) k' eq_refl); [|exact E].
    split; [split; [split|..]; by vm_compute|reflexivity|discriminate|]. intros _. split; [exact (tc_refs k T)|discriminate..].
Qed.

Lemma kernel_invariant_reachable_witness : ∃ k k', two_cpus k ∧
  mreach (mret 0) 0 (Run demo_acts k) (Run demo_acts k') ∧ running demo_base 1 demo_acts k'.
Proof.
  destruct demo_reach as (k & k' & T & Hr). exists k, k'. refine (conj T (conj Hr _)).
  exact (kernel_invariant_reachable demo_base 1 (mret 0) 0 demo_acts k demo_acts k' demo_getc eq_refl (tc_run k T) Hr).
Defined.

