(* ===== verification/Startup.v ===== *)
(** * kern/init.c: [i386_init]

    [i386_init] as a whole, over the states of the components it starts; and what
    its second half does, from the lock on: the other CPUs are up, each program is
    in an environment of its own, the first one runs, and the machine is one of
    KernelThm's. *)
From S2P Require Import Prelude Monad Word Layout Mem CString PageAlloc PageTable PageInv PageOps PageDirs Console MpConfig MemInit Seg Lapic KState Env EnvMem KInv EnvSpec Sched SchedSpec Init UserMem Syscall Trap UserStore TrapSpec SysSpec UserLib UserSpec IcodeSpec KernelSafe KernelThm.

Section init.
Context {D : Type} `{Apic D} {W : Type} `{Machine W}.
Context (fuel : nat) (ts_addr : Z → Z) (addr : handler → Z).
Context (mpentry_start mpentry_end percpu_kstacks : Z) (kend bootstack : Z) (mc146818_read : Z → Z) (rcr0 : Z).
(** The APIC identifiers of the processors of the machine. *)
Context (present : Z → bool).

(** From the lock on: [programs] are the images of the [ENV_CREATE]s. *)
Definition i386_start (bootcpu ncpu : Z) (cpu_id : Z → Z) (programs : list Z) (c : Z) : M (sys D) () :=
  onK (lock_kernel c) ;;
  boot_aps fuel bootcpu ts_addr ncpu cpu_id mpentry_start mpentry_end percpu_kstacks present c ;;
  onK (forM programs (λ b, env_create c b ENV_TYPE_USER)) ;;
  onK (sched_yield c).

(** The kernel's state with those of the console and of [mp_init]. *)
Record isys := mkISys { i_sys : sys D; i_cons : @cstate W; i_mp : mpst }.

Definition onS {A} (m : M (sys D) A) : M isys A := λ s,
  let '(r, x) := m (i_sys s) in (r, mkISys x (i_cons s) (i_mp s)).
Definition onC {A} (m : M (@cstate W) A) : M isys A := λ s,
  let '(r, x) := m (i_cons s) in (r, mkISys (i_sys s) x (i_mp s)).

(** [mp_init] writes the [cpu_status] of the [cpus] that the kernel uses, and
    [lapicaddr]. *)
Definition set_statuses (st : Z → Z) (k : kst) : kst :=
  set_cpus (λ i, mkCpu (st i) (cpu_env (cpus k i)) (cpu_cr3 (cpus k i))) k.
Definition onMp : M isys () := λ s,
  let k := y_k (i_sys s) in
  let '(r, x) := mp_init (phys (k_mm k)) (npages (k_mm k)) (set_cpu_stat (λ i, cpu_status (cpus k i)) (i_mp s)) in
  let y := i_sys s in
  (r, mkISys (mkSys (set_statuses (cpu_stat x) k) (y_dev y) (lapicaddr x) (y_lapic y) (y_trace y) (y_ports y) (y_descs y) (y_kstack y) (y_esp y))
             (i_cons s) x).

(** The kernel's state after [mem_init], whose effects on memory MemInit has:
    [envs] is zeroed, and CR3 holds the new directory. *)
Definition env_zero : Env := mkEnv tf0 None 0 0 ENV_TYPE_USER ENV_FREE 0 0 0 0 false 0 0 0 0.

Definition after_mem_init (c : Z) : K () :=
  modify (set_envs (λ _, env_zero)) ;;
  kpd ← liftM (gets kern_pgdir);
  pa ← liftM (PADDR kpd);
  modify (λ k, set_cpus (<[c := mkCpu (cpu_status (cpus k c)) (cpu_env (cpus k c)) pa]> (cpus k)) k).

Definition i386_init (programs : list Z) (c : Z) : M isys () :=
  onC (cons_init fuel) ;;
  onS (onK (cprintf "6828 decimal is %o octal!\n" [6828])) ;;
  onS (onK (liftM (mem_init kend bootstack (λ i, percpu_kstacks + i * KSTKSIZE) mc146818_read rcr0) ;; after_mem_init c)) ;;
  onS (onK env_init) ;;
  onS (onD (trap_init c addr ts_addr)) ;;
  onMp ;;
  mp ← gets i_mp;
  onS (onL (lapic_init fuel (c =? bootcpu mp))) ;;
  onC pic_init ;;
  onS (i386_start (bootcpu mp) (ncpu mp) (cpu_ids mp) programs c).
End init.

(** ** Panic

    [panicstr] and the kernel's state.  The monitor does not come back; without a
    trap frame it does not read CR2. *)
Definition kpanic := M (option string * kst).
Definition onP {A} (m : K A) : kpanic A := λ s, let '(r, k) := m s.2 in (r, (s.1, k)).

Definition _panic (c : Z) (file : string) (line : Z) (fmt : string) (args : list Z) : kpanic () :=
  p ← gets fst;
  (match p with
   | Some _ => mret tt
   | None =>
       modify (λ s, (Some fmt, s.2)) ;;
       onP (cprintfS "kernel panic on CPU %d at %s:%d: " [c; line] [file]) ;;
       onP (cprintf fmt args) ;;
       onP (cprintf nl [])
   end) ;;
  onP (monitor c 0 None).

Definition _warn (file : string) (line : Z) (fmt : string) (args : list Z) : K () :=
  cprintfS "kernel warning at %s:%d: " [line] [file] ;;
  cprintf fmt args ;;
  cprintf nl [].

(** Only the first panic reports, and every panic ends in the monitor. *)
Lemma panic_run c file line fmt args p k : ∃ k',
  _panic c file line fmt args (p, k) = (Stop SMonitor, (Some (default fmt p), k')) ∧
  k' = (onP (monitor c 0 None) (p, match p with Some _ => k
          | None => logged [Cprintf nl []; Cprintf fmt args; CprintfS "kernel panic on CPU %d at %s:%d: " [c; line] [file]] k end)).2.2.
Proof. destruct p as [w|]; eexists; split; reflexivity. Qed.

(** ** Creating the first environments *)

(** Environment [e] is at the start of the program of image [b]. *)
Record holds (m : mem) (b : Z) (k : kst) (e : Z) : Prop := {
  hl_tf : env_tf (envs k e) = tf_set_eip (load32 m (b + 24 - KERNBASE)) env_tf_init;
  hl_bytes i t : 0 ≤ i < e_phnum m b → ph_type (phdr_of m b i) = ELF_PROG_LOAD → 0 ≤ t < ph_memsz (phdr_of m b i) →
    user_byte (phys (k_mm k)) (dirof k e) (ph_va (phdr_of m b i) + t) = Some (seg_byte m b (phdr_of m b i) t);
}.

(** An image whose pages are not written to is still there. *)
Section kept.
Context (base : Z → Z) (m m' : mem) (b : Z).
Context (Hm : ∀ a, base (a / 4096) ≠ 0 → load8 m' a = load8 m a) (G : good_image base m b).

Lemma kept_header o : 0 ≤ o ≤ 48 → load32 m' (b + o - KERNBASE) = load32 m (b + o - KERNBASE).
Proof using Hm G.
  intros Ho. apply load32_bytes_eq. intros j Hj. apply Hm. replace (b + o - KERNBASE + j) with (b + (o + j) - KERNBASE) by lia.
  apply (gi_header _ _ _ G). lia.
Qed.

Lemma kept_phnum : e_phnum m' b = e_phnum m b.
Proof using Hm G.
  unfold e_phnum, load16. f_equal; [|f_equal]; apply Hm.
  - apply (gi_header _ _ _ G). lia.
  - replace (b + 44 - KERNBASE + 1) with (b + 45 - KERNBASE) by lia. apply (gi_header _ _ _ G). lia.
Qed.

Lemma kept_phdr_addr i : phdr_addr m' b i = phdr_addr m b i.
Proof using Hm G. unfold phdr_addr. by rewrite (kept_header 28) by lia. Qed.

Lemma kept_phdr i : 0 ≤ i < e_phnum m b → phdr_of m' b i = phdr_of m b i.
Proof using Hm G.
  intros Hi. unfold phdr_of. rewrite kept_phdr_addr. set (ph := phdr_addr m b i).
  assert (∀ o, 0 ≤ o ≤ 28 → load32 m' (ph - KERNBASE + o) = load32 m (ph - KERNBASE + o)) as Hl.
  { intros o Ho. apply load32_bytes_eq. intros j Hj. apply Hm. replace (ph - KERNBASE + o + j) with (ph + (o + j) - KERNBASE) by lia.
    apply (gi_phdrs _ _ _ G). unfold ph, phdr_addr. lia. }
  pose proof (Hl 0 ltac:(lia)) as H0. rewrite Z.add_0_r in H0. unfold phdr_at. by rewrite H0, !Hl by lia.
Qed.

Lemma kept_image : good_image base m' b ∧ pages_from m' b 0 = pages_from m b 0.
Proof using Hm G.
  pose proof G as [g1 g2 g3 g4 g5 g6 g7]. split; [split; rewrite ?kept_phnum|].
  - exact g1.
  - exact g2.
  - pose proof (kept_header 0 ltac:(lia)) as E. rewrite Z.add_0_r in E. by rewrite E.
  - by rewrite kept_header by lia.
  - intros a. rewrite !kept_phdr_addr. exact (g5 a).
  - intros i Hi. rewrite kept_phdr by exact Hi. exact (g6 i Hi).
  - intros i j q Hi Hj. rewrite !kept_phdr by assumption. exact (g7 i j q Hi Hj).
  - unfold pages_from. rewrite kept_phnum. assert (∀ i, i ∈ zrange 0 (e_phnum m b - 0) → phdr_of m' b i = phdr_of m b i) as Hp.
    { intros i Hi%elem_of_zrange. apply kept_phdr. lia. }
    induction (zrange 0 _) as [|i l IH]; [done|]. cbn [foldr]. rewrite Hp by left. f_equal. apply IH. intros j Hj. apply Hp. by right.
Qed.

Lemma kept_holds k e : holds m' b k e → holds m b k e.
Proof using Hm G.
  intros [h1 h2]. split; [by rewrite h1, kept_header by lia|]. intros i t Hi Ht Hr. specialize (h2 i t).
  rewrite kept_phnum, kept_phdr in h2 by exact Hi. rewrite (h2 Hi Ht Hr). f_equal. unfold seg_byte. case_match; [|done].
  apply Hm. replace (b + ph_offset (phdr_of m b i) - KERNBASE + t) with (b + ph_offset (phdr_of m b i) + t - KERNBASE) by lia.
  apply (so_own _ _ _ (gi_segs _ _ _ G i Hi Ht)). lia.
Qed.
End kept.

Section programs.
Context (cpunum : Z) (base : Z → Z) (kp : Z) (m : mem).

(** Free pages that the programs may need. *)
Definition room (programs : list Z) : Z := foldr (λ b acc, 2 * (pages_from m b 0 + 1) + 1 + acc) 0 programs.

Lemma room_nonneg programs : 0 ≤ room programs.
Proof. induction programs as [|b ps IH]; cbn [room foldr]; [lia|]. pose proof (pages_from_nonneg m b 0). unfold room in *. lia. Qed.

(** After the environments from [j] to [n] were created, with [programs] from [j] on. *)
Record created (j n : Z) (programs : list Z) (k k' : kst) (l' : list Z) : Prop := {
  cr_inv : ∃ live, kernel_inv base kp live (zrange n (NENV - n)) l' k' ∧ ∀ x, x ∈ live ↔ 0 ≤ x < n;
  cr_kept a : base (a / 4096) ≠ 0 → load8 (phys (k_mm k')) a = load8 m a;
  cr_typed x : env_typed (envs k' x);
  cr_cpus c : cpu_status (cpus k' c) = cpu_status (cpus k c) ∧ cpu_env (cpus k' c) = cpu_env (cpus k c) ∧
    (c ≠ cpunum → cpus k' c = cpus k c);
  cr_lock : kernel_lock k' = kernel_lock k;
  cr_old x : 0 ≤ x < j → envs k' x = envs k x ∧
    ∀ va, 0 ≤ va < UTOP → user_byte (phys (k_mm k')) (dirof k' x) va = user_byte (phys (k_mm k)) (dirof k x) va;
  cr_new i b : programs !! i = Some b → env_status (envs k' (j + Z.of_nat i)) = ENV_RUNNABLE ∧ holds m b k' (j + Z.of_nat i);
}.

Lemma seg_user base' b i t : good_image base' m b → 0 ≤ i < e_phnum m b → ph_type (phdr_of m b i) = ELF_PROG_LOAD →
  0 ≤ t < ph_memsz (phdr_of m b i) → 0 ≤ ph_va (phdr_of m b i) + t < UTOP.
Proof.
  intros G Hi Ht Hr. pose proof (so_user _ _ _ (gi_segs _ _ _ G i Hi Ht)) as Hu.
  destruct (phdr_at_range m (phdr_addr m b i)) as (_ & _ & Hv & _). change (phdr_at m _) with (phdr_of m b i) in Hv.
  change (USTACKTOP - PGSIZE) with 0xEEBFD000 in Hu. change UTOP with 0xEEC00000. lia.
Qed.

Lemma holds_same base' b k k' x : good_image base' m b → envs k' x = envs k x →
  (∀ va, 0 ≤ va < UTOP → user_byte (phys (k_mm k')) (dirof k' x) va = user_byte (phys (k_mm k)) (dirof k x) va) →
  holds m b k x → holds m b k' x.
Proof.
  intros G E Hb [h1 h2]. split; [by rewrite E|]. intros i t Hi Ht Hr. rewrite Hb by exact (seg_user base' b i t G Hi Ht Hr). by apply h2.
Qed.

Lemma programs_run programs : ∀ j live l k,
  kernel_inv base kp live (zrange j (NENV - j)) l k → (∀ x, x ∈ live ↔ 0 ≤ x < j) → 0 ≤ j → j + Z.of_nat (length programs) ≤ NENV →
  (∀ a, base (a / 4096) ≠ 0 → load8 (phys (k_mm k)) a = load8 m a) → (∀ x, env_typed (envs k x)) →
  (∀ b, b ∈ programs → good_image base m b) → room programs ≤ Z.of_nat (length l) →
  ∃ l' k', forM programs (λ b, env_create cpunum b ENV_TYPE_USER) k = (Ret tt, k') ∧
    created j (j + Z.of_nat (length programs)) programs k k' l'.
Proof.
  induction programs as [|b ps IH]; intros j live l k H Hlive Hj Hn Hk Ht Hg Hroom.
  { exists l, k. split; [reflexivity|]. cbn [length]. rewrite Z.add_0_r. split; try done. by exists live. }
  cbn [length] in Hn. cbn [room foldr] in Hroom. fold (room ps) in Hroom. pose proof (room_nonneg ps) as Hr0.
  pose proof (Hg b ltac:(left)) as G. pose proof (pages_from_nonneg m b 0) as Hp0.
  destruct l as [|p l]; [cbn [length] in Hroom; lia|]. cbn [length] in Hroom.
  rewrite zrange_cons in H by lia. replace (NENV - j - 1) with (NENV - (j + 1)) in H by lia.
  destruct (kept_image base m (phys (k_mm k)) b Hk G) as [G' Ep].
  destruct (env_create_run cpunum base kp live j (zrange (j + 1) (NENV - (j + 1))) p l k H b ENV_TYPE_USER G')
    as (k1 & l1 & E1 & H1 & Ee & Ec & Elk & Hb & _ & Ho & Hk1 & Hl1); [rewrite Ep; lia|]. rewrite Ep in Hl1. cbv zeta in Ee.
  assert (∀ x, x ≠ j → envs k1 x = envs k x) as Eo by (intros x Hx; by rewrite Ee, upd_other by (exact (not_eq_sym Hx))).
  assert (dirof k1 j = p) as Edj by (apply dirof_kva; by rewrite Ee, upd_same).
  assert (holds m b k1 j) as Hj1.
  { apply (kept_holds base m (phys (k_mm k)) b Hk G). split; [by rewrite Ee, upd_same|]. rewrite Edj. exact Hb. }
  assert (∀ x, 0 ≤ x < j → envs k1 x = envs k x ∧
    ∀ va, 0 ≤ va < UTOP → user_byte (phys (k_mm k1)) (dirof k1 x) va = user_byte (phys (k_mm k)) (dirof k x) va) as Hold.
  { intros x Hx. assert (envs k1 x = envs k x) as Ex by (apply Eo; lia). split; [exact Ex|]. intros va Hva. unfold dirof at 1. rewrite Ex.
    fold (dirof k x). apply Ho; [|exact Hva]. apply list_elem_of_fmap. exists x. split; [reflexivity|]. by apply Hlive. }
  destruct (IH (j + 1) (j :: live) l1 k1 H1) as (l' & k' & E' & C).
  - intros x. rewrite elem_of_cons, Hlive. lia.
  - lia.
  - lia.
  - intros a Ha. by rewrite Hk1, Hk by exact Ha.
  - intros x. rewrite Ee, upd_case. case_decide; [|apply Ht].
    apply (env_typed_ext (icode_env j p k (load32 (phys (k_mm k)) (b + 24 - KERNBASE)))); [|reflexivity..].
    unfold icode_env. apply with_tf_typed; [apply fresh_env_typed, Ht|]. apply tf_set_eip_typed; [apply load32_range|exact tf_init_typed].
  - intros b' Hb'. apply Hg. by right.
  - lia.
  - exists l', k'. split.
    + cbn [forM]. rewrite run_bind, E1. exact E'.
    + cbn [length]. replace (j + Z.of_nat (S (length ps))) with (j + 1 + Z.of_nat (length ps)) by lia.
      destruct C as [c1 c2 c3 c4 c5 c6 c7]. split; try assumption.
      * intros c. destruct (c4 c) as (-> & -> & Hc). rewrite Ec, upd_case.
        destruct (decide (cpunum = c)) as [<-|Hne]; [by split; [|split]|]. split; [done|]. split; [done|].
        intros Hne'. by rewrite Hc, Ec, upd_other.
      * by rewrite c5.
      * intros x Hx. destruct (c6 x) as [Ex Hx']; [lia|]. destruct (Hold x Hx) as [Ex1 Hx1]. split; [by rewrite Ex|].
        intros va Hva. rewrite Hx', Hx1 by exact Hva. reflexivity.
      * intros [|i] b' Hb'.
        -- injection Hb' as <-. rewrite Z.add_0_r. destruct (c6 j) as [Ej Hbj]; [lia|]. split; [by rewrite Ej, Ee, upd_same|].
           exact (holds_same base b k1 k' j G Ej Hbj Hj1).
        -- replace (j + Z.of_nat (S i)) with (j + 1 + Z.of_nat i) by lia. by apply c7.
Qed.
End programs.

(** ** From the lock to the first environment *)

(** The pages [ps] apart. *)
Definition hide (ps : list Z) (base : Z → Z) (p : Z) : Z := if bool_decide (p ∈ ps) then 0 else base p.

Lemma good_image_hide ps base m b : good_image (hide ps base) m b → good_image base m b.
Proof.
  assert (∀ p, hide ps base p ≠ 0 → base p ≠ 0) as Hh by (intros p; unfold hide; by case_bool_decide).
  intros [g1 g2 g3 g4 g5 g6 g7]. split; try assumption; [auto..|].
  intros i Hi Ht. destruct (g6 i Hi Ht) as [h1 h2 h3 h4]. split; auto.
Qed.

Section starting.
Context {D : Type} `{Apic D} (fuel : nat) (bootcpu : Z) (ts_addr : Z → Z).
Context (mpentry_start mpentry_end percpu_kstacks : Z) (ncpu : Z) (cpu_id : Z → Z) (present : Z → bool).
Context (base : Z → Z) (kp t la : Z) (l : list Z) (programs : list Z) (c : Z).

(** Before [lock_kernel]: the CPUs are numbered as their APICs are, none has an environment, all environments are free, and
    the images are in kernel pages that [boot_aps] does not write. *)
Record before_start (s : sys D) : Prop := {
  bs_idle : ∀ d, idle_within fuel d;
  bs_la : 0 < la ∧ la mod 4096 = 0 ∧ la + 4096 < 4294967296;
  bs_booting : booting base kp t la [] (zrange 0 NENV) l ncpu s;
  bs_ncpu : 0 ≤ ncpu;
  bs_aps i : 0 ≤ i < ncpu → i ≠ c → numbered cpu_id present i;
  bs_entry : KERNBASE ≤ mpentry_start ∧ mpentry_end < 4294967296 ∧ 0 ≤ mpentry_end - mpentry_start ≤ 4096;
  bs_lock : kernel_lock (y_k s) = mkLock false None;
  bs_env i : cpu_env (cpus (y_k s) i) = None;
  bs_started : cpu_status (cpus (y_k s) c) = CPU_STARTED;
  bs_typed x : env_typed (envs (y_k s) x);
  bs_programs : programs ≠ [] ∧ Z.of_nat (length programs) ≤ NENV;
  bs_images b : b ∈ programs → good_image (hide [0; 7; t] base) (phys (k_mm (y_k s))) b;
  bs_room : room (phys (k_mm (y_k s))) programs ≤ Z.of_nat (length l);
}.

(** The first of the environments runs. *)
Lemma first_yield j k live fe l' : kernel_inv base kp live fe l' k → (∀ x, env_typed (envs k x)) → lock_held c k →
  (∀ i, cpu_env (cpus k i) = None) → cpu_status (cpus k c) = CPU_STARTED → 0 < j → env_status (envs k 0) = ENV_RUNNABLE →
  ∃ k', sched_yield c k = (Stop (SUser 0), k') ∧ running base kp (<[c := Some (SUser 0)]> (λ _, None)) k' ∧ ran c live 0 k k'.
Proof.
  intros Hi Ht Hl Hc Hs Hj Hr. assert (cpus_ok live k) as Hok by (intros i e; by rewrite Hc).
  destruct (sched_yield_run c base kp live fe l' k Hi Hok Hl) as (x & k' & E & H' & Hok' & Hout).
  unfold yield_outcome in Hout. cbv zeta in Hout. rewrite Hc in Hout. cbn [sched_begin] in Hout.
  assert (runnable k 0 = true) as Hr0 by (unfold runnable; by rewrite Hr).
  pose proof (sched_pick_spec k 0) as Hp. destruct (sched_pick k 0) as [y|].
  2: { rewrite Hp in Hr0 by (unfold NENV; lia). done. }
  destruct Hp as (Hy & _ & Hmin). specialize (Hmin 0 ltac:(unfold NENV; lia) Hr0).
  assert (y = 0) as -> by (unfold cdist, NENV in *; lia). destruct Hout as [-> R]. exists k'. split; [exact E|]. split; [|exact R].
  assert (peers c (cpus k) k) as Hpe.
  { split; [done|..]; try (intros y' (d & _ & Hd); by rewrite Hc in Hd). intros d y' _ Hd. by rewrite Hc in Hd. }
  pose proof (ran_settled c base kp (cpus k) live fe l' 0 k k' Hpe) as St.
  apply (settled_running base kp (λ _, None) (set_lock (mkLock false None) k) c (SUser 0) k').
  - split; [exists live, fe, l'; split; [by apply ke_set_lock|exact Hok]|exact Ht|done|exact Hc|]. intros i i' y'. change (cpus (set_lock _ k)) with (cpus k). by rewrite Hc.
  - apply St; try assumption. intros (d & _ & Hd). by rewrite Hc in Hd.
Qed.

(** C3: [i386_init] from the kernel lock on, with the programs to run in kernel memory:
    it ends in user mode, in environment 0, at the start of the first program.
    Every program is in memory in an environment of its own; every other CPU is up,
    in the kernel's address space on its own kernel stack with its task register and
    IDT loaded, and has no environment; and the state is one from which [kernel_invariant_reachable]
    starts: the kernel invariant holds, the lock is free, each CPU may go on. *)
Theorem i386_start_correct s : before_start s → let m := phys (k_mm (y_k s)) in
  ∃ s', i386_start fuel ts_addr mpentry_start mpentry_end percpu_kstacks present bootcpu ncpu cpu_id programs c s = (Stop (SUser 0), s') ∧
    running base kp (<[c := Some (SUser 0)]> (λ _, None)) (y_k s') ∧
    (∀ i b, programs !! i = Some b → holds m b (y_k s') (Z.of_nat i) ∧
       env_status (envs (y_k s') (Z.of_nat i)) = (if decide (Z.of_nat i = 0) then ENV_RUNNING else ENV_RUNNABLE)) ∧
    (∀ i, 0 ≤ i < ncpu → i ≠ c → cpus (y_k s') i = mkCpu CPU_STARTED None (kp * 4096) ∧
       y_esp s' i = percpu_kstacks + i * KSTKSIZE + KSTKSIZE ∧
       d_tr (y_descs s') i = u16 (GD_TSS0 + Z.shiftl i 3) ∧ d_idtr (y_descs s') i = true).
Proof.
  intros [Hidle Hla Hb Hn Haps (He1 & He2 & He3) Hlk Henv Hst Hty [Hne Hlen] Him Hroom] m.
  set (k0 := set_lock (mkLock true (Some c)) (y_k s)). set (s0 := set_k k0 s).
  assert (booting base kp t la [] (zrange 0 NENV) l ncpu s0) as Hb0 by (destruct Hb; split; [by apply ke_set_lock|done..]).
  destruct (boot_aps_run fuel Hidle bootcpu ts_addr base kp t la [] (zrange 0 NENV) l Hla ncpu cpu_id mpentry_start mpentry_end
    percpu_kstacks present c s0 Hb0 Hn He1 He2 He3 Haps) as (s1 & E1 & Hb1 & Ee1 & El1 & Hcp & Hco & _ & Hm1).
  set (k1 := y_k s1) in *. set (m1 := phys (k_mm k1)).
  assert (∀ a, hide [0; 7; t] base (a / 4096) ≠ 0 → load8 m1 a = load8 m a) as Hkept.
  { intros a Ha. unfold hide in Ha. case_bool_decide as Hin; [done|]. exact (Hm1 a Hin). }
  assert (∀ b, b ∈ programs → good_image base m1 b ∧ pages_from m1 b 0 = pages_from m b 0) as Him1.
  { intros b Hbp. destruct (kept_image _ m m1 b Hkept (Him b Hbp)) as [G Ep]. split; [by apply (good_image_hide [0; 7; t])|exact Ep]. }
  assert (room m1 programs = room m programs) as Er.
  { unfold room. clear - Him1. induction programs as [|b ps IH]; [done|]. cbn [foldr]. rewrite (proj2 (Him1 b ltac:(left))), IH; [done|].
    intros b' Hb'. apply Him1. by right. }
  destruct (programs_run c base kp m1 programs 0 [] l k1) as (l2 & k2 & E2 & C).
  - replace (NENV - 0) with NENV by lia. exact (bo_inv _ _ _ _ _ _ _ _ _ Hb1).
  - intros x. rewrite elem_of_nil. lia.
  - done.
  - lia.
  - done.
  - intros x. rewrite Ee1. exact (Hty x).
  - intros b Hbp. exact (proj1 (Him1 b Hbp)).
  - rewrite Er. exact Hroom.
  - destruct C as [(live & Hi2 & _) _ Ht2 Hc2 Hl2 _ Hnew].
    assert (∀ i, cpu_env (cpus k1 i) = None) as Hc1.
    { intros i. destruct (decide (0 ≤ i < ncpu ∧ i ≠ c)) as [[Hi Hic]|Hi]; [rewrite (proj1 (Hcp i Hi Hic)); exact (Henv i)|rewrite Hco by exact Hi; exact (Henv i)]. }
    destruct programs as [|b0 ps] eqn:Eps; [done|]. rewrite <- Eps in *.
    destruct (Hnew 0%nat b0) as [Hr0 _]; [by rewrite Eps|].
    destruct (first_yield 1 k2 live _ l2 Hi2 Ht2) as (k3 & E3 & R3 & Rn).
    + unfold lock_held. by rewrite Hl2, El1.
    + intros i. by rewrite (proj1 (proj2 (Hc2 i))), Hc1.
    + rewrite (proj1 (Hc2 c)), Hco by tauto. exact Hst.
    + done.
    + exact Hr0.
    + exists (set_k k3 (set_k k2 s1)). split; [|split; [exact R3|split]].
      * unfold i386_start. rewrite run_bind, (onK_run _ s (Ret tt) k0)
          by (unfold lock_kernel; rewrite run_bind, run_gets, Hlk; reflexivity). cbv beta iota. fold s0.
        rewrite run_bind, E1. cbv beta iota. rewrite run_bind, (onK_run _ s1 _ _ E2). cbv beta iota.
        rewrite (onK_run _ (set_k k2 s1) _ _ E3). reflexivity.
      * intros i b Hib. change (y_k (set_k k3 (set_k k2 s1))) with k3. destruct (Hnew i b Hib) as [Hsi Hhi]. rewrite Z.add_0_l in Hsi, Hhi. split.
        -- apply (kept_holds _ m m1 b Hkept (Him b (list_elem_of_lookup_2 _ _ _ Hib))). destruct Hhi as [h1 h2]. destruct (rn_id _ _ _ _ _ Rn (Z.of_nat i)) as (_ & Epd & Etf).
           split; [by rewrite Etf|]. intros i' t' Hi' Ht' Hr'. unfold dirof. rewrite Epd, (rn_phys _ _ _ _ _ Rn). exact (h2 i' t' Hi' Ht' Hr').
        -- rewrite (rn_status _ _ _ _ _ Rn). unfold run_status. case_decide; [done|]. rewrite decide_False; [exact Hsi|].
           intros [Ecu _]. rewrite (proj1 (proj2 (Hc2 c))), Hc1 in Ecu. done.
      * intros i Hi Hic. change (y_k (set_k k3 (set_k k2 s1))) with k3. change (y_descs (set_k k3 (set_k k2 s1))) with (y_descs s1).
        change (y_esp (set_k k3 (set_k k2 s1))) with (y_esp s1).
        rewrite (rn_cpu _ _ _ _ _ Rn i Hic), (proj2 (proj2 (Hc2 i)) Hic). destruct (Hcp i Hi Hic) as (-> & Htr).
        change (cpus (y_k s0)) with (cpus (y_k s)). by rewrite Henv.
Qed.
End starting.

(** ** Witness: two CPUs and two programs *)

Definition boot_sys : sys () :=
  mkSys boot_k tt 0xFEE00000 MMIOBASE [] [] (mkDescs gdt (λ _, gate0) (λ _, ts0) (λ _, 0) (λ _, false)) 0 (λ _, 0).

Lemma boot_booting : booting boot_base 1 4 0xFEE00000 [] (zrange 0 1024) (zrange 16 16) 2 boot_sys.
Proof.
  split; [exact boot_k_inv| |done|done]. split.
  - split; [reflexivity|]. cbn. lia.
  - by vm_compute.
  - cbn. unfold boot_base. cbn. lia.
  - by vm_compute.
Qed.

Lemma boot_before : before_start 1 0xF0009000 0xF0009020 2 id (λ _, true) boot_base 1 4 0xFEE00000 (zrange 16 16) [boot_image; boot_image] 0 boot_sys.
Proof.
  split.
  - intros d. by left.
  - lia.
  - exact boot_booting.
  - lia.
  - intros i Hi _. split; [reflexivity|]. split; [lia|reflexivity].
  - change KERNBASE with 0xF0000000. lia.
  - reflexivity.
  - intros i. change (cpu_env (if i =? 0 then mkCpu CPU_STARTED None 4096 else mkCpu CPU_UNUSED None 0) = None). by case_match.
  - reflexivity.
  - intros x. split; [split; [split|..]|..]; cbn; unfold word, half; lia.
  - split; [discriminate|]. change NENV with 1024. cbn. lia.
  - intros b Hb. assert (b = boot_image) as ->.
    { apply elem_of_cons in Hb as [->|Hb]; [done|]. by apply list_elem_of_singleton in Hb. }
    apply boot_good_image. vm_compute. discriminate.
  - vm_compute. discriminate.
Qed.

Lemma i386_start_correct_witness : ∃ s',
  i386_start 1 (λ _, 0) 0xF0009000 0xF0009020 0 (λ _, true) 0 2 id [boot_image; boot_image] 0 boot_sys = (Stop (SUser 0), s') ∧
  running boot_base 1 (<[0 := Some (SUser 0)]> (λ _, None)) (y_k s') ∧ tf_eip (env_tf (envs (y_k s') 1)) = 0x800020 ∧
  cpu_status (cpus (y_k s') 1) = CPU_STARTED.
Proof.
  destruct (i386_start_correct 1 0 (λ _, 0) 0xF0009000 0xF0009020 0 2 id (λ _, true) boot_base 1 4 0xFEE00000 (zrange 16 16)
    [boot_image; boot_image] 0 boot_sys boot_before) as (s' & E & R & Hp & Hc).
  exists s'. split; [exact E|]. split; [exact R|]. split.
  - destruct (Hp 1%nat boot_image eq_refl) as [[Ht _] _]. change (Z.of_nat 1) with 1 in Ht. rewrite Ht.
    clear. vm_compute. reflexivity.
  - destruct (Hc 1) as [-> _]; [lia|lia|reflexivity].
Defined.
