(* ===== verification/Smp.v ===== *)
(** * What one CPU can do to the environment of another

    KernelThm proves that CPUs do not disturb each other as long as system calls
    are fair ([fair_call]).  Its conditions on the environments of other CPUs are
    needed: here an environment that may name another, which runs on a second CPU,
    makes both CPUs run it, or frees it and its address space under the second
    CPU. *)
From S2P Require Import Prelude Monad Word Layout Mem CString PageAlloc PageTable PageInv PageOps PageDirs Seg KState Env EnvMem KInv EnvSpec Sched SchedSpec UserMem Syscall Trap UserStore TrapSpec SysSpec KernelSafe KernelThm.

(** A system call [num] on environment [envid], with second argument [a]. *)
Record calls (tf : Trapframe) (num envid a : Z) : Prop := {
  cl_cs : Z.land (tf_cs tf) 3 = 3;
  cl_trapno : tf_trapno tf = T_SYSCALL;
  cl_num : reg_eax (tf_regs tf) = num;
  cl_envid : s32 (reg_edx (tf_regs tf)) = envid;
  cl_arg : s32 (reg_ecx (tf_regs tf)) = a;
}.

Section holes.
Context (base : Z → Z) (kp : Z) (cons_getc : K Z) (eflags rcr2 : Z).
Context (Hif : flag eflags FL_IF = false).
(** CPU [c] runs [e]. *)
Context (c e : Z).
Notation trap := (trap c cons_getc rcr2 eflags false).

(** Between two traps of [e]. *)
Record runs_on (live fe l : list Z) (k : kst) : Prop := {
  ro_inv : kernel_inv base kp live fe l k;
  ro_ok : cpus_ok live k;
  ro_cur : cpu_env (cpus k c) = Some e;
  ro_started : cpu_status (cpus k c) = CPU_STARTED;
  ro_lock : kernel_lock k = mkLock false None;
  ro_status : env_status (envs k e) = ENV_RUNNING;
}.

Lemma running_runs_on act k : running base kp act k → act c = Some (SUser e) → env_status (envs k e) = ENV_RUNNING →
  ∃ live fe l, runs_on live fe l k.
Proof.
  intros R Ha Hs. destruct (mi_inv _ _ _ _ R) as (live & fe & l & H & Hok). exists live, fe, l.
  pose proof (mi_cpu _ _ _ _ R c) as Hc. rewrite Ha in Hc. destruct Hc as (H1 & H2 & _ & _).
  split; try assumption. exact (mi_lock _ _ _ _ R).
Qed.

Lemma runs_on_trap live fe l k tf : runs_on live fe l k → Z.land (tf_cs tf) 3 = 3 → user_trap c eflags e tf k.
Proof using Hif. intros [H Hok Hc Hs Hl _] Hcs. split; [exact Hc|by rewrite Hs|by rewrite Hl|exact Hif|exact Hcs]. Qed.

(** A system call that returns and leaves the CPUs as they are. *)
Lemma call_runs_on live fe l k tf live' fe' l' k1 r num envid a :
  runs_on live fe l k → calls tf num envid a →
  (let g := tf_regs tf in syscall c cons_getc (reg_eax g) (reg_edx g) (reg_ecx g) (reg_ebx g) (reg_edi g) (reg_esi g)
    (entered c e tf k) = (Ret r, k1)) →
  kernel_inv base kp live' fe' l' k1 → e ∈ live' → kernel_lock k1 = mkLock true (Some c) →
  cpus k1 = cpus (entered c e tf k) → env_status (envs k1 e) = ENV_RUNNING →
  ∃ k', trap tf k = (Stop (SUser e), k') ∧ kernel_inv base kp live' fe' l' k' ∧
    (cpus_ok live' k1 → runs_on live' fe' l' k') ∧
    (∀ d, d ≠ c → cpus k' d = cpus k d) ∧
    (∀ x, env_status (envs k' x) = env_status (envs k1 x) ∧ env_id (envs k' x) = env_id (envs k1 x) ∧
          env_parent_id (envs k' x) = env_parent_id (envs k1 x) ∧ env_pgdir (envs k' x) = env_pgdir (envs k1 x)).
Proof using Hif.
  intros Ro [Hcs Ht _ _ _] Esys H1 He1 Hlk Ecp Hs1. pose proof (runs_on_trap live fe l k tf Ro Hcs) as Hut.
  assert (cpu_env (cpus k1 c) = Some e) as Hc1 by (rewrite Ecp; apply entered_cur).
  destruct (trap_syscall_run c cons_getc rcr2 eflags base kp live' fe' l' e tf k k1 r Hut) as (k' & E & H' & Rn);
    try assumption; [by rewrite (ro_status _ _ _ _ Ro)|].
  set (k2 := upd_env e _ k1) in *. assert (cpu_env (cpus k2 c) = Some e) as Hc2 by exact Hc1.
  assert (∀ x, env_status (envs k2 x) = env_status (envs k1 x) ∧ env_id (envs k2 x) = env_id (envs k1 x) ∧
    env_parent_id (envs k2 x) = env_parent_id (envs k1 x) ∧ env_pgdir (envs k2 x) = env_pgdir (envs k1 x)) as E2.
  { intros x. unfold k2. cbn [envs upd_env set_envs]. rewrite upd_case. by case_decide; subst. }
  assert (∀ x, env_status (envs k' x) = env_status (envs k1 x)) as Es.
  { intros x. rewrite (rn_status _ _ _ _ _ Rn x), Hc2, <- (proj1 (E2 x)). unfold run_status.
    destruct (decide (x = e)) as [->|Hne]; [by rewrite (proj1 (E2 e))|]. rewrite decide_False; [done|]. intros [[= <-] _]. done. }
  exists k'. split; [exact E|split; [exact H'|]]. split; [intros Hok1; split|split].
  - exact H'.
  - exact (rn_ok _ _ _ _ _ Rn Hok1).
  - exact (rn_cur _ _ _ _ _ Rn).
  - rewrite (rn_started _ _ _ _ _ Rn). change (cpus k2) with (cpus k1). rewrite Ecp. unfold entered. cbn. by rewrite upd_same.
  - exact (rn_lock _ _ _ _ _ Rn).
  - rewrite Es. exact Hs1.
  - intros d Hd. rewrite (rn_cpu _ _ _ _ _ Rn d Hd). change (cpus k2) with (cpus k1). rewrite Ecp. unfold entered. cbn.
    by rewrite upd_other by (exact (not_eq_sym Hd)).
  - intros x. destruct (E2 x) as (_ & <- & <- & <-). split; [apply Es|]. destruct (rn_env _ _ _ _ _ Rn x) as (st & r' & n & ->). done.
Qed.

(** ** The status of an environment that runs elsewhere *)

Lemma set_status_call live fe l k tf envid st x : runs_on live fe l k → calls tf SYS_env_set_status envid st →
  target k e envid = Some x → x ≠ e → st = ENV_RUNNABLE ∨ st = ENV_NOT_RUNNABLE →
  ∃ k', trap tf k = (Stop (SUser e), k') ∧ runs_on live fe l k' ∧ (∀ d, d ≠ c → cpus k' d = cpus k d) ∧
    ∀ y, env_status (envs k' y) = if decide (y = x) then st else env_status (envs k y).
Proof using Hif.
  intros Ro Hcl Ht Hne Hst. pose proof Ro as [H Hok Hc Hs Hl Hrun]. pose proof (Hok _ _ Hc) as He.
  set (k0 := entered c e tf k). set (k1 := upd_env x (λ v, with_status v st) k0).
  assert (kernel_inv base kp live fe l k0) as H0 by by apply entered_inv.
  assert (x ∈ live) as Hx by exact (target_live base kp live fe l k e H He envid x Ht).
  assert (kernel_inv base kp live fe l k1) as H1.
  { apply ke_upd_env; [exact H0|exact Hx| |reflexivity|reflexivity]. cbn.
    unfold ENV_DYING, ENV_RUNNABLE, ENV_NOT_RUNNABLE in *. lia. }
  assert (∀ y, env_status (envs k1 y) = if decide (y = x) then st else env_status (envs k y)) as Es1.
  { intros y. unfold k1. cbn [envs upd_env set_envs].
    destruct (decide (y = x)) as [->|Hy]; [by rewrite upd_same|]. rewrite upd_other by (exact (not_eq_sym Hy)).
    apply (entered_envs c e tf k y). }
  destruct (call_runs_on live fe l k tf live fe l k1 0 SYS_env_set_status envid st Ro Hcl) as (k' & E & _ & Ro' & Hd & Ek).
  - cbv zeta. rewrite (cl_num _ _ _ _ Hcl). fold k0.
    transitivity (sys_env_set_status c (s32 (reg_edx (tf_regs tf))) (s32 (reg_ecx (tf_regs tf))) k0); [reflexivity|].
    rewrite (cl_envid _ _ _ _ Hcl), (cl_arg _ _ _ _ Hcl). unfold sys_env_set_status.
    assert (negb (st =? ENV_RUNNABLE) && negb (st =? ENV_NOT_RUNNABLE) = false) as -> by (by destruct Hst as [->| ->]).
    rewrite (with_env_run c k0 e (entered_cur c e tf k)).
    assert (target k0 e envid = Some x) as -> by exact (eq_trans (proj1 (entered_target c e tf k envid)) Ht).
    rewrite run_bind, run_modify, run_ret. reflexivity.
  - exact H1.
  - exact He.
  - reflexivity.
  - reflexivity.
  - rewrite Es1, decide_False by (exact (not_eq_sym Hne)). exact Hrun.
  - exists k'. split; [exact E|split; [exact (Ro' (entered_cpus c live e tf k Hok Hc))|split; [exact Hd|]]]. intros y. by rewrite (proj1 (Ek y)), Es1.
Qed.

(** ** Destroying an environment that runs elsewhere *)

Lemma destroy_call k envid x : cpu_env (cpus k c) = Some e → target k e envid = Some x → x ≠ e →
  ∃ v, sys_env_destroy c envid k = (env_destroy c x ;; mret 0) (log_ev v k).
Proof.
  intros Hc Ht Hne. eexists. unfold sys_env_destroy. rewrite run_bind, (envid2env_run c k e envid true Hc).
  unfold target in Ht. destruct (decide (envid = 0)); [by injection Ht as ->|]. case_decide; [|discriminate Ht].
  injection Ht as Hx. cbv beta iota. change (0 <? 0) with false. cbv iota. rewrite Hx.
  unfold curenv', curenv, get_env. rewrite run_bind, run_bind, run_gets, Hc, run_ret, run_bind, run_gets, run_bind, run_gets.
  rewrite run_bind, (proj2 (Z.eqb_neq x e) Hne). unfold cprintf. rewrite run_modify. reflexivity.
Qed.

Lemma destroy_running_call live fe l k tf envid a x : runs_on live fe l k → calls tf SYS_env_destroy envid a →
  target k e envid = Some x → x ≠ e → env_status (envs k x) = ENV_RUNNING →
  ∃ k', trap tf k = (Stop (SUser e), k') ∧ runs_on live fe l k' ∧ (∀ d, d ≠ c → cpus k' d = cpus k d) ∧
    env_status (envs k' x) = ENV_DYING ∧ target k' e envid = Some x ∧ dirof k' x = dirof k x.
Proof using Hif.
  intros Ro Hcl Ht Hne Hsx. pose proof Ro as [H Hok Hc Hs Hl Hrun]. pose proof (Hok _ _ Hc) as He.
  set (k0 := entered c e tf k). assert (kernel_inv base kp live fe l k0) as H0 by by apply entered_inv.
  assert (target k0 e envid = Some x) as Ht0 by exact (eq_trans (proj1 (entered_target c e tf k envid)) Ht).
  assert (x ∈ live) as Hx by exact (target_live base kp live fe l k e H He envid x Ht).
  destruct (destroy_call k0 envid x (entered_cur c e tf k) Ht0 Hne) as [v Ev].
  set (k1 := upd_env x (λ v, with_status v ENV_DYING) (log_ev v k0)).
  assert (∀ y, let w := envs k1 y in env_status w = (if decide (y = x) then ENV_DYING else env_status (envs k y)) ∧
    env_id w = env_id (envs k y) ∧ env_parent_id w = env_parent_id (envs k y) ∧ env_pgdir w = env_pgdir (envs k y)) as E1.
  { intros y. cbv zeta. destruct (entered_envs c e tf k y) as (Ea & Eb & Ec & _ & Ed). unfold k1. cbn [envs upd_env set_envs log_ev].
    destruct (decide (y = x)) as [->|Hy]; [by rewrite upd_same|by rewrite upd_other by (exact (not_eq_sym Hy))]. }
  destruct (call_runs_on live fe l k tf live fe l k1 0 SYS_env_destroy envid a Ro Hcl) as (k' & E & _ & Ro' & Hd & Ek).
  - cbv zeta. rewrite (cl_num _ _ _ _ Hcl). fold k0.
    transitivity (sys_env_destroy c (s32 (reg_edx (tf_regs tf))) k0); [reflexivity|].
    rewrite (cl_envid _ _ _ _ Hcl), Ev, run_bind. unfold env_destroy, get_env, curenv.
    rewrite run_bind, run_gets, run_bind, run_gets. change (cpus (log_ev v k0) c) with (cpus (entered c e tf k) c). rewrite entered_cur.
    change (envs (log_ev v k0) x) with (envs (entered c e tf k) x). rewrite (proj1 (entered_envs c e tf k x)), Hsx.
    rewrite bool_decide_false by congruence. change (ENV_RUNNING =? ENV_RUNNING) with true. cbn [negb andb].
    rewrite run_modify. reflexivity.
  - apply ke_upd_env; [by apply ke_log|exact Hx| |reflexivity|reflexivity]. cbn. unfold ENV_DYING, ENV_NOT_RUNNABLE. lia.
  - exact He.
  - reflexivity.
  - reflexivity.
  - rewrite (proj1 (E1 e)), decide_False by (exact (not_eq_sym Hne)). exact Hrun.
  - exists k'. split; [exact E|split; [exact (Ro' (entered_cpus c live e tf k Hok Hc))|split; [exact Hd|]]].
    split; [by rewrite (proj1 (Ek x)), (proj1 (E1 x)), decide_True|]. split.
    + unfold target in *. destruct (decide (envid = 0)) as [|Hz]; [exact Ht|]. destruct (decide (may_name k e envid true)) as [Hm|]; [|discriminate Ht].
      rewrite decide_True; [exact Ht|]. injection Ht as Hx'. destruct Hm as (_ & Hi & Hp). unfold may_name. rewrite Hx' in *.
      destruct (Ek x) as (-> & -> & -> & _). destruct (E1 x) as (-> & -> & -> & _). rewrite (proj1 (proj2 (Ek e))), (proj1 (proj2 (E1 e))).
      rewrite decide_True by done. split; [done|split; [exact Hi|exact Hp]].
    + unfold dirof. by rewrite (proj2 (proj2 (proj2 (Ek x)))), (proj2 (proj2 (proj2 (E1 x)))).
Qed.

Lemma destroy_dying_call live fe l k tf envid a x : runs_on (x :: live) fe l k → calls tf SYS_env_destroy envid a →
  target k e envid = Some x → x ≠ e → env_status (envs k x) = ENV_DYING →
  ∃ k' l', trap tf k = (Stop (SUser e), k') ∧ (∀ d, d ≠ c → cpus k' d = cpus k d) ∧ kernel_inv base kp live (x :: fe) l' k' ∧
    env_status (envs k' x) = ENV_FREE ∧ dirof k x ∈ l'.
Proof using Hif.
  intros Ro Hcl Ht Hne Hsx. pose proof Ro as [H Hok Hc Hs Hl Hrun]. pose proof (Hok _ _ Hc) as He.
  set (k0 := entered c e tf k). assert (kernel_inv base kp (x :: live) fe l k0) as H0 by by apply entered_inv.
  assert (target k0 e envid = Some x) as Ht0 by exact (eq_trans (proj1 (entered_target c e tf k envid)) Ht).
  destruct (destroy_call k0 envid x (entered_cur c e tf k) Ht0 Hne) as [v Ev].
  assert (env_status (envs (log_ev v k0) x) ≠ ENV_RUNNING) as Hnr.
  { change (env_status (envs k0 x) ≠ ENV_RUNNING). unfold k0. by rewrite (proj1 (entered_envs c e tf k x)), Hsx. }
  destruct (env_destroy_other_run c base kp x live fe l (log_ev v k0) (ke_log _ _ _ _ _ _ _ H0)) as (k1 & l' & Ed & H1 & F & Ecp);
    [change (cpu_env (cpus k0 c) ≠ Some x); unfold k0; rewrite entered_cur; congruence|exact Hnr|].
  assert (∀ y, y ≠ x → env_status (envs k1 y) = env_status (envs k y)) as Es.
  { intros y Hy. rewrite (ef_envs _ _ _ _ _ _ F y Hy). apply (entered_envs c e tf k y). }
  assert (e ∈ live) as Hel by (by apply elem_of_cons in He as [->|?]).
  destruct (call_runs_on (x :: live) fe l k tf live (x :: fe) l' k1 0 SYS_env_destroy envid a Ro Hcl) as (k' & E & H' & _ & Hd & Ek).
  - cbv zeta. rewrite (cl_num _ _ _ _ Hcl). fold k0.
    transitivity (sys_env_destroy c (s32 (reg_edx (tf_regs tf))) k0); [reflexivity|].
    by rewrite (cl_envid _ _ _ _ Hcl), Ev, run_bind, Ed.
  - exact H1.
  - exact Hel.
  - exact (ef_lock _ _ _ _ _ _ F).
  - exact Ecp.
  - rewrite Es by (exact (not_eq_sym Hne)). exact Hrun.
  - exists k', l'. split; [exact E|split; [exact Hd|split; [exact H'|]]]. split.
    + by rewrite (proj1 (Ek x)), (ef_self _ _ _ _ _ _ F).
    + assert (dirof (log_ev v k0) x = dirof k x) as <-; [|exact (ef_dir _ _ _ _ _ _ F)].
      unfold dirof. change (envs (log_ev v k0) x) with (envs k0 x). unfold k0.
      by destruct (entered_envs c e tf k x) as (_ & _ & _ & _ & ->).
Qed.

End holes.

(** ** Theorems *)

Section theorems.
Context (base : Z → Z) (kp : Z) (cons_getc : K Z) (eflags rcr2 : Z).

(** C39: two CPUs run one environment.  Environment [e] on CPU [c] may name [x],
    which runs on CPU [d], and nobody else is runnable.  After [e] has made [x]
    runnable with sys_env_set_status, which succeeds although [x] is running, the
    next timer interrupt on [c] resumes [x] there, while [d] still runs it. *)
Theorem set_status_two_cpus act k c d e x tf tf' envid :
  flag eflags FL_IF = false → running base kp act k → act c = Some (SUser e) → act d = Some (SUser x) → c ≠ d →
  env_status (envs k e) = ENV_RUNNING → (∀ y, 0 ≤ y < NENV → runnable k y = false) → target k e envid = Some x →
  calls tf SYS_env_set_status envid ENV_RUNNABLE → Z.land (tf_cs tf') 3 = 3 → tf_trapno tf' = IRQ_OFFSET + IRQ_TIMER →
  ∃ k1 k2, trap c cons_getc rcr2 eflags false tf k = (Stop (SUser e), k1) ∧
    trap c cons_getc rcr2 eflags false tf' k1 = (Stop (SUser x), k2) ∧
    cpu_env (cpus k2 c) = Some x ∧ cpu_env (cpus k2 d) = Some x.
Proof.
  intros Hif R Hc Hd Hcd Hs Hnr Ht Hcl Hcs Htm.
  pose proof (mi_cpu _ _ _ _ R d) as Hdx. rewrite Hd in Hdx. destruct Hdx as (Hdx & _).
  destruct (running_runs_on base kp c e act k R Hc Hs) as (live & fe & l & Ro).
  assert (x ≠ e) as Hne by (intros ->; exact (Hcd (mi_apart _ _ _ _ R c d e (ro_cur _ _ _ _ _ _ _ _ Ro) Hdx))).
  destruct (set_status_call base kp cons_getc eflags rcr2 Hif c e live fe l k tf envid ENV_RUNNABLE x Ro Hcl Ht Hne (or_introl eq_refl))
    as (k1 & E1 & Ro1 & Hcpu & Hst).
  pose proof Ro1 as [H1 Hok1 Hc1 _ _ Hs1].
  destruct (trap_timer_run c cons_getc rcr2 eflags base kp live fe l e tf' k1 H1 Hok1
    (runs_on_trap base kp eflags Hif c e live fe l k1 tf' Ro1 Hcs) Hs1 Htm) as (y & k2 & k3 & E2 & _ & _ & Hr3 & Hcp3 & _ & _ & Hy & _).
  assert (∀ z, runnable k3 z = if decide (z = x) then true else runnable k z) as Hr.
  { intros z. rewrite Hr3. unfold runnable. rewrite Hst. by case_decide. }
  assert (0 ≤ x < NENV) as Hx.
  { apply (ke_live_range base kp live fe l k (ro_inv _ _ _ _ _ _ _ _ Ro)).
    exact (ro_ok _ _ _ _ _ _ _ _ Ro d x Hdx). }
  unfold yield_outcome in Hy. cbv zeta in Hy. pose proof (sched_pick_spec k3 (sched_begin k3 (cpu_env (cpus k3 c)))) as Hp.
  destruct (sched_pick k3 _) as [z|].
  - destruct Hp as (Hz & Hrz & _). rewrite Hr in Hrz. destruct (decide (z = x)) as [->|_]; [|by rewrite (Hnr z Hz) in Hrz].
    destruct Hy as [-> Rn]. exists k1, k2. split; [exact E1|split; [exact E2|split; [exact (rn_cur _ _ _ _ _ Rn)|]]].
    rewrite (rn_cpu _ _ _ _ _ Rn d (not_eq_sym Hcd)), (Hcp3 d (not_eq_sym Hcd)), (Hcpu d (not_eq_sym Hcd)). exact Hdx.
  - specialize (Hp x Hx). rewrite Hr, decide_True in Hp by done. discriminate Hp.
Qed.

(** C40: an address space is freed while a CPU runs in it.  Environment [e] on CPU
    [c] may name [x], which runs on CPU [d].  The first sys_env_destroy marks [x]
    dying, to be freed at its next trap; a second one finds it not RUNNING and frees
    it at once: its slot is free, and the page directory that CPU [d] still has
    loaded is on the list of free pages. *)
Theorem env_destroy_twice act k c d e x tf envid a :
  flag eflags FL_IF = false → running base kp act k → act c = Some (SUser e) → act d = Some (SUser x) → c ≠ d →
  env_status (envs k e) = ENV_RUNNING → env_status (envs k x) = ENV_RUNNING → target k e envid = Some x →
  calls tf SYS_env_destroy envid a →
  ∃ k1 k2 live fe l, trap c cons_getc rcr2 eflags false tf k = (Stop (SUser e), k1) ∧
    trap c cons_getc rcr2 eflags false tf k1 = (Stop (SUser e), k2) ∧
    cpu_env (cpus k2 d) = Some x ∧ env_status (envs k2 x) = ENV_FREE ∧
    kernel_inv base kp live fe l k2 ∧ x ∈ fe ∧ cpu_cr3 (cpus k2 d) / 4096 ∈ l.
Proof.
  intros Hif R Hc Hd Hcd Hs Hsx Ht Hcl.
  pose proof (mi_cpu _ _ _ _ R d) as Hdx. rewrite Hd in Hdx. destruct Hdx as (Hdx & _ & _ & Hcr).
  destruct (running_runs_on base kp c e act k R Hc Hs) as (live & fe & l & Ro).
  assert (x ≠ e) as Hne by (intros ->; exact (Hcd (mi_apart _ _ _ _ R c d e (ro_cur _ _ _ _ _ _ _ _ Ro) Hdx))).
  destruct (destroy_running_call base kp cons_getc eflags rcr2 Hif c e live fe l k tf envid a x Ro Hcl Ht Hne Hsx)
    as (k1 & E1 & Ro1 & Hcpu1 & Hs1 & Ht1 & Ed).
  assert (x ∈ live) as Hx by exact (ro_ok _ _ _ _ _ _ _ _ Ro d x Hdx).
  apply elem_of_Permutation in Hx as [live' Ep].
  assert (runs_on base kp c e (x :: live') fe l k1) as Ro1'.
  { destruct Ro1 as [H1 Hok1 h3 h4 h5 h6]. split; try assumption; [by apply (ke_perm _ _ _ _ _ _ _ Ep)|].
    intros b y Hy. rewrite <- Ep. exact (Hok1 b y Hy). }
  destruct (destroy_dying_call base kp cons_getc eflags rcr2 Hif c e live' fe l k1 tf envid a x Ro1' Hcl Ht1 Hne Hs1)
    as (k2 & l' & E2 & Hcpu2 & H2 & Hs2 & Hl).
  exists k1, k2, live', (x :: fe), l'. split; [exact E1|split; [exact E2|]].
  rewrite (Hcpu2 d (not_eq_sym Hcd)), (Hcpu1 d (not_eq_sym Hcd)). split; [exact Hdx|split; [exact Hs2|split; [exact H2|split; [left|]]]].
  rewrite Hcr, Z.div_mul by lia. by rewrite <- Ed.
Qed.
End theorems.

(** ** Witnesses: environment 0 of [two_cpus] and its child *)

Definition demo_call (num a : Z) : Trapframe :=
  mkTf (mkRegs 1 2 3 4 5 4097 a num) (Z.lor GD_UD 3) (Z.lor GD_UD 3) T_SYSCALL 0 0x800020 (Z.lor GD_UT 3) FL_IF
    0xEEBFDFF0 (Z.lor GD_UD 3).

Lemma two_target k : two_cpus k → target k 0 4097 = Some 1.
Proof.
  intros T. unfold target. rewrite decide_False by done. rewrite decide_True; [reflexivity|].
  unfold may_name. rewrite (tc_envs k T). split; [discriminate|split; [reflexivity|]]. intros _. by right.
Qed.

Lemma set_status_two_cpus_witness : ∃ k k1 k2, two_cpus k ∧
  trap 0 (mret 0) 0 0 false (demo_call SYS_env_set_status ENV_RUNNABLE) k = (Stop (SUser 0), k1) ∧
  trap 0 (mret 0) 0 0 false (demo_frame 32) k1 = (Stop (SUser 1), k2) ∧
  cpu_env (cpus k2 0) = Some 1 ∧ cpu_env (cpus k2 1) = Some 1.
Proof.
  destruct two_cpus_exist as [k T]. exists k.
  destruct (set_status_two_cpus demo_base 1 (mret 0) 0 0 demo_acts k 0 1 0 1 (demo_call SYS_env_set_status ENV_RUNNABLE)
    (demo_frame 32) 4097 eq_refl (tc_run k T) eq_refl eq_refl) as (k1 & k2 & H); try reflexivity.
  - discriminate.
  - by rewrite (tc_envs k T).
  - intros y _. unfold runnable. rewrite (tc_envs k T), upd_case. case_decide; [reflexivity|]. unfold demo_env. by destruct (y =? 0).
  - exact (two_target k T).
  - split; reflexivity.
  - by exists k1, k2.
Defined.

Lemma env_destroy_twice_witness : ∃ k k1 k2, two_cpus k ∧
  trap 0 (mret 0) 0 0 false (demo_call SYS_env_destroy 0) k = (Stop (SUser 0), k1) ∧
  trap 0 (mret 0) 0 0 false (demo_call SYS_env_destroy 0) k1 = (Stop (SUser 0), k2) ∧
  cpu_env (cpus k2 1) = Some 1 ∧ env_status (envs k2 1) = ENV_FREE.
Proof.
  destruct two_cpus_exist as [k T]. exists k.
  destruct (env_destroy_twice demo_base 1 (mret 0) 0 0 demo_acts k 0 1 0 1 (demo_call SYS_env_destroy 0) 4097 0
    eq_refl (tc_run k T) eq_refl eq_refl) as (k1 & k2 & ? & ? & ? & H1 & H2 & H3 & H4 & _).
  - discriminate.
  - by rewrite (tc_envs k T).
  - by rewrite (tc_envs k T).
  - exact (two_target k T).
  - split; reflexivity.
  - by exists k1, k2.
Defined.
