(* ===== verification/IpcPerm.v ===== *)
(** * The permission argument of a message

    [sys_ipc_try_send] compares only the permission bits of its [perm] argument
    with those of the page sent, and passes the whole of it to [page_insert],
    which ORs it into the page-table entry: its upper 20 bits choose the page. *)
From S2P Require Import Prelude Monad Word Layout Mem CString PageAlloc PageTable PageInv PageOps PageDirs Seg KState Env EnvMem KInv EnvSpec Sched SchedSpec UserMem Syscall Trap UserStore TrapSpec SysSpec ForkDemo.

(** The machine of ForkDemo, in which environment 0 waits for a page at 0x802000. *)
Definition waiting : kst := upd_env 0 (λ v, with_ipc v true 0x802000 0 0 0) fork_k.

Lemma waiting_inv : kernel_inv fork_base 1 [0] (zrange 1 1023) (zrange 9 2039) waiting.
Proof.
  apply ke_upd_env; [exact fork_k_inv|left| |reflexivity|reflexivity].
  cbn. unfold ENV_DYING, ENV_RUNNING, ENV_NOT_RUNNABLE. lia.
Qed.

(** A mapping of a free page contradicts the kernel invariant. *)
Lemma free_page_mapped base kp live fe l k e va pte :
  0 ≤ e < NENV → env_status (envs k e) ≠ ENV_FREE → PDX va < UPDX →
  lookup_pte (phys (k_mm k)) (dirof k e) va = Some pte → pp_ref (pages (k_mm k) (pte / 4096)) = 0 →
  ¬ kernel_inv base kp live fe l k.
Proof.
  intros He Hs Hva Hl Hr H. apply (ke_live_iff _ _ _ _ _ _ H e He) in Hs.
  pose proof (mapped_ref base _ _ l _ _ _ (ke_mm _ _ _ _ _ _ H) (ke_dir live k e Hs) Hva Hl). lia.
Qed.

Local Definition leak := sys_ipc_try_send 0 0 1 0x801000 (8 * 4096 + 7) waiting.

Lemma leak_ret : leak.1 = Ret 0.
Proof. vm_compute. reflexivity. Qed.
Lemma leak_map : lookup_pte (phys (k_mm leak.2)) (dirof leak.2 0) 0x802000 = Some (14 * 4096 + 7).
Proof. vm_compute. reflexivity. Qed.
Lemma leak_ref : pp_ref (pages (k_mm leak.2) 14) = 0.
Proof. vm_compute. reflexivity. Qed.
Lemma leak_status : env_status (envs leak.2 0) = ENV_RUNNABLE.
Proof. vm_compute. reflexivity. Qed.

(** C35: user code can map a page that is free, writable: environment 0 owns page 6
    at 0x801000 and sends it to itself with [perm] = 0x8007; the call succeeds and
    maps page 6|8 = 14, which is on the free list with a reference count of 0,
    writable at 0x802000, and no choice of live environments and free pages makes
    the kernel invariant true again: the next [page_alloc] of page 14, say for a
    page table, hands it to the kernel while the environment can write it. *)
Theorem sys_ipc_try_send_perm_escapes :
  kernel_inv fork_base 1 [0] (zrange 1 1023) (zrange 9 2039) waiting ∧ 14 ∈ zrange 9 2039 ∧
  ∃ k', sys_ipc_try_send 0 0 1 0x801000 (8 * 4096 + 7) waiting = (Ret 0, k') ∧
    lookup_pte (phys (k_mm k')) (dirof k' 0) 0x802000 = Some (14 * 4096 + 7) ∧
    pp_ref (pages (k_mm k') 14) = 0 ∧ ∀ base kp live fe l, ¬ kernel_inv base kp live fe l k'.
Proof.
  split; [exact waiting_inv|]. split; [apply elem_of_zrange; lia|]. exists leak.2. split.
  { rewrite <- leak_ret. apply surjective_pairing. }
  split; [exact leak_map|]. split; [exact leak_ref|]. intros base kp live fe l.
  apply (free_page_mapped base kp live fe l leak.2 0 0x802000 (14 * 4096 + 7)).
  - unfold NENV. lia.
  - rewrite leak_status. discriminate.
  - by vm_compute.
  - exact leak_map.
  - replace ((14 * 4096 + 7) / 4096) with 14 by lia. exact leak_ref.
Qed.
