(* ===== verification/Kdebug.v ===== *)
(** * kern/kdebug.c: debugging information

    The binary search in the stabs table and the lookup of an instruction
    address.  A table is a function from indices; nothing outside [0, n) is
    read (proved for the search).  Termination, what the search finds, and
    where it falls short of its comment. *)
From S2P Require Import Prelude Monad Word Layout Mem CString StrLib.

(** ** inc/stab.h, kern/kdebug.h *)

Definition N_FUN := 0x24.
Definition N_SLINE := 0x44.
Definition N_SO := 0x64.
Definition N_SOL := 0x84.
Definition N_PSYM := 0xa0.

Record Stab := mkStab { n_strx : Z; n_type : Z; n_other : Z; n_desc : Z; n_value : Z }.

(** A C string: the literal ["<unknown>"], or one in memory. *)
Inductive cname := Unknown | At (a : Z).

Record Eipdebuginfo := mkInfo {
  eip_file : cname; eip_line : Z;
  eip_fn_name : cname; eip_fn_namelen : Z; eip_fn_addr : Z; eip_fn_narg : Z;
}.

(** [struct UserStabData], and the four linker symbols of the kernel: the table
    with its number of entries, and the bounds of the string table. *)
Record UserStabData := mkStabs { stabs : Z → Stab; nstabs : Z; stabstr : Z; stabstr_end : Z }.

(** ** stab_binsearch *)

Section search.
Context (tab : Z → Stab) (type : Z).

Definition is_type (i : Z) : bool := n_type (tab i) =? type.

(** [while (m >= l && stabs[m].n_type != type) m--;] *)
Fixpoint scan_back (n : nat) (l m : Z) : Z :=
  match n with
  | O => m
  | S n => if (l <=? m) && negb (is_type m) then scan_back n l (m - 1) else m
  end.
Definition find_back (l m : Z) : Z := scan_back (Z.to_nat (m - l + 1)) l m.

(** The main loop: [region_left], [region_right] and [any_matches] at its end. *)
Fixpoint search_loop (fuel : nat) (l r left right : Z) (any : bool) (addr : Z) : option (Z * Z * bool) :=
  match fuel with
  | O => None
  | S fuel =>
      if l <=? r then
        let true_m := Z.quot (l + r) 2 in
        let m := find_back l true_m in
        if m <? l then search_loop fuel (true_m + 1) r left right any addr
        else if n_value (tab m) <? addr then search_loop fuel (true_m + 1) r m right true addr
        else if addr <? n_value (tab m) then search_loop fuel l (m - 1) left (m - 1) true addr
        else search_loop fuel m r m right true (u32 (addr + 1))
      else Some (left, right, any)
  end.

(** Two iterations per index are enough, and two more. *)
Definition search_fuel (left right : Z) : nat := Z.to_nat (2 * (right - left + 1) + 2).

Definition stab_binsearch (left right addr : Z) : option (Z * Z) :=
  match search_loop (search_fuel left right) left right left right false addr with
  | None => None
  | Some (rl, rr, any) =>
      if negb any then Some (rl, rl - 1) else Some (find_back (rl + 1) rr, rr)
  end.
End search.

(** ** debuginfo_eip *)

Section lookup.
(** Memory, and a bound for the length of the strings in it. *)
Context (m : mem) (strlen : nat).

(** [for (lline = lfun + 1; lline < rfun && ...; lline++) narg++] *)
Fixpoint count_args (n : nat) (tab : Z → Stab) (l r : Z) : Z :=
  match n with
  | O => 0
  | S n => if (l <? r) && is_type tab N_PSYM l then 1 + count_args n tab (l + 1) r else 0
  end.

(** The search for the file name: [lline] steps down from its first value. *)
Fixpoint file_back (n : nat) (tab : Z → Stab) (lfile lline : Z) : Z :=
  match n with
  | O => lline
  | S n =>
      if (lfile <=? lline) && negb (is_type tab N_SOL lline) &&
         (negb (is_type tab N_SO lline) || (n_value (tab lline) =? 0))
      then file_back n tab lfile (lline - 1) else lline
  end.

(** [strfind(name, ':') - name] *)
Definition name_len (name : cname) : option Z :=
  match name with
  | Unknown => Some 9
  | At a => option_map (λ e, e - a) (strfind strlen m a 58)
  end.

(** [kern] and [user] are the tables of the kernel and of the user program that
    is loaded (read at [USTABDATA] without a check).  The result code and
    [*info]; [None] when a search or string does not end within its bound. *)
Definition debuginfo_eip (kern user : UserStabData) (addr : Z) : option (Z * Eipdebuginfo) :=
  let info := mkInfo Unknown 0 Unknown 9 addr 0 in
  let sd := if ULIM <=? addr then kern else user in
  let tab := stabs sd in
  let strs := stabstr_end sd - stabstr sd in
  if (stabstr_end sd <=? stabstr sd) || negb (load8 m (stabstr_end sd - 1) =? 0) then Some (-1, info)
  else
    match stab_binsearch tab N_SO 0 (nstabs sd - 1) addr with
    | None => None
    | Some (lfile, rfile) =>
        if lfile =? 0 then Some (-1, info)
        else
          match stab_binsearch tab N_FUN lfile rfile addr with
          | None => None
          | Some (lfun, rfun) =>
              let '(name, fn_addr, lline, rline) :=
                if lfun <=? rfun
                then ((if n_strx (tab lfun) <? strs then At (stabstr sd + n_strx (tab lfun)) else Unknown),
                      n_value (tab lfun), lfun, rfun)
                else (Unknown, addr, lfile, rfile) in
              match name_len name with
              | None => None
              | Some len =>
                  let lline := file_back (Z.to_nat (lline - lfile + 1)) tab lfile lline in
                  let file := if (lfile <=? lline) && (n_strx (tab lline) <? strs)
                              then At (stabstr sd + n_strx (tab lline)) else Unknown in
                  let narg := if lfun <? rfun then count_args (Z.to_nat (rfun - lfun)) tab (lfun + 1) rfun else 0 in
                  Some (0, mkInfo file 0 name len fn_addr narg)
              end
          end
    end.
End lookup.

(** ** The scans *)

Section facts.
Context (tab : Z → Stab) (type : Z).
Notation is_type := (is_type tab type).
Notation find_back := (find_back tab type).

(** No entry of the type in a range of indices. *)
Definition no_type (a b : Z) : Prop := ∀ i, a ≤ i < b → is_type i = false.

Lemma scan_back_spec n l m : Z.of_nat n = Z.max 0 (m - l + 1) →
  let m' := scan_back tab type n l m in
  (l ≤ m' ≤ m ∧ is_type m' = true ∧ no_type (m' + 1) (m + 1)) ∨ (m' = Z.min m (l - 1) ∧ no_type l (m + 1)).
Proof.
  revert m. induction n as [|n IH]; intros m Hn; cbn [scan_back].
  - right. split; [lia|]. intros i Hi. lia.
  - destruct (Z.leb_spec l m) as [Hlm|Hlm]; cbn [andb]; [|right; split; [lia|intros i Hi; lia]].
    destruct (is_type m) eqn:Et; cbn [negb]; [left; split; [lia|]; split; [exact Et|intros i Hi; lia]|].
    destruct (IH (m - 1) ltac:(lia)) as [(H1 & H2 & H3)|(H1 & H2)]; [left|right].
    + split; [lia|]. split; [exact H2|]. intros i Hi. destruct (decide (i = m)) as [->|]; [exact Et|]. apply H3. lia.
    + split; [lia|]. intros i Hi. destruct (decide (i = m)) as [->|]; [exact Et|]. apply H2. lia.
Qed.

Lemma find_back_spec l m :
  (l ≤ find_back l m ≤ m ∧ is_type (find_back l m) = true ∧ no_type (find_back l m + 1) (m + 1)) ∨
  (find_back l m = Z.min m (l - 1) ∧ no_type l (m + 1)).
Proof. apply scan_back_spec. lia. Qed.

(** ** Termination *)

(** An exact match at [l] is not followed by another one there. *)
Definition measure (l r addr : Z) : Z :=
  2 * (r - l + 1) + (if is_type l && (u32 (n_value (tab l) + 1) =? addr) then 0 else 1).

Lemma search_loop_terminates fuel l r left right any addr :
  0 ≤ l → l ≤ r + 1 → 0 ≤ addr < 4294967296 → measure l r addr < Z.of_nat fuel →
  search_loop tab type fuel l r left right any addr ≠ None.
Proof.
  revert l r left right any addr. induction fuel as [|fuel IH]; intros l r left right any addr H0 Hlr Ha Hm.
  { exfalso. unfold measure in Hm. case_match; lia. }
  cbn [search_loop]. destruct (Z.leb_spec l r) as [Hle|]; [|done].
  rewrite Z.quot_div_nonneg by lia. set (t := (l + r) / 2). assert (l ≤ t ≤ r) as Ht by (unfold t; lia). clearbody t.
  assert (∀ l' a', l < l' ≤ r + 1 → measure l' r a' < Z.of_nat fuel) as Hup.
  { intros l' a' Hl'. unfold measure in *. repeat case_match; lia. }
  destruct (Z.ltb_spec (find_back l t) l); [apply IH; [lia|lia|exact Ha|apply Hup; lia]|].
  destruct (find_back_spec l t) as [(H1 & H2 & _)|(H1 & _)]; [|lia]. set (m := find_back l t) in *. clearbody m.
  destruct (Z.ltb_spec (n_value (tab m)) addr); [apply IH; [lia|lia|exact Ha|apply Hup; lia]|].
  destruct (Z.ltb_spec addr (n_value (tab m))).
  - apply IH; [lia|lia|exact Ha|]. unfold measure in *. repeat case_match; lia.
  - assert (n_value (tab m) = addr) as Ev by lia.
    apply IH; [lia|lia|apply u32_range|]. destruct (decide (m = l)) as [->|Hml]; [|apply Hup; lia].
    unfold measure in *. rewrite H2, Ev, Z.eqb_refl in *. cbn [andb] in *.
    destruct (Z.eqb_spec (u32 (addr + 1)) addr) as [E|_]; [unfold u32 in E; lia|]. lia.
Qed.

(** ** What the loop finds *)

(** The entries of the type in [L, R] are in increasing order, and none has the
    value one above the address searched. *)
Context (L R A : Z).
Definition in_order : Prop :=
  ∀ i j, L ≤ i → i < j → j ≤ R → is_type i = true → is_type j = true → n_value (tab i) ≤ n_value (tab j).
Context (Hsort : in_order) (HL : 0 ≤ L) (HA : 0 ≤ A < 4294967295).
Context (Hgap : ∀ i, L ≤ i ≤ R → is_type i = true → n_value (tab i) ≠ A + 1).

Record searching (l r left right : Z) (any : bool) (addr : Z) : Prop := {
  se_l : L ≤ l; se_lr : l ≤ r + 1; se_r : r ≤ R; se_right : right = r;
  se_addr : addr = A ∨ addr = A + 1;
  se_below : ∀ i, L ≤ i < l → is_type i = true → n_value (tab i) ≤ A;
  se_above : ∀ i, r < i ≤ R → is_type i = true → A < n_value (tab i);
  se_next : r = R ∨ (is_type (r + 1) = true ∧ any = true);
  se_left : (left = L ∧ no_type L l) ∨
            (L ≤ left ≤ r ∧ any = true ∧ is_type left = true ∧ n_value (tab left) ≤ A ∧ no_type (left + 1) l);
  se_any : if any then ∃ i, L ≤ i ≤ R ∧ is_type i = true else r = R ∧ no_type L l ∧ left = L;
}.

(** With [addr] = [A] or [A + 1], a comparison with it is one with [A]. *)
Lemma compare_addr addr m : addr = A ∨ addr = A + 1 → L ≤ m ≤ R → is_type m = true →
  (n_value (tab m) < addr → n_value (tab m) ≤ A) ∧ (addr < n_value (tab m) → A < n_value (tab m)) ∧
  (n_value (tab m) = addr → addr = A).
Proof. intros Ha Hm Ht. pose proof (Hgap m Hm Ht). lia. Qed.

Lemma below_upto l t m : L ≤ l → l ≤ m ≤ t → t ≤ R → is_type m = true → n_value (tab m) ≤ A → no_type (m + 1) (t + 1) →
  ∀ i, L ≤ i < t + 1 → is_type i = true → n_value (tab i) ≤ A.
Proof.
  intros Hl Hm Ht Em Hv Hno i Hi Ei. destruct (decide (m < i)) as [Hlt|Hge].
  - rewrite (Hno i) in Ei by lia. discriminate Ei.
  - destruct (decide (i = m)) as [->|]; [exact Hv|]. pose proof (Hsort i m ltac:(lia) ltac:(lia) ltac:(lia) Ei Em). lia.
Qed.

Lemma above_from r m : r ≤ R → L ≤ m ≤ r → is_type m = true → A < n_value (tab m) →
  ∀ i, m - 1 < i ≤ R → is_type i = true → A < n_value (tab i).
Proof.
  intros Hr Hm Em Hv i Hi Ei. destruct (decide (i = m)) as [->|]; [exact Hv|].
  pose proof (Hsort m i ltac:(lia) ltac:(lia) ltac:(lia) Em Ei). lia.
Qed.

Lemma no_type_join a b c : no_type a b → no_type b c → no_type a c.
Proof. intros H1 H2 i Hi. destruct (decide (i < b)); [apply H1|apply H2]; lia. Qed.

Lemma search_loop_finds fuel l r left right any addr rl rr a :
  search_loop tab type fuel l r left right any addr = Some (rl, rr, a) → searching l r left right any addr →
  ∃ addr', searching (rr + 1) rr rl rr a addr'.
Proof using Hsort HL HA Hgap.
  revert l r left right any addr. induction fuel as [|fuel IH]; intros l r left right any addr E S; [discriminate E|].
  cbn [search_loop] in E. destruct S as [S1 S2 S3 S4 S5 S6 S7 S8 S9 S10].
  destruct (Z.leb_spec l r) as [Hle|Hgt].
  2: { injection E as <- <- <-. exists addr. assert (l = r + 1) as -> by lia. rewrite S4 in *. split; assumption || reflexivity || lia. }
  rewrite Z.quot_div_nonneg in E by lia. set (t := (l + r) / 2) in *. assert (l ≤ t ≤ r) as Ht by (unfold t; lia). clearbody t.
  destruct (find_back_spec l t) as [(H1 & H2 & H3)|(H1 & H2)]; set (m := find_back l t) in *; clearbody m.
  2: { destruct (Z.ltb_spec m l); [|lia]. apply (IH _ _ _ _ _ _ E). split; try assumption; try lia.
    - intros i Hi Ei. destruct (decide (i < l)); [apply S6; [lia|exact Ei]|]. rewrite H2 in Ei by lia. discriminate Ei.
    - destruct S9 as [[-> Hn]|(a1 & a2 & a3 & a4 & a5)]; [left|right].
      + split; [reflexivity|exact (no_type_join _ _ _ Hn H2)].
      + split; [exact a1|]. split; [exact a2|]. split; [exact a3|]. split; [exact a4|exact (no_type_join _ _ _ a5 H2)].
    - destruct any; [exact S10|]. destruct S10 as (b1 & b2 & b3). split; [exact b1|]. split; [exact (no_type_join _ _ _ b2 H2)|exact b3]. }
  destruct (Z.ltb_spec m l); [lia|]. destruct (compare_addr addr m S5 ltac:(lia) H2) as (C1 & C2 & C3).
  destruct (Z.ltb_spec (n_value (tab m)) addr) as [Hlt|Hnlt].
  { apply (IH _ _ _ _ _ _ E). pose proof (below_upto l t m S1 ltac:(lia) ltac:(lia) H2 (C1 Hlt) H3) as Hb.
    split; try assumption; try lia.
    - destruct S8 as [?|[? _]]; [by left|by right].
    - right. split; [lia|]. split; [reflexivity|]. split; [exact H2|]. split; [exact (C1 Hlt)|exact H3].
    - exists m. split; [lia|exact H2]. }
  destruct (Z.ltb_spec addr (n_value (tab m))) as [Hgt|Hngt].
  { apply (IH _ _ _ _ _ _ E). pose proof (above_from r m S3 ltac:(lia) H2 (C2 Hgt)) as Hb.
    split; try assumption; try lia.
    - right. replace (m - 1 + 1) with m by lia. split; [exact H2|reflexivity].
    - destruct S9 as [?|(a1 & a2 & a3 & a4 & a5)]; [by left|right]. split; [|done].
      assert (left ≠ m) as Hlm by (intros ->; specialize (C2 Hgt); lia).
      destruct (decide (m < left)); [|lia]. pose proof (Hb left ltac:(lia) a3). lia.
    - exists m. split; [lia|exact H2]. }
  assert (addr = A) as -> by (apply C3; lia). apply (IH _ _ _ _ _ _ E).
  pose proof (below_upto l m m S1 ltac:(lia) ltac:(lia) H2 ltac:(lia) ltac:(intros i Hi; lia)) as Hb.
  split; try assumption; try lia.
  - right. rewrite u32_small by lia. reflexivity.
  - intros i Hi. apply Hb. lia.
  - destruct S8 as [?|[? _]]; [by left|by right].
  - right. split; [lia|]. split; [reflexivity|]. split; [exact H2|]. split; [lia|intros i Hi; lia].
  - exists m. split; [lia|exact H2].
Qed.

(** What [stab_binsearch] leaves in [*region_left] and [*region_right]. *)
Inductive found : Z → Z → Prop :=
| found_none : no_type L (R + 1) → found L (L - 1)
| found_at i right : L ≤ i ≤ right → right ≤ R → is_type i = true → n_value (tab i) ≤ A →
    no_type (i + 1) (right + 1) → (∀ j, right < j ≤ R → is_type j = true → A < n_value (tab j)) →
    right = R ∨ is_type (right + 1) = true → found i right
| found_before right : L - 1 ≤ right < R → no_type L (right + 1) → is_type (right + 1) = true →
    (∀ j, L ≤ j ≤ R → is_type j = true → A < n_value (tab j)) → found (Z.min right L) right.

Lemma search_end rl rr a addr' : L ≤ R + 1 → searching (rr + 1) rr rl rr a addr' →
  found (if negb a then rl else find_back (rl + 1) rr) (if negb a then rl - 1 else rr).
Proof using Hsort HL HA Hgap.
  intros HLR [S1 S2 S3 S4 S5 S6 S7 S8 S9 S10]. destruct a; cbn [negb].
  - destruct S9 as [[-> Hn]|(a1 & _ & a3 & a4 & a5)].
    + destruct (find_back_spec (L + 1) rr) as [(b1 & b2 & _)|(-> & _)].
      { rewrite (Hn (find_back (L + 1) rr)) in b2 by lia. discriminate b2. }
      replace (L + 1 - 1) with L by lia. destruct S8 as [->|[b1 _]].
      { destruct S10 as (i & Hi & Ei). rewrite (Hn i) in Ei by lia. discriminate Ei. }
      apply found_before; [|exact Hn|exact b1|].
      * destruct (decide (rr = R)) as [->|]; [|lia]. destruct S10 as (i & Hi & Ei). rewrite (Hn i) in Ei by lia. discriminate Ei.
      * intros j Hj Ej. apply S7; [|exact Ej]. destruct (decide (j ≤ rr)); [|lia]. rewrite (Hn j) in Ej by lia. discriminate Ej.
    + destruct (find_back_spec (rl + 1) rr) as [(b1 & b2 & _)|(-> & _)].
      { rewrite (a5 (find_back (rl + 1) rr)) in b2 by lia. discriminate b2. }
      replace (Z.min rr (rl + 1 - 1)) with rl by lia.
      apply found_at; [lia|lia|exact a3|exact a4|exact a5|exact S7|]. destruct S8 as [?|[? _]]; [by left|by right].
  - destruct S10 as (-> & Hn & ->). by apply found_none.
Qed.
End facts.

(** ** Theorems *)

(** The binary search of [stab_binsearch] ends, on any table whatsoever and
    also when an exact match makes the address searched wrap around. *)
Theorem stab_binsearch_terminates tab type left right addr :
  0 ≤ left → left ≤ right + 1 → 0 ≤ addr < 4294967296 → stab_binsearch tab type left right addr ≠ None.
Proof.
  intros H0 Hlr Ha. unfold stab_binsearch.
  pose proof (search_loop_terminates tab type (search_fuel left right) left right left right false addr H0 Hlr Ha) as Hs.
  destruct (search_loop tab type _ _ _ _ _ _ _) as [[[rl rr] any]|]; [by destruct any|]. destruct Hs; [|done].
  unfold measure, search_fuel. case_match; lia.
Qed.

(** C33: what it finds.  In a range whose entries of the type are in order, none of
    them one above the address: no entry of the type -- an empty range; some entry
    at or below the address -- the last of them on the left, and on the right the
    index before the first one above the address, or the end of the range; all
    entries above the address -- the index before the first of them on the right,
    and on the left the start of the range (or the index before it), which is not
    an entry of the type although the range is not empty. *)
Theorem stab_binsearch_correct tab type left right addr :
  in_order tab type left right → 0 ≤ left → left ≤ right + 1 → 0 ≤ addr < 4294967295 →
  (∀ i, left ≤ i ≤ right → is_type tab type i = true → n_value (tab i) ≠ addr + 1) →
  ∃ rl rr, stab_binsearch tab type left right addr = Some (rl, rr) ∧ found tab type left right addr rl rr.
Proof.
  intros Hs H0 Hlr Ha Hgap. unfold stab_binsearch.
  pose proof (search_loop_terminates tab type (search_fuel left right) left right left right false addr H0 Hlr ltac:(lia)) as Ht.
  destruct (search_loop tab type _ _ _ _ _ _ _) as [[[rl rr] any]|] eqn:E.
  2: { destruct Ht; [|done]. unfold measure, search_fuel. case_match; lia. }
  destruct (search_loop_finds tab type left right addr Hs H0 Ha Hgap _ _ _ _ _ _ _ _ _ _ E) as [addr' S].
  { split; try lia; try (left; split; [reflexivity|intros i Hi; lia]).
    split; [reflexivity|]. split; [intros i Hi; lia|reflexivity]. }
  pose proof (search_end tab type left right addr Hs H0 Ha Hgap rl rr any addr' Hlr S) as F.
  destruct any; cbn [negb] in *; eauto.
Qed.

(** Three functions, at 5, 10 and 11. *)
Definition demo_tab (i : Z) : Stab :=
  mkStab 0 (if i =? 0 then N_SO else N_FUN) 0 0 (if i =? 1 then 5 else if i =? 2 then 10 else if i =? 3 then 11 else 0).

Lemma stab_binsearch_terminates_witness : stab_binsearch demo_tab N_FUN 0 3 20 ≠ None.
Proof. apply stab_binsearch_terminates; lia. Defined.
Lemma stab_binsearch_correct_witness :
  ∃ rl rr, stab_binsearch demo_tab N_FUN 0 3 20 = Some (rl, rr) ∧ found demo_tab N_FUN 0 3 20 rl rr.
Proof.
  apply (stab_binsearch_correct demo_tab N_FUN 0 3 20); [|lia|lia|lia|].
  - intros i j Hi Hij Hj _ _. assert (i = 0 ∨ i = 1 ∨ i = 2) as Hc by lia. assert (j = 1 ∨ j = 2 ∨ j = 3) as Hc' by lia.
    destruct Hc as [->|[->| ->]], Hc' as [->|[->| ->]]; (exfalso; lia) || (vm_compute; discriminate).
  - intros i Hi _. unfold demo_tab, n_value. repeat case_match; lia.
Defined.

(** The search is wrong when two entries are one apart: the address 10 is found
    in the entry at 11, because the loop goes on with 11 after the exact match. *)
Theorem stab_binsearch_adjacent : stab_binsearch demo_tab N_FUN 1 3 10 = Some (3, 3) ∧ n_value (demo_tab 3) = 11.
Proof. by vm_compute. Qed.
