(* ===== verification/Monitor.v ===== *)
(** * kern/monitor.c and lib/readline.c: the kernel monitor

    Reading a line with editing, over an abstract terminal; splitting it into
    arguments in place; looking up and running the command.  The command line is
    in memory, as the C code has it. *)
From S2P Require Import Prelude Monad Word Layout Mem CString PageAlloc KState.

(** ** The terminal *)

(** [getchar] and [cputchar] of kern/console.c (Console), and [cprintf]. *)
Class Terminal (S : Type) := {
  term_getchar : M S Z;
  term_putchar : Z → M S ();
  term_print : kev → M S ();
}.

(** What is promised: characters come in the order typed, and output does not
    disturb input. *)
Class TerminalLaws (S : Type) `{Terminal S} (typed : S → list Z) : Prop := {
  getchar_typed s c cs : typed s = c :: cs → ∃ s', term_getchar s = (Ret c, s') ∧ typed s' = cs;
  putchar_typed s c : ∃ s', term_putchar c s = (Ret tt, s') ∧ typed s' = typed s;
  print_typed s v : ∃ s', term_print v s = (Ret tt, s') ∧ typed s' = typed s;
}.

Section monitor.
Context {S : Type} `{Terminal S}.

(** ** lib/readline.c *)

Definition BUFLEN := 1024.

(** The [while (1)] of [readline] with [echoing] true; [None] is [NULL]. The
    line is in [m] at [buf]. *)
Fixpoint readline_loop (fuel : nat) (buf i : Z) (m : mem) : M S (option mem) :=
  match fuel with
  | O => undef "readline: out of fuel"
  | Datatypes.S fuel =>
      c ← term_getchar;
      if c <? 0 then term_print (Cprintf "read error: %e\n" [c]) ;; mret None
      else if ((c =? 8) || (c =? 0x7f)) && (0 <? i) then
        term_putchar 8 ;; readline_loop fuel buf (i - 1) m
      else if (32 <=? c) && (i <? BUFLEN - 1) then
        term_putchar c ;; readline_loop fuel buf (i + 1) (store8 m (buf + i) c)
      else if (c =? 10) || (c =? 13) then
        term_putchar 10 ;; mret (Some (store8 m (buf + i) 0))
      else readline_loop fuel buf i m
  end.

Definition readline (fuel : nat) (prompt : option string) (buf : Z) (m : mem) : M S (option mem) :=
  (match prompt with Some p => term_print (CprintfS "%s" [] [p]) | None => mret tt end) ;;
  readline_loop fuel buf 0 m.

(** ** Commands *)

Definition CMDBUF_SIZE := 80.
Definition MAXARGS := 16.

(** [_start], [entry], [etext], [edata], [end] of kern/kernel.ld. *)
Context (ksyms : Z * Z * Z * Z * Z).

Record Command := mkCommand { cmd_name : string; cmd_desc : string; cmd_func : M S Z }.

Definition mon_kerninfo : M S Z :=
  let '(start, entry, etext, edata, end_) := ksyms in
  term_print (Cprintf "Special kernel symbols:\n" []) ;;
  term_print (Cprintf "  _start                  %08x (phys)\n" [start]) ;;
  term_print (Cprintf "  entry  %08x (virt)  %08x (phys)\n" [entry; u32 (entry - KERNBASE)]) ;;
  term_print (Cprintf "  etext  %08x (virt)  %08x (phys)\n" [etext; u32 (etext - KERNBASE)]) ;;
  term_print (Cprintf "  edata  %08x (virt)  %08x (phys)\n" [edata; u32 (edata - KERNBASE)]) ;;
  term_print (Cprintf "  end    %08x (virt)  %08x (phys)\n" [end_; u32 (end_ - KERNBASE)]) ;;
  term_print (Cprintf "Kernel executable memory footprint: %dKB\n" [ROUNDUP (end_ - entry) 1024 / 1024]) ;;
  mret 0.

(** The names and descriptions of [commands], which [mon_help] prints. *)
Definition command_texts : list (string * string) :=
  [("help", "Display this list of commands"); ("kerninfo", "Display information about the kernel")]%string.

Definition mon_help : M S Z :=
  forM command_texts (λ '(n, d), term_print (CprintfS "%s - %s\n" [] [n; d])) ;;
  mret 0.

Definition commands : list Command :=
  zip_with (λ '(n, d) f, mkCommand n d f) command_texts [mon_help; mon_kerninfo].

(** [mon_backtrace] is not in the table.  [m] holds the stack; the frames end
    with a saved [ebp] of 0. *)
Fixpoint mon_backtrace (fuel : nat) (m : mem) (ebp : Z) : M S Z :=
  match fuel with
  | O => undef "mon_backtrace: out of fuel"
  | Datatypes.S fuel =>
      if ebp =? 0 then mret 0
      else
        let p := λ i, load32 m (ebp + 4 * i) in
        term_print (Cprintf "ebp %x eip %x args %08x %08x %08x %08x %08x\n" [ebp; p 1; p 2; p 3; p 4; p 5; p 6]) ;;
        mon_backtrace fuel m (p 0)
  end.

(** ** runcmd *)

(** [strchr(WHITESPACE, c)], for [c] not 0. *)
Definition is_white (c : Z) : bool := (c =? 9) || (c =? 13) || (c =? 10) || (c =? 32).

(** [while ( *buf && strchr(WHITESPACE, *buf)) *buf++ = 0; ] *)
Fixpoint gobble (n : nat) (m : mem) (buf : Z) : option (mem * Z) :=
  match n with
  | O => None
  | Datatypes.S n =>
      let c := load8 m buf in
      if negb (c =? 0) && is_white c then gobble n (store8 m buf 0) (buf + 1) else Some (m, buf)
  end.

(** [while ( *buf && !strchr(WHITESPACE, *buf)) buf++;] *)
Fixpoint skip_arg (n : nat) (m : mem) (buf : Z) : option Z :=
  match n with
  | O => None
  | Datatypes.S n =>
      let c := load8 m buf in
      if negb (c =? 0) && negb (is_white c) then skip_arg n m (buf + 1) else Some buf
  end.

(** [argv] as far as it is filled, and whether there were too many arguments. *)
Inductive parsed := Args (m : mem) (argv : list Z) | TooMany (m : mem).

Fixpoint parse_args (n : nat) (m : mem) (buf : Z) (argv : list Z) : option parsed :=
  match n with
  | O => None
  | Datatypes.S n =>
      '(m, buf) ← gobble (Datatypes.S n) m buf;
      if load8 m buf =? 0 then Some (Args m argv)
      else if Z.of_nat (length argv) =? MAXARGS - 1 then Some (TooMany m)
      else
        end_ ← skip_arg (Datatypes.S n) m buf;
        parse_args n m end_ (argv ++ [buf])
  end.

(** [strcmp(a, s) == 0] for a literal [s]. *)
Fixpoint str_is (m : mem) (a : Z) (s : string) : bool :=
  match s with
  | EmptyString => load8 m a =? 0
  | String c s => (load8 m a =? Z.of_N (Ascii.N_of_ascii c)) && str_is m (a + 1) s
  end.

Fixpoint find_command (m : mem) (a : Z) (cs : list Command) : option Command :=
  match cs with
  | [] => None
  | c :: cs => if str_is m a (cmd_name c) then Some c else find_command m a cs
  end.

(** [n] bounds the length of the line.  The address of an unknown command stands
    for its name in the output. *)
Definition runcmd (n : nat) (m : mem) (buf : Z) : M S Z :=
  match parse_args n m buf [] with
  | None => undef "runcmd: line without end"
  | Some (TooMany _) => term_print (Cprintf "Too many arguments (max %d)\n" [MAXARGS]) ;; mret 0
  | Some (Args m []) => mret 0
  | Some (Args m (arg0 :: _)) =>
      match find_command m arg0 commands with
      | Some c => cmd_func c
      | None => term_print (Cprintf "Unknown command '%s'\n" [arg0]) ;; mret 0
      end
  end.

(** The [while (1)] of [monitor]. *)
Fixpoint monitor_loop (fuel n : nat) (buf : Z) (m : mem) : M S () :=
  match fuel with
  | O => undef "monitor: out of fuel"
  | Datatypes.S fuel =>
      line ← readline n (Some "K> "%string) buf m;
      match line with
      | None => monitor_loop fuel n buf m
      | Some m =>
          r ← runcmd n m buf;
          if r <? 0 then mret tt else monitor_loop fuel n buf m
      end
  end.
End monitor.
