(* ===== verification/MonitorSpec.v ===== *)
(** * Contracts of the kernel monitor

    [readline] leaves in its buffer what line editing by hand would; the
    in-place splitting of [runcmd] gives the words of the line; [monitor] never
    returns. *)
From S2P Require Import Prelude Monad Word Layout Mem CString PageAlloc KState Monitor.

(** The NUL-terminated string [bs] at [a]. *)
Definition str_at (m : mem) (a : Z) (bs : list Z) : Prop :=
  (∀ i, (i < length bs)%nat → load8 m (a + Z.of_nat i) = nth i bs 0) ∧ load8 m (a + Z.of_nat (length bs)) = 0.
Definition nonzero (bs : list Z) : Prop := Forall (λ b, b ≠ 0) bs.

(** ** Line editing *)

(** The line after one more key: backspace and DEL delete, printable keys are
    added while there is room; DEL on an empty line is added. *)
Definition edit (line : list Z) (c : Z) : list Z :=
  if ((c =? 8) || (c =? 0x7f)) && negb (bool_decide (line = [])) then removelast line
  else if (32 <=? c) && (Z.of_nat (length line) <? BUFLEN - 1) then line ++ [u8 c]
  else line.

Definition end_of_line (c : Z) : bool := (c =? 10) || (c =? 13).

Section readline.
Context {S : Type} `{TerminalLaws S typed}.

(** The first [length line] bytes of the buffer are the line. *)
Definition line_at (m : mem) (buf : Z) (line : list Z) : Prop :=
  ∀ i, (i < length line)%nat → load8 m (buf + Z.of_nat i) = nth i line 0.

Lemma line_at_snoc m buf line c :
  line_at m buf line → line_at (store8 m (buf + Z.of_nat (length line)) c) buf (line ++ [u8 c]).
Proof.
  intros Hl i Hi. rewrite length_app in Hi. cbn [length] in Hi. rewrite load8_store8.
  destruct (decide (i = length line)) as [->|Hne].
  - rewrite decide_True by done. rewrite app_nth2 by lia. by rewrite Nat.sub_diag.
  - rewrite decide_False by lia. rewrite app_nth1 by lia. apply Hl. lia.
Qed.

Lemma line_at_removelast m buf line : line_at m buf line → line_at m buf (removelast line).
Proof.
  intros Hl i Hi. destruct line as [|b line] using rev_ind; [simpl in Hi; lia|].
  rewrite removelast_last in *. rewrite Hl by (rewrite length_app; lia). by rewrite app_nth1.
Qed.

Lemma length_removelast {A} (l : list A) : l ≠ [] → Z.of_nat (length (removelast l)) = Z.of_nat (length l) - 1.
Proof. destruct l as [|x l] using rev_ind; [done|]. rewrite removelast_last, length_app. simpl. lia. Qed.

Lemma readline_loop_run fuel buf cs c rest line m s :
  typed s = cs ++ c :: rest → Forall (λ c, 0 ≤ c ∧ end_of_line c = false) cs → end_of_line c = true →
  (length cs < fuel)%nat → Z.of_nat (length line) < BUFLEN → line_at m buf line →
  ∃ s' m', readline_loop fuel buf (Z.of_nat (length line)) m s = (Ret (Some m'), s') ∧ typed s' = rest ∧
    let line' := fold_left edit cs line in
    line_at m' buf line' ∧ load8 m' (buf + Z.of_nat (length line')) = 0 ∧ Z.of_nat (length line') < BUFLEN ∧
    ∀ a, ¬ (buf ≤ a < buf + BUFLEN) → load8 m' a = load8 m a.
Proof.
  revert line m s cs. induction fuel as [|fuel IH]; intros line m s cs Ht Hcs Hc Hf Hlen Hl; [lia|].
  cbn [readline_loop]. unfold BUFLEN in *. destruct cs as [|d cs]; cbn [app] in Ht.
  - destruct (getchar_typed s c rest Ht) as (s1 & E1 & T1). rewrite run_bind, E1. cbv beta iota.
    unfold end_of_line in Hc. assert (c = 10 ∨ c = 13) as Hc' by (zbool; lia).
    destruct (Z.ltb_spec c 0); [lia|]. destruct (Z.eqb_spec c 8); [lia|]. destruct (Z.eqb_spec c 0x7f); [lia|]. cbn [orb andb].
    destruct (Z.leb_spec 32 c); [lia|]. cbn [andb]. rewrite Hc. rewrite run_bind.
    destruct (putchar_typed s1 10) as (s2 & E2 & T2). rewrite E2. cbv beta iota. rewrite run_ret.
    eexists s2, _. split; [reflexivity|]. split; [congruence|]. cbn [fold_left]. cbv zeta. split_and!.
    + intros i Hi. rewrite load8_store8, decide_False by lia. by apply Hl.
    + by rewrite load8_store8, decide_True.
    + lia.
    + intros a Ha. rewrite load8_store8, decide_False by lia. done.
  - destruct (getchar_typed s d _ Ht) as (s1 & E1 & T1). rewrite run_bind, E1. cbv beta iota.
    apply Forall_cons in Hcs as [[Hd0 Hd] Hcs]. cbn [length] in Hf. cbn [fold_left]. unfold end_of_line in Hd.
    destruct (Z.ltb_spec d 0); [lia|].
    destruct (((d =? 8) || (d =? 127)) && (0 <? Z.of_nat (length line))) eqn:Eb.
    { rewrite run_bind. destruct (putchar_typed s1 8) as (s2 & E2 & T2). rewrite E2. cbv beta iota.
      apply andb_true_iff in Eb as [Eb1 Eb2]. apply Z.ltb_lt in Eb2.
      assert (line ≠ []) as Hne by (intros ->; simpl in Eb2; lia).
      assert (edit line d = removelast line) as ->.
      { unfold edit. rewrite Eb1, bool_decide_false by exact Hne. reflexivity. }
      rewrite <- (length_removelast line Hne).
      destruct (IH (removelast line) m s2 cs) as (s' & m' & E & T & R); [congruence|exact Hcs|exact Hc|lia| |by apply line_at_removelast|].
      { rewrite (length_removelast line Hne). lia. }
      exists s', m'. exact (conj E (conj T R)). }
    assert (((d =? 8) || (d =? 127)) && negb (bool_decide (line = [])) = false) as Eb'.
    { destruct ((d =? 8) || (d =? 127)); [|reflexivity]. cbn [andb] in *. apply Z.ltb_ge in Eb.
      destruct line; [reflexivity|simpl in Eb; lia]. }
    assert (edit line d = if (32 <=? d) && (Z.of_nat (length line) <? 1023) then line ++ [u8 d] else line) as ->.
    { unfold edit. by rewrite Eb'. }
    change (1024 - 1) with 1023. destruct ((32 <=? d) && (Z.of_nat (length line) <? 1023)) eqn:Ep.
    { rewrite run_bind. destruct (putchar_typed s1 d) as (s2 & E2 & T2). rewrite E2. cbv beta iota.
      apply andb_true_iff in Ep as [_ Ep]. apply Z.ltb_lt in Ep.
      replace (Z.of_nat (length line) + 1) with (Z.of_nat (length (line ++ [u8 d]))) by (rewrite length_app; simpl; lia).
      destruct (IH (line ++ [u8 d]) (store8 m (buf + Z.of_nat (length line)) d) s2 cs) as (s' & m' & E & T & R1 & R2 & R3 & R4);
        [congruence|exact Hcs|exact Hc|lia|rewrite length_app; simpl; lia|by apply line_at_snoc|].
      exists s', m'. refine (conj E (conj T (conj R1 (conj R2 (conj R3 _))))).
      intros a Ha. rewrite R4 by exact Ha. rewrite load8_store8, decide_False by lia. done. }
    rewrite Hd. destruct (IH line m s1 cs) as (s' & m' & E & T & R); [congruence|exact Hcs|exact Hc|lia|lia|exact Hl|].
    exists s', m'. exact (conj E (conj T R)).
Qed.
End readline.

(** ** Splitting a line *)

(** The words of a line; [w] is the word being read. *)
Fixpoint words_from (w bs : list Z) : list (list Z) :=
  match bs with
  | [] => if bool_decide (w = []) then [] else [w]
  | b :: bs =>
      if is_white b then (if bool_decide (w = []) then words_from [] bs else w :: words_from [] bs)
      else words_from (w ++ [b]) bs
  end.
Definition words (bs : list Z) : list (list Z) := words_from [] bs.

(** The longest prefix of elements that satisfy [f], and the rest. *)
Fixpoint span (f : Z → bool) (bs : list Z) : list Z * list Z :=
  match bs with
  | [] => ([], [])
  | b :: bs' => if f b then let '(p, r) := span f bs' in (b :: p, r) else ([], bs)
  end.

Lemma span_spec f bs : let '(p, r) := span f bs in
  bs = p ++ r ∧ Forall (λ b, f b = true) p ∧ (r = [] ∨ ∃ b r', r = b :: r' ∧ f b = false).
Proof.
  induction bs as [|b bs IH]; cbn [span]; [auto|]. destruct (f b) eqn:E; [|eauto 10].
  destruct (span f bs) as [p r]. destruct IH as (-> & Hp & Hr). split; [done|]. split; [by constructor|exact Hr].
Qed.

Lemma words_white p bs : Forall (λ b, is_white b = true) p → words (p ++ bs) = words bs.
Proof. unfold words. induction 1 as [|b p Hb _ IH]; [done|]. cbn [app words_from]. by rewrite Hb. Qed.

Lemma words_word w p r : Forall (λ b, is_white b = false) p → w ++ p ≠ [] →
  (r = [] ∨ ∃ b r', r = b :: r' ∧ is_white b = true) → words_from w (p ++ r) = (w ++ p) :: words r.
Proof.
  intros Hp. revert w. induction Hp as [|b p Hb _ IH]; intros w Hne Hr.
  - rewrite app_nil_r in *. cbn [app]. destruct Hr as [->|(b & r' & -> & Hb)].
    + cbn. by rewrite bool_decide_false by exact Hne.
    + unfold words. cbn [words_from]. rewrite Hb, !bool_decide_false, bool_decide_true by (done || exact Hne). done.
  - cbn [app words_from]. rewrite Hb. rewrite (IH (w ++ [b])); [by rewrite <- app_assoc|by destruct w|exact Hr].
Qed.

(** *** The two scans on memory *)

Definition zeroed (m m' : mem) (a n : Z) : Prop :=
  ∀ b, load8 m' b = if decide (a ≤ b < a + n) then 0 else load8 m b.

Lemma str_at_cons m a b bs : str_at m a (b :: bs) ↔ load8 m a = b ∧ str_at m (a + 1) bs.
Proof.
  unfold str_at. cbn [length]. split.
  - intros [H1 H2]. pose proof (H1 0%nat ltac:(lia)) as H0. rewrite Z.add_0_r in H0. split; [exact H0|]. split.
    + intros i Hi. specialize (H1 (S i) ltac:(lia)). cbn [nth] in H1. rewrite <- H1. f_equal. lia.
    + rewrite <- H2. f_equal. lia.
  - intros [H0 [H1 H2]]. split.
    + intros [|i] Hi; [by rewrite Z.add_0_r|]. cbn [nth]. rewrite <- H1 by lia. f_equal. lia.
    + rewrite <- H2. f_equal. lia.
Qed.

Lemma str_at_app m a p r : str_at m a (p ++ r) → str_at m (a + Z.of_nat (length p)) r.
Proof.
  revert a. induction p as [|b p IH]; intros a Hs; [by rewrite Z.add_0_r|]. cbn [app length] in *.
  apply str_at_cons in Hs as [_ Hs]. apply IH in Hs. replace (a + Z.of_nat (S (length p))) with (a + 1 + Z.of_nat (length p)) by lia. exact Hs.
Qed.

Lemma str_at_ext m m' a bs : str_at m a bs → (∀ b, a ≤ b ≤ a + Z.of_nat (length bs) → load8 m' b = load8 m b) → str_at m' a bs.
Proof.
  intros [H1 H2] He. split.
  - intros i Hi. rewrite He by lia. by apply H1.
  - rewrite He by lia. exact H2.
Qed.

Lemma nonzero_app p r : nonzero (p ++ r) ↔ nonzero p ∧ nonzero r.
Proof. apply Forall_app. Qed.

Lemma gobble_run n m a p r : str_at m a (p ++ r) → nonzero (p ++ r) → Forall (λ b, is_white b = true) p →
  (r = [] ∨ ∃ b r', r = b :: r' ∧ is_white b = false) → (length p < n)%nat →
  ∃ m', gobble n m a = Some (m', a + Z.of_nat (length p)) ∧ zeroed m m' a (Z.of_nat (length p)).
Proof.
  revert m a p. induction n as [|n IH]; intros m a p Hs Hz Hp Hr Hn; [lia|]. cbn [gobble]. destruct p as [|b p]; cbn [app] in *.
  - exists m. cbn [length]. rewrite Z.add_0_r. split; [|intros b; by rewrite decide_False by lia].
    destruct Hr as [->|(b & r' & -> & Hb)].
    + destruct Hs as [_ Hs]. cbn [length] in Hs. rewrite Z.add_0_r in Hs. by rewrite Hs.
    + apply str_at_cons in Hs as [-> _]. rewrite Hb, andb_false_r. done.
  - pose proof (str_at_cons m a b (p ++ r)) as [Hc _]. destruct (Hc Hs) as [Eb Hs']. rewrite Eb.
    apply Forall_cons in Hp as [Hb Hp]. apply Forall_cons in Hz as [Hb0 Hz]. rewrite Hb.
    destruct (Z.eqb_spec b 0); [done|]. cbn [negb andb].
    destruct (IH (store8 m a 0) (a + 1) p) as (m' & E & Hzd); [|exact Hz|exact Hp|exact Hr|cbn [length] in Hn; lia|].
    { apply (str_at_ext m); [exact Hs'|]. intros c Hcr. by rewrite load8_store8, decide_False by lia. }
    exists m'. cbn [length]. rewrite E. split; [f_equal; f_equal; lia|].
    intros c. rewrite Hzd, load8_store8. repeat case_decide; try lia; reflexivity.
Qed.

Lemma skip_run n m a p r : str_at m a (p ++ r) → nonzero (p ++ r) → Forall (λ b, is_white b = false) p →
  (r = [] ∨ ∃ b r', r = b :: r' ∧ is_white b = true) → (length p < n)%nat →
  skip_arg n m a = Some (a + Z.of_nat (length p)).
Proof.
  revert a p. induction n as [|n IH]; intros a p Hs Hz Hp Hr Hn; [lia|]. cbn [skip_arg]. destruct p as [|b p]; cbn [app] in *.
  - cbn [length]. rewrite Z.add_0_r. destruct Hr as [->|(b & r' & -> & Hb)].
    + destruct Hs as [_ Hs]. cbn [length] in Hs. rewrite Z.add_0_r in Hs. by rewrite Hs.
    + apply str_at_cons in Hs as [-> _]. rewrite Hb. cbn [negb]. by rewrite andb_false_r.
  - apply str_at_cons in Hs as [-> Hs]. apply Forall_cons in Hp as [Hb Hp]. apply Forall_cons in Hz as [Hb0 Hz]. rewrite Hb.
    destruct (Z.eqb_spec b 0); [done|]. cbn [negb andb length]. rewrite (IH (a + 1) p Hs Hz Hp Hr) by (cbn [length] in Hn; lia).
    f_equal. lia.
Qed.

(** *** The arguments *)

(** [argv] points to the words; the last word may still lack its NUL, which is
    written at [p] next. *)
Definition args_at (m : mem) (p : Z) (argv : list Z) (ws : list (list Z)) : Prop :=
  Forall2 (λ a w, a + Z.of_nat (length w) ≤ p ∧ (∀ i, (i < length w)%nat → load8 m (a + Z.of_nat i) = nth i w 0) ∧
                  (a + Z.of_nat (length w) < p → load8 m (a + Z.of_nat (length w)) = 0)) argv ws.

Lemma args_at_gobbled m m' p q argv ws : args_at m p argv ws → zeroed m m' p (q - p) → p ≤ q →
  (p < q ∨ load8 m p = 0) → Forall2 (str_at m') argv ws ∧ (p < q → args_at m' q argv ws).
Proof.
  intros Ha Hz Hpq Hend. split.
  - eapply Forall2_impl; [exact Ha|]. intros a w (H1 & H2 & H3). split.
    + intros i Hi. rewrite Hz, decide_False by lia. by apply H2.
    + rewrite Hz. case_decide; [done|]. destruct (decide (a + Z.of_nat (length w) < p)); [by apply H3|].
      replace (a + Z.of_nat (length w)) with p by lia. destruct Hend; [lia|done].
  - intros Hlt. eapply Forall2_impl; [exact Ha|]. intros a w (H1 & H2 & H3). split; [lia|]. split.
    + intros i Hi. rewrite Hz, decide_False by lia. by apply H2.
    + intros _. rewrite Hz. case_decide; [done|]. apply H3. lia.
Qed.

Lemma args_at_next m m' p q p' argv ws : args_at m p argv ws → zeroed m m' p (q - p) → p < q → q ≤ p' →
  args_at m' p' argv ws.
Proof.
  intros Ha Hz Hlt Hle. eapply Forall2_impl; [exact Ha|]. intros a w (H1 & H2 & H3). split; [lia|]. split.
  - intros i Hi. rewrite Hz, decide_False by lia. by apply H2.
  - intros _. rewrite Hz. case_decide; [done|]. apply H3. lia.
Qed.

Lemma parse_args_run n m p argv ws bs :
  str_at m p bs → nonzero bs → (length bs < n)%nat → args_at m p argv ws → Z.of_nat (length ws) ≤ MAXARGS - 1 →
  (argv = [] ∨ bs = [] ∨ ∃ b r, bs = b :: r ∧ is_white b = true) →
  if decide (Z.of_nat (length (ws ++ words bs)) ≤ MAXARGS - 1)
  then ∃ m' argv', parse_args n m p argv = Some (Args m' argv') ∧ Forall2 (str_at m') argv' (ws ++ words bs)
  else ∃ m', parse_args n m p argv = Some (TooMany m').
Proof.
  revert m p argv ws bs. induction n as [|n IH]; intros m p argv ws bs Hs Hz Hn Ha Hlen Hhd; [lia|].
  pose proof (span_spec is_white bs) as Hsp. destruct (span is_white bs) as [wp r]. destruct Hsp as (-> & Hwp & Hr).
  destruct (gobble_run (S n) m p wp r Hs Hz Hwp Hr) as (m1 & Eg & Hzd); [rewrite length_app in Hn; lia|].
  set (q := p + Z.of_nat (length wp)) in *.
  assert (str_at m1 q r) as Hs1.
  { apply (str_at_ext m); [exact (str_at_app m p wp r Hs)|]. intros b Hb. rewrite Hzd, decide_False by lia. done. }
  apply nonzero_app in Hz as [_ Hz]. rewrite words_white by exact Hwp.
  pose proof (Forall2_length _ _ _ Ha) as Hla.
  cbn [parse_args]. rewrite Eg. cbn [mbind option_bind]. destruct Hr as [->|(b & r' & -> & Hb)].
  - destruct Hs1 as [_ Hs1]. cbn [length] in Hs1. rewrite Z.add_0_r in Hs1. rewrite Hs1.
    change (words []) with (@nil (list Z)). rewrite app_nil_r, decide_True by exact Hlen.
    exists m1, argv. split; [reflexivity|]. destruct wp as [|w0 wp].
    + destruct Hs as [_ Hs]. cbn [length app] in Hs. rewrite Z.add_0_r in Hs.
      apply (args_at_gobbled m m1 p q argv ws Ha); [|unfold q; simpl; lia|by right].
      intros c. rewrite Hzd. by rewrite !decide_False by (unfold q; simpl; lia).
    + apply (args_at_gobbled m m1 p q argv ws Ha); [|unfold q; simpl; lia|left; unfold q; simpl; lia].
      unfold q. replace (p + Z.of_nat (length (w0 :: wp)) - p) with (Z.of_nat (length (w0 :: wp))) by lia. exact Hzd.
  - pose proof (proj1 (str_at_cons m1 q b r') Hs1) as [Eb _]. rewrite Eb.
    pose proof (proj1 (Forall_cons _ _ _) Hz) as [Hb0 _]. destruct (Z.eqb_spec b 0); [done|].
    pose proof (span_spec (λ b, negb (is_white b)) (b :: r')) as Hsp.
    destruct (span _ (b :: r')) as [w r2] eqn:Es. destruct Hsp as (Er & Hw & Hr2).
    assert (w ≠ []) as Hwne.
    { intros ->. cbn [span] in Es. rewrite Hb in Es. cbn [negb] in Es. by destruct (span _ r') as [? ?]. }
    assert (Forall (λ b, is_white b = false) w) as Hw' by (eapply Forall_impl; [exact Hw|]; intros x; apply negb_true_iff).
    assert (r2 = [] ∨ ∃ b r', r2 = b :: r' ∧ is_white b = true) as Hr2'.
    { destruct Hr2 as [?|(c & r3 & -> & Hc)]; [by left|right]. exists c, r3. split; [done|by apply negb_false_iff]. }
    rewrite Er in *. assert (words (w ++ r2) = w :: words r2) as -> by exact (words_word [] w r2 Hw' Hwne Hr2').
    destruct (Z.eqb_spec (Z.of_nat (length argv)) (MAXARGS - 1)) as [E|E].
    { rewrite decide_False by (rewrite length_app; cbn [length]; lia). by exists m1. }
    rewrite (skip_run (S n) m1 q w r2 Hs1 Hz Hw' Hr2') by (rewrite !length_app in Hn; lia). cbn [mbind option_bind].
    specialize (IH m1 (q + Z.of_nat (length w)) (argv ++ [q]) (ws ++ [w]) r2).
    rewrite <- app_assoc in IH. cbn [app] in IH. apply IH.
    + exact (str_at_app m1 q w r2 Hs1).
    + apply nonzero_app in Hz as [_ Hz]. exact Hz.
    + rewrite !length_app in Hn. destruct w; [done|]. cbn [length] in *. lia.
    + apply Forall2_app; [|constructor; [|constructor]].
      * destruct wp as [|w0 wp].
        -- destruct Hhd as [->|[Hh|(c & r3 & Hh & Hc)]].
           ++ inversion Ha. constructor.
           ++ cbn [app] in Hh. destruct w; [done|discriminate Hh].
           ++ cbn [app] in Hh. rewrite <- Er in Hh. injection Hh as -> _. congruence.
        -- apply (args_at_next m m1 p q); [exact Ha| |unfold q; simpl; lia|lia].
           unfold q. replace (p + Z.of_nat (length (w0 :: wp)) - p) with (Z.of_nat (length (w0 :: wp))) by lia. exact Hzd.
      * split; [lia|]. split; [|lia]. intros i Hi. destruct Hs1 as [Hs1 _]. rewrite Hs1 by (rewrite length_app; lia).
        by rewrite app_nth1.
    + rewrite length_app. cbn [length]. lia.
    + by right.
Qed.

(** ** Commands *)

Definition codes (s : string) : list Z := (λ c, Z.of_N (Ascii.N_of_ascii c)) <$> String.list_ascii_of_string s.

(** No name of a command contains a NUL. *)
Lemma str_is_codes m a s w : str_at m a w → nonzero w → nonzero (codes s) →
  str_is m a s = bool_decide (codes s = w).
Proof.
  revert a w. induction s as [|c s IH]; intros a w Hs Hz Hc; cbn [str_is].
  - change (codes EmptyString) with (@nil Z). destruct w as [|b w].
    + destruct Hs as [_ H0]. cbn [length] in H0. rewrite Z.add_0_r in H0. by rewrite H0.
    + apply str_at_cons in Hs as [-> _]. apply Forall_cons in Hz as [Hb0 _]. by apply Z.eqb_neq.
  - change (codes (String c s)) with (Z.of_N (Ascii.N_of_ascii c) :: codes s) in *. apply Forall_cons in Hc as [Hc0 Hc].
    destruct w as [|b w].
    + destruct Hs as [_ H0]. cbn [length] in H0. rewrite Z.add_0_r in H0. rewrite H0.
      rewrite (proj2 (Z.eqb_neq _ _)) by (intros E; exact (Hc0 (eq_sym E))). reflexivity.
    + apply str_at_cons in Hs as [-> Hs]. apply Forall_cons in Hz as [_ Hz]. rewrite (IH (a + 1) w Hs Hz Hc).
      destruct (Z.eqb_spec b (Z.of_N (Ascii.N_of_ascii c))) as [->|Hne]; cbn [andb].
      * apply bool_decide_ext. split; [by intros ->|by intros [=]].
      * symmetry. apply bool_decide_false. intros [= E _]. by apply Hne.
Qed.

Lemma words_nonzero bs w : nonzero bs → nonzero w → Forall nonzero (words_from w bs).
Proof.
  intros Hb. revert w. induction Hb as [|b bs Hb _ IH]; intros w Hw; cbn [words_from].
  - case_bool_decide; [constructor|]. by constructor.
  - destruct (is_white b); [case_bool_decide|].
    + apply IH. constructor.
    + constructor; [exact Hw|]. apply IH. constructor.
    + apply IH. apply Forall_app. split; [exact Hw|]. by constructor.
Qed.

Section commands.
Context {S : Type} `{Terminal S} (ksyms : Z * Z * Z * Z * Z).

(** The command with the name [w]. *)
Definition command_named (w : list Z) : option Command :=
  List.find (λ c, bool_decide (codes (cmd_name c) = w)) (commands ksyms).

Lemma find_command_run m a w : str_at m a w → nonzero w →
  find_command m a (commands ksyms) = command_named w.
Proof.
  intros Hs Hz. unfold command_named.
  assert (Forall (λ c : Command (S := S), nonzero (codes (cmd_name c))) (commands ksyms)) as Hn.
  { repeat constructor; vm_compute; discriminate. }
  induction Hn as [|c cs Hc _ IH]; [reflexivity|]. cbn [find_command List.find].
  rewrite (str_is_codes m a _ w Hs Hz Hc). by case_bool_decide.
Qed.

Lemma runcmd_run n m buf bs s : str_at m buf bs → nonzero bs → (length bs < n)%nat →
  ∃ a, runcmd ksyms n m buf s =
    (if decide (Z.of_nat (length (words bs)) ≤ MAXARGS - 1) then
       match words bs with
       | [] => mret 0
       | w :: _ =>
           match command_named w with
           | Some c => cmd_func c
           | None => term_print (Cprintf "Unknown command '%s'\n" [a]) ;; mret 0
           end
       end
     else term_print (Cprintf "Too many arguments (max %d)\n" [MAXARGS]) ;; mret 0) s.
Proof.
  intros Hs Hz Hn. pose proof (parse_args_run n m buf [] [] bs Hs Hz Hn ltac:(constructor) ltac:(vm_compute; discriminate) ltac:(by left)) as HR.
  cbn [app] in HR. unfold runcmd. destruct (decide (Z.of_nat (length (words bs)) ≤ MAXARGS - 1)).
  - destruct HR as (m' & argv & -> & HF). pose proof (words_nonzero bs [] Hz ltac:(constructor)) as Hwz. fold (words bs) in Hwz.
    destruct HF as [|a w argv ws Ha _]; [by exists 0|]. apply Forall_cons in Hwz as [Hw _].
    exists a. by rewrite (find_command_run m' a w Ha Hw).
  - destruct HR as (m' & ->). by exists 0.
Qed.

(** A command that returns, returns 0. *)
Definition returns0 (c : M S Z) : Prop := ∀ s r s', c s = (Ret r, s') → r = 0.

Lemma returns0_ret : returns0 (mret 0).
Proof. intros s r s' E. by injection E. Qed.
Lemma returns0_seq {A} (c : M S A) (d : M S Z) : returns0 d → returns0 (c ;; d).
Proof. intros Hd s r s' E. rewrite run_bind in E. destruct (c s) as [[a|x] s1]; [exact (Hd _ _ _ E)|discriminate E]. Qed.
Lemma returns0_undef w : returns0 (undef w).
Proof. intros s r s' E. discriminate E. Qed.

Lemma commands_return0 : Forall (λ c, returns0 (cmd_func c)) (commands ksyms).
Proof.
  repeat constructor.
  - apply returns0_seq, returns0_ret.
  - cbn [cmd_func]. unfold mon_kerninfo. destruct ksyms as [[[[? ?] ?] ?] ?]. repeat apply returns0_seq. apply returns0_ret.
Qed.

Lemma runcmd_returns0 n m buf : returns0 (runcmd ksyms n m buf).
Proof.
  unfold runcmd. destruct (parse_args n m buf []) as [[m' [|a argv]|m']|].
  - apply returns0_ret.
  - pose proof commands_return0 as Hc. induction Hc as [|c cs Hc _ IH]; cbn [find_command].
    + apply returns0_seq, returns0_ret.
    + destruct (str_is m' a (cmd_name c)); [exact Hc|exact IH].
  - apply returns0_seq, returns0_ret.
  - apply returns0_undef.
Qed.
End commands.

(** ** Theorems *)

(** C32: [readline] on a terminal where the keys [cs], none of them an end of line,
    and then an end of line [c] are typed: it takes exactly these characters and
    returns the buffer with the line that editing gives ([edit]: backspace, DEL,
    printable characters up to the size of the buffer), NUL-terminated; nothing
    outside the buffer is written, however much is typed. *)
Theorem readline_correct {S : Type} `{TerminalLaws S typed} fuel prompt buf cs c rest m s :
  typed s = cs ++ c :: rest → Forall (λ c, 0 ≤ c ∧ end_of_line c = false) cs → end_of_line c = true →
  (length cs < fuel)%nat →
  let line := fold_left edit cs [] in
  ∃ s' m', readline fuel prompt buf m s = (Ret (Some m'), s') ∧ typed s' = rest ∧
    line_at m' buf line ∧ load8 m' (buf + Z.of_nat (length line)) = 0 ∧ Z.of_nat (length line) < BUFLEN ∧
    ∀ a, ¬ (buf ≤ a < buf + BUFLEN) → load8 m' a = load8 m a.
Proof.
  intros Ht Hcs Hc Hf line. unfold readline. rewrite run_bind.
  assert (∃ s1, (match prompt with Some p => term_print (CprintfS "%s" [] [p]) | None => mret tt end) s = (Ret tt, s1) ∧
    typed s1 = typed s) as (s1 & E1 & T1).
  { destruct prompt as [p|]; [|by exists s]. exact (print_typed s (CprintfS "%s" [] [p])). }
  rewrite E1. cbv beta iota. rewrite <- T1 in Ht.
  exact (readline_loop_run fuel buf cs c rest [] m s1 Ht Hcs Hc Hf ltac:(done) ltac:(intros i Hi; simpl in Hi; lia)).
Qed.

(** C31: [runcmd] splits the line in place into its words ([words], the reference
    definition), and acts on their list alone: it does nothing on no words,
    reports more than 15, and otherwise runs the command whose name is the first
    word, or reports that there is none. *)
Theorem runcmd_correct {S : Type} `{Terminal S} ksyms n m buf bs s :
  str_at m buf bs → nonzero bs → (length bs < n)%nat →
  ∃ a, runcmd ksyms n m buf s =
    (if decide (Z.of_nat (length (words bs)) ≤ MAXARGS - 1) then
       match words bs with
       | [] => mret 0
       | w :: _ =>
           match command_named ksyms w with
           | Some c => cmd_func c
           | None => term_print (Cprintf "Unknown command '%s'\n" [a]) ;; mret 0
           end
       end
     else term_print (Cprintf "Too many arguments (max %d)\n" [MAXARGS]) ;; mret 0) s.
Proof. exact (runcmd_run ksyms n m buf bs s). Qed.

(** [monitor] never comes back to the trap that called it: no command returns a
    negative value, whatever is typed, so that its loop does not end. *)
Theorem monitor_never_returns {S : Type} `{Terminal S} ksyms fuel n buf m s s' :
  monitor_loop ksyms fuel n buf m s ≠ (Ret tt, s').
Proof.
  revert m s. induction fuel as [|fuel IH]; intros m s E; [discriminate E|]. cbn [monitor_loop] in E.
  rewrite run_bind in E. destruct (readline n _ buf m s) as [[[m1|]|x] s1]; [|exact (IH _ _ E)|discriminate E].
  rewrite run_bind in E. destruct (runcmd ksyms n m1 buf s1) as [[r|x] s2] eqn:Er; [|discriminate E].
  rewrite (runcmd_returns0 ksyms n m1 buf s1 r s2 Er) in E. exact (IH _ _ E).
Qed.

(** A terminal with scripted input. *)
#[export] Instance script_terminal : Terminal (list Z * list kev) := {
  term_getchar s := match s.1 with c :: cs => (Ret c, (cs, s.2)) | [] => (Stop SHalt, s) end;
  term_putchar c s := (Ret tt, (s.1, Cprintf "%c" [c] :: s.2));
  term_print v s := (Ret tt, (s.1, v :: s.2));
}.
#[export] Instance script_laws : TerminalLaws (list Z * list kev) fst.
Proof.
  split.
  - intros [i o] c cs E. cbn in *. subst i. by eexists.
  - intros s c. by eexists.
  - intros s v. by eexists.
Qed.

(** h, x, backspace, i, end of line. *)
Lemma readline_correct_witness : ∃ s' m',
  readline 9 (Some "K> "%string) 4096 (λ _, 0) ([104; 120; 8; 105; 10; 7], []) = (Ret (Some m'), s') ∧
  fst s' = [7] ∧ line_at m' 4096 [104; 105].
Proof.
  destruct (readline_correct (S := list Z * list kev) (typed := fst) 9 (Some "K> "%string) 4096 [104; 120; 8; 105] 10 [7]
    (λ _, 0) ([104; 120; 8; 105; 10; 7], [])) as (s' & m' & E & T & L & _).
  - reflexivity.
  - repeat constructor; vm_compute; discriminate.
  - reflexivity.
  - simpl. lia.
  - exists s', m'. exact (conj E (conj T L)).
Defined.

(** The line "  help me". *)
Definition demo_line : list Z := [32; 32; 104; 101; 108; 112; 32; 109; 101].
Definition demo_line_mem : mem := λ a, if decide (100 ≤ a < 109) then nth (Z.to_nat (a - 100)) demo_line 0 else 0.

Lemma runcmd_correct_witness : ∃ c, command_named (S := list Z * list kev) (0, 0, 0, 0, 0) [104; 101; 108; 112] = Some c ∧
  runcmd (0, 0, 0, 0, 0) 20 demo_line_mem 100 ([], []) = cmd_func c ([], []).
Proof.
  destruct (runcmd_correct (S := list Z * list kev) (0, 0, 0, 0, 0) 20 demo_line_mem 100 demo_line ([], [])) as [a E].
  - split; [|reflexivity]. intros i Hi. cbn [demo_line length] in Hi.
    do 9 (destruct i as [|i]; [reflexivity|]). lia.
  - repeat constructor; discriminate.
  - simpl. lia.
  - eexists. split; [reflexivity|exact E].
Defined.
